(* ===== verification/_CoqProject ===== *)
-Q . S2P
Prelude.v
Bytes.v
LibUtil.v
Pdr.v
MctpCore.v
HalI2c.v
Eeprom.v
Sdr.v
MctpSmbus.v
MctpI3c.v
MctpCtrl.v
IpmiMsg.v
IpmbCodec.v
IpmbSeq.v
IpmbTask.v
PldmCore.v
PldmBase.v
PldmSmbios.v
HalGpio.v
I2cTarget.v
PldmEvent.v
PldmEffecter.v
PldmMonitor.v
IpmiCore.v
PldmOem.v
Kcs.v
Watchdog.v
IpmiCmds.v
IpmiClient.v
Ssif.v
PldmFwState.v
PldmFwTransfer.v
PldmFwVr.v
PldmFwRetimer.v
UtilSpi.v
UtilWorker.v
Sensor.v
SensorCmds.v
