(* ===== verification/Prelude.v ===== *)
(** * OpenBIC: a verification library for the firmware of a bridge IC

    OpenBIC runs on the bridge interface controller (BIC) of a server board: a small processor
    between the baseboard management controller (BMC), the host processor and the devices of the
    board. This library models the common code of the repository, under [src/common], in Rocq: as
    executable functions on explicit states, with the theorems that make the code correct.

    ** The program and the files of this library

    Two stacks of protocols lead to the BIC, and services are shared between them.

    MCTP and PLDM. [mctp.c] sends messages in packets and puts received packets together; a binding
    carries the packets over a bus; control messages manage addresses; [pldm.c] dispatches PLDM
    requests to the handlers of each type, and keeps the BIC's own requests until they are answered.
    - [MctpCore.v]: [service/mctp/mctp.c]. An instance ([mctp]) with its transmit task, the
      reassembly slots, the receive task.
    - [MctpSmbus.v]: [mctp_smbus.c], the SMBus binding, and [MctpI3c.v]: [mctp_i3c.c], the I3C
      binding. [MctpCtrl.v]: [mctp_ctrl.c], control messages.
    - [PldmCore.v]: [service/pldm/pldm.c]. Instance ids, waiting requests, the timeout monitor,
      dispatching, [mctp_pldm_read], the bridge of IPMI messages over PLDM.
    - [PldmBase.v]: [pldm_base.c] (type 0). [PldmSmbios.v]: [pldm_smbios.c], [pldm_fru.c].
      [PldmOem.v]: [pldm_oem.c]. [PldmEvent.v], [PldmEffecter.v], [PldmMonitor.v]: the events, the
      effecters and the commands of [pldm_monitor.c], with [plat_pldm_monitor.c] of the board yv4-sd.
    - [PldmFwState.v], [PldmFwTransfer.v], [PldmFwVr.v], [PldmFwRetimer.v]:
      [pldm_firmware_update.c], the state machine with its commands, the thread that fetches the
      image, and the update functions of two kinds of devices. [UtilSpi.v]: [lib/util_spi.c], the
      flash the image ends up in.

    IPMI. Requests come from the BMC over IPMB or PLDM, from the host over SSIF or KCS, and are
    queued for [ipmi.c], which calls a handler by network function and sends the response back.
    - [IpmiMsg.v]: the message structure of [service/ipmb/ipmb.h]. [IpmbCodec.v], [IpmbSeq.v],
      [IpmbTask.v]: the wire format, the pending requests and the two tasks of [ipmb.c].
    - [IpmiCore.v]: [service/ipmi/ipmi.c], the queue, the dispatcher and its thread. The handler
      families are the class [IpmiHandlers], what the dispatcher needs of them [IpmiHandlersOk].
    - [Watchdog.v], [IpmiCmds.v]: [app_handler.c], [storage_handler.c], [chassis_handler.c].
      [IpmiClient.v]: these handlers as an instance of [IpmiHandlers], and clients of the whole.
    - [Ssif.v]: [service/host/ssif.c], with [construct_ipmi_message] of [libutil.c] and
      [i2c_addr_set] of [hal_i2c.c]. [Kcs.v]: [service/host/kcs.c].
    - [SensorCmds.v]: [sensor_handler.c] and the accurate readings of [oem_1s_handler.c].

    Shared.
    - [LibUtil.v]: [lib/libutil.c]. [UtilWorker.v]: [lib/util_worker.c]. [HalI2c.v]:
      [hal/hal_i2c.c]. [I2cTarget.v]: [hal/hal_i2c_target.c]. [HalGpio.v]: [hal/hal_gpio.c].
      [Eeprom.v]: [dev/eeprom.c], [dev/fru.c], [dev/guid.c]. [Sdr.v], [Pdr.v]:
      [service/sensor/sdr.c] and [pdr.c], the two repositories of sensor descriptions.
      [Sensor.v]: [service/sensor/sensor.c], start-up and polling of the sensors; access checks,
      hooks and drivers are the class [sensor_hw].
    - [Prelude.v] (this file): the operators of C on [Z], machine widths, memory as lists of bytes,
      the tactics and hints. [Bytes.v]: little-endian fields, bit fields and writes into memory.

    ** Conventions

    - An integer of w bits is a [Z] in [0, 2^w); the conversions [u8], [u16], [u32] are written where
      the code narrows a value. Bytes are [Z]; a buffer is a list of them, its size its length.
    - [option]: [None] is undefined behaviour (a copy outside its array, a null or wild pointer). A
      theorem with a result [Some] therefore says that memory is respected. Where the code can
      also wait for ever, a second [option] or a constructor ([ReadBlocked]) says so.
    - State is passed explicitly, a [Record] per component with a field per variable of the file; a
      list of actions is what a step sent or called. Threads are cut where they can block, where
      they take a lock or let it go, and where an interrupt between two calls changes the outcome; a
      step function or relation ([pldm_step], [fw_sys_step], [event_step], [target_step], [kcs_step]
      and others) lets the pieces interleave; inside a piece nothing interrupts. A theorem about one
      call says what it does when it runs alone.
    - What the file calls outside the model is an argument: results of [malloc], locks, drivers and
      the functions a platform may replace. Where laws are needed (I2C driver, flash, GPIO, message
      queues, clock) they are a class with its laws as a second class, and there is an instance.
    - What a platform may configure with a macro is a field of a class ([PldmConfig], [SsifConfig])
      whose instance has the defaults of the source; theorems hold for every value.
    - Null checks of arguments, logs, delays and thread names are left out.
    - The names are those of the source; a definition's comment says what differs.

    ** What is proved

    - Messages arrive: [mctp_message_roundtrip], [mctp_over_smbus_delivers] and
      [mctp_over_i3c_delivers] (packets and frames), [ipmb_roundtrip], [ipmb_request_delivered],
      [ssif_request_served] (a request of the host from its bytes on the bus to the bytes it
      reads), [ipmi_bridge_round_trip] (a request of the BMC over PLDM), [target_fifo] (an I2C
      target against a queue, with the stop conditions anywhere between the steps of the reader).
    - Requests are answered once and by the right handler: [ipmi_response_exact],
      [pldm_request_answered], [pldm_response_exact], [pldm_timeout_exact], [fw_command_legal],
      [ctrl_request_answered],
      [ipmb_request_response], [pldm_send_fresh_id].
    - Invariants over every interleaving: [pldm_reachable_inv], [ipmb_list_safe], [fw_update_safe],
      [wdt_invariant], [kcs_work_bounded]; memory safety of the receive paths:
      [mctp_rx_step_safe], [ssif_receive_bounds] (which also says when it fails).
    - What is stored is what is read: [fru_write_read_back], [bios_version_kept] (from the KCS port
      of the host to PLDM and SMBIOS), [gpio_effecter_round_trip], [sensor_reading_round_trip],
      [sensor_value_served] (from the driver over the polling rounds to the answer of a command),
      [multi_reading_single],
      [fw_update_stores_image] with [fw_download_exact] and [do_update_exact] (an update protocol
      run ends with the image in flash), the walks [sdr_walk_complete] and [pdr_walk_complete].
    - Time: [wdt_expires_exactly], [ssif_lock_released], [pldm_read_outcome], [events_delivered].
    - Where the code does not keep its promise, theorems and examples show the run:
      [ssif_late_response], [fw_cancel_resurrects], [obmf_late_response], [smbios_other_type],
      [short_request_overflow], [stray_failure_leaks_mutex], [target_read_race], [get_pdr_cut],
      [smbios_block_moved] and others. [pdr_init_serves] says that building the repository of
      descriptors is undefined in C, and what it does on a device that survives its write through
      NULL; [pldm_reachable_inv] and [fw_update_safe] name the steps that destroy their invariant.

    ** Bounds and fuel

    Loops of the code are structural recursion on the number of turns left, or have fuel, and a
    lemma says that the fuel is enough: 64 sequence numbers and 32 instance ids are searched once
    around; a walk over a repository takes one round per record; a download takes one request per
    byte of the image at most, and five more; a flash is erased in at most as many steps as it has
    bytes; the loops over text strings of SMBIOS move on by a byte at least, so that the size of the
    block is enough; the blocks of an SSIF response are at most 17, since (527 - 30) / 31 < 17; a
    request over SSIF has at most as many parts as bytes; an I2C transfer is tried [retry] + 1
    times, an EEPROM access five times.

    ** Not modelled

    - The platforms under [meta-facebook] and [meta-nuvoton]: tables of sensors, pins and addresses
      and sequences for about thirty boards, most of the lines of the repository. What the common
      code needs of them is an argument.
    - Device drivers ([dev]) but for the EEPROM; other hardware abstraction (I3C, JTAG, PECI, SGPIO,
      virtual wires): calls of drivers that are not in the repository.
    - The polling of PLDM sensors, [power] of [libutil.c], [pldm_sensor_cal] and the
      thresholds of [pdr.c] that are scaled: floating point. The PLDM commands that read sensors have
      the reading as an argument.
    - The other IPMI handlers for OEM commands: many small commands on platform hardware. They are
      any handlers that satisfy the class of [IpmiCore.v].
    - MCTP over USB and flash, the services for single platforms (APML, CCI, NCSI, USB, OBMF),
      the shell, start-up code, scripts and documents. *)

From Stdlib Require Export ZArith Lia Bool.
From stdpp Require Export base tactics list gmap.
#[export] Set Default Goal Selector "!".

(** ** Notations for the C operators *)

Declare Scope c_scope.
Delimit Scope c_scope with c.
Notation "x .& y" := (Z.land x y) (at level 40, left associativity) : c_scope.
Notation "x .| y" := (Z.lor x y) (at level 41, left associativity) : c_scope.
Notation "x .^ y" := (Z.lxor x y) (at level 41, left associativity) : c_scope.
Notation "x .<< n" := (Z.shiftl x n) (at level 39, left associativity) : c_scope.
Notation "x .>> n" := (Z.shiftr x n) (at level 39, left associativity) : c_scope.
#[global] Open Scope Z_scope.
#[global] Open Scope c_scope.

(** ** Machine-width integers: a C value of width [w] is a [Z] kept in
    [0, 2^w) by these wrap-arounds, the conversions the code performs. *)

Definition u8 (z : Z) : Z := z mod 256.
Definition u16 (z : Z) : Z := z mod 65536.
Definition u32 (z : Z) : Z := z mod 4294967296.

Create HintDb word.
Create Rewrite HintDb word.
Create Rewrite HintDb zlen.

Lemma u8_range z : 0 <= u8 z < 256.
Proof. apply Z.mod_pos_bound; lia. Qed.
Lemma u16_range z : 0 <= u16 z < 65536.
Proof. apply Z.mod_pos_bound; lia. Qed.
Lemma u32_range z : 0 <= u32 z < 4294967296.
Proof. apply Z.mod_pos_bound; lia. Qed.
Lemma u8_id z : 0 <= z < 256 -> u8 z = z.
Proof. apply Z.mod_small. Qed.
Lemma u16_id z : 0 <= z < 65536 -> u16 z = z.
Proof. apply Z.mod_small. Qed.
Lemma u32_id z : 0 <= z < 4294967296 -> u32 z = z.
Proof. apply Z.mod_small. Qed.
#[export] Hint Resolve u8_range u16_range u32_range : word.
#[export] Hint Rewrite u8_id u16_id u32_id using lia : word.

(** [clia]: linear arithmetic over wrapped values; every wrap in sight is
    either removed (its argument is in range) or bounded. *)
Ltac clia :=
  autorewrite with word in *;
  repeat match goal with
    | |- context [u8 ?z] => pose proof (u8_range z); generalize dependent (u8 z); intros
    | H : context [u8 ?z] |- _ => pose proof (u8_range z); generalize dependent (u8 z); intros
    | |- context [u16 ?z] => pose proof (u16_range z); generalize dependent (u16 z); intros
    | H : context [u16 ?z] |- _ => pose proof (u16_range z); generalize dependent (u16 z); intros
    | |- context [u32 ?z] => pose proof (u32_range z); generalize dependent (u32 z); intros
    | H : context [u32 ?z] |- _ => pose proof (u32_range z); generalize dependent (u32 z); intros
    end; lia.

(** [case_bools]: split every boolean test of the goal (or of a hypothesis)
    and reflect the comparisons. *)
Ltac reflect_bools :=
  repeat match goal with
    | H : (_ && _) = true |- _ => apply andb_true_iff in H; destruct H
    | H : (_ || _) = false |- _ => apply orb_false_iff in H; destruct H
    | H : (_ || _) = true |- _ => apply orb_true_iff in H
    | H : (_ && _) = false |- _ => apply andb_false_iff in H
    | H : negb _ = true |- _ => apply negb_true_iff in H
    | H : negb _ = false |- _ => apply negb_false_iff in H
    | H : (_ =? _)%Z = true |- _ => apply Z.eqb_eq in H
    | H : (_ =? _)%Z = false |- _ => apply Z.eqb_neq in H
    | H : (_ <? _)%Z = true |- _ => apply Z.ltb_lt in H
    | H : (_ <? _)%Z = false |- _ => apply Z.ltb_ge in H
    | H : (_ <=? _)%Z = true |- _ => apply Z.leb_le in H
    | H : (_ <=? _)%Z = false |- _ => apply Z.leb_gt in H
    end.

Ltac case_bools :=
  repeat (match goal with
    | |- context [if ?b then _ else _] => destruct b eqn:?
    | H : context [if ?b then _ else _] |- _ => destruct b eqn:?
    end; simplify_eq/=; try done); reflect_bools.

(** [eval_pow]: evaluate the closed powers of two of the goal. *)
Ltac eval_pow :=
  repeat match goal with
    | |- context [2 ^ ?k] =>
        let v := eval vm_compute in (2 ^ k) in
        lazymatch v with Zpos _ => change (2 ^ k) with v end
    end.

(** [eval_nat]: evaluate the closed [Z.to_nat]s of the goal (array indices). *)
Ltac eval_nat :=
  repeat match goal with
    | |- context [Z.to_nat ?k] =>
        let c := eval vm_compute in (0 <=? k) in
        lazymatch c with
        | true => let v := eval vm_compute in (Z.to_nat k) in change (Z.to_nat k) with v
        end
    end.

(** ** Buffers: a C byte array is a [list Z]; [zlen] is its size in bytes. *)

Definition zlen {A} (l : list A) : Z := Z.of_nat (length l).

(** In-bounds byte read; all uses are on zero-filled storage past the data. *)
Definition rd (l : list Z) (i : Z) : Z := default 0 (l !! Z.to_nat i).

Definition slice (l : list Z) (off n : Z) : list Z :=
  take (Z.to_nat n) (drop (Z.to_nat off) l).

(** [mem_read]/[mem_write] are the checked [memcpy]: [None] is an access
    outside the array, which C leaves undefined. *)
Definition mem_read (l : list Z) (off n : Z) : option (list Z) :=
  if (0 <=? off) && (0 <=? n) && (off + n <=? zlen l)
  then Some (slice l off n) else None.

Definition mem_write (dst : list Z) (off : Z) (src : list Z) : option (list Z) :=
  if (0 <=? off) && (off + zlen src <=? zlen dst)
  then Some (take (Z.to_nat off) dst ++ src
               ++ drop (Z.to_nat off + length src)%nat dst)
  else None.

Definition zeros (n : Z) : list Z := replicate (Z.to_nat n) 0.

Definition bytes_ok (l : list Z) : Prop := Forall (fun b => 0 <= b < 256) l.

Lemma zlen_nonneg {A} (l : list A) : 0 <= zlen l.
Proof. unfold zlen; lia. Qed.
Lemma zlen_app {A} (l k : list A) : zlen (l ++ k) = zlen l + zlen k.
Proof. unfold zlen; rewrite length_app; lia. Qed.
Lemma zlen_cons {A} (x : A) l : zlen (x :: l) = 1 + zlen l.
Proof. unfold zlen; simpl length; lia. Qed.
Lemma zlen_nil {A} : zlen (@nil A) = 0.
Proof. done. Qed.
Lemma zlen_zeros n : 0 <= n -> zlen (zeros n) = n.
Proof. intros; unfold zlen, zeros; rewrite length_replicate; lia. Qed.
Lemma zlen_slice l off n :
  0 <= off -> 0 <= n -> off + n <= zlen l -> zlen (slice l off n) = n.
Proof. unfold zlen, slice; intros; rewrite length_take, length_drop; lia. Qed.
#[export] Hint Rewrite @zlen_app @zlen_cons @zlen_nil : zlen.
#[export] Hint Rewrite zlen_zeros zlen_slice using (rewrite ?zlen_app in *; lia) : zlen.

Lemma slice_all l n : zlen l <= n -> slice l 0 n = l.
Proof. unfold zlen, slice; intros; simpl; rewrite drop_0; apply take_ge; lia. Qed.

Lemma slice_app_l l k n : n <= zlen l -> slice (l ++ k) 0 n = slice l 0 n.
Proof. unfold zlen, slice; intros; simpl; rewrite !drop_0, take_app_le; [done|lia]. Qed.

Lemma slice_app_r l k off n :
  off = zlen l -> slice (l ++ k) off n = slice k 0 n.
Proof.
  unfold zlen, slice; intros ->; simpl; rewrite drop_0, Nat2Z.id.
  by rewrite drop_app_length.
Qed.

Lemma slice_split l off n m :
  0 <= off -> 0 <= n -> 0 <= m ->
  slice l off (n + m) = slice l off n ++ slice l (off + n) m.
Proof.
  unfold slice; intros.
  rewrite !Z2Nat.inj_add, <- drop_drop by lia.
  apply take_take_drop || (rewrite take_take_drop; done).
Qed.

Lemma mem_write_length dst off src dst' :
  mem_write dst off src = Some dst' -> zlen dst' = zlen dst.
Proof.
  unfold mem_write; intros; case_bools.
  unfold zlen in *; rewrite !length_app, length_take, length_drop; lia.
Qed.

Lemma mem_write_Some dst off src :
  0 <= off -> off + zlen src <= zlen dst ->
  exists dst', mem_write dst off src = Some dst'.
Proof.
  unfold mem_write; intros.
  destruct (0 <=? off) eqn:?, (off + zlen src <=? zlen dst) eqn:?; reflect_bools;
    simpl; eauto; lia.
Qed.

(** What was already written below the offset stays, and the new bytes follow it. *)
Lemma mem_write_prefix dst off src dst' :
  mem_write dst off src = Some dst' ->
  slice dst' 0 (off + zlen src) = slice dst 0 off ++ src.
Proof.
  unfold mem_write; intros; case_bools.
  unfold slice; simpl; rewrite !drop_0, app_assoc.
  rewrite take_app_le; [apply take_ge|]; unfold zlen in *;
    rewrite length_app, length_take; lia.
Qed.

Lemma mem_read_Some l off n :
  0 <= off -> 0 <= n -> off + n <= zlen l ->
  mem_read l off n = Some (slice l off n).
Proof.
  unfold mem_read; intros.
  destruct (0 <=? off) eqn:?, (0 <=? n) eqn:?, (off + n <=? zlen l) eqn:?;
    reflect_bools; simpl; done || lia.
Qed.

Lemma slice_slice l n m : n <= m -> slice (slice l 0 m) 0 n = slice l 0 n.
Proof. unfold slice; intros; simpl; rewrite !drop_0, take_take. f_equal. lia. Qed.

(** Two writes that follow each other from the start of a buffer. *)
Lemma mem_write_two dst a b :
  zlen a + zlen b <= zlen dst ->
  exists d1 d2, mem_write dst 0 a = Some d1 /\ mem_write d1 (zlen a) b = Some d2 /\
    zlen d2 = zlen dst /\ slice d2 0 (zlen a + zlen b) = a ++ b.
Proof.
  intros H. pose proof (zlen_nonneg a) as Ha. pose proof (zlen_nonneg b) as Hb.
  destruct (mem_write_Some dst 0 a) as [d1 H1]; [lia|lia|].
  pose proof (mem_write_length _ _ _ _ H1) as L1.
  destruct (mem_write_Some d1 (zlen a) b) as [d2 H2]; [lia|lia|].
  pose proof (mem_write_length _ _ _ _ H2) as L2.
  exists d1, d2. split_and!; try done; [lia|].
  apply mem_write_prefix in H1, H2. rewrite H2. by rewrite Z.add_0_l in H1; rewrite H1.
Qed.

(** Overwriting the middle of a buffer. *)
Lemma mem_write_app a old rest new :
  zlen new = zlen old -> mem_write (a ++ old ++ rest) (zlen a) new = Some (a ++ new ++ rest).
Proof.
  intros H. unfold mem_write. pose proof (zlen_nonneg a). pose proof (zlen_nonneg rest).
  rewrite !zlen_app. destruct (Z.leb_spec 0 (zlen a)); [|lia].
  destruct (Z.leb_spec (zlen a + zlen new) (zlen a + (zlen old + zlen rest))); [|lia].
  cbn [andb]. unfold zlen in *. rewrite Nat2Z.id. rewrite take_app_length.
  rewrite drop_app_ge by lia. do 3 f_equal.
  rewrite drop_app_ge by lia.
  replace (_ - _ - _)%nat with O by lia. apply drop_0.
Qed.

Lemma bytes_ok_app l k : bytes_ok (l ++ k) <-> bytes_ok l /\ bytes_ok k.
Proof. apply Forall_app. Qed.
Lemma bytes_ok_slice l off n : bytes_ok l -> bytes_ok (slice l off n).
Proof. intros; by apply Forall_take, Forall_drop. Qed.
#[export] Hint Resolve bytes_ok_slice : word.
Lemma bytes_ok_mem_write dst off src dst' :
  mem_write dst off src = Some dst' -> bytes_ok dst -> bytes_ok src -> bytes_ok dst'.
Proof.
  unfold mem_write; intros H Hd Hs; case_bools. rewrite !bytes_ok_app.
  split; [by apply Forall_take|]. split; [done|by apply Forall_drop].
Qed.

(** ** Lists *)

Lemma filter_all {A} (P : A -> Prop) `{forall x, Decision (P x)} (l : list A) :
  (forall x, x ∈ l -> P x) -> filter P l = l.
Proof.
  induction l as [|x l IH]; intros Hl; [done|].
  rewrite filter_cons_True by (apply Hl; left). f_equal. apply IH. intros. apply Hl. by right.
Qed.

Lemma filter_none {A} (P : A -> Prop) `{forall x, Decision (P x)} (l : list A) :
  (forall x, x ∈ l -> ~ P x) -> filter P l = [].
Proof.
  induction l as [|x l IH]; intros Hl; [done|].
  rewrite filter_cons_False by (apply Hl; left). apply IH. intros. apply Hl. by right.
Qed.

Lemma NoDup_fmap_eq {A B} (f : A -> B) (l : list A) x y :
  NoDup (f <$> l) -> x ∈ l -> y ∈ l -> f x = f y -> x = y.
Proof.
  intros Hn Hx Hy E. apply list_elem_of_lookup in Hx as [i Hi].
  apply list_elem_of_lookup in Hy as [j Hj].
  assert (i = j) as ->; [|congruence].
  eapply (NoDup_lookup _ _ _ (f x) Hn); rewrite list_lookup_fmap, ?Hi, ?Hj; simpl; congruence.
Qed.

(** ** Reflection over one byte: a boolean property of the 256 bytes is proved
    by evaluation. *)

Lemma byte_forall (P : Z -> bool) :
  forallb P (seqZ 0 256) = true -> forall b, 0 <= b < 256 -> P b = true.
Proof.
  intros H b Hb. rewrite forallb_forall in H. apply H.
  apply list_elem_of_In, elem_of_seqZ. lia.
Qed.

Lemma small_forall (n : Z) (P : Z -> bool) :
  forallb P (seqZ 0 n) = true -> forall b, 0 <= b < n -> P b = true.
Proof.
  intros H b Hb. rewrite forallb_forall in H. apply H.
  apply list_elem_of_In, elem_of_seqZ. lia.
Qed.
