(* ===== verification/Bytes.v ===== *)
(** Little-endian encodings and bit fields: what the packed structs and the
    bit-field members of the C headers mean as bytes. *)

From S2P Require Import Prelude.

(** ** Little-endian integers of [n] bytes *)

Fixpoint le_bytes (n : nat) (z : Z) : list Z :=
  match n with
  | O => []
  | S n => u8 z :: le_bytes n (z .>> 8)
  end.

Fixpoint le_val (l : list Z) : Z :=
  match l with
  | [] => 0
  | b :: l => b + 256 * le_val l
  end.

Lemma length_le_bytes n z : length (le_bytes n z) = n.
Proof. revert z; induction n; simpl; auto. Qed.

Lemma zlen_le_bytes n z : zlen (le_bytes n z) = Z.of_nat n.
Proof. unfold zlen; by rewrite length_le_bytes. Qed.
#[export] Hint Rewrite zlen_le_bytes : zlen.

Lemma bytes_ok_le_bytes n z : bytes_ok (le_bytes n z).
Proof. revert z; induction n; simpl; constructor; [auto with word|apply IHn]. Qed.
#[export] Hint Resolve bytes_ok_le_bytes : word.

Lemma le_val_le_bytes n z : le_val (le_bytes n z) = z mod 256 ^ Z.of_nat n.
Proof.
  revert z; induction n as [|n IH]; intros z; simpl le_bytes; simpl le_val.
  - by rewrite Z.pow_0_r, Z.mod_1_r.
  - rewrite IH, Nat2Z.inj_succ, Z.pow_succ_r, Z.shiftr_div_pow2 by lia.
    change (2 ^ 8) with 256. unfold u8.
    rewrite Z.rem_mul_r; [lia|lia|]. apply Z.pow_pos_nonneg; lia.
Qed.

Lemma le_val_range l : bytes_ok l -> 0 <= le_val l < 256 ^ zlen l.
Proof.
  induction 1 as [|b l Hb _ IH]; simpl; [done|].
  rewrite zlen_cons, Z.pow_add_r by (try apply zlen_nonneg; lia). lia.
Qed.

Lemma le_bytes_le_val l : bytes_ok l -> le_bytes (length l) (le_val l) = l.
Proof.
  induction 1 as [|b l Hb _ IH]; simpl; [done|]. f_equal.
  - unfold u8. rewrite (Z.mul_comm 256), Z.mod_add by lia. apply Z.mod_small; lia.
  - rewrite Z.shiftr_div_pow2 by lia. change (2 ^ 8) with 256.
    rewrite (Z.mul_comm 256), Z.div_add, Z.div_small by lia. by rewrite Z.add_0_l.
Qed.

Lemma le_val_app l k : le_val (l ++ k) = le_val l + 256 ^ zlen l * le_val k.
Proof.
  induction l as [|b l IH]; simpl app; simpl le_val.
  - change (256 ^ zlen (@nil Z)) with 1; lia.
  - rewrite IH, zlen_cons, Z.pow_add_r by (try apply zlen_nonneg; lia). lia.
Qed.

(** Field reads of a packed struct that starts at byte [off] of a buffer. *)
Definition rd16 (l : list Z) (off : Z) : Z := rd l off + 256 * rd l (off + 1).
Definition rd32 (l : list Z) (off : Z) : Z :=
  rd16 l off + 65536 * rd16 l (off + 2).
Definition rd64 (l : list Z) (off : Z) : Z :=
  rd32 l off + 4294967296 * rd32 l (off + 4).

Lemma rd_range l i : bytes_ok l -> 0 <= rd l i < 256.
Proof.
  intros H. unfold rd. destruct (l !! Z.to_nat i) eqn:E; simpl; [|lia].
  by eapply (Forall_lookup_1 _ _ _ _ H).
Qed.
#[export] Hint Resolve rd_range : word.

Lemma rd16_range l i : bytes_ok l -> 0 <= rd16 l i < 65536.
Proof. intros H. unfold rd16. pose proof (rd_range l i H). pose proof (rd_range l (i+1) H). lia. Qed.

Lemma rd32_range l i : bytes_ok l -> 0 <= rd32 l i < 4294967296.
Proof.
  intros H. unfold rd32. pose proof (rd16_range l i H). pose proof (rd16_range l (i+2) H). lia.
Qed.
#[export] Hint Resolve rd16_range rd32_range : word.

(** ** Bits *)

(** [bit z i] as the 0/1 integer C computes. *)
Definition bit (z i : Z) : Z := (z .>> i) .& 1.

Lemma bit_spec z i : bit z i = Z.b2z (Z.testbit z i).
Proof.
  unfold bit. change 1 with (Z.ones 1). rewrite Z.land_ones by lia.
  change (2 ^ 1) with 2. destruct (Z.le_gt_cases 0 i).
  - rewrite Z.shiftr_div_pow2, Z.testbit_spec' by lia. done.
  - rewrite Z.testbit_neg_r by lia. rewrite Z.shiftr_mul_pow2 by lia.
    replace (- i) with (Z.succ (- i - 1)) by lia.
    rewrite Z.pow_succ_r by lia.
    replace (z * (2 * 2 ^ (- i - 1))) with (z * 2 ^ (- i - 1) * 2) by lia.
    by rewrite Z.mod_mul.
Qed.

Lemma bit_range z i : 0 <= bit z i < 2.
Proof. rewrite bit_spec. destruct (Z.testbit z i); simpl; lia. Qed.
#[export] Hint Resolve bit_range : word.

(** Zephyr's [BIT] and [WRITE_BIT] on a table word, as the code uses them. *)
Definition BIT (i : Z) : Z := 1 .<< i.

Lemma testbit_BIT i j : 0 <= i -> 0 <= j -> Z.testbit (BIT i) j = (i =? j).
Proof.
  intros. unfold BIT. rewrite Z.shiftl_1_l.
  rewrite Z.pow2_bits_eqb by lia. apply Z.eqb_sym || done.
Qed.

Lemma land_BIT_eqb z i : 0 <= i -> (z .& BIT i =? 0) = negb (Z.testbit z i).
Proof.
  intros Hi. destruct (Z.testbit z i) eqn:E; simpl.
  - apply Z.eqb_neq. intros H.
    apply (f_equal (fun x => Z.testbit x i)) in H.
    rewrite Z.land_spec, testbit_BIT, Z.eqb_refl, E, Z.bits_0 in H by lia. done.
  - apply Z.eqb_eq. apply Z.bits_inj'. intros n Hn.
    rewrite Z.land_spec, testbit_BIT, Z.bits_0 by lia.
    destruct (i =? n) eqn:En; [|apply andb_false_r].
    apply Z.eqb_eq in En as <-. by rewrite E.
Qed.

(** The four bytes of a 32-bit value, put together again. *)
Lemma le4_recompose d :
  0 <= d < 4294967296 ->
  (d / 16777216) mod 256 * 16777216 + (d / 65536) mod 256 * 65536
    + (d / 256) mod 256 * 256 + d mod 256 = d.
Proof.
  intros Hd.
  change 16777216 with (256 * (256 * 256)) at 1; change 65536 with (256 * 256) at 1.
  rewrite <- !Z.div_div by lia. rewrite (Z.mod_small (d / 256 / 256 / 256));
    Z.div_mod_to_equations; lia.
Qed.

(** Bytes put together with shifts. *)
Lemma lor_shl a b n : 0 <= n -> 0 <= b < 2 ^ n -> (a .<< n) .| b = a * 2 ^ n + b.
Proof.
  intros Hn Hb. rewrite <- Z.lxor_lor, <- Z.add_nocarry_lxor, Z.shiftl_mul_pow2; try done;
    apply Z.bits_inj'; intros i Hi; rewrite Z.land_spec, Z.bits_0;
    (destruct (Z.lt_ge_cases i n); [by rewrite Z.shiftl_spec_low by lia|]);
    rewrite <- (Z.mod_small b (2 ^ n)), Z.mod_pow2_bits_high by lia; apply andb_false_r.
Qed.

(** ** Bit tables: bit [i] of a byte array is bit [i mod 8] of byte [i / 8] *)

Lemma rd_insert l i v j :
  0 <= i < zlen l -> 0 <= j -> rd (<[Z.to_nat i := v]> l) j = if i =? j then v else rd l j.
Proof.
  intros Hi Hj. unfold rd, zlen in *. destruct (Z.eqb_spec i j) as [->|].
  - rewrite list_lookup_insert_eq by lia. done.
  - rewrite list_lookup_insert_ne by lia. done.
Qed.

Definition table_bit (buf : list Z) (i : Z) : bool := Z.testbit (rd buf (i / 8)) (i mod 8).

Lemma table_bit_set buf i j :
  0 <= i -> i / 8 < zlen buf -> 0 <= j ->
  table_bit (<[Z.to_nat (i / 8) := rd buf (i / 8) .| BIT (i mod 8)]> buf) j
    = (i =? j) || table_bit buf j.
Proof.
  intros Hi Hl Hj. unfold table_bit.
  pose proof (Z.div_pos i 8 Hi ltac:(lia)). pose proof (Z.div_pos j 8 Hj ltac:(lia)).
  pose proof (Z.mod_pos_bound i 8). pose proof (Z.mod_pos_bound j 8).
  pose proof (Z.div_mod i 8). pose proof (Z.div_mod j 8).
  rewrite rd_insert by lia. destruct (Z.eqb_spec (i / 8) (j / 8)) as [E|E].
  - rewrite Z.lor_spec, testbit_BIT by lia. rewrite E.
    destruct (Z.eqb_spec i j) as [->|]; [by rewrite Z.eqb_refl, orb_true_r|].
    destruct (Z.eqb_spec (i mod 8) (j mod 8)); [lia|]. by rewrite orb_false_r.
  - destruct (Z.eqb_spec i j) as [->|]; [done|]. done.
Qed.

Lemma table_bit_zeros n i : table_bit (zeros n) i = false.
Proof.
  unfold table_bit. assert (E : rd (zeros n) (i / 8) = 0); [|by rewrite E, Z.bits_0].
  unfold rd, zeros. destruct (replicate _ 0 !! _) eqn:E; [|done].
  by apply lookup_replicate in E as [-> _].
Qed.

(** ** Ranges of a memory *)

(** [c] with the bytes [d] from [a] on. *)
Definition patch (c : list Z) (a : Z) (d : list Z) : list Z :=
  take (Z.to_nat a) c ++ d ++ drop (Z.to_nat a + length d) c.

Lemma mem_write_patch c a d :
  0 <= a -> a + zlen d <= zlen c -> mem_write c a d = Some (patch c a d).
Proof.
  intros H1 H2. unfold mem_write.
  destruct (Z.leb_spec 0 a); [|lia]. by destruct (Z.leb_spec (a + zlen d) (zlen c)); [|lia].
Qed.

Lemma zlen_patch c a d : 0 <= a -> a + zlen d <= zlen c -> zlen (patch c a d) = zlen c.
Proof.
  intros. unfold patch, zlen in *. rewrite !length_app, length_take, length_drop. lia.
Qed.

Lemma bytes_ok_patch c a d : bytes_ok c -> bytes_ok d -> bytes_ok (patch c a d).
Proof.
  intros Hc Hd. unfold patch. rewrite !bytes_ok_app.
  split_and!; [by apply Forall_take|done|by apply Forall_drop].
Qed.

Lemma lookup_patch c a d i :
  0 <= a -> a + zlen d <= zlen c ->
  patch c a d !! i =
    if bool_decide (Z.to_nat a <= i < Z.to_nat a + length d)%nat then d !! (i - Z.to_nat a)%nat
    else c !! i.
Proof.
  intros H1 H2. unfold patch, zlen in *.
  destruct (decide (i < Z.to_nat a)%nat).
  - rewrite lookup_app_l by (rewrite length_take; lia). rewrite lookup_take_lt by lia.
    rewrite bool_decide_eq_false_2 by lia. done.
  - rewrite lookup_app_r by (rewrite length_take; lia). rewrite length_take, Nat.min_l by lia.
    destruct (decide (i < Z.to_nat a + length d)%nat).
    + rewrite lookup_app_l by lia. by rewrite bool_decide_eq_true_2 by lia.
    + rewrite lookup_app_r by lia. rewrite lookup_drop, bool_decide_eq_false_2 by lia. f_equal. lia.
Qed.

Lemma lookup_slice c a n i :
  0 <= a -> slice c a n !! i = if bool_decide (i < Z.to_nat n)%nat then c !! (Z.to_nat a + i)%nat else None.
Proof.
  intros Ha. unfold slice. destruct (decide (i < Z.to_nat n)%nat).
  - rewrite lookup_take_lt, lookup_drop by lia. by rewrite bool_decide_eq_true_2 by lia.
  - rewrite lookup_take_ge by lia. by rewrite bool_decide_eq_false_2 by lia.
Qed.

(** Two adjacent writes are one. *)
Lemma patch_patch c a d1 d2 :
  0 <= a -> a + zlen d1 + zlen d2 <= zlen c ->
  patch (patch c a d1) (a + zlen d1) d2 = patch c a (d1 ++ d2).
Proof.
  intros Ha Hl. pose proof (zlen_nonneg d1). pose proof (zlen_nonneg d2).
  apply list_eq; intros i.
  rewrite !lookup_patch by (rewrite ?zlen_patch, ?zlen_app by lia; lia).
  unfold zlen in *. rewrite length_app. rewrite Z2Nat.inj_add, Nat2Z.id by lia.
  repeat case_bool_decide; try lia; try done.
  - rewrite lookup_app_r by lia. f_equal. lia.
  - rewrite lookup_app_l by lia. done.
Qed.

(** Writing back what is there, before or after the new bytes, changes nothing. *)
Lemma patch_front c d1 d2 :
  zlen d1 + zlen d2 <= zlen c -> patch (patch c (zlen d1) d2) 0 d1 = patch c 0 (d1 ++ d2).
Proof.
  intros Hl. pose proof (zlen_nonneg d1). pose proof (zlen_nonneg d2).
  apply list_eq; intros i. rewrite !lookup_patch by (rewrite ?zlen_patch, ?zlen_app by lia; lia).
  unfold zlen in *. rewrite length_app, Nat2Z.id. cbn [Z.to_nat Nat.add].
  rewrite !Nat.sub_0_r. repeat case_bool_decide; try lia; try done.
  - by rewrite lookup_app_l by lia.
  - by rewrite lookup_app_r by lia.
Qed.

Lemma patch_keep_before c a k d :
  0 <= a -> 0 <= k -> a + k + zlen d <= zlen c ->
  patch c a (slice c a k ++ d) = patch c (a + k) d.
Proof.
  intros Ha Hk Hl. pose proof (zlen_nonneg d). assert (Hs : zlen (slice c a k) = k) by (apply zlen_slice; lia).
  apply list_eq; intros i.
  rewrite !lookup_patch by (rewrite ?zlen_app, ?Hs; lia).
  unfold zlen in *. rewrite length_app. rewrite Z2Nat.inj_add by lia.
  assert (Hn : length (slice c a k) = Z.to_nat k) by lia. rewrite Hn.
  repeat case_bool_decide; try lia; try done.
  - rewrite lookup_app_r by lia. f_equal. lia.
  - rewrite lookup_app_l by lia. rewrite lookup_slice, bool_decide_eq_true_2 by lia. f_equal. lia.
Qed.

Lemma patch_keep_after c a d k :
  0 <= a -> 0 <= k -> a + zlen d + k <= zlen c ->
  patch c a (d ++ slice c (a + zlen d) k) = patch c a d.
Proof.
  intros Ha Hk Hl. pose proof (zlen_nonneg d).
  assert (Hs : zlen (slice c (a + zlen d) k) = k) by (apply zlen_slice; lia).
  apply list_eq; intros i.
  rewrite !lookup_patch by (rewrite ?zlen_app, ?Hs; lia).
  assert (Hn : length (slice c (a + zlen d) k) = Z.to_nat k) by (unfold zlen in *; lia).
  unfold zlen in *. rewrite length_app, Hn.
  repeat case_bool_decide; try lia; try done.
  - destruct (decide (i - Z.to_nat a < length d)%nat); [|lia]. by rewrite lookup_app_l by lia.
  - rewrite lookup_app_r by lia. rewrite lookup_slice, bool_decide_eq_true_2 by lia. f_equal. lia.
Qed.

Lemma patch_nil c a : 0 <= a -> patch c a [] = c.
Proof. intros. unfold patch. cbn [app length]. rewrite Nat.add_0_r. apply take_drop. Qed.

Lemma patch_same c a n : 0 <= a -> 0 <= n -> a + n <= zlen c -> patch c a (slice c a n) = c.
Proof.
  intros. replace (slice c a n) with (slice c a n ++ []) by apply app_nil_r.
  rewrite patch_keep_before by (rewrite ?zlen_nil; lia). apply patch_nil. lia.
Qed.

Lemma patch_whole c d : zlen d = zlen c -> patch c 0 d = d.
Proof.
  intros H. unfold patch, zlen in *. cbn [Z.to_nat]. change (Z.to_nat 0) with 0%nat.
  rewrite take_0, drop_ge by lia. by rewrite app_nil_r.
Qed.

Lemma patch_over c a d1 d2 :
  0 <= a -> a + zlen d1 <= zlen c -> zlen d2 = zlen d1 -> patch (patch c a d1) a d2 = patch c a d2.
Proof.
  intros Ha Hl He. apply list_eq; intros i.
  rewrite !lookup_patch by (rewrite ?zlen_patch by lia; lia).
  unfold zlen in *. repeat case_bool_decide; try lia; done.
Qed.

Lemma slice_patch c a d : 0 <= a -> a + zlen d <= zlen c -> slice (patch c a d) a (zlen d) = d.
Proof.
  intros Ha Hl. apply list_eq; intros i. rewrite lookup_slice, lookup_patch by lia.
  unfold zlen in *. repeat case_bool_decide; try lia.
  - f_equal. lia.
  - by rewrite lookup_ge_None_2 by lia.
Qed.

(** A write leaves what is beside it. *)
Lemma slice_patch_other c a d b n :
  0 <= a -> 0 <= b -> a + zlen d <= zlen c -> a + zlen d <= b \/ b + n <= a ->
  slice (patch c a d) b n = slice c b n.
Proof.
  intros Ha Hb Hl Ho. apply list_eq; intros i. rewrite !lookup_slice by lia.
  case_bool_decide; [|done]. rewrite lookup_patch by lia.
  unfold zlen in *. rewrite bool_decide_eq_false_2; [done|]. lia.
Qed.

Lemma mem_write_other c a d c' b n :
  mem_write c a d = Some c' -> 0 <= b -> a + zlen d <= b \/ b + n <= a -> slice c' b n = slice c b n.
Proof.
  intros Hw Hb Ho. unfold mem_write in Hw. destruct (Z.leb_spec 0 a); [|done].
  destruct (Z.leb_spec (a + zlen d) (zlen c)); [|done]. injection Hw as <-. by apply slice_patch_other.
Qed.

(** Writing back a sector in which [d] was put is writing [d]. *)
Lemma patch_sector c a k d blk :
  0 <= a -> 0 <= k -> k + zlen d <= blk -> a + blk <= zlen c ->
  patch c a (patch (slice c a blk) k d) = patch c (a + k) d.
Proof.
  intros Ha Hk Hd Hl. pose proof (zlen_nonneg d).
  assert (Hs : zlen (slice c a blk) = blk) by (apply zlen_slice; lia).
  assert (Hp : zlen (patch (slice c a blk) k d) = blk) by (rewrite zlen_patch; lia).
  apply list_eq; intros i. rewrite !lookup_patch by lia.
  unfold zlen in Hp. assert (length (patch (slice c a blk) k d) = Z.to_nat blk) as -> by lia.
  unfold zlen in *. rewrite Z2Nat.inj_add by lia.
  repeat case_bool_decide; try lia; try done.
  - f_equal. lia.
  - rewrite lookup_slice, bool_decide_eq_true_2 by lia. f_equal. lia.
Qed.

Lemma slice_payload_tail c k n : 0 <= k -> k <= n -> slice (slice c 0 n) k (n - k) = slice c k (n - k).
Proof.
  intros Hk Hn. apply list_eq; intros i. rewrite !lookup_slice by lia.
  repeat case_bool_decide; try lia; done.
Qed.

(** Fields of a patched struct. *)
Lemma rd_patch c a d i :
  0 <= a -> a + zlen d <= zlen c -> 0 <= i ->
  rd (patch c a d) i = if (a <=? i) && (i <? a + zlen d) then rd d (i - a) else rd c i.
Proof.
  intros Ha Hl Hi. unfold rd. rewrite lookup_patch by done. unfold zlen in *.
  destruct (Z.leb_spec a i), (Z.ltb_spec i (a + Z.of_nat (length d))); cbn [andb].
  - rewrite bool_decide_eq_true_2 by lia. by rewrite Z2Nat.inj_sub by lia.
  - by rewrite bool_decide_eq_false_2 by lia.
  - by rewrite bool_decide_eq_false_2 by lia.
  - by rewrite bool_decide_eq_false_2 by lia.
Qed.

Lemma rd_slice c a n i : 0 <= a -> 0 <= i < n -> rd (slice c a n) i = rd c (a + i).
Proof.
  intros Ha Hi. unfold rd. rewrite lookup_slice by done. rewrite bool_decide_eq_true_2 by lia.
  by rewrite Z2Nat.inj_add by lia.
Qed.

Lemma rd16_slice c a n i : 0 <= a -> 0 <= i -> i + 2 <= n -> rd16 (slice c a n) i = rd16 c (a + i).
Proof. intros. unfold rd16. rewrite !rd_slice by lia. by rewrite Z.add_assoc. Qed.

Lemma rd16_patch_same c a v :
  0 <= a -> a + 2 <= zlen c -> 0 <= v < 65536 -> rd16 (patch c a (le_bytes 2 v)) a = v.
Proof.
  intros Ha Hl Hv. unfold rd16. rewrite !rd_patch by (rewrite ?zlen_le_bytes; lia).
  rewrite zlen_le_bytes. destruct (Z.leb_spec a a), (Z.ltb_spec a (a + Z.of_nat 2)); try lia.
  destruct (Z.leb_spec a (a + 1)), (Z.ltb_spec (a + 1) (a + Z.of_nat 2)); try lia. cbn [andb].
  replace (a - a) with 0 by lia. replace (a + 1 - a) with 1 by lia.
  pose proof (le_val_le_bytes 2 v) as E. rewrite Z.mod_small in E by (change (256 ^ Z.of_nat 2) with 65536; lia).
  change (le_val (le_bytes 2 v)) with (rd (le_bytes 2 v) 0 + 256 * (rd (le_bytes 2 v) 1 + 256 * 0)) in E. lia.
Qed.

Lemma rd16_patch_other c a d i :
  0 <= a -> a + zlen d <= zlen c -> 0 <= i -> i + 2 <= a \/ a + zlen d <= i ->
  rd16 (patch c a d) i = rd16 c i.
Proof.
  intros Ha Hl Hi Ho. pose proof (zlen_nonneg d). unfold rd16. rewrite !rd_patch by lia.
  destruct (Z.leb_spec a i), (Z.ltb_spec i (a + zlen d)), (Z.leb_spec a (i + 1)),
    (Z.ltb_spec (i + 1) (a + zlen d)); try lia; done.
Qed.

Lemma rd32_patch_same c a v :
  0 <= a -> a + 4 <= zlen c -> 0 <= v < 4294967296 -> rd32 (patch c a (le_bytes 4 v)) a = v.
Proof.
  intros Ha Hl Hv. pose proof (le_val_le_bytes 4 v) as E.
  rewrite Z.mod_small in E by (change (256 ^ Z.of_nat 4) with 4294967296; lia).
  unfold rd32, rd16. rewrite !rd_patch by (rewrite ?zlen_le_bytes; lia). rewrite zlen_le_bytes.
  repeat match goal with |- context [(?x <=? ?y) && (?z <? ?t)] =>
    destruct (Z.leb_spec x y), (Z.ltb_spec z t); try lia; cbn [andb] end.
  replace (a - a) with 0 by lia. replace (a + 1 - a) with 1 by lia. replace (a + 2 - a) with 2 by lia.
  replace (a + 2 + 1 - a) with 3 by lia.
  change (le_val (le_bytes 4 v)) with (rd (le_bytes 4 v) 0 + 256 * (rd (le_bytes 4 v) 1
    + 256 * (rd (le_bytes 4 v) 2 + 256 * (rd (le_bytes 4 v) 3 + 256 * 0)))) in E. lia.
Qed.

Lemma rd32_patch_other c a d i :
  0 <= a -> a + zlen d <= zlen c -> 0 <= i -> i + 4 <= a \/ a + zlen d <= i ->
  rd32 (patch c a d) i = rd32 c i.
Proof.
  intros Ha Hl Hi Ho. unfold rd32. by rewrite !rd16_patch_other by lia.
Qed.

(** Fields of concatenated bytes. *)
Lemma rd_app_l a b i : 0 <= i < zlen a -> rd (a ++ b) i = rd a i.
Proof. intros Hi. unfold rd, zlen in *. by rewrite lookup_app_l by lia. Qed.

Lemma rd_app_r a b i j : zlen a = i -> 0 <= j -> rd (a ++ b) (i + j) = rd b j.
Proof. intros <- Hj. unfold rd, zlen in *. rewrite lookup_app_r by lia. do 2 f_equal. lia. Qed.

Lemma rd16_le v rest : 0 <= v < 65536 -> rd16 (le_bytes 2 v ++ rest) 0 = v.
Proof.
  intros Hv. pose proof (le_val_le_bytes 2 v) as E.
  rewrite Z.mod_small in E by (change (256 ^ Z.of_nat 2) with 65536; lia). rewrite <- E at 2.
  change (le_val (le_bytes 2 v)) with (u8 v + 256 * (u8 (v .>> 8) + 256 * 0)).
  change (rd16 (le_bytes 2 v ++ rest) 0) with (u8 v + 256 * u8 (v .>> 8)). lia.
Qed.

Lemma rd32_le v rest : 0 <= v < 4294967296 -> rd32 (le_bytes 4 v ++ rest) 0 = v.
Proof.
  intros Hv. pose proof (le_val_le_bytes 4 v) as E.
  rewrite Z.mod_small in E by (change (256 ^ Z.of_nat 4) with 4294967296; lia). rewrite <- E at 2.
  change (le_val (le_bytes 4 v)) with (u8 v + 256 * (u8 (v .>> 8) + 256 * (u8 (v .>> 8 .>> 8)
    + 256 * (u8 (v .>> 8 .>> 8 .>> 8) + 256 * 0)))).
  change (rd32 (le_bytes 4 v ++ rest) 0) with (u8 v + 256 * u8 (v .>> 8)
    + 65536 * (u8 (v .>> 8 .>> 8) + 256 * u8 (v .>> 8 .>> 8 .>> 8))). lia.
Qed.

Lemma rd16_app_r a b i : zlen a = i -> rd16 (a ++ b) i = rd16 b 0.
Proof.
  intros Hi. pose proof (zlen_nonneg a). unfold rd16. rewrite (rd_app_r a b i 1) by lia.
  rewrite <- (Z.add_0_r i) at 1. by rewrite (rd_app_r a b i 0) by lia.
Qed.

Lemma rd32_app_r a b i : zlen a = i -> rd32 (a ++ b) i = rd32 b 0.
Proof.
  intros Hi. unfold rd32, rd16. rewrite <- (Z.add_0_r i) at 1. rewrite <- !(Z.add_assoc i).
  by rewrite !(rd_app_r a b i) by lia.
Qed.
