(* ===== verification/LibUtil.v ===== *)
(** Component [common/lib/libutil.c]: the helpers every service shares.
    Arrays are lists updated by index; a C loop is a [Fixpoint] on its number
    of remaining iterations. The floating-point [power] and the struct
    filler [construct_i2c_message] are left out; [construct_ipmi_message] is in [Ssif.v]. *)

From Stdlib Require Import Sorting.Sorted.
From S2P Require Import Prelude Bytes.

(** ** Definitions *)

Definition SMALL_ENDIAN : Z := 0.
Definition BIG_ENDIAN : Z := 1.

Definition SETBIT (x y : Z) : Z := x .| (1 .<< y).
Definition CLEARBIT (x y : Z) : Z := x .& Z.lnot (1 .<< y).
Definition GETBIT (x y : Z) : Z := Z.b2z (y <? x .& (1 .<< y)).

(** One iteration of the swap loop, for index [i]. *)
Definition swap_ends (size : Z) (arr : list Z) (i : Z) : list Z :=
  let temp := rd arr i in
  let arr := <[Z.to_nat i := rd arr (size - 1 - i)]> arr in
  <[Z.to_nat (size - 1 - i) := temp]> arr.

Fixpoint reverse_loop (n : nat) (i size : Z) (arr : list Z) : list Z :=
  match n with
  | O => arr
  | S n => reverse_loop n (i + 1) size (swap_ends size arr i)
  end.

Definition reverse_array (arr : list Z) (size : Z) : list Z :=
  reverse_loop (Z.to_nat (size / 2)) 0 size arr.

Definition ascii_to_val (ascii_byte : Z) : Z :=
  if (0x30 <=? ascii_byte) && (ascii_byte <? 0x3A) then ascii_byte - 0x30
  else if (0x41 <=? ascii_byte) && (ascii_byte <? 0x47) then ascii_byte - 0x41 + 10
  else -1.

Definition uint32_t_byte_reverse (data : Z) : Z :=
  let re := ((data .& 0xaaaaaaaa) .>> 1) .| u32 ((data .& 0x55555555) .<< 1) in
  let re := ((re .& 0xcccccccc) .>> 2) .| u32 ((re .& 0x33333333) .<< 2) in
  let re := ((re .& 0xf0f0f0f0) .>> 4) .| u32 ((re .& 0x0f0f0f0f) .<< 4) in
  let re := ((re .& 0xff00ff00) .>> 8) .| u32 ((re .& 0x00ff00ff) .<< 8) in
  (re .>> 16) .| (u32 (re .<< 16) .& 0xffffffff).

Fixpoint put_bytes_loop (n : nat) (i data_32 endian : Z) (data_8 : list Z) : list Z :=
  match n with
  | O => data_8
  | S n =>
      let b := if endian =? SMALL_ENDIAN then (data_32 .>> (8 * i)) .& 0xFF
               else (data_32 .>> (24 - 8 * i)) .& 0xFF in
      put_bytes_loop n (i + 1) data_32 endian (<[Z.to_nat i := b]> data_8)
  end.

Definition convert_uint32_t_to_uint8_t_pointer
    (data_32 : Z) (data_8 : list Z) (len endian : Z) : list Z :=
  if negb (len =? 4) then data_8
  else put_bytes_loop (Z.to_nat len) 0 data_32 endian data_8.

(** The new value of [*data_32]. *)
Definition convert_uint8_t_pointer_to_uint32_t
    (data_32 : Z) (data_8 : list Z) (len endian : Z) : Z :=
  if negb (len =? 4) then data_32
  else if endian =? SMALL_ENDIAN then
    u32 ((rd data_8 3 .<< 24) + (rd data_8 2 .<< 16) + (rd data_8 1 .<< 8) + rd data_8 0)
  else
    u32 ((rd data_8 0 .<< 24) + (rd data_8 1 .<< 16) + (rd data_8 2 .<< 8) + rd data_8 3).

(** The bytes written to [result]; their number is the returned [idx]. *)
Fixpoint dec_ascii_loop (fuel : nat) (val divisor len : Z) (out : list Z) : list Z :=
  match fuel with
  | O => out
  | S fuel =>
      if (0 <? divisor) && (zlen out <? len) then
        if (val / divisor =? 0) && (zlen out =? 0) && negb (divisor =? 1) then
          dec_ascii_loop fuel val (divisor / 10) len out
        else
          let digit := val / divisor in
          dec_ascii_loop fuel (u8 (val - digit * divisor)) (divisor / 10) len
            (out ++ [0x30 + digit])
      else out
  end.

Definition uint8_t_to_dec_ascii_pointer (val len : Z) : list Z :=
  dec_ascii_loop 4 val 100 len [].

Fixpoint find_byte_loop (n : nat) (buf : list Z) (byte_data index : Z) : Z :=
  match n with
  | O => -1
  | S n => if rd buf index =? byte_data then index
           else find_byte_loop n buf byte_data (index + 1)
  end.

Definition find_byte_data_in_buf (buf : list Z) (byte_data start_index end_index : Z) : Z :=
  find_byte_loop (Z.to_nat (end_index - start_index)) buf byte_data start_index.

Fixpoint clear_bits_loop (n : nat) (value index : Z) : Z :=
  match n with
  | O => value
  | S n => clear_bits_loop n (u32 (CLEARBIT value index)) (index + 1)
  end.

Definition clear_bits (value start_bit end_bit : Z) : Z :=
  if (start_bit <? 0) || (31 <? end_bit) then value
  else clear_bits_loop (Z.to_nat (end_bit + 1 - start_bit)) value start_bit.

(** The comparison and swap of [sort_bubble] at index [j]. *)
Definition bubble_step (array : list Z) (j : Z) : list Z :=
  if rd array (j + 1) <? rd array j then
    let temp := rd array j in
    let array := <[Z.to_nat j := rd array (j + 1)]> array in
    <[Z.to_nat (j + 1) := temp]> array
  else array.

Fixpoint bubble_inner (n : nat) (j : Z) (array : list Z) : list Z :=
  match n with
  | O => array
  | S n => bubble_inner n (j + 1) (bubble_step array j)
  end.

Fixpoint bubble_outer (n : nat) (i len : Z) (array : list Z) : list Z :=
  match n with
  | O => array
  | S n => bubble_outer n (i + 1) len
             (bubble_inner (Z.to_nat (len - i - 1)) 0 array)
  end.

Definition sort_bubble (array : list Z) (len : Z) : list Z :=
  bubble_outer (Z.to_nat (len - 1)) 0 len array.

(** [char16_t] strings; [None] is a read or write past the array. *)
Fixpoint strlen16 (str : list Z) : option Z :=
  match str with
  | [] => None
  | c :: s => if c =? 0 then Some 0 else n ← strlen16 s; Some (n + 1)
  end.

Fixpoint strcpy16 (dest src : list Z) : option (list Z) :=
  match dest, src with
  | _ :: d, c :: s => if c =? 0 then Some (0 :: d)
                      else rest ← strcpy16 d s; Some (c :: rest)
  | _, _ => None
  end.

Definition ch16_strcat_char (dest : list Z) : option (list Z) :=
  len ← strlen16 dest; Some (<[Z.to_nat len := 0]> dest).

(** ** Lemmas *)

Lemma rd_lookup l i x : l !! Z.to_nat i = Some x -> rd l i = x.
Proof. unfold rd; by intros ->. Qed.

Lemma rd_lookup_lt l i :
  0 <= i < zlen l -> l !! Z.to_nat i = Some (rd l i).
Proof.
  unfold zlen, rd; intros. destruct (lookup_lt_is_Some_2 l (Z.to_nat i)) as [x Hx]; [lia|].
  by rewrite Hx.
Qed.

Lemma swap_ends_length size arr i : length (swap_ends size arr i) = length arr.
Proof. unfold swap_ends; by rewrite !length_insert. Qed.

Lemma reverse_loop_length n i size arr :
  length (reverse_loop n i size arr) = length arr.
Proof.
  revert i arr; induction n as [|n IH]; intros i arr; simpl; [done|].
  by rewrite IH, swap_ends_length.
Qed.

Lemma swap_ends_lookup size arr i k :
  0 <= i < size / 2 -> size <= zlen arr ->
  swap_ends size arr i !! k =
    if decide (k = Z.to_nat i \/ k = Z.to_nat (size - 1 - i))
    then arr !! Z.to_nat (size - 1 - Z.of_nat k) else arr !! k.
Proof.
  intros Hi Hs.
  assert (Hsz : 2 * i + 1 < size).
  { pose proof (Z.div_mod size 2). pose proof (Z.mod_pos_bound size 2). lia. }
  unfold swap_ends. unfold zlen in Hs.
  case_decide as Hk.
  - destruct Hk as [->| ->].
    + rewrite list_lookup_insert_ne by lia.
      rewrite list_lookup_insert_eq by lia.
      rewrite Z2Nat.id by lia. symmetry. apply rd_lookup_lt. unfold zlen; lia.
    + rewrite list_lookup_insert_eq by (rewrite length_insert; lia).
      rewrite Z2Nat.id by lia. replace (size - 1 - (size - 1 - i)) with i by lia.
      symmetry. apply rd_lookup_lt. unfold zlen; lia.
  - rewrite !list_lookup_insert_ne by lia. done.
Qed.

(** After the iterations [i .. i+n-1], exactly those positions and their
    mirror images have been exchanged. *)
Lemma reverse_loop_lookup n i size arr k :
  0 <= i -> i + Z.of_nat n <= size / 2 -> size <= zlen arr ->
  reverse_loop n i size arr !! k =
    let j := Z.of_nat k in
    if decide (i <= j < i + Z.of_nat n \/ i <= size - 1 - j < i + Z.of_nat n)
    then arr !! Z.to_nat (size - 1 - j) else arr !! k.
Proof.
  revert i arr; induction n as [|n IH]; intros i arr Hi Hn Hs; simpl.
  - case_decide; [lia|done].
  - assert (Hsz : 2 * i + 1 < size).
    { pose proof (Z.div_mod size 2). pose proof (Z.mod_pos_bound size 2). lia. }
    assert (Hsz2 : 2 * (i + Z.of_nat n) + 1 < size).
    { pose proof (Z.div_mod size 2). pose proof (Z.mod_pos_bound size 2). lia. }
    rewrite IH by (unfold zlen in *; rewrite ?swap_ends_length; lia).
    cbv zeta. rewrite !swap_ends_lookup by lia.
    repeat case_decide; done || lia || (f_equal; lia).
Qed.

Lemma reverse_array_spec arr size :
  0 <= size <= zlen arr ->
  reverse_array arr size = reverse (take (Z.to_nat size) arr) ++ drop (Z.to_nat size) arr.
Proof.
  intros Hs. unfold reverse_array. apply list_eq; intros k.
  pose proof (Z.div_mod size 2) as Hd. pose proof (Z.mod_pos_bound size 2) as Hm.
  rewrite reverse_loop_lookup by lia. cbv zeta.
  unfold zlen in Hs.
  destruct (decide (Z.of_nat k < size)) as [Hk|Hk].
  - rewrite lookup_app_l by (rewrite length_reverse, length_take; lia).
    rewrite reverse_lookup by (rewrite length_take; lia).
    rewrite length_take, lookup_take_lt by lia.
    case_decide; f_equal; lia.
  - rewrite lookup_app_r by (rewrite length_reverse, length_take; lia).
    rewrite length_reverse, length_take, lookup_drop.
    case_decide; [lia|]. f_equal; lia.
Qed.

Lemma bubble_step_app pre x y post j :
  Z.of_nat (length pre) = j ->
  bubble_step (pre ++ x :: y :: post) j =
    pre ++ (if y <? x then y :: x :: post else x :: y :: post).
Proof.
  intros <-. unfold bubble_step, rd.
  assert (H0 : (pre ++ x :: y :: post) !! length pre = Some x)
    by (by rewrite list_lookup_middle).
  assert (H1 : (pre ++ x :: y :: post) !! (length pre + 1)%nat = Some y).
  { rewrite lookup_app_r by lia. by replace (length pre + 1 - length pre)%nat with 1%nat by lia. }
  replace (Z.to_nat (Z.of_nat (length pre) + 1)) with (length pre + 1)%nat by lia.
  rewrite Nat2Z.id, H0, H1. simpl. destruct (y <? x); [|done].
  rewrite insert_app_r_alt by lia. rewrite Nat.sub_diag. simpl.
  rewrite insert_app_r_alt by lia.
  by replace (length pre + 1 - length pre)%nat with 1%nat by lia.
Qed.

(** The inner loop moves the maximum of the scanned range to its end. *)
Fixpoint bubble (x : Z) (l : list Z) : list Z :=
  match l with
  | [] => [x]
  | y :: l => if y <? x then y :: bubble x l else x :: bubble y l
  end.

Lemma bubble_inner_app l pre x post j :
  Z.of_nat (length pre) = j ->
  bubble_inner (length l) j (pre ++ x :: l ++ post) = pre ++ bubble x l ++ post.
Proof.
  revert pre x j; induction l as [|y l IH]; intros pre x j Hj; simpl; [done|].
  rewrite bubble_step_app by done. destruct (y <? x).
  - specialize (IH (pre ++ [y]) x (j + 1)). rewrite <- !app_assoc in IH. simpl in IH.
    apply IH. rewrite length_app; simpl; lia.
  - specialize (IH (pre ++ [x]) y (j + 1)). rewrite <- !app_assoc in IH. simpl in IH.
    apply IH. rewrite length_app; simpl; lia.
Qed.

Lemma bubble_max x l :
  exists m k, bubble x l = k ++ [m] /\ Permutation (x :: l) (k ++ [m]) /\
    Forall (fun z => z <= m) k.
Proof.
  revert x; induction l as [|y l IH]; intros x; simpl.
  - exists x, []. split_and!; auto.
  - destruct (y <? x) eqn:E; reflect_bools.
    + destruct (IH x) as (m & k & -> & HP & HF). exists m, (y :: k). split_and!; [done| |].
      * rewrite perm_swap. simpl. by rewrite HP.
      * constructor; [|done].
        assert (x ∈ k ++ [m]) as Hx by (rewrite <- HP; left).
        apply elem_of_app in Hx as [Hx|Hx%list_elem_of_singleton]; [|lia].
        rewrite Forall_forall in HF. apply HF in Hx. lia.
    + destruct (IH y) as (m & k & -> & HP & HF). exists m, (x :: k). split_and!; [done| |].
      * simpl. by rewrite HP.
      * constructor; [|done].
        assert (y ∈ k ++ [m]) as Hx by (rewrite <- HP; left).
        apply elem_of_app in Hx as [Hx|Hx%list_elem_of_singleton]; [|lia].
        rewrite Forall_forall in HF. apply HF in Hx. lia.
Qed.

Definition all_le (l k : list Z) : Prop := forall a b, a ∈ l -> b ∈ k -> a <= b.

Lemma bubble_outer_sorted n i len body tail_ :
  length body = S n -> i = zlen tail_ -> len = zlen (body ++ tail_) ->
  StronglySorted Z.le tail_ -> all_le body tail_ ->
  StronglySorted Z.le (bubble_outer n i len (body ++ tail_)) /\
  Permutation (body ++ tail_) (bubble_outer n i len (body ++ tail_)).
Proof.
  revert i body tail_; induction n as [|n IH]; intros i body tl Hb -> Hlen Hs Hle; simpl.
  - destruct body as [|x [|? ?]]; try done. split; [|done]. simpl. constructor; [done|].
    apply Forall_forall. intros y Hy. apply Hle; [left|done].
  - destruct body as [|x l]; [done|].
    replace (Z.to_nat (len - zlen tl - 1)) with (length l)
      by (rewrite Hlen, zlen_app, zlen_cons; unfold zlen; lia).
    pose proof (bubble_inner_app l [] x tl 0 eq_refl) as Hin. simpl in Hin.
    simpl app. rewrite Hin.
    destruct (bubble_max x l) as (m & k & -> & HP & HF).
    rewrite <- app_assoc. simpl app at 2.
    assert (Hk : length k = S n).
    { apply Permutation_length in HP. rewrite length_app in HP. simpl in *. lia. }
    destruct (IH (zlen tl + 1) k (m :: tl)) as [H1 H2].
    + done.
    + rewrite zlen_cons. lia.
    + rewrite Hlen. unfold zlen. rewrite !length_app. simpl in *. lia.
    + constructor; [done|]. apply Forall_forall. intros y Hy.
      apply Hle; [|done]. rewrite HP, elem_of_app, list_elem_of_singleton; auto.
    + intros a b Ha [->|Hb']%elem_of_cons.
      * rewrite Forall_forall in HF. by apply HF.
      * apply Hle; [|done]. rewrite HP, elem_of_app, list_elem_of_singleton; auto.
    + simpl in *. split; [done|]. rewrite <- H2.
      change (x :: l ++ tl) with ((x :: l) ++ tl). rewrite HP, <- app_assoc. done.
Qed.

(** Each mask-and-shift step exchanges bit [i] with bit [i xor s]. *)
Definition swap_step (x s m1 m2 : Z) : Z :=
  ((x .& m1) .>> s) .| u32 ((x .& m2) .<< s).

Definition masks_swap (s m1 m2 i : Z) : bool :=
  let a := Z.testbit m1 (i + s) in
  let b := (s <=? i) && Z.testbit m2 (i - s) in
  xorb a b && (Z.lxor i s =? (if a then i + s else i - s)).

Lemma swap_step_bit x s m1 m2 i :
  forallb (masks_swap s m1 m2) (seqZ 0 32) = true ->
  0 < s -> 0 <= i < 32 ->
  Z.testbit (swap_step x s m1 m2) i = Z.testbit x (Z.lxor i s).
Proof.
  intros Hm Hs Hi. pose proof (small_forall 32 _ Hm i Hi) as Hc. clear Hm.
  unfold masks_swap in Hc. reflect_bools. unfold swap_step, u32.
  change 4294967296 with (2 ^ 32).
  rewrite Z.lor_spec, Z.shiftr_spec, Z.land_spec by lia.
  rewrite Z.mod_pow2_bits_low by lia.
  rewrite Z.shiftl_spec, Z.land_spec by lia.
  match goal with H : Z.lxor _ _ = _ |- _ => rewrite H end.
  destruct (Z.testbit m1 (i + s)), (Z.leb_spec s i);
    cbn [andb orb xorb negb] in *; try done.
  - destruct (Z.testbit m2 (i - s)); [done|].
    by rewrite andb_true_r, andb_false_r, orb_false_r.
  - rewrite (Z.testbit_neg_r x (i - s)) by lia. by rewrite andb_true_r, orb_false_r.
  - destruct (Z.testbit m2 (i - s)); [|done]. by rewrite andb_false_r, andb_true_r.
Qed.

Lemma lxor_chain_31 i :
  0 <= i < 32 ->
  Z.lxor (Z.lxor (Z.lxor (Z.lxor (Z.lxor i 16) 8) 4) 2) 1 = 31 - i.
Proof.
  intros. apply Z.eqb_eq.
  apply (small_forall 32
    (fun i => Z.lxor (Z.lxor (Z.lxor (Z.lxor (Z.lxor i 16) 8) 4) 2) 1 =? 31 - i)); done.
Qed.

Lemma lxor_range32 i s : 0 <= i < 32 -> 0 <= s < 32 -> 0 <= Z.lxor i s < 32.
Proof.
  intros. change 32 with (2 ^ 5) in *. split; [apply Z.lxor_nonneg; lia|].
  destruct (Z.eq_dec (Z.lxor i s) 0) as [->|]; [done|].
  assert (0 <= Z.lxor i s) by (apply Z.lxor_nonneg; lia).
  apply Z.log2_lt_pow2; [lia|].
  eapply Z.le_lt_trans; [apply Z.log2_lxor; lia|].
  apply Z.max_lub_lt; (destruct (Z.eq_dec i 0), (Z.eq_dec s 0); subst; try done;
    apply Z.log2_lt_pow2; lia).
Qed.

Lemma swap_step_high x s m1 m2 j :
  0 <= m1 < 2 ^ 32 -> 0 < s -> 32 <= j ->
  Z.testbit (swap_step x s m1 m2) j = false.
Proof.
  intros Hm Hs Hj. unfold swap_step, u32. change 4294967296 with (2 ^ 32).
  rewrite Z.lor_spec, Z.shiftr_spec, Z.land_spec, Z.mod_pow2_bits_high by lia.
  rewrite orb_false_r. rewrite (Z.bits_above_log2 m1), andb_false_r; [done|lia|].
  destruct (Z.eq_dec m1 0) as [->|]; [simpl; lia|].
  apply Z.lt_le_trans with 32; [|lia]. apply Z.log2_lt_pow2; lia.
Qed.

Lemma half_swap_bit x i :
  (forall j, 32 <= j -> Z.testbit x j = false) -> 0 <= i < 32 ->
  Z.testbit ((x .>> 16) .| (u32 (x .<< 16) .& 0xffffffff)) i = Z.testbit x (Z.lxor i 16).
Proof.
  intros Hx Hi. unfold u32. change 4294967296 with (2 ^ 32).
  change 0xffffffff with (Z.ones 32).
  rewrite Z.lor_spec, Z.shiftr_spec, Z.land_spec, Z.mod_pow2_bits_low by lia.
  rewrite Z.shiftl_spec, Z.testbit_ones_nonneg by lia.
  replace (i <? 32) with true by (symmetry; apply Z.ltb_lt; lia). rewrite andb_true_r.
  destruct (Z.lt_ge_cases i 16).
  - rewrite (Z.testbit_neg_r x (i - 16)), orb_false_r by lia. f_equal.
    apply Z.eqb_eq. apply (small_forall 16 (fun i => i + 16 =? Z.lxor i 16)); done || lia.
  - rewrite (Hx (i + 16)) by lia. simpl orb. f_equal.
    assert (Hp : ((16 <=? i) && negb (i - 16 =? Z.lxor i 16)) = false).
    { apply negb_true_iff.
      apply (small_forall 32 (fun i => negb ((16 <=? i) && negb (i - 16 =? Z.lxor i 16)))); done. }
    reflect_bools. destruct Hp; reflect_bools; lia.
Qed.

(** ** Properties *)

(** [sort_bubble(array, len)] on the whole array returns a sorted
    permutation of it, for every length (0 and 1 included). *)
Theorem sort_bubble_sorts array :
  StronglySorted Z.le (sort_bubble array (zlen array)) /\
  Permutation array (sort_bubble array (zlen array)).
Proof.
  unfold sort_bubble. destruct array as [|x l]; [split; constructor|].
  replace (Z.to_nat (zlen (x :: l) - 1)) with (length l)
    by (rewrite zlen_cons; unfold zlen; lia).
  pose proof (bubble_outer_sorted (length l) 0 (zlen (x :: l)) (x :: l) []) as H.
  rewrite app_nil_r in H. apply H; try done; [constructor|].
  intros a b _ Hb. by apply not_elem_of_nil in Hb.
Qed.

(** [uint32_t_byte_reverse] reverses the order of the 32 bits of its
    argument (not of its four bytes): bit [i] of the result is bit [31 - i]. *)
Theorem uint32_t_byte_reverse_bits d i :
  0 <= d < 2 ^ 32 -> 0 <= i < 32 ->
  Z.testbit (uint32_t_byte_reverse d) i = Z.testbit d (31 - i).
Proof.
  intros Hd Hi. unfold uint32_t_byte_reverse. cbv zeta.
  fold (swap_step d 1 0xaaaaaaaa 0x55555555). set (x1 := swap_step d 1 _ _).
  fold (swap_step x1 2 0xcccccccc 0x33333333). set (x2 := swap_step x1 2 _ _).
  fold (swap_step x2 4 0xf0f0f0f0 0x0f0f0f0f). set (x3 := swap_step x2 4 _ _).
  fold (swap_step x3 8 0xff00ff00 0x00ff00ff).
  rewrite half_swap_bit; [|intros; apply swap_step_high; lia|done].
  unfold x3, x2, x1.
  rewrite !swap_step_bit by (repeat apply lxor_range32; (vm_compute; done) || lia).
  by rewrite lxor_chain_31.
Qed.
Lemma uint32_t_byte_reverse_bits_witness :
  Z.testbit (uint32_t_byte_reverse 0x1) 31 = true.
Proof.
  rewrite (uint32_t_byte_reverse_bits 0x1 31); [reflexivity|lia|lia].
Defined.

(** Storing a 32-bit value with [convert_uint32_t_to_uint8_t_pointer] and
    loading it back with [convert_uint8_t_pointer_to_uint32_t] in the same byte
    order gives the value back, and leaves the rest of the buffer alone. *)
Theorem convert_uint32_t_roundtrip d old endian b0 b1 b2 b3 rest :
  0 <= d < 2 ^ 32 ->
  let buf := convert_uint32_t_to_uint8_t_pointer d (b0 :: b1 :: b2 :: b3 :: rest) 4 endian in
  convert_uint8_t_pointer_to_uint32_t old buf 4 endian = d /\ drop 4 buf = rest.
Proof.
  intros Hd buf.
  assert (Hb : forall k, 0 <= k -> (d .>> k) .& 255 = d / 2 ^ k mod 256).
  { intros k Hk. change 255 with (Z.ones 8).
    by rewrite Z.land_ones, Z.shiftr_div_pow2 by lia. }
  subst buf. unfold convert_uint32_t_to_uint8_t_pointer, convert_uint8_t_pointer_to_uint32_t.
  change (negb (4 =? 4)) with false. change (Z.to_nat 4) with 4%nat.
  cbn [put_bytes_loop]. rewrite !Hb by lia. eval_pow. unfold u32, rd.
  destruct (endian =? SMALL_ENDIAN); split; try done;
    cbn -[Z.shiftl Z.add Z.modulo Z.div]; rewrite !Z.shiftl_mul_pow2 by lia;
    rewrite ?Z.div_1_r; eval_pow; eval_nat; simpl;
    rewrite le4_recompose by (eval_pow; lia); apply Z.mod_small, Hd.
Qed.
Lemma convert_uint32_t_roundtrip_witness :
  convert_uint8_t_pointer_to_uint32_t 0
    (convert_uint32_t_to_uint8_t_pointer 0x12345678 [0; 0; 0; 0; 7] 4 BIG_ENDIAN) 4 BIG_ENDIAN
    = 0x12345678.
Proof. apply (convert_uint32_t_roundtrip 0x12345678 0 BIG_ENDIAN 0 0 0 0 [7]); lia. Defined.

(** [uint8_t_to_dec_ascii_pointer] prints the decimal digits, without leading
    zeros, in at most three characters. *)
Definition dec_value (l : list Z) : Z := fold_left (fun a c => 10 * a + (c - 0x30)) l 0.

Lemma uint8_t_to_dec_ascii_spec val :
  0 <= val < 256 ->
  let s := uint8_t_to_dec_ascii_pointer val 3 in
  dec_value s = val /\ 1 <= zlen s <= 3 /\ (rd s 0 = 0x30 -> val = 0).
Proof.
  intros Hv s. subst s.
  pose proof (byte_forall (fun v => let s := uint8_t_to_dec_ascii_pointer v 3 in
    (dec_value s =? v) && (1 <=? zlen s) && (zlen s <=? 3) &&
    (negb (rd s 0 =? 0x30) || (v =? 0))) eq_refl val Hv) as H.
  simpl in H. reflect_bools. split_and!; try done.
  intros. match goal with H : _ \/ _ |- _ => destruct H end; reflect_bools; done.
Qed.

(** [ch16_strcat_char] appends nothing: it rewrites the terminator in place. *)
Lemma ch16_strcat_char_id dest dest' :
  ch16_strcat_char dest = Some dest' -> dest' = dest.
Proof.
  unfold ch16_strcat_char. intros H.
  destruct (strlen16 dest) as [n|] eqn:E; simplify_eq/=.
  assert (Hn : 0 <= n /\ dest !! Z.to_nat n = Some 0).
  { revert n E. induction dest as [|c s IH]; intros n E; simplify_eq/=.
    destruct (Z.eqb_spec c 0); simplify_eq/=; [done|].
    destruct (strlen16 s) as [m|]; simplify_eq/=.
    destruct (IH m eq_refl) as [? ?]. split; [lia|].
    by replace (Z.to_nat (m + 1)) with (S (Z.to_nat m)) by lia. }
  apply list_insert_id. apply Hn.
Qed.
