(* ===== verification/Pdr.v ===== *)
(** Component [common/service/sensor/pdr.c]: the repository of platform descriptor records (PDR)
    a PLDM terminus offers: its construction from the tables of the platform, the look-up by
    record handle, the thresholds of numeric sensors and the names of sensors. The construction
    writes through a NULL pointer: [pdr_init] is what C says of it, [pdr_init_body] also what it does
    where the execution survives such a write. *)

From S2P Require Import Prelude Bytes LibUtil.

(** ** Records: a PDR is its bytes, as [GetPDR] sends it (packed structs, little endian) *)

Definition sizeof_PDR_common_header : Z := 10.
Definition sizeof_PDR_state_sensor : Z := 27.
Definition sizeof_PDR_numeric_sensor : Z := 105.
Definition sizeof_PDR_sensor_auxiliary_names (name_len : Z) : Z := 19 + 2 * name_len.
Definition sizeof_PDR_entity_auxiliary_names : Z := 21.

Definition PLDM_NUMERIC_SENSOR_PDR : Z := 2.
Definition PLDM_STATE_SENSOR_PDR : Z := 4.
Definition PLDM_SENSOR_AUXILIARY_NAMES_PDR : Z := 6.
Definition PLDM_ENTITY_AUXILIARY_NAMES_PDR : Z := 16.
Definition PDR_STATE_AVAILABLE : Z := 0.

(** Offsets of the fields the code names. *)
Definition f_record_handle : Z := 0.
Definition f_data_length : Z := 8.
Definition f_sensor_id : Z := 12.
Definition f_sensor_data_size : Z := 32.
Definition f_supported_thresholds : Z := 49.
Definition f_critical_high : Z := 89.
Definition f_critical_low : Z := 93.
Definition f_sensorName : Z := 19.
Definition f_entityName : Z := 21.

Definition record_handle (r : list Z) : Z := rd32 r f_record_handle.
Definition sensor_id_of (r : list Z) : Z := rd16 r f_sensor_id.

(** What a platform defines: the number of records of each type, what its loaders write into the
    tables they are given (the entity names are one block of bytes), and sizes. *)
Record pdr_platform := mk_pdr_platform {
  plat_get_pdr_size : Z -> Z;
  plat_state_sensor_pdrs : list (list Z);
  plat_numeric_sensor_pdrs : list (list Z);
  plat_aux_sensor_names_pdrs : list (list Z);
  plat_entity_aux_names_pdrs : list Z;
  plat_get_pdr_entity_aux_names_size : Z;
  MAX_AUX_SENSOR_NAME_LEN : Z }.

(** The fields of [PDR_INFO] the code uses. *)
Record PDR_INFO := mk_pdr_info {
  repository_state : Z; record_count : Z; repository_size : Z; largest_record_size : Z }.

(** The variables of the file. *)
Record pdr_state := mk_pdr {
  total_record_count : Z;
  pdr_info : option PDR_INFO;
  state_sensor_table : list (list Z);
  numeric_sensor_table : list (list Z);
  sensor_auxiliary_names_table : list (list Z);
  entity_auxiliary_names_table : list Z }.

Definition set_total (v : Z) (s : pdr_state) : pdr_state :=
  mk_pdr v (pdr_info s) (state_sensor_table s) (numeric_sensor_table s)
    (sensor_auxiliary_names_table s) (entity_auxiliary_names_table s).
Definition set_pdr_info (v : option PDR_INFO) (s : pdr_state) : pdr_state :=
  mk_pdr (total_record_count s) v (state_sensor_table s) (numeric_sensor_table s)
    (sensor_auxiliary_names_table s) (entity_auxiliary_names_table s).
Definition set_state_sensors (t : list (list Z)) (s : pdr_state) : pdr_state :=
  mk_pdr (total_record_count s) (pdr_info s) t (numeric_sensor_table s)
    (sensor_auxiliary_names_table s) (entity_auxiliary_names_table s).
Definition set_numeric_sensors (t : list (list Z)) (s : pdr_state) : pdr_state :=
  mk_pdr (total_record_count s) (pdr_info s) (state_sensor_table s) t
    (sensor_auxiliary_names_table s) (entity_auxiliary_names_table s).
Definition set_aux_names (t : list (list Z)) (s : pdr_state) : pdr_state :=
  mk_pdr (total_record_count s) (pdr_info s) (state_sensor_table s) (numeric_sensor_table s)
    t (entity_auxiliary_names_table s).
Definition set_entity_names (t : list Z) (s : pdr_state) : pdr_state :=
  mk_pdr (total_record_count s) (pdr_info s) (state_sensor_table s) (numeric_sensor_table s)
    (sensor_auxiliary_names_table s) t.

(** The file's variables before [pdr_init]. *)
Definition pdr_zero : pdr_state := mk_pdr 0 None [] [] [] [].

(** ** A state monad for [pdr_init]: undefined behaviour ([None]), a return with a code ([inr]),
    or a value and the next statement ([inl]) *)

Definition PM (A : Type) : Type := pdr_state -> option (pdr_state * (A + Z)).
Definition pm_ret {A} (a : A) : PM A := fun s => Some (s, inl a).
Definition pm_return {A} (code : Z) : PM A := fun s => Some (s, inr code).
Definition pm_undefined {A} : PM A := fun _ => None.
Definition pm_modify (f : pdr_state -> pdr_state) : PM unit := fun s => Some (f s, inl tt).
Definition pm_bind {A B} (m : PM A) (k : A -> PM B) : PM B := fun s =>
  match m s with
  | Some (s, inl a) => k a s
  | Some (s, inr c) => Some (s, inr c)
  | None => None
  end.
Declare Scope pdr_scope.
Notation "x <- m ;; k" := (pm_bind m (fun x => k)) (at level 100, m at level 99, right associativity) : pdr_scope.
Notation "m ;;; k" := (pm_bind m (fun _ => k)) (at level 100, right associativity) : pdr_scope.

(** ** [pdr_init] *)

(** The header of a record: its handle, and the length of what follows the header. *)
Definition init_header (h size : Z) (r : list Z) : list Z :=
  patch (patch r f_record_handle (le_bytes 4 h)) f_data_length
    (le_bytes 2 (u16 (rd16 r f_data_length + (size - sizeof_PDR_common_header)))).

Fixpoint init_headers (h size : Z) (t : list (list Z)) : list (list Z) :=
  match t with
  | [] => []
  | r :: t => init_header h size r :: init_headers (u32 (h + 1)) size t
  end.

(** The loop over a [char16_t] string at [off]: the bytes of every character are exchanged.
    [None]: the string runs past the memory. *)
Fixpoint to_be16 (fuel : nat) (mem : list Z) (off : Z) : option (list Z) :=
  match fuel with
  | O => None
  | S fuel =>
      if zlen mem <? off + 2 then None
      else if rd16 mem off =? 0 then Some mem
      else to_be16 fuel (patch mem off [rd mem (off + 1); rd mem off]) (off + 2)
  end.

Definition name_to_be16 (off : Z) (mem : list Z) : option (list Z) := to_be16 (length mem) mem off.

(** The entity names: the records are indexed with [sizeof_PDR_entity_auxiliary_names], whatever
    their size is. *)
Fixpoint init_entities (n : nat) (i h size : Z) (mem : list Z) : option (list Z) :=
  match n with
  | O => Some mem
  | S n =>
      let a := i * sizeof_PDR_entity_auxiliary_names in
      if zlen mem <? a + sizeof_PDR_entity_auxiliary_names then None
      else
        let hdr := init_header h size (slice mem a sizeof_PDR_entity_auxiliary_names) in
        mem ← name_to_be16 (a + f_entityName) (patch mem a hdr);
        init_entities n (i + 1) (u32 (h + 1)) size mem
  end.

Section pdr.
Context (P : pdr_platform).
Abbreviation count := (plat_get_pdr_size P).
Abbreviation entity_size := (plat_get_pdr_entity_aux_names_size P).
Abbreviation aux_size := (sizeof_PDR_sensor_auxiliary_names (MAX_AUX_SENSOR_NAME_LEN P)).
Local Open Scope pdr_scope.

(** C gives the store [pdr_info->repository_size += n] no meaning while [pdr_info] is NULL, which
    it is until the end of the function. [survives]: does the execution go on after such a store,
    with the variables of the file as they were. *)
Context (survives : bool).

Definition add_repository_size (n : Z) : PM unit := fun s =>
  match pdr_info s with
  | Some i =>
      Some (set_pdr_info (Some (mk_pdr_info (repository_state i) (record_count i)
              (u32 (repository_size i + n)) (largest_record_size i))) s, inl tt)
  | None => if survives then Some (s, inl tt) else None
  end.

(** One type of records; [malloc_ok]: is the table allocated. The loaders are assumed to leave a
    NULL table alone. The next handle and the size of the largest record are passed on; [sizeof] is
    the size of the record's struct, [size] that of the record. *)
Definition load_pdrs {T} (type size sizeof : Z) (malloc_ok : bool) (t : T) (store : T -> pdr_state -> pdr_state)
    (init : Z -> T -> option T) (acc : Z * Z) : PM (Z * Z) :=
  let '(handle, largest) := acc in
  if count type =? 0 then pm_ret acc
  else
    pm_modify (fun s => set_total (u32 (total_record_count s + count type)) s) ;;;
    (if malloc_ok then pm_modify (store t) else pm_return (-1)) ;;;
    add_repository_size (count type * size) ;;;
    match init handle t with
    | None => pm_undefined
    | Some t =>
        pm_modify (store t) ;;;
        pm_ret (u32 (handle + count type), if largest <? sizeof then sizeof else largest)
    end.

(** [block]: what the block allocated for [pdr_info] holds, [None] if there is none. *)
Definition pdr_init_body (malloc_ok : Z -> bool) (block : option PDR_INFO) : PM Z :=
  acc <- load_pdrs PLDM_STATE_SENSOR_PDR sizeof_PDR_state_sensor sizeof_PDR_state_sensor (malloc_ok PLDM_STATE_SENSOR_PDR)
           (plat_state_sensor_pdrs P) set_state_sensors
           (fun h t => Some (init_headers h sizeof_PDR_state_sensor t)) (0, 0) ;;
  acc <- load_pdrs PLDM_NUMERIC_SENSOR_PDR sizeof_PDR_numeric_sensor sizeof_PDR_numeric_sensor (malloc_ok PLDM_NUMERIC_SENSOR_PDR)
           (plat_numeric_sensor_pdrs P) set_numeric_sensors
           (fun h t => Some (init_headers h sizeof_PDR_numeric_sensor t)) acc ;;
  acc <- load_pdrs PLDM_SENSOR_AUXILIARY_NAMES_PDR aux_size aux_size (malloc_ok PLDM_SENSOR_AUXILIARY_NAMES_PDR)
           (plat_aux_sensor_names_pdrs P) set_aux_names
           (fun h t => mapM (name_to_be16 f_sensorName) (init_headers h aux_size t)) acc ;;
  acc <- load_pdrs PLDM_ENTITY_AUXILIARY_NAMES_PDR entity_size sizeof_PDR_entity_auxiliary_names
           (malloc_ok PLDM_ENTITY_AUXILIARY_NAMES_PDR)
           (plat_entity_aux_names_pdrs P) set_entity_names
           (fun h t => init_entities (Z.to_nat (count PLDM_ENTITY_AUXILIARY_NAMES_PDR)) 0 h entity_size t) acc ;;
  match block with
  | None => pm_return 0
  | Some b =>
      pm_modify (fun s => set_pdr_info (Some (mk_pdr_info PDR_STATE_AVAILABLE (total_record_count s)
        (repository_size b) (snd acc))) s) ;;;
      pm_ret 0
  end.
End pdr.

(** The function as C defines it. *)
Definition pdr_init (P : pdr_platform) : (Z -> bool) -> option PDR_INFO -> PM Z := pdr_init_body P false.

(** ** Look-up *)

Section lookup.
Context (P : pdr_platform).
Abbreviation count := (plat_get_pdr_size P).
Abbreviation entity_size := (plat_get_pdr_entity_aux_names_size P).

(** The first of the [n] records with the handle. *)
Definition find_handle (h n : Z) (t : list (list Z)) : option (list Z) :=
  snd <$> list_find (fun r => record_handle r = h) (take (Z.to_nat n) t).

(** The entity records: index [i] is [sizeof_PDR_entity_auxiliary_names] bytes on, [entity_size]
    bytes are copied. *)
Fixpoint find_entity (h : Z) (n : nat) (i : Z) (mem : list Z) : option (list Z) :=
  match n with
  | O => None
  | S n =>
      let a := i * sizeof_PDR_entity_auxiliary_names in
      if rd32 mem a =? h then Some (slice mem a entity_size) else find_entity h n (i + 1) mem
  end.

(** The bytes copied to [record_data]; their number is the result, [None] is -1. *)
Definition get_pdr_table_via_record_handle (s : pdr_state) (h : Z) : option (list Z) :=
  let n_state := count PLDM_STATE_SENSOR_PDR in
  let n_num := count PLDM_NUMERIC_SENSOR_PDR in
  let n_aux := count PLDM_SENSOR_AUXILIARY_NAMES_PDR in
  let n_ent := count PLDM_ENTITY_AUXILIARY_NAMES_PDR in
  if h <? n_state then find_handle h n_state (state_sensor_table s)
  else if h <? u32 (n_num + n_state) then find_handle h n_num (numeric_sensor_table s)
  else if h <? u32 (n_num + n_aux + n_state) then find_handle h n_aux (sensor_auxiliary_names_table s)
  else if h <? u32 (n_num + n_aux + n_ent + n_state) then
    find_entity h (Z.to_nat n_ent) 0 (entity_auxiliary_names_table s)
  else None.

(** ** Numeric sensors *)

Definition find_sensor (s : pdr_state) (sensorID : Z) : option (nat * list Z) :=
  list_find (fun r => sensor_id_of r = sensorID)
    (take (Z.to_nat (count PLDM_NUMERIC_SENSOR_PDR)) (numeric_sensor_table s)).

Definition get_pdr_with_sensor_id (s : pdr_state) (sensorID : Z) : option (list Z) :=
  snd <$> find_sensor s sensorID.

Definition change_critical (f : Z) (s : pdr_state) (sensorID v : Z) : pdr_state * Z :=
  match find_sensor s sensorID with
  | Some (i, r) =>
      (set_numeric_sensors (<[i := patch r f (le_bytes 4 v)]> (numeric_sensor_table s)) s, 0)
  | None => (s, -1)
  end.

Definition change_pdr_table_critical_high_with_sensor_id := change_critical f_critical_high.
Definition change_pdr_table_critical_low_with_sensor_id := change_critical f_critical_low.

Definition check_supported_threshold_with_sensor_id (s : pdr_state) (sensorID : Z) : Z :=
  match find_sensor s sensorID with
  | Some (_, r) => if negb (rd r f_supported_thresholds =? 0) then 0 else -1
  | None => -1
  end.
End lookup.

(** ** Names *)

(** The UTF-8 bytes of a code unit. *)
Definition utf8 (c : Z) : list Z :=
  if c <? 0x80 then [c]
  else if c <? 0x800 then [0xC0 .| (c .>> 6); 0x80 .| (c .& 0x3F)]
  else [0xE0 .| (c .>> 12); 0x80 .| ((c .>> 6) .& 0x3F); 0x80 .| (c .& 0x3F)].

(** The bytes written to [dest] from [dest_index] = [i] on. [None]: the string has no end. A
    code unit has 16 bits, so that the branch for four bytes is never taken. *)
Fixpoint char16_loop (src : list Z) (i max_length : Z) : option (list Z) :=
  match src with
  | [] => None
  | c :: src =>
      if (c =? 0) || negb (i <? max_length - 1) then Some [0]
      else
        let e := utf8 c in
        if (1 <? zlen e) && (max_length - 1 <=? i + (zlen e - 1)) then Some [0]
        else rest ← char16_loop src (i + zlen e) max_length; Some (e ++ rest)
  end.

(** [max_length] is at least 1 in every use. *)
Definition char16_to_char (src : list Z) (max_length : Z) : option (list Z) :=
  char16_loop src 0 max_length.

(** The code units of a [char16_t] array. *)
Fixpoint units (n : nat) (mem : list Z) (off : Z) : list Z :=
  match n with
  | O => []
  | S n => rd16 mem off :: units n mem (off + 2)
  end.

Definition be16 (c : Z) : Z := ((c .& 0xFF) .<< 8) .| (c .>> 8).

(** The units up to the end marker with their bytes exchanged. *)
Fixpoint units_be16 (l : list Z) : list Z :=
  match l with
  | [] => []
  | c :: l => if c =? 0 then c :: l else be16 c :: units_be16 l
  end.

Fixpoint c_string (l : list Z) : list Z :=
  match l with [] => [] | c :: l => if c =? 0 then [] else c :: c_string l end.

(** The string [snprintf] leaves with [n] bytes of room. *)
Definition snprintf (n : Z) (l : list Z) : list Z := take (Z.to_nat (n - 1)) l ++ [0].

Section names.
Context (P : pdr_platform).
Abbreviation name_len := (MAX_AUX_SENSOR_NAME_LEN P).

(** The first [n] entries of the name table, whatever the table has: [None] past its end. *)
Fixpoint find_name (t : list (list Z)) (n : nat) (sensor_id : Z) : option (option (list Z)) :=
  match n with
  | O => Some None
  | S n =>
      match t with
      | [] => None
      | r :: t => if sensor_id_of r =? sensor_id then Some (Some r) else find_name t n sensor_id
      end
  end.

Definition default_name : list Z := [85; 78; 75; 78; 79; 87; 78; 32; 83; 69; 78; 83; 79; 82; 32; 78; 65; 77; 69; 0].

(** [block]: what the block allocated for the entity name holds, [strlen16 * 3] bytes. *)
Definition pldm_get_sensor_name_via_sensor_id (s : pdr_state) (block : Z -> list Z) (sensor_id max_length : Z)
    : option (list Z * Z) :=
  r ← find_name (sensor_auxiliary_names_table s) (Z.to_nat (plat_get_pdr_size P PLDM_NUMERIC_SENSOR_PDR)) sensor_id;
  match r with
  | None => name ← char16_to_char default_name max_length; Some (name, -1)
  | Some r =>
      name ← char16_to_char (units_be16 (units (Z.to_nat name_len) r f_sensorName)) max_length;
      if name_len <? zlen name then None
      else
        let mem := entity_auxiliary_names_table s in
        let entity := units (Z.to_nat ((zlen mem - f_entityName) / 2)) mem f_entityName in
        n ← strlen16 entity;
        temp ← strcpy16 (block (n * 3 / 2)) entity;
        temp ← ch16_strcat_char temp;
        temp_buff ← char16_to_char (units_be16 temp) name_len;
        Some (snprintf max_length (c_string temp_buff ++ [95] ++ c_string name), 0)
  end.
End names.

(** ** The headers *)

Lemma zlen_init_header h size r :
  sizeof_PDR_common_header <= zlen r -> zlen (init_header h size r) = zlen r.
Proof.
  unfold sizeof_PDR_common_header, init_header, f_record_handle, f_data_length. intros.
  by rewrite !zlen_patch by (rewrite ?zlen_patch, ?zlen_le_bytes; rewrite ?zlen_le_bytes; lia).
Qed.

(** What initialisation makes of a record of the platform: it gets its handle and the length of
    its body, keeps the rest of its header, and [body] relates the bodies. *)
Record initialised (h size : Z) (body : list Z -> list Z -> Prop) (r0 r : list Z) : Prop := {
  in_size : zlen r = size;
  in_bytes : bytes_ok r;
  in_handle : record_handle r = h;
  in_length : rd16 r f_data_length = u16 (rd16 r0 f_data_length + (size - sizeof_PDR_common_header));
  in_header : rd32 r 4 = rd32 r0 4;
  in_body : body r0 r }.

Definition same_body (r0 r : list Z) : Prop := forall i, sizeof_PDR_common_header <= i -> rd r i = rd r0 i.

Lemma init_header_spec h size r :
  sizeof_PDR_common_header <= size -> zlen r = size -> bytes_ok r -> 0 <= h < 4294967296 ->
  initialised h size same_body r (init_header h size r).
Proof.
  unfold sizeof_PDR_common_header. intros Hs Hz Hb Hh.
  assert (Hp : zlen (patch r f_record_handle (le_bytes 4 h)) = size)
    by (rewrite zlen_patch; unfold f_record_handle; rewrite ?zlen_le_bytes; lia).
  unfold init_header, record_handle. split.
  - rewrite <- Hz. apply zlen_init_header. unfold sizeof_PDR_common_header. lia.
  - apply bytes_ok_patch; [apply bytes_ok_patch|]; auto with word.
  - unfold f_record_handle, f_data_length in *. unfold record_handle, f_record_handle.
    rewrite rd32_patch_other by (rewrite ?zlen_le_bytes; lia). apply rd32_patch_same; lia.
  - unfold f_record_handle, f_data_length in *. apply rd16_patch_same; [lia..|]. apply u16_range.
  - unfold f_record_handle, f_data_length in *.
    rewrite rd32_patch_other by (rewrite ?zlen_le_bytes; lia).
    by rewrite rd32_patch_other by (rewrite ?zlen_le_bytes; lia).
  - intros i Hi. unfold sizeof_PDR_common_header, f_record_handle, f_data_length in *.
    rewrite rd_patch by (rewrite ?zlen_le_bytes; lia). rewrite zlen_le_bytes.
    destruct (Z.ltb_spec i (8 + Z.of_nat 2)); [lia|]. rewrite andb_false_r.
    rewrite rd_patch by (rewrite ?zlen_le_bytes; lia). rewrite zlen_le_bytes.
    destruct (Z.ltb_spec i (0 + Z.of_nat 4)); [lia|]. by rewrite andb_false_r.
Qed.

Lemma lookup_init_headers h size t i :
  0 <= h -> h + zlen t < 4294967296 ->
  init_headers h size t !! i = init_header (h + Z.of_nat i) size <$> t !! i.
Proof.
  revert h i. induction t as [|r t IH]; intros h i Hh Hl; [done|].
  rewrite zlen_cons in Hl. pose proof (zlen_nonneg t). cbn [init_headers].
  destruct i as [|i]; cbn [lookup list_lookup]; [by rewrite Z.add_0_r|].
  change (init_headers (u32 (h + 1)) size t !! i = init_header (h + Z.of_nat (S i)) size <$> t !! i).
  rewrite u32_id by lia. rewrite IH by lia. by replace (h + 1 + Z.of_nat i) with (h + Z.of_nat (S i)) by lia.
Qed.

Lemma length_init_headers h size t : length (init_headers h size t) = length t.
Proof. revert h. induction t as [|r t IH]; intros h; cbn; [done|]. by rewrite IH. Qed.

(** ** Names *)

(** There is an end marker in the memory after [off]. *)
Definition terminated (off : Z) (mem : list Z) : Prop :=
  exists k : nat, off + 2 * Z.of_nat k + 2 <= zlen mem /\ rd16 mem (off + 2 * Z.of_nat k) = 0.

Lemma to_be16_spec k fuel mem off :
  0 <= off -> bytes_ok mem -> (k < fuel)%nat ->
  off + 2 * Z.of_nat k + 2 <= zlen mem -> rd16 mem (off + 2 * Z.of_nat k) = 0 ->
  exists mem', to_be16 fuel mem off = Some mem' /\ zlen mem' = zlen mem /\ bytes_ok mem' /\
    (forall i, 0 <= i < off -> rd mem' i = rd mem i) /\
    (forall n, off + 2 * Z.of_nat n <= zlen mem -> units n mem' off = units_be16 (units n mem off)).
Proof.
  revert fuel mem off. induction k as [|k IH]; intros fuel mem off Ho Hb Hf Hl Hz;
    (destruct fuel as [|fuel]; [lia|]); cbn [to_be16].
  - rewrite Z.add_0_r in Hz. destruct (Z.ltb_spec (zlen mem) (off + 2)); [lia|].
    rewrite Hz. cbn [Z.eqb]. exists mem. split_and!; try done.
    intros [|n] Hn; cbn [units units_be16]; [done|]. by rewrite Hz.
  - destruct (Z.ltb_spec (zlen mem) (off + 2)); [lia|].
    destruct (Z.eqb_spec (rd16 mem off) 0) as [E|E].
    { exists mem. split_and!; try done. intros [|n] Hn; cbn [units units_be16]; [done|]. by rewrite E. }
    set (m1 := patch mem off [rd mem (off + 1); rd mem off]).
    assert (Hz1 : zlen m1 = zlen mem) by (apply zlen_patch; [lia|change (zlen [_; _]) with 2; lia]).
    assert (Hb1 : bytes_ok m1).
    { apply bytes_ok_patch; [done|]. repeat (apply Forall_cons; split); auto with word. }
    assert (Hu : forall i, 0 <= i -> i + 2 <= off \/ off + 2 <= i -> rd16 m1 i = rd16 mem i).
    { intros i Hi Hd. apply rd16_patch_other; change (zlen [_; _]) with 2; lia. }
    destruct (IH fuel m1 (off + 2)) as (m' & -> & Hz' & Hb' & Hlow & Hn); try done; try lia.
    { rewrite Hu by lia. rewrite <- Hz. f_equal. lia. }
    exists m'. split; [done|]. split; [lia|]. split; [done|].
    assert (Hr : forall i, 0 <= i -> rd m1 i =
      if (off <=? i) && (i <? off + 2) then rd [rd mem (off + 1); rd mem off] (i - off) else rd mem i).
    { intros i Hi. unfold m1. by rewrite rd_patch by (change (zlen [_; _]) with 2; lia). }
    split.
    + intros i Hi. rewrite Hlow, Hr by lia. destruct (Z.leb_spec off i); [lia|done].
    + intros [|n] Hnl; cbn [units units_be16]; [done|].
      destruct (Z.eqb_spec (rd16 mem off) 0); [done|]. rewrite Hn by lia. f_equal; [|f_equal].
      * assert (E0 : rd m' off = rd mem (off + 1)).
        { rewrite Hlow, Hr by lia. destruct (Z.leb_spec off off), (Z.ltb_spec off (off + 2)); try lia.
          cbn [andb]. by rewrite Z.sub_diag. }
        assert (E1 : rd m' (off + 1) = rd mem off).
        { rewrite Hlow, Hr by lia. destruct (Z.leb_spec off (off + 1)), (Z.ltb_spec (off + 1) (off + 2)); try lia.
          cbn [andb]. by replace (off + 1 - off) with 1 by lia. }
        unfold rd16, be16. rewrite E0, E1.
        pose proof (rd_range mem off Hb). pose proof (rd_range mem (off + 1) Hb).
        change 0xFF with (Z.ones 8). rewrite Z.land_ones, Z.shiftr_div_pow2 by lia. change (2 ^ 8) with 256.
        replace ((rd mem off + 256 * rd mem (off + 1)) mod 256) with (rd mem off) by (Z.div_mod_to_equations; lia).
        replace ((rd mem off + 256 * rd mem (off + 1)) / 256) with (rd mem (off + 1)) by (Z.div_mod_to_equations; lia).
        rewrite lor_shl by lia. change (2 ^ 8) with 256. lia.
      * clear -Hu Hnl Ho Hz1. assert (G : forall n o, off + 2 <= o -> units n m1 o = units n mem o).
        { clear -Hu Ho. induction n as [|n IH]; intros o Hoo; cbn [units]; [done|].
          rewrite IH by lia. rewrite Hu by lia. done. }
        apply G. lia.
Qed.

Lemma name_to_be16_spec off mem :
  0 <= off -> bytes_ok mem -> terminated off mem ->
  exists mem', name_to_be16 off mem = Some mem' /\ zlen mem' = zlen mem /\ bytes_ok mem' /\
    (forall i, 0 <= i < off -> rd mem' i = rd mem i) /\
    (forall n, off + 2 * Z.of_nat n <= zlen mem -> units n mem' off = units_be16 (units n mem off)).
Proof.
  intros Ho Hb (k & Hk & Hz). apply (to_be16_spec k); try done. unfold zlen in Hk. lia.
Qed.

(** A record with a name: its body up to the name is kept, and the name is sent in UTF-16BE. *)
Definition named_body (off : Z) (r0 r : list Z) : Prop :=
  (forall i, sizeof_PDR_common_header <= i < off -> rd r i = rd r0 i) /\
  (forall n, off + 2 * Z.of_nat n <= zlen r0 -> units n r off = units_be16 (units n r0 off)).

Lemma units_ext n a b off :
  0 <= off -> (forall i, off <= i -> rd a i = rd b i) -> units n a off = units n b off.
Proof.
  intros Ho H. revert off Ho H. induction n as [|n IH]; intros off Ho H; cbn [units]; [done|].
  unfold rd16. rewrite !H by lia. f_equal. apply IH; [lia|]. intros i Hi. apply H. lia.
Qed.

Lemma named_spec off h size r :
  sizeof_PDR_common_header <= off -> sizeof_PDR_common_header <= size ->
  zlen r = size -> bytes_ok r -> 0 <= h < 4294967296 -> terminated off r ->
  exists r', name_to_be16 off (init_header h size r) = Some r' /\ initialised h size (named_body off) r r'.
Proof.
  intros Ho Hs Hz Hb Hh (k & Hk & Ht). destruct (init_header_spec h size r Hs Hz Hb Hh) as [Hz1 Hb1 E1 E2 E3 E4].
  unfold same_body, sizeof_PDR_common_header in *. set (r1 := init_header h size r) in *.
  destruct (name_to_be16_spec off r1) as (r' & E & Hz' & Hb' & Hlow & Hu); [lia|done| |].
  { exists k. split; [lia|]. unfold rd16. rewrite !E4 by lia. exact Ht. }
  exists r'. split; [done|].
  assert (H16 : forall i, 0 <= i -> i + 2 <= off -> rd16 r' i = rd16 r1 i)
    by (intros; unfold rd16; rewrite !Hlow by lia; done).
  assert (H32 : forall i, 0 <= i -> i + 4 <= off -> rd32 r' i = rd32 r1 i)
    by (intros; unfold rd32; rewrite !H16 by lia; done).
  unfold record_handle, f_record_handle, f_data_length in *.
  split; unfold record_handle, f_record_handle, f_data_length; [lia|done|by rewrite H32 by lia|by rewrite H16 by lia|by rewrite H32 by lia|].
  split.
  - intros i Hi. unfold sizeof_PDR_common_header in Hi. rewrite Hlow by lia. apply E4. lia.
  - intros n Hn. rewrite Hu by lia. f_equal. apply units_ext; [lia|]. intros i Hi. apply E4. lia.
Qed.

(** ** The construction *)

(** The tables of a platform: the counts are those of the tables, every record has the size of
    its type, every name ends, and there is at most one record of entity names. *)
Record pdr_platform_ok (P : pdr_platform) : Prop := {
  pk_states : plat_get_pdr_size P PLDM_STATE_SENSOR_PDR = zlen (plat_state_sensor_pdrs P) /\
    Forall (fun r => zlen r = sizeof_PDR_state_sensor /\ bytes_ok r) (plat_state_sensor_pdrs P);
  pk_numeric : plat_get_pdr_size P PLDM_NUMERIC_SENSOR_PDR = zlen (plat_numeric_sensor_pdrs P) /\
    Forall (fun r => zlen r = sizeof_PDR_numeric_sensor /\ bytes_ok r) (plat_numeric_sensor_pdrs P);
  pk_aux : plat_get_pdr_size P PLDM_SENSOR_AUXILIARY_NAMES_PDR = zlen (plat_aux_sensor_names_pdrs P) /\
    Forall (fun r => (zlen r = sizeof_PDR_sensor_auxiliary_names (MAX_AUX_SENSOR_NAME_LEN P) /\ bytes_ok r)
      /\ terminated f_sensorName r) (plat_aux_sensor_names_pdrs P);
  pk_entity : plat_get_pdr_size P PLDM_ENTITY_AUXILIARY_NAMES_PDR = 0 /\ plat_entity_aux_names_pdrs P = [] \/
    plat_get_pdr_size P PLDM_ENTITY_AUXILIARY_NAMES_PDR = 1 /\
    (zlen (plat_entity_aux_names_pdrs P) = plat_get_pdr_entity_aux_names_size P /\
     bytes_ok (plat_entity_aux_names_pdrs P)) /\ terminated f_entityName (plat_entity_aux_names_pdrs P);
  pk_name_len : 0 < MAX_AUX_SENSOR_NAME_LEN P;
  pk_total : zlen (plat_state_sensor_pdrs P) + zlen (plat_numeric_sensor_pdrs P)
    + zlen (plat_aux_sensor_names_pdrs P) + 1 < 4294967296 }.

(** What a table is to the variables of the file. *)
Record table_store {T} (store : T -> pdr_state -> pdr_state) : Prop := {
  ts_info : forall t s, pdr_info (store t s) = pdr_info s;
  ts_over : forall t t' n s, store t' (store t (set_total n s)) = store t' (set_total n s) }.

Lemma load_pdrs_spec {T} P type size sizeof (t t' : T) store init h lg s :
  table_store store -> init h t = Some t' -> pdr_info s = None ->
  0 <= plat_get_pdr_size P type -> 0 <= h -> h + plat_get_pdr_size P type < 4294967296 ->
  total_record_count s = h -> (plat_get_pdr_size P type = 0 -> store t' s = s) ->
  exists lg', load_pdrs P true type size sizeof true t store init (h, lg) s =
    Some (store t' (set_total (h + plat_get_pdr_size P type) s), inl (h + plat_get_pdr_size P type, lg')).
Proof.
  intros [Hi Ho] Hinit Einfo Hc Hh Hlt Et Hempty. unfold load_pdrs.
  destruct (Z.eqb_spec (plat_get_pdr_size P type) 0) as [E|E].
  - exists lg. rewrite E, Z.add_0_r. unfold pm_ret. do 2 f_equal.
    assert (Es : set_total h s = s) by (subst h; by destruct s). by rewrite Es, Hempty.
  - unfold pm_bind, pm_modify, add_repository_size, pm_undefined, pm_ret. cbn [pdr_info set_total].
    rewrite Hi. cbn [pdr_info set_total]. rewrite Einfo. cbn [mbind option_bind].
    rewrite Hinit, Ho, Et, (u32_id (h + _)) by lia. by eexists _.
Qed.

(** Records with consecutive handles. *)
Definition handles_from (h0 : Z) (t : list (list Z)) : Prop :=
  forall i r, t !! i = Some r -> record_handle r = h0 + Z.of_nat i.

Lemma find_handle_seq h0 t h :
  handles_from h0 t -> h0 <= h < h0 + zlen t -> find_handle h (zlen t) t = t !! Z.to_nat (h - h0).
Proof.
  intros Hh Hr. unfold find_handle, zlen in *. rewrite Nat2Z.id, firstn_all.
  destruct (lookup_lt_is_Some_2 t (Z.to_nat (h - h0))) as [r Er]; [lia|]. rewrite Er.
  assert (E : list_find (fun r => record_handle r = h) t = Some (Z.to_nat (h - h0), r)).
  { apply list_find_Some. split; [done|]. split; [rewrite (Hh _ _ Er); lia|].
    intros j y Ej Hlt Hy. rewrite (Hh _ _ Ej) in Hy. lia. }
  by rewrite E.
Qed.

(** The repository: the records in the order of their handles. *)
Record pdr_serves (P : pdr_platform) (s : pdr_state) (l : list (list Z)) : Prop := {
  ps_total : total_record_count s = zlen l;
  ps_handles : handles_from 0 l;
  ps_lookup : forall h, 0 <= h < 4294967296 -> get_pdr_table_via_record_handle P s h = l !! Z.to_nat h;
  ps_small : zlen l < 4294967296 }.

(** The records of a platform, with the size of their type and the relation of their bodies. *)
Definition platform_pdrs (P : pdr_platform) : list (list Z * Z * (list Z -> list Z -> Prop)) :=
  ((fun r => (r, sizeof_PDR_state_sensor, same_body)) <$> plat_state_sensor_pdrs P) ++
  ((fun r => (r, sizeof_PDR_numeric_sensor, same_body)) <$> plat_numeric_sensor_pdrs P) ++
  ((fun r => (r, sizeof_PDR_sensor_auxiliary_names (MAX_AUX_SENSOR_NAME_LEN P), named_body f_sensorName))
     <$> plat_aux_sensor_names_pdrs P) ++
  (if plat_get_pdr_size P PLDM_ENTITY_AUXILIARY_NAMES_PDR =? 0 then []
   else [(plat_entity_aux_names_pdrs P, plat_get_pdr_entity_aux_names_size P, named_body f_entityName)]).

(** The records of a type, from handle [h] on. *)
Definition table_of (h size : Z) (body : list Z -> list Z -> Prop) (t0 t : list (list Z)) : Prop :=
  length t = length t0 /\
  forall i r0, t0 !! i = Some r0 -> exists r, t !! i = Some r /\ initialised (h + Z.of_nat i) size body r0 r.

Lemma table_of_handles h size body t0 t : table_of h size body t0 t -> handles_from h t.
Proof.
  intros [Hl H] i r Hr. pose proof (lookup_lt_Some _ _ _ Hr).
  destruct (lookup_lt_is_Some_2 t0 i) as [r0 Hr0]; [lia|]. destruct (H i r0 Hr0) as (r' & E & Hi).
  simplify_eq. apply Hi.
Qed.

Lemma init_headers_table h size t :
  sizeof_PDR_common_header <= size -> 0 <= h -> h + zlen t < 4294967296 ->
  Forall (fun r => zlen r = size /\ bytes_ok r) t -> table_of h size same_body t (init_headers h size t).
Proof.
  intros Hs Hh Hl Ht. split; [apply length_init_headers|]. intros i r0 Hr.
  rewrite lookup_init_headers, Hr by lia. eexists. split; [done|].
  pose proof (lookup_lt_Some _ _ _ Hr). rewrite Forall_forall in Ht.
  destruct (Ht r0) as [Hz Hb]; [by eapply list_elem_of_lookup_2|]. apply init_header_spec; try done. unfold zlen in Hl. lia.
Qed.

Lemma init_names_table h size off t :
  sizeof_PDR_common_header <= off -> sizeof_PDR_common_header <= size -> 0 <= h -> h + zlen t < 4294967296 ->
  Forall (fun r => (zlen r = size /\ bytes_ok r) /\ terminated off r) t ->
  exists t', mapM (name_to_be16 off) (init_headers h size t) = Some t' /\ table_of h size (named_body off) t t'.
Proof.
  intros Ho Hs. revert h. induction t as [|r t IH]; intros h Hh Hl Ht.
  { exists []. split; [done|]. split; [done|]. done. }
  rewrite zlen_cons in Hl. pose proof (zlen_nonneg t). inversion Ht as [|? ? [[Hz Hb] Hterm] Ht']; subst.
  destruct (named_spec off h (zlen r) r) as (r' & E & Hr'); try done; [lia|].
  destruct (IH (h + 1)) as (t' & Et & Hlen & Htab); [lia|lia|done|].
  exists (r' :: t'). cbn [init_headers mapM]. rewrite E. cbn [mbind option_bind].
  rewrite u32_id by lia. change (mapM (name_to_be16 off) (init_headers (h + 1) (zlen r) t)) with
    (mapM (name_to_be16 off) (init_headers (h + 1) (zlen r) t)) in Et. rewrite Et. split; [done|].
  split; [cbn; lia|]. intros [|i] r0 Hi; cbn in Hi.
  - injection Hi as <-. exists r'. split; [done|]. by rewrite Z.add_0_r.
  - destruct (Htab i r0 Hi) as (r1 & E1 & H1). exists r1. split; [done|].
    by replace (h + Z.of_nat (S i)) with (h + 1 + Z.of_nat i) by lia.
Qed.

Lemma rd_init_header h size r i :
  sizeof_PDR_common_header <= zlen r -> 0 <= i ->
  rd (init_header h size r) i =
    if (8 <=? i) && (i <? 10) then
      rd (le_bytes 2 (u16 (rd16 r f_data_length + (size - sizeof_PDR_common_header)))) (i - 8)
    else if i <? 4 then rd (le_bytes 4 h) i else rd r i.
Proof.
  unfold sizeof_PDR_common_header, init_header, f_record_handle, f_data_length. intros Hr Hi.
  rewrite rd_patch by (rewrite ?zlen_patch, ?zlen_le_bytes; rewrite ?zlen_le_bytes; lia).
  rewrite zlen_le_bytes. destruct (_ && _) eqn:E; [done|].
  rewrite rd_patch by (rewrite ?zlen_le_bytes; lia). rewrite zlen_le_bytes, Z.sub_0_r.
  destruct (Z.leb_spec 0 i); [|lia]. done.
Qed.

Lemma list_rd_ext a b : zlen a = zlen b -> (forall i, 0 <= i < zlen a -> rd a i = rd b i) -> a = b.
Proof.
  intros Hl H. apply list_eq. intros i. unfold zlen in *.
  destruct (decide (i < length a)%nat) as [Hi|Hi].
  - destruct (lookup_lt_is_Some_2 a i Hi) as [x Ex], (lookup_lt_is_Some_2 b i ltac:(lia)) as [y Ey].
    specialize (H (Z.of_nat i) ltac:(lia)). unfold rd in H. rewrite Nat2Z.id, Ex, Ey in H. cbn in H. congruence.
  - by rewrite !lookup_ge_None_2 by lia.
Qed.

(** One record of entity names. *)
Lemma init_entities_one h size mem :
  zlen mem = size -> bytes_ok mem -> 0 <= h < 4294967295 -> terminated f_entityName mem ->
  exists mem', init_entities 1 0 h size mem = Some mem' /\
    initialised h size (named_body f_entityName) mem mem'.
Proof.
  intros Hz Hb Hh Ht. assert (Hs : 23 <= size).
  { destruct Ht as (k & Hk & _). unfold f_entityName in Hk. lia. }
  cbn [init_entities]. unfold sizeof_PDR_entity_auxiliary_names, f_entityName in *.
  destruct (Z.ltb_spec (zlen mem) (0 * 21 + 21)); [lia|].
  assert (Hz21 : zlen (slice mem 0 21) = 21) by (apply zlen_slice; lia).
  assert (E : patch mem (0 * 21) (init_header h size (slice mem (0 * 21) 21)) = init_header h size mem).
  { change (0 * 21) with 0. apply list_rd_ext.
    - rewrite zlen_patch; rewrite ?zlen_init_header; unfold sizeof_PDR_common_header; lia.
    - intros i [Hi _]. rewrite rd_patch; rewrite ?zlen_init_header by (unfold sizeof_PDR_common_header; lia); try lia.
      rewrite Hz21, Z.sub_0_r, (rd_init_header h size mem) by (unfold sizeof_PDR_common_header; lia).
      destruct (Z.leb_spec 0 i); [|lia]. destruct (Z.ltb_spec i (0 + 21)); cbn [andb].
      + rewrite rd_init_header by (unfold sizeof_PDR_common_header; lia).
        rewrite rd16_slice by (unfold f_data_length; lia). rewrite rd_slice by lia. done.
      + destruct (Z.ltb_spec i 10), (Z.ltb_spec i 4); try lia. by rewrite andb_false_r. }
  rewrite E. change (0 * 21 + 21) with 21.
  destruct (named_spec 21 h size mem) as (mem' & -> & Hi); try done; try (unfold sizeof_PDR_common_header; lia).
  cbn. by exists mem'.
Qed.

Lemma pm_bind_inl {A B} (m : PM A) (k : A -> PM B) s s' a :
  m s = Some (s', inl a) -> pm_bind m k s = k a s'.
Proof. unfold pm_bind. by intros ->. Qed.

Lemma handles_app h a b :
  handles_from h a -> handles_from (h + zlen a) b -> handles_from h (a ++ b).
Proof.
  intros Ha Hb i r Hr. apply lookup_app_Some in Hr as [Hr|[Hl Hr]]; [by apply Ha|].
  rewrite (Hb _ _ Hr). unfold zlen. lia.
Qed.

Lemma table_of_zlen h size body t0 t : table_of h size body t0 t -> zlen t = zlen t0.
Proof. intros [Hl _]. unfold zlen. by rewrite Hl. Qed.

(** Which record of which table is the [i]-th of the repository. *)
Lemma table_of_app h size body t0 t l0 l :
  table_of h size body t0 t ->
  (forall i r0 sz (bd : list Z -> list Z -> Prop), l0 !! i = Some (r0, sz, bd) ->
     exists r, l !! i = Some r /\ initialised (h + zlen t0 + Z.of_nat i) sz bd r0 r) ->
  forall i r0 sz bd, (((fun r => (r, size, body)) <$> t0) ++ l0) !! i = Some (r0, sz, bd) ->
    exists r, (t ++ l) !! i = Some r /\ initialised (h + Z.of_nat i) sz bd r0 r.
Proof.
  intros [Hlen H] Hl i r0 sz bd Hi. apply lookup_app_Some in Hi as [Hi|[Hge Hi]].
  - rewrite list_lookup_fmap in Hi. destruct (t0 !! i) as [x|] eqn:Ex; [|done]. cbn in Hi. simplify_eq.
    destruct (H _ _ Ex) as (r & Er & Hr). exists r. split; [|done]. by apply lookup_app_l_Some.
  - rewrite length_fmap in *. destruct (Hl _ _ _ _ Hi) as (r & Er & Hr). exists r.
    split; [rewrite lookup_app_r by lia; by rewrite Hlen|].
    unfold zlen in Hr. by replace (h + Z.of_nat i) with (h + Z.of_nat (length t0) + Z.of_nat (i - length t0)) by lia.
Qed.

Section construction.
Context (P : pdr_platform) (HP : pdr_platform_ok P).
Let n1 : Z := zlen (plat_state_sensor_pdrs P).
Let n2 : Z := zlen (plat_numeric_sensor_pdrs P).
Let n3 : Z := zlen (plat_aux_sensor_names_pdrs P).
Let n4 : Z := plat_get_pdr_size P PLDM_ENTITY_AUXILIARY_NAMES_PDR.
Let aux : Z := sizeof_PDR_sensor_auxiliary_names (MAX_AUX_SENSOR_NAME_LEN P).
Let ent : Z := plat_get_pdr_entity_aux_names_size P.

Lemma counts : 0 <= n1 /\ 0 <= n2 /\ 0 <= n3 /\ 0 <= n4 <= 1 /\ n1 + n2 + n3 + 1 < 4294967296.
Proof using HP.
  split_and!; try apply zlen_nonneg; try apply (pk_total P HP);
    destruct (pk_entity P HP) as [[E _]|[E _]]; unfold n4; rewrite E; lia.
Qed.

(** The block of entity names and its records. *)
Record entity_table (h : Z) (mem : list Z) (e : list (list Z)) : Prop := {
  et_count : zlen e = n4;
  et_empty : n4 = 0 -> mem = [];
  et_memory : n4 = 1 -> e = [mem];
  et_handles : handles_from h e;
  et_find : forall k, h <= k < h + n4 -> find_entity P k (Z.to_nat n4) 0 mem = e !! Z.to_nat (k - h);
  et_record : forall i r0 sz (bd : list Z -> list Z -> Prop),
    (if n4 =? 0 then [] else [(plat_entity_aux_names_pdrs P, ent, named_body f_entityName)]) !! i
      = Some (r0, sz, bd) -> exists r, e !! i = Some r /\ initialised (h + Z.of_nat i) sz bd r0 r }.

Lemma entity_part h :
  0 <= h < 4294967295 -> exists mem e,
    init_entities (Z.to_nat n4) 0 h ent (plat_entity_aux_names_pdrs P) = Some mem /\ entity_table h mem e.
Proof using HP.
  intros Hh. destruct (pk_entity P HP) as [[E ->]|(E & [Hz Hb] & Ht)].
  - exists [], []. unfold n4. rewrite E. split; [done|]. split; unfold n4; rewrite ?E; done.
  - destruct (init_entities_one h ent (plat_entity_aux_names_pdrs P)) as (mem & Em & Hm); try done.
    unfold n4. exists mem, [mem]. rewrite E. split; [exact Em|].
    pose proof (in_size _ _ _ _ _ Hm) as Hzm. pose proof (in_handle _ _ _ _ _ Hm) as Hhm.
    split; unfold n4; rewrite ?E; try done.
    + intros [|i] r Hr; [|done]. injection Hr as <-. lia.
    + intros k Hk. assert (k = h) as -> by lia. rewrite Z.sub_diag. change (Z.to_nat 1) with 1%nat.
      cbn [find_entity]. change (0 * sizeof_PDR_entity_auxiliary_names) with 0.
      unfold record_handle, f_record_handle in Hhm. rewrite Hhm, Z.eqb_refl, slice_all by (fold ent; lia). done.
    + intros [|i] r0 sz bd Hi; cbn in Hi; [|done]. simplify_eq. exists mem. by rewrite Z.add_0_r.
Qed.

(** The tables after [pdr_init]. *)
Record pdr_tables (t1 t2 t3 : list (list Z)) (mem : list Z) (e : list (list Z)) : Prop := {
  pt_1 : table_of 0 sizeof_PDR_state_sensor same_body (plat_state_sensor_pdrs P) t1;
  pt_2 : table_of n1 sizeof_PDR_numeric_sensor same_body (plat_numeric_sensor_pdrs P) t2;
  pt_3 : table_of (n1 + n2) aux (named_body f_sensorName) (plat_aux_sensor_names_pdrs P) t3;
  pt_4 : entity_table (n1 + n2 + n3) mem e }.

Lemma pdr_init_run b : exists t1 t2 t3 mem e lg,
  pdr_tables t1 t2 t3 mem e /\
  pdr_init_body P true (fun _ => true) (Some b) pdr_zero =
    Some (mk_pdr (n1 + n2 + n3 + n4)
            (Some (mk_pdr_info PDR_STATE_AVAILABLE (n1 + n2 + n3 + n4) (repository_size b) lg))
            t1 t2 t3 mem, inl 0).
Proof using HP.
  pose proof counts as (G1 & G2 & G3 & G4 & Gt).
  assert (Haux : sizeof_PDR_common_header <= aux).
  { pose proof (pk_name_len P HP). unfold aux, sizeof_PDR_sensor_auxiliary_names, sizeof_PDR_common_header. lia. }
  destruct (pk_states P HP) as [C1 F1], (pk_numeric P HP) as [C2 F2], (pk_aux P HP) as [C3 F3].
  fold n1 in C1. fold n2 in C2. fold n3 in C3. fold aux in F3.
  destruct (init_names_table (n1 + n2) aux f_sensorName (plat_aux_sensor_names_pdrs P))
    as (t3 & E3 & T3); [done|done|lia|fold n3; lia|done|].
  destruct (entity_part (n1 + n2 + n3)) as (mem & e & E4 & T4); [lia|].
  exists (init_headers 0 sizeof_PDR_state_sensor (plat_state_sensor_pdrs P)),
    (init_headers n1 sizeof_PDR_numeric_sensor (plat_numeric_sensor_pdrs P)), t3, mem, e.
  assert (Hst : table_store set_state_sensors /\ table_store set_numeric_sensors /\
    table_store set_aux_names /\ table_store set_entity_names) by (split_and!; by split).
  destruct Hst as (S1 & S2 & S3 & S4). unfold pdr_init_body.
  destruct (load_pdrs_spec P PLDM_STATE_SENSOR_PDR sizeof_PDR_state_sensor sizeof_PDR_state_sensor (plat_state_sensor_pdrs P) _ _
    (fun h t => Some (init_headers h sizeof_PDR_state_sensor t)) 0 0 pdr_zero S1 eq_refl)
    as (lg1 & E1); rewrite ?C1; try done; try lia.
  { intros E. rewrite (nil_length_inv (plat_state_sensor_pdrs P)); [done|]. unfold n1, zlen in E. lia. }
  erewrite pm_bind_inl by exact E1. rewrite C1.
  destruct (load_pdrs_spec P PLDM_NUMERIC_SENSOR_PDR sizeof_PDR_numeric_sensor sizeof_PDR_numeric_sensor (plat_numeric_sensor_pdrs P) _ _
    (fun h t => Some (init_headers h sizeof_PDR_numeric_sensor t)) (0 + n1) lg1
    (set_state_sensors (init_headers 0 sizeof_PDR_state_sensor (plat_state_sensor_pdrs P))
       (set_total (0 + n1) pdr_zero)) S2 eq_refl)
    as (lg2 & E2); rewrite ?C2; try done; try lia.
  { intros E. rewrite (nil_length_inv (plat_numeric_sensor_pdrs P)); [done|]. unfold n2, zlen in E. lia. }
  erewrite pm_bind_inl by exact E2. rewrite C2.
  match goal with |- context [pm_bind _ _ ?s] =>
    destruct (load_pdrs_spec P PLDM_SENSOR_AUXILIARY_NAMES_PDR aux aux (plat_aux_sensor_names_pdrs P) t3 set_aux_names
      (fun h t => mapM (name_to_be16 f_sensorName) (init_headers h aux t)) (0 + n1 + n2) lg2 s S3 E3)
      as (lg3 & E3'); [done|lia|lia|lia|done| |] end.
  { intros E. rewrite (nil_length_inv t3); [done|]. destruct T3 as [Hl _]. rewrite C3 in E. unfold n3, zlen in E. lia. }
  erewrite pm_bind_inl by exact E3'. rewrite C3. fold n4 ent.
  match goal with |- context [pm_bind _ _ ?s] =>
    destruct (load_pdrs_spec P PLDM_ENTITY_AUXILIARY_NAMES_PDR ent sizeof_PDR_entity_auxiliary_names (plat_entity_aux_names_pdrs P) mem set_entity_names
      (fun h t => init_entities (Z.to_nat n4) 0 h ent t) (0 + n1 + n2 + n3) lg3 s S4 E4)
      as (lg4 & E4'); [done|fold n4; lia|lia|fold n4; lia|done| |] end.
  { intros E. by rewrite (et_empty _ _ _ T4 E). }
  erewrite pm_bind_inl by exact E4'. exists lg4. split; [|reflexivity].
  split; [| |exact T3|exact T4]; apply init_headers_table; try done; fold n1 n2; lia.
Qed.

Lemma tables_serve t1 t2 t3 mem e info :
  pdr_tables t1 t2 t3 mem e ->
  pdr_serves P (mk_pdr (n1 + n2 + n3 + n4) info t1 t2 t3 mem) (t1 ++ t2 ++ t3 ++ e).
Proof using HP.
  intros [T1 T2 T3 T4]. pose proof counts as (G1 & G2 & G3 & G4 & Gt).
  pose proof (table_of_zlen _ _ _ _ _ T1) as Z1. pose proof (table_of_zlen _ _ _ _ _ T2) as Z2.
  pose proof (table_of_zlen _ _ _ _ _ T3) as Z3. pose proof (et_count _ _ _ T4) as Z4.
  fold n1 in Z1. fold n2 in Z2. fold n3 in Z3.
  pose proof (table_of_handles _ _ _ _ _ T1) as H1. pose proof (table_of_handles _ _ _ _ _ T2) as H2.
  pose proof (table_of_handles _ _ _ _ _ T3) as H3. pose proof (et_handles _ _ _ T4) as H4.
  split; cbn [total_record_count]; rewrite ?zlen_app; try lia.
  - repeat apply handles_app; [done| | |]; rewrite ?Z1, ?Z2, ?Z3, ?Z.add_0_l; done.
  - intros h Hh. unfold get_pdr_table_via_record_handle.
    destruct (pk_states P HP) as [C1 _], (pk_numeric P HP) as [C2 _], (pk_aux P HP) as [C3 _].
    rewrite C1, C2, C3. fold n1 n2 n3 n4. cbn [state_sensor_table numeric_sensor_table
      sensor_auxiliary_names_table entity_auxiliary_names_table]. rewrite !u32_id by lia.
    unfold zlen in Z1, Z2, Z3, Z4.
    destruct (Z.ltb_spec h n1).
    { rewrite lookup_app_l by lia. rewrite <- Z1. change (Z.of_nat (length t1)) with (zlen t1).
      rewrite (find_handle_seq 0) by (done || unfold zlen; lia). by rewrite Z.sub_0_r. }
    rewrite lookup_app_r by lia. destruct (Z.ltb_spec h (n2 + n1)).
    { rewrite lookup_app_l by lia. rewrite <- Z2. change (Z.of_nat (length t2)) with (zlen t2).
      rewrite (find_handle_seq n1) by (done || unfold zlen; lia). f_equal. lia. }
    rewrite lookup_app_r by lia. destruct (Z.ltb_spec h (n2 + n3 + n1)).
    { rewrite lookup_app_l by lia. rewrite <- Z3. change (Z.of_nat (length t3)) with (zlen t3).
      rewrite (find_handle_seq (n1 + n2)) by (done || unfold zlen; lia). f_equal. lia. }
    rewrite lookup_app_r by lia. destruct (Z.ltb_spec h (n2 + n3 + n4 + n1)).
    { rewrite (et_find _ _ _ T4) by lia. f_equal. lia. }
    rewrite lookup_ge_None_2; [done|]. lia.
Qed.
End construction.

(** The types in the order of [pdr_init], and the first that has records. *)
Definition pdr_types : list Z :=
  [PLDM_STATE_SENSOR_PDR; PLDM_NUMERIC_SENSOR_PDR; PLDM_SENSOR_AUXILIARY_NAMES_PDR; PLDM_ENTITY_AUXILIARY_NAMES_PDR].
Definition first_type (P : pdr_platform) : option Z :=
  List.find (fun type => negb (plat_get_pdr_size P type =? 0)) pdr_types.

Lemma load_pdrs_skip {T} P sv type size sizeof mok (t : T) store init acc s :
  plat_get_pdr_size P type = 0 -> load_pdrs P sv type size sizeof mok t store init acc s = Some (s, inl acc).
Proof. intros E. unfold load_pdrs. destruct acc. by rewrite E. Qed.

(** The first type with records ends the call. *)
Lemma load_pdrs_first {T A} P type size sizeof (mok : bool) (t : T) store init acc s (k : Z * Z -> PM A) :
  table_store store -> pdr_info s = None -> plat_get_pdr_size P type <> 0 ->
  if mok then pm_bind (load_pdrs P false type size sizeof mok t store init acc) k s = None
  else exists s', pm_bind (load_pdrs P false type size sizeof mok t store init acc) k s = Some (s', inr (-1)).
Proof.
  intros [Hi _] Es Hc. unfold load_pdrs, pm_modify, pm_return, add_repository_size. destruct acc as [h lg].
  destruct (Z.eqb_spec (plat_get_pdr_size P type) 0); [done|]. unfold pm_bind. destruct mok; [|by eexists].
  cbn [pdr_info set_total]. rewrite Hi. cbn [pdr_info set_total]. by rewrite Es.
Qed.

(** What [pdr_init] does as C defines it: the first type with records decides. *)
Lemma pdr_init_defined P (malloc_ok : Z -> bool) b :
  match first_type P with
  | Some type =>
      if malloc_ok type then pdr_init P malloc_ok (Some b) pdr_zero = None
      else exists s, pdr_init P malloc_ok (Some b) pdr_zero = Some (s, inr (-1))
  | None => pdr_init P malloc_ok (Some b) pdr_zero =
      Some (set_pdr_info (Some (mk_pdr_info PDR_STATE_AVAILABLE 0 (repository_size b) 0)) pdr_zero, inl 0)
  end.
Proof.
  unfold first_type, pdr_types, pdr_init, pdr_init_body. cbn [List.find].
  repeat match goal with |- context [if negb (plat_get_pdr_size P ?t =? 0) then _ else _] =>
    destruct (Z.eqb_spec (plat_get_pdr_size P t) 0); cbn [negb];
    [erewrite pm_bind_inl by by apply load_pdrs_skip | by apply load_pdrs_first]
  end. done.
Qed.

Lemma pdr_init_builds P b :
  pdr_platform_ok P ->
  exists s l, pdr_init_body P true (fun _ => true) (Some b) pdr_zero = Some (s, inl 0) /\
    pdr_serves P s l /\ record_count <$> pdr_info s = Some (zlen l) /\
    length l = length (platform_pdrs P) /\
    forall i r0 size body, platform_pdrs P !! i = Some (r0, size, body) ->
      exists r, l !! i = Some r /\ initialised (Z.of_nat i) size body r0 r.
Proof.
  intros HP. destruct (pdr_init_run P HP b) as (t1 & t2 & t3 & mem & e & lg & T & E).
  pose proof (counts P HP) as (G1 & G2 & G3 & G4 & Gt).
  eexists _, (t1 ++ t2 ++ t3 ++ e). split; [exact E|]. split; [by apply tables_serve|].
  destruct T as [T1 T2 T3 T4]. cbn [pdr_info fmap option_fmap option_map record_count].
  pose proof (table_of_zlen _ _ _ _ _ T1). pose proof (table_of_zlen _ _ _ _ _ T2).
  pose proof (table_of_zlen _ _ _ _ _ T3). pose proof (et_count _ _ _ _ T4).
  split_and!.
  - rewrite !zlen_app. f_equal. lia.
  - unfold platform_pdrs. rewrite !length_app, !length_fmap. unfold zlen in *.
    set (n4 := plat_get_pdr_size P PLDM_ENTITY_AUXILIARY_NAMES_PDR) in *.
    assert (length e = length (if n4 =? 0 then [] else [(plat_entity_aux_names_pdrs P,
      plat_get_pdr_entity_aux_names_size P, named_body f_entityName)])); [|lia].
    destruct (Z.eqb_spec n4 0); cbn; lia.
  - apply (table_of_app 0 _ _ _ _ _ _ T1). rewrite Z.add_0_l.
    apply (table_of_app _ _ _ _ _ _ _ T2). apply (table_of_app _ _ _ _ _ _ _ T3). apply T4.
Qed.


(** ** The name of a sensor *)

Definition utf8_str (l : list Z) : list Z := l ≫= utf8.

(** The code units before the end marker. *)
Definition chars (l : list Z) : Prop := Forall (fun c => 0 < c < 65536) l.

Lemma be16_range c : 0 < c < 65536 -> 0 < be16 c < 65536.
Proof.
  intros Hc. unfold be16. change 0xFF with (Z.ones 8). rewrite Z.land_ones, Z.shiftr_div_pow2 by lia.
  rewrite lor_shl by (change (2 ^ 8) with 256; Z.div_mod_to_equations; lia).
  change (2 ^ 8) with 256. Z.div_mod_to_equations. lia.
Qed.

Lemma be16_be16 c : 0 < c < 65536 -> be16 (be16 c) = c.
Proof.
  intros Hc. unfold be16. change 0xFF with (Z.ones 8). rewrite !Z.land_ones, !Z.shiftr_div_pow2 by lia.
  change (2 ^ 8) with 256.
  rewrite (lor_shl (c mod 256)) by (change (2 ^ 8) with 256; Z.div_mod_to_equations; lia).
  change (2 ^ 8) with 256.
  replace ((c mod 256 * 256 + c / 256) mod 256) with (c / 256) by (Z.div_mod_to_equations; lia).
  replace ((c mod 256 * 256 + c / 256) / 256) with (c mod 256) by (Z.div_mod_to_equations; lia).
  rewrite lor_shl by (change (2 ^ 8) with 256; Z.div_mod_to_equations; lia).
  change (2 ^ 8) with 256. Z.div_mod_to_equations. lia.
Qed.

Lemma units_be16_app l rest : chars l -> units_be16 (l ++ 0 :: rest) = (be16 <$> l) ++ 0 :: rest.
Proof.
  induction 1 as [|c l Hc _ IH]; cbn [app units_be16 fmap list_fmap]; [done|].
  destruct (Z.eqb_spec c 0); [lia|]. by rewrite <- IH.
Qed.

Lemma chars_be16 l : chars l -> chars (be16 <$> l).
Proof. intros H. apply Forall_fmap. eapply Forall_impl; [exact H|]. intros c. apply be16_range. Qed.

Lemma units_be16_twice l rest : chars l -> units_be16 (units_be16 (l ++ 0 :: rest)) = l ++ 0 :: rest.
Proof.
  intros H. rewrite units_be16_app, units_be16_app by (done || by apply chars_be16). f_equal.
  rewrite <- list_fmap_compose. induction H as [|c l Hc _ IH]; cbn; [done|]. by rewrite be16_be16, IH.
Qed.

Lemma utf8_nonzero c : 0 < c < 65536 -> Forall (fun b => b <> 0) (utf8 c).
Proof.
  intros Hc. assert (Hor : forall a x, 0 < a -> 0 <= x -> a .| x <> 0).
  { intros a x Ha Hx E. apply Z.lor_eq_0_iff in E. lia. }
  assert (Hnn : forall z, 0 <= z -> 0 <= z .& 0x3F) by (intros; apply Z.land_nonneg; lia).
  unfold utf8. destruct (Z.ltb_spec c 0x80); [repeat constructor; lia|].
  destruct (Z.ltb_spec c 0x800); repeat (apply Forall_cons; split); try apply Forall_nil; try done;
    apply Hor; try lia; rewrite ?Z.shiftr_nonneg; try lia; apply Hnn; rewrite ?Z.shiftr_nonneg; lia.
Qed.

Lemma c_string_utf8 l rest : chars l -> c_string (utf8_str l ++ 0 :: rest) = utf8_str l.
Proof.
  assert (H : forall a k, Forall (fun b => b <> 0) a -> c_string (a ++ k) = a ++ c_string k).
  { induction 1 as [|b a Hb _ IH]; [done|]. cbn. destruct (Z.eqb_spec b 0); [done|]. by rewrite IH. }
  intros Hl. unfold utf8_str. rewrite H.
  - cbn [c_string]. by rewrite app_nil_r.
  - induction Hl as [|c l Hc _ IH]; [apply Forall_nil; done|]. cbn. apply Forall_app. split; [by apply utf8_nonzero|done].
Qed.

Lemma char16_loop_fits l rest i max :
  chars l -> 0 <= i -> i + zlen (utf8_str l) <= max - 1 ->
  char16_loop (l ++ 0 :: rest) i max = Some (utf8_str l ++ [0]).
Proof.
  intros Hl. revert i. induction Hl as [|c l Hc _ IH]; intros i Hi Hm; [done|].
  assert (E : utf8_str (c :: l) = utf8 c ++ utf8_str l) by reflexivity.
  rewrite E in *. rewrite zlen_app in Hm. pose proof (zlen_nonneg (utf8_str l)).
  assert (Hu : 1 <= zlen (utf8 c)).
  { unfold utf8. destruct (_ <? _); [done|]. by destruct (_ <? _). }
  cbn [app char16_loop]. destruct (Z.eqb_spec c 0); [lia|].
  destruct (Z.ltb_spec i (max - 1)); [|lia]. cbn [orb negb].
  destruct (Z.leb_spec (max - 1) (i + (zlen (utf8 c) - 1))); [lia|]. rewrite andb_false_r.
  rewrite IH by lia. cbn. by rewrite app_assoc.
Qed.

(** Whatever the string, at most [max_length] bytes are written. *)
Lemma char16_to_char_bounded src max out :
  1 <= max -> char16_to_char src max = Some out -> zlen out <= max.
Proof.
  unfold char16_to_char. intros Hm. assert (H : forall i, 0 <= i <= max - 1 -> forall out,
    char16_loop src i max = Some out -> i + zlen out <= max); [|intros E; by apply (H 0 ltac:(lia)) in E].
  induction src as [|c src IH]; intros i Hi o E; [done|]. cbn [char16_loop] in E.
  destruct (_ || negb (i <? max - 1)) eqn:E0; [injection E as <-; change (zlen [0]) with 1; lia|].
  assert (Hil : i < max - 1) by (destruct (Z.ltb_spec i (max - 1)); [done|by rewrite orb_true_r in E0]).
  destruct (_ && _) eqn:E1; [injection E as <-; change (zlen [0]) with 1; lia|].
  destruct (char16_loop src _ max) as [rest|] eqn:Er; [|done]. cbn in E. injection E as <-.
  rewrite zlen_app. apply IH in Er; [lia|]. pose proof (zlen_nonneg (utf8 c)).
  apply andb_false_iff in E1 as [E1|E1]; [apply Z.ltb_ge in E1|apply Z.leb_gt in E1]; lia.
Qed.

Lemma strlen16_app l rest : chars l -> strlen16 (l ++ 0 :: rest) = Some (zlen l).
Proof.
  induction 1 as [|c l Hc _ IH]; [done|]. cbn [app strlen16]. destruct (Z.eqb_spec c 0); [lia|].
  rewrite IH. cbn. rewrite zlen_cons. f_equal. lia.
Qed.

Lemma strcpy16_app l rest dest :
  chars l -> (length l < length dest)%nat ->
  exists tail, strcpy16 dest (l ++ 0 :: rest) = Some (l ++ 0 :: tail).
Proof.
  intros Hl. revert dest. induction Hl as [|c l Hc _ IH]; intros [|d dest] Hd; cbn in Hd; try lia.
  - by exists dest.
  - destruct (IH dest) as [tail E]; [lia|]. exists tail. cbn [app strcpy16].
    destruct (Z.eqb_spec c 0); [lia|]. by rewrite E.
Qed.

(** The first record of a sensor, and the name of the terminus and of the sensor in the tables of
    the platform. *)
Definition names_of (P : pdr_platform) (sensor_id : Z) (entity name : list Z) : Prop :=
  (exists i r0 rest, plat_aux_sensor_names_pdrs P !! i = Some r0 /\
     Z.of_nat i < plat_get_pdr_size P PLDM_NUMERIC_SENSOR_PDR /\ sensor_id_of r0 = sensor_id /\
     (forall j r, (j < i)%nat -> plat_aux_sensor_names_pdrs P !! j = Some r -> sensor_id_of r <> sensor_id) /\
     units (Z.to_nat (MAX_AUX_SENSOR_NAME_LEN P)) r0 f_sensorName = name ++ 0 :: rest) /\
  plat_get_pdr_size P PLDM_ENTITY_AUXILIARY_NAMES_PDR = 1 /\
  exists rest, units (Z.to_nat ((plat_get_pdr_entity_aux_names_size P - f_entityName) / 2))
    (plat_entity_aux_names_pdrs P) f_entityName = entity ++ 0 :: rest.

Lemma find_name_first t n i r id :
  t !! i = Some r -> (i < n)%nat -> sensor_id_of r = id ->
  (forall j r, (j < i)%nat -> t !! j = Some r -> sensor_id_of r <> id) ->
  find_name t n id = Some (Some r).
Proof.
  revert n i. induction t as [|r0 t IH]; intros n i Hi Hn Hid Hf; [done|].
  destruct n as [|n]; [lia|]. cbn [find_name]. destruct i as [|i]; cbn in Hi.
  - simplify_eq. by rewrite Z.eqb_refl.
  - pose proof (Hf 0%nat r0 ltac:(lia) eq_refl). destruct (Z.eqb_spec (sensor_id_of r0) id); [done|].
    apply (IH n i); try done; [lia|]. intros j r1 Hj Hr1. apply (Hf (S j)); [lia|done].
Qed.

(** The data of the names after [pdr_init]. *)
Lemma pdr_init_names P b s id entity name :
  pdr_platform_ok P -> names_of P id entity name ->
  pdr_init_body P true (fun _ => true) (Some b) pdr_zero = Some (s, inl 0) ->
  (exists r rest, find_name (sensor_auxiliary_names_table s)
     (Z.to_nat (plat_get_pdr_size P PLDM_NUMERIC_SENSOR_PDR)) id = Some (Some r) /\
     units (Z.to_nat (MAX_AUX_SENSOR_NAME_LEN P)) r f_sensorName = units_be16 (name ++ 0 :: rest)) /\
  exists rest, let mem := entity_auxiliary_names_table s in
    units (Z.to_nat ((zlen mem - f_entityName) / 2)) mem f_entityName = units_be16 (entity ++ 0 :: rest).
Proof.
  intros HP [(i & r0 & rest & Hi & Hn & Hid & Hf & Hu) (He & rest' & Hue)] E.
  destruct (pdr_init_run P HP b) as (t1 & t2 & t3 & mem & e & lg & T & E').
  rewrite E in E'. injection E' as ->. cbn [sensor_auxiliary_names_table entity_auxiliary_names_table].
  destruct T as [_ _ [Hl3 H3] T4]. pose proof (pk_name_len P HP) as Hnl.
  assert (Hids : forall j r r0, plat_aux_sensor_names_pdrs P !! j = Some r0 -> t3 !! j = Some r ->
    sensor_id_of r = sensor_id_of r0).
  { intros j r r1 Hj Hr. destruct (H3 _ _ Hj) as (r' & Er & [_ _ _ _ _ [Hb _]]). simplify_eq.
    unfold sensor_id_of, rd16, f_sensor_id. rewrite !Hb by (split; by vm_compute). done. }
  split.
  - destruct (H3 _ _ Hi) as (r & Er & [_ _ _ _ _ [_ Hb]]). exists r, rest. split.
    + apply (find_name_first _ _ i); [done|lia|by rewrite (Hids i r r0)|].
      intros j r' Hj Hr'. destruct (lookup_lt_is_Some_2 (plat_aux_sensor_names_pdrs P) j) as [rj Erj].
      { rewrite <- Hl3. by eapply lookup_lt_Some. }
      rewrite (Hids j r' rj) by done. by eapply Hf.
    + rewrite Hb; [by rewrite Hu|]. destruct (pk_aux P HP) as [_ Ha]. rewrite Forall_forall in Ha.
      destruct (Ha r0) as [[Hz _] _]; [by eapply list_elem_of_lookup_2|]. rewrite Hz.
      unfold f_sensorName, sizeof_PDR_sensor_auxiliary_names. lia.
  - destruct (pk_entity P HP) as [[E0 _]|(_ & [Hz _] & Ht)]; [lia|]. exists rest'. cbv zeta.
    destruct (et_record _ _ _ _ T4 0%nat (plat_entity_aux_names_pdrs P) (plat_get_pdr_entity_aux_names_size P)
      (named_body f_entityName)) as (r & Er & [Hzr _ _ _ _ [_ Hb]]); [by rewrite He|].
    rewrite (et_memory _ _ _ _ T4 He) in Er. injection Er as <-. rewrite Hzr, Hb; [by rewrite Hue|].
    rewrite Hz. destruct Ht as (k & Hk & _). unfold f_entityName in *. rewrite Hz in Hk.
    Z.div_mod_to_equations. lia.
Qed.

(** The name of a sensor that the repository of [pdr_init] (if its store through NULL is survived) stores in UTF-16BE is given back
    as UTF-8: the name of the terminus, an underscore and the name of the sensor, as the platform
    wrote them, cut to the room of the caller; no buffer is overrun. *)
Theorem pdr_sensor_name P b s block id max entity name :
  pdr_platform_ok P -> names_of P id entity name -> chars entity -> chars name ->
  pdr_init_body P true (fun _ => true) (Some b) pdr_zero = Some (s, inl 0) ->
  (forall n, length (block n) = Z.to_nat n) -> 2 <= zlen entity ->
  zlen (utf8_str entity) < MAX_AUX_SENSOR_NAME_LEN P ->
  zlen (utf8_str name) < Z.min max (MAX_AUX_SENSOR_NAME_LEN P) ->
  pldm_get_sensor_name_via_sensor_id P s block id max =
    Some (snprintf max (utf8_str entity ++ [95] ++ utf8_str name), 0).
Proof.
  intros HP Hn Hce Hcn E Hblock H2 Hle Hln.
  destruct (pdr_init_names P b s id entity name HP Hn E) as [(r & rest & Er & Hu) (rest' & Hue)].
  unfold pldm_get_sensor_name_via_sensor_id. rewrite Er. cbn [mbind option_bind].
  rewrite Hu, units_be16_twice by done. unfold char16_to_char. rewrite char16_loop_fits by (done || lia).
  cbn [mbind option_bind]. rewrite zlen_app. change (zlen [0]) with 1.
  destruct (Z.ltb_spec (MAX_AUX_SENSOR_NAME_LEN P) (zlen (utf8_str name) + 1)); [lia|].
  cbv zeta in Hue |- *. rewrite Hue, units_be16_app by done.
  assert (Hl : length (be16 <$> entity) = length entity) by apply length_fmap.
  rewrite strlen16_app by (by apply chars_be16). cbn [mbind option_bind].
  destruct (strcpy16_app (be16 <$> entity) rest' (block (zlen (be16 <$> entity) * 3 / 2))) as [tail Et].
  { by apply chars_be16. }
  { rewrite Hblock, Hl. unfold zlen in *. rewrite Hl. Z.div_mod_to_equations. lia. }
  rewrite Et. cbn [mbind option_bind].
  destruct (ch16_strcat_char _) as [temp|] eqn:Ec; [|by unfold ch16_strcat_char in Ec; rewrite strlen16_app in Ec by (by apply chars_be16)].
  apply ch16_strcat_char_id in Ec as ->. cbn [mbind option_bind].
  rewrite <- units_be16_app, units_be16_twice by done.
  rewrite char16_loop_fits by (done || lia). cbn [mbind option_bind]. by rewrite !c_string_utf8.
Qed.

(** ** Thresholds *)

(** A threshold that was set is in the record the sensor has from then on; no other record
    changes. *)
Lemma change_critical_spec P f s id v i r :
  find_sensor P s id = Some (i, r) -> sizeof_PDR_common_header + 4 <= f -> f + 4 <= zlen r -> 0 <= v < 4294967296 ->
  exists r', change_critical P f s id v = (set_numeric_sensors (<[i := r']> (numeric_sensor_table s)) s, 0) /\
    rd32 r' f = v /\ sensor_id_of r' = id /\ get_pdr_with_sensor_id P
      (set_numeric_sensors (<[i := r']> (numeric_sensor_table s)) s) id = Some r'.
Proof.
  unfold sizeof_PDR_common_header. intros E Hf Hl Hv. exists (patch r f (le_bytes 4 v)).
  unfold change_critical. rewrite E. split; [done|].
  unfold find_sensor in E. apply list_find_Some in E as (Ei & Hid & Hfirst).
  assert (Hi : (i < Z.to_nat (plat_get_pdr_size P PLDM_NUMERIC_SENSOR_PDR))%nat).
  { apply lookup_lt_Some in Ei. rewrite length_take in Ei. lia. }
  rewrite lookup_take_lt in Ei by done.
  assert (Hsid : sensor_id_of (patch r f (le_bytes 4 v)) = id).
  { unfold sensor_id_of, f_sensor_id in *. by rewrite rd16_patch_other by (rewrite ?zlen_le_bytes; lia). }
  split_and!; [by apply rd32_patch_same; lia|done|].
  unfold get_pdr_with_sensor_id, find_sensor. cbn [numeric_sensor_table set_numeric_sensors].
  erewrite (proj2 (list_find_Some _ _ i _)); [done|]. split_and!; [|done|].
  - rewrite lookup_take_lt by done. apply list_lookup_insert_eq. by eapply lookup_lt_Some.
  - intros j y Hj Hlt. rewrite lookup_take_lt, list_lookup_insert_ne in Hj by lia.
    apply (Hfirst j y); [|done]. by rewrite lookup_take_lt by lia.
Qed.

(** ** A platform of two sensors' worth of records, for the witnesses *)

Definition demo_pdr_platform : pdr_platform :=
  mk_pdr_platform (fun t => if t =? PLDM_STATE_SENSOR_PDR then 0 else 1)
    [] [patch (zeros 105) 12 [5; 0]] [patch (patch (zeros 99) 12 [5; 0]) 19 [65; 0]]
    (patch (zeros 27) 21 [66; 0; 73; 0]) 27 40.

Lemma demo_pdr_platform_ok : pdr_platform_ok demo_pdr_platform.
Proof.
  assert (Hz : forall n, bytes_ok (zeros n)) by (intros; by apply Forall_replicate).
  assert (Hb : forall a b, 0 <= a < 256 -> 0 <= b < 256 -> bytes_ok [a; b]) by (intros; by repeat (apply Forall_cons; split)).
  split; try done.
  - split; [done|]. apply Forall_singleton. split; [done|]. by apply bytes_ok_patch; [|apply Hb].
  - split; [done|]. apply Forall_singleton. split; [split; [done|]|].
    + by apply bytes_ok_patch; [apply bytes_ok_patch; [|apply Hb]|apply Hb].
    + exists 1%nat. split; [by vm_compute|done].
  - right. split; [done|]. split; [split; [done|]|].
    + apply bytes_ok_patch; [done|]. by repeat (apply Forall_cons; split).
    + exists 2%nat. split; [by vm_compute|done].
Qed.


Definition demo_pdr : pdr_state :=
  match pdr_init_body demo_pdr_platform true (fun _ => true) (Some (mk_pdr_info 0 0 0 0)) pdr_zero with
  | Some (s, _) => s
  | None => pdr_zero
  end.

Lemma demo_pdr_init :
  pdr_init_body demo_pdr_platform true (fun _ => true) (Some (mk_pdr_info 0 0 0 0)) pdr_zero = Some (demo_pdr, inl 0).
Proof. vm_compute. reflexivity. Qed.

Lemma pdr_sensor_name_witness :
  pldm_get_sensor_name_via_sensor_id demo_pdr_platform demo_pdr (fun n => zeros n) 5 40 =
    Some ([66; 73; 95; 65; 0], 0).
Proof.
  apply (pdr_sensor_name demo_pdr_platform (mk_pdr_info 0 0 0 0) demo_pdr (fun n => zeros n) 5 40 [66; 73] [65]).
  - apply demo_pdr_platform_ok.
  - split; [|split; [done|by exists []]].
    exists 0%nat, (patch (patch (zeros 99) 12 [5; 0]) 19 [65; 0]). eexists.
    split; [done|]. split; [done|]. split; [done|]. split; [intros; lia|]. vm_compute. reflexivity.
  - by repeat (apply Forall_cons; split).
  - by repeat (apply Forall_cons; split).
  - apply demo_pdr_init.
  - intros n. apply length_replicate.
  - done.
  - done.
  - done.
Defined.

(** The count of numeric sensors bounds the loop over the names: with fewer name records than
    numeric sensors the search of an unknown sensor runs past the table. *)
Lemma sensor_name_overrun P s block id max :
  zlen (sensor_auxiliary_names_table s) < plat_get_pdr_size P PLDM_NUMERIC_SENSOR_PDR ->
  Forall (fun r => sensor_id_of r <> id) (sensor_auxiliary_names_table s) ->
  pldm_get_sensor_name_via_sensor_id P s block id max = None.
Proof.
  intros Hl Hf. unfold pldm_get_sensor_name_via_sensor_id.
  assert (E : find_name (sensor_auxiliary_names_table s) (Z.to_nat (plat_get_pdr_size P PLDM_NUMERIC_SENSOR_PDR)) id = None).
  { unfold zlen in Hl. assert (Hn : (length (sensor_auxiliary_names_table s) <
      Z.to_nat (plat_get_pdr_size P PLDM_NUMERIC_SENSOR_PDR))%nat) by lia. clear Hl. revert Hn.
    generalize (Z.to_nat (plat_get_pdr_size P PLDM_NUMERIC_SENSOR_PDR)) as n.
    induction Hf as [|r t Hr _ IH]; intros n Hn; (destruct n as [|n]; [cbn in Hn; lia|]); cbn [find_name]; [done|].
    destruct (Z.eqb_spec (sensor_id_of r) id); [done|]. apply IH. cbn in Hn. lia. }
  by rewrite E.
Qed.
