(* ===== verification/MctpCore.v ===== *)
(** Component [common/service/mctp/mctp.c] (data from [mctp.h]): one MCTP
    instance, its life cycle, the packetizing transmit task and the
    reassembling receive task. The assembly buffers [temp_msg_buf[8][2]] are a
    list of 16 slots, slot [2 * tag + to]. A pointer that may be NULL is an
    [option]; callbacks are the handles they were registered with and their
    invocations are the events a step emits. *)

From stdpp Require Import strings.
From S2P Require Import Prelude Bytes.

(** ** Constants and data *)

Definition MCTP_SUCCESS : Z := 0.
Definition MCTP_ERROR : Z := 1.
Definition MSG_ASSEMBLY_BUF_SIZE : Z := 1024.
Definition MCTP_DEFAULT_ENDPOINT : Z := 0x0A.
Definition MCTP_NULL_EID : Z := 0x00.
Definition MCTP_DEFAULT_MSG_MAX_SIZE : Z := 244.
Definition MCTP_TRANSPORT_HEADER_SIZE : Z := 4.
Definition MCTP_MAX_MSG_TAG_NUM : Z := 8.
Definition MCTP_HDR_HDR_VER : Z := 0x01.
Definition MCTP_HDR_SEQ_MASK : Z := 0x03.
Definition MCTP_HDR_TAG_MASK : Z := 0x07.

(** [MCTP_MEDIUM_TYPE], a C enum: any [int] can be stored in it. *)
Definition MCTP_MEDIUM_TYPE_UNKNOWN : Z := 0.
Definition MCTP_MEDIUM_TYPE_SMBUS : Z := 1.
Definition MCTP_MEDIUM_TYPE_CONTROLLER_I3C : Z := 2.
Definition MCTP_MEDIUM_TYPE_TARGET_I3C : Z := 3.
Definition MCTP_MEDIUM_TYPE_USB : Z := 4.
Definition MCTP_MEDIUM_TYPE_MAX : Z := 5.

(** [mctp_hdr]: four bytes, the last one a bit-field union. *)
Record mctp_hdr := mk_hdr {
  hdr_ver : Z; hdr_dest_ep : Z; hdr_src_ep : Z;
  hdr_msg_tag : Z; hdr_to : Z; hdr_pkt_seq : Z; hdr_eom : Z; hdr_som : Z }.

Definition flags_seq_to_tag (h : mctp_hdr) : Z :=
  hdr_msg_tag h .| (hdr_to h .<< 3) .| (hdr_pkt_seq h .<< 4)
  .| (hdr_eom h .<< 6) .| (hdr_som h .<< 7).

Definition hdr_bytes (h : mctp_hdr) : list Z :=
  [hdr_ver h; hdr_dest_ep h; hdr_src_ep h; flags_seq_to_tag h].

(** The cast [(mctp_hdr * )buf]. *)
Definition hdr_of (buf : list Z) : mctp_hdr :=
  let f := rd buf 3 in
  mk_hdr (rd buf 0) (rd buf 1) (rd buf 2)
    (f .& 7) (bit f 3) ((f .>> 4) .& 3) (bit f 6) (bit f 7).

(** The medium parameters of the union are all an address. *)
Record mctp_ext_params := mk_ext {
  ext_tag_owner : Z; ext_msg_tag : Z; ext_ep : Z; ext_type : Z; ext_addr : Z }.

(** The three members of the [mctp_medium_conf] union have this layout. *)
Record mctp_medium_conf := mk_conf { conf_bus : Z; conf_addr : Z }.

(** [mctp_tx_msg]; [tx_buf = None] is a NULL pointer. *)
Record mctp_tx_msg := mk_tx_msg {
  is_bridge_packet : Z; tx_buf : option (list Z); tx_len : Z; tx_ext_params : mctp_ext_params }.

Record asm_slot := mk_slot { slot_buf : option (list Z); slot_offset : Z }.
Definition empty_slot : asm_slot := mk_slot None 0.

(** The medium driver whose read/write functions an instance points to. *)
Inductive medium_fn := fn_smbus | fn_i3c_target | fn_i3c_controller | fn_usb.

(** [struct _mctp]. The task ids and the queue's [buffer_start] are pointers
    the code only compares with NULL, kept as booleans. *)
Record mctp := mk_mctp {
  is_servcie_start : Z;
  medium_type : Z;
  endpoint : Z;
  max_msg_size : Z;
  medium_conf : mctp_medium_conf;
  read_data : option medium_fn;
  write_data : option medium_fn;
  ep_resolve : option Z;
  mctp_rx_task_tid : bool;
  mctp_tx_task_tid : bool;
  mctp_rx_task_name : string;
  mctp_tx_task_name : string;
  mctp_tx_queue : bool;
  temp_msg_buf : list asm_slot;
  rx_cb : option Z;
  inst_msg_tag : Z }.

Definition set_is_servcie_start (v : Z) (s : mctp) : mctp :=
  mk_mctp v (medium_type s) (endpoint s) (max_msg_size s) (medium_conf s) (read_data s) (write_data s) (ep_resolve s) (mctp_rx_task_tid s) (mctp_tx_task_tid s) (mctp_rx_task_name s) (mctp_tx_task_name s) (mctp_tx_queue s) (temp_msg_buf s) (rx_cb s) (inst_msg_tag s).
Definition set_medium_type (v : Z) (s : mctp) : mctp :=
  mk_mctp (is_servcie_start s) v (endpoint s) (max_msg_size s) (medium_conf s) (read_data s) (write_data s) (ep_resolve s) (mctp_rx_task_tid s) (mctp_tx_task_tid s) (mctp_rx_task_name s) (mctp_tx_task_name s) (mctp_tx_queue s) (temp_msg_buf s) (rx_cb s) (inst_msg_tag s).
Definition set_endpoint (v : Z) (s : mctp) : mctp :=
  mk_mctp (is_servcie_start s) (medium_type s) v (max_msg_size s) (medium_conf s) (read_data s) (write_data s) (ep_resolve s) (mctp_rx_task_tid s) (mctp_tx_task_tid s) (mctp_rx_task_name s) (mctp_tx_task_name s) (mctp_tx_queue s) (temp_msg_buf s) (rx_cb s) (inst_msg_tag s).
Definition set_max_msg_size (v : Z) (s : mctp) : mctp :=
  mk_mctp (is_servcie_start s) (medium_type s) (endpoint s) v (medium_conf s) (read_data s) (write_data s) (ep_resolve s) (mctp_rx_task_tid s) (mctp_tx_task_tid s) (mctp_rx_task_name s) (mctp_tx_task_name s) (mctp_tx_queue s) (temp_msg_buf s) (rx_cb s) (inst_msg_tag s).
Definition set_medium_conf (v : mctp_medium_conf) (s : mctp) : mctp :=
  mk_mctp (is_servcie_start s) (medium_type s) (endpoint s) (max_msg_size s) v (read_data s) (write_data s) (ep_resolve s) (mctp_rx_task_tid s) (mctp_tx_task_tid s) (mctp_rx_task_name s) (mctp_tx_task_name s) (mctp_tx_queue s) (temp_msg_buf s) (rx_cb s) (inst_msg_tag s).
Definition set_read_data (v : option medium_fn) (s : mctp) : mctp :=
  mk_mctp (is_servcie_start s) (medium_type s) (endpoint s) (max_msg_size s) (medium_conf s) v (write_data s) (ep_resolve s) (mctp_rx_task_tid s) (mctp_tx_task_tid s) (mctp_rx_task_name s) (mctp_tx_task_name s) (mctp_tx_queue s) (temp_msg_buf s) (rx_cb s) (inst_msg_tag s).
Definition set_write_data (v : option medium_fn) (s : mctp) : mctp :=
  mk_mctp (is_servcie_start s) (medium_type s) (endpoint s) (max_msg_size s) (medium_conf s) (read_data s) v (ep_resolve s) (mctp_rx_task_tid s) (mctp_tx_task_tid s) (mctp_rx_task_name s) (mctp_tx_task_name s) (mctp_tx_queue s) (temp_msg_buf s) (rx_cb s) (inst_msg_tag s).
Definition set_ep_resolve (v : option Z) (s : mctp) : mctp :=
  mk_mctp (is_servcie_start s) (medium_type s) (endpoint s) (max_msg_size s) (medium_conf s) (read_data s) (write_data s) v (mctp_rx_task_tid s) (mctp_tx_task_tid s) (mctp_rx_task_name s) (mctp_tx_task_name s) (mctp_tx_queue s) (temp_msg_buf s) (rx_cb s) (inst_msg_tag s).
Definition set_mctp_rx_task_tid (v : bool) (s : mctp) : mctp :=
  mk_mctp (is_servcie_start s) (medium_type s) (endpoint s) (max_msg_size s) (medium_conf s) (read_data s) (write_data s) (ep_resolve s) v (mctp_tx_task_tid s) (mctp_rx_task_name s) (mctp_tx_task_name s) (mctp_tx_queue s) (temp_msg_buf s) (rx_cb s) (inst_msg_tag s).
Definition set_mctp_tx_task_tid (v : bool) (s : mctp) : mctp :=
  mk_mctp (is_servcie_start s) (medium_type s) (endpoint s) (max_msg_size s) (medium_conf s) (read_data s) (write_data s) (ep_resolve s) (mctp_rx_task_tid s) v (mctp_rx_task_name s) (mctp_tx_task_name s) (mctp_tx_queue s) (temp_msg_buf s) (rx_cb s) (inst_msg_tag s).
Definition set_mctp_rx_task_name (v : string) (s : mctp) : mctp :=
  mk_mctp (is_servcie_start s) (medium_type s) (endpoint s) (max_msg_size s) (medium_conf s) (read_data s) (write_data s) (ep_resolve s) (mctp_rx_task_tid s) (mctp_tx_task_tid s) v (mctp_tx_task_name s) (mctp_tx_queue s) (temp_msg_buf s) (rx_cb s) (inst_msg_tag s).
Definition set_mctp_tx_task_name (v : string) (s : mctp) : mctp :=
  mk_mctp (is_servcie_start s) (medium_type s) (endpoint s) (max_msg_size s) (medium_conf s) (read_data s) (write_data s) (ep_resolve s) (mctp_rx_task_tid s) (mctp_tx_task_tid s) (mctp_rx_task_name s) v (mctp_tx_queue s) (temp_msg_buf s) (rx_cb s) (inst_msg_tag s).
Definition set_mctp_tx_queue (v : bool) (s : mctp) : mctp :=
  mk_mctp (is_servcie_start s) (medium_type s) (endpoint s) (max_msg_size s) (medium_conf s) (read_data s) (write_data s) (ep_resolve s) (mctp_rx_task_tid s) (mctp_tx_task_tid s) (mctp_rx_task_name s) (mctp_tx_task_name s) v (temp_msg_buf s) (rx_cb s) (inst_msg_tag s).
Definition set_temp_msg_buf (v : list asm_slot) (s : mctp) : mctp :=
  mk_mctp (is_servcie_start s) (medium_type s) (endpoint s) (max_msg_size s) (medium_conf s) (read_data s) (write_data s) (ep_resolve s) (mctp_rx_task_tid s) (mctp_tx_task_tid s) (mctp_rx_task_name s) (mctp_tx_task_name s) (mctp_tx_queue s) v (rx_cb s) (inst_msg_tag s).
Definition set_rx_cb (v : option Z) (s : mctp) : mctp :=
  mk_mctp (is_servcie_start s) (medium_type s) (endpoint s) (max_msg_size s) (medium_conf s) (read_data s) (write_data s) (ep_resolve s) (mctp_rx_task_tid s) (mctp_tx_task_tid s) (mctp_rx_task_name s) (mctp_tx_task_name s) (mctp_tx_queue s) (temp_msg_buf s) v (inst_msg_tag s).
Definition set_inst_msg_tag (v : Z) (s : mctp) : mctp :=
  mk_mctp (is_servcie_start s) (medium_type s) (endpoint s) (max_msg_size s) (medium_conf s) (read_data s) (write_data s) (ep_resolve s) (mctp_rx_task_tid s) (mctp_tx_task_tid s) (mctp_rx_task_name s) (mctp_tx_task_name s) (mctp_tx_queue s) (temp_msg_buf s) (rx_cb s) v.

(** [mctp_port] *)
Record mctp_port := mk_port {
  port_mctp_inst : option Z; port_channel_target : Z; port_medium_type : Z;
  port_conf : mctp_medium_conf }.

(** ** Life cycle: [set_thread_name], medium set-up, init, start, stop *)

Definition hex_digit (d : Z) : Ascii.ascii :=
  Ascii.ascii_of_N (Z.to_N (if d <? 10 then 0x30 + d else 0x61 + (d - 10))).

(** ["%02x"] of a byte. *)
Definition hex2 (b : Z) : string :=
  String (hex_digit (b / 16)) (String (hex_digit (b mod 16)) EmptyString).

Definition task_name (prefix : string) (m : mctp) : string :=
  (prefix +:+ hex2 (medium_type m) +:+ "_" +:+ hex2 (conf_bus (medium_conf m))
   +:+ "_" +:+ hex2 (conf_addr (medium_conf m)))%string.

Definition known_medium (t : Z) : bool :=
  (t =? MCTP_MEDIUM_TYPE_USB) || (t =? MCTP_MEDIUM_TYPE_SMBUS)
  || (t =? MCTP_MEDIUM_TYPE_CONTROLLER_I3C) || (t =? MCTP_MEDIUM_TYPE_TARGET_I3C).

Definition set_thread_name (m : mctp) : Z * mctp :=
  if (medium_type m <=? MCTP_MEDIUM_TYPE_UNKNOWN)
     || (MCTP_MEDIUM_TYPE_MAX <=? medium_type m) then (MCTP_ERROR, m)
  else if known_medium (medium_type m) then
    (MCTP_SUCCESS,
     set_mctp_tx_task_name (task_name "mctptx_" m)
       (set_mctp_rx_task_name (task_name "mctprx_" m) m))
  else (MCTP_ERROR, m).

(** The set-up functions of the four media ([mctp_smbus_init] and its like):
    what each returns and leaves in the instance, and the tear-down of each. *)
Record medium_ops := mk_medium_ops {
  op_init : medium_fn -> mctp -> mctp_medium_conf -> Z * mctp;
  op_deinit : medium_fn -> mctp -> mctp }.

(** [i3c] is [ENABLE_MCTP_I3C]. *)
Definition medium_of (i3c : bool) (t : Z) : option medium_fn :=
  if t =? MCTP_MEDIUM_TYPE_SMBUS then Some fn_smbus
  else if i3c && (t =? MCTP_MEDIUM_TYPE_TARGET_I3C) then Some fn_i3c_target
  else if i3c && (t =? MCTP_MEDIUM_TYPE_CONTROLLER_I3C) then Some fn_i3c_controller
  else if t =? MCTP_MEDIUM_TYPE_USB then Some fn_usb
  else None.

Section lifecycle.
Context (i3c : bool) (ops : medium_ops).

Definition mctp_medium_init (m : mctp) (conf : mctp_medium_conf) : Z * mctp :=
  match medium_of i3c (medium_type m) with
  | Some f => op_init ops f m conf
  | None => (MCTP_ERROR, m)
  end.

Definition mctp_medium_deinit (m : mctp) : Z * mctp :=
  match medium_of i3c (medium_type m) with
  | Some f => (MCTP_SUCCESS, op_deinit ops f m)
  | None => (MCTP_ERROR, m)
  end.

Definition mctp_set_medium_configure (m : mctp) (mtype : Z) (conf : mctp_medium_conf)
    : Z * mctp :=
  if (mtype <=? MCTP_MEDIUM_TYPE_UNKNOWN) || (MCTP_MEDIUM_TYPE_MAX <=? mtype)
  then (MCTP_ERROR, m)
  else
    let m := set_medium_type mtype m in
    let '(ret, m) := mctp_medium_init m conf in
    if ret =? MCTP_ERROR then
      let '(_, m) := mctp_medium_deinit m in
      (MCTP_ERROR, set_medium_type MCTP_MEDIUM_TYPE_UNKNOWN m)
    else (MCTP_SUCCESS, m).

(** [malloc_ok]: the allocation succeeded. *)
Definition mctp_init (malloc_ok : bool) (eid : Z) : option mctp :=
  if malloc_ok then
    Some (mk_mctp 0 MCTP_MEDIUM_TYPE_UNKNOWN eid MCTP_DEFAULT_MSG_MAX_SIZE (mk_conf 0 0)
            None None None false false "" "" false (replicate 16 empty_slot) None 0)
  else None.

Definition mctp_get_medium_configure (m : mctp) : Z * Z * mctp_medium_conf :=
  (MCTP_SUCCESS, medium_type m, medium_conf m).

Definition mctp_stop (m : mctp) : Z * mctp :=
  let m := if mctp_rx_task_tid m then set_mctp_rx_task_tid false m else m in
  let m := if mctp_tx_task_tid m then set_mctp_tx_task_tid false m else m in
  let m := if mctp_tx_queue m then set_mctp_tx_queue false m else m in
  (MCTP_SUCCESS, set_is_servcie_start 0 m).

(** [malloc_ok], [rx_tid], [tx_tid]: the results of the queue allocation and
    of the two [k_thread_create] calls. *)
Definition mctp_start (malloc_ok rx_tid tx_tid : bool) (m : mctp) : Z * mctp :=
  if negb (is_servcie_start m =? 0) then (MCTP_ERROR, m)
  else
    let '(_, m) := set_thread_name m in
    if negb malloc_ok then (MCTP_ERROR, snd (mctp_stop m)) else
    let m := set_mctp_tx_queue true m in
    let m := set_mctp_rx_task_tid rx_tid m in
    if negb rx_tid then (MCTP_ERROR, snd (mctp_stop m)) else
    let m := set_mctp_tx_task_tid tx_tid m in
    if negb tx_tid then (MCTP_ERROR, snd (mctp_stop m)) else
    (MCTP_SUCCESS, set_is_servcie_start 1 m).

(** The instance as it is when [free] is called on it. *)
Definition mctp_deinit (m : mctp) : Z * mctp :=
  let '(_, m) := mctp_stop m in
  let '(_, m) := mctp_medium_deinit m in
  (MCTP_SUCCESS, m).

Definition mctp_reg_endpoint_resolve_func (m : mctp) (resolve_fn : option Z) : Z * mctp :=
  match resolve_fn with
  | None => (MCTP_ERROR, m)
  | Some f => (MCTP_SUCCESS, set_ep_resolve (Some f) m)
  end.

Definition mctp_reg_msg_rx_func (m : mctp) (cb : option Z) : Z * mctp :=
  match cb with
  | None => (MCTP_ERROR, m)
  | Some f => (MCTP_SUCCESS, set_rx_cb (Some f) m)
  end.
End lifecycle.

(** ** Transmit task *)

(** One packet of the loop of [mctp_tx_task], for index [i]: the bytes given to
    [write_data]. [None]: the [memcpy] reads outside the message buffer. *)
Definition tx_packet (m : mctp) (msg : mctp_tx_msg) (buf : list Z)
    (split_pkt_num i : Z) : option (list Z) :=
  let max_msg_size := max_msg_size m in
  let last := i =? split_pkt_num - 1 in
  let remain := u8 (tx_len msg mod max_msg_size) in
  let cp_msg_size := u8 (if last && negb (remain =? 0) then remain else max_msg_size) in
  let to := ext_tag_owner (tx_ext_params msg) mod 2 in
  let hdr := {|
    hdr_ver := MCTP_HDR_HDR_VER;
    hdr_dest_ep := ext_ep (tx_ext_params msg);
    hdr_src_ep := endpoint m;
    hdr_msg_tag := if negb (to =? 0) then inst_msg_tag m .& MCTP_HDR_TAG_MASK
                   else ext_msg_tag (tx_ext_params msg) mod 8;
    hdr_to := to;
    hdr_pkt_seq := i .& MCTP_HDR_SEQ_MASK;
    hdr_eom := Z.b2z last;
    hdr_som := Z.b2z (i =? 0) |} in
  data ← mem_read buf (i * max_msg_size) cp_msg_size;
  Some (hdr_bytes hdr ++ data).

(** The packet loop from index [i]; [write k p] is what [write_data] returns
    for the [k]th packet. Result: the packets written and the final [i]. *)
Fixpoint tx_loop (write : Z -> list Z -> Z) (m : mctp) (msg : mctp_tx_msg) (buf : list Z)
    (split_pkt_num : Z) (n : nat) (i : Z) : option (list (list Z) * Z) :=
  match n with
  | O => Some ([], i)
  | S n =>
      p ← tx_packet m msg buf split_pkt_num i;
      if negb (write i p =? MCTP_SUCCESS) then Some ([p], i)
      else
        '(ps, j) ← tx_loop write m msg buf split_pkt_num n (i + 1);
        Some (p :: ps, j)
  end.

(** One turn of [mctp_tx_task] on a dequeued message: the instance, the packets
    written, and the code put into the requester's event queue. [None] is
    undefined behaviour (division by a zero [max_msg_size], bad [memcpy]). *)
Definition mctp_tx_step (write : Z -> list Z -> Z) (m : mctp) (msg : mctp_tx_msg)
    : option (mctp * list (list Z) * Z) :=
  match tx_buf msg with
  | None => Some (m, [], MCTP_ERROR)
  | Some buf =>
      if tx_len msg =? 0 then Some (m, [], MCTP_ERROR)
      else if negb (is_bridge_packet msg =? 0) then
        data ← mem_read buf 0 (tx_len msg);
        Some (m, [data], u8 (write 0 data))
      else if max_msg_size m =? 0 then None
      else
        let split_pkt_num :=
          u8 (tx_len msg / max_msg_size m
              + (if negb (tx_len msg mod max_msg_size m =? 0) then 1 else 0)) in
        '(ps, i) ← tx_loop write m msg buf split_pkt_num (Z.to_nat split_pkt_num) 0;
        let resp := if i =? split_pkt_num then MCTP_SUCCESS else MCTP_ERROR in
        let m := if negb (ext_tag_owner (tx_ext_params msg) =? 0)
                 then set_inst_msg_tag (u8 (inst_msg_tag m + 1)) m else m in
        Some (m, ps, resp)
  end.

(** [mctp_pass_tx_task]: the message put into the transmit queue, if any, and
    the returned code. [malloc_ok] and [put_ok] are the results of [malloc] and
    [k_msgq_put]; [evt] is what the transmit task answers ([None]: the wait on
    the event queue fails). *)
Definition mctp_pass_tx_task (malloc_ok put_ok : bool) (evt : option Z)
    (m : mctp) (buf : list Z) (len : Z) (ext : mctp_ext_params) (is_bridge : Z)
    : option (Z * option mctp_tx_msg) :=
  if len =? 0 then Some (MCTP_ERROR, None)
  else if is_servcie_start m =? 0 then Some (MCTP_ERROR, None)
  else if negb malloc_ok then Some (MCTP_ERROR, None)
  else
    data ← mem_read buf 0 len;
    if put_ok then
      let msg := mk_tx_msg is_bridge (Some data) len ext in
      match evt with
      | Some e => Some (e, Some msg)
      | None => Some (MCTP_ERROR, Some msg)
      end
    else Some (MCTP_ERROR, None).

Definition mctp_bridge_msg (malloc_ok put_ok : bool) (evt : option Z)
    (m : mctp) (buf : list Z) (len : Z) (ext : mctp_ext_params) :=
  if len =? 0 then Some (MCTP_ERROR, None)
  else mctp_pass_tx_task malloc_ok put_ok evt m buf len ext 1.

Definition mctp_send_msg (malloc_ok put_ok : bool) (evt : option Z)
    (m : mctp) (buf : list Z) (len : Z) (ext : mctp_ext_params) :=
  if len =? 0 then Some (MCTP_ERROR, None)
  else mctp_pass_tx_task malloc_ok put_ok evt m buf len ext 0.

(** ** Receive task *)

Inductive rx_event :=
  | EvBridge (target : Z) (buf : list Z) (ext : mctp_ext_params)
      (** [mctp_bridge_msg] called on another instance *)
  | EvRxCb (cb : Z) (data : list Z) (ext : mctp_ext_params)
      (** the registered message handler called *).

(** [bridge_msg]; [resolve f ep] is what the registered resolver [f] returns
    for a destination endpoint. *)
Definition bridge_msg (resolve : Z -> Z -> option (Z * mctp_ext_params))
    (m : mctp) (buf : list Z) (len : Z) : list rx_event :=
  if len =? 0 then []
  else match ep_resolve m with
  | None => []
  | Some f =>
      match resolve f (hdr_dest_ep (hdr_of buf)) with
      | None => []
      | Some (target, ext) => [EvBridge target (slice buf 0 len) ext]
      end
  end.

Definition slot_index (h : mctp_hdr) : nat := Z.to_nat (2 * hdr_msg_tag h + hdr_to h).

Definition get_slot (m : mctp) (h : mctp_hdr) : asm_slot :=
  default empty_slot (temp_msg_buf m !! slot_index h).
Definition put_slot (h : mctp_hdr) (s : asm_slot) (m : mctp) : mctp :=
  set_temp_msg_buf (<[slot_index h := s]> (temp_msg_buf m)) m.

(** [mctp_pkt_assembling]; [buf] is the 256-byte [read_buf]. [None]: the
    [memcpy] leaves one of the two buffers. The size of the copy is a [size_t]. *)
Definition mctp_pkt_assembling (malloc_ok : bool) (m : mctp) (buf : list Z) (len : Z)
    : option (Z * mctp) :=
  if len =? 0 then Some (MCTP_ERROR, m) else
  let hdr := hdr_of buf in
  let som := negb (hdr_som hdr =? 0) in
  let eom := negb (hdr_eom hdr =? 0) in
  if som && eom then Some (MCTP_SUCCESS, m)
  else if som && negb eom && negb malloc_ok then
    Some (MCTP_ERROR, put_slot hdr (mk_slot None 0) m)
  else
    let s := if som && negb eom
             then mk_slot (Some (zeros MSG_ASSEMBLY_BUF_SIZE)) 0 else get_slot m hdr in
    let m := put_slot hdr s m in
    match slot_buf s with
    | None => Some (MCTP_ERROR, m)
    | Some b =>
        let offset_new := u16 (slot_offset s + len - MCTP_TRANSPORT_HEADER_SIZE) in
        if MSG_ASSEMBLY_BUF_SIZE <? offset_new then Some (MCTP_ERROR, m)
        else
          data ← mem_read buf MCTP_TRANSPORT_HEADER_SIZE
                   (u32 (len - MCTP_TRANSPORT_HEADER_SIZE));
          b ← mem_write b (slot_offset s) data;
          Some (MCTP_SUCCESS, put_slot hdr (mk_slot (Some b) offset_new) m)
    end.

(** The [error:] label of [mctp_rx_task]: release the slot. *)
Definition rx_cleanup (h : mctp_hdr) (m : mctp) : mctp :=
  match slot_buf (get_slot m h) with
  | Some _ => put_slot h empty_slot m
  | None => m
  end.

(** The message a completed packet yields: the assembly buffer of its slot if
    there is one, else the packet's own payload. *)
Definition rx_message (m : mctp) (h : mctp_hdr) (read_buf : list Z) (read_len : Z)
    : option (list Z) :=
  match slot_buf (get_slot m h) with
  | Some b => mem_read b 0 (slot_offset (get_slot m h))
  | None => mem_read read_buf MCTP_TRANSPORT_HEADER_SIZE
              (u16 (read_len - MCTP_TRANSPORT_HEADER_SIZE))
  end.

(** One turn of the loop of [mctp_rx_task]: [read_data] filled the first
    [read_len] bytes of the zeroed [read_buf] and returned the medium part of
    the parameters in [ext0]. *)
Definition mctp_rx_step (resolve : Z -> Z -> option (Z * mctp_ext_params))
    (malloc_ok : bool) (m : mctp) (read_buf : list Z) (read_len : Z)
    (ext0 : mctp_ext_params) : option (mctp * list rx_event) :=
  if read_len =? 0 then Some (m, [])
  else
    let hdr := hdr_of read_buf in
    let ext := mk_ext 0 (hdr_msg_tag hdr) (hdr_src_ep hdr) (ext_type ext0) (ext_addr ext0) in
    if negb (hdr_dest_ep hdr =? endpoint m) && negb (hdr_dest_ep hdr =? MCTP_NULL_EID) then
      Some (m, bridge_msg resolve m read_buf read_len)
    else
      '(ret, m) ← mctp_pkt_assembling malloc_ok m read_buf read_len;
      if ret =? MCTP_ERROR then Some (rx_cleanup hdr m, [])
      else if hdr_eom hdr =? 0 then Some (m, [])
      else
        match rx_cb m with
        | None => Some (rx_cleanup hdr m, [])
        | Some cb =>
            data ← rx_message m hdr read_buf read_len;
            Some (rx_cleanup hdr m, [EvRxCb cb data ext])
        end.

(** A packet as [read_data] leaves it in [read_buf]. *)
Definition in_read_buf (p : list Z) : list Z := p ++ zeros (256 - zlen p).

Fixpoint rx_run (resolve : Z -> Z -> option (Z * mctp_ext_params)) (m : mctp)
    (pkts : list (list Z)) (ext0 : mctp_ext_params) : option (mctp * list rx_event) :=
  match pkts with
  | [] => Some (m, [])
  | p :: ps =>
      '(m, ev) ← mctp_rx_step resolve true m (in_read_buf p) (zlen p) ext0;
      '(m, evs) ← rx_run resolve m ps ext0;
      Some (m, ev ++ evs)
  end.

(** ** Port look-ups *)

Definition pal_find_bus_in_mctp_port (p : option mctp_port) : Z :=
  match p with
  | None => -1
  | Some p => if known_medium (port_medium_type p) then conf_bus (port_conf p) else -1
  end.

(** The ports [0 .. count-1] of the platform table, [get i] being what
    [plat_get_mctp_port(i)] returns. *)
Fixpoint find_port (get : Z -> option mctp_port) (test : mctp_port -> bool)
    (n : nat) (i : Z) : option mctp_port :=
  match n with
  | O => None
  | S n =>
      match get i with
      | Some p => if test p then Some p else find_port get test n (i + 1)
      | None => find_port get test n (i + 1)
      end
  end.

Definition pal_find_mctp_by_bus (count : Z) (get : Z -> option mctp_port) (bus : Z) : option Z :=
  p ← find_port get (fun p => bus =? pal_find_bus_in_mctp_port (Some p)) (Z.to_nat count) 0;
  port_mctp_inst p.

Definition pal_find_mctp_port_by_channel_target (count : Z) (get : Z -> option mctp_port)
    (target : Z) : option mctp_port :=
  find_port get (fun p => target =? port_channel_target p) (Z.to_nat count) 0.

Definition get_mctp_info_by_eid (info : Z -> option (Z * mctp_ext_params)) (port : Z) : bool :=
  match info port with Some _ => true | None => false end.

(** ** Lemmas: header and slots *)

Definition hdr_ok (h : mctp_hdr) : Prop :=
  0 <= hdr_msg_tag h < 8 /\ 0 <= hdr_to h < 2 /\ 0 <= hdr_pkt_seq h < 4 /\
  0 <= hdr_eom h < 2 /\ 0 <= hdr_som h < 2.

Lemma hdr_of_bytes h d : hdr_ok h -> hdr_of (hdr_bytes h ++ d) = h.
Proof.
  destruct h as [v de se t o q e s]. unfold hdr_ok; simpl. intros (Ht & Ho & Hq & He & Hs).
  assert (t = 0 \/ t = 1 \/ t = 2 \/ t = 3 \/ t = 4 \/ t = 5 \/ t = 6 \/ t = 7) by lia.
  assert (o = 0 \/ o = 1) by lia. assert (q = 0 \/ q = 1 \/ q = 2 \/ q = 3) by lia.
  assert (e = 0 \/ e = 1) by lia. assert (s = 0 \/ s = 1) by lia.
  repeat match goal with H : _ \/ _ |- _ => destruct H; try subst end; reflexivity.
Qed.

Lemma hdr_of_ok buf : hdr_ok (hdr_of buf).
Proof.
  unfold hdr_ok, hdr_of; simpl. split_and!; try apply bit_range;
  try (change 7 with (Z.ones 3); rewrite Z.land_ones by lia; apply Z.mod_pos_bound; lia);
  try (change 3 with (Z.ones 2); rewrite Z.land_ones by lia; apply Z.mod_pos_bound; lia);
  unfold bit; change 1 with (Z.ones 1); rewrite Z.land_ones by lia;
  apply Z.mod_pos_bound; lia.
Qed.

Lemma slot_index_lt h : hdr_ok h -> (slot_index h < 16)%nat.
Proof. unfold hdr_ok, slot_index. lia. Qed.

Lemma put_slot_put_slot h h' s s' m :
  slot_index h = slot_index h' -> put_slot h s (put_slot h' s' m) = put_slot h s m.
Proof.
  intros E. unfold put_slot, set_temp_msg_buf; simpl. rewrite E. by rewrite list_insert_insert_eq.
Qed.

Lemma get_put_slot h h' s m :
  hdr_ok h -> length (temp_msg_buf m) = 16%nat -> slot_index h = slot_index h' ->
  get_slot (put_slot h s m) h' = s.
Proof.
  intros Hh Hl E. unfold get_slot, put_slot; simpl. rewrite <- E.
  rewrite list_lookup_insert_eq; [done|]. rewrite Hl. by apply slot_index_lt.
Qed.

Lemma get_put_slot_ne h h' s m :
  slot_index h <> slot_index h' -> get_slot (put_slot h s m) h' = get_slot m h'.
Proof. intros E. unfold get_slot, put_slot; simpl. by rewrite list_lookup_insert_ne. Qed.

Lemma put_slot_id h s m :
  temp_msg_buf m !! slot_index h = Some s -> put_slot h s m = m.
Proof.
  intros E. unfold put_slot. rewrite list_insert_id by done. by destruct m.
Qed.

Lemma length_put_slot h s m :
  length (temp_msg_buf (put_slot h s m)) = length (temp_msg_buf m).
Proof. unfold put_slot; simpl. apply length_insert. Qed.

(** ** Lemmas: the assembly-buffer invariant *)

(** An allocated assembly buffer has its full size and is filled up to an
    offset inside it. *)
Definition slot_wf (s : asm_slot) : Prop :=
  match slot_buf s with
  | None => True
  | Some b => zlen b = MSG_ASSEMBLY_BUF_SIZE /\ 0 <= slot_offset s <= MSG_ASSEMBLY_BUF_SIZE
  end.

Definition mctp_wf (m : mctp) : Prop :=
  length (temp_msg_buf m) = 16%nat /\ Forall slot_wf (temp_msg_buf m).

Lemma mctp_wf_get m h : mctp_wf m -> slot_wf (get_slot m h).
Proof.
  intros [_ H]. unfold get_slot. destruct (temp_msg_buf m !! slot_index h) eqn:E; simpl; [|done].
  by eapply Forall_lookup_1.
Qed.

Lemma mctp_wf_put m h s : mctp_wf m -> slot_wf s -> mctp_wf (put_slot h s m).
Proof.
  intros [Hl H] Hs. split; [by rewrite length_put_slot|].
  unfold put_slot; simpl. by apply Forall_insert.
Qed.

Lemma mctp_wf_cleanup m h : mctp_wf m -> mctp_wf (rx_cleanup h m).
Proof. intros H. unfold rx_cleanup. destruct (slot_buf _); [|done]. by apply mctp_wf_put. Qed.

Lemma assembling_total ok m buf len :
  mctp_wf m -> zlen buf = 256 -> 4 <= len <= 256 ->
  exists ret m', mctp_pkt_assembling ok m buf len = Some (ret, m') /\ mctp_wf m'.
Proof.
  intros Hm Hb Hl. unfold mctp_pkt_assembling.
  destruct (Z.eqb_spec len 0); [lia|]. set (h := hdr_of buf).
  destruct (negb (hdr_som h =? 0) && negb (hdr_eom h =? 0)); [eauto|].
  destruct (negb (hdr_som h =? 0) && negb (negb (hdr_eom h =? 0)) && negb ok).
  { eexists _, _. split; [done|]. by apply mctp_wf_put. }
  set (s := if _ && _ then mk_slot (Some _) _ else get_slot m h).
  assert (Hs : slot_wf s).
  { subst s. destruct (_ && _); [|by apply mctp_wf_get]. split; [by apply zlen_zeros|].
    simpl; unfold MSG_ASSEMBLY_BUF_SIZE; lia. }
  unfold slot_wf, MSG_ASSEMBLY_BUF_SIZE, MCTP_TRANSPORT_HEADER_SIZE in *.
  destruct (slot_buf s) as [b|] eqn:Eb; cbn zeta.
  2:{ eexists _, _. split; [done|]. apply mctp_wf_put; [done|]. unfold slot_wf. by rewrite Eb. }
  destruct Hs as [Hbl Ho].
  rewrite u16_id by lia.
  destruct (Z.ltb_spec 1024 (slot_offset s + len - 4)).
  { eexists _, _. split; [done|]. apply mctp_wf_put; [done|]. unfold slot_wf. by rewrite Eb. }
  rewrite u32_id, mem_read_Some by lia. simpl.
  destruct (mem_write_Some b (slot_offset s) (slice buf 4 (len - 4))) as [b' Hb'];
    [lia|rewrite zlen_slice by lia; lia|].
  rewrite Hb'. simpl. eexists _, _. split; [done|].
  rewrite put_slot_put_slot by done. apply mctp_wf_put; [done|].
  apply mem_write_length in Hb'. unfold slot_wf; simpl; unfold MSG_ASSEMBLY_BUF_SIZE. lia.
Qed.

(** The receive task changes nothing of an instance but its assembly slots. *)
Lemma rx_step_frame resolve ok m buf len ext0 m' ev :
  mctp_rx_step resolve ok m buf len ext0 = Some (m', ev) ->
  exists l, m' = set_temp_msg_buf l m.
Proof.
  assert (Hp : forall h s l, put_slot h s (set_temp_msg_buf l m)
    = set_temp_msg_buf (<[slot_index h := s]> l) m) by done.
  assert (Hi : m = set_temp_msg_buf (temp_msg_buf m) m) by (by destruct m).
  assert (Hc : forall h l, exists l', rx_cleanup h (set_temp_msg_buf l m) = set_temp_msg_buf l' m).
  { intros h l. unfold rx_cleanup. destruct (slot_buf _); rewrite ?Hp; eauto. }
  assert (Ha : forall r m1, mctp_pkt_assembling ok m buf len = Some (r, m1) ->
    exists l, m1 = set_temp_msg_buf l m).
  { intros r m1. unfold mctp_pkt_assembling. cbv zeta. intros E.
    repeat match type of E with
      | Some _ = Some _ => injection E as <- <-
      | (if ?c then _ else _) = _ => destruct c
      | match ?x with Some _ => _ | None => _ end = _ => destruct x
      | mbind _ ?x = _ => destruct x; [cbn [mbind option_bind] in E|done]
      end; first [by exists (temp_msg_buf m)|by eexists]. }
  unfold mctp_rx_step. destruct (len =? 0); [intros; simplify_eq; eauto|].
  destruct (_ && _); [intros; simplify_eq; eauto|].
  destruct (mctp_pkt_assembling ok m buf len) as [[r m1]|] eqn:E; [|done].
  destruct (Ha _ _ eq_refl) as [l ->]. cbn [mbind option_bind]. destruct (Hc (hdr_of buf) l) as [l' Hl'].
  intros Hs. repeat (case_match; simplify_eq; eauto).
  destruct (rx_message _ _ _ _); [|done]. cbn [mbind option_bind] in Hs. simplify_eq. eauto.
Qed.

(** ** Lemmas: splitting a message into packets *)

Lemma split_count_bounds L M :
  0 < M -> 0 < L ->
  let n := L / M + (if negb (L mod M =? 0) then 1 else 0) in
  1 <= n /\ (n - 1) * M < L <= n * M /\
  (if negb (L mod M =? 0) then L mod M else M) = L - (n - 1) * M.
Proof.
  intros HM HL n. pose proof (Z.div_mod L M ltac:(lia)) as Hd.
  pose proof (Z.mod_pos_bound L M HM) as Hb. pose proof (Z.div_pos L M ltac:(lia) HM).
  subst n. destruct (Z.eqb_spec (L mod M) 0); cbn [negb]; split_and!; try nia.
Qed.

(** The packet of index [i] of a message of [n] packets, and the payload size. *)
Definition chunk_size (L M n i : Z) : Z := if i =? n - 1 then L - i * M else M.

Definition nth_hdr (s : mctp) (ext : mctp_ext_params) (n i : Z) : mctp_hdr :=
  let to := ext_tag_owner ext mod 2 in
  mk_hdr MCTP_HDR_HDR_VER (ext_ep ext) (endpoint s)
    (if negb (to =? 0) then inst_msg_tag s .& MCTP_HDR_TAG_MASK else ext_msg_tag ext mod 8)
    to (i .& MCTP_HDR_SEQ_MASK) (Z.b2z (i =? n - 1)) (Z.b2z (i =? 0)).

Definition nth_packet (s : mctp) (ext : mctp_ext_params) (buf : list Z) (n i : Z) : list Z :=
  hdr_bytes (nth_hdr s ext n i)
  ++ slice buf (i * max_msg_size s) (chunk_size (zlen buf) (max_msg_size s) n i).

Lemma nth_hdr_ok s ext n i : hdr_ok (nth_hdr s ext n i).
Proof.
  unfold hdr_ok, nth_hdr; cbn -[Z.land Z.modulo].
  change MCTP_HDR_SEQ_MASK with (Z.ones 2). change MCTP_HDR_TAG_MASK with (Z.ones 3).
  rewrite !Z.land_ones by lia.
  split_and!; try (apply Z.mod_pos_bound; lia);
    try (destruct (_ =? _); simpl; lia);
    destruct (negb _); apply Z.mod_pos_bound; lia.
Qed.

Lemma tx_packet_nth s msg buf n i :
  let L := zlen buf in let M := max_msg_size s in
  0 < M <= 252 -> tx_len msg = L -> 0 < L ->
  n = L / M + (if negb (L mod M =? 0) then 1 else 0) -> 0 <= i < n ->
  tx_packet s msg buf n i = Some (nth_packet s (tx_ext_params msg) buf n i).
Proof.
  intros L M HM HL H0 Hn Hi.
  destruct (split_count_bounds L M ltac:(lia) H0) as (Hn1 & Hb & Hr). rewrite <- Hn in *.
  unfold tx_packet. rewrite HL. fold M.
  pose proof (Z.mod_pos_bound L M ltac:(lia)) as Hrm. rewrite (u8_id (L mod M)) by lia.
  replace (u8 _) with (chunk_size L M n i).
  2:{ unfold chunk_size. destruct (Z.eqb_spec i (n - 1)) as [->|]; cbn [andb];
        [rewrite Hr, u8_id; nia|rewrite u8_id; lia]. }
  assert (Hc : 0 <= chunk_size L M n i /\ i * M + chunk_size L M n i <= L).
  { unfold chunk_size. destruct (Z.eqb_spec i (n - 1)) as [->|]; nia. }
  rewrite mem_read_Some by (subst L; nia). done.
Qed.

Lemma tx_loop_nth write s msg buf n k i :
  let L := zlen buf in let M := max_msg_size s in
  0 < M <= 252 -> tx_len msg = L -> 0 < L ->
  n = L / M + (if negb (L mod M =? 0) then 1 else 0) -> 0 <= i -> i + Z.of_nat k = n ->
  (forall j, 0 <= j < n -> write j (nth_packet s (tx_ext_params msg) buf n j) = MCTP_SUCCESS) ->
  tx_loop write s msg buf n k i =
    Some ((fun j => nth_packet s (tx_ext_params msg) buf n j) <$> seqZ i (Z.of_nat k), n).
Proof.
  intros L M HM HL H0 Hn Hi Hk Hw. revert i Hi Hk. induction k as [|k IH]; intros i Hi Hk.
  - simpl. repeat f_equal. lia.
  - cbn [tx_loop]. erewrite tx_packet_nth by (done || lia). cbn [mbind option_bind].
    rewrite Hw by lia. change (negb (MCTP_SUCCESS =? MCTP_SUCCESS)) with false. cbv iota.
    rewrite IH by lia. cbn [mbind option_bind].
    rewrite Nat2Z.inj_succ, (seqZ_cons i) by lia. simpl.
    by rewrite Z.add_1_r, Z.pred_succ.
Qed.

(** ** Lemmas: receiving one packet *)

Lemma zlen_hdr_bytes h d : zlen (hdr_bytes h ++ d) = 4 + zlen d.
Proof. by rewrite zlen_app. Qed.

Lemma in_read_buf_hdr h d : hdr_ok h -> hdr_of (in_read_buf (hdr_bytes h ++ d)) = h.
Proof. intros. unfold in_read_buf. rewrite <- app_assoc. by apply hdr_of_bytes. Qed.

Lemma in_read_buf_payload h d :
  zlen d <= 252 -> mem_read (in_read_buf (hdr_bytes h ++ d)) 4 (zlen d) = Some d.
Proof.
  intros Hd. pose proof (zlen_nonneg d).
  rewrite mem_read_Some; [|lia|lia|]; unfold in_read_buf; rewrite zlen_hdr_bytes.
  - rewrite <- app_assoc, slice_app_r by done.
    by rewrite slice_app_l, slice_all by lia.
  - rewrite zlen_app, zlen_hdr_bytes, zlen_zeros by lia. lia.
Qed.

Definition slot_ready (m : mctp) (h : mctp_hdr) (b : list Z) (off : Z) : Prop :=
  (hdr_som h = 0 /\ get_slot m h = mk_slot (Some b) off) \/
  (hdr_som h = 1 /\ hdr_eom h = 0 /\ b = zeros 1024 /\ off = 0).

Lemma assembling_append m h d b off :
  hdr_ok h -> length (temp_msg_buf m) = 16%nat -> slot_ready m h b off ->
  zlen b = 1024 -> 0 <= off -> off + zlen d <= 1024 -> zlen d <= 252 ->
  exists b',
    mctp_pkt_assembling true m (in_read_buf (hdr_bytes h ++ d)) (4 + zlen d)
      = Some (MCTP_SUCCESS, put_slot h (mk_slot (Some b') (off + zlen d)) m) /\
    zlen b' = 1024 /\ slice b' 0 (off + zlen d) = slice b 0 off ++ d.
Proof.
  intros Hh Hl Hr Hb Ho Hd Hd2. pose proof (zlen_nonneg d).
  destruct (mem_write_Some b off d) as [b' Hb']; [lia|lia|].
  exists b'. split_and!; [|by rewrite <- Hb; eapply mem_write_length|by apply mem_write_prefix].
  unfold mctp_pkt_assembling. rewrite in_read_buf_hdr by done.
  destruct (Z.eqb_spec (4 + zlen d) 0); [lia|].
  unfold MSG_ASSEMBLY_BUF_SIZE, MCTP_TRANSPORT_HEADER_SIZE.
  destruct Hr as [[Hs Hg]|(Hs & He & -> & ->)]; rewrite Hs, ?He; cbn [Z.eqb negb andb].
  - rewrite Hg. cbn [slot_buf slot_offset].
    rewrite u16_id by lia. destruct (Z.ltb_spec 1024 (off + (4 + zlen d) - 4)); [lia|].
    rewrite u32_id by lia. replace (4 + zlen d - 4) with (zlen d) by lia.
    rewrite in_read_buf_payload by done. simpl. rewrite Hb'. simpl.
    rewrite put_slot_put_slot by done. do 5 f_equal. lia.
  - change (1 =? 0) with false. cbn [negb andb slot_buf slot_offset].
    rewrite u16_id by lia. destruct (Z.ltb_spec 1024 (0 + (4 + zlen d) - 4)); [lia|].
    rewrite u32_id by lia. replace (4 + zlen d - 4) with (zlen d) by lia.
    rewrite in_read_buf_payload by done. simpl. rewrite Hb'. simpl.
    rewrite put_slot_put_slot by done. do 5 f_equal. lia.
Qed.

Definition for_me (m : mctp) (h : mctp_hdr) : Prop :=
  hdr_dest_ep h = endpoint m \/ hdr_dest_ep h = MCTP_NULL_EID.

Lemma for_me_test m h :
  for_me m h ->
  negb (hdr_dest_ep h =? endpoint m) && negb (hdr_dest_ep h =? MCTP_NULL_EID) = false.
Proof. by intros [-> | ->]; rewrite Z.eqb_refl, ?andb_false_r. Qed.

(** A packet that is not the last one is appended. *)
Lemma rx_step_more resolve m h d b off ext0 :
  for_me m h -> hdr_eom h = 0 ->
  hdr_ok h -> length (temp_msg_buf m) = 16%nat -> slot_ready m h b off ->
  zlen b = 1024 -> 0 <= off -> off + zlen d <= 1024 -> zlen d <= 252 ->
  exists b',
    mctp_rx_step resolve true m (in_read_buf (hdr_bytes h ++ d)) (4 + zlen d) ext0
      = Some (put_slot h (mk_slot (Some b') (off + zlen d)) m, []) /\
    zlen b' = 1024 /\ slice b' 0 (off + zlen d) = slice b 0 off ++ d.
Proof.
  intros Hf He Hh Hl Hr Hb Ho Hd Hd2. pose proof (zlen_nonneg d).
  destruct (assembling_append m h d b off) as (b' & Ha & ? & ?); try done.
  exists b'. split_and!; try done. unfold mctp_rx_step.
  destruct (Z.eqb_spec (4 + zlen d) 0); [lia|].
  rewrite in_read_buf_hdr, for_me_test, Ha by done. simpl. by rewrite He.
Qed.

(** The last packet of an assembled message delivers it and frees the slot. *)
Lemma rx_step_last resolve m h d b off ext0 cb :
  for_me m h -> hdr_eom h = 1 -> hdr_som h = 0 -> rx_cb m = Some cb ->
  hdr_ok h -> length (temp_msg_buf m) = 16%nat -> get_slot m h = mk_slot (Some b) off ->
  zlen b = 1024 -> 0 <= off -> off + zlen d <= 1024 -> zlen d <= 252 ->
  mctp_rx_step resolve true m (in_read_buf (hdr_bytes h ++ d)) (4 + zlen d) ext0
    = Some (put_slot h empty_slot m,
        [EvRxCb cb (slice b 0 off ++ d)
           (mk_ext 0 (hdr_msg_tag h) (hdr_src_ep h) (ext_type ext0) (ext_addr ext0))]).
Proof.
  intros Hf He Hs Hcb Hh Hl Hg Hb Ho Hd Hd2. pose proof (zlen_nonneg d).
  destruct (assembling_append m h d b off) as (b' & Ha & Hb1 & Hb2); try done; [by left|].
  unfold mctp_rx_step. destruct (Z.eqb_spec (4 + zlen d) 0); [lia|].
  rewrite in_read_buf_hdr, for_me_test, Ha by done. simpl. rewrite He, Hcb. simpl.
  unfold rx_message, rx_cleanup. rewrite get_put_slot by done. simpl.
  rewrite mem_read_Some, Hb2 by lia. simpl. by rewrite put_slot_put_slot.
Qed.

(** A single-packet message on an unused slot is delivered from the packet. *)
Lemma rx_step_single resolve m h d ext0 cb :
  for_me m h -> hdr_eom h = 1 -> hdr_som h = 1 -> rx_cb m = Some cb ->
  hdr_ok h -> slot_buf (get_slot m h) = None -> zlen d <= 252 ->
  mctp_rx_step resolve true m (in_read_buf (hdr_bytes h ++ d)) (4 + zlen d) ext0
    = Some (m, [EvRxCb cb d
           (mk_ext 0 (hdr_msg_tag h) (hdr_src_ep h) (ext_type ext0) (ext_addr ext0))]).
Proof.
  intros Hf He Hs Hcb Hh Hg Hd2. pose proof (zlen_nonneg d).
  unfold mctp_rx_step, mctp_pkt_assembling. destruct (Z.eqb_spec (4 + zlen d) 0); [lia|].
  rewrite in_read_buf_hdr, for_me_test by done. rewrite He, Hs.
  change (1 =? 0) with false. change (MCTP_SUCCESS =? MCTP_ERROR) with false.
  cbn [negb andb mbind option_bind]. rewrite ?Hcb. cbv iota.
  unfold rx_message, rx_cleanup. rewrite Hg. unfold MCTP_TRANSPORT_HEADER_SIZE.
  rewrite u16_id by lia. replace (4 + zlen d - 4) with (zlen d) by lia.
  rewrite in_read_buf_payload by done. done.
Qed.

(** The packets [i .. n-1] of a message, received on top of a slot holding the
    first [i * M] bytes. *)
Lemma rx_run_rest resolve s r ext ext0 cb buf n k i b :
  let L := zlen buf in let M := max_msg_size s in
  0 < M <= 252 -> 0 < L <= 1024 -> (n - 1) * M < L <= n * M ->
  ext_ep ext = endpoint r \/ ext_ep ext = MCTP_NULL_EID -> rx_cb r = Some cb ->
  length (temp_msg_buf r) = 16%nat ->
  0 < i -> i + Z.of_nat (S k) = n ->
  zlen b = 1024 -> slice b 0 (i * M) = slice buf 0 (i * M) ->
  let h := nth_hdr s ext n i in
  rx_run resolve (put_slot h (mk_slot (Some b) (i * M)) r)
    ((fun j => nth_packet s ext buf n j) <$> seqZ i (Z.of_nat (S k))) ext0 =
  Some (put_slot h empty_slot r,
    [EvRxCb cb buf (mk_ext 0 (hdr_msg_tag h) (endpoint s) (ext_type ext0) (ext_addr ext0))]).
Proof.
  intros L M HM HL Hn Hep Hcb Hlen. revert i b.
  induction k as [|k IH]; intros i b Hi Hk Hb Hs h.
  all: pose proof (nth_hdr_ok s ext n i) as Hok; fold h in Hok.
  all: assert (Hidx : forall j, slot_index (nth_hdr s ext n j) = slot_index h) by done.
  all: rewrite (Nat2Z.inj_succ), (seqZ_cons i), Z.pred_succ by lia; cbn [fmap list_fmap rx_run].
  all: change (nth_packet s ext buf n i) with (hdr_bytes h ++ slice buf (i * M) (chunk_size L M n i)); rewrite zlen_hdr_bytes.
  - assert (n = i + 1) as -> by lia.
    assert (Hc : chunk_size L M (i + 1) i = L - i * M)
      by (unfold chunk_size; destruct (Z.eqb_spec i (i + 1 - 1)); lia).
    assert (Hz : zlen (slice buf (i * M) (L - i * M)) = L - i * M) by (apply zlen_slice; subst L; nia).
    rewrite Hc. erewrite (rx_step_last resolve _ h _ b (i * M) ext0 cb); try done.
    + simpl. unfold h, nth_hdr; simpl. rewrite put_slot_put_slot by done.
      do 4 f_equal. rewrite Hs. rewrite <- slice_split by nia. apply slice_all. subst L; lia.
    + unfold h, nth_hdr; simpl. destruct (Z.eqb_spec i (i + 1 - 1)); simpl; lia.
    + unfold h, nth_hdr; simpl. destruct (Z.eqb_spec i 0); simpl; lia.
    + by rewrite length_put_slot.
    + by rewrite get_put_slot.
    + nia.
    + rewrite Hz. lia.
    + rewrite Hz. nia.
  - assert (Hc : chunk_size L M n i = M)
      by (unfold chunk_size; destruct (Z.eqb_spec i (n - 1)); lia).
    assert (HiM : (i + 1) * M <= (n - 1) * M) by (apply Z.mul_le_mono_nonneg_r; lia).
    assert (Hz : zlen (slice buf (i * M) M) = M) by (apply zlen_slice; subst L; nia).
    rewrite Hc.
    destruct (rx_step_more resolve (put_slot h (mk_slot (Some b) (i * M)) r) h
                (slice buf (i * M) M) b (i * M) ext0) as (b' & -> & Hb' & Hs'); try done.
    + unfold h, nth_hdr; simpl. destruct (Z.eqb_spec i (n - 1)); simpl; lia.
    + by rewrite length_put_slot.
    + left. split; [|by rewrite get_put_slot].
      unfold h, nth_hdr; simpl. destruct (Z.eqb_spec i 0); simpl; lia.
    + nia.
    + rewrite Hz. nia.
    + rewrite Hz. lia.
    + rewrite Hz in *. cbn [mbind option_bind]. rewrite put_slot_put_slot by done.
      replace (i * M + M) with ((i + 1) * M) in * by lia.
      replace (Z.succ i) with (i + 1) by lia.
      specialize (IH (i + 1) b'). cbv zeta in IH.
      change (put_slot (nth_hdr s ext n (i + 1))) with (put_slot h) in IH.
      rewrite IH; [done|lia|lia|done|].
      rewrite Hs', Hs, <- slice_split by nia. f_equal. lia.
Qed.

(** ** Lemmas: a whole message *)

(** The number of packets of a message, and the packets. *)
Definition packet_count (s : mctp) (msg : list Z) : Z :=
  zlen msg / max_msg_size s + (if negb (zlen msg mod max_msg_size s =? 0) then 1 else 0).
Definition packets_of (s : mctp) (ext : mctp_ext_params) (msg : list Z) : list (list Z) :=
  (fun j => nth_packet s ext msg (packet_count s msg) j) <$> seqZ 0 (packet_count s msg).

Lemma nth_packet_size s ext msg j :
  0 < zlen msg -> 0 < max_msg_size s -> 0 <= j < packet_count s msg ->
  4 < zlen (nth_packet s ext msg (packet_count s msg) j) <= max_msg_size s + 4.
Proof.
  intros HL HM Hj. unfold nth_packet. rewrite zlen_hdr_bytes.
  destruct (split_count_bounds (zlen msg) (max_msg_size s)) as (Hn1 & Hb & _); [lia|lia|].
  fold (packet_count s msg) in Hn1, Hb. unfold chunk_size.
  destruct (Z.eqb_spec j (packet_count s msg - 1)) as [->|]; rewrite zlen_slice; try nia.
Qed.

Lemma tx_step_packets write s msg ext :
  let n := packet_count s msg in
  0 < zlen msg -> 0 < max_msg_size s <= 252 -> n <= 255 ->
  (forall j, 0 <= j < n -> write j (nth_packet s ext msg n j) = MCTP_SUCCESS) ->
  exists s', mctp_tx_step write s (mk_tx_msg 0 (Some msg) (zlen msg) ext)
    = Some (s', packets_of s ext msg, MCTP_SUCCESS).
Proof.
  intros n HL HM Hn Hw.
  destruct (split_count_bounds (zlen msg) (max_msg_size s)) as (Hn1 & _); [lia|lia|].
  fold (packet_count s msg) in Hn1. fold n in Hn1.
  eexists. unfold mctp_tx_step. cbn [tx_buf tx_len is_bridge_packet tx_ext_params].
  destruct (Z.eqb_spec (zlen msg) 0); [lia|]. cbn [Z.eqb negb].
  destruct (Z.eqb_spec (max_msg_size s) 0); [lia|].
  cbv zeta. fold (packet_count s msg). fold n. rewrite (u8_id n) by lia.
  rewrite (tx_loop_nth _ s _ msg n) by (done || lia).
  cbn [mbind option_bind]. rewrite Z2Nat.id, Z.eqb_refl by lia. done.
Qed.

Lemma rx_run_packets resolve s r msg ext ext0 cb :
  let n := packet_count s msg in
  let h := nth_hdr s ext n 0 in
  0 < zlen msg <= MSG_ASSEMBLY_BUF_SIZE -> 0 < max_msg_size s <= 252 ->
  ext_ep ext = endpoint r \/ ext_ep ext = MCTP_NULL_EID -> rx_cb r = Some cb ->
  length (temp_msg_buf r) = 16%nat -> temp_msg_buf r !! slot_index h = Some empty_slot ->
  rx_run resolve r (packets_of s ext msg) ext0 =
    Some (r, [EvRxCb cb msg
                (mk_ext 0 (hdr_msg_tag h) (endpoint s) (ext_type ext0) (ext_addr ext0))]).
Proof.
  intros n h HL HM Hep Hcb Hlen Hslot. unfold MSG_ASSEMBLY_BUF_SIZE in HL.
  destruct (split_count_bounds (zlen msg) (max_msg_size s)) as (Hn1 & Hb & Hr); [lia|lia|].
  fold (packet_count s msg) in Hn1, Hb, Hr. fold n in Hn1, Hb, Hr. unfold packets_of. fold n.
  assert (Hok : hdr_ok h) by apply nth_hdr_ok.
  assert (Hme : for_me r h) by done.
  rewrite (seqZ_cons 0) by lia. cbn [fmap list_fmap rx_run].
  change (nth_packet s ext msg n 0) with
    (hdr_bytes h ++ slice msg (0 * max_msg_size s)
                      (chunk_size (zlen msg) (max_msg_size s) n 0)).
  rewrite zlen_hdr_bytes.
  destruct (Z.eq_dec n 1) as [E|E].
  + rewrite E. change (chunk_size _ _ 1 0) with (zlen msg - 0 * max_msg_size s).
    change (0 * max_msg_size s) with 0. rewrite Z.sub_0_r, slice_all by lia.
    rewrite (rx_step_single resolve r h msg ext0 cb); try done; [|..|nia].
    * unfold h, nth_hdr; simpl. by rewrite E.
    * unfold get_slot. by rewrite Hslot.
  + assert (Hc : chunk_size (zlen msg) (max_msg_size s) n 0 = max_msg_size s)
      by (unfold chunk_size; destruct (Z.eqb_spec 0 (n - 1)); lia).
    assert (Hz : zlen (slice msg 0 (max_msg_size s)) = max_msg_size s)
      by (apply zlen_slice; nia).
    rewrite Hc. change (0 * max_msg_size s) with 0. rewrite Hz.
    assert (He0 : hdr_eom h = 0).
    { unfold h, nth_hdr; cbn [hdr_eom]. destruct (Z.eqb_spec 0 (n - 1)); [lia|done]. }
    destruct (rx_step_more resolve r h (slice msg 0 (max_msg_size s)) (zeros 1024) 0 ext0)
      as (b' & Hs1 & Hb1 & Hs2); try (done || lia || (rewrite Hz; nia)).
    * by right.
    * rewrite Hz, Z.add_0_l in Hs1, Hs2. rewrite Hs1. change (Z.succ 0) with 1. cbn [mbind option_bind].
      change (slice (zeros 1024) 0 0) with (@nil Z) in Hs2.
      pose proof (rx_run_rest resolve s r ext ext0 cb msg n (Z.to_nat (n - 2)) 1 b') as IH.
      cbv zeta in IH. change (put_slot (nth_hdr s ext n 1)) with (put_slot h) in IH.
      rewrite !Z.mul_1_l in IH.
      replace (Z.of_nat (S (Z.to_nat (n - 2)))) with (Z.pred n) in IH by lia.
      rewrite IH; try (done || lia). cbn [mbind option_bind app].
      by rewrite put_slot_id.
Qed.

(** ** Properties *)

(** C1: a message of at most 1024 bytes, split by the transmit task of one
    instance ([max_msg_size] up to 252, at most 255 packets) and received packet by
    packet by the receive task of the addressed instance whose assembly slot for
    that tag is unused, is handed to the message handler exactly once and byte
    for byte, with the sender's endpoint and tag; the receiver is left as it was
    and the sender reports success. *)
Theorem mctp_message_roundtrip resolve s r msg ext ext0 cb :
  let n := packet_count s msg in
  let h := nth_hdr s ext n 0 in
  0 < zlen msg <= MSG_ASSEMBLY_BUF_SIZE -> 0 < max_msg_size s <= 252 -> n <= 255 ->
  ext_ep ext = endpoint r \/ ext_ep ext = MCTP_NULL_EID -> rx_cb r = Some cb ->
  length (temp_msg_buf r) = 16%nat -> temp_msg_buf r !! slot_index h = Some empty_slot ->
  exists s' pkts,
    mctp_tx_step (fun _ _ => MCTP_SUCCESS) s (mk_tx_msg 0 (Some msg) (zlen msg) ext)
      = Some (s', pkts, MCTP_SUCCESS) /\
    zlen pkts = n /\
    rx_run resolve r pkts ext0 =
      Some (r, [EvRxCb cb msg
                  (mk_ext 0 (hdr_msg_tag h) (endpoint s) (ext_type ext0) (ext_addr ext0))]).
Proof.
  intros n h HL HM Hn Hep Hcb Hlen Hslot.
  destruct (tx_step_packets (fun _ _ => MCTP_SUCCESS) s msg ext) as [s' Ht]; [lia|done|done|done|].
  eexists s', _. split; [exact Ht|]. split; [|by apply rx_run_packets].
  unfold packets_of, zlen at 1. rewrite length_fmap, length_seqZ. fold n.
  destruct (split_count_bounds (zlen msg) (max_msg_size s)) as (Hn1 & _); [lia|lia|].
  fold (packet_count s msg) in Hn1. fold n in Hn1. lia.
Qed.

Lemma mctp_message_roundtrip_witness :
  exists s s' pkts r,
    mctp_tx_step (fun _ _ => MCTP_SUCCESS) s
      (mk_tx_msg 0 (Some [1; 2; 3; 4; 5]) 5 (mk_ext 0 6 0x0A 1 0))
      = Some (s', pkts, MCTP_SUCCESS) /\
    zlen pkts = 3 /\
    rx_run (fun _ _ => None) r pkts (mk_ext 0 0 0 1 0x20)
      = Some (r, [EvRxCb 7 [1; 2; 3; 4; 5] (mk_ext 0 6 0x08 1 0x20)]).
Proof.
  set (s := mk_mctp 1 1 0x08 2 (mk_conf 0 0) None None None true true "" "" true
              (replicate 16 empty_slot) None 5).
  set (r := mk_mctp 1 1 0x0A 2 (mk_conf 0 0) None None None true true "" "" true
              (replicate 16 empty_slot) (Some 7) 0).
  exists s.
  destruct (mctp_message_roundtrip (fun _ _ => None) s r [1; 2; 3; 4; 5]
              (mk_ext 0 6 0x0A 1 0) (mk_ext 0 0 0 1 0x20) 7)
    as (s' & pkts & H1 & H2 & H3); try done; [by left|].
  exists s', pkts, r. done.
Defined.

(** C3: in every state whose allocated assembly buffers have their full 1024 bytes
    and an offset inside them, the receive task handles every packet of 4 to 256
    bytes, whatever its contents and whether or not memory is available, without an
    out-of-bounds access; it keeps that invariant and never hands the handler more
    than 1024 bytes. *)
Theorem mctp_rx_step_safe resolve ok m buf len ext0 :
  mctp_wf m -> zlen buf = 256 -> 4 <= len <= 256 ->
  exists m' evs, mctp_rx_step resolve ok m buf len ext0 = Some (m', evs) /\ mctp_wf m' /\
    forall cb data ext, EvRxCb cb data ext ∈ evs -> zlen data <= MSG_ASSEMBLY_BUF_SIZE.
Proof.
  intros Hm Hb Hl. unfold mctp_rx_step. destruct (Z.eqb_spec len 0); [lia|].
  destruct (_ && _).
  { eexists _, _. split; [done|split; [done|]]. unfold bridge_msg. intros cb d e.
    destruct (len =? 0), (ep_resolve m); try (by intros ?%not_elem_of_nil).
    destruct (resolve _ _) as [[??]|]; [by intros [=]%list_elem_of_singleton|].
    by intros ?%not_elem_of_nil. }
  destruct (assembling_total ok m buf len Hm Hb Hl) as (ret & m1 & -> & Hm1).
  pose proof (mctp_wf_cleanup m1 (hdr_of buf) Hm1) as Hc. cbn [mbind option_bind].
  destruct (ret =? MCTP_ERROR).
  { eexists _, _. split; [done|split; [done|]]. by intros ??? ?%not_elem_of_nil. }
  destruct (hdr_eom (hdr_of buf) =? 0).
  { eexists _, _. split; [done|split; [done|]]. by intros ??? ?%not_elem_of_nil. }
  destruct (rx_cb m1) as [cb|].
  2:{ eexists _, _. split; [done|split; [done|]]. by intros ??? ?%not_elem_of_nil. }
  assert (exists d, rx_message m1 (hdr_of buf) buf len = Some d /\ zlen d <= 1024) as (d & -> & Hd).
  { unfold rx_message. pose proof (mctp_wf_get m1 (hdr_of buf) Hm1) as Hs.
    unfold slot_wf, MSG_ASSEMBLY_BUF_SIZE in Hs.
    destruct (slot_buf _) as [b|]; rewrite ?u16_id by (unfold MCTP_TRANSPORT_HEADER_SIZE; lia);
      rewrite mem_read_Some by (unfold MCTP_TRANSPORT_HEADER_SIZE in *; lia);
      (eexists; split; [done|]);
      rewrite zlen_slice; unfold MCTP_TRANSPORT_HEADER_SIZE in *; lia. }
  simpl. eexists _, _. split; [done|split; [done|]].
  by intros ??? [= -> -> ->]%list_elem_of_singleton.
Qed.
Lemma mctp_rx_step_safe_witness :
  exists m' evs,
    mctp_rx_step (fun _ _ => None) true
      (mk_mctp 1 1 0x0A 244 (mk_conf 0 0) None None None true true "" "" true
         (replicate 16 (mk_slot (Some (zeros 1024)) 1000)) (Some 7) 0)
      ([1; 0x0A; 8; 0x40] ++ zeros 252) 256 (mk_ext 0 0 0 1 0x20) = Some (m', evs) /\ mctp_wf m'.
Proof.
  destruct (mctp_rx_step_safe (fun _ _ => None) true
      (mk_mctp 1 1 0x0A 244 (mk_conf 0 0) None None None true true "" "" true
         (replicate 16 (mk_slot (Some (zeros 1024)) 1000)) (Some 7) 0)
      ([1; 0x0A; 8; 0x40] ++ zeros 252) 256 (mk_ext 0 0 0 1 0x20)) as (m' & evs & H1 & H2 & _).
  - split; [done|]. apply Forall_replicate. unfold slot_wf; simpl. unfold MSG_ASSEMBLY_BUF_SIZE.
    split; [done|lia].
  - reflexivity.
  - lia.
  - exists m', evs. done.
Defined.

(** Packets of different (tag, tag-owner) pairs do not disturb each other: a
    received packet leaves every other assembly slot, the endpoint, the handler and
    the rest of the instance as they were. *)
Theorem mctp_rx_slot_isolation resolve ok m buf len ext0 m' evs :
  mctp_rx_step resolve ok m buf len ext0 = Some (m', evs) ->
  exists slots, m' = set_temp_msg_buf slots m /\
    forall k, k <> slot_index (hdr_of buf) -> slots !! k = temp_msg_buf m !! k.
Proof.
  assert (Hid : forall m, m = set_temp_msg_buf (temp_msg_buf m) m) by (intros []; done).
  set (R := fun m m' => exists slots, m' = set_temp_msg_buf slots m /\
    forall k, k <> slot_index (hdr_of buf) -> slots !! k = temp_msg_buf m !! k).
  assert (R0 : forall m, R m m) by (intros m0; exists (temp_msg_buf m0); auto).
  assert (Rput : forall m m' s, R m m' -> R m (put_slot (hdr_of buf) s m')).
  { intros m0 ? s (sl & -> & H). exists (<[slot_index (hdr_of buf) := s]> sl).
    split; [done|]. intros k Hk. rewrite list_lookup_insert_ne by done. auto. }
  assert (Rclean : forall m m', R m m' -> R m (rx_cleanup (hdr_of buf) m')).
  { intros m0 m1 H. unfold rx_cleanup. destruct (slot_buf _); auto. }
  change (mctp_rx_step resolve ok m buf len ext0 = Some (m', evs) -> R m m').
  unfold mctp_rx_step. intros H.
  destruct (len =? 0); simplify_eq; [done|].
  destruct (negb _ && _); simplify_eq; [done|].
  destruct (mctp_pkt_assembling ok m buf len) as [[ret m1]|] eqn:Ea; [|done]. cbn [mbind option_bind] in H.
  assert (R1 : R m m1).
  { unfold mctp_pkt_assembling in Ea.
    repeat match type of Ea with
      | (if ?b then _ else _) = _ => destruct b; simplify_eq; auto
      end.
    destruct (slot_buf _) as [b|]; simplify_eq; auto.
    destruct (_ <? _); simplify_eq; auto.
    destruct (mem_read _ _ _) as [d|]; simplify_eq/=.
    destruct (mem_write _ _ _) as [b'|]; simplify_eq/=. auto. }
  destruct (ret =? MCTP_ERROR); simplify_eq; auto.
  destruct (hdr_eom (hdr_of buf) =? 0); simplify_eq; auto.
  destruct (rx_cb m1); simplify_eq; auto.
  destruct (rx_message _ _ _ _); simplify_eq/=; auto.
Qed.
Lemma mctp_rx_slot_isolation_witness :
  exists m, exists slots, mk_mctp 1 1 0x0A 244 (mk_conf 0 0) None None None true true "" "" true
     (replicate 16 empty_slot) (Some 7) 0 = set_temp_msg_buf slots m /\
     forall k, k <> 2%nat -> slots !! k = temp_msg_buf m !! k.
Proof.
  exists (mk_mctp 1 1 0x0A 244 (mk_conf 0 0) None None None true true "" "" true
     (<[2%nat := mk_slot (Some (zeros 1024)) 3]> (replicate 16 empty_slot)) (Some 7) 0).
  eapply (mctp_rx_slot_isolation (fun _ _ => None) true _
     ([1; 0x0A; 8; 0x41; 9] ++ zeros 251) 5 (mk_ext 0 0 0 1 0x20)).
  vm_compute. reflexivity.
Defined.

(** A single-packet message that arrives while a partial multi-packet message
    with the same tag and owner bit is pending is lost: the handler is called with
    the bytes of the partial message, and the packet's own payload is not used. *)
Theorem mctp_rx_single_over_partial resolve m h d b off ext0 cb :
  for_me m h -> hdr_ok h -> hdr_som h = 1 -> hdr_eom h = 1 -> rx_cb m = Some cb ->
  get_slot m h = mk_slot (Some b) off -> zlen b = 1024 -> 0 <= off <= 1024 -> zlen d <= 252 ->
  mctp_rx_step resolve true m (in_read_buf (hdr_bytes h ++ d)) (4 + zlen d) ext0
    = Some (put_slot h empty_slot m,
        [EvRxCb cb (slice b 0 off)
           (mk_ext 0 (hdr_msg_tag h) (hdr_src_ep h) (ext_type ext0) (ext_addr ext0))]).
Proof.
  intros Hf Hh Hs He Hcb Hg Hb Ho Hd. pose proof (zlen_nonneg d).
  unfold mctp_rx_step, mctp_pkt_assembling. destruct (Z.eqb_spec (4 + zlen d) 0); [lia|].
  rewrite in_read_buf_hdr, for_me_test by done. rewrite He, Hs.
  change (1 =? 0) with false. change (MCTP_SUCCESS =? MCTP_ERROR) with false.
  cbn [negb andb mbind option_bind]. rewrite Hcb.
  unfold rx_message, rx_cleanup. rewrite Hg. cbn [slot_buf slot_offset].
  by rewrite mem_read_Some by lia.
Qed.
Lemma mctp_rx_single_over_partial_witness :
  exists m h m', mctp_rx_step (fun _ _ => None) true m
    (in_read_buf (hdr_bytes h ++ [0xAA; 0xBB])) 6 (mk_ext 0 0 0 1 0x20)
    = Some (m', [EvRxCb 7 [0; 0; 0] (mk_ext 0 1 0x08 1 0x20)]).
Proof.
  set (h := mk_hdr 1 0x0A 0x08 1 0 0 1 1).
  set (m := mk_mctp 1 1 0x0A 244 (mk_conf 0 0) None None None true true "" "" true
     (<[2%nat := mk_slot (Some (zeros 1024)) 3]> (replicate 16 empty_slot)) (Some 7) 0).
  exists m, h, (put_slot h empty_slot m).
  apply (mctp_rx_single_over_partial (fun _ _ => None) m h [0xAA; 0xBB] (zeros 1024) 3
    (mk_ext 0 0 0 1 0x20) 7);
    (done || (by left) || (unfold hdr_ok; simpl; lia)).
Defined.

(** The packet count is kept in eight bits: a message that needs [n] >= 256
    packets is cut to its first [n mod 256] packets (plus the end-of-message mark) and
    the sender is told it succeeded. *)
Theorem mctp_tx_count_truncated s msg ext :
  let n := zlen msg / max_msg_size s
           + (if negb (zlen msg mod max_msg_size s =? 0) then 1 else 0) in
  0 < max_msg_size s <= 255 -> 256 <= n ->
  exists s' pkts,
    mctp_tx_step (fun _ _ => MCTP_SUCCESS) s (mk_tx_msg 0 (Some msg) (zlen msg) ext)
      = Some (s', pkts, MCTP_SUCCESS) /\ zlen pkts = n mod 256.
Proof.
  intros n HM Hn.
  destruct (Z.eq_dec (zlen msg) 0) as [E0|E0].
  { subst n. rewrite E0, Z.div_0_l, Z.mod_0_l in Hn by lia. simpl in Hn. lia. }
  pose proof (zlen_nonneg msg).
  destruct (split_count_bounds (zlen msg) (max_msg_size s)) as (Hn1 & Hb & Hr); [lia|lia|].
  fold n in Hn1, Hb, Hr.
  set (msg' := mk_tx_msg 0 (Some msg) (zlen msg) ext).
  assert (Hp : forall i, 0 <= i < u8 n -> is_Some (tx_packet s msg' msg (u8 n) i)).
  { intros i Hi. unfold tx_packet. cbn [tx_len msg'].
    pose proof (u8_range n). unfold u8 in Hi at 1. pose proof (Z.mod_le n 256).
    match goal with |- context [mem_read _ _ ?x] => set (c := x) end.
    assert (0 <= c <= max_msg_size s).
    { subst c. pose proof (Z.mod_pos_bound (zlen msg) (max_msg_size s) ltac:(lia)).
      rewrite (u8_id (zlen msg mod _)) by lia. destruct (_ && _); rewrite u8_id; lia. }
    rewrite mem_read_Some; [by eexists|nia|lia|].
    assert (i + 1 <= n - 1) by (pose proof (Z.mod_pos_bound n 256); lia). nia. }
  assert (Hloop : forall k i, 0 <= i -> i + Z.of_nat k = u8 n ->
    exists ps, tx_loop (fun _ _ => MCTP_SUCCESS) s msg' msg (u8 n) k i = Some (ps, u8 n)
               /\ zlen ps = Z.of_nat k).
  { induction k as [|k IH]; intros i Hi Hk; cbn [tx_loop].
    - exists []. split; [|done]. repeat f_equal. lia.
    - destruct (Hp i) as [p ->]; [lia|]. destruct (IH (i + 1)) as (ps & Hps & Hl); [lia|lia|].
      change (negb (MCTP_SUCCESS =? MCTP_SUCCESS)) with false. cbn [mbind option_bind].
      rewrite Hps. cbn [mbind option_bind]. eexists. split; [done|]. rewrite zlen_cons. lia. }
  pose proof (u8_range n).
  destruct (Hloop (Z.to_nat (u8 n)) 0) as (ps & Hps & Hl); [lia|lia|].
  eexists _, ps. split.
  - unfold mctp_tx_step. cbn [tx_buf tx_len is_bridge_packet tx_ext_params msg'].
    destruct (Z.eqb_spec (zlen msg) 0); [lia|]. cbn [Z.eqb negb].
    destruct (Z.eqb_spec (max_msg_size s) 0); [lia|].
    cbv zeta. fold n. fold msg'. rewrite Hps. cbn [mbind option_bind].
    by rewrite Z.eqb_refl.
  - rewrite Hl. unfold u8. rewrite Z2Nat.id; [done|]. apply Z.mod_pos_bound; lia.
Qed.
Lemma mctp_tx_count_truncated_witness :
  exists s s' pkts,
    mctp_tx_step (fun _ _ => MCTP_SUCCESS) s
      (mk_tx_msg 0 (Some (zeros 257)) 257 (mk_ext 0 0 0x0A 1 0)) = Some (s', pkts, MCTP_SUCCESS)
    /\ zlen pkts = 1.
Proof.
  set (s := mk_mctp 1 1 0x08 1 (mk_conf 0 0) None None None true true "" "" true
              (replicate 16 empty_slot) None 5).
  exists s. apply (mctp_tx_count_truncated s (zeros 257) (mk_ext 0 0 0x0A 1 0)).
  - simpl. lia.
  - vm_compute. congruence.
Defined.

(** A received packet shorter than the 4-byte MCTP header that continues a pending
    message makes the assembly copy of a wrapped-around size: undefined behaviour. *)
Theorem mctp_rx_short_packet_ub resolve m buf len b off ext0 :
  let h := hdr_of buf in
  for_me m h -> hdr_som h = 0 -> 1 <= len <= 3 -> zlen buf = 256 ->
  get_slot m h = mk_slot (Some b) off -> 4 <= off <= 1024 ->
  mctp_rx_step resolve true m buf len ext0 = None.
Proof.
  intros h Hf Hs Hl Hb Hg Ho. unfold mctp_rx_step.
  destruct (Z.eqb_spec len 0); [lia|]. fold h. rewrite for_me_test by done.
  unfold mctp_pkt_assembling. destruct (Z.eqb_spec len 0); [lia|]. fold h.
  rewrite Hs, Hg. cbn [Z.eqb negb andb slot_buf slot_offset].
  unfold MSG_ASSEMBLY_BUF_SIZE, MCTP_TRANSPORT_HEADER_SIZE. rewrite u16_id by lia.
  destruct (Z.ltb_spec 1024 (off + len - 4)); [lia|].
  assert (E : mem_read buf 4 (u32 (len - 4)) = None); [|by rewrite E].
  unfold mem_read. rewrite Hb.
  assert (len = 1 \/ len = 2 \/ len = 3) as [->|[->| ->]] by lia; reflexivity.
Qed.
Lemma mctp_rx_short_packet_ub_witness :
  exists m, mctp_rx_step (fun _ _ => None) true m (in_read_buf [1; 0x0A; 0x08]) 3
              (mk_ext 0 0 0 1 0x20) = None.
Proof.
  set (m := mk_mctp 1 1 0x0A 244 (mk_conf 0 0) None None None true true "" "" true
     (<[0%nat := mk_slot (Some (zeros 1024)) 64]> (replicate 16 empty_slot)) (Some 7) 0).
  exists m. apply (mctp_rx_short_packet_ub (fun _ _ => None) m (in_read_buf [1; 0x0A; 0x08]) 3
    (zeros 1024) 64); try done; try lia. by left.
Defined.

(** [mctp_start] is all or nothing. On a stopped instance it succeeds exactly when
    the queue and both threads are created, and otherwise leaves no thread, no queue and
    a stopped service; on a started one it fails and changes nothing. A stopped
    instance refuses every message, an instance started and with a free queue slot
    passes it on unchanged and returns the transmit task's answer. *)
Theorem mctp_start_spec malloc_ok rx_tid tx_tid m :
  let '(ret, m') := mctp_start malloc_ok rx_tid tx_tid m in
  (is_servcie_start m <> 0 -> ret = MCTP_ERROR /\ m' = m) /\
  (is_servcie_start m = 0 ->
     (ret = MCTP_SUCCESS <-> malloc_ok && rx_tid && tx_tid = true) /\
     (ret = MCTP_SUCCESS -> is_servcie_start m' = 1 /\ mctp_rx_task_tid m' = true
        /\ mctp_tx_task_tid m' = true /\ mctp_tx_queue m' = true) /\
     (ret <> MCTP_SUCCESS -> is_servcie_start m' = 0 /\ mctp_rx_task_tid m' = false
        /\ mctp_tx_task_tid m' = false /\ mctp_tx_queue m' = false)) /\
  (forall ok put evt buf ext, is_servcie_start m' = 0 -> 0 < zlen buf ->
     mctp_send_msg ok put evt m' buf (zlen buf) ext = Some (MCTP_ERROR, None)) /\
  (forall e buf ext, is_servcie_start m' <> 0 -> 0 < zlen buf ->
     mctp_send_msg true true (Some e) m' buf (zlen buf) ext =
       Some (e, Some (mk_tx_msg 0 (Some buf) (zlen buf) ext))).
Proof.
  destruct (mctp_start malloc_ok rx_tid tx_tid m) as [ret m'] eqn:E.
  split_and!.
  3:{ intros ok put evt buf ext H0 Hl. unfold mctp_send_msg, mctp_pass_tx_task.
      destruct (Z.eqb_spec (zlen buf) 0); [lia|]. by rewrite H0. }
  3:{ intros e buf ext H0 Hl. unfold mctp_send_msg, mctp_pass_tx_task.
      destruct (Z.eqb_spec (zlen buf) 0); [lia|].
      destruct (Z.eqb_spec (is_servcie_start m') 0); [done|].
      cbn [negb]. rewrite mem_read_Some, slice_all by lia. done. }
  - intros H0. unfold mctp_start in E. destruct (Z.eqb_spec (is_servcie_start m) 0); [done|].
    cbn [negb] in E. by simplify_eq.
  - intros H0. unfold mctp_start in E. rewrite H0 in E. change (negb (0 =? 0)) with false in E.
    destruct (set_thread_name m) as [r0 m0].
    unfold mctp_stop, MCTP_ERROR, MCTP_SUCCESS in *.
    destruct malloc_ok, rx_tid, tx_tid; cbn [negb andb snd] in *;
      injection E as <- <-; repeat case_match; split_and!; done.
Qed.
