(* ===== verification/HalI2c.v ===== *)
(** Component [common/hal/hal_i2c.c]: the I2C master transfers every device of the BIC goes
    through: checks, the mutex of the bus, bounce buffers and retries around Zephyr's I2C API,
    which is the class [I2cDriver]. *)

From S2P Require Import Prelude Bytes.

Definition I2C_BUFF_SIZE : Z := 256.
Definition EAGAIN : Z := 11.
Definition ENOLCK : Z := 46.
Definition EMSGSIZE : Z := 122.

(** [struct _I2C_MSG_] without its lock. *)
Record I2C_MSG := mk_i2c {
  i2c_bus : Z; i2c_target_addr : Z; i2c_rx_len : Z; i2c_tx_len : Z; i2c_data : list Z }.

Definition set_i2c_data (d : list Z) (msg : I2C_MSG) : I2C_MSG :=
  mk_i2c (i2c_bus msg) (i2c_target_addr msg) (i2c_rx_len msg) (i2c_tx_len msg) d.

(** What a write puts on the bus. *)
Definition i2c_wire (msg : I2C_MSG) : list Z := slice (i2c_data msg) 0 (i2c_tx_len msg).

(** Zephyr's I2C controller API (not part of the repository) over the state [D] of the bus and
    the devices on it: bus, 7-bit address and the bytes; a code, 0 for success, and the bytes
    received. *)
Class I2cDriver (D : Type) := {
  i2c_write : Z -> Z -> list Z -> D -> D * Z;
  i2c_write_read : Z -> Z -> list Z -> Z -> D -> D * Z * list Z;
  i2c_read : Z -> Z -> Z -> D -> D * Z * list Z }.

(** The environment of one call: does it get the mutex and its two bounce buffers. *)
Record i2c_env := mk_i2c_env { env_lock : bool; env_txbuf : bool; env_rxbuf : bool }.
Definition good_env : i2c_env := mk_i2c_env true true true.

Section hal.
(** [bound]: is [dev_i2c[i]] bound to a device, for each of the [I2C_BUS_MAX_NUM] buses.
    [obmf]: is [CONFIG_USB_DEVICE_OBMF] set. *)
Context {D : Type} `{I2cDriver D} (bound : list bool) (obmf : bool).

(** [None]: the bus number is outside [dev_i2c]. *)
Definition check_i2c_bus_valid (bus : Z) : option Z :=
  b ← bound !! Z.to_nat bus; Some (if (b : bool) then 0 else -1).

(** The loop over the attempts: [n] of them are left, [ret] is the last code. With [early], which
    the two functions that take the mutex set under OBMF, an error other than a busy bus ends it.
    The counter is a [uint8_t], so the callers' [retry] is below 255. *)
Fixpoint i2c_attempts {A} (early : bool) (f : D -> D * Z * A) (n : nat) (ret : Z) (d : D) : D * Z * option A :=
  match n with
  | O => (d, ret, None)
  | S n =>
      let '(d, ret, x) := f d in
      if ret =? 0 then (d, ret, Some x)
      else if early && negb (ret =? - EAGAIN) then (d, ret, None)
      else i2c_attempts early f n ret d
  end.

Definition read_once (msg : I2C_MSG) (txbuf : list Z) (d : D) : D * Z * list Z :=
  if 0 <? i2c_tx_len msg
  then i2c_write_read (i2c_bus msg) (i2c_target_addr msg) txbuf (i2c_rx_len msg) d
  else i2c_read (i2c_bus msg) (i2c_target_addr msg) (i2c_rx_len msg) d.

(** The transfer once the bus is taken (the body shared by the two read functions). *)
Definition read_transfer (early : bool) (env : i2c_env) (msg : I2C_MSG) (retry : Z) (d : D)
    : option (D * Z * I2C_MSG) :=
  if negb (env_txbuf env && env_rxbuf env) then Some (d, -1, msg)
  else
    txbuf ← mem_read (i2c_data msg) 0 (i2c_tx_len msg);
    let '(d, ret, rx) := i2c_attempts early (read_once msg txbuf) (Z.to_nat (retry + 1)) (-1) d in
    match rx with
    | Some rx => data ← mem_write (i2c_data msg) 0 (slice rx 0 (i2c_rx_len msg));
                 Some (d, ret, set_i2c_data data msg)
    | None => Some (d, ret, msg)
    end.

(** Result: the bus, the code and the message; [None]: undefined behaviour. The lengths are
    [uint8_t], so that the comparisons with [I2C_BUFF_SIZE] never hold. *)
Definition i2c_master_read (env : i2c_env) (msg : I2C_MSG) (retry : Z) (d : D)
    : option (D * Z * I2C_MSG) :=
  valid ← check_i2c_bus_valid (i2c_bus msg);
  if valid <? 0 then Some (d, -1, msg)
  else if i2c_rx_len msg =? 0 then Some (d, EMSGSIZE, msg)
  else if I2C_BUFF_SIZE <? i2c_rx_len msg then Some (d, -1, msg)
  else if I2C_BUFF_SIZE <? i2c_tx_len msg then Some (d, -1, msg)
  else if negb (env_lock env) then Some (d, ENOLCK, msg)
  else read_transfer obmf env msg retry d.

Definition i2c_master_read_without_mutex (env : i2c_env) (msg : I2C_MSG) (retry : Z) (d : D)
    : option (D * Z * I2C_MSG) :=
  valid ← check_i2c_bus_valid (i2c_bus msg);
  if valid <? 0 then Some (d, -1, msg)
  else if i2c_rx_len msg =? 0 then Some (d, EMSGSIZE, msg)
  else if I2C_BUFF_SIZE <? i2c_rx_len msg then Some (d, -1, msg)
  else if I2C_BUFF_SIZE <? i2c_tx_len msg then Some (d, -1, msg)
  else read_transfer false env msg retry d.

Definition write_transfer (early : bool) (env : i2c_env) (msg : I2C_MSG) (retry : Z) (d : D) : option (D * Z) :=
  if negb (env_txbuf env) then Some (d, -1)
  else
    txbuf ← mem_read (i2c_data msg) 0 (i2c_tx_len msg);
    let once d := let '(d, ret) := i2c_write (i2c_bus msg) (i2c_target_addr msg) txbuf d in (d, ret, tt) in
    let '(d, ret, _) := i2c_attempts early once (Z.to_nat (retry + 1)) (-1) d in
    Some (d, ret).

Definition i2c_master_write (env : i2c_env) (msg : I2C_MSG) (retry : Z) (d : D) : option (D * Z) :=
  valid ← check_i2c_bus_valid (i2c_bus msg);
  if valid <? 0 then Some (d, -1)
  else if I2C_BUFF_SIZE <? i2c_tx_len msg then Some (d, -1)
  else if negb (env_lock env) then Some (d, ENOLCK)
  else write_transfer obmf env msg retry d.

Definition i2c_master_write_without_mutex (env : i2c_env) (msg : I2C_MSG) (retry : Z) (d : D)
    : option (D * Z) :=
  valid ← check_i2c_bus_valid (i2c_bus msg);
  if valid <? 0 then Some (d, -1)
  else if I2C_BUFF_SIZE <? i2c_tx_len msg then Some (d, -1)
  else write_transfer false env msg retry d.

(** The two address bytes of an SPD hub: block, offset in it and the NVM bit. *)
Definition spd_offsets (v : Z) (is_nvm : bool) : Z * Z :=
  let addr := u8 (v mod 64) in
  let block_addr := u8 (v / 64) in
  let offset0 := u8 ((block_addr .& 1) .<< 6 .| (addr .& 0x3F)) in
  (if is_nvm then offset0 .| 0x80 else offset0 .& 0x7F, (block_addr .>> 1) .& 0xF).

Definition i2c_spd_reg_read (env : i2c_env) (msg : I2C_MSG) (is_nvm : bool) (d : D)
    : option (D * Z * I2C_MSG) :=
  valid ← check_i2c_bus_valid (i2c_bus msg);
  if valid <? 0 then Some (d, -1, msg)
  else
    let '(offset0, offset1) := spd_offsets ((rd (i2c_data msg) 1 .<< 8) .| rd (i2c_data msg) 0) is_nvm in
    data ← mem_write (i2c_data msg) 0 [offset0; offset1];
    i2c_master_read env (mk_i2c (i2c_bus msg) (i2c_target_addr msg) (i2c_rx_len msg) 2 data) 3 d.

(** One probe per address of the scan, in the order of the loops. *)
Definition scan_addrs : list Z := seqZ 0x04 (0x77 - 0x04 + 1).

Fixpoint scan_loop (bus : Z) (addrs : list Z) (d : D) : D * list Z :=
  match addrs with
  | [] => (d, [])
  | a :: addrs =>
      let '(d, ret) := i2c_write bus a [] d in
      let '(d, found) := scan_loop bus addrs d in
      (d, if ret =? 0 then u8 (a .<< 1) :: found else found)
  end.

(** The bytes put into [target_addr]. *)
Definition i2c_scan (bus : Z) (d : D) : option (D * list Z) :=
  valid ← check_i2c_bus_valid bus;
  if valid <? 0 then Some (d, []) else Some (scan_loop bus scan_addrs d).
End hal.

(** ** Attempts *)

Section attempts.
Context {D : Type} (obmf : bool).

(** Any property of the bus that a failed and a successful attempt keep is kept; a success
    is the result of one attempt. *)
Lemma i2c_attempts_inv {A} (f : D -> D * Z * A) (P Q : D -> Prop) n ret d :
  (forall d d' r x, P d -> f d = (d', r, x) -> if r =? 0 then Q d' else P d') ->
  P d -> ret <> 0 ->
  let '(d', r, x) := i2c_attempts obmf f n ret d in
  if r =? 0 then Q d' /\ exists d0 x0, P d0 /\ f d0 = (d', 0, x0) /\ x = Some x0
  else P d' /\ x = None.
Proof.
  intros Hf. revert ret d. induction n as [|n IH]; intros ret d Hd Hr; simpl.
  - destruct (Z.eqb_spec ret 0); done.
  - destruct (f d) as [[d' r] x] eqn:E. pose proof (Hf _ _ _ _ Hd E) as Hk.
    destruct (Z.eqb_spec r 0) as [->|Hr']; [naive_solver|].
    destruct (obmf && _); [|by apply IH].
    destruct (Z.eqb_spec r 0); done.
Qed.

(** A bus that acknowledges the first attempt needs no other. *)
Lemma i2c_attempts_ok {A} (f : D -> D * Z * A) n ret d d' x :
  (0 < n)%nat -> f d = (d', 0, x) -> i2c_attempts obmf f n ret d = (d', 0, Some x).
Proof. intros Hn E. destruct n; [lia|]. simpl. by rewrite E. Qed.
End attempts.

(** ** Transfers: whatever the environment and the driver do, a transfer ends, and a property
    of the bus that the attempts keep is kept. *)
Section transfers.
Context {D : Type} `{HD : I2cDriver D} (bound : list bool) (obmf : bool).

Lemma i2c_master_write_inv e msg retry (P Q : D -> Prop) d b :
  bound !! Z.to_nat (i2c_bus msg) = Some b ->
  0 <= i2c_tx_len msg <= zlen (i2c_data msg) ->
  (forall d d' r, P d -> i2c_write (i2c_bus msg) (i2c_target_addr msg) (i2c_wire msg) d = (d', r) ->
     if r =? 0 then Q d' else P d') -> P d ->
  exists d' ret, i2c_master_write bound obmf e msg retry d = Some (d', ret) /\
    if ret =? 0 then Q d' else P d'.
Proof.
  intros Eb Hl Hf Hd. unfold i2c_master_write, check_i2c_bus_valid.
  rewrite Eb. cbn [mbind option_bind].
  destruct b; cbn [Z.ltb Z.compare]; [|by eexists _, (-1)].
  destruct (I2C_BUFF_SIZE <? i2c_tx_len msg); [by eexists _, (-1)|].
  destruct (env_lock e); cbn [negb]; [|by eexists _, ENOLCK].
  unfold write_transfer. destruct (env_txbuf e); cbn [negb]; [|by eexists _, (-1)].
  rewrite mem_read_Some by lia. cbn [mbind option_bind]. fold (i2c_wire msg).
  set (f := fun d => let '(d, ret) := i2c_write (i2c_bus msg) (i2c_target_addr msg) (i2c_wire msg) d in
                     (d, ret, tt)).
  pose proof (i2c_attempts_inv obmf f P Q (Z.to_nat (retry + 1)) (-1) d) as Hi.
  destruct (i2c_attempts _ _ _ _ _) as [[d' ret] x]. exists d', ret. split; [done|].
  destruct (ret =? 0); apply Hi; try done; intros d0 d1 r u H0; unfold f;
    (destruct (i2c_write _ _ _ d0) as [d2 r2] eqn:E); intros [= <- <- _]; by eapply Hf.
Qed.

Lemma i2c_master_read_inv e msg retry (P Q : D -> Prop) d b :
  bound !! Z.to_nat (i2c_bus msg) = Some b ->
  0 < i2c_tx_len msg <= zlen (i2c_data msg) -> 0 <= i2c_rx_len msg <= zlen (i2c_data msg) ->
  (forall d d' r rx, P d -> i2c_write_read (i2c_bus msg) (i2c_target_addr msg) (i2c_wire msg)
       (i2c_rx_len msg) d = (d', r, rx) -> if r =? 0 then Q d' else P d') -> P d ->
  exists d' ret msg', i2c_master_read bound obmf e msg retry d = Some (d', ret, msg') /\
    if ret =? 0 then Q d' /\ i2c_rx_len msg' = i2c_rx_len msg /\
      exists d0 d1 rx, P d0 /\ i2c_write_read (i2c_bus msg) (i2c_target_addr msg) (i2c_wire msg)
        (i2c_rx_len msg) d0 = (d1, 0, rx) /\
        i2c_data msg' = patch (i2c_data msg) 0 (slice rx 0 (i2c_rx_len msg))
    else P d' /\ msg' = msg.
Proof.
  intros Eb Hl Hr Hf Hd. unfold i2c_master_read, check_i2c_bus_valid.
  rewrite Eb. cbn [mbind option_bind].
  destruct b; cbn [Z.ltb Z.compare]; [|by eexists _, (-1), _].
  destruct (i2c_rx_len msg =? 0); [by eexists _, EMSGSIZE, _|].
  destruct (I2C_BUFF_SIZE <? i2c_rx_len msg); [by eexists _, (-1), _|].
  destruct (I2C_BUFF_SIZE <? i2c_tx_len msg); [by eexists _, (-1), _|].
  destruct (env_lock e); cbn [negb]; [|by eexists _, ENOLCK, _].
  unfold read_transfer. destruct (env_txbuf e && env_rxbuf e); cbn [negb]; [|by eexists _, (-1), _].
  rewrite mem_read_Some by lia. cbn [mbind option_bind]. fold (i2c_wire msg).
  pose proof (i2c_attempts_inv obmf (read_once msg (i2c_wire msg)) P Q (Z.to_nat (retry + 1)) (-1) d)
    as Hi.
  assert (Ho : forall d, read_once msg (i2c_wire msg) d =
    i2c_write_read (i2c_bus msg) (i2c_target_addr msg) (i2c_wire msg) (i2c_rx_len msg) d).
  { intros. unfold read_once. destruct (Z.ltb_spec 0 (i2c_tx_len msg)); [done|lia]. }
  setoid_rewrite Ho in Hi. destruct (i2c_attempts _ _ _ _ _) as [[d' ret] x] eqn:Ea.
  specialize (Hi Hf Hd ltac:(lia)). destruct (ret =? 0) eqn:E0.
  - destruct Hi as (HQ & d0 & rx & H0 & E & ->).
    assert (zlen (slice rx 0 (i2c_rx_len msg)) <= i2c_rx_len msg).
    { unfold zlen, slice. rewrite length_take. lia. }
    rewrite mem_write_patch by lia. cbn [mbind option_bind].
    eexists _, _, _. split; [done|]. rewrite E0. split_and!; [done|done|].
    exists d0, d', rx. by rewrite <- Ho.
  - destruct Hi as (HP & ->). eexists _, _, _. split; [done|]. by rewrite E0.
Qed.

(** A bound bus, the mutex and the memory, and a first attempt that is acknowledged. *)
Lemma i2c_master_write_ack msg retry d d' :
  bound !! Z.to_nat (i2c_bus msg) = Some true -> 0 <= i2c_tx_len msg <= zlen (i2c_data msg) ->
  i2c_tx_len msg <= I2C_BUFF_SIZE -> 0 <= retry ->
  i2c_write (i2c_bus msg) (i2c_target_addr msg) (i2c_wire msg) d = (d', 0) ->
  i2c_master_write bound obmf good_env msg retry d = Some (d', 0).
Proof.
  intros Eb Hl Hs Hr E. unfold i2c_master_write, check_i2c_bus_valid. rewrite Eb. cbn [mbind option_bind Z.ltb Z.compare].
  destruct (Z.ltb_spec I2C_BUFF_SIZE (i2c_tx_len msg)); [lia|]. cbn [env_lock good_env negb].
  unfold write_transfer. cbn [env_txbuf good_env negb]. rewrite mem_read_Some by lia. cbn [mbind option_bind]. fold (i2c_wire msg).
  rewrite (i2c_attempts_ok obmf _ _ _ _ d' tt); [done|lia|by rewrite E].
Qed.

Lemma i2c_master_read_ack msg retry d d' rx :
  bound !! Z.to_nat (i2c_bus msg) = Some true -> 0 < i2c_tx_len msg <= zlen (i2c_data msg) ->
  0 < i2c_rx_len msg <= zlen (i2c_data msg) -> i2c_rx_len msg <= I2C_BUFF_SIZE ->
  i2c_tx_len msg <= I2C_BUFF_SIZE -> 0 <= retry ->
  i2c_write_read (i2c_bus msg) (i2c_target_addr msg) (i2c_wire msg) (i2c_rx_len msg) d = (d', 0, rx) ->
  exists msg', i2c_master_read bound obmf good_env msg retry d = Some (d', 0, msg').
Proof.
  intros Eb Hl Hx Hs1 Hs2 Hr E. unfold i2c_master_read, check_i2c_bus_valid. rewrite Eb. cbn [mbind option_bind Z.ltb Z.compare].
  destruct (Z.eqb_spec (i2c_rx_len msg) 0); [lia|]. destruct (Z.ltb_spec I2C_BUFF_SIZE (i2c_rx_len msg)); [lia|].
  destruct (Z.ltb_spec I2C_BUFF_SIZE (i2c_tx_len msg)); [lia|]. cbn [env_lock good_env negb].
  unfold read_transfer. cbn [env_txbuf env_rxbuf good_env andb negb]. rewrite mem_read_Some by lia. cbn [mbind option_bind]. fold (i2c_wire msg).
  rewrite (i2c_attempts_ok obmf _ _ _ _ d' rx); [|lia|unfold read_once; destruct (Z.ltb_spec 0 (i2c_tx_len msg)); [exact E|lia]].
  assert (zlen (slice rx 0 (i2c_rx_len msg)) <= i2c_rx_len msg) by (unfold zlen, slice; rewrite length_take; lia).
  rewrite mem_write_patch by lia. cbn [mbind option_bind]. by eexists.
Qed.

Lemma i2c_master_read_zero e msg retry d b :
  bound !! Z.to_nat (i2c_bus msg) = Some b -> i2c_rx_len msg = 0 ->
  exists ret, i2c_master_read bound obmf e msg retry d = Some (d, ret, msg) /\ ret <> 0.
Proof.
  intros Eb Hr. unfold i2c_master_read, check_i2c_bus_valid. rewrite Eb, Hr. cbn [mbind option_bind].
  destruct b; cbn [Z.ltb Z.compare]; [by exists EMSGSIZE|by exists (-1)].
Qed.
End transfers.
