(* ===== verification/Eeprom.v ===== *)
(** Component [common/dev/eeprom.c], [common/dev/fru.c] and [common/dev/guid.c]: reads and writes
    of the FRU and GUID areas of EEPROM chips behind the I2C buses and multiplexers. *)

From S2P Require Import Prelude Bytes HalI2c.

(** ** Configuration and entries *)

Definition EEPROM_WRITE_SIZE : Z := 0x20.
Definition FRU_START : Z := 0x0000.
Definition FRU_SIZE : Z := 0x0400.
Definition GUID_START : Z := 0x0800.
Definition GUID_SIZE : Z := 0x0100.
Definition NV_ATMEL_24C02 : Z := 0.
Definition FRU_ID_NOT_FOUND : Z := 0xFF.

(** The status codes of [fru.h]; those of [guid.h] have the same order. *)
Inductive FRU_status :=
  | FRU_WRITE_SUCCESS
  | FRU_READ_SUCCESS
  | FRU_INVALID_ID
  | FRU_OUT_OF_RANGE
  | FRU_FAIL_TO_ACCESS.
#[export] Instance FRU_status_eq : EqDecision FRU_status.
Proof. solve_decision. Defined.

(** [bus_mutex]: is it not [NULL]. *)
Record EEPROM_CFG := mk_eeprom_cfg {
  dev_type : Z; dev_id : Z; port : Z; target_addr : Z; access : Z;
  start_offset : Z; max_size : Z; mux_present : bool; mux_addr : Z; mux_channel : Z;
  bus_mutex : bool }.

(** [ee_data]: the array of [EEPROM_WRITE_SIZE] bytes. *)
Record EEPROM_ENTRY := mk_entry {
  ee_config : EEPROM_CFG; ee_offset : Z; ee_data_len : Z; ee_data : list Z }.

(** An entry as the callers fill it: only the id of its configuration counts. *)
Definition entry_for (id offset len : Z) (data : list Z) : EEPROM_ENTRY :=
  mk_entry (mk_eeprom_cfg 0 id 0 0 0 0 0 false 0 0 false) offset len data.

Definition with_config (cfg : EEPROM_CFG) (e : EEPROM_ENTRY) : EEPROM_ENTRY :=
  mk_entry cfg (ee_offset e) (ee_data_len e) (ee_data e).

(** ** [eeprom.c] *)

Section eeprom.
Context {D : Type} `{I2cDriver D} (bound : list bool) (obmf : bool).
(** The environment of the [k]th I2C call of an access. *)
Context (env : Z -> i2c_env).

Definition eeprom_mux_check (e : i2c_env) (cfg : EEPROM_CFG) (d : D) : option (D * bool) :=
  if mux_present cfg then
    let msg := mk_i2c (port cfg) (mux_addr cfg) 0 1
                 (u8 (1 .<< mux_channel cfg) :: zeros (I2C_BUFF_SIZE - 1)) in
    '(d, ret) ← i2c_master_write bound obmf e msg 5 d;
    Some (d, ret =? 0)
  else Some (d, true).

Definition eeprom_one_btye_addr_check (type : Z) : bool := type =? NV_ATMEL_24C02.

(** The address bytes in front of the data. *)
Definition offset_bytes (cfg : EEPROM_CFG) (offset : Z) : list Z :=
  let a := start_offset cfg + offset in
  if eeprom_one_btye_addr_check (dev_type cfg) then [a .& 0xFF] else [(a .>> 8) .& 0xFF; a .& 0xFF].

Definition eeprom_write_msg (e : EEPROM_ENTRY) : option I2C_MSG :=
  let cfg := ee_config e in
  let addr := offset_bytes cfg (ee_offset e) in
  data ← mem_read (ee_data e) 0 (ee_data_len e);
  buf ← mem_write (zeros I2C_BUFF_SIZE) 0 (addr ++ data);
  Some (mk_i2c (port cfg) (target_addr cfg) 0 (u8 (ee_data_len e + zlen addr)) buf).

Definition eeprom_read_msg (e : EEPROM_ENTRY) : option I2C_MSG :=
  let cfg := ee_config e in
  let addr := offset_bytes cfg (ee_offset e) in
  buf ← mem_write (zeros I2C_BUFF_SIZE) 0 addr;
  Some (mk_i2c (port cfg) (target_addr cfg) (u8 (ee_data_len e)) (zlen addr) buf).

(** The loop of [eeprom_write]: [n] attempts are left, the next has number [i]. *)
Fixpoint write_tries (e : EEPROM_ENTRY) (n : nat) (i : Z) (d : D) : option (D * bool) :=
  match n with
  | O => Some (d, false)
  | S n =>
      '(d, ok) ← eeprom_mux_check (env (2 * i)) (ee_config e) d;
      if negb ok then write_tries e n (i + 1) d
      else
        msg ← eeprom_write_msg e;
        '(d, ret) ← i2c_master_write bound obmf (env (2 * i + 1)) msg 5 d;
        if ret =? 0 then Some (d, true) else write_tries e n (i + 1) d
  end.

(** [lock]: is the mutex of the bus, if there is one, obtained. *)
Definition eeprom_write (lock : bool) (e : EEPROM_ENTRY) (d : D) : option (D * bool) :=
  if bus_mutex (ee_config e) && negb lock then Some (d, false) else write_tries e 5 0 d.

Fixpoint read_tries (e : EEPROM_ENTRY) (n : nat) (i : Z) (d : D)
    : option (D * bool * EEPROM_ENTRY) :=
  match n with
  | O => Some (d, false, e)
  | S n =>
      '(d, ok) ← eeprom_mux_check (env (2 * i)) (ee_config e) d;
      if negb ok then read_tries e n (i + 1) d
      else
        msg ← eeprom_read_msg e;
        '(d, ret, msg) ← i2c_master_read bound obmf (env (2 * i + 1)) msg 5 d;
        if ret =? 0 then
          rx ← mem_read (i2c_data msg) 0 (i2c_rx_len msg);
          data ← mem_write (ee_data e) 0 rx;
          Some (d, true, mk_entry (ee_config e) (ee_offset e) (i2c_rx_len msg) data)
        else read_tries e n (i + 1) d
  end.

Definition eeprom_read (lock : bool) (e : EEPROM_ENTRY) (d : D)
    : option (D * bool * EEPROM_ENTRY) :=
  if bus_mutex (ee_config e) && negb lock then Some (d, false, e) else read_tries e 5 0 d.

(** ** [fru.c] *)

(** [fru_config] and [MAX_FRU_ID] are the platform's. *)
Context (fru_config : list EEPROM_CFG) (MAX_FRU_ID : Z).

(** The first configuration of an id. *)
Definition find_FRU_ID (FRUID : Z) : option EEPROM_CFG :=
  snd <$> list_find (fun cfg => FRUID = dev_id cfg) fru_config.

Definition get_FRU_access (FRUID : Z) : Z :=
  match find_FRU_ID FRUID with Some cfg => access cfg | None => FRU_ID_NOT_FOUND end.

Definition find_FRU_size (FRUID : Z) : Z :=
  match find_FRU_ID FRUID with Some cfg => max_size cfg | None => 0xFFFF end.

Definition FRU_read (lock : bool) (e : EEPROM_ENTRY) (d : D)
    : option (D * FRU_status * EEPROM_ENTRY) :=
  if MAX_FRU_ID <=? dev_id (ee_config e) then Some (d, FRU_INVALID_ID, e)
  else if FRU_START + FRU_SIZE <? ee_offset e + ee_data_len e then Some (d, FRU_OUT_OF_RANGE, e)
  else
    match find_FRU_ID (dev_id (ee_config e)) with
    | None => Some (d, FRU_INVALID_ID, e)
    | Some cfg =>
        '(d, ok, e) ← eeprom_read lock (with_config cfg e) d;
        Some (d, if (ok : bool) then FRU_READ_SUCCESS else FRU_FAIL_TO_ACCESS, e)
    end.

Definition FRU_write (lock : bool) (e : EEPROM_ENTRY) (d : D) : option (D * FRU_status) :=
  if MAX_FRU_ID <=? dev_id (ee_config e) then Some (d, FRU_INVALID_ID)
  else if FRU_START + FRU_SIZE <=? ee_offset e + ee_data_len e then Some (d, FRU_OUT_OF_RANGE)
  else
    match find_FRU_ID (dev_id (ee_config e)) with
    | None => Some (d, FRU_INVALID_ID)
    | Some cfg =>
        '(d, ok) ← eeprom_write lock (with_config cfg e) d;
        Some (d, if (ok : bool) then FRU_WRITE_SUCCESS else FRU_FAIL_TO_ACCESS)
    end.

(** ** [guid.c] *)

Context (guid_config : list EEPROM_CFG).

Definition GUID_read (lock : bool) (e : EEPROM_ENTRY) (d : D)
    : option (D * FRU_status * EEPROM_ENTRY) :=
  match guid_config !! Z.to_nat (dev_id (ee_config e)) with
  | None => Some (d, FRU_INVALID_ID, e)
  | Some cfg =>
      if GUID_START + GUID_SIZE <=? ee_offset e + ee_data_len e then Some (d, FRU_OUT_OF_RANGE, e)
      else
        '(d, ok, e) ← eeprom_read lock (with_config cfg e) d;
        Some (d, if (ok : bool) then FRU_READ_SUCCESS else FRU_FAIL_TO_ACCESS, e)
  end.

Definition GUID_write (lock : bool) (e : EEPROM_ENTRY) (d : D) : option (D * FRU_status) :=
  match guid_config !! Z.to_nat (dev_id (ee_config e)) with
  | None => Some (d, FRU_INVALID_ID)
  | Some cfg =>
      if GUID_START + GUID_SIZE <=? ee_offset e + ee_data_len e then Some (d, FRU_OUT_OF_RANGE)
      else
        '(d, ok) ← eeprom_write lock (with_config cfg e) d;
        Some (d, if (ok : bool) then FRU_WRITE_SUCCESS else FRU_FAIL_TO_ACCESS)
  end.
End eeprom.

(** ** The chip behind a configuration *)

Definition chip_addr_bytes (cfg : EEPROM_CFG) (a : Z) : list Z :=
  if eeprom_one_btye_addr_check (dev_type cfg) then [a] else [a / 256; a mod 256].

(** The bytes [a, a + n) are in one page. *)
Definition in_page (page a n : Z) : Prop := n = 0 \/ a / page = (a + n - 1) / page.

(** The documented behaviour of an I2C EEPROM and of the multiplexer in front of it: an
    acknowledged page write stores its bytes, one that fails may spoil the bytes it addresses,
    reads leave the memory, and a write to the multiplexer selects the channel. *)
Class EepromChip (D : Type) `{I2cDriver D} (cfg : EEPROM_CFG) := {
  chip_mem : D -> list Z;
  chip_page : Z;
  chip_sel : D -> Prop;
  chip_size : Z;
  chip_mem_size : forall d, zlen (chip_mem d) = chip_size;
  chip_bytes : forall d, bytes_ok (chip_mem d);
  chip_direct : mux_present cfg = false -> forall d, chip_sel d;
  chip_mux : forall d d' ret,
    i2c_write (port cfg) (mux_addr cfg) [u8 (1 .<< mux_channel cfg)] d = (d', ret) ->
    mux_present cfg = true -> chip_mem d' = chip_mem d /\ (ret = 0 -> chip_sel d');
  chip_write : forall d d' ret a data,
    i2c_write (port cfg) (target_addr cfg) (chip_addr_bytes cfg a ++ data) d = (d', ret) ->
    chip_sel d -> bytes_ok data -> 0 <= a -> a + zlen data <= chip_size -> in_page chip_page a (zlen data) ->
    chip_sel d' /\ exists data', zlen data' = zlen data /\ bytes_ok data' /\
      chip_mem d' = patch (chip_mem d) a data' /\ (ret = 0 -> data' = data);
  chip_read : forall d d' ret rx a n,
    i2c_write_read (port cfg) (target_addr cfg) (chip_addr_bytes cfg a) n d = (d', ret, rx) ->
    chip_sel d -> 0 <= a -> 0 < n -> a + n <= chip_size ->
    chip_sel d' /\ chip_mem d' = chip_mem d /\ (ret = 0 -> rx = slice (chip_mem d) a n) }.

(** Where the bytes of an access go on the chip: an address that does not fit wraps. *)
Definition chip_offset (cfg : EEPROM_CFG) (offset : Z) : Z :=
  (start_offset cfg + offset)
    mod (if eeprom_one_btye_addr_check (dev_type cfg) then 256 else 65536).

Lemma offset_bytes_chip cfg offset :
  offset_bytes cfg offset = chip_addr_bytes cfg (chip_offset cfg offset).
Proof.
  unfold offset_bytes, chip_addr_bytes, chip_offset. set (a := start_offset cfg + offset).
  change 0xFF with (Z.ones 8). rewrite !Z.land_ones, Z.shiftr_div_pow2 by lia.
  change (2 ^ 8) with 256. destruct (eeprom_one_btye_addr_check _); [done|].
  f_equal; [|f_equal]; Z.div_mod_to_equations; lia.
Qed.

Lemma zlen_offset_bytes cfg offset : 1 <= zlen (offset_bytes cfg offset) <= 2.
Proof. unfold offset_bytes. destruct (eeprom_one_btye_addr_check _); done. Qed.


Section chip.
Context {D : Type} `{HD : I2cDriver D} (bound : list bool) (obmf : bool).
Context (cfg : EEPROM_CFG) `{HC : !EepromChip D cfg}.
Context (Hbus : exists b, bound !! Z.to_nat (port cfg) = Some b).

(** The entry is within the chip and within a page of it. *)
Definition entry_ok (e : EEPROM_ENTRY) : Prop :=
  ee_config e = cfg /\ zlen (ee_data e) = EEPROM_WRITE_SIZE /\ bytes_ok (ee_data e) /\
  0 <= ee_data_len e <= EEPROM_WRITE_SIZE /\
  chip_offset cfg (ee_offset e) + ee_data_len e <= chip_size /\
  in_page chip_page (chip_offset cfg (ee_offset e)) (ee_data_len e).

Lemma chip_offset_nonneg o : 0 <= chip_offset cfg o.
Proof. apply Z.mod_pos_bound. destruct (eeprom_one_btye_addr_check _); lia. Qed.

Lemma mux_check_spec e d :
  exists d' ok, eeprom_mux_check bound obmf e cfg d = Some (d', ok) /\
    chip_mem d' = chip_mem d /\ (ok = true -> chip_sel d').
Proof using Hbus.
  unfold eeprom_mux_check. destruct (mux_present cfg) eqn:Em.
  - destruct Hbus as [b Eb].
    destruct (i2c_master_write_inv bound obmf e (mk_i2c (port cfg) (mux_addr cfg) 0 1
      (u8 (1 .<< mux_channel cfg) :: zeros (I2C_BUFF_SIZE - 1))) 5
      (fun d' => chip_mem d' = chip_mem d) (fun d' => chip_mem d' = chip_mem d /\ chip_sel d') d b)
      as (d' & ret & E & Hk); try done.
    { intros d0 d1 r H0 E. cbn in E. destruct (chip_mux _ _ _ E Em) as [Hm Hs].
      destruct (Z.eqb_spec r 0); [split; [congruence|by apply Hs]|congruence]. }
    rewrite E. cbn [mbind option_bind]. exists d', (ret =? 0). split; [done|].
    destruct (ret =? 0); naive_solver.
  - exists d, true. split_and!; try done. intros _. by apply chip_direct.
Qed.

(** The bytes of the two messages. *)
Lemma eeprom_write_msg_spec e :
  entry_ok e ->
  exists msg, eeprom_write_msg e = Some msg /\ i2c_bus msg = port cfg /\
    i2c_target_addr msg = target_addr cfg /\ 0 <= i2c_tx_len msg <= zlen (i2c_data msg) /\
    i2c_wire msg = chip_addr_bytes cfg (chip_offset cfg (ee_offset e))
                   ++ slice (ee_data e) 0 (ee_data_len e).
Proof.
  intros (Ec & Hz & _ & Hl & _). unfold eeprom_write_msg, EEPROM_WRITE_SIZE, I2C_BUFF_SIZE in *.
  rewrite mem_read_Some by lia. cbn [mbind option_bind]. rewrite Ec.
  pose proof (zlen_offset_bytes cfg (ee_offset e)) as Ho.
  set (body := offset_bytes cfg (ee_offset e) ++ slice (ee_data e) 0 (ee_data_len e)).
  assert (Hb : zlen body = ee_data_len e + zlen (offset_bytes cfg (ee_offset e))).
  { unfold body. rewrite zlen_app, zlen_slice; lia. }
  rewrite mem_write_patch by (rewrite ?zlen_zeros; lia). cbn [mbind option_bind].
  eexists. split; [done|]. cbn. rewrite u8_id, zlen_patch by (rewrite ?zlen_zeros; lia).
  rewrite zlen_zeros by lia. split_and!; try done; try lia.
  unfold i2c_wire. cbn. rewrite <- Hb, slice_patch by (rewrite ?zlen_zeros; lia).
  unfold body. by rewrite offset_bytes_chip.
Qed.

Lemma eeprom_read_msg_spec e :
  entry_ok e ->
  exists msg, eeprom_read_msg e = Some msg /\ i2c_bus msg = port cfg /\
    i2c_target_addr msg = target_addr cfg /\ 0 < i2c_tx_len msg <= zlen (i2c_data msg) /\
    zlen (i2c_data msg) = I2C_BUFF_SIZE /\
    i2c_rx_len msg = ee_data_len e /\
    i2c_wire msg = chip_addr_bytes cfg (chip_offset cfg (ee_offset e)).
Proof.
  intros (Ec & Hz & _ & Hl & _). unfold eeprom_read_msg, EEPROM_WRITE_SIZE, I2C_BUFF_SIZE in *.
  rewrite Ec. pose proof (zlen_offset_bytes cfg (ee_offset e)) as Ho.
  rewrite mem_write_patch by (rewrite ?zlen_zeros; lia). cbn [mbind option_bind].
  eexists. split; [done|]. cbn. rewrite u8_id, zlen_patch by (rewrite ?zlen_zeros; lia).
  rewrite zlen_zeros by lia. split_and!; try done; try lia.
  unfold i2c_wire. cbn. rewrite slice_patch by (rewrite ?zlen_zeros; lia). apply offset_bytes_chip.
Qed.

(** The addressed range of the memory is replaced, by the data when the access succeeded. *)
Definition replaced (e : EEPROM_ENTRY) (d d' : D) (ok : Prop) : Prop :=
  exists data', zlen data' = ee_data_len e /\ bytes_ok data' /\
    chip_mem d' = patch (chip_mem d) (chip_offset cfg (ee_offset e)) data' /\
    (ok -> data' = slice (ee_data e) 0 (ee_data_len e)).

Lemma replaced_refl e d d' ok :
  entry_ok e -> chip_mem d' = chip_mem d -> ~ ok -> replaced e d d' ok.
Proof.
  intros (_ & _ & _ & Hl & Hr & _) Hm Hok. unfold replaced. rewrite Hm. pose proof (chip_offset_nonneg (ee_offset e)).
  pose proof (chip_mem_size d).
  exists (slice (chip_mem d) (chip_offset cfg (ee_offset e)) (ee_data_len e)).
  split_and!; [apply zlen_slice; lia|apply bytes_ok_slice, chip_bytes|by rewrite patch_same by lia|done].
Qed.

Lemma replaced_trans e d d1 d2 ok1 ok :
  entry_ok e -> replaced e d d1 ok1 -> replaced e d1 d2 ok -> replaced e d d2 ok.
Proof.
  intros (_ & _ & _ & Hl & Hr & _) (x1 & L1 & _ & E1 & _) (x2 & L2 & B2 & E2 & H2).
  pose proof (chip_offset_nonneg (ee_offset e)). exists x2. split_and!; try done.
  rewrite E2, E1, patch_over; rewrite ?chip_mem_size; done || lia.
Qed.

Lemma eeprom_write_once ev e msg d :
  entry_ok e -> chip_sel d -> eeprom_write_msg e = Some msg ->
  exists d' ret, i2c_master_write bound obmf ev msg 5 d = Some (d', ret) /\
    replaced e d d' (ret = 0).
Proof using Hbus.
  intros He Hs Em. destruct (eeprom_write_msg_spec e He) as (msg' & Em' & Eb & Et & Htx & Hw).
  simplify_eq. pose proof He as (Ec & Hz & Hb & Hl & Hr & Hp). destruct Hbus as [b Hbb].
  set (a := chip_offset cfg (ee_offset e)) in *. pose proof (chip_offset_nonneg (ee_offset e)).
  set (data := slice (ee_data e) 0 (ee_data_len e)) in *.
  assert (Hd : zlen data = ee_data_len e) by (apply zlen_slice; unfold EEPROM_WRITE_SIZE in *; lia).
  destruct (i2c_master_write_inv bound obmf ev msg 5 (fun d1 => chip_sel d1 /\ replaced e d d1 False)
    (fun d1 => replaced e d d1 True) d b) as (d2 & ret & -> & Hk); [by rewrite Eb|done| | |].
  - intros d0 d2 r (Hs0 & H0) E. rewrite Eb, Et, Hw in E.
    destruct (chip_write _ _ _ _ _ E Hs0) as (Hs2 & data' & Hl' & Hb' & Em2 & Hr0);
      [by apply bytes_ok_slice|done|lia|by rewrite Hd|].
    assert (H2 : replaced e d0 d2 (r = 0)).
    { exists data'. split_and!; try done; congruence. }
    pose proof (replaced_trans e _ _ _ _ _ He H0 H2) as (x & ? & ? & ? & ?).
    destruct (Z.eqb_spec r 0); [|split; [done|]]; exists x; naive_solver.
  - split; [done|]. apply replaced_refl; naive_solver.
  - exists d2, ret. split; [done|]. destruct (Z.eqb_spec ret 0).
    + destruct Hk as (x & ? & ? & ? & ?). exists x. naive_solver.
    + destruct Hk as (_ & x & ? & ? & ? & ?). exists x. naive_solver.
Qed.

Context (env : Z -> i2c_env).

(** The loop of [eeprom_write] ends; the memory changes only in the addressed range, and to the
    data when the write succeeds. *)
Lemma write_tries_spec e n i d :
  entry_ok e ->
  exists d' ok, write_tries bound obmf env e n i d = Some (d', ok) /\ replaced e d d' (ok = true).
Proof using Hbus env.
  intros He. pose proof He as (Ec & _). revert i d.
  induction n as [|n IH]; intros i d; simpl write_tries.
  { exists d, false. split; [done|]. by apply replaced_refl. }
  rewrite Ec. destruct (mux_check_spec (env (2 * i)) d) as (d1 & ok & -> & Hm1 & Hs1).
  cbn [mbind option_bind].
  assert (H1 : replaced e d d1 False) by (apply replaced_refl; naive_solver).
  destruct ok; cbn [negb].
  2:{ destruct (IH (i + 1) d1) as (d2 & ok & E & H2). exists d2, ok. split; [done|].
      by eapply replaced_trans. }
  destruct (eeprom_write_msg_spec e He) as (msg & Em & _). rewrite Em. cbn [mbind option_bind].
  destruct (eeprom_write_once (env (2 * i + 1)) e msg d1 He (Hs1 eq_refl) Em) as (d2 & ret & -> & H2).
  cbn [mbind option_bind]. pose proof (replaced_trans e _ _ _ _ _ He H1 H2) as H3.
  destruct (Z.eqb_spec ret 0) as [->|_].
  - exists d2, true. split; [done|]. destruct H3 as (x & ? & ? & ? & ?). exists x. naive_solver.
  - destruct (IH (i + 1) d2) as (d3 & ok & E & H4). exists d3, ok. split; [done|].
    by eapply replaced_trans.
Qed.

Lemma eeprom_write_spec lock e d :
  entry_ok e ->
  exists d' ok, eeprom_write bound obmf env lock e d = Some (d', ok) /\ replaced e d d' (ok = true).
Proof using Hbus env.
  intros He. unfold eeprom_write. destruct (bus_mutex (ee_config e) && negb lock).
  - exists d, false. split; [done|]. by apply replaced_refl.
  - by apply write_tries_spec.
Qed.

(** Reads: the memory stays, and a successful read delivers the addressed range. *)
Definition delivered (e e' : EEPROM_ENTRY) (d d' : D) (ok : bool) : Prop :=
  chip_mem d' = chip_mem d /\
  e' = if ok then mk_entry cfg (ee_offset e) (ee_data_len e) (patch (ee_data e) 0
                    (slice (chip_mem d) (chip_offset cfg (ee_offset e)) (ee_data_len e)))
       else e.

Lemma eeprom_read_once ev e msg d :
  entry_ok e -> chip_sel d -> eeprom_read_msg e = Some msg ->
  exists d' ret msg', i2c_master_read bound obmf ev msg 5 d = Some (d', ret, msg') /\
    chip_mem d' = chip_mem d /\
    (ret = 0 -> i2c_rx_len msg' = ee_data_len e /\ zlen (i2c_data msg') = I2C_BUFF_SIZE /\
    slice (i2c_data msg') 0 (ee_data_len e) =
         slice (chip_mem d) (chip_offset cfg (ee_offset e)) (ee_data_len e)).
Proof using Hbus.
  intros He Hs Em. destruct (eeprom_read_msg_spec e He) as (msg' & Em' & Eb & Et & Htx & Hz & Hrx & Hw).
  simplify_eq. pose proof He as (Ec & _ & _ & Hl & Hr & Hp). destruct Hbus as [b Hbb].
  unfold EEPROM_WRITE_SIZE, I2C_BUFF_SIZE in *.
  set (a := chip_offset cfg (ee_offset e)) in *. pose proof (chip_offset_nonneg (ee_offset e)) as Ha.
  fold a in Ha. pose proof (chip_mem_size d) as Hms.
  destruct (decide (ee_data_len e = 0)) as [E0|E0].
  { destruct (i2c_master_read_zero bound obmf ev msg 5 d b) as (ret & E & Hne);
      [by rewrite Eb|congruence|]. exists d, ret, msg. by split_and!. }
  assert (Hread : forall d0 d1 r rx, chip_mem d0 = chip_mem d /\ chip_sel d0 ->
    i2c_write_read (i2c_bus msg) (i2c_target_addr msg) (i2c_wire msg) (i2c_rx_len msg) d0 = (d1, r, rx) ->
    (chip_mem d1 = chip_mem d /\ chip_sel d1) /\ (r = 0 -> rx = slice (chip_mem d) a (ee_data_len e))).
  { intros d0 d1 r rx (Hm0 & Hs0) E. rewrite Eb, Et, Hw, Hrx in E.
    destruct (chip_read _ _ _ _ _ _ E Hs0 Ha) as (Hs1 & Hm1 & Hrr); [lia|done|].
    rewrite Hm1, Hm0 in *. done. }
  destruct (i2c_master_read_inv bound obmf ev msg 5 (fun d1 => chip_mem d1 = chip_mem d /\ chip_sel d1)
    (fun d1 => chip_mem d1 = chip_mem d /\ chip_sel d1) d b) as (d2 & ret & msg2 & -> & Hk);
    [by rewrite Eb|done|lia| |done|].
  { intros d0 d1 r rx H0 E. destruct (Hread _ _ _ _ H0 E) as [H1 _]. by destruct (r =? 0). }
  exists d2, ret, msg2. split; [done|]. destruct (Z.eqb_spec ret 0) as [Er|Er].
  - destruct Hk as ((Hm2 & _) & Hrl & d0 & d1 & rx & H0 & E & Ed). split; [done|]. intros _.
    destruct (Hread _ _ _ _ H0 E) as [_ Hrr]. rewrite Hrr in Ed by done.
    set (rd := slice (chip_mem d) a (ee_data_len e)) in *.
    assert (Hrd : zlen rd = ee_data_len e) by (apply zlen_slice; lia).
    rewrite Hrl, Ed, Hrx. rewrite slice_all by lia. rewrite zlen_patch by lia.
    split_and!; [done|done|]. rewrite <- Hrd. apply slice_patch; lia.
  - destruct Hk as ((Hm2 & _) & ->). split_and!; done.
Qed.

Lemma eeprom_read_spec lock e d :
  entry_ok e ->
  exists d' ok e', eeprom_read bound obmf env lock e d = Some (d', ok, e') /\ delivered e e' d d' ok.
Proof using Hbus env.
  intros He. unfold eeprom_read. destruct (bus_mutex (ee_config e) && negb lock).
  { exists d, false, e. by split. }
  pose proof He as (Ec & Hz & _ & Hl & _). generalize 5%nat at 1 as n. intros n. generalize 0 as i.
  revert d. induction n as [|n IH]; intros d i; simpl read_tries.
  { exists d, false, e. by split. }
  rewrite Ec. destruct (mux_check_spec (env (2 * i)) d) as (d1 & ok & -> & Hm1 & Hs1).
  cbn [mbind option_bind]. unfold delivered. rewrite <- Hm1.
  destruct ok; cbn [negb]; [|apply IH].
  destruct (eeprom_read_msg_spec e He) as (msg & Em & _). rewrite Em. cbn [mbind option_bind].
  destruct (eeprom_read_once (env (2 * i + 1)) e msg d1 He (Hs1 eq_refl) Em)
    as (d2 & ret & msg2 & -> & Hm2 & Hk).
  cbn [mbind option_bind]. destruct (Z.eqb_spec ret 0) as [Er|_].
  - destruct (Hk Er) as (Hrl & Hzm & Hd). unfold EEPROM_WRITE_SIZE, I2C_BUFF_SIZE in *.
    rewrite Hrl, mem_read_Some by lia. cbn [mbind option_bind]. rewrite Hd.
    rewrite mem_write_patch by (rewrite <- ?Hd, ?zlen_slice; lia). cbn [mbind option_bind].
    eexists _, true, _. split; [done|]. by split.
  - rewrite <- Hm2. apply IH.
Qed.
End chip.

(** ** A bus that acknowledges *)

(** The transfers of an access are acknowledged in the states [up], which they do not leave. *)
Record acknowledges {D} `{I2cDriver D} (cfg : EEPROM_CFG) (up : D -> Prop) : Prop := {
  ack_mux : forall d, mux_present cfg = true -> up d ->
    exists d', i2c_write (port cfg) (mux_addr cfg) [u8 (1 .<< mux_channel cfg)] d = (d', 0) /\ up d';
  ack_write : forall d a data, up d ->
    exists d', i2c_write (port cfg) (target_addr cfg) (chip_addr_bytes cfg a ++ data) d = (d', 0) /\ up d';
  ack_read : forall d a n, up d ->
    exists d' rx, i2c_write_read (port cfg) (target_addr cfg) (chip_addr_bytes cfg a) n d = (d', 0, rx) /\ up d' }.

Section up.
Context {D : Type} `{HD : I2cDriver D} (bound : list bool) (obmf : bool).
Context (cfg : EEPROM_CFG) `{HC : !EepromChip D cfg} (up : D -> Prop) (Hup : acknowledges cfg up).
Context (Hbus : bound !! Z.to_nat (port cfg) = Some true) (env : Z -> i2c_env) (Henv : forall k, env k = good_env).

Lemma mux_check_up d : up d -> exists d', eeprom_mux_check bound obmf good_env cfg d = Some (d', true) /\ up d'.
Proof using Hup Hbus.
  intros Hd. unfold eeprom_mux_check. destruct (mux_present cfg) eqn:Em; [|by exists d].
  destruct (ack_mux _ _ Hup d Em Hd) as (d' & E & H'). exists d'. split; [|done].
  rewrite (i2c_master_write_ack bound obmf _ 5 d d'); [done|done|done|done|done|exact E].
Qed.

Lemma eeprom_write_up e d :
  entry_ok cfg e -> up d -> exists d', eeprom_write bound obmf env true e d = Some (d', true) /\ up d'.
Proof using Hup Hbus Henv.
  intros He Hd. pose proof He as (Ec & Hz & _ & Hl & _). unfold eeprom_write. rewrite andb_false_r. generalize 4%nat. intros n. cbn [write_tries].
  rewrite Ec, !Henv. destruct (mux_check_up d Hd) as (d1 & -> & H1). cbn [mbind option_bind negb].
  destruct (eeprom_write_msg_spec cfg e He) as (msg & -> & Eb & Et & Htx & Hw). cbn [mbind option_bind].
  destruct (ack_write _ _ Hup d1 (chip_offset cfg (ee_offset e)) (slice (ee_data e) 0 (ee_data_len e)) H1) as (d2 & E2 & H2).
  rewrite (i2c_master_write_ack bound obmf msg 5 d1 d2); [by exists d2|by rewrite Eb|done| |done|by rewrite Eb, Et, Hw].
  assert (Hi : zlen (i2c_wire msg) = i2c_tx_len msg) by (unfold i2c_wire; rewrite zlen_slice; lia).
  rewrite <- Hi, Hw, <- offset_bytes_chip, zlen_app, zlen_slice by lia. pose proof (zlen_offset_bytes cfg (ee_offset e)).
  unfold EEPROM_WRITE_SIZE, I2C_BUFF_SIZE in *. lia.
Qed.

Lemma eeprom_read_up e d :
  entry_ok cfg e -> 0 < ee_data_len e -> up d ->
  exists d' e', eeprom_read bound obmf env true e d = Some (d', true, e') /\ up d'.
Proof using Hup Hbus Henv.
  intros He Hpos Hd. pose proof He as (Ec & Hz & _ & Hl & Hr & Hp).
  destruct (eeprom_read_spec bound obmf cfg (ex_intro _ true Hbus) env true e d He) as (d' & ok & e' & E & _).
  exists d'. unfold eeprom_read in *. rewrite andb_false_r in *. revert E. generalize 4%nat. intros n. cbn [read_tries].
  rewrite Ec, !Henv. destruct (mux_check_up d Hd) as (d1 & -> & H1). cbn [mbind option_bind negb].
  destruct (eeprom_read_msg_spec cfg e He) as (msg & -> & Eb & Et & Htx & Hzm & Hrx & Hw). cbn [mbind option_bind].
  destruct (ack_read _ _ Hup d1 (chip_offset cfg (ee_offset e)) (ee_data_len e) H1) as (d2 & rx & E2 & H2).
  unfold EEPROM_WRITE_SIZE, I2C_BUFF_SIZE in *.
  destruct (i2c_master_read_ack bound obmf msg 5 d1 d2 rx) as (msg' & Em); try done; try (by rewrite Eb); try lia.
  { unfold I2C_BUFF_SIZE. lia. }
  { unfold I2C_BUFF_SIZE. lia. }
  { by rewrite Eb, Et, Hw, Hrx. }
  rewrite Em. cbn [mbind option_bind]. change (0 =? 0) with true. cbv iota.
  destruct (mem_read (i2c_data msg') 0 _) as [r|]; [|done]. cbn [mbind option_bind].
  destruct (mem_write (ee_data e) 0 r) as [w|]; [|done]. cbn [mbind option_bind]. intros [= <- <- <-]. by eexists.
Qed.
End up.

(** ** The FRU area *)

Section fru.
Context {D : Type} `{HD : I2cDriver D} (bound : list bool) (obmf : bool) (env : Z -> i2c_env).
Context (fru_config : list EEPROM_CFG) (MAX_FRU_ID : Z).
Context (cfg : EEPROM_CFG) `{HC : !EepromChip D cfg}.
Context (Hbus : exists b, bound !! Z.to_nat (port cfg) = Some b).

(** A range of the FRU [id] whose configuration is [cfg]. *)
Definition fru_range (id offset len : Z) : Prop :=
  find_FRU_ID fru_config id = Some cfg /\ id < MAX_FRU_ID /\ 0 <= len <= EEPROM_WRITE_SIZE /\
  chip_offset cfg offset + len <= chip_size /\ in_page chip_page (chip_offset cfg offset) len.

Lemma fru_entry_ok e :
  fru_range (dev_id (ee_config e)) (ee_offset e) (ee_data_len e) ->
  zlen (ee_data e) = EEPROM_WRITE_SIZE -> bytes_ok (ee_data e) -> entry_ok cfg (with_config cfg e).
Proof. intros (Hf & _ & Hl & Hr & Hp) Hz Hb. split_and!; try done; cbn; lia. Qed.

Lemma FRU_write_spec lock e d :
  fru_range (dev_id (ee_config e)) (ee_offset e) (ee_data_len e) ->
  zlen (ee_data e) = EEPROM_WRITE_SIZE -> bytes_ok (ee_data e) ->
  exists d' st, FRU_write bound obmf env fru_config MAX_FRU_ID lock e d = Some (d', st) /\
    if FRU_START + FRU_SIZE <=? ee_offset e + ee_data_len e then d' = d /\ st = FRU_OUT_OF_RANGE
    else (st = FRU_WRITE_SUCCESS \/ st = FRU_FAIL_TO_ACCESS) /\
      replaced cfg (with_config cfg e) d d' (st = FRU_WRITE_SUCCESS).
Proof using Hbus.
  intros Hr Hz Hb. pose proof (fru_entry_ok e Hr Hz Hb) as He. destruct Hr as (Hf & Hi & _).
  unfold FRU_write. destruct (Z.leb_spec MAX_FRU_ID (dev_id (ee_config e))); [lia|].
  destruct (_ <=? _); [by eexists _, _|]. rewrite Hf.
  destruct (eeprom_write_spec bound obmf cfg Hbus env lock _ d He) as (d' & ok & -> & data & L & B & E & Ho).
  cbn [mbind option_bind]. eexists _, _. split; [done|].
  destruct ok; (split; [by auto|]); exists data; naive_solver.
Qed.

Lemma FRU_read_spec lock e d :
  fru_range (dev_id (ee_config e)) (ee_offset e) (ee_data_len e) ->
  zlen (ee_data e) = EEPROM_WRITE_SIZE -> bytes_ok (ee_data e) ->
  exists d' st e', FRU_read bound obmf env fru_config MAX_FRU_ID lock e d = Some (d', st, e') /\
    chip_mem d' = chip_mem d /\
    ee_data_len e' = ee_data_len e /\ zlen (ee_data e') = EEPROM_WRITE_SIZE /\ bytes_ok (ee_data e') /\
    if FRU_START + FRU_SIZE <? ee_offset e + ee_data_len e then st = FRU_OUT_OF_RANGE
    else (st = FRU_READ_SUCCESS \/ st = FRU_FAIL_TO_ACCESS) /\
      (st = FRU_READ_SUCCESS -> slice (ee_data e') 0 (ee_data_len e) =
         slice (chip_mem d) (chip_offset cfg (ee_offset e)) (ee_data_len e)).
Proof using Hbus.
  intros Hr Hz Hb. pose proof (fru_entry_ok e Hr Hz Hb) as He.
  destruct Hr as (Hf & Hi & Hl & Hs & Hp).
  unfold FRU_read. destruct (Z.leb_spec MAX_FRU_ID (dev_id (ee_config e))); [lia|].
  destruct (_ <? _); [by eexists _, _, _|]. rewrite Hf.
  destruct (eeprom_read_spec bound obmf cfg Hbus env lock _ d He) as (d' & ok & e' & -> & Em & ->).
  cbn [mbind option_bind]. eexists _, _, _. split; [done|].
  pose proof (chip_offset_nonneg cfg (ee_offset e)). pose proof (chip_mem_size d).
  assert (Hrd : zlen (slice (chip_mem d) (chip_offset cfg (ee_offset e)) (ee_data_len e)) = ee_data_len e)
    by (apply zlen_slice; lia).
  destruct ok; cbn [ee_data_len ee_data ee_offset with_config]; [|split_and!; by auto].
  split_and!; try done; [rewrite zlen_patch; lia| |by left|].
  - unfold patch. rewrite !bytes_ok_app. split_and!; [by apply Forall_take| |by apply Forall_drop].
    apply bytes_ok_slice, chip_bytes.
  - intros _. rewrite <- Hrd at 2. apply slice_patch; lia.
Qed.

(** Over a bus that acknowledges, with the mutexes and the memory, an access in the area succeeds. *)
Lemma FRU_write_up up e d :
  acknowledges cfg up -> bound !! Z.to_nat (port cfg) = Some true -> (forall k, env k = good_env) -> up d ->
  fru_range (dev_id (ee_config e)) (ee_offset e) (ee_data_len e) ->
  zlen (ee_data e) = EEPROM_WRITE_SIZE -> bytes_ok (ee_data e) -> ee_offset e + ee_data_len e < FRU_START + FRU_SIZE ->
  exists d', FRU_write bound obmf env fru_config MAX_FRU_ID true e d = Some (d', FRU_WRITE_SUCCESS) /\ up d'.
Proof using Type.
  intros Hup Hb He Hd Hr Hz Hby Hend. pose proof (fru_entry_ok e Hr Hz Hby) as Hok. destruct Hr as (Hf & Hi & _).
  unfold FRU_write. destruct (Z.leb_spec MAX_FRU_ID (dev_id (ee_config e))); [lia|].
  destruct (Z.leb_spec (FRU_START + FRU_SIZE) (ee_offset e + ee_data_len e)); [lia|]. rewrite Hf.
  destruct (eeprom_write_up bound obmf cfg up Hup Hb env He _ d Hok Hd) as (d' & -> & H'). by exists d'.
Qed.

Lemma FRU_read_up up e d :
  acknowledges cfg up -> bound !! Z.to_nat (port cfg) = Some true -> (forall k, env k = good_env) -> up d ->
  fru_range (dev_id (ee_config e)) (ee_offset e) (ee_data_len e) -> 0 < ee_data_len e ->
  zlen (ee_data e) = EEPROM_WRITE_SIZE -> bytes_ok (ee_data e) -> ee_offset e + ee_data_len e <= FRU_START + FRU_SIZE ->
  exists d' e', FRU_read bound obmf env fru_config MAX_FRU_ID true e d = Some (d', FRU_READ_SUCCESS, e') /\ up d'.
Proof using Type.
  intros Hup Hb He Hd Hr Hpos Hz Hby Hend. pose proof (fru_entry_ok e Hr Hz Hby) as Hok. destruct Hr as (Hf & Hi & _).
  unfold FRU_read. destruct (Z.leb_spec MAX_FRU_ID (dev_id (ee_config e))); [lia|].
  destruct (Z.ltb_spec (FRU_START + FRU_SIZE) (ee_offset e + ee_data_len e)); [lia|]. rewrite Hf.
  destruct (eeprom_read_up bound obmf cfg up Hup Hb env He _ d Hok Hpos Hd) as (d' & e' & -> & H'). by exists d', e'.
Qed.

(** The bound of a write is the size of the largest FRU area, not that of the chip: on a chip
    with one address byte a write past its 256 bytes lands at its beginning. *)
Lemma fru_write_wraps lock e d d' :
  dev_type cfg = NV_ATMEL_24C02 -> 256 <= start_offset cfg + ee_offset e < 512 ->
  fru_range (dev_id (ee_config e)) (ee_offset e) (ee_data_len e) ->
  zlen (ee_data e) = EEPROM_WRITE_SIZE -> bytes_ok (ee_data e) ->
  FRU_write bound obmf env fru_config MAX_FRU_ID lock e d = Some (d', FRU_WRITE_SUCCESS) ->
  chip_mem d' = patch (chip_mem d) (start_offset cfg + ee_offset e - 256)
                  (slice (ee_data e) 0 (ee_data_len e)).
Proof using Hbus.
  intros Ht Hw Hr Hz Hb E. destruct (FRU_write_spec lock e d Hr Hz Hb) as (d1 & st & E1 & H1).
  simplify_eq. destruct (_ <=? _); [naive_solver|].
  destruct H1 as (_ & data & _ & _ & -> & Hd). rewrite Hd by done. f_equal.
  unfold chip_offset, eeprom_one_btye_addr_check. cbn. rewrite Ht. cbn.
  Z.div_mod_to_equations; lia.
Qed.
End fru.

(** A write that ends exactly at the end of the FRU area is refused, a read of it is not. *)
Lemma fru_last_byte {D} `{I2cDriver D} bound obmf env fru_config MAX_FRU_ID lock e d cfg :
  find_FRU_ID fru_config (dev_id (ee_config e)) = Some cfg -> dev_id (ee_config e) < MAX_FRU_ID ->
  ee_offset e + ee_data_len e = FRU_START + FRU_SIZE ->
  FRU_write bound obmf env fru_config MAX_FRU_ID lock e d = Some (d, FRU_OUT_OF_RANGE) /\
  forall d' st e', FRU_read bound obmf env fru_config MAX_FRU_ID lock e d = Some (d', st, e') ->
    st <> FRU_OUT_OF_RANGE.
Proof.
  intros Hf Hi Ho. unfold FRU_write, FRU_read. rewrite Ho, Hf.
  destruct (Z.leb_spec MAX_FRU_ID (dev_id (ee_config e))); [lia|]. split; [done|].
  intros d' st e'. destruct (eeprom_read _ _ _ _ _ _) as [[[? ok] ?]|]; [|done].
  cbn. intros [= <- <- <-]. by destruct ok.
Qed.

(** ** A chip without page limits on bus 0, for the witnesses *)

Definition ram_chip := Z -> Z.
Definition ram_size : Z := 1024.
Definition ram_mem (m : ram_chip) : list Z := (fun i => u8 (m i)) <$> seqZ 0 ram_size.
Definition ram_put (m : ram_chip) (a : Z) (data : list Z) : ram_chip :=
  fun i => if (a <=? i) && (i <? a + zlen data) then rd data (i - a) else m i.

Definition ram_cfg : EEPROM_CFG := mk_eeprom_cfg 2 0 0 0x54 0 0 0x400 false 0 0 false.

#[export] Instance ram_driver : I2cDriver ram_chip := {|
  i2c_write := fun _ _ bytes m =>
    match bytes with
    | hi :: lo :: data => (ram_put m (256 * hi + lo) data, 0)
    | _ => (m, -5)
    end;
  i2c_write_read := fun _ _ bytes n m =>
    match bytes with
    | [hi; lo] => (m, 0, slice (ram_mem m) (256 * hi + lo) n)
    | _ => (m, -5, [])
    end;
  i2c_read := fun _ _ _ m => (m, -5, []) |}.

Lemma lookup_ram_mem m i :
  ram_mem m !! i = if bool_decide (i < Z.to_nat ram_size)%nat then Some (u8 (m (Z.of_nat i))) else None.
Proof.
  unfold ram_mem. rewrite list_lookup_fmap. case_bool_decide.
  - rewrite lookup_seqZ_lt by lia. done.
  - rewrite lookup_seqZ_ge by lia. done.
Qed.

Lemma ram_mem_size m : zlen (ram_mem m) = ram_size.
Proof. unfold ram_mem, zlen. rewrite length_fmap, length_seqZ. done. Qed.

Lemma ram_mem_put m a data :
  0 <= a -> a + zlen data <= ram_size -> bytes_ok data ->
  ram_mem (ram_put m a data) = patch (ram_mem m) a data.
Proof.
  intros Ha Hl Hb. apply list_eq; intros i. rewrite lookup_patch by (rewrite ?ram_mem_size; lia).
  rewrite !lookup_ram_mem. unfold zlen in *. case_bool_decide as Hi.
  - unfold ram_put, zlen. case_bool_decide as Hj.
    + destruct (Z.leb_spec a (Z.of_nat i)), (Z.ltb_spec (Z.of_nat i) (a + Z.of_nat (length data)));
        try lia; cbn [andb].
      pose proof (rd_range data (Z.of_nat i - a) Hb). rewrite u8_id by lia. unfold rd in *.
      replace (Z.to_nat (Z.of_nat i - a)) with (i - Z.to_nat a)%nat by lia.
      destruct (data !! (i - Z.to_nat a)%nat) eqn:E; [done|]. apply lookup_ge_None in E. lia.
    + destruct (Z.leb_spec a (Z.of_nat i)), (Z.ltb_spec (Z.of_nat i) (a + Z.of_nat (length data)));
        cbn [andb]; try lia; done.
  - rewrite bool_decide_eq_false_2 by lia. done.
Qed.

#[export] Program Instance ram_chip_ok : EepromChip ram_chip ram_cfg := {|
  chip_mem := ram_mem; chip_page := ram_size; chip_sel := fun _ => True; chip_size := ram_size |}.
Next Obligation. apply ram_mem_size. Qed.
Next Obligation. intros. unfold ram_mem. apply Forall_fmap, Forall_true. intros. apply u8_range. Qed.
Next Obligation. done. Qed.
Next Obligation. done. Qed.
Next Obligation.
  intros m m' ret a data E _ Hb Ha Hl _. cbn in E. injection E as <- <-. split; [done|].
  exists data. rewrite <- (Z.div_mod a 256) by lia. split_and!; try done. by apply ram_mem_put.
Qed.
Next Obligation.
  intros m m' ret rx a n E _ Ha Hn Hl. cbn in E. rewrite <- (Z.div_mod a 256) in E by lia.
  injection E as <- <- <-. done.
Qed.

(** ** Any driver: accesses end without undefined behaviour *)

(** Zephyr fills the buffer with bytes. *)
Class I2cBytes (D : Type) `{I2cDriver D} := {
  i2c_write_read_bytes : forall bus a w n d d' r rx,
    i2c_write_read bus a w n d = (d', r, rx) -> bytes_ok rx;
  i2c_read_bytes : forall bus a n d d' r rx, i2c_read bus a n d = (d', r, rx) -> bytes_ok rx }.

#[export] Instance ram_bytes : I2cBytes ram_chip.
Proof.
  assert (Hm : forall m, bytes_ok (ram_mem m)) by (intros m; exact (chip_bytes m)).
  split; cbn; intros; repeat case_match; simplify_eq; try constructor. by apply bytes_ok_slice.
Qed.

Section any_driver.
Context {D : Type} `{HD : I2cDriver D} {HB : I2cBytes D} (bound : list bool) (obmf : bool)
  (env : Z -> i2c_env).

Definition cfg_on_bus (cfg : EEPROM_CFG) : Prop := exists b, bound !! Z.to_nat (port cfg) = Some b.

Lemma mux_check_total ev cfg d :
  cfg_on_bus cfg -> exists d' ok, eeprom_mux_check bound obmf ev cfg d = Some (d', ok).
Proof.
  intros [b Hb]. unfold eeprom_mux_check. destruct (mux_present cfg); [|by eexists _, _].
  destruct (i2c_master_write_inv bound obmf ev (mk_i2c (port cfg) (mux_addr cfg) 0 1
    (u8 (1 .<< mux_channel cfg) :: zeros (I2C_BUFF_SIZE - 1))) 5 (fun _ => True) (fun _ => True) d b)
    as (d' & ret & -> & _); try done; [by intros; destruct (_ =? _)|].
  by eexists _, _.
Qed.

(** The two messages of an entry. *)
Definition entry_fits (e : EEPROM_ENTRY) : Prop :=
  zlen (ee_data e) = EEPROM_WRITE_SIZE /\ bytes_ok (ee_data e) /\
  0 <= ee_data_len e <= EEPROM_WRITE_SIZE.

Lemma write_msg_total e :
  entry_fits e -> exists msg, eeprom_write_msg e = Some msg /\ i2c_bus msg = port (ee_config e) /\
    0 <= i2c_tx_len msg <= zlen (i2c_data msg).
Proof.
  intros (Hz & _ & Hl). unfold eeprom_write_msg, EEPROM_WRITE_SIZE, I2C_BUFF_SIZE in *.
  pose proof (zlen_offset_bytes (ee_config e) (ee_offset e)).
  rewrite mem_read_Some by lia. cbn [mbind option_bind].
  rewrite mem_write_patch by (rewrite ?zlen_app, ?zlen_zeros, ?zlen_slice; lia). cbn [mbind option_bind].
  eexists. split; [done|]. cbn. split; [done|].
  rewrite u8_id, zlen_patch by (rewrite ?zlen_app, ?zlen_zeros, ?zlen_slice; lia).
  rewrite zlen_zeros; lia.
Qed.

Lemma read_msg_total e :
  entry_fits e -> exists msg, eeprom_read_msg e = Some msg /\ i2c_bus msg = port (ee_config e) /\
    0 < i2c_tx_len msg <= 256 /\ i2c_rx_len msg = ee_data_len e /\ zlen (i2c_data msg) = 256 /\
    bytes_ok (i2c_data msg).
Proof.
  intros (Hz & _ & Hl). unfold eeprom_read_msg, EEPROM_WRITE_SIZE, I2C_BUFF_SIZE in *.
  pose proof (zlen_offset_bytes (ee_config e) (ee_offset e)).
  rewrite mem_write_patch by (rewrite ?zlen_zeros; lia). cbn [mbind option_bind].
  eexists. split; [done|]. cbn. rewrite u8_id, zlen_patch, zlen_zeros by (rewrite ?zlen_zeros; lia).
  split_and!; try done; try lia. apply bytes_ok_patch; [by apply Forall_replicate|].
  rewrite offset_bytes_chip. unfold chip_addr_bytes.
  assert (Hc : 0 <= chip_offset (ee_config e) (ee_offset e) <
    if eeprom_one_btye_addr_check (dev_type (ee_config e)) then 256 else 65536).
  { apply Z.mod_pos_bound. destruct (eeprom_one_btye_addr_check _); lia. }
  destruct (eeprom_one_btye_addr_check _); repeat constructor; try lia;
    Z.div_mod_to_equations; lia.
Qed.

Lemma eeprom_write_total lock e d :
  cfg_on_bus (ee_config e) -> entry_fits e ->
  exists d' ok, eeprom_write bound obmf env lock e d = Some (d', ok).
Proof.
  intros Hb He. unfold eeprom_write. destruct (_ && _); [by eexists _, _|].
  generalize 0 as i. generalize 5%nat as n. intros n. revert d.
  induction n as [|n IH]; intros d i; simpl write_tries; [by eexists _, _|].
  destruct (mux_check_total (env (2 * i)) _ d Hb) as (d1 & ok & ->). cbn [mbind option_bind].
  destruct ok; cbn [negb]; [|apply IH].
  destruct (write_msg_total e He) as (msg & -> & Ep & Ht). cbn [mbind option_bind].
  destruct Hb as [b Hb].
  destruct (i2c_master_write_inv bound obmf (env (2 * i + 1)) msg 5 (fun _ => True) (fun _ => True) d1 b)
    as (d2 & ret & -> & _); [by rewrite Ep|done|by intros; destruct (_ =? _)|done|].
  cbn [mbind option_bind]. destruct (ret =? 0); [by eexists _, _|apply IH].
Qed.

Lemma i2c_master_read_total ev msg retry d b :
  bound !! Z.to_nat (i2c_bus msg) = Some b -> bytes_ok (i2c_data msg) ->
  0 < i2c_tx_len msg <= zlen (i2c_data msg) -> 0 <= i2c_rx_len msg <= zlen (i2c_data msg) ->
  exists d' ret msg', i2c_master_read bound obmf ev msg retry d = Some (d', ret, msg') /\
    i2c_rx_len msg' = i2c_rx_len msg /\ zlen (i2c_data msg') = zlen (i2c_data msg) /\
    bytes_ok (i2c_data msg').
Proof using HB.
  intros Hb Hd Ht Hr.
  destruct (i2c_master_read_inv bound obmf ev msg retry (fun _ => True) (fun _ => True) d b)
    as (d2 & ret & msg2 & E & Hk); [done|done|done|by intros; destruct (_ =? _)|done|].
  exists d2, ret, msg2. split; [done|]. destruct (ret =? 0); [|by destruct Hk as (_ & ->)].
  destruct Hk as (_ & Hrl & d0 & d1 & rx & _ & Erx & Ed). rewrite Ed, Hrl.
  assert (zlen (slice rx 0 (i2c_rx_len msg)) <= i2c_rx_len msg).
  { unfold zlen, slice. rewrite length_take. lia. }
  split_and!; [done|apply zlen_patch; lia|]. apply bytes_ok_patch; [done|].
  by eapply bytes_ok_slice, i2c_write_read_bytes.
Qed.

Lemma eeprom_read_total lock e d :
  cfg_on_bus (ee_config e) -> entry_fits e ->
  exists d' ok e', eeprom_read bound obmf env lock e d = Some (d', ok, e') /\ entry_fits e' /\
    ee_data_len e' = ee_data_len e.
Proof using HB.
  intros Hb He. unfold eeprom_read. destruct (_ && _); [by eexists _, _, _|].
  generalize 0 as i. generalize 5%nat as n. intros n. revert d.
  induction n as [|n IH]; intros d i; simpl read_tries; [by eexists _, _, _|].
  destruct (mux_check_total (env (2 * i)) _ d Hb) as (d1 & ok & ->). cbn [mbind option_bind].
  destruct ok; cbn [negb]; [|apply IH].
  destruct (read_msg_total e He) as (msg & -> & Ep & Ht & Hrl & Hz & Hbm). cbn [mbind option_bind].
  destruct Hb as [b Hb]. pose proof He as (Hez & Heb & Hel). unfold EEPROM_WRITE_SIZE in *.
  destruct (i2c_master_read_total (env (2 * i + 1)) msg 5 d1 b)
    as (d2 & ret & msg2 & -> & Hrl2 & Hz2 & Hb2); [by rewrite Ep|done|lia|lia|].
  cbn [mbind option_bind]. destruct (ret =? 0); [|apply IH].
  rewrite mem_read_Some by lia. cbn [mbind option_bind].
  rewrite mem_write_patch by (rewrite ?zlen_slice; lia). cbn [mbind option_bind].
  eexists _, _, _. split; [done|]. unfold entry_fits. cbn. rewrite Hrl2, Hrl.
  rewrite zlen_patch by (rewrite ?zlen_slice; lia). split_and!; try done; try lia.
  - apply bytes_ok_patch; [done|]. by apply bytes_ok_slice.
  - unfold EEPROM_WRITE_SIZE. lia.
Qed.

Context (fru_config : list EEPROM_CFG) (MAX_FRU_ID : Z).
Context (Hcfg : Forall cfg_on_bus fru_config).

Lemma find_FRU_ID_In id cfg : find_FRU_ID fru_config id = Some cfg -> cfg ∈ fru_config.
Proof.
  unfold find_FRU_ID. destruct (list_find _ _) as [[i c]|] eqn:E; [|done]. cbn. intros [= <-].
  apply list_find_Some in E as (E & _). by eapply list_elem_of_lookup_2.
Qed.

Lemma FRU_write_total lock e d :
  entry_fits e -> exists d' st, FRU_write bound obmf env fru_config MAX_FRU_ID lock e d = Some (d', st).
Proof using Hcfg.
  intros He. unfold FRU_write. repeat (destruct (_ <=? _); [by eexists _, _|]).
  destruct (find_FRU_ID _ _) as [cfg|] eqn:E; [|by eexists _, _].
  apply find_FRU_ID_In in E. rewrite Forall_forall in Hcfg.
  destruct (eeprom_write_total lock (with_config cfg e) d (Hcfg cfg E) He) as (d' & ok & ->).
  by eexists _, _.
Qed.

Lemma FRU_read_total lock e d :
  entry_fits e -> exists d' st e', FRU_read bound obmf env fru_config MAX_FRU_ID lock e d = Some (d', st, e') /\
    entry_fits e' /\ ee_data_len e' = ee_data_len e.
Proof using Hcfg HB.
  intros He. unfold FRU_read. destruct (_ <=? _); [by eexists _, _, _|].
  destruct (_ <? _); [by eexists _, _, _|].
  destruct (find_FRU_ID _ _) as [cfg|] eqn:E; [|by eexists _, _, _].
  apply find_FRU_ID_In in E. rewrite Forall_forall in Hcfg.
  destruct (eeprom_read_total lock (with_config cfg e) d (Hcfg cfg E) He) as (d' & ok & e' & -> & H1 & H2).
  by eexists _, _, _.
Qed.
End any_driver.
