(* ===== verification/Sdr.v ===== *)
(** Component [common/service/sensor/sdr.c]: the sensor data record (SDR) repository: the table
    of full sensor records, the chain of record ids and the reservations. *)

From S2P Require Import Prelude Bytes.

(** ** Records: a [SDR_Full_sensor] is its bytes, as the IPMI commands send it *)

Definition sizeof_SDR_Full_sensor : Z := 80.
Definition MAX_SDR_SENSOR_NAME_LEN : Z := 32.
Definition IPMI_SDR_HEADER_LEN : Z := 5.
Definition SDR_END_ID : Z := 0xFFFF.
Definition SDR_INVALID_ID : Z := 0xFFFE.
Definition SENSOR_NUM_MAX : Z := 0xFF.

(** Offsets of the fields the code names. *)
Definition f_record_id_h : Z := 0.
Definition f_record_id_l : Z := 1.
Definition f_record_len : Z := 4.
Definition f_sensor_num : Z := 7.
Definition f_M : Z := 24.
Definition f_M_tolerance : Z := 25.
Definition f_B : Z := 26.
Definition f_B_accuracy : Z := 27.
Definition f_RexpBexp : Z := 29.
Definition f_UNRT : Z := 36.
Definition f_UCT : Z := 37.
Definition f_UNCT : Z := 38.
Definition f_LNRT : Z := 39.
Definition f_LCT : Z := 40.
Definition f_LNCT : Z := 41.
Definition f_ID_len : Z := 47.
Definition f_ID_str : Z := 48.

Definition set_field (f v : Z) (r : list Z) : list Z := <[Z.to_nat f := u8 v]> r.

Definition record_wf (r : list Z) : Prop := zlen r = sizeof_SDR_Full_sensor /\ bytes_ok r.

(** [strlen]; [None]: no terminator in the bytes. *)
Fixpoint strlen (s : list Z) : option Z :=
  match s with
  | [] => None
  | c :: s => if c =? 0 then Some 0 else n ← strlen s; Some (n + 1)
  end.

(** ** The state of the file *)

(** [full_sdr_table] is the array the platform allocates for [sensor_config_size] records; its
    first [sdr_count] records are the repository. *)
Record sdr_state := mk_sdr {
  full_sdr_table : option (list (list Z));
  sdr_count : Z;
  sensor_config_size : Z;
  start_ID : Z;
  last_ID : Z;
  current_ID : Z;
  RSV_ID : list Z;
  is_sdr_not_init : bool }.

Definition set_table (t : list (list Z)) (s : sdr_state) : sdr_state :=
  mk_sdr (Some t) (sdr_count s) (sensor_config_size s) (start_ID s) (last_ID s) (current_ID s)
    (RSV_ID s) (is_sdr_not_init s).
Definition set_sdr_count (n : Z) (s : sdr_state) : sdr_state :=
  mk_sdr (full_sdr_table s) n (sensor_config_size s) (start_ID s) (last_ID s) (current_ID s)
    (RSV_ID s) (is_sdr_not_init s).
Definition set_ids (st last cur : Z) (s : sdr_state) : sdr_state :=
  mk_sdr (full_sdr_table s) (sdr_count s) (sensor_config_size s) st last cur
    (RSV_ID s) (is_sdr_not_init s).
Definition set_RSV_ID (l : list Z) (s : sdr_state) : sdr_state :=
  mk_sdr (full_sdr_table s) (sdr_count s) (sensor_config_size s) (start_ID s) (last_ID s)
    (current_ID s) l (is_sdr_not_init s).
Definition set_is_sdr_not_init (b : bool) (s : sdr_state) : sdr_state :=
  mk_sdr (full_sdr_table s) (sdr_count s) (sensor_config_size s) (start_ID s) (last_ID s)
    (current_ID s) (RSV_ID s) b.

Definition SDR_clear_ID (s : sdr_state) : sdr_state := set_ids (start_ID s) (last_ID s) (start_ID s) s.

Definition SDR_get_record_ID (s : sdr_state) (current : Z) : Z :=
  if current <? last_ID s then u16 (current + 1)
  else if current =? last_ID s then SDR_END_ID
  else SDR_INVALID_ID.

Definition SDR_check_record_ID (s : sdr_state) (current : Z) : bool := negb (last_ID s <? current).

Definition SDR_get_RSV_ID (i : Z) (s : sdr_state) : sdr_state * Z :=
  let v := u16 (rd (RSV_ID s) i + 1) in
  (set_RSV_ID (<[Z.to_nat i := v]> (RSV_ID s)) s, v).

Definition SDR_RSV_ID_check (s : sdr_state) (ID i : Z) : bool := rd (RSV_ID s) i =? ID.

(** The loop over the first [n] records from [i] on. *)
Fixpoint sdr_index_loop (t : list (list Z)) (num : Z) (n : nat) (i : Z) : Z :=
  match n with
  | O => SENSOR_NUM_MAX
  | S n =>
      match t !! Z.to_nat i with
      | Some r => if num =? rd r f_sensor_num then i else sdr_index_loop t num n (i + 1)
      | None => SENSOR_NUM_MAX
      end
  end.

Definition get_sdr_index (s : sdr_state) (num : Z) : Z :=
  match full_sdr_table s with
  | None => -1
  | Some t => sdr_index_loop t num (Z.to_nat (sdr_count s)) 0
  end.

Definition add_full_sdr_table (item : list Z) (s : sdr_state) : sdr_state :=
  match full_sdr_table s with
  | None => s
  | Some t =>
      let index := get_sdr_index s (rd item f_sensor_num) in
      if index =? -1 then s
      else if negb (index =? SENSOR_NUM_MAX) then set_table (<[Z.to_nat index := item]> t) s
      else if sdr_count s + 1 <=? sensor_config_size s then
        set_sdr_count (u8 (sdr_count s + 1)) (set_table (<[Z.to_nat (sdr_count s) := item]> t) s)
      else s
  end.

(** An update of the record of a sensor. *)
Definition update_sensor (num : Z) (f : list Z -> list Z) (s : sdr_state) : sdr_state :=
  match full_sdr_table s with
  | None => s
  | Some t =>
      let index := get_sdr_index s num in
      if (index =? SENSOR_NUM_MAX) || (index =? -1) then s
      else set_table (alter f (Z.to_nat index) t) s
  end.

Inductive threshold_type :=
  | THRESHOLD_UNR | THRESHOLD_UCR | THRESHOLD_UNC | THRESHOLD_LNR | THRESHOLD_LCR | THRESHOLD_LNC.

Definition threshold_field (ty : threshold_type) : Z :=
  match ty with
  | THRESHOLD_UNR => f_UNRT | THRESHOLD_UCR => f_UCT | THRESHOLD_UNC => f_UNCT
  | THRESHOLD_LNR => f_LNRT | THRESHOLD_LCR => f_LCT | THRESHOLD_LNC => f_LNCT
  end.

Definition change_sensor_threshold (num : Z) (ty : threshold_type) (v : Z) (s : sdr_state)
    : sdr_state :=
  update_sensor num (set_field (threshold_field ty) v) s.

Inductive mbr_type := MBR_M | MBR_B | MBR_R.

Definition change_mbr_record (ty : mbr_type) (v : Z) (r : list Z) : list Z :=
  let high := if v .>> 8 =? 0 then 0 else ((v .>> 8) .<< 6) .& 0xFF in
  match ty with
  | MBR_M => set_field f_M_tolerance high (set_field f_M (v .& 0xFF) r)
  | MBR_B => set_field f_B_accuracy high (set_field f_B v r)
  | MBR_R => set_field f_RexpBexp (v .& 0xFF) r
  end.

Definition change_sensor_mbr (num : Z) (ty : mbr_type) (v : Z) (s : sdr_state) : sdr_state :=
  update_sensor num (change_mbr_record ty v) s.

(** [SDR_M] of [sdr.h], the M factor a client reads from a record. *)
Definition SDR_M_of (r : list Z) : Z := ((rd r f_M_tolerance .& 0xC0) .<< 2) .| rd r f_M.

(** The body of the loop of [sdr_init] for record [i]. *)
Definition init_record (i : Z) (r : list Z) : option (list Z) :=
  n ← strlen (drop (Z.to_nat f_ID_str) r);
  let r := set_field f_record_id_l (i .& 0xFF) (set_field f_record_id_h ((i .>> 8) .& 0xFF) r) in
  let r := set_field f_ID_len (rd r f_ID_len + n) r in
  Some (set_field f_record_len (rd r f_record_len + n) r).

Fixpoint init_loop (t : list (list Z)) (n : nat) (i : Z) : option (list (list Z)) :=
  match n with
  | O => Some t
  | S n =>
      r ← t !! Z.to_nat i;
      r ← init_record i r;
      init_loop (<[Z.to_nat i := r]> t) n (i + 1)
  end.

(** [load s]: [load_sdr_table], which platforms override; [None]: it writes through the null
    table. The last record is read at index [sdr_count - 1]. *)
Definition load_sdr_table (plat_sdr_table : list (list Z)) (s : sdr_state) : option sdr_state :=
  t ← full_sdr_table s;
  if zlen t <? zlen plat_sdr_table then None
  else Some (set_sdr_count (u8 (zlen plat_sdr_table))
               (set_table (plat_sdr_table ++ drop (length plat_sdr_table) t) s)).

Definition sdr_init (load : sdr_state -> option sdr_state) (s : sdr_state)
    : option (sdr_state * bool) :=
  s ← load s;
  let s := set_ids 0 (last_ID s) 0 s in
  match full_sdr_table s with
  | None => Some (s, false)
  | Some t =>
      t ← init_loop t (Z.to_nat (sdr_count s)) 0;
      if sdr_count s <=? 0 then None
      else
        r ← t !! Z.to_nat (sdr_count s - 1);
        let last := (rd r f_record_id_h .<< 8) .| rd r f_record_id_l in
        Some (set_is_sdr_not_init false (set_ids 0 last 0 (set_table t s)), true)
  end.

(** ** The repository after [sdr_init] *)

(** A repository that can be served: [last_ID] is the id of its last record, and no record
    claims more bytes than it has. *)
Record sdr_ok (s : sdr_state) (t : list (list Z)) : Prop := {
  so_table : full_sdr_table s = Some t;
  so_records : Forall record_wf t;
  so_last : 0 <= last_ID s < 255 /\ last_ID s < zlen t;
  so_len : forall i r, (i <= Z.to_nat (last_ID s))%nat -> t !! i = Some r ->
    IPMI_SDR_HEADER_LEN + rd r f_record_len <= sizeof_SDR_Full_sensor;
  so_rsv : length (RSV_ID s) = 2%nat /\ Forall (fun v => 0 <= v < 65536) (RSV_ID s) }.

Lemma rd_set_field f v r g :
  0 <= f < zlen r -> 0 <= g -> rd (set_field f v r) g = if f =? g then u8 v else rd r g.
Proof. intros. unfold set_field. by apply rd_insert. Qed.

Lemma zlen_set_field f v r : zlen (set_field f v r) = zlen r.
Proof. unfold zlen, set_field. by rewrite length_insert. Qed.

Lemma record_wf_set_field f v r : record_wf r -> record_wf (set_field f v r).
Proof.
  intros [Hz Hb]. split; [unfold zlen, set_field in *; by rewrite length_insert|].
  apply Forall_insert; [done|apply u8_range].
Qed.
Create HintDb sdr.
#[export] Hint Resolve record_wf_set_field : sdr.

Lemma strlen_nonneg s n : strlen s = Some n -> 0 <= n < zlen s.
Proof.
  revert n. induction s as [|c s IH]; intros n; [done|]. cbn. rewrite zlen_cons.
  destruct (c =? 0); [intros [= <-]; pose proof (zlen_nonneg s); lia|].
  destruct (strlen s) as [m|]; [|done]. intros [= <-]. specialize (IH m eq_refl). lia.
Qed.

(** What [sdr_init] makes of record [i]. *)
Definition initialised (i : Z) (r0 r : list Z) : Prop :=
  exists n, strlen (drop (Z.to_nat f_ID_str) r0) = Some n /\ record_wf r /\
    rd r f_record_id_h = i .>> 8 /\ rd r f_record_id_l = i .& 0xFF /\
    rd r f_record_len = u8 (rd r0 f_record_len + n) /\
    rd r f_ID_len = u8 (rd r0 f_ID_len + n) /\
    forall g, 0 <= g -> ~ In g [f_record_id_h; f_record_id_l; f_record_len; f_ID_len] -> rd r g = rd r0 g.

Lemma init_record_spec i r0 :
  0 <= i < 256 -> record_wf r0 -> is_Some (strlen (drop (Z.to_nat f_ID_str) r0)) ->
  exists r, init_record i r0 = Some r /\ initialised i r0 r.
Proof.
  intros Hi Hr [n Hn]. unfold init_record. rewrite Hn. cbn [mbind option_bind].
  eexists. split; [done|]. exists n. pose proof Hr as [Hz _]. unfold sizeof_SDR_Full_sensor in Hz.
  assert (Hrd : forall a b c d g, 0 <= g ->
    rd (set_field f_record_len d (set_field f_ID_len c
         (set_field f_record_id_l b (set_field f_record_id_h a r0)))) g =
    if f_record_len =? g then u8 d else if f_ID_len =? g then u8 c
    else if f_record_id_l =? g then u8 b else if f_record_id_h =? g then u8 a else rd r0 g).
  { intros a b c d g Hg. unfold f_record_len, f_ID_len, f_record_id_l, f_record_id_h.
    rewrite !rd_set_field by (rewrite ?zlen_set_field; lia). done. }
  change 0xFF with (Z.ones 8). rewrite !Z.land_ones, !Z.shiftr_div_pow2 by lia. change (2 ^ 8) with 256.
  rewrite (Z.div_small i 256), (Z.mod_small i 256) by lia.
  assert (Hid : forall a b, rd (set_field f_record_id_l b (set_field f_record_id_h a r0)) f_ID_len = rd r0 f_ID_len).
  { intros a b. rewrite !rd_set_field by (rewrite ?zlen_set_field; cbv [f_record_id_l f_record_id_h f_ID_len]; lia). done. }
  assert (Hlen : forall a b c, rd (set_field f_ID_len c (set_field f_record_id_l b (set_field f_record_id_h a r0)))
    f_record_len = rd r0 f_record_len).
  { intros a b c. rewrite !rd_set_field by (rewrite ?zlen_set_field;
      cbv [f_record_id_l f_record_id_h f_ID_len f_record_len]; lia). done. }
  rewrite Hid, Hlen. split_and!; [done|by repeat apply record_wf_set_field|..].
  1-4: rewrite Hrd by done; cbn; by rewrite ?u8_id by lia.
  intros g Hg Hn'. rewrite Hrd by done.
  repeat match goal with |- context [?f =? g] => destruct (Z.eqb_spec f g); [destruct Hn'; cbn; tauto|] end.
  done.
Qed.

(** The loop: the first [n] records from [i] on are initialised, the others are as before. *)
Lemma init_loop_spec t0 n i :
  0 <= i -> i + Z.of_nat n <= Z.min 256 (zlen t0) ->
  (forall j r, t0 !! j = Some r -> record_wf r /\
     (Z.to_nat i <= j < Z.to_nat i + n -> is_Some (strlen (drop (Z.to_nat f_ID_str) r)))%nat) ->
  exists t, init_loop t0 n i = Some t /\ length t = length t0 /\
    forall j r0, t0 !! j = Some r0 ->
      exists r, t !! j = Some r /\
        if bool_decide (Z.to_nat i <= j < Z.to_nat i + n)%nat then initialised (Z.of_nat j) r0 r else r = r0.
Proof.
  revert t0 i. induction n as [|n IH]; intros t0 i Hi Hn Ht; cbn [init_loop].
  { exists t0. split_and!; try done. intros j r0 Hj. exists r0. split; [done|].
    by rewrite bool_decide_eq_false_2 by lia. }
  assert (Hlt : (Z.to_nat i < length t0)%nat) by (unfold zlen in Hn; lia).
  destruct (lookup_lt_is_Some_2 _ _ Hlt) as [r0 Hr0]. rewrite Hr0. cbn [mbind option_bind].
  destruct (Ht _ _ Hr0) as [Hwf Hstr].
  destruct (init_record_spec i r0) as (r & Er & Hr); [lia|done|apply Hstr; lia|].
  rewrite Er. cbn [mbind option_bind].
  destruct (IH (<[Z.to_nat i:=r]> t0) (i + 1)) as (t & Et & Hl & Hk).
  - lia.
  - unfold zlen in *. rewrite length_insert. lia.
  - intros j r1. destruct (decide (j = Z.to_nat i)) as [->|].
    + rewrite list_lookup_insert_eq by done. intros [= <-]. destruct Hr as (m & _ & Hw & _).
      split; [done|lia].
    + rewrite list_lookup_insert_ne by done. intros Hj. destruct (Ht _ _ Hj) as [? Hs].
      split; [done|]. intros. apply Hs. lia.
  - exists t. split; [done|]. split; [by rewrite Hl, length_insert|]. intros j r1 Hj.
    destruct (decide (j = Z.to_nat i)) as [->|].
    + destruct (Hk (Z.to_nat i) r) as (r2 & E2 & H2); [by apply list_lookup_insert_eq|].
      exists r2. split; [done|]. rewrite bool_decide_eq_false_2 in H2 by lia. subst.
      rewrite bool_decide_eq_true_2 by lia. rewrite Z2Nat.id by lia. simplify_eq. done.
    + destruct (Hk j r1) as (r2 & E2 & H2); [by rewrite list_lookup_insert_ne|].
      exists r2. split; [done|].
      destruct (bool_decide_reflect (Z.to_nat i <= j < Z.to_nat i + S n)%nat).
      * by rewrite bool_decide_eq_true_2 in H2 by lia.
      * by rewrite bool_decide_eq_false_2 in H2 by lia.
Qed.

(** A platform's table fits the allocated one, is not empty, has terminated names and records
    short enough for them. *)
Definition plat_table_ok (p : list (list Z)) (size : Z) : Prop :=
  0 < zlen p <= Z.min 255 size /\
  Forall (fun r => record_wf r /\ exists n, strlen (drop (Z.to_nat f_ID_str) r) = Some n /\
    IPMI_SDR_HEADER_LEN + rd r f_record_len + n <= sizeof_SDR_Full_sensor) p.

(** [sdr_init] with the platform's table gives every record the next id, from 0 on, adds
    the length of its name to its length, leaves its other fields, and makes the last id that of
    the last record; the repository can then be served. *)
Theorem sdr_init_serves p s t0 :
  full_sdr_table s = Some t0 -> Forall record_wf t0 -> plat_table_ok p (zlen t0) ->
  length (RSV_ID s) = 2%nat -> Forall (fun v => 0 <= v < 65536) (RSV_ID s) ->
  exists s' t, sdr_init (load_sdr_table p) s = Some (s', true) /\ sdr_ok s' t /\
    last_ID s' = zlen p - 1 /\ sdr_count s' = zlen p /\ is_sdr_not_init s' = false /\
    forall j r0, p !! j = Some r0 -> exists r, t !! j = Some r /\ initialised (Z.of_nat j) r0 r.
Proof.
  intros Et0 Hw0 [Hn Hp] Hr1 Hr2. unfold sdr_init, load_sdr_table. rewrite Et0. cbn [mbind option_bind].
  destruct (Z.ltb_spec (zlen t0) (zlen p)); [lia|]. cbn [mbind option_bind full_sdr_table set_ids
    set_sdr_count set_table sdr_count]. rewrite u8_id by lia.
  set (t1 := p ++ drop (length p) t0). rewrite Forall_forall in Hp, Hw0.
  assert (Hpl : forall j r, t1 !! j = Some r -> (j < length p)%nat -> p !! j = Some r).
  { intros j r Hj Hl. unfold t1 in Hj. by rewrite lookup_app_l in Hj. }
  destruct (init_loop_spec t1 (Z.to_nat (zlen p)) 0) as (t & -> & Hl & Hk); [lia| | |].
  { unfold t1. rewrite zlen_app. pose proof (zlen_nonneg (drop (length p) t0)). lia. }
  { intros j r Hj. unfold zlen. split.
    - unfold t1 in Hj. apply lookup_app_Some in Hj as [Hj|[_ Hj]];
        [by eapply Hp, list_elem_of_lookup_2|].
      rewrite lookup_drop in Hj. by eapply Hw0, list_elem_of_lookup_2.
    - intros Hji. apply Hpl, list_elem_of_lookup_2, Hp in Hj; [|lia]. by destruct Hj as (_ & n & -> & _). }
  cbn [mbind option_bind]. destruct (Z.leb_spec (zlen p) 0); [lia|].
  assert (Hz : length p = Z.to_nat (zlen p)) by (unfold zlen; lia).
  assert (Hkp : forall j r0, p !! j = Some r0 -> exists r, t !! j = Some r /\ initialised (Z.of_nat j) r0 r).
  { intros j r0 Hj. pose proof (lookup_lt_Some _ _ _ Hj).
    destruct (Hk j r0) as (r & Er & Hr); [unfold t1; by rewrite lookup_app_l|].
    rewrite bool_decide_eq_true_2 in Hr by lia. by exists r. }
  destruct (lookup_lt_is_Some_2 p (Z.to_nat (zlen p - 1))) as [r0 Hr0]; [lia|].
  destruct (Hkp _ _ Hr0) as (r & Er & Hr). rewrite Er. cbn [mbind option_bind].
  assert (Hlast : (rd r f_record_id_h .<< 8) .| rd r f_record_id_l = zlen p - 1).
  { destruct Hr as (n & _ & _ & -> & -> & _). rewrite Z2Nat.id by lia.
    change 0xFF with (Z.ones 8). rewrite Z.land_ones, Z.shiftr_div_pow2 by lia.
    pose proof (Z.mod_pos_bound (zlen p - 1) (2 ^ 8)). rewrite lor_shl by lia.
    pose proof (Z.div_mod (zlen p - 1) (2 ^ 8)). lia. }
  rewrite Hlast. eexists _, t. split; [done|]. cbn. split_and!; try done.
  split; cbn; try done.
  - apply Forall_forall. intros x Hx. apply list_elem_of_lookup in Hx as [j Hj].
    pose proof (lookup_lt_Some _ _ _ Hj) as Hjl. rewrite Hl in Hjl.
    destruct (lookup_lt_is_Some_2 t1 j Hjl) as [x0 Hx0]. destruct (Hk _ _ Hx0) as (x1 & E1 & H1).
    simplify_eq. destruct (bool_decide_reflect (Z.to_nat 0 <= j < Z.to_nat 0 + Z.to_nat (zlen p))%nat) as [_|Hj'].
    + by destruct H1 as (n & _ & ? & _).
    + subst. unfold t1 in Hx0. apply lookup_app_Some in Hx0 as [Hx0|[_ Hx0]].
      * apply lookup_lt_Some in Hx0. lia.
      * rewrite lookup_drop in Hx0. by eapply Hw0, list_elem_of_lookup_2.
  - unfold zlen. rewrite Hl. unfold t1. rewrite length_app. unfold zlen in *. lia.
  - intros j x Hj Hx. destruct (lookup_lt_is_Some_2 p j) as [x0 Hx0]; [lia|].
    destruct (Hkp _ _ Hx0) as (x1 & E1 & n & En & _ & _ & _ & Elen & _). simplify_eq.
    destruct (Hp x0) as ([_ Hxb] & n' & En' & Hle); [by eapply list_elem_of_lookup_2|].
    simplify_eq. rewrite Elen. pose proof (rd_range x0 f_record_len Hxb).
    apply strlen_nonneg in En. unfold IPMI_SDR_HEADER_LEN, sizeof_SDR_Full_sensor in *.
    rewrite u8_id; lia.
Qed.

(** A platform's table of one record with the name "T". *)
Definition one_record : list Z :=
  set_field 48 84 (set_field f_sensor_num 0x42 (set_field f_record_len 43 (zeros 80))).

Lemma sdr_init_serves_witness :
  let s := mk_sdr (Some [zeros 80; zeros 80]) 0 2 0 0 0 [0; 0] true in
  full_sdr_table s = Some [zeros 80; zeros 80] /\ plat_table_ok [one_record] 2 /\
  exists s' t, sdr_init (load_sdr_table [one_record]) s = Some (s', true) /\ sdr_ok s' t /\
    last_ID s' = 0 /\ sdr_count s' = 1 /\ is_sdr_not_init s' = false /\
    forall j r0, [one_record] !! j = Some r0 -> exists r, t !! j = Some r /\ initialised (Z.of_nat j) r0 r.
Proof.
  assert (Hz : record_wf (zeros 80)) by (split; [done|by apply Forall_replicate]).
  assert (Hp : plat_table_ok [one_record] 2).
  { split; [vm_compute; split; [reflexivity|discriminate]|]. apply Forall_singleton.
    split; [by repeat apply record_wf_set_field|].
    exists 1; split; [reflexivity|vm_compute; discriminate]. }
  split; [reflexivity|]. split; [exact Hp|].
  apply (sdr_init_serves [one_record] _ [zeros 80; zeros 80]); [reflexivity| |exact Hp|reflexivity|].
  - by repeat (apply Forall_cons; split).
  - apply Forall_cons; split; [lia|]. apply Forall_cons; split; [lia|]. by apply Forall_nil.
Defined.

(** ** Records of a sensor *)

(** The M factor a client decodes from a record is the one that was set. *)
Lemma sdr_M_roundtrip v r :
  0 <= v < 1024 -> record_wf r -> SDR_M_of (change_mbr_record MBR_M v r) = v.
Proof.
  intros Hv [Hz _]. unfold SDR_M_of, change_mbr_record, sizeof_SDR_Full_sensor in *.
  rewrite !rd_set_field by (rewrite ?zlen_set_field; cbv [f_M f_M_tolerance]; lia). cbn.
  pose proof (small_forall 1024 (fun v => ((u8 (if v .>> 8 =? 0 then 0 else ((v .>> 8) .<< 6) .& 0xFF)
    .& 0xC0) .<< 2) .| u8 (v .& 0xFF) =? v) eq_refl v Hv) as H. by apply Z.eqb_eq in H.
Qed.

Lemma sdr_index_loop_spec t num n i :
  0 <= i -> i + Z.of_nat n <= Z.min 255 (zlen t) ->
  let k := sdr_index_loop t num n i in
  (k = SENSOR_NUM_MAX /\ forall j r, (Z.to_nat i <= j < Z.to_nat i + n)%nat -> t !! j = Some r ->
     rd r f_sensor_num <> num) \/
  (i <= k < i + Z.of_nat n /\ (exists r, t !! Z.to_nat k = Some r /\ rd r f_sensor_num = num) /\
   forall j r, (Z.to_nat i <= j < Z.to_nat k)%nat -> t !! j = Some r -> rd r f_sensor_num <> num).
Proof.
  revert i. induction n as [|n IH]; intros i Hi Hn; cbn [sdr_index_loop].
  { left. split; [done|]. lia. }
  destruct (lookup_lt_is_Some_2 t (Z.to_nat i)) as [r Hr]; [unfold zlen in Hn; lia|]. rewrite Hr.
  destruct (Z.eqb_spec num (rd r f_sensor_num)) as [->|Hne].
  { right. split; [lia|]. split; [by exists r|]. lia. }
  assert (Hk : forall j r', j = Z.to_nat i -> t !! j = Some r' -> rd r' f_sensor_num <> num)
    by (intros j r' -> ?; simplify_eq; congruence).
  destruct (IH (i + 1)) as [[E H]|(E & H1 & H2)]; [lia|lia| |].
  - left. split; [done|]. intros j r' Hj Hr'.
    destruct (decide (j = Z.to_nat i)); [by eapply Hk|]. apply (H j); [lia|done].
  - right. split; [lia|]. split; [done|]. intros j r' Hj Hr'.
    destruct (decide (j = Z.to_nat i)); [by eapply Hk|]. apply (H2 j); [lia|done].
Qed.

(** [add_full_sdr_table] replaces the record of a known sensor in place, appends that of a new
    sensor while the table has room and else drops it; no other record changes. *)
Lemma add_full_sdr_table_spec item s t :
  full_sdr_table s = Some t -> 0 <= sdr_count s -> sdr_count s <= sensor_config_size s ->
  sensor_config_size s = zlen t -> zlen t < 255 ->
  let s' := add_full_sdr_table item s in
  let known j := (j < Z.to_nat (sdr_count s))%nat /\
    exists r, t !! j = Some r /\ rd r f_sensor_num = rd item f_sensor_num in
  (exists j, known j /\ full_sdr_table s' = Some (<[j := item]> t) /\ sdr_count s' = sdr_count s) \/
  ((forall j, ~ known j) /\
     if sdr_count s <? zlen t then
       full_sdr_table s' = Some (<[Z.to_nat (sdr_count s) := item]> t) /\ sdr_count s' = sdr_count s + 1
     else s' = s).
Proof.
  intros Et H0 H1 H2 H3 s' known. unfold s', add_full_sdr_table, get_sdr_index. rewrite Et.
  destruct (sdr_index_loop_spec t (rd item f_sensor_num) (Z.to_nat (sdr_count s)) 0) as [[-> H]|(E & Hr & _)];
    [lia|lia| |].
  - right. split.
    + intros j (Hj & r & Hr & Hn). by eapply (H j r); [lia|done|].
    + cbn. destruct (Z.ltb_spec (sdr_count s) (zlen t)), (Z.leb_spec (sdr_count s + 1) (sensor_config_size s));
        try lia; cbn; [|done]. split; [done|]. apply u8_id. lia.
  - left. set (k := sdr_index_loop _ _ _ _) in *. exists (Z.to_nat k). split; [split; [lia|done]|].
    destruct (Z.eqb_spec k (-1)); [lia|]. destruct (Z.eqb_spec k SENSOR_NUM_MAX); [|done].
    unfold SENSOR_NUM_MAX in *. lia.
Qed.

(** ** The chain of record ids and the reservations *)

Lemma sdr_next_id s t id :
  sdr_ok s t -> 0 <= id <= last_ID s ->
  SDR_get_record_ID s id = if id =? last_ID s then SDR_END_ID else id + 1.
Proof.
  intros [] Hid. unfold SDR_get_record_ID.
  destruct (Z.ltb_spec id (last_ID s)), (Z.eqb_spec id (last_ID s)); try lia; try done.
  apply u16_id. lia.
Qed.

Lemma rsv_id_fresh s t i :
  sdr_ok s t -> i = 0 \/ i = 1 ->
  let '(s', v) := SDR_get_RSV_ID i s in
  sdr_ok s' t /\ 0 <= v < 65536 /\ SDR_RSV_ID_check s' v i = true /\ v <> rd (RSV_ID s) i /\
  rd (RSV_ID s') (1 - i) = rd (RSV_ID s) (1 - i) /\ full_sdr_table s' = full_sdr_table s /\
  last_ID s' = last_ID s.
Proof.
  intros [? ? ? ? [Hl Hr]] Hi. unfold SDR_get_RSV_ID.
  assert (Hv : 0 <= rd (RSV_ID s) i < 65536).
  { unfold rd. destruct (RSV_ID s !! Z.to_nat i) eqn:E; cbn; [|lia].
    by eapply (Forall_lookup_1 _ _ _ _ Hr). }
  pose proof (u16_range (rd (RSV_ID s) i + 1)). split_and!; try lia.
  - split; cbn; try done. split; [by rewrite length_insert|]. by apply Forall_insert.
  - unfold SDR_RSV_ID_check. cbn. rewrite rd_insert by (unfold zlen; lia). by rewrite !Z.eqb_refl.
  - unfold u16. Z.div_mod_to_equations. lia.
  - cbn. rewrite rd_insert by (unfold zlen; lia). by destruct (Z.eqb_spec i (1 - i)); [lia|].
  - done.
  - done.
Qed.
