(* ===== verification/MctpSmbus.v ===== *)
(** Component [common/service/mctp/mctp_smbus.c]: the SMBus binding of MCTP, which puts a
    packet into an SMBus block write with its packet error code (PEC) and takes it out again.
    The CRC is Zephyr's [crc8], an argument; the I2C target driver gives the bytes received,
    the I2C master driver a status per attempt. *)

From stdpp Require Import strings.
From S2P Require Import Prelude Bytes HalI2c MctpCore.

Definition MCTP_SMBUS_CMD_CODE : Z := 0x0F.
Definition MCTP_SMBUS_WRITE_MAX_RETRY : Z := 1.
(** [sizeof(smbus_hdr)]: command code, byte count, source address. *)
Definition sizeof_smbus_hdr : Z := 3.

Section smbus.
(** [crc8 l]: Zephyr's [crc8(l, length of l, 0x07, 0x00, false)]. *)
Context (crc8 : list Z -> Z).

(** [len > 0] in every use. *)
Definition cal_pec (dest_addr : Z) (buf : list Z) (len : Z) : Z :=
  crc8 (dest_addr :: slice buf 0 (len - 1)).

Definition is_pec_vaild (dest_addr : Z) (buf : list Z) (len : Z) : bool :=
  cal_pec dest_addr buf len =? rd buf (len - 1).

Definition make_send_buf (m : mctp) (mctp_data : list Z) (ext : mctp_ext_params) : list Z :=
  let body := [MCTP_SMBUS_CMD_CODE; u8 (1 + zlen mctp_data); u8 (conf_addr (medium_conf m) + 1)]
              ++ mctp_data in
  body ++ [cal_pec (ext_addr ext) (body ++ [0]) (zlen body + 1)].

(** The attempts from number [k] on: is one of them acknowledged, and how many were made. *)
Fixpoint write_attempts (status : Z -> Z) (n : nat) (k : Z) : Z * Z :=
  match n with
  | O => (MCTP_ERROR, k)
  | S n => if status k =? 0 then (MCTP_SUCCESS, k + 1) else write_attempts status n (k + 1)
  end.

(** Result: the code, the message given to the driver and the number of times it was.
    [None]: [buf] is shorter than [len], or the frame does not fit [i2c_msg.data]. The code
    leaves [rx_len] unset, 0 here. *)
Definition mctp_smbus_write (status : Z -> Z) (m : mctp) (buf : list Z) (len : Z)
    (ext : mctp_ext_params) : option (Z * option (I2C_MSG * Z)) :=
  if len =? 0 then Some (MCTP_ERROR, None)
  else if negb (ext_type ext =? MCTP_MEDIUM_TYPE_SMBUS) then Some (MCTP_ERROR, None)
  else
    let send_len := u32 (len + 4) in
    data ← mem_read buf 0 len;
    if I2C_BUFF_SIZE <? send_len then None
    else
      let msg := mk_i2c (conf_bus (medium_conf m)) (ext_addr ext .>> 1) 0 (u8 send_len)
                   (make_send_buf m data ext) in
      let '(ret, n) := write_attempts status (Z.to_nat (MCTP_SMBUS_WRITE_MAX_RETRY + 1)) 0 in
      Some (ret, Some (msg, n)).

(** The work-around for duplicated bytes; [memcpy] on overlapping ranges is taken as the
    forward copy of the library. *)
Definition mctp_smbus_read_hook (data : list Z) (len : Z) : list Z * Z :=
  let byte_count := rd data 1 in
  if negb (byte_count =? len - sizeof_smbus_hdr) then
    let k := if byte_count =? 0x0F then 1 else 2 in
    (slice data k (len - k) ++ drop (Z.to_nat (len - k)) data, len - k)
  else (data, len).

(** [ret], [rdata], [rlen]: result of [i2c_target_read] into the zeroed 256-byte array.
    Inner result: [None] for the return value 0, else the bytes copied to [buf] and the
    address of the sender. [None]: the copy leaves [rdata]. *)
Definition mctp_smbus_read (m : mctp) (ret : Z) (rdata : list Z) (rlen : Z)
    : option (option (list Z * Z)) :=
  if negb (ret =? 0) then Some None
  else if rlen <? sizeof_smbus_hdr then Some None
  else
    let '(rdata, rlen) := mctp_smbus_read_hook rdata rlen in
    let is_pec_exist := if rd rdata 1 + 3 =? rlen then 1 else 0 in
    if (is_pec_exist =? 1) && negb (is_pec_vaild (conf_addr (medium_conf m)) rdata rlen)
    then Some None
    else if negb (rd rdata 0 =? MCTP_SMBUS_CMD_CODE) then Some None
    else
      let rt_size := u8 (rlen - sizeof_smbus_hdr - is_pec_exist) in
      data ← mem_read rdata sizeof_smbus_hdr rt_size;
      Some (Some (data, u8 (rd rdata 2 - 1))).

(** ** The instance *)

Definition mctp_smbus_init (m : mctp) (conf : mctp_medium_conf) : Z * mctp :=
  (MCTP_SUCCESS, set_write_data (Some fn_smbus) (set_read_data (Some fn_smbus) (set_medium_conf conf m))).

Definition mctp_smbus_deinit (m : mctp) : Z * mctp :=
  (MCTP_SUCCESS, set_medium_conf (mk_conf 0 0) (set_write_data None (set_read_data None m))).

(** ** The core tasks over this medium *)

(** [write_data] of the transmit task, and the frame it puts on the bus. *)
Definition smbus_write_code (m : mctp) (ext : mctp_ext_params) (status : Z -> Z) (p : list Z) : Z :=
  match mctp_smbus_write status m p (zlen p) ext with Some (c, _) => c | None => MCTP_ERROR end.
Definition smbus_frame (m : mctp) (ext : mctp_ext_params) (p : list Z) : list Z :=
  i2c_wire (mk_i2c (conf_bus (medium_conf m)) (ext_addr ext .>> 1) 0 (u8 (zlen p + 4)) (make_send_buf m p ext)).

(** The receive task on the frames the target driver delivers, one turn per frame. *)
Fixpoint smbus_rx_run (resolve : Z -> Z -> option (Z * mctp_ext_params)) (m : mctp)
    (frames : list (list Z)) : option (mctp * list rx_event) :=
  match frames with
  | [] => Some (m, [])
  | f :: frames =>
      r ← mctp_smbus_read m 0 (in_read_buf f) (zlen f);
      '(m, ev) ← match r with
                 | None => mctp_rx_step resolve true m (zeros 256) 0 (mk_ext 0 0 0 0 0)
                 | Some (p, addr) =>
                     mctp_rx_step resolve true m (in_read_buf p) (zlen p)
                       (mk_ext 0 0 0 MCTP_MEDIUM_TYPE_SMBUS addr)
                 end;
      '(m, evs) ← smbus_rx_run resolve m frames;
      Some (m, ev ++ evs)
  end.

(** ** Lemmas *)

Lemma make_send_buf_size m p ext : zlen (make_send_buf m p ext) = zlen p + 4.
Proof using Type. unfold make_send_buf, zlen. cbv zeta. rewrite !length_app. cbn [length]. lia. Qed.

Lemma smbus_frame_eq m ext p : zlen p <= 251 -> smbus_frame m ext p = make_send_buf m p ext.
Proof using Type.
  intros Hp. unfold smbus_frame, i2c_wire. cbn [i2c_data i2c_tx_len].
  pose proof (zlen_nonneg p). apply slice_all. rewrite make_send_buf_size, u8_id by lia. lia.
Qed.

Lemma read_no_hook data len : rd data 1 = len - 3 -> mctp_smbus_read_hook data len = (data, len).
Proof using Type.
  intros E. unfold mctp_smbus_read_hook, sizeof_smbus_hdr. rewrite E, Z.eqb_refl. done.
Qed.

(** A frame with the byte count of its payload and a last byte [c], as the driver delivers it. *)
Definition frame_with (sa : Z) (p : list Z) (c : Z) : list Z :=
  [MCTP_SMBUS_CMD_CODE; 1 + zlen p; sa] ++ p ++ [c].

Lemma frame_rd0 sa p c rest : rd (frame_with sa p c ++ rest) 0 = MCTP_SMBUS_CMD_CODE.
Proof using Type. reflexivity. Qed.
Lemma frame_rd1 sa p c rest : rd (frame_with sa p c ++ rest) 1 = 1 + zlen p.
Proof using Type. reflexivity. Qed.
Lemma frame_rd2 sa p c rest : rd (frame_with sa p c ++ rest) 2 = sa.
Proof using Type. reflexivity. Qed.

Lemma read_frame m sa p c : 0 <= c < 256 -> 0 < zlen p <= 252 ->
  mctp_smbus_read m 0 (in_read_buf (frame_with sa p c)) (zlen p + 4) =
    Some (if crc8 (conf_addr (medium_conf m) :: MCTP_SMBUS_CMD_CODE :: 1 + zlen p :: sa :: p) =? c
          then Some (p, u8 (sa - 1)) else None).
Proof using Type.
  intros Hc Hp. unfold mctp_smbus_read, sizeof_smbus_hdr. change (negb (0 =? 0)) with false. cbv iota.
  destruct (Z.ltb_spec (zlen p + 4) 3); [lia|].
  assert (Hz : zlen (frame_with sa p c) = zlen p + 4).
  { unfold frame_with, zlen. rewrite !length_app. cbn [length]. lia. }
  unfold in_read_buf. rewrite read_no_hook by (rewrite frame_rd1; lia).
  rewrite frame_rd0, frame_rd1, frame_rd2. destruct (Z.eqb_spec (1 + zlen p + 3) (zlen p + 4)); [|lia].
  cbn [Z.eqb andb negb]. unfold is_pec_vaild, cal_pec.
  set (body := [MCTP_SMBUS_CMD_CODE; 1 + zlen p; sa] ++ p).
  assert (Hb : zlen body = zlen p + 3) by (unfold body, zlen; rewrite length_app; cbn [length]; lia).
  assert (Ef : frame_with sa p c ++ zeros (256 - zlen (frame_with sa p c))
    = body ++ c :: zeros (256 - zlen (frame_with sa p c))).
  { unfold frame_with, body. rewrite <- !app_assoc. done. }
  rewrite Ef. replace (zlen p + 4 - 1) with (zlen body) by lia.
  rewrite slice_app_l, slice_all by lia.
  assert (Er : rd (body ++ c :: zeros (256 - zlen (frame_with sa p c))) (zlen body) = c).
  { unfold rd. rewrite lookup_app_r by (unfold zlen; lia). unfold zlen. rewrite Nat2Z.id, Nat.sub_diag. done. }
  rewrite Er. change (conf_addr (medium_conf m) :: body)
    with (conf_addr (medium_conf m) :: MCTP_SMBUS_CMD_CODE :: 1 + zlen p :: sa :: p).
  change ((1 =? 1)%positive) with true. cbn [andb]. destruct (_ =? c); cbn [negb]; [|done].
  change (negb (MCTP_SMBUS_CMD_CODE =? MCTP_SMBUS_CMD_CODE)) with false. cbv iota. rewrite (u8_id (zlen p + 4 - 3 - 1)) by lia.
  replace (zlen p + 4 - 3 - 1) with (zlen p) by lia.
  assert (Em : mem_read (body ++ c :: zeros (256 - zlen (frame_with sa p c))) 3 (zlen p) = Some p).
  { set (tl := c :: _). pose proof (zlen_nonneg tl).
    rewrite mem_read_Some by (rewrite ?(zlen_app body); lia).
    unfold body. rewrite <- app_assoc. rewrite slice_app_r by done.
    by rewrite slice_app_l, slice_all by lia. }
  rewrite Em. done.
Qed.

Lemma make_send_buf_frame m p ext : zlen p <= 252 ->
  make_send_buf m p ext = frame_with (u8 (conf_addr (medium_conf m) + 1)) p
    (crc8 (ext_addr ext :: MCTP_SMBUS_CMD_CODE :: 1 + zlen p :: u8 (conf_addr (medium_conf m) + 1) :: p)).
Proof using Type.
  intros Hp. pose proof (zlen_nonneg p). unfold make_send_buf, frame_with, cal_pec. rewrite u8_id by lia. cbv zeta.
  rewrite <- app_assoc. do 3 f_equal. f_equal. f_equal.
  set (body := [_; _; _] ++ p). change (slice (body ++ [0]) 0 (zlen body + 1 - 1) = body).
  by rewrite slice_app_l, slice_all by lia.
Qed.

(** The frames of one sender, received by the device they are addressed to: the receive task
    sees the packets. *)
Lemma smbus_rx_packets resolve s ext pkts : forall r,
  (forall l, 0 <= crc8 l < 256) -> ext_addr ext = conf_addr (medium_conf r) ->
  0 <= conf_addr (medium_conf s) < 255 -> Forall (fun p => 0 < zlen p <= 251) pkts ->
  (forall r' p o r'' ev, mctp_rx_step resolve true r' p o
     (mk_ext 0 0 0 MCTP_MEDIUM_TYPE_SMBUS (conf_addr (medium_conf s))) = Some (r'', ev) ->
     medium_conf r'' = medium_conf r') ->
  smbus_rx_run resolve r (smbus_frame s ext <$> pkts) =
  rx_run resolve r pkts (mk_ext 0 0 0 MCTP_MEDIUM_TYPE_SMBUS (conf_addr (medium_conf s))).
Proof using Type.
  intros r Hcrc Ha Hs Hp Hk. revert r Ha. induction Hp as [|p pkts Hp _ IH]; intros r Ha; [done|].
  rewrite fmap_cons. cbn [smbus_rx_run rx_run]. rewrite smbus_frame_eq by lia.
  rewrite make_send_buf_size, make_send_buf_frame by lia.
  rewrite read_frame by (try apply Hcrc; lia). rewrite Ha, Z.eqb_refl. cbn [mbind option_bind].
  rewrite (u8_id (conf_addr (medium_conf s) + 1)) by lia.
  replace (u8 (conf_addr (medium_conf s) + 1 - 1)) with (conf_addr (medium_conf s)) by (rewrite u8_id; lia).
  destruct (mctp_rx_step _ _ _ _ _ _) as [[r' ev]|] eqn:E; [|done]. cbn [mbind option_bind].
  rewrite IH; [done|]. rewrite Ha. symmetry. f_equal. by eapply Hk.
Qed.

Lemma smbus_write_acked m ext status p :
  ext_type ext = MCTP_MEDIUM_TYPE_SMBUS -> 0 < zlen p <= 252 -> status 0 = 0 \/ status 1 = 0 ->
  smbus_write_code m ext status p = MCTP_SUCCESS.
Proof using Type.
  intros He Hp Hst. unfold smbus_write_code, mctp_smbus_write.
  destruct (Z.eqb_spec (zlen p) 0); [lia|]. rewrite He, Z.eqb_refl. cbn [negb].
  rewrite mem_read_Some by lia. cbn [mbind option_bind]. rewrite u32_id by lia.
  unfold I2C_BUFF_SIZE. destruct (Z.ltb_spec 256 (zlen p + 4)); [lia|].
  change (Z.to_nat (MCTP_SMBUS_WRITE_MAX_RETRY + 1)) with 2%nat. cbn [write_attempts].
  destruct (Z.eqb_spec (status 0) 0); [done|]. change (0 + 1) with 1.
  destruct (Z.eqb_spec (status 1) 0); [done|lia].
Qed.
End smbus.

(** ** Properties *)

(** C2: end to end over SMBus: a message of at most 1024 bytes sent by the transmit task of one
    instance through [mctp_smbus_write] (each frame acknowledged on the first or second
    attempt) and received through [mctp_smbus_read] by the receive task of the instance it is
    addressed to reaches the message handler exactly once, byte for byte, with the sender's
    endpoint, tag and I2C address; the receiver is left as it was. It holds for every CRC
    function both sides share, and packets up to 251 bytes. *)
Theorem mctp_over_smbus_delivers crc8 resolve s r msg ext cb status :
  let n := packet_count s msg in
  let h := nth_hdr s ext n 0 in
  (forall l, 0 <= crc8 l < 256) ->
  0 < zlen msg <= MSG_ASSEMBLY_BUF_SIZE -> 0 < max_msg_size s <= 247 -> n <= 255 ->
  ext_type ext = MCTP_MEDIUM_TYPE_SMBUS -> ext_addr ext = conf_addr (medium_conf r) ->
  0 <= conf_addr (medium_conf s) < 255 -> status 0 = 0 \/ status 1 = 0 ->
  ext_ep ext = endpoint r \/ ext_ep ext = MCTP_NULL_EID -> rx_cb r = Some cb ->
  length (temp_msg_buf r) = 16%nat -> temp_msg_buf r !! slot_index h = Some empty_slot ->
  exists s' pkts,
    mctp_tx_step (fun _ => smbus_write_code crc8 s ext status) s (mk_tx_msg 0 (Some msg) (zlen msg) ext)
      = Some (s', pkts, MCTP_SUCCESS) /\
    smbus_rx_run crc8 resolve r (smbus_frame crc8 s ext <$> pkts) =
      Some (r, [EvRxCb cb msg (mk_ext 0 (hdr_msg_tag h) (endpoint s) MCTP_MEDIUM_TYPE_SMBUS
                                 (conf_addr (medium_conf s)))]).
Proof.
  intros n h Hcrc HL HM Hn Het Hea Hca Hst Hep Hcb Hlen Hslot.
  assert (Hsz : forall j, 0 <= j < n -> 0 < zlen (nth_packet s ext msg n j) <= 251).
  { intros j Hj. pose proof (nth_packet_size s ext msg j ltac:(lia) ltac:(lia) Hj) as Hj'.
    fold n in Hj'. lia. }
  destruct (tx_step_packets (fun _ => smbus_write_code crc8 s ext status) s msg ext) as [s' Ht];
    [lia|lia|done| |].
  { fold n. intros j Hj. pose proof (Hsz j Hj). apply smbus_write_acked; [done| |done]. lia. }
  exists s', (packets_of s ext msg). split; [exact Ht|].
  rewrite smbus_rx_packets; try done.
  - by apply rx_run_packets; [|lia|..].
  - apply Forall_forall. intros p Hp. apply list_elem_of_fmap in Hp as (j & -> & Hj).
    apply elem_of_seqZ in Hj. fold n in Hj |- *. apply Hsz. lia.
  - intros r1 p o r2 ev E. by apply rx_step_frame in E as [l ->].
Qed.

(** A frame without a PEC, which the read function means to accept (it looks whether one is
    there), is thrown away: the work-around for duplicated bytes takes its shorter length for
    a duplication and moves the frame by two bytes, so the command code is no longer found.
    (Two coincidences escape: a payload of 14 bytes, and the source address byte 0x0F.) *)
Theorem smbus_pecless_dropped crc8 m sa p :
  0 < zlen p <= 252 -> zlen p <> 14 -> sa <> MCTP_SMBUS_CMD_CODE ->
  mctp_smbus_read crc8 m 0 (in_read_buf ([MCTP_SMBUS_CMD_CODE; 1 + zlen p; sa] ++ p)) (zlen p + 3)
    = Some None.
Proof.
  intros Hp H14 Hsa. unfold mctp_smbus_read, sizeof_smbus_hdr. change (negb (0 =? 0)) with false. cbv iota.
  destruct (Z.ltb_spec (zlen p + 3) 3); [lia|]. unfold mctp_smbus_read_hook, sizeof_smbus_hdr.
  set (data := in_read_buf _). change (rd data 1) with (1 + zlen p).
  destruct (Z.eqb_spec (1 + zlen p) (zlen p + 3 - 3)); [lia|].
  destruct (Z.eqb_spec (1 + zlen p) 15); [lia|]. cbn [negb]. cbv zeta iota.
  set (data' := slice data 2 (zlen p + 3 - 2) ++ _).
  assert (E : rd data' 0 = sa).
  { unfold data', data, in_read_buf. unfold slice. change (Z.to_nat 2) with 2%nat. cbn [app drop].
    assert (exists k, Z.to_nat (zlen p + 3 - 2) = S k) as [k ->] by (exists (Z.to_nat (zlen p)); lia).
    done. }
  rewrite E. destruct (Z.eqb_spec sa MCTP_SMBUS_CMD_CODE); [done|]. cbn [negb]. by destruct (_ && _).
Qed.

(** A block write of three bytes whose byte count is 15 makes the read function copy 255
    bytes from a position where 253 are left: the frame is moved by one byte, and the
    remaining length minus the header is negative before it is cut to a byte. *)
Theorem smbus_short_frame_overread crc8 m x sa :
  0 <= sa -> mctp_smbus_read crc8 m 0 (in_read_buf [x; 0x0F; sa]) 3 = None.
Proof.
  intros Hs. unfold mctp_smbus_read. change (negb (0 =? 0)) with false. cbv iota.
  change (3 <? sizeof_smbus_hdr) with false. cbv iota. unfold mctp_smbus_read_hook.
  change (rd (in_read_buf [x; 0x0F; sa]) 1) with 0x0F. change (negb (0x0F =? 3 - sizeof_smbus_hdr)) with true.
  change (0x0F =? 0x0F) with true. cbv zeta iota. change (3 - 1) with 2.
  set (d := slice (in_read_buf [x; 0x0F; sa]) 1 2 ++ _).
  assert (Hd : zlen d = 256) by reflexivity. change (rd d 1) with sa. change (rd d 0) with 0x0F.
  destruct (Z.eqb_spec (sa + 3) 2); [lia|]. change (0 =? 1) with false. cbn [andb].
  change (negb (0x0F =? MCTP_SMBUS_CMD_CODE)) with false. cbv iota.
  change (u8 (2 - sizeof_smbus_hdr - 0)) with 255. unfold mem_read. rewrite Hd. done.
Qed.

(** Packets of the sizes bridging produces: at 252 bytes the length given to the driver is 0
    and nothing is sent, at 253 and more the frame overruns [i2c_msg.data]. *)
Lemma smbus_write_252 crc8 status m buf ext :
  zlen buf = 252 -> ext_type ext = MCTP_MEDIUM_TYPE_SMBUS -> status 0 = 0 ->
  exists msg, mctp_smbus_write crc8 status m buf 252 ext = Some (MCTP_SUCCESS, Some (msg, 1)) /\
    i2c_wire msg = [].
Proof.
  intros Hz He Hs. unfold mctp_smbus_write. change (252 =? 0) with false. rewrite He.
  change (negb (MCTP_MEDIUM_TYPE_SMBUS =? MCTP_MEDIUM_TYPE_SMBUS)) with false. cbv iota.
  rewrite mem_read_Some by lia. cbn [mbind option_bind]. change (I2C_BUFF_SIZE <? u32 (252 + 4)) with false.
  change (Z.to_nat (MCTP_SMBUS_WRITE_MAX_RETRY + 1)) with 2%nat. cbn [write_attempts]. rewrite Hs.
  by eexists.
Qed.

Lemma smbus_write_overflow crc8 status m buf len ext :
  253 <= len <= 65536 -> len <= zlen buf -> ext_type ext = MCTP_MEDIUM_TYPE_SMBUS ->
  mctp_smbus_write crc8 status m buf len ext = None.
Proof.
  intros Hl Hz He. unfold mctp_smbus_write. destruct (Z.eqb_spec len 0); [lia|]. rewrite He.
  change (negb (MCTP_MEDIUM_TYPE_SMBUS =? MCTP_MEDIUM_TYPE_SMBUS)) with false. cbv iota.
  rewrite mem_read_Some by lia. cbn [mbind option_bind]. rewrite u32_id by lia. unfold I2C_BUFF_SIZE.
  by destruct (Z.ltb_spec 256 (len + 4)); [|lia].
Qed.

(** ** Witnesses *)

(** CRC-8 with polynomial 0x07 and initial value 0, as Zephyr documents its [crc8]. *)
Fixpoint crc8_bits (n : nat) (crc : Z) : Z :=
  match n with
  | O => crc
  | S n => crc8_bits n (u8 (if crc .& 0x80 =? 0 then crc .<< 1 else (crc .<< 1) .^ 0x07))
  end.
Definition crc8_smbus (l : list Z) : Z := fold_left (fun crc b => crc8_bits 8 (crc .^ b)) l 0 .& 0xFF.

Lemma crc8_smbus_range l : 0 <= crc8_smbus l < 256.
Proof.
  unfold crc8_smbus. change 0xFF with (Z.ones 8). rewrite Z.land_ones by lia.
  apply Z.mod_pos_bound. lia.
Qed.

Lemma mctp_over_smbus_delivers_witness :
  exists s s' pkts r,
    mctp_tx_step (fun _ => smbus_write_code crc8_smbus s (mk_ext 0 6 0x0A 1 0x40) (fun k => 1 - k)) s
      (mk_tx_msg 0 (Some [1; 2; 3; 4; 5]) 5 (mk_ext 0 6 0x0A 1 0x40)) = Some (s', pkts, MCTP_SUCCESS) /\
    smbus_rx_run crc8_smbus (fun _ _ => None) r (smbus_frame crc8_smbus s (mk_ext 0 6 0x0A 1 0x40) <$> pkts)
      = Some (r, [EvRxCb 7 [1; 2; 3; 4; 5] (mk_ext 0 6 0x08 1 0x20)]).
Proof.
  set (s := mk_mctp 1 1 0x08 2 (mk_conf 0 0x20) None None None true true "" "" true
              (replicate 16 empty_slot) None 5).
  set (r := mk_mctp 1 1 0x0A 2 (mk_conf 0 0x40) None None None true true "" "" true
              (replicate 16 empty_slot) (Some 7) 0).
  exists s.
  destruct (mctp_over_smbus_delivers crc8_smbus (fun _ _ => None) s r [1; 2; 3; 4; 5]
              (mk_ext 0 6 0x0A 1 0x40) 7 (fun k => 1 - k))
    as (s' & pkts & H1 & H2); try done; [apply crc8_smbus_range|by right|by left|].
  exists s', pkts, r. done.
Defined.

Lemma smbus_pecless_dropped_witness :
  mctp_smbus_read crc8_smbus (snd (mctp_smbus_init (mk_mctp 1 1 0x0A 64 (mk_conf 0 0) None None None true true
      "" "" true [] None 0) (mk_conf 2 0x40))) 0
    (in_read_buf ([0x0F; 4; 0x21] ++ [9; 8; 7])) 6 = Some None.
Proof. by apply (smbus_pecless_dropped crc8_smbus _ 0x21 [9; 8; 7]). Defined.

Lemma smbus_short_frame_overread_witness :
  mctp_smbus_read crc8_smbus (mk_mctp 1 1 0x0A 64 (mk_conf 2 0x40) None None None true true "" "" true [] None 0)
    0 (in_read_buf [0x0F; 0x0F; 0x21]) 3 = None.
Proof. by apply (smbus_short_frame_overread crc8_smbus _ 0x0F 0x21). Defined.
