(* ===== verification/MctpI3c.v ===== *)
(** Component [common/service/mctp/mctp_i3c.c]: the I3C binding of MCTP, as the controller of the
    bus and as a target. A packet is sent as it is, with or without a packet error code (PEC), which
    also covers the address. The CRC is Zephyr's [crc8]; what the driver gives and returns are
    arguments. *)

From stdpp Require Import strings.
From S2P Require Import Prelude Bytes MctpCore.

(** ** Definitions *)

Definition I3C_MAX_DATA_SIZE : Z := 256.

(** The fields of [I3C_MSG] a transfer uses; [tx_len] has 8 bits. *)
Record I3C_MSG := mk_i3c { i3c_bus : Z; i3c_addr : Z; i3c_tx_len : Z; i3c_data : list Z }.

(** What a read function returns: a length of 0, the code of an error, or bytes in [buf]. *)
Inductive i3c_read := ReadNothing | ReadError | ReadBytes (data : list Z).

Section i3c.
(** [crc8 init l]: Zephyr's [crc8(l, length of l, 0x07, init, false)]; [pec_enable]:
    [MCTP_I3C_PEC_ENABLE]. *)
Context (crc8 : Z -> list Z -> Z) (pec_enable : bool).

(** The PEC over the byte of the address and the data. *)
Definition i3c_pec (addr_byte : Z) (data : list Z) : Z := crc8 (crc8 0 [addr_byte]) data.

(** The address byte of a transfer to the target, and of one to the controller. *)
Definition to_target (addr : Z) : Z := u8 (addr .<< 1).
Definition to_controller (addr : Z) : Z := u8 ((addr .<< 1) .| 1).

(** The check of a received frame: [data] is the array of the message with [ret] bytes received.
    [None]: outside an array. *)
Definition i3c_received (addr_byte : Z) (data : list Z) (ret : Z) : option i3c_read :=
  if pec_enable then
    last ← data !! Z.to_nat (ret - 1);
    body ← mem_read data 0 (ret - 1);
    if negb (i3c_pec addr_byte body =? last) then Some ReadNothing else Some (ReadBytes body)
  else
    body ← mem_read data 0 ret;
    Some (ReadBytes body).

(** [ret], [data]: result of [i3c_controller_ibi_read]. *)
Definition mctp_i3c_read (m : mctp) (ret : Z) (data : list Z) : option i3c_read :=
  if ret <=? 0 then Some ReadNothing
  else i3c_received (to_controller (conf_addr (medium_conf m))) data ret.

(** [ret], [data]: result of [i3c_smq_read]; [dyn]: the address [i3c_target_get_dynamic_address]
    gives, if it succeeds. *)
Definition mctp_i3c_read_smq (dyn : option Z) (ret : Z) (data : list Z) : option i3c_read :=
  if ret <=? 0 then Some ReadNothing
  else if pec_enable then
    match dyn with
    | None => Some ReadError
    | Some a => i3c_received (to_target a) data ret
    end
  else i3c_received 0 data ret.

(** [data]: the array of the message before, which is not initialised. *)
Definition i3c_frame (addr_byte bus addr : Z) (data buf : list Z) (len : Z) : option I3C_MSG :=
  body ← mem_read buf 0 len;
  data ← mem_write data 0 body;
  if pec_enable then
    data ← mem_write data len [i3c_pec addr_byte body];
    Some (mk_i3c bus addr (u8 (len + 1)) data)
  else Some (mk_i3c bus addr (u8 len) data).

(** Result: the code and the message given to the driver, if any; [ret]: what it returns. *)
Definition mctp_i3c_write (ret : Z) (stack : list Z) (m : mctp) (buf : list Z) (len : Z) (ext : mctp_ext_params)
    : option (Z * option I3C_MSG) :=
  if negb (ext_type ext =? MCTP_MEDIUM_TYPE_CONTROLLER_I3C) then Some (MCTP_ERROR, None)
  else if negb (len <? I3C_MAX_DATA_SIZE) then Some (MCTP_ERROR, None)
  else
    let conf := medium_conf m in
    msg ← i3c_frame (to_target (conf_addr conf)) (conf_bus conf) (conf_addr conf) stack buf len;
    Some (if ret <? 0 then MCTP_ERROR else MCTP_SUCCESS, Some msg).

Definition mctp_i3c_write_smq (dyn : option Z) (ret : Z) (stack : list Z) (m : mctp) (buf : list Z) (len : Z) (ext : mctp_ext_params)
    : option (Z * option I3C_MSG) :=
  if negb (ext_type ext =? MCTP_MEDIUM_TYPE_TARGET_I3C) then Some (MCTP_ERROR, None)
  else if negb (len <? I3C_MAX_DATA_SIZE) then Some (MCTP_ERROR, None)
  else if pec_enable && bool_decide (dyn = None) then Some (MCTP_ERROR, None)
  else
    msg ← i3c_frame (to_controller (default 0 dyn)) (conf_bus (medium_conf m)) 0 stack buf len;
    Some (if ret <? 0 then MCTP_ERROR else MCTP_SUCCESS, Some msg).

(** ** The instance *)

Definition mctp_i3c_controller_init (m : mctp) (conf : mctp_medium_conf) : Z * mctp :=
  (MCTP_SUCCESS, set_write_data (Some fn_i3c_controller) (set_read_data (Some fn_i3c_controller) (set_medium_conf conf m))).

Definition mctp_i3c_target_init (m : mctp) (conf : mctp_medium_conf) : Z * mctp :=
  (MCTP_SUCCESS, set_write_data (Some fn_i3c_target) (set_read_data (Some fn_i3c_target) (set_medium_conf conf m))).

Definition mctp_i3c_deinit (m : mctp) : Z * mctp :=
  (MCTP_SUCCESS, set_medium_conf (mk_conf 0 0) (set_write_data None (set_read_data None m))).

(** ** The core tasks over this medium *)

(** The two ends of a bus: which one an instance is, with the dynamic address of the target. *)
Inductive i3c_end := Controller | Target.

Definition medium_of (e : i3c_end) : Z :=
  match e with Controller => MCTP_MEDIUM_TYPE_CONTROLLER_I3C | Target => MCTP_MEDIUM_TYPE_TARGET_I3C end.
Definition other_end (e : i3c_end) : i3c_end := match e with Controller => Target | Target => Controller end.

(** [write_data] of an end, with a driver that takes every transfer. *)
Definition i3c_write (e : i3c_end) (dyn : Z) (stack : list Z) (m : mctp) (p : list Z) (ext : mctp_ext_params) : option (Z * option I3C_MSG) :=
  match e with
  | Controller => mctp_i3c_write 0 stack m p (zlen p) ext
  | Target => mctp_i3c_write_smq (Some dyn) 0 stack m p (zlen p) ext
  end.
Definition i3c_write_code (e : i3c_end) (dyn : Z) (stack : list Z) (m : mctp) (ext : mctp_ext_params) (p : list Z) : Z :=
  match i3c_write e dyn stack m p ext with Some (c, _) => c | None => MCTP_ERROR end.

(** The bytes the driver transfers. *)
Definition i3c_wire (msg : I3C_MSG) : list Z := slice (i3c_data msg) 0 (i3c_tx_len msg).
Definition i3c_sent (e : i3c_end) (dyn : Z) (stack : list Z) (m : mctp) (ext : mctp_ext_params) (p : list Z) : list Z :=
  match i3c_write e dyn stack m p ext with Some (_, Some msg) => i3c_wire msg | _ => [] end.

(** A turn of the receive task of an end with a frame in the driver, and its turns over frames. *)
Definition i3c_rx_turn (e : i3c_end) (resolve : Z -> Z -> option (Z * mctp_ext_params)) (dyn : option Z) (m : mctp) (f : list Z)
    : option (mctp * list rx_event) :=
  r ← match e with
      | Controller => mctp_i3c_read m (zlen f) (in_read_buf f)
      | Target => mctp_i3c_read_smq dyn (zlen f) (in_read_buf f)
      end;
  match r with
  | ReadNothing => mctp_rx_step resolve true m (zeros 256) 0 (mk_ext 0 0 0 0 0)
  | ReadError => mctp_rx_step resolve true m (zeros 256) MCTP_ERROR (mk_ext 0 0 0 0 0)
  | ReadBytes p => mctp_rx_step resolve true m (in_read_buf p) (zlen p) (mk_ext 0 0 0 (medium_of e) 0)
  end.

Fixpoint i3c_rx_run (e : i3c_end) (resolve : Z -> Z -> option (Z * mctp_ext_params)) (dyn : Z) (m : mctp)
    (frames : list (list Z)) : option (mctp * list rx_event) :=
  match frames with
  | [] => Some (m, [])
  | f :: frames =>
      '(m, ev) ← i3c_rx_turn e resolve (Some dyn) m f;
      '(m, evs) ← i3c_rx_run e resolve dyn m frames;
      Some (m, ev ++ evs)
  end.

(** ** Lemmas *)

Definition pec_len : Z := if pec_enable then 1 else 0.

(** The address byte an end sends with. *)
Definition addr_byte (e : i3c_end) (addr : Z) : Z := match e with Controller => to_target addr | Target => to_controller addr end.

Definition frame_of (b : Z) (p : list Z) : list Z := p ++ if pec_enable then [i3c_pec b p] else [].

Lemma zlen_frame_of b p : zlen (frame_of b p) = zlen p + pec_len.
Proof using Type. unfold frame_of, pec_len. rewrite zlen_app. by destruct pec_enable. Qed.

Lemma i3c_frame_wire b bus addr stack p : zlen stack = 256 -> 0 <= b -> zlen p + pec_len <= 255 ->
  exists msg, i3c_frame b bus addr stack p (zlen p) = Some msg /\ i3c_wire msg = frame_of b p.
Proof using Type.
  intros Hs Hb Hp. pose proof (zlen_nonneg p). unfold pec_len in Hp.
  unfold i3c_frame. rewrite mem_read_Some, slice_all by (destruct pec_enable; lia). cbn [mbind option_bind].
  rewrite mem_write_patch by (destruct pec_enable; lia). cbn [mbind option_bind]. unfold frame_of. destruct pec_enable.
  - rewrite mem_write_patch by (rewrite ?zlen_patch by lia; change (zlen [_]) with 1; lia). cbn [mbind option_bind].
    eexists. split; [reflexivity|]. unfold i3c_wire. cbn [i3c_data i3c_tx_len]. rewrite u8_id by lia.
    rewrite <- (Z.add_0_l (zlen p)) at 1. rewrite patch_patch by (change (zlen [_]) with 1; lia).
    replace (zlen p + 1) with (zlen (p ++ [i3c_pec b p])) by (rewrite zlen_app; done).
    apply slice_patch; [lia|]. rewrite zlen_app. change (zlen [_]) with 1. lia.
  - eexists. split; [reflexivity|]. unfold i3c_wire. cbn [i3c_data i3c_tx_len]. rewrite u8_id by lia.
    rewrite app_nil_r. apply slice_patch; lia.
Qed.

Lemma i3c_write_sent e dyn stack m ext p : ext_type ext = medium_of e -> zlen stack = 256 -> zlen p + pec_len <= 255 ->
  conf_addr (medium_conf m) = dyn \/ e = Target ->
  i3c_write_code e dyn stack m ext p = MCTP_SUCCESS /\ i3c_sent e dyn stack m ext p = frame_of (addr_byte e dyn) p.
Proof using Type.
  intros He Hs Hp Ha. assert (Hlt : zlen p < 256) by (unfold pec_len in Hp; destruct pec_enable; lia).
  unfold i3c_write_code, i3c_sent, i3c_write. destruct e; cbn [medium_of] in He.
  - unfold mctp_i3c_write. rewrite He, Z.eqb_refl. cbn [negb]. unfold I3C_MAX_DATA_SIZE. destruct (Z.ltb_spec (zlen p) 256); [|lia]. cbn [negb].
    destruct Ha as [->|]; [|done]. cbv zeta.
    destruct (i3c_frame_wire (to_target dyn) (conf_bus (medium_conf m)) dyn stack p) as (msg & -> & Ew); [done|apply u8_range|done|].
    cbn [mbind option_bind addr_byte]. by rewrite Ew.
  - unfold mctp_i3c_write_smq. rewrite He, Z.eqb_refl. cbn [negb]. unfold I3C_MAX_DATA_SIZE. destruct (Z.ltb_spec (zlen p) 256); [|lia]. cbn [negb].
    rewrite bool_decide_eq_false_2 by done. rewrite andb_false_r. change (default 0 (Some dyn)) with dyn.
    destruct (i3c_frame_wire (to_controller dyn) (conf_bus (medium_conf m)) 0 stack p) as (msg & -> & Ew); [done|apply u8_range|done|].
    cbn [mbind option_bind addr_byte]. by rewrite Ew.
Qed.

Lemma i3c_received_frame b b' p : (pec_enable = true -> b' = b) -> 0 < zlen p -> zlen p + pec_len <= 255 ->
  i3c_received b' (in_read_buf (frame_of b p)) (zlen (frame_of b p)) = Some (ReadBytes p).
Proof using Type.
  intros Hb Hp Hl. rewrite zlen_frame_of. unfold i3c_received, in_read_buf, frame_of, pec_len in *. destruct pec_enable.
  - replace (zlen p + 1 - 1) with (zlen p) by lia. set (z := zeros _).
    assert (El : ((p ++ [i3c_pec b p]) ++ z) !! Z.to_nat (zlen p) = Some (i3c_pec b p)).
    { rewrite <- app_assoc, lookup_app_r by (unfold zlen; lia). unfold zlen. by rewrite Nat2Z.id, Nat.sub_diag. }
    rewrite El. cbn [mbind option_bind].
    rewrite mem_read_Some by (rewrite ?zlen_app; pose proof (zlen_nonneg z); change (zlen [_]) with 1; lia).
    cbn [mbind option_bind]. rewrite <- app_assoc, slice_app_l, slice_all by lia. by rewrite Hb, Z.eqb_refl.
  - rewrite app_nil_r, Z.add_0_r. set (z := zeros _).
    rewrite mem_read_Some by (rewrite ?zlen_app; pose proof (zlen_nonneg z); lia).
    cbn [mbind option_bind]. by rewrite slice_app_l, slice_all by lia.
Qed.

Lemma i3c_rx_turn_frame e resolve dyn m p : conf_addr (medium_conf m) = dyn \/ e = Controller -> 0 < zlen p -> zlen p + pec_len <= 255 ->
  i3c_rx_turn (other_end e) resolve (Some dyn) m (frame_of (addr_byte e dyn) p) =
    mctp_rx_step resolve true m (in_read_buf p) (zlen p) (mk_ext 0 0 0 (medium_of (other_end e)) 0).
Proof using Type.
  intros Ha Hp Hl. unfold i3c_rx_turn. pose proof (zlen_frame_of (addr_byte e dyn) p) as Hz.
  assert (0 <= pec_len) by (unfold pec_len; destruct pec_enable; lia).
  assert (Hr : forall b', (pec_enable = true -> b' = addr_byte e dyn) ->
    i3c_received b' (in_read_buf (frame_of (addr_byte e dyn) p)) (zlen (frame_of (addr_byte e dyn) p)) = Some (ReadBytes p))
    by (intros; by apply i3c_received_frame).
  destruct e; cbn [other_end addr_byte medium_of] in *.
  - unfold mctp_i3c_read_smq. destruct (Z.leb_spec (zlen (frame_of (to_target dyn) p)) 0); [lia|].
    destruct pec_enable; by rewrite Hr.
  - unfold mctp_i3c_read. destruct (Z.leb_spec (zlen (frame_of (to_controller dyn) p)) 0); [lia|].
    rewrite Hr; [done|]. intros _. by destruct Ha as [->|].
Qed.

(** The frames of one end, received by the other: its receive task sees the packets. *)
Lemma i3c_rx_packets e resolve dyn pkts : forall r, conf_addr (medium_conf r) = dyn \/ e = Controller ->
  Forall (fun p => 0 < zlen p /\ zlen p + pec_len <= 255) pkts ->
  i3c_rx_run (other_end e) resolve dyn r (frame_of (addr_byte e dyn) <$> pkts) =
    rx_run resolve r pkts (mk_ext 0 0 0 (medium_of (other_end e)) 0).
Proof using Type.
  induction pkts as [|p pkts IH]; intros r Ha Hp; [done|]. apply Forall_cons in Hp as [[H1 H2] Hp].
  rewrite fmap_cons. cbn [i3c_rx_run rx_run]. rewrite i3c_rx_turn_frame by done.
  destruct (mctp_rx_step _ _ _ _ _ _) as [[r' ev]|] eqn:E; [|done]. cbn [mbind option_bind].
  rewrite IH; [done| |done]. destruct Ha as [Ha|]; [left|by right]. apply rx_step_frame in E as [l ->]. done.
Qed.
End i3c.

(** ** Properties *)

(** C21: End to end over I3C, in either direction: a message of at most 1024 bytes sent by the transmit
    task of the controller or of the target, with or without a PEC, reaches the message handler of
    the other end exactly once, byte for byte, with the sender's endpoint and tag, as long as both
    ends use the same setting and the controller is configured with the dynamic address of the
    target. It holds for every CRC function; a packet with its PEC has at most 255 bytes. *)
Theorem mctp_over_i3c_delivers crc8 pec e resolve dyn stack s r msg ext cb :
  let n := packet_count s msg in
  let h := nth_hdr s ext n 0 in
  zlen stack = 256 -> 0 < zlen msg <= MSG_ASSEMBLY_BUF_SIZE -> 0 < max_msg_size s -> max_msg_size s + 4 + pec_len pec <= 255 -> n <= 255 ->
  ext_type ext = medium_of e ->
  conf_addr (medium_conf (match e with Controller => s | Target => r end)) = dyn ->
  ext_ep ext = endpoint r \/ ext_ep ext = MCTP_NULL_EID -> rx_cb r = Some cb ->
  length (temp_msg_buf r) = 16%nat -> temp_msg_buf r !! slot_index h = Some empty_slot ->
  exists s' pkts,
    mctp_tx_step (fun _ => i3c_write_code crc8 pec e dyn stack s ext) s (mk_tx_msg 0 (Some msg) (zlen msg) ext)
      = Some (s', pkts, MCTP_SUCCESS) /\
    i3c_rx_run crc8 pec (other_end e) resolve dyn r (i3c_sent crc8 pec e dyn stack s ext <$> pkts) =
      Some (r, [EvRxCb cb msg (mk_ext 0 (hdr_msg_tag h) (endpoint s) (medium_of (other_end e)) 0)]).
Proof.
  intros n h Hst HL HM1 HM2 Hn Het Hca Hep Hcb Hlen Hslot.
  assert (Hpl : 0 <= pec_len pec) by (unfold pec_len; destruct pec; lia).
  assert (Hsz : forall j, 0 <= j < n -> 0 < zlen (nth_packet s ext msg n j) /\ zlen (nth_packet s ext msg n j) + pec_len pec <= 255).
  { intros j Hj. pose proof (nth_packet_size s ext msg j ltac:(lia) ltac:(lia) Hj) as Hj'. fold n in Hj'. lia. }
  assert (Hs : conf_addr (medium_conf s) = dyn \/ e = Target) by (destruct e; [by left|by right]).
  assert (Hw : forall p, zlen p + pec_len pec <= 255 -> i3c_write_code crc8 pec e dyn stack s ext p = MCTP_SUCCESS /\
    i3c_sent crc8 pec e dyn stack s ext p = frame_of crc8 pec (addr_byte e dyn) p) by (intros; by apply i3c_write_sent).
  assert (Hpk : Forall (fun p => 0 < zlen p /\ zlen p + pec_len pec <= 255) (packets_of s ext msg)).
  { apply Forall_forall. intros p Hp. apply list_elem_of_fmap in Hp as (j & -> & Hj). apply elem_of_seqZ in Hj. fold n in Hj |- *. apply Hsz. lia. }
  destruct (tx_step_packets (fun _ => i3c_write_code crc8 pec e dyn stack s ext) s msg ext) as [s' Ht]; [lia|lia|done| |].
  { fold n. intros j Hj. by apply Hw, Hsz. }
  exists s', (packets_of s ext msg). split; [exact Ht|].
  rewrite (list_fmap_ext _ (frame_of crc8 pec (addr_byte e dyn)) (packets_of s ext msg)).
  2: { intros i p Hi. apply Hw. by destruct (Forall_lookup_1 _ _ _ _ Hpk Hi). }
  rewrite i3c_rx_packets; [|destruct e; [by right|by left]|done].
  by apply rx_run_packets; [|lia|..].
Qed.

(** A packet of 255 bytes with a PEC is given to the driver with the length 0: nothing is sent. *)
Lemma i3c_write_255 crc8 stack m buf ext : zlen stack = 256 -> zlen buf = 255 -> ext_type ext = MCTP_MEDIUM_TYPE_CONTROLLER_I3C ->
  exists msg, mctp_i3c_write crc8 true 0 stack m buf 255 ext = Some (MCTP_SUCCESS, Some msg) /\ i3c_wire msg = [].
Proof.
  intros Hs Hb He. unfold mctp_i3c_write. rewrite He. change (negb (MCTP_MEDIUM_TYPE_CONTROLLER_I3C =? _)) with false.
  change (negb (255 <? I3C_MAX_DATA_SIZE)) with false. cbv iota zeta. unfold i3c_frame. rewrite mem_read_Some, slice_all by lia.
  cbn [mbind option_bind]. rewrite mem_write_patch by lia. cbn [mbind option_bind].
  rewrite mem_write_patch by (rewrite ?zlen_patch by lia; change (zlen [_]) with 1; lia). cbn [mbind option_bind]. by eexists.
Qed.

(** When the target cannot get its address, the code of the error is taken for a length of 1. If a
    message with the tag and endpoint 0 is being put together, the receive task copies outside its
    buffer. *)
Lemma i3c_address_failure crc8 resolve m f b off : 0 < zlen f ->
  get_slot m (hdr_of (zeros 256)) = mk_slot (Some b) off -> 4 <= off <= 1024 ->
  i3c_rx_turn crc8 true Target resolve None m f = None.
Proof.
  intros Hf Hg Ho. unfold i3c_rx_turn, mctp_i3c_read_smq. destruct (Z.leb_spec (zlen f) 0); [lia|]. cbn [mbind option_bind].
  apply (mctp_rx_short_packet_ub resolve m (zeros 256) MCTP_ERROR b off); try done. by right.
Qed.

(** ** Witnesses *)

(** CRC-8 with polynomial 0x07, as Zephyr documents its [crc8]. *)
Fixpoint crc8_steps (n : nat) (crc : Z) : Z :=
  match n with
  | O => crc
  | S n => crc8_steps n (u8 (if crc .& 0x80 =? 0 then crc .<< 1 else (crc .<< 1) .^ 0x07))
  end.
Definition crc8_from (init : Z) (l : list Z) : Z := fold_left (fun crc b => crc8_steps 8 (crc .^ b)) l init.

Definition demo_end (ep addr : Z) (cb : option Z) : mctp :=
  mk_mctp 1 1 ep 2 (mk_conf 0 addr) None None None true true "" "" true (replicate 16 empty_slot) cb 5.

Lemma mctp_over_i3c_delivers_witness :
  exists s' pkts,
    mctp_tx_step (fun _ => i3c_write_code crc8_from true Target 0x21 (zeros 256) (demo_end 0x08 0 None) (mk_ext 0 6 0x0A 3 0))
      (demo_end 0x08 0 None) (mk_tx_msg 0 (Some [1; 2; 3; 4; 5]) 5 (mk_ext 0 6 0x0A 3 0)) = Some (s', pkts, MCTP_SUCCESS) /\
    i3c_rx_run crc8_from true Controller (fun _ _ => None) 0x21 (demo_end 0x0A 0x21 (Some 7))
        (i3c_sent crc8_from true Target 0x21 (zeros 256) (demo_end 0x08 0 None) (mk_ext 0 6 0x0A 3 0) <$> pkts)
      = Some (demo_end 0x0A 0x21 (Some 7), [EvRxCb 7 [1; 2; 3; 4; 5] (mk_ext 0 6 0x08 2 0)]).
Proof.
  apply (mctp_over_i3c_delivers crc8_from true Target (fun _ _ => None) 0x21 (zeros 256) (demo_end 0x08 0 None)
           (demo_end 0x0A 0x21 (Some 7)) [1; 2; 3; 4; 5] (mk_ext 0 6 0x0A 3 0) 7); try done. by left.
Defined.

(** The bytes on the bus of a packet to the target, and the same packet with another address. *)
Example i3c_wrong_address : let f := i3c_sent crc8_from true Controller 0 (zeros 256) (demo_end 0x08 0x21 None) (mk_ext 0 6 0x0A 2 0) [1; 2; 3] in
  mctp_i3c_read_smq crc8_from true (Some 0x21) (zlen f) (in_read_buf f) = Some (ReadBytes [1; 2; 3]) /\
  mctp_i3c_read_smq crc8_from true (Some 0x22) (zlen f) (in_read_buf f) = Some ReadNothing.
Proof. split; reflexivity. Qed.
