(* ===== verification/MctpCtrl.v ===== *)
(** Component [common/service/mctp/mctp_ctrl.c]: MCTP control messages. Requests to this
    device are answered by four command handlers; requests of this device wait in
    [wait_recv_resp_list] for a response or a timeout. An MCTP instance is a handle, the
    instances an entry of a map each; a list node's address is a number. The platform's port
    table, GUID and message types are arguments. *)

From stdpp Require Import strings.
From S2P Require Import Prelude Bytes MctpCore.

(** ** Constants and data *)

Definition MCTP_CTRL_CMD_SET_ENDPOINT_ID : Z := 0x01.
Definition MCTP_CTRL_CMD_GET_ENDPOINT_ID : Z := 0x02.
Definition MCTP_CTRL_CMD_GET_ENDPOINT_UUID : Z := 0x03.
Definition MCTP_CTRL_CMD_GET_MESSAGE_TYPE_SUPPORT : Z := 0x05.
Definition MCTP_CTRL_CC_SUCCESS : Z := 0x00.
Definition MCTP_CTRL_CC_ERROR : Z := 0x01.
Definition MCTP_CTRL_CC_ERROR_UNSUPPORTED_CMD : Z := 0x05.
Definition MCTP_CTRL_READ_STATUS_SUCCESS : Z := 0x00.
Definition MCTP_CTRL_READ_STATUS_CC_ERROR : Z := 0x01.
Definition MCTP_CTRL_READ_STATUS_TIMEOUT : Z := 0x02.
Definition MCTP_CTRL_INST_ID_MASK : Z := 0x3F.
Definition MCTP_MSG_TYPE_CTRL : Z := 0.
Definition DEFAULT_WAIT_TO_MS : Z := 3000.
(** [sizeof(TYPE_MAX_SIZE)], the size of an enumeration constant. *)
Definition sizeof_TYPE_MAX_SIZE : Z := 4.

(** [mctp_ctrl_hdr]: three bytes, two of them bit fields. *)
Record mctp_ctrl_hdr := mk_ctrl_hdr {
  ch_msg_type : Z; ch_ic : Z; ch_inst_id : Z; ch_rsvd : Z; ch_d : Z; ch_rq : Z; ch_cmd : Z }.

Definition ctrl_hdr_of (buf : list Z) : mctp_ctrl_hdr :=
  mk_ctrl_hdr (rd buf 0 .& 0x7F) (bit (rd buf 0) 7) (rd buf 1 .& 0x1F) (bit (rd buf 1) 5)
    (bit (rd buf 1) 6) (bit (rd buf 1) 7) (rd buf 2).

Definition ctrl_hdr_bytes (h : mctp_ctrl_hdr) : list Z :=
  [ch_msg_type h .| (ch_ic h .<< 7);
   ch_inst_id h .| (ch_rsvd h .<< 5) .| (ch_d h .<< 6) .| (ch_rq h .<< 7); ch_cmd h].

Definition set_ch_rq (v : Z) (h : mctp_ctrl_hdr) : mctp_ctrl_hdr :=
  mk_ctrl_hdr (ch_msg_type h) (ch_ic h) (ch_inst_id h) (ch_rsvd h) (ch_d h) v (ch_cmd h).
Definition set_request_id (id : Z) (h : mctp_ctrl_hdr) : mctp_ctrl_hdr :=
  mk_ctrl_hdr MCTP_MSG_TYPE_CTRL (ch_ic h) id (ch_rsvd h) (ch_d h) (ch_rq h) (ch_cmd h).

(** ** Command handlers *)

(** The platform: the port table, the system GUID ([None]: not read), the supported message
    types ([None]: not implemented). *)
Record ctrl_platform := mk_ctrl_platform {
  plat_get_mctp_port_count : Z;
  plat_get_mctp_port : Z -> option mctp_port;
  get_system_guid : option (list Z);
  load_mctp_support_types : option (list Z) }.

Section handlers.
Context (pf : ctrl_platform).

(** A handler on the instances: the instances, and the [resp_len] bytes of the response;
    [None] is an access through a NULL pointer or outside a buffer. [inst] is the instance
    the request came through, [buf] the memory from the command's data on. *)
Definition ctrl_result : Type := option (gmap Z mctp * list Z).

(** The loop from port [i] on: is a port missing, and the instances. *)
Fixpoint set_eid_loop (n : nat) (i : Z) (inst eid : Z) (insts : gmap Z mctp) : bool * gmap Z mctp :=
  match n with
  | O => (false, insts)
  | S n =>
      match plat_get_mctp_port pf i with
      | None => (true, insts)
      | Some p =>
          if decide (port_mctp_inst p = Some inst) then (false, alter (set_endpoint eid) inst insts)
          else set_eid_loop n (i + 1) inst eid insts
      end
  end.

Definition mctp_ctrl_cmd_set_endpoint_id (inst : Z) (buf : list Z) (insts : gmap Z mctp) : ctrl_result :=
  let eid := rd buf 1 in
  if negb (plat_get_mctp_port_count pf =? 0) then
    let '(missing, insts) := set_eid_loop (Z.to_nat (plat_get_mctp_port_count pf)) 0 inst eid insts in
    if missing then Some (insts, [MCTP_CTRL_CC_ERROR])
    else Some (insts, [MCTP_CTRL_CC_SUCCESS; 0; eid; 0])
  else Some (insts, [MCTP_CTRL_CC_ERROR]).

(** The endpoint id found, 0 if no port has the medium; the outer [None] is a port without an
    instance, the inner one a missing port. *)
Fixpoint get_eid_loop (n : nat) (i : Z) (medium : Z) (insts : gmap Z mctp) : option (option Z) :=
  match n with
  | O => Some (Some 0)
  | S n =>
      match plat_get_mctp_port pf i with
      | None => Some None
      | Some p =>
          m ← port_mctp_inst p ≫= (fun k => insts !! k);
          if medium_type m =? medium then Some (Some (endpoint m))
          else get_eid_loop n (i + 1) medium insts
      end
  end.

(** The byte of types is [DYNAMIC_EID] and [SIMPLE_ENDPOINT], both 0. *)
Definition mctp_ctrl_cmd_get_endpoint_id (inst : Z) (buf : list Z) (insts : gmap Z mctp) : ctrl_result :=
  if negb (plat_get_mctp_port_count pf =? 0) then
    m ← insts !! inst;
    r ← get_eid_loop (Z.to_nat (plat_get_mctp_port_count pf)) 0 (medium_type m) insts;
    match r with
    | None => Some (insts, [MCTP_CTRL_CC_ERROR])
    | Some eid => Some (insts, [MCTP_CTRL_CC_SUCCESS; eid; 0; 0])
    end
  else Some (insts, [MCTP_CTRL_CC_ERROR]).

Definition mctp_ctrl_cmd_get_endpoint_uuid (inst : Z) (buf : list Z) (insts : gmap Z mctp) : ctrl_result :=
  match get_system_guid pf with
  | Some uuid => Some (insts, MCTP_CTRL_CC_SUCCESS :: take 16 (uuid ++ zeros 16))
  | None => Some (insts, [MCTP_CTRL_CC_ERROR])
  end.

(** The platform writes its types into the block the handler allocates. *)
Definition mctp_ctrl_cmd_get_message_type_support (inst : Z) (buf : list Z) (insts : gmap Z mctp)
    : ctrl_result :=
  match load_mctp_support_types pf with
  | None => Some (insts, [MCTP_ERROR])
  | Some types =>
      if sizeof_TYPE_MAX_SIZE <? zlen types then None
      else Some (insts, [MCTP_CTRL_CC_SUCCESS; u8 (zlen types)] ++ types)
  end.

Definition mctp_ctrl_cmd_tbl : list (Z * (Z -> list Z -> gmap Z mctp -> ctrl_result)) :=
  [ (MCTP_CTRL_CMD_SET_ENDPOINT_ID, mctp_ctrl_cmd_set_endpoint_id);
    (MCTP_CTRL_CMD_GET_ENDPOINT_ID, mctp_ctrl_cmd_get_endpoint_id);
    (MCTP_CTRL_CMD_GET_ENDPOINT_UUID, mctp_ctrl_cmd_get_endpoint_uuid);
    (MCTP_CTRL_CMD_GET_MESSAGE_TYPE_SUPPORT, mctp_ctrl_cmd_get_message_type_support) ].

Fixpoint ctrl_find_cmd (tbl : list (Z * (Z -> list Z -> gmap Z mctp -> ctrl_result))) (cmd : Z)
    : option (Z -> list Z -> gmap Z mctp -> ctrl_result) :=
  match tbl with
  | [] => None
  | (code, fn) :: tbl => if code =? cmd then Some fn else ctrl_find_cmd tbl cmd
  end.

(** The request part of [mctp_ctrl_cmd_handler]: the message given to [mctp_send_msg]. *)
Definition ctrl_request (inst : Z) (buf : list Z) (insts : gmap Z mctp)
    : option (gmap Z mctp * list Z) :=
  let hdr := set_ch_rq 0 (ctrl_hdr_of buf) in
  match ctrl_find_cmd mctp_ctrl_cmd_tbl (ch_cmd hdr) with
  | None => Some (insts, ctrl_hdr_bytes hdr ++ [MCTP_CTRL_CC_ERROR_UNSUPPORTED_CMD])
  | Some fn =>
      '(insts, data) ← fn inst (drop 3 buf) insts;
      Some (insts, ctrl_hdr_bytes hdr ++ data)
  end.
End handlers.

(** ** Waiting requests *)

(** [mctp_ctrl_msg] and [wait_msg]; a callback with its argument is a handle. *)
Record mctp_ctrl_msg := mk_ctrl_msg {
  cm_hdr : mctp_ctrl_hdr; cm_data : list Z; cm_ext : mctp_ext_params;
  cm_recv_resp_cb : option Z; cm_timeout_ms : Z; cm_timeout_cb : option Z }.
Record ctrl_wait := mk_ctrl_wait {
  cw_node : Z; cw_mctp_inst : Z; cw_exp_to_ms : Z; cw_msg : mctp_ctrl_msg }.

(** The list, the static [inst_id] of [mctp_ctrl_send_msg], and the next node's address. *)
Record ctrl_state := mk_ctrl_state { ctrl_list : list ctrl_wait; ctrl_inst_id : Z; ctrl_next : Z }.

Inductive ctrl_event :=
  | CtrlSend (inst : Z) (buf : list Z) (ext : mctp_ext_params)
  | CtrlRespCb (cb : Z) (data : list Z)
  | CtrlTimeoutCb (cb : Z).

Definition set_tag_owner (v : Z) (e : mctp_ext_params) : mctp_ext_params :=
  mk_ext v (ext_msg_tag e) (ext_ep e) (ext_type e) (ext_addr e).

(** [mctp_ctrl_send_msg] up to the call of [mctp_send_msg]: the state, the node of a request
    and the message sent; [None]: the allocation fails and nothing is sent. *)
Definition mctp_ctrl_send_begin (malloc_ok : bool) (now : Z) (st : ctrl_state) (inst : Z)
    (msg : mctp_ctrl_msg) : ctrl_state * option (option Z * list Z * mctp_ext_params) :=
  if negb (ch_rq (cm_hdr msg) =? 0) then
    let id := (ctrl_inst_id st .& MCTP_CTRL_INST_ID_MASK) mod 32 in
    let hdr := set_request_id id (cm_hdr msg) in
    let msg := mk_ctrl_msg hdr (cm_data msg) (set_tag_owner 1 (cm_ext msg)) (cm_recv_resp_cb msg)
                 (cm_timeout_ms msg) (cm_timeout_cb msg) in
    let st := mk_ctrl_state (ctrl_list st) (u8 (ctrl_inst_id st + 1)) (ctrl_next st) in
    if negb malloc_ok then (st, None)
    else
      let timeout := if negb (cm_timeout_ms msg =? 0) then cm_timeout_ms msg else DEFAULT_WAIT_TO_MS in
      let w := mk_ctrl_wait (ctrl_next st) inst (now + timeout) msg in
      (mk_ctrl_state (ctrl_list st ++ [w]) (ctrl_inst_id st) (ctrl_next st + 1),
       Some (Some (ctrl_next st), ctrl_hdr_bytes hdr ++ cm_data msg, cm_ext msg))
  else (st, Some (None, ctrl_hdr_bytes (cm_hdr msg) ++ cm_data msg, cm_ext msg)).

Definition ctrl_remove (node : Z) (l : list ctrl_wait) : list ctrl_wait :=
  filter (fun w => cw_node w <> node) l.

(** The rest of [mctp_ctrl_send_msg], with the result [rc] of [mctp_send_msg]. [None]: the node
    was freed while the message was sent, and is freed again. *)
Definition mctp_ctrl_send_end (rc : Z) (st : ctrl_state) (node : option Z) : option (ctrl_state * Z) :=
  if rc =? MCTP_ERROR then
    match node with
    | None => Some (st, MCTP_ERROR)
    | Some n =>
        if existsb (fun w => cw_node w =? n) (ctrl_list st)
        then Some (mk_ctrl_state (ctrl_remove n (ctrl_list st)) (ctrl_inst_id st) (ctrl_next st), MCTP_ERROR)
        else None
    end
  else Some (st, MCTP_SUCCESS).

Definition ctrl_matches (inst : Z) (hdr : mctp_ctrl_hdr) (w : ctrl_wait) : bool :=
  (ch_inst_id (cm_hdr (cw_msg w)) =? ch_inst_id hdr) && (cw_mctp_inst w =? inst)
  && (ch_cmd (cm_hdr (cw_msg w)) =? ch_cmd hdr).

(** The first match and the list without it. *)
Fixpoint ctrl_take (test : ctrl_wait -> bool) (l : list ctrl_wait) : option (ctrl_wait * list ctrl_wait) :=
  match l with
  | [] => None
  | w :: l => if test w then Some (w, l) else '(v, l) ← ctrl_take test l; Some (v, w :: l)
  end.

(** [None]: the handler is given bytes outside [buf] (the length is a [uint16_t]). *)
Definition mctp_ctrl_cmd_resp_process (lock_ok : bool) (st : ctrl_state) (inst : Z) (buf : list Z)
    (len : Z) : option (ctrl_state * list ctrl_event * Z) :=
  if len =? 0 then Some (st, [], MCTP_ERROR)
  else if negb lock_ok then Some (st, [], MCTP_ERROR)
  else
    match ctrl_take (ctrl_matches inst (ctrl_hdr_of buf)) (ctrl_list st) with
    | None => Some (st, [], MCTP_SUCCESS)
    | Some (w, l) =>
        let st := mk_ctrl_state l (ctrl_inst_id st) (ctrl_next st) in
        match cm_recv_resp_cb (cw_msg w) with
        | None => Some (st, [], MCTP_SUCCESS)
        | Some cb =>
            data ← mem_read buf 3 (u16 (len - 3));
            Some (st, [CtrlRespCb cb data], MCTP_SUCCESS)
        end
    end.

(** The walk over the list: the entries kept and the handlers called. *)
Fixpoint ctrl_timeout_loop (cur_uptime : Z) (l : list ctrl_wait) : list ctrl_wait * list ctrl_event :=
  match l with
  | [] => ([], [])
  | w :: l =>
      let '(kept, evs) := ctrl_timeout_loop cur_uptime l in
      if cw_exp_to_ms w <=? cur_uptime then
        (kept, match cm_timeout_cb (cw_msg w) with
               | Some cb => CtrlTimeoutCb cb :: evs
               | None => evs
               end)
      else (w :: kept, evs)
  end.

Definition mctp_ctrl_msg_timeout_check (lock_ok : bool) (now : Z) (st : ctrl_state)
    : ctrl_state * list ctrl_event * Z :=
  if negb lock_ok then (st, [], MCTP_ERROR)
  else
    let '(l, evs) := ctrl_timeout_loop now (ctrl_list st) in
    (mk_ctrl_state l (ctrl_inst_id st) (ctrl_next st), evs, MCTP_SUCCESS).

(** [mctp_ctrl_cmd_handler]: a response or a request from the receive task; [rc] is what
    [mctp_send_msg] returns. *)
Definition mctp_ctrl_cmd_handler (pf : ctrl_platform) (lock_ok : bool) (rc : Z) (st : ctrl_state)
    (insts : gmap Z mctp) (inst : Z) (buf : list Z) (len : Z) (ext : mctp_ext_params)
    : option (ctrl_state * gmap Z mctp * list ctrl_event * Z) :=
  if len =? 0 then Some (st, insts, [], MCTP_ERROR)
  else if ch_rq (ctrl_hdr_of buf) =? 0 then
    '(st, evs, ret) ← mctp_ctrl_cmd_resp_process lock_ok st inst buf len;
    Some (st, insts, evs, ret)
  else
    '(insts, resp) ← ctrl_request pf inst buf insts;
    Some (st, insts, [CtrlSend inst resp ext], rc).

(** ** The synchronous read *)

(** [mctp_ctrl_read_resp_handler] with the reader's buffer: the buffer and the status queued. *)
Definition mctp_ctrl_read_resp_handler (rbuf : list Z) (rbuf_len : Z) (data : list Z) (read_len : Z)
    : option (list Z * Z) :=
  let return_len := if rbuf_len <? read_len then rbuf_len else read_len in
  if negb (rd data 0 =? MCTP_CTRL_CC_SUCCESS) then Some (rbuf, MCTP_CTRL_READ_STATUS_CC_ERROR)
  else
    d ← mem_read data 0 return_len;
    rbuf ← mem_write rbuf 0 d;
    Some (rbuf, MCTP_CTRL_READ_STATUS_SUCCESS).

Inductive ctrl_outcome :=
  | CtrlSendFails
  | CtrlAnswer (data : list Z) (** reaches the response handler *)
  | CtrlNoAnswer (** the entry expires *).

(** [mctp_ctrl_read]: the code returned and the reader's buffer. *)
Definition mctp_ctrl_read (alloc_ok : bool) (o : ctrl_outcome) (rbuf : list Z) (read_len : Z)
    : option (Z * list Z) :=
  if negb alloc_ok then Some (MCTP_ERROR, rbuf)
  else
    match o with
    | CtrlSendFails => Some (MCTP_ERROR, rbuf)
    | CtrlNoAnswer => Some (MCTP_ERROR, rbuf)
    | CtrlAnswer data =>
        '(rbuf, status) ← mctp_ctrl_read_resp_handler rbuf read_len data (zlen data);
        Some (if status =? MCTP_CTRL_READ_STATUS_SUCCESS then MCTP_SUCCESS else MCTP_ERROR, rbuf)
    end.

(** ** Lemmas *)

(** The response header is the request's with the request bit cleared. *)
Lemma response_hdr buf : 0 <= rd buf 0 < 256 -> 0 <= rd buf 1 < 256 ->
  ctrl_hdr_bytes (set_ch_rq 0 (ctrl_hdr_of buf)) = [rd buf 0; rd buf 1 .& 0x7F; rd buf 2].
Proof.
  intros H0 H1. unfold ctrl_hdr_bytes, set_ch_rq, ctrl_hdr_of.
  cbn [ch_msg_type ch_ic ch_inst_id ch_rsvd ch_d ch_rq ch_cmd].
  set (f := fun a => ((a .& 0x7F) .| (bit a 7 .<< 7) =? a)
    && ((a .& 0x1F) .| (bit a 5 .<< 5) .| (bit a 6 .<< 6) .| (0 .<< 7) =? a .& 0x7F)).
  assert (Hf : forall a, 0 <= a < 256 -> f a = true) by (apply byte_forall; by vm_compute).
  apply Hf in H0, H1. unfold f in H0, H1. reflect_bools. by f_equal; [|f_equal].
Qed.

(** Every port has an instance that exists; [port_ok] at the port of an index. *)
Definition port_inst (pf : ctrl_platform) (insts : gmap Z mctp) (i : Z) (k : Z) (m : mctp) : Prop :=
  exists p, plat_get_mctp_port pf i = Some p /\ port_mctp_inst p = Some k /\ insts !! k = Some m.
Definition ports_ok (pf : ctrl_platform) (insts : gmap Z mctp) : Prop :=
  forall i, 0 <= i < plat_get_mctp_port_count pf -> exists k m, port_inst pf insts i k m.

Lemma set_eid_loop_found pf inst eid insts n i j :
  (forall j, i <= j < i + Z.of_nat n -> exists k m, port_inst pf insts j k m) ->
  i <= j < i + Z.of_nat n -> (exists m, port_inst pf insts j inst m) ->
  set_eid_loop pf n i inst eid insts = (false, alter (set_endpoint eid) inst insts).
Proof.
  revert i. induction n as [|n IH]; intros i Hp Hj Hin; [lia|]. cbn [set_eid_loop].
  destruct (Z.eq_dec i j) as [->|].
  - destruct Hin as (m & p & -> & Hk & _). by rewrite decide_True.
  - destruct (Hp i) as (k & m & p & -> & Hk & Hm); [lia|]. case_decide; [done|].
    apply IH; [intros; apply Hp; lia|lia|done].
Qed.

Lemma get_eid_loop_first pf insts n i j k m :
  (forall l, i <= l < j -> exists k' m', port_inst pf insts l k' m' /\ medium_type m' <> medium_type m) ->
  i <= j < i + Z.of_nat n -> port_inst pf insts j k m ->
  get_eid_loop pf n i (medium_type m) insts = Some (Some (endpoint m)).
Proof.
  revert i. induction n as [|n IH]; intros i Hp Hj Hin; [lia|]. cbn [get_eid_loop].
  destruct (Z.eq_dec i j) as [->|].
  - destruct Hin as (p & -> & Hk & Hm). rewrite Hk. cbn [mbind option_bind]. rewrite Hm.
    cbn [mbind option_bind]. by rewrite Z.eqb_refl.
  - destruct (Hp i) as (k' & m' & (p & -> & Hk & Hm) & Hne); [lia|]. rewrite Hk. cbn [mbind option_bind].
    rewrite Hm. cbn [mbind option_bind]. destruct (Z.eqb_spec (medium_type m') (medium_type m)); [done|].
    apply IH; [intros; apply Hp; lia|lia|done].
Qed.

Lemma get_eid_loop_total pf insts n i medium :
  (forall j, i <= j < i + Z.of_nat n -> exists k m, port_inst pf insts j k m) ->
  exists eid, get_eid_loop pf n i medium insts = Some (Some eid).
Proof.
  revert i. induction n as [|n IH]; intros i Hp; [by eexists|]. cbn [get_eid_loop].
  destruct (Hp i) as (k & m & p & -> & Hk & Hm); [lia|]. rewrite Hk. cbn [mbind option_bind].
  rewrite Hm. cbn [mbind option_bind]. destruct (_ =? _); [by eexists|]. apply IH. intros; apply Hp; lia.
Qed.

Lemma set_eid_loop_total pf inst eid insts n i :
  exists b insts', set_eid_loop pf n i inst eid insts = (b, insts').
Proof. destruct (set_eid_loop pf n i inst eid insts) as [b insts']. by exists b, insts'. Qed.

Lemma ctrl_take_first test pre w post :
  Forall (fun v => test v = false) pre -> test w = true ->
  ctrl_take test (pre ++ w :: post) = Some (w, pre ++ post).
Proof.
  intros Hp Hw. induction Hp as [|v pre Hv _ IH]; cbn [app ctrl_take]; [by rewrite Hw|].
  rewrite Hv, IH. done.
Qed.

Lemma ctrl_take_none test l : Forall (fun v => test v = false) l -> ctrl_take test l = None.
Proof. induction 1 as [|v l Hv _ IH]; [done|]. cbn [ctrl_take]. by rewrite Hv, IH. Qed.

Lemma ctrl_timeout_spec now l : ctrl_timeout_loop now l =
  (filter (fun w => now < cw_exp_to_ms w) l,
   omap (fun w => CtrlTimeoutCb <$> cm_timeout_cb (cw_msg w)) (filter (fun w => cw_exp_to_ms w <= now) l)).
Proof.
  induction l as [|w l IH]; [done|]. cbn [ctrl_timeout_loop]. rewrite IH.
  destruct (Z.leb_spec (cw_exp_to_ms w) now).
  - rewrite filter_cons_False by lia. rewrite (filter_cons_True (fun w => cw_exp_to_ms w <= now)) by done.
    cbn. by destruct (cm_timeout_cb _).
  - rewrite filter_cons_True by done. by rewrite (filter_cons_False (fun w => cw_exp_to_ms w <= now)) by lia.
Qed.

Lemma ctrl_handler_total pf insts inst cmd fn buf :
  ports_ok pf insts -> is_Some (insts !! inst) ->
  (forall types, load_mctp_support_types pf = Some types -> zlen types <= 4) ->
  ctrl_find_cmd (mctp_ctrl_cmd_tbl pf) cmd = Some fn ->
  cmd ∈ [1; 2; 3; 5] /\ exists insts' cc data, fn inst buf insts = Some (insts', cc :: data) /\
    (cc <> MCTP_CTRL_CC_SUCCESS -> data = []).
Proof.
  intros Hports [m Hm] Htypes. cbn [mctp_ctrl_cmd_tbl ctrl_find_cmd].
  destruct (Z.eqb_spec MCTP_CTRL_CMD_SET_ENDPOINT_ID cmd) as [<-|_].
  { intros [= <-]. split; [set_solver|]. unfold mctp_ctrl_cmd_set_endpoint_id.
    destruct (negb _); [|by eexists _, _, _].
    destruct (set_eid_loop_total pf inst (rd buf 1) insts (Z.to_nat (plat_get_mctp_port_count pf)) 0)
      as (b & insts' & ->). by destruct b; eexists _, _, _. }
  destruct (Z.eqb_spec MCTP_CTRL_CMD_GET_ENDPOINT_ID cmd) as [<-|_].
  { intros [= <-]. split; [set_solver|]. unfold mctp_ctrl_cmd_get_endpoint_id.
    destruct (negb _); [|by eexists _, _, _]. rewrite Hm. cbn [mbind option_bind].
    destruct (get_eid_loop_total pf insts (Z.to_nat (plat_get_mctp_port_count pf)) 0 (medium_type m))
      as [eid ->]; [intros; apply Hports; lia|]. by eexists _, _, _. }
  destruct (Z.eqb_spec MCTP_CTRL_CMD_GET_ENDPOINT_UUID cmd) as [<-|_].
  { intros [= <-]. split; [set_solver|]. unfold mctp_ctrl_cmd_get_endpoint_uuid.
    by destruct (get_system_guid pf); eexists _, _, _. }
  destruct (Z.eqb_spec MCTP_CTRL_CMD_GET_MESSAGE_TYPE_SUPPORT cmd) as [<-|_]; [|done].
  intros [= <-]. split; [set_solver|]. unfold mctp_ctrl_cmd_get_message_type_support.
  destruct (load_mctp_support_types pf) as [types|]; [|by eexists _, _, _].
  specialize (Htypes _ eq_refl). unfold sizeof_TYPE_MAX_SIZE.
  destruct (Z.ltb_spec 4 (zlen types)); [lia|]. by eexists _, _, _.
Qed.

(** ** Properties *)

(** C35: every control request is answered with exactly one message, whatever its command and
    data, as long as the platform's ports have instances and it reports at most four message
    types: the answer has the request's type, instance id and command with the request bit
    cleared, then a completion code; a command without a handler gets "unsupported" and
    changes nothing; the list of waiting requests is not touched. *)
Theorem ctrl_request_answered pf lock_ok rc st insts inst buf len ext :
  ports_ok pf insts -> is_Some (insts !! inst) ->
  (forall types, load_mctp_support_types pf = Some types -> zlen types <= 4) ->
  bytes_ok buf -> 0 < len -> ch_rq (ctrl_hdr_of buf) <> 0 ->
  exists insts' cc data,
    mctp_ctrl_cmd_handler pf lock_ok rc st insts inst buf len ext =
      Some (st, insts', [CtrlSend inst ([rd buf 0; rd buf 1 .& 0x7F; rd buf 2] ++ cc :: data) ext], rc) /\
    (rd buf 2 ∉ [1; 2; 3; 5] -> cc = MCTP_CTRL_CC_ERROR_UNSUPPORTED_CMD /\ data = [] /\ insts' = insts) /\
    (rd buf 2 ∈ [1; 2; 3; 5] -> cc <> MCTP_CTRL_CC_SUCCESS -> data = []).
Proof.
  intros Hports Hinst Htypes Hb Hl Hrq. unfold mctp_ctrl_cmd_handler.
  destruct (Z.eqb_spec len 0); [lia|]. destruct (Z.eqb_spec (ch_rq (ctrl_hdr_of buf)) 0); [done|].
  unfold ctrl_request. rewrite response_hdr by (apply rd_range; done).
  change (ch_cmd (set_ch_rq 0 (ctrl_hdr_of buf))) with (rd buf 2).
  destruct (ctrl_find_cmd _ _) as [fn|] eqn:E.
  - destruct (ctrl_handler_total pf insts inst _ fn (drop 3 buf) Hports Hinst Htypes E)
      as (Hin & insts' & cc & data & -> & Hd). cbn [mbind option_bind].
    exists insts', cc, data. by split.
  - cbn [mbind option_bind]. by exists insts, MCTP_CTRL_CC_ERROR_UNSUPPORTED_CMD, [].
Qed.

(** Set Endpoint ID followed by Get Endpoint ID through the same instance: if the
    instance is in the platform's table and is the first one of its medium there, the id read
    back is the one set; no other instance changes. *)
Theorem ctrl_set_get_eid pf insts inst m j req req' :
  ports_ok pf insts -> 0 <= j < plat_get_mctp_port_count pf -> port_inst pf insts j inst m ->
  (forall l, 0 <= l < j -> exists k' m', port_inst pf insts l k' m' /\ medium_type m' <> medium_type m) ->
  let insts' := alter (set_endpoint (rd req 1)) inst insts in
  mctp_ctrl_cmd_set_endpoint_id pf inst req insts = Some (insts', [MCTP_CTRL_CC_SUCCESS; 0; rd req 1; 0]) /\
  mctp_ctrl_cmd_get_endpoint_id pf inst req' insts' = Some (insts', [MCTP_CTRL_CC_SUCCESS; rd req 1; 0; 0]).
Proof.
  intros Hports Hj Hp Hfirst insts'. split.
  - unfold mctp_ctrl_cmd_set_endpoint_id. destruct (Z.eqb_spec (plat_get_mctp_port_count pf) 0); [lia|].
    cbn [negb]. rewrite (set_eid_loop_found pf inst (rd req 1) insts _ 0 j); [done| |lia|by eexists].
    intros; apply Hports; lia.
  - unfold mctp_ctrl_cmd_get_endpoint_id. destruct (Z.eqb_spec (plat_get_mctp_port_count pf) 0); [lia|].
    destruct Hp as (p & Ep & Ek & Hm). cbn [negb].
    assert (Hm' : insts' !! inst = Some (set_endpoint (rd req 1) m)).
    { unfold insts'. rewrite lookup_alter_eq, Hm. done. }
    rewrite Hm'. cbn [mbind option_bind].
    rewrite (get_eid_loop_first pf insts' _ 0 j inst (set_endpoint (rd req 1) m)); [done| |lia|by exists p].
    intros l Hl. destruct (Hfirst l Hl) as (k' & m' & (p' & Ep' & Ek' & Hm2) & Hne).
    destruct (decide (k' = inst)) as [->|]; [congruence|].
    exists k', m'. split; [|done]. exists p'. split; [done|]. split; [done|].
    unfold insts'. by rewrite lookup_alter_ne.
Qed.

(** On a device with two instances of one medium, Get Endpoint ID through the second
    reports the id of the first, also right after Set Endpoint ID through the second reported
    success: the look-up compares media, not instances. *)
Theorem ctrl_get_eid_shadowed pf insts inst m i j k0 m0 req req' :
  ports_ok pf insts -> 0 <= i < j -> j < plat_get_mctp_port_count pf ->
  port_inst pf insts j inst m -> port_inst pf insts i k0 m0 -> k0 <> inst ->
  medium_type m0 = medium_type m ->
  (forall l, 0 <= l < i -> exists k' m', port_inst pf insts l k' m' /\ medium_type m' <> medium_type m) ->
  exists insts',
    mctp_ctrl_cmd_set_endpoint_id pf inst req insts = Some (insts', [MCTP_CTRL_CC_SUCCESS; 0; rd req 1; 0]) /\
    endpoint <$> insts' !! inst = Some (rd req 1) /\
    mctp_ctrl_cmd_get_endpoint_id pf inst req' insts' = Some (insts', [MCTP_CTRL_CC_SUCCESS; endpoint m0; 0; 0]).
Proof.
  intros Hports Hi Hj Hp H0 Hk Hmed Hfirst. exists (alter (set_endpoint (rd req 1)) inst insts).
  destruct Hp as (p & Ep & Ek & Hm). split; [|split].
  - unfold mctp_ctrl_cmd_set_endpoint_id. destruct (Z.eqb_spec (plat_get_mctp_port_count pf) 0); [lia|].
    cbn [negb]. rewrite (set_eid_loop_found pf inst (rd req 1) insts _ 0 j); [done| |lia|by exists m, p].
    intros; apply Hports; lia.
  - by rewrite lookup_alter_eq, Hm.
  - unfold mctp_ctrl_cmd_get_endpoint_id. destruct (Z.eqb_spec (plat_get_mctp_port_count pf) 0); [lia|].
    cbn [negb]. rewrite lookup_alter_eq, Hm. cbn [fmap option_fmap option_map mbind option_bind].
    change (medium_type (set_endpoint (rd req 1) m)) with (medium_type m). rewrite <- Hmed.
    destruct H0 as (p0 & Ep0 & Ek0 & Hm0).
    rewrite (get_eid_loop_first pf _ _ 0 i k0 m0); [done| |lia|].
    + intros l Hl. destruct (Hfirst l Hl) as (k' & m' & (p' & Ep' & Ek' & Hm2) & Hne).
      destruct (decide (k' = inst)) as [->|]; [congruence|].
      exists k', m'. split; [|congruence]. exists p'. split; [done|]. split; [done|]. by rewrite lookup_alter_ne.
    + exists p0. split; [done|]. split; [done|]. by rewrite lookup_alter_ne.
Qed.

(** A control response goes to the oldest waiting request of the same instance, instance
    id and command: its handler is called once with the bytes after the header and the request
    leaves the list; a response nobody waits for changes nothing. The timeout pass removes
    exactly the requests whose deadline has passed and calls their handlers in order. *)
Theorem ctrl_response_exact st inst buf now :
  3 <= zlen buf < 65536 ->
  (forall pre w post, ctrl_list st = pre ++ w :: post ->
     Forall (fun v => ctrl_matches inst (ctrl_hdr_of buf) v = false) pre ->
     ctrl_matches inst (ctrl_hdr_of buf) w = true ->
     mctp_ctrl_cmd_resp_process true st inst buf (zlen buf) =
       Some (mk_ctrl_state (pre ++ post) (ctrl_inst_id st) (ctrl_next st),
         match cm_recv_resp_cb (cw_msg w) with Some cb => [CtrlRespCb cb (drop 3 buf)] | None => [] end,
         MCTP_SUCCESS)) /\
  (Forall (fun v => ctrl_matches inst (ctrl_hdr_of buf) v = false) (ctrl_list st) ->
     mctp_ctrl_cmd_resp_process true st inst buf (zlen buf) = Some (st, [], MCTP_SUCCESS)) /\
  mctp_ctrl_msg_timeout_check true now st =
    (mk_ctrl_state (filter (fun w => now < cw_exp_to_ms w) (ctrl_list st)) (ctrl_inst_id st) (ctrl_next st),
     omap (fun w => CtrlTimeoutCb <$> cm_timeout_cb (cw_msg w))
       (filter (fun w => cw_exp_to_ms w <= now) (ctrl_list st)), MCTP_SUCCESS).
Proof.
  intros Hl. split; [|split].
  - intros pre w post El Hpre Hw. unfold mctp_ctrl_cmd_resp_process.
    destruct (Z.eqb_spec (zlen buf) 0); [lia|]. cbn [negb]. rewrite El, ctrl_take_first by done.
    destruct (cm_recv_resp_cb (cw_msg w)); [|done]. rewrite u16_id, mem_read_Some by lia.
    cbn [mbind option_bind]. repeat f_equal. unfold slice. apply take_ge. rewrite length_drop.
    unfold zlen. lia.
  - intros Hnone. unfold mctp_ctrl_cmd_resp_process. destruct (Z.eqb_spec (zlen buf) 0); [lia|].
    cbn [negb]. by rewrite ctrl_take_none.
  - unfold mctp_ctrl_msg_timeout_check. cbn [negb]. by rewrite ctrl_timeout_spec.
Qed.

(** A request whose deadline passes while [mctp_send_msg] is still at work is freed by the
    timeout pass; if the sending then fails, [mctp_ctrl_send_msg] frees it a second time. *)
Theorem ctrl_send_double_free st inst msg now later :
  ch_rq (cm_hdr msg) <> 0 -> Forall (fun w => cw_node w < ctrl_next st) (ctrl_list st) ->
  let timeout := if negb (cm_timeout_ms msg =? 0) then cm_timeout_ms msg else DEFAULT_WAIT_TO_MS in
  now + timeout <= later ->
  exists st1 node bytes ext st2 evs,
    mctp_ctrl_send_begin true now st inst msg = (st1, Some (Some node, bytes, ext)) /\
    mctp_ctrl_msg_timeout_check true later st1 = (st2, evs, MCTP_SUCCESS) /\
    mctp_ctrl_send_end MCTP_ERROR st2 (Some node) = None.
Proof.
  intros Hrq Hfresh timeout Hl. unfold mctp_ctrl_send_begin.
  destruct (Z.eqb_spec (ch_rq (cm_hdr msg)) 0); [done|]. cbn [negb cm_timeout_ms].
  eexists _, _, _, _, _, _. split; [reflexivity|]. split.
  { unfold mctp_ctrl_msg_timeout_check. cbn [negb]. rewrite ctrl_timeout_spec. reflexivity. }
  unfold mctp_ctrl_send_end. change (MCTP_ERROR =? MCTP_ERROR) with true. cbv iota.
  cbn [ctrl_list ctrl_next]. rewrite filter_app, filter_cons_False by (cbn [cw_exp_to_ms]; unfold timeout in Hl; lia).
  rewrite app_nil_r.
  destruct (existsb _ _) eqn:E; [|done]. apply existsb_exists in E as (w & Hw & He).
  apply list_elem_of_In, list_elem_of_filter in Hw as [_ Hw].
  rewrite Forall_forall in Hfresh. apply Hfresh in Hw. apply Z.eqb_eq in He. lia.
Qed.

(** A platform that reports more than four message types overruns the block allocated for
    them. *)
Lemma ctrl_types_overflow pf insts inst buf types :
  load_mctp_support_types pf = Some types -> 4 < zlen types ->
  mctp_ctrl_cmd_get_message_type_support pf inst buf insts = None.
Proof.
  intros E H. unfold mctp_ctrl_cmd_get_message_type_support. rewrite E. unfold sizeof_TYPE_MAX_SIZE.
  by destruct (Z.ltb_spec 4 (zlen types)); [|lia].
Qed.

(** ** Witnesses *)

Definition demo_inst (medium ep : Z) : mctp :=
  mk_mctp 1 medium ep 64 (mk_conf 0 0x20) None None None true true EmptyString EmptyString true
    (replicate 16 empty_slot) None 0.
Definition demo_ctrl_platform : ctrl_platform :=
  mk_ctrl_platform 2 (fun i => if i =? 0 then Some (mk_port (Some 10) 0 1 (mk_conf 0 0))
                      else if i =? 1 then Some (mk_port (Some 11) 0 1 (mk_conf 1 0)) else None)
    None (Some [0; 1]).
Definition demo_insts : gmap Z mctp := {[10 := demo_inst 1 8; 11 := demo_inst 1 9]}.

Lemma demo_ports_ok : ports_ok demo_ctrl_platform demo_insts.
Proof.
  intros i Hi. cbn in Hi. assert (i = 0 \/ i = 1) as [-> | ->] by lia.
  - exists 10, (demo_inst 1 8). by eexists.
  - exists 11, (demo_inst 1 9). by eexists.
Qed.

Lemma ctrl_request_answered_witness :
  exists insts' cc data,
    mctp_ctrl_cmd_handler demo_ctrl_platform true 0 (mk_ctrl_state [] 0 0) demo_insts 10 [0; 0x83; 1; 0; 0x22] 5
      (mk_ext 0 0 8 1 0) = Some (mk_ctrl_state [] 0 0, insts', [CtrlSend 10 ([0; 3; 1] ++ cc :: data) (mk_ext 0 0 8 1 0)], 0).
Proof.
  destruct (ctrl_request_answered demo_ctrl_platform true 0 (mk_ctrl_state [] 0 0) demo_insts 10
    [0; 0x83; 1; 0; 0x22] 5 (mk_ext 0 0 8 1 0)) as (insts' & cc & data & E & _).
  - apply demo_ports_ok.
  - by eexists.
  - intros types [= <-]. by vm_compute.
  - repeat constructor; lia.
  - done.
  - done.
  - by exists insts', cc, data.
Defined.

Lemma ctrl_set_get_eid_witness :
  exists insts', mctp_ctrl_cmd_get_endpoint_id demo_ctrl_platform 10 [] insts' = Some (insts', [0; 0x22; 0; 0]) /\
    mctp_ctrl_cmd_set_endpoint_id demo_ctrl_platform 10 [0; 0x22] demo_insts = Some (insts', [0; 0; 0x22; 0]).
Proof.
  destruct (ctrl_set_get_eid demo_ctrl_platform demo_insts 10 (demo_inst 1 8) 0 [0; 0x22] []) as [H1 H2].
  - apply demo_ports_ok.
  - done.
  - by eexists.
  - lia.
  - eexists. split; [exact H2|exact H1].
Defined.

Lemma ctrl_get_eid_shadowed_witness :
  exists insts', mctp_ctrl_cmd_set_endpoint_id demo_ctrl_platform 11 [0; 0x22] demo_insts = Some (insts', [0; 0; 0x22; 0]) /\
    mctp_ctrl_cmd_get_endpoint_id demo_ctrl_platform 11 [] insts' = Some (insts', [0; 8; 0; 0]).
Proof.
  destruct (ctrl_get_eid_shadowed demo_ctrl_platform demo_insts 11 (demo_inst 1 9) 0 1 10 (demo_inst 1 8)
    [0; 0x22] []) as (insts' & H1 & _ & H2); try done; try lia.
  - apply demo_ports_ok.
  - by eexists.
  - by eexists.
  - by exists insts'.
Defined.

Definition demo_ctrl_msg : mctp_ctrl_msg :=
  mk_ctrl_msg (mk_ctrl_hdr 0 0 5 0 0 1 2) [] (mk_ext 0 0 8 1 0) (Some 3) 0 None.

Lemma ctrl_response_exact_witness :
  mctp_ctrl_cmd_resp_process true (mk_ctrl_state [mk_ctrl_wait 0 10 3000 demo_ctrl_msg] 6 1) 10 [0; 5; 2; 0; 9] 5
    = Some (mk_ctrl_state [] 6 1, [CtrlRespCb 3 [0; 9]], MCTP_SUCCESS).
Proof.
  destruct (ctrl_response_exact (mk_ctrl_state [mk_ctrl_wait 0 10 3000 demo_ctrl_msg] 6 1) 10 [0; 5; 2; 0; 9] 0)
    as (H & _); [by split|].
  exact (H [] (mk_ctrl_wait 0 10 3000 demo_ctrl_msg) [] eq_refl (Forall_nil_2 _) eq_refl).
Defined.

Lemma ctrl_send_double_free_witness :
  exists st1 node bytes ext st2 evs,
    mctp_ctrl_send_begin true 0 (mk_ctrl_state [] 6 1) 10 demo_ctrl_msg = (st1, Some (Some node, bytes, ext)) /\
    mctp_ctrl_msg_timeout_check true 3000 st1 = (st2, evs, MCTP_SUCCESS) /\
    mctp_ctrl_send_end MCTP_ERROR st2 (Some node) = None.
Proof. by apply (ctrl_send_double_free (mk_ctrl_state [] 6 1) 10 demo_ctrl_msg 0 3000). Defined.
