(* ===== verification/IpmiMsg.v ===== *)
(** The [ipmi_msg] structure of [common/service/ipmb/ipmb.h], shared by the IPMB
    service and the IPMI bridge over PLDM. *)

From S2P Require Import Prelude.

Definition IPMB_RESP_HEADER_LENGTH : Z := 7.
Definition IPMI_DATA_MAX_LENGTH : Z := 520.
Definition IPMI_MSG_MAX_LENGTH : Z := IPMI_DATA_MAX_LENGTH + IPMB_RESP_HEADER_LENGTH.

(** [im_data] is the array [data[IPMI_MSG_MAX_LENGTH]]. *)
Record ipmi_msg := mk_ipmi_msg {
  im_dest_addr : Z;
  im_netfn : Z;
  im_dest_LUN : Z;
  im_hdr_chksum : Z;
  im_src_addr : Z;
  im_seq_source : Z;
  im_seq_target : Z;
  im_seq : Z;
  im_pldm_inst_id : Z;
  im_InF_source : Z;
  im_InF_target : Z;
  im_src_LUN : Z;
  im_cmd : Z;
  im_completion_code : Z;
  im_data_len : Z;
  im_data : list Z;
  im_timestamp : Z;
  im_msg_chksum : Z }.

Definition set_im_dest_addr (v : Z) (m : ipmi_msg) : ipmi_msg :=
  mk_ipmi_msg v (im_netfn m) (im_dest_LUN m) (im_hdr_chksum m) (im_src_addr m) (im_seq_source m) (im_seq_target m) (im_seq m) (im_pldm_inst_id m) (im_InF_source m) (im_InF_target m) (im_src_LUN m) (im_cmd m) (im_completion_code m) (im_data_len m) (im_data m) (im_timestamp m) (im_msg_chksum m).
Definition set_im_netfn (v : Z) (m : ipmi_msg) : ipmi_msg :=
  mk_ipmi_msg (im_dest_addr m) v (im_dest_LUN m) (im_hdr_chksum m) (im_src_addr m) (im_seq_source m) (im_seq_target m) (im_seq m) (im_pldm_inst_id m) (im_InF_source m) (im_InF_target m) (im_src_LUN m) (im_cmd m) (im_completion_code m) (im_data_len m) (im_data m) (im_timestamp m) (im_msg_chksum m).
Definition set_im_dest_LUN (v : Z) (m : ipmi_msg) : ipmi_msg :=
  mk_ipmi_msg (im_dest_addr m) (im_netfn m) v (im_hdr_chksum m) (im_src_addr m) (im_seq_source m) (im_seq_target m) (im_seq m) (im_pldm_inst_id m) (im_InF_source m) (im_InF_target m) (im_src_LUN m) (im_cmd m) (im_completion_code m) (im_data_len m) (im_data m) (im_timestamp m) (im_msg_chksum m).
Definition set_im_hdr_chksum (v : Z) (m : ipmi_msg) : ipmi_msg :=
  mk_ipmi_msg (im_dest_addr m) (im_netfn m) (im_dest_LUN m) v (im_src_addr m) (im_seq_source m) (im_seq_target m) (im_seq m) (im_pldm_inst_id m) (im_InF_source m) (im_InF_target m) (im_src_LUN m) (im_cmd m) (im_completion_code m) (im_data_len m) (im_data m) (im_timestamp m) (im_msg_chksum m).
Definition set_im_src_addr (v : Z) (m : ipmi_msg) : ipmi_msg :=
  mk_ipmi_msg (im_dest_addr m) (im_netfn m) (im_dest_LUN m) (im_hdr_chksum m) v (im_seq_source m) (im_seq_target m) (im_seq m) (im_pldm_inst_id m) (im_InF_source m) (im_InF_target m) (im_src_LUN m) (im_cmd m) (im_completion_code m) (im_data_len m) (im_data m) (im_timestamp m) (im_msg_chksum m).
Definition set_im_seq_source (v : Z) (m : ipmi_msg) : ipmi_msg :=
  mk_ipmi_msg (im_dest_addr m) (im_netfn m) (im_dest_LUN m) (im_hdr_chksum m) (im_src_addr m) v (im_seq_target m) (im_seq m) (im_pldm_inst_id m) (im_InF_source m) (im_InF_target m) (im_src_LUN m) (im_cmd m) (im_completion_code m) (im_data_len m) (im_data m) (im_timestamp m) (im_msg_chksum m).
Definition set_im_seq_target (v : Z) (m : ipmi_msg) : ipmi_msg :=
  mk_ipmi_msg (im_dest_addr m) (im_netfn m) (im_dest_LUN m) (im_hdr_chksum m) (im_src_addr m) (im_seq_source m) v (im_seq m) (im_pldm_inst_id m) (im_InF_source m) (im_InF_target m) (im_src_LUN m) (im_cmd m) (im_completion_code m) (im_data_len m) (im_data m) (im_timestamp m) (im_msg_chksum m).
Definition set_im_seq (v : Z) (m : ipmi_msg) : ipmi_msg :=
  mk_ipmi_msg (im_dest_addr m) (im_netfn m) (im_dest_LUN m) (im_hdr_chksum m) (im_src_addr m) (im_seq_source m) (im_seq_target m) v (im_pldm_inst_id m) (im_InF_source m) (im_InF_target m) (im_src_LUN m) (im_cmd m) (im_completion_code m) (im_data_len m) (im_data m) (im_timestamp m) (im_msg_chksum m).
Definition set_im_pldm_inst_id (v : Z) (m : ipmi_msg) : ipmi_msg :=
  mk_ipmi_msg (im_dest_addr m) (im_netfn m) (im_dest_LUN m) (im_hdr_chksum m) (im_src_addr m) (im_seq_source m) (im_seq_target m) (im_seq m) v (im_InF_source m) (im_InF_target m) (im_src_LUN m) (im_cmd m) (im_completion_code m) (im_data_len m) (im_data m) (im_timestamp m) (im_msg_chksum m).
Definition set_im_InF_source (v : Z) (m : ipmi_msg) : ipmi_msg :=
  mk_ipmi_msg (im_dest_addr m) (im_netfn m) (im_dest_LUN m) (im_hdr_chksum m) (im_src_addr m) (im_seq_source m) (im_seq_target m) (im_seq m) (im_pldm_inst_id m) v (im_InF_target m) (im_src_LUN m) (im_cmd m) (im_completion_code m) (im_data_len m) (im_data m) (im_timestamp m) (im_msg_chksum m).
Definition set_im_InF_target (v : Z) (m : ipmi_msg) : ipmi_msg :=
  mk_ipmi_msg (im_dest_addr m) (im_netfn m) (im_dest_LUN m) (im_hdr_chksum m) (im_src_addr m) (im_seq_source m) (im_seq_target m) (im_seq m) (im_pldm_inst_id m) (im_InF_source m) v (im_src_LUN m) (im_cmd m) (im_completion_code m) (im_data_len m) (im_data m) (im_timestamp m) (im_msg_chksum m).
Definition set_im_src_LUN (v : Z) (m : ipmi_msg) : ipmi_msg :=
  mk_ipmi_msg (im_dest_addr m) (im_netfn m) (im_dest_LUN m) (im_hdr_chksum m) (im_src_addr m) (im_seq_source m) (im_seq_target m) (im_seq m) (im_pldm_inst_id m) (im_InF_source m) (im_InF_target m) v (im_cmd m) (im_completion_code m) (im_data_len m) (im_data m) (im_timestamp m) (im_msg_chksum m).
Definition set_im_cmd (v : Z) (m : ipmi_msg) : ipmi_msg :=
  mk_ipmi_msg (im_dest_addr m) (im_netfn m) (im_dest_LUN m) (im_hdr_chksum m) (im_src_addr m) (im_seq_source m) (im_seq_target m) (im_seq m) (im_pldm_inst_id m) (im_InF_source m) (im_InF_target m) (im_src_LUN m) v (im_completion_code m) (im_data_len m) (im_data m) (im_timestamp m) (im_msg_chksum m).
Definition set_im_completion_code (v : Z) (m : ipmi_msg) : ipmi_msg :=
  mk_ipmi_msg (im_dest_addr m) (im_netfn m) (im_dest_LUN m) (im_hdr_chksum m) (im_src_addr m) (im_seq_source m) (im_seq_target m) (im_seq m) (im_pldm_inst_id m) (im_InF_source m) (im_InF_target m) (im_src_LUN m) (im_cmd m) v (im_data_len m) (im_data m) (im_timestamp m) (im_msg_chksum m).
Definition set_im_data_len (v : Z) (m : ipmi_msg) : ipmi_msg :=
  mk_ipmi_msg (im_dest_addr m) (im_netfn m) (im_dest_LUN m) (im_hdr_chksum m) (im_src_addr m) (im_seq_source m) (im_seq_target m) (im_seq m) (im_pldm_inst_id m) (im_InF_source m) (im_InF_target m) (im_src_LUN m) (im_cmd m) (im_completion_code m) v (im_data m) (im_timestamp m) (im_msg_chksum m).
Definition set_im_data (v : list Z) (m : ipmi_msg) : ipmi_msg :=
  mk_ipmi_msg (im_dest_addr m) (im_netfn m) (im_dest_LUN m) (im_hdr_chksum m) (im_src_addr m) (im_seq_source m) (im_seq_target m) (im_seq m) (im_pldm_inst_id m) (im_InF_source m) (im_InF_target m) (im_src_LUN m) (im_cmd m) (im_completion_code m) (im_data_len m) v (im_timestamp m) (im_msg_chksum m).
Definition set_im_timestamp (v : Z) (m : ipmi_msg) : ipmi_msg :=
  mk_ipmi_msg (im_dest_addr m) (im_netfn m) (im_dest_LUN m) (im_hdr_chksum m) (im_src_addr m) (im_seq_source m) (im_seq_target m) (im_seq m) (im_pldm_inst_id m) (im_InF_source m) (im_InF_target m) (im_src_LUN m) (im_cmd m) (im_completion_code m) (im_data_len m) (im_data m) v (im_msg_chksum m).
Definition set_im_msg_chksum (v : Z) (m : ipmi_msg) : ipmi_msg :=
  mk_ipmi_msg (im_dest_addr m) (im_netfn m) (im_dest_LUN m) (im_hdr_chksum m) (im_src_addr m) (im_seq_source m) (im_seq_target m) (im_seq m) (im_pldm_inst_id m) (im_InF_source m) (im_InF_target m) (im_src_LUN m) (im_cmd m) (im_completion_code m) (im_data_len m) (im_data m) (im_timestamp m) v.

Definition zero_ipmi_msg : ipmi_msg :=
  mk_ipmi_msg 0 0 0 0 0 0 0 0 0 0 0 0 0 0 0 (zeros IPMI_MSG_MAX_LENGTH) 0 0.
