(* ===== verification/IpmbCodec.v ===== *)
(** Component [common/service/ipmb/ipmb.c], wire format: the two checksums, the
    encoder and the decoder of IPMB messages, and the channel map. A buffer is
    the whole array of the caller ([IPMI_MSG_MAX_LENGTH + 7] bytes); indices
    and lengths are the [uint8_t]s of the code. *)

From S2P Require Import Prelude Bytes IpmiMsg.

(** ** Definitions *)

Definition IPMB_REQ_HEADER_LENGTH : Z := 6.
Definition IPMI_HEADER_CHECKSUM_POSITION : Z := 2.
Definition IPMB_NETFN_MASK : Z := 0xFC.
Definition IPMB_DEST_LUN_MASK : Z := 0x03.
Definition IPMB_SEQ_MASK : Z := 0xFC.
Definition IPMB_SRC_LUN_MASK : Z := 0x03.
Definition RESERVED : Z := 0x71.
Definition RESERVED_IDX : Z := 0xFF.

(** [ipmb_error] *)
Inductive ipmb_error :=
  | IPMB_ERROR_SUCCESS
  | IPMB_ERROR_UNKNOWN
  | IPMB_ERROR_FAILURE
  | IPMB_ERROR_TIMEOUT
  | IPMB_ERROR_INVALID_REQ
  | IPMB_ERROR_HDR_CHECKSUM (** Invalid header checksum from incoming message *)
  | IPMB_ERROR_MSG_CHECKSUM (** Invalid message checksum from incoming message *)
  | IPMB_ERROR_QUEUE_CREATION
  | IPMB_ERROR_GET_MESSAGE_QUEUE
  | IPMB_ERROR_MUTEX_LOCK.

Definition IS_RESPONSE (msg : ipmi_msg) : bool := negb (im_netfn msg .& 0x01 =? 0).

(** The loop of [calculate_checksum], [i] from 1 to [range - 1]. *)
Fixpoint checksum_loop (n : nat) (i checksum : Z) (buffer : list Z) : Z :=
  match n with
  | O => checksum
  | S n => checksum_loop n (i + 1) (u8 (checksum - rd buffer i)) buffer
  end.

Definition calculate_checksum (buffer : list Z) (range : Z) : Z :=
  checksum_loop (Z.to_nat (range - 1)) 1 (u8 (0 - (rd buffer 0 .<< 1))) buffer.

Definition validate_checksum (buffer : list Z) (buffer_len : Z) : ipmb_error :=
  let header_checksum := rd buffer 2 in
  let msg_checksum := rd buffer (buffer_len - 1) in
  let calc_header_checksum := calculate_checksum buffer IPMI_HEADER_CHECKSUM_POSITION in
  let calc_msg_checksum := calculate_checksum buffer (u8 (buffer_len - 1)) in
  if header_checksum =? calc_header_checksum then
    if msg_checksum =? calc_msg_checksum then IPMB_ERROR_SUCCESS
    else IPMB_ERROR_HDR_CHECKSUM
  else IPMB_ERROR_MSG_CHECKSUM.

(** A store [buffer[i] = v], inside the array by construction. *)
Definition wr (buffer : list Z) (i v : Z) : list Z := <[Z.to_nat i := v]> buffer.

(** [None]: the [memcpy] of the data leaves one of the arrays. *)
Definition ipmb_encode (buffer : list Z) (msg : ipmi_msg) : option (list Z) :=
  let buffer := wr buffer 0 (im_dest_addr msg) in
  let buffer := wr buffer 1 (((im_netfn msg .<< 2) .& IPMB_NETFN_MASK)
                             .| (im_dest_LUN msg .& IPMB_DEST_LUN_MASK)) in
  let buffer := wr buffer 2 (calculate_checksum buffer IPMI_HEADER_CHECKSUM_POSITION) in
  let buffer := wr buffer 3 (im_src_addr msg) in
  let buffer := wr buffer 4 (((im_seq msg .<< 2) .& IPMB_SEQ_MASK)
                             .| (im_src_LUN msg .& IPMB_SRC_LUN_MASK)) in
  let buffer := wr buffer 5 (im_cmd msg) in
  let '(buffer, i) := if IS_RESPONSE msg then (wr buffer 6 (im_completion_code msg), 7)
                      else (buffer, 6) in
  data ← mem_read (im_data msg) 0 (im_data_len msg);
  buffer ← mem_write buffer i data;
  let i := u8 (i + im_data_len msg) in
  Some (wr buffer i (calculate_checksum buffer i)).

Definition ipmb_decode (msg : ipmi_msg) (buffer : list Z) (len : Z) : option ipmi_msg :=
  let msg := set_im_dest_addr (rd buffer 0) msg in
  let msg := set_im_netfn (rd buffer 1 .>> 2) msg in
  let msg := set_im_dest_LUN (rd buffer 1 .& IPMB_DEST_LUN_MASK) msg in
  let msg := set_im_hdr_chksum (rd buffer 2) msg in
  let msg := set_im_src_addr (rd buffer 3) msg in
  let msg := set_im_seq (rd buffer 4 .>> 2) msg in
  let msg := set_im_src_LUN (rd buffer 4 .& IPMB_SRC_LUN_MASK) msg in
  let msg := set_im_cmd (rd buffer 5) msg in
  let '(msg, i) := if IS_RESPONSE msg then (set_im_completion_code (rd buffer 6) msg, 7)
                   else (msg, 6) in
  let msg := set_im_data_len (if i + 1 <? len then len - i - 1 else 0) msg in
  data ← mem_read buffer i (im_data_len msg);
  data ← mem_write (im_data msg) 0 data;
  Some (set_im_msg_chksum (rd buffer (len - 1)) (set_im_data data msg)).

(** [channel_index_mapping]: the rows [(index, channel)] of
    [IPMB_config_table] up to the one marked reserved; a later row with the same
    channel replaces an earlier one. *)
Fixpoint map_channels (table : list (Z * Z)) (index_num : Z) (map : list Z) : list Z :=
  match table with
  | [] => map
  | (index, channel) :: table =>
      if index =? RESERVED_IDX then map
      else map_channels table (u8 (index_num + 1))
             (if channel <? RESERVED then wr map channel index_num else map)
  end.

Definition channel_index_mapping (table : list (Z * Z)) : list Z :=
  map_channels table 0 (replicate (Z.to_nat RESERVED) RESERVED).

(** ** Lemmas: checksums *)

Fixpoint bsum (l : list Z) : Z := match l with [] => 0 | x :: l => x + bsum l end.

Lemma bsum_app l k : bsum (l ++ k) = bsum l + bsum k.
Proof. induction l; simpl; lia. Qed.

Lemma u8_idemp_l a b : u8 (u8 a + b) = u8 (a + b).
Proof. apply Zplus_mod_idemp_l. Qed.

Lemma checksum_loop_sum n i c buffer :
  0 <= i -> i + Z.of_nat n <= zlen buffer ->
  checksum_loop n i (u8 c) buffer = u8 (c - bsum (slice buffer i (Z.of_nat n))).
Proof.
  revert i c. induction n as [|n IH]; intros i c Hi Hn; cbn [checksum_loop].
  - change (slice buffer i (Z.of_nat 0)) with (@nil Z). simpl. f_equal. lia.
  - replace (u8 (u8 c - rd buffer i)) with (u8 (c - rd buffer i))
      by (unfold Z.sub; by rewrite u8_idemp_l).
    rewrite IH by lia. f_equal. rewrite Nat2Z.inj_succ, <- Z.add_1_l.
    rewrite (slice_split _ i 1) by lia. rewrite bsum_app.
    assert (E : slice buffer i 1 = [rd buffer i]).
    { unfold slice, rd, zlen in *. change (Z.to_nat 1) with 1%nat.
      destruct (lookup_lt_is_Some_2 buffer (Z.to_nat i)) as [x Hx]; [lia|].
      rewrite Hx. rewrite (drop_S _ _ _ Hx). done. }
    rewrite E. simpl. lia.
Qed.

(** The checksum makes the sum of the covered bytes (address as 8 bits) zero. *)
Lemma calculate_checksum_sum buffer range :
  1 <= range <= zlen buffer ->
  calculate_checksum buffer range
    = u8 (- (2 * rd buffer 0 + bsum (slice buffer 1 (range - 1)))).
Proof.
  intros H. unfold calculate_checksum. rewrite checksum_loop_sum by lia.
  rewrite Z.shiftl_mul_pow2 by lia. rewrite Z2Nat.id by lia. f_equal. lia.
Qed.

Lemma calculate_checksum_ext b1 b2 range :
  1 <= range <= zlen b1 -> range <= zlen b2 -> slice b1 0 range = slice b2 0 range ->
  calculate_checksum b1 range = calculate_checksum b2 range.
Proof.
  intros H1 H2 E.
  assert (Hrd : forall i, 0 <= i < range -> rd b1 i = rd b2 i).
  { intros i Hi. unfold rd, slice in *. rewrite !drop_0 in E.
    rewrite <- (lookup_take_lt b1 (Z.to_nat range)) by lia. rewrite E.
    by rewrite lookup_take_lt by lia. }
  unfold calculate_checksum. rewrite Hrd by lia.
  assert (Hg : forall n i c, 1 <= i -> i + Z.of_nat n <= range ->
    checksum_loop n i c b1 = checksum_loop n i c b2).
  { induction n as [|n IH]; intros i c Hi Hn; simpl; [done|].
    rewrite Hrd by lia. apply IH; lia. }
  apply Hg; lia.
Qed.

(** ** Lemmas: the encoded frame *)

(** Field ranges of a message that fits one IPMB transfer. *)
Definition ipmb_msg_ok (msg : ipmi_msg) : Prop :=
  0 <= im_dest_addr msg < 128 /\ 0 <= im_netfn msg < 64 /\ 0 <= im_dest_LUN msg < 4 /\
  0 <= im_src_addr msg < 256 /\ 0 <= im_seq msg < 64 /\ 0 <= im_src_LUN msg < 4 /\
  0 <= im_cmd msg < 256 /\ 0 <= im_completion_code msg < 256 /\
  zlen (im_data msg) = IPMI_MSG_MAX_LENGTH /\ bytes_ok (im_data msg) /\
  0 <= im_data_len msg.

Definition header_len (msg : ipmi_msg) : Z := if IS_RESPONSE msg then 7 else 6.
Definition frame_len (msg : ipmi_msg) : Z := header_len msg + im_data_len msg + 1.

Definition frame_header (msg : ipmi_msg) : list Z :=
  let b1 := im_netfn msg * 4 + im_dest_LUN msg in
  [im_dest_addr msg; b1; u8 (- (2 * im_dest_addr msg + b1));
   im_src_addr msg; im_seq msg * 4 + im_src_LUN msg; im_cmd msg]
  ++ (if IS_RESPONSE msg then [im_completion_code msg] else []).

Definition frame_body (msg : ipmi_msg) : list Z :=
  frame_header msg ++ slice (im_data msg) 0 (im_data_len msg).

Lemma zlen_frame_header msg : zlen (frame_header msg) = header_len msg.
Proof. unfold frame_header, header_len. by destruct (IS_RESPONSE msg). Qed.

Lemma pack6 a b : 0 <= a < 64 -> 0 <= b < 4 ->
  ((a .<< 2) .& 0xFC) .| (b .& 0x03) = a * 4 + b.
Proof.
  intros Ha Hb. apply Z.eqb_eq.
  pose proof (small_forall 64 (fun a => forallb (fun b =>
    ((a .<< 2) .& 0xFC) .| (b .& 0x03) =? a * 4 + b) (seqZ 0 4)) eq_refl a Ha) as H.
  cbv beta in H. rewrite forallb_forall in H. apply H. apply list_elem_of_In, elem_of_seqZ. lia.
Qed.

Lemma unpack6 a b : 0 <= a -> 0 <= b < 4 -> (a * 4 + b) .>> 2 = a /\ (a * 4 + b) .& 0x03 = b.
Proof.
  intros Ha Hb. rewrite Z.shiftr_div_pow2 by lia. change (2 ^ 2) with 4.
  change 0x03 with (Z.ones 2). rewrite Z.land_ones by lia. change (2 ^ 2) with 4. split.
  - rewrite Z.div_add_l by lia. rewrite Z.div_small; lia.
  - rewrite Z.add_comm, Z.mod_add by lia. apply Z.mod_small. lia.
Qed.

Lemma slice_0_ge {A} (l : list Z) (a : A) n : zlen l = n -> slice l 0 n = l.
Proof. intros. apply slice_all. lia. Qed.

Lemma frame_prefix_rd (a k : list Z) i : 0 <= i < zlen a -> rd (a ++ k) i = rd a i.
Proof. intros Hi. unfold rd, zlen in *. by rewrite lookup_app_l by lia. Qed.

Lemma frame_body_rd (a k : list Z) x : rd (a ++ x :: k) (zlen a) = x.
Proof.
  unfold rd, zlen. rewrite Nat2Z.id, lookup_app_r by lia. by rewrite Nat.sub_diag.
Qed.

Lemma app_cut (l : list Z) n : 0 <= n <= zlen l -> exists a k, l = a ++ k /\ zlen a = n.
Proof.
  intros H. exists (take (Z.to_nat n) l), (drop (Z.to_nat n) l). split.
  - by rewrite take_drop.
  - unfold zlen in *. rewrite length_take. lia.
Qed.

Lemma wr_app a old rest v : wr (a ++ old :: rest) (zlen a) v = a ++ v :: rest.
Proof.
  unfold wr, zlen. rewrite Nat2Z.id, insert_app_r_alt by lia. by rewrite Nat.sub_diag.
Qed.

(** The header stores leave the header at the front of the buffer. *)
Lemma encode_header buffer msg :
  ipmb_msg_ok msg -> zlen buffer = 534 ->
  exists rest,
    (let buffer := wr buffer 0 (im_dest_addr msg) in
     let buffer := wr buffer 1 (((im_netfn msg .<< 2) .& IPMB_NETFN_MASK)
                             .| (im_dest_LUN msg .& IPMB_DEST_LUN_MASK)) in
     let buffer := wr buffer 2 (calculate_checksum buffer IPMI_HEADER_CHECKSUM_POSITION) in
     let buffer := wr buffer 3 (im_src_addr msg) in
     let buffer := wr buffer 4 (((im_seq msg .<< 2) .& IPMB_SEQ_MASK)
                             .| (im_src_LUN msg .& IPMB_SRC_LUN_MASK)) in
     let buffer := wr buffer 5 (im_cmd msg) in
     if IS_RESPONSE msg then (wr buffer 6 (im_completion_code msg), 7) else (buffer, 6))
    = (frame_header msg ++ rest, header_len msg) /\ zlen rest = 534 - header_len msg.
Proof.
  intros (Hd & Hn & Hdl & Hsa & Hs & Hsl & Hc & Hcc & _) Hb.
  unfold IPMB_NETFN_MASK, IPMB_DEST_LUN_MASK, IPMB_SEQ_MASK, IPMB_SRC_LUN_MASK.
  rewrite !pack6 by done. cbv zeta.
  destruct (app_cut buffer 7) as (a & k & -> & Ha); [lia|].
  do 8 (destruct a as [|? a]; try (unfold zlen in Ha; simpl in Ha; lia)). clear Ha.
  unfold wr. eval_nat. simpl insert.
  unfold calculate_checksum, IPMI_HEADER_CHECKSUM_POSITION. change (Z.to_nat (2 - 1)) with 1%nat.
  cbn [checksum_loop]. unfold rd. eval_nat. simpl lookup. simpl default.
  rewrite Z.shiftl_mul_pow2 by lia.
  replace (u8 (u8 (0 - im_dest_addr msg * 2 ^ 1) - (im_netfn msg * 4 + im_dest_LUN msg)))
    with (u8 (- (2 * im_dest_addr msg + (im_netfn msg * 4 + im_dest_LUN msg))))
    by (unfold Z.sub; rewrite u8_idemp_l; f_equal; lia).
  unfold frame_header, header_len. destruct (IS_RESPONSE msg).
  - exists k. split; [done|]. rewrite zlen_app in Hb. unfold zlen at 1 in Hb. simpl in Hb. lia.
  - eexists (_ :: k). split; [done|]. rewrite zlen_app in Hb. rewrite zlen_cons.
    unfold zlen at 1 in Hb. simpl in Hb. lia.
Qed.

Lemma ipmb_encode_frame buffer msg :
  ipmb_msg_ok msg -> zlen buffer = 534 -> frame_len msg <= 255 ->
  exists rest, ipmb_encode buffer msg =
      Some (frame_body msg ++ u8 (- (2 * im_dest_addr msg + bsum (drop 1 (frame_body msg)))) :: rest)
    /\ zlen rest = 534 - frame_len msg.
Proof.
  intros Hok Hb Hlen. destruct (encode_header buffer msg Hok Hb) as (rest & E & Hrest).
  unfold ipmb_encode. cbv zeta in E |- *. rewrite E. clear E.
  destruct Hok as (Hd & _ & _ & _ & _ & _ & _ & _ & Hdata & _ & Hdl).
  unfold IPMI_MSG_MAX_LENGTH, IPMI_DATA_MAX_LENGTH, IPMB_RESP_HEADER_LENGTH in Hdata.
  unfold frame_len in *. assert (6 <= header_len msg <= 7)
    by (unfold header_len; destruct (IS_RESPONSE msg); lia).
  rewrite mem_read_Some by lia. cbn [mbind option_bind].
  set (data := slice (im_data msg) 0 (im_data_len msg)).
  assert (Hdz : zlen data = im_data_len msg) by (apply zlen_slice; lia).
  destruct (app_cut rest (im_data_len msg)) as (old & rest2 & -> & Hold); [lia|].
  rewrite zlen_app in Hrest.
  pose proof (mem_write_app (frame_header msg) old rest2 data) as Ew.
  rewrite zlen_frame_header in Ew. rewrite Ew by lia. cbn [mbind option_bind].
  destruct rest2 as [|x rest3]; [change (zlen []) with 0 in Hrest; lia|]. rewrite zlen_cons in Hrest.
  rewrite u8_id by lia.
  assert (Hbody : zlen (frame_body msg) = header_len msg + im_data_len msg).
  { unfold frame_body. rewrite zlen_app, zlen_frame_header. fold data. lia. }
  exists rest3. split; [|lia]. f_equal.
  replace (frame_header msg ++ data ++ x :: rest3) with (frame_body msg ++ x :: rest3)
    by (unfold frame_body; by rewrite <- app_assoc).
  pose proof (wr_app (frame_body msg) x rest3) as Ewr. rewrite Hbody in Ewr. rewrite Ewr.
  do 2 f_equal.
  rewrite calculate_checksum_sum.
  2:{ rewrite zlen_app, zlen_cons, Hbody. pose proof (zlen_nonneg rest3). lia. }
  rewrite <- Hbody. do 3 f_equal.
  unfold slice. change (Z.to_nat 1) with 1%nat.
  rewrite drop_app_le by (unfold zlen in *; lia).
  rewrite take_app_le by (rewrite length_drop; unfold zlen in *; lia).
  apply f_equal. apply take_ge. rewrite length_drop. unfold zlen. lia.
Qed.

(** ** Lemmas: a valid frame, and one changed byte *)

Lemma bsum_insert l i v x :
  l !! i = Some x -> bsum (<[i := v]> l) = bsum l - x + v.
Proof.
  revert i. induction l as [|y l IH]; intros i H; [done|].
  destruct i as [|i]; simpl in *; [simplify_eq; lia|]. rewrite (IH i H). lia.
Qed.

Lemma u8_opp_cancel a : u8 (a + u8 (- a)) = 0.
Proof.
  rewrite Z.add_comm, u8_idemp_l. unfold u8. rewrite Z.add_opp_diag_l. reflexivity.
Qed.

Lemma frame_header_checksum msg k :
  ipmb_msg_ok msg ->
  rd (frame_header msg ++ k) 2 = calculate_checksum (frame_header msg ++ k) 2.
Proof.
  intros _. unfold calculate_checksum. change (Z.to_nat (2 - 1)) with 1%nat.
  cbn [checksum_loop]. unfold frame_header, rd. eval_nat. simpl lookup. simpl default.
  rewrite Z.shiftl_mul_pow2 by lia. unfold Z.sub at 1. rewrite u8_idemp_l. f_equal. lia.
Qed.

Lemma frame_valid msg rest :
  ipmb_msg_ok msg -> frame_len msg <= 255 ->
  validate_checksum (frame_body msg
    ++ u8 (- (2 * im_dest_addr msg + bsum (drop 1 (frame_body msg)))) :: rest) (frame_len msg)
  = IPMB_ERROR_SUCCESS.
Proof.
  intros Hok Hlen.
  assert (Hbody : zlen (frame_body msg) = frame_len msg - 1).
  { destruct Hok as (_ & _ & _ & _ & _ & _ & _ & _ & Hdata & _ & Hdl).
    unfold IPMI_MSG_MAX_LENGTH, IPMI_DATA_MAX_LENGTH, IPMB_RESP_HEADER_LENGTH in Hdata.
    unfold frame_body, frame_len in *. assert (6 <= header_len msg <= 7)
      by (unfold header_len; destruct (IS_RESPONSE msg); lia).
    rewrite zlen_app, zlen_frame_header, zlen_slice by lia. lia. }
  assert (7 <= frame_len msg).
  { destruct Hok as (_ & _ & _ & _ & _ & _ & _ & _ & _ & _ & Hdl). unfold frame_len, header_len.
    destruct (IS_RESPONSE msg); lia. }
  unfold validate_checksum, IPMI_HEADER_CHECKSUM_POSITION.
  rewrite <- Hbody, frame_body_rd. rewrite (u8_id (zlen (frame_body msg))) by lia.
  set (chk := u8 (- _)).
  assert (E : calculate_checksum (frame_body msg ++ chk :: rest) (zlen (frame_body msg)) = chk).
  { rewrite calculate_checksum_sum.
    2:{ rewrite zlen_app, zlen_cons. pose proof (zlen_nonneg rest). lia. }
    unfold chk. do 2 f_equal. f_equal.
    unfold slice. change (Z.to_nat 1) with 1%nat. unfold zlen in Hbody |- *.
    rewrite drop_app_le by lia. rewrite take_app_le by (rewrite length_drop; lia).
    apply f_equal. apply take_ge. rewrite length_drop. lia. }
  rewrite E, Z.eqb_refl.
  unfold frame_body. rewrite <- app_assoc. rewrite frame_header_checksum by done.
  by rewrite Z.eqb_refl.
Qed.

Lemma zlen_wr b i v : zlen (wr b i v) = zlen b.
Proof. unfold wr, zlen. by rewrite length_insert. Qed.

Lemma slice_wr_out b p v off n :
  0 <= off -> 0 <= n -> 0 <= p -> p < off \/ off + n <= p ->
  slice (wr b p v) off n = slice b off n.
Proof.
  intros Ho Hn Hp H. unfold slice, wr. apply list_eq. intros i.
  destruct (decide (i < Z.to_nat n)%nat) as [Hi|Hi].
  - rewrite !lookup_take_lt, !lookup_drop by lia. apply list_lookup_insert_ne. lia.
  - by rewrite !lookup_take_ge by lia.
Qed.

Lemma slice_wr_in b p v off n :
  0 <= off -> 0 <= n -> off <= p < off + n ->
  slice (wr b p v) off n = wr (slice b off n) (p - off) v.
Proof.
  intros Ho Hn H. unfold slice, wr. rewrite <- take_insert_lt by lia. f_equal.
  apply list_eq. intros i. rewrite lookup_drop.
  destruct (decide (i = Z.to_nat (p - off))) as [->|Hi].
  - replace (Z.to_nat off + Z.to_nat (p - off))%nat with (Z.to_nat p) by lia.
    destruct (decide (Z.to_nat p < length b)%nat).
    + rewrite !list_lookup_insert_eq by (rewrite ?length_drop; lia). done.
    + rewrite !lookup_ge_None_2 by (rewrite length_insert, ?length_drop; lia). done.
  - rewrite !list_lookup_insert_ne, lookup_drop by lia. done.
Qed.

Lemma checksum_wr buffer p v range :
  1 <= p -> 1 <= range <= zlen buffer -> p < zlen buffer ->
  calculate_checksum (wr buffer p v) range =
    if p <? range then u8 (calculate_checksum buffer range + (rd buffer p - v))
    else calculate_checksum buffer range.
Proof.
  intros Hp Hr Hpl. rewrite !calculate_checksum_sum by (rewrite ?zlen_wr; lia).
  assert (E0 : rd (wr buffer p v) 0 = rd buffer 0).
  { unfold rd, wr. rewrite list_lookup_insert_ne by lia. done. }
  rewrite E0. destruct (Z.ltb_spec p range).
  - rewrite slice_wr_in by lia.
    assert (Hx : slice buffer 1 (range - 1) !! Z.to_nat (p - 1) = Some (rd buffer p)).
    { unfold slice. rewrite lookup_take_lt, lookup_drop by lia.
      replace (Z.to_nat 1 + Z.to_nat (p - 1))%nat with (Z.to_nat p) by lia.
      unfold rd, zlen in *. destruct (lookup_lt_is_Some_2 buffer (Z.to_nat p)) as [x Hx]; [lia|].
      by rewrite Hx. }
    unfold wr. rewrite (bsum_insert _ _ _ _ Hx). rewrite u8_idemp_l. f_equal. lia.
  - rewrite slice_wr_out by lia. done.
Qed.

Lemma u8_shift_ne x d : -256 < d < 256 -> d <> 0 -> u8 (x + d) <> u8 x.
Proof.
  intros Hd Hne E. unfold u8 in E. apply (f_equal (fun z => (z - x mod 256) mod 256)) in E.
  rewrite Zminus_mod_idemp_l, Zminus_mod_idemp_r in E.
  replace (x + d - x) with d in E by lia.
  rewrite Zminus_mod_idemp_l, Zminus_mod_idemp_r, Z.sub_diag in E. change (0 mod 256) with 0 in E.
  pose proof (Z.div_mod d 256 ltac:(lia)). lia.
Qed.

Lemma calculate_checksum_u8 buffer range :
  1 <= range <= zlen buffer -> exists x, calculate_checksum buffer range = u8 x.
Proof. intros H. rewrite calculate_checksum_sum by done. by eexists. Qed.

(** What the decoder makes of a frame, whatever follows it in the buffer and whatever the
    receiving message held. *)
Definition same_message (msg msg0 msg' : ipmi_msg) : Prop :=
  im_dest_addr msg' = im_dest_addr msg /\ im_netfn msg' = im_netfn msg /\
  im_dest_LUN msg' = im_dest_LUN msg /\ im_src_addr msg' = im_src_addr msg /\
  im_seq msg' = im_seq msg /\ im_src_LUN msg' = im_src_LUN msg /\ im_cmd msg' = im_cmd msg /\
  im_completion_code msg' =
    (if IS_RESPONSE msg then im_completion_code msg else im_completion_code msg0) /\
  im_data_len msg' = im_data_len msg /\
  slice (im_data msg') 0 (im_data_len msg') = slice (im_data msg) 0 (im_data_len msg).

Lemma decode_frame msg msg0 chk rest :
  ipmb_msg_ok msg -> frame_len msg <= 255 -> zlen (im_data msg0) = IPMI_MSG_MAX_LENGTH ->
  exists msg', ipmb_decode msg0 (frame_body msg ++ chk :: rest) (frame_len msg) = Some msg' /\
    same_message msg msg0 msg'.
Proof.
  intros Hok Hlen Hd0.
  unfold ipmb_decode, IPMB_DEST_LUN_MASK, IPMB_SRC_LUN_MASK.
  set (frame := frame_body msg ++ chk :: rest) in *.
  set (data := slice (im_data msg) 0 (im_data_len msg)).
  pose proof Hok as (Hd & Hn & Hdl & Hsa & Hs & Hsl & Hc & Hcc & Hdata & _ & Hl).
  unfold IPMI_MSG_MAX_LENGTH, IPMI_DATA_MAX_LENGTH, IPMB_RESP_HEADER_LENGTH in Hdata, Hd0.
  assert (Hh : 6 <= header_len msg <= 7) by (unfold header_len; destruct (IS_RESPONSE msg); lia).
  assert (Hz : zlen data = im_data_len msg) by (apply zlen_slice; unfold frame_len in *; lia).
  assert (E0 : rd frame 0 = im_dest_addr msg) by done.
  assert (E1 : rd frame 1 = im_netfn msg * 4 + im_dest_LUN msg) by done.
  assert (E3 : rd frame 3 = im_src_addr msg) by done.
  assert (E4 : rd frame 4 = im_seq msg * 4 + im_src_LUN msg) by done.
  assert (E5 : rd frame 5 = im_cmd msg) by done.
  rewrite E0, E1, E3, E4, E5.
  destruct (unpack6 (im_netfn msg) (im_dest_LUN msg)) as [-> ->]; [lia|lia|].
  destruct (unpack6 (im_seq msg) (im_src_LUN msg)) as [-> ->]; [lia|lia|].
  set (m1 := set_im_cmd (im_cmd msg) _).
  assert (Er : IS_RESPONSE m1 = IS_RESPONSE msg) by done. rewrite Er.
  set (m2i := if IS_RESPONSE msg then _ else _).
  assert (Em2 : m2i = (set_im_completion_code (if IS_RESPONSE msg then im_completion_code msg
      else im_completion_code msg0) m1, header_len msg)).
  { unfold m2i, header_len. destruct (IS_RESPONSE msg) eqn:Ers.
    - repeat f_equal. unfold frame, frame_body, frame_header. rewrite Ers. done.
    - by unfold m1. }
  rewrite Em2. cbv iota zeta.
  cbn [im_data_len set_im_data_len im_data set_im_completion_code set_im_cmd].
  assert (Elen : (if header_len msg + 1 <? frame_len msg then frame_len msg - header_len msg - 1
    else 0) = im_data_len msg).
  { unfold frame_len in *. destruct (Z.ltb_spec (header_len msg + 1)
      (header_len msg + im_data_len msg + 1)); lia. }
  rewrite Elen.
  assert (Erd : mem_read frame (header_len msg) (im_data_len msg) = Some data).
  { unfold frame, frame_body. fold data. rewrite <- app_assoc, mem_read_Some.
    - f_equal. rewrite slice_app_r by (by rewrite zlen_frame_header).
      rewrite slice_app_l by lia. apply slice_all. lia.
    - lia.
    - lia.
    - rewrite !zlen_app, zlen_cons, zlen_frame_header. pose proof (zlen_nonneg rest). lia. }
  rewrite Erd. cbn [mbind option_bind].
  destruct (mem_write_Some (im_data m1) 0 data) as [d' Hd'].
  { lia. }
  { change (im_data m1) with (im_data msg0). rewrite Hd0. unfold frame_len in *. lia. }
  change (im_data (set_im_data_len _ _)) with (im_data m1). rewrite Hd'. cbn [mbind option_bind].
  eexists. split; [done|]. unfold same_message. do 9 (split; [done|]).
  cbn [im_data im_data_len set_im_msg_chksum set_im_data set_im_data_len].
  apply mem_write_prefix in Hd'. rewrite Hz, Z.add_0_l in Hd'. rewrite Hd'. done.
Qed.

(** ** Properties *)

(** C8: a message that fits one transfer survives the wire: what [ipmb_encode] leaves in
    the buffer passes [validate_checksum], and [ipmb_decode] recovers every field, the
    completion code of a response and the data, whatever the receiving message held. *)
Theorem ipmb_roundtrip buffer msg msg0 :
  ipmb_msg_ok msg -> zlen buffer = 534 -> frame_len msg <= 255 ->
  zlen (im_data msg0) = IPMI_MSG_MAX_LENGTH ->
  exists frame msg',
    ipmb_encode buffer msg = Some frame /\
    validate_checksum frame (frame_len msg) = IPMB_ERROR_SUCCESS /\
    ipmb_decode msg0 frame (frame_len msg) = Some msg' /\
    same_message msg msg0 msg'.
Proof.
  intros Hok Hb Hlen Hd0. destruct (ipmb_encode_frame buffer msg Hok Hb Hlen) as (rest & -> & Hr).
  set (chk := u8 (- _)). exists (frame_body msg ++ chk :: rest).
  destruct (decode_frame msg msg0 chk rest Hok Hlen Hd0) as (msg' & E & Hs).
  exists msg'. split; [done|]. split; [by apply frame_valid|]. done.
Qed.
Lemma ipmb_roundtrip_witness :
  exists frame msg', ipmb_encode (zeros 534)
      (set_im_netfn 0x07 (set_im_data_len 2 (set_im_cmd 1 zero_ipmi_msg))) = Some frame /\
    validate_checksum frame 10 = IPMB_ERROR_SUCCESS /\
    ipmb_decode zero_ipmi_msg frame 10 = Some msg' /\ im_netfn msg' = 0x07.
Proof.
  set (msg := set_im_netfn 0x07 (set_im_data_len 2 (set_im_cmd 1 zero_ipmi_msg))).
  destruct (ipmb_roundtrip (zeros 534) msg zero_ipmi_msg) as (f & m & H1 & H2 & H3 & H4).
  - unfold ipmb_msg_ok; simpl. repeat split; try lia; try reflexivity.
    apply Forall_replicate. lia.
  - reflexivity.
  - vm_compute. congruence.
  - reflexivity.
  - exists f, m. split; [exact H1|]. split; [exact H2|]. split; [exact H3|apply H4].
Defined.

(** [validate_checksum] detects the change of any single byte after the address of a
    valid frame. The code it then returns has its two names exchanged: a damaged header
    byte gives [IPMB_ERROR_MSG_CHECKSUM], any later byte [IPMB_ERROR_HDR_CHECKSUM]. *)
Theorem validate_checksum_detects buffer len p v :
  bytes_ok buffer -> 7 <= len <= 255 -> len <= zlen buffer ->
  validate_checksum buffer len = IPMB_ERROR_SUCCESS ->
  1 <= p < len -> 0 <= v < 256 -> v <> rd buffer p ->
  validate_checksum (wr buffer p v) len =
    if p <=? 2 then IPMB_ERROR_MSG_CHECKSUM else IPMB_ERROR_HDR_CHECKSUM.
Proof.
  intros Hok Hl Hz Hv Hp Hv256 Hne. pose proof (rd_range buffer p Hok) as Hold.
  unfold validate_checksum, IPMI_HEADER_CHECKSUM_POSITION in *.
  rewrite (u8_id (len - 1)) in * by lia.
  destruct (Z.eqb_spec (rd buffer 2) (calculate_checksum buffer 2)) as [E2|]; [|discriminate].
  destruct (Z.eqb_spec (rd buffer (len - 1)) (calculate_checksum buffer (len - 1))) as [E3|];
    [|discriminate].
  assert (Hrd : forall i, 0 <= i -> rd (wr buffer p v) i = if p =? i then v else rd buffer i).
  { intros i Hi. unfold wr. apply rd_insert; lia. }
  rewrite !Hrd, !checksum_wr by lia.
  destruct (calculate_checksum_u8 buffer 2) as [x2 Ex2]; [lia|].
  destruct (calculate_checksum_u8 buffer (len - 1)) as [x3 Ex3]; [lia|].
  rewrite Ex2, Ex3 in *. rewrite !u8_idemp_l.
  pose proof (u8_shift_ne x2 (rd buffer p - v) ltac:(lia) ltac:(lia)) as N2.
  pose proof (u8_shift_ne x3 (rd buffer p - v) ltac:(lia) ltac:(lia)) as N3.
  destruct (Z.leb_spec p 2) as [Hp2|Hp2].
  - destruct (Z.eqb_spec p 2) as [->|].
    + change (2 <? 2) with false. cbv iota.
      destruct (Z.eqb_spec v (u8 x2)); [congruence|]. done.
    + destruct (Z.ltb_spec p 2); [|lia].
      destruct (Z.eqb_spec (rd buffer 2) (u8 (x2 + (rd buffer p - v)))); [congruence|]. done.
  - destruct (Z.eqb_spec p 2); [lia|]. destruct (Z.ltb_spec p 2); [lia|].
    rewrite E2, Z.eqb_refl. destruct (Z.eqb_spec p (len - 1)) as [->|].
    + rewrite Z.ltb_irrefl. destruct (Z.eqb_spec v (u8 x3)); [congruence|]. done.
    + destruct (Z.ltb_spec p (len - 1)); [|lia].
      destruct (Z.eqb_spec (rd buffer (len - 1)) (u8 (x3 + (rd buffer p - v)))); [congruence|done].
Qed.
Lemma validate_checksum_detects_witness :
  validate_checksum (wr [0x20; 0x18; 0xA8; 0x40; 0x04; 0x01; 0xBB] 5 0x02) 7
    = IPMB_ERROR_HDR_CHECKSUM.
Proof.
  apply (validate_checksum_detects [0x20; 0x18; 0xA8; 0x40; 0x04; 0x01; 0xBB] 7 5 0x02).
  - repeat constructor; lia.
  - lia.
  - unfold zlen; simpl; lia.
  - reflexivity.
  - lia.
  - lia.
  - vm_compute. congruence.
Defined.

(** The encoder keeps its position in eight bits: a message whose header and data
    take 256 bytes or more gets no checksum after its data (the byte there is whatever
    the buffer held); the checksum goes to position (length mod 256), inside the frame. *)
Theorem ipmb_encode_wraps buffer msg :
  ipmb_msg_ok msg -> zlen buffer = 534 ->
  256 <= header_len msg + im_data_len msg -> im_data_len msg <= IPMI_MSG_MAX_LENGTH - 1 ->
  header_len msg + im_data_len msg < 512 ->
  exists frame, ipmb_encode buffer msg = Some frame /\
    exists frame0, frame = wr frame0 (header_len msg + im_data_len msg - 256)
        (calculate_checksum frame0 (header_len msg + im_data_len msg - 256)) /\
      slice frame0 0 (header_len msg + im_data_len msg) = frame_body msg /\
      zlen frame0 = 534.
Proof.
  intros Hok Hb Hlen Hmax Hlt. destruct (encode_header buffer msg Hok Hb) as (rest & E & Hrest).
  unfold ipmb_encode. cbv zeta in E |- *. rewrite E. clear E.
  destruct Hok as (Hd & _ & _ & _ & _ & _ & _ & _ & Hdata & _ & Hdl).
  unfold IPMI_MSG_MAX_LENGTH, IPMI_DATA_MAX_LENGTH, IPMB_RESP_HEADER_LENGTH in *.
  assert (6 <= header_len msg <= 7) by (unfold header_len; destruct (IS_RESPONSE msg); lia).
  rewrite mem_read_Some by lia. cbn [mbind option_bind].
  set (data := slice (im_data msg) 0 (im_data_len msg)).
  assert (Hdz : zlen data = im_data_len msg) by (apply zlen_slice; lia).
  destruct (app_cut rest (im_data_len msg)) as (old & rest2 & -> & Hold); [lia|].
  rewrite zlen_app in Hrest.
  pose proof (mem_write_app (frame_header msg) old rest2 data) as Ew.
  rewrite zlen_frame_header in Ew. rewrite Ew by lia. cbn [mbind option_bind].
  assert (Hu : u8 (header_len msg + im_data_len msg) = header_len msg + im_data_len msg - 256).
  { unfold u8. rewrite <- (Z.mod_small (_ - 256) 256) by lia.
    rewrite <- (Z.mod_add (_ - 256) 1) by lia. f_equal. lia. }
  rewrite Hu. eexists. split; [done|]. eexists. split; [done|].
  assert (Hbody : zlen (frame_body msg) = header_len msg + im_data_len msg).
  { unfold frame_body. rewrite zlen_app, zlen_frame_header. fold data. lia. }
  split.
  - replace (frame_header msg ++ data ++ rest2) with (frame_body msg ++ rest2)
      by (unfold frame_body; by rewrite <- app_assoc).
    rewrite slice_app_l by lia. apply slice_all. lia.
  - rewrite !zlen_app, zlen_frame_header. lia.
Qed.
Lemma ipmb_encode_wraps_witness :
  exists frame, ipmb_encode (zeros 534) (set_im_data_len 300 zero_ipmi_msg) = Some frame /\
    exists frame0, frame = wr frame0 50 (calculate_checksum frame0 50).
Proof.
  destruct (ipmb_encode_wraps (zeros 534) (set_im_data_len 300 zero_ipmi_msg))
    as (f & H1 & f0 & H2 & _).
  - unfold ipmb_msg_ok; simpl. repeat split; try lia; try reflexivity.
    apply Forall_replicate. lia.
  - reflexivity.
  - vm_compute. congruence.
  - vm_compute. congruence.
  - vm_compute. congruence.
  - exists f. split; [exact H1|]. exists f0. exact H2.
Defined.
