(* ===== verification/IpmbSeq.v ===== *)
(** Component [common/service/ipmb/ipmb.c], sequence numbers and pending
    requests: one IPMB index with its row of [seq_table], [current_seq] and the
    circular list [P_start] of requests waiting for a response; sending, and the
    timeout pass. The list is the nodes after the head node; [list_null] says its
    last node points to NULL instead of back to the head, which a failed
    allocation leaves behind. [None] is undefined behaviour (a NULL node
    dereferenced, an index outside [seq_table]). *)

From S2P Require Import Prelude Bytes IpmiMsg IpmbCodec.

(** ** Data *)

Definition SEQ_NUM : Z := 64.
Definition MAX_SEQ_QUENE : Z := 15.
Definition IPMB_SEQ_TIMEOUT_MS : Z := 3000.

Record ipmb_state := mk_ipmb_state {
  seq_table : list bool;
  current_seq : Z;
  req_list : list ipmi_msg;
  list_null : bool;
  seq_current_count : Z;
  ipmb_tx_disable : bool }.

Definition set_seq_table (v : list bool) (st : ipmb_state) : ipmb_state :=
  mk_ipmb_state v (current_seq st) (req_list st) (list_null st) (seq_current_count st) (ipmb_tx_disable st).
Definition set_current_seq (v : Z) (st : ipmb_state) : ipmb_state :=
  mk_ipmb_state (seq_table st) v (req_list st) (list_null st) (seq_current_count st) (ipmb_tx_disable st).
Definition set_req_list (v : list ipmi_msg) (st : ipmb_state) : ipmb_state :=
  mk_ipmb_state (seq_table st) (current_seq st) v (list_null st) (seq_current_count st) (ipmb_tx_disable st).
Definition set_list_null (v : bool) (st : ipmb_state) : ipmb_state :=
  mk_ipmb_state (seq_table st) (current_seq st) (req_list st) v (seq_current_count st) (ipmb_tx_disable st).
Definition set_seq_current_count (v : Z) (st : ipmb_state) : ipmb_state :=
  mk_ipmb_state (seq_table st) (current_seq st) (req_list st) (list_null st) v (ipmb_tx_disable st).
Definition set_ipmb_tx_disable (v : bool) (st : ipmb_state) : ipmb_state :=
  mk_ipmb_state (seq_table st) (current_seq st) (req_list st) (list_null st) (seq_current_count st) v.

(** [ipmi_msg_cfg] as it goes through the transmit queue. *)
Record ipmi_msg_cfg := mk_msg_cfg { cfg_buffer : ipmi_msg; cfg_retries : Z }.

(** [IPMB_config] without the thread names. *)
Record IPMB_config := mk_ipmb_config {
  cf_index : Z; cf_interface : Z; cf_channel : Z; cf_bus : Z;
  cf_channel_target_address : Z; cf_enable_status : bool; cf_self_address : Z }.

(** ** Sequence numbers *)

Definition write_seq (st : ipmb_state) (seq_num : Z) (b : bool) : option ipmb_state :=
  if (0 <=? seq_num) && (seq_num <? SEQ_NUM)
  then Some (set_seq_table (<[Z.to_nat seq_num := b]> (seq_table st)) st) else None.

Definition unregister_seq (st : ipmb_state) (seq_num : Z) : option ipmb_state :=
  write_seq st seq_num false.
Definition register_seq (st : ipmb_state) (seq_num : Z) : option ipmb_state :=
  write_seq st seq_num true.

Definition seq_used (st : ipmb_state) (seq : Z) : bool :=
  default false (seq_table st !! Z.to_nat seq).

(** The do-while loop; [n] turns are left before [count] reaches [SEQ_NUM]. *)
Fixpoint free_seq_loop (n : nat) (st : ipmb_state) (cur : Z) : Z :=
  match n with
  | O => cur
  | S n =>
      let cur := (cur + 1) .& 0x3f in
      if negb (seq_used st cur) then cur else free_seq_loop n st cur
  end.

Definition get_free_seq (st : ipmb_state) : Z * ipmb_state :=
  let cur := free_seq_loop (Z.to_nat SEQ_NUM) st (current_seq st) in
  (cur, set_current_seq cur st).

(** ** The list of pending requests *)

(** [now] is [osKernelGetSysTimerCount()]. Result: the state and the message,
    whose timestamp is set when it is recorded. *)
Definition insert_req_ipmi_msg (lock_ok malloc_ok : bool) (now : Z)
    (st : ipmb_state) (msg : ipmi_msg) : option (ipmb_state * ipmi_msg) :=
  if negb lock_ok then Some (st, msg)
  else
    (* No more room, remove the first node. *)
    evicted ← (if seq_current_count st =? MAX_SEQ_QUENE then
        match req_list st with
        | [] => if list_null st then Some None else None
        | _ :: rest => Some (Some (set_seq_current_count (seq_current_count st - 1)
                                     (set_req_list rest st)))
        end
      else Some (Some st));
    match evicted with
    | None => Some (st, msg)
    | Some st =>
        if list_null st then Some (st, msg)
        else if negb malloc_ok then Some (set_list_null true st, msg)
        else
          let msg := set_im_timestamp now msg in
          st ← register_seq st (im_seq_target msg);
          Some (set_seq_current_count (seq_current_count st + 1)
                  (set_req_list (req_list st ++ [msg]) st), msg)
    end.

(** The walk that stops before the node to remove: the node and the list
    without it, or the end of the list. *)
Fixpoint unlink (test : ipmi_msg -> bool) (l : list ipmi_msg)
    : option (ipmi_msg * list ipmi_msg) :=
  match l with
  | [] => None
  | m :: l => if test m then Some (m, l)
              else '(found, l) ← unlink test l; Some (found, m :: l)
  end.

Definition resp_match (msg m : ipmi_msg) : bool :=
  (im_netfn m =? im_netfn msg .& Z.lnot 1) && (im_cmd m =? im_cmd msg)
  && (im_seq_target m =? im_seq_target msg).

Definition find_req_ipmi_msg (lock_ok : bool) (st : ipmb_state) (msg : ipmi_msg)
    : option (bool * ipmb_state * ipmi_msg) :=
  if negb lock_ok then Some (false, st, msg)
  else match unlink (resp_match msg) (req_list st) with
  | None => if list_null st then None else Some (false, st, msg)
  | Some (temp, rest) =>
      let msg := set_im_seq_source (im_seq_source temp) msg in
      st ← unregister_seq st (im_seq_target temp);
      let msg := set_im_InF_target (im_InF_target temp)
                   (set_im_InF_source (im_InF_source temp)
                     (set_im_pldm_inst_id (im_pldm_inst_id temp) msg)) in
      Some (true, set_seq_current_count (seq_current_count st - 1) (set_req_list rest st), msg)
  end.

Definition req_match (msg m : ipmi_msg) : bool :=
  (im_netfn m =? im_netfn msg) && (im_cmd m =? im_cmd msg) && (im_seq m =? im_seq msg).

Definition clear_req_ipmi_msg (lock_ok : bool) (st : ipmb_state) (msg : ipmi_msg)
    : option ipmb_state :=
  if negb lock_ok then Some st
  else match unlink (req_match msg) (req_list st) with
  | None => if list_null st then None else Some st
  | Some (temp, rest) =>
      st ← unregister_seq st (im_seq_target temp);
      Some (set_seq_current_count (seq_current_count st - 1) (set_req_list rest st))
  end.

(** The expiry test, in 32-bit arithmetic. *)
Definition req_expired (current_time tick_fix sys_tick_freq : Z) (m : ipmi_msg) : bool :=
  let age := u32 (current_time + tick_fix - im_timestamp m) in
  (u32 (IPMB_SEQ_TIMEOUT_MS / 1000 * sys_tick_freq) <? age)
  || negb (age .& 0x80000000 =? 0).

(** The walk of the timeout handler over one index: [k] is the position of [pnode]
    (0: the head node). After a removal [pnode] moves on past the node that took
    the removed one's place, which from the last node leads back to the head. *)
Fixpoint timeout_walk (fuel : nat) (expired : ipmi_msg -> bool) (st : ipmb_state) (k : nat)
    : option ipmb_state :=
  match fuel with
  | O => None
  | S fuel =>
      match req_list st !! k with
      | None => if list_null st then None else Some st
      | Some temp =>
          if expired temp then
            st ← unregister_seq st (im_seq_target temp);
            let l := delete k (req_list st) in
            let st := set_seq_current_count (seq_current_count st - 1) (set_req_list l st) in
            if Nat.ltb k (length l) then timeout_walk fuel expired st (S k)
            else if list_null st then None
            else timeout_walk fuel expired st 0
          else timeout_walk fuel expired st (S k)
      end
  end.

(** Enough turns for any walk: each removal restarts it at most once. *)
Definition walk_fuel (st : ipmb_state) : nat :=
  (S (length (req_list st)) * S (length (req_list st)))%nat.

(** One index of [IPMB_SeqTimeout_handler]. *)
Definition IPMB_SeqTimeout_pass (lock_ok enable_status : bool) (current_time tick_fix sys_tick_freq : Z)
    (st : ipmb_state) : option ipmb_state :=
  if negb enable_status then Some st
  else if negb lock_ok then Some st
  else timeout_walk (walk_fuel st) (req_expired current_time tick_fix sys_tick_freq) st 0.

(** ** Sending *)

(** [cfg0]: what the uninitialised local [req_cfg] holds. Result: the code, the
    state, the caller's message and what goes into the transmit queue. *)
Definition ipmb_send_request (queue_init mutex_init lock_ok put_ok : bool) (conf : IPMB_config)
    (cfg0 : ipmi_msg) (st : ipmb_state) (req : ipmi_msg)
    : option (ipmb_error * ipmb_state * ipmi_msg * option ipmi_msg_cfg) :=
  if negb queue_init then Some (IPMB_ERROR_UNKNOWN, st, req, None)
  else if negb mutex_init then Some (IPMB_ERROR_UNKNOWN, st, req, None)
  else if negb lock_ok then Some (IPMB_ERROR_MUTEX_LOCK, st, req, None)
  else
    data ← mem_read (im_data req) 0 (im_data_len req);
    data ← mem_write (im_data cfg0) 0 data;
    let m := set_im_completion_code (im_completion_code req)
      (set_im_InF_target (im_InF_target req) (set_im_InF_source (im_InF_source req)
        (set_im_data_len (im_data_len req) (set_im_cmd (im_cmd req)
          (set_im_netfn (im_netfn req) (set_im_data data cfg0)))))) in
    let m := set_im_src_addr (u8 (cf_self_address conf .<< 1)) (set_im_dest_LUN 0
      (set_im_dest_addr (cf_channel_target_address conf) m)) in
    let '(seq, st) := get_free_seq st in
    let req := set_im_seq seq req in
    let m := set_im_pldm_inst_id (im_pldm_inst_id req) (set_im_src_LUN 0
      (set_im_seq_source (im_seq_source req) (set_im_seq seq m))) in
    if put_ok then Some (IPMB_ERROR_SUCCESS, st, req, Some (mk_msg_cfg m 0))
    else Some (IPMB_ERROR_FAILURE, st, req, None).

Definition ipmb_send_response (queue_init mutex_init lock_ok put_ok : bool) (conf : IPMB_config)
    (cfg0 resp : ipmi_msg) : option (ipmb_error * option ipmi_msg_cfg) :=
  if negb queue_init then Some (IPMB_ERROR_UNKNOWN, None)
  else if negb mutex_init then Some (IPMB_ERROR_UNKNOWN, None)
  else if negb lock_ok then Some (IPMB_ERROR_MUTEX_LOCK, None)
  else
    data ← mem_read (im_data resp) 0 (im_data_len resp);
    data ← mem_write (im_data cfg0) 0 data;
    let m := set_im_completion_code (im_completion_code resp)
      (set_im_InF_target (im_InF_target resp) (set_im_InF_source (im_InF_source resp)
        (set_im_data_len (im_data_len resp) (set_im_cmd (im_cmd resp) (set_im_data data cfg0))))) in
    let m := set_im_netfn (u8 (im_netfn resp + 1))
      (set_im_dest_addr (cf_channel_target_address conf) m) in
    let m := set_im_seq (im_seq resp) (set_im_src_addr (u8 (cf_self_address conf .<< 1))
      (set_im_dest_LUN (im_src_LUN resp) m)) in
    let m := set_im_src_LUN (im_dest_LUN resp) (set_im_seq_source (im_seq resp) m) in
    if put_ok then Some (IPMB_ERROR_SUCCESS, Some (mk_msg_cfg m 0))
    else Some (IPMB_ERROR_FAILURE, None).

(** [ipmb_read]: [reply] is the message the receive queue delivers within three
    seconds, if any. *)
Definition ipmb_read (queue_init mutex_init read_lock lock_ok put_ok clear_lock : bool)
    (conf : IPMB_config) (cfg0 : ipmi_msg) (reply : option ipmi_msg)
    (st : ipmb_state) (msg : ipmi_msg)
    : option (ipmb_error * ipmb_state * ipmi_msg * option ipmi_msg_cfg) :=
  if negb queue_init then Some (IPMB_ERROR_UNKNOWN, st, msg, None)
  else if negb mutex_init then Some (IPMB_ERROR_UNKNOWN, st, msg, None)
  else if negb read_lock then Some (IPMB_ERROR_MUTEX_LOCK, st, msg, None)
  else
    '(ret, st, msg, queued) ← ipmb_send_request queue_init mutex_init lock_ok put_ok conf cfg0 st msg;
    match ret with
    | IPMB_ERROR_SUCCESS =>
        match reply with
        | Some m => Some (IPMB_ERROR_SUCCESS, st, m, queued)
        | None =>
            st ← clear_req_ipmi_msg clear_lock st msg;
            Some (IPMB_ERROR_GET_MESSAGE_QUEUE, st, msg, queued)
        end
    | _ => Some (IPMB_ERROR_FAILURE, st, msg, queued)
    end.

(** [ipmb_tx_suspend] and [ipmb_tx_resume], [in_range] being the index check. *)
Definition ipmb_tx_suspend (in_range : bool) (st : ipmb_state) : ipmb_state :=
  if in_range then set_ipmb_tx_disable true st else st.
Definition ipmb_tx_resume (in_range : bool) (st : ipmb_state) : ipmb_state :=
  if in_range then set_ipmb_tx_disable false st else st.

(** [create_ipmb_threads]: the state of the index it sets up. *)
Definition create_ipmb_state : ipmb_state :=
  mk_ipmb_state (replicate 64 false) 0 [] false 0 false.

(** ** Lemmas: sequence numbers *)

Lemma mask64 x : x .& 0x3f = x mod 64.
Proof. change 0x3f with (Z.ones 6). by rewrite Z.land_ones by lia. Qed.

Lemma free_seq_loop_spec n st cur :
  let r := free_seq_loop n st cur in
  (exists k, 1 <= k <= Z.of_nat n /\ r = (cur + k) mod 64 /\ seq_used st r = false /\
     forall j, 1 <= j < k -> seq_used st ((cur + j) mod 64) = true) \/
  (forall j, 1 <= j <= Z.of_nat n -> seq_used st ((cur + j) mod 64) = true) /\
    (n <> O -> r = (cur + Z.of_nat n) mod 64).
Proof.
  revert cur. induction n as [|n IH]; intros cur; cbn [free_seq_loop]; cbv zeta.
  - right. split; [lia|done].
  - rewrite mask64. destruct (seq_used st ((cur + 1) mod 64)) eqn:E; cbn [negb].
    + assert (Hsh : forall k, ((cur + 1) mod 64 + k) mod 64 = (cur + (k + 1)) mod 64).
      { intros k. rewrite Zplus_mod_idemp_l. f_equal. lia. }
      destruct (IH ((cur + 1) mod 64)) as [(k & Hk & Hr & Hu & Hj)|[Hall Hr]].
      * left. exists (k + 1). rewrite Hsh in Hr. split; [lia|]. split; [done|]. split; [done|].
        intros j Hj'. destruct (Z.eq_dec j 1) as [->|]; [done|].
        specialize (Hj (j - 1) ltac:(lia)). rewrite Hsh in Hj.
        by replace (j - 1 + 1) with j in Hj by lia.
      * right. split.
        { intros j Hj'. destruct (Z.eq_dec j 1) as [->|]; [done|].
          specialize (Hall (j - 1) ltac:(lia)). rewrite Hsh in Hall.
          by replace (j - 1 + 1) with j in Hall by lia. }
        intros _. destruct n as [|n]; [simpl; f_equal; lia|].
        rewrite Hr by done. rewrite Hsh. f_equal. lia.
    + left. exists 1. split; [lia|]. split; [done|]. split; [done|]. lia.
Qed.

Lemma get_free_seq_range st :
  exists seq, get_free_seq st = (seq, set_current_seq seq st) /\ 0 <= seq < 64.
Proof.
  unfold get_free_seq, SEQ_NUM.
  pose proof (free_seq_loop_spec (Z.to_nat 64) st (current_seq st)) as H. cbv zeta in H.
  generalize dependent (free_seq_loop (Z.to_nat 64) st (current_seq st)). intros r H.
  exists r. split; [done|].
  destruct H as [(k & _ & -> & _)|[_ H]]; [apply Z.mod_pos_bound; lia|].
  rewrite H by done. apply Z.mod_pos_bound; lia.
Qed.

(** ** Lemmas: the list of pending requests *)

(** What the operations keep: the table has its 64 entries, the list is closed and
    counted, and no longer than its bound; recorded numbers fit the table. *)
Record ipmb_wf (st : ipmb_state) : Prop := {
  wf_table : length (seq_table st) = 64%nat;
  wf_closed : list_null st = false;
  wf_count : seq_current_count st = zlen (req_list st);
  wf_bound : zlen (req_list st) <= MAX_SEQ_QUENE;
  wf_seqs : Forall (fun m => 0 <= im_seq_target m < SEQ_NUM) (req_list st) }.

Lemma write_seq_ok st n b :
  0 <= n < SEQ_NUM ->
  write_seq st n b = Some (set_seq_table (<[Z.to_nat n := b]> (seq_table st)) st).
Proof.
  intros H. unfold write_seq. destruct (Z.leb_spec 0 n); [|lia].
  by destruct (Z.ltb_spec n SEQ_NUM); [|lia].
Qed.

Lemma seq_used_write st n b k :
  length (seq_table st) = 64%nat -> 0 <= n < 64 -> 0 <= k ->
  seq_used (set_seq_table (<[Z.to_nat n := b]> (seq_table st)) st) k =
    if n =? k then b else seq_used st k.
Proof.
  intros Hl Hn Hk. unfold seq_used, set_seq_table. cbn [seq_table].
  destruct (Z.eqb_spec n k) as [->|].
  - rewrite list_lookup_insert_eq by lia. done.
  - rewrite list_lookup_insert_ne by lia. done.
Qed.

Lemma unlink_spec test l :
  match unlink test l with
  | Some (m, rest) => exists pre post, l = pre ++ m :: post /\ rest = pre ++ post /\
      test m = true /\ Forall (fun v => test v = false) pre
  | None => Forall (fun v => test v = false) l
  end.
Proof.
  induction l as [|v l IH]; simpl; [done|]. destruct (test v) eqn:E.
  - by exists [], l.
  - destruct (unlink test l) as [[m rest]|]; simpl; [|by constructor].
    destruct IH as (pre & post & -> & -> & Hw & Hp). exists (v :: pre), post.
    split_and!; try done. by constructor.
Qed.

(** Removing one recorded request, wherever it is. *)
Lemma ipmb_wf_remove st pre m post st' :
  ipmb_wf st -> req_list st = pre ++ m :: post ->
  st' = set_seq_current_count (seq_current_count st - 1) (set_req_list (pre ++ post)
          (set_seq_table (<[Z.to_nat (im_seq_target m) := false]> (seq_table st)) st)) ->
  ipmb_wf st'.
Proof.
  intros [H1 H2 H3 H4 H5] E ->. rewrite E in *.
  rewrite zlen_app, zlen_cons in *.
  apply Forall_app in H5 as [? [? ?]%Forall_cons].
  split; cbn [set_seq_current_count set_req_list set_seq_table seq_table list_null
    seq_current_count req_list]; rewrite ?length_insert, ?zlen_app; try done; try lia.
  by apply Forall_app.
Qed.

Lemma insert_wf lock_ok now st msg :
  ipmb_wf st -> 0 <= im_seq_target msg < SEQ_NUM ->
  exists st' msg', insert_req_ipmi_msg lock_ok true now st msg = Some (st', msg') /\ ipmb_wf st'.
Proof.
  intros Hwf Hs. unfold insert_req_ipmi_msg. destruct lock_ok; cbn [negb]; [|by eauto].
  pose proof Hwf as [H1 H2 H3 H4 H5].
  assert (Hcore : forall st1, ipmb_wf st1 -> zlen (req_list st1) < MAX_SEQ_QUENE ->
    exists st' msg', (if list_null st1 then Some (st1, msg) else if negb true then
        Some (set_list_null true st1, msg) else
        st ← register_seq st1 (im_seq_target (set_im_timestamp now msg));
        Some (set_seq_current_count (seq_current_count st + 1)
                (set_req_list (req_list st ++ [set_im_timestamp now msg]) st),
              set_im_timestamp now msg)) = Some (st', msg') /\ ipmb_wf st').
  { intros st1 [G1 G2 G3 G4 G5] Hlt. rewrite G2. cbn [negb]. unfold register_seq.
    change (im_seq_target (set_im_timestamp now msg)) with (im_seq_target msg).
    rewrite write_seq_ok by done. cbn [mbind option_bind]. eexists _, _. split; [done|].
    split; cbn [set_seq_current_count set_req_list set_seq_table seq_table list_null
      seq_current_count req_list]; rewrite ?length_insert, ?zlen_app; try done;
      try (change (zlen [set_im_timestamp now msg]) with 1; lia).
    apply Forall_app. split; [done|]. by constructor. }
  unfold MAX_SEQ_QUENE in *. destruct (Z.eqb_spec (seq_current_count st) 15) as [E|E].
  - destruct (req_list st) as [|m rest] eqn:El; [rewrite zlen_nil in H3; lia|].
    rewrite zlen_cons in *. cbn [mbind option_bind]. apply Hcore.
    + apply Forall_cons in H5 as [? ?].
      split; cbn [set_seq_current_count set_req_list seq_table list_null seq_current_count
        req_list]; try done; unfold MAX_SEQ_QUENE; lia.
    + cbn [set_seq_current_count set_req_list req_list]. lia.
  - cbn [mbind option_bind]. apply Hcore; [done|lia].
Qed.

Lemma find_wf lock_ok st msg :
  ipmb_wf st -> exists b st' msg', find_req_ipmi_msg lock_ok st msg = Some (b, st', msg') /\ ipmb_wf st'.
Proof.
  intros Hwf. unfold find_req_ipmi_msg. destruct lock_ok; cbn [negb]; [|by eauto 6].
  pose proof (unlink_spec (resp_match msg) (req_list st)) as H.
  destruct (unlink _ _) as [[m rest]|]; [|rewrite (wf_closed _ Hwf); by eauto 6].
  destruct H as (pre & post & E & -> & _). pose proof (wf_seqs _ Hwf) as Hs. rewrite E in Hs.
  apply Forall_app in Hs as [_ [Hm _]%Forall_cons].
  unfold unregister_seq. rewrite write_seq_ok by done. cbn [mbind option_bind].
  eexists _, _, _. split; [done|]. by eapply ipmb_wf_remove.
Qed.

Lemma clear_wf lock_ok st msg :
  ipmb_wf st -> exists st', clear_req_ipmi_msg lock_ok st msg = Some st' /\ ipmb_wf st'.
Proof.
  intros Hwf. unfold clear_req_ipmi_msg. destruct lock_ok; cbn [negb]; [|by eauto].
  pose proof (unlink_spec (req_match msg) (req_list st)) as H.
  destruct (unlink _ _) as [[m rest]|]; [|rewrite (wf_closed _ Hwf); by eauto].
  destruct H as (pre & post & E & -> & _). pose proof (wf_seqs _ Hwf) as Hs. rewrite E in Hs.
  apply Forall_app in Hs as [_ [Hm _]%Forall_cons].
  unfold unregister_seq. rewrite write_seq_ok by done. cbn [mbind option_bind].
  eexists. split; [done|]. by eapply ipmb_wf_remove.
Qed.

(** The turns a walk can still take: the rest of the list, and a full walk for every
    removal that leads back to the head. *)
Definition walk_measure (len k : nat) : nat := (len * S len + (S len - k))%nat.

Lemma timeout_walk_spec expired fuel st k :
  ipmb_wf st -> (k <= length (req_list st))%nat ->
  (walk_measure (length (req_list st)) k <= fuel)%nat ->
  exists st', timeout_walk fuel expired st k = Some st' /\ ipmb_wf st' /\
    sublist (req_list st') (req_list st) /\
    filter (fun m => expired m = false) (req_list st') =
      filter (fun m => expired m = false) (req_list st).
Proof.
  revert st k. induction fuel as [|fuel IH]; intros st k Hwf Hk Hf.
  - exfalso. unfold walk_measure in Hf. nia.
  - cbn [timeout_walk]. destruct (req_list st !! k) as [m|] eqn:El.
    2:{ rewrite (wf_closed _ Hwf). exists st. done. }
    pose proof (lookup_lt_Some _ _ _ El) as Hlt.
    destruct (expired m) eqn:Em.
    2:{ apply IH; [done|lia|]. unfold walk_measure in *. nia. }
    pose proof (wf_seqs _ Hwf) as Hs. rewrite Forall_lookup in Hs. specialize (Hs _ _ El).
    unfold unregister_seq. rewrite write_seq_ok by done. cbn [mbind option_bind].
    apply list_elem_of_split_length in El as (pre & post & E & Hpre).
    assert (Ed : delete k (req_list st) = pre ++ post).
    { rewrite E, Hpre. by rewrite delete_middle. }
    set (st1 := set_seq_current_count _ _).
    assert (Hwf1 : ipmb_wf st1).
    { eapply ipmb_wf_remove; [done|exact E|]. unfold st1.
      cbn [set_seq_table seq_current_count req_list]. by rewrite Ed. }
    assert (Hl1 : req_list st1 = pre ++ post) by (rewrite <- Ed; done).
    assert (Hlen : length (req_list st) = S (length (pre ++ post)))
      by (rewrite E, !length_app; simpl; lia).
    assert (Hsub : sublist (req_list st1) (req_list st)).
    { rewrite Hl1, E. apply sublist_app; [done|]. by constructor. }
    assert (Hfil : filter (fun m => expired m = false) (req_list st1)
      = filter (fun m => expired m = false) (req_list st)).
    { rewrite Hl1, E, !filter_app, (filter_cons_False _ m) by congruence. done. }
    cbn [set_seq_table req_list]. rewrite Ed.
    destruct (Nat.ltb_spec k (length (pre ++ post))) as [Hk2|Hk2].
    + destruct (IH st1 (S k)) as (st' & E' & Hw & Hs' & Hf'); [done|rewrite Hl1; lia| |].
      { rewrite Hl1. unfold walk_measure in *. nia. }
      exists st'. split; [exact E'|]. split; [done|]. split; [by etrans|congruence].
    + rewrite (wf_closed _ Hwf1 : list_null _ = false).
      destruct (IH st1 O) as (st' & E' & Hw & Hs' & Hf'); [done|lia| |].
      { rewrite Hl1. unfold walk_measure in *. nia. }
      exists st'. split; [exact E'|]. split; [done|]. split; [by etrans|congruence].
Qed.

(** ** Reachable states *)

(** The operations on one index, with allocations that succeed; recorded requests
    carry a sequence number that fits the table. *)
Inductive ipmb_op :=
  | OpInsert (lock_ok : bool) (now : Z) (msg : ipmi_msg)
  | OpFind (lock_ok : bool) (msg : ipmi_msg)
  | OpClear (lock_ok : bool) (msg : ipmi_msg)
  | OpTimeout (lock_ok : bool) (current_time tick_fix freq : Z)
  | OpSeq.

Definition op_ok (op : ipmb_op) : Prop :=
  match op with OpInsert _ _ msg => 0 <= im_seq_target msg < SEQ_NUM | _ => True end.

Definition run_op (st : ipmb_state) (op : ipmb_op) : option ipmb_state :=
  match op with
  | OpInsert l now msg => fst <$> insert_req_ipmi_msg l true now st msg
  | OpFind l msg => (fun r => snd (fst r)) <$> find_req_ipmi_msg l st msg
  | OpClear l msg => clear_req_ipmi_msg l st msg
  | OpTimeout l now fix_ freq => IPMB_SeqTimeout_pass l true now fix_ freq st
  | OpSeq => Some (snd (get_free_seq st))
  end.

Fixpoint run_ops (st : ipmb_state) (ops : list ipmb_op) : option ipmb_state :=
  match ops with [] => Some st | op :: ops => st ← run_op st op; run_ops st ops end.

Lemma walk_fuel_enough st : (walk_measure (length (req_list st)) 0 <= walk_fuel st)%nat.
Proof. unfold walk_measure, walk_fuel. nia. Qed.

Lemma run_op_wf st op : ipmb_wf st -> op_ok op -> exists st', run_op st op = Some st' /\ ipmb_wf st'.
Proof.
  intros Hwf Hop. destruct op as [l now msg|l msg|l msg|l now fx fr|]; simpl.
  - destruct (insert_wf l now st msg Hwf Hop) as (st' & m & -> & ?). by exists st'.
  - destruct (find_wf l st msg Hwf) as (b & st' & m & -> & ?). by exists st'.
  - by apply clear_wf.
  - unfold IPMB_SeqTimeout_pass. cbn [negb]. destruct l; cbn [negb]; [|by exists st].
    destruct (timeout_walk_spec (req_expired now fx fr) (walk_fuel st) st 0 Hwf)
      as (st' & E & Hw & _); [lia|apply walk_fuel_enough|]. by exists st'.
  - eexists. split; [done|]. unfold get_free_seq. destruct Hwf. by split.
Qed.

Lemma create_ipmb_wf : ipmb_wf create_ipmb_state.
Proof. split; try done. Qed.

Lemma run_ops_wf ops st :
  ipmb_wf st -> Forall op_ok ops -> exists st', run_ops st ops = Some st' /\ ipmb_wf st'.
Proof.
  revert st. induction ops as [|op ops IH]; intros st Hwf Hok; simpl; [by exists st|].
  apply Forall_cons in Hok as [Hop Hok].
  destruct (run_op_wf st op Hwf Hop) as (st1 & -> & Hw). by apply IH.
Qed.

(** ** Properties *)

(** C16: as long as allocations succeed, no sequence of recording, matching, clearing,
    expiring requests and drawing numbers, from the state an index is created in, ever
    dereferences a NULL node or leaves the sequence table; the list stays closed, counted
    exactly, and never holds more than 15 requests. *)
Theorem ipmb_list_safe ops :
  Forall op_ok ops -> exists st, run_ops create_ipmb_state ops = Some st /\ ipmb_wf st.
Proof. intros Hok. apply run_ops_wf; [apply create_ipmb_wf|done]. Qed.
Lemma ipmb_list_safe_witness :
  exists st, run_ops create_ipmb_state
    [OpSeq; OpInsert true 100 (set_im_seq_target 1 zero_ipmi_msg); OpFind true zero_ipmi_msg;
     OpTimeout true 9000 1 1000; OpClear true zero_ipmi_msg] = Some st /\ ipmb_wf st.
Proof.
  apply (ipmb_list_safe [OpSeq; OpInsert true 100 (set_im_seq_target 1 zero_ipmi_msg);
     OpFind true zero_ipmi_msg; OpTimeout true 9000 1 1000; OpClear true zero_ipmi_msg]).
  repeat constructor; simpl; unfold SEQ_NUM; lia.
Defined.

(** [get_free_seq] always returns, within 64 turns, a number of 0..63; it is not in
    use whenever any number is free, and is then the first free one after the last drawn
    number; with all 64 in use it returns the last drawn number again. *)
Theorem get_free_seq_spec st :
  0 <= current_seq st < 64 ->
  let '(seq, st') := get_free_seq st in
  0 <= seq < 64 /\ current_seq st' = seq /\ seq_table st' = seq_table st /\
  ((exists n, 0 <= n < 64 /\ seq_used st n = false) ->
     seq_used st seq = false /\
     exists k, 1 <= k <= 64 /\ seq = (current_seq st + k) mod 64 /\
       forall j, 1 <= j < k -> seq_used st ((current_seq st + j) mod 64) = true) /\
  ((forall n, 0 <= n < 64 -> seq_used st n = true) -> seq = current_seq st).
Proof.
  intros Hc. unfold get_free_seq. unfold SEQ_NUM.
  pose proof (free_seq_loop_spec (Z.to_nat 64) st (current_seq st)) as H. cbv zeta in H.
  set (r := free_seq_loop _ _ _) in *. cbn [current_seq set_current_seq seq_table].
  change (Z.of_nat (Z.to_nat 64)) with 64 in H.
  destruct H as [(k & Hk & Hr & Hu & Hj)|[Hall Hr]].
  - split; [rewrite Hr; apply Z.mod_pos_bound; lia|]. split; [done|]. split; [done|].
    split; [intros _; split; [done|by exists k]|].
    intros Hall. exfalso. rewrite Hall in Hu; [done|]. rewrite Hr. apply Z.mod_pos_bound. lia.
  - specialize (Hr ltac:(done)).
    assert (Er : r = current_seq st).
    { rewrite Hr. rewrite <- (Z.mod_small (current_seq st) 64) at 2 by lia.
      replace (current_seq st + 64) with (current_seq st + 1 * 64) by lia. by apply Z.mod_add. }
    split; [lia|]. split; [done|]. split; [done|]. split; [|done].
    intros (n & Hn & Hu). exfalso.
    specialize (Hall ((n - current_seq st - 1) mod 64 + 1)).
    pose proof (Z.mod_pos_bound (n - current_seq st - 1) 64 ltac:(lia)).
    replace (current_seq st + ((n - current_seq st - 1) mod 64 + 1))
      with (current_seq st + 1 + (n - current_seq st - 1) mod 64) in Hall by lia.
    rewrite Zplus_mod_idemp_r in Hall.
    replace (current_seq st + 1 + (n - current_seq st - 1)) with n in Hall by lia.
    rewrite (Z.mod_small n) in Hall by lia. rewrite Hall in Hu; [done|lia].
Qed.
Lemma get_free_seq_spec_witness :
  0 <= fst (get_free_seq create_ipmb_state) < 64.
Proof. apply (get_free_seq_spec create_ipmb_state). simpl. lia. Defined.

(** The timeout pass over an index always ends; it removes only expired requests and
    keeps all others, in order, with their sequence numbers still marked. *)
Theorem seq_timeout_pass_keeps st now fx fr :
  ipmb_wf st ->
  exists st', IPMB_SeqTimeout_pass true true now fx fr st = Some st' /\ ipmb_wf st' /\
    sublist (req_list st') (req_list st) /\
    filter (fun m => req_expired now fx fr m = false) (req_list st') =
      filter (fun m => req_expired now fx fr m = false) (req_list st).
Proof.
  intros Hwf. unfold IPMB_SeqTimeout_pass. cbn [negb].
  apply timeout_walk_spec; [done|lia|apply walk_fuel_enough].
Qed.
Lemma seq_timeout_pass_keeps_witness :
  exists st', IPMB_SeqTimeout_pass true true 9000 1 1000 create_ipmb_state = Some st' /\ ipmb_wf st'.
Proof.
  destruct (seq_timeout_pass_keeps create_ipmb_state 9000 1 1000) as (st' & E & H & _).
  - split; try reflexivity; [unfold MAX_SEQ_QUENE; vm_compute; congruence|constructor].
  - exists st'. split; [exact E|exact H].
Defined.

(** A pass skips the node after each one it removes: of two expired requests in a
    row that are followed by live ones, the second stays until a later pass. *)
Theorem seq_timeout_skips st now fx fr e1 e2 m rest :
  ipmb_wf st -> req_list st = e1 :: e2 :: m :: rest ->
  req_expired now fx fr e1 = true -> req_expired now fx fr e2 = true ->
  Forall (fun m => req_expired now fx fr m = false) (m :: rest) ->
  exists st', IPMB_SeqTimeout_pass true true now fx fr st = Some st' /\
    req_list st' = e2 :: m :: rest.
Proof.
  intros Hwf E H1 H2 Hr. unfold IPMB_SeqTimeout_pass. cbn [negb].
  pose proof (wf_seqs _ Hwf) as Hs. rewrite E in Hs. apply Forall_cons in Hs as [Hs _].
  assert (Hfuel : exists f, walk_fuel st = S (S (S (S (length rest))) + f)%nat).
  { unfold walk_fuel. rewrite E. simpl length. eexists (_ - _)%nat.
    symmetry. rewrite <- plus_Sn_m. rewrite Nat.add_comm. apply Nat.sub_add. nia. }
  destruct Hfuel as [f ->]. cbn [timeout_walk]. rewrite E. simpl lookup. cbv iota. rewrite H1.
  unfold unregister_seq. rewrite write_seq_ok by done. cbn [mbind option_bind].
  cbn [set_seq_table req_list]. rewrite E. simpl delete. simpl Nat.ltb.
  set (st1 := set_seq_current_count _ _).
  assert (E1 : req_list st1 = e2 :: m :: rest) by done.
  assert (En : list_null st1 = false) by apply Hwf. clearbody st1.
  assert (Hw : forall f k, (1 <= k <= S (S (length rest)))%nat ->
    (S (S (length rest)) - k < f)%nat ->
    timeout_walk f (req_expired now fx fr) st1 k = Some st1).
  { induction f0 as [|f0 IH]; intros k Hk Hf; [lia|]. cbn [timeout_walk]. rewrite E1.
    destruct ((e2 :: m :: rest) !! k) as [x|] eqn:Ex.
    - assert (Hx : req_expired now fx fr x = false).
      { destruct k as [|k]; [lia|]. simpl in Ex. eapply Forall_lookup_1 in Hr; [|exact Ex]. done. }
      rewrite Hx. apply lookup_lt_Some in Ex. simpl in Ex. apply IH; lia.
    - by rewrite En. }
  exists st1. split; [|done]. apply Hw; lia.
Qed.
Lemma seq_timeout_skips_witness :
  exists st', IPMB_SeqTimeout_pass true true 9000 0 1000
      (mk_ipmb_state (replicate 64 true) 3
        [set_im_seq_target 1 zero_ipmi_msg; set_im_seq_target 2 zero_ipmi_msg;
         set_im_timestamp 8999 (set_im_seq_target 3 zero_ipmi_msg)] false 3 false) = Some st' /\
    req_list st' = [set_im_seq_target 2 zero_ipmi_msg;
                    set_im_timestamp 8999 (set_im_seq_target 3 zero_ipmi_msg)].
Proof.
  eapply (seq_timeout_skips _ 9000 0 1000 (set_im_seq_target 1 zero_ipmi_msg)
    (set_im_seq_target 2 zero_ipmi_msg)
    (set_im_timestamp 8999 (set_im_seq_target 3 zero_ipmi_msg)) []); try reflexivity.
  - split; try reflexivity; [unfold MAX_SEQ_QUENE; vm_compute; congruence|].
    repeat constructor; unfold SEQ_NUM; simpl; lia.
  - repeat constructor.
Defined.

(** C18: a request that [ipmb_send_request] queued and the transmit task recorded is found
    by the response to it: if no older pending request has the same network function,
    command and number, the response gets the request's source sequence number, source
    and target interfaces and PLDM instance id, and the request leaves the list with its
    number free again. *)
Theorem ipmb_request_response st conf cfg0 req now st1 req1 cfg st2 m resp :
  ipmb_wf st -> 0 <= current_seq st < 64 -> im_netfn req .& Z.lnot 1 = im_netfn req ->
  zlen (req_list st) < MAX_SEQ_QUENE ->
  ipmb_send_request true true true true conf cfg0 st req
    = Some (IPMB_ERROR_SUCCESS, st1, req1, Some cfg) ->
  insert_req_ipmi_msg true true now st1 (set_im_seq_target (im_seq (cfg_buffer cfg)) (cfg_buffer cfg))
    = Some (st2, m) ->
  im_netfn resp .& Z.lnot 1 = im_netfn req -> im_cmd resp = im_cmd req ->
  im_seq_target resp = im_seq req1 ->
  Forall (fun v => resp_match resp v = false) (req_list st) ->
  exists st3 resp', find_req_ipmi_msg true st2 resp = Some (true, st3, resp') /\
    im_seq_source resp' = im_seq_source req /\ im_InF_source resp' = im_InF_source req /\
    im_InF_target resp' = im_InF_target req /\ im_pldm_inst_id resp' = im_pldm_inst_id req /\
    req_list st3 = req_list st /\ seq_used st3 (im_seq req1) = false.
Proof.
  intros Hwf Hc Hn Hroom Hsend Hins Hrn Hrc Hrs Hold.
  unfold ipmb_send_request in Hsend. cbn [negb] in Hsend.
  destruct (mem_read _ _ _) as [d|]; [|done]. cbn [mbind option_bind] in Hsend.
  destruct (mem_write _ _ _) as [d'|]; [|done]. cbn [mbind option_bind] in Hsend.
  destruct (get_free_seq_range st) as (seq & Eg & Hseq). rewrite Eg in Hsend. clear Eg.
  injection Hsend as <- <- <-.
  unfold insert_req_ipmi_msg in Hins. cbn [negb] in Hins.
  pose proof Hwf as [H1 H2 H3 H4 H5].
  change (seq_current_count (set_current_seq seq st)) with (seq_current_count st) in Hins.
  destruct (Z.eqb_spec (seq_current_count st) MAX_SEQ_QUENE); [lia|].
  cbn [mbind option_bind] in Hins.
  change (list_null (set_current_seq seq st)) with (list_null st) in Hins. rewrite H2 in Hins.
  cbn [cfg_buffer] in Hins. unfold register_seq in Hins.
  rewrite write_seq_ok in Hins by (cbn; unfold SEQ_NUM; lia). cbn [mbind option_bind] in Hins.
  injection Hins as <- <-.
  unfold find_req_ipmi_msg. cbn [negb].
  set (node := set_im_timestamp now _). set (st2 := set_seq_current_count _ _).
  assert (El : req_list st2 = req_list st ++ [node]) by done.
  assert (Em : resp_match resp node = true).
  { unfold resp_match. change (im_netfn node) with (im_netfn req). change (im_cmd node) with (im_cmd req).
    change (im_seq_target node) with seq. rewrite Hrn, Hrc, Hrs.
    change (im_seq (set_im_seq seq req)) with seq. by rewrite !Z.eqb_refl. }
  assert (Eu : unlink (resp_match resp) (req_list st ++ [node]) = Some (node, req_list st)).
  { clear -Hold Em. induction Hold as [|v l Hv Hl IH]; simpl; [by rewrite Em|].
    by rewrite Hv, IH. }
  rewrite El, Eu. unfold unregister_seq.
  change (im_seq_target node) with seq.
  rewrite write_seq_ok by (unfold SEQ_NUM; lia). cbn [mbind option_bind].
  eexists _, _. split; [done|]. split_and!; try done.
  change (im_seq (set_im_seq seq req)) with seq. unfold seq_used.
  cbn [seq_table set_seq_current_count set_req_list set_seq_table].
  unfold st2. cbn [seq_table set_seq_current_count set_req_list set_seq_table set_current_seq].
  rewrite list_lookup_insert_eq; [done|]. rewrite length_insert. lia.
Qed.
Lemma ipmb_request_response_witness :
  exists st2 st3 resp', find_req_ipmi_msg true st2
      (set_im_netfn 7 (set_im_seq_target 1 zero_ipmi_msg)) = Some (true, st3, resp') /\
    im_InF_source resp' = 2.
Proof.
  set (req := set_im_netfn 6 (set_im_InF_source 2 zero_ipmi_msg)).
  set (conf := mk_ipmb_config 0 0 4 1 0x20 true 0x10).
  eexists. 
  edestruct (ipmb_request_response create_ipmb_state conf zero_ipmi_msg req 100)
    as (st3 & resp' & H1 & _ & H2 & _).
  - split; try reflexivity; [unfold MAX_SEQ_QUENE; vm_compute; congruence|constructor].
  - simpl. lia.
  - reflexivity.
  - reflexivity.
  - vm_compute. reflexivity.
  - vm_compute. reflexivity.
  - instantiate (1 := set_im_netfn 7 (set_im_seq_target 1 zero_ipmi_msg)). reflexivity.
  - reflexivity.
  - reflexivity.
  - constructor.
  - exists st3, resp'. split; [exact H1|exact H2].
Defined.

(** When the list is full, recording a request drops the oldest one without giving
    its sequence number back: the number stays marked as used although no pending
    request has it. *)
Theorem ipmb_evict_leaks st m rest now msg st' msg' :
  ipmb_wf st -> req_list st = m :: rest -> zlen (req_list st) = MAX_SEQ_QUENE ->
  seq_used st (im_seq_target m) = true ->
  Forall (fun v => im_seq_target v <> im_seq_target m) (rest ++ [msg]) ->
  0 <= im_seq_target msg < SEQ_NUM ->
  insert_req_ipmi_msg true true now st msg = Some (st', msg') ->
  seq_used st' (im_seq_target m) = true /\
  Forall (fun v => im_seq_target v <> im_seq_target m) (req_list st').
Proof.
  intros Hwf E Hfull Hu Hne Hs H. unfold insert_req_ipmi_msg in H. cbn [negb] in H.
  pose proof Hwf as [H1 H2 H3 H4 H5]. rewrite H3, Hfull, Z.eqb_refl, E in H.
  cbn [mbind option_bind set_seq_current_count set_req_list list_null] in H. rewrite H2 in H.
  unfold register_seq in H. rewrite write_seq_ok in H by done. cbn [mbind option_bind] in H.
  injection H as <- <-. rewrite E in H5. apply Forall_cons in H5 as [Hm _].
  apply Forall_app in Hne as [Hr [Hmsg _]%Forall_cons]. unfold SEQ_NUM in *. split.
  - unfold seq_used in *. cbn [seq_table set_seq_current_count set_req_list set_seq_table].
    change (im_seq_target (set_im_timestamp now msg)) with (im_seq_target msg).
    rewrite list_lookup_insert_ne by lia. done.
  - cbn [req_list set_seq_current_count set_req_list set_seq_table].
    apply Forall_app. split; [done|]. by constructor.
Qed.
Lemma ipmb_evict_leaks_witness :
  exists st', seq_used st' 1 = true /\
    Forall (fun v => im_seq_target v <> 1) (req_list st').
Proof.
  set (l := (fun k => set_im_seq_target k zero_ipmi_msg) <$> seqZ 1 15).
  set (st := mk_ipmb_state (replicate 64 true) 15 l false 15 false).
  eexists.
  eapply (ipmb_evict_leaks st (set_im_seq_target 1 zero_ipmi_msg)
    (tl l) 100 (set_im_seq_target 16 zero_ipmi_msg)).
  - split; try reflexivity.
    repeat constructor; unfold SEQ_NUM; simpl; lia.
  - reflexivity.
  - reflexivity.
  - reflexivity.
  - repeat constructor; simpl; lia.
  - unfold SEQ_NUM; simpl; lia.
  - vm_compute. reflexivity.
Defined.

(** One failed allocation while a request is recorded leaves the list ending in
    NULL; the next response that matches no pending request then dereferences NULL. *)
Theorem ipmb_insert_failure_breaks st msg now resp :
  ipmb_wf st -> zlen (req_list st) < MAX_SEQ_QUENE ->
  Forall (fun v => resp_match resp v = false) (req_list st) ->
  exists st', insert_req_ipmi_msg true false now st msg = Some (st', msg) /\
    find_req_ipmi_msg true st' resp = None.
Proof.
  intros Hwf Hlt Hno. pose proof Hwf as [H1 H2 H3 H4 H5].
  unfold insert_req_ipmi_msg. cbn [negb].
  destruct (Z.eqb_spec (seq_current_count st) MAX_SEQ_QUENE); [lia|].
  cbn [mbind option_bind]. rewrite H2. eexists. split; [done|].
  unfold find_req_ipmi_msg. cbn [negb set_list_null req_list list_null].
  pose proof (unlink_spec (resp_match resp) (req_list st)) as Hu.
  destruct (unlink _ _) as [[m rest]|]; [|done].
  destruct Hu as (pre & post & E & _ & Hm & _). rewrite E in Hno.
  apply Forall_app in Hno as [_ [Hm' _]%Forall_cons]. congruence.
Qed.
Lemma ipmb_insert_failure_breaks_witness :
  exists st', insert_req_ipmi_msg true false 5 create_ipmb_state zero_ipmi_msg
      = Some (st', zero_ipmi_msg) /\ find_req_ipmi_msg true st' zero_ipmi_msg = None.
Proof.
  apply (ipmb_insert_failure_breaks create_ipmb_state zero_ipmi_msg 5 zero_ipmi_msg).
  - split; try reflexivity; [unfold MAX_SEQ_QUENE; vm_compute; congruence|constructor].
  - reflexivity.
  - constructor.
Defined.
