(* ===== verification/IpmbTask.v ===== *)
(** Component [common/service/ipmb/ipmb.c], the transmit and receive tasks of one
    IPMB index: one turn of each task as a function from the index's state to the
    new state and the actions it performs. Results of allocations, of the I2C
    driver and of platform hooks are arguments; uninitialised memory
    ([malloc]ed messages and buffers) is whatever the argument holds. *)

From S2P Require Import Prelude Bytes IpmiMsg IpmbCodec IpmbSeq.

(** ** Constants *)

Definition I2C_IF : Z := 0.
Definition SELF : Z := 0x0.
Definition ME_IPMB : Z := 0x01.
Definition BMC_IPMB : Z := 0x02.
Definition PLDM : Z := 0x40.
Definition MCTP : Z := 0x41.
Definition MPRO_PLDM : Z := 0x42.
Definition HOST_KCS_1 : Z := 0x50.
Definition KCS_BUFF_SIZE : Z := 256.
Definition IPMB_TX_RETRY_TIME : Z := 5.
Definition I2C_BUFF_SIZE : Z := 256.
Definition NETFN_OEM_1S_REQ : Z := 0x38.
Definition CMD_OEM_1S_MSG_OUT : Z := 0x2.
Definition CC_SUCCESS : Z := 0x00.
Definition CC_NODE_BUSY : Z := 0xC0.
Definition CC_TIMEOUT : Z := 0xC3.
Definition CC_CAN_NOT_RESPOND : Z := 0xCE.
Definition IANA_ID : Z := 0x00A015.

(** ** Actions *)

Inductive ipmb_event :=
  | EvI2cWrite (bus addr : Z) (data : list Z) (** [i2c_master_write] *)
  | EvRequeue (cfg : ipmi_msg_cfg) (** put back into the transmit queue *)
  | EvPldmResponse (interface : Z) (msg : ipmi_msg) (** [pldm_send_ipmi_response] *)
  | EvPldmRequest (msg : ipmi_msg) (** [pldm_send_ipmi_request] *)
  | EvSendResponse (index : Z) (msg : ipmi_msg) (** [ipmb_send_response] *)
  | EvSendRequest (index : Z) (msg : ipmi_msg) (** [ipmb_send_request] *)
  | EvKcsWrite (channel : Z) (data : list Z) (** [kcs_write] *)
  | EvMproResponse (msg : ipmi_msg) (** [pldm_send_ipmb_rsp] *)
  | EvRxQueue (index : Z) (msg : ipmi_msg) (** put into [ipmb_rxqueue] *)
  | EvNotify (msg : ipmi_msg) (** [notify_ipmi_client] *).

(** Build options and platform hooks. *)
Record ipmb_platform := mk_platform {
  enable_kcs : bool; (* CONFIG_IPMI_KCS_ASPEED *)
  enable_mpro : bool; (* ENABLE_MPRO *)
  oem_netfn_shift : bool; (* ENABLE_OEM_BRIDGE_NETFN_SHIFT *)
  pal_immediate_respond_from_HOST : Z -> Z -> bool;
  pal_request_msg_to_BIC_from_ME : Z -> Z -> bool;
  pal_is_interface_use_ipmb : Z -> bool;
  pal_pldm_request : ipmi_msg -> ipmi_msg (* the message after pldm_send_ipmi_request *) }.

(** [IPMB_inf_index_map[channel]]; [None] outside the map. *)
Definition inf_index (map : list Z) (channel : Z) : option Z := map !! Z.to_nat channel.

(** The message a KCS channel is given: netfn, command, completion code, data. *)
Definition kcs_message (msg : ipmi_msg) : option (list Z) :=
  let kcs_buff := zeros KCS_BUFF_SIZE in
  kcs_buff ← mem_write kcs_buff 0 [u8 (im_netfn msg .<< 2); im_cmd msg; im_completion_code msg];
  data ← mem_read (im_data msg) 0 (im_data_len msg);
  kcs_buff ← mem_write kcs_buff 3 data;
  mem_read kcs_buff 0 (im_data_len msg + 3).

Definition is_kcs (source : Z) : bool := source .& 0xF0 =? HOST_KCS_1.

(** [pal_encode_response_bridge_cmd]; [channel] is the channel of the receiving
    index in the configuration table. *)
Definition pal_encode_response_bridge_cmd (pf : ipmb_platform) (channel : Z)
    (bridge_msg rx : ipmi_msg) : option ipmi_msg :=
  let netfn := if oem_netfn_shift pf then u8 (im_netfn rx .<< 2) else im_netfn rx in
  d ← mem_write (im_data bridge_msg) 0
        [IANA_ID .& 0xFF; (IANA_ID .>> 8) .& 0xFF; (IANA_ID .>> 16) .& 0xFF; channel;
         netfn; im_cmd rx; im_completion_code rx];
  data ← mem_read (im_data rx) 0 (im_data_len rx);
  d ← mem_write d 7 data;
  Some (set_im_seq (im_seq_source rx) (set_im_completion_code CC_SUCCESS
    (set_im_cmd CMD_OEM_1S_MSG_OUT (set_im_netfn NETFN_OEM_1S_REQ
      (set_im_data_len (u16 (im_data_len rx + 7)) (set_im_data d bridge_msg)))))).

(** ** Transmit task *)

(** The I2C write of [tx_size] bytes of the encoded buffer after the address. *)
Definition i2c_frame (buf : list Z) (tx_size : Z) : option (list Z) :=
  data ← mem_read buf 1 tx_size;
  i2c_data ← mem_write (zeros I2C_BUFF_SIZE) 0 data;
  mem_read i2c_data 0 tx_size.

(** A response message. [buf0]: the stack buffer before encoding; [alloc]: one of
    the tries to allocate the I2C message succeeded; [ret]: the driver's result. *)
Definition tx_response (conf : IPMB_config) (buf0 : list Z) (alloc : bool) (ret : Z)
    (cfg : ipmi_msg_cfg) : option (list ipmb_event) :=
  if IPMB_TX_RETRY_TIME <? cfg_retries cfg then Some []
  else
    let msg := set_im_dest_addr (cf_channel_target_address conf) (cfg_buffer cfg) in
    buf ← ipmb_encode buf0 msg;
    let resp_tx_size := u8 (im_data_len msg + IPMB_RESP_HEADER_LENGTH) in
    if negb (cf_interface conf =? I2C_IF) then Some []
    else if negb alloc then Some []
    else
      data ← i2c_frame buf resp_tx_size;
      let ev := EvI2cWrite (cf_bus conf) (cf_channel_target_address conf) data in
      if negb (ret =? 0) then Some [ev; EvRequeue (mk_msg_cfg msg (u8 (cfg_retries cfg + 1)))]
      else Some [ev].

(** What is told to the source of a request that could not be sent. [kcs_alloc]: the
    KCS buffer was allocated. *)
Definition tx_give_up (pf : ipmb_platform) (map : list Z) (kcs_alloc : bool) (msg : ipmi_msg)
    : option (list ipmb_event) :=
  let source := im_InF_source msg in
  if source =? RESERVED then Some []
  else if source =? SELF then Some []
  else if source =? MPRO_PLDM then Some []
  else if is_kcs source then
    if enable_kcs pf && kcs_alloc then
      let msg := set_im_completion_code CC_CAN_NOT_RESPOND msg in
      data ← kcs_message msg;
      Some [EvKcsWrite (source - HOST_KCS_1) data]
    else Some []
  else
    let msg := set_im_completion_code CC_NODE_BUSY (set_im_cmd CMD_OEM_1S_MSG_OUT
      (set_im_netfn NETFN_OEM_1S_REQ (set_im_data_len 0 msg))) in
    if (source =? PLDM) || (source =? MCTP) then Some [EvPldmResponse source msg]
    else
      index ← inf_index map source;
      Some [EvSendResponse index msg].

(** A request message. *)
Definition tx_request (pf : ipmb_platform) (map : list Z) (conf : IPMB_config)
    (buf0 : list Z) (alloc lock1 node_ok lock2 kcs_alloc : bool) (now ret : Z)
    (st : ipmb_state) (cfg : ipmi_msg_cfg) : option (ipmb_state * list ipmb_event) :=
  let msg := cfg_buffer cfg in
  buf ← ipmb_encode buf0 msg;
  let req_tx_size := u8 (im_data_len msg + IPMB_REQ_HEADER_LENGTH) in
  if negb (cf_interface conf =? I2C_IF) then Some (st, [])
  else if negb alloc then Some (st, [])
  else
    data ← i2c_frame buf req_tx_size;
    let msg := set_im_seq_target (im_seq msg) msg in
    '(st, msg) ← insert_req_ipmi_msg lock1 node_ok now st msg;
    let ev := EvI2cWrite (cf_bus conf) (cf_channel_target_address conf) data in
    if negb (ret =? 0) then
      '(_, st, msg) ← find_req_ipmi_msg lock2 st msg;
      let retries := u8 (cfg_retries cfg + 1) in
      if IPMB_TX_RETRY_TIME <? retries then
        evs ← tx_give_up pf map kcs_alloc msg;
        Some (st, ev :: evs)
      else Some (st, [ev; EvRequeue (mk_msg_cfg msg retries)])
    else Some (st, [ev]).

(** One turn of [IPMB_TXTask] on a message taken from the queue. *)
Definition IPMB_TXTask (pf : ipmb_platform) (map : list Z) (conf : IPMB_config)
    (buf0 : list Z) (alloc lock1 node_ok lock2 kcs_alloc : bool) (now ret : Z)
    (st : ipmb_state) (cfg : ipmi_msg_cfg) : option (ipmb_state * list ipmb_event) :=
  if ipmb_tx_disable st then Some (st, [])
  else if IS_RESPONSE (cfg_buffer cfg) then
    evs ← tx_response conf buf0 alloc ret cfg; Some (st, evs)
  else tx_request pf map conf buf0 alloc lock1 node_ok lock2 kcs_alloc now ret st cfg.

(** ** Receive task *)

(** The bridged answer to the management engine. *)
Definition me_bridge_msg (rx : ipmi_msg) : option ipmi_msg :=
  data ← mem_read (im_data rx) 0 (im_data_len rx);
  d ← mem_write (im_data zero_ipmi_msg) 0 data;
  Some (set_im_data d (set_im_data_len (im_data_len rx) (set_im_seq (im_seq_source rx)
    (set_im_completion_code (im_completion_code rx) (set_im_cmd (im_cmd rx)
      (set_im_netfn (u8 (im_netfn rx - 1)) zero_ipmi_msg)))))).

(** The response [rx] whose request was found, by the interface that asked for it.
    [alloc]: the allocation of the KCS buffer or bridge message succeeds. *)
Definition rx_response_dispatch (pf : ipmb_platform) (map : list Z) (channel : Z) (alloc : bool)
    (rx : ipmi_msg) : option (list ipmb_event) :=
  let source := im_InF_source rx in
  if source =? SELF then
    index ← inf_index map (im_InF_target rx);
    Some [EvRxQueue index rx]
  else if is_kcs source then
    if negb (enable_kcs pf) then Some []
    else if pal_immediate_respond_from_HOST pf (im_netfn rx .& Z.lnot (BIT 0)) (im_cmd rx)
    then Some []
    else if negb alloc then Some []
    else data ← kcs_message rx; Some [EvKcsWrite (source - HOST_KCS_1) data]
  else if source =? MPRO_PLDM then
    if enable_mpro pf then Some [EvMproResponse rx] else Some []
  else if source =? ME_IPMB then
    if negb alloc then Some []
    else
      bridge_msg ← me_bridge_msg rx;
      index ← inf_index map source;
      Some [EvSendResponse index bridge_msg]
  else if negb alloc then Some []
  else
    bridge_msg ← pal_encode_response_bridge_cmd pf channel zero_ipmi_msg rx;
    if (source =? PLDM) || (source =? MCTP) then
      Some [EvPldmResponse source (set_im_pldm_inst_id (im_pldm_inst_id rx) bridge_msg)]
    else
      index ← inf_index map source;
      Some [EvSendResponse index bridge_msg].

(** A received request. [send_ok]: [ipmb_send_request] to the BMC succeeds. *)
Definition rx_request (pf : ipmb_platform) (map : list Z) (channel : Z) (alloc send_ok : bool)
    (rx : ipmi_msg) : option (list ipmb_event) :=
  if (channel =? ME_IPMB) && negb (pal_request_msg_to_BIC_from_ME pf (im_netfn rx) (im_cmd rx))
  then
    if negb alloc then Some []
    else
      data ← mem_read (im_data rx) 0 (im_data_len rx);
      d ← mem_write (im_data zero_ipmi_msg) 0 data;
      let bridge_msg := set_im_data d (set_im_cmd (im_cmd rx) (set_im_netfn (im_netfn rx)
        (set_im_InF_source ME_IPMB (set_im_InF_target BMC_IPMB (set_im_seq_source (im_seq rx)
          (set_im_data_len (im_data_len rx) zero_ipmi_msg)))))) in
      bmc ← inf_index map BMC_IPMB;
      me ← inf_index map ME_IPMB;
      if negb (pal_is_interface_use_ipmb pf bmc) then
        let bridge_msg := set_im_InF_target PLDM bridge_msg in
        let answer := set_im_seq (im_seq rx)
          (set_im_netfn (im_netfn rx) (pal_pldm_request pf bridge_msg)) in
        Some [EvPldmRequest bridge_msg; EvSendResponse me answer]
      else if send_ok then Some [EvSendRequest bmc bridge_msg]
      else Some [EvSendRequest bmc bridge_msg;
                 EvSendResponse me (set_im_completion_code CC_TIMEOUT bridge_msg)]
  else
    Some [EvNotify (set_im_InF_source channel (set_im_seq_source (im_seq rx) rx))].

(** One turn of [IPMB_RXTask]: [rx] is what [ipmb_slave_read] delivered, [None] when
    it failed; [buf0] and [msg0] are the fresh allocations. *)
Definition IPMB_RXTask (pf : ipmb_platform) (map : list Z) (conf : IPMB_config)
    (buf0 : list Z) (msg0 : ipmi_msg) (lock alloc send_ok : bool)
    (rx : option (list Z)) (st : ipmb_state) : option (ipmb_state * list ipmb_event) :=
  if negb (cf_interface conf =? I2C_IF) then Some (st, [])
  else match rx with
  | None => Some (st, [])
  | Some bytes =>
      let rx_len := zlen bytes in
      buf ← mem_write buf0 0 bytes;
      let buf := wr buf 0 (rd buf 0 .>> 1) in
      if negb (0 <? rx_len) then Some (st, [])
      else match validate_checksum buf rx_len with
      | IPMB_ERROR_SUCCESS =>
          msg ← ipmb_decode msg0 buf rx_len;
          if IS_RESPONSE msg then
            '(found, st, msg) ← find_req_ipmi_msg lock st (set_im_seq_target (im_seq msg) msg);
            if (found : bool) then
              evs ← rx_response_dispatch pf map (cf_channel conf) alloc msg; Some (st, evs)
            else Some (st, [])
          else
            evs ← rx_request pf map (cf_channel conf) alloc send_ok msg; Some (st, evs)
      | _ => Some (st, [])
      end
  end.

(** ** Lemmas: what goes on the wire and what comes from it *)

Definition frame_chk (msg : ipmi_msg) : Z :=
  u8 (- (2 * im_dest_addr msg + bsum (drop 1 (frame_body msg)))).

(** The bytes after the address byte. *)
Definition wire_bytes (msg : ipmi_msg) : list Z := drop 1 (frame_body msg) ++ [frame_chk msg].

Lemma zlen_frame_body msg :
  ipmb_msg_ok msg -> frame_len msg <= 255 -> zlen (frame_body msg) = frame_len msg - 1 /\
    6 <= header_len msg <= 7 /\ 7 <= frame_len msg.
Proof.
  intros (_ & _ & _ & _ & _ & _ & _ & _ & Hdata & _ & Hdl) Hlen.
  unfold IPMI_MSG_MAX_LENGTH, IPMI_DATA_MAX_LENGTH, IPMB_RESP_HEADER_LENGTH in Hdata.
  unfold frame_body, frame_len in *. assert (6 <= header_len msg <= 7)
    by (unfold header_len; destruct (IS_RESPONSE msg); lia).
  rewrite zlen_app, zlen_frame_header, zlen_slice by lia. lia.
Qed.

Lemma frame_body_cons msg : frame_body msg = im_dest_addr msg :: drop 1 (frame_body msg).
Proof. done. Qed.

Lemma i2c_frame_wire msg rest :
  ipmb_msg_ok msg -> frame_len msg <= 255 ->
  i2c_frame (frame_body msg ++ frame_chk msg :: rest) (frame_len msg - 1) = Some (wire_bytes msg).
Proof.
  intros Hok Hlen. destruct (zlen_frame_body msg Hok Hlen) as (Hb & Hh & H7).
  set (buf := frame_body msg ++ frame_chk msg :: rest).
  assert (Hz : zlen buf = frame_len msg + zlen rest)
    by (unfold buf; rewrite zlen_app, zlen_cons; lia).
  pose proof (zlen_nonneg rest). unfold i2c_frame.
  rewrite mem_read_Some by lia. cbn [mbind option_bind].
  assert (Es : slice buf 1 (frame_len msg - 1) = wire_bytes msg).
  { unfold buf, wire_bytes, slice. change (Z.to_nat 1) with 1%nat.
    rewrite drop_app_le by (unfold zlen in *; lia).
    rewrite cons_middle, app_assoc. apply take_app_length'.
    rewrite length_app, length_drop. change (length [frame_chk msg]) with 1%nat.
    unfold zlen in Hb. clear -Hb H7. lia. }
  assert (Hw : zlen (wire_bytes msg) = frame_len msg - 1) by (rewrite <- Es; apply zlen_slice; lia).
  rewrite Es. unfold I2C_BUFF_SIZE.
  destruct (mem_write_Some (zeros 256) 0 (wire_bytes msg)) as [d Hd]; [lia|rewrite zlen_zeros; lia|].
  rewrite Hd. cbn [mbind option_bind]. pose proof (mem_write_length _ _ _ _ Hd) as Hl.
  rewrite zlen_zeros in Hl by lia. rewrite mem_read_Some by lia.
  apply mem_write_prefix in Hd. rewrite Hw, Z.add_0_l in Hd. by rewrite Hd.
Qed.

Lemma rx_buffer msg buf0 :
  ipmb_msg_ok msg -> frame_len msg <= 255 -> zlen buf0 = 534 ->
  exists rest, (buf ← mem_write buf0 0 (2 * im_dest_addr msg :: wire_bytes msg);
                Some (wr buf 0 (rd buf 0 .>> 1)))
    = Some (frame_body msg ++ frame_chk msg :: rest).
Proof.
  intros Hok Hlen Hb. destruct (zlen_frame_body msg Hok Hlen) as (Hz & Hh & H7).
  assert (Hw : zlen (wire_bytes msg) = frame_len msg - 1).
  { unfold wire_bytes. rewrite zlen_app. unfold zlen in *. rewrite length_drop.
    change (length [frame_chk msg]) with 1%nat. clear -Hz H7. lia. }
  destruct (app_cut buf0 (frame_len msg)) as (a & rest & -> & Ha); [lia|]. exists rest.
  pose proof (mem_write_app [] a rest (2 * im_dest_addr msg :: wire_bytes msg)) as E.
  cbn [app] in E. change (zlen []) with 0 in E. rewrite E by (rewrite zlen_cons; lia).
  cbn [mbind option_bind].
  change (Some ((2 * im_dest_addr msg) .>> 1 :: wire_bytes msg ++ rest)
          = Some (frame_body msg ++ frame_chk msg :: rest)).
  rewrite (Z.mul_comm 2), Z.shiftr_div_pow2 by lia. change (2 ^ 1) with 2.
  rewrite Z.div_mul by lia. rewrite (frame_body_cons msg). unfold wire_bytes.
  by rewrite <- app_assoc.
Qed.

(** ** Properties *)

(** C19: a request the transmit task writes to the bus reaches the other end: the task
    records it as pending under its own sequence number and writes once; the receive task
    that is given those bytes after the (8-bit) address passes to the IPMI client a
    message with the same network function, command, sequence number and data, marked
    with the receiving channel. *)
Theorem ipmb_request_delivered pf map conf buf0 lock2 kcs now st cfg
    pf' map' conf' buf0' msg0 lock alloc send_ok st' :
  let msg := cfg_buffer cfg in
  ipmb_msg_ok msg -> IS_RESPONSE msg = false -> frame_len msg <= 255 ->
  zlen buf0 = 534 -> zlen buf0' = 534 -> zlen (im_data msg0) = IPMI_MSG_MAX_LENGTH ->
  ipmb_wf st -> ipmb_tx_disable st = false ->
  cf_interface conf = I2C_IF -> cf_interface conf' = I2C_IF -> cf_channel conf' <> ME_IPMB ->
  exists st1 data,
    IPMB_TXTask pf map conf buf0 true true true lock2 kcs now 0 st cfg
      = Some (st1, [EvI2cWrite (cf_bus conf) (cf_channel_target_address conf) data]) /\
    (exists old, req_list st1 = old ++ [set_im_timestamp now (set_im_seq_target (im_seq msg) msg)]) /\
    exists msg',
      IPMB_RXTask pf' map' conf' buf0' msg0 lock alloc send_ok
        (Some (2 * im_dest_addr msg :: data)) st' = Some (st', [EvNotify msg']) /\
      im_netfn msg' = im_netfn msg /\ im_cmd msg' = im_cmd msg /\
      im_seq_source msg' = im_seq msg /\ im_InF_source msg' = cf_channel conf' /\
      im_data_len msg' = im_data_len msg /\
      slice (im_data msg') 0 (im_data_len msg') = slice (im_data msg) 0 (im_data_len msg).
Proof.
  intros msg Hok Hreq Hlen Hb Hb' Hd0 Hwf Htx Hif Hif' Hch.
  destruct (zlen_frame_body msg Hok Hlen) as (Hz & Hh & H7).
  assert (Hhl : header_len msg = 6) by (unfold header_len; by rewrite Hreq).
  assert (Hseq : 0 <= im_seq msg < SEQ_NUM) by (unfold SEQ_NUM; apply Hok).
  destruct (ipmb_encode_frame buf0 msg Hok Hb Hlen) as (rest & Henc & _).
  fold (frame_chk msg) in Henc.
  assert (Hins : exists st1, insert_req_ipmi_msg true true now st (set_im_seq_target (im_seq msg) msg)
      = Some (st1, set_im_timestamp now (set_im_seq_target (im_seq msg) msg)) /\
      exists old, req_list st1 = old ++ [set_im_timestamp now (set_im_seq_target (im_seq msg) msg)]).
  { pose proof Hwf as [H1 H2 H3 H4 H5]. unfold insert_req_ipmi_msg. cbn [negb].
    destruct (Z.eqb_spec (seq_current_count st) MAX_SEQ_QUENE) as [E|E].
    - destruct (req_list st) as [|v l] eqn:El; [rewrite zlen_nil in H3; unfold MAX_SEQ_QUENE in E; lia|].
      cbn [mbind option_bind set_seq_current_count set_req_list list_null]. rewrite H2.
      unfold register_seq. rewrite write_seq_ok by done. cbn [mbind option_bind].
      eexists. split; [done|]. by exists l.
    - cbn [mbind option_bind]. rewrite H2. unfold register_seq. rewrite write_seq_ok by done.
      cbn [mbind option_bind]. eexists. split; [done|]. by exists (req_list st). }
  destruct Hins as (st1 & Hins & Hold).
  exists st1, (wire_bytes msg). split; [|split; [done|]].
  - unfold IPMB_TXTask. rewrite Htx. fold msg. rewrite Hreq. unfold tx_request. fold msg.
    rewrite Henc. cbn [mbind option_bind]. rewrite Hif, Z.eqb_refl. cbn [negb].
    unfold IPMB_REQ_HEADER_LENGTH.
    replace (u8 (im_data_len msg + 6)) with (frame_len msg - 1)
      by (unfold frame_len in *; rewrite u8_id; lia).
    rewrite i2c_frame_wire by done. cbn [mbind option_bind]. rewrite Hins. done.
  - destruct (rx_buffer msg buf0' Hok Hlen Hb') as (rest' & Hrx).
    assert (Hzb : zlen (2 * im_dest_addr msg :: wire_bytes msg) = frame_len msg).
    { rewrite zlen_cons. unfold wire_bytes. rewrite zlen_app. unfold zlen in *.
      rewrite length_drop. change (length [frame_chk msg]) with 1%nat. clear -Hz H7. lia. }
    destruct (decode_frame msg msg0 (frame_chk msg) rest' Hok Hlen Hd0) as (m' & Hdec & Hs).
    destruct Hs as (_ & Hn & _ & _ & Hsq & _ & Hcm & _ & Hdl & Hdata).
    exists (set_im_InF_source (cf_channel conf') (set_im_seq_source (im_seq m') m')).
    split; [|by split_and!].
    unfold IPMB_RXTask. rewrite Hif', Z.eqb_refl. cbn [negb]. cbv zeta. rewrite Hzb.
    destruct (mem_write buf0' 0 _) as [b|]; [|done]. cbn [mbind option_bind] in Hrx |- *.
    apply (inj Some) in Hrx. rewrite Hrx. destruct (Z.ltb_spec 0 (frame_len msg)); [|lia]. cbn [negb].
    pose proof (frame_valid msg rest' Hok Hlen) as Hv. fold (frame_chk msg) in Hv. rewrite Hv.
    rewrite Hdec. cbn [mbind option_bind].
    assert (Er : IS_RESPONSE m' = false) by (unfold IS_RESPONSE in *; by rewrite Hn).
    rewrite Er. unfold rx_request. destruct (Z.eqb_spec (cf_channel conf') ME_IPMB); [done|]. done.
Qed.
Lemma ipmb_request_delivered_witness :
  exists st1 data msg',
    IPMB_TXTask (mk_platform false false false (fun _ _ => false) (fun _ _ => false) (fun _ => true) id)
      [] (mk_ipmb_config 0 0 4 1 0x10 true 0x20) (zeros 534) true true true true true 7 0
      create_ipmb_state
      (mk_msg_cfg (set_im_dest_addr 0x10 (set_im_netfn 6 (set_im_cmd 1 zero_ipmi_msg))) 0)
      = Some (st1, [EvI2cWrite 1 0x10 data]) /\
    IPMB_RXTask (mk_platform false false false (fun _ _ => false) (fun _ _ => false) (fun _ => true) id)
      [] (mk_ipmb_config 0 0 2 1 0x20 true 0x10) (zeros 534) zero_ipmi_msg true true true
      (Some (0x20 :: data)) create_ipmb_state = Some (create_ipmb_state, [EvNotify msg']) /\
    im_cmd msg' = 1.
Proof.
  set (pf := mk_platform false false false (fun _ _ => false) (fun _ _ => false) (fun _ => true) id).
  destruct (ipmb_request_delivered pf [] (mk_ipmb_config 0 0 4 1 0x10 true 0x20) (zeros 534) true
    true 7 create_ipmb_state
    (mk_msg_cfg (set_im_dest_addr 0x10 (set_im_netfn 6 (set_im_cmd 1 zero_ipmi_msg))) 0)
    pf [] (mk_ipmb_config 0 0 2 1 0x20 true 0x10) (zeros 534) zero_ipmi_msg true true true
    create_ipmb_state) as (st1 & data & H1 & _ & m & H2 & _ & H3 & _); try reflexivity.
  - unfold ipmb_msg_ok; simpl. repeat split; try lia; try reflexivity.
    apply Forall_replicate. lia.
  - vm_compute. congruence.
  - split; try reflexivity; [vm_compute; congruence|constructor].
  - vm_compute. congruence.
  - exists st1, data, m. split; [exact H1|]. split; [exact H2|exact H3].
Defined.

(** The recorded form of a message: what a failed turn leaves of it. *)
Definition recorded (now : Z) (msg : ipmi_msg) : ipmi_msg :=
  set_im_timestamp now (set_im_seq_target (im_seq msg) msg).

Lemma recorded_idem now msg : recorded now (recorded now msg) = recorded now msg.
Proof. by destruct msg. Qed.

Section failing_bus.
Context (pf : ipmb_platform) (map : list Z) (conf : IPMB_config) (buf0 : list Z) (now ret : Z).
Context (Hb : zlen buf0 = 534) (Hif : cf_interface conf = I2C_IF) (Hret : ret <> 0).

(** One turn on a request while the bus fails: the request is not left in the list. *)
Lemma tx_request_fails st cfg :
  let msg := cfg_buffer cfg in
  ipmb_msg_ok msg -> IS_RESPONSE msg = false -> frame_len msg <= 255 ->
  ipmb_wf st -> zlen (req_list st) < MAX_SEQ_QUENE -> ipmb_tx_disable st = false ->
  Forall (fun v => resp_match (recorded now msg) v = false) (req_list st) ->
  exists st', ipmb_wf st' /\ req_list st' = req_list st /\ ipmb_tx_disable st' = false /\
    IPMB_TXTask pf map conf buf0 true true true true true now ret st cfg =
      (let ev := EvI2cWrite (cf_bus conf) (cf_channel_target_address conf) (wire_bytes msg) in
       let retries := u8 (cfg_retries cfg + 1) in
       if IPMB_TX_RETRY_TIME <? retries then
         evs ← tx_give_up pf map true (recorded now msg); Some (st', ev :: evs)
       else Some (st', [ev; EvRequeue (mk_msg_cfg (recorded now msg) retries)])).
Proof using Hb Hif Hret.
  intros msg Hok Hreq Hlen Hwf Hroom Htx Hold.
  destruct (zlen_frame_body msg Hok Hlen) as (Hz & Hh & H7).
  assert (Hhl : header_len msg = 6) by (unfold header_len; by rewrite Hreq).
  assert (Hseq : 0 <= im_seq msg < SEQ_NUM) by (unfold SEQ_NUM; apply Hok).
  destruct (ipmb_encode_frame buf0 msg Hok Hb Hlen) as (rest & Henc & _).
  fold (frame_chk msg) in Henc. pose proof Hwf as [H1 H2 H3 H4 H5].
  unfold IPMB_TXTask. rewrite Htx. fold msg. rewrite Hreq. unfold tx_request. fold msg.
  rewrite Henc. cbn [mbind option_bind]. rewrite Hif, Z.eqb_refl. cbn [negb].
  unfold IPMB_REQ_HEADER_LENGTH.
  replace (u8 (im_data_len msg + 6)) with (frame_len msg - 1)
    by (unfold frame_len in *; rewrite u8_id; lia).
  rewrite i2c_frame_wire by done. cbn [mbind option_bind].
  unfold insert_req_ipmi_msg. cbn [negb].
  destruct (Z.eqb_spec (seq_current_count st) MAX_SEQ_QUENE); [lia|].
  cbn [mbind option_bind]. rewrite H2. unfold register_seq. rewrite write_seq_ok by done.
  cbn [mbind option_bind]. fold (recorded now msg).
  destruct (Z.eqb_spec ret 0); [done|]. cbn [negb].
  set (st1 := set_seq_current_count _ _).
  assert (El : req_list st1 = req_list st ++ [recorded now msg]) by done.
  unfold find_req_ipmi_msg. cbn [negb].
  assert (Em : resp_match (recorded now msg) (recorded now msg) = true).
  { unfold resp_match. change (im_netfn (recorded now msg)) with (im_netfn msg).
    assert (En : im_netfn msg .& Z.lnot 1 = im_netfn msg).
    { unfold IS_RESPONSE in Hreq. apply negb_false_iff, Z.eqb_eq in Hreq.
      change (Z.lnot 1) with (- 2). pose proof (small_forall 64 (fun n =>
        implb (n .& 1 =? 0) (n .& -2 =? n)) eq_refl (im_netfn msg)) as H. cbv beta in H.
      rewrite Hreq in H. cbn [Z.eqb implb] in H. apply Z.eqb_eq, H. apply Hok. }
    by rewrite En, !Z.eqb_refl. }
  assert (Eu : unlink (resp_match (recorded now msg)) (req_list st ++ [recorded now msg])
    = Some (recorded now msg, req_list st)).
  { clear -Hold Em. induction Hold as [|v l Hv Hl IH]; simpl; [by rewrite Em|]. by rewrite Hv, IH. }
  rewrite El, Eu. unfold unregister_seq.
  change (im_seq_target (recorded now msg)) with (im_seq msg).
  rewrite write_seq_ok by done. cbn [mbind option_bind].
  set (st' := set_seq_current_count _ _). exists st'.
  split; [|split; [done|split; [exact Htx|]]].
  - split; unfold st', st1; cbn [set_seq_current_count set_req_list set_seq_table seq_table list_null
      seq_current_count req_list]; rewrite ?length_insert; try done. lia.
  - by destruct msg.
Qed.

(** The turns of the transmit task on one message until it stops being requeued. *)
Fixpoint tx_attempts (fuel : nat) (st : ipmb_state) (cfg : ipmi_msg_cfg)
    : option (ipmb_state * list ipmb_event) :=
  match fuel with
  | O => None
  | S fuel =>
      '(st, evs) ← IPMB_TXTask pf map conf buf0 true true true true true now ret st cfg;
      match evs with
      | [ev; EvRequeue cfg] => '(st, evs) ← tx_attempts fuel st cfg; Some (st, ev :: evs)
      | _ => Some (st, evs)
      end
  end.

Lemma tx_attempts_spec k st cfg index :
  let msg := cfg_buffer cfg in
  ipmb_msg_ok msg -> IS_RESPONSE msg = false -> frame_len msg <= 255 ->
  ipmb_wf st -> zlen (req_list st) < MAX_SEQ_QUENE -> ipmb_tx_disable st = false ->
  Forall (fun v => resp_match (recorded now msg) v = false) (req_list st) ->
  cfg_retries cfg = 5 - Z.of_nat k -> (k <= 5)%nat ->
  0 < im_InF_source msg < 0x40 -> inf_index map (im_InF_source msg) = Some index ->
  im_InF_source msg <> RESERVED ->
  exists st', tx_attempts (S k) st cfg = Some (st',
      replicate (S k) (EvI2cWrite (cf_bus conf) (cf_channel_target_address conf) (wire_bytes msg))
      ++ [EvSendResponse index (set_im_completion_code CC_NODE_BUSY (set_im_cmd CMD_OEM_1S_MSG_OUT
           (set_im_netfn NETFN_OEM_1S_REQ (set_im_data_len 0 (recorded now msg)))))]) /\
    req_list st' = req_list st /\ ipmb_wf st'.
Proof using Hb Hif Hret.
  revert st cfg. induction k as [|k IH]; intros st cfg msg Hok Hreq Hlen Hwf Hroom Htx Hold Hr Hk
    Hsrc Hix Hres.
  all: destruct (tx_request_fails st cfg Hok Hreq Hlen Hwf Hroom Htx Hold)
    as (st' & Hwf' & El & Htx' & E); fold msg in E; cbn [tx_attempts]; rewrite E; cbv zeta.
  - rewrite Hr. change (u8 (5 - Z.of_nat 0 + 1)) with 6. change (IPMB_TX_RETRY_TIME <? 6) with true.
    cbv iota. unfold tx_give_up. change (im_InF_source (recorded now msg)) with (im_InF_source msg).
    destruct (Z.eqb_spec (im_InF_source msg) RESERVED); [done|].
    unfold SELF, MPRO_PLDM, PLDM, MCTP.
    destruct (Z.eqb_spec (im_InF_source msg) 0); [lia|].
    destruct (Z.eqb_spec (im_InF_source msg) 66); [lia|].
    assert (Ek : is_kcs (im_InF_source msg) = false).
    { pose proof (small_forall 64 (fun s => negb (is_kcs s)) eq_refl (im_InF_source msg)) as H.
      cbv beta in H. apply negb_true_iff, H. lia. }
    rewrite Ek. destruct (Z.eqb_spec (im_InF_source msg) 64); [lia|].
    destruct (Z.eqb_spec (im_InF_source msg) 65); [lia|]. cbn [orb]. rewrite Hix.
    cbn [mbind option_bind]. exists st'. done.
  - rewrite Hr. rewrite u8_id by lia.
    destruct (Z.ltb_spec IPMB_TX_RETRY_TIME (5 - Z.of_nat (S k) + 1)) as [Hlt|_];
      [unfold IPMB_TX_RETRY_TIME in Hlt; lia|].
    cbn [mbind option_bind].
    set (cfg1 := mk_msg_cfg _ _).
    destruct (IH st' cfg1) as (st2 & E2 & El2 & Hw2); cbn [cfg_buffer cfg1 cfg_retries];
      try done; try lia.
    + by rewrite El.
    + by rewrite recorded_idem, El.
    + cbn [tx_attempts] in E2. rewrite E2. cbn [mbind option_bind]. exists st2.
      cbn [cfg_buffer cfg1]. rewrite recorded_idem, El2. done.
Qed.
End failing_bus.

(** A request whose bus write keeps failing is tried exactly six times, then given up:
    the requester's channel is answered "node busy" once, nothing stays queued and no
    trace of the request stays in the list of pending requests. *)
Theorem ipmb_tx_gives_up pf map conf buf0 now ret st msg index :
  zlen buf0 = 534 -> cf_interface conf = I2C_IF -> ret <> 0 ->
  ipmb_msg_ok msg -> IS_RESPONSE msg = false -> frame_len msg <= 255 ->
  ipmb_wf st -> zlen (req_list st) < MAX_SEQ_QUENE -> ipmb_tx_disable st = false ->
  Forall (fun v => resp_match (recorded now msg) v = false) (req_list st) ->
  0 < im_InF_source msg < 0x40 -> inf_index map (im_InF_source msg) = Some index ->
  exists st', tx_attempts pf map conf buf0 now ret 6 st (mk_msg_cfg msg 0) = Some (st',
      replicate 6 (EvI2cWrite (cf_bus conf) (cf_channel_target_address conf) (wire_bytes msg))
      ++ [EvSendResponse index (set_im_completion_code CC_NODE_BUSY (set_im_cmd CMD_OEM_1S_MSG_OUT
           (set_im_netfn NETFN_OEM_1S_REQ (set_im_data_len 0 (recorded now msg)))))]) /\
    req_list st' = req_list st.
Proof.
  intros Hb Hif Hret Hok Hreq Hlen Hwf Hroom Htx Hold Hs Hix.
  destruct (tx_attempts_spec pf map conf buf0 now ret Hb Hif Hret 5 st (mk_msg_cfg msg 0) index)
    as (st' & E & El & _); try done; [unfold RESERVED; cbn [cfg_buffer]; lia|].
  by exists st'.
Qed.
Lemma ipmb_tx_gives_up_witness :
  exists st' evs m, tx_attempts
      (mk_platform false false false (fun _ _ => false) (fun _ _ => false) (fun _ => true) id)
      (replicate 113 0) (mk_ipmb_config 0 0 4 1 0x10 true 0x20) (zeros 534) 7 (-5) 6
      create_ipmb_state
      (mk_msg_cfg (set_im_InF_source 2 (set_im_netfn 6 zero_ipmi_msg)) 0)
    = Some (st', evs ++ [EvSendResponse 0 m]) /\ length evs = 6%nat.
Proof.
  destruct (ipmb_tx_gives_up
    (mk_platform false false false (fun _ _ => false) (fun _ _ => false) (fun _ => true) id)
    (replicate 113 0) (mk_ipmb_config 0 0 4 1 0x10 true 0x20) (zeros 534) 7 (-5)
    create_ipmb_state (set_im_InF_source 2 (set_im_netfn 6 zero_ipmi_msg)) 0)
    as (st' & E & _).
  - by vm_compute.
  - done.
  - done.
  - unfold ipmb_msg_ok; simpl. repeat split; try lia; try reflexivity.
    apply Forall_replicate. lia.
  - by vm_compute.
  - by vm_compute.
  - split; try reflexivity; [vm_compute; congruence|constructor].
  - by vm_compute.
  - done.
  - constructor.
  - simpl. lia.
  - by vm_compute.
  - eexists st', _, _. split; [exact E|]. reflexivity.
Defined.
