(* ===== verification/PldmCore.v ===== *)
(** Component [common/service/pldm/pldm.c]: the PLDM requester and responder
    over MCTP. Requests take one of 32 instance ids of their MCTP instance and
    wait in [wait_recv_resp_list] for a response or a timeout; incoming requests
    are dispatched through [query_tbl]. An MCTP instance is a handle, its
    [pldm_inst_table] an entry of a map; a list node's address is a number. *)

From S2P Require Import Prelude Bytes IpmiMsg MctpCore.

(** ** Constants and data *)

Definition PLDM_SUCCESS : Z := 0x00.
Definition PLDM_ERROR : Z := 0x01.
Definition PLDM_ERROR_INVALID_DATA : Z := 0x02.
Definition PLDM_ERROR_INVALID_LENGTH : Z := 0x03.
Definition PLDM_ERROR_NOT_READY : Z := 0x04.
Definition PLDM_ERROR_UNSUPPORTED_PLDM_CMD : Z := 0x05.
Definition PLDM_ERROR_INVALID_PLDM_TYPE : Z := 0x20.
Definition PLDM_INVALID_TRANSFER_OPERATION_FLAG : Z := 0x21.
Definition PLDM_LATER_RESP : Z := 0x30.

Definition PLDM_HDR_INST_ID_MASK : Z := 0x1F.
Definition PLDM_MAX_INSTID_COUNT : Z := 32.
Definition PLDM_FW_UPDATE_MAX_RETRY : Z := 3.
Definition PLDM_MAX_DATA_SIZE : Z := 512.
Definition MCTP_MSG_TYPE_PLDM : Z := 1.
Definition PLDM_READ_EVENT_SUCCESS : Z := BIT 0.
Definition PLDM_READ_EVENT_TIMEOUT : Z := BIT 1.

(** The macros a platform can define before [pldm.c] is compiled, and their values where it
    defines none of them. *)
Class PldmConfig := mk_pldm_config {
  PLDM_MSG_TIMEOUT_MS : Z;
  PLDM_MSG_MAX_RETRY : Z;
  PLDM_FW_UPDATE_TIMEOUT_MS : Z;
  PLDM_BRIDGE_IPMI_TIMEOUT_MS : Z;
  PLDM_BRIDGE_IPMI_MAX_RETRY : Z }.

#[export] Instance pldm_defaults : PldmConfig := mk_pldm_config 30000 3 30000 30000 3.

(** [PLDM_TYPE] *)
Definition PLDM_TYPE_BASE : Z := 0x00.
Definition PLDM_TYPE_SMBIOS : Z := 0x01.
Definition PLDM_TYPE_PLAT_MON_CTRL : Z := 0x02.
Definition PLDM_TYPE_FRU : Z := 0x04.
Definition PLDM_TYPE_FW_UPDATE : Z := 0x05.
Definition PLDM_TYPE_OEM : Z := 0x3F.
Definition PLDM_OEM_IPMI_BRIDGE : Z := 0x01.

Definition GET_PLDM_TYPE_BUF_SIZE : Z := 8.
Definition GET_PLDM_COMMAND_BUF_SIZE : Z := 32.

(** [pldm_hdr], four bytes of bit fields. *)
Record pldm_hdr := mk_pldm_hdr {
  ph_msg_type : Z;
  ph_ic : Z;
  ph_inst_id : Z;
  ph_rsvd : Z;
  ph_d : Z;
  ph_rq : Z;
  ph_pldm_type : Z;
  ph_ver : Z;
  ph_cmd : Z }.

Definition set_ph_msg_type (v : Z) (h : pldm_hdr) : pldm_hdr :=
  mk_pldm_hdr v (ph_ic h) (ph_inst_id h) (ph_rsvd h) (ph_d h) (ph_rq h) (ph_pldm_type h) (ph_ver h) (ph_cmd h).
Definition set_ph_inst_id (v : Z) (h : pldm_hdr) : pldm_hdr :=
  mk_pldm_hdr (ph_msg_type h) (ph_ic h) v (ph_rsvd h) (ph_d h) (ph_rq h) (ph_pldm_type h) (ph_ver h) (ph_cmd h).
Definition set_ph_rq (v : Z) (h : pldm_hdr) : pldm_hdr :=
  mk_pldm_hdr (ph_msg_type h) (ph_ic h) (ph_inst_id h) (ph_rsvd h) (ph_d h) v (ph_pldm_type h) (ph_ver h) (ph_cmd h).

Definition pldm_hdr_bytes (h : pldm_hdr) : list Z :=
  [ph_msg_type h .| (ph_ic h .<< 7);
   ph_inst_id h .| (ph_rsvd h .<< 5) .| (ph_d h .<< 6) .| (ph_rq h .<< 7);
   ph_pldm_type h .| (ph_ver h .<< 6);
   ph_cmd h].

Definition pldm_hdr_of (buf : list Z) : pldm_hdr :=
  let b0 := rd buf 0 in let b1 := rd buf 1 in let b2 := rd buf 2 in
  mk_pldm_hdr (b0 .& 0x7F) (bit b0 7)
    (b1 .& 0x1F) (bit b1 5) (bit b1 6) (bit b1 7)
    (b2 .& 0x3F) ((b2 .>> 6) .& 3) (rd buf 3).

(** [pldm_msg]; the callback pointers are kept with their arguments as handles. *)
Record pldm_msg := mk_pldm_msg {
  pm_hdr : pldm_hdr; pm_buf : list Z; pm_len : Z; pm_ext_params : mctp_ext_params;
  pm_recv_resp_cb : option Z; pm_timeout_ms : Z; pm_timeout_cb : option Z }.

Record wait_msg := mk_wait {
  w_node : Z; w_mctp_inst : Z; w_exp_to_ms : Z; w_msg : pldm_msg }.
Definition w_inst_id (w : wait_msg) : Z := ph_inst_id (pm_hdr (w_msg w)).

(** The state shared by the senders, the receive path and the timeout monitor:
    the tables of the MCTP instances, the static [cur_inst_num], the wait list,
    and whether the monitor thread returned from its check with the list's mutex
    locked, which nobody unlocks then. *)
Record pldm_state := mk_pldm_state {
  pldm_inst_table : gmap Z Z;
  cur_inst_num : Z;
  wait_recv_resp_list : list wait_msg;
  mutex_leaked : bool }.

Definition set_pldm_inst_table (v : gmap Z Z) (st : pldm_state) : pldm_state :=
  mk_pldm_state v (cur_inst_num st) (wait_recv_resp_list st) (mutex_leaked st).
Definition set_cur_inst_num (v : Z) (st : pldm_state) : pldm_state :=
  mk_pldm_state (pldm_inst_table st) v (wait_recv_resp_list st) (mutex_leaked st).
Definition set_wait_recv_resp_list (v : list wait_msg) (st : pldm_state) : pldm_state :=
  mk_pldm_state (pldm_inst_table st) (cur_inst_num st) v (mutex_leaked st).
Definition set_mutex_leaked (v : bool) (st : pldm_state) : pldm_state :=
  mk_pldm_state (pldm_inst_table st) (cur_inst_num st) (wait_recv_resp_list st) v.

Inductive pldm_event :=
  | EvSendMsg (inst : Z) (buf : list Z) (ext : mctp_ext_params) (** [mctp_send_msg] *)
  | EvRespCb (cb : Z) (data : list Z) (** [recv_resp_cb_fn] *)
  | EvTimeoutCb (cb : Z) (** [timeout_cb_fn] *).

(** ** Instance ids *)

Definition inst_table_of (st : pldm_state) (inst : Z) : Z :=
  default 0 (pldm_inst_table st !! inst).

(** [WRITE_BIT(mctp_inst->pldm_inst_table, num, set)]. *)
Definition write_inst_bit (inst num : Z) (b : bool) (st : pldm_state) : pldm_state :=
  let t := inst_table_of st inst in
  let t := if b then t .| BIT num else t .& Z.lnot (BIT num) in
  set_pldm_inst_table (<[inst := t]> (pldm_inst_table st)) st.

Definition unregister_instid (st : pldm_state) (inst inst_num : Z) : bool * pldm_state :=
  if PLDM_MAX_INSTID_COUNT <=? inst_num then (false, st)
  else if inst_table_of st inst =? 0 then (false, st)
  else if inst_table_of st inst .& BIT inst_num =? 0 then (false, st)
  else (true, write_inst_bit inst inst_num false st).

(** The search loop of [register_instid]: [None] when all its turns found the
    bit set, with the value of the static counter at the end. *)
Fixpoint find_inst_num (retry : nat) (table cur : Z) : option Z * Z :=
  match retry with
  | O => (None, cur)
  | S retry =>
      if table .& BIT cur =? 0 then (Some cur, cur)
      else find_inst_num retry table ((cur + 1) .& PLDM_HDR_INST_ID_MASK)
  end.

Definition register_instid (st : pldm_state) (inst : Z) : option Z * pldm_state :=
  let '(found, cur) := find_inst_num (Z.to_nat PLDM_MAX_INSTID_COUNT)
                         (inst_table_of st inst) (cur_inst_num st) in
  match found with
  | None => (None, set_cur_inst_num cur st)
  | Some n =>
      (Some n, set_cur_inst_num ((n + 1) .& PLDM_HDR_INST_ID_MASK) (write_inst_bit inst n true st))
  end.

(** ** Sending *)

(** What the first half of [mctp_pldm_send_msg] ends with: the error return, the
    call of [mctp_send_msg] on [buf] (with the wait entry appended, for a
    request), or a wait for ever on the leaked mutex. *)
Inductive send_begin_result :=
  | BeginError
  | BeginSend (buf : list Z) (node : option Z)
  | BeginBlocked.

(** [mctp_pldm_send_msg] up to the allocation: the id is taken, the header completed and the
    message put together. The inner [None] is the return because no id is free; the outer one
    that one of the two [memcpy]s leaves its buffer. *)
Definition pldm_send_prepare (st : pldm_state) (inst : Z) (msg : pldm_msg)
    : option (option (list Z) * pldm_state * pldm_msg) :=
  let rq := negb (ph_rq (pm_hdr msg) =? 0) in
  let '(reg, st1) := if rq then register_instid st inst else (Some 0xff, st) in
  match reg with
  | None => Some (None, st1, msg)
  | Some id =>
      let msg := if rq then
          let ext := pm_ext_params msg in
          mk_pldm_msg (set_ph_msg_type MCTP_MSG_TYPE_PLDM (set_ph_inst_id id (pm_hdr msg)))
            (pm_buf msg) (pm_len msg)
            (mk_ext 1 (ext_msg_tag ext) (ext_ep ext) (ext_type ext) (ext_addr ext))
            (pm_recv_resp_cb msg) (pm_timeout_ms msg) (pm_timeout_cb msg)
        else msg in
      let len := u16 (4 + pm_len msg) in
      buf ← mem_write (zeros len) 0 (pldm_hdr_bytes (pm_hdr msg));
      data ← mem_read (pm_buf msg) 0 (pm_len msg);
      buf ← mem_write buf 4 data;
      Some (Some buf, st1, msg)
  end.

(** From there to the call of [mctp_send_msg] on [buf]. [malloc] is the address of the wait
    entry, [None] where there is no memory; [now] is [k_uptime_get()]. *)
Definition pldm_send_queue `{PldmConfig} (malloc : option Z) (now : Z) (st : pldm_state)
    (inst : Z) (msg : pldm_msg) (buf : list Z) : send_begin_result * pldm_state :=
  if negb (ph_rq (pm_hdr msg) =? 0) then
    match malloc with
    | None => (BeginError, snd (unregister_instid st inst (ph_inst_id (pm_hdr msg))))
    | Some node =>
        if mutex_leaked st then (BeginBlocked, st)
        else
          let timeout := if negb (pm_timeout_ms msg =? 0) then pm_timeout_ms msg
                         else PLDM_MSG_TIMEOUT_MS in
          let w := mk_wait node inst (now + timeout) msg in
          (BeginSend buf (Some node), set_wait_recv_resp_list (wait_recv_resp_list st ++ [w]) st)
    end
  else (BeginSend buf None, st).

Definition mctp_pldm_send_begin `{PldmConfig} (malloc : option Z) (now : Z)
    (st : pldm_state) (inst : Z) (msg : pldm_msg)
    : option (send_begin_result * pldm_state * pldm_msg) :=
  '(buf, st, msg) ← pldm_send_prepare st inst msg;
  match buf with
  | None => Some (BeginError, st, msg)
  | Some buf => let '(res, st) := pldm_send_queue malloc now st inst msg buf in Some (res, st, msg)
  end.

Definition remove_node (n : Z) (l : list wait_msg) : list wait_msg :=
  filter (fun w => w_node w <> n) l.

(** [sys_slist_find_and_remove] on the address [n], under the mutex: whether it was there. *)
Definition pldm_send_remove (n : Z) (st : pldm_state) : bool * pldm_state :=
  (existsb (fun w => w_node w =? n) (wait_recv_resp_list st),
   set_wait_recv_resp_list (remove_node n (wait_recv_resp_list st)) st).

(** The rest of [mctp_pldm_send_msg], once [mctp_send_msg] returned [rc]; [None]: it waits for
    ever on the leaked mutex. *)
Definition mctp_pldm_send_end (rc : Z) (st : pldm_state) (inst : Z) (msg : pldm_msg)
    (node : option Z) : option Z * pldm_state :=
  if rc =? MCTP_ERROR then
    match node with
    | Some n =>
        if mutex_leaked st then (None, st)
        else
          let st := snd (pldm_send_remove n st) in
          (Some PLDM_ERROR, snd (unregister_instid st inst (ph_inst_id (pm_hdr msg))))
    | None => (Some PLDM_ERROR, st)
    end
  else (Some PLDM_SUCCESS, st).

(** The whole function when nothing else runs in between; [None] as the return
    code is a call that does not return. *)
Definition mctp_pldm_send_msg `{PldmConfig} (malloc : option Z) (now rc : Z)
    (st : pldm_state) (inst : Z) (msg : pldm_msg)
    : option (option Z * pldm_state * pldm_msg * list pldm_event) :=
  '(res, st, msg) ← mctp_pldm_send_begin malloc now st inst msg;
  match res with
  | BeginError => Some (Some PLDM_ERROR, st, msg, [])
  | BeginBlocked => Some (None, st, msg, [])
  | BeginSend buf node =>
      let '(ret, st) := mctp_pldm_send_end rc st inst msg node in
      Some (ret, st, msg, [EvSendMsg inst buf (pm_ext_params msg)])
  end.

(** ** Responses and timeouts *)

Definition resp_matches (inst : Z) (hdr : pldm_hdr) (w : wait_msg) : bool :=
  let h := pm_hdr (w_msg w) in
  (ph_inst_id h =? ph_inst_id hdr) && (ph_pldm_type h =? ph_pldm_type hdr)
  && (ph_cmd h =? ph_cmd hdr) && (w_mctp_inst w =? inst).

(** The list walk: the first matching entry and the list without it. *)
Fixpoint take_match (test : wait_msg -> bool) (l : list wait_msg)
    : option (wait_msg * list wait_msg) :=
  match l with
  | [] => None
  | w :: l =>
      if test w then Some (w, l)
      else '(found, l) ← take_match test l; Some (found, w :: l)
  end.

(** [lock_ok]: the mutex is obtained within 500 ms. [None]: the handler is given
    a payload that is not inside the message. *)
Definition pldm_resp_msg_process (lock_ok : bool) (st : pldm_state) (inst : Z)
    (buf : list Z) (len : Z) : option (Z * pldm_state * list pldm_event) :=
  if len =? 0 then Some (PLDM_ERROR, st, [])
  else if negb lock_ok || mutex_leaked st then Some (PLDM_ERROR, st, [])
  else match take_match (resp_matches inst (pldm_hdr_of buf)) (wait_recv_resp_list st) with
  | None => Some (PLDM_SUCCESS, st, [])
  | Some (w, rest) =>
      let st := set_wait_recv_resp_list rest st in
      let '(ok, st) := unregister_instid st inst (w_inst_id w) in
      if negb ok then Some (PLDM_ERROR, st, [])
      else match pm_recv_resp_cb (w_msg w) with
      | None => Some (PLDM_SUCCESS, st, [])
      | Some cb =>
          data ← mem_read buf 4 (u16 (len - 4));
          Some (PLDM_SUCCESS, st, [EvRespCb cb data])
      end
  end.

Definition timeout_events (w : wait_msg) : list pldm_event :=
  match pm_timeout_cb (w_msg w) with Some cb => [EvTimeoutCb cb] | None => [] end.

(** The walk of [pldm_msg_timeout_check] over the rest [l] of the list, [pre]
    being the entries kept so far; the boolean is false when it returned early. *)
Fixpoint timeout_loop (now : Z) (st : pldm_state) (pre l : list wait_msg)
    : bool * pldm_state * list pldm_event :=
  match l with
  | [] => (true, set_wait_recv_resp_list pre st, [])
  | w :: l =>
      if w_exp_to_ms w <=? now then
        let '(ok, st) := unregister_instid st (w_mctp_inst w) (w_inst_id w) in
        if negb ok then (false, set_wait_recv_resp_list (pre ++ l) st, [])
        else
          let '(ret, st, evs) := timeout_loop now st pre l in
          (ret, st, timeout_events w ++ evs)
      else timeout_loop now st (pre ++ [w]) l
  end.

Definition pldm_msg_timeout_check (lock_ok : bool) (now : Z) (st : pldm_state)
    : Z * pldm_state * list pldm_event :=
  if negb lock_ok then (MCTP_ERROR, st, [])
  else
    let '(ok, st, evs) := timeout_loop now st [] (wait_recv_resp_list st) in
    if ok then (MCTP_SUCCESS, st, evs)
    else (PLDM_ERROR, set_mutex_leaked true st, evs).

(** ** Synchronous read with retries *)

(** What happens to one attempt of [mctp_pldm_read]: the send fails; reading the
    event queue fails; a response of [rlen] bytes reaches
    [pldm_read_resp_handler]; the entry times out. *)
Inductive read_attempt :=
  | AttSendFail
  | AttGetFail
  | AttResp (data : list Z) (rlen : Z)
  | AttTimeout.

(** [pldm_read_resp_handler] on [(rbuf, return_len)]: the new contents and the
    event it queues. An empty response queues nothing. *)
Definition pldm_read_resp_handler (rbuf : list Z) (rbuf_len return_len : Z)
    (data : list Z) (rlen : Z) : option (list Z * Z * option Z) :=
  if rlen =? 0 then Some (rbuf, return_len, None)
  else
    let return_len := if rbuf_len <? rlen then rbuf_len else rlen in
    d ← mem_read data 0 return_len;
    rbuf ← mem_write rbuf 0 d;
    Some (rbuf, return_len, Some PLDM_READ_EVENT_SUCCESS).

Inductive read_result :=
  | ReadReturn (ret_len : Z) (rbuf : list Z)
  | ReadBlocked (** waits for an event that never comes *).

Definition read_max_retry `{PldmConfig} (msg : pldm_msg) : Z :=
  u8 (if ph_pldm_type (pm_hdr msg) =? PLDM_TYPE_FW_UPDATE then PLDM_FW_UPDATE_MAX_RETRY
  else if ph_cmd (pm_hdr msg) =? PLDM_OEM_IPMI_BRIDGE then PLDM_BRIDGE_IPMI_MAX_RETRY
  else PLDM_MSG_MAX_RETRY).

Definition read_timeout_ms `{PldmConfig} (msg : pldm_msg) : Z :=
  u16 (if ph_pldm_type (pm_hdr msg) =? PLDM_TYPE_FW_UPDATE then PLDM_FW_UPDATE_TIMEOUT_MS
  else if ph_cmd (pm_hdr msg) =? PLDM_OEM_IPMI_BRIDGE then PLDM_BRIDGE_IPMI_TIMEOUT_MS
  else PLDM_MSG_TIMEOUT_MS).

(** The retry loop; [attempt k] is the fate of attempt [k]. *)
Fixpoint read_loop (attempt : Z -> read_attempt) (n : nat) (k : Z)
    (rbuf : list Z) (rbuf_len return_len : Z) : option read_result :=
  match n with
  | O => Some (ReadReturn 0 rbuf)
  | S n =>
      match attempt k with
      | AttSendFail | AttGetFail | AttTimeout =>
          read_loop attempt n (k + 1) rbuf rbuf_len return_len
      | AttResp data rlen =>
          '(rbuf, return_len, event) ← pldm_read_resp_handler rbuf rbuf_len return_len data rlen;
          match event with
          | Some e => if e =? PLDM_READ_EVENT_SUCCESS then Some (ReadReturn return_len rbuf)
                      else read_loop attempt n (k + 1) rbuf rbuf_len return_len
          | None => Some ReadBlocked
          end
      end
  end.

(** [evt_ok], [arg_ok]: the two allocations succeed. *)
Definition mctp_pldm_read `{PldmConfig} (evt_ok arg_ok : bool) (attempt : Z -> read_attempt)
    (msg : pldm_msg) (rbuf : list Z) (rbuf_len : Z) : option read_result :=
  if rbuf_len =? 0 then Some (ReadReturn 0 rbuf)
  else if negb evt_ok then Some (ReadReturn 0 rbuf)
  else if negb arg_ok then Some (ReadReturn 0 rbuf)
  else read_loop attempt (Z.to_nat (read_max_retry msg)) 0 rbuf rbuf_len 0.

(** ** Dispatch of requests *)

(** A command handler ([pldm_cmd_proc_fn]): from the request data, its length and
    the instance id to its return code, the bytes it leaves at [resp] and
    [*resp_len]. A handler that sets no length leaves the initial 1. *)
Definition pldm_cmd_proc_fn : Type := list Z -> Z -> Z -> Z * list Z * Z.

(** The six [*_handler_query] functions, selected by the PLDM type of their row. *)
Definition pldm_queries : Type := Z -> Z -> Z * option pldm_cmd_proc_fn.

Section dispatch.
Context (fru : bool) (** [ENABLE_PLDM_FRU] *) (queries : pldm_queries).

Definition query_types : list Z :=
  [PLDM_TYPE_BASE; PLDM_TYPE_SMBIOS; PLDM_TYPE_PLAT_MON_CTRL; PLDM_TYPE_FW_UPDATE]
  ++ (if fru then [PLDM_TYPE_FRU] else []) ++ [PLDM_TYPE_OEM].

Definition query_tbl : list (Z * (Z -> Z * option pldm_cmd_proc_fn)) :=
  (fun t => (t, queries t)) <$> query_types.

(** The first row of the type, as the two search loops find it. *)
Fixpoint find_query (tbl : list (Z * (Z -> Z * option pldm_cmd_proc_fn))) (type : Z)
    : option (Z -> Z * option pldm_cmd_proc_fn) :=
  match tbl with
  | [] => None
  | (t, q) :: tbl => if type =? t then Some q else find_query tbl type
  end.

(** [mctp_pldm_cmd_handler] on a request ([rq] set): the buffer it passes to
    [mctp_send_msg], or [None] when the handler answers later. The outer [None]
    is a response that does not fit the 512-byte [resp_buf]. *)
Definition handle_request (buf : list Z) (len : Z) : option (option (list Z)) :=
  let hdr := set_ph_rq 0 (pldm_hdr_of buf) in
  resp_buf ← mem_write (zeros PLDM_MAX_DATA_SIZE) 0 (pldm_hdr_bytes hdr);
  let unsupported :=
    resp_buf ← mem_write resp_buf 4 [PLDM_ERROR_UNSUPPORTED_PLDM_CMD];
    resp ← mem_read resp_buf 0 5;
    Some (Some resp) in
  match find_query query_tbl (ph_pldm_type hdr) with
  | None => unsupported
  | Some handler_query =>
      let '(rc, handler) := handler_query (ph_cmd hdr) in
      match handler with
      | Some fn =>
          if rc =? PLDM_ERROR then unsupported
          else
            let req_d_id := rd (pldm_hdr_bytes hdr) 1 in
            let '(rc, resp, resp_len) := fn (drop 4 buf) (u16 (len - 4)) (req_d_id .& 0x1F) in
            resp_buf ← mem_write resp_buf 4 resp;
            if rc =? PLDM_LATER_RESP then Some None
            else
              resp ← mem_read resp_buf 0 (u16 (4 + resp_len));
              Some (Some resp)
      | None => unsupported
      end
  end.

(** [rc]: what [mctp_send_msg] returns for the response. *)
Definition mctp_pldm_cmd_handler (lock_ok : bool) (rc : Z) (st : pldm_state) (inst : Z)
    (buf : list Z) (len : Z) (ext : mctp_ext_params)
    : option (Z * pldm_state * list pldm_event) :=
  if len =? 0 then Some (PLDM_ERROR, st, [])
  else if ph_rq (pldm_hdr_of buf) =? 0 then pldm_resp_msg_process lock_ok st inst buf len
  else
    resp ← handle_request buf len;
    match resp with
    | None => Some (PLDM_SUCCESS, st, [])
    | Some resp => Some (rc, st, [EvSendMsg inst resp ext])
    end.

Definition set_type_bit (buf : list Z) (type : Z) : list Z :=
  let buf_index := type / 8 in
  if zlen buf <=? buf_index then buf
  else <[Z.to_nat buf_index := rd buf buf_index .| BIT (type mod 8)]> buf.

(** The code and, when it is written, the new contents of the buffer. *)
Definition get_supported_pldm_type (buf : list Z) : Z * list Z :=
  if negb (zlen buf =? GET_PLDM_TYPE_BUF_SIZE) then (PLDM_ERROR_INVALID_LENGTH, buf)
  else (PLDM_SUCCESS, fold_left set_type_bit (fst <$> query_tbl) (zeros (zlen buf))).

Definition set_cmd_bit (q : Z -> Z * option pldm_cmd_proc_fn) (buf : list Z) (cmd : Z) : list Z :=
  let '(rc, handler) := q cmd in
  if (rc =? PLDM_SUCCESS) && match handler with Some _ => true | None => false end
  then <[Z.to_nat (cmd / 8) := rd buf (cmd / 8) .| BIT (cmd mod 8)]> buf
  else buf.

Definition get_supported_pldm_commands (type : Z) (buf : list Z) : Z * list Z :=
  if negb (zlen buf =? GET_PLDM_COMMAND_BUF_SIZE) then (PLDM_ERROR_INVALID_LENGTH, buf)
  else
    match find_query query_tbl type with
    | None => (PLDM_ERROR_INVALID_PLDM_TYPE, zeros (zlen buf))
    | Some q =>
        (PLDM_SUCCESS,
         fold_left (set_cmd_bit q) (seqZ 0 (GET_PLDM_COMMAND_BUF_SIZE * 8)) (zeros (zlen buf)))
    end.
End dispatch.

(** ** IPMI bridged over PLDM *)

Definition IANA_ID : Z := 0x00A015.
Definition CC_UNSPECIFIED_ERROR : Z := 0xFF.

(** The three bytes [set_iana] writes. *)
Definition iana_bytes : list Z :=
  (fun i => (IANA_ID .>> (i * 8)) .& 0xFF) <$> seqZ 0 3.

(** The message of [pldm_send_ipmi_response]: a [_ipmi_cmd_resp] in the zeroed
    512-byte buffer. [None]: the IPMI data does not fit in it. *)
Definition ipmi_response_msg (type addr : Z) (msg : ipmi_msg) : option pldm_msg :=
  data ← mem_read (im_data msg) 0 (im_data_len msg);
  let hdr := [PLDM_SUCCESS] ++ iana_bytes
             ++ [u8 ((im_netfn msg .| 0x01) .<< 2); im_cmd msg; im_completion_code msg] in
  resp_buf ← mem_write (zeros PLDM_MAX_DATA_SIZE) 0 hdr;
  resp_buf ← mem_write resp_buf 7 data;
  Some (mk_pldm_msg
    (mk_pldm_hdr MCTP_MSG_TYPE_PLDM 0 (im_pldm_inst_id msg .& 0x1F) 0 0 0
       PLDM_TYPE_OEM 0 PLDM_OEM_IPMI_BRIDGE)
    resp_buf (u16 (8 - 1 + im_data_len msg)) (mk_ext 0 0 0 type addr) None 0 None).

(** [port]: the port found for the channel. The result is the returned value and
    the message given to [mctp_pldm_send_msg]. *)
Definition pldm_send_ipmi_response (port : option mctp_port) (msg : ipmi_msg)
    : option (Z * option (Z * pldm_msg)) :=
  match port with
  | None => Some (-1, None)
  | Some p =>
      if port_medium_type p <? 0 then Some (-1, None)
      else
        let target := pal_find_bus_in_mctp_port (Some p) in
        if target <? 0 then Some (-1, None)
        else
          pmsg ← ipmi_response_msg (port_medium_type p) target msg;
          match port_mctp_inst p with
          | None => Some (-1, None)
          | Some inst => Some (0, Some (inst, pmsg))
          end
  end.

Definition ipmi_request_msg (type addr : Z) (msg : ipmi_msg) : option pldm_msg :=
  data ← mem_read (im_data msg) 0 (im_data_len msg);
  let hdr := iana_bytes ++ [u8 (im_netfn msg .<< 2); im_cmd msg] in
  req_buf ← mem_write (zeros PLDM_MAX_DATA_SIZE) 0 hdr;
  req_buf ← mem_write req_buf 5 data;
  Some (mk_pldm_msg
    (mk_pldm_hdr MCTP_MSG_TYPE_PLDM 0 0 0 0 1 PLDM_TYPE_OEM 0 PLDM_OEM_IPMI_BRIDGE)
    req_buf (u16 (6 - 1 + im_data_len msg)) (mk_ext 0 0 0 type addr) None 0 None).

(** The end of [pldm_send_ipmi_request]: the read length is kept in a
    [uint8_t]; the result is the returned [int] and the updated message. *)
Definition ipmi_request_finish (ret_len : Z) (rbuf : list Z) (msg : ipmi_msg)
    : option (Z * ipmi_msg) :=
  let res_len := u8 ret_len in
  if res_len =? 0 then Some (0, msg)
  else
    let ipmi_comp_code := if negb (rd rbuf 0 =? MCTP_SUCCESS) then CC_UNSPECIFIED_ERROR
                          else rd rbuf 3 in
    let msg := set_im_cmd (rd rbuf 2) (set_im_netfn (rd rbuf 1 .>> 2)
                 (set_im_completion_code ipmi_comp_code msg)) in
    if 4 <? res_len then
      data ← mem_read rbuf 4 (res_len - 4);
      d ← mem_write (im_data msg) 0 data;
      Some (0, set_im_data d (set_im_data_len (res_len - 4) msg))
    else Some (0, set_im_data_len 0 msg).

(** The inner [None] is a call that never returns. [medium inst] is the
    [medium_type] of an instance. *)
Definition pldm_send_ipmi_request `{PldmConfig} (evt_ok arg_ok : bool) (attempt : Z -> read_attempt)
    (medium : Z -> Z) (port : option mctp_port) (msg : ipmi_msg)
    : option (option (Z * ipmi_msg)) :=
  match port with
  | None => Some (Some (-1, msg))
  | Some p =>
      let target := pal_find_bus_in_mctp_port (Some p) in
      if target <? 0 then Some (Some (-1, msg))
      else
        inst ← port_mctp_inst p;
        pmsg ← ipmi_request_msg (medium inst) target msg;
        res ← mctp_pldm_read evt_ok arg_ok attempt pmsg (zeros PLDM_MAX_DATA_SIZE)
                PLDM_MAX_DATA_SIZE;
        match res with
        | ReadBlocked => Some None
        | ReadReturn ret_len rbuf => r ← ipmi_request_finish ret_len rbuf msg; Some (Some r)
        end
  end.

(** ** The system: the threads interleaved *)

(** A thread inside [mctp_pldm_send_msg], between the points where it touches the shared state:
    its id is registered and its message complete; its [mctp_send_msg] is under way; that call
    failed and the list was searched for the wait entry, which was there or not. *)
Inductive send_stage :=
  | Registered
  | Sending (node : option Z)
  | Failing (removed : bool).

Record send_thread := mk_send_thread {
  t_inst : Z; t_msg : pldm_msg; t_buf : list Z; t_stage : send_stage }.
Definition t_id (t : send_thread) : Z := ph_inst_id (pm_hdr (t_msg t)).
Definition set_t_stage (v : send_stage) (t : send_thread) : send_thread :=
  mk_send_thread (t_inst t) (t_msg t) (t_buf t) v.

Record pldm_sys := mk_pldm_sys { s_pldm : pldm_state; senders : list send_thread }.

(** What happens next: a send starts; sender [k] gets its memory and queues its request; its
    [mctp_send_msg] returns; after a failure it gives the id back; a response arrives; the
    monitor looks at the list. *)
Inductive pldm_input :=
  | InSend (inst : Z) (msg : pldm_msg)
  | InQueue (k : nat) (malloc : option Z) (now : Z)
  | InReturn (k : nat) (rc : Z)
  | InUnregister (k : nat)
  | InResponse (lock_ok : bool) (inst : Z) (buf : list Z)
  | InTimeout (lock_ok : bool) (now : Z).

Definition live_node (n : Z) (st : pldm_state) : bool :=
  existsb (fun w => w_node w =? n) (wait_recv_resp_list st).

(** [None]: not possible here (no such thread, [malloc] giving memory in use, a wait on the
    leaked mutex), or undefined behaviour. *)
Definition pldm_step `{PldmConfig} (sys : pldm_sys) (i : pldm_input)
    : option (pldm_sys * list pldm_event) :=
  let st := s_pldm sys in
  match i with
  | InSend inst msg =>
      '(buf, st, msg) ← pldm_send_prepare st inst msg;
      match buf with
      | None => Some (mk_pldm_sys st (senders sys), [])
      | Some buf => Some (mk_pldm_sys st (senders sys ++ [mk_send_thread inst msg buf Registered]), [])
      end
  | InQueue k malloc now =>
      t ← senders sys !! k;
      match t_stage t with
      | Registered =>
          if match malloc with Some n => live_node n st | None => false end then None
          else
            match pldm_send_queue malloc now st (t_inst t) (t_msg t) (t_buf t) with
            | (BeginError, st) => Some (mk_pldm_sys st (delete k (senders sys)), [])
            | (BeginBlocked, _) => None
            | (BeginSend buf node, st) =>
                Some (mk_pldm_sys st (<[k := set_t_stage (Sending node) t]> (senders sys)),
                  [EvSendMsg (t_inst t) buf (pm_ext_params (t_msg t))])
            end
      | _ => None
      end
  | InReturn k rc =>
      t ← senders sys !! k;
      match t_stage t with
      | Sending node =>
          match node with
          | Some n =>
              if rc =? MCTP_ERROR then
                if mutex_leaked st then None
                else
                  let '(removed, st) := pldm_send_remove n st in
                  Some (mk_pldm_sys st (<[k := set_t_stage (Failing removed) t]> (senders sys)), [])
              else Some (mk_pldm_sys st (delete k (senders sys)), [])
          | None => Some (mk_pldm_sys st (delete k (senders sys)), [])
          end
      | _ => None
      end
  | InUnregister k =>
      t ← senders sys !! k;
      match t_stage t with
      | Failing _ =>
          Some (mk_pldm_sys (snd (unregister_instid st (t_inst t) (t_id t))) (delete k (senders sys)), [])
      | _ => None
      end
  | InResponse lock_ok inst buf =>
      '(_, st, evs) ← pldm_resp_msg_process lock_ok st inst buf (zlen buf);
      Some (mk_pldm_sys st (senders sys), evs)
  | InTimeout lock_ok now =>
      let '(_, st, evs) := pldm_msg_timeout_check lock_ok now st in
      Some (mk_pldm_sys st (senders sys), evs)
  end.

Fixpoint pldm_run `{PldmConfig} (sys : pldm_sys) (ins : list pldm_input) : option (pldm_sys * list pldm_event) :=
  match ins with
  | [] => Some (sys, [])
  | i :: ins =>
      '(sys, out) ← pldm_step sys i;
      '(sys, outs) ← pldm_run sys ins;
      Some (sys, out ++ outs)
  end.

Definition pldm_init_state : pldm_state := mk_pldm_state ∅ 0 [] false.
Definition pldm_init_sys : pldm_sys := mk_pldm_sys pldm_init_state [].

Definition id_set (st : pldm_state) (inst id : Z) : bool := Z.testbit (inst_table_of st inst) id.

(** The request of the thread still waits. *)
Definition own_waiting (st : pldm_state) (t : send_thread) (n : Z) : bool :=
  existsb (fun w => (w_node w =? n) && (w_mctp_inst w =? t_inst t) && (w_inst_id w =? t_id t))
    (wait_recv_resp_list st).

(** A send that fails after its request was answered or timed out, and then takes what is another
    request's: the entry that has got the address of the freed one, or the id given out anew. *)
Definition stray_failure (sys : pldm_sys) (i : pldm_input) : bool :=
  let st := s_pldm sys in
  match i with
  | InReturn k rc =>
      match senders sys !! k with
      | Some t =>
          match t_stage t with
          | Sending (Some n) => (rc =? MCTP_ERROR) && live_node n st && negb (own_waiting st t n)
          | _ => false
          end
      | None => false
      end
  | InUnregister k =>
      match senders sys !! k with
      | Some t =>
          match t_stage t with Failing false => id_set st (t_inst t) (t_id t) | _ => false end
      | None => false
      end
  | _ => false
  end.

(** The states of the runs without one. *)
Inductive pldm_reachable `{PldmConfig} : pldm_sys -> Prop :=
  | reach_init : pldm_reachable pldm_init_sys
  | reach_step sys i sys' out : pldm_reachable sys -> stray_failure sys i = false ->
      pldm_step sys i = Some (sys', out) -> pldm_reachable sys'.

(** ** Lemmas: the instance-id tables *)

Lemma inst_table_of_write st inst num b inst' :
  inst_table_of (write_inst_bit inst num b st) inst' =
    if decide (inst = inst') then
      (if b then inst_table_of st inst .| BIT num else inst_table_of st inst .& Z.lnot (BIT num))
    else inst_table_of st inst'.
Proof.
  unfold write_inst_bit, inst_table_of at 1; simpl. case_decide as E.
  - subst. by rewrite lookup_insert_eq.
  - by rewrite lookup_insert_ne.
Qed.

Lemma id_set_write st inst num b inst' id :
  0 <= num -> 0 <= id ->
  id_set (write_inst_bit inst num b st) inst' id =
    if decide (inst = inst' /\ num = id) then b else id_set st inst' id.
Proof.
  intros Hn Hi. unfold id_set. rewrite inst_table_of_write.
  destruct (decide (inst = inst')) as [->|Hne]; [|by rewrite decide_False by tauto].
  destruct b.
  - rewrite Z.lor_spec, testbit_BIT by done. case_decide as E.
    + destruct E as [_ ->]. by rewrite Z.eqb_refl, orb_true_r.
    + destruct (Z.eqb_spec num id); [tauto|]. by rewrite orb_false_r.
  - rewrite Z.land_spec, Z.lnot_spec, testbit_BIT by done. case_decide as E.
    + destruct E as [_ ->]. by rewrite Z.eqb_refl, andb_false_r.
    + destruct (Z.eqb_spec num id); [tauto|]. by rewrite andb_true_r.
Qed.

Lemma unregister_instid_ok st inst id :
  0 <= id < 32 -> id_set st inst id = true ->
  unregister_instid st inst id = (true, write_inst_bit inst id false st).
Proof.
  intros Hi Hs. unfold unregister_instid, PLDM_MAX_INSTID_COUNT.
  destruct (Z.leb_spec 32 id); [lia|].
  destruct (Z.eqb_spec (inst_table_of st inst) 0) as [E|].
  { unfold id_set in Hs. by rewrite E, Z.bits_0 in Hs. }
  rewrite land_BIT_eqb by lia. unfold id_set in Hs. by rewrite Hs.
Qed.

Lemma mask_range x : 0 <= x .& PLDM_HDR_INST_ID_MASK < 32.
Proof.
  change PLDM_HDR_INST_ID_MASK with (Z.ones 5). rewrite Z.land_ones by lia.
  apply Z.mod_pos_bound. lia.
Qed.

Lemma mask_mod x : x .& PLDM_HDR_INST_ID_MASK = x mod 32.
Proof. change PLDM_HDR_INST_ID_MASK with (Z.ones 5). by rewrite Z.land_ones by lia. Qed.

Lemma find_inst_num_spec n table cur :
  0 <= cur < 32 ->
  match find_inst_num n table cur with
  | (Some id, c) => 0 <= id < 32 /\ Z.testbit table id = false
  | (None, c) => 0 <= c < 32 /\
      forall k, 0 <= k < Z.of_nat n -> Z.testbit table ((cur + k) mod 32) = true
  end.
Proof.
  revert cur. induction n as [|n IH]; intros cur Hc; cbn [find_inst_num].
  - split; [done|lia].
  - rewrite land_BIT_eqb by lia. destruct (Z.testbit table cur) eqn:E; cbn [negb]; [|done].
    specialize (IH _ (mask_range (cur + 1))).
    destruct (find_inst_num n table _) as [[id|] c]; [done|].
    destruct IH as [Hc2 IH]. split; [done|]. intros k Hk.
    destruct (Z.eq_dec k 0) as [->|].
    + by rewrite Z.add_0_r, Z.mod_small.
    + specialize (IH (k - 1) ltac:(lia)). rewrite mask_mod, Zplus_mod_idemp_l in IH.
      by replace (cur + 1 + (k - 1)) with (cur + k) in IH by lia.
Qed.

Lemma register_instid_spec st inst :
  0 <= cur_inst_num st < 32 ->
  match register_instid st inst with
  | (Some id, st') => 0 <= id < 32 /\ id_set st inst id = false /\
      exists c, 0 <= c < 32 /\ st' = set_cur_inst_num c (write_inst_bit inst id true st)
  | (None, st') => (forall id, 0 <= id < 32 -> id_set st inst id = true) /\
      exists c, 0 <= c < 32 /\ st' = set_cur_inst_num c st
  end.
Proof.
  intros Hc. unfold register_instid.
  pose proof (find_inst_num_spec (Z.to_nat PLDM_MAX_INSTID_COUNT) (inst_table_of st inst)
                (cur_inst_num st) Hc) as H.
  destruct (find_inst_num _ _ _) as [[id|] c]; simpl.
  - destruct H. split; [done|split; [done|]]. eexists. split; [|done]. apply mask_range.
  - destruct H as [Hc2 H]. split; [|by exists c]. intros id Hid.
    specialize (H ((id - cur_inst_num st) mod 32)). unfold id_set.
    rewrite Zplus_mod_idemp_r in H.
    replace (cur_inst_num st + (id - cur_inst_num st)) with id in H by lia.
    rewrite (Z.mod_small id) in H by lia. apply H.
    change (Z.of_nat (Z.to_nat PLDM_MAX_INSTID_COUNT)) with 32. apply Z.mod_pos_bound. lia.
Qed.

(** ** Lemmas: the invariant *)

Definition wait_key (w : wait_msg) : Z * Z := (w_mctp_inst w, w_inst_id w).

(** The ids held by senders: by one that has registered and not queued its request yet, and by
    one that took its request off the list again. *)
Definition sender_key (t : send_thread) : option (Z * Z) :=
  match t_stage t with
  | Registered | Failing true =>
      if ph_rq (pm_hdr (t_msg t)) =? 0 then None else Some (t_inst t, t_id t)
  | _ => None
  end.

(** Ids, wait list and mutex, [H] being the ids the senders hold: an id is taken exactly when a
    sender or a waiting request holds it, nobody shares one, list nodes are distinct. *)
Record ids_inv (st : pldm_state) (H : list (Z * Z)) : Prop := {
  inv_cur : 0 <= cur_inst_num st < 32;
  inv_mutex : mutex_leaked st = false;
  inv_range : Forall (fun k => 0 <= k.2 < 32) (H ++ (wait_key <$> wait_recv_resp_list st));
  inv_ids : forall inst id, 0 <= id < 32 ->
    (id_set st inst id = true <-> (inst, id) ∈ H ++ (wait_key <$> wait_recv_resp_list st));
  inv_nodup : NoDup (H ++ (wait_key <$> wait_recv_resp_list st));
  inv_nodes : NoDup (w_node <$> wait_recv_resp_list st) }.

(** The message of a sender is its header and its data; a request is what has a wait entry. *)
Definition sender_wf (t : send_thread) : Prop :=
  t_buf t = pldm_hdr_bytes (pm_hdr (t_msg t)) ++ slice (pm_buf (t_msg t)) 0 (pm_len (t_msg t)) /\
  (ph_rq (pm_hdr (t_msg t)) <> 0 -> 0 <= t_id t < 32) /\
  match t_stage t with
  | Sending (Some _) | Failing _ => ph_rq (pm_hdr (t_msg t)) <> 0
  | Sending None => ph_rq (pm_hdr (t_msg t)) = 0
  | Registered => True
  end.

Definition pldm_inv (sys : pldm_sys) : Prop :=
  ids_inv (s_pldm sys) (omap sender_key (senders sys)) /\ Forall sender_wf (senders sys).

Lemma ids_inv_perm st H H' : H ≡ₚ H' -> ids_inv st H -> ids_inv st H'.
Proof.
  intros HP [Hc Hm Hr Hi Hn Hd]. split; [done|done| | | |done].
  - by rewrite <- HP.
  - intros inst id Hid. rewrite <- HP. by apply Hi.
  - by rewrite <- HP.
Qed.

(** An id is taken, and given back. *)
Lemma ids_inv_take st H inst id c :
  ids_inv st H -> 0 <= id < 32 -> id_set st inst id = false -> 0 <= c < 32 ->
  ids_inv (set_cur_inst_num c (write_inst_bit inst id true st)) ((inst, id) :: H).
Proof.
  intros [Hc Hm Hr Hi Hn Hd] Hid Hf Hc2.
  split; cbn [write_inst_bit set_pldm_inst_table set_cur_inst_num cur_inst_num mutex_leaked wait_recv_resp_list app]; try done.
  - by constructor.
  - intros i k Hk. change (id_set (set_cur_inst_num _ ?s) i k) with (id_set s i k).
    rewrite id_set_write by lia. rewrite elem_of_cons, <- (Hi i k Hk). case_decide as E.
    + destruct E as [-> ->]. split; [by left|done].
    + split; [by right|]. intros [H1|H1]; [|done]. simplify_eq. tauto.
  - constructor; [|done]. intros Hin. apply (Hi inst id Hid) in Hin. congruence.
Qed.

Lemma ids_inv_give st H inst id :
  ids_inv st ((inst, id) :: H) ->
  unregister_instid st inst id = (true, write_inst_bit inst id false st) /\
  ids_inv (write_inst_bit inst id false st) H.
Proof.
  intros [Hc Hm Hr Hi Hn Hd]. cbn [app] in *.
  apply Forall_cons in Hr as [Hid Hr]. cbn [snd] in Hid. apply NoDup_cons in Hn as [Hn1 Hn2].
  split.
  - apply unregister_instid_ok; [done|]. apply Hi; [done|]. apply elem_of_cons. by left.
  - split; cbn [write_inst_bit set_pldm_inst_table cur_inst_num mutex_leaked wait_recv_resp_list]; try done.
    intros i k Hk. rewrite id_set_write by lia. case_decide as E.
    + destruct E as [-> ->]. split; done.
    + rewrite (Hi i k Hk), elem_of_cons. split; [|by right]. intros [H1|H1]; [|done]. simplify_eq. tauto.
Qed.

(** A request is queued by the one who holds its id, and taken off the list again. *)
Lemma ids_inv_queue st H w :
  ids_inv st (wait_key w :: H) -> live_node (w_node w) st = false ->
  ids_inv (set_wait_recv_resp_list (wait_recv_resp_list st ++ [w]) st) H.
Proof.
  intros [Hc Hm Hr Hi Hn Hd] Hf.
  assert (HP : H ++ (wait_key <$> (wait_recv_resp_list st ++ [w])) ≡ₚ (wait_key w :: H) ++ (wait_key <$> wait_recv_resp_list st)).
  { rewrite fmap_app. cbn [app fmap list_fmap]. rewrite app_assoc. symmetry. apply Permutation_cons_append. }
  split; cbn [set_wait_recv_resp_list cur_inst_num mutex_leaked wait_recv_resp_list]; rewrite ?HP; try done.
  - intros inst id Hid. rewrite HP. by apply Hi.
  - rewrite fmap_app. apply NoDup_app. split; [done|]. split; [|apply NoDup_singleton].
    intros x Hx ->%list_elem_of_singleton. apply list_elem_of_fmap in Hx as (v & E & Hv).
    assert (live_node (w_node w) st = true); [|congruence].
    apply existsb_exists. exists v. split; [by apply list_elem_of_In|lia].
Qed.

Lemma ids_inv_unqueue st H pre w post :
  ids_inv st H -> wait_recv_resp_list st = pre ++ w :: post ->
  ids_inv (set_wait_recv_resp_list (pre ++ post) st) (wait_key w :: H).
Proof.
  intros [Hc Hm Hr Hi Hn Hd] E. rewrite E in *.
  assert (HP : (wait_key w :: H) ++ (wait_key <$> (pre ++ post)) ≡ₚ H ++ (wait_key <$> (pre ++ w :: post))).
  { rewrite !fmap_app, fmap_cons. cbn [app]. rewrite <- Permutation_middle. symmetry. rewrite <- Permutation_middle. done. }
  split; cbn [set_wait_recv_resp_list cur_inst_num mutex_leaked wait_recv_resp_list]; rewrite ?HP; try done.
  - intros inst id Hid. rewrite HP. by apply Hi.
  - rewrite fmap_app, fmap_cons, <- Permutation_middle in Hd. apply NoDup_cons in Hd as [_ Hd]. by rewrite fmap_app.
Qed.

Lemma take_match_spec test l :
  match take_match test l with
  | Some (w, rest) => exists pre post, l = pre ++ w :: post /\ rest = pre ++ post /\
      test w = true /\ Forall (fun v => test v = false) pre
  | None => Forall (fun v => test v = false) l
  end.
Proof.
  induction l as [|v l IH]; simpl; [done|]. destruct (test v) eqn:E.
  - exists [], l. done.
  - destruct (take_match test l) as [[w rest]|]; simpl; [|by constructor].
    destruct IH as (pre & post & -> & -> & Hw & Hp). exists (v :: pre), post.
    split_and!; try done. by constructor.
Qed.

Lemma remove_node_app pre w post :
  NoDup (w_node <$> (pre ++ w :: post)) ->
  remove_node (w_node w) (pre ++ w :: post) = pre ++ post.
Proof.
  rewrite fmap_app, fmap_cons. intros Hn. apply NoDup_app in Hn as (_ & H1 & H2).
  apply NoDup_cons in H2 as [H2 _]. unfold remove_node.
  rewrite filter_app, filter_cons_False by (intros H; by apply H).
  f_equal.
  - apply filter_all. intros v Hv E. apply (H1 (w_node v)).
    + by apply list_elem_of_fmap_2.
    + rewrite E. apply elem_of_cons. by left.
  - apply filter_all. intros v Hv E. apply H2. rewrite <- E. by apply list_elem_of_fmap_2.
Qed.

Lemma ids_inv_init : ids_inv pldm_init_state [].
Proof.
  split; simpl; [lia|done|constructor| |constructor|constructor].
  intros inst id Hid. split.
  - unfold id_set, inst_table_of. simpl. by rewrite lookup_empty, Z.bits_0.
  - by intros ?%not_elem_of_nil.
Qed.

(** Taking one waiting request off the list and giving its id back, wherever it was. *)
Lemma ids_inv_complete st H pre w post :
  ids_inv st H -> wait_recv_resp_list st = pre ++ w :: post ->
  forall st1, st1 = set_wait_recv_resp_list (pre ++ post) st ->
  unregister_instid st1 (w_mctp_inst w) (w_inst_id w)
    = (true, write_inst_bit (w_mctp_inst w) (w_inst_id w) false st1) /\
  ids_inv (write_inst_bit (w_mctp_inst w) (w_inst_id w) false st1) H.
Proof. intros Hinv E st1 ->. apply ids_inv_give. by eapply ids_inv_unqueue. Qed.

Lemma ids_inv_set_cur st H c : ids_inv st H -> 0 <= c < 32 -> ids_inv (set_cur_inst_num c st) H.
Proof. intros [? ? ? ? ? ?] ?. by split. Qed.

(** The message that is put together: the header and the data. *)
Lemma send_buffer h data len b1 d b2 :
  mem_write (zeros (u16 (4 + len))) 0 (pldm_hdr_bytes h) = Some b1 ->
  mem_read data 0 len = Some d -> mem_write b1 4 d = Some b2 -> b2 = pldm_hdr_bytes h ++ slice data 0 len.
Proof.
  intros E1 E2 E3. pose proof (mem_write_length _ _ _ _ E1) as L1. pose proof (mem_write_length _ _ _ _ E3) as L3.
  rewrite zlen_zeros in L1 by apply u16_range.
  apply mem_write_prefix in E1. change (0 + zlen (pldm_hdr_bytes h)) with 4 in E1.
  assert (Hd : d = slice data 0 len /\ zlen d = len /\ 0 <= len).
  { unfold mem_read in E2. case_bools. split; [done|]. split; [|done]. rewrite zlen_slice; lia. }
  destruct Hd as (-> & Hl & Hl0).
  assert (Hle : 4 + len <= u16 (4 + len)).
  { unfold mem_write in E3. case_bools. lia. }
  assert (u16 (4 + len) <= 4 + len) by (unfold u16; apply Z.mod_le; lia).
  apply mem_write_prefix in E3. rewrite Hl, E1 in E3. rewrite slice_all in E3 by lia. exact E3.
Qed.

(** What [pldm_send_prepare] does on every branch. *)
Lemma send_prepare_spec st H inst msg buf st' msg' :
  ids_inv st H -> pldm_send_prepare st inst msg = Some (buf, st', msg') ->
  ph_rq (pm_hdr msg') = ph_rq (pm_hdr msg) /\
  match buf with
  | None => ids_inv st' H /\ ph_rq (pm_hdr msg) <> 0 /\ (forall id, 0 <= id < 32 -> id_set st inst id = true)
  | Some buf =>
      buf = pldm_hdr_bytes (pm_hdr msg') ++ slice (pm_buf msg') 0 (pm_len msg') /\
      if ph_rq (pm_hdr msg) =? 0 then st' = st
      else let id := ph_inst_id (pm_hdr msg') in
           0 <= id < 32 /\ id_set st inst id = false /\ ids_inv st' ((inst, id) :: H) /\
           wait_recv_resp_list st' = wait_recv_resp_list st
  end.
Proof.
  intros Hinv Hp. unfold pldm_send_prepare in Hp.
  destruct (Z.eqb_spec (ph_rq (pm_hdr msg)) 0) as [E0|E0]; cbn [negb] in Hp.
  - destruct (mem_write _ 0 _) as [b1|] eqn:E1; [|done]. cbn [mbind option_bind] in Hp.
    destruct (mem_read _ _ _) as [d|] eqn:E2; [|done]. cbn [mbind option_bind] in Hp.
    destruct (mem_write _ 4 _) as [b2|] eqn:E3; [|done]. cbn [mbind option_bind] in Hp.
    injection Hp as <- <- <-. split; [done|]. split; [|done]. by eapply send_buffer.
  - pose proof (register_instid_spec st inst (inv_cur _ _ Hinv)) as Hreg.
    destruct (register_instid st inst) as [[id|] st1].
    + destruct Hreg as (Hid & Hf & c & Hc & ->).
      cbn [pm_len pm_hdr pm_buf pm_ext_params pm_recv_resp_cb pm_timeout_ms pm_timeout_cb] in Hp.
      destruct (mem_write _ 0 _) as [b1|] eqn:E1; [|done]. cbn [mbind option_bind] in Hp.
      destruct (mem_read _ _ _) as [d|] eqn:E2; [|done]. cbn [mbind option_bind] in Hp.
      destruct (mem_write _ 4 _) as [b2|] eqn:E3; [|done]. cbn [mbind option_bind] in Hp.
      injection Hp as <- <- <-. split; [done|]. split; [by eapply send_buffer|].
      cbn [pm_hdr ph_inst_id set_ph_msg_type set_ph_inst_id]. split_and!; try done; try lia. by apply ids_inv_take.
    + destruct Hreg as (Hall & c & Hc & ->). injection Hp as <- <- <-. split; [done|].
      split; [by apply ids_inv_set_cur|done].
Qed.

Lemma inv_waiting st H w :
  ids_inv st H -> w ∈ wait_recv_resp_list st ->
  0 <= w_inst_id w < 32 /\ id_set st (w_mctp_inst w) (w_inst_id w) = true.
Proof.
  intros Hinv Hw. assert (Hin : wait_key w ∈ H ++ (wait_key <$> wait_recv_resp_list st)).
  { apply elem_of_app. right. by apply list_elem_of_fmap_2. }
  pose proof (inv_range _ _ Hinv) as Hr. rewrite Forall_forall in Hr. specialize (Hr _ Hin). split; [exact Hr|].
  by apply (inv_ids _ _ Hinv).
Qed.

Lemma inv_wait_nodup st H : ids_inv st H -> NoDup (wait_key <$> wait_recv_resp_list st).
Proof. intros Hinv. pose proof (inv_nodup _ _ Hinv) as Hn. by apply NoDup_app in Hn as (_ & _ & ?). Qed.

Lemma timeout_loop_spec now l st pre H :
  ids_inv (set_wait_recv_resp_list (pre ++ l) st) H ->
  exists st', timeout_loop now st pre l =
      (true, st', flat_map timeout_events (filter (fun w => w_exp_to_ms w <= now) l)) /\
    ids_inv st' H /\
    wait_recv_resp_list st' = pre ++ filter (fun w => now < w_exp_to_ms w) l.
Proof.
  revert st pre. induction l as [|w l IH]; intros st pre Hinv; cbn [timeout_loop].
  - eexists. split; [done|]. rewrite app_nil_r in *. done.
  - destruct (Z.leb_spec (w_exp_to_ms w) now) as [Hle|Hlt].
    + pose proof (ids_inv_complete _ H pre w l Hinv eq_refl _ eq_refl) as [_ Hinv2].
      assert (Eu : unregister_instid st (w_mctp_inst w) (w_inst_id w) =
        (true, write_inst_bit (w_mctp_inst w) (w_inst_id w) false st)).
      { destruct (inv_waiting _ H w Hinv) as [? Hs];
          [apply elem_of_app; right; apply elem_of_cons; by left|].
        by apply unregister_instid_ok. }
      rewrite Eu. cbn [negb].
      destruct (IH (write_inst_bit (w_mctp_inst w) (w_inst_id w) false st) pre)
        as (st' & -> & Hi & Hw); [exact Hinv2|].
      exists st'. rewrite filter_cons_True by done.
      rewrite filter_cons_False by lia. done.
    + destruct (IH st (pre ++ [w])) as (st' & -> & Hi & Hw); [by rewrite <- app_assoc|].
      exists st'. rewrite filter_cons_False by lia. rewrite filter_cons_True by done.
      split; [done|]. split; [done|]. by rewrite Hw, <- app_assoc.
Qed.

Lemma timeout_check_inv lock_ok now st H ret st' evs :
  ids_inv st H -> pldm_msg_timeout_check lock_ok now st = (ret, st', evs) -> ids_inv st' H.
Proof.
  intros Hinv E. unfold pldm_msg_timeout_check in E.
  destruct lock_ok; cbn [negb] in E; [|by simplify_eq].
  destruct (timeout_loop_spec now (wait_recv_resp_list st) st [] H) as (st1 & E1 & Hi & _).
  { by destruct st. }
  rewrite E1 in E. by simplify_eq.
Qed.

Lemma resp_process_inv lock_ok st H inst buf len ret st' evs :
  ids_inv st H -> pldm_resp_msg_process lock_ok st inst buf len = Some (ret, st', evs) ->
  ids_inv st' H.
Proof.
  intros Hinv E. unfold pldm_resp_msg_process in E.
  destruct (len =? 0); [by simplify_eq|].
  destruct (negb lock_ok || mutex_leaked st); [by simplify_eq|].
  pose proof (take_match_spec (resp_matches inst (pldm_hdr_of buf)) (wait_recv_resp_list st)) as Ht.
  destruct (take_match _ _) as [[w rest]|]; [|by simplify_eq].
  destruct Ht as (pre & post & El & -> & Hm & _).
  assert (inst = w_mctp_inst w) as ->.
  { unfold resp_matches in Hm. reflect_bools. done. }
  destruct (ids_inv_complete st H pre w post Hinv El _ eq_refl) as [Hu Hi].
  rewrite Hu in E. cbn [negb] in E.
  destruct (pm_recv_resp_cb (w_msg w)); [|by simplify_eq].
  destruct (mem_read _ _ _); simplify_eq/=. done.
Qed.

(** *** The senders *)

Lemma delete_update k (l : list send_thread) t' : delete k (<[k := t']> l) = delete k l.
Proof.
  by rewrite !delete_take_drop, take_insert_ge, drop_insert_lt by lia.
Qed.

Lemma pldm_inv_split sys k t :
  pldm_inv sys -> senders sys !! k = Some t ->
  ids_inv (s_pldm sys) (omap sender_key [t] ++ omap sender_key (delete k (senders sys))) /\
  sender_wf t /\ Forall sender_wf (delete k (senders sys)).
Proof.
  intros [Hi Hw] Hk. pose proof (delete_Permutation _ _ _ Hk) as HP. rewrite HP in Hw.
  apply Forall_cons in Hw as [Hw1 Hw2]. split; [|done].
  eapply ids_inv_perm; [|exact Hi]. rewrite HP at 1. by rewrite <- omap_app.
Qed.

Lemma pldm_inv_delete st l k :
  ids_inv st (omap sender_key (delete k l)) -> Forall sender_wf (delete k l) -> pldm_inv (mk_pldm_sys st (delete k l)).
Proof. by split. Qed.

Lemma pldm_inv_update st l k t t' :
  l !! k = Some t -> ids_inv st (omap sender_key [t'] ++ omap sender_key (delete k l)) ->
  sender_wf t' -> Forall sender_wf (delete k l) -> pldm_inv (mk_pldm_sys st (<[k := t']> l)).
Proof.
  intros Hk Hi Hw1 Hw2. pose proof (lookup_lt_Some _ _ _ Hk).
  assert (HP : <[k := t']> l ≡ₚ t' :: delete k l).
  { rewrite <- (delete_update k l t'). apply delete_Permutation. by apply list_lookup_insert_eq. }
  split; cbn [s_pldm senders].
  - eapply ids_inv_perm; [|exact Hi]. rewrite HP. by rewrite <- omap_app.
  - rewrite HP. by constructor.
Qed.

Lemma unregister_clear st inst id : 0 <= id < 32 -> id_set st inst id = false -> unregister_instid st inst id = (false, st).
Proof.
  intros Hid Hf. unfold unregister_instid, PLDM_MAX_INSTID_COUNT. destruct (Z.leb_spec 32 id); [lia|].
  destruct (_ =? 0); [done|]. rewrite land_BIT_eqb by lia. unfold id_set in Hf. by rewrite Hf.
Qed.

Lemma remove_absent n st : live_node n st = false ->
  set_wait_recv_resp_list (remove_node n (wait_recv_resp_list st)) st = st.
Proof.
  intros Hf. unfold remove_node.
  rewrite filter_all; [by destruct st|]. intros w Hw E. unfold live_node in Hf.
  assert (existsb (fun w => w_node w =? n) (wait_recv_resp_list st) = true); [|congruence].
  apply existsb_exists. exists w. split; [by apply list_elem_of_In|lia].
Qed.

(** The entry at an address, and the list without it. *)
Lemma live_split n st H :
  ids_inv st H -> live_node n st = true ->
  exists pre w post, wait_recv_resp_list st = pre ++ w :: post /\ w_node w = n /\
    remove_node n (wait_recv_resp_list st) = pre ++ post /\
    forall t, own_waiting st t n = true <-> wait_key w = (t_inst t, t_id t).
Proof.
  intros Hinv Hl. apply existsb_exists in Hl as (w & Hw & En). apply list_elem_of_In in Hw. apply Z.eqb_eq in En as <-.
  pose proof (inv_nodes _ _ Hinv) as Hd. pose proof (list_elem_of_split _ _ Hw) as (pre & post & El).
  exists pre, w, post. split_and!; try done.
  - rewrite El in Hd |- *. by rewrite remove_node_app.
  - intros t. unfold own_waiting. rewrite existsb_exists. split.
    + intros (v & Hv & Ht). apply list_elem_of_In in Hv. reflect_bools.
      assert (v = w) as -> by by apply (NoDup_fmap_eq w_node _ v w Hd).
      unfold wait_key. congruence.
    + intros E. injection E as E1 E2. exists w. split; [by apply list_elem_of_In|]. rewrite E1, E2, !Z.eqb_refl. done.
Qed.

Lemma pldm_queue_inv `{PldmConfig} sys k malloc now sys' out :
  pldm_inv sys -> pldm_step sys (InQueue k malloc now) = Some (sys', out) -> pldm_inv sys'.
Proof.
  intros Hinv E. cbn [pldm_step] in E. destruct (senders sys !! k) as [t|] eqn:Hk; [|done]. cbn [mbind option_bind] in E.
  destruct (pldm_inv_split _ _ _ Hinv Hk) as (Hi & (Hb & Hr & Hs) & Hw). destruct (t_stage t) eqn:Et; [|done..].
  destruct (match malloc with Some n => _ | None => false end) eqn:Em; [done|].
  unfold pldm_send_queue in E. cbn [omap list_omap] in Hi. unfold sender_key at 1 in Hi. rewrite Et in Hi.
  destruct (Z.eqb_spec (ph_rq (pm_hdr (t_msg t))) 0) as [E0|E0]; cbn [negb] in E.
  - injection E as <- <-. eapply pldm_inv_update; [exact Hk|exact Hi|by split_and!|exact Hw].
  - destruct malloc as [n|].
    + rewrite (inv_mutex _ _ Hi) in E. injection E as <- <-.
      eapply pldm_inv_update; [exact Hk| |by split_and!|exact Hw]. by apply ids_inv_queue.
    + injection E as <- <-. apply pldm_inv_delete; [|done]. destruct (ids_inv_give _ _ _ _ Hi) as [Eu Hu].
      unfold t_id in Eu. by rewrite Eu.
Qed.

Lemma return_inv `{PldmConfig} sys k rc sys' out :
  pldm_inv sys -> pldm_step sys (InReturn k rc) = Some (sys', out) ->
  pldm_inv sys' <-> stray_failure sys (InReturn k rc) = false.
Proof.
  intros Hinv E. cbn [pldm_step stray_failure] in *. destruct (senders sys !! k) as [t|] eqn:Hk; [|done]. cbn [mbind option_bind] in E.
  destruct (pldm_inv_split _ _ _ Hinv Hk) as (Hi & (Hb & Hr & Hs) & Hw). destruct (t_stage t) as [|node|] eqn:Et; try done.
  cbn [omap list_omap] in Hi. unfold sender_key at 1 in Hi. rewrite Et in Hi. cbn [app] in Hi.
  destruct node as [n|]; [|injection E as <- <-; split; [done|intros _; by apply pldm_inv_delete]].
  destruct (rc =? MCTP_ERROR); [|injection E as <- <-; split; [done|intros _; by apply pldm_inv_delete]].
  rewrite (inv_mutex _ _ Hi) in E. cbn [pldm_send_remove] in E. change (existsb _ _) with (live_node n (s_pldm sys)) in E.
  injection E as <- <-.
  cbn [andb]. destruct (live_node n (s_pldm sys)) eqn:El; cbn [andb].
  - destruct (live_split _ _ _ Hi El) as (pre & w & post & Ew & En & -> & Hown). specialize (Hown t).
    pose proof (ids_inv_unqueue _ _ _ _ _ Hi Ew) as Hu. apply Z.eqb_neq in Hs as Hs'.
    destruct (own_waiting (s_pldm sys) t n) eqn:Eo; cbn [negb].
    + split; [done|]. intros _. eapply pldm_inv_update; [exact Hk| |by split_and!|exact Hw].
      cbn [omap list_omap]. unfold sender_key at 1. cbn [set_t_stage t_stage t_msg t_inst]. rewrite Hs'.
      change (t_id (set_t_stage _ t)) with (t_id t). rewrite (proj1 Hown eq_refl) in Hu. exact Hu.
    + split; [|done]. intros Hx. exfalso.
      destruct (pldm_inv_split _ k (set_t_stage (Failing true) t) Hx) as (Hi' & _);
        [apply list_lookup_insert_eq; by eapply lookup_lt_Some|].
      cbn [senders s_pldm] in Hi'. rewrite delete_update in Hi'. cbn [omap list_omap] in Hi'. unfold sender_key at 1 in Hi'.
      cbn [set_t_stage t_stage t_msg t_inst] in Hi'. rewrite Hs' in Hi'. change (t_id (mk_send_thread _ _ _ _)) with (t_id t) in Hi'.
      assert (Hne : wait_key w <> (t_inst t, t_id t)) by (intros HH; apply Hown in HH; congruence).
      pose proof (inv_nodup _ _ Hu) as Hn. cbn [app set_wait_recv_resp_list wait_recv_resp_list] in Hn. apply NoDup_cons in Hn as [Hn _].
      destruct (inv_waiting _ _ w Hi) as [Hid Hset]; [rewrite Ew; apply elem_of_app; right; apply elem_of_cons; by left|].
      apply (inv_ids _ _ Hi' (w_mctp_inst w) (w_inst_id w) Hid) in Hset. cbn [app set_wait_recv_resp_list wait_recv_resp_list] in Hset.
      apply elem_of_cons in Hset as [Hset|Hset]; [|by apply Hn]. by apply Hne.
  - split; [done|]. intros _. rewrite remove_absent by done.
    eapply pldm_inv_update; [exact Hk|exact Hi|by split_and!|exact Hw].
Qed.

Lemma unregister_inv `{PldmConfig} sys k sys' out :
  pldm_inv sys -> pldm_step sys (InUnregister k) = Some (sys', out) ->
  pldm_inv sys' <-> stray_failure sys (InUnregister k) = false.
Proof.
  intros Hinv E. cbn [pldm_step stray_failure] in *. destruct (senders sys !! k) as [t|] eqn:Hk; [|done]. cbn [mbind option_bind] in E.
  destruct (pldm_inv_split _ _ _ Hinv Hk) as (Hi & (Hb & Hr & Hs) & Hw). destruct (t_stage t) as [| |removed] eqn:Et; try done.
  cbn [omap list_omap] in Hi. unfold sender_key at 1 in Hi. rewrite Et in Hi. specialize (Hr Hs).
  injection E as <- <-. destruct removed.
  - apply Z.eqb_neq in Hs as Hs'. rewrite Hs' in Hi. cbn [app] in Hi. destruct (ids_inv_give _ _ _ _ Hi) as [-> Hu].
    split; [done|]. intros _. by apply pldm_inv_delete.
  - cbn [app] in Hi. destruct (id_set (s_pldm sys) (t_inst t) (t_id t)) eqn:Ei.
    + split; [|done]. intros [Hx _]. exfalso. cbn [s_pldm senders] in Hx. rewrite unregister_instid_ok in Hx by done. cbn [snd] in Hx.
      pose proof (proj1 (inv_ids _ _ Hi _ _ Hr) Ei) as Hin.
      apply (inv_ids _ _ Hx (t_inst t) (t_id t) Hr) in Hin. rewrite id_set_write in Hin by lia. by rewrite decide_True in Hin.
    + split; [done|]. intros _. rewrite unregister_clear by done. by apply pldm_inv_delete.
Qed.

Lemma send_inv `{PldmConfig} sys inst msg sys' out :
  pldm_inv sys -> pldm_step sys (InSend inst msg) = Some (sys', out) -> pldm_inv sys'.
Proof.
  intros [Hi Hw] E. cbn [pldm_step] in E. destruct (pldm_send_prepare (s_pldm sys) inst msg) as [[[buf st'] msg']|] eqn:Ep; [|done].
  cbn [mbind option_bind] in E. destruct (send_prepare_spec _ _ _ _ _ _ _ Hi Ep) as [Erq Hs]. destruct buf as [buf|]; injection E as <- <-.
  - destruct Hs as [Hb Hs]. split; cbn [s_pldm senders].
    + rewrite omap_app. cbn [omap list_omap]. unfold sender_key at 2. cbn [t_stage t_msg t_inst]. rewrite Erq.
      destruct (ph_rq (pm_hdr msg) =? 0); [subst st'; by rewrite app_nil_r|].
      destruct Hs as (_ & _ & Hs & _). eapply ids_inv_perm; [|exact Hs]. apply Permutation_cons_append.
    + apply Forall_app. split; [done|]. apply Forall_singleton. split; [done|]. split; [|done]. cbn [t_msg t_id]. rewrite Erq. intros H0.
      apply Z.eqb_neq in H0. rewrite H0 in Hs. apply Hs.
  - destruct Hs as [Hs _]. by split.
Qed.

(** A step keeps the invariant exactly when it is no such failure. *)
Lemma pldm_step_inv `{PldmConfig} sys i sys' out :
  pldm_inv sys -> pldm_step sys i = Some (sys', out) -> pldm_inv sys' <-> stray_failure sys i = false.
Proof.
  intros Hinv E. destruct i as [inst msg|k malloc now|k rc|k|lock_ok inst buf|lock_ok now].
  - split; [done|]. intros _. by eapply send_inv.
  - split; [done|]. intros _. by eapply pldm_queue_inv.
  - by eapply return_inv.
  - by eapply unregister_inv.
  - split; [done|]. intros _. destruct Hinv as [Hi Hw]. cbn [pldm_step] in E.
    destruct (pldm_resp_msg_process _ _ _ _ _) as [[[ret st'] evs]|] eqn:Er; [|done]. injection E as <- <-.
    split; [|done]. by eapply resp_process_inv.
  - split; [done|]. intros _. destruct Hinv as [Hi Hw]. cbn [pldm_step] in E.
    destruct (pldm_msg_timeout_check _ _ _) as [[ret st'] evs] eqn:Er. injection E as <- <-.
    split; [|done]. by eapply timeout_check_inv.
Qed.

Lemma reachable_inv `{PldmConfig} sys : pldm_reachable sys -> pldm_inv sys.
Proof.
  induction 1 as [|sys i sys' out _ IH Hs E].
  - split; [apply ids_inv_init|by constructor].
  - by apply (pldm_step_inv _ _ _ _ IH E).
Qed.

(** ** Properties: the requester *)

Definition held_ids (sys : pldm_sys) : list (Z * Z) :=
  omap sender_key (senders sys) ++ (wait_key <$> wait_recv_resp_list (s_pldm sys)).

Definition demo_request : pldm_msg :=
  mk_pldm_msg (mk_pldm_hdr 0 0 0 0 0 1 0 0 2) [9] 1 (mk_ext 0 0 8 1 0x20) (Some 3) 0 (Some 4).

(** C6: in every run of the service from start-up, whatever the interleaving of the steps of the
    senders, the receive path and the timeout monitor, as long as there is no stray failure, an
    instance id of an MCTP instance is marked used exactly when one waiting request or one send
    under preparation holds it, no two share one, and the monitor has not left the list's mutex
    locked. A stray failure is a send whose [mctp_send_msg] fails after its request was answered
    or timed out, once the freed id or address belongs to another request: every such step, and
    no other, destroys this. *)
Theorem pldm_reachable_inv `{PldmConfig} sys :
  pldm_reachable sys ->
  pldm_inv sys /\
  forall i sys' out, pldm_step sys i = Some (sys', out) -> (pldm_inv sys' <-> stray_failure sys i = false).
Proof.
  intros Hr. pose proof (reachable_inv _ Hr) as Hinv. split; [exact Hinv|]. intros i sys' out. by apply pldm_step_inv.
Qed.
Lemma pldm_reachable_inv_witness :
  exists sys, length (senders sys) = 1%nat /\ pldm_inv sys.
Proof.
  eexists. split.
  2:{ apply pldm_reachable_inv. eapply (reach_step _ (InSend 1 demo_request)); [apply reach_init|reflexivity|].
      vm_compute. reflexivity. }
  reflexivity.
Defined.

(** What a stray failure does: request [A] is answered while its [mctp_send_msg] still runs; 32
    requests later its id is given out again; the call then fails, and the id is freed under the
    new request. When that one times out, the monitor returns with the mutex locked, and the next
    request waits for it for ever. *)
Definition one_request (k : nat) : list pldm_input :=
  [InSend 1 demo_request; InQueue 1 (Some (200 + Z.of_nat k)) 0; InReturn 1 MCTP_SUCCESS].
Definition answer_to (id : Z) : pldm_input := InResponse true 1 [1; id; 0; 2; 0; 0].
Definition stray_run : list pldm_input :=
  [InSend 1 demo_request; InQueue 0 (Some 100) 0; answer_to 0]
  ++ concat ((fun k => one_request k ++ [answer_to (Z.of_nat k)]) <$> seq 1 31)
  ++ one_request 32 ++ [InReturn 0 MCTP_ERROR; InUnregister 0; InTimeout true 30000].

Lemma stray_failure_leaks_mutex :
  match pldm_run pldm_init_sys stray_run with
  | Some (sys, _) =>
      mutex_leaked (s_pldm sys) = true /\
      match pldm_step sys (InSend 1 demo_request) with
      | Some (sys, _) => pldm_step sys (InQueue 0 (Some 300) 30001) = None
      | None => False
      end
  | None => False
  end.
Proof. vm_compute. split; reflexivity. Qed.

Lemma shifted_mask x n : 5 <= n -> (x .<< n) .& 0x1F = 0.
Proof.
  intros Hn. change 0x1F with (Z.ones 5). rewrite Z.land_ones, Z.shiftl_mul_pow2 by lia.
  replace n with (n - 5 + 5) by lia. rewrite Z.pow_add_r, Z.mul_assoc by lia. by apply Z.mod_mul.
Qed.

(** The id a message carries. *)
Lemma inst_id_sent h d : 0 <= ph_inst_id h < 32 -> ph_inst_id (pldm_hdr_of (pldm_hdr_bytes h ++ d)) = ph_inst_id h.
Proof.
  intros Hid. unfold pldm_hdr_of. cbn [ph_inst_id].
  change (rd (pldm_hdr_bytes h ++ d) 1) with (ph_inst_id h .| (ph_rsvd h .<< 5) .| (ph_d h .<< 6) .| (ph_rq h .<< 7)).
  rewrite !Z.land_lor_distr_l, !shifted_mask, !Z.lor_0_r by lia.
  change 0x1F with (Z.ones 5). rewrite Z.land_ones by lia. by apply Z.mod_small.
Qed.

(** C29: in the runs without a stray failure, a request gets an instance id that no waiting request
    of its MCTP instance and no other send holds, and is refused one only when all 32 are held.
    What is given to MCTP carries that id, which no waiting request holds up to then, and the
    request has just joined the end of the list with it. *)
Theorem pldm_send_fresh_id `{PldmConfig} sys :
  pldm_reachable sys ->
  (forall inst msg sys' out, ph_rq (pm_hdr msg) <> 0 -> pldm_step sys (InSend inst msg) = Some (sys', out) ->
     (exists t, senders sys' = senders sys ++ [t] /\ t_inst t = inst /\ 0 <= t_id t < 32 /\
        ~ ((inst, t_id t) ∈ held_ids sys)) \/
     (senders sys' = senders sys /\ forall id, 0 <= id < 32 -> (inst, id) ∈ held_ids sys)) /\
  (forall k t n now sys' out, senders sys !! k = Some t -> ph_rq (pm_hdr (t_msg t)) <> 0 ->
     pldm_step sys (InQueue k (Some n) now) = Some (sys', out) ->
     out = [EvSendMsg (t_inst t) (t_buf t) (pm_ext_params (t_msg t))] /\
     ph_inst_id (pldm_hdr_of (t_buf t)) = t_id t /\
     ~ ((t_inst t, t_id t) ∈ wait_key <$> wait_recv_resp_list (s_pldm sys)) /\
     exists w, wait_recv_resp_list (s_pldm sys') = wait_recv_resp_list (s_pldm sys) ++ [w] /\
       wait_key w = (t_inst t, t_id t) /\ w_msg w = t_msg t).
Proof.
  intros Hr. pose proof (reachable_inv _ Hr) as Hinv. split.
  - intros inst msg sys' out Hrq E. destruct Hinv as [Hi _]. cbn [pldm_step] in E.
    destruct (pldm_send_prepare (s_pldm sys) inst msg) as [[[buf st'] msg']|] eqn:Ep; [|done]. cbn [mbind option_bind] in E.
    destruct (send_prepare_spec _ _ _ _ _ _ _ Hi Ep) as [_ Hs]. apply Z.eqb_neq in Hrq. destruct buf as [buf|]; injection E as <- <-.
    + rewrite Hrq in Hs. destruct Hs as (_ & Hid & Hf & _). left. eexists. split; [done|]. split; [done|]. split; [exact Hid|].
      cbn [t_inst]. intros Hin. apply (inv_ids _ _ Hi) in Hin; [|exact Hid]. unfold t_id in Hin. cbn [t_msg] in Hin. congruence.
    + destruct Hs as (_ & _ & Hall). right. split; [done|]. intros id Hid. apply (inv_ids _ _ Hi); auto.
  - intros k t n now sys' out Hk Hrq E. destruct (pldm_inv_split _ _ _ Hinv Hk) as (Hi & (Hb & Hid & _) & _). specialize (Hid Hrq).
    cbn [pldm_step] in E. rewrite Hk in E. cbn [mbind option_bind] in E. destruct (t_stage t) eqn:Et; [|done..].
    destruct (live_node n _); [done|]. unfold pldm_send_queue in E. apply Z.eqb_neq in Hrq as Hrq'. rewrite Hrq' in E. cbn [negb] in E.
    rewrite (inv_mutex _ _ Hi) in E. injection E as <- <-. split; [done|]. split; [rewrite Hb; by apply inst_id_sent|]. split.
    + pose proof (inv_nodup _ _ Hi) as Hn. cbn [omap list_omap] in Hn. unfold sender_key at 1 in Hn. rewrite Et, Hrq' in Hn.
      cbn [app] in Hn. apply NoDup_cons in Hn as [Hn _]. intros Hin. apply Hn. apply elem_of_app. by right.
    + eexists. split; [done|]. done.
Qed.
Lemma pldm_send_fresh_id_witness :
  exists sys' t, pldm_step pldm_init_sys (InSend 1 demo_request) = Some (sys', []) /\ senders sys' = [t] /\ 0 <= t_id t < 32.
Proof.
  destruct (pldm_send_fresh_id pldm_init_sys reach_init) as [H _].
  destruct (H 1 demo_request (mk_pldm_sys (mk_pldm_state {[1 := 1]} 1 [] false)
    [mk_send_thread 1 (mk_pldm_msg (mk_pldm_hdr 1 0 0 0 0 1 0 0 2) [9] 1 (mk_ext 1 0 8 1 0x20) (Some 3) 0 (Some 4)) [1; 128; 0; 2; 9] Registered]) [])
    as [(t & E & _ & Hid & _)|[E _]]; [done|vm_compute; reflexivity| |discriminate].
  eexists _, t. split; [vm_compute; reflexivity|]. split; [exact E|exact Hid].
Defined.

(** C12: in the runs without a stray failure, a response is paired with the one waiting request of
    the same MCTP instance, instance id, PLDM type and command: that request's handler is called
    once with the payload after the header, the request leaves the list, its id (and no other)
    becomes free. A response nobody waits for changes nothing and calls nobody. (The mutex is
    obtained in time; a message is at most 65539 bytes.) *)
Theorem pldm_response_exact `{PldmConfig} sys inst buf :
  pldm_reachable sys -> 4 <= zlen buf < 65540 ->
  let st := s_pldm sys in
  (forall w, w ∈ wait_recv_resp_list st -> resp_matches inst (pldm_hdr_of buf) w = true ->
     exists st',
       pldm_step sys (InResponse true inst buf) = Some (mk_pldm_sys st' (senders sys),
         match pm_recv_resp_cb (w_msg w) with
         | Some cb => [EvRespCb cb (drop 4 buf)] | None => [] end) /\
       wait_recv_resp_list st' = remove_node (w_node w) (wait_recv_resp_list st) /\
       forall inst' id, 0 <= id -> id_set st' inst' id =
         if decide (inst = inst' /\ w_inst_id w = id) then false else id_set st inst' id) /\
  ((forall w, w ∈ wait_recv_resp_list st -> resp_matches inst (pldm_hdr_of buf) w = false) ->
     pldm_step sys (InResponse true inst buf) = Some (sys, [])).
Proof.
  intros Hr Hl st. pose proof (reachable_inv _ Hr) as [Hinv _]. fold st in Hinv.
  cbn [pldm_step]. fold st. unfold pldm_resp_msg_process. rewrite (inv_mutex _ _ Hinv).
  destruct (Z.eqb_spec (zlen buf) 0); [lia|]. cbn [negb orb].
  pose proof (take_match_spec (resp_matches inst (pldm_hdr_of buf)) (wait_recv_resp_list st)) as Ht.
  split.
  - intros w Hw Hm. destruct (take_match _ _) as [[v rest]|].
    2:{ rewrite Forall_forall in Ht. specialize (Ht _ Hw). simpl in Ht. congruence. }
    destruct Ht as (pre & post & El & -> & Hmv & _).
    assert (v = w) as ->.
    { apply (NoDup_fmap_eq wait_key _ v w (inv_wait_nodup _ _ Hinv)); [|done|].
      - rewrite El. apply elem_of_app. right. apply elem_of_cons. by left.
      - unfold resp_matches in Hm, Hmv. reflect_bools. unfold wait_key, w_inst_id. congruence. }
    assert (inst = w_mctp_inst w) as -> by (unfold resp_matches in Hm; reflect_bools; done).
    destruct (ids_inv_complete st _ pre w post Hinv El _ eq_refl) as [-> _]. cbn [negb].
    destruct (inv_waiting st _ w Hinv Hw) as [Hid _].
    exists (write_inst_bit (w_mctp_inst w) (w_inst_id w) false
      (set_wait_recv_resp_list (pre ++ post) st)). split; [|split].
    + destruct (pm_recv_resp_cb (w_msg w)); [|done].
      rewrite u16_id, mem_read_Some by lia. cbn [mbind option_bind]. repeat f_equal.
      unfold slice. apply take_ge. rewrite length_drop. unfold zlen. lia.
    + cbn [write_inst_bit set_pldm_inst_table set_wait_recv_resp_list wait_recv_resp_list].
      rewrite El. symmetry. apply remove_node_app. rewrite <- El. apply Hinv.
    + intros inst' id Hi. by rewrite id_set_write by lia.
  - intros Hnone. destruct (take_match _ _) as [[v rest]|]; [|by destruct sys].
    destruct Ht as (pre & post & El & _ & Hmv & _). rewrite Hnone in Hmv; [done|].
    rewrite El. apply elem_of_app. right. apply elem_of_cons. by left.
Qed.
Lemma pldm_response_exact_witness :
  exists sys, wait_recv_resp_list (s_pldm sys) <> [] /\ exists sys',
    pldm_step sys (answer_to 0) = Some (sys', [EvRespCb 3 [0; 0]]).
Proof.
  set (msg := mk_pldm_msg (mk_pldm_hdr 1 0 0 0 0 1 0 0 2) [9] 1 (mk_ext 1 0 8 1 0x20) (Some 3) 0 (Some 4)).
  set (w := mk_wait 100 1 30005 msg).
  set (sys := mk_pldm_sys (mk_pldm_state {[1 := 1]} 1 [w] false) [mk_send_thread 1 msg [1; 128; 0; 2; 9] (Sending (Some 100))]).
  exists sys. split; [done|].
  destruct (pldm_response_exact sys 1 [1; 0; 0; 2; 0; 0]) as [H _].
  - eapply (reach_step _ (InQueue 0 (Some 100) 5));
      [eapply (reach_step _ (InSend 1 demo_request)); [apply reach_init|reflexivity|vm_compute; reflexivity]|reflexivity|vm_compute; reflexivity].
  - unfold zlen; simpl; lia.
  - destruct (H w) as (st' & E & _); [by left|reflexivity|]. eexists. exact E.
Defined.

(** The timeout check removes exactly the waiting requests whose deadline has
    passed, calls the timeout handler of each once in list order, keeps the others in
    order, frees exactly the removed ids, and always releases the mutex. *)
Theorem pldm_timeout_exact `{PldmConfig} sys now :
  pldm_reachable sys ->
  let st := s_pldm sys in
  let expired := filter (fun w => w_exp_to_ms w <= now) (wait_recv_resp_list st) in
  exists st', pldm_step sys (InTimeout true now) = Some (mk_pldm_sys st' (senders sys), flat_map timeout_events expired) /\
    wait_recv_resp_list st' = filter (fun w => now < w_exp_to_ms w) (wait_recv_resp_list st) /\
    (forall inst id, 0 <= id < 32 -> (id_set st' inst id = true <->
       id_set st inst id = true /\ ~ ((inst, id) ∈ wait_key <$> expired))) /\
    mutex_leaked st' = false.
Proof.
  intros Hr st expired. pose proof (reachable_inv _ Hr) as [Hinv _]. fold st in Hinv.
  cbn [pldm_step]. fold st. unfold pldm_msg_timeout_check. cbn [negb].
  destruct (timeout_loop_spec now (wait_recv_resp_list st) st [] (omap sender_key (senders sys))) as (st' & -> & Hi & Hw).
  { by destruct st. }
  exists st'. split; [done|]. split; [done|]. split; [|apply Hi].
  intros inst id Hid. rewrite (inv_ids _ _ Hi inst id Hid), (inv_ids _ _ Hinv inst id Hid), Hw.
  simpl app. pose proof (inv_nodup _ _ Hinv) as Hn. apply NoDup_app in Hn as (_ & Hd & Hn).
  subst expired. rewrite !elem_of_app, !list_elem_of_fmap. split.
  - intros [H0|(w & E & Hin)].
    + split; [by left|]. intros (v & E' & Hv). apply list_elem_of_filter in Hv as [_ Hv]. apply (Hd _ H0).
      rewrite E'. by apply (list_elem_of_fmap_2 wait_key).
    + apply list_elem_of_filter in Hin as [Hlt Hin].
      split; [right; by exists w|]. intros (v & E' & Hv). apply list_elem_of_filter in Hv as [Hle Hv].
      assert (v = w) as -> by (apply (NoDup_fmap_eq wait_key _ v w Hn); congruence). lia.
  - intros [[H0|(w & E & Hin)] Hne]; [by left|]. right. exists w. split; [done|]. apply list_elem_of_filter. split; [|done].
    destruct (Z.lt_ge_cases now (w_exp_to_ms w)); [done|]. exfalso. apply Hne. exists w.
    split; [done|]. by apply list_elem_of_filter.
Qed.

Lemma fold_set_cmd_bit q l buf c :
  zlen buf = 32 -> Forall (fun k => 0 <= k < 256) l -> 0 <= c ->
  table_bit (fold_left (set_cmd_bit q) l buf) c =
    table_bit buf c ||
    (bool_decide (c ∈ l) &&
     (fst (q c) =? PLDM_SUCCESS) && match snd (q c) with Some _ => true | None => false end).
Proof.
  revert buf. induction l as [|k l IH]; intros buf Hb Hl Hc; cbn [fold_left].
  - rewrite bool_decide_eq_false_2 by apply not_elem_of_nil. by rewrite orb_false_r.
  - apply Forall_cons in Hl as [Hk Hl].
    assert (Hz : zlen (set_cmd_bit q buf k) = 32).
    { unfold set_cmd_bit. destruct (q k) as [rc h]. destruct ((rc =? PLDM_SUCCESS) && _); [|done].
      unfold zlen in *. by rewrite length_insert. }
    rewrite IH by done.
    assert (E : table_bit (set_cmd_bit q buf k) c = table_bit buf c ||
      ((k =? c) && (fst (q c) =? PLDM_SUCCESS)
       && match snd (q c) with Some _ => true | None => false end)).
    { unfold set_cmd_bit. destruct (Z.eqb_spec k c) as [->|Hne]; cbn [andb];
        destruct (q k) as [rc h] eqn:Eq || destruct (q c) as [rc h] eqn:Eq; cbn [fst snd].
      - destruct ((rc =? PLDM_SUCCESS) && _); [|by rewrite orb_false_r].
        rewrite table_bit_set; [|lia|rewrite Hb; apply Z.div_lt_upper_bound; lia|lia].
        by rewrite Z.eqb_refl, orb_true_r.
      - rewrite orb_false_r. destruct ((rc =? PLDM_SUCCESS) && _); [|done].
        rewrite table_bit_set; [|lia|rewrite Hb; apply Z.div_lt_upper_bound; lia|lia].
        destruct (Z.eqb_spec k c); done. }
    rewrite E. destruct (Z.eqb_spec k c) as [->|Hne].
    + rewrite (bool_decide_eq_true_2 (c ∈ c :: l)) by (apply elem_of_cons; by left).
      destruct (table_bit buf c), (bool_decide (c ∈ l)), (fst (q c) =? PLDM_SUCCESS),
        (snd (q c)); done.
    + cbn [andb]. rewrite orb_false_r. do 3 f_equal. apply bool_decide_ext.
      rewrite elem_of_cons. split; [by right|intros [->|?]; done].
Qed.

Lemma find_query_spec fru queries type :
  find_query (query_tbl fru queries) type =
    if bool_decide (type ∈ query_types fru) then Some (queries type) else None.
Proof.
  unfold query_tbl. induction (query_types fru) as [|t l IH]; [done|].
  rewrite fmap_cons; cbn [find_query].
  destruct (Z.eqb_spec type t) as [->|Hne].
  - rewrite bool_decide_eq_true_2; [done|]. by left.
  - rewrite IH. replace (bool_decide (type ∈ t :: l)) with (bool_decide (type ∈ l)); [done|].
    apply bool_decide_ext. rewrite elem_of_cons. split; [by right|intros [->|?]; done].
Qed.

(** The two discovery bitmaps tell the truth: bit [t] of the type bitmap is set
    exactly for the types of the query table, and bit [c] of a type's command bitmap
    exactly for the commands whose query returns a handler; an unknown type and a buffer
    of the wrong size are refused. *)
Theorem pldm_discovery_exact fru queries type buf :
  (zlen buf = 8 -> exists tb, get_supported_pldm_type fru queries buf = (PLDM_SUCCESS, tb) /\
     zlen tb = 8 /\ forall t, 0 <= t < 64 -> (table_bit tb t = true <-> t ∈ query_types fru)) /\
  (zlen buf = 32 -> type ∈ query_types fru ->
     exists cb, get_supported_pldm_commands fru queries type buf = (PLDM_SUCCESS, cb) /\
       forall c, 0 <= c < 256 ->
         (table_bit cb c = true <-> exists fn, queries type c = (PLDM_SUCCESS, Some fn))) /\
  (zlen buf = 32 -> ~ (type ∈ query_types fru) ->
     fst (get_supported_pldm_commands fru queries type buf) = PLDM_ERROR_INVALID_PLDM_TYPE) /\
  (zlen buf <> 8 -> get_supported_pldm_type fru queries buf = (PLDM_ERROR_INVALID_LENGTH, buf)) /\
  (zlen buf <> 32 -> get_supported_pldm_commands fru queries type buf
                       = (PLDM_ERROR_INVALID_LENGTH, buf)).
Proof.
  unfold get_supported_pldm_type, get_supported_pldm_commands,
    GET_PLDM_TYPE_BUF_SIZE, GET_PLDM_COMMAND_BUF_SIZE.
  split_and!.
  - intros ->. eexists. split; [done|].
    assert (E : (query_tbl fru queries).*1 = query_types fru) by (by destruct fru).
    rewrite E. split; [by destruct fru|].
    assert (Hall : forall t, 0 <= t < 64 -> eqb (table_bit
        (fold_left set_type_bit (query_types fru) (zeros 8)) t)
        (bool_decide (t ∈ query_types fru)) = true).
    { apply small_forall. by destruct fru. }
    intros t Ht. specialize (Hall t Ht). apply eqb_prop in Hall. rewrite Hall.
    apply bool_decide_eq_true.
  - intros -> Hin. rewrite find_query_spec, bool_decide_eq_true_2 by done. eexists.
    split; [done|]. intros c Hc. rewrite fold_set_cmd_bit.
    + rewrite table_bit_zeros. rewrite bool_decide_eq_true_2 by (apply elem_of_seqZ; lia).
      destruct (queries type c) as [rc [fn|]]; cbn [fst snd orb andb].
      * rewrite andb_true_r. rewrite Z.eqb_eq. split; [intros ->; by eexists|].
        intros (? & [=]). done.
      * rewrite andb_false_r. split; [done|]. intros (? & [=]).
    + reflexivity.
    + apply Forall_forall. intros k Hk%elem_of_seqZ. lia.
    + lia.
  - intros -> Hin. rewrite find_query_spec, bool_decide_eq_false_2 by done. done.
  - intros H. destruct (Z.eqb_spec (zlen buf) 8); done.
  - intros H. destruct (Z.eqb_spec (zlen buf) 32); done.
Qed.

Lemma request_hdr_bytes buf :
  bytes_ok buf -> 128 <= rd buf 1 ->
  pldm_hdr_bytes (set_ph_rq 0 (pldm_hdr_of buf))
    = [rd buf 0; rd buf 1 - 128; rd buf 2; rd buf 3].
Proof.
  intros Hok H1. unfold pldm_hdr_bytes, pldm_hdr_of, set_ph_rq. cbn [ph_msg_type ph_ic
    ph_inst_id ph_rsvd ph_d ph_rq ph_pldm_type ph_ver ph_cmd].
  pose proof (byte_forall (fun b => (b .& 127) .| (bit b 7 .<< 7) =? b) eq_refl _
    (rd_range buf 0 Hok)) as E0.
  pose proof (byte_forall (fun b => implb (128 <=? b) ((b .& 31) .| (bit b 5 .<< 5)
    .| (bit b 6 .<< 6) .| (0 .<< 7) =? b - 128)) eq_refl _ (rd_range buf 1 Hok)) as E1.
  pose proof (byte_forall (fun b => (b .& 63) .| (((b .>> 6) .& 3) .<< 6) =? b) eq_refl _
    (rd_range buf 2 Hok)) as E2.
  cbv beta in *. apply Z.leb_le in H1. rewrite H1 in E1. cbn [implb] in E1.
  apply Z.eqb_eq in E0, E1, E2. by rewrite E0, E1, E2.
Qed.

Section answered.
Context (fru : bool) (queries : pldm_queries) (lock_ok : bool) (rc : Z) (st : pldm_state)
  (inst : Z) (buf : list Z) (ext : mctp_ext_params).
Context (Hok : bytes_ok buf) (Hl : 4 <= zlen buf < 65540) (Hrq : 128 <= rd buf 1).
Let type : Z := rd buf 2 .& 0x3F.
Let hdr : list Z := [rd buf 0; rd buf 1 - 128; rd buf 2; rd buf 3].

Lemma request_bit : ph_rq (pldm_hdr_of buf) <> 0.
Proof using Hok Hrq.
  unfold pldm_hdr_of; cbn [ph_rq].
  pose proof (byte_forall (fun b => implb (128 <=? b) (bit b 7 =? 1)) eq_refl _
    (rd_range buf 1 Hok)) as E. cbv beta in E. apply Z.leb_le in Hrq. rewrite Hrq in E.
  cbn [implb] in E. apply Z.eqb_eq in E. lia.
Qed.

Lemma cmd_handler_dispatch :
  mctp_pldm_cmd_handler fru queries lock_ok rc st inst buf (zlen buf) ext =
  (resp ← handle_request fru queries buf (zlen buf);
   match resp with
   | None => Some (PLDM_SUCCESS, st, [])
   | Some resp => Some (rc, st, [EvSendMsg inst resp ext])
   end).
Proof using Hok Hl Hrq.
  unfold mctp_pldm_cmd_handler. destruct (Z.eqb_spec (zlen buf) 0); [lia|].
  destruct (Z.eqb_spec (ph_rq (pldm_hdr_of buf)) 0); [|done]. by destruct request_bit.
Qed.

Lemma cmd_handler_unsupported :
  ~ (type ∈ query_types fru) \/ snd (queries type (rd buf 3)) = None
    \/ fst (queries type (rd buf 3)) = PLDM_ERROR ->
  mctp_pldm_cmd_handler fru queries lock_ok rc st inst buf (zlen buf) ext =
    Some (rc, st, [EvSendMsg inst (hdr ++ [PLDM_ERROR_UNSUPPORTED_PLDM_CMD]) ext]).
Proof using Hok Hl Hrq.
  intros Hcase. rewrite cmd_handler_dispatch. unfold handle_request.
  rewrite request_hdr_bytes by done. fold hdr.
  change (ph_pldm_type (set_ph_rq 0 (pldm_hdr_of buf))) with type.
  change (ph_cmd (set_ph_rq 0 (pldm_hdr_of buf))) with (rd buf 3). rewrite find_query_spec.
  destruct (mem_write_two (zeros PLDM_MAX_DATA_SIZE) hdr
    [PLDM_ERROR_UNSUPPORTED_PLDM_CMD]) as (d1 & d2 & E1 & E2 & E3 & E4).
  { by vm_compute. }
  change (zlen hdr) with 4 in *. change (zlen [PLDM_ERROR_UNSUPPORTED_PLDM_CMD]) with 1 in *.
  assert (Er : mem_read d2 0 5 = Some (hdr ++ [PLDM_ERROR_UNSUPPORTED_PLDM_CMD])).
  { rewrite mem_read_Some, <- E4; [done|lia|lia|]. rewrite E3. by vm_compute. }
  rewrite E1. cbn [mbind option_bind]. rewrite E2. cbn [mbind option_bind]. rewrite Er.
  cbn [mbind option_bind].
  destruct (bool_decide (type ∈ query_types fru)) eqn:Ein; [|done].
  apply bool_decide_eq_true in Ein.
  destruct (queries type (rd buf 3)) as [qrc [fn|]]; [|done]. cbn [fst snd] in Hcase.
  destruct Hcase as [H|[H|H]]; [done|done|]. by rewrite H.
Qed.

Lemma cmd_handler_known fn qrc frc resp resp_len :
  type ∈ query_types fru -> queries type (rd buf 3) = (qrc, Some fn) -> qrc <> PLDM_ERROR ->
  fn (drop 4 buf) (zlen buf - 4) ((rd buf 1 - 128) .& 0x1F) = (frc, resp, resp_len) ->
  zlen resp <= 508 -> (frc <> PLDM_LATER_RESP -> 0 <= resp_len <= zlen resp) ->
  mctp_pldm_cmd_handler fru queries lock_ok rc st inst buf (zlen buf) ext =
    if frc =? PLDM_LATER_RESP then Some (PLDM_SUCCESS, st, [])
    else Some (rc, st, [EvSendMsg inst (hdr ++ slice resp 0 resp_len) ext]).
Proof using Hok Hl Hrq.
  intros Hin Hq Hne Hfn Hr Hrl. rewrite cmd_handler_dispatch. unfold handle_request.
  rewrite request_hdr_bytes by done. fold hdr.
  change (ph_pldm_type (set_ph_rq 0 (pldm_hdr_of buf))) with type.
  change (ph_cmd (set_ph_rq 0 (pldm_hdr_of buf))) with (rd buf 3).
  change (rd hdr 1) with (rd buf 1 - 128).
  rewrite find_query_spec, (u16_id (zlen buf - 4)) by lia.
  rewrite bool_decide_eq_true_2 by done. rewrite Hq.
  destruct (Z.eqb_spec qrc PLDM_ERROR); [done|]. rewrite Hfn.
  destruct (mem_write_two (zeros PLDM_MAX_DATA_SIZE) hdr resp) as (d1 & d2 & E1 & E2 & E3 & E4).
  { change (zlen hdr) with 4. rewrite zlen_zeros; unfold PLDM_MAX_DATA_SIZE; lia. }
  change (zlen hdr) with 4 in *. rewrite E1. cbn [mbind option_bind]. rewrite E2.
  cbn [mbind option_bind]. destruct (Z.eqb_spec frc PLDM_LATER_RESP) as [|Hfrc]; [done|]. specialize (Hrl Hfrc).
  rewrite u16_id by lia. rewrite mem_read_Some; [|lia|lia|].
  2:{ rewrite E3, zlen_zeros; unfold PLDM_MAX_DATA_SIZE; lia. }
  cbn [mbind option_bind]. do 6 f_equal.
  rewrite <- (slice_slice d2 _ (4 + zlen resp)) by lia. rewrite E4.
  rewrite (slice_split _ 0 4 resp_len) by lia.
  rewrite slice_app_l by done. rewrite slice_all by done.
  by rewrite slice_app_r.
Qed.
End answered.

(** C33: every PLDM request is answered by its handler or refused: the reply goes to the
    sender's parameters and starts with the request's header with the request bit cleared;
    a type or command without a handler gets completion code 0x05, a known one gets the
    bytes its handler produced, for the handler's length. *)
Theorem pldm_request_answered fru queries lock_ok rc st inst buf ext :
  bytes_ok buf -> 4 <= zlen buf < 65540 -> 128 <= rd buf 1 ->
  let type := rd buf 2 .& 0x3F in
  let reply d := Some (rc, st, [EvSendMsg inst ([rd buf 0; rd buf 1 - 128; rd buf 2; rd buf 3] ++ d) ext]) in
  let run := mctp_pldm_cmd_handler fru queries lock_ok rc st inst buf (zlen buf) ext in
  (~ (type ∈ query_types fru) \/ snd (queries type (rd buf 3)) = None
     \/ fst (queries type (rd buf 3)) = PLDM_ERROR -> run = reply [PLDM_ERROR_UNSUPPORTED_PLDM_CMD]) /\
  (forall fn qrc, type ∈ query_types fru -> queries type (rd buf 3) = (qrc, Some fn) ->
     qrc <> PLDM_ERROR ->
     forall frc resp resp_len,
     fn (drop 4 buf) (zlen buf - 4) ((rd buf 1 - 128) .& 0x1F) = (frc, resp, resp_len) ->
     zlen resp <= 508 -> 0 <= resp_len <= zlen resp ->
     run = if frc =? PLDM_LATER_RESP then Some (PLDM_SUCCESS, st, [])
           else reply (slice resp 0 resp_len)).
Proof.
  intros Hok Hl Hrq type reply run. split.
  - by apply cmd_handler_unsupported.
  - intros. by eapply cmd_handler_known.
Qed.
Lemma pldm_request_answered_witness :
  mctp_pldm_cmd_handler false (fun _ _ => (PLDM_SUCCESS, None)) true 0 pldm_init_state 1
    [1; 0x85; 0x3F; 0x77] 4 (mk_ext 0 0 8 1 0x20)
  = Some (0, pldm_init_state, [EvSendMsg 1 [1; 5; 0x3F; 0x77; 5] (mk_ext 0 0 8 1 0x20)]).
Proof.
  apply (pldm_request_answered false (fun _ _ => (PLDM_SUCCESS, None)) true 0 pldm_init_state 1
    [1; 0x85; 0x3F; 0x77]).
  - repeat constructor; lia.
  - unfold zlen; simpl; lia.
  - unfold rd; simpl; lia.
  - right. left. reflexivity.
Defined.

(** ** Properties: the synchronous read *)

(** The first of the attempts [k .. k+n-1] that gets a response. *)
Fixpoint first_response (attempt : Z -> read_attempt) (n : nat) (k : Z) : option (list Z) :=
  match n with
  | O => None
  | S n => match attempt k with
           | AttResp data _ => Some data
           | _ => first_response attempt n (k + 1)
           end
  end.

Definition attempts_ok (attempt : Z -> read_attempt) : Prop :=
  forall k data rlen, attempt k = AttResp data rlen -> rlen = zlen data.

Lemma read_loop_spec attempt n k rbuf ret :
  attempts_ok attempt ->
  exists r, read_loop attempt n k rbuf (zlen rbuf) ret = Some r /\
    match first_response attempt n k with
    | None => r = ReadReturn 0 rbuf
    | Some [] => r = ReadBlocked
    | Some data => exists rbuf', r = ReadReturn (Z.min (zlen data) (zlen rbuf)) rbuf' /\
        zlen rbuf' = zlen rbuf /\
        slice rbuf' 0 (Z.min (zlen data) (zlen rbuf)) = slice data 0 (zlen rbuf)
    end.
Proof.
  intros Hok. revert k ret. induction n as [|n IH]; intros k ret; cbn [read_loop first_response].
  - eexists. done.
  - destruct (attempt k) as [| |data rlen|] eqn:E; try apply IH.
    apply Hok in E as ->. unfold pldm_read_resp_handler.
    destruct data as [|x data]; [by eexists|].
    set (l := x :: data). assert (0 < zlen l) by (subst l; rewrite zlen_cons; pose proof (zlen_nonneg data); lia).
    destruct (Z.eqb_spec (zlen l) 0); [lia|]. pose proof (zlen_nonneg rbuf) as Hr.
    replace (if zlen rbuf <? zlen l then zlen rbuf else zlen l) with (Z.min (zlen l) (zlen rbuf))
      by (destruct (Z.ltb_spec (zlen rbuf) (zlen l)); lia).
    set (m := Z.min (zlen l) (zlen rbuf)) in *.
    rewrite mem_read_Some by lia. cbn [mbind option_bind].
    assert (Hz : zlen (slice l 0 m) = m) by (apply zlen_slice; lia).
    destruct (mem_write_Some rbuf 0 (slice l 0 m)) as [b Hb]; [lia|lia|].
    rewrite Hb. cbn [mbind option_bind]. eexists. split; [done|]. exists b.
    pose proof (mem_write_length _ _ _ _ Hb). apply mem_write_prefix in Hb.
    rewrite Hz, Z.add_0_l in Hb. split_and!; [done|done|]. rewrite Hb.
    change (slice rbuf 0 0) with (@nil Z). cbn [app]. subst m.
    destruct (Z.min_spec (zlen l) (zlen rbuf)) as [[? ->]|[? ->]]; [|done].
    by rewrite !slice_all by lia.
Qed.

(** The retries where the platform configures none. *)
Lemma default_retries msg : read_max_retry (H := pldm_defaults) msg = 3.
Proof. unfold read_max_retry. by repeat case_match. Qed.

(** C36: [mctp_pldm_read] makes at most as many attempts as configured for the type and command of
    the request (three, where the platform does not say otherwise) and then returns 0; the first
    attempt that is answered ends it with the response's length, capped at the buffer
    size, and that many bytes of it in the buffer. An answer without any byte after the
    PLDM header makes it wait for ever. *)
Theorem pldm_read_outcome `{PldmConfig} attempt msg rbuf :
  attempts_ok attempt -> 0 < zlen rbuf ->
  exists r, mctp_pldm_read true true attempt msg rbuf (zlen rbuf) = Some r /\
    match first_response attempt (Z.to_nat (read_max_retry msg)) 0 with
    | None => r = ReadReturn 0 rbuf
    | Some [] => r = ReadBlocked
    | Some data => exists rbuf', r = ReadReturn (Z.min (zlen data) (zlen rbuf)) rbuf' /\
        zlen rbuf' = zlen rbuf /\
        slice rbuf' 0 (Z.min (zlen data) (zlen rbuf)) = slice data 0 (zlen rbuf)
    end.
Proof.
  intros Hok Hr. unfold mctp_pldm_read. destruct (Z.eqb_spec (zlen rbuf) 0); [lia|].
  by apply read_loop_spec.
Qed.
Lemma pldm_read_outcome_witness :
  mctp_pldm_read true true (fun k => if k =? 1 then AttResp [] 0 else AttTimeout)
    (mk_pldm_msg (mk_pldm_hdr 1 0 0 0 0 1 0 0 2) [9] 1 (mk_ext 1 0 8 1 0x20) None 0 None)
    [0; 0; 0; 0] 4 = Some ReadBlocked.
Proof.
  destruct (pldm_read_outcome (fun k => if k =? 1 then AttResp [] 0 else AttTimeout)
    (mk_pldm_msg (mk_pldm_hdr 1 0 0 0 0 1 0 0 2) [9] 1 (mk_ext 1 0 8 1 0x20) None 0 None)
    [0; 0; 0; 0]) as (r & E & Hr).
  - intros k d l H. destruct (k =? 1); [|discriminate]. injection H as <- <-. reflexivity.
  - unfold zlen; simpl; lia.
  - simpl in Hr. subst r. exact E.
Defined.

(** An IPMI request bridged over PLDM whose attempts all go unanswered
    reports success (0) and leaves the request's own fields in the message, as if they
    were the answer; one answered with 5 to 255 bytes returns the netfn, command,
    completion code and data of the response. *)
Theorem pldm_ipmi_request_outcome `{PldmConfig} attempt medium p inst msg :
  attempts_ok attempt -> port_mctp_inst p = Some inst ->
  0 <= pal_find_bus_in_mctp_port (Some p) ->
  0 <= im_data_len msg <= 507 -> zlen (im_data msg) = IPMI_MSG_MAX_LENGTH ->
  let n := Z.to_nat (u8 PLDM_BRIDGE_IPMI_MAX_RETRY) in
  (first_response attempt n 0 = None ->
     pldm_send_ipmi_request true true attempt medium (Some p) msg = Some (Some (0, msg))) /\
  (forall data, first_response attempt n 0 = Some data -> 4 < zlen data < 256 ->
     exists msg', pldm_send_ipmi_request true true attempt medium (Some p) msg
         = Some (Some (0, msg')) /\
       im_netfn msg' = rd data 1 .>> 2 /\ im_cmd msg' = rd data 2 /\
       im_completion_code msg' = (if rd data 0 =? 0 then rd data 3 else CC_UNSPECIFIED_ERROR) /\
       im_data_len msg' = zlen data - 4 /\
       slice (im_data msg') 0 (im_data_len msg') = drop 4 data).
Proof.
  intros Hok Hp Hb Hlen Hdl n. unfold IPMI_MSG_MAX_LENGTH, IPMI_DATA_MAX_LENGTH,
    IPMB_RESP_HEADER_LENGTH in Hdl.
  assert (Hmsg : exists pm, ipmi_request_msg (medium inst) (pal_find_bus_in_mctp_port (Some p)) msg
    = Some pm /\ read_max_retry pm = u8 PLDM_BRIDGE_IPMI_MAX_RETRY).
  { unfold ipmi_request_msg. rewrite mem_read_Some by lia. cbn [mbind option_bind].
    set (h := iana_bytes ++ _).
    destruct (mem_write_two (zeros PLDM_MAX_DATA_SIZE) h (slice (im_data msg) 0 (im_data_len msg)))
      as (d1 & d2 & E1 & E2 & _).
    { change (zlen h) with 5. rewrite zlen_slice, zlen_zeros;
        unfold PLDM_MAX_DATA_SIZE; lia. }
    change (zlen h) with 5 in E2. rewrite E1. cbn [mbind option_bind]. rewrite E2. by eexists. }
  destruct Hmsg as (pm & Hpm & Hn).
  destruct (read_loop_spec attempt n 0 (zeros PLDM_MAX_DATA_SIZE) 0 Hok) as (r & Hr & Hcase).
  assert (Hread : mctp_pldm_read true true attempt pm (zeros PLDM_MAX_DATA_SIZE) PLDM_MAX_DATA_SIZE
    = Some r).
  { unfold mctp_pldm_read. change (PLDM_MAX_DATA_SIZE =? 0) with false. cbn [negb].
    rewrite Hn. fold n.
    rewrite zlen_zeros in Hr by (unfold PLDM_MAX_DATA_SIZE; lia). exact Hr. }
  unfold pldm_send_ipmi_request. destruct (Z.ltb_spec (pal_find_bus_in_mctp_port (Some p)) 0); [lia|].
  rewrite Hp. cbn [mbind option_bind]. rewrite Hpm. cbn [mbind option_bind]. rewrite Hread.
  cbn [mbind option_bind]. split.
  - intros Hf. rewrite Hf in Hcase. by subst r.
  - intros data Hf Hz. rewrite Hf in Hcase. destruct data as [|x d]; [rewrite zlen_nil in Hz; lia|].
    set (data := x :: d) in *. destruct Hcase as (rbuf & -> & Hrl & Hrs).
    rewrite zlen_zeros in * by (unfold PLDM_MAX_DATA_SIZE; lia). unfold PLDM_MAX_DATA_SIZE in *.
    rewrite Z.min_l in * by lia. rewrite (slice_all data) in Hrs by lia.
    assert (Hrd : forall i, 0 <= i < zlen data -> rd rbuf i = rd data i).
    { intros i Hi. rewrite <- Hrs. unfold rd, slice. simpl. rewrite drop_0.
      rewrite lookup_take_lt by lia. done. }
    unfold ipmi_request_finish. rewrite u8_id by lia.
    destruct (Z.eqb_spec (zlen data) 0); [lia|]. destruct (Z.ltb_spec 4 (zlen data)); [|lia].
    rewrite mem_read_Some by lia. cbn [mbind option_bind].
    assert (Hd4 : slice rbuf 4 (zlen data - 4) = drop 4 data).
    { rewrite <- Hrs at 2. unfold slice. simpl. rewrite drop_0, skipn_firstn_comm.
      f_equal. lia. }
    destruct (mem_write_Some (im_data msg) 0 (slice rbuf 4 (zlen data - 4))) as [b Hb'];
      [lia|rewrite zlen_slice by lia; lia|].
    cbn [im_data set_im_cmd set_im_netfn set_im_completion_code]. rewrite Hb'.
    cbn [mbind option_bind]. eexists. split; [done|].
    cbn [im_netfn im_cmd im_completion_code im_data_len im_data set_im_data set_im_data_len
      set_im_cmd set_im_netfn set_im_completion_code].
    rewrite !Hrd by lia. unfold MCTP_SUCCESS. split_and!; try done.
    + by destruct (rd data 0 =? 0).
    + apply mem_write_prefix in Hb'. rewrite zlen_slice, Z.add_0_l in Hb' by lia.
      rewrite Hb'. done.
Qed.
Lemma pldm_ipmi_request_outcome_witness :
  pldm_send_ipmi_request true true (fun _ => AttTimeout) (fun _ => 3)
    (Some (mk_port (Some 1) 2 3 (mk_conf 4 0x20))) (set_im_netfn 6 zero_ipmi_msg)
    = Some (Some (0, set_im_netfn 6 zero_ipmi_msg)).
Proof.
  apply (pldm_ipmi_request_outcome (fun _ => AttTimeout) (fun _ => 3)
    (mk_port (Some 1) 2 3 (mk_conf 4 0x20)) 1 (set_im_netfn 6 zero_ipmi_msg)); try done.
Defined.
