(* ===== verification/PldmBase.v ===== *)
(** Component [common/service/pldm/pldm_base.c]: the handlers of PLDM type 0
    (messaging control and discovery) and their place in the dispatch table of
    [PldmCore.v]. A handler is given the request data, its length and the
    instance id and returns its code, the response bytes and their length. *)

From S2P Require Import Prelude Bytes IpmiMsg MctpCore PldmCore.

(** ** Definitions *)

Definition PLDM_BASE_CMD_CODE_SETTID : Z := 0x01.
Definition PLDM_BASE_CMD_CODE_GETTID : Z := 0x02.
Definition PLDM_BASE_CMD_CODE_GET_PLDM_VER : Z := 0x03.
Definition PLDM_BASE_CMD_CODE_GET_PLDM_TYPE : Z := 0x04.
Definition PLDM_BASE_CMD_CODE_GET_PLDM_CMDS : Z := 0x05.
Definition DEFAULT_TID : Z := 0x86.
Definition INVALID_PLDM_TYPE_IN_REQUEST_DATA : Z := 0x83.
Definition PLDM_START_AND_END : Z := 0x05.

Definition plat_pldm_get_tid : Z := DEFAULT_TID.

Definition set_tid : pldm_cmd_proc_fn := fun buf len instance_id =>
  (PLDM_SUCCESS, [if negb (1 =? len) then PLDM_ERROR_INVALID_LENGTH else PLDM_SUCCESS], 1).

Definition get_tid : pldm_cmd_proc_fn := fun buf len instance_id =>
  (PLDM_SUCCESS, [PLDM_SUCCESS; plat_pldm_get_tid], 2).

Definition get_pldm_version : pldm_cmd_proc_fn := fun buf len instance_id =>
  if negb (len =? 6) then (PLDM_SUCCESS, [PLDM_ERROR_INVALID_LENGTH], 1)
  else
    (PLDM_SUCCESS,
     [PLDM_SUCCESS] ++ le_bytes 4 0 ++ [PLDM_START_AND_END] ++ [0xF1; 0xF0; 0xF0; 0x00], 10).

Section handlers.
(** [get_supported_pldm_type] and [get_supported_pldm_commands] of the table. *)
Context (supported_type : list Z -> Z * list Z)
        (supported_commands : Z -> list Z -> Z * list Z).

Definition get_pldm_types : pldm_cmd_proc_fn := fun buf len instance_id =>
  if 0 <? len then (PLDM_SUCCESS, [PLDM_ERROR_INVALID_LENGTH], 1)
  else
    let '(rc, pldm_types) := supported_type (zeros 8) in
    (PLDM_SUCCESS, rc :: pldm_types, if rc =? PLDM_SUCCESS then 9 else 1).

Definition get_pldm_commands : pldm_cmd_proc_fn := fun buf len instance_id =>
  if negb (len =? 5) then (PLDM_SUCCESS, [PLDM_ERROR_INVALID_LENGTH], 1)
  else
    let '(rc, pldm_commands) := supported_commands (rd buf 0) (zeros 32) in
    let completion_code :=
      if rc =? PLDM_ERROR_INVALID_PLDM_TYPE then INVALID_PLDM_TYPE_IN_REQUEST_DATA
      else if (rc =? PLDM_ERROR) || (rc =? PLDM_ERROR_INVALID_LENGTH) then PLDM_ERROR
      else if rc =? PLDM_SUCCESS then PLDM_SUCCESS
      else PLDM_ERROR in
    (rc, completion_code :: pldm_commands, 33).

Definition pldm_base_cmd_tbl : list (Z * pldm_cmd_proc_fn) :=
  [(PLDM_BASE_CMD_CODE_SETTID, set_tid);
   (PLDM_BASE_CMD_CODE_GETTID, get_tid);
   (PLDM_BASE_CMD_CODE_GET_PLDM_VER, get_pldm_version);
   (PLDM_BASE_CMD_CODE_GET_PLDM_TYPE, get_pldm_types);
   (PLDM_BASE_CMD_CODE_GET_PLDM_CMDS, get_pldm_commands)].

Fixpoint find_cmd (tbl : list (Z * pldm_cmd_proc_fn)) (code : Z) : option pldm_cmd_proc_fn :=
  match tbl with
  | [] => None
  | (cmd_code, fn) :: tbl => if cmd_code =? code then Some fn else find_cmd tbl code
  end.

Definition pldm_base_handler_query (code : Z) : Z * option pldm_cmd_proc_fn :=
  match find_cmd pldm_base_cmd_tbl code with
  | Some fn => (PLDM_SUCCESS, Some fn)
  | None => (PLDM_ERROR, None)
  end.
End handlers.

(** The dispatch table with the base handlers in place, [others] being the query
    functions of the other types. The base handlers read the table they are in;
    what they read of it is which queries succeed, the same for the base row
    whatever its handlers read. *)
Definition with_base (base : Z -> Z * option pldm_cmd_proc_fn) (others : pldm_queries)
    : pldm_queries :=
  fun type code => if type =? PLDM_TYPE_BASE then base code else others type code.

Definition base_shape : Z -> Z * option pldm_cmd_proc_fn :=
  pldm_base_handler_query (fun b => (PLDM_SUCCESS, b)) (fun _ b => (PLDM_SUCCESS, b)).

Definition system_queries (fru : bool) (others : pldm_queries) : pldm_queries :=
  with_base (pldm_base_handler_query
    (get_supported_pldm_type fru (with_base base_shape others))
    (get_supported_pldm_commands fru (with_base base_shape others))) others.

(** The sender [inst], [ext] gives a request to the dispatcher: the bytes sent back to it. *)
Definition pldm_ask (fru : bool) (queries : pldm_queries) (lock_ok : bool) (rc : Z) (st : pldm_state)
    (inst : Z) (ext : mctp_ext_params) (req : list Z) : option (list Z) :=
  match mctp_pldm_cmd_handler fru queries lock_ok rc st inst req (zlen req) ext with
  | Some (_, _, [EvSendMsg _ resp _]) => Some resp
  | _ => None
  end.

(** ** Lemmas *)

Lemma base_query_agree st sc code :
  let q := pldm_base_handler_query st sc code in
  fst q = fst (base_shape code) /\ (snd q = None <-> snd (base_shape code) = None).
Proof.
  unfold base_shape, pldm_base_handler_query, pldm_base_cmd_tbl. cbn [find_cmd].
  repeat match goal with |- context [?c =? code] => destruct (c =? code); [done|] end. done.
Qed.

Lemma fold_set_cmd_bit_ext q1 q2 l b :
  (forall c, fst (q1 c) = fst (q2 c) /\ (snd (q1 c) = None <-> snd (q2 c) = None)) ->
  fold_left (set_cmd_bit q1) l b = fold_left (set_cmd_bit q2) l b.
Proof.
  intros H. revert b. induction l as [|c l IH]; intros b; simpl; [done|].
  rewrite IH. f_equal. unfold set_cmd_bit.
  destruct (H c) as [H1 H2]. destruct (q1 c) as [r1 h1], (q2 c) as [r2 h2]. simpl in *.
  subst r2. destruct h1, h2; try done; exfalso.
  - by discriminate (proj2 H2 eq_refl).
  - by discriminate (proj1 H2 eq_refl).
Qed.

(** The table the base handlers read has the same bitmaps as the table in use. *)
Lemma system_commands_agree fru others type :
  get_supported_pldm_commands fru (with_base base_shape others) type (zeros 32) =
  get_supported_pldm_commands fru (system_queries fru others) type (zeros 32).
Proof.
  unfold get_supported_pldm_commands. rewrite !find_query_spec.
  destruct (negb _); [reflexivity|]. destruct (bool_decide _); [|reflexivity].
  apply (f_equal (pair PLDM_SUCCESS)). apply fold_set_cmd_bit_ext. intros c. unfold system_queries, with_base.
  destruct (type =? PLDM_TYPE_BASE); [|done].
  destruct (base_query_agree (get_supported_pldm_type fru (with_base base_shape others))
    (get_supported_pldm_commands fru (with_base base_shape others)) c) as [H1 H2].
  split; [by symmetry|]. by symmetry.
Qed.

Lemma zlen_set_cmd_bits q l b : zlen (fold_left (set_cmd_bit q) l b) = zlen b.
Proof.
  revert b. induction l as [|c l IH]; intros b; simpl; [done|]. rewrite IH.
  unfold set_cmd_bit. destruct (q c) as [rc h]. destruct ((rc =? PLDM_SUCCESS) && _); [|done].
  unfold zlen. by rewrite length_insert.
Qed.

Lemma zlen_set_type_bits l b : zlen (fold_left set_type_bit l b) = zlen b.
Proof.
  revert b. induction l as [|c l IH]; intros b; simpl; [done|]. rewrite IH.
  unfold set_type_bit. destruct (_ <=? _); [done|]. unfold zlen. by rewrite length_insert.
Qed.

(** ** Properties *)

(** A command of a known type through the whole dispatcher: nothing is sent yet if the handler
    answers later. *)
Lemma type_dispatched fru queries lock_ok rc st inst ext id type d cmd fn resp resp_len frc :
  0 <= id < 32 -> bytes_ok d -> zlen d < 65536 -> 0 <= cmd < 256 ->
  0 <= type < 64 -> type ∈ query_types fru -> queries type cmd = (PLDM_SUCCESS, Some fn) ->
  fn d (zlen d) id = (frc, resp, resp_len) ->
  zlen resp <= 508 -> (frc <> PLDM_LATER_RESP -> 0 <= resp_len <= zlen resp) ->
  mctp_pldm_cmd_handler fru queries lock_ok rc st inst ([1; 128 + id; type; cmd] ++ d) (4 + zlen d) ext
  = if frc =? PLDM_LATER_RESP then Some (PLDM_SUCCESS, st, [])
    else Some (rc, st, [EvSendMsg inst ([1; id; type; cmd] ++ slice resp 0 resp_len) ext]).
Proof.
  intros Hid Hd Hl Hc Ht Hin Hq Hfn Hr Hrl. set (buf := [1; 128 + id; type; cmd] ++ d).
  assert (Hz : zlen buf = 4 + zlen d) by (subst buf; by rewrite zlen_app).
  pose proof (zlen_nonneg d).
  assert (Hm : (128 + id - 128) .& 0x1F = id).
  { rewrite Z.add_simpl_l. change 0x1F with (Z.ones 5). rewrite Z.land_ones by lia.
    by rewrite Z.mod_small by lia. }
  assert (Hty : rd buf 2 .& 0x3F = type).
  { change (rd buf 2) with type. change 0x3F with (Z.ones 6). rewrite Z.land_ones by lia.
    by rewrite Z.mod_small by (change (2 ^ 6) with 64; lia). }
  assert (Hok : bytes_ok buf) by (apply bytes_ok_app; split; [repeat constructor; lia|done]).
  rewrite <- Hz, (cmd_handler_known fru _ lock_ok rc st inst buf ext Hok) with
    (fn := fn) (qrc := PLDM_SUCCESS) (frc := frc) (resp := resp) (resp_len := resp_len);
    rewrite ?Hty; try done.
  - change (rd buf 1) with (128 + id). by rewrite Z.add_simpl_l.
  - lia.
  - change (rd buf 1) with (128 + id). lia.
  - rewrite Hz, Z.add_simpl_l. change (rd buf 1) with (128 + id). rewrite Hm. exact Hfn.
Qed.

Lemma type_dispatch fru queries lock_ok rc st inst ext id type d cmd fn resp resp_len frc :
  0 <= id < 32 -> bytes_ok d -> zlen d < 65536 -> 0 <= cmd < 256 ->
  0 <= type < 64 -> type ∈ query_types fru -> queries type cmd = (PLDM_SUCCESS, Some fn) ->
  fn d (zlen d) id = (frc, resp, resp_len) -> frc <> PLDM_LATER_RESP ->
  zlen resp <= 508 -> 0 <= resp_len <= zlen resp ->
  mctp_pldm_cmd_handler fru queries lock_ok rc st inst ([1; 128 + id; type; cmd] ++ d) (4 + zlen d) ext
  = Some (rc, st, [EvSendMsg inst ([1; id; type; cmd] ++ slice resp 0 resp_len) ext]).
Proof.
  intros. rewrite (type_dispatched fru queries lock_ok rc st inst ext id type d cmd fn resp resp_len frc) by auto.
  by destruct (Z.eqb_spec frc PLDM_LATER_RESP).
Qed.

Lemma pldm_ask_reply fru queries lock_ok rc st inst ext id type d cmd fn resp resp_len frc :
  0 <= id < 32 -> bytes_ok d -> zlen d < 65536 -> 0 <= cmd < 256 ->
  0 <= type < 64 -> type ∈ query_types fru -> queries type cmd = (PLDM_SUCCESS, Some fn) ->
  fn d (zlen d) id = (frc, resp, resp_len) -> frc <> PLDM_LATER_RESP ->
  zlen resp <= 508 -> 0 <= resp_len <= zlen resp ->
  pldm_ask fru queries lock_ok rc st inst ext ([1; 128 + id; type; cmd] ++ d) =
    Some ([1; id; type; cmd] ++ slice resp 0 resp_len).
Proof.
  intros. unfold pldm_ask.
  assert (Hz : zlen ([1; 128 + id; type; cmd] ++ d) = 4 + zlen d) by by rewrite zlen_app.
  by rewrite Hz, (type_dispatch fru queries lock_ok rc st inst ext id type d cmd fn resp resp_len frc).
Qed.

Lemma base_dispatch fru others lock_ok rc st inst ext id d cmd fn resp resp_len frc :
  0 <= id < 32 -> bytes_ok d -> zlen d < 65536 -> 0 <= cmd < 256 ->
  system_queries fru others 0 cmd = (PLDM_SUCCESS, Some fn) ->
  fn d (zlen d) id = (frc, resp, resp_len) -> frc <> PLDM_LATER_RESP ->
  zlen resp <= 508 -> 0 <= resp_len <= zlen resp ->
  mctp_pldm_cmd_handler fru (system_queries fru others) lock_ok rc st inst
    ([1; 128 + id; 0; cmd] ++ d) (4 + zlen d) ext
  = Some (rc, st, [EvSendMsg inst ([1; id; 0; cmd] ++ slice resp 0 resp_len) ext]).
Proof. intros. apply (type_dispatch fru _ lock_ok rc st inst ext id 0 d cmd fn resp resp_len frc); try done. by destruct fru; left. Qed.

Ltac base_cmd fn_ r n :=
  rewrite base_dispatch with (fn := fn_) (resp := r) (resp_len := n) (frc := PLDM_SUCCESS);
  try done.

(** The base commands answer as their structures lay them out, through the whole
    dispatcher: Get TID reports the platform's TID, Get PLDM Types and Get PLDM Commands
    report the bitmaps of the very table that dispatched them (an unknown type is
    answered 0x83), Set TID and Get PLDM Version check their request's length. *)
Theorem pldm_base_commands fru others lock_ok rc st inst ext id d :
  0 <= id < 32 -> bytes_ok d -> zlen d < 65536 ->
  let run cmd := mctp_pldm_cmd_handler fru (system_queries fru others) lock_ok rc st inst
                   ([1; 128 + id; 0; cmd] ++ d) (4 + zlen d) ext in
  let reply cmd r := Some (rc, st, [EvSendMsg inst ([1; id; 0; cmd] ++ r) ext]) in
  run 2 = reply 2 [0; 0x86] /\
  run 1 = reply 1 [if zlen d =? 1 then 0 else PLDM_ERROR_INVALID_LENGTH] /\
  run 3 = reply 3 (if zlen d =? 6 then [0; 0; 0; 0; 0; 5; 0xF1; 0xF0; 0xF0; 0]
                   else [PLDM_ERROR_INVALID_LENGTH]) /\
  (d = [] -> run 4 = reply 4 (0 :: snd (get_supported_pldm_type fru (system_queries fru others)
                                     (zeros 8)))) /\
  (zlen d = 5 -> run 5 = reply 5
     (let '(r, bits) := get_supported_pldm_commands fru (system_queries fru others) (rd d 0)
                          (zeros 32) in
      (if r =? PLDM_SUCCESS then 0 else INVALID_PLDM_TYPE_IN_REQUEST_DATA) :: bits)).
Proof.
  intros Hid Hd Hl run reply. subst run reply. cbv beta. split; [|split; [|split; [|split]]].
  - by base_cmd get_tid [0; 0x86] 2.
  - destruct (zlen d =? 1) eqn:E.
    + base_cmd set_tid [0] 1. unfold set_tid. by rewrite Z.eqb_sym, E.
    + base_cmd set_tid [PLDM_ERROR_INVALID_LENGTH] 1. unfold set_tid. by rewrite Z.eqb_sym, E.
  - destruct (zlen d =? 6) eqn:E.
    + base_cmd get_pldm_version [0; 0; 0; 0; 0; 5; 0xF1; 0xF0; 0xF0; 0] 10.
      unfold get_pldm_version. by rewrite E.
    + base_cmd get_pldm_version [PLDM_ERROR_INVALID_LENGTH] 1.
      unfold get_pldm_version. by rewrite E.
  - intros ->. erewrite base_dispatch; try done; by destruct fru.
  - intros E. rewrite <- system_commands_agree.
    destruct (get_supported_pldm_commands _ _ _ _) as [r bits] eqn:Er.
    assert (Hb : zlen bits = 32 /\ (r = PLDM_SUCCESS \/ r = PLDM_ERROR_INVALID_PLDM_TYPE)).
    { unfold get_supported_pldm_commands in Er. rewrite zlen_zeros in Er by lia.
      change (negb _) with false in Er. cbv iota in Er.
      destruct (find_query _ _); apply pair_eq in Er as [<- <-].
      - rewrite zlen_set_cmd_bits. split; [reflexivity|by left].
      - split; [reflexivity|by right]. }
    destruct Hb as [Hb Hr].
    set (fn_ := get_pldm_commands (get_supported_pldm_commands fru (with_base base_shape others))).
    set (cc := if r =? PLDM_SUCCESS then 0 else INVALID_PLDM_TYPE_IN_REQUEST_DATA).
    rewrite base_dispatch with (fn := fn_) (resp := cc :: bits) (resp_len := 33) (frc := r);
      try assumption; try lia; try (rewrite zlen_cons; lia); [| |unfold fn_, get_pldm_commands|].
    + by rewrite slice_all by (rewrite zlen_cons; lia).
    + reflexivity.
    + rewrite E. change (negb (5 =? 5)) with false. cbv iota. rewrite Er.
      by destruct Hr as [-> | ->].
    + by destruct Hr as [-> | ->].
Qed.
Lemma pldm_base_commands_witness :
  mctp_pldm_cmd_handler false (system_queries false (fun _ _ => (PLDM_ERROR, None))) true 0
    pldm_init_state 7 [1; 128 + 3; 0; 2] 4 (mk_ext 0 0 8 1 0x20)
  = Some (0, pldm_init_state, [EvSendMsg 7 [1; 3; 0; 2; 0; 0x86] (mk_ext 0 0 8 1 0x20)]).
Proof.
  apply (pldm_base_commands false (fun _ _ => (PLDM_ERROR, None)) true 0 pldm_init_state 7
    (mk_ext 0 0 8 1 0x20) 3 []); [lia|constructor|reflexivity].
Defined.
