(* ===== verification/PldmSmbios.v ===== *)
(** Components [common/service/pldm/pldm_smbios.c] and [pldm_fru.c]: the BIOS information structure
    of SMBIOS with its text strings, and GetSMBIOSStructureByType, which transfers structures over
    PLDM; the two commands of PLDM FRU data, which report an empty table. A block of memory is the
    list of its bytes and a C string a position in it. *)

From S2P Require Import Prelude Bytes PldmCore PldmBase.

(** ** Definitions *)

Definition MAXIMUM_STRUCTURE_SIZE : Z := 65535.
Definition MAXIMUM_HANDLE_NUM : Z := 0xFEFF.
Definition GET_ALL_INSTANCES_OF_SPECIFIC_TYPE : Z := 0xFFFF.
Definition PLDM_SMBIOS_CMD_CODE_GET_SMBIOS_STRUCTURE_BY_TYPE : Z := 0x05.
Definition PLDM_SMBIOS_INVALID_DATA_TRANSFER_HANDLE : Z := 0x80.
Definition PLDM_SMBIOS_INVALID_TRANSFER_OPERATION_FLAG : Z := 0x81.
Definition PLDM_SMBIOS_NO_SMBIOS_STRUCTURES : Z := 0x86.
Definition PLDM_SMBIOS_INVALID_SMBIOS_STRUCTURE_TYPE : Z := 0x87.
Definition PLDM_SMBIOS_INVALID_SMBIOS_STRUCTURE_INSTANCE_ID : Z := 0x89.
Definition PLDM_SMBIOS_TRANSFER_FLAG_START : Z := 0x01.
Definition PLDM_SMBIOS_TRANSFER_FLAG_MIDDLE : Z := 0x02.
Definition PLDM_SMBIOS_TRANSFER_FLAG_END : Z := 0x04.
Definition PLDM_SMBIOS_TRANSFER_FLAG_START_AND_END : Z := 0x05.
Definition PLDM_SMBIOS_TRANSFER_OPERATION_FLAG_GET_NEXT_PART : Z := 0x00.
Definition PLDM_SMBIOS_TRANSFER_OPERATION_FLAG_GET_FIRST_PART : Z := 0x01.
Definition SMBIOS_BIOS_INFORMATION : Z := 0.

(** [smbios_bios_information] with its header; [bi_text] is the block [text_strings] points to. *)
Record smbios_bios_information := mk_bios_info {
  bi_type : Z; bi_length : Z; bi_handle : Z;
  bi_vendor : Z; bi_bios_version : Z; bi_starting_address_segment : Z; bi_release_date : Z;
  bi_rom_size : Z; bi_characteristics : Z; bi_extension_bytes : Z; bi_major_release : Z;
  bi_minor_release : Z; bi_ec_major_release : Z; bi_ec_minor_release : Z; bi_extended_rom_size : Z;
  bi_text : option (list Z) }.

Definition set_bi_text (t : option (list Z)) (b : smbios_bios_information) : smbios_bios_information :=
  mk_bios_info (bi_type b) (bi_length b) (bi_handle b) (bi_vendor b) (bi_bios_version b)
    (bi_starting_address_segment b) (bi_release_date b) (bi_rom_size b) (bi_characteristics b)
    (bi_extension_bytes b) (bi_major_release b) (bi_minor_release b) (bi_ec_major_release b)
    (bi_ec_minor_release b) (bi_extended_rom_size b) t.

(** The packed structure up to the pointer: the formatted area. *)
Definition formatted_area (b : smbios_bios_information) : list Z :=
  [bi_type b; bi_length b] ++ le_bytes 2 (bi_handle b) ++ [bi_vendor b; bi_bios_version b]
  ++ le_bytes 2 (bi_starting_address_segment b) ++ [bi_release_date b; bi_rom_size b]
  ++ le_bytes 8 (bi_characteristics b) ++ le_bytes 2 (bi_extension_bytes b)
  ++ [bi_major_release b; bi_minor_release b; bi_ec_major_release b; bi_ec_minor_release b]
  ++ le_bytes 2 (bi_extended_rom_size b).

(** The static variables: [sm_allocated] says whether [structures] points to its array of one
    pointer, to [bios_information]. *)
Record smbios_state := mk_smbios {
  sm_info : smbios_bios_information; sm_count : Z; sm_allocated : bool }.

Definition smbios_static : smbios_state :=
  mk_smbios (mk_bios_info 0 0 0 0 0 0 0 0 0 0 0 0 0 0 0 None) 0 false.

(** [init_bios_information]; the arguments say whether the two allocations succeed. *)
Definition init_bios_information (text_ok array_ok : bool) (st : smbios_state) : smbios_state :=
  if negb text_ok then mk_smbios (set_bi_text None (sm_info st)) (sm_count st) (sm_allocated st)
  else mk_smbios (set_bi_text (Some [0; 0]) (sm_info st)) 1 array_ok.

Definition pldm_smbios_init_structures : bool -> bool -> smbios_state -> smbios_state :=
  init_bios_information.

(** ** Text strings *)

(** [strlen]; [None]: the block ends before the string does. *)
Fixpoint strlen_from (l : list Z) : option Z :=
  match l with
  | [] => None
  | b :: l => if b =? 0 then Some 0 else n ← strlen_from l; Some (n + 1)
  end.
Definition strlen (mem : list Z) (pos : Z) : option Z := strlen_from (drop (Z.to_nat pos) mem).

(** The test [*(iter + len) == '\0' && *(iter + len + 1) == '\0']. *)
Definition ends_at (mem : list Z) (p : Z) : option bool :=
  b ← mem !! Z.to_nat p;
  if b =? 0 then c ← mem !! Z.to_nat (p + 1); Some (c =? 0) else Some false.

(** The three loops over the strings. Every turn moves [iter] on, so that a loop ends, or leaves
    the block ([None]), before its fuel, the size of the block, is used up; the counter [i] of the
    code has 8 bits and never exceeds its bound of 16. *)
Fixpoint count_loop (fuel : nat) (mem : list Z) (iter count i : Z) : option Z :=
  match fuel with
  | O => None
  | S fuel =>
      b ← mem !! Z.to_nat iter;
      if b =? 0 then Some count
      else
        n ← strlen mem iter;
        let len := u8 n in
        let count := u8 (count + 1) in
        last ← ends_at mem (iter + len);
        if (last : bool) then Some count
        else if MAXIMUM_STRUCTURE_SIZE <? u8 (i + 1) then Some 0
        else count_loop fuel mem (iter + len + 1) count (u8 (i + 1))
  end.

Definition pldm_smbios_get_text_strings_count (text_strings : option (list Z)) : option Z :=
  match text_strings with
  | None => Some 0
  | Some mem => count_loop (S (length mem)) mem 0 0 0
  end.

Fixpoint size_loop (fuel : nat) (mem : list Z) (iter size i : Z) : option Z :=
  match fuel with
  | O => None
  | S fuel =>
      n ← strlen mem iter;
      let len := u8 n in
      let size := u8 (size + (len + 1)) in
      last ← ends_at mem (iter + len);
      if (last : bool) then Some (u8 (size + 1))
      else if MAXIMUM_STRUCTURE_SIZE <? u8 (i + 1) then Some 0
      else size_loop fuel mem (iter + len + 1) size (u8 (i + 1))
  end.

Definition pldm_smbios_get_text_strings_size (text_strings : option (list Z)) : option Z :=
  match text_strings with
  | None => Some 0
  | Some mem => size_loop (S (length mem)) mem 0 0 0
  end.

(** The place of a string in the block, [Some None] for none: strings are counted from 1. *)
Fixpoint index_loop (fuel : nat) (mem : list Z) (target iter count i : Z) : option (option Z) :=
  match fuel with
  | O => None
  | S fuel =>
      if target - 1 <=? count then Some (if count =? target - 1 then Some iter else None)
      else
        n ← strlen mem iter;
        let len := u8 n in
        let count := u8 (count + 1) in
        last ← ends_at mem (iter + len);
        if (last : bool) then Some (if count =? target - 1 then Some iter else None)
        else if MAXIMUM_STRUCTURE_SIZE <? u8 (i + 1) then Some None
        else index_loop fuel mem target (iter + len + 1) count (u8 (i + 1))
  end.

(** Without strings the code reads through the null pointer. *)
Definition get_text_string_by_index (text_strings : option (list Z)) (target_string_num : Z)
    : option (option Z) :=
  mem ← text_strings; index_loop (S (length mem)) mem target_string_num 0 0 0.

(** The characters of the string returned. *)
Definition pldm_smbios_get_bios_version (st : smbios_state) : option (option (list Z)) :=
  let b := sm_info st in
  pos ← get_text_string_by_index (bi_text b) (bi_bios_version b);
  match pos with
  | None => Some None
  | Some pos =>
      mem ← bi_text b; n ← strlen mem pos; Some (Some (slice mem pos n))
  end.

(** [malloc_ok]: the block for the new strings, of the size found, is there. *)
Definition pldm_smbios_set_bios_information (malloc_ok : bool) (new : smbios_bios_information)
    (st : smbios_state) : option (smbios_state * Z) :=
  size ← pldm_smbios_get_text_strings_size (bi_text new);
  if negb malloc_ok then
    Some (mk_smbios (set_bi_text None (sm_info st)) (sm_count st) (sm_allocated st), -1)
  else
    text ← mem_read (default [] (bi_text new)) 0 size;
    Some (mk_smbios (set_bi_text (Some text) new) (sm_count st) (sm_allocated st), 0).

(** ** GetSMBIOSStructureByType *)

(** What [realloc] does: the block stays where it is, moves, or there is no memory. *)
Inductive realloc_result := ReallocStays | ReallocMoves | ReallocFails.

(** The [structures_count] structures of the array [structures]. *)
Definition structure_list (st : smbios_state) : option (list smbios_bios_information) :=
  if sm_count st =? 0 then Some [] else if sm_allocated st then Some [sm_info st] else None.

(** [filterStructureDataByType]: the count returned, and the block as the caller still knows it,
    [None] once [realloc] has moved it away from the caller's pointer. [realloc] is asked once
    per structure found. *)
Fixpoint filter_loop (realloc : Z -> realloc_result) (type : Z) (l : list smbios_bios_information)
    (count : Z) (block : option (list smbios_bios_information))
    : Z * option (list smbios_bios_information) :=
  match l with
  | [] => (count, block)
  | s :: l =>
      if bi_type s =? type then
        let count := u8 (count + 1) in
        match realloc count with
        | ReallocFails => (0, block)
        | ReallocStays => filter_loop realloc type l count ((fun b => b ++ [s]) <$> block)
        | ReallocMoves => filter_loop realloc type l count None
        end
      else filter_loop realloc type l count block
  end.

Definition filterStructureDataByType (realloc : Z -> realloc_result) (st : smbios_state) (type : Z)
    : option (Z * option (list smbios_bios_information)) :=
  l ← structure_list st; Some (filter_loop realloc type l 0 (Some [])).

Section block.
(** The caller's block; an entry that was not written is an arbitrary pointer. *)
Context (data : option (list smbios_bios_information)).

Definition entry (i : Z) : option smbios_bios_information := l ← data; l !! Z.to_nat i.

Fixpoint handle_loop (n : nat) (target_handle i : Z) : option Z :=
  match n with
  | O => Some (-1)
  | S n =>
      s ← entry i;
      if bi_handle s =? target_handle then Some i else handle_loop n target_handle (i + 1)
  end.

Definition get_structure_data_index_by_handle (target_handle count : Z) : option Z :=
  handle_loop (Z.to_nat count) target_handle 0.

Definition get_formatted_area_size (structure_type : Z) : Z :=
  if structure_type =? SMBIOS_BIOS_INFORMATION then 26 else 0.

Definition get_structure_text_string (s : smbios_bios_information) : option (list Z) :=
  if bi_type s =? SMBIOS_BIOS_INFORMATION then bi_text s else None.

Fixpoint count_under_loop (n : nat) (formatted_area_size maximum_size i total result : Z) : option Z :=
  match n with
  | O => Some result
  | S n =>
      s ← entry i;
      text_size ← pldm_smbios_get_text_strings_size (get_structure_text_string s);
      let current := u8 (formatted_area_size + text_size) in
      if maximum_size <? total + current then Some result
      else count_under_loop n formatted_area_size maximum_size (i + 1) (u8 (total + current)) (u8 (result + 1))
  end.

Definition get_maximum_data_count_under_size (maximum_size count start_index : Z) : option Z :=
  first ← entry 0;
  let formatted_area_size := get_formatted_area_size (bi_type first) in
  if formatted_area_size =? 0 then Some (-1)
  else count_under_loop (Z.to_nat (count - start_index)) formatted_area_size maximum_size start_index 0 0.

(** The bytes written, and the result: their number, or -1. *)
Fixpoint copy_loop (n : nat) (i : Z) (dest : list Z) : option (list Z * Z) :=
  match n with
  | O => Some (dest, zlen dest)
  | S n =>
      s ← entry i;
      if bi_type s =? SMBIOS_BIOS_INFORMATION then
        size ← pldm_smbios_get_text_strings_size (bi_text s);
        text ← mem_read (default [] (bi_text s)) 0 size;
        copy_loop n (i + 1) (dest ++ formatted_area s ++ text)
      else Some (dest, -1)
  end.

Definition copy_structure_data (start_index count : Z) : option (list Z * Z) :=
  copy_loop (Z.to_nat count) start_index [].
End block.

(** Which structures are sent: their start and their number, or the code of an early return. *)
Definition smbios_select (data : option (list smbios_bios_information)) (count handle flag instance : Z)
    : option (Z + Z * Z) :=
  if negb (instance =? GET_ALL_INSTANCES_OF_SPECIFIC_TYPE) then
    start ← get_structure_data_index_by_handle data instance count; Some (inr (start, 1))
  else if (flag =? PLDM_SMBIOS_TRANSFER_OPERATION_FLAG_GET_FIRST_PART)
          || (flag =? PLDM_SMBIOS_TRANSFER_OPERATION_FLAG_GET_NEXT_PART) then
    start ← (if flag =? PLDM_SMBIOS_TRANSFER_OPERATION_FLAG_GET_FIRST_PART then Some 0
             else get_structure_data_index_by_handle data handle count);
    n ← get_maximum_data_count_under_size data (PLDM_MAX_DATA_SIZE - 4) count (u8 start);
    Some (inr (start, u8 n))
  else Some (inl PLDM_SMBIOS_INVALID_TRANSFER_OPERATION_FLAG).

(** The transfer flag and the next handle; what is not written stays 0. *)
Definition smbios_transfer (data : option (list smbios_bios_information)) (count start n : Z)
    : option (Z * Z) :=
  if start =? 0 then
    if n =? count then Some (PLDM_SMBIOS_TRANSFER_FLAG_START_AND_END, 0)
    else s ← entry data n; Some (PLDM_SMBIOS_TRANSFER_FLAG_START, bi_handle s)
  else if start + n =? count then Some (PLDM_SMBIOS_TRANSFER_FLAG_END, 0)
  else if start + n <? count then
    s ← entry data (start + n); Some (PLDM_SMBIOS_TRANSFER_FLAG_MIDDLE, bi_handle s)
  else Some (0, 0).

(** The handler. [buf]: the memory at the request, whose length the code does not look at; the
    response buffer was cleared by the dispatcher. [exit] frees the block: undefined when it has
    moved. *)
Definition get_smbios_structure_data_by_type (malloc_ok : bool) (realloc : Z -> realloc_result)
    (st : smbios_state) (buf : list Z) : option (Z * list Z * Z) :=
  if negb malloc_ok then Some (u8 (-1), [], 1)
  else
    req ← mem_read buf 0 8;
    let handle := rd32 req 0 in
    let instance := rd16 req 6 in
    let refuse code := Some (code, [code], 1) in
    if MAXIMUM_HANDLE_NUM <? handle then refuse PLDM_SMBIOS_INVALID_DATA_TRANSFER_HANDLE
    else if (MAXIMUM_HANDLE_NUM <? instance) && negb (instance =? GET_ALL_INSTANCES_OF_SPECIFIC_TYPE)
    then refuse PLDM_SMBIOS_INVALID_SMBIOS_STRUCTURE_INSTANCE_ID
    else
      '(count, data) ← filterStructureDataByType realloc st (rd req 5);
      let exit code := (_ ← data; refuse code) in
      sel ← smbios_select data count handle (rd req 4) instance;
      match sel with
      | inl code => refuse code
      | inr (start, n) =>
          if (count =? 0) || (start <? 0) then exit PLDM_SMBIOS_NO_SMBIOS_STRUCTURES
          else if n =? 0 then exit PLDM_ERROR_INVALID_LENGTH
          else if n =? -1 then exit PLDM_SMBIOS_INVALID_SMBIOS_STRUCTURE_TYPE
          else
            '(flag, next) ← smbios_transfer data count start n;
            '(bytes, len) ← copy_structure_data data (u8 start) n;
            if len =? 0 then exit PLDM_SMBIOS_INVALID_SMBIOS_STRUCTURE_TYPE
            else
              _ ← data;
              Some (PLDM_SUCCESS, [PLDM_SUCCESS] ++ le_bytes 4 next ++ [flag] ++ bytes, u16 (6 + len))
      end.

(** What the dispatcher sees of it in a state: a call with undefined behaviour has no response,
    the properties show where none is made. *)
Definition smbios_fn (malloc_ok : bool) (realloc : Z -> realloc_result) (st : smbios_state)
    : pldm_cmd_proc_fn := fun buf _ _ =>
  default (PLDM_ERROR, [], 0) (get_smbios_structure_data_by_type malloc_ok realloc st buf).

Definition pldm_smbios_handler_query (malloc_ok : bool) (realloc : Z -> realloc_result)
    (st : smbios_state) (code : Z) : Z * option pldm_cmd_proc_fn :=
  match find_cmd [(PLDM_SMBIOS_CMD_CODE_GET_SMBIOS_STRUCTURE_BY_TYPE, smbios_fn malloc_ok realloc st)] code with
  | Some fn => (PLDM_SUCCESS, Some fn)
  | None => (PLDM_ERROR, None)
  end.

(** ** PLDM FRU data *)

Definition PLDM_FRU_CMD_GET_FRU_RECORD_TABLE_METADATA : Z := 0x01.
Definition PLDM_FRU_CMD_GET_FRU_RECORD_TABLE : Z := 0x02.
Definition PLDM_FRU_DATA_MAJOR_VERSION : Z := 1.
Definition PLDM_FRU_DATA_MINOR_VERSION : Z := 0.

Definition pldm_fru_get_record_table_metadata : pldm_cmd_proc_fn := fun buf len inst =>
  (PLDM_SUCCESS,
   [PLDM_SUCCESS; PLDM_FRU_DATA_MAJOR_VERSION; PLDM_FRU_DATA_MINOR_VERSION]
   ++ le_bytes 4 0 ++ le_bytes 4 0 ++ le_bytes 2 0 ++ le_bytes 2 0 ++ le_bytes 4 0, 19).

Definition pldm_fru_get_record_table : pldm_cmd_proc_fn := fun buf len inst =>
  (PLDM_SUCCESS, [PLDM_SUCCESS] ++ le_bytes 4 0 ++ [PLDM_START_AND_END], 7 - 1).

Definition pldm_fru_cmd_tbl : list (Z * pldm_cmd_proc_fn) :=
  [(PLDM_FRU_CMD_GET_FRU_RECORD_TABLE_METADATA, pldm_fru_get_record_table_metadata);
   (PLDM_FRU_CMD_GET_FRU_RECORD_TABLE, pldm_fru_get_record_table)].

Definition pldm_fru_handler_query (code : Z) : Z * option pldm_cmd_proc_fn :=
  match find_cmd pldm_fru_cmd_tbl code with
  | Some fn => (PLDM_SUCCESS, Some fn)
  | None => (PLDM_ERROR, None)
  end.

(** The dispatch table with the two query functions in their places. *)
Definition with_smbios (malloc_ok : bool) (realloc : Z -> realloc_result) (st : smbios_state)
    (others : pldm_queries) : pldm_queries :=
  fun type code =>
    if type =? PLDM_TYPE_SMBIOS then pldm_smbios_handler_query malloc_ok realloc st code
    else if type =? PLDM_TYPE_FRU then pldm_fru_handler_query code
    else others type code.

(** ** Lemmas: blocks of text strings *)

(** Strings one after the other, and a second 0 at the end. *)
Fixpoint text_block (ss : list (list Z)) : list Z :=
  match ss with [] => [0] | s :: ss => s ++ 0 :: text_block ss end.

Definition string_ok (s : list Z) : Prop := s <> [] /\ Forall (fun b => 0 < b < 256) s.

Lemma zlen_text_block s ss : zlen (text_block (s :: ss)) = zlen s + 1 + zlen (text_block ss).
Proof. cbn [text_block]. rewrite zlen_app, zlen_cons. lia. Qed.

Lemma text_block_pos ss : 1 <= zlen (text_block ss).
Proof. destruct ss as [|s ss]; [done|]. rewrite zlen_text_block. pose proof (zlen_nonneg s). pose proof (zlen_nonneg (text_block ss)). lia. Qed.

Lemma text_block_count ss : Forall string_ok ss -> zlen ss + zlen ss < zlen (text_block ss).
Proof.
  induction 1 as [|s ss [Hs _] _ IH]; [done|]. rewrite zlen_text_block, zlen_cons.
  destruct s; [done|]. rewrite zlen_cons. pose proof (zlen_nonneg s). lia.
Qed.

Lemma text_block_snoc ss s : text_block (ss ++ [s]) = take (length (text_block ss) - 1) (text_block ss) ++ s ++ [0; 0].
Proof.
  induction ss as [|t ss IH]; [done|]. change ((t :: ss) ++ [s]) with (t :: (ss ++ [s])). cbn [text_block].
  rewrite IH. pose proof (text_block_pos ss). unfold zlen in *. rewrite length_app. cbn [length].
  replace (length t + S (length (text_block ss)) - 1)%nat with (length t + S (length (text_block ss) - 1))%nat by lia.
  rewrite take_app_add, <- app_assoc. cbn [take app]. done.
Qed.

Lemma lookup_mid {A} (pre : list A) x l : (pre ++ x :: l) !! Z.to_nat (zlen pre) = Some x.
Proof. unfold zlen. rewrite Nat2Z.id. by apply list_lookup_middle. Qed.

Lemma strlen_mid pre s rest : Forall (fun b => 0 < b < 256) s -> strlen (pre ++ s ++ 0 :: rest) (zlen pre) = Some (zlen s).
Proof.
  intros Hs. unfold strlen, zlen. rewrite Nat2Z.id, drop_app_length.
  induction Hs as [|b s Hb Hs IH]; [done|]. cbn [app strlen_from]. destruct (Z.eqb_spec b 0); [lia|].
  rewrite IH. cbn [mbind option_bind length]. f_equal. lia.
Qed.

Lemma ends_at_mid pre s c rest : ends_at (pre ++ s ++ 0 :: c :: rest) (zlen pre + zlen s) = Some (c =? 0).
Proof.
  unfold ends_at. rewrite app_assoc, <- zlen_app, lookup_mid. cbn [mbind option_bind]. rewrite Z.eqb_refl.
  change (0 :: c :: rest) with ([0] ++ c :: rest). rewrite app_assoc.
  replace (zlen (pre ++ s) + 1) with (zlen ((pre ++ s) ++ [0])) by (by rewrite zlen_app).
  by rewrite lookup_mid.
Qed.

(** One turn at the string [s]: its length, and whether it is the last. *)
Lemma text_turn pre s ss rest : string_ok s -> zlen s < 256 -> Forall string_ok ss ->
  let mem := pre ++ text_block (s :: ss) ++ rest in
  strlen mem (zlen pre) = Some (zlen s) /\ u8 (zlen s) = zlen s /\
  ends_at mem (zlen pre + zlen s) = Some (match ss with [] => true | _ => false end) /\
  mem = (pre ++ s ++ [0]) ++ text_block ss ++ rest /\ zlen (pre ++ s ++ [0]) = zlen pre + zlen s + 1 /\
  mem !! Z.to_nat (zlen pre) = head s.
Proof.
  intros [Hn Hs] Hl Hss. cbn [text_block]. rewrite <- app_assoc, <- app_comm_cons. pose proof (zlen_nonneg s).
  split; [by apply strlen_mid|]. split; [rewrite u8_id; lia|]. split.
  - destruct Hss as [|t ss [Ht Htb] _]; [cbn [text_block app]; by rewrite ends_at_mid|].
    destruct t as [|b t]; [done|]. cbn [text_block app]. rewrite ends_at_mid. inversion Htb. destruct (Z.eqb_spec b 0); [lia|done].
  - split; [by rewrite <- !app_assoc|]. split; [rewrite !zlen_app; change (zlen [0]) with 1; lia|].
    destruct s as [|b s]; [done|]. apply lookup_mid.
Qed.

Ltac text_step pre s ss rest :=
  let T := fresh in pose proof (text_turn pre s ss rest) as T; cbv zeta in T;
  destruct T as (Hlen & Hu & Hend & Hmem & Hpre & Hhd); [done|lia|done|].

Lemma size_loop_spec ss : forall fuel pre rest size i,
  ss <> [] -> Forall string_ok ss -> zlen (text_block ss) < 256 -> (length ss <= fuel)%nat ->
  size_loop fuel (pre ++ text_block ss ++ rest) (zlen pre) size i = Some (u8 (size + zlen (text_block ss))).
Proof.
  induction ss as [|s ss IH]; intros fuel pre rest size i Hne Hok Hl Hf; [done|].
  apply Forall_cons in Hok as [Hs Hok]. rewrite zlen_text_block in *.
  pose proof (text_block_pos ss). pose proof (zlen_nonneg s). destruct fuel as [|fuel]; [cbn in Hf; lia|].
  text_step pre s ss rest. cbn [size_loop]. rewrite Hlen. cbn [mbind option_bind]. rewrite Hu, Hend. cbn [mbind option_bind].
  destruct ss as [|t ss].
  - f_equal. unfold u8. rewrite Zplus_mod_idemp_l. f_equal. change (zlen (text_block [])) with 1. lia.
  - pose proof (u8_range (i + 1)). destruct (Z.ltb_spec MAXIMUM_STRUCTURE_SIZE (u8 (i + 1))); [unfold MAXIMUM_STRUCTURE_SIZE in *; lia|].
    rewrite Hmem, <- Hpre, IH by (done || lia || (cbn in Hf |- *; lia)). f_equal. unfold u8. rewrite Zplus_mod_idemp_l. f_equal. lia.
Qed.

Lemma count_loop_spec ss : forall fuel pre rest count i,
  ss <> [] -> Forall string_ok ss -> zlen (text_block ss) < 256 -> (length ss <= fuel)%nat ->
  count_loop fuel (pre ++ text_block ss ++ rest) (zlen pre) count i = Some (u8 (count + zlen ss)).
Proof.
  induction ss as [|s ss IH]; intros fuel pre rest count i Hne Hok Hl Hf; [done|].
  apply Forall_cons in Hok as [Hs Hok]. rewrite zlen_text_block in *.
  pose proof (text_block_pos ss). pose proof (zlen_nonneg s). destruct fuel as [|fuel]; [cbn in Hf; lia|].
  text_step pre s ss rest. cbn [count_loop]. rewrite Hhd. destruct Hs as [Hs1 Hs2]. destruct s as [|b s']; [done|].
  cbn [head mbind option_bind]. inversion Hs2. destruct (Z.eqb_spec b 0); [lia|].
  rewrite Hlen. cbn [mbind option_bind]. rewrite Hu, Hend. cbn [mbind option_bind]. rewrite (zlen_cons (b :: s')).
  destruct ss as [|t ss]; [done|].
  pose proof (u8_range (i + 1)). destruct (Z.ltb_spec MAXIMUM_STRUCTURE_SIZE (u8 (i + 1))); [unfold MAXIMUM_STRUCTURE_SIZE in *; lia|].
  rewrite Hmem, <- Hpre, IH by (done || lia || (cbn in Hf |- *; lia)). f_equal. unfold u8. rewrite Zplus_mod_idemp_l. f_equal. lia.
Qed.

Lemma index_loop_spec ss : forall fuel pre rest n count i s,
  Forall string_ok ss -> zlen (text_block ss) < 256 -> 0 <= count -> count + zlen ss < 256 ->
  ss !! n = Some s -> (S n <= fuel)%nat ->
  exists pos, index_loop fuel (pre ++ text_block ss ++ rest) (count + Z.of_nat n + 1) (zlen pre) count i = Some (Some pos) /\
    strlen (pre ++ text_block ss ++ rest) pos = Some (zlen s) /\ slice (pre ++ text_block ss ++ rest) pos (zlen s) = s.
Proof.
  induction ss as [|s ss IH]; intros fuel pre rest n count i u Hok Hl Hc Hcs Hv Hf; [done|].
  apply Forall_cons in Hok as [Hs Hok]. rewrite zlen_text_block, zlen_cons in *. pose proof (zlen_nonneg ss).
  pose proof (text_block_pos ss). pose proof (zlen_nonneg s). destruct fuel as [|fuel]; [lia|].
  text_step pre s ss rest. cbn [index_loop]. destruct n as [|n].
  - injection Hv as <-. exists (zlen pre). destruct (Z.leb_spec (count + Z.of_nat 0 + 1 - 1) count); [|lia].
    destruct (Z.eqb_spec count (count + Z.of_nat 0 + 1 - 1)); [|lia]. split; [done|]. split; [exact Hlen|].
    cbn [text_block]. rewrite <- app_assoc.
    rewrite slice_app_r by done. rewrite slice_app_l by lia. by apply slice_all.
  - cbn in Hv. destruct (Z.leb_spec (count + Z.of_nat (S n) + 1 - 1) count); [lia|].
    rewrite Hlen. cbn [mbind option_bind]. rewrite Hu, Hend. cbn [mbind option_bind].
    destruct ss as [|t ss]; [done|].
    pose proof (u8_range (i + 1)). destruct (Z.ltb_spec MAXIMUM_STRUCTURE_SIZE (u8 (i + 1))); [unfold MAXIMUM_STRUCTURE_SIZE in *; lia|].
    rewrite (u8_id (count + 1)) by lia. rewrite Hmem, <- Hpre.
    replace (count + Z.of_nat (S n) + 1) with (count + 1 + Z.of_nat n + 1) by lia.
    apply IH; try done; lia.
Qed.

(** Strings counted in a block that may go on behind them. *)
Lemma text_size_rest ss rest :
  ss <> [] -> Forall string_ok ss -> zlen (text_block ss) < 256 ->
  pldm_smbios_get_text_strings_size (Some (text_block ss ++ rest)) = Some (zlen (text_block ss)).
Proof.
  intros Hne Hok Hl. unfold pldm_smbios_get_text_strings_size.
  pose proof (text_block_count _ Hok). pose proof (text_block_pos ss). unfold zlen in H.
  change (text_block ss ++ rest) with ([] ++ text_block ss ++ rest) at 2. change 0 with (zlen (@nil Z)) at 1.
  rewrite size_loop_spec by (done || rewrite ?length_app; lia). by rewrite u8_id by lia.
Qed.

Lemma text_count_rest ss rest :
  ss <> [] -> Forall string_ok ss -> zlen (text_block ss) < 256 ->
  pldm_smbios_get_text_strings_count (Some (text_block ss ++ rest)) = Some (zlen ss).
Proof.
  intros Hne Hok Hl. unfold pldm_smbios_get_text_strings_count.
  pose proof (text_block_count _ Hok). pose proof (zlen_nonneg ss). unfold zlen in H.
  change (text_block ss ++ rest) with ([] ++ text_block ss ++ rest) at 2. change 0 with (zlen (@nil Z)) at 1.
  rewrite count_loop_spec by (done || rewrite ?length_app; lia). f_equal. rewrite u8_id; [done|]. unfold zlen in *. lia.
Qed.

Lemma text_size_spec ss :
  ss <> [] -> Forall string_ok ss -> zlen (text_block ss) < 256 ->
  pldm_smbios_get_text_strings_size (Some (text_block ss)) = Some (zlen (text_block ss)).
Proof. intros. rewrite <- (app_nil_r (text_block ss)) at 1. by apply text_size_rest. Qed.

(** The string a field refers to. *)
Lemma bios_version_spec st ss n s :
  Forall string_ok ss -> zlen (text_block ss) < 256 -> bi_text (sm_info st) = Some (text_block ss) ->
  bi_bios_version (sm_info st) = Z.of_nat n + 1 -> ss !! n = Some s ->
  pldm_smbios_get_bios_version st = Some (Some s).
Proof.
  intros Hok Hl Ht Hv Hn. unfold pldm_smbios_get_bios_version, get_text_string_by_index. rewrite Ht, Hv. cbn [mbind option_bind].
  pose proof (text_block_count _ Hok) as Hc. pose proof (lookup_lt_Some _ _ _ Hn) as Hlt. pose proof (zlen_nonneg ss).
  destruct (index_loop_spec ss (S (length (text_block ss))) [] [] n 0 0 s) as (pos & Hp & Hs & Hb); try done; unfold zlen in *; try lia.
  cbn [app] in Hp, Hs, Hb. rewrite app_nil_r in Hp, Hs, Hb. change (Z.of_nat (length (@nil Z))) with 0 in Hp. rewrite Z.add_0_l in Hp.
  rewrite Hp. cbn [mbind option_bind]. rewrite Hs. cbn [mbind option_bind]. by rewrite Hb.
Qed.

(** Well-formed information is taken over as it is. *)
Lemma set_bios_information_ok new ss st :
  ss <> [] -> Forall string_ok ss -> zlen (text_block ss) < 256 -> bi_text new = Some (text_block ss) ->
  pldm_smbios_set_bios_information true new st = Some (mk_smbios new (sm_count st) (sm_allocated st), 0).
Proof.
  intros Hne Hok Hl Ht. unfold pldm_smbios_set_bios_information. rewrite Ht, text_size_spec by done.
  cbn [negb default mbind option_bind]. unfold id. pose proof (zlen_nonneg (text_block ss)).
  rewrite mem_read_Some by lia. rewrite slice_all by done. cbn [mbind option_bind]. do 3 f_equal.
  destruct new; cbn in *. by rewrite Ht.
Qed.

(** ** A request *)

Definition smbios_request_data (h flag type inst : Z) : list Z := le_bytes 4 h ++ [flag; type] ++ le_bytes 2 inst.

(** The request for the structure, by its handle or as the first part of all. *)
Definition asks_for (b : smbios_bios_information) (d : list Z) : Prop :=
  exists h flag inst, d = smbios_request_data h flag SMBIOS_BIOS_INFORMATION inst /\ 0 <= h <= MAXIMUM_HANDLE_NUM /\ 0 <= flag < 256 /\
    (inst = bi_handle b \/ inst = GET_ALL_INSTANCES_OF_SPECIFIC_TYPE /\ flag = PLDM_SMBIOS_TRANSFER_OPERATION_FLAG_GET_FIRST_PART).

Record smbios_served (st : smbios_state) (ss : list (list Z)) : Prop := {
  ms_count : sm_count st = 1;
  ms_allocated : sm_allocated st = true;
  ms_type : bi_type (sm_info st) = SMBIOS_BIOS_INFORMATION;
  ms_handle : 0 <= bi_handle (sm_info st) <= MAXIMUM_HANDLE_NUM;
  ms_text : bi_text (sm_info st) = Some (text_block ss);
  ms_some : ss <> [];
  ms_ok : Forall string_ok ss;
  ms_size : zlen (text_block ss) < 256 }.

Lemma request_fields h flag type inst rest :
  0 <= h < 4294967296 -> 0 <= inst < 65536 ->
  mem_read (smbios_request_data h flag type inst ++ rest) 0 8 = Some (smbios_request_data h flag type inst) /\
  rd32 (smbios_request_data h flag type inst) 0 = h /\ rd (smbios_request_data h flag type inst) 4 = flag /\
  rd (smbios_request_data h flag type inst) 5 = type /\ rd16 (smbios_request_data h flag type inst) 6 = inst.
Proof.
  intros Hh Hi. assert (Hz : zlen (smbios_request_data h flag type inst) = 8) by done.
  split; [|split; [|split; [|split]]]; try done.
  - rewrite mem_read_Some by (rewrite ?zlen_app; pose proof (zlen_nonneg rest); lia).
    rewrite slice_app_l by lia. by rewrite slice_all by lia.
  - unfold smbios_request_data. by apply rd32_le.
  - unfold smbios_request_data. rewrite app_assoc. rewrite rd16_app_r by done.
    rewrite <- (app_nil_r (le_bytes 2 inst)). by apply rd16_le.
Qed.

Lemma structure_listed st ss type : smbios_served st ss ->
  filterStructureDataByType (fun _ => ReallocStays) st type =
    Some (if type =? SMBIOS_BIOS_INFORMATION then (1, Some [sm_info st]) else (0, Some [])).
Proof.
  intros Hs. unfold filterStructureDataByType, structure_list. rewrite (ms_count _ _ Hs), (ms_allocated _ _ Hs).
  cbn [Z.eqb mbind option_bind filter_loop]. rewrite (ms_type _ _ Hs). rewrite Z.eqb_sym.
  by destruct (type =? SMBIOS_BIOS_INFORMATION).
Qed.

Lemma zlen_formatted_area b : zlen (formatted_area b) = 26.
Proof. done. Qed.

Lemma select_one b h flag inst size :
  bi_type b = SMBIOS_BIOS_INFORMATION -> pldm_smbios_get_text_strings_size (bi_text b) = Some size ->
  0 <= bi_handle b <= MAXIMUM_HANDLE_NUM ->
  inst = bi_handle b \/ inst = GET_ALL_INSTANCES_OF_SPECIFIC_TYPE /\ flag = PLDM_SMBIOS_TRANSFER_OPERATION_FLAG_GET_FIRST_PART ->
  smbios_select (Some [b]) 1 h flag inst = Some (inr (0, 1)).
Proof.
  intros Ht Hsz Hh Hi. unfold smbios_select. destruct (Z.eqb_spec inst GET_ALL_INSTANCES_OF_SPECIFIC_TYPE) as [E|E]; cbn [negb].
  - destruct Hi as [->|[_ ->]]; [unfold GET_ALL_INSTANCES_OF_SPECIFIC_TYPE, MAXIMUM_HANDLE_NUM in *; lia|].
    rewrite Z.eqb_refl. cbn [orb mbind option_bind].
    assert (Hn : get_maximum_data_count_under_size (Some [b]) (PLDM_MAX_DATA_SIZE - 4) 1 (u8 0) = Some 1); [|by rewrite Hn].
    change (u8 0) with 0. unfold get_maximum_data_count_under_size. change (entry (Some [b]) 0) with (Some b).
    cbn [mbind option_bind]. unfold get_formatted_area_size. rewrite Ht, Z.eqb_refl.
    change (26 =? 0) with false. change (Z.to_nat (1 - 0)) with 1%nat. cbn [count_under_loop].
    change (entry (Some [b]) 0) with (Some b). cbn [mbind option_bind]. unfold get_structure_text_string.
    rewrite Ht, Z.eqb_refl, Hsz. cbn [mbind option_bind]. pose proof (u8_range (26 + size)).
    change (PLDM_MAX_DATA_SIZE - 4) with 508. by destruct (Z.ltb_spec 508 (0 + u8 (26 + size))); [lia|].
  - destruct Hi as [->|[-> _]]; [|done]. unfold get_structure_data_index_by_handle. change (Z.to_nat 1) with 1%nat.
    cbn [handle_loop]. change (entry (Some [b]) 0) with (Some b). cbn [mbind option_bind]. by rewrite Z.eqb_refl.
Qed.

(** A request for the structure gets it whole. *)
Lemma structure_sent st ss d rest :
  smbios_served st ss -> asks_for (sm_info st) d ->
  get_smbios_structure_data_by_type true (fun _ => ReallocStays) st (d ++ rest) =
    Some (PLDM_SUCCESS, [PLDM_SUCCESS] ++ le_bytes 4 0 ++ [PLDM_SMBIOS_TRANSFER_FLAG_START_AND_END]
      ++ formatted_area (sm_info st) ++ text_block ss, 32 + zlen (text_block ss)).
Proof.
  intros Hs (h & flag & inst & -> & Hh & _ & Hi). pose proof (ms_handle _ _ Hs) as Hhd. unfold MAXIMUM_HANDLE_NUM in Hh, Hhd.
  assert (Hir : 0 <= inst < 65536) by (destruct Hi as [->|[-> _]]; unfold GET_ALL_INSTANCES_OF_SPECIFIC_TYPE; lia).
  destruct (request_fields h flag SMBIOS_BIOS_INFORMATION inst rest) as (Hr & H0 & H4 & H5 & H6); try lia.
  unfold get_smbios_structure_data_by_type. rewrite Hr. cbn [negb mbind option_bind]. rewrite H0, H4, H5, H6.
  destruct (Z.ltb_spec MAXIMUM_HANDLE_NUM h); [unfold MAXIMUM_HANDLE_NUM in *; lia|].
  destruct ((MAXIMUM_HANDLE_NUM <? inst) && negb (inst =? GET_ALL_INSTANCES_OF_SPECIFIC_TYPE)) eqn:Ei.
  { apply andb_true_iff in Ei as [E1 E2]. destruct Hi as [->|[-> _]]; [unfold MAXIMUM_HANDLE_NUM in E1; lia|done]. }
  rewrite (structure_listed _ _ _ Hs), Z.eqb_refl. cbn [mbind option_bind].
  pose proof (text_block_pos ss). pose proof (ms_size _ _ Hs).
  assert (Hts : pldm_smbios_get_text_strings_size (bi_text (sm_info st)) = Some (zlen (text_block ss)))
    by (rewrite (ms_text _ _ Hs); apply text_size_spec; apply Hs).
  rewrite (select_one _ _ _ _ (zlen (text_block ss)) (ms_type _ _ Hs) Hts (ms_handle _ _ Hs) Hi).
  cbn [mbind option_bind orb Z.eqb Z.ltb Z.compare]. unfold smbios_transfer. cbn [Z.eqb mbind option_bind].
  unfold copy_structure_data. change (Z.to_nat 1) with 1%nat. change (u8 0) with 0. cbn [copy_loop].
  change (entry (Some [sm_info st]) 0) with (Some (sm_info st)). cbn [mbind option_bind].
  rewrite (ms_type _ _ Hs), Z.eqb_refl, Hts, (ms_text _ _ Hs). cbn [default mbind option_bind]. unfold id.
  rewrite mem_read_Some by lia. rewrite slice_all by done. cbn [mbind option_bind app].
  rewrite zlen_app, zlen_formatted_area. destruct (Z.eqb_spec (26 + zlen (text_block ss)) 0); [lia|].
  by rewrite u16_id, Z.add_assoc by lia.
Qed.

(** The request through the dispatcher. *)
Lemma smbios_asked fru others lock_ok rc pst st ss inst ext id d :
  0 <= id < 32 -> smbios_served st ss -> asks_for (sm_info st) d ->
  pldm_ask fru (system_queries fru (with_smbios true (fun _ => ReallocStays) st others)) lock_ok rc pst inst ext
    ([1; 128 + id; PLDM_TYPE_SMBIOS; PLDM_SMBIOS_CMD_CODE_GET_SMBIOS_STRUCTURE_BY_TYPE] ++ d) =
  Some ([1; id; PLDM_TYPE_SMBIOS; PLDM_SMBIOS_CMD_CODE_GET_SMBIOS_STRUCTURE_BY_TYPE] ++ [PLDM_SUCCESS] ++ le_bytes 4 0
    ++ [PLDM_SMBIOS_TRANSFER_FLAG_START_AND_END] ++ formatted_area (sm_info st) ++ text_block ss).
Proof.
  intros Hid Hs Hd. pose proof (structure_sent st ss d [] Hs Hd) as Hr. rewrite app_nil_r in Hr.
  pose proof (text_block_pos ss). pose proof (ms_size _ _ Hs).
  set (resp := [PLDM_SUCCESS] ++ le_bytes 4 0 ++ [PLDM_SMBIOS_TRANSFER_FLAG_START_AND_END]
    ++ formatted_area (sm_info st) ++ text_block ss) in *.
  assert (Hz : zlen resp = 32 + zlen (text_block ss)).
  { subst resp. rewrite !zlen_app, zlen_le_bytes, zlen_formatted_area. change (zlen [_]) with 1 at 1 2. lia. }
  assert (Hdl : bytes_ok d /\ zlen d = 8).
  { destruct Hd as (h & flag & i & -> & _ & Hf & _). split; [|done]. unfold smbios_request_data.
    change [flag; SMBIOS_BIOS_INFORMATION] with ([flag] ++ [SMBIOS_BIOS_INFORMATION]).
    rewrite !bytes_ok_app. split_and!; try apply bytes_ok_le_bytes; apply Forall_singleton; [lia|done]. }
  destruct Hdl as [Hdok Hdl].
  rewrite (pldm_ask_reply fru _ lock_ok rc pst inst ext id PLDM_TYPE_SMBIOS d _ (smbios_fn true (fun _ => ReallocStays) st)
    resp (32 + zlen (text_block ss)) PLDM_SUCCESS); try done; try lia.
  - by rewrite slice_all by lia.
  - destruct fru; (right; left).
  - unfold smbios_fn. by rewrite Hr.
Qed.

(** Structures of any other type: asked for by an instance they are reported missing, but a
    request for all of them reads a pointer that was never written. *)
Lemma smbios_other_type st ss h flag type inst rest :
  smbios_served st ss -> type <> SMBIOS_BIOS_INFORMATION ->
  0 <= h <= MAXIMUM_HANDLE_NUM ->
  inst = GET_ALL_INSTANCES_OF_SPECIFIC_TYPE /\ (flag = 0 \/ flag = 1) \/ 0 <= inst <= MAXIMUM_HANDLE_NUM ->
  get_smbios_structure_data_by_type true (fun _ => ReallocStays) st (smbios_request_data h flag type inst ++ rest) =
    if inst =? GET_ALL_INSTANCES_OF_SPECIFIC_TYPE then None
    else Some (PLDM_SMBIOS_NO_SMBIOS_STRUCTURES, [PLDM_SMBIOS_NO_SMBIOS_STRUCTURES], 1).
Proof.
  intros Hs Ht Hh Hi. unfold MAXIMUM_HANDLE_NUM, GET_ALL_INSTANCES_OF_SPECIFIC_TYPE in *.
  destruct (request_fields h flag type inst rest) as (Hr & H0 & H4 & H5 & H6); try lia.
  unfold get_smbios_structure_data_by_type. rewrite Hr. cbn [negb mbind option_bind]. rewrite H0, H4, H5, H6.
  unfold MAXIMUM_HANDLE_NUM, GET_ALL_INSTANCES_OF_SPECIFIC_TYPE.
  destruct (Z.ltb_spec 0xFEFF h); [lia|]. rewrite (structure_listed _ _ _ Hs).
  destruct (Z.eqb_spec type SMBIOS_BIOS_INFORMATION); [done|].
  destruct Hi as [[-> Hf]|Hi].
  - cbn. by destruct Hf as [->| ->].
  - destruct (Z.ltb_spec 0xFEFF inst); [lia|]. cbn [andb mbind option_bind]. unfold smbios_select, GET_ALL_INSTANCES_OF_SPECIFIC_TYPE.
    by destruct (Z.eqb_spec inst 0xFFFF); [lia|].
Qed.

(** Nor does a request survive a block that [realloc] moves: the caller keeps the old pointer. *)
Lemma smbios_block_moved st ss d rest realloc :
  smbios_served st ss -> asks_for (sm_info st) d -> realloc 1 = ReallocMoves ->
  get_smbios_structure_data_by_type true realloc st (d ++ rest) = None.
Proof.
  intros Hs (h & flag & inst & -> & Hh & _ & Hi) Hm. pose proof (ms_handle _ _ Hs) as Hhd. unfold MAXIMUM_HANDLE_NUM in Hh, Hhd.
  assert (Hir : 0 <= inst < 65536) by (destruct Hi as [->|[-> _]]; unfold GET_ALL_INSTANCES_OF_SPECIFIC_TYPE; lia).
  destruct (request_fields h flag SMBIOS_BIOS_INFORMATION inst rest) as (Hr & H0 & H4 & H5 & H6); try lia.
  unfold get_smbios_structure_data_by_type. rewrite Hr. cbn [negb mbind option_bind]. rewrite H0, H4, H5, H6.
  destruct (Z.ltb_spec MAXIMUM_HANDLE_NUM h); [unfold MAXIMUM_HANDLE_NUM in *; lia|].
  unfold GET_ALL_INSTANCES_OF_SPECIFIC_TYPE, MAXIMUM_HANDLE_NUM in *.
  destruct ((0xFEFF <? inst) && negb (inst =? 0xFFFF)) eqn:Ei.
  { apply andb_true_iff in Ei as [E1 E2]. destruct Hi as [->|[-> _]]; [lia|done]. }
  unfold filterStructureDataByType, structure_list. rewrite (ms_count _ _ Hs), (ms_allocated _ _ Hs).
  cbn [Z.eqb mbind option_bind filter_loop]. rewrite (ms_type _ _ Hs), Z.eqb_refl. change (u8 (0 + 1)) with 1. rewrite Hm.
  unfold smbios_select, GET_ALL_INSTANCES_OF_SPECIFIC_TYPE.
  destruct (Z.eqb_spec inst 0xFFFF) as [->|E]; cbn [negb].
  - destruct Hi as [Hi|[_ ->]]; [lia|]. done.
  - done.
Qed.

(** A set of strings of more than 255 bytes is counted in 8 bits and stored cut. *)
Example long_text_cut :
  let t := text_block [replicate 100 65; replicate 100 66; replicate 100 67] in
  pldm_smbios_get_text_strings_size (Some t) = Some 48 /\ zlen t = 304.
Proof. by vm_compute. Qed.

(** After start-up, before the host has told its version, there is a structure without strings. *)
Example initial_structure :
  get_smbios_structure_data_by_type true (fun _ => ReallocStays) (pldm_smbios_init_structures true true smbios_static)
    (smbios_request_data 0 1 0 0xFFFF) =
  Some (0, [0] ++ le_bytes 4 0 ++ [5] ++ zeros 26 ++ [0; 0], 34).
Proof. by vm_compute. Qed.
