(* ===== verification/HalGpio.v ===== *)
(** Component [common/hal/hal_gpio.c]: the pins of the chip, by number. The tables of the
    platform are read once by [gpio_init]; later the pins are read and driven by number. The GPIO
    driver below is outside the repository: a class of operations, with its documented behaviour
    as laws, and a driver that has them. *)

From S2P Require Import Prelude Bytes.

(** ** Definitions *)

Inductive gpio_dir := GPIO_DISCONNECTED | GPIO_INPUT | GPIO_OUTPUT.
Inductive gpio_int := GPIO_INT_DISABLE | GPIO_INT_EDGE_RISING | GPIO_INT_EDGE_FALLING
  | GPIO_INT_EDGE_BOTH | GPIO_INT_LEVEL_LOW | GPIO_INT_LEVEL_HIGH.

#[export] Instance gpio_dir_eq_dec : EqDecision gpio_dir.
Proof. solve_decision. Defined.
#[export] Instance gpio_int_eq_dec : EqDecision gpio_int.
Proof. solve_decision. Defined.

Definition ENABLE : Z := 1.
Definition DISABLE : Z := 0.
Definition CHIP_GPIO : Z := 0.
Definition GPIO_LOW : Z := 0.
Definition GPIO_HIGH : Z := 1.
Definition OPEN_DRAIN : Z := 0.
Definition PUSH_PULL : Z := 1.

Record GPIO_CFG := mk_gpio_cfg {
  gc_chip : Z; gc_number : Z; gc_is_init : Z; gc_is_latch : Z; gc_direction : gpio_dir;
  gc_status : Z; gc_property : Z; gc_int_type : gpio_int }.

(** The chip the code is built for: [TOTAL_GPIO_NUM] and [GPIO_GROUP_SIZE]. *)
Record gpio_soc := mk_soc { TOTAL_GPIO_NUM : Z; GPIO_GROUP_SIZE : Z }.
Definition AST1030 : gpio_soc := mk_soc 168 32.
Definition NPCM4XX : gpio_soc := mk_soc 124 8.

(** The driver: pins are named by group and index. *)
Class gpio_driver (pins : Type) := {
  gpio_pin_get : pins -> Z * Z -> Z;
  gpio_pin_set : pins -> Z * Z -> Z -> pins * Z;
  gpio_pin_configure : pins -> Z * Z -> gpio_dir -> pins * Z;
  gpio_latch : pins -> Z * Z -> Z;
  gpio_output : pins -> Z * Z -> bool }.

(** Setting a pin writes its latch and configuring it its direction, the other pins stay as they
    are; a pin that is an output reads what its latch has. *)
Class gpio_laws (pins : Type) `{gpio_driver pins} : Prop := {
  gl_get : forall s p, gpio_output s p = true -> gpio_pin_get s p = gpio_latch s p;
  gl_set : forall s p v, snd (gpio_pin_set s p v) = 0 /\
    (forall q, gpio_latch (fst (gpio_pin_set s p v)) q =
       if decide (p = q) then (if v =? 0 then 0 else 1) else gpio_latch s q) /\
    forall q, gpio_output (fst (gpio_pin_set s p v)) q = gpio_output s q;
  gl_configure : forall s p d, snd (gpio_pin_configure s p d) = 0 /\
    (forall q, gpio_latch (fst (gpio_pin_configure s p d)) q = gpio_latch s q) /\
    forall q, gpio_output (fst (gpio_pin_configure s p d)) q =
      if decide (p = q) then bool_decide (d = GPIO_OUTPUT) else gpio_output s q }.

Section gpio.
Context {pins : Type} `{gpio_driver pins}.
(** [gpio_cfg] as [pal_load_gpio_config] leaves it; which groups have a device. *)
Context (soc : gpio_soc) (gpio_cfg : list GPIO_CFG) (dev_gpio : Z -> bool).

Definition gpio_pin (gpio_num : Z) : Z * Z :=
  (gpio_num / GPIO_GROUP_SIZE soc, gpio_num mod GPIO_GROUP_SIZE soc).

Definition gpio_dev (gpio_num : Z) : bool := dev_gpio (fst (gpio_pin gpio_num)).

Definition gpio_conf (s : pins) (gpio_num : Z) (dir : gpio_dir) : pins * Z :=
  if negb (gpio_dev gpio_num) then (s, -1) else gpio_pin_configure s (gpio_pin gpio_num) dir.

Definition gpio_get (s : pins) (gpio_num : Z) : Z :=
  if TOTAL_GPIO_NUM soc <=? gpio_num then 0
  else if negb (gpio_dev gpio_num) then 0
  else gpio_pin_get s (gpio_pin gpio_num).

(** [None]: [gpio_cfg] has no such entry. *)
Definition gpio_set (s : pins) (gpio_num status : Z) : option (pins * Z) :=
  if TOTAL_GPIO_NUM soc <=? gpio_num then Some (s, -1)
  else if negb (gpio_dev gpio_num) then Some (s, -1)
  else
    cfg ← gpio_cfg !! Z.to_nat gpio_num;
    if gc_property cfg =? OPEN_DRAIN then
      if status =? GPIO_HIGH then Some (gpio_conf s gpio_num GPIO_INPUT)
      else Some (gpio_pin_set (fst (gpio_conf s gpio_num GPIO_OUTPUT)) (gpio_pin gpio_num) GPIO_LOW)
    else Some (gpio_pin_set s (gpio_pin gpio_num) status).

(** [gpio_cb_irq_init]: the pins whose interrupt is configured. *)
Definition gpio_irq (cfg : GPIO_CFG) (irqs : list (Z * gpio_int)) : list (Z * gpio_int) :=
  if decide (gc_int_type cfg = GPIO_INT_DISABLE) then irqs else irqs ++ [(gc_number cfg, gc_int_type cfg)].

(** The direction and the level of a pin at start. *)
Definition gpio_init_pin (cfg : GPIO_CFG) (s : pins) : pins :=
  match gc_direction cfg with
  | GPIO_INPUT => fst (gpio_conf s (gc_number cfg) (gc_direction cfg))
  | GPIO_OUTPUT =>
      if gc_property cfg =? OPEN_DRAIN then
        if gc_status cfg =? GPIO_LOW then
          fst (gpio_conf (fst (gpio_pin_set s (gpio_pin (gc_number cfg)) (gc_status cfg)))
                 (gc_number cfg) (gc_direction cfg))
        else fst (gpio_conf s (gc_number cfg) GPIO_INPUT)
      else if gc_property cfg =? PUSH_PULL then
        fst (gpio_conf (fst (gpio_pin_set s (gpio_pin (gc_number cfg)) (gc_status cfg)))
               (gc_number cfg) (gc_direction cfg))
      else s
  | GPIO_DISCONNECTED => s
  end.

(** One turn of the loop of [gpio_init]. *)
Definition gpio_init_one (ac_lost : bool) (cfg : GPIO_CFG) (st : pins * list (Z * gpio_int))
    : pins * list (Z * gpio_int) :=
  let '(s, irqs) := st in
  if negb (gc_is_init cfg =? ENABLE) then st
  else if (gc_is_latch cfg =? ENABLE) && negb ac_lost then st
  else if negb (gc_chip cfg =? CHIP_GPIO) then st
  else if negb (gpio_dev (gc_number cfg)) then st
  else (gpio_init_pin cfg s, gpio_irq cfg irqs).

Definition gpio_init (ac_lost : bool) (s : pins) : pins * list (Z * gpio_int) :=
  fold_left (fun st cfg => gpio_init_one ac_lost cfg st) (take (Z.to_nat (TOTAL_GPIO_NUM soc)) gpio_cfg) (s, []).

(** [gpio_ind_to_num_table], the first [gpio_ind_to_num_table_cnt] of it. *)
Definition gpio_index_to_num : list Z :=
  gc_number <$> filter (fun cfg => gc_is_init cfg = ENABLE) (take (Z.to_nat (TOTAL_GPIO_NUM soc)) gpio_cfg).
End gpio.

(** ** A driver: latches and directions in two maps, inputs that read a level from outside *)

Record map_pins := mk_map_pins {
  mp_latch : gmap (Z * Z) Z; mp_output : gmap (Z * Z) bool; mp_level : Z * Z -> Z }.

#[export] Instance map_gpio_driver : gpio_driver map_pins := {
  gpio_latch s p := default 0 (mp_latch s !! p);
  gpio_output s p := default false (mp_output s !! p);
  gpio_pin_get s p := if default false (mp_output s !! p) then default 0 (mp_latch s !! p) else mp_level s p;
  gpio_pin_set s p v := (mk_map_pins (<[p := if v =? 0 then 0 else 1]> (mp_latch s)) (mp_output s) (mp_level s), 0);
  gpio_pin_configure s p d := (mk_map_pins (mp_latch s) (<[p := bool_decide (d = GPIO_OUTPUT)]> (mp_output s)) (mp_level s), 0) }.

#[export] Instance map_gpio_laws : gpio_laws map_pins.
Proof.
  split; cbn.
  - by intros s p ->.
  - intros s p v. split_and!; try done. intros q. destruct (decide (p = q)) as [->|]; [by rewrite lookup_insert_eq|].
    by rewrite lookup_insert_ne.
  - intros s p d. split_and!; try done. intros q. destruct (decide (p = q)) as [->|]; [by rewrite lookup_insert_eq|].
    by rewrite lookup_insert_ne.
Qed.

(** ** Lemmas *)

Section facts.
Context {pins : Type} `{Hlaws : gpio_laws pins}.
Context (soc : gpio_soc) (gpio_cfg : list GPIO_CFG) (dev_gpio : Z -> bool).
Context (Hsize : 0 < GPIO_GROUP_SIZE soc).

Lemma gpio_pin_inj a b : gpio_pin soc a = gpio_pin soc b -> a = b.
Proof using Hsize.
  unfold gpio_pin. intros E. apply pair_eq in E as [E1 E2].
  pose proof (Z.div_mod a (GPIO_GROUP_SIZE soc)). pose proof (Z.div_mod b (GPIO_GROUP_SIZE soc)). nia.
Qed.

(** What is known of a pin: is it driven, and its latch. *)
Definition pin_is (s : pins) (gpio_num : Z) (out : bool) (v : Z) : Prop :=
  gpio_output s (gpio_pin soc gpio_num) = out /\ gpio_latch s (gpio_pin soc gpio_num) = v.

Lemma pin_is_set s n m x out v :
  pin_is s m out v ->
  pin_is (fst (gpio_pin_set s (gpio_pin soc n) x)) m out (if n =? m then (if x =? 0 then 0 else 1) else v).
Proof using Hsize Hlaws.
  intros [E1 E2]. destruct (gl_set s (gpio_pin soc n) x) as (_ & Hl & Ho). split.
  - by rewrite Ho.
  - rewrite Hl. destruct (Z.eqb_spec n m) as [->|Hne]; [by rewrite decide_True|].
    by rewrite decide_False by (intros E; by apply gpio_pin_inj in E).
Qed.

Lemma pin_is_conf s n m d out v :
  pin_is s m out v ->
  pin_is (fst (gpio_conf soc dev_gpio s n d)) m
    (if gpio_dev soc dev_gpio n && (n =? m) then bool_decide (d = GPIO_OUTPUT) else out) v.
Proof using Hsize Hlaws.
  unfold gpio_conf. destruct (gpio_dev soc dev_gpio n); cbn [negb andb]; [|done].
  intros [E1 E2]. destruct (gl_configure s (gpio_pin soc n) d) as (_ & Hl & Ho). split; [|by rewrite Hl].
  rewrite Ho. destruct (Z.eqb_spec n m) as [->|Hne]; [by rewrite decide_True|].
  by rewrite decide_False by (intros E; by apply gpio_pin_inj in E).
Qed.

Lemma gpio_get_driven s n v :
  pin_is s n true v -> n < TOTAL_GPIO_NUM soc -> gpio_dev soc dev_gpio n = true ->
  gpio_get soc dev_gpio s n = v.
Proof using Hlaws.
  intros [E1 E2] Hn Hd. unfold gpio_get. destruct (Z.leb_spec (TOTAL_GPIO_NUM soc) n); [lia|].
  rewrite Hd. cbn [negb]. by rewrite gl_get.
Qed.

(** A pin that is not open drain and is an output reads what it was last set to; the other pins keep what
    they had. *)
Lemma gpio_set_spec s n x cfg m out v :
  0 <= n < TOTAL_GPIO_NUM soc -> gpio_dev soc dev_gpio n = true -> gpio_cfg !! Z.to_nat n = Some cfg ->
  gc_property cfg <> OPEN_DRAIN -> 0 <= x < 2 -> pin_is s m out v ->
  exists s', gpio_set soc gpio_cfg dev_gpio s n x = Some (s', 0) /\
    pin_is s' m out (if n =? m then x else v).
Proof using Hsize Hlaws.
  intros Hn Hd Hc Hp Hx Hpin. unfold gpio_set. destruct (Z.leb_spec (TOTAL_GPIO_NUM soc) n); [lia|].
  rewrite Hd, Hc. cbn [negb mbind option_bind]. apply Z.eqb_neq in Hp as ->.
  pose proof (pin_is_set s n m x out v Hpin) as H'.
  assert (Ex : (if x =? 0 then 0 else 1) = x) by (destruct (Z.eqb_spec x 0); lia). rewrite Ex in H'.
  destruct (gl_set s (gpio_pin soc n) x) as (Hrc & _). destruct (gpio_pin_set s _ x) as [s' rc].
  cbn in *. subst rc. by exists s'.
Qed.

(** An open-drain pin is driven only low; set high it is let go. *)
Lemma gpio_set_open_drain s n x cfg m out v :
  0 <= n < TOTAL_GPIO_NUM soc -> gpio_dev soc dev_gpio n = true -> gpio_cfg !! Z.to_nat n = Some cfg ->
  gc_property cfg = OPEN_DRAIN -> 0 <= x < 2 -> pin_is s m out v ->
  exists s', gpio_set soc gpio_cfg dev_gpio s n x = Some (s', 0) /\
    pin_is s' m (if n =? m then x =? 0 else out) (if (n =? m) && (x =? 0) then 0 else v).
Proof using Hsize Hlaws.
  intros Hn Hd Hc Hp Hx Hpin. unfold gpio_set. destruct (Z.leb_spec (TOTAL_GPIO_NUM soc) n); [lia|].
  rewrite Hd, Hc. cbn [negb mbind option_bind]. rewrite Hp, Z.eqb_refl. unfold GPIO_HIGH, GPIO_LOW.
  destruct (Z.eqb_spec x 1) as [->|].
  - pose proof (pin_is_conf s n m GPIO_INPUT out v Hpin) as H'. rewrite Hd in H'. cbn [andb] in H'.
    unfold gpio_conf in *. rewrite Hd in *. cbn [negb] in *.
    destruct (gl_configure s (gpio_pin soc n) GPIO_INPUT) as (Hrc & _).
    destruct (gpio_pin_configure s _ _) as [s' rc]. cbn in *. subst rc. exists s'. split; [done|].
    rewrite andb_false_r. exact H'.
  - assert (x = 0) as -> by lia. pose proof (pin_is_conf s n m GPIO_OUTPUT out v Hpin) as H1.
    rewrite Hd in H1. cbn [andb] in H1. set (s1 := fst (gpio_conf soc dev_gpio s n GPIO_OUTPUT)) in *.
    pose proof (pin_is_set s1 n m 0 _ _ H1) as H2. cbn [Z.eqb] in H2.
    destruct (gl_set s1 (gpio_pin soc n) 0) as (Hrc & _). destruct (gpio_pin_set s1 _ 0) as [s' rc].
    cbn in *. subst rc. exists s'. split; [done|]. rewrite andb_true_r. exact H2.
Qed.

(** A pin that was set: an open-drain pin set high is no output, every other is driven to the
    level. *)
Lemma gpio_set_level s n x cfg :
  0 <= n < TOTAL_GPIO_NUM soc -> gpio_dev soc dev_gpio n = true -> gpio_cfg !! Z.to_nat n = Some cfg ->
  (gc_property cfg <> OPEN_DRAIN -> gpio_output s (gpio_pin soc n) = true) -> 0 <= x < 2 ->
  exists s', gpio_set soc gpio_cfg dev_gpio s n x = Some (s', 0) /\
    gpio_output s' (gpio_pin soc n) = negb ((gc_property cfg =? OPEN_DRAIN) && (x =? 1)) /\
    ((gc_property cfg =? OPEN_DRAIN) && (x =? 1) = false -> gpio_latch s' (gpio_pin soc n) = x).
Proof using Hsize Hlaws.
  intros Hn Hd Hc Ho Hx. destruct (Z.eqb_spec (gc_property cfg) OPEN_DRAIN) as [Ep|Ep].
  - destruct (gpio_set_open_drain s n x cfg n _ _ Hn Hd Hc Ep Hx (conj eq_refl eq_refl)) as (s' & Es & E1 & E2).
    rewrite Z.eqb_refl in E1, E2. exists s'. split; [done|].
    assert (x = 0 \/ x = 1) as [-> | ->] by lia; by rewrite ?E1, ?E2.
  - destruct (gpio_set_spec s n x cfg n _ _ Hn Hd Hc Ep Hx (conj eq_refl eq_refl)) as (s' & Es & E1 & E2).
    rewrite Z.eqb_refl in E2. exists s'. cbn [andb negb]. rewrite E1, E2. auto.
Qed.

(** Whatever the pin's property, setting it leaves the others alone. *)
Lemma gpio_set_other s n x m out v s' rc :
  gpio_set soc gpio_cfg dev_gpio s n x = Some (s', rc) -> n <> m -> pin_is s m out v -> pin_is s' m out v.
Proof using Hsize Hlaws.
  intros Hs Hne Hp. unfold gpio_set in Hs.
  assert (Hset : forall s x, pin_is s m out v -> pin_is (fst (gpio_pin_set s (gpio_pin soc n) x)) m out v).
  { intros s0 x0 Hp0. pose proof (pin_is_set s0 n m x0 out v Hp0) as H'. destruct (Z.eqb_spec n m); [done|exact H']. }
  assert (Hconf : forall s d, pin_is s m out v -> pin_is (fst (gpio_conf soc dev_gpio s n d)) m out v).
  { intros s0 d Hp0. pose proof (pin_is_conf s0 n m d out v Hp0) as H'. destruct (Z.eqb_spec n m); [done|].
    rewrite andb_false_r in H'. exact H'. }
  destruct (_ <=? n); [by injection Hs as <- _|]. destruct (negb _); [by injection Hs as <- _|].
  destruct (gpio_cfg !! Z.to_nat n) as [cfg|]; [|done]. cbn [mbind option_bind] in Hs.
  assert (Hfst : forall (r : pins * Z), Some r = Some (s', rc) -> s' = fst r) by (by intros r [= ->]).
  destruct (gc_property cfg =? OPEN_DRAIN); [destruct (x =? GPIO_HIGH)|]; apply Hfst in Hs as ->; auto.
Qed.

(** ** Start *)

(** Is the pin touched by [gpio_init]? *)
Definition gpio_started (ac_lost : bool) (cfg : GPIO_CFG) : bool :=
  (gc_is_init cfg =? ENABLE) && negb ((gc_is_latch cfg =? ENABLE) && negb ac_lost)
  && (gc_chip cfg =? CHIP_GPIO) && gpio_dev soc dev_gpio (gc_number cfg).

Lemma gpio_init_one_eq ac_lost cfg s irqs :
  gpio_init_one soc dev_gpio ac_lost cfg (s, irqs) =
  if gpio_started ac_lost cfg then (gpio_init_pin soc dev_gpio cfg s, gpio_irq cfg irqs) else (s, irqs).
Proof using.
  unfold gpio_init_one, gpio_started. destruct (gc_is_init cfg =? ENABLE); [|done].
  destruct ((gc_is_latch cfg =? ENABLE) && negb ac_lost); [done|].
  destruct (gc_chip cfg =? CHIP_GPIO); [|done]. by destruct (gpio_dev soc dev_gpio (gc_number cfg)).
Qed.

Lemma gpio_init_pin_other cfg s m out v :
  gc_number cfg <> m -> pin_is s m out v -> pin_is (gpio_init_pin soc dev_gpio cfg s) m out v.
Proof using Hsize Hlaws.
  intros Hne Hp. unfold gpio_init_pin.
  assert (Hs : forall s x, pin_is s m out v -> pin_is (fst (gpio_pin_set s (gpio_pin soc (gc_number cfg)) x)) m out v).
  { intros s0 x Hp0. pose proof (pin_is_set s0 (gc_number cfg) m x out v Hp0) as H'.
    destruct (Z.eqb_spec (gc_number cfg) m); [done|exact H']. }
  assert (Hc : forall s d, pin_is s m out v -> pin_is (fst (gpio_conf soc dev_gpio s (gc_number cfg) d)) m out v).
  { intros s0 d Hp0. pose proof (pin_is_conf s0 (gc_number cfg) m d out v Hp0) as H'.
    destruct (Z.eqb_spec (gc_number cfg) m); [done|]. rewrite andb_false_r in H'. exact H'. }
  destruct (gc_direction cfg); [done|by apply Hc|]. case_bools; auto.
Qed.

Lemma gpio_init_pin_self cfg s :
  gc_direction cfg = GPIO_OUTPUT -> gc_property cfg = PUSH_PULL -> 0 <= gc_status cfg < 2 ->
  gpio_dev soc dev_gpio (gc_number cfg) = true ->
  pin_is (gpio_init_pin soc dev_gpio cfg s) (gc_number cfg) true (gc_status cfg).
Proof using Hsize Hlaws.
  intros Hdir Hprop Hst Hdev. unfold gpio_init_pin. rewrite Hdir, Hprop. cbn [Z.eqb PUSH_PULL OPEN_DRAIN Pos.eqb].
  assert (H0 : pin_is s (gc_number cfg) (gpio_output s (gpio_pin soc (gc_number cfg)))
    (gpio_latch s (gpio_pin soc (gc_number cfg)))) by done.
  pose proof (pin_is_set s (gc_number cfg) (gc_number cfg) (gc_status cfg) _ _ H0) as H1.
  rewrite Z.eqb_refl in H1. pose proof (pin_is_conf _ (gc_number cfg) (gc_number cfg) GPIO_OUTPUT _ _ H1) as H2.
  rewrite Hdev, Z.eqb_refl in H2. cbn [andb] in H2. rewrite bool_decide_eq_true_2 in H2 by done.
  assert (Ex : (if gc_status cfg =? 0 then 0 else 1) = gc_status cfg) by (destruct (Z.eqb_spec (gc_status cfg) 0); lia).
  by rewrite Ex in H2.
Qed.

Lemma gpio_init_fold ac_lost l s irqs m out v :
  Forall (fun cfg => gpio_started ac_lost cfg = true -> gc_number cfg <> m) l -> pin_is s m out v ->
  pin_is (fst (fold_left (fun st cfg => gpio_init_one soc dev_gpio ac_lost cfg st) l (s, irqs))) m out v.
Proof using Hsize Hlaws.
  intros Hl. revert s irqs. induction Hl as [|cfg l Hc _ IH]; intros s irqs Hp; cbn [fold_left]; [done|].
  rewrite gpio_init_one_eq. destruct (gpio_started ac_lost cfg) eqn:E; apply IH; [|done].
  apply gpio_init_pin_other; auto.
Qed.
End facts.

(** After [gpio_init] a pin that the platform's table declares as a push-pull output is
    driven with the level the table gives it, whatever the rest of the table is; a pin marked to
    keep its state (a latch) keeps it unless the AC power was lost, and so does every pin the
    table does not name. *)
Theorem gpio_init_drives {pins : Type} `{gpio_laws pins} soc cfgs dev_gpio ac_lost s n cfg :
  0 < GPIO_GROUP_SIZE soc -> zlen cfgs = TOTAL_GPIO_NUM soc ->
  (forall i c, cfgs !! i = Some c -> gc_number c = Z.of_nat i) ->
  cfgs !! Z.to_nat n = Some cfg -> 0 <= n ->
  let s' := fst (gpio_init soc cfgs dev_gpio ac_lost s) in
  (gpio_started soc dev_gpio ac_lost cfg = true -> gc_direction cfg = GPIO_OUTPUT ->
   gc_property cfg = PUSH_PULL -> 0 <= gc_status cfg < 2 -> gpio_get soc dev_gpio s' n = gc_status cfg) /\
  (gpio_started soc dev_gpio ac_lost cfg = false ->
   gpio_output s' (gpio_pin soc n) = gpio_output s (gpio_pin soc n) /\
   gpio_latch s' (gpio_pin soc n) = gpio_latch s (gpio_pin soc n)).
Proof.
  intros Hsz Hl Hnum Hc Hn s'. subst s'. unfold gpio_init. rewrite <- Hl. unfold zlen. rewrite Nat2Z.id, firstn_all.
  assert (Hcn : gc_number cfg = n) by (rewrite (Hnum _ _ Hc); lia).
  assert (Hlt : n < TOTAL_GPIO_NUM soc) by (apply lookup_lt_Some in Hc; unfold zlen in Hl; lia).
  split.
  - intros Hst Hdir Hprop Hs. rewrite <- (take_drop_middle _ _ _ Hc), fold_left_app. cbn [fold_left].
    destruct (fold_left _ (take _ _) _) as [s0 irqs]. rewrite gpio_init_one_eq, Hst.
    unfold gpio_started in Hst. rewrite !andb_true_iff in Hst. destruct Hst as [_ Hdev].
    apply gpio_get_driven; [|done|by rewrite Hcn in Hdev].
    apply (gpio_init_fold soc dev_gpio Hsz).
    + apply Forall_forall. intros c Hin _. apply list_elem_of_lookup in Hin as [i Hi].
      rewrite lookup_drop in Hi. rewrite (Hnum _ _ Hi). lia.
    + rewrite <- Hcn. by apply gpio_init_pin_self.
  - intros Hst. apply (gpio_init_fold soc dev_gpio Hsz); [|done].
    apply Forall_forall. intros c Hin Hsc. apply list_elem_of_lookup in Hin as [i Hi].
    rewrite (Hnum _ _ Hi). intros E. assert (i = Z.to_nat n) as -> by lia. congruence.
Qed.

(** ** An example table: pin 0 an output that starts high, pin 1 an input, pin 2 a latch *)

Definition demo_gpio_cfg : list GPIO_CFG :=
  [mk_gpio_cfg 0 0 1 0 GPIO_OUTPUT 1 PUSH_PULL GPIO_INT_DISABLE;
   mk_gpio_cfg 0 1 1 0 GPIO_INPUT 0 PUSH_PULL GPIO_INT_EDGE_BOTH;
   mk_gpio_cfg 0 2 1 1 GPIO_OUTPUT 0 PUSH_PULL GPIO_INT_DISABLE].
Definition demo_soc : gpio_soc := mk_soc 3 2.
Definition demo_pins : map_pins := mk_map_pins {[ (1, 0) := 1 ]} {[ (1, 0) := true ]} (fun _ => 0).

Lemma gpio_init_drives_witness :
  gpio_get demo_soc (fun _ => true) (fst (gpio_init demo_soc demo_gpio_cfg (fun _ => true) false demo_pins)) 0 = 1 /\
  gpio_latch (fst (gpio_init demo_soc demo_gpio_cfg (fun _ => true) false demo_pins)) (1, 0) = 1.
Proof.
  assert (Hn : forall i c, demo_gpio_cfg !! i = Some c -> gc_number c = Z.of_nat i).
  { intros [|[|[|i]]] c E; [injection E as <-; reflexivity..|done]. }
  split.
  - apply (gpio_init_drives demo_soc demo_gpio_cfg (fun _ => true) false demo_pins 0 (mk_gpio_cfg 0 0 1 0 GPIO_OUTPUT 1 PUSH_PULL GPIO_INT_DISABLE)); done.
  - refine (eq_trans (proj2 (proj2 (gpio_init_drives demo_soc demo_gpio_cfg (fun _ => true) false demo_pins 2
      (mk_gpio_cfg 0 2 1 1 GPIO_OUTPUT 0 PUSH_PULL GPIO_INT_DISABLE) _ _ _ _ _) _)) _); done.
Defined.
