(* ===== verification/I2cTarget.v ===== *)
(** Component [common/hal/hal_i2c_target.c]: the chip as the target of another master's I2C
    transfers. The callbacks run in the bus interrupt: what the master writes is collected and
    put into a queue at the stop condition, and what it reads is taken from a buffer the service
    above fills. A full queue takes the target off the bus until a thread has read a message; a
    read is cut into the steps between which the interrupt can run.
    Zephyr's message queue is the class [target_msgq] with its documented behaviour as laws, the
    functions a service installs are the class [target_client]. *)

From S2P Require Import Prelude Bytes.

(** ** Definitions *)

Definition MAX_I2C_TARGET_BUFF : Z := 256.
Definition MAX_TARGET_NUM : Z := 16.

Definition I2C_TARGET_HAS_NO_ERR : Z := 0.
Definition I2C_TARGET_BUS_INVALID : Z := 1.
Definition I2C_TARGET_NOT_INIT : Z := 2.
Definition I2C_TARGET_NOT_REGISTER : Z := 0x04.
Definition I2C_TARGET_CONTROLLER_ERR : Z := 0x08.

Definition I2C_TARGET_API_NO_ERR : Z := 0.
Definition I2C_TARGET_API_INPUT_ERR : Z := 1.
Definition I2C_TARGET_API_LOCK_ERR : Z := 2.
Definition I2C_TARGET_API_MEMORY_ERR : Z := 3.
Definition I2C_TARGET_API_MSGQ_ERR : Z := 4.
Definition I2C_TARGET_API_BUS_GET_FAIL : Z := 5.
Definition I2C_TARGET_MULTI_BUS_SKIP : Z := 6.

(** [struct i2c_msg_package]; the array has [MAX_I2C_TARGET_BUFF] bytes. *)
Record i2c_msg_package := mk_pkg { msg_length : Z; msg_array : list Z }.

Definition zero_pkg : i2c_msg_package := mk_pkg 0 (zeros MAX_I2C_TARGET_BUFF).

(** The message of a package. *)
Definition pkg_bytes (p : i2c_msg_package) : list Z := slice (msg_array p) 0 (msg_length p).

(** Zephyr's [k_msgq], used without waiting: a get on an empty queue fails. *)
Class target_msgq (Q : Type) := {
  k_msgq_init : Z -> Q;
  k_msgq_put : i2c_msg_package -> Q -> Q * Z;
  k_msgq_get : Q -> option (i2c_msg_package * Q);
  k_msgq_purge : Q -> Q;
  k_msgq_num_free : Q -> Z;
  k_msgq_num_used : Q -> Z;
  max_msgs : Q -> Z;
  msgq_list : Q -> list i2c_msg_package }.

(** A first-in first-out buffer of at most [max_msgs] messages. *)
Class target_msgq_laws (Q : Type) `{target_msgq Q} : Prop := {
  mq_init : forall n, msgq_list (k_msgq_init n) = [] /\ max_msgs (k_msgq_init n) = n;
  mq_put : forall m q, k_msgq_num_used q < max_msgs q ->
    snd (k_msgq_put m q) = 0 /\ msgq_list (fst (k_msgq_put m q)) = msgq_list q ++ [m] /\
    max_msgs (fst (k_msgq_put m q)) = max_msgs q;
  mq_put_full : forall m q, max_msgs q <= k_msgq_num_used q ->
    fst (k_msgq_put m q) = q /\ u8 (snd (k_msgq_put m q)) <> 0;
  mq_get : forall q, k_msgq_get q = None <-> msgq_list q = [];
  mq_get_head : forall q m q', k_msgq_get q = Some (m, q') ->
    msgq_list q = m :: msgq_list q' /\ max_msgs q' = max_msgs q;
  mq_purge : forall q, msgq_list (k_msgq_purge q) = [] /\ max_msgs (k_msgq_purge q) = max_msgs q;
  mq_used : forall q, k_msgq_num_used q = zlen (msgq_list q);
  mq_free : forall q, k_msgq_num_free q = max_msgs q - k_msgq_num_used q }.

(** [struct i2c_target_data]: [F] are the functions a service may install; without one the
    fields [td_post] and [td_collect] hold the two default functions of the file, which do
    nothing. *)
Record i2c_target_data (Q F : Type) := mk_target_data {
  td_bus : Z; td_address : Z; td_req_address : Z;
  td_wr_idx : Z; td_wr_msg : i2c_msg_package; td_msgq : Q; td_max_msg_count : Z;
  td_skip : bool; td_post : option F;
  td_rd_idx : Z; td_rd_msg : i2c_msg_package; td_collect : option F }.
Arguments mk_target_data {Q F}.
Arguments td_bus {Q F}.
Arguments td_address {Q F}.
Arguments td_req_address {Q F}.
Arguments td_wr_idx {Q F}.
Arguments td_wr_msg {Q F}.
Arguments td_msgq {Q F}.
Arguments td_max_msg_count {Q F}.
Arguments td_skip {Q F}.
Arguments td_post {Q F}.
Arguments td_rd_idx {Q F}.
Arguments td_rd_msg {Q F}.
Arguments td_collect {Q F}.

(** [struct i2c_target_device]. *)
Record i2c_target_device (Q F : Type) := mk_target {
  dev_data : i2c_target_data Q F; dev_is_init : bool; dev_is_register : bool }.
Arguments mk_target {Q F}.
Arguments dev_data {Q F}.
Arguments dev_is_init {Q F}.
Arguments dev_is_register {Q F}.

(** [struct _i2c_target_config], [address] as the 8-bit address. *)
Record i2c_target_config (F : Type) := mk_target_config {
  tc_address : Z; tc_msg_count : Z; tc_collect : option F; tc_post : option F }.
Arguments mk_target_config {F}.
Arguments tc_address {F}.
Arguments tc_msg_count {F}.
Arguments tc_collect {F}.
Arguments tc_post {F}.

Inductive i2c_control_mode := I2C_CONTROL_UNREGISTER | I2C_CONTROL_REGISTER | I2C_CONTROL_OTHER.

(** What the calls outside the repository answer: is there a controller for the bus, the codes
    of [i2c_slave_register] and [i2c_slave_unregister], and do the mutex and [malloc] work. *)
Record target_env := mk_target_env {
  te_binding : Z -> bool; te_register : Z -> Z; te_unregister : Z -> Z;
  te_mutex_init : bool; te_lock : bool; te_malloc : bool }.

(** The functions a service installs, over its own state [C]: they get the device's place [k] in
    the table. *)
Class target_client (Q F C : Type) := {
  on_collect : F -> target_env -> Z -> list (i2c_target_device Q F) -> C ->
    option (list (i2c_target_device Q F) * C * bool);
  on_post : F -> target_env -> Z -> list (i2c_target_device Q F) -> C ->
    option (list (i2c_target_device Q F) * C) }.

Section data.
Context {Q F : Type}.
Implicit Types d : i2c_target_data Q F.

Definition set_req_address (v : Z) d : i2c_target_data Q F :=
  mk_target_data (td_bus d) (td_address d) v (td_wr_idx d) (td_wr_msg d) (td_msgq d)
    (td_max_msg_count d) (td_skip d) (td_post d) (td_rd_idx d) (td_rd_msg d) (td_collect d).
Definition set_wr_idx (v : Z) d : i2c_target_data Q F :=
  mk_target_data (td_bus d) (td_address d) (td_req_address d) v (td_wr_msg d) (td_msgq d)
    (td_max_msg_count d) (td_skip d) (td_post d) (td_rd_idx d) (td_rd_msg d) (td_collect d).
Definition set_wr_msg (v : i2c_msg_package) d : i2c_target_data Q F :=
  mk_target_data (td_bus d) (td_address d) (td_req_address d) (td_wr_idx d) v (td_msgq d)
    (td_max_msg_count d) (td_skip d) (td_post d) (td_rd_idx d) (td_rd_msg d) (td_collect d).
Definition set_msgq (v : Q) d : i2c_target_data Q F :=
  mk_target_data (td_bus d) (td_address d) (td_req_address d) (td_wr_idx d) (td_wr_msg d) v
    (td_max_msg_count d) (td_skip d) (td_post d) (td_rd_idx d) (td_rd_msg d) (td_collect d).
Definition set_skip (v : bool) d : i2c_target_data Q F :=
  mk_target_data (td_bus d) (td_address d) (td_req_address d) (td_wr_idx d) (td_wr_msg d) (td_msgq d)
    (td_max_msg_count d) v (td_post d) (td_rd_idx d) (td_rd_msg d) (td_collect d).
Definition set_rd_idx (v : Z) d : i2c_target_data Q F :=
  mk_target_data (td_bus d) (td_address d) (td_req_address d) (td_wr_idx d) (td_wr_msg d) (td_msgq d)
    (td_max_msg_count d) (td_skip d) (td_post d) v (td_rd_msg d) (td_collect d).
Definition set_rd_msg (v : i2c_msg_package) d : i2c_target_data Q F :=
  mk_target_data (td_bus d) (td_address d) (td_req_address d) (td_wr_idx d) (td_wr_msg d) (td_msgq d)
    (td_max_msg_count d) (td_skip d) (td_post d) (td_rd_idx d) v (td_collect d).
Definition set_target_bus (v : Z) d : i2c_target_data Q F :=
  mk_target_data v (td_address d) (td_req_address d) (td_wr_idx d) (td_wr_msg d) (td_msgq d)
    (td_max_msg_count d) (td_skip d) (td_post d) (td_rd_idx d) (td_rd_msg d) (td_collect d).

(** The fields [do_i2c_target_cfg] takes from the configuration. *)
Definition configured (cfg : i2c_target_config F) d : i2c_target_data Q F :=
  mk_target_data (td_bus d) (tc_address cfg .>> 1) (td_req_address d) (td_wr_idx d) (td_wr_msg d)
    (td_msgq d) (u16 (tc_msg_count cfg)) (td_skip d) (tc_post cfg) (td_rd_idx d) (td_rd_msg d)
    (tc_collect cfg).
End data.

Section target.
Context {Q F C : Type} `{target_msgq Q} `{target_client Q F C}.
Abbreviation device := (i2c_target_device Q F).
Abbreviation data := (i2c_target_data Q F).
Implicit Types devs : list device.

Definition zero_target : device :=
  mk_target (mk_target_data 0 0 0 0 zero_pkg (k_msgq_init 0) 0 false None 0 zero_pkg None) false false.

(** [i2c_target_device_global[k]]. *)
Definition dev_at devs (k : Z) : device := default zero_target (devs !! Z.to_nat k).
Definition data_at devs (k : Z) : data := dev_data (dev_at devs k).
Definition set_dev_at (k : Z) (d : device) devs : list device := <[Z.to_nat k := d]> devs.
Definition upd_data (k : Z) (f : data -> data) devs : list device :=
  let d := dev_at devs k in
  set_dev_at k (mk_target (f (dev_data d)) (dev_is_init d) (dev_is_register d)) devs.
Definition set_registered (k : Z) (b : bool) devs : list device :=
  let d := dev_at devs k in set_dev_at k (mk_target (dev_data d) (dev_is_init d) b) devs.

Definition i2c_target_status_get (E : target_env) devs (bus_num : Z) : Z :=
  if MAX_TARGET_NUM <=? bus_num then I2C_TARGET_BUS_INVALID
  else if negb (te_binding E bus_num) then I2C_TARGET_CONTROLLER_ERR
  else
    (if dev_is_init (dev_at devs bus_num) then 0 else I2C_TARGET_NOT_INIT)
    .| (if dev_is_register (dev_at devs bus_num) then 0 else I2C_TARGET_NOT_REGISTER).

Definition status_unusable : Z :=
  I2C_TARGET_BUS_INVALID .| I2C_TARGET_CONTROLLER_ERR .| I2C_TARGET_NOT_INIT.

(** The address and the size of the queue. *)
Definition i2c_target_cfg_get (E : target_env) devs (bus_num : Z) : option (Z * Z) * Z :=
  if negb (i2c_target_status_get E devs bus_num .& status_unusable =? 0)
  then (None, I2C_TARGET_API_BUS_GET_FAIL)
  else (Some (td_address (data_at devs bus_num), max_msgs (td_msgq (data_at devs bus_num))),
        I2C_TARGET_API_NO_ERR).

Definition do_i2c_target_register (E : target_env) devs (bus_num : Z) : list device * Z :=
  let target_status := i2c_target_status_get E devs bus_num in
  if negb (target_status .& status_unusable =? 0) then (devs, I2C_TARGET_API_BUS_GET_FAIL)
  else if target_status .& I2C_TARGET_NOT_REGISTER =? 0 then (devs, I2C_TARGET_API_BUS_GET_FAIL)
  else if k_msgq_num_free (td_msgq (data_at devs bus_num)) =? 0 then (devs, I2C_TARGET_API_MSGQ_ERR)
  else
    let ret := te_register E bus_num in
    if negb (ret =? 0) then (devs, ret)
    else (set_registered bus_num true devs, I2C_TARGET_API_NO_ERR).

Definition do_i2c_target_unregister (E : target_env) devs (bus_num : Z) : list device * Z :=
  let target_status := i2c_target_status_get E devs bus_num in
  if negb (target_status .& status_unusable =? 0) then (devs, I2C_TARGET_API_BUS_GET_FAIL)
  else if negb (target_status .& I2C_TARGET_NOT_REGISTER =? 0) then (devs, I2C_TARGET_API_BUS_GET_FAIL)
  else
    let ret := te_unregister E bus_num in
    if negb (ret =? 0) then (devs, ret)
    else (set_registered bus_num false devs, I2C_TARGET_API_NO_ERR).

(** The part of [do_i2c_target_cfg] under the mutex. The controller was found at the start of the
    function already, so that the second look for it does not fail. *)
Definition target_cfg_locked (E : target_env) devs (bus_num : Z) (not_init : bool)
    (cfg : i2c_target_config F) : list device * Z :=
  let devs :=
    if not_init then upd_data bus_num (set_target_bus bus_num) devs
    else upd_data bus_num (fun d => set_msgq (k_msgq_purge (td_msgq d)) d) devs in
  let devs := upd_data bus_num (configured cfg) devs in
  if negb (te_malloc E) then (devs, I2C_TARGET_API_MEMORY_ERR)
  else
    let d := set_msgq (k_msgq_init (td_max_msg_count (data_at devs bus_num))) (data_at devs bus_num) in
    (set_dev_at bus_num (mk_target d true (dev_is_register (dev_at devs bus_num))) devs,
     I2C_TARGET_API_NO_ERR).

Definition do_i2c_target_cfg (E : target_env) devs (bus_num : Z) (cfg : i2c_target_config F)
    : list device * Z :=
  let target_status := i2c_target_status_get E devs bus_num in
  if negb (target_status .& (I2C_TARGET_BUS_INVALID .| I2C_TARGET_CONTROLLER_ERR) =? 0)
  then (devs, I2C_TARGET_API_BUS_GET_FAIL)
  else
    let '(devs, status) :=
      if target_status .& I2C_TARGET_NOT_REGISTER =? 0 then do_i2c_target_unregister E devs bus_num
      else (devs, 0) in
    if negb (status =? 0) then (devs, I2C_TARGET_API_BUS_GET_FAIL)
    else
      let not_init := negb (target_status .& I2C_TARGET_NOT_INIT =? 0) in
      if not_init && negb (te_mutex_init E) then (devs, I2C_TARGET_API_LOCK_ERR)
      else if negb (te_lock E) then (devs, I2C_TARGET_API_LOCK_ERR)
      else target_cfg_locked E devs bus_num not_init cfg.

Definition i2c_target_control (E : target_env) devs (bus_num : Z) (cfg : i2c_target_config F)
    (mode : i2c_control_mode) : list device * Z :=
  if negb (i2c_target_status_get E devs bus_num
             .& (I2C_TARGET_BUS_INVALID .| I2C_TARGET_CONTROLLER_ERR) =? 0)
  then (devs, I2C_TARGET_API_BUS_GET_FAIL)
  else
    match mode with
    | I2C_CONTROL_REGISTER =>
        let '(devs, ret) := do_i2c_target_cfg E devs bus_num cfg in
        if negb (ret =? 0) then (devs, ret) else do_i2c_target_register E devs bus_num
    | I2C_CONTROL_UNREGISTER => do_i2c_target_unregister E devs bus_num
    | I2C_CONTROL_OTHER => (devs, I2C_TARGET_API_INPUT_ERR)
    end.

(** ** The callbacks of the bus interrupt, for the device at place [k] *)

Definition i2c_target_write_requested (k : Z) devs : list device :=
  upd_data k (fun d => set_skip false (set_wr_idx 0 (set_wr_msg zero_pkg
    (set_req_address (td_address d .& 0xFF) d)))) devs.

(** The result of the callback: 1 refuses the byte. *)
Definition i2c_target_write_received (E : target_env) (k val : Z) devs (c : C)
    : option (list device * C * Z) :=
  let d := data_at devs k in
  if MAX_I2C_TARGET_BUFF <=? td_wr_idx d then Some (devs, c, 1)
  else
    let m := mk_pkg (msg_length (td_wr_msg d))
               (<[Z.to_nat (td_wr_idx d) := val]> (msg_array (td_wr_msg d))) in
    let devs := upd_data k (fun d => set_wr_idx (u16 (td_wr_idx d + 1)) (set_wr_msg m d)) devs in
    match td_post d with
    | Some f => '(devs, c) ← on_post f E k devs c; Some (devs, c, 0)
    | None => Some (devs, c, 0)
    end.

(** The byte to send, when there is one. *)
Definition i2c_target_read_requested (E : target_env) (k : Z) devs (c : C)
    : option (list device * C * option Z) :=
  '(devs, c, ok) ←
    match td_collect (data_at devs k) with
    | Some f => on_collect f E k devs c
    | None => Some (devs, c, true)
    end;
  let devs := if (ok : bool) then devs else upd_data k (set_skip true) devs in
  let d := data_at devs k in
  if msg_length (td_rd_msg d) =? 0 then Some (devs, c, None)
  else Some (upd_data k (set_rd_idx 1) devs, c, Some (rd (msg_array (td_rd_msg d)) 0)).

Definition i2c_target_read_processed (k : Z) devs : list device * option Z :=
  let d := data_at devs k in
  if u32 (msg_length (td_rd_msg d) - td_rd_idx d) =? 0 then (devs, None)
  else if MAX_I2C_TARGET_BUFF <=? td_rd_idx d then (devs, None)
  else (upd_data k (set_rd_idx (u32 (td_rd_idx d + 1))) devs,
        Some (rd (msg_array (td_rd_msg d)) (td_rd_idx d))).

(** [k_msgq_put]: a thread that waits for a message gets it directly, and the queue stays as it is. *)
Definition target_put (waiting : bool) (m : i2c_msg_package) (q : Q) : Q * Z * option i2c_msg_package :=
  if waiting then (q, 0, Some m) else let '(q, status) := k_msgq_put m q in (q, status, None).

(** The end of a transfer: what was written goes into the queue, or to the thread that waits for it
    ([waiting]). *)
Definition target_queue_written (waiting : bool) (E : target_env) (k : Z) devs
    : list device * Z * option i2c_msg_package :=
  let d := data_at devs k in
  if td_wr_idx d =? 0 then (devs, 0, None)
  else if td_skip d then (devs, 0, None)
  else
    let m := mk_pkg (td_wr_idx d) (msg_array (td_wr_msg d)) in
    let '(q, status, given) := target_put waiting m (td_msgq d) in
    let devs := upd_data k (fun d => set_msgq q (set_wr_msg m d)) devs in
    if negb (u8 status =? 0) then (devs, 1, given)
    else if k_msgq_num_free q =? 0 then (fst (do_i2c_target_unregister E devs (td_bus d)), 0, given)
    else (devs, 0, given).

Definition i2c_target_stop (waiting : bool) (E : target_env) (k : Z) devs
    : list device * Z * option i2c_msg_package :=
  let '(devs, ret, given) := target_queue_written waiting E k devs in
  (upd_data k (fun d => set_wr_idx 0 (set_rd_idx 0 d)) devs, ret, given).

(** ** The functions for the threads *)

(** Where a thread is in a read: it waits in [k_msgq_get]; it has a message, and looks at the count
    of the queue next; it takes the device back on the bus next. The bus interrupt runs between any
    two of its steps. *)
Inductive read_stage :=
  | ReadStart | ReadWait | ReadGot (local_buf : i2c_msg_package) | ReadRegister (local_buf : i2c_msg_package).

(** The bytes copied to the caller's [buff_len] bytes. *)
Definition read_out (buff_len : Z) (local_buf : i2c_msg_package) : list Z :=
  slice (msg_array local_buf) 0
    (if buff_len <? msg_length local_buf then buff_len else msg_length local_buf).

(** A step of the thread; [inr]: it returns, with the code and the bytes copied. [forever]: the
    caller waits with [K_FOREVER]. From [ReadWait]: the get has failed, since the time is over (at
    once with [K_NO_WAIT]) or the queue was purged. *)
Definition target_read_step (E : target_env) (bus_num buff_len : Z) (forever : bool) (st : read_stage) devs
    : list device * (read_stage + Z * list Z) :=
  let q := td_msgq (data_at devs bus_num) in
  match st with
  | ReadStart =>
      if negb (i2c_target_status_get E devs bus_num .& status_unusable =? 0)
      then (devs, inr (I2C_TARGET_API_BUS_GET_FAIL, []))
      else
        match k_msgq_get q with
        | None => (devs, inl ReadWait)
        | Some (local_buf, q) => (upd_data bus_num (set_msgq q) devs, inl (ReadGot local_buf))
        end
  | ReadWait => (devs, inr (if forever then I2C_TARGET_API_MSGQ_ERR else I2C_TARGET_MULTI_BUS_SKIP, []))
  | ReadGot local_buf =>
      if k_msgq_num_used q =? max_msgs q - 1 then (devs, inl (ReadRegister local_buf))
      else (devs, inr (I2C_TARGET_API_NO_ERR, read_out buff_len local_buf))
  | ReadRegister local_buf =>
      let '(devs, ret) := do_i2c_target_register E devs bus_num in
      (devs, inr (if negb (ret =? 0) then I2C_TARGET_API_BUS_GET_FAIL else I2C_TARGET_API_NO_ERR,
                  read_out buff_len local_buf))
  end.

(** The rest of a read when no interrupt comes in between. [None]: the thread waits for a message;
    there are three steps at most. *)
Fixpoint target_read_run (fuel : nat) (E : target_env) (bus_num buff_len : Z) (forever : bool) (st : read_stage) devs
    : option (list device * Z * list Z) :=
  match fuel with
  | O => None
  | S fuel =>
      match target_read_step E bus_num buff_len forever st devs with
      | (devs, inr (ret, out)) => Some (devs, ret, out)
      | (devs, inl ReadWait) => if forever then None else target_read_run fuel E bus_num buff_len forever ReadWait devs
      | (devs, inl st) => target_read_run fuel E bus_num buff_len forever st devs
      end
  end.

Definition multi_bus_i2c_target_read (E : target_env) devs (bus_num buff_len : Z) (forever : bool)
    : option (list device * Z * list Z) :=
  target_read_run 3 E bus_num buff_len forever ReadStart devs.

Definition i2c_target_read (E : target_env) devs (bus_num buff_len : Z) : option (list device * Z * list Z) :=
  multi_bus_i2c_target_read E devs bus_num buff_len true.

(** [None]: [buff] has less than [buff_len] bytes. *)
Definition i2c_target_write (E : target_env) devs (bus_num : Z) (buff : list Z) (buff_len : Z)
    : option (list device * Z) :=
  if negb (i2c_target_status_get E devs bus_num .& status_unusable =? 0)
  then Some (devs, I2C_TARGET_API_BUS_GET_FAIL)
  else
    let len := if MAX_I2C_TARGET_BUFF <? buff_len then MAX_I2C_TARGET_BUFF else buff_len in
    src ← mem_read buff 0 len;
    arr ← mem_write (msg_array (td_rd_msg (data_at devs bus_num))) 0 src;
    Some (upd_data bus_num (set_rd_msg (mk_pkg len arr)) devs, I2C_TARGET_API_NO_ERR).

(** ** Transfers of the master *)

(** The bytes of a write, each with its answer. *)
Fixpoint target_receive (E : target_env) (k : Z) (bs : list Z) devs (c : C) : option (list device * C) :=
  match bs with
  | [] => Some (devs, c)
  | b :: bs =>
      '(devs, c, _) ← i2c_target_write_received E k b devs c;
      target_receive E k bs devs c
  end.

(** The bytes a master gets that clocks [n] more of them. *)
Fixpoint target_send (k : Z) (n : nat) devs : list device * list (option Z) :=
  match n with
  | O => (devs, [])
  | S n =>
      let '(devs, b) := i2c_target_read_processed k devs in
      let '(devs, bs) := target_send k n devs in
      (devs, b :: bs)
  end.

(** The last part: what a waiting thread is given. *)
Definition master_write_to (waiting : bool) (E : target_env) (k : Z) (bs : list Z) devs (c : C)
    : option (list device * C * Z * option i2c_msg_package) :=
  '(devs, c) ← target_receive E k bs (i2c_target_write_requested k devs) c;
  let '(devs, ret, given) := i2c_target_stop waiting E k devs in
  Some (devs, c, ret, given).

(** No thread waits. *)
Definition master_write (E : target_env) (k : Z) (bs : list Z) devs (c : C)
    : option (list device * C * Z) :=
  '(devs, c, ret, _) ← master_write_to false E k bs devs c; Some (devs, c, ret).

(** A write, a repeated start and a read of [n] bytes, one at least. *)
Definition master_write_read (E : target_env) (k : Z) (bs : list Z) (n : nat) devs (c : C)
    : option (list device * C * list (option Z)) :=
  '(devs, c) ← target_receive E k bs (i2c_target_write_requested k devs) c;
  '(devs, c, b) ← i2c_target_read_requested E k devs c;
  let '(devs, rest) := target_send k (n - 1) devs in
  let '(devs, _, _) := i2c_target_stop false E k devs in
  Some (devs, c, b :: rest).
End target.

(** ** A queue: a list *)

Record list_msgq := mk_list_msgq { lq_max : Z; lq_list : list i2c_msg_package }.

#[export] Instance list_target_msgq : target_msgq list_msgq := {
  k_msgq_init n := mk_list_msgq n [];
  k_msgq_put m q := if zlen (lq_list q) <? lq_max q
    then (mk_list_msgq (lq_max q) (lq_list q ++ [m]), 0) else (q, -35);
  k_msgq_get q := match lq_list q with
    | [] => None | m :: l => Some (m, mk_list_msgq (lq_max q) l) end;
  k_msgq_purge q := mk_list_msgq (lq_max q) [];
  k_msgq_num_free q := lq_max q - zlen (lq_list q);
  k_msgq_num_used q := zlen (lq_list q);
  max_msgs := lq_max;
  msgq_list := lq_list }.

#[export] Instance list_target_msgq_laws : target_msgq_laws list_msgq.
Proof.
  split; cbn.
  - done.
  - intros m q Hq. by destruct (Z.ltb_spec (zlen (lq_list q)) (lq_max q)); [|lia].
  - intros m q Hq. by destruct (Z.ltb_spec (zlen (lq_list q)) (lq_max q)); [lia|].
  - intros q. by destruct (lq_list q).
  - intros q m q' E. destruct (lq_list q); [done|]. by simplify_eq/=.
  - done.
  - done.
  - done.
Qed.

(** No functions installed. *)
#[export] Instance no_client {Q} : target_client Q Empty_set unit := {
  on_collect f := match f with end;
  on_post f := match f with end }.

(** ** The table of devices *)

Section table.
Context {Q F : Type} `{target_msgq Q}.
Implicit Types devs : list (i2c_target_device Q F).

Lemma zlen_upd_data k f devs : zlen (upd_data k f devs) = zlen devs.
Proof. unfold upd_data, set_dev_at, zlen. by rewrite length_insert. Qed.
Lemma zlen_set_registered k b devs : zlen (set_registered k b devs) = zlen devs.
Proof. unfold set_registered, set_dev_at, zlen. by rewrite length_insert. Qed.

Lemma zlen_set_dev_at k d devs : zlen (set_dev_at k d devs) = zlen devs.
Proof. unfold set_dev_at, zlen. by rewrite length_insert. Qed.

Lemma dev_at_set k d devs : 0 <= k < zlen devs -> dev_at (set_dev_at k d devs) k = d.
Proof.
  intros Hk. unfold dev_at, set_dev_at. rewrite list_lookup_insert_eq by (unfold zlen in Hk; lia). done.
Qed.

Lemma dev_at_set_ne k j d devs : 0 <= k -> 0 <= j -> j <> k ->
  dev_at (set_dev_at k d devs) j = dev_at devs j.
Proof. intros. unfold dev_at, set_dev_at. rewrite list_lookup_insert_ne by lia. done. Qed.

Lemma set_dev_at_twice k d d' devs : set_dev_at k d' (set_dev_at k d devs) = set_dev_at k d' devs.
Proof. apply list_insert_insert_eq. Qed.

Lemma data_at_upd k f devs : 0 <= k < zlen devs ->
  data_at (upd_data k f devs) k = f (data_at devs k).
Proof. intros Hk. unfold data_at, upd_data. by rewrite dev_at_set. Qed.
Lemma data_at_registered k b devs : 0 <= k < zlen devs ->
  data_at (set_registered k b devs) k = data_at devs k.
Proof. intros Hk. unfold data_at, set_registered. by rewrite dev_at_set. Qed.
Lemma init_upd k f devs : 0 <= k < zlen devs ->
  dev_is_init (dev_at (upd_data k f devs) k) = dev_is_init (dev_at devs k).
Proof. intros Hk. unfold upd_data. by rewrite dev_at_set. Qed.
Lemma register_upd k f devs : 0 <= k < zlen devs ->
  dev_is_register (dev_at (upd_data k f devs) k) = dev_is_register (dev_at devs k).
Proof. intros Hk. unfold upd_data. by rewrite dev_at_set. Qed.
Lemma init_registered k b devs : 0 <= k < zlen devs ->
  dev_is_init (dev_at (set_registered k b devs) k) = dev_is_init (dev_at devs k).
Proof. intros Hk. unfold set_registered. by rewrite dev_at_set. Qed.
Lemma register_registered k b devs : 0 <= k < zlen devs ->
  dev_is_register (dev_at (set_registered k b devs) k) = b.
Proof. intros Hk. unfold set_registered. by rewrite dev_at_set. Qed.

Lemma upd_data_twice k f g devs : 0 <= k < zlen devs ->
  upd_data k g (upd_data k f devs) = upd_data k (fun d => g (f d)) devs.
Proof.
  intros Hk. unfold upd_data at 1. unfold upd_data. rewrite !dev_at_set by done. cbn.
  by rewrite set_dev_at_twice.
Qed.

Lemma upd_data_ext k f g devs : f (data_at devs k) = g (data_at devs k) ->
  upd_data k f devs = upd_data k g devs.
Proof. unfold upd_data, data_at. by intros ->. Qed.
End table.

#[export] Hint Rewrite @zlen_upd_data @zlen_set_registered @zlen_set_dev_at : zlen.

(** Reads through the updates of the device in hand. *)
Ltac at_dev :=
  repeat first
    [ rewrite data_at_upd by (autorewrite with zlen; assumption)
    | rewrite data_at_registered by (autorewrite with zlen; assumption)
    | rewrite init_upd by (autorewrite with zlen; assumption)
    | rewrite register_upd by (autorewrite with zlen; assumption)
    | rewrite init_registered by (autorewrite with zlen; assumption)
    | rewrite register_registered by (autorewrite with zlen; assumption)
    | rewrite upd_data_twice by (autorewrite with zlen; assumption) ].

(** ** A device in service *)

(** The driver below takes the device on and off the bus. *)
Record bus_ok (E : target_env) (k : Z) : Prop := {
  bo_binding : te_binding E k = true;
  bo_register : te_register E k = 0;
  bo_unregister : te_unregister E k = 0 }.

Section service.
Context {Q F : Type} `{target_msgq_laws Q}.
Implicit Types devs : list (i2c_target_device Q F).

(** Between transfers, whether configured or not: the buffers have their size. *)
Record target_shape (k : Z) devs : Prop := {
  tp_index : 0 <= k < MAX_TARGET_NUM /\ zlen devs = MAX_TARGET_NUM;
  tp_bus : dev_is_init (dev_at devs k) = true -> td_bus (data_at devs k) = k;
  tp_wr : zlen (msg_array (td_wr_msg (data_at devs k))) = MAX_I2C_TARGET_BUFF;
  tp_rd : zlen (msg_array (td_rd_msg (data_at devs k))) = MAX_I2C_TARGET_BUFF;
  tp_idx : td_wr_idx (data_at devs k) = 0;
  tp_registered : dev_is_register (dev_at devs k) = true -> dev_is_init (dev_at devs k) = true }.

(** What [do_i2c_target_cfg] sets up and every transfer keeps: the messages fit a reader's buffer
    of 256 bytes, and the device is on the bus exactly when its queue has room. *)
Record target_wf (k : Z) devs : Prop := {
  tw_index : 0 <= k < MAX_TARGET_NUM /\ zlen devs = MAX_TARGET_NUM;
  tw_init : dev_is_init (dev_at devs k) = true;
  tw_bus : td_bus (data_at devs k) = k;
  tw_wr : zlen (msg_array (td_wr_msg (data_at devs k))) = MAX_I2C_TARGET_BUFF;
  tw_rd : zlen (msg_array (td_rd_msg (data_at devs k))) = MAX_I2C_TARGET_BUFF;
  tw_idx : td_wr_idx (data_at devs k) = 0;
  tw_room : 0 < max_msgs (td_msgq (data_at devs k));
  tw_used : zlen (msgq_list (td_msgq (data_at devs k))) <= max_msgs (td_msgq (data_at devs k));
  tw_msgs : Forall (fun m => msg_length m <= MAX_I2C_TARGET_BUFF) (msgq_list (td_msgq (data_at devs k)));
  tw_registered : dev_is_register (dev_at devs k)
    = (zlen (msgq_list (td_msgq (data_at devs k))) <? max_msgs (td_msgq (data_at devs k))) }.

Lemma tw_k k devs : target_wf k devs -> 0 <= k < zlen devs.
Proof. intros W. destruct (tw_index _ _ W) as [? ->]. done. Qed.

Lemma status_in_service E k devs :
  bus_ok E k -> 0 <= k < MAX_TARGET_NUM -> dev_is_init (dev_at devs k) = true ->
  i2c_target_status_get E devs k =
    if dev_is_register (dev_at devs k) then 0 else I2C_TARGET_NOT_REGISTER.
Proof.
  intros B Hk Hi. unfold i2c_target_status_get.
  destruct (Z.leb_spec MAX_TARGET_NUM k); [lia|]. rewrite (bo_binding _ _ B), Hi. cbn [negb].
  by destruct (dev_is_register _).
Qed.

Lemma unregister_ok E k devs :
  bus_ok E k -> 0 <= k < MAX_TARGET_NUM -> dev_is_init (dev_at devs k) = true ->
  dev_is_register (dev_at devs k) = true ->
  do_i2c_target_unregister E devs k = (set_registered k false devs, 0).
Proof.
  intros B Hk Hi Hr. unfold do_i2c_target_unregister. rewrite status_in_service, Hr by done.
  cbn. by rewrite (bo_unregister _ _ B).
Qed.

Lemma register_ok E k devs :
  bus_ok E k -> 0 <= k < MAX_TARGET_NUM -> dev_is_init (dev_at devs k) = true ->
  dev_is_register (dev_at devs k) = false ->
  k_msgq_num_free (td_msgq (data_at devs k)) <> 0 ->
  do_i2c_target_register E devs k = (set_registered k true devs, 0).
Proof.
  intros B Hk Hi Hr Hf. unfold do_i2c_target_register. rewrite status_in_service, Hr by done.
  cbn. apply Z.eqb_neq in Hf as ->. by rewrite (bo_register _ _ B).
Qed.

(** One byte after another into the buffer. *)
Definition recv_byte (b : Z) (d : i2c_target_data Q F) : i2c_target_data Q F :=
  if MAX_I2C_TARGET_BUFF <=? td_wr_idx d then d
  else set_wr_idx (u16 (td_wr_idx d + 1))
         (set_wr_msg (mk_pkg (msg_length (td_wr_msg d))
            (<[Z.to_nat (td_wr_idx d) := b]> (msg_array (td_wr_msg d)))) d).

Definition recv_bytes (bs : list Z) (d : i2c_target_data Q F) : i2c_target_data Q F :=
  fold_left (fun d b => recv_byte b d) bs d.

Lemma insert_at_length {A} (l k : list A) x y :
  <[length l := y]> (l ++ x :: k) = l ++ y :: k.
Proof. by rewrite insert_app_r_alt, Nat.sub_diag by lia. Qed.

(** From a buffer that holds [l]: the buffer then holds the first 256 of [l ++ bs]. *)
Lemma recv_bytes_spec bs d l :
  td_wr_idx d = zlen l -> zlen l <= MAX_I2C_TARGET_BUFF ->
  msg_array (td_wr_msg d) = l ++ zeros (MAX_I2C_TARGET_BUFF - zlen l) ->
  exists l', l' = take (Z.to_nat MAX_I2C_TARGET_BUFF) (l ++ bs) /\
  recv_bytes bs d = set_wr_idx (zlen l') (set_wr_msg
    (mk_pkg (msg_length (td_wr_msg d)) (l' ++ zeros (MAX_I2C_TARGET_BUFF - zlen l'))) d).
Proof.
  revert d l. induction bs as [|b bs IH]; intros d l Hi Hl Ha; eexists; (split; [done|]).
  - rewrite app_nil_r, take_ge by (unfold zlen, MAX_I2C_TARGET_BUFF in *; lia).
    rewrite <- Ha, <- Hi. destruct d as [? ? ? ? [] ? ? ? ? ? ? ?]; done.
  - cbn [recv_bytes fold_left]. unfold recv_byte at 2. rewrite Hi.
    destruct (Z.leb_spec MAX_I2C_TARGET_BUFF (zlen l)) as [Hf|Hf].
    + destruct (IH d l Hi Hl Ha) as (l' & -> & E). fold (recv_bytes bs d).
      assert (forall m, take (Z.to_nat MAX_I2C_TARGET_BUFF) (l ++ m) = l) as T.
      { intros m. apply take_app_length'. unfold zlen in *; lia. }
      rewrite T in *. done.
    + destruct (IH (set_wr_idx (u16 (zlen l + 1)) (set_wr_msg (mk_pkg (msg_length (td_wr_msg d))
        (<[Z.to_nat (zlen l) := b]> (msg_array (td_wr_msg d)))) d)) (l ++ [b])) as (l' & -> & E).
      * cbn [td_wr_idx set_wr_idx]. autorewrite with zlen. unfold MAX_I2C_TARGET_BUFF in *.
        pose proof (zlen_nonneg l). rewrite u16_id by lia. lia.
      * autorewrite with zlen. lia.
      * cbn [msg_array td_wr_msg set_wr_idx set_wr_msg]. rewrite Ha. unfold zlen at 1. rewrite Nat2Z.id.
        unfold zeros. replace (Z.to_nat (MAX_I2C_TARGET_BUFF - zlen l))
          with (S (Z.to_nat (MAX_I2C_TARGET_BUFF - zlen (l ++ [b])))) by (autorewrite with zlen; lia).
        cbn [replicate]. rewrite insert_at_length. by rewrite <- app_assoc.
      * rewrite <- app_assoc in E. cbn [app] in E. fold (recv_bytes bs). unfold recv_bytes in E.
        rewrite E. destruct d as [? ? ? ? [] ? ? ? ? ? ? ?]; done.
Qed.
End service.

(** ** Transfers of a device in service *)

Section transfers.
Context {Q F C : Type} `{target_msgq_laws Q} `{target_client Q F C}.
Implicit Types devs : list (i2c_target_device Q F).

(** What a transfer leaves as it is. *)
Record target_same (k : Z) devs devs' : Prop := {
  ts_post : td_post (data_at devs' k) = td_post (data_at devs k);
  ts_collect : td_collect (data_at devs' k) = td_collect (data_at devs k);
  ts_rd_msg : td_rd_msg (data_at devs' k) = td_rd_msg (data_at devs k);
  ts_max : max_msgs (td_msgq (data_at devs' k)) = max_msgs (td_msgq (data_at devs k)) }.

#[export] Instance target_same_preorder k : PreOrder (target_same k).
Proof. split; [by intros ?|]. intros a b c [] []. split; congruence. Qed.

Lemma write_received_eq E k b devs c :
  i2c_target_write_received E k b devs c =
    let d := data_at devs k in
    if MAX_I2C_TARGET_BUFF <=? td_wr_idx d then Some (devs, c, 1)
    else match td_post d with
         | Some f => '(devs, c) ← on_post f E k (upd_data k (recv_byte b) devs) c; Some (devs, c, 0)
         | None => Some (upd_data k (recv_byte b) devs, c, 0)
         end.
Proof.
  unfold i2c_target_write_received. cbv zeta.
  destruct (MAX_I2C_TARGET_BUFF <=? td_wr_idx (data_at devs k)) eqn:Ei; [done|].
  rewrite (upd_data_ext k _ (recv_byte b)); [done|].
  unfold recv_byte. by rewrite Ei.
Qed.

Lemma upd_data_id k devs : 0 <= k < zlen devs -> upd_data k (fun d => d) devs = devs.
Proof.
  intros Hk. unfold upd_data, set_dev_at, dev_at. apply list_insert_id.
  destruct (devs !! Z.to_nat k) as [[]|] eqn:E; [done|].
  apply lookup_ge_None_1 in E. unfold zlen in Hk. lia.
Qed.

Lemma upd_data_same k f devs : 0 <= k < zlen devs -> f (data_at devs k) = data_at devs k ->
  upd_data k f devs = devs.
Proof. intros Hk E. rewrite <- (upd_data_id k devs) at 2 by done. by apply upd_data_ext. Qed.

(** A write whose installed function, if there is one, does nothing for these bytes. *)
Lemma target_receive_quiet E k bs devs c :
  0 <= k < zlen devs -> 0 <= td_wr_idx (data_at devs k) ->
  (forall f d c, td_post (data_at devs k) = Some f -> td_wr_idx (data_at devs k) < td_wr_idx (data_at d k) ->
     on_post f E k d c = Some (d, c)) ->
  target_receive E k bs devs c = Some (upd_data k (recv_bytes bs) devs, c).
Proof.
  revert devs. induction bs as [|b bs IH]; intros devs Hk Hi Hp; cbn [target_receive].
  { by rewrite upd_data_id. }
  rewrite write_received_eq. cbv zeta.
  destruct (Z.leb_spec MAX_I2C_TARGET_BUFF (td_wr_idx (data_at devs k))) as [Hf|Hf].
  - cbn [mbind option_bind]. rewrite IH by done. f_equal. f_equal. apply upd_data_ext.
    cbn [recv_bytes fold_left]. unfold recv_byte at 2.
    by destruct (Z.leb_spec MAX_I2C_TARGET_BUFF (td_wr_idx (data_at devs k))); [|lia].
  - assert (td_wr_idx (recv_byte b (data_at devs k)) = td_wr_idx (data_at devs k) + 1) as Ei.
    { unfold recv_byte, MAX_I2C_TARGET_BUFF in *.
      destruct (Z.leb_spec 256 (td_wr_idx (data_at devs k))); [lia|]. cbn. apply u16_id. lia. }
    assert (target_receive E k bs (upd_data k (recv_byte b) devs) c
            = Some (upd_data k (recv_bytes (b :: bs)) devs, c)) as T.
    { rewrite IH; at_dev; [done|by autorewrite with zlen|lia|].
      assert (td_post (recv_byte b (data_at devs k)) = td_post (data_at devs k)) as ->
        by (unfold recv_byte; by destruct (_ <=? _)).
      intros f d c' Ef Hd. apply (Hp f d c' Ef). lia. }
    destruct (td_post (data_at devs k)) as [f|] eqn:Ef; cbn [mbind option_bind]; [|exact T].
    rewrite (Hp f); [exact T|done|]. at_dev. lia.
Qed.

(** The state in which the bytes [bs] of a write are in the buffer. *)
Definition written (k : Z) (bs : list Z) devs : list (i2c_target_device Q F) :=
  upd_data k (recv_bytes bs) (i2c_target_write_requested k devs).

Definition written_pkg (bs : list Z) : i2c_msg_package :=
  let m := take (Z.to_nat MAX_I2C_TARGET_BUFF) bs in
  mk_pkg (zlen m) (m ++ zeros (MAX_I2C_TARGET_BUFF - zlen m)).

Lemma pkg_bytes_written bs : pkg_bytes (written_pkg bs) = take (Z.to_nat MAX_I2C_TARGET_BUFF) bs.
Proof. unfold pkg_bytes, written_pkg. cbn. rewrite slice_app_l by lia. by apply slice_all. Qed.

Lemma zlen_take_le {A} n (l : list A) : 0 <= n -> zlen (take (Z.to_nat n) l) <= n.
Proof. intros. unfold zlen. rewrite length_take. lia. Qed.

Lemma data_written k bs devs : 0 <= k < zlen devs ->
  data_at (written k bs devs) k =
    set_wr_idx (msg_length (written_pkg bs)) (set_wr_msg (mk_pkg 0 (msg_array (written_pkg bs)))
      (set_skip false (set_req_address (td_address (data_at devs k) .& 0xFF) (data_at devs k)))).
Proof.
  intros Hk. unfold written, i2c_target_write_requested. at_dev.
  match goal with |- recv_bytes bs ?d = _ => destruct (recv_bytes_spec bs d []) as (l' & -> & E) end;
    [done|done|done|]. rewrite E. destruct (data_at devs k). done.
Qed.

Lemma written_keeps k bs devs : 0 <= k < zlen devs ->
  dev_is_init (dev_at (written k bs devs) k) = dev_is_init (dev_at devs k) /\
  dev_is_register (dev_at (written k bs devs) k) = dev_is_register (dev_at devs k) /\
  zlen (written k bs devs) = zlen devs.
Proof.
  intros Hk. unfold written, i2c_target_write_requested. at_dev. autorewrite with zlen.
  done.
Qed.

(** The stop condition after a write: the message is the last of the queue, and the device goes
    off the bus when this fills the queue. *)
Lemma stop_queues E k bs devs :
  bus_ok E k -> target_wf k devs -> dev_is_register (dev_at devs k) = true -> bs <> [] ->
  exists devs', i2c_target_stop false E k (written k bs devs) = (devs', 0, None) /\
    target_wf k devs' /\ target_same k devs devs' /\
    msgq_list (td_msgq (data_at devs' k)) = msgq_list (td_msgq (data_at devs k)) ++ [written_pkg bs].
Proof.
  intros B W Hr Hb. pose proof (tw_k _ _ W) as Hk.
  destruct (written_keeps k bs devs Hk) as (Ki & Kr & Kl). rewrite Hr in Kr.
  rewrite (tw_init _ _ W) in Ki. set (w := written k bs devs) in *.
  assert (0 <= k < zlen w) as Hw by lia.
  pose proof (data_written k bs devs Hk) as Ed. fold w in Ed.
  rewrite (tw_registered _ _ W) in Hr. apply Z.ltb_lt in Hr.
  assert (0 < msg_length (written_pkg bs)) as Hn.
  { cbn. unfold zlen. rewrite length_take. destruct bs; [done|]. cbn [length]. unfold MAX_I2C_TARGET_BUFF; lia. }
  destruct (mq_put (written_pkg bs) (td_msgq (data_at devs k))) as (P1 & P2 & P3).
  { rewrite mq_used. lia. }
  unfold i2c_target_stop, target_queue_written, target_put. rewrite !Ed.
  cbn [td_wr_idx set_wr_idx td_skip set_skip set_wr_msg td_wr_msg msg_array td_msgq td_bus set_req_address].
  apply Z.lt_neq, not_eq_sym, Z.eqb_neq in Hn as ->. cbn [fst snd].
  change (mk_pkg (msg_length (written_pkg bs)) (msg_array (written_pkg bs))) with (written_pkg bs).
  destruct (k_msgq_put _ _) as [q status] eqn:Ep. cbn [fst snd] in P1, P2, P3. subst status.
  change (u8 0 =? 0) with true. cbn [negb].
  set (devs1 := upd_data k (fun d => set_msgq q (set_wr_msg (written_pkg bs) d)) w).
  assert (0 <= k < zlen devs1) as Hk1 by (unfold devs1; autorewrite with zlen; lia).
  pose proof (tw_bus _ _ W) as Hbus. destruct (tw_index _ _ W) as [Hk16 Hz].
  assert (zlen (msg_array (written_pkg bs)) = MAX_I2C_TARGET_BUFF) as Hpk.
  { cbn. rewrite zlen_app, zlen_zeros; [lia|].
    pose proof (zlen_take_le MAX_I2C_TARGET_BUFF bs). unfold MAX_I2C_TARGET_BUFF in *. lia. }
  pose proof (mq_used q) as Hu. pose proof (mq_free q) as Hfree.
  pose proof (tw_room _ _ W). pose proof (tw_used _ _ W).
  assert (Forall (fun m => msg_length m <= MAX_I2C_TARGET_BUFF) (msgq_list q)) as Hm.
  { rewrite P2. apply Forall_app_2; [apply (tw_msgs _ _ W)|]. constructor; [|done].
    apply zlen_take_le. unfold MAX_I2C_TARGET_BUFF. lia. }
  assert (zlen (msgq_list q) = zlen (msgq_list (td_msgq (data_at devs k))) + 1) as Hq
    by (rewrite P2, zlen_app; done).
  destruct (Z.eqb_spec (k_msgq_num_free q) 0) as [Hf|Hf].
  - rewrite Hbus, (unregister_ok E k) by (done || (unfold devs1; at_dev; done)). cbn [fst].
    eexists. split; [done|].
    (split; [|split]); [split|split|]; unfold devs1; autorewrite with zlen;
      at_dev; rewrite ?Ed, ?P3; cbn; try done; try lia.
    apply (tw_rd _ _ W).
  - eexists. split; [done|].
    (split; [|split]); [split|split|]; unfold devs1; autorewrite with zlen;
      at_dev; rewrite ?Ed, ?P3; cbn; try done; try lia.
    + apply (tw_rd _ _ W).
    + rewrite Kr. symmetry. apply Z.ltb_lt. lia.
Qed.
End transfers.

(** ** Reading, and the two together *)

Section fifo.
Context {Q F C : Type} `{target_msgq_laws Q} `{target_client Q F C}.
Implicit Types devs : list (i2c_target_device Q F).

(** A thread takes the oldest message; the device is on the bus afterwards. *)
Lemma target_read_takes E k n devs m l :
  bus_ok E k -> target_wf k devs -> msgq_list (td_msgq (data_at devs k)) = m :: l ->
  exists devs', i2c_target_read E devs k n =
      Some (devs', I2C_TARGET_API_NO_ERR, slice (msg_array m) 0 (Z.min n (msg_length m))) /\
    target_wf k devs' /\ target_same k devs devs' /\ dev_is_register (dev_at devs' k) = true /\
    msgq_list (td_msgq (data_at devs' k)) = l.
Proof.
  intros B W El. pose proof (tw_k _ _ W) as Hk. destruct (tw_index _ _ W) as [Hk16 Hz].
  pose proof (tw_registered _ _ W) as Hr. pose proof (tw_used _ _ W) as Hu. rewrite El in Hr, Hu.
  autorewrite with zlen in Hr, Hu.
  unfold i2c_target_read, multi_bus_i2c_target_read. cbn [target_read_run target_read_step].
  rewrite status_in_service by (done || apply W).
  replace (_ .& status_unusable) with 0 by (by destruct (dev_is_register _)). rewrite Z.eqb_refl. cbn [negb].
  destruct (k_msgq_get (td_msgq (data_at devs k))) as [[m' q]|] eqn:Eg.
  2: { apply mq_get in Eg. congruence. }
  destruct (mq_get_head _ _ _ Eg) as [El' Em]. rewrite El in El'. injection El' as -> ->.
  pose proof (mq_used q) as Hq. pose proof (mq_free q) as Hf. cbn [target_read_step].
  rewrite !data_at_upd by done. cbn [td_msgq set_msgq].
  assert (read_out n m' = slice (msg_array m') 0 (Z.min n (msg_length m'))) as Ho.
  { unfold read_out. f_equal. destruct (Z.ltb_spec n (msg_length m')); lia. }
  pose proof (tw_msgs _ _ W) as Hm. rewrite El in Hm. apply Forall_cons in Hm as [_ Hm].
  destruct (Z.eqb_spec (k_msgq_num_used q) (max_msgs q - 1)) as [Hl|Hl].
  - destruct (Z.ltb_spec (1 + zlen (msgq_list q)) (max_msgs (td_msgq (data_at devs k)))); [lia|].
    cbn [target_read_step]. rewrite (register_ok E k); try done; at_dev; try done; [|apply W|cbn; lia].
    eexists. split; [by rewrite Ho|]. (split; [|split; [|split]]); [split|split| |]; autorewrite with zlen;
      at_dev; cbn; rewrite ?Em; try done; try (apply W); try lia; try congruence.
  - destruct (Z.ltb_spec (1 + zlen (msgq_list q)) (max_msgs (td_msgq (data_at devs k)))); [|lia].
    eexists. split; [by rewrite Ho|]. (split; [|split; [|split]]); [split|split| |]; autorewrite with zlen;
      at_dev; cbn; rewrite ?Em; try done; try (apply W); try lia; try congruence.
    rewrite Hr. symmetry. apply Z.ltb_lt. lia.
Qed.

(** A service whose function for written bytes leaves the device alone. *)
Class post_keeps_device : Prop :=
  post_ok : forall f E k devs c, exists c', on_post f E k devs c = Some (devs, c').

Lemma target_receive_post `{post_keeps_device} E k bs devs c :
  0 <= k < zlen devs ->
  exists c', target_receive E k bs devs c = Some (upd_data k (recv_bytes bs) devs, c').
Proof.
  revert devs c. induction bs as [|b bs IH]; intros devs c Hk; cbn [target_receive].
  { exists c. by rewrite upd_data_id. }
  rewrite write_received_eq. cbv zeta.
  destruct (MAX_I2C_TARGET_BUFF <=? td_wr_idx (data_at devs k)) eqn:Ef.
  - cbn [mbind option_bind]. destruct (IH devs c Hk) as [c' ->]. exists c'.
    f_equal. f_equal. apply upd_data_ext. cbn [recv_bytes fold_left]. unfold recv_byte at 2. by rewrite Ef.
  - assert (forall c, exists c', target_receive E k bs (upd_data k (recv_byte b) devs) c
              = Some (upd_data k (recv_bytes (b :: bs)) devs, c')) as T.
    { intros c1. destruct (IH (upd_data k (recv_byte b) devs) c1) as [c' ->];
        [by autorewrite with zlen|]. exists c'. at_dev. done. }
    destruct (td_post (data_at devs k)) as [f|]; cbn [mbind option_bind]; [|apply T].
    destruct (post_ok f E k (upd_data k (recv_byte b) devs) c) as [c' ->].
    cbn [mbind option_bind]. apply T.
Qed.

Lemma master_write_queues `{post_keeps_device} E k bs devs c :
  bus_ok E k -> target_wf k devs -> dev_is_register (dev_at devs k) = true -> bs <> [] ->
  exists devs' c', master_write_to false E k bs devs c = Some (devs', c', 0, None) /\
    target_wf k devs' /\ target_same k devs devs' /\
    msgq_list (td_msgq (data_at devs' k)) = msgq_list (td_msgq (data_at devs k)) ++ [written_pkg bs].
Proof.
  intros B W Hr Hb. pose proof (tw_k _ _ W) as Hk. unfold master_write_to.
  destruct (target_receive_post E k bs (i2c_target_write_requested k devs) c) as [c' ->].
  { unfold i2c_target_write_requested. by autorewrite with zlen. }
  cbn [mbind option_bind]. destruct (stop_queues E k bs devs B W Hr Hb) as (devs' & Es & R).
  unfold written in Es. rewrite Es. eauto.
Qed.

(** A message for a thread that waits does not go through the queue. *)
Lemma master_write_hands `{post_keeps_device} E k bs devs c :
  bus_ok E k -> target_wf k devs -> dev_is_register (dev_at devs k) = true -> bs <> [] ->
  msgq_list (td_msgq (data_at devs k)) = [] ->
  exists devs' c', master_write_to true E k bs devs c = Some (devs', c', 0, Some (written_pkg bs)) /\
    target_wf k devs' /\ dev_is_register (dev_at devs' k) = true /\
    td_msgq (data_at devs' k) = td_msgq (data_at devs k).
Proof.
  intros B W Hr Hb El. pose proof (tw_k _ _ W) as Hk. unfold master_write_to.
  destruct (target_receive_post E k bs (i2c_target_write_requested k devs) c) as [c' ->].
  { unfold i2c_target_write_requested. by autorewrite with zlen. }
  cbn [mbind option_bind]. change (upd_data k (recv_bytes bs) _) with (written k bs devs).
  destruct (written_keeps k bs devs Hk) as (Ki & Kr & Kl). rewrite Hr in Kr.
  rewrite (tw_init _ _ W) in Ki. set (w := written k bs devs) in *.
  assert (0 <= k < zlen w) as Hw by lia.
  pose proof (data_written k bs devs Hk) as Ed. fold w in Ed.
  assert (0 < msg_length (written_pkg bs)) as Hn.
  { cbn. unfold zlen. rewrite length_take. destruct bs; [done|]. cbn [length]. unfold MAX_I2C_TARGET_BUFF; lia. }
  unfold i2c_target_stop, target_queue_written, target_put. rewrite !Ed.
  cbn [td_wr_idx set_wr_idx td_skip set_skip set_wr_msg td_wr_msg msg_array td_msgq td_bus set_req_address].
  apply Z.lt_neq, not_eq_sym, Z.eqb_neq in Hn as ->. change (u8 0 =? 0) with true. cbn [negb].
  change (mk_pkg (msg_length (written_pkg bs)) (msg_array (written_pkg bs))) with (written_pkg bs).
  rewrite mq_free, mq_used, El. autorewrite with zlen. pose proof (tw_room _ _ W).
  destruct (Z.eqb_spec (max_msgs (td_msgq (data_at devs k)) - 0) 0); [lia|].
  assert (zlen (msg_array (written_pkg bs)) = MAX_I2C_TARGET_BUFF) as Hpk.
  { cbn. rewrite zlen_app, zlen_zeros; [lia|].
    pose proof (zlen_take_le MAX_I2C_TARGET_BUFF bs). unfold MAX_I2C_TARGET_BUFF in *. lia. }
  destruct (tw_index _ _ W) as [Hk16 Hz].
  eexists _, c'. split; [done|]. (split; [split|split]); autorewrite with zlen; at_dev; rewrite ?Ed; cbn;
    try done; try apply W; try lia.
  rewrite Kr, <- Hr. apply (tw_registered _ _ W).
Qed.

(** What is going on at the device: the master writes a message, which takes a device on the bus; a
    thread that reads does a step, or its wait comes to its end; its last step hands a message to
    its caller. The code of each is part of the event. *)
Inductive target_event := Sent (bs : list Z) (ret : Z) | Got (bs : list Z) (ret : Z) | Quiet.

Record target_state := mk_target_state {
  tg_devs : list (i2c_target_device Q F); tg_client : C; tg_read : read_stage }.

Definition is_waiting (st : read_stage) : bool := match st with ReadWait => true | _ => false end.

Inductive target_step (E : target_env) (k : Z) (forever : bool) : target_state -> target_event -> target_state -> Prop :=
  | target_step_write bs devs c st devs' c' ret given :
      dev_is_register (dev_at devs k) = true -> bs <> [] ->
      master_write_to (is_waiting st) E k bs devs c = Some (devs', c', ret, given) ->
      target_step E k forever (mk_target_state devs c st) (Sent bs ret)
        (mk_target_state devs' c' (match given with Some m => ReadGot m | None => st end))
  | target_step_read devs c st devs' st' :
      target_read_step E k MAX_I2C_TARGET_BUFF forever st devs = (devs', inl st') ->
      target_step E k forever (mk_target_state devs c st) Quiet (mk_target_state devs' c st')
  | target_step_returns devs c st devs' out ret :
      is_waiting st = false ->
      target_read_step E k MAX_I2C_TARGET_BUFF forever st devs = (devs', inr (ret, out)) ->
      target_step E k forever (mk_target_state devs c st) (Got out ret) (mk_target_state devs' c ReadStart)
  | target_step_timeout devs c :
      forever = false ->
      target_step E k forever (mk_target_state devs c ReadWait) Quiet (mk_target_state devs c ReadStart).

Inductive target_steps (E : target_env) (k : Z) (forever : bool) : target_state -> list target_event -> target_state -> Prop :=
  | target_steps_nil s : target_steps E k forever s [] s
  | target_steps_cons s e s1 es s' :
      target_step E k forever s e s1 -> target_steps E k forever s1 es s' -> target_steps E k forever s (e :: es) s'.

(** The messages the master has sent, cut to the buffer, and those the thread has read; the one it
    holds, and those in the queue. *)
Definition sent_of (es : list target_event) : list (list Z) :=
  omap (fun e => match e with Sent bs _ => Some (take (Z.to_nat MAX_I2C_TARGET_BUFF) bs) | _ => None end) es.
Definition got_of (es : list target_event) : list (list Z) :=
  omap (fun e => match e with Got bs _ => Some bs | _ => None end) es.
Definition taken (st : read_stage) : list i2c_msg_package :=
  match st with ReadGot m | ReadRegister m => [m] | _ => [] end.
Definition pending (k : Z) devs : list (list Z) := pkg_bytes <$> msgq_list (td_msgq (data_at devs k)).

(** The answers: every write is taken; a read that returns has its message, and it fails only if a
    write came since the read before ([wrote]). *)
Fixpoint answers_ok (wrote : bool) (es : list target_event) : Prop :=
  match es with
  | [] => True
  | Sent _ ret :: es => ret = 0 /\ answers_ok true es
  | Got _ ret :: es =>
      (ret = I2C_TARGET_API_NO_ERR \/ ret = I2C_TARGET_API_BUS_GET_FAIL /\ wrote = true) /\ answers_ok false es
  | Quiet :: es => answers_ok wrote es
  end.

(** A device in service, except that a thread that has taken a message from a full queue has still
    to take the device back on the bus. *)
Definition half_way (k : Z) devs : Prop :=
  dev_is_register (dev_at devs k) = false /\
  zlen (msgq_list (td_msgq (data_at devs k))) = max_msgs (td_msgq (data_at devs k)) - 1 /\
  target_wf k (set_registered k true devs).

Record read_inv (k : Z) (st : read_stage) devs : Prop := {
  ri_dev : target_wf k devs \/ taken st <> [] /\ half_way k devs;
  ri_wait : st = ReadWait -> msgq_list (td_msgq (data_at devs k)) = [];
  ri_taken : Forall (fun m => msg_length m <= MAX_I2C_TARGET_BUFF) (taken st) }.

(** What a thread that was not interrupted finds: the count tells whether the device is off the
    bus. *)
Definition calm (k : Z) (st : read_stage) devs : Prop :=
  match st with
  | ReadGot _ => half_way k devs \/
      zlen (msgq_list (td_msgq (data_at devs k))) < max_msgs (td_msgq (data_at devs k)) - 1
  | ReadRegister _ => half_way k devs
  | ReadStart | ReadWait => True
  end.

Lemma read_out_whole m : msg_length m <= MAX_I2C_TARGET_BUFF -> read_out MAX_I2C_TARGET_BUFF m = pkg_bytes m.
Proof. intros. unfold read_out, pkg_bytes. by destruct (Z.ltb_spec MAX_I2C_TARGET_BUFF (msg_length m)); [lia|]. Qed.

Lemma half_wf k devs : zlen devs = MAX_TARGET_NUM -> 0 <= k < MAX_TARGET_NUM ->
  target_wf k (set_registered k true devs) ->
  dev_is_init (dev_at devs k) = true /\ 0 < max_msgs (td_msgq (data_at devs k)).
Proof.
  intros Hz Hk W. assert (0 <= k < zlen devs) by lia. pose proof (tw_init _ _ W) as Hi. pose proof (tw_room _ _ W) as Hr.
  rewrite data_at_registered in Hr by done. by rewrite init_registered in Hi.
Qed.

(** A device that the thread has to take back on the bus: it does. *)
Lemma register_half E k devs :
  bus_ok E k -> half_way k devs -> do_i2c_target_register E devs k = (set_registered k true devs, 0).
Proof.
  intros B (Hr & Hu & W). destruct (tw_index _ _ W) as [Hk Hz]. rewrite zlen_set_registered in Hz.
  destruct (half_wf k devs Hz Hk W) as [Hi _]. apply register_ok; try done. rewrite mq_free, mq_used. lia.
Qed.

(** A device in service is not taken on the bus a second time, nor with a full queue. *)
Lemma register_refused E k devs :
  bus_ok E k -> target_wf k devs ->
  exists ret, do_i2c_target_register E devs k = (devs, ret) /\ ret <> 0.
Proof.
  intros B W. destruct (tw_index _ _ W) as [Hk _]. pose proof (tw_registered _ _ W) as Hr.
  unfold do_i2c_target_register. rewrite status_in_service by (done || apply W).
  destruct (dev_is_register (dev_at devs k)); [by eexists|]. symmetry in Hr. apply Z.ltb_ge in Hr.
  pose proof (tw_used _ _ W). change (negb (I2C_TARGET_NOT_REGISTER .& status_unusable =? 0)) with false.
  change (I2C_TARGET_NOT_REGISTER .& I2C_TARGET_NOT_REGISTER =? 0) with false. cbv iota.
  rewrite mq_free, mq_used. destruct (Z.eqb_spec (max_msgs (td_msgq (data_at devs k))
    - zlen (msgq_list (td_msgq (data_at devs k)))) 0); [by eexists|lia].
Qed.

(** The first step of a read. *)
Lemma read_start_inv E k forever devs devs' r :
  bus_ok E k -> target_wf k devs ->
  target_read_step E k MAX_I2C_TARGET_BUFF forever ReadStart devs = (devs', r) ->
  exists st', r = inl st' /\ read_inv k st' devs' /\ calm k st' devs' /\
    msgq_list (td_msgq (data_at devs k)) = taken st' ++ msgq_list (td_msgq (data_at devs' k)).
Proof.
  intros B W. pose proof (tw_k _ _ W) as Hk. destruct (tw_index _ _ W) as [Hk16 Hz].
  cbn [target_read_step]. rewrite status_in_service by (done || apply W).
  replace (_ .& status_unusable) with 0 by (by destruct (dev_is_register _)). rewrite Z.eqb_refl. cbn [negb].
  destruct (k_msgq_get (td_msgq (data_at devs k))) as [[m q]|] eqn:Eg; intros [= <- <-]; eexists; (split; [done|]).
  2: { apply mq_get in Eg. split; [|done]. by split; [left| |constructor]. }
  destruct (mq_get_head _ _ _ Eg) as [El Em]. pose proof (tw_registered _ _ W) as Hr. pose proof (tw_used _ _ W) as Hu.
  pose proof (tw_msgs _ _ W) as Hm. rewrite El in Hr, Hu, Hm |- *. autorewrite with zlen in Hr, Hu.
  apply Forall_cons in Hm as [Hm Hms].
  assert (target_wf k (set_registered k true (upd_data k (set_msgq q) devs))) as Wt.
  { split; autorewrite with zlen; at_dev; cbn; rewrite ?Em; try done; try (apply W); lia. }
  destruct (Z.ltb_spec (1 + zlen (msgq_list q)) (max_msgs (td_msgq (data_at devs k)))) as [Hl|Hl].
  - split; [|split; [right; at_dev; cbn; lia|by at_dev]]. split; [left|done|by apply Forall_singleton].
    split; autorewrite with zlen; at_dev; cbn; rewrite ?Em; try done; try (apply W); try lia.
    rewrite Hr. symmetry. apply Z.ltb_lt. lia.
  - assert (half_way k (upd_data k (set_msgq q) devs)) as Hh.
    { split; [by at_dev|]. split; [at_dev; cbn; lia|done]. }
    split; [|split; [by left|by at_dev]]. by split; [right|done|apply Forall_singleton].
Qed.

(** The other steps. *)
Lemma read_step_inv E k forever st m devs devs' r :
  bus_ok E k -> read_inv k st devs -> taken st = [m] ->
  target_read_step E k MAX_I2C_TARGET_BUFF forever st devs = (devs', r) ->
  td_msgq (data_at devs' k) = td_msgq (data_at devs k) /\
  match r with
  | inl st' => read_inv k st' devs' /\ taken st' = [m] /\ (calm k st devs -> calm k st' devs')
  | inr (ret, out) => target_wf k devs' /\ out = pkg_bytes m /\
      (ret = I2C_TARGET_API_NO_ERR \/ ret = I2C_TARGET_API_BUS_GET_FAIL /\ ~ calm k st devs)
  end.
Proof.
  intros B [Hd _ Ht] Em. rewrite Em in Ht. pose proof (Forall_inv Ht) as Hm. cbv beta in Hm.
  destruct st as [| |m'|m']; try done; injection Em as ->; cbn [target_read_step].
  - rewrite mq_used. destruct (Z.eqb_spec (zlen (msgq_list (td_msgq (data_at devs k))))
      (max_msgs (td_msgq (data_at devs k)) - 1)) as [He|He]; intros [= <- <-]; (split; [done|]).
    + split; [by split|]. split; [done|]. cbn [calm]. intros [Hh|]; [done|lia].
    + destruct Hd as [W|(_ & _ & Hu & _)]; [|lia]. split; [done|]. split; [apply read_out_whole; exact Hm|by left].
  - destruct Hd as [W|(_ & Hh)].
    + destruct (register_refused E k devs B W) as (ret & -> & Hret). apply Z.eqb_neq in Hret as ->.
      intros [= <- <-]. split; [done|]. split; [done|]. split; [apply read_out_whole; exact Hm|]. right. split; [done|].
      intros (Hr & Hu & _). pose proof (tw_registered _ _ W) as Htr. rewrite Hr, Hu in Htr.
      symmetry in Htr. apply Z.ltb_ge in Htr. lia.
    + rewrite (register_half E k devs B Hh). intros [= <- <-]. destruct Hh as (_ & _ & W).
      pose proof (tw_k _ _ W) as Hk. rewrite zlen_set_registered in Hk. split; [by rewrite data_at_registered|].
      split; [done|]. split; [apply read_out_whole; exact Hm|by left].
Qed.

(** What an event says of a read, and whether a write came since the last one. *)
Definition answer_ok (wrote : bool) (e : target_event) : Prop :=
  match e with
  | Sent _ ret => ret = 0
  | Got _ ret => ret = I2C_TARGET_API_NO_ERR \/ ret = I2C_TARGET_API_BUS_GET_FAIL /\ wrote = true
  | Quiet => True
  end.
Definition wrote_after (wrote : bool) (e : target_event) : bool :=
  match e with Sent _ _ => true | Got _ _ => false | Quiet => wrote end.

Lemma answers_cons w e es : answer_ok w e -> answers_ok (wrote_after w e) es -> answers_ok w (e :: es).
Proof. by destruct e. Qed.

Lemma target_step_fifo `{post_keeps_device} E k forever wrote s e s' :
  bus_ok E k -> read_inv k (tg_read s) (tg_devs s) -> (wrote = false -> calm k (tg_read s) (tg_devs s)) ->
  target_step E k forever s e s' ->
  read_inv k (tg_read s') (tg_devs s') /\ (wrote_after wrote e = false -> calm k (tg_read s') (tg_devs s')) /\
  answer_ok wrote e /\
  (pkg_bytes <$> taken (tg_read s)) ++ pending k (tg_devs s) ++ sent_of [e] =
    got_of [e] ++ (pkg_bytes <$> taken (tg_read s')) ++ pending k (tg_devs s').
Proof.
  intros B I Hw0 Hs.
  destruct Hs as [bs devs c st devs' c' ret given Hr Hb Hw|devs c st devs' st' Hg|devs c st devs' out ret Hn Hg|devs c Hf];
    cbn [tg_read tg_devs sent_of got_of omap list_omap answer_ok wrote_after app] in *.
  - pose proof I as [[W|(_ & Hr' & _)] Hq Ht]; [|congruence]. destruct (is_waiting st) eqn:Ew.
    + destruct st; try done. destruct (master_write_hands E k bs devs c) as (d' & c1 & E1 & W' & _ & Eq);
        [done|done|done|done|by apply Hq|]. rewrite E1 in Hw. simplify_eq. split; [|split; [done|split; [done|]]].
      * split; [by left|done|]. apply Forall_singleton, zlen_take_le. by unfold MAX_I2C_TARGET_BUFF.
      * unfold pending. rewrite Eq, Hq by done. cbn. by rewrite pkg_bytes_written.
    + destruct (master_write_queues E k bs devs c) as (d' & c1 & E1 & W' & _ & Eq); try done.
      rewrite E1 in Hw. simplify_eq. split; [|split; [done|split; [done|]]].
      * split; [by left|by intros ->|done].
      * unfold pending. rewrite Eq, fmap_app. cbn. by rewrite pkg_bytes_written.
  - rewrite app_nil_r. destruct (taken st) as [|m l] eqn:Em.
    + destruct st; try done. pose proof I as [[W|(Hne & _)] _ _]; [|done].
      destruct (read_start_inv E k forever devs devs' _ B W Hg) as (st1 & [= <-] & I' & Hc & Eq).
      split; [done|]. split; [done|]. split; [done|]. unfold pending. by rewrite Eq, fmap_app.
    + assert (l = []) as -> by (by destruct st; simplify_eq/=).
      destruct (read_step_inv E k forever st m devs devs' _ B I Em Hg) as (Eq & I' & Em' & Hc).
      split; [done|]. split; [intros Hf; by apply Hc, Hw0|]. split; [done|]. unfold pending. by rewrite Eq, Em'.
  - rewrite app_nil_r. destruct (taken st) as [|m l] eqn:Em.
    + destruct st; try done. pose proof I as [[W|(Hne & _)] _ _]; [|done].
      by destruct (read_start_inv E k forever devs devs' _ B W Hg) as (st1 & ? & _).
    + assert (l = []) as -> by (by destruct st; simplify_eq/=).
      destruct (read_step_inv E k forever st m devs devs' _ B I Em Hg) as (Eq & W' & -> & Hret).
      split; [by split; [left| |constructor]|]. split; [done|]. split.
      * destruct Hret as [?|[? Hc]]; [by left|right]. split; [done|]. destruct wrote; [done|]. by destruct Hc; apply Hw0.
      * unfold pending. by rewrite Eq.
  - split; [|split; [done|split; [done|by rewrite app_nil_r]]]. destruct I as [[W|(Hne & _)] _ _]; [|done].
    by split; [left| |constructor].
Qed.

Lemma target_steps_fifo `{post_keeps_device} E k forever s es s' :
  bus_ok E k -> target_steps E k forever s es s' ->
  forall wrote, read_inv k (tg_read s) (tg_devs s) -> (wrote = false -> calm k (tg_read s) (tg_devs s)) ->
  read_inv k (tg_read s') (tg_devs s') /\ answers_ok wrote es /\
  (pkg_bytes <$> taken (tg_read s)) ++ pending k (tg_devs s) ++ sent_of es =
    got_of es ++ (pkg_bytes <$> taken (tg_read s')) ++ pending k (tg_devs s').
Proof.
  intros B Hs. induction Hs as [s|s e s1 es s' Hstep Hs IH]; intros wrote I Hw; [by rewrite app_nil_r|].
  destruct (target_step_fifo E k forever wrote s e s1 B I Hw Hstep) as (I1 & Hw1 & E1 & P1).
  destruct (IH _ I1 Hw1) as (I' & Hc & Hp). split; [done|]. split; [by apply answers_cons|].
  unfold sent_of, got_of in *. change (e :: es) with ([e] ++ es).
  rewrite !omap_app, <- (app_assoc (omap _ [e])), <- Hp, !app_assoc.
  rewrite <- (app_assoc _ (pending k (tg_devs s))), P1, <- !app_assoc. done.
Qed.

(** A thread that still has to take the device back on the bus does so with its next steps. *)
Lemma read_run_half E k forever st m devs :
  bus_ok E k -> taken st = [m] -> half_way k devs ->
  target_read_run 2 E k MAX_I2C_TARGET_BUFF forever st devs =
    Some (set_registered k true devs, 0, read_out MAX_I2C_TARGET_BUFF m).
Proof.
  intros B Em Hh. destruct st as [| |m'|m']; try done; injection Em as ->; cbn [target_read_run target_read_step].
  - rewrite mq_used, (proj1 (proj2 Hh)), Z.eqb_refl. cbn [target_read_step]. by rewrite (register_half E k devs B Hh).
  - by rewrite (register_half E k devs B Hh).
Qed.


(** The message of a thread that waits: the read ends with the bytes, and with BUS_GET_FAIL exactly
    when the queue is made for one message. *)
Lemma target_hand_over `{post_keeps_device} E k bs devs c :
  bus_ok E k -> target_wf k devs -> msgq_list (td_msgq (data_at devs k)) = [] -> bs <> [] ->
  exists devs' c', master_write_to true E k bs devs c = Some (devs', c', 0, Some (written_pkg bs)) /\
    target_wf k devs' /\ pending k devs' = [] /\
    target_read_run 2 E k MAX_I2C_TARGET_BUFF true (ReadGot (written_pkg bs)) devs' =
      Some (devs', if max_msgs (td_msgq (data_at devs k)) =? 1 then I2C_TARGET_API_BUS_GET_FAIL else I2C_TARGET_API_NO_ERR,
            take (Z.to_nat MAX_I2C_TARGET_BUFF) bs).
Proof.
  intros B W El Hb. pose proof (tw_room _ _ W) as Hr.
  assert (dev_is_register (dev_at devs k) = true) as Hreg.
  { rewrite (tw_registered _ _ W), El. by apply Z.ltb_lt. }
  destruct (master_write_hands E k bs devs c) as (devs' & c' & Ew & W' & _ & Eq); try done.
  exists devs', c'. split; [done|]. split; [done|]. split; [unfold pending; by rewrite Eq, El|].
  assert (read_out MAX_I2C_TARGET_BUFF (written_pkg bs) = take (Z.to_nat MAX_I2C_TARGET_BUFF) bs) as Ho.
  { rewrite read_out_whole, pkg_bytes_written; [done|]. by apply zlen_take_le. }
  cbn [target_read_run target_read_step]. rewrite mq_used, Eq, El, zlen_nil, Ho.
  destruct (Z.eqb_spec 0 (max_msgs (td_msgq (data_at devs k)) - 1)), (Z.eqb_spec (max_msgs (td_msgq (data_at devs k))) 1);
    try lia; [|done].
  cbn [target_read_step]. rewrite Ho.
  destruct (register_refused E k devs' B W') as (ret & -> & Hret). by apply Z.eqb_neq in Hret as ->.
Qed.
End fifo.

(** ** Configuration *)

Section control.
Context {Q F C : Type} `{target_msgq_laws Q} `{target_client Q F C}.
Implicit Types devs : list (i2c_target_device Q F).

Lemma power_on_shape k : 0 <= k < MAX_TARGET_NUM ->
  target_shape k (replicate 16 (zero_target : i2c_target_device Q F)).
Proof.
  intros Hk.
  assert (dev_at (replicate 16 (zero_target : i2c_target_device Q F)) k = zero_target) as E.
  { unfold dev_at. rewrite lookup_replicate_2 by (unfold MAX_TARGET_NUM in Hk; lia). done. }
  split; unfold data_at; rewrite ?E; done.
Qed.

Lemma target_wf_shape k devs : target_wf k devs -> target_shape k devs.
Proof. intros W. split; try apply W; intros _; apply W. Qed.

Record cfg_env_ok (E : target_env) (k : Z) : Prop := {
  ce_bus : bus_ok E k;
  ce_mutex_init : te_mutex_init E = true;
  ce_lock : te_lock E = true;
  ce_malloc : te_malloc E = true }.

(** A device just configured, and not yet on the bus. *)
Record target_idle (k : Z) (cfg : i2c_target_config F) devs : Prop := {
  ti_length : zlen devs = MAX_TARGET_NUM;
  ti_init : dev_is_init (dev_at devs k) = true;
  ti_register : dev_is_register (dev_at devs k) = false;
  ti_data : exists d, data_at devs k = set_msgq (k_msgq_init (u16 (tc_msg_count cfg))) (configured cfg d) /\
    td_bus d = k /\ zlen (msg_array (td_wr_msg d)) = MAX_I2C_TARGET_BUFF /\
    zlen (msg_array (td_rd_msg d)) = MAX_I2C_TARGET_BUFF /\ td_wr_idx d = 0 }.

Lemma cfg_locked_ok E k cfg devs :
  te_malloc E = true -> target_shape k devs -> dev_is_register (dev_at devs k) = false ->
  exists devs', target_cfg_locked E devs k (negb (dev_is_init (dev_at devs k))) cfg = (devs', 0) /\
    target_idle k cfg devs'.
Proof.
  intros Hm S Hr. destruct (tp_index _ _ S) as [Hk Hz].
  assert (0 <= k < zlen devs) as Hk' by lia.
  unfold target_cfg_locked. rewrite Hm. cbn [negb].
  set (devs2 := if negb (dev_is_init (dev_at devs k)) then _ else _).
  assert (zlen devs2 = MAX_TARGET_NUM) as Hz2.
  { unfold devs2. destruct (dev_is_init _); cbn [negb]; autorewrite with zlen; lia. }
  assert (0 <= k < zlen devs2) as Hk2 by lia.
  eexists. split; [done|]. split.
  - by autorewrite with zlen.
  - by rewrite dev_at_set by (autorewrite with zlen; done).
  - rewrite dev_at_set by (autorewrite with zlen; done). cbn [dev_is_register]. at_dev.
    unfold devs2. destruct (dev_is_init (dev_at devs k)); cbn [negb]; at_dev; done.
  - exists (data_at devs2 k). unfold data_at at 1. rewrite dev_at_set by (autorewrite with zlen; done).
    cbn [dev_data]. at_dev. split; [done|]. unfold devs2.
    destruct (dev_is_init (dev_at devs k)) eqn:Ei; cbn [negb]; at_dev; cbn;
      (split; [|split; [apply S|split; apply S]]); [by apply (tp_bus _ _ S)|done].
Qed.

Lemma shape_unregistered k devs : target_shape k devs -> target_shape k (set_registered k false devs).
Proof.
  intros S. destruct (tp_index _ _ S) as [Hk Hz]. assert (0 <= k < zlen devs) as Hk' by lia.
  split; at_dev; autorewrite with zlen; try apply S; done.
Qed.

Lemma do_cfg_ok E k cfg devs :
  cfg_env_ok E k -> target_shape k devs ->
  exists devs', do_i2c_target_cfg E devs k cfg = (devs', 0) /\ target_idle k cfg devs'.
Proof.
  intros [B M1 M2 M3] S. destruct (tp_index _ _ S) as [Hk Hz].
  assert (0 <= k < zlen devs) as Hk' by lia.
  unfold do_i2c_target_cfg, i2c_target_status_get. destruct (Z.leb_spec MAX_TARGET_NUM k); [lia|].
  rewrite (bo_binding _ _ B), M1, M2. cbn [negb]. rewrite andb_false_r.
  destruct (dev_is_register (dev_at devs k)) eqn:Er.
  - pose proof (tp_registered _ _ S Er) as Ei. rewrite Ei, unregister_ok by done.
    destruct (cfg_locked_ok E k cfg (set_registered k false devs) M3) as (devs' & El & R);
      [by apply shape_unregistered|by at_dev|]. revert El. at_dev. rewrite Ei. eauto.
  - destruct (cfg_locked_ok E k cfg devs M3 S Er) as (devs' & El & R). revert El.
    destruct (dev_is_init (dev_at devs k)); eauto.
Qed.

(** Configuring a bus, for the first time or again, puts the device in service: on the bus with the
    new address and functions and an empty queue of the size asked for. A size that is a multiple of
    65536 leaves no queue (the field keeps 16 bits), and the call fails. *)
Lemma target_control_serves E k cfg devs :
  cfg_env_ok E k -> target_shape k devs ->
  exists devs', i2c_target_control E devs k cfg I2C_CONTROL_REGISTER =
      (devs', if u16 (tc_msg_count cfg) =? 0 then I2C_TARGET_API_MSGQ_ERR else I2C_TARGET_API_NO_ERR) /\
    (u16 (tc_msg_count cfg) <> 0 ->
     target_wf k devs' /\ dev_is_register (dev_at devs' k) = true /\ pending k devs' = [] /\
     max_msgs (td_msgq (data_at devs' k)) = u16 (tc_msg_count cfg) /\
     td_address (data_at devs' k) = tc_address cfg .>> 1 /\
     td_post (data_at devs' k) = tc_post cfg /\ td_collect (data_at devs' k) = tc_collect cfg).
Proof.
  intros HE S. destruct (tp_index _ _ S) as [Hk Hz]. pose proof (ce_bus _ _ HE) as B.
  destruct (do_cfg_ok E k cfg devs HE S) as (d1 & Ec & [Hz1 Hi1 Hr1 (d & Ed & Hb & Hw & Hrd & Hx)]).
  assert (0 <= k < zlen d1) as Hk1 by lia.
  destruct (mq_init (u16 (tc_msg_count cfg)) (Q := Q)) as [Q1 Q2].
  pose proof (mq_free (k_msgq_init (u16 (tc_msg_count cfg)) : Q)) as Hf. rewrite mq_used, Q1, Q2 in Hf.
  pose proof (u16_range (tc_msg_count cfg)) as Hu. rewrite zlen_nil in Hf.
  unfold i2c_target_control.
  assert (i2c_target_status_get E devs k .& (I2C_TARGET_BUS_INVALID .| I2C_TARGET_CONTROLLER_ERR) = 0) as ->.
  { unfold i2c_target_status_get. destruct (Z.leb_spec MAX_TARGET_NUM k); [lia|].
    rewrite (bo_binding _ _ B). by destruct (dev_is_init (dev_at devs k)), (dev_is_register (dev_at devs k)). }
  rewrite Z.eqb_refl. cbn [negb]. rewrite Ec, Z.eqb_refl. cbn [negb].
  destruct (Z.eqb_spec (u16 (tc_msg_count cfg)) 0) as [H0'|H0'].
  - exists d1. split; [|lia]. unfold do_i2c_target_register. rewrite status_in_service by done.
    rewrite Hr1, Ed. cbn [td_msgq set_msgq]. rewrite Hf, H0'. done.
  - rewrite register_ok; try done; [|rewrite Ed; cbn; lia].
    eexists. split; [done|]. intros _. at_dev. unfold pending. at_dev. rewrite Ed. cbn. rewrite Q1, Q2.
    split; [|done]. split; autorewrite with zlen; at_dev; rewrite ?Ed; cbn; rewrite ?Q1, ?Q2; try done; try lia.
    + rewrite zlen_nil. lia.
    + rewrite zlen_nil. symmetry. apply Z.ltb_lt. lia.
Qed.
End control.

(** ** What the master reads *)

Section reads.
Context {Q F C : Type} `{target_msgq_laws Q} `{target_client Q F C}.
Implicit Types devs : list (i2c_target_device Q F).

Lemma target_write_stores E k devs buff n :
  bus_ok E k -> 0 <= k < MAX_TARGET_NUM -> dev_is_init (dev_at devs k) = true ->
  zlen (msg_array (td_rd_msg (data_at devs k))) = MAX_I2C_TARGET_BUFF ->
  0 <= n <= zlen buff -> n <= MAX_I2C_TARGET_BUFF ->
  exists arr, i2c_target_write E devs k buff n = Some (upd_data k (set_rd_msg (mk_pkg n arr)) devs, 0) /\
    zlen arr = MAX_I2C_TARGET_BUFF /\ slice arr 0 n = slice buff 0 n.
Proof.
  intros B Hk Hi Hrd Hn Hm. unfold i2c_target_write. rewrite status_in_service by done.
  replace (_ .& status_unusable) with 0 by (by destruct (dev_is_register (dev_at devs k))).
  rewrite Z.eqb_refl. cbn [negb]. destruct (Z.ltb_spec MAX_I2C_TARGET_BUFF n); [lia|].
  rewrite mem_read_Some by lia. cbn [mbind option_bind].
  assert (zlen (slice buff 0 n) = n) as Hs by (apply zlen_slice; lia).
  destruct (mem_write_Some (msg_array (td_rd_msg (data_at devs k))) 0 (slice buff 0 n)) as [arr Ea];
    [lia|lia|].
  rewrite Ea. exists arr. split; [done|]. split; [by rewrite (mem_write_length _ _ _ _ Ea)|].
  apply mem_write_prefix in Ea. rewrite Hs in Ea. done.
Qed.

(** The bytes after the [i] first ones: what there is of the message, then nothing. *)
Lemma target_send_spec k n devs i :
  0 <= k < zlen devs -> td_rd_idx (data_at devs k) = i ->
  0 <= i <= msg_length (td_rd_msg (data_at devs k)) ->
  msg_length (td_rd_msg (data_at devs k)) <= MAX_I2C_TARGET_BUFF ->
  zlen (msg_array (td_rd_msg (data_at devs k))) = MAX_I2C_TARGET_BUFF ->
  exists j, target_send k n devs =
    (upd_data k (set_rd_idx j) devs,
     take n ((Some <$> drop (Z.to_nat i) (pkg_bytes (td_rd_msg (data_at devs k)))) ++ replicate n None)).
Proof.
  revert devs i. induction n as [|n IH]; intros devs i Hk Ei Hi Hl Ha; cbn [target_send].
  { exists i. rewrite take_0. f_equal. symmetry. apply upd_data_same; [done|].
    destruct (data_at devs k); cbn in *; by subst. }
  unfold i2c_target_read_processed. cbv zeta. rewrite Ei. unfold MAX_I2C_TARGET_BUFF in *.
  rewrite u32_id by lia. destruct (Z.eqb_spec (msg_length (td_rd_msg (data_at devs k)) - i) 0) as [He|He].
  - destruct (IH devs i) as [j ->]; try done. exists j. f_equal.
    assert (drop (Z.to_nat i) (pkg_bytes (td_rd_msg (data_at devs k))) = []) as ->.
    { apply drop_ge. unfold pkg_bytes, slice. rewrite length_take. lia. }
    cbn [fmap list_fmap app replicate]. rewrite !take_ge by (rewrite ?length_replicate; cbn; rewrite ?length_replicate; lia).
    done.
  - destruct (Z.leb_spec 256 i); [lia|].
    destruct (IH (upd_data k (set_rd_idx (u32 (i + 1))) devs) (i + 1)) as [j Ej].
    + by autorewrite with zlen.
    + at_dev. cbn. rewrite u32_id by lia. done.
    + at_dev. cbn. lia.
    + at_dev. cbn. lia.
    + at_dev. cbn. lia.
    + rewrite Ej. exists j. at_dev. cbn [td_rd_msg set_rd_idx]. f_equal.
      assert (pkg_bytes (td_rd_msg (data_at devs k)) !! Z.to_nat i
              = Some (rd (msg_array (td_rd_msg (data_at devs k))) i)) as Eb.
      { unfold pkg_bytes, slice, rd. change (Z.to_nat 0) with O. rewrite drop_0, lookup_take_lt by lia.
        destruct (lookup_lt_is_Some_2 (msg_array (td_rd_msg (data_at devs k))) (Z.to_nat i)) as [b ->];
          [unfold zlen in Ha; lia|done]. }
      rewrite (drop_S _ _ _ Eb). replace (S (Z.to_nat i)) with (Z.to_nat (i + 1)) by lia.
      cbn [fmap list_fmap app take]. f_equal.
      rewrite !take_app, !take_replicate. f_equal. f_equal. lia.
Qed.
End reads.

(** ** An instance *)

Definition demo_target_env : target_env := mk_target_env (fun _ => true) (fun _ => 0) (fun _ => 0) true true true.

Definition demo_targets : list (i2c_target_device list_msgq Empty_set) :=
  fst (i2c_target_control demo_target_env (replicate 16 zero_target) 3
         (mk_target_config 0x40 1 None None) I2C_CONTROL_REGISTER).

Lemma demo_target_wf : target_wf 3 demo_targets.
Proof. split; vm_compute; try split; intuition (reflexivity || discriminate || constructor). Qed.

#[export] Instance no_client_keeps {Q} : post_keeps_device (Q := Q) (F := Empty_set) (C := unit).
Proof. intros []. Qed.

(** A queue of one. The thread takes the first message, and is about to take the device back on the
    bus; it does, and the second message fills the queue again. *)
Definition demo_events : list target_event := [Sent [7; 8] 0; Quiet; Quiet; Got [7; 8] 0; Sent [9] 0].

Definition demo_write (bs : list Z) (devs : list (i2c_target_device list_msgq Empty_set)) :=
  match master_write demo_target_env 3 bs devs tt with Some (devs, _, _) => devs | None => [] end.
Definition demo_read_step (st : read_stage) (devs : list (i2c_target_device list_msgq Empty_set)) :=
  fst (target_read_step demo_target_env 3 MAX_I2C_TARGET_BUFF true st devs).
Definition demo_first : list (i2c_target_device list_msgq Empty_set) := demo_write [7; 8] demo_targets.
Definition demo_taken := demo_read_step ReadStart demo_first.
Definition demo_back := demo_read_step (ReadRegister (written_pkg [7; 8])) demo_taken.
Definition demo_end := demo_write [9] demo_back.

Lemma demo_target_steps :
  target_steps demo_target_env 3 true (mk_target_state demo_targets tt ReadStart) demo_events
    (mk_target_state demo_end tt ReadStart) /\
  dev_is_register (dev_at demo_taken 3) = false /\ dev_is_register (dev_at demo_end 3) = false /\
  pending 3 demo_end = [[9]].
Proof.
  split; [|split; [|split]; vm_compute; reflexivity].
  apply (target_steps_cons _ _ _ _ _ (mk_target_state demo_first tt ReadStart)).
  { apply (target_step_write _ _ _ _ _ _ ReadStart _ _ _ None); [vm_compute; reflexivity|done|vm_compute; reflexivity]. }
  apply (target_steps_cons _ _ _ _ _ (mk_target_state demo_taken tt (ReadGot (written_pkg [7; 8])))).
  { apply target_step_read. vm_compute. reflexivity. }
  apply (target_steps_cons _ _ _ _ _ (mk_target_state demo_taken tt (ReadRegister (written_pkg [7; 8])))).
  { apply target_step_read. vm_compute. reflexivity. }
  apply (target_steps_cons _ _ _ _ _ (mk_target_state demo_back tt ReadStart)).
  { apply target_step_returns; [done|vm_compute; reflexivity]. }
  apply (target_steps_cons _ _ _ _ _ (mk_target_state demo_end tt ReadStart)); [|constructor].
  apply (target_step_write _ _ _ _ _ _ ReadStart _ _ _ None); [vm_compute; reflexivity|done|vm_compute; reflexivity].
Qed.


(** A queue of two with one message, and the second one arrives while the thread reads the first:
    the count is again that of a queue that was full, and the read fails with its message read. *)
Definition demo_two : list (i2c_target_device list_msgq Empty_set) :=
  fst (i2c_target_control demo_target_env (replicate 16 zero_target) 3
         (mk_target_config 0x40 2 None None) I2C_CONTROL_REGISTER).

Definition demo_race := demo_write [9] (demo_read_step ReadStart (demo_write [7; 8] demo_two)).

Lemma target_read_race :
  target_steps demo_target_env 3 true (mk_target_state demo_two tt ReadStart)
    [Sent [7; 8] 0; Quiet; Sent [9] 0; Quiet; Got [7; 8] I2C_TARGET_API_BUS_GET_FAIL]
    (mk_target_state demo_race tt ReadStart).
Proof.
  apply (target_steps_cons _ _ _ _ _ (mk_target_state (demo_write [7; 8] demo_two) tt ReadStart)).
  { apply (target_step_write _ _ _ _ _ _ ReadStart _ _ _ None); [vm_compute; reflexivity|done|vm_compute; reflexivity]. }
  apply (target_steps_cons _ _ _ _ _ (mk_target_state (demo_read_step ReadStart (demo_write [7; 8] demo_two)) tt
    (ReadGot (written_pkg [7; 8])))).
  { apply target_step_read. vm_compute. reflexivity. }
  apply (target_steps_cons _ _ _ _ _ (mk_target_state demo_race tt (ReadGot (written_pkg [7; 8])))).
  { apply (target_step_write _ _ _ _ _ _ (ReadGot _) _ _ _ None); [vm_compute; reflexivity|done|vm_compute; reflexivity]. }
  apply (target_steps_cons _ _ _ _ _ (mk_target_state demo_race tt (ReadRegister (written_pkg [7; 8])))).
  { apply target_step_read. vm_compute. reflexivity. }
  apply (target_steps_cons _ _ _ _ _ (mk_target_state demo_race tt ReadStart)); [|constructor].
  apply target_step_returns; [done|vm_compute; reflexivity].
Qed.
