(* ===== verification/PldmEvent.v ===== *)
(** Component [common/service/pldm/pldm_monitor.c], events: the terminus sends a platform event
    message to the event receiver; until one is set the events wait in a queue of ten. *)

From S2P Require Import Prelude Bytes IpmiMsg MctpCore PldmCore.

(** ** Definitions *)

Definition PLDM_MONITOR_CMD_CODE_PLATFORM_EVENT_MESSAGE : Z := 0x0A.
Definition PLDM_MONITOR_EVENT_DATA_SIZE_MAX : Z := 16.
Definition PLDM_MONITOR_EVENT_QUEUE_MSG_NUM_MAX : Z := 10.
Definition PLDM_SENSOR_EVENT : Z := 0.
Definition PLDM_EFFECTER_EVENT : Z := 1.
Definition PLDM_SENSOR_OP_STATE : Z := 0.
Definition PLDM_STATE_SENSOR_STATE : Z := 1.
Definition PLDM_NUMERIC_SENSOR_STATE : Z := 2.
Definition PLDM_EFFECTER_OP_STATE : Z := 0.
Definition PLDM_EVENT_LOGGED : Z := 4.
Definition PLDM_EVENT_MESSAGE_GLOBAL_ENABLE_ASYNC_KEEP_ALIVE : Z := 3.
Definition PLDM_TRANSPORT_PROTOCOL_TYPE_MCTP : Z := 0.
Definition PLDM_PLATFORM_INVALID_PROTOCOL_TYPE : Z := 0x80.
Definition sizeof_sensor_event_data : Z := 3.
Definition sizeof_effecter_event_data : Z := 4.
Definition sizeof_set_event_receiver_req : Z := 5.
Definition sizeof_event_message_req : Z := 23.
Definition sizeof_event_message_resp : Z := 2.

(** [pldm_event_pkt]; the data has [event_data_length] bytes. *)
Record pldm_event_pkt := mk_event_pkt {
  pe_event_class : Z; pe_id : Z; pe_ext_class : Z; pe_event_data : list Z }.

(** The variables of the file: the receiver, the queue, the static [count] of
    [send_event_to_queue], and whether the work item is scheduled. *)
Record event_state := mk_event_state {
  event_receiver_info : option (Z * mctp_ext_params);
  send_event_pkt_fifo : list pldm_event_pkt;
  event_count : Z;
  send_event_pkt_work : bool }.

Definition event_init : event_state := mk_event_state None [] 0 false.

Definition set_receiver (r : option (Z * mctp_ext_params)) (st : event_state) : event_state :=
  mk_event_state r (send_event_pkt_fifo st) (event_count st) (send_event_pkt_work st).
Definition set_fifo (l : list pldm_event_pkt) (st : event_state) : event_state :=
  mk_event_state (event_receiver_info st) l (event_count st) (send_event_pkt_work st).
Definition set_event_count (n : Z) (st : event_state) : event_state :=
  mk_event_state (event_receiver_info st) (send_event_pkt_fifo st) n (send_event_pkt_work st).
(** [k_work_schedule]; the item leaves the schedule when it runs. *)
Definition set_work (b : bool) (st : event_state) : event_state :=
  mk_event_state (event_receiver_info st) (send_event_pkt_fifo st) (event_count st) b.

Definition pldm_encode_sensor_event_data (sensor_id sensor_event_class : Z) (sensor_event_data : list Z)
    : Z * list Z :=
  let n := zlen sensor_event_data in
  let encoded := (PLDM_SUCCESS, le_bytes 2 sensor_id ++ [sensor_event_class] ++ sensor_event_data) in
  if sensor_event_class =? PLDM_SENSOR_OP_STATE then
    if negb (n =? 2) then (PLDM_ERROR_INVALID_LENGTH, []) else encoded
  else if sensor_event_class =? PLDM_STATE_SENSOR_STATE then
    if negb (n =? 3) then (PLDM_ERROR_INVALID_LENGTH, []) else encoded
  else if sensor_event_class =? PLDM_NUMERIC_SENSOR_STATE then
    if (n <? 4) || (7 <? n) then (PLDM_ERROR_INVALID_LENGTH, []) else encoded
  else (PLDM_ERROR_INVALID_DATA, []).

(** [read inst msg rbuf rbuf_len] is the call of [mctp_pldm_read]. A send gives the messages
    handed to it with their instances and the returned code, [None] when the read never returns;
    the outer [None] is undefined behaviour. *)
Section send.
Context (read : Z -> pldm_msg -> list Z -> Z -> option read_result).
Context (tid : Z). (** [plat_pldm_get_tid] *)

Definition sent : Type := list (Z * pldm_msg) * option Z.

(** The header and the parameters of [pldm_platform_monitor_read]. *)
Definition monitor_msg (ext : mctp_ext_params) (cmd : Z) (req : list Z) (req_len : Z) : pldm_msg :=
  mk_pldm_msg (mk_pldm_hdr 0 0 0 0 0 1 PLDM_TYPE_PLAT_MON_CTRL 0 cmd) req req_len ext None 0 None.

Definition pldm_platform_monitor_read (inst : Z) (ext : mctp_ext_params) (cmd : Z) (req : list Z)
    (req_len : Z) (rbuf : list Z) (rbuf_len : Z) : option read_result :=
  read inst (monitor_msg ext cmd req req_len) rbuf rbuf_len.

(** [now]: the uptime; [stack]: what the second byte of [rbuf] holds before the read. *)
Definition pldm_platform_event_message_req (now stack inst : Z) (ext : mctp_ext_params)
    (event_class : Z) (event_data : list Z) (event_data_length : Z) : option sent :=
  if PLDM_MONITOR_EVENT_DATA_SIZE_MAX <? event_data_length then Some ([], Some PLDM_ERROR_INVALID_LENGTH)
  else
    data ← mem_read event_data 0 event_data_length;
    field ← mem_write (zeros PLDM_MONITOR_EVENT_DATA_SIZE_MAX) 0 data;
    let req := [1; tid; event_class] ++ field ++ le_bytes 4 now in
    let msg := monitor_msg ext PLDM_MONITOR_CMD_CODE_PLATFORM_EVENT_MESSAGE req sizeof_event_message_req in
    r ← pldm_platform_monitor_read inst ext PLDM_MONITOR_CMD_CODE_PLATFORM_EVENT_MESSAGE req
          sizeof_event_message_req [PLDM_ERROR; stack] sizeof_event_message_resp;
    match r with
    | ReadBlocked => Some ([(inst, msg)], None)
    | ReadReturn read_len rbuf =>
        let code :=
          if (read_len =? 0) || negb (rd rbuf 0 =? PLDM_SUCCESS) then PLDM_ERROR
          else if negb (rd rbuf 1 =? PLDM_EVENT_LOGGED) then PLDM_ERROR
          else PLDM_SUCCESS in
        Some ([(inst, msg)], Some code)
    end.

Definition pldm_send_sensor_event_message (now stack : Z) (malloc_ok : bool) (inst : Z)
    (ext : mctp_ext_params) (sensor_id sensor_event_class : Z) (data : list Z) : option sent :=
  if negb malloc_ok then Some ([], Some PLDM_ERROR)
  else
    let '(rc, sensor_event) := pldm_encode_sensor_event_data sensor_id sensor_event_class data in
    if negb (rc =? PLDM_SUCCESS) then Some ([], Some PLDM_ERROR)
    else pldm_platform_event_message_req now stack inst ext PLDM_SENSOR_EVENT sensor_event
           (u8 (sizeof_sensor_event_data + zlen data)).

(** The struct on the stack has room for one byte of event data. *)
Definition pldm_send_effecter_event_message (now stack inst : Z)
    (ext : mctp_ext_params) (effecter_id effecter_event_class : Z) (data : list Z) : option sent :=
  if negb (effecter_event_class =? PLDM_EFFECTER_OP_STATE) then Some ([], Some PLDM_ERROR)
  else if negb (zlen data =? 2) then Some ([], Some PLDM_ERROR_INVALID_LENGTH)
  else
    effecter_event ← mem_write (le_bytes 2 effecter_id ++ [effecter_event_class] ++ zeros 1) 3 data;
    pldm_platform_event_message_req now stack inst ext PLDM_EFFECTER_EVENT effecter_event
      (u8 (sizeof_effecter_event_data + zlen data - 1)).

(** The caller gives [zlen data] as the length. *)
Definition send_event_to_queue (malloc_ok : bool) (st : event_state) (p : pldm_event_pkt)
    : event_state * Z :=
  if PLDM_MONITOR_EVENT_DATA_SIZE_MAX <? zlen (pe_event_data p) then (st, PLDM_ERROR_INVALID_LENGTH)
  else if PLDM_MONITOR_EVENT_QUEUE_MSG_NUM_MAX - 1 <? event_count st then (st, PLDM_ERROR)
  else if negb malloc_ok then (st, PLDM_ERROR)
  else (set_event_count (u8 (event_count st + 1)) (set_fifo (send_event_pkt_fifo st ++ [p]) st), PLDM_SUCCESS).

(** The part of [pldm_send_platform_event] after a receiver was found. *)
Definition send_to_receiver (now stack : Z) (malloc_ok : bool) (recv : Z * mctp_ext_params)
    (p : pldm_event_pkt) : option sent :=
  let '(inst, ext) := recv in
  if pe_event_class p =? PLDM_SENSOR_EVENT then
    pldm_send_sensor_event_message now stack malloc_ok inst ext (pe_id p) (pe_ext_class p) (pe_event_data p)
  else if pe_event_class p =? PLDM_EFFECTER_EVENT then
    pldm_send_effecter_event_message now stack inst ext (pe_id p) (pe_ext_class p) (pe_event_data p)
  else Some ([], Some PLDM_ERROR).

Definition pldm_send_platform_event (now stack : Z) (malloc_ok : bool) (st : event_state)
    (p : pldm_event_pkt) : option (event_state * sent) :=
  match event_receiver_info st with
  | None => let '(st, code) := send_event_to_queue malloc_ok st p in Some (st, ([], Some code))
  | Some recv => out ← send_to_receiver now stack malloc_ok recv p; Some (st, out)
  end.

(** The work item runs; it schedules itself again after every packet. A send that never returns
    leaves it running: it is not scheduled again. *)
Definition process_event_message_queue (now stack : Z) (malloc_ok : bool) (st : event_state)
    : option (event_state * sent) :=
  let st := set_work false st in
  match send_event_pkt_fifo st with
  | [] => Some (st, ([], Some PLDM_SUCCESS))
  | p :: fifo =>
      '(st, out) ← pldm_send_platform_event now stack malloc_ok (set_fifo fifo st) p;
      match snd out with
      | None => Some (st, out)
      | Some _ => Some (set_work true st, out)
      end
  end.
End send.

(** The handler; [inst] and [ext] are the sender's. The response is one byte. *)
Definition pldm_set_event_receiver (st : event_state) (inst : Z) (ext : mctp_ext_params)
    (buf : list Z) (len : Z) : event_state * (Z * list Z * Z) :=
  let reply c := (PLDM_SUCCESS, [c], 1) in
  if negb (len =? sizeof_set_event_receiver_req) then (st, reply PLDM_ERROR_INVALID_LENGTH)
  else if PLDM_EVENT_MESSAGE_GLOBAL_ENABLE_ASYNC_KEEP_ALIVE <? rd buf 0 then (st, reply PLDM_ERROR_INVALID_DATA)
  else if negb (rd buf 1 =? PLDM_TRANSPORT_PROTOCOL_TYPE_MCTP) then
    (st, reply PLDM_PLATFORM_INVALID_PROTOCOL_TYPE)
  else if negb (rd buf 2 =? ext_ep ext) then (st, reply PLDM_ERROR_INVALID_DATA)
  else (set_work true (set_receiver (Some (inst, ext)) st), reply PLDM_SUCCESS).

(** [buf] is the message from its event class on. *)
Definition pldm_event_len_check (buf : list Z) (len : Z) : Z :=
  if len =? 0 then PLDM_ERROR_INVALID_LENGTH
  else
    let event_class := rd buf 0 in
    let len := u16 (len - 1) in
    if event_class =? PLDM_SENSOR_EVENT then
      if len - 3 <=? 0 then PLDM_ERROR_INVALID_LENGTH
      else
        let len := u16 (len - 2) in
        let sensor_event_class := rd buf 3 in
        if sensor_event_class =? PLDM_SENSOR_OP_STATE then
          if negb (len =? 2) then PLDM_ERROR_INVALID_LENGTH else PLDM_SUCCESS
        else if sensor_event_class =? PLDM_STATE_SENSOR_STATE then
          if negb (len =? 4) then PLDM_ERROR_INVALID_LENGTH else PLDM_SUCCESS
        else if sensor_event_class =? PLDM_NUMERIC_SENSOR_STATE then
          if len <? 4 then PLDM_ERROR_INVALID_LENGTH else PLDM_SUCCESS
        else PLDM_ERROR
    else PLDM_ERROR.

(** The default [pldm_platform_event_message]. *)
Definition pldm_platform_event_message : pldm_cmd_proc_fn := fun buf len instance_id =>
  (PLDM_SUCCESS, [PLDM_ERROR_UNSUPPORTED_PLDM_CMD; 0x00], 2).

(** ** The service as a step relation *)

(** The threads interleave at these steps: a sender looks for the receiver and finds none, to
    queue its event in a later step ([waiting] are those between the two); a sender finds the
    receiver and sends; the handler of SetEventReceiver runs; the work item runs. *)
Section steps.
Context (read : Z -> pldm_msg -> list Z -> Z -> option read_result) (tid : Z).

Inductive event_step : event_state * list pldm_event_pkt -> list (Z * pldm_msg) ->
    event_state * list pldm_event_pkt -> Prop :=
  | step_no_receiver st waiting p :
      event_receiver_info st = None -> event_step (st, waiting) [] (st, p :: waiting)
  | step_queue malloc_ok st pre p post :
      event_step (st, pre ++ p :: post) [] (fst (send_event_to_queue malloc_ok st p), pre ++ post)
  | step_send now stack malloc_ok st waiting p recv msgs code :
      event_receiver_info st = Some recv -> send_to_receiver read tid now stack malloc_ok recv p = Some (msgs, code) ->
      event_step (st, waiting) msgs (st, waiting)
  | step_set_receiver st waiting inst ext buf len :
      event_step (st, waiting) [] (fst (pldm_set_event_receiver st inst ext buf len), waiting)
  | step_work now stack malloc_ok st waiting st' msgs code :
      send_event_pkt_work st = true ->
      process_event_message_queue read tid now stack malloc_ok st = Some (st', (msgs, code)) ->
      event_step (st, waiting) msgs (st', waiting).

Inductive event_reachable : event_state * list pldm_event_pkt -> Prop :=
  | event_start : event_reachable (event_init, [])
  | event_next s msgs s' : event_reachable s -> event_step s msgs s' -> event_reachable s'.
End steps.

(** ** Lemmas *)

Section delivery.
Context (read : Z -> pldm_msg -> list Z -> Z -> option read_result) (tid : Z) (stack : Z).

(** A sensor event as DSP0248 has it: two bytes for the operational state, three for a state
    sensor, four to seven for a numeric one. *)
Definition sensor_event_ok (p : pldm_event_pkt) : Prop :=
  pe_event_class p = PLDM_SENSOR_EVENT /\
  (pe_ext_class p = PLDM_SENSOR_OP_STATE /\ zlen (pe_event_data p) = 2
   \/ pe_ext_class p = PLDM_STATE_SENSOR_STATE /\ zlen (pe_event_data p) = 3
   \/ pe_ext_class p = PLDM_NUMERIC_SENSOR_STATE /\ 4 <= zlen (pe_event_data p) <= 7).

(** The event as the struct [pldm_sensor_event_data]. *)
Definition sensor_event_bytes (p : pldm_event_pkt) : list Z :=
  le_bytes 2 (pe_id p) ++ [pe_ext_class p] ++ pe_event_data p.

(** The PlatformEventMessage command for the event. *)
Definition event_message (ext : mctp_ext_params) (now : Z) (p : pldm_event_pkt) : pldm_msg :=
  monitor_msg ext PLDM_MONITOR_CMD_CODE_PLATFORM_EVENT_MESSAGE
    ([1; tid; PLDM_SENSOR_EVENT] ++ (sensor_event_bytes p ++ zeros (13 - zlen (pe_event_data p)))
     ++ le_bytes 4 now) sizeof_event_message_req.

(** Does the terminus send the event? *)
Definition event_valid (p : pldm_event_pkt) : bool :=
  (pe_event_class p =? PLDM_SENSOR_EVENT)
  && (fst (pldm_encode_sensor_event_data (pe_id p) (pe_ext_class p) (pe_event_data p)) =? PLDM_SUCCESS).

(** The events of which the queue has room for the data, but for the effecter events of the right
    size, which are written past the end of a struct ([effecter_event_overrun]). *)
Definition event_safe (p : pldm_event_pkt) : Prop :=
  zlen (pe_event_data p) <= PLDM_MONITOR_EVENT_DATA_SIZE_MAX /\
  (pe_event_class p = PLDM_EFFECTER_EVENT -> pe_ext_class p = PLDM_EFFECTER_OP_STATE -> zlen (pe_event_data p) <> 2).

(** A read comes to an end, or it waits for ever ([pldm_read_outcome]). *)
Definition read_defined : Prop := forall inst msg rbuf n, read inst msg rbuf n <> None.
Definition read_blocks (m : Z * pldm_msg) : Prop :=
  read (fst m) (snd m) [PLDM_ERROR; stack] sizeof_event_message_resp = Some ReadBlocked.

(** The messages for the events that are sent, at the times of the work item. *)
Definition event_messages (inst : Z) (ext : mctp_ext_params) (q : list pldm_event_pkt) (times : list Z)
    : list (Z * pldm_msg) :=
  omap (fun '(p, now) => if event_valid p then Some (inst, event_message ext now p) else None) (zip q times).

Lemma event_valid_ok p : event_valid p = true <-> sensor_event_ok p.
Proof using.
  unfold event_valid, sensor_event_ok, pldm_encode_sensor_event_data, PLDM_SENSOR_OP_STATE, PLDM_STATE_SENSOR_STATE,
    PLDM_NUMERIC_SENSOR_STATE, PLDM_SENSOR_EVENT, PLDM_SUCCESS, PLDM_ERROR_INVALID_LENGTH, PLDM_ERROR_INVALID_DATA.
  split.
  - intros H. apply andb_true_iff in H as [H1 H2]. split; [lia|]. revert H2. case_bools; cbn; intros; lia.
  - intros (-> & H). apply andb_true_iff. split; [done|]. destruct H as [[-> ->]|[[-> ->]|[-> ?]]]; [done..|].
    cbn [Z.eqb Pos.eqb]. destruct (Z.ltb_spec (zlen (pe_event_data p)) 4), (Z.ltb_spec 7 (zlen (pe_event_data p))); done || lia.
Qed.

Lemma sensor_event_len p : sensor_event_ok p -> 2 <= zlen (pe_event_data p) <= 7.
Proof using. intros [_ [[_ ?]|[[_ ?]|[_ ?]]]]; lia. Qed.

Lemma encode_sensor_event p :
  sensor_event_ok p ->
  pldm_encode_sensor_event_data (pe_id p) (pe_ext_class p) (pe_event_data p)
    = (PLDM_SUCCESS, sensor_event_bytes p).
Proof using.
  unfold pldm_encode_sensor_event_data, sensor_event_bytes. intros [_ [[-> ->]|[[-> ->]|[-> ?]]]];
    [reflexivity..|].
  cbn [Z.eqb PLDM_NUMERIC_SENSOR_STATE PLDM_SENSOR_OP_STATE PLDM_STATE_SENSOR_STATE Pos.eqb].
  destruct (Z.ltb_spec (zlen (pe_event_data p)) 4), (Z.ltb_spec 7 (zlen (pe_event_data p))); try lia. reflexivity.
Qed.

Lemma zlen_sensor_event p : zlen (sensor_event_bytes p) = 3 + zlen (pe_event_data p).
Proof using. unfold sensor_event_bytes. rewrite !zlen_app, zlen_le_bytes. change (zlen [_]) with 1. lia. Qed.

Lemma send_sensor_event now inst ext p :
  read_defined -> sensor_event_ok p ->
  exists code, send_to_receiver read tid now stack true (inst, ext) p =
      Some ([(inst, event_message ext now p)], code) /\
    (code = None -> read_blocks (inst, event_message ext now p)).
Proof using.
  intros Hr Hp. pose proof (sensor_event_len p Hp) as Hl. unfold send_to_receiver.
  rewrite (proj1 Hp). cbn [Z.eqb PLDM_SENSOR_EVENT].
  unfold pldm_send_sensor_event_message. cbn [negb]. rewrite encode_sensor_event by done. cbn [Z.eqb PLDM_SUCCESS negb].
  unfold pldm_platform_event_message_req, PLDM_MONITOR_EVENT_DATA_SIZE_MAX, sizeof_sensor_event_data.
  rewrite u8_id by lia. destruct (Z.ltb_spec 16 (3 + zlen (pe_event_data p))); [lia|].
  pose proof (zlen_sensor_event p) as Hz.
  rewrite mem_read_Some by lia. cbn [mbind option_bind]. rewrite slice_all by lia.
  rewrite mem_write_patch by (rewrite ?zlen_zeros; lia). cbn [mbind option_bind].
  assert (E : patch (zeros 16) 0 (sensor_event_bytes p) = sensor_event_bytes p ++ zeros (13 - zlen (pe_event_data p))).
  { unfold patch. change (Z.to_nat 0) with 0%nat. rewrite take_0. cbn [app Nat.add]. f_equal. unfold zeros.
    rewrite drop_replicate. f_equal. unfold zlen in *. lia. }
  rewrite E. unfold pldm_platform_monitor_read, read_blocks. cbn [fst snd].
  change (monitor_msg ext _ _ sizeof_event_message_req) with (event_message ext now p).
  destruct (read inst (event_message ext now p) [PLDM_ERROR; stack] sizeof_event_message_resp) as [[ret rbuf|]|] eqn:Er;
    cbn [mbind option_bind].
  - by eexists.
  - by eexists.
  - by apply Hr in Er.
Qed.

(** An event of another shape is dropped. *)
Lemma send_invalid_event now recv p :
  event_safe p -> event_valid p = false ->
  exists code, send_to_receiver read tid now stack true recv p = Some ([], Some code).
Proof using.
  intros [_ He] Hv. unfold send_to_receiver, event_valid in *. destruct recv as [inst ext].
  destruct (pe_event_class p =? PLDM_SENSOR_EVENT); cbn [andb] in Hv.
  - unfold pldm_send_sensor_event_message. cbn [negb].
    destruct (pldm_encode_sensor_event_data _ _ _) as [rc ev]. cbn [fst] in Hv. rewrite Hv. by eexists.
  - destruct (Z.eqb_spec (pe_event_class p) PLDM_EFFECTER_EVENT) as [Ec|]; [|by eexists].
    unfold pldm_send_effecter_event_message.
    destruct (Z.eqb_spec (pe_ext_class p) PLDM_EFFECTER_OP_STATE) as [Ex|]; [|by eexists]. cbn [negb].
    pose proof (He Ec Ex) as Hn. apply Z.eqb_neq in Hn as ->. by eexists.
Qed.

(** ** The events of a terminus that has no receiver yet *)

Fixpoint raise_all (now : Z) (st : event_state) (es : list pldm_event_pkt)
    : option (event_state * list (option Z)) :=
  match es with
  | [] => Some (st, [])
  | p :: es =>
      '(st, (_, code)) ← pldm_send_platform_event read tid now stack true st p;
      '(st, codes) ← raise_all now st es;
      Some (st, code :: codes)
  end.

(** The work item runs at the given times, as long as it is scheduled. *)
Fixpoint run_work (times : list Z) (st : event_state) : option (event_state * list (Z * pldm_msg)) :=
  match times with
  | [] => Some (st, [])
  | now :: times =>
      if negb (send_event_pkt_work st) then Some (st, [])
      else
        '(st, out) ← process_event_message_queue read tid now stack true st;
        '(st, msgs) ← run_work times st;
        Some (st, fst out ++ msgs)
  end.

Lemma raise_all_queue now es : forall n q w,
  0 <= n <= 10 -> Forall event_safe es ->
  raise_all now (mk_event_state None q n w) es =
    Some (mk_event_state None (q ++ take (Z.to_nat (10 - n)) es) (Z.min 10 (n + zlen es)) w,
          ((fun _ => Some PLDM_SUCCESS) <$> take (Z.to_nat (10 - n)) es)
          ++ ((fun _ => Some PLDM_ERROR) <$> drop (Z.to_nat (10 - n)) es)).
Proof using.
  induction es as [|p es IH]; intros n q w Hn Hes.
  - cbn [raise_all]. rewrite take_nil, drop_nil, app_nil_r. rewrite zlen_nil. do 3 f_equal. lia.
  - apply Forall_cons in Hes as [[Hp _] Hes]. unfold PLDM_MONITOR_EVENT_DATA_SIZE_MAX in Hp.
    cbn [raise_all]. unfold pldm_send_platform_event. cbn [event_receiver_info]. unfold send_event_to_queue,
      PLDM_MONITOR_EVENT_DATA_SIZE_MAX, PLDM_MONITOR_EVENT_QUEUE_MSG_NUM_MAX. cbn [event_count].
    destruct (Z.ltb_spec 16 (zlen (pe_event_data p))); [lia|].
    destruct (Z.ltb_spec (10 - 1) n).
    + cbn [mbind option_bind]. rewrite IH by done. replace (Z.to_nat (10 - n)) with 0%nat by lia.
      rewrite !take_0, !drop_0, zlen_cons. cbn [mbind option_bind fmap list_fmap app]. do 3 f_equal.
      pose proof (zlen_nonneg es). lia.
    + cbn [negb mbind option_bind]. unfold set_fifo, set_event_count. cbn [send_event_pkt_fifo event_count
        event_receiver_info send_event_pkt_work]. rewrite u8_id, IH by (done || lia).
      replace (Z.to_nat (10 - n)) with (S (Z.to_nat (10 - (n + 1)))) by lia.
      cbn [mbind option_bind take drop fmap list_fmap app]. rewrite <- app_assoc, zlen_cons. cbn [app].
      do 3 f_equal. f_equal. lia.
Qed.

Lemma run_work_delivers inst ext n times : forall q,
  read_defined -> Forall event_safe q -> (length q < length times)%nat ->
  exists k, (k <= length q)%nat /\
    run_work times (mk_event_state (Some (inst, ext)) q n true) =
      Some (mk_event_state (Some (inst, ext)) (drop k q) n false, event_messages inst ext (take k q) times) /\
    (k = length q \/ exists msgs m, event_messages inst ext (take k q) times = msgs ++ [m] /\ read_blocks m).
Proof using.
  induction times as [|now times IH]; intros q Hr Hq Hl; [cbn in Hl; lia|].
  cbn [run_work send_event_pkt_work negb]. unfold process_event_message_queue, set_work.
  cbn [send_event_pkt_fifo event_receiver_info event_count].
  destruct q as [|p q].
  - exists 0%nat. split; [done|]. cbn [mbind option_bind]. split; [destruct times; reflexivity|by left].
  - apply Forall_cons in Hq as [Hp Hq]. unfold pldm_send_platform_event, set_fifo.
    cbn [event_receiver_info event_count send_event_pkt_work]. cbn [length] in Hl.
    destruct (IH q Hr Hq) as (k & Hk & Ek & Hend); [lia|].
    assert (Hnext : forall msgs, (if event_valid p then [(inst, event_message ext now p)] else []) = msgs ->
      event_messages inst ext (take (S k) (p :: q)) (now :: times) = msgs ++ event_messages inst ext (take k q) times).
    { intros msgs <-. cbn [take]. unfold event_messages. cbn [zip_with omap list_omap].
      by destruct (event_valid p). }
    destruct (event_valid p) eqn:Ev.
    + destruct (send_sensor_event now inst ext p Hr) as (code & -> & Hb); [by apply event_valid_ok|].
      cbn [mbind option_bind snd fst]. destruct code as [code|].
      * cbn [event_receiver_info event_count send_event_pkt_fifo mbind option_bind fst]. rewrite Ek.
        exists (S k). split; [cbn; lia|]. rewrite (Hnext _ eq_refl). split; [done|].
        destruct Hend as [->|(msgs & m & E & Hm)]; [by left|]. right. rewrite E. by exists ((inst, event_message ext now p) :: msgs), m.
      * exists 1%nat. split; [cbn; lia|]. cbn [mbind option_bind fst].
        assert (E1 : event_messages inst ext (take 1 (p :: q)) (now :: times) = [(inst, event_message ext now p)]).
        { cbn [take]. unfold event_messages. cbn [zip_with omap list_omap]. rewrite Ev, take_0. reflexivity. }
        rewrite E1. split; [by destruct times|]. right. exists [], (inst, event_message ext now p). split; [done|by apply Hb].
    + destruct (send_invalid_event now (inst, ext) p Hp Ev) as (code & ->).
      cbn [mbind option_bind snd fst event_receiver_info event_count send_event_pkt_fifo]. rewrite Ek.
      exists (S k). split; [cbn; lia|]. rewrite (Hnext _ eq_refl). split; [done|].
      destruct Hend as [->|(msgs & m & E & Hm)]; [by left|]. right. rewrite E. by exists msgs, m.
Qed.
End delivery.



(** ** Invariants of the service *)

Section invariant.
Context (read : Z -> pldm_msg -> list Z -> Z -> option read_result) (tid : Z).

Record event_inv (st : event_state) : Prop := {
  ei_count : zlen (send_event_pkt_fifo st) <= event_count st <= PLDM_MONITOR_EVENT_QUEUE_MSG_NUM_MAX;
  ei_work : send_event_pkt_work st = true -> is_Some (event_receiver_info st);
  ei_size : Forall (fun p => zlen (pe_event_data p) <= PLDM_MONITOR_EVENT_DATA_SIZE_MAX) (send_event_pkt_fifo st) }.

Lemma queue_inv malloc_ok st p : event_inv st -> event_inv (fst (send_event_to_queue malloc_ok st p)).
Proof using.
  intros [Hc Hw Hs]. unfold send_event_to_queue, PLDM_MONITOR_EVENT_QUEUE_MSG_NUM_MAX in *.
  destruct (Z.ltb_spec PLDM_MONITOR_EVENT_DATA_SIZE_MAX (zlen (pe_event_data p))); [by split|].
  destruct (Z.ltb_spec (10 - 1) (event_count st)); [by split|]. destruct malloc_ok; [|by split].
  pose proof (zlen_nonneg (send_event_pkt_fifo st)). split; cbn.
  - rewrite zlen_app. change (zlen [p]) with 1. rewrite u8_id by lia. unfold PLDM_MONITOR_EVENT_QUEUE_MSG_NUM_MAX. lia.
  - done.
  - apply Forall_app. split; [done|]. by apply Forall_singleton.
Qed.

Lemma process_inv now stack malloc_ok st st' out :
  event_inv st -> send_event_pkt_work st = true ->
  process_event_message_queue read tid now stack malloc_ok st = Some (st', out) ->
  event_inv st' /\ event_receiver_info st' = event_receiver_info st.
Proof using.
  intros [Hc Hw Hs] Ew. unfold process_event_message_queue. unfold set_work at 1. cbn [send_event_pkt_fifo].
  destruct (Hw Ew) as [recv Er]. destruct (send_event_pkt_fifo st) as [|p fifo] eqn:Ef.
  - intros [= <- _]. split; [split; cbn; rewrite ?Ef; done|done].
  - unfold pldm_send_platform_event, set_fifo, set_work. cbn [event_receiver_info event_count send_event_pkt_work].
    rewrite Er. destruct (send_to_receiver _ _ _ _ _ _ _) as [[msgs code]|]; [|done]. cbn [mbind option_bind snd].
    rewrite zlen_cons in Hc. apply Forall_cons in Hs as [_ Hs].
    destruct code; intros [= <- _]; cbn; (split; [split; cbn; try done; lia|done]).
Qed.

(** Every message a step sends is a PlatformEventMessage of 23 bytes, to the receiver. *)
Definition to_receiver (st : event_state) (m : Z * pldm_msg) : Prop :=
  event_receiver_info st = Some (fst m, pm_ext_params (snd m)) /\ pm_len (snd m) = sizeof_event_message_req /\
  zlen (pm_buf (snd m)) = sizeof_event_message_req /\ ph_cmd (pm_hdr (snd m)) = PLDM_MONITOR_CMD_CODE_PLATFORM_EVENT_MESSAGE.

Lemma event_message_req_to now stack inst ext c data n msgs code :
  pldm_platform_event_message_req read tid now stack inst ext c data n = Some (msgs, code) ->
  Forall (fun m => fst m = inst /\ pm_ext_params (snd m) = ext /\ pm_len (snd m) = sizeof_event_message_req /\
    zlen (pm_buf (snd m)) = sizeof_event_message_req /\
    ph_cmd (pm_hdr (snd m)) = PLDM_MONITOR_CMD_CODE_PLATFORM_EVENT_MESSAGE) msgs.
Proof using.
  unfold pldm_platform_event_message_req. destruct (_ <? n); [by intros [= <- <-]|].
  destruct (mem_read data 0 n) as [d|]; [|done]. cbn [mbind option_bind].
  destruct (mem_write (zeros _) 0 d) as [f|] eqn:Ew; [|done]. cbn [mbind option_bind].
  apply mem_write_length in Ew. rewrite zlen_zeros in Ew by done.
  destruct (pldm_platform_monitor_read _ _ _ _ _ _ _ _) as [[ret rbuf|]|]; [..|done]; cbn [mbind option_bind];
    intros [= <- <-]; (apply Forall_singleton; split_and!; try done);
    cbn [snd pm_buf monitor_msg]; rewrite !zlen_cons, zlen_app, Ew; done.
Qed.

Lemma send_to_receiver_to now stack malloc_ok inst ext p msgs code st :
  event_receiver_info st = Some (inst, ext) ->
  send_to_receiver read tid now stack malloc_ok (inst, ext) p = Some (msgs, code) -> Forall (to_receiver st) msgs.
Proof using.
  intros Er Hs.
  assert (Forall (fun m => fst m = inst /\ pm_ext_params (snd m) = ext /\ pm_len (snd m) = sizeof_event_message_req /\
    zlen (pm_buf (snd m)) = sizeof_event_message_req /\
    ph_cmd (pm_hdr (snd m)) = PLDM_MONITOR_CMD_CODE_PLATFORM_EVENT_MESSAGE) msgs) as Hf.
  - unfold send_to_receiver in Hs. destruct (_ =? _).
    + unfold pldm_send_sensor_event_message in Hs. destruct (negb malloc_ok); [by injection Hs as <- <-|].
      destruct (pldm_encode_sensor_event_data _ _ _) as [rc ev]. destruct (negb _); [by injection Hs as <- <-|].
      by eapply event_message_req_to.
    + destruct (_ =? _); [|by injection Hs as <- <-]. unfold pldm_send_effecter_event_message in Hs.
      destruct (negb _); [by injection Hs as <- <-|]. destruct (negb _); [by injection Hs as <- <-|].
      destruct (mem_write _ _ _) as [ev|]; [|done]. cbn [mbind option_bind] in Hs. by eapply event_message_req_to.
  - eapply Forall_impl; [exact Hf|]. intros m (<- & <- & H1 & H2 & H3). split_and!; try done.
Qed.

Lemma event_step_inv s msgs s' : event_inv (fst s) -> event_step read tid s msgs s' ->
  event_inv (fst s') /\ Forall (to_receiver (fst s)) msgs /\
  (is_Some (event_receiver_info (fst s)) -> is_Some (event_receiver_info (fst s'))).
Proof using.
  intros Hi Hs. destruct Hs as [st w p E|malloc_ok st pre p post|now stack malloc_ok st w p [inst ext] msgs code E Hs
    |st w inst ext buf len|now stack malloc_ok st w st' msgs code Ew Hp]; cbn [fst] in *.
  - by split.
  - split; [by apply queue_inv|]. split; [done|]. unfold send_event_to_queue. case_bools.
  - split; [done|]. split; [|done]. by eapply send_to_receiver_to.
  - assert (Hn : Forall (to_receiver st) []) by constructor. unfold pldm_set_event_receiver.
    repeat (destruct (negb _); [by split|]). destruct (_ <? _); [by split|].
    repeat (destruct (negb _); [by split|]). destruct Hi. split; [split; cbn; try done|done].
  - destruct (process_inv now stack malloc_ok st st' (msgs, code) Hi Ew Hp) as [Hi' Hr]. split; [done|].
    split; [|by rewrite Hr]. unfold process_event_message_queue in Hp.
    destruct (send_event_pkt_fifo _) as [|p fifo]; [by injection Hp as _ <- _|].
    destruct (ei_work _ Hi Ew) as [[inst ext] Er]. unfold pldm_send_platform_event, set_fifo, set_work in Hp.
    cbn [event_receiver_info event_count send_event_pkt_work] in Hp. rewrite Er in Hp.
    destruct (send_to_receiver _ _ _ _ _ _ _) as [[msgs' code']|] eqn:Es; [|done]. cbn [mbind option_bind snd] in Hp.
    assert (msgs = msgs') as -> by (destruct code'; by injection Hp as _ <- _). by eapply send_to_receiver_to.
Qed.
End invariant.

(** Whatever way the senders, the SetEventReceiver handler and the work item interleave, the
    queue never holds more than ten packets, nor one with more data than its array has; the work
    item is scheduled only once there is a receiver, and a receiver, once set, stays set; and
    everything sent is a PlatformEventMessage of 23 bytes addressed to the present receiver. *)
Theorem event_queue_safe read tid s :
  event_reachable read tid s ->
  zlen (send_event_pkt_fifo (fst s)) <= 10 /\
  Forall (fun p => zlen (pe_event_data p) <= 16) (send_event_pkt_fifo (fst s)) /\
  (send_event_pkt_work (fst s) = true -> is_Some (event_receiver_info (fst s))) /\
  forall msgs s', event_step read tid s msgs s' ->
    Forall (to_receiver (fst s)) msgs /\
    (is_Some (event_receiver_info (fst s)) -> is_Some (event_receiver_info (fst s'))).
Proof.
  intros Hr. assert (Hi : event_inv (fst s)).
  { induction Hr as [|s msgs s' _ IH Hstep]; [by split|]. by eapply event_step_inv. }
  split_and!; [|apply Hi..|].
  - destruct Hi as [[H1 H2] _ _]. unfold PLDM_MONITOR_EVENT_QUEUE_MSG_NUM_MAX in H2. lia.
  - intros msgs s' Hs. by apply (event_step_inv read tid s msgs s').
Qed.

Definition demo_read : Z -> pldm_msg -> list Z -> Z -> option read_result := fun _ _ _ _ => Some (ReadReturn 2 [0; 4]).
Definition demo_ext : mctp_ext_params := mk_ext 0 0 8 1 0x20.
Definition demo_pkt : pldm_event_pkt := mk_event_pkt 0 7 0 [1; 2].

(** Between the look for the receiver and the queueing of a sender the receiver can be set and
    the work item come to rest: the event then stays in the queue and nothing sends it. *)
Lemma event_stuck :
  event_reachable demo_read 0x86 (mk_event_state (Some (3, demo_ext)) [demo_pkt] 1 false, []).
Proof.
  set (st1 := mk_event_state (Some (3, demo_ext)) [] 0 true).
  set (st2 := mk_event_state (Some (3, demo_ext)) [] 0 false).
  apply (event_next _ _ (st2, [demo_pkt]) []).
  - apply (event_next _ _ (st1, [demo_pkt]) []).
    + apply (event_next _ _ (event_init, [demo_pkt]) []).
      * apply (event_next _ _ (event_init, []) []); [constructor|]. by constructor.
      * apply (step_set_receiver demo_read 0x86 event_init [demo_pkt] 3 demo_ext [1; 0; 8; 0; 0] 5).
    + by apply (step_work demo_read 0x86 0 0 true st1 [demo_pkt] st2 [] (Some 0)).
  - apply (step_queue demo_read 0x86 true st2 [] demo_pkt []).
Qed.

Lemma event_queue_safe_witness :
  zlen (send_event_pkt_fifo (fst (mk_event_state (Some (3, demo_ext)) [demo_pkt] 1 false, @nil pldm_event_pkt))) <= 10.
Proof. apply (event_queue_safe demo_read 0x86 _ event_stuck). Defined.

(** An effecter event as DSP0248 has it, with its two bytes of data, is written over the end of
    the struct on the stack. *)
Lemma effecter_event_overrun read tid now stack malloc_ok inst ext p :
  pe_event_class p = PLDM_EFFECTER_EVENT -> pe_ext_class p = PLDM_EFFECTER_OP_STATE ->
  zlen (pe_event_data p) = 2 -> send_to_receiver read tid now stack malloc_ok (inst, ext) p = None.
Proof.
  intros E1 E2 E3. unfold send_to_receiver, pldm_send_effecter_event_message. rewrite E1, E2, E3.
  cbn [Z.eqb PLDM_EFFECTER_EVENT PLDM_SENSOR_EVENT PLDM_EFFECTER_OP_STATE negb Pos.eqb].
  unfold mem_write. rewrite !zlen_app, zlen_le_bytes, E3. done.
Qed.

(** ** The check of received events *)

(** [pldm_event_len_check] accepts exactly the sensor events of 5 bytes with the class of an
    operational state, of 7 bytes with the class of a state sensor, and of at least 7 bytes with
    the class of a numeric sensor, counted from the event class on. So of the events the module
    itself encodes it refuses those of an operational state, and it takes a numeric event whose
    reading is missing. *)
Theorem event_len_check_exact buf :
  0 < zlen buf < 65536 ->
  (pldm_event_len_check buf (zlen buf) = PLDM_SUCCESS <->
   rd buf 0 = PLDM_SENSOR_EVENT /\
   (zlen buf = 5 /\ rd buf 3 = PLDM_SENSOR_OP_STATE \/ zlen buf = 7 /\ rd buf 3 = PLDM_STATE_SENSOR_STATE
    \/ 7 <= zlen buf /\ rd buf 3 = PLDM_NUMERIC_SENSOR_STATE)) /\
  forall p, sensor_event_ok p -> buf = [PLDM_SENSOR_EVENT] ++ sensor_event_bytes p ->
    (pldm_event_len_check buf (zlen buf) = PLDM_SUCCESS <-> pe_ext_class p <> PLDM_SENSOR_OP_STATE).
Proof.
  intros Hl. assert (Hspec : pldm_event_len_check buf (zlen buf) = PLDM_SUCCESS <->
   rd buf 0 = PLDM_SENSOR_EVENT /\
   (zlen buf = 5 /\ rd buf 3 = PLDM_SENSOR_OP_STATE \/ zlen buf = 7 /\ rd buf 3 = PLDM_STATE_SENSOR_STATE
    \/ 7 <= zlen buf /\ rd buf 3 = PLDM_NUMERIC_SENSOR_STATE)).
  { unfold pldm_event_len_check, PLDM_SENSOR_EVENT, PLDM_SENSOR_OP_STATE, PLDM_STATE_SENSOR_STATE,
      PLDM_NUMERIC_SENSOR_STATE, PLDM_SUCCESS, PLDM_ERROR, PLDM_ERROR_INVALID_LENGTH.
    destruct (Z.eqb_spec (zlen buf) 0); [lia|]. rewrite (u16_id (zlen buf - 1)) by lia.
    destruct (Z.eqb_spec (rd buf 0) 0); [|lia]. destruct (Z.leb_spec (zlen buf - 1 - 3) 0); [lia|].
    rewrite u16_id by lia. destruct (Z.eqb_spec (rd buf 3) 0).
    { destruct (Z.eqb_spec (zlen buf - 1 - 2) 2); cbn [negb]; lia. }
    destruct (Z.eqb_spec (rd buf 3) 1).
    { destruct (Z.eqb_spec (zlen buf - 1 - 2) 4); cbn [negb]; lia. }
    destruct (Z.eqb_spec (rd buf 3) 2); [|lia]. destruct (Z.ltb_spec (zlen buf - 1 - 2) 4); lia. }
  split; [done|]. intros p Hp E.
  assert (E0 : rd buf 0 = PLDM_SENSOR_EVENT) by by rewrite E.
  assert (E3 : rd buf 3 = pe_ext_class p) by by rewrite E.
  assert (Ez : zlen buf = 4 + zlen (pe_event_data p)) by (rewrite E, zlen_app, zlen_sensor_event; change (zlen [_]) with 1; lia).
  rewrite Hspec, E0, E3, Ez. clear -Hp. destruct Hp as [_ Hp].
  unfold PLDM_SENSOR_OP_STATE, PLDM_STATE_SENSOR_STATE, PLDM_NUMERIC_SENSOR_STATE in *. lia.
Qed.

Lemma event_len_check_exact_witness :
  pldm_event_len_check [0; 7; 0; 2; 1; 2; 4] 7 = 0 /\ pldm_event_len_check [0; 7; 0; 0; 1; 2] 6 <> 0.
Proof.
  split.
  - apply (event_len_check_exact [0; 7; 0; 2; 1; 2; 4]); [done|]. split; [done|]. right. right. done.
  - intros E. apply (event_len_check_exact [0; 7; 0; 0; 1; 2]) in E; [|done].
    destruct E as [_ [[? _]|[[? _]|[? _]]]]; done.
Defined.
