(* ===== verification/PldmEffecter.v ===== *)
(** Component [common/service/pldm/pldm_monitor.c], state effecters: SetStateEffecterStates and
    GetStateEffecterStates, the table of effecters and the GPIO effecters, with the platform's
    dispatch by entity type as [meta-facebook/yv4-sd/src/platform/plat_pldm_monitor.c] has it. *)

From S2P Require Import Prelude Bytes MctpCore PldmCore HalGpio PldmEvent.

(** ** Definitions *)

Definition PLDM_MONITOR_CMD_CODE_SET_STATE_EFFECTER_STATES : Z := 0x39.
Definition PLDM_PLATFORM_INVALID_STATE_VALUE : Z := 0x81.
Definition PLDM_PLATFORM_UNSUPPORTED_EFFECTERSTATE : Z := 0x82.
Definition PLDM_OEM_GPIO_UNSUPPORT_RANGE : Z := 0x83.
Definition PLDM_OEM_GPIO_EFFECTER_VALUE_UNKNOWN : Z := 0x85.
Definition PLDM_NO_CHANGE : Z := 0.
Definition PLDM_REQUEST_SET : Z := 1.
Definition PLDM_SET_REQUEST_MAX : Z := 2.
Definition EFFECTER_STATE_GPIO_DIRECTION_UNKNOWN : Z := 0.
Definition EFFECTER_STATE_GPIO_DIRECTION_INPUT : Z := 1.
Definition EFFECTER_STATE_GPIO_DIRECTION_OUTPUT : Z := 2.
Definition EFFECTER_STATE_GPIO_DIRECTION_MAX : Z := 3.
Definition EFFECTER_STATE_GPIO_VALUE_UNKNOWN : Z := 0.
Definition EFFECTER_STATE_GPIO_VALUE_LOW : Z := 1.
Definition EFFECTER_STATE_GPIO_VALUE_HIGH : Z := 2.
Definition EFFECTER_STATE_GPIO_VALUE_MAX : Z := 3.
Definition EFFECTER_STATE_SPI_REINIT : Z := 1.
Definition PLDM_EFFECTER_ENABLED_NOUPDATEPENDING : Z := 1.
Definition PLDM_EFFECTER_DISABLED : Z := 2.
Definition PLDM_ENTITY_DEVICE_DRIVER : Z := 35.
Definition PLDM_ENTITY_SUB_CHASSIS : Z := 46.
Definition PLDM_ENTITY_IO_CONTROLLER : Z := 145.
Definition PLDM_COMPOSITE_EFFECTER_COUNT_ADDSEL : Z := 3.

(** A request is its bytes: the effecter id, the count, and two bytes for each state field. *)
Definition eff_effecter_id (buf : list Z) : Z := rd16 buf 0.
Definition eff_count (buf : list Z) : Z := rd buf 2.
Definition eff_set_request (buf : list Z) (i : Z) : Z := rd buf (3 + 2 * i).
Definition eff_state (buf : list Z) (i : Z) : Z := rd buf (4 + 2 * i).

(** 167 on AST1030, 123 on NPCM4XX. *)
Definition PLDM_PLATFORM_OEM_GPIO_PIN_NUM_MAX (soc : gpio_soc) : Z := TOTAL_GPIO_NUM soc - 1.

Record pldm_state_effecter_info := mk_effecter_info { ei_entity_type : Z; ei_effecter_id : Z }.

(** [pldm_state_effecter_index] and [state_effecter_table]; [None] is NULL. *)
Record effecter_table := mk_effecter_table {
  pldm_state_effecter_index : Z; state_effecter_table : option (list pldm_state_effecter_info) }.

(** [block]: what [malloc] returns; [plat]: what the platform's loader makes of it. *)
Definition pldm_load_state_effecter_table (index : Z) (block : option (list pldm_state_effecter_info))
    (plat : list pldm_state_effecter_info -> list pldm_state_effecter_info) : effecter_table :=
  mk_effecter_table index (plat <$> block).

Definition pldm_assign_gpio_effecter_id (soc : gpio_soc) (high_byte : Z) (t : effecter_table)
    : option effecter_table :=
  l ← state_effecter_table t;
  if zlen l <=? PLDM_PLATFORM_OEM_GPIO_PIN_NUM_MAX soc then None
  else Some (mk_effecter_table (pldm_state_effecter_index t) (Some (imap (fun i e =>
    if Z.of_nat i <=? PLDM_PLATFORM_OEM_GPIO_PIN_NUM_MAX soc
    then mk_effecter_info (ei_entity_type e) (u16 (high_byte .| Z.of_nat i)) else e) l))).

(** The loop of [find_state_effecter_info], its index kept in a [uint8_t]. *)
Inductive find_result :=
  | FoundInfo (e : pldm_state_effecter_info) | NoInfo | BadAccess
  | StillLooking (** out of fuel *).

Fixpoint find_effecter (fuel : nat) (i : Z) (t : effecter_table) (effecter_id : Z) : find_result :=
  match fuel with
  | O => StillLooking
  | S fuel =>
      if negb (i <? pldm_state_effecter_index t) then NoInfo
      else
        match state_effecter_table t ≫= (.!! Z.to_nat i) with
        | None => BadAccess
        | Some e => if ei_effecter_id e =? effecter_id then FoundInfo e
                    else find_effecter fuel (u8 (i + 1)) t effecter_id
        end
  end.

(** A look-up that returns does so within 257 turns. *)
Definition find_state_effecter_info (t : effecter_table) (effecter_id : Z) : find_result :=
  find_effecter 257 0 t effecter_id.

Section effecter.
Context {pins : Type} `{gpio_driver pins}.
Context (soc : gpio_soc) (gpio_cfg : list GPIO_CFG) (dev_gpio : Z -> bool).
Abbreviation pin_max := (PLDM_PLATFORM_OEM_GPIO_PIN_NUM_MAX soc).

(** ** GPIO effecters *)

(** The new pins and the completion code, the only byte of the response. *)
Definition set_effecter_state_gpio_handler (s : pins) (buf : list Z) (gpio_pin : Z) : option (pins * Z) :=
  if pin_max <? gpio_pin then Some (s, PLDM_OEM_GPIO_UNSUPPORT_RANGE)
  else if negb (eff_count buf =? 2) then Some (s, PLDM_ERROR_INVALID_DATA)
  else if negb (eff_set_request buf 0 =? PLDM_NO_CHANGE) || (PLDM_SET_REQUEST_MAX <=? eff_set_request buf 1) then
    Some (s, PLDM_PLATFORM_UNSUPPORTED_EFFECTERSTATE)
  else if (EFFECTER_STATE_GPIO_DIRECTION_MAX <=? eff_state buf 0)
       || (EFFECTER_STATE_GPIO_VALUE_MAX <=? eff_state buf 1) then
    Some (s, PLDM_PLATFORM_INVALID_STATE_VALUE)
  else
    cfg ← gpio_cfg !! Z.to_nat gpio_pin;
    if decide (gc_direction cfg = GPIO_INPUT) then Some (s, PLDM_OEM_GPIO_EFFECTER_VALUE_UNKNOWN)
    else if eff_state buf 1 =? EFFECTER_STATE_GPIO_VALUE_UNKNOWN then
      Some (s, PLDM_OEM_GPIO_EFFECTER_VALUE_UNKNOWN)
    else
      let gpio_val := if eff_state buf 1 =? EFFECTER_STATE_GPIO_VALUE_LOW then GPIO_LOW else GPIO_HIGH in
      '(s, _) ← gpio_set soc gpio_cfg dev_gpio s gpio_pin gpio_val;
      Some (s, PLDM_SUCCESS).

(** The response and its length; the caller has set the length to 1. *)
Definition get_effecter_state_gpio_handler (s : pins) (gpio_pin : Z) : option (list Z * Z) :=
  if pin_max <? gpio_pin then Some ([PLDM_OEM_GPIO_UNSUPPORT_RANGE], 1)
  else
    cfg ← gpio_cfg !! Z.to_nat gpio_pin;
    let field op st := [op; st; st] in
    let fields :=
      if gc_is_init cfg =? 0 then
        field PLDM_EFFECTER_DISABLED EFFECTER_STATE_GPIO_DIRECTION_UNKNOWN
        ++ field PLDM_EFFECTER_DISABLED EFFECTER_STATE_GPIO_VALUE_UNKNOWN
      else
        field PLDM_EFFECTER_ENABLED_NOUPDATEPENDING
          (if decide (gc_direction cfg = GPIO_INPUT) then EFFECTER_STATE_GPIO_DIRECTION_INPUT
           else EFFECTER_STATE_GPIO_DIRECTION_OUTPUT)
        ++ field PLDM_EFFECTER_ENABLED_NOUPDATEPENDING
          (if gpio_get soc dev_gpio s gpio_pin =? 0 then EFFECTER_STATE_GPIO_VALUE_LOW
           else EFFECTER_STATE_GPIO_VALUE_HIGH) in
    Some ([PLDM_SUCCESS; 2] ++ fields, 2 + 3 * 2).

(** ** The platform's dispatch *)

(** The host power control and the reset of the I3C hub act on other hardware: their completion
    codes are arguments. *)
Context (host_power_control reinit_i3c_hub : list Z -> Z).

Definition plat_pldm_set_state_effecter_state_handler (s : pins) (buf : list Z) (len : Z)
    (info : pldm_state_effecter_info) : option (pins * (Z * list Z * Z)) :=
  if len =? 0 then Some (s, (PLDM_ERROR, [0], 1))
  else if ei_entity_type info =? PLDM_ENTITY_IO_CONTROLLER then
    '(s, cc) ← set_effecter_state_gpio_handler s buf (ei_effecter_id info .& 0xFF);
    Some (s, (PLDM_SUCCESS, [cc], 1))
  else if ei_entity_type info =? PLDM_ENTITY_SUB_CHASSIS then
    Some (s, (PLDM_SUCCESS, [host_power_control buf], 1))
  else if ei_entity_type info =? PLDM_ENTITY_DEVICE_DRIVER then
    Some (s, (PLDM_SUCCESS, [reinit_i3c_hub buf], 1))
  else Some (s, (PLDM_SUCCESS, [PLDM_ERROR_INVALID_DATA], 1)).

Definition plat_pldm_get_state_effecter_state_handler (s : pins) (len : Z)
    (info : pldm_state_effecter_info) : option (Z * list Z * Z) :=
  if len =? 0 then Some (PLDM_ERROR, [0], 1)
  else if ei_entity_type info =? PLDM_ENTITY_IO_CONTROLLER then
    '(resp, resp_len) ← get_effecter_state_gpio_handler s (ei_effecter_id info .& 0xFF);
    Some (PLDM_SUCCESS, resp, resp_len)
  else Some (PLDM_SUCCESS, [PLDM_ERROR_INVALID_DATA], 1).

(** ** The commands; [None] is undefined behaviour, or a handler that never returns *)

Definition pldm_set_state_effecter_states (t : effecter_table) (s : pins) (buf : list Z) (len : Z)
    : option (pins * (Z * list Z * Z)) :=
  if (eff_count buf <? 0x01) || (0x08 <? eff_count buf) then Some (s, (PLDM_SUCCESS, [PLDM_ERROR_INVALID_DATA], 1))
  else if negb (len =? 3 + 2 * eff_count buf) then Some (s, (PLDM_SUCCESS, [PLDM_ERROR_INVALID_LENGTH], 1))
  else
    match find_state_effecter_info t (eff_effecter_id buf) with
    | FoundInfo info => plat_pldm_set_state_effecter_state_handler s buf len info
    | NoInfo => Some (s, (PLDM_SUCCESS, [PLDM_ERROR_INVALID_DATA], 1))
    | BadAccess | StillLooking => None
    end.

Definition pldm_get_state_effecter_states (t : effecter_table) (s : pins) (buf : list Z) (len : Z)
    : option (Z * list Z * Z) :=
  if negb (len =? 2) then Some (PLDM_SUCCESS, [PLDM_ERROR_INVALID_LENGTH], 1)
  else
    match find_state_effecter_info t (eff_effecter_id buf) with
    | FoundInfo info => plat_pldm_get_state_effecter_state_handler s len info
    | NoInfo => Some (PLDM_SUCCESS, [PLDM_ERROR_INVALID_DATA], 1)
    | BadAccess | StillLooking => None
    end.
End effecter.

(** The handler of an effecter that initialises the flash device again: the completion code, [cc]
    being what the response holds before, and whether the device is initialised. *)
Definition pldm_spi_reinit (cc : Z) (buf : list Z) : Z * bool :=
  if negb (eff_count buf =? 1) then (PLDM_ERROR_INVALID_DATA, false)
  else if eff_set_request buf 0 =? PLDM_NO_CHANGE then (cc, false)
  else if negb (eff_set_request buf 0 =? PLDM_REQUEST_SET) then (PLDM_PLATFORM_UNSUPPORTED_EFFECTERSTATE, false)
  else if eff_state buf 0 =? EFFECTER_STATE_SPI_REINIT then (cc, true)
  else (PLDM_ERROR_INVALID_DATA, false).

(** ** The sender of SetStateEffecterStates *)

(** The request of 19 bytes; the fields not named keep what [req] has. *)
Definition pldm_fill_addsel_req (req : list Z) (effecter_id device_type board_info event_type : Z) : list Z :=
  patch req 0 (le_bytes 2 effecter_id ++ [PLDM_COMPOSITE_EFFECTER_COUNT_ADDSEL;
    PLDM_REQUEST_SET; device_type; PLDM_REQUEST_SET; board_info; PLDM_REQUEST_SET; event_type]).

Definition sizeof_set_state_effecter_states_req : Z := 19.

(** The message and the code, as in [PldmEvent.v]. *)
Definition pldm_send_set_state_effecter_states_req (read : Z -> pldm_msg -> list Z -> Z -> option read_result)
    (inst : Z) (ext : mctp_ext_params) (req : list Z) : option sent :=
  if (eff_count req <? 1) || (8 <? eff_count req) then Some ([], Some PLDM_ERROR)
  else
    let msg := monitor_msg ext PLDM_MONITOR_CMD_CODE_SET_STATE_EFFECTER_STATES req
                 sizeof_set_state_effecter_states_req in
    r ← read inst msg [PLDM_ERROR] 1;
    match r with
    | ReadBlocked => Some ([(inst, msg)], None)
    | ReadReturn read_len rbuf =>
        Some ([(inst, msg)],
          Some (if (read_len =? 0) || negb (rd rbuf 0 =? PLDM_SUCCESS) then PLDM_ERROR else PLDM_SUCCESS))
    end.

(** ** Lemmas: looking for an effecter *)

Section find.
Context (l : list pldm_state_effecter_info) (effecter_id : Z).
Let t : effecter_table := mk_effecter_table (zlen l) (Some l).
Definition no_match (n : nat) : Prop := Forall (fun e => ei_effecter_id e <> effecter_id) (take n l).

Lemma no_match_lookup n j e : no_match n -> (j < n)%nat -> l !! j = Some e -> ei_effecter_id e <> effecter_id.
Proof using.
  intros Hn Hj He. apply (Forall_lookup_1 _ _ j e Hn). by rewrite lookup_take_lt.
Qed.

Lemma no_match_le n m : (n <= m)%nat -> no_match m -> no_match n.
Proof using.
  intros Hle Hm. apply Forall_lookup. intros j e Hj. apply lookup_take_Some in Hj as [Hj Hlt].
  apply (no_match_lookup m j); [done|lia|done].
Qed.

Lemma find_effecter_step fuel i e :
  0 <= i -> l !! Z.to_nat i = Some e ->
  find_effecter (S fuel) i t effecter_id =
    if ei_effecter_id e =? effecter_id then FoundInfo e else find_effecter fuel (u8 (i + 1)) t effecter_id.
Proof using.
  intros Hi He. cbn [find_effecter]. subst t. cbn [pldm_state_effecter_index state_effecter_table mbind option_bind].
  rewrite He. apply lookup_lt_Some in He. unfold zlen. destruct (Z.ltb_spec i (Z.of_nat (length l))); [done|lia].
Qed.

Lemma find_effecter_skip n : forall fuel i,
  0 <= i -> i + Z.of_nat n <= 255 -> i + Z.of_nat n <= zlen l -> no_match (Z.to_nat (i + Z.of_nat n)) ->
  find_effecter (n + fuel) i t effecter_id = find_effecter fuel (i + Z.of_nat n) t effecter_id.
Proof using.
  induction n as [|n IH]; intros fuel i Hi Hb Hl Hm; [by rewrite Z.add_0_r|].
  destruct (lookup_lt_is_Some_2 l (Z.to_nat i)) as [e He]; [unfold zlen in Hl; lia|].
  cbn [Nat.add]. rewrite (find_effecter_step _ _ e) by done.
  destruct (Z.eqb_spec (ei_effecter_id e) effecter_id) as [E|E].
  - exfalso. by apply (no_match_lookup _ _ _ Hm) in He; [|lia].
  - rewrite u8_id, IH by (lia || (try by replace (i + 1 + Z.of_nat n) with (i + Z.of_nat (S n)) by lia)).
    f_equal. lia.
Qed.

Lemma find_effecter_loops fuel : forall i,
  256 <= zlen l -> no_match 256 -> 0 <= i < 256 -> find_effecter fuel i t effecter_id = StillLooking.
Proof using.
  induction fuel as [|fuel IH]; intros i Hl Hm Hi; [done|].
  destruct (lookup_lt_is_Some_2 l (Z.to_nat i)) as [e He]; [unfold zlen in Hl; lia|].
  rewrite (find_effecter_step _ _ e) by (done || lia).
  destruct (Z.eqb_spec (ei_effecter_id e) effecter_id) as [E|E].
  - exfalso. by apply (no_match_lookup _ _ _ Hm) in He; [|lia].
  - apply IH; [done|done|apply u8_range].
Qed.

Lemma find_effecter_found k e :
  (k < 256)%nat -> l !! k = Some e -> ei_effecter_id e = effecter_id -> no_match k ->
  find_state_effecter_info t effecter_id = FoundInfo e.
Proof using.
  intros Hk He Hid Hm. unfold find_state_effecter_info. pose proof (lookup_lt_Some _ _ _ He).
  destruct k as [|k'].
  - rewrite (find_effecter_step _ _ e) by done. by rewrite Hid, Z.eqb_refl.
  - replace 257%nat with (k' + (257 - k'))%nat by lia.
    assert (Hm' : no_match k') by (apply (no_match_le _ (S k')); [lia|done]).
    rewrite find_effecter_skip; [|lia|lia|unfold zlen; lia|by replace (Z.to_nat (0 + Z.of_nat k')) with k' by lia].
    destruct (257 - k')%nat as [|[|n]] eqn:En; [lia|lia|].
    destruct (lookup_lt_is_Some_2 l k') as [e' He']; [lia|].
    rewrite (find_effecter_step _ _ e') by (try lia; by replace (Z.to_nat (0 + Z.of_nat k')) with k' by lia).
    destruct (Z.eqb_spec (ei_effecter_id e') effecter_id) as [E|E].
    { exfalso. by apply (no_match_lookup _ _ _ Hm) in He'; [|lia]. }
    rewrite u8_id by lia. rewrite (find_effecter_step _ _ e).
    + by rewrite Hid, Z.eqb_refl.
    + lia.
    + by replace (Z.to_nat (0 + Z.of_nat k' + 1)) with (S k') by lia.
Qed.

Lemma find_effecter_absent : zlen l <= 255 -> no_match (length l) -> find_state_effecter_info t effecter_id = NoInfo.
Proof using.
  intros Hl Hm. unfold find_state_effecter_info. replace 257%nat with (length l + (257 - length l))%nat by (unfold zlen in Hl; lia).
  rewrite find_effecter_skip; [|lia|unfold zlen in Hl; lia|unfold zlen; lia|by rewrite Z.add_0_l, Nat2Z.id].
  destruct (257 - length l)%nat as [|n] eqn:E; [unfold zlen in Hl; lia|]. cbn [find_effecter]. subst t.
  cbn [pldm_state_effecter_index]. unfold zlen. rewrite Z.add_0_l, Z.ltb_irrefl. done.
Qed.
End find.

(** [find_state_effecter_info] on a table of at most 255 effecters ends, and finds the first
    effecter with the id or tells that there is none. With more effecters it still finds the
    first of the first 256 that has the id; of any other id it never returns: its index is a
    [uint8_t] and starts again at 0. *)
Theorem find_effecter_exact l id :
  let t := mk_effecter_table (zlen l) (Some l) in
  (zlen l <= 255 -> find_state_effecter_info t id =
     match list_find (fun e => ei_effecter_id e = id) l with Some (_, e) => FoundInfo e | None => NoInfo end) /\
  (256 <= zlen l ->
     match list_find (fun e => ei_effecter_id e = id) (take 256 l) with
     | Some (_, e) => find_state_effecter_info t id = FoundInfo e
     | None => forall fuel, find_effecter fuel 0 t id = StillLooking
     end).
Proof.
  assert (Hfound : forall k e, (k < 256)%nat -> l !! k = Some e -> ei_effecter_id e = id ->
    (forall j y, l !! j = Some y -> (j < k)%nat -> ei_effecter_id y <> id) ->
    find_state_effecter_info (mk_effecter_table (zlen l) (Some l)) id = FoundInfo e).
  { intros k e Hk He Hid Hf. apply (find_effecter_found l id k); try done.
    apply Forall_lookup. intros j y Hj. apply lookup_take_Some in Hj as [Hj Hlt]. by apply (Hf j). }
  split; intros Hl.
  - destruct (list_find _ l) as [[k e]|] eqn:E.
    + apply list_find_Some in E as (He & Hid & Hf). apply (Hfound k); try done.
      apply lookup_lt_Some in He. unfold zlen in Hl. lia.
    + apply list_find_None in E. apply find_effecter_absent; [done|]. unfold no_match. by rewrite firstn_all.
  - destruct (list_find _ (take 256 l)) as [[k e]|] eqn:E.
    + apply list_find_Some in E as (He & Hid & Hf). apply lookup_take_Some in He as [He Hlt].
      apply (Hfound k); try done. intros j y Hj Hjk. apply (Hf j y); [|done]. by rewrite lookup_take_lt by lia.
    + apply list_find_None in E. intros fuel. by apply find_effecter_loops.
Qed.

Lemma find_effecter_exact_witness :
  find_state_effecter_info (mk_effecter_table 2 (Some [mk_effecter_info 145 0x100; mk_effecter_info 145 0x101])) 0x101
    = FoundInfo (mk_effecter_info 145 0x101) /\
  find_effecter 100000 0 (mk_effecter_table 256 (Some (replicate 256 (mk_effecter_info 145 1)))) 2 = StillLooking.
Proof.
  split.
  - apply (find_effecter_exact [mk_effecter_info 145 0x100; mk_effecter_info 145 0x101]). done.
  - apply (proj2 (find_effecter_exact (replicate 256 (mk_effecter_info 145 1)) 2) ltac:(done) 100000%nat).
Defined.

(** ** GPIO effecters *)

(** The id of a GPIO effecter and the pin the platform takes from it. *)
Lemma gpio_effecter_id high p :
  0 <= high < 65536 -> high .& 0xFF = 0 -> 0 <= p < 256 -> u16 (high .| p) = high + p /\ (high + p) .& 0xFF = p.
Proof.
  intros Hh Ha Hp. change 0xFF with (Z.ones 8) in *. rewrite Z.land_ones in * by lia. change (2 ^ 8) with 256 in *.
  assert (E : high = (high / 256) .<< 8) by (rewrite Z.shiftl_mul_pow2 by lia; change (2 ^ 8) with 256; Z.div_mod_to_equations; lia).
  assert (El : high .| p = high + p).
  { rewrite E at 1. rewrite lor_shl by (try change (2 ^ 8) with 256; lia). change (2 ^ 8) with 256.
    Z.div_mod_to_equations; lia. }
  rewrite El. split; [apply u16_id|]; Z.div_mod_to_equations; lia.
Qed.

Section gpio_effecters.
Context {pins : Type} `{Hlaws : gpio_laws pins}.
Context (soc : gpio_soc) (gpio_cfg : list GPIO_CFG) (dev_gpio : Z -> bool).
Context (hpc ri3c : list Z -> Z).
Context (Hsize : 0 < GPIO_GROUP_SIZE soc) (Htotal : TOTAL_GPIO_NUM soc <= 256).

(** The pins' part of a platform's table. *)
Definition gpio_table_ok (l : list pldm_state_effecter_info) : Prop :=
  TOTAL_GPIO_NUM soc <= zlen l /\
  forall i e, l !! i = Some e -> Z.of_nat i < TOTAL_GPIO_NUM soc -> ei_entity_type e = PLDM_ENTITY_IO_CONTROLLER.

Lemma find_gpio_effecter l high p t :
  gpio_table_ok l -> 0 <= high < 65536 -> high .& 0xFF = 0 -> 0 <= p < TOTAL_GPIO_NUM soc ->
  pldm_assign_gpio_effecter_id soc high (pldm_load_state_effecter_table (zlen l) (Some l) id) = Some t ->
  exists e, find_state_effecter_info t (high + p) = FoundInfo e /\
    ei_entity_type e = PLDM_ENTITY_IO_CONTROLLER /\ ei_effecter_id e .& 0xFF = p.
Proof using Htotal.
  intros [Hl He] Hh Ha Hp. unfold pldm_assign_gpio_effecter_id, pldm_load_state_effecter_table,
    PLDM_PLATFORM_OEM_GPIO_PIN_NUM_MAX. cbn [state_effecter_table pldm_state_effecter_index fmap option_fmap
      option_map mbind option_bind id].
  destruct (Z.leb_spec (zlen l) (TOTAL_GPIO_NUM soc - 1)); [lia|]. intros [= <-].
  set (f := fun (i : nat) e => if Z.of_nat i <=? TOTAL_GPIO_NUM soc - 1
    then mk_effecter_info (ei_entity_type e) (u16 (high .| Z.of_nat i)) else e).
  destruct (lookup_lt_is_Some_2 l (Z.to_nat p)) as [e0 E0]; [unfold zlen in Hl; lia|].
  exists (mk_effecter_info (ei_entity_type e0) (high + p)).
  assert (Hf : forall j y, l !! j = Some y -> Z.of_nat j < TOTAL_GPIO_NUM soc ->
    imap f l !! j = Some (mk_effecter_info (ei_entity_type y) (high + Z.of_nat j))).
  { intros j y Hj Hlt. rewrite list_lookup_imap, Hj. cbn. unfold f.
    destruct (Z.leb_spec (Z.of_nat j) (TOTAL_GPIO_NUM soc - 1)); [|lia].
    by rewrite (proj1 (gpio_effecter_id high (Z.of_nat j) Hh Ha ltac:(lia))). }
  split; [|split; [apply (He _ _ E0); lia|by apply (gpio_effecter_id high p); lia]].
  assert (Ez : zlen l = zlen (imap f l)) by (unfold zlen; by rewrite length_imap). rewrite Ez.
  apply (find_effecter_found _ _ (Z.to_nat p)); [lia| |done|].
  - rewrite (Hf _ _ E0) by lia. by rewrite Z2Nat.id by lia.
  - apply Forall_lookup. intros j y Hj. apply lookup_take_Some in Hj as [Hj Hlt].
    destruct (lookup_lt_is_Some_2 l j) as [y0 Ey]; [unfold zlen in Hl; lia|].
    rewrite (Hf _ _ Ey) in Hj by lia. injection Hj as <-. cbn. lia.
Qed.
End gpio_effecters.

(** C27: a GPIO effecter of an output pin does what it says, through the table of effecters and
    the two commands: SetStateEffecterStates with "low" or "high" succeeds and changes that pin
    alone. A push-pull pin that is an output, and an open-drain pin set low, is then driven to that
    level, and GetStateEffecterStates of the same effecter reports an enabled output with the state
    that was set; an open-drain pin set high is let go, and the report is an enabled output with the
    level the line has. *)
Theorem gpio_effecter_round_trip {pins : Type} `{gpio_laws pins} soc cfgs dev_gpio hpc ri3c l high t s p cfg d sr v :
  0 < GPIO_GROUP_SIZE soc -> TOTAL_GPIO_NUM soc <= 256 ->
  gpio_table_ok soc l -> 0 <= high < 65536 -> high .& 0xFF = 0 -> high + p < 65536 -> 0 <= p < TOTAL_GPIO_NUM soc ->
  pldm_assign_gpio_effecter_id soc high (pldm_load_state_effecter_table (zlen l) (Some l) id) = Some t ->
  cfgs !! Z.to_nat p = Some cfg -> gc_is_init cfg <> 0 -> gc_direction cfg = GPIO_OUTPUT ->
  gpio_dev soc dev_gpio p = true ->
  (gc_property cfg <> OPEN_DRAIN -> gpio_output s (gpio_pin soc p) = true) ->
  0 <= d < 3 -> 0 <= sr < 2 -> v = EFFECTER_STATE_GPIO_VALUE_LOW \/ v = EFFECTER_STATE_GPIO_VALUE_HIGH ->
  exists s' w,
    pldm_set_state_effecter_states soc cfgs dev_gpio hpc ri3c t s
      (le_bytes 2 (high + p) ++ [2; PLDM_NO_CHANGE; d; sr; v]) 7 = Some (s', (PLDM_SUCCESS, [PLDM_SUCCESS], 1)) /\
    pldm_get_state_effecter_states soc cfgs dev_gpio t s' (le_bytes 2 (high + p)) 2 =
      Some (PLDM_SUCCESS, [PLDM_SUCCESS; 2; 1; 2; 2; 1; w; w], 8) /\
    (if (gc_property cfg =? OPEN_DRAIN) && (v =? EFFECTER_STATE_GPIO_VALUE_HIGH) then
       gpio_output s' (gpio_pin soc p) = false /\
       w = if gpio_pin_get s' (gpio_pin soc p) =? 0 then EFFECTER_STATE_GPIO_VALUE_LOW else EFFECTER_STATE_GPIO_VALUE_HIGH
     else
       gpio_output s' (gpio_pin soc p) = true /\ w = v /\
       gpio_latch s' (gpio_pin soc p) = if v =? EFFECTER_STATE_GPIO_VALUE_LOW then GPIO_LOW else GPIO_HIGH) /\
    forall q, q <> p -> gpio_output s' (gpio_pin soc q) = gpio_output s (gpio_pin soc q) /\
      gpio_latch s' (gpio_pin soc q) = gpio_latch s (gpio_pin soc q).
Proof.
  intros Hsz Htot Ht Hh Ha Hhp Hp Et Hc Hinit Hdir Hdev Hout Hd Hsr Hv.
  destruct (find_gpio_effecter soc Htot l high p t Ht Hh Ha Hp Et) as (e & Ef & Ee & Ep).
  set (x := if v =? EFFECTER_STATE_GPIO_VALUE_LOW then GPIO_LOW else GPIO_HIGH).
  assert (Hx : 0 <= x < 2) by (subst x; unfold GPIO_LOW, GPIO_HIGH; case_bools; lia).
  destruct (gpio_set_level soc cfgs dev_gpio Hsz s p x cfg Hp Hdev Hc Hout Hx) as (s' & Es & Hpin).
  exists s', (if gpio_pin_get s' (gpio_pin soc p) =? 0 then EFFECTER_STATE_GPIO_VALUE_LOW else EFFECTER_STATE_GPIO_VALUE_HIGH).
  assert (Hid : forall rest, eff_effecter_id (le_bytes 2 (high + p) ++ rest) = high + p)
    by (intros rest; apply rd16_le; lia).
  split; [|split; [|split]].
  - set (req := le_bytes 2 (high + p) ++ _).
    assert (Ec : eff_count req = 2) by done. assert (E1 : eff_set_request req 0 = PLDM_NO_CHANGE) by done.
    assert (E2 : eff_state req 0 = d) by done. assert (E3 : eff_set_request req 1 = sr) by done.
    assert (E4 : eff_state req 1 = v) by done. assert (E0 : eff_effecter_id req = high + p) by apply Hid.
    clearbody req. unfold pldm_set_state_effecter_states. rewrite E0, Ec, Ef. change (negb (7 =? 3 + 2 * 2)) with false.
    change ((2 <? 1) || (8 <? 2)) with false. cbv iota.
    unfold plat_pldm_set_state_effecter_state_handler. rewrite Ee, Ep.
    change (PLDM_ENTITY_IO_CONTROLLER =? PLDM_ENTITY_IO_CONTROLLER) with true. change (7 =? 0) with false. cbv iota.
    unfold set_effecter_state_gpio_handler, PLDM_PLATFORM_OEM_GPIO_PIN_NUM_MAX.
    destruct (Z.ltb_spec (TOTAL_GPIO_NUM soc - 1) p); [lia|]. rewrite Ec, E1, E2, E3, E4, Hc.
    change (negb (2 =? 2)) with false. change (negb (PLDM_NO_CHANGE =? PLDM_NO_CHANGE)) with false.
    unfold PLDM_SET_REQUEST_MAX, EFFECTER_STATE_GPIO_DIRECTION_MAX, EFFECTER_STATE_GPIO_VALUE_MAX.
    destruct (Z.leb_spec 2 sr); [lia|]. destruct (Z.leb_spec 3 d); [lia|].
    unfold EFFECTER_STATE_GPIO_VALUE_LOW, EFFECTER_STATE_GPIO_VALUE_HIGH in *.
    destruct (Z.leb_spec 3 v); [lia|]. cbn [orb mbind option_bind]. rewrite Hdir, decide_False by done.
    unfold EFFECTER_STATE_GPIO_VALUE_UNKNOWN. destruct (Z.eqb_spec v 0); [lia|]. fold x. rewrite Es. reflexivity.
  - unfold pldm_get_state_effecter_states. replace (le_bytes 2 (high + p)) with (le_bytes 2 (high + p) ++ []) by apply app_nil_r.
    rewrite Hid, Ef. cbn [negb Z.eqb Pos.eqb]. unfold plat_pldm_get_state_effecter_state_handler. rewrite Ee, Ep.
    change (PLDM_ENTITY_IO_CONTROLLER =? PLDM_ENTITY_IO_CONTROLLER) with true. cbn [Z.eqb].
    unfold get_effecter_state_gpio_handler, PLDM_PLATFORM_OEM_GPIO_PIN_NUM_MAX.
    destruct (Z.ltb_spec (TOTAL_GPIO_NUM soc - 1) p); [lia|]. rewrite Hc. cbn [mbind option_bind].
    destruct (Z.eqb_spec (gc_is_init cfg) 0); [done|]. rewrite Hdir, decide_False by done.
    unfold gpio_get. destruct (Z.leb_spec (TOTAL_GPIO_NUM soc) p); [lia|]. rewrite Hdev. reflexivity.
  - subst x. unfold EFFECTER_STATE_GPIO_VALUE_LOW, EFFECTER_STATE_GPIO_VALUE_HIGH, GPIO_LOW, GPIO_HIGH in *.
    destruct (gc_property cfg =? OPEN_DRAIN), Hv as [-> | ->]; cbn [Z.eqb Pos.eqb andb] in *; destruct Hpin as [Ho Hl];
      try done; by rewrite gl_get, Hl by done.
  - intros q Hq. by apply (gpio_set_other soc cfgs dev_gpio Hsz s p x q _ _ s' 0 Es).
Qed.

Definition demo_effecters : effecter_table :=
  mk_effecter_table 3 (Some [mk_effecter_info 145 0x100; mk_effecter_info 145 0x101; mk_effecter_info 145 0x102]).

Lemma gpio_effecter_round_trip_witness :
  exists (s' : map_pins) w,
    pldm_set_state_effecter_states demo_soc demo_gpio_cfg (fun _ => true) (fun _ => 0) (fun _ => 0) demo_effecters
      (mk_map_pins ∅ {[ (0, 0) := true ]} (fun _ => 0)) [0; 1; 2; 0; 0; 1; 2] 7 = Some (s', (0, [0], 1)) /\
    pldm_get_state_effecter_states demo_soc demo_gpio_cfg (fun _ => true) demo_effecters s' [0; 1] 2 =
      Some (0, [0; 2; 1; 2; 2; 1; w; w], 8) /\
    (gpio_output s' (gpio_pin demo_soc 0) = true /\ w = 2 /\ gpio_latch s' (gpio_pin demo_soc 0) = 1) /\
    forall q, q <> 0 -> gpio_output s' (gpio_pin demo_soc q) =
        gpio_output (mk_map_pins ∅ {[ (0, 0) := true ]} (fun _ => 0)) (gpio_pin demo_soc q) /\
      gpio_latch s' (gpio_pin demo_soc q) = gpio_latch (mk_map_pins ∅ {[ (0, 0) := true ]} (fun _ => 0)) (gpio_pin demo_soc q).
Proof.
  apply (gpio_effecter_round_trip demo_soc demo_gpio_cfg (fun _ => true) (fun _ => 0) (fun _ => 0)
    (replicate 3 (mk_effecter_info 145 0)) 0x100 demo_effecters _ 0
    (mk_gpio_cfg 0 0 1 0 GPIO_OUTPUT 1 PUSH_PULL GPIO_INT_DISABLE) 0 1 2); try done.
  - split; [done|]. intros i e He _. by apply lookup_replicate in He as [-> _].
  - by right.
Defined.

(** SetStateEffecterStates changes at most one pin, one that is not an input, and only when it
    answers PLDM_SUCCESS to a request of exactly 7 bytes with two state fields that leaves the
    direction alone and names "low" or "high"; every other request, whatever its bytes, leaves all
    pins as they are. *)
Theorem effecter_set_safe {pins : Type} `{gpio_laws pins} soc cfgs dev_gpio hpc ri3c t s buf len s' reply :
  0 < GPIO_GROUP_SIZE soc ->
  pldm_set_state_effecter_states soc cfgs dev_gpio hpc ri3c t s buf len = Some (s', reply) ->
  s' = s \/
  reply = (PLDM_SUCCESS, [PLDM_SUCCESS], 1) /\ len = 7 /\ eff_count buf = 2 /\ eff_set_request buf 0 = PLDM_NO_CHANGE /\
  eff_state buf 1 <> EFFECTER_STATE_GPIO_VALUE_UNKNOWN /\
  exists p cfg, 0 <= p < TOTAL_GPIO_NUM soc /\ cfgs !! Z.to_nat p = Some cfg /\ gc_direction cfg <> GPIO_INPUT /\
    forall q, q <> p -> gpio_output s' (gpio_pin soc q) = gpio_output s (gpio_pin soc q) /\
      gpio_latch s' (gpio_pin soc q) = gpio_latch s (gpio_pin soc q).
Proof.
  intros Hsz Hset. unfold pldm_set_state_effecter_states in Hset.
  destruct (_ || _); [left; by injection Hset as <- _|].
  destruct (Z.eqb_spec len (3 + 2 * eff_count buf)) as [El|]; [|left; by injection Hset as <- _]. cbn [negb] in Hset.
  destruct (find_state_effecter_info t (eff_effecter_id buf)) as [info| | |]; [|left; by injection Hset as <- _|done|done].
  unfold plat_pldm_set_state_effecter_state_handler in Hset. destruct (len =? 0); [left; by injection Hset as <- _|].
  destruct (ei_entity_type info =? PLDM_ENTITY_IO_CONTROLLER).
  2:{ left. destruct (ei_entity_type info =? PLDM_ENTITY_SUB_CHASSIS); [by injection Hset as <- _|].
      destruct (ei_entity_type info =? PLDM_ENTITY_DEVICE_DRIVER); by injection Hset as <- _. }
  set (p := ei_effecter_id info .& 0xFF) in *. assert (Hp : 0 <= p).
  { subst p. change 0xFF with (Z.ones 8). rewrite Z.land_ones by lia. apply Z.mod_pos_bound. lia. }
  unfold set_effecter_state_gpio_handler, PLDM_PLATFORM_OEM_GPIO_PIN_NUM_MAX in Hset.
  destruct (Z.ltb_spec (TOTAL_GPIO_NUM soc - 1) p); [left; by injection Hset as <- _|].
  destruct (Z.eqb_spec (eff_count buf) 2) as [Ec|]; [|left; by injection Hset as <- _]. cbn [negb] in Hset.
  destruct (Z.eqb_spec (eff_set_request buf 0) PLDM_NO_CHANGE); [|left; by injection Hset as <- _]. cbn [negb orb] in Hset.
  destruct (_ <=? _); [left; by injection Hset as <- _|].
  destruct (_ || _); [left; by injection Hset as <- _|].
  destruct (cfgs !! Z.to_nat p) as [cfg|] eqn:Hcfg; [|done]. cbn [mbind option_bind] in Hset.
  destruct (decide (gc_direction cfg = GPIO_INPUT)); [left; by injection Hset as <- _|].
  destruct (Z.eqb_spec (eff_state buf 1) EFFECTER_STATE_GPIO_VALUE_UNKNOWN); [left; by injection Hset as <- _|].
  destruct (gpio_set _ _ _ _ _ _) as [[s1 rc]|] eqn:Es; [|done]. cbn [mbind option_bind] in Hset.
  injection Hset as <- <-. right. split; [done|]. split; [lia|]. split_and!; try done.
  exists p, cfg. split; [lia|]. split_and!; try done. intros q Hq.
  by apply (gpio_set_other soc cfgs dev_gpio Hsz s p _ q _ _ s1 rc Es).
Qed.

Lemma effecter_set_safe_witness :
  let s := mk_map_pins ∅ {[ (0, 0) := true ]} (fun _ => 0) in
  s = s \/ (PLDM_SUCCESS, [PLDM_OEM_GPIO_EFFECTER_VALUE_UNKNOWN], 1) = (PLDM_SUCCESS, [PLDM_SUCCESS], 1) /\ 7 = 7 /\
    eff_count [1; 1; 2; 0; 0; 1; 2] = 2 /\ eff_set_request [1; 1; 2; 0; 0; 1; 2] 0 = PLDM_NO_CHANGE /\
    eff_state [1; 1; 2; 0; 0; 1; 2] 1 <> EFFECTER_STATE_GPIO_VALUE_UNKNOWN /\
    exists p cfg, 0 <= p < TOTAL_GPIO_NUM demo_soc /\ demo_gpio_cfg !! Z.to_nat p = Some cfg /\ gc_direction cfg <> GPIO_INPUT /\
      forall q, q <> p -> gpio_output s (gpio_pin demo_soc q) = gpio_output s (gpio_pin demo_soc q) /\
        gpio_latch s (gpio_pin demo_soc q) = gpio_latch s (gpio_pin demo_soc q).
Proof.
  intros s. apply (effecter_set_safe demo_soc demo_gpio_cfg (fun _ => true) (fun _ => 0) (fun _ => 0) demo_effecters s
    [1; 1; 2; 0; 0; 1; 2] 7 s (PLDM_SUCCESS, [PLDM_OEM_GPIO_EFFECTER_VALUE_UNKNOWN], 1)); [done|].
  vm_compute. reflexivity.
Defined.

(** A request whose value field says "no change" sets the pin to the value it names. *)
Lemma gpio_no_change_sets :
  exists s' : map_pins,
    pldm_set_state_effecter_states demo_soc demo_gpio_cfg (fun _ => true) (fun _ => 0) (fun _ => 0) demo_effecters
      (mk_map_pins ∅ {[ (0, 0) := true ]} (fun _ => 0)) [0; 1; 2; PLDM_NO_CHANGE; 0; PLDM_NO_CHANGE; 2] 7
      = Some (s', (PLDM_SUCCESS, [PLDM_SUCCESS], 1)) /\
    gpio_get demo_soc (fun _ => true) (mk_map_pins ∅ {[ (0, 0) := true ]} (fun _ => 0)) 0 = 0 /\
    gpio_get demo_soc (fun _ => true) s' 0 = 1.
Proof. eexists. split; [vm_compute; reflexivity|]. by vm_compute. Qed.

(** The request this module sends always has room for eight fields; the handler of the same
    module, which wants the length to fit the count, refuses it. *)
Lemma addsel_refused_by_handler {pins : Type} `{gpio_driver pins} soc cfgs dev_gpio hpc ri3c t (s : pins) read inst ext
    effecter_id device_type board_info event_type msg code :
  pldm_send_set_state_effecter_states_req read inst ext
    (pldm_fill_addsel_req (zeros 19) effecter_id device_type board_info event_type) = Some ([(inst, msg)], code) ->
  pldm_set_state_effecter_states soc cfgs dev_gpio hpc ri3c t s (pm_buf msg) (pm_len msg) =
    Some (s, (PLDM_SUCCESS, [PLDM_ERROR_INVALID_LENGTH], 1)).
Proof.
  set (req := pldm_fill_addsel_req _ _ _ _ _). assert (Ec : eff_count req = 3) by done. clearbody req.
  unfold pldm_send_set_state_effecter_states_req. rewrite Ec. change ((3 <? 1) || (8 <? 3)) with false. cbv iota.
  intros Hs. assert (E : msg = monitor_msg ext PLDM_MONITOR_CMD_CODE_SET_STATE_EFFECTER_STATES req
                 sizeof_set_state_effecter_states_req).
  { destruct (read _ _ _ _) as [[ret rbuf|]|]; [..|done]; by injection Hs as <- _. }
  subst msg. cbn [pm_buf pm_len monitor_msg]. unfold pldm_set_state_effecter_states. rewrite Ec. reflexivity.
Qed.
