(* ===== verification/PldmMonitor.v ===== *)
(** Component [common/service/pldm/pldm_monitor.c], the commands: readings of numeric and state
    sensors, the PDR repository, the handler table, and its place in the dispatcher of
    [PldmCore.v]. The events are in [PldmEvent.v], the effecters in [PldmEffecter.v], the
    repository in [Pdr.v]. *)

From S2P Require Import Prelude Bytes IpmiMsg LibUtil Pdr MctpCore PldmCore PldmBase HalGpio PldmEvent PldmEffecter.

(** ** Definitions *)

Definition PLDM_MONITOR_CMD_CODE_SET_EVENT_RECEIVER : Z := 0x04.
Definition PLDM_MONITOR_CMD_CODE_GET_SENSOR_READING : Z := 0x11.
Definition PLDM_MONITOR_CMD_CODE_GET_STATE_SENSOR_READING : Z := 0x21.
Definition PLDM_MONITOR_CMD_CODE_GET_STATE_EFFECTER_STATES : Z := 0x3A.
Definition PLDM_MONITOR_CMD_CODE_GET_PDR_INFO : Z := 0x50.
Definition PLDM_MONITOR_CMD_CODE_GET_PDR : Z := 0x51.
Definition PLDM_MONITOR_SENSOR_SUPPORT_MAX : Z := 0xFF.
Definition PLDM_PLATFORM_INVALID_SENSOR_ID : Z := 0x80.
Definition PLDM_TRANSFER_FLAG_START_AND_END : Z := 0x05.
Definition TIMESTAMP104_SIZE : Z := 13.

Definition PLDM_SENSOR_DATA_SIZE_UINT8 : Z := 0.
Definition PLDM_SENSOR_DATA_SIZE_SINT8 : Z := 1.
Definition PLDM_SENSOR_DATA_SIZE_UINT16 : Z := 2.
Definition PLDM_SENSOR_DATA_SIZE_SINT16 : Z := 3.
Definition PLDM_SENSOR_DATA_SIZE_UINT32 : Z := 4.
Definition PLDM_SENSOR_DATA_SIZE_SINT32 : Z := 5.

Definition PLDM_SENSOR_ENABLED : Z := 0.
Definition PLDM_SENSOR_UNAVAILABLE : Z := 2.
Definition PLDM_SENSOR_STATUSUNKOWN : Z := 3.
Definition PLDM_SENSOR_FAILED : Z := 4.
Definition PLDM_SENSOR_INITIALIZING : Z := 5.
Definition PLDM_SENSOR_UNKNOWN : Z := 0.
Definition PLDM_SENSOR_NORMAL : Z := 1.
Definition PLDM_EVENTS_DISABLED : Z := 1.

(** The statuses of [sensor.h] that the code names. *)
Definition SENSOR_READ_SUCCESS : Z := 0.
Definition SENSOR_READ_ACUR_SUCCESS : Z := 1.
Definition SENSOR_NOT_FOUND : Z := 2.
Definition SENSOR_NOT_ACCESSIBLE : Z := 3.
Definition SENSOR_INIT_STATUS : Z := 5.
Definition SENSOR_POLLING_DISABLE : Z := 7.
Definition SENSOR_READ_4BYTE_ACUR_SUCCESS : Z := 11.
Definition SENSOR_UNAVAILABLE : Z := 15.

Definition get_sensor_data_size (data_type : Z) : Z :=
  if (data_type =? PLDM_SENSOR_DATA_SIZE_UINT8) || (data_type =? PLDM_SENSOR_DATA_SIZE_SINT8) then 1
  else if (data_type =? PLDM_SENSOR_DATA_SIZE_UINT16) || (data_type =? PLDM_SENSOR_DATA_SIZE_SINT16) then 2
  else if (data_type =? PLDM_SENSOR_DATA_SIZE_UINT32) || (data_type =? PLDM_SENSOR_DATA_SIZE_SINT32) then 4
  else 0.

(** Where a reading comes from: with [ENABLE_PLDM_SENSOR] the cache of the PLDM sensors (the
    completion code, the reading and the operational state), without it the sensor table (the
    status and the reading). *)
Inductive reading_source :=
  | FromPldmSensor (get : Z -> Z * Z * Z)
  | FromSensorConfig (get : Z -> Z * Z).

(** The completion code and the operational state for a status of the sensor table. *)
Definition sensor_status_codes (status : Z) : Z * Z :=
  if (status =? SENSOR_READ_SUCCESS) || (status =? SENSOR_READ_ACUR_SUCCESS)
     || (status =? SENSOR_READ_4BYTE_ACUR_SUCCESS) then (PLDM_SUCCESS, PLDM_SENSOR_ENABLED)
  else if (status =? SENSOR_NOT_ACCESSIBLE) || (status =? SENSOR_INIT_STATUS) then
    (PLDM_SUCCESS, PLDM_SENSOR_INITIALIZING)
  else if status =? SENSOR_POLLING_DISABLE then (PLDM_SUCCESS, PLDM_SENSOR_STATUSUNKOWN)
  else if status =? SENSOR_NOT_FOUND then (PLDM_PLATFORM_INVALID_SENSOR_ID, PLDM_SENSOR_STATUSUNKOWN)
  else if status =? SENSOR_UNAVAILABLE then (PLDM_SUCCESS, PLDM_SENSOR_UNAVAILABLE)
  else (PLDM_SUCCESS, PLDM_SENSOR_FAILED).

(** The completion code, the operational state and the reading. *)
Definition read_source (src : reading_source) (sensor_number : Z) : Z * Z * Z :=
  match src with
  | FromPldmSensor get => let '(status, reading, state) := get sensor_number in (status, state, reading)
  | FromSensorConfig get => let '(status, reading) := get sensor_number in (sensor_status_codes status, reading)
  end.

Section monitor.
Context (P : pdr_platform).

Definition NUMERIC_PDR_SIZE : Z := 78 + MAX_AUX_SENSOR_NAME_LEN P.

(** [updating]: built with [DISABLE_SENSOR_RESP_DURING_FW_UPDATE], and an update goes on. *)
Definition pldm_get_sensor_reading (updating : bool) (src : reading_source) (pdrs : pdr_state)
    : pldm_cmd_proc_fn := fun buf len instance_id =>
  if updating then (PLDM_LATER_RESP, [0], 1)
  else
    let sensor_id := rd16 buf 0 in
    let sensor_number := u8 sensor_id in
    let '(completion_code, state, reading) :=
      if negb (len =? 3) then (PLDM_ERROR_INVALID_LENGTH, PLDM_SENSOR_STATUSUNKOWN, 0)
      else if PLDM_MONITOR_SENSOR_SUPPORT_MAX <? sensor_id then
        (PLDM_PLATFORM_INVALID_SENSOR_ID, PLDM_SENSOR_STATUSUNKOWN, 0)
      else read_source src sensor_number in
    let sensor_data_size :=
      match get_pdr_with_sensor_id P pdrs sensor_number with
      | None => PLDM_SENSOR_DATA_SIZE_UINT32
      | Some r => rd r f_sensor_data_size
      end in
    let present := if completion_code =? PLDM_SUCCESS then PLDM_SENSOR_NORMAL else PLDM_SENSOR_UNKNOWN in
    let reading :=
      if negb (completion_code =? PLDM_SUCCESS) || negb (state =? PLDM_SENSOR_ENABLED) then -1 else reading in
    (PLDM_SUCCESS,
     [completion_code; sensor_data_size; state; PLDM_EVENTS_DISABLED; present; present; present]
       ++ le_bytes 4 reading,
     8 + get_sensor_data_size sensor_data_size - 1).

(** [plat]: the platform's function (with [ENABLE_PLDM_SENSOR]): the status, and the response from
    its count of sensors on, 33 bytes. *)
Definition pldm_get_state_sensor_reading (plat : option (Z -> Z * list Z)) : pldm_cmd_proc_fn :=
  fun buf len instance_id =>
  if negb (len =? 4) then (PLDM_SUCCESS, [PLDM_PLATFORM_INVALID_SENSOR_ID], 1)
  else
    let sensor_id := rd16 buf 0 in
    if PLDM_MONITOR_SENSOR_SUPPORT_MAX <? sensor_id then (PLDM_SUCCESS, [PLDM_PLATFORM_INVALID_SENSOR_ID], 1)
    else
      let '(status, fields) := match plat with Some get => get (u8 sensor_id) | None => (PLDM_ERROR, zeros 33) end in
      let count := rd fields 0 in
      if negb (status =? PLDM_SUCCESS) || (count =? 0) || (8 <? count) then (PLDM_SUCCESS, status :: fields, 1)
      else (PLDM_SUCCESS, status :: fields, 2 + count * 4).

(** What a handler writes into: the dispatcher's buffer behind the header of the message, which the
    dispatcher has cleared. The two handlers below store only some fields of their response; what
    they do not store stays as it is there. A handler that returns early stores nothing, and leaves
    the length at the 1 the dispatcher has set. *)
Definition resp_room : list Z := zeros (PLDM_MAX_DATA_SIZE - 4).

(** Not stored: the two times of change and the timeout of a data transfer. *)
Definition pldm_get_pdr_info (pdrs : pdr_state) : pldm_cmd_proc_fn := fun buf len instance_id =>
  match pdr_info pdrs with
  | None => (PLDM_ERROR, resp_room, 1)
  | Some i =>
      let res_p := patch resp_room 1 [repository_state i] in
      let res_p := patch res_p 28 (le_bytes 4 (record_count i)) in
      let res_p := patch res_p 32 (le_bytes 4 (repository_size i)) in
      let res_p := patch res_p 36 (le_bytes 4 (largest_record_size i)) in
      (PLDM_SUCCESS, patch res_p 0 [PLDM_SUCCESS], 41)
  end.

(** The record is copied to its place first, whole; one that is too long for the buffer makes it
    longer than it is, which the dispatcher's model takes as undefined. Not stored:
    [next_data_transfer_handle] and what the struct has behind a shorter record; its length, with
    [NUMERIC_PDR_SIZE] bytes of record, is that of the response. *)
Definition pldm_get_pdr (pdrs : pdr_state) : pldm_cmd_proc_fn := fun buf len instance_id =>
  let record_handle := rd32 buf 0 in
  match get_pdr_table_via_record_handle P pdrs record_handle with
  | None => (PLDM_ERROR, resp_room, 1)
  | Some r =>
      let res_p := patch resp_room 12 r in
      if zlen r =? 0 then (PLDM_ERROR, res_p, 1)
      else
        let next_record_handle :=
          if total_record_count pdrs <=? u32 (record_handle + 1) then 0 else u32 (record_handle + 1) in
        let res_p := patch res_p 1 (le_bytes 4 next_record_handle) in
        let res_p := patch res_p 9 [PLDM_TRANSFER_FLAG_START_AND_END] in
        let res_p := patch res_p 10 (le_bytes 2 (zlen r)) in
        (PLDM_SUCCESS, patch res_p 0 [PLDM_SUCCESS], u16 (12 + NUMERIC_PDR_SIZE))
  end.

(** ** The state of the component, and its commands as a step *)

Context {pins : Type} `{gpio_driver pins}.

Record monitor_state := mk_monitor {
  mo_pdrs : pdr_state; mo_events : event_state; mo_effecters : effecter_table; mo_pins : pins }.

(** What the rest of the firmware gives. *)
Record monitor_env := mk_monitor_env {
  me_updating : bool; me_source : reading_source; me_state_reading : option (Z -> Z * list Z);
  me_soc : gpio_soc; me_gpio_cfg : list GPIO_CFG; me_dev_gpio : Z -> bool;
  me_host_power_control : list Z -> Z; me_reinit_i3c_hub : list Z -> Z }.

Context (E : monitor_env) (inst : Z) (ext : mctp_ext_params).

Definition set_mo_events (e : event_state) (st : monitor_state) : monitor_state :=
  mk_monitor (mo_pdrs st) e (mo_effecters st) (mo_pins st).
Definition set_mo_pins (s : pins) (st : monitor_state) : monitor_state :=
  mk_monitor (mo_pdrs st) (mo_events st) (mo_effecters st) s.

(** A handler with its effect on the state; [None] is undefined behaviour. *)
Definition monitor_handler : Type := monitor_state -> list Z -> Z -> Z -> option (monitor_state * (Z * list Z * Z)).

Definition pure_handler (fn : monitor_state -> pldm_cmd_proc_fn) : monitor_handler :=
  fun st buf len id => Some (st, fn st buf len id).

Definition pldm_monitor_cmd_tbl : list (Z * monitor_handler) :=
  [(PLDM_MONITOR_CMD_CODE_GET_SENSOR_READING,
      pure_handler (fun st => pldm_get_sensor_reading (me_updating E) (me_source E) (mo_pdrs st)));
   (PLDM_MONITOR_CMD_CODE_GET_STATE_SENSOR_READING,
      pure_handler (fun st => pldm_get_state_sensor_reading (me_state_reading E)));
   (PLDM_MONITOR_CMD_CODE_SET_EVENT_RECEIVER, fun st buf len id =>
      let '(e, r) := pldm_set_event_receiver (mo_events st) inst ext buf len in Some (set_mo_events e st, r));
   (PLDM_MONITOR_CMD_CODE_PLATFORM_EVENT_MESSAGE, pure_handler (fun st => pldm_platform_event_message));
   (PLDM_MONITOR_CMD_CODE_SET_STATE_EFFECTER_STATES, fun st buf len id =>
      '(s, r) ← pldm_set_state_effecter_states (me_soc E) (me_gpio_cfg E) (me_dev_gpio E)
                  (me_host_power_control E) (me_reinit_i3c_hub E) (mo_effecters st) (mo_pins st) buf len;
      Some (set_mo_pins s st, r));
   (PLDM_MONITOR_CMD_CODE_GET_STATE_EFFECTER_STATES, fun st buf len id =>
      r ← pldm_get_state_effecter_states (me_soc E) (me_gpio_cfg E) (me_dev_gpio E)
            (mo_effecters st) (mo_pins st) buf len;
      Some (st, r));
   (PLDM_MONITOR_CMD_CODE_GET_PDR_INFO, pure_handler (fun st => pldm_get_pdr_info (mo_pdrs st)));
   (PLDM_MONITOR_CMD_CODE_GET_PDR, pure_handler (fun st => pldm_get_pdr (mo_pdrs st)))].

(** The loop of [pldm_monitor_handler_query]. *)
Fixpoint find_monitor_cmd (tbl : list (Z * monitor_handler)) (code : Z) : option monitor_handler :=
  match tbl with
  | [] => None
  | (cmd_code, fn) :: tbl => if cmd_code =? code then Some fn else find_monitor_cmd tbl code
  end.

Definition pldm_monitor_handler_query (code : Z) : option monitor_handler :=
  find_monitor_cmd pldm_monitor_cmd_tbl code.

(** What the dispatcher sees of a handler in a state: its code and its response. A call with
    undefined behaviour has no response; the properties show where none is made. *)
Definition handler_fn (st : monitor_state) (h : monitor_handler) : pldm_cmd_proc_fn := fun buf len id =>
  match h st buf len id with Some (_, r) => r | None => (PLDM_ERROR, [], 0) end.

Definition monitor_query (st : monitor_state) (code : Z) : Z * option pldm_cmd_proc_fn :=
  match pldm_monitor_handler_query code with
  | Some h => (PLDM_SUCCESS, Some (handler_fn st h))
  | None => (PLDM_ERROR, None)
  end.

(** The query functions of the other types but the base commands, with this one in its place. *)
Definition with_monitor (st : monitor_state) (others : pldm_queries) : pldm_queries :=
  fun type code => if type =? PLDM_TYPE_PLAT_MON_CTRL then monitor_query st code else others type code.
End monitor.

(** ** Lemmas: a command of this type through the dispatcher *)

Section dispatch.
Context (P : pdr_platform) {pins : Type} `{gpio_driver pins}.
Context (E : monitor_env) (fru : bool) (others : pldm_queries) (lock_ok : bool) (rc : Z).

Definition monitor_system (st : monitor_state) (inst : Z) (ext : mctp_ext_params) : pldm_queries :=
  system_queries fru (with_monitor P E inst ext st others).

(** The sender [inst], [ext] gives a request to the dispatcher of a system in the state [st]; the
    bytes sent back to it. *)
Definition ask (pst : pldm_state) (st : monitor_state) (inst : Z) (ext : mctp_ext_params)
    (req : list Z) : option (list Z) :=
  pldm_ask fru (monitor_system st inst ext) lock_ok rc pst inst ext req.

Definition monitor_request (id cmd : Z) (d : list Z) : list Z := [1; 128 + id; PLDM_TYPE_PLAT_MON_CTRL; cmd] ++ d.

Lemma ask_reply pst st inst ext id cmd d h st' frc resp resp_len :
  0 <= id < 32 -> bytes_ok d -> zlen d < 65536 -> 0 <= cmd < 256 ->
  pldm_monitor_handler_query P E inst ext cmd = Some h ->
  h st d (zlen d) id = Some (st', (frc, resp, resp_len)) -> frc <> PLDM_LATER_RESP ->
  zlen resp <= 508 -> 0 <= resp_len <= zlen resp ->
  ask pst st inst ext (monitor_request id cmd d) =
    Some ([1; id; PLDM_TYPE_PLAT_MON_CTRL; cmd] ++ slice resp 0 resp_len).
Proof using.
  intros Hid Hd Hl Hc Hq Hh Hne Hr Hrl. unfold ask, monitor_request.
  apply (pldm_ask_reply fru _ lock_ok rc pst inst ext id PLDM_TYPE_PLAT_MON_CTRL d cmd (handler_fn st h)
    resp resp_len frc); try done.
  - destruct fru; (right; right; left).
  - unfold monitor_system, system_queries, with_base, with_monitor, monitor_query.
    change (PLDM_TYPE_PLAT_MON_CTRL =? PLDM_TYPE_BASE) with false. cbv iota. rewrite Z.eqb_refl, Hq. done.
  - unfold handler_fn. by rewrite Hh.
Qed.

(** ** The repository over GetPDR *)

Definition get_pdr_data (h : Z) : list Z :=
  le_bytes 4 h ++ le_bytes 4 0 ++ [1] ++ le_bytes 2 (NUMERIC_PDR_SIZE P) ++ le_bytes 2 0.

Lemma get_pdr_data_ok h : bytes_ok (get_pdr_data h) /\ zlen (get_pdr_data h) = 13.
Proof using.
  split; [|done]. unfold get_pdr_data. rewrite !bytes_ok_app. split_and!; try apply bytes_ok_le_bytes.
  apply Forall_singleton. lia.
Qed.

(** A client that reads the whole repository: it starts at a handle and follows
    nextRecordHandle until that is 0. Of every record it keeps the length that is announced and
    the bytes of it that come. *)
Fixpoint pdr_walk (fuel : nat) (query : list Z -> option (list Z)) (id h : Z) : option (list (Z * list Z)) :=
  match fuel with
  | O => None
  | S fuel =>
      reply ← query (monitor_request id PLDM_MONITOR_CMD_CODE_GET_PDR (get_pdr_data h));
      if negb (rd reply 4 =? PLDM_SUCCESS) || (zlen reply <? 16) then None
      else
        let record := (rd16 reply 14, slice reply 16 (rd16 reply 14)) in
        if rd32 reply 5 =? 0 then Some [record]
        else rest ← pdr_walk fuel query id (rd32 reply 5); Some (record :: rest)
  end.

(** What comes of a record: its length, and its bytes as far as the struct of the response goes. *)
Definition sent_record (r : list Z) : Z * list Z := (zlen r, take (Z.to_nat (NUMERIC_PDR_SIZE P)) r).

(** The response GetPDR leaves in the buffer. *)
Definition get_pdr_resp (next : Z) (r : list Z) : list Z :=
  [PLDM_SUCCESS] ++ le_bytes 4 next ++ le_bytes 4 0 ++ [PLDM_TRANSFER_FLAG_START_AND_END]
    ++ le_bytes 2 (zlen r) ++ r ++ zeros (496 - zlen r).

Lemma get_pdr_stores next r :
  zlen r <= 496 ->
  patch (patch (patch (patch (patch resp_room 12 r) 1 (le_bytes 4 next)) 9 [PLDM_TRANSFER_FLAG_START_AND_END])
    10 (le_bytes 2 (zlen r))) 0 [PLDM_SUCCESS] = get_pdr_resp next r.
Proof using.
  intros Hr. assert (E' : patch resp_room 12 r = zeros 12 ++ r ++ zeros (496 - zlen r)).
  { unfold patch, resp_room, zeros. change (Z.to_nat (PLDM_MAX_DATA_SIZE - 4)) with 508%nat.
    change (Z.to_nat 12) with 12%nat. rewrite take_replicate, drop_replicate. do 2 f_equal. f_equal.
    unfold zlen in *. lia. }
  rewrite E'. reflexivity.
Qed.

Lemma zlen_get_pdr_resp next r : zlen r <= 496 -> zlen (get_pdr_resp next r) = 508.
Proof using.
  intros. unfold get_pdr_resp. rewrite !zlen_app, !zlen_le_bytes, zlen_zeros by lia.
  change (zlen [PLDM_SUCCESS]) with 1. change (zlen [PLDM_TRANSFER_FLAG_START_AND_END]) with 1. lia.
Qed.

(** The response to GetPDR, up to the record. *)
Definition get_pdr_reply (id next : Z) (r : list Z) : list Z :=
  [1; id; PLDM_TYPE_PLAT_MON_CTRL; PLDM_MONITOR_CMD_CODE_GET_PDR]
    ++ slice (get_pdr_resp next r) 0 (12 + NUMERIC_PDR_SIZE P).

Lemma get_pdr_reply_fields id next r :
  0 <= next < 4294967296 -> 0 < zlen r <= 496 -> 0 <= NUMERIC_PDR_SIZE P <= 496 ->
  let reply := get_pdr_reply id next r in
  rd reply 4 = PLDM_SUCCESS /\ rd32 reply 5 = next /\ rd16 reply 14 = zlen r /\
  zlen reply = 16 + NUMERIC_PDR_SIZE P /\
  slice reply 16 (zlen r) = take (Z.to_nat (NUMERIC_PDR_SIZE P)) r.
Proof using.
  intros Hn Hr HN reply. pose proof (zlen_get_pdr_resp next r ltac:(lia)) as Hz.
  assert (Er : reply = [1; id; PLDM_TYPE_PLAT_MON_CTRL; PLDM_MONITOR_CMD_CODE_GET_PDR; PLDM_SUCCESS] ++ le_bytes 4 next
    ++ (le_bytes 4 0 ++ [PLDM_TRANSFER_FLAG_START_AND_END]) ++ le_bytes 2 (zlen r)
    ++ slice (r ++ zeros (496 - zlen r)) 0 (NUMERIC_PDR_SIZE P)).
  { unfold reply, get_pdr_reply, slice. rewrite !drop_0. replace (Z.to_nat (12 + NUMERIC_PDR_SIZE P))
      with (12 + Z.to_nat (NUMERIC_PDR_SIZE P))%nat by lia. reflexivity. }
  rewrite Er. split; [done|]. split; [|split; [|split]].
  - rewrite rd32_app_r by done. by apply rd32_le.
  - rewrite !app_assoc, <- (app_assoc _ (le_bytes 2 _)).
    rewrite rd16_app_r by (rewrite !zlen_app, !zlen_le_bytes; done). apply rd16_le. lia.
  - rewrite <- Er. unfold reply, get_pdr_reply. rewrite zlen_app, zlen_slice by lia.
    change (zlen [1; id; PLDM_TYPE_PLAT_MON_CTRL; PLDM_MONITOR_CMD_CODE_GET_PDR]) with 4. lia.
  - rewrite !app_assoc. rewrite slice_app_r by (rewrite !zlen_app, !zlen_le_bytes; done).
    unfold slice. rewrite !drop_0, take_take. destruct (Z.le_gt_cases (zlen r) (NUMERIC_PDR_SIZE P)).
    + rewrite take_app_le by (unfold zlen in *; lia). rewrite !take_ge by (unfold zlen in *; lia). done.
    + rewrite take_app_le by (unfold zlen in *; lia). f_equal. lia.
Qed.

Lemma get_pdr_answer pst st inst ext id l h r :
  0 <= id < 32 -> pdr_serves P (mo_pdrs st) l -> 0 <= h -> l !! Z.to_nat h = Some r ->
  0 < zlen r <= 496 -> 0 <= NUMERIC_PDR_SIZE P <= 496 ->
  ask pst st inst ext (monitor_request id PLDM_MONITOR_CMD_CODE_GET_PDR (get_pdr_data h)) =
    Some (get_pdr_reply id (if zlen l <=? h + 1 then 0 else h + 1) r).
Proof using.
  intros Hid Hs Hh Er Hr Hn. destruct (get_pdr_data_ok h) as [Hok Hlen].
  assert (Hlt : h < zlen l) by (apply lookup_lt_Some in Er; unfold zlen; lia).
  pose proof (ps_small _ _ _ Hs).
  assert (Hrd : rd32 (get_pdr_data h) 0 = h) by (apply rd32_le; lia).
  set (resp := get_pdr_resp (if zlen l <=? h + 1 then 0 else h + 1) r).
  assert (Hz : zlen resp = 508) by (apply zlen_get_pdr_resp; lia).
  rewrite ask_reply with (h := pure_handler (fun st => pldm_get_pdr P (mo_pdrs st))) (st' := st)
    (frc := PLDM_SUCCESS) (resp := resp) (resp_len := 12 + NUMERIC_PDR_SIZE P); try done; try lia.
  unfold pure_handler, pldm_get_pdr. rewrite Hrd, (ps_lookup _ _ _ Hs), Er by lia. cbv zeta.
  destruct (Z.eqb_spec (zlen r) 0); [lia|].
  rewrite (ps_total _ _ _ Hs), (u32_id (h + 1)), u16_id by lia. by rewrite get_pdr_stores by lia.
Qed.

Lemma pdr_walk_from pst st inst ext id l :
  0 <= id < 32 -> pdr_serves P (mo_pdrs st) l -> 0 <= NUMERIC_PDR_SIZE P <= 496 ->
  Forall (fun r => 0 < zlen r <= 496) l ->
  forall k h, l = take h l ++ k -> k <> [] ->
  pdr_walk (length k) (ask pst st inst ext) id (Z.of_nat h) = Some (sent_record <$> k).
Proof using.
  intros Hid Hs Hn Hf k. induction k as [|r k IH]; intros h El Hk; [done|].
  assert (Hh : h = length (take h l)).
  { rewrite length_take. assert (h <= length l)%nat; [|lia].
    destruct (decide (h <= length l)%nat); [done|]. rewrite take_ge in El by lia.
    apply (f_equal length) in El. rewrite length_app in El. cbn in El. lia. }
  assert (Er : l !! h = Some r).
  { rewrite El, lookup_app_r by lia. by rewrite <- Hh, Nat.sub_diag. }
  pose proof (Forall_lookup_1 _ _ _ _ Hf Er) as Hr. cbv beta in Hr. pose proof (ps_small _ _ _ Hs) as Hsm.
  cbn [length pdr_walk]. rewrite (get_pdr_answer pst st inst ext id l (Z.of_nat h) r); try done; [|lia|by rewrite Nat2Z.id].
  cbn [mbind option_bind].
  assert (Hll : zlen l = Z.of_nat h + 1 + zlen k).
  { rewrite El at 1. unfold zlen. rewrite length_app, <- Hh. cbn. lia. }
  set (next := if zlen l <=? Z.of_nat h + 1 then 0 else Z.of_nat h + 1).
  assert (Hnext : 0 <= next < 4294967296) by (subst next; case_bools; lia).
  destruct (get_pdr_reply_fields id next r Hnext ltac:(lia) Hn) as (F1 & F2 & F3 & F4 & F5).
  rewrite F1, F2, F3, F4, F5. change (negb (PLDM_SUCCESS =? PLDM_SUCCESS)) with false. cbn [orb].
  destruct (Z.ltb_spec (16 + NUMERIC_PDR_SIZE P) 16); [lia|]. cbv zeta. subst next.
  change (zlen r, take (Z.to_nat (NUMERIC_PDR_SIZE P)) r) with (sent_record r).
  destruct k as [|r' k].
  - destruct (Z.leb_spec (zlen l) (Z.of_nat h + 1)); [done|]. rewrite zlen_nil in Hll. lia.
  - rewrite zlen_cons in Hll. pose proof (zlen_nonneg k).
    destruct (Z.leb_spec (zlen l) (Z.of_nat h + 1)); [lia|]. destruct (Z.eqb_spec (Z.of_nat h + 1) 0); [lia|].
    replace (Z.of_nat h + 1) with (Z.of_nat (S h)) by lia. rewrite IH; [done| |done].
    rewrite (take_S_r l h r Er), <- app_assoc. exact El.
Qed.
End dispatch.

(** ** Properties *)

(** C23: a client that reads the repository over PLDM, from handle 0 along nextRecordHandle, gets
    through the whole dispatcher every record exactly once, in the order of the handles, and stops
    after the last one. Every record (of 1 to 496 bytes, what the dispatcher's buffer has room for)
    is announced with its length; it comes complete when it has at most NUMERIC_PDR_SIZE bytes, of a
    longer one that many bytes come. *)
Theorem pdr_walk_complete (P : pdr_platform) {pins : Type} `{gpio_driver pins} E fru others lock_ok rc pst
    (st : monitor_state) inst ext id l :
  0 <= id < 32 -> pdr_serves P (mo_pdrs st) l -> l <> [] -> 0 <= NUMERIC_PDR_SIZE P <= 496 ->
  Forall (fun r => 0 < zlen r <= 496) l ->
  pdr_walk P (length l) (ask P E fru others lock_ok rc pst st inst ext) id 0 =
    Some ((fun r => (zlen r, take (Z.to_nat (NUMERIC_PDR_SIZE P)) r)) <$> l).
Proof. intros Hid Hs Hl Hn Hf. by apply (pdr_walk_from P E fru others lock_ok rc pst st inst ext id l Hid Hs Hn Hf l 0). Qed.

Definition demo_monitor_env : monitor_env :=
  mk_monitor_env false (FromSensorConfig (fun n => if n =? 5 then (SENSOR_READ_SUCCESS, -7) else (SENSOR_NOT_FOUND, 0)))
    None demo_soc demo_gpio_cfg (fun _ => true) (fun _ => 0) (fun _ => 0).

Definition demo_monitor (pdrs : pdr_state) : monitor_state :=
  mk_monitor pdrs event_init demo_effecters (mk_map_pins ∅ ∅ (fun _ => 0)).

Definition demo_pdr_list : list (list Z) :=
  numeric_sensor_table demo_pdr ++ sensor_auxiliary_names_table demo_pdr ++ [entity_auxiliary_names_table demo_pdr].

Lemma demo_pdr_serves : pdr_serves demo_pdr_platform demo_pdr demo_pdr_list.
Proof.
  split.
  - by vm_compute.
  - intros i r Hr. do 3 (destruct i as [|i]; [injection Hr as <-; by vm_compute|]). by destruct i.
  - intros h Hh. destruct (Z.ltb_spec h 3) as [Hlt|Hge].
    + assert (h = 0 \/ h = 1 \/ h = 2) as [->|[->| ->]] by lia; by vm_compute.
    + rewrite lookup_ge_None_2 by (change (length demo_pdr_list) with 3%nat; lia).
      unfold get_pdr_table_via_record_handle.
      change (plat_get_pdr_size demo_pdr_platform PLDM_STATE_SENSOR_PDR) with 0.
      change (plat_get_pdr_size demo_pdr_platform PLDM_NUMERIC_SENSOR_PDR) with 1.
      change (plat_get_pdr_size demo_pdr_platform PLDM_SENSOR_AUXILIARY_NAMES_PDR) with 1.
      change (plat_get_pdr_size demo_pdr_platform PLDM_ENTITY_AUXILIARY_NAMES_PDR) with 1.
      change (u32 (1 + 0)) with 1. change (u32 (1 + 1 + 0)) with 2. change (u32 (1 + 1 + 1 + 0)) with 3.
      destruct (Z.ltb_spec h 0), (Z.ltb_spec h 1), (Z.ltb_spec h 2), (Z.ltb_spec h 3); try lia. done.
  - by vm_compute.
Qed.

Lemma pdr_walk_complete_witness :
  pdr_walk demo_pdr_platform 3 (ask demo_pdr_platform demo_monitor_env false (fun _ _ => (PLDM_ERROR, None)) true 0
    pldm_init_state (demo_monitor demo_pdr) 7 demo_ext) 4 0 = Some ((fun r => (zlen r, r)) <$> demo_pdr_list).
Proof.
  apply (pdr_walk_complete demo_pdr_platform demo_monitor_env false (fun _ _ => (PLDM_ERROR, None)) true 0
    pldm_init_state (demo_monitor demo_pdr) 7 demo_ext 4 demo_pdr_list).
  - lia.
  - apply demo_pdr_serves.
  - done.
  - done.
  - repeat (apply Forall_cons; split; [by vm_compute|]). constructor.
Defined.

(** The errors of the repository commands do not reach the requester: GetPDR with a handle
    that no record has, and GetPDRRepositoryInfo before there is a repository, are answered with
    completion code PLDM_SUCCESS and no data, since the handlers return without writing one. *)
Theorem pdr_error_answered_success (P : pdr_platform) {pins : Type} `{gpio_driver pins} E fru others lock_ok rc pst
    (st : monitor_state) inst ext id l h d :
  0 <= id < 32 -> pdr_serves P (mo_pdrs st) l -> zlen l <= h < 4294967296 -> bytes_ok d -> zlen d < 65536 ->
  ask P E fru others lock_ok rc pst st inst ext (monitor_request id PLDM_MONITOR_CMD_CODE_GET_PDR (get_pdr_data P h))
    = Some [1; id; PLDM_TYPE_PLAT_MON_CTRL; PLDM_MONITOR_CMD_CODE_GET_PDR; PLDM_SUCCESS] /\
  (pdr_info (mo_pdrs st) = None ->
   ask P E fru others lock_ok rc pst st inst ext (monitor_request id PLDM_MONITOR_CMD_CODE_GET_PDR_INFO d)
     = Some [1; id; PLDM_TYPE_PLAT_MON_CTRL; PLDM_MONITOR_CMD_CODE_GET_PDR_INFO; PLDM_SUCCESS]).
Proof.
  intros Hid Hs Hh Hd Hl. destruct (get_pdr_data_ok P h) as [Hok Hlen]. pose proof (zlen_nonneg l).
  assert (Hrd : rd32 (get_pdr_data P h) 0 = h) by (apply rd32_le; lia). split.
  - rewrite ask_reply with (h := pure_handler (fun st => pldm_get_pdr P (mo_pdrs st))) (st' := st)
      (frc := PLDM_ERROR) (resp := resp_room) (resp_len := 1); try done; try (rewrite Hlen; lia).
    unfold pure_handler, pldm_get_pdr. rewrite Hrd, (ps_lookup _ _ _ Hs) by lia.
    rewrite lookup_ge_None_2 by (unfold zlen in *; lia). done.
  - intros Hi. rewrite ask_reply with (h := pure_handler (fun st => pldm_get_pdr_info (mo_pdrs st))) (st' := st)
      (frc := PLDM_ERROR) (resp := resp_room) (resp_len := 1); try done.
    unfold pure_handler, pldm_get_pdr_info. by rewrite Hi.
Qed.

Lemma pdr_error_answered_success_witness :
  ask demo_pdr_platform demo_monitor_env false (fun _ _ => (PLDM_ERROR, None)) true 0 pldm_init_state (demo_monitor demo_pdr) 7
    demo_ext (monitor_request 4 PLDM_MONITOR_CMD_CODE_GET_PDR (get_pdr_data demo_pdr_platform 77)) = Some [1; 4; 2; 0x51; 0].
Proof.
  refine (proj1 (pdr_error_answered_success demo_pdr_platform demo_monitor_env false (fun _ _ => (PLDM_ERROR, None)) true 0
    pldm_init_state (demo_monitor demo_pdr) 7 demo_ext 4 demo_pdr_list 77 [] _ demo_pdr_serves _ _ _)); try done.
  constructor.
Defined.

(** ** Readings *)

(** A value of a sensor's data size: signed or not, of one, two or four bytes. *)
Definition data_size_signed (data_type : Z) : bool :=
  (data_type =? PLDM_SENSOR_DATA_SIZE_SINT8) || (data_type =? PLDM_SENSOR_DATA_SIZE_SINT16)
  || (data_type =? PLDM_SENSOR_DATA_SIZE_SINT32).

Definition value_of (data_type : Z) (data : list Z) : Z :=
  let v := le_val data in
  if data_size_signed data_type && (256 ^ zlen data <=? 2 * v) then v - 256 ^ zlen data else v.

Definition value_fits (data_type v : Z) : Prop :=
  let m := 256 ^ get_sensor_data_size data_type in
  if data_size_signed data_type then - m <= 2 * v < m else 0 <= v < m.

Lemma data_size_cases data_type :
  0 <= data_type < 6 -> get_sensor_data_size data_type = 1 \/ get_sensor_data_size data_type = 2
    \/ get_sensor_data_size data_type = 4.
Proof.
  intros H. assert (data_type = 0 \/ data_type = 1 \/ data_type = 2 \/ data_type = 3 \/ data_type = 4 \/ data_type = 5)
    as [->|[->|[->|[->|[->| ->]]]]] by lia; cbn; auto.
Qed.

Lemma value_of_bytes data_type v n :
  0 <= data_type < 6 -> Z.of_nat n = get_sensor_data_size data_type -> value_fits data_type v ->
  value_of data_type (le_bytes n v) = v.
Proof.
  intros Hd Hn. unfold value_of, value_fits. rewrite le_val_le_bytes, zlen_le_bytes, Hn.
  assert (Hm : 0 < 256 ^ get_sensor_data_size data_type).
  { destruct (data_size_cases data_type Hd) as [->|[->| ->]]; done. }
  set (m := 256 ^ get_sensor_data_size data_type) in *. clearbody m.
  destruct (data_size_signed data_type); cbn [andb]; intros Hv; [|by apply Z.mod_small].
  destruct (Z.leb_spec 0 v).
  - rewrite Z.mod_small by lia. destruct (Z.leb_spec m (2 * v)); lia.
  - assert (E : v mod m = v + m) by (symmetry; apply (Z.mod_unique _ _ (-1)); lia). rewrite E.
    destruct (Z.leb_spec m (2 * (v + m))); lia.
Qed.

Lemma take_le_bytes n m v : (n <= m)%nat -> take n (le_bytes m v) = le_bytes n v.
Proof. revert m v. induction n as [|n IH]; intros [|m] v Hl; cbn; try done; [lia|]. rewrite IH by lia. done. Qed.

(** C32: GetSensorReading through the dispatcher tells the value of the sensor: the reading of an
    enabled sensor arrives in the data size its PDR declares (four bytes without one), and a
    client that decodes it gets exactly the reading, signs included, whenever it fits that size;
    a reading that failed or of a sensor that is not enabled arrives as all ones. *)
Theorem sensor_reading_round_trip (P : pdr_platform) {pins : Type} `{gpio_driver pins} E fru others lock_ok rc pst
    (st : monitor_state) inst ext id sid rearm cc state reading data_type :
  0 <= id < 32 -> 0 <= sid < 256 -> 0 <= rearm < 256 -> me_updating E = false ->
  read_source (me_source E) sid = (cc, state, reading) ->
  data_type = match get_pdr_with_sensor_id P (mo_pdrs st) sid with
              | Some r => rd r f_sensor_data_size | None => PLDM_SENSOR_DATA_SIZE_UINT32 end ->
  0 <= data_type < 6 ->
  exists present data,
    ask P E fru others lock_ok rc pst st inst ext (monitor_request id PLDM_MONITOR_CMD_CODE_GET_SENSOR_READING [sid; 0; rearm])
      = Some ([1; id; PLDM_TYPE_PLAT_MON_CTRL; PLDM_MONITOR_CMD_CODE_GET_SENSOR_READING]
          ++ [cc; data_type; state; PLDM_EVENTS_DISABLED; present; present; present] ++ data) /\
    zlen data = get_sensor_data_size data_type /\
    (cc = PLDM_SUCCESS -> state = PLDM_SENSOR_ENABLED -> value_fits data_type reading ->
       present = PLDM_SENSOR_NORMAL /\ value_of data_type data = reading) /\
    (cc <> PLDM_SUCCESS \/ state <> PLDM_SENSOR_ENABLED -> data = replicate (Z.to_nat (get_sensor_data_size data_type)) 255).
Proof.
  intros Hid Hs Hre Hu Hsrc Hdt Hd6. set (present := if cc =? PLDM_SUCCESS then PLDM_SENSOR_NORMAL else PLDM_SENSOR_UNKNOWN).
  set (v := if negb (cc =? PLDM_SUCCESS) || negb (state =? PLDM_SENSOR_ENABLED) then -1 else reading).
  set (n := Z.to_nat (get_sensor_data_size data_type)).
  assert (Hn : Z.of_nat n = get_sensor_data_size data_type /\ (n <= 4)%nat).
  { subst n. destruct (data_size_cases data_type Hd6) as [->|[->| ->]]; lia. }
  destruct Hn as [Hn Hn4]. exists present, (le_bytes n v).
  set (resp := [cc; data_type; state; PLDM_EVENTS_DISABLED; present; present; present] ++ le_bytes 4 v).
  split_and!.
  - rewrite ask_reply with (h := pure_handler (fun st => pldm_get_sensor_reading P (me_updating E) (me_source E) (mo_pdrs st)))
      (st' := st) (frc := PLDM_SUCCESS) (resp := resp) (resp_len := 8 + get_sensor_data_size data_type - 1); try done.
    + do 2 f_equal. subst resp. replace (8 + get_sensor_data_size data_type - 1) with (7 + Z.of_nat n) by lia.
      unfold slice. rewrite Z2Nat.inj_add, Nat2Z.id by lia. change (drop (Z.to_nat 0) ?l) with l.
      rewrite take_app_ge by (cbn; lia). f_equal. cbn [length].
      replace (Z.to_nat 7 + n - 7)%nat with n by lia. by apply take_le_bytes.
    + repeat (apply Forall_cons; split; [lia|]). constructor.
    + unfold pure_handler, pldm_get_sensor_reading. rewrite Hu.
      assert (E16 : rd16 [sid; 0; rearm] 0 = sid) by (change (rd16 [sid; 0; rearm] 0) with (sid + 256 * 0); lia).
      rewrite E16, u8_id by lia. change (zlen [sid; 0; rearm]) with 3. change (negb (3 =? 3)) with false.
      unfold PLDM_MONITOR_SENSOR_SUPPORT_MAX. destruct (Z.ltb_spec 0xFF sid); [lia|]. cbv iota.
      rewrite Hsrc. assert (Edt : match get_pdr_with_sensor_id P (mo_pdrs st) sid with
        | None => PLDM_SENSOR_DATA_SIZE_UINT32 | Some r => rd r f_sensor_data_size end = data_type)
        by (rewrite Hdt; by destruct (get_pdr_with_sensor_id _ _ _)).
      rewrite Edt. reflexivity.
    + subst resp. rewrite zlen_app, zlen_le_bytes. change (zlen [_; _; _; _; _; _; _]) with 7. lia.
  - rewrite zlen_le_bytes. lia.
  - intros -> -> Hf. split; [done|]. subst v. by apply value_of_bytes.
  - intros Hor. assert (Ev : v = -1).
    { subst v. destruct (Z.eqb_spec cc PLDM_SUCCESS), (Z.eqb_spec state PLDM_SENSOR_ENABLED); try done. by destruct Hor. }
    rewrite Ev. clear -Hn4.
    do 5 (destruct n as [|n]; [reflexivity|]). lia.
Qed.

Lemma sensor_reading_round_trip_witness :
  exists present data,
    ask demo_pdr_platform demo_monitor_env false (fun _ _ => (PLDM_ERROR, None)) true 0 pldm_init_state
      (demo_monitor demo_pdr) 7 demo_ext (monitor_request 4 0x11 [5; 0; 0])
      = Some ([1; 4; 2; 0x11] ++ [0; 0; 0; 1; present; present; present] ++ data) /\ zlen data = 1 /\
    (PLDM_SUCCESS = PLDM_SUCCESS -> PLDM_SENSOR_ENABLED = PLDM_SENSOR_ENABLED -> value_fits 0 (-7) ->
       present = 1 /\ value_of 0 data = -7) /\
    (PLDM_SUCCESS <> PLDM_SUCCESS \/ PLDM_SENSOR_ENABLED <> PLDM_SENSOR_ENABLED -> data = replicate 1 255).
Proof.
  apply (sensor_reading_round_trip demo_pdr_platform demo_monitor_env false (fun _ _ => (PLDM_ERROR, None)) true 0
    pldm_init_state (demo_monitor demo_pdr) 7 demo_ext 4 5 0 0 0 (-7) 0); done.
Defined.

(** ** No response overruns the buffer of the dispatcher *)

Definition reply_ok (r : Z * list Z * Z) : Prop :=
  let '(_, resp, resp_len) := r in bytes_ok resp /\ zlen resp <= 508 /\ 0 <= resp_len <= zlen resp.

Lemma byte_cons b l : 0 <= b < 256 -> bytes_ok l -> bytes_ok (b :: l).
Proof. intros. by apply Forall_cons. Qed.
Lemma bytes_zeros n : bytes_ok (zeros n).
Proof. by apply Forall_replicate. Qed.

(** What the firmware around the component gives are bytes. *)
Record env_ok (E : monitor_env) : Prop := {
  eo_source : forall n, 0 <= fst (fst (read_source (me_source E) n)) < 256 /\
    0 <= snd (fst (read_source (me_source E) n)) < 256;
  eo_state : forall get n, me_state_reading E = Some get ->
    0 <= fst (get n) < 256 /\ zlen (snd (get n)) = 33 /\ bytes_ok (snd (get n));
  eo_power : forall buf, 0 <= me_host_power_control E buf < 256;
  eo_hub : forall buf, 0 <= me_reinit_i3c_hub E buf < 256 }.

(** The records of the repository are bytes, and fit a response. *)
Record pdrs_ok (P : pdr_platform) (pdrs : pdr_state) : Prop := {
  po_size : 0 <= NUMERIC_PDR_SIZE P <= 496;
  po_records : forall h r, get_pdr_table_via_record_handle P pdrs h = Some r -> bytes_ok r /\ zlen r <= 496;
  po_sensors : Forall bytes_ok (numeric_sensor_table pdrs);
  po_info : forall i, pdr_info pdrs = Some i -> 0 <= repository_state i < 256 }.

Section fits.
Context (P : pdr_platform) {pins : Type} `{gpio_driver pins}.
Context (E : monitor_env) (inst : Z) (ext : mctp_ext_params).

Lemma reply_one a c : 0 <= c < 256 -> reply_ok (a, [c], 1).
Proof using. intros. split; [|done]. apply byte_cons; [done|constructor]. Qed.
Hint Extern 1 (reply_ok _) => (apply reply_one; done) : core.

Lemma sensor_reading_fits pdrs buf len id :
  env_ok E -> pdrs_ok P pdrs -> reply_ok (pldm_get_sensor_reading P (me_updating E) (me_source E) pdrs buf len id).
Proof using.
  intros HE HP. unfold pldm_get_sensor_reading. destruct (me_updating E); [by apply reply_one|].
  set (rs := if negb (len =? 3) then _ else _).
  assert (Hrs : 0 <= fst (fst rs) < 256 /\ 0 <= snd (fst rs) < 256).
  { subst rs. destruct (negb (len =? 3)); [done|]. destruct (_ <? rd16 buf 0); [done|]. apply (eo_source _ HE). }
  destruct rs as [[cc state] reading]. cbn [fst snd] in Hrs. destruct Hrs as [Hcc Hst].
  set (dt := match get_pdr_with_sensor_id _ _ _ with None => _ | Some _ => _ end).
  assert (Hdt : 0 <= dt < 256).
  { subst dt. unfold get_pdr_with_sensor_id, find_sensor.
    destruct (list_find _ _) as [[i r]|] eqn:El; [|done]. cbn [fmap option_fmap option_map snd].
    apply list_find_Some in El as (El & _). apply lookup_take_Some in El as [El _].
    apply rd_range, (Forall_lookup_1 _ _ _ _ (po_sensors _ _ HP) El). }
  unfold reply_ok. rewrite zlen_app, zlen_le_bytes. change (zlen [_; _; _; _; _; _; _]) with 7.
  assert (0 <= get_sensor_data_size dt <= 4) by (unfold get_sensor_data_size; case_bools; lia).
  split; [|lia]. assert (0 <= (if cc =? PLDM_SUCCESS then PLDM_SENSOR_NORMAL else PLDM_SENSOR_UNKNOWN) < 256)
    by by destruct (cc =? PLDM_SUCCESS).
  apply bytes_ok_app. split; [|apply bytes_ok_le_bytes]. repeat (apply byte_cons; [done|]). constructor.
Qed.

Lemma state_reading_fits buf len id : env_ok E -> reply_ok (pldm_get_state_sensor_reading (me_state_reading E) buf len id).
Proof using.
  intros HE. unfold pldm_get_state_sensor_reading. destruct (negb (len =? 4)); [by apply reply_one|].
  destruct (_ <? rd16 buf 0); [by apply reply_one|].
  set (g := match me_state_reading E with Some get => get (u8 (rd16 buf 0)) | None => (PLDM_ERROR, zeros 33) end).
  assert (Hg : 0 <= fst g < 256 /\ zlen (snd g) = 33 /\ bytes_ok (snd g)).
  { subst g. destruct (me_state_reading E) as [get|] eqn:Eg; [by apply (eo_state _ HE)|].
    split; [done|]. split; [done|apply bytes_zeros]. }
  destruct g as [status fields]. cbn [fst snd] in Hg. destruct Hg as (Hst & Hg & Hok). pose proof (rd_range fields 0 Hok).
  destruct (_ || _ || _) eqn:Ec; unfold reply_ok; rewrite zlen_cons, Hg; (split; [by apply byte_cons|]); [lia|].
  apply orb_false_iff in Ec as [Ec Hc]. destruct (Z.ltb_spec 8 (rd fields 0)); [done|]. lia.
Qed.

Lemma room_fits a d : 0 <= a -> a + zlen d <= 508 -> bytes_ok d ->
  forall c, bytes_ok c /\ zlen c = 508 -> bytes_ok (patch c a d) /\ zlen (patch c a d) = 508.
Proof using. intros Ha Hl Hd c [Hc Hz]. split; [by apply bytes_ok_patch|]. rewrite zlen_patch; lia. Qed.

Ltac room_bytes := first [done | apply bytes_ok_le_bytes | apply byte_cons; [done|constructor]].

Lemma reply_room f c n : bytes_ok c /\ zlen c = 508 -> 0 <= n <= 508 -> reply_ok (f, c, n).
Proof using. intros [Hc Hz] Hn. split; [done|]. lia. Qed.

Lemma resp_room_ok : bytes_ok resp_room /\ zlen resp_room = 508.
Proof using. split; [apply bytes_zeros|done]. Qed.

Lemma get_pdr_fits pdrs buf len id : pdrs_ok P pdrs -> reply_ok (pldm_get_pdr P pdrs buf len id).
Proof using.
  intros HP. pose proof (po_size _ _ HP). unfold pldm_get_pdr.
  destruct (get_pdr_table_via_record_handle _ _ _) as [r|] eqn:Er; [|apply reply_room; [apply resp_room_ok|done]].
  apply (po_records _ _ HP) in Er as [Hok Hr]. pose proof (zlen_nonneg r). cbv zeta.
  destruct (zlen r =? 0); (apply reply_room; [|rewrite ?u16_id; lia]);
    repeat (apply room_fits; [lia|first [done|lia]|room_bytes|]); apply resp_room_ok.
Qed.

Lemma set_gpio_code soc cfgs dev (s : pins) buf pin s' cc :
  set_effecter_state_gpio_handler soc cfgs dev s buf pin = Some (s', cc) -> 0 <= cc < 256.
Proof using.
  unfold set_effecter_state_gpio_handler. repeat (destruct (_ <? _); [by intros [= _ <-]|]).
  destruct (negb _); [by intros [= _ <-]|]. destruct (_ || _); [by intros [= _ <-]|].
  destruct (_ || _); [by intros [= _ <-]|]. destruct (cfgs !! _); [|done]. cbn [mbind option_bind].
  destruct (decide _); [by intros [= _ <-]|]. destruct (_ =? _); [by intros [= _ <-]|].
  destruct (gpio_set _ _ _ _ _ _) as [[s1 rc]|]; [|done]. by intros [= _ <-].
Qed.

Lemma set_effecter_fits soc cfgs dev hpc ri3c t (s : pins) buf len s' r :
  (forall b, 0 <= hpc b < 256) -> (forall b, 0 <= ri3c b < 256) ->
  pldm_set_state_effecter_states soc cfgs dev hpc ri3c t s buf len = Some (s', r) -> reply_ok r.
Proof using.
  intros Hp1 Hp2. unfold pldm_set_state_effecter_states. destruct (_ || _); [intros [= _ <-]; by apply reply_one|]. destruct (negb _); [intros [= _ <-]; by apply reply_one|].
  destruct (find_state_effecter_info _ _) as [info| | |]; [|intros [= _ <-]; by apply reply_one|done|done].
  unfold plat_pldm_set_state_effecter_state_handler. destruct (len =? 0); [intros [= _ <-]; by apply reply_one|].
  destruct (_ =? PLDM_ENTITY_IO_CONTROLLER).
  - destruct (set_effecter_state_gpio_handler _ _ _ _ _ _) as [[s1 cc]|] eqn:Eg; [|done]. cbn [mbind option_bind].
    intros [= _ <-]. apply reply_one. by eapply set_gpio_code.
  - destruct (_ =? PLDM_ENTITY_SUB_CHASSIS); [intros [= _ <-]; by apply reply_one|].
    destruct (_ =? PLDM_ENTITY_DEVICE_DRIVER); intros [= _ <-]; by apply reply_one.
Qed.

Lemma get_effecter_fits soc cfgs dev t (s : pins) buf len r :
  pldm_get_state_effecter_states soc cfgs dev t s buf len = Some r -> reply_ok r.
Proof using.
  unfold pldm_get_state_effecter_states. destruct (negb _); [intros [= <-]; by apply reply_one|].
  destruct (find_state_effecter_info _ _) as [info| | |]; [|intros [= <-]; by apply reply_one|done|done].
  unfold plat_pldm_get_state_effecter_state_handler. destruct (len =? 0); [intros [= <-]; by apply reply_one|].
  destruct (_ =? PLDM_ENTITY_IO_CONTROLLER); [|intros [= <-]; by apply reply_one]. unfold get_effecter_state_gpio_handler.
  destruct (_ <? _); [intros [= <-]; by apply reply_one|]. destruct (cfgs !! _) as [cfg|]; [|done]. cbn [mbind option_bind].
  destruct (gc_is_init cfg =? 0); intros [= <-]; (split; [|done]).
  - repeat (apply byte_cons; [done|]). constructor.
  - destruct (decide _), (_ =? 0); repeat (apply byte_cons; [done|]); constructor.
Qed.

Lemma event_receiver_fits st buf len : reply_ok (snd (pldm_set_event_receiver st inst ext buf len)).
Proof using.
  unfold pldm_set_event_receiver. repeat (destruct (negb _); [by apply reply_one|]). destruct (_ <? _); [by apply reply_one|].
  repeat (destruct (negb _); [by apply reply_one|]). by apply reply_one.
Qed.

Lemma get_pdr_info_fits pdrs buf len id : pdrs_ok P pdrs -> reply_ok (pldm_get_pdr_info pdrs buf len id).
Proof using.
  intros HP. unfold pldm_get_pdr_info. destruct (pdr_info pdrs) as [i|] eqn:Ei; cbv zeta;
    (apply reply_room; [|done]); [|apply resp_room_ok].
  pose proof (po_info _ _ HP i Ei).
  repeat (apply room_fits; [lia|done|room_bytes|]). apply resp_room_ok.
Qed.
End fits.

(** C37: whatever bytes a request of platform monitoring and control has, a handler that returns has
    stored only bytes, and only inside the 512-byte buffer of the dispatcher, and the length it
    leaves for the response ends inside that buffer, so that what is sent are bytes the handler
    stored or zeros the dispatcher has cleared the buffer with: for every command of the table and
    every state of the component, if the records of the repository are bytes and none has more
    than 496. *)
Theorem monitor_replies_well_formed (P : pdr_platform) {pins : Type} `{gpio_driver pins} E inst ext (st : monitor_state)
    code h buf len id st' frc resp resp_len :
  env_ok E -> pdrs_ok P (mo_pdrs st) ->
  pldm_monitor_handler_query P E inst ext code = Some h ->
  h st buf len id = Some (st', (frc, resp, resp_len)) ->
  bytes_ok resp /\ zlen resp <= 512 - 4 /\ 0 <= resp_len <= zlen resp.
Proof.
  intros HE HP Hq Hh. change (reply_ok (frc, resp, resp_len)). revert Hq. unfold pldm_monitor_handler_query, pldm_monitor_cmd_tbl.
  cbn [find_monitor_cmd].
  repeat match goal with |- (if ?b then _ else _) = _ -> _ => destruct b end; try done; intros [= <-]; cbv beta in Hh;
    unfold pure_handler in Hh.
  - injection Hh as _ <-. by apply sensor_reading_fits.
  - injection Hh as _ <-. by apply state_reading_fits.
  - pose proof (event_receiver_fits inst ext (mo_events st) buf len) as Hf.
    destruct (pldm_set_event_receiver _ _ _ _ _) as [e r]. injection Hh as _ ->. exact Hf.
  - injection Hh as _ <- <- <-. split; [|done]. repeat (apply byte_cons; [done|]). constructor.
  - destruct (pldm_set_state_effecter_states _ _ _ _ _ _ _ _ _) as [[s r]|] eqn:Es; [|done].
    cbn [mbind option_bind] in Hh. injection Hh as _ ->. eapply set_effecter_fits; [apply (eo_power _ HE)|apply (eo_hub _ HE)|exact Es].
  - destruct (pldm_get_state_effecter_states _ _ _ _ _ _ _) as [r|] eqn:Es; [|done].
    cbn [mbind option_bind] in Hh. injection Hh as _ ->. by eapply get_effecter_fits.
  - injection Hh as _ Hh. rewrite <- Hh. by apply (get_pdr_info_fits P).
  - injection Hh as _ <-. by apply get_pdr_fits.
Qed.

Lemma demo_monitor_env_ok : env_ok demo_monitor_env.
Proof.
  split; try done. intros n. cbn [me_source demo_monitor_env read_source]. by destruct (n =? 5).
Qed.

Lemma demo_pdrs_ok : pdrs_ok demo_pdr_platform demo_pdr.
Proof.
  assert (Hf : Forall (fun r => bytes_ok r /\ zlen r <= 496) demo_pdr_list).
  { assert (Hb : forall l, forallb (fun b => (0 <=? b) && (b <? 256)) l = true -> bytes_ok l).
    { intros l Hl. apply Forall_forall. intros b Hin. rewrite forallb_forall in Hl.
      specialize (Hl b (proj1 (list_elem_of_In _ _) Hin)). lia. }
    repeat (apply Forall_cons; split; [split; [apply Hb; by vm_compute|by vm_compute]|]). constructor. }
  split; try done.
  - intros h r Hr. destruct (decide (0 <= h < 4294967296)) as [Hh|Hh].
    + rewrite (ps_lookup _ _ _ demo_pdr_serves) in Hr by done. by apply (Forall_lookup_1 _ _ _ _ Hf Hr).
    + exfalso. revert Hr. unfold get_pdr_table_via_record_handle.
      change (plat_get_pdr_size demo_pdr_platform PLDM_STATE_SENSOR_PDR) with 0.
      change (plat_get_pdr_size demo_pdr_platform PLDM_NUMERIC_SENSOR_PDR) with 1.
      change (plat_get_pdr_size demo_pdr_platform PLDM_SENSOR_AUXILIARY_NAMES_PDR) with 1.
      change (plat_get_pdr_size demo_pdr_platform PLDM_ENTITY_AUXILIARY_NAMES_PDR) with 1.
      change (u32 (1 + 0)) with 1. change (u32 (1 + 1 + 0)) with 2. change (u32 (1 + 1 + 1 + 0)) with 3.
      destruct (Z.ltb_spec h 0); [done|]. destruct (Z.ltb_spec h 1), (Z.ltb_spec h 2), (Z.ltb_spec h 3); try lia. done.
  - apply Forall_singleton. by inversion_clear Hf as [|? ? [Hr _] _].
  - by intros i [= <-].
Qed.

Lemma monitor_replies_well_formed_witness :
  let resp := get_pdr_resp 1 (demo_pdr_list !!! 0%nat) in
  bytes_ok resp /\ zlen resp <= 512 - 4 /\ 0 <= 130 <= zlen resp.
Proof.
  apply (monitor_replies_well_formed demo_pdr_platform demo_monitor_env 7 demo_ext (demo_monitor demo_pdr) 0x51
    (pure_handler (fun st => pldm_get_pdr demo_pdr_platform (mo_pdrs st)))
    (get_pdr_data demo_pdr_platform 0) 13 0 (demo_monitor demo_pdr) 0 _ 130); try done.
  - apply demo_monitor_env_ok.
  - apply demo_pdrs_ok.
Defined.

(** A record of more than [NUMERIC_PDR_SIZE] bytes is announced whole and sent cut: the count of
    the response is the record's size, its length that of the struct. *)
Lemma get_pdr_cut (P : pdr_platform) pdrs l h r buf len id :
  pdr_serves P pdrs l -> rd32 buf 0 = h -> 0 <= h -> l !! Z.to_nat h = Some r ->
  0 <= NUMERIC_PDR_SIZE P < zlen r -> zlen r <= 496 ->
  exists resp, pldm_get_pdr P pdrs buf len id = (PLDM_SUCCESS, resp, 12 + NUMERIC_PDR_SIZE P) /\
    rd16 resp 10 = zlen r /\ 12 + NUMERIC_PDR_SIZE P < 12 + zlen r.
Proof.
  intros Hs Hb Hh Er Hn Hl. pose proof (ps_small _ _ _ Hs). assert (h < zlen l) by (apply lookup_lt_Some in Er; unfold zlen; lia).
  unfold pldm_get_pdr. rewrite Hb, (ps_lookup _ _ _ Hs), Er by lia. cbv zeta. destruct (Z.eqb_spec (zlen r) 0); [lia|].
  rewrite u16_id, get_pdr_stores by lia. eexists. split; [done|]. split; [|lia]. unfold get_pdr_resp.
  rewrite !app_assoc, <- (app_assoc _ r), <- (app_assoc _ (le_bytes 2 _)).
  rewrite rd16_app_r by (rewrite !zlen_app, !zlen_le_bytes; done). apply rd16_le. lia.
Qed.
