(* ===== verification/IpmiCore.v ===== *)
(** Component [common/service/ipmi/ipmi.c]: the queue of IPMI requests and the handling of one
    request: the network function selects a handler (arguments here), OEM requests carry a
    manufacturer id, and the response goes back to the interface the request came from. *)

From S2P Require Import Prelude Bytes IpmiMsg IpmbCodec MctpCore PldmCore.

(** ** Constants *)

Definition CC_SUCCESS : Z := 0x00.
Definition CC_INVALID_CMD : Z := 0xC1.
Definition CC_INVALID_IANA : Z := 0x84.
Definition NETFN_CHASSIS_REQ : Z := 0x00.
Definition NETFN_BRIDGE_REQ : Z := 0x02.
Definition NETFN_SENSOR_REQ : Z := 0x04.
Definition NETFN_APP_REQ : Z := 0x06.
Definition NETFN_FIRMWARE_REQ : Z := 0x08.
Definition NETFN_STORAGE_REQ : Z := 0x0A.
Definition NETFN_TRANSPORT_REQ : Z := 0x0C.
Definition NETFN_DCMI_REQ : Z := 0x2C.
Definition NETFN_NM_REQ : Z := 0x2E.
Definition NETFN_OEM_REQ : Z := 0x30.
Definition NETFN_OEM_1S_REQ : Z := 0x38.
Definition CMD_OEM_1S_MSG_IN : Z := 0x1.
Definition CMD_OEM_1S_MSG_OUT : Z := 0x2.
Definition SELF : Z := 0x0.
Definition BMC_USB : Z := 0x20.
Definition PLDM : Z := 0x40.
Definition HOST_KCS_1 : Z := 0x50.
Definition HOST_KCS_4 : Z := 0x53.
Definition HOST_SSIF_1 : Z := 0x60.
Definition KCS_BUFF_SIZE : Z := 256.
Definition IPMI_BUF_LEN : Z := 10.

(** ** The request queue *)

(** The loop of [notify_ipmi_client] after a failed put: [lock k] is the result of the [k]th
    attempt to take the mutex; a put succeeds when the queue has room. Result: the queue, the
    last result of the put and the retries left. *)
Fixpoint notify_loop (lock : Z -> bool) (retry : nat) (k : Z) (msg : ipmi_msg) (q : list ipmi_msg)
    : list ipmi_msg * bool * nat :=
  match retry with
  | O => (q, false, O)
  | S retry =>
      if negb (lock k) then notify_loop lock retry (k + 1) msg q
      else
        let q := if zlen q =? IPMI_BUF_LEN then [] else q in
        if zlen q <? IPMI_BUF_LEN then (q ++ [msg], true, retry)
        else notify_loop lock retry (k + 1) msg q
  end.

Definition notify_ipmi_client (lock : Z -> bool) (msg : ipmi_msg) (q : list ipmi_msg)
    : list ipmi_msg * ipmb_error :=
  if im_netfn msg .& 0x01 =? 0 then
    if zlen q <? IPMI_BUF_LEN then (q ++ [msg], IPMB_ERROR_SUCCESS)
    else
      let '(q, _, retry) := notify_loop lock 3 0 msg q in
      (q, match retry with O => IPMB_ERROR_MUTEX_LOCK | S _ => IPMB_ERROR_SUCCESS end)
  else (q, IPMB_ERROR_SUCCESS).

(** ** One request *)

Definition get_iana (iana_buf : list Z) : Z :=
  let iana := u32 (((rd iana_buf 2 .<< 8) .| rd iana_buf 1) .<< 8) .| rd iana_buf 0 in
  if iana =? IANA_ID then IANA_ID else 0.

Definition pal_is_not_return_cmd (netfn cmd : Z) : bool :=
  (netfn =? NETFN_OEM_1S_REQ) && ((cmd =? CMD_OEM_1S_MSG_OUT) || (cmd =? CMD_OEM_1S_MSG_IN)).

(** The interface between the dispatcher and the command handlers of the network functions:
    a handler turns the request into the response over the state [St] of the services behind
    it; [None] is undefined behaviour. *)
Class IpmiHandlers (St : Type) := {
  IPMI_CHASSIS_handler : ipmi_msg -> St -> option (ipmi_msg * St);
  IPMI_SENSOR_handler : ipmi_msg -> St -> option (ipmi_msg * St);
  IPMI_APP_handler : ipmi_msg -> St -> option (ipmi_msg * St);
  IPMI_Storage_handler : ipmi_msg -> St -> option (ipmi_msg * St);
  IPMI_OEM_handler : ipmi_msg -> St -> option (ipmi_msg * St);
  IPMI_OEM_1S_handler : ipmi_msg -> St -> option (ipmi_msg * St) }.

(** What is compiled in: the USB, KCS and SSIF interfaces, and any IPMB bus. *)
Record ipmi_config := mk_ipmi_config {
  cfg_usb : bool; cfg_kcs : bool; cfg_ssif : bool; cfg_ipmb : bool }.

(** Where a response goes. [OutPldm]: the body of the PLDM response. *)
Inductive ipmi_out :=
  | OutUsb (msg : ipmi_msg)
  | OutKcs (channel : Z) (buf : list Z)
  | OutSsif (channel : Z) (msg : ipmi_msg)
  | OutPldm (resp : list Z)
  | OutSelf (msg : ipmi_msg)
  | OutIpmb (target : Z) (msg : ipmi_msg)
  | OutNone.

Section handle.
Context {St : Type} `{IpmiHandlers St} (cfg : ipmi_config).

(** The first switch of [ipmi_cmd_handle]: the message after the handler, [iana] and the state.
    [None]: a copy leaves the data buffer (copies of overlapping ranges as [memmove]). *)
Definition ipmi_dispatch (msg : ipmi_msg) (s : St) : option (ipmi_msg * Z * St) :=
  let msg := set_im_completion_code CC_INVALID_CMD msg in
  let netfn := im_netfn msg in
  let run (h : ipmi_msg -> St -> option (ipmi_msg * St)) msg iana :=
    '(msg, s) ← h msg s; Some (msg, iana, s) in
  if netfn =? NETFN_CHASSIS_REQ then run IPMI_CHASSIS_handler msg 0
  else if netfn =? NETFN_BRIDGE_REQ then Some (msg, 0, s)
  else if netfn =? NETFN_SENSOR_REQ then run IPMI_SENSOR_handler msg 0
  else if netfn =? NETFN_APP_REQ then run IPMI_APP_handler msg 0
  else if netfn =? NETFN_FIRMWARE_REQ then Some (msg, 0, s)
  else if netfn =? NETFN_STORAGE_REQ then run IPMI_Storage_handler msg 0
  else if (netfn =? NETFN_TRANSPORT_REQ) || (netfn =? NETFN_DCMI_REQ) || (netfn =? NETFN_NM_REQ)
  then Some (msg, 0, s)
  else if netfn =? NETFN_OEM_REQ then run IPMI_OEM_handler msg 0
  else if netfn =? NETFN_OEM_1S_REQ then
    let iana := get_iana (im_data msg) in
    if (3 <=? im_data_len msg) && negb (iana =? 0) then
      let len := u16 (im_data_len msg - 3) in
      data ← mem_read (im_data msg) 3 len;
      data ← mem_write (im_data msg) 0 data;
      run IPMI_OEM_1S_handler (set_im_data data (set_im_data_len len msg)) iana
    else if pal_is_not_return_cmd netfn (im_cmd msg) then
      run IPMI_OEM_1S_handler (set_im_completion_code CC_INVALID_IANA msg) iana
    else Some (set_im_data_len 0 (set_im_completion_code CC_INVALID_IANA msg), iana, s)
  else Some (set_im_data_len 0 msg, 0, s).

(** Between the switches: no data with an error, the manufacturer id before OEM data. *)
Definition ipmi_finish (msg : ipmi_msg) (iana : Z) : option ipmi_msg :=
  if negb (im_completion_code msg =? CC_SUCCESS) then Some (set_im_data_len 0 msg)
  else if im_netfn msg =? NETFN_OEM_1S_REQ then
    copy_data ← mem_read (im_data msg) 0 (im_data_len msg);
    data ← mem_write (im_data msg) 3 copy_data;
    data ← mem_write data 0 [iana .& 0xFF; (iana .>> 8) .& 0xFF; (iana .>> 16) .& 0xFF];
    Some (set_im_data data (set_im_data_len (u16 (im_data_len msg + 3)) msg))
  else Some msg.

(** The response body of [send_msg_by_pldm]. *)
Definition send_msg_by_pldm (msg : ipmi_msg) : option (list Z) :=
  data ← mem_read (im_data msg) 0 (im_data_len msg);
  let hdr := [PLDM_SUCCESS] ++ iana_bytes
             ++ [u8 ((im_netfn msg .| 0x01) .<< 2); im_cmd msg; im_completion_code msg] in
  resp_buf ← mem_write (zeros PLDM_MAX_DATA_SIZE) 0 hdr;
  resp_buf ← mem_write resp_buf 7 data;
  mem_read resp_buf 0 (u16 (8 - 1 + im_data_len msg)).

(** The buffer given to [kcs_write]; [None]: more bytes are written than it has. *)
Definition kcs_response (msg : ipmi_msg) : option (list Z) :=
  let hdr := [u8 ((im_netfn msg + 1) .<< 2); im_cmd msg; im_completion_code msg] in
  let n := if im_data_len msg <=? KCS_BUFF_SIZE - 3 then im_data_len msg else KCS_BUFF_SIZE - 3 in
  data ← mem_read (im_data msg) 0 n;
  let kcs_buff := hdr ++ data ++ zeros (KCS_BUFF_SIZE - 3 - n) in
  mem_read kcs_buff 0 (im_data_len msg + 3).

(** The second switch; [malloc_ok]: one of the two allocations of the KCS buffer succeeds. *)
Definition ipmi_respond (malloc_ok : bool) (msg : ipmi_msg) : option ipmi_out :=
  let src := im_InF_source msg in
  if cfg_usb cfg && (src =? BMC_USB) then Some (OutUsb msg)
  else if cfg_kcs cfg && (HOST_KCS_1 <=? src) && (src <=? HOST_KCS_4) then
    if malloc_ok then
      buf ← kcs_response msg;
      Some (OutKcs (src - HOST_KCS_1) buf)
    else Some OutNone
  else if cfg_ssif cfg && (src =? HOST_SSIF_1) then
    Some (OutSsif (src - HOST_SSIF_1) (set_im_netfn (u8 ((im_netfn msg + 1) .<< 2)) msg))
  else if src =? PLDM then resp ← send_msg_by_pldm msg; Some (OutPldm resp)
  else if src =? SELF then Some (OutSelf msg)
  else if cfg_ipmb cfg then Some (OutIpmb src msg)
  else Some OutNone.

Definition ipmi_cmd_handle (malloc_ok : bool) (msg : ipmi_msg) (s : St) : option (ipmi_out * St) :=
  '(msg, iana, s) ← ipmi_dispatch msg s;
  if pal_is_not_return_cmd (im_netfn msg) (im_cmd msg) then Some (OutNone, s)
  else
    msg ← ipmi_finish msg iana;
    out ← ipmi_respond malloc_ok msg;
    Some (out, s).

(** How the thread of a request ends: in time, with the result of its allocation, or aborted after
    10 seconds in some state it had come to. *)
Inductive handle_end := InTime (malloc_ok : bool) | Aborted (s : St).

(** A turn of [IPMI_handler] with the queue in front of it: an empty queue waits. *)
Definition IPMI_handler_turn (e : handle_end) (q : list ipmi_msg) (s : St)
    : option (list ipmi_msg * option ipmi_out * St) :=
  match q with
  | [] => Some ([], None, s)
  | msg :: q =>
      match e with
      | InTime malloc_ok => '(out, s) ← ipmi_cmd_handle malloc_ok msg s; Some (q, Some out, s)
      | Aborted s => Some (q, Some OutNone, s)
      end
  end.

(** The turns [e] of the thread: what was sent for each request it took. *)
Fixpoint IPMI_handler (es : list handle_end) (q : list ipmi_msg) (s : St)
    : option (list ipmi_msg * list ipmi_out * St) :=
  match es with
  | [] => Some (q, [], s)
  | e :: es =>
      '(q, out, s) ← IPMI_handler_turn e q s;
      '(q, outs, s) ← IPMI_handler es q s;
      Some (q, match out with Some o => o :: outs | None => outs end, s)
  end.
End handle.

(** ** Event records *)

Record common_addsel_msg_t := mk_addsel {
  as_InF_target : Z; as_sensor_type : Z; as_sensor_number : Z; as_event_type : Z;
  as_event_data1 : Z; as_event_data2 : Z; as_event_data3 : Z }.

(** The message of [common_add_sel_evt_record] and the next [record_id]. *)
Definition addsel_message (self_addr record_id : Z) (sel : common_addsel_msg_t) : ipmi_msg * Z :=
  let data := [record_id .& 0xFF; (record_id .>> 8) .& 0xFF; 0x02; 0; 0; 0; 0; u8 (self_addr .<< 1); 0;
    0x04; as_sensor_type sel; as_sensor_number sel; as_event_type sel; as_event_data1 sel;
    as_event_data2 sel; as_event_data3 sel] in
  (set_im_data (data ++ zeros (IPMI_MSG_MAX_LENGTH - 16)) (set_im_data_len 16
     (set_im_cmd 0x44 (set_im_netfn NETFN_STORAGE_REQ (set_im_InF_target (as_InF_target sel)
        (set_im_InF_source SELF zero_ipmi_msg))))), u16 (record_id + 1)).

(** [read msg] is the result of [ipmb_read]. *)
Definition common_add_sel_evt_record (malloc_ok : bool) (read : ipmi_msg -> ipmb_error)
    (self_addr record_id : Z) (sel : common_addsel_msg_t) : bool * Z :=
  if negb malloc_ok then (false, record_id)
  else
    let '(msg, record_id) := addsel_message self_addr record_id sel in
    (match read msg with
     | IPMB_ERROR_FAILURE | IPMB_ERROR_GET_MESSAGE_QUEUE => false
     | _ => true
     end, record_id).

(** ** The contract of a request *)

(** The data of a message. *)
Definition payload (m : ipmi_msg) : list Z := slice (im_data m) 0 (im_data_len m).

Definition msg_wf (m : ipmi_msg) : Prop :=
  zlen (im_data m) = IPMI_MSG_MAX_LENGTH /\ bytes_ok (im_data m) /\
  0 <= im_data_len m <= IPMI_DATA_MAX_LENGTH.

(** The fields that say where a response goes and what it answers. *)
Definition same_header (m m' : ipmi_msg) : Prop :=
  im_netfn m' = im_netfn m /\ im_cmd m' = im_cmd m /\ im_InF_source m' = im_InF_source m /\
  im_seq m' = im_seq m /\ im_seq_source m' = im_seq_source m /\
  im_src_addr m' = im_src_addr m /\ im_src_LUN m' = im_src_LUN m /\
  im_dest_addr m' = im_dest_addr m /\ im_dest_LUN m' = im_dest_LUN m.

#[export] Instance same_header_preorder : PreOrder same_header.
Proof. split; [by intros m|]. intros a b c. unfold same_header. intuition congruence. Qed.

(** What the dispatcher asks of a handler: from a good state it comes to a good state, leaves a
    well-formed message and does not touch the header. *)
Definition handler_ok {St} (inv : St -> Prop) (h : ipmi_msg -> St -> option (ipmi_msg * St)) : Prop :=
  forall m s, msg_wf m -> inv s ->
    exists m' s', h m s = Some (m', s') /\ msg_wf m' /\ inv s' /\ same_header m m'.

Class IpmiHandlersOk (St : Type) `{IpmiHandlers St} := {
  handlers_inv : St -> Prop;
  chassis_ok : handler_ok handlers_inv IPMI_CHASSIS_handler;
  sensor_ok : handler_ok handlers_inv IPMI_SENSOR_handler;
  app_ok : handler_ok handlers_inv IPMI_APP_handler;
  storage_ok : handler_ok handlers_inv IPMI_Storage_handler;
  oem_ok : handler_ok handlers_inv IPMI_OEM_handler;
  oem_1s_ok : handler_ok handlers_inv IPMI_OEM_1S_handler }.

Section contract.
Context {St : Type} `{IpmiHandlers St}.

(** The handler of a network function other than OEM 1S. *)
Definition plain_handler (netfn : Z) : option (ipmi_msg -> St -> option (ipmi_msg * St)) :=
  if netfn =? NETFN_CHASSIS_REQ then Some IPMI_CHASSIS_handler
  else if netfn =? NETFN_SENSOR_REQ then Some IPMI_SENSOR_handler
  else if netfn =? NETFN_APP_REQ then Some IPMI_APP_handler
  else if netfn =? NETFN_STORAGE_REQ then Some IPMI_Storage_handler
  else if netfn =? NETFN_OEM_REQ then Some IPMI_OEM_handler
  else None.

(** The request a handler sees of [msg] with the data [d]. *)
Definition request_with (d : list Z) (msg : ipmi_msg) : ipmi_msg :=
  set_im_data (patch (im_data msg) 0 d) (set_im_data_len (zlen d) msg).

(** The specification: completion code, response data and state after a request. An OEM 1S
    request starts with the manufacturer id, which its response repeats; a response with an
    error has no data. *)
Definition ipmi_serve (msg : ipmi_msg) (s : St) : option (Z * list Z * St) :=
  let netfn := im_netfn msg in
  let req := set_im_completion_code CC_INVALID_CMD msg in
  let reply (prefix : list Z) (r : option (ipmi_msg * St)) :=
    '(m, s) ← r;
    Some (im_completion_code m,
          if im_completion_code m =? CC_SUCCESS then prefix ++ payload m else [], s) in
  match plain_handler netfn with
  | Some h => reply [] (h req s)
  | None =>
      if netfn =? NETFN_OEM_1S_REQ then
        if bool_decide (slice (payload msg) 0 3 = iana_bytes) then
          reply iana_bytes
            (IPMI_OEM_1S_handler (request_with (slice (payload msg) 3 (im_data_len msg - 3)) req) s)
        else Some (CC_INVALID_IANA, [], s)
      else Some (CC_INVALID_CMD, [], s)
  end.

(** Is the interface [src] one of those compiled in that have a case of their own. *)
Definition own_channel (cfg : ipmi_config) (src : Z) : bool :=
  cfg_usb cfg && (src =? BMC_USB) || cfg_kcs cfg && (HOST_KCS_1 <=? src) && (src <=? HOST_KCS_4)
  || cfg_ssif cfg && (src =? HOST_SSIF_1) || (src =? PLDM) || (src =? SELF).

(** [out] is the response to [msg] on the interface it came from. *)
Definition answers (cfg : ipmi_config) (msg : ipmi_msg) (cc : Z) (data : list Z) (out : ipmi_out)
    : Prop :=
  let src := im_InF_source msg in
  let same m := same_header msg m /\ im_completion_code m = cc /\ payload m = data in
  match out with
  | OutUsb m => src = BMC_USB /\ same m
  | OutKcs ch buf => HOST_KCS_1 <= src <= HOST_KCS_4 /\ ch = src - HOST_KCS_1 /\
      buf = [u8 ((im_netfn msg + 1) .<< 2); im_cmd msg; cc] ++ data
  | OutSsif ch m => src = HOST_SSIF_1 /\ ch = 0 /\ im_netfn m = u8 ((im_netfn msg + 1) .<< 2) /\
      im_cmd m = im_cmd msg /\ im_completion_code m = cc /\ payload m = data
  | OutPldm resp => src = PLDM /\
      resp = [PLDM_SUCCESS] ++ iana_bytes
             ++ [u8 ((im_netfn msg .| 0x01) .<< 2); im_cmd msg; cc] ++ data
  | OutSelf m => src = SELF /\ same m
  | OutIpmb target m => cfg_ipmb cfg = true /\ own_channel cfg src = false /\ target = src /\ same m
  | OutNone => cfg_ipmb cfg = false /\ own_channel cfg src = false
  end.

(** The response data each interface can carry. *)
Definition channel_room (cfg : ipmi_config) (src : Z) : Z :=
  if cfg_kcs cfg && (HOST_KCS_1 <=? src) && (src <=? HOST_KCS_4) then KCS_BUFF_SIZE - 3
  else if src =? PLDM then PLDM_MAX_DATA_SIZE - 7
  else IPMI_MSG_MAX_LENGTH.
End contract.

(** ** The dispatcher meets the contract *)

Lemma get_iana_prefix buf :
  bytes_ok buf -> 3 <= zlen buf ->
  get_iana buf = if bool_decide (slice buf 0 3 = iana_bytes) then IANA_ID else 0.
Proof.
  intros Hb Hl. destruct buf as [|b0 [|b1 [|b2 l]]]; try (unfold zlen in Hl; simpl in Hl; lia).
  inversion_clear Hb as [|? ? H0 Hb']. inversion_clear Hb' as [|? ? H1 Hb].
  inversion_clear Hb as [|? ? H2 _]. unfold get_iana, rd.
  change (Z.to_nat 0) with 0%nat. change (Z.to_nat 1) with 1%nat. change (Z.to_nat 2) with 2%nat.
  simpl default. rewrite (lor_shl b2 b1 8) by lia.
  rewrite u32_id by (rewrite Z.shiftl_mul_pow2; lia). rewrite lor_shl by lia.
  change (slice (b0 :: b1 :: b2 :: l) 0 3) with [b0; b1; b2].
  change iana_bytes with [0x15; 0xA0; 0x00]. unfold IANA_ID.
  rewrite (bool_decide_ext _ ((b2 * 2 ^ 8 + b1) * 2 ^ 8 + b0 = 0xA015)).
  - by destruct (Z.eqb_spec ((b2 * 2 ^ 8 + b1) * 2 ^ 8 + b0) 0xA015); case_bool_decide.
  - split; [by intros [= -> -> ->]|]. intros. change (2 ^ 8) with 256 in *. repeat f_equal; lia.
Qed.

Ltac msg_lia :=
  unfold IPMI_MSG_MAX_LENGTH, IPMI_DATA_MAX_LENGTH, IPMB_RESP_HEADER_LENGTH in *; lia.

Lemma payload_same m m' :
  im_data m' = im_data m -> im_data_len m' = im_data_len m -> payload m' = payload m.
Proof. unfold payload. by intros -> ->. Qed.

Lemma zlen_payload m : msg_wf m -> zlen (payload m) = im_data_len m.
Proof. intros (H1 & _ & H2). apply zlen_slice; msg_lia. Qed.

(** Between the switches: the prefix of the response and no data with an error. *)
Lemma ipmi_finish_spec m iana :
  msg_wf m -> (im_netfn m = NETFN_OEM_1S_REQ -> im_completion_code m = CC_SUCCESS -> iana = IANA_ID) ->
  exists m', ipmi_finish m iana = Some m' /\ same_header m m' /\
    im_completion_code m' = im_completion_code m /\
    zlen (im_data m') = IPMI_MSG_MAX_LENGTH /\ 0 <= im_data_len m' <= IPMI_MSG_MAX_LENGTH /\
    payload m' = if im_completion_code m =? CC_SUCCESS
                 then (if im_netfn m =? NETFN_OEM_1S_REQ then iana_bytes else []) ++ payload m
                 else [].
Proof.
  intros (Hl & _ & Hn) Hi. unfold ipmi_finish. pose proof (zlen_nonneg (payload m)).
  unfold IPMI_MSG_MAX_LENGTH, IPMI_DATA_MAX_LENGTH, IPMB_RESP_HEADER_LENGTH in *.
  destruct (im_completion_code m =? CC_SUCCESS) eqn:Ec; cbn [negb]; reflect_bools.
  2:{ eexists; split; [done|]. cbn. split_and!; try done; lia. }
  destruct (im_netfn m =? NETFN_OEM_1S_REQ) eqn:En; reflect_bools.
  2:{ eexists; split; [done|]. split_and!; done || lia. }
  rewrite Hi by done. assert (Hp : zlen (payload m) = im_data_len m) by (apply zlen_slice; lia).
  rewrite mem_read_Some by lia. cbn [mbind option_bind]. fold (payload m).
  rewrite mem_write_patch by lia. cbn [mbind option_bind].
  change [_; _; _] with iana_bytes. assert (Hb : zlen iana_bytes = 3) by done.
  assert (Hz : zlen (patch (im_data m) 3 (payload m)) = zlen (im_data m)) by (apply zlen_patch; lia).
  rewrite mem_write_patch by lia. cbn [mbind option_bind].
  eexists; split; [done|]. cbn [set_im_data set_im_data_len im_netfn im_completion_code im_data im_data_len].
  rewrite zlen_patch by lia. rewrite u16_id by lia. split_and!; try done; try lia.
  unfold payload at 1. cbn [set_im_data set_im_data_len im_data im_data_len].
  rewrite <- Hb at 1. rewrite patch_front by lia.
  replace (im_data_len m + 3) with (zlen (iana_bytes ++ payload m)) by (rewrite zlen_app; lia).
  apply slice_patch; rewrite ?zlen_app; lia.
Qed.

Lemma run_handler {St} (inv : St -> Prop) h msg req s :
  handler_ok inv h -> msg_wf req -> inv s -> same_header msg req ->
  exists m s', h req s = Some (m, s') /\ msg_wf m /\ inv s' /\ same_header msg m.
Proof.
  intros Hh Hm Hs Hr. destruct (Hh req s Hm Hs) as (m & s' & E & W & I & R).
  exists m, s'. split_and!; try done. by transitivity req.
Qed.

Section contract_proofs.
Context {St : Type} `{HH : IpmiHandlers St} {HOK : IpmiHandlersOk St}.

Lemma plain_handler_ok netfn h : plain_handler netfn = Some h -> handler_ok handlers_inv h.
Proof using HOK.
  unfold plain_handler. intros. case_bools;
    auto using chassis_ok, sensor_ok, app_ok, storage_ok, oem_ok.
Qed.

(** The dispatcher is the choice of a handler. *)
Lemma ipmi_dispatch_plain msg s :
  im_netfn msg <> NETFN_OEM_1S_REQ ->
  match plain_handler (im_netfn msg) with
  | Some h => ipmi_dispatch msg s =
      ('(m, s) ← h (set_im_completion_code CC_INVALID_CMD msg) s; Some (m, 0, s))
  | None => exists m, ipmi_dispatch msg s = Some (m, 0, s) /\ same_header msg m /\
      im_completion_code m = CC_INVALID_CMD /\ (msg_wf msg -> msg_wf m)
  end.
Proof.
  intros Hn. unfold plain_handler, ipmi_dispatch.
  cbn [im_netfn set_im_completion_code].
  assert (Hwf : forall m, im_data m = im_data msg -> 0 <= im_data_len m <= Z.max 0 (im_data_len msg) ->
            msg_wf msg -> msg_wf m).
  { unfold msg_wf. intros m -> ? (? & ? & ?). split_and!; try done; msg_lia. }
  repeat match goal with |- context [im_netfn msg =? ?k] => destruct (Z.eqb_spec (im_netfn msg) k) as [E|] end;
    rewrite ?E in *; try done; cbn [orb];
    (eexists; split; [reflexivity|split; [done|split; [done|]]]);
    try (apply Hwf; cbn; done || lia); intros W; apply Hwf; cbn; try done; destruct W as (_ & _ & W); lia.
Qed.

Lemma ipmi_dispatch_oem msg s :
  msg_wf msg -> im_netfn msg = NETFN_OEM_1S_REQ ->
  pal_is_not_return_cmd (im_netfn msg) (im_cmd msg) = false ->
  if bool_decide (slice (payload msg) 0 3 = iana_bytes) then
    ipmi_dispatch msg s =
      ('(m, s) ← IPMI_OEM_1S_handler (request_with (slice (payload msg) 3 (im_data_len msg - 3))
           (set_im_completion_code CC_INVALID_CMD msg)) s; Some (m, IANA_ID, s))
  else exists m iana, ipmi_dispatch msg s = Some (m, iana, s) /\ same_header msg m /\
      im_completion_code m = CC_INVALID_IANA /\ msg_wf m.
Proof.
  intros (Hl & Hb & Hn) En Ep. unfold ipmi_dispatch.
  cbn [im_netfn set_im_completion_code im_data im_data_len im_cmd]. rewrite Ep, En.
  cbn [Z.eqb NETFN_OEM_1S_REQ NETFN_CHASSIS_REQ NETFN_BRIDGE_REQ NETFN_SENSOR_REQ NETFN_APP_REQ Pos.eqb
       NETFN_FIRMWARE_REQ NETFN_STORAGE_REQ NETFN_TRANSPORT_REQ NETFN_DCMI_REQ NETFN_NM_REQ NETFN_OEM_REQ orb].
  rewrite get_iana_prefix by (done || msg_lia).
  destruct (Z.leb_spec 3 (im_data_len msg)) as [H3|H3].
  - unfold payload. rewrite slice_slice by lia. cbn [andb].
    case_bool_decide as E; cbn [negb Z.eqb IANA_ID].
    + rewrite u16_id by msg_lia. rewrite mem_read_Some by msg_lia. cbn [mbind option_bind].
      rewrite mem_write_patch by (rewrite ?zlen_slice; msg_lia). cbn [mbind option_bind].
      unfold request_with. cbn [im_data set_im_completion_code].
      rewrite slice_payload_tail by msg_lia. rewrite zlen_slice by msg_lia. done.
    + eexists _, _. split_and!; done.
  - cbn [andb]. rewrite (bool_decide_eq_false_2 (slice (payload msg) 0 3 = _)).
    + eexists _, _. split_and!; done.
    + intros E%(f_equal zlen). change (zlen iana_bytes) with 3 in E.
      unfold zlen, slice in E. rewrite length_take, length_drop in E.
      pose proof (zlen_payload msg (conj Hl (conj Hb Hn))). unfold zlen in *. lia.
Qed.
End contract_proofs.

Section response_proofs.
Context {St : Type} `{HH : IpmiHandlers St} {HOK : IpmiHandlersOk St}.

Lemma request_with_wf d msg :
  msg_wf msg -> bytes_ok d -> zlen d <= IPMI_DATA_MAX_LENGTH -> msg_wf (request_with d msg).
Proof.
  intros (Hl & Hb & Hn) Hd Hz. pose proof (zlen_nonneg d).
  split_and!; cbn; try done; [rewrite zlen_patch; msg_lia|].
  unfold patch. rewrite !bytes_ok_app. split_and!; [by apply Forall_take|done|by apply Forall_drop].
Qed.

(** What is left to show once the handler has run. *)
Definition processed (msg : ipmi_msg) (s : St) : Prop :=
  exists m iana m' s', ipmi_dispatch msg s = Some (m, iana, s') /\ handlers_inv s' /\
    ipmi_finish m iana = Some m' /\ same_header msg m' /\
    zlen (im_data m') = IPMI_MSG_MAX_LENGTH /\ 0 <= im_data_len m' <= IPMI_MSG_MAX_LENGTH /\
    same_header msg m /\
    ipmi_serve msg s = Some (im_completion_code m', payload m', s').

Lemma finish_processed msg s m iana s' :
  msg_wf m -> same_header msg m -> handlers_inv s' ->
  ipmi_dispatch msg s = Some (m, iana, s') ->
  (im_netfn m = NETFN_OEM_1S_REQ -> im_completion_code m = CC_SUCCESS -> iana = IANA_ID) ->
  ipmi_serve msg s = Some (im_completion_code m,
    if im_completion_code m =? CC_SUCCESS
    then (if im_netfn msg =? NETFN_OEM_1S_REQ then iana_bytes else []) ++ payload m else [], s') ->
  processed msg s.
Proof.
  intros W Hsm Hi E Hia Esv.
  destruct (ipmi_finish_spec m iana W Hia) as (m' & Ef & Hsm' & Ec & Hz & Hn & Epl).
  exists m, iana, m', s'. split_and!; try done; [by transitivity m|lia|lia|].
  rewrite Esv, Ec, Epl. destruct Hsm as (-> & _). done.
Qed.

(** Dispatcher and header fix-up: what is answered is what the contract says. *)
Lemma ipmi_process_oem msg s :
  msg_wf msg -> handlers_inv s -> pal_is_not_return_cmd (im_netfn msg) (im_cmd msg) = false ->
  im_netfn msg = NETFN_OEM_1S_REQ -> processed msg s.
Proof.
  intros Hw Hs Hp En. pose proof (ipmi_dispatch_oem msg s Hw En Hp) as Ed.
  assert (Esv : ipmi_serve msg s =
    if bool_decide (slice (payload msg) 0 3 = iana_bytes) then
      '(m, s) ← IPMI_OEM_1S_handler (request_with (slice (payload msg) 3 (im_data_len msg - 3))
            (set_im_completion_code CC_INVALID_CMD msg)) s;
      Some (im_completion_code m,
            if im_completion_code m =? CC_SUCCESS then iana_bytes ++ payload m else [], s)
    else Some (CC_INVALID_IANA, [], s)) by (unfold ipmi_serve; by rewrite En).
  case_bool_decide as E.
  - destruct (run_handler _ _ msg (request_with (slice (payload msg) 3 (im_data_len msg - 3))
      (set_im_completion_code CC_INVALID_CMD msg)) s oem_1s_ok) as (m & s' & Er & W & Hi & Hsm);
      try done.
    { destruct Hw as (Hl & Hb & Hn).
      apply request_with_wf; [done|by apply bytes_ok_slice, bytes_ok_slice|].
      unfold slice, zlen. rewrite length_take. msg_lia. }
    rewrite Er in Ed, Esv. cbn in Ed, Esv.
    eapply (finish_processed msg s m IANA_ID s'); try done. by rewrite Esv, En.
  - destruct Ed as (m & iana & Ed & Hsm & Ecc & W).
    eapply (finish_processed msg s m iana s); try done; by rewrite Ecc.
Qed.

Lemma ipmi_process_plain msg s :
  msg_wf msg -> handlers_inv s -> im_netfn msg <> NETFN_OEM_1S_REQ -> processed msg s.
Proof.
  intros Hw Hs En. pose proof (ipmi_dispatch_plain msg s En) as Ed.
  assert (Ei : (im_netfn msg =? NETFN_OEM_1S_REQ) = false) by by apply Z.eqb_neq.
  destruct (plain_handler (im_netfn msg)) as [h|] eqn:Eh.
  - destruct (run_handler _ h msg (set_im_completion_code CC_INVALID_CMD msg) s
      (plain_handler_ok _ _ Eh)) as (m & s' & Er & W & Hi & Hsm); try done.
    rewrite Er in Ed. cbn in Ed. eapply (finish_processed msg s m 0 s'); try done.
    + intros Em. destruct Hsm as (Hnf & _). congruence.
    + unfold ipmi_serve. by rewrite Eh, Er, Ei.
  - destruct Ed as (m & Ed & Hsm & Ecc & W).
    eapply (finish_processed msg s m 0 s); try done; [by apply W|by rewrite Ecc|].
    unfold ipmi_serve. by rewrite Eh, Ei, Ecc.
Qed.

Lemma ipmi_processed msg s :
  msg_wf msg -> handlers_inv s -> pal_is_not_return_cmd (im_netfn msg) (im_cmd msg) = false ->
  processed msg s.
Proof.
  intros Hw Hs Hp. destruct (decide (im_netfn msg = NETFN_OEM_1S_REQ));
    [by apply ipmi_process_oem|by apply ipmi_process_plain].
Qed.

Lemma kcs_response_spec m :
  zlen (payload m) = im_data_len m -> im_data_len m <= zlen (im_data m) ->
  0 <= im_data_len m <= KCS_BUFF_SIZE - 3 ->
  kcs_response m =
    Some ([u8 ((im_netfn m + 1) .<< 2); im_cmd m; im_completion_code m] ++ payload m).
Proof.
  unfold kcs_response, KCS_BUFF_SIZE. intros Hp Hl Hn.
  destruct (Z.leb_spec (im_data_len m) (256 - 3)); [|lia].
  rewrite mem_read_Some by lia. cbn [mbind option_bind]. fold (payload m).
  set (hdr := [_; _; _]). assert (zlen hdr = 3) by done.
  rewrite mem_read_Some by (rewrite ?zlen_app, ?zlen_zeros; lia).
  rewrite app_assoc, slice_app_l, slice_all by (rewrite zlen_app; lia). done.
Qed.

Lemma send_msg_by_pldm_spec m :
  zlen (payload m) = im_data_len m -> im_data_len m <= zlen (im_data m) ->
  0 <= im_data_len m <= PLDM_MAX_DATA_SIZE - 7 ->
  send_msg_by_pldm m = Some ([PLDM_SUCCESS] ++ iana_bytes
    ++ [u8 ((im_netfn m .| 0x01) .<< 2); im_cmd m; im_completion_code m] ++ payload m).
Proof.
  unfold send_msg_by_pldm, PLDM_MAX_DATA_SIZE. intros Hp Hl Hn. rewrite mem_read_Some by lia.
  cbn [mbind option_bind]. fold (payload m).
  set (hdr := [PLDM_SUCCESS] ++ iana_bytes ++ [_; _; _]). assert (Hh : zlen hdr = 7) by done.
  destruct (mem_write_two (zeros 512) hdr (payload m)) as (d1 & d2 & E1 & E2 & E3 & E4).
  { rewrite zlen_zeros; lia. }
  rewrite E1. cbn [mbind option_bind]. rewrite Hh in E2. rewrite E2. cbn [mbind option_bind].
  rewrite zlen_zeros in E3 by lia. rewrite u16_id by lia. rewrite mem_read_Some by lia.
  replace (8 - 1 + im_data_len m) with (zlen hdr + zlen (payload m)) by lia. by rewrite E4.
Qed.

(** The second switch puts completion code and data on the interface of the request. *)
Lemma ipmi_respond_answers cfg msg m :
  same_header msg m -> zlen (im_data m) = IPMI_MSG_MAX_LENGTH ->
  0 <= im_data_len m <= IPMI_MSG_MAX_LENGTH ->
  zlen (payload m) <= channel_room cfg (im_InF_source msg) ->
  exists out, ipmi_respond cfg true m = Some out /\
    answers cfg msg (im_completion_code m) (payload m) out.
Proof.
  intros Hs Hz Hn Hr. pose proof Hs as (Enf & Ecmd & Esrc & _).
  assert (Hp : zlen (payload m) = im_data_len m) by (apply zlen_slice; lia).
  unfold ipmi_respond, channel_room, own_channel, answers in *. rewrite Esrc.
  destruct (cfg_usb cfg && (im_InF_source msg =? BMC_USB)) eqn:Eu.
  { eexists; split; [done|]. reflect_bools. done. }
  destruct (cfg_kcs cfg && (HOST_KCS_1 <=? im_InF_source msg) && (im_InF_source msg <=? HOST_KCS_4)) eqn:Ek.
  { reflect_bools. rewrite kcs_response_spec by lia. cbn [mbind option_bind].
    eexists; split; [done|]. split_and!; try done. by rewrite Enf, Ecmd. }
  destruct (cfg_ssif cfg && (im_InF_source msg =? HOST_SSIF_1)) eqn:Ef.
  { eexists; split; [done|]. reflect_bools. cbn. rewrite Enf. split_and!; try done. lia. }
  destruct (Z.eqb_spec (im_InF_source msg) PLDM) as [E|E].
  { rewrite send_msg_by_pldm_spec by lia. cbn [mbind option_bind].
    eexists; split; [done|]. split; [done|]. by rewrite Enf, Ecmd. }
  destruct (Z.eqb_spec (im_InF_source msg) SELF) as [E'|E']; [by eexists|].
  apply Z.eqb_neq in E as E1. apply Z.eqb_neq in E' as E2.
  destruct (cfg_ipmb cfg) eqn:Ei; (eexists; split; [done|]; unfold own_channel; rewrite Eu, Ek, Ef, E1, E2; done).
Qed.

(** One request: used for the property of the dispatcher and for the queue. *)
Lemma ipmi_response_one cfg msg s :
  msg_wf msg -> handlers_inv s ->
  pal_is_not_return_cmd (im_netfn msg) (im_cmd msg) = false ->
  (forall cc d s', ipmi_serve msg s = Some (cc, d, s') ->
     zlen d <= channel_room cfg (im_InF_source msg)) ->
  exists cc d out s', ipmi_serve msg s = Some (cc, d, s') /\ handlers_inv s' /\
    ipmi_cmd_handle cfg true msg s = Some (out, s') /\ answers cfg msg cc d out.
Proof using HOK.
  intros Hw Hs Hp Hroom.
  destruct (ipmi_processed msg s Hw Hs Hp) as (m & iana & m' & s' & Ed & Hi & Ef & Hsm & Hz & Hn & Hsm0 & Ev).
  destruct (ipmi_respond_answers cfg msg m') as (out & Eo & Ha); try done; [by eapply Hroom|].
  exists (im_completion_code m'), (payload m'), out, s'. split_and!; try done.
  unfold ipmi_cmd_handle. rewrite Ed. cbn [mbind option_bind].
  destruct Hsm0 as (-> & -> & _). rewrite Hp, Ef. cbn [mbind option_bind]. by rewrite Eo.
Qed.
(** A queue of requests, each served in time, is worked off in its order: the n-th response answers
    the n-th request, from the state the requests before it left. *)
Lemma ipmi_queue_served cfg q s rest :
  Forall (fun msg => msg_wf msg /\ pal_is_not_return_cmd (im_netfn msg) (im_cmd msg) = false /\
    forall s cc d s', ipmi_serve msg s = Some (cc, d, s') -> zlen d <= channel_room cfg (im_InF_source msg)) q ->
  handlers_inv s ->
  exists outs s', IPMI_handler cfg (replicate (length q) (InTime true)) (q ++ rest) s = Some (rest, outs, s') /\ handlers_inv s' /\
    Forall2 (fun msg out => exists s cc d s', ipmi_serve msg s = Some (cc, d, s') /\ answers cfg msg cc d out) q outs.
Proof using HOK.
  intros Hq. revert s. induction Hq as [|msg q (Hw & Hp & Hroom) _ IH]; intros s Hs; [by exists [], s|].
  destruct (ipmi_response_one cfg msg s Hw Hs Hp (Hroom s)) as (cc & d & out & s1 & E1 & Hs1 & E2 & Ha).
  destruct (IH s1 Hs1) as (outs & s2 & E3 & Hs2 & F). exists (out :: outs), s2.
  cbn [length replicate app IPMI_handler IPMI_handler_turn]. rewrite E2. cbn [mbind option_bind]. rewrite E3.
  split; [done|]. split; [done|]. constructor; [|done]. by exists s, cc, d, s1.
Qed.

(** A response that does not fit is not answered: the KCS buffer is read, the PLDM buffer
    written past its end. *)
Lemma ipmi_respond_overruns cfg m :
  zlen (im_data m) = IPMI_MSG_MAX_LENGTH -> 0 <= im_data_len m <= IPMI_MSG_MAX_LENGTH ->
  channel_room cfg (im_InF_source m) < im_data_len m -> ipmi_respond cfg true m = None.
Proof.
  intros Hz Hn Hr. unfold channel_room in Hr. unfold ipmi_respond.
  destruct (cfg_kcs cfg && (HOST_KCS_1 <=? im_InF_source m) && (im_InF_source m <=? HOST_KCS_4)) eqn:Ek.
  - assert (cfg_usb cfg && (im_InF_source m =? BMC_USB) = false) as ->.
    { apply andb_false_iff. right. apply Z.eqb_neq. intros E. rewrite E in Ek. by rewrite andb_false_r in Ek || (destruct (cfg_kcs cfg)). }
    unfold kcs_response, KCS_BUFF_SIZE in *. destruct (Z.leb_spec (im_data_len m) (256 - 3)); [lia|].
    rewrite mem_read_Some by lia. cbn [mbind option_bind]. unfold mem_read at 1.
    set (l := _ ++ _). assert (Hl : zlen l = 256).
    { unfold l. rewrite !zlen_app, zlen_zeros, zlen_slice by lia. done. }
    rewrite Hl. destruct (Z.leb_spec (0 + (im_data_len m + 3)) 256); [lia|]. by rewrite andb_false_r.
  - destruct (Z.eqb_spec (im_InF_source m) PLDM) as [E|E]; [|lia]. rewrite E.
    change (PLDM =? BMC_USB) with false. change (PLDM =? HOST_SSIF_1) with false. rewrite !andb_false_r.
    unfold send_msg_by_pldm. change PLDM_MAX_DATA_SIZE with 512 in *. rewrite mem_read_Some by lia. cbn [mbind option_bind].
    set (hdr := [PLDM_SUCCESS] ++ iana_bytes ++ [_; _; _]). assert (Hh : zlen hdr = 7) by done.
    destruct (mem_write_Some (zeros 512) 0 hdr) as [b1 E1]; [lia|rewrite Hh; done|]. rewrite E1. cbn [mbind option_bind].
    apply mem_write_length in E1. change (zlen (zeros 512)) with 512 in E1.
    unfold mem_write. rewrite zlen_slice by lia. destruct (Z.leb_spec (7 + im_data_len m) (zlen b1)); [lia|]. by rewrite andb_false_r.
Qed.

(** The two commands without a response are handled all the same. *)
Lemma not_returned_handled cfg msg s :
  msg_wf msg -> handlers_inv s -> pal_is_not_return_cmd (im_netfn msg) (im_cmd msg) = true ->
  exists s', ipmi_cmd_handle cfg true msg s = Some (OutNone, s') /\ handlers_inv s'.
Proof using HOK.
  intros Hw Hs Hp. assert (En : im_netfn msg = NETFN_OEM_1S_REQ).
  { unfold pal_is_not_return_cmd in Hp. by destruct (Z.eqb_spec (im_netfn msg) NETFN_OEM_1S_REQ). }
  assert (Hd : exists m iana s', ipmi_dispatch msg s = Some (m, iana, s') /\ handlers_inv s' /\ same_header msg m).
  { pose proof Hw as (Hl & Hb & Hn). unfold ipmi_dispatch. cbn [im_netfn set_im_completion_code im_data im_data_len im_cmd]. rewrite Hp, En.
    cbn [Z.eqb NETFN_OEM_1S_REQ NETFN_CHASSIS_REQ NETFN_BRIDGE_REQ NETFN_SENSOR_REQ NETFN_APP_REQ Pos.eqb
       NETFN_FIRMWARE_REQ NETFN_STORAGE_REQ NETFN_TRANSPORT_REQ NETFN_DCMI_REQ NETFN_NM_REQ NETFN_OEM_REQ orb].
    destruct (_ && _) eqn:Ei.
    - reflect_bools. rewrite u16_id by msg_lia. rewrite mem_read_Some by msg_lia. cbn [mbind option_bind].
      rewrite mem_write_patch by (rewrite ?zlen_slice; msg_lia). cbn [mbind option_bind].
      destruct (run_handler _ _ msg (request_with (slice (im_data msg) 3 (im_data_len msg - 3)) (set_im_completion_code CC_INVALID_CMD msg)) s oem_1s_ok)
        as (m & s' & Er & W & Hi & Hsm); try done.
      { apply request_with_wf; [done|by apply bytes_ok_slice|]. rewrite zlen_slice; msg_lia. }
      unfold request_with in Er. rewrite zlen_slice in Er by msg_lia. cbn [im_data set_im_completion_code] in Er.
      rewrite Er. cbn [mbind option_bind]. by eexists _, _, _.
    - destruct (run_handler _ _ msg (set_im_completion_code CC_INVALID_IANA (set_im_completion_code CC_INVALID_CMD msg)) s oem_1s_ok)
        as (m & s' & Er & W & Hi & Hsm); try done.
      rewrite Er. cbn [mbind option_bind]. by eexists _, _, _. }
  destruct Hd as (m & iana & s' & Ed & Hi & H1 & H2 & _). exists s'. split; [|done].
  unfold ipmi_cmd_handle. rewrite Ed. cbn [mbind option_bind]. by rewrite H1, H2, Hp.
Qed.

End response_proofs.

(** ** Reaching the queue *)

(** A request is queued at once when the queue has room; when it is full, the queue is
    emptied and holds the new request alone as soon as one of three attempts gets the mutex,
    else it is unchanged. The caller is told of a failure exactly when the first two attempts
    fail, so also when the third one delivers the request; a response is never queued. *)
Theorem notify_exact lock msg q :
  zlen q <= IPMI_BUF_LEN ->
  notify_ipmi_client lock msg q =
    if negb (im_netfn msg .& 0x01 =? 0) then (q, IPMB_ERROR_SUCCESS)
    else if zlen q <? IPMI_BUF_LEN then (q ++ [msg], IPMB_ERROR_SUCCESS)
    else (if lock 0 || lock 1 || lock 2 then [msg] else q,
          if lock 0 || lock 1 then IPMB_ERROR_SUCCESS else IPMB_ERROR_MUTEX_LOCK).
Proof.
  intros Hq. unfold notify_ipmi_client. destruct (im_netfn msg .& 0x01 =? 0); [|done].
  cbn [negb]. destruct (Z.ltb_spec (zlen q) IPMI_BUF_LEN) as [|Hl]; [done|].
  assert (zlen q = IPMI_BUF_LEN) as E by lia. cbn [notify_loop]. rewrite E, Z.eqb_refl.
  change (0 + 1) with 1. change (1 + 1) with 2.
  by destruct (lock 0), (lock 1), (lock 2).
Qed.

Lemma notify_exact_witness :
  notify_ipmi_client (fun k => k =? 2) zero_ipmi_msg (replicate 10 zero_ipmi_msg)
  = ([zero_ipmi_msg], IPMB_ERROR_MUTEX_LOCK).
Proof. rewrite notify_exact; [reflexivity|vm_compute; discriminate]. Defined.

(** ** Commands without a response, and the KCS buffer *)

Lemma ipmi_no_response {St} `{IpmiHandlers St} cfg ok msg s m iana s' :
  ipmi_dispatch msg s = Some (m, iana, s') ->
  pal_is_not_return_cmd (im_netfn m) (im_cmd m) = true ->
  ipmi_cmd_handle cfg ok msg s = Some (OutNone, s').
Proof. intros E Hp. unfold ipmi_cmd_handle. rewrite E. cbn [mbind option_bind]. by rewrite Hp. Qed.

(** A KCS response of more than 253 data bytes is cut to the buffer of 256 bytes, but
    [kcs_write] is told the full length and reads past the buffer. *)
Theorem ipmi_kcs_overread {St} `{IpmiHandlers St} cfg msg s m iana s' m' :
  ipmi_dispatch msg s = Some (m, iana, s') ->
  pal_is_not_return_cmd (im_netfn m) (im_cmd m) = false -> ipmi_finish m iana = Some m' ->
  cfg_usb cfg = false -> cfg_kcs cfg = true -> HOST_KCS_1 <= im_InF_source m' <= HOST_KCS_4 ->
  KCS_BUFF_SIZE - 3 < im_data_len m' <= zlen (im_data m') ->
  ipmi_cmd_handle cfg true msg s = None.
Proof.
  intros E Hp Ef Hu Hk Hs Hn. unfold ipmi_cmd_handle. rewrite E. cbn [mbind option_bind].
  rewrite Hp, Ef. cbn [mbind option_bind]. unfold ipmi_respond. rewrite Hu, Hk. cbn [andb].
  rewrite (proj2 (Z.leb_le HOST_KCS_1 _)), (proj2 (Z.leb_le _ HOST_KCS_4)) by lia. cbn [andb].
  unfold kcs_response, KCS_BUFF_SIZE in *. destruct (Z.leb_spec (im_data_len m') (256 - 3)); [lia|].
  rewrite mem_read_Some by lia. cbn [mbind option_bind]. unfold mem_read at 1.
  set (l := _ ++ _). assert (Hl : zlen l = 256).
  { unfold l. rewrite !zlen_app, zlen_zeros, zlen_slice by lia. done. }
  rewrite Hl. destruct (Z.leb_spec (0 + (im_data_len m' + 3)) 256); [lia|].
  by rewrite andb_false_r.
Qed.

(** ** A set of handlers for the witnesses: each echoes its request *)

Definition echo (msg : ipmi_msg) (s : Z) : option (ipmi_msg * Z) :=
  Some (set_im_completion_code CC_SUCCESS msg, s + 1).

#[local] Instance echo_handlers : IpmiHandlers Z :=
  {| IPMI_CHASSIS_handler := echo; IPMI_SENSOR_handler := echo; IPMI_APP_handler := echo;
     IPMI_Storage_handler := echo; IPMI_OEM_handler := echo; IPMI_OEM_1S_handler := echo |}.

Lemma echo_ok : handler_ok (fun _ : Z => True) echo.
Proof. intros m s Hm _. by eexists _, _. Qed.

#[local] Instance echo_handlers_ok : IpmiHandlersOk Z :=
  {| handlers_inv := fun _ => True; chassis_ok := echo_ok; sensor_ok := echo_ok; app_ok := echo_ok;
     storage_ok := echo_ok; oem_ok := echo_ok; oem_1s_ok := echo_ok |}.

(** An OEM 1S request with [d] after the manufacturer id, from interface [src]. *)
Definition oem_1s_request (src : Z) (d : list Z) : ipmi_msg :=
  request_with (iana_bytes ++ d) (set_im_InF_source src (set_im_cmd 0x0B
    (set_im_netfn NETFN_OEM_1S_REQ zero_ipmi_msg))).

Lemma oem_1s_request_wf src d :
  bytes_ok d -> zlen d <= 500 -> msg_wf (oem_1s_request src d).
Proof.
  intros Hd Hl. apply request_with_wf.
  - split_and!; try done. by apply Forall_replicate.
  - apply bytes_ok_app. split; [|done]. by repeat constructor.
  - rewrite zlen_app. change (zlen iana_bytes) with 3. msg_lia.
Qed.


Lemma ipmi_kcs_overread_witness :
  ipmi_cmd_handle (mk_ipmi_config false true false true) true
    (oem_1s_request HOST_KCS_1 (zeros 251)) 7 = None.
Proof.
  eapply ipmi_kcs_overread; [vm_compute; reflexivity|reflexivity|vm_compute; reflexivity|
    reflexivity|reflexivity|vm_compute; split; discriminate|vm_compute; split; [reflexivity|discriminate]].
Defined.
