(* ===== verification/PldmOem.v ===== *)
(** Component [common/service/pldm/pldm_oem.c]: the OEM commands of PLDM: echo, the bridge by which
    the BMC sends IPMI requests, the clock, and the messages to the BMC that write a file. With
    the answer of the IPMI service ([send_msg_by_pldm] of [ipmi.c]) the bridge is a round trip
    through the queue of the service. *)

From S2P Require Import Prelude Bytes MctpCore IpmbCodec IpmiMsg PldmCore PldmBase IpmiCore.

(** ** Definitions *)

Definition IANA_LEN : Z := 3.
Definition PLDM_OEM_CMD_ECHO : Z := 0x00.
Definition PLDM_OEM_WRITE_FILE_IO : Z := 0x02.
Definition PLDM_OEM_SENSOR_POLLING_CMD : Z := 0x04.
Definition PLDM_OEM_WF_READ_SPD_CHUNK : Z := 0x05.
Definition PLDM_OEM_FORCE_UPDATE_SETTING_CMD : Z := 0x06.
Definition PLDM_OEM_FORCE_UPDATE_GETTING_CMD : Z := 0x07.
Definition PLDM_OEM_READ_FLASH_DATA_CMD : Z := 0x08.
Definition PLDM_OEM_GET_RTC : Z := 0x0c.
Definition PLDM_OEM_SET_RTC : Z := 0x0d.

(** [enum cmd_type] of a file write. *)
Definition BIOS_VERSION : Z := 0x01.
Definition EVENT_LOG : Z := 0x05.
Definition CRASH_DUMP : Z := 0x06.
Definition OEM_EVENT_LEN : Z := 0x05.
Definition EVENT_ASSERTED : Z := 0x01.
Definition POST_STARTED : Z := 29.
Definition POST_ENDED : Z := 30.

Definition VISTARA_SPD_DDR4_TOTAL_BYTES : Z := 512.
Definition VISTARA_SPD_CHUNK_DEFAULT : Z := 64.

Definition check_iana (iana : list Z) : Z :=
  if forallb (fun i => rd iana i =? (IANA_ID .>> (i * 8)) .& 0xFF) (seqZ 0 IANA_LEN)
  then PLDM_SUCCESS else PLDM_ERROR.

(** ** The context of a bridged request *)

(** [sizeof(mctp_ext_params)], with the enumeration and the union aligned to 4 bytes; the padding
    and the unused bytes of the union are 0 here. *)
Definition ext_params_bytes (e : mctp_ext_params) : list Z :=
  [ext_tag_owner e; ext_msg_tag e; ext_ep e; 0] ++ le_bytes 4 (ext_type e) ++ [ext_addr e] ++ zeros 7.
Definition ext_params_of (b : list Z) : mctp_ext_params :=
  mk_ext (rd b 0) (rd b 1) (rd b 2) (rd32 b 4) (rd b 8).

(** The offsets in the data of the message: the PLDM header is last, the parameters and the MCTP
    instance are in front of it. *)
Definition pldm_hdr_ofs : Z := IPMI_MSG_MAX_LENGTH - 4.
Definition mctp_ext_params_ofs : Z := pldm_hdr_ofs - 16.
Definition mctp_inst_ofs : Z := mctp_ext_params_ofs - 4.

(** The three copies of [ipmi_cmd]. *)
Definition store_context (inst : Z) (ext : mctp_ext_params) (hdr data : list Z) : option (list Z) :=
  data ← mem_write data mctp_inst_ofs (le_bytes 4 inst);
  data ← mem_write data mctp_ext_params_ofs (ext_params_bytes ext);
  mem_write data pldm_hdr_ofs hdr.

(** The response of [send_msg_by_pldm] as the message it gives to [mctp_pldm_send_msg], with the
    MCTP instance; its body is [IpmiCore.send_msg_by_pldm]. *)
Definition pldm_response (msg : ipmi_msg) : option (Z * pldm_msg) :=
  inst ← mem_read (im_data msg) mctp_inst_ofs 4;
  hdr ← mem_read (im_data msg) pldm_hdr_ofs 4;
  body ← send_msg_by_pldm msg;
  ext ← mem_read (im_data msg) mctp_ext_params_ofs 16;
  Some (rd32 inst 0,
        mk_pldm_msg (set_ph_rq 0 (pldm_hdr_of hdr)) body (u16 (8 - 1 + im_data_len msg))
          (ext_params_of ext) None 0 None).

(** ** The handlers *)

(** [struct rtc_time]. *)
Record rtc_time := mk_rtc_time { tm_sec : Z; tm_min : Z; tm_hour : Z; tm_mday : Z; tm_mon : Z; tm_year : Z }.

(** The driver of the clock: is the device ready, its time with a result code, and setting it. *)
Class rtc_driver (R : Type) := {
  rtc_ready : R -> bool;
  rtc_get_time : R -> Z * rtc_time;
  rtc_set_time : rtc_time -> R -> R * Z }.

(** A time set is the time read. *)
Class rtc_laws (R : Type) `{rtc_driver R} : Prop := {
  rtc_set_get : forall t (r r' : R), rtc_set_time t r = (r', 0) -> rtc_get_time r' = (0, t);
  rtc_set_ready : forall t (r : R), rtc_ready (fst (rtc_set_time t r)) = rtc_ready r }.

Definition EINVAL : Z := 22.

Section oem.
Context {R : Type} `{rtc_driver R}.

(** What the handlers change: the queue of the IPMI service and the clock. *)
Record oem_state := mk_oem { os_queue : list ipmi_msg; os_rtc : R }.

(** A handler is given the memory from the request data on, which goes on behind its [len] bytes,
    and the header in front of it; [None]: a copy leaves its array. *)
Definition reply : Type := Z * list Z * Z.
Definition oem_handler : Type := oem_state -> list Z -> list Z -> Z -> Z -> option (oem_state * reply).

(** What the platform gives: the lock of the IPMI queue, and the reader of memory module data
    when it is compiled in. *)
Record oem_env := mk_oem_env {
  oe_lock : Z -> bool; oe_spd : option (Z -> Z -> Z -> Z -> Z * list Z) }.

Context (E : oem_env) (inst : Z) (ext : mctp_ext_params).

(** The default of the commands a platform may bring: [sensor_polling_cmd],
    [force_update_flag_set_cmd], [force_update_flag_get_cmd] and [read_flash_data_cmd]. *)
Definition unsupported_cmd : oem_handler := fun s hdr buf len id =>
  Some (s, (PLDM_ERROR_UNSUPPORTED_PLDM_CMD, [PLDM_ERROR_UNSUPPORTED_PLDM_CMD], 1)).

Definition cmd_echo : oem_handler := fun s hdr buf len id =>
  iana ← mem_read buf 0 IANA_LEN;
  if check_iana iana =? PLDM_ERROR then Some (s, (PLDM_SUCCESS, [PLDM_ERROR_INVALID_DATA], 1))
  else if PLDM_MAX_DATA_SIZE <? 4 + 1 + len
  then Some (s, (PLDM_SUCCESS, [PLDM_ERROR_INVALID_LENGTH], 1))
  else
    data ← mem_read buf 3 len;
    Some (s, (PLDM_SUCCESS, [PLDM_SUCCESS] ++ iana_bytes ++ data, u16 (len + 1))).

(** [sizeof] the request is 6. *)
Definition ipmi_cmd : oem_handler := fun s hdr buf len id =>
  if len <? 6 - 1 then Some (s, (PLDM_ERROR, [PLDM_ERROR_INVALID_LENGTH] ++ iana_bytes, 1 + IANA_LEN))
  else
    iana ← mem_read buf 0 IANA_LEN;
    if check_iana iana =? PLDM_ERROR
    then Some (s, (PLDM_SUCCESS, [PLDM_ERROR_INVALID_DATA] ++ iana_bytes, 1))
    else
      let data_len := u16 (len - 6 + 1) in
      src ← mem_read buf 5 data_len;
      data ← mem_write (zeros IPMI_MSG_MAX_LENGTH) 0 src;
      data ← store_context inst ext hdr data;
      let msg := set_im_data data (set_im_InF_source PLDM (set_im_pldm_inst_id id
        (set_im_data_len data_len (set_im_cmd (rd buf 4) (set_im_netfn (rd buf 3 .>> 2) zero_ipmi_msg))))) in
      let '(q, _) := notify_ipmi_client (oe_lock E) msg (os_queue s) in
      Some (mk_oem q (os_rtc s), (PLDM_LATER_RESP, [], 1)).

Definition get_rtc : oem_handler := fun s hdr buf len id =>
  let refuse := Some (s, (PLDM_SUCCESS, [PLDM_ERROR_INVALID_DATA], 1)) in
  iana ← mem_read buf 0 IANA_LEN;
  if check_iana iana =? PLDM_ERROR then refuse
  else if negb (rtc_ready (os_rtc s)) then refuse
  else
    let '(res, t) := rtc_get_time (os_rtc s) in
    if res <? 0 then refuse
    else
      Some (s, (PLDM_SUCCESS, [PLDM_SUCCESS] ++ iana_bytes ++ [7]
        ++ [u8 (tm_sec t); u8 (tm_min t); u8 (tm_hour t); u8 (tm_mday t); u8 (tm_mon t + 1)]
        ++ le_bytes 2 (tm_year t + 1900), u16 (len + 7 + 2))).

(** Every result of the driver but [-EINVAL] is taken for success. *)
Definition set_rtc : oem_handler := fun s hdr buf len id =>
  iana ← mem_read buf 0 IANA_LEN;
  if check_iana iana =? PLDM_ERROR then Some (s, (PLDM_SUCCESS, [PLDM_ERROR_INVALID_DATA], 1))
  else if negb (rtc_ready (os_rtc s)) then Some (s, (PLDM_SUCCESS, [PLDM_ERROR_INVALID_DATA], 1))
  else
    req ← mem_read buf 0 10;
    let '(rtc, res) := rtc_set_time (mk_rtc_time (rd req 3) (rd req 4) (rd req 5) (rd req 6)
                         (rd req 7 - 1) (rd16 req 8 - 1900)) (os_rtc s) in
    let s := mk_oem (os_queue s) rtc in
    if res =? - EINVAL then Some (s, (PLDM_SUCCESS, [PLDM_ERROR_INVALID_DATA], 1))
    else Some (s, (PLDM_SUCCESS, [PLDM_SUCCESS] ++ iana_bytes, 4)).

(** [read]: [vistara_read_dimm_spd_chunk_eid] for the endpoint of a CXL device. *)
Definition oem_wf_read_spd_chunk (read : Z -> Z -> Z -> Z -> Z * list Z) : oem_handler :=
  fun s hdr buf len id =>
  if len <? 8 then Some (s, (PLDM_SUCCESS, [PLDM_ERROR_INVALID_LENGTH; 0; 0; 0; 0], 5))
  else
    req ← mem_read buf 0 8;
    let iana := slice req 0 3 in
    let offset := rd16 req 5 in
    let rlen := rd req 7 in
    if (rlen =? 0) || (VISTARA_SPD_CHUNK_DEFAULT <? rlen) || (VISTARA_SPD_DDR4_TOTAL_BYTES <? offset + rlen)
    then Some (s, (PLDM_SUCCESS, [PLDM_ERROR_INVALID_DATA] ++ iana ++ [0], 5))
    else
      let '(rc, data) := read (rd req 3) (rd req 4) offset rlen in
      if rc =? 0 then
        data ← mem_read data 0 rlen;
        Some (s, (PLDM_SUCCESS, [PLDM_SUCCESS] ++ iana ++ [rlen] ++ data, u16 (5 + rlen)))
      else Some (s, (PLDM_SUCCESS, [PLDM_ERROR] ++ iana ++ [0], 5)).

Definition pldm_oem_cmd_tbl : list (Z * oem_handler) :=
  [(PLDM_OEM_CMD_ECHO, cmd_echo); (PLDM_OEM_IPMI_BRIDGE, ipmi_cmd);
   (PLDM_OEM_SENSOR_POLLING_CMD, unsupported_cmd)]
  ++ match oe_spd E with Some read => [(PLDM_OEM_WF_READ_SPD_CHUNK, oem_wf_read_spd_chunk read)] | None => [] end
  ++ [(PLDM_OEM_FORCE_UPDATE_SETTING_CMD, unsupported_cmd); (PLDM_OEM_FORCE_UPDATE_GETTING_CMD, unsupported_cmd);
      (PLDM_OEM_READ_FLASH_DATA_CMD, unsupported_cmd); (PLDM_OEM_GET_RTC, get_rtc); (PLDM_OEM_SET_RTC, set_rtc)].

Fixpoint find_oem_cmd (tbl : list (Z * oem_handler)) (code : Z) : option oem_handler :=
  match tbl with
  | [] => None
  | (cmd_code, fn) :: tbl => if cmd_code =? code then Some fn else find_oem_cmd tbl code
  end.

(** What the dispatcher sees of a handler in a state, for the request header [hdr] and the memory
    [behind] the request: a call with undefined behaviour has no response, the properties show
    where none is made. *)
Definition oem_fn (s : oem_state) (hdr behind : list Z) (h : oem_handler) : pldm_cmd_proc_fn :=
  fun buf len id =>
    match h s hdr (buf ++ behind) len id with Some (_, r) => r | None => (PLDM_ERROR, [], 0) end.

Definition pldm_oem_handler_query (s : oem_state) (hdr behind : list Z) (code : Z)
    : Z * option pldm_cmd_proc_fn :=
  match find_oem_cmd pldm_oem_cmd_tbl code with
  | Some h => (PLDM_SUCCESS, Some (oem_fn s hdr behind h))
  | None => (PLDM_ERROR, None)
  end.

(** The state after the request the dispatcher gave to a handler. *)
Definition oem_state_after (s : oem_state) (hdr behind : list Z) (code : Z) (buf : list Z) (len id : Z)
    : option oem_state :=
  match find_oem_cmd pldm_oem_cmd_tbl code with
  | Some h => fst <$> h s hdr (buf ++ behind) len id
  | None => Some s
  end.

Definition with_oem (s : oem_state) (hdr behind : list Z) (others : pldm_queries) : pldm_queries :=
  fun type code => if type =? PLDM_TYPE_OEM then pldm_oem_handler_query s hdr behind code else others type code.
End oem.
Arguments mk_oem {R}.
Arguments os_queue {R}.
Arguments os_rtc {R}.

(** ** Files written to the BMC *)

(** The way to the BMC: is it over I3C ([pal_get_bmc_interface]), the MCTP instance of the bus of
    each interface, its address on each, and its endpoint id. *)
Record bmc_route := mk_bmc_route {
  br_i3c : bool; br_inst : bool -> Z; br_addr : bool -> Z; br_eid : Z }.

Definition bmc_ext (b : bmc_route) : mctp_ext_params :=
  mk_ext 0 0 (br_eid b) (if br_i3c b then MCTP_MEDIUM_TYPE_TARGET_I3C else MCTP_MEDIUM_TYPE_SMBUS)
    (br_addr b (br_i3c b)).
Definition bmc_inst (b : bmc_route) : Z := br_inst b (br_i3c b).

(** [pldm_oem_write_file_io_req] in a message. *)
Definition write_file_msg (b : bmc_route) (cmd_code : Z) (data : list Z) : pldm_msg :=
  mk_pldm_msg (mk_pldm_hdr 0 0 0 0 0 1 PLDM_TYPE_OEM 0 PLDM_OEM_WRITE_FILE_IO)
    ([cmd_code] ++ le_bytes 4 (zlen data) ++ data) (u16 (5 + zlen data)) (bmc_ext b) None 0 None.

Section write_file.
Context (read : Z -> pldm_msg -> list Z -> Z -> option read_result). (** [mctp_pldm_read] *)

(** The messages sent and the code, [None] when the read never returns; [stack]: the byte the
    response is read into. [no_mem], [no_read]: the codes of the two errors. *)
Definition write_file (b : bmc_route) (malloc_ok : bool) (stack no_mem no_read cmd_code : Z) (data : list Z)
    : option (list (Z * pldm_msg) * option Z) :=
  if negb malloc_ok then Some ([], Some no_mem)
  else
    let msg := write_file_msg b cmd_code data in
    r ← read (bmc_inst b) msg [stack] 1;
    match r with
    | ReadBlocked => Some ([(bmc_inst b, msg)], None)
    | ReadReturn read_len rbuf =>
        Some ([(bmc_inst b, msg)],
              Some (if read_len =? 0 then no_read
                    else if negb (rd rbuf 0 =? PLDM_SUCCESS) then rd rbuf 0 else 0))
    end.

(** [struct pldm_addsel_data] has five bytes. *)
Definition send_event_log_to_bmc (b : bmc_route) (malloc_ok : bool) (stack : Z) (sel_msg : list Z)
    : option (list (Z * pldm_msg) * option Z) :=
  write_file b malloc_ok stack PLDM_ERROR PLDM_ERROR EVENT_LOG sel_msg.
End write_file.

(** ** Lemmas: the context of a bridged request *)

Definition context_bytes (inst : Z) (ext : mctp_ext_params) (hdr : list Z) : list Z :=
  le_bytes 4 inst ++ ext_params_bytes ext ++ hdr.

Definition context (m : ipmi_msg) : list Z := slice (im_data m) mctp_inst_ofs 24.

Lemma ext_params_round_trip e : 0 <= ext_type e < 4294967296 -> ext_params_of (ext_params_bytes e) = e.
Proof.
  intros He. unfold ext_params_of, ext_params_bytes.
  change (rd32 ([_; _; _; _] ++ le_bytes 4 (ext_type e) ++ [ext_addr e] ++ zeros 7) 4)
    with (rd32 (le_bytes 4 (ext_type e) ++ [ext_addr e] ++ zeros 7) 0).
  rewrite rd32_le by done. by destruct e.
Qed.

Lemma store_context_ok inst ext hdr data :
  zlen data = IPMI_MSG_MAX_LENGTH -> zlen hdr = 4 ->
  store_context inst ext hdr data = Some (patch data mctp_inst_ofs (context_bytes inst ext hdr)).
Proof.
  intros Hd Hh. change IPMI_MSG_MAX_LENGTH with 527 in Hd. unfold store_context, context_bytes.
  change mctp_ext_params_ofs with 507. change pldm_hdr_ofs with 523. change mctp_inst_ofs with 503.
  assert (H1 : zlen (le_bytes 4 inst) = 4) by done. assert (H2 : zlen (ext_params_bytes ext) = 16) by done.
  rewrite mem_write_patch by lia. cbn [mbind option_bind].
  rewrite mem_write_patch by (rewrite ?zlen_patch; lia). cbn [mbind option_bind].
  change 507 with (503 + zlen (le_bytes 4 inst)). rewrite patch_patch by lia.
  assert (H3 : zlen (le_bytes 4 inst ++ ext_params_bytes ext) = 20) by (rewrite zlen_app; lia).
  rewrite mem_write_patch by (rewrite ?zlen_patch; lia).
  change 523 with (503 + 20). rewrite <- H3, patch_patch by lia. by rewrite <- app_assoc.
Qed.

Lemma zlen_context_bytes inst ext hdr : zlen hdr = 4 -> zlen (context_bytes inst ext hdr) = 24.
Proof. intros H. unfold context_bytes. rewrite !zlen_app, H. done. Qed.

(** A response is sent where the context says. *)
Lemma pldm_response_spec m inst ext hdr :
  zlen (im_data m) = IPMI_MSG_MAX_LENGTH -> 0 <= im_data_len m <= PLDM_MAX_DATA_SIZE - 7 ->
  context m = context_bytes inst ext hdr -> zlen hdr = 4 ->
  0 <= inst < 4294967296 -> 0 <= ext_type ext < 4294967296 ->
  pldm_response m = Some (inst,
    mk_pldm_msg (set_ph_rq 0 (pldm_hdr_of hdr))
      ([PLDM_SUCCESS] ++ iana_bytes ++ [u8 ((im_netfn m .| 0x01) .<< 2); im_cmd m; im_completion_code m] ++ payload m)
      (7 + im_data_len m) ext None 0 None).
Proof.
  intros Hz Hn Hc Hh Hi He. change IPMI_MSG_MAX_LENGTH with 527 in Hz. unfold PLDM_MAX_DATA_SIZE in Hn.
  assert (Hp : zlen (payload m) = im_data_len m) by (apply zlen_slice; lia).
  unfold context, context_bytes in Hc. change mctp_inst_ofs with 503 in Hc. change 24 with (4 + (16 + 4)) in Hc.
  rewrite (slice_split _ _ 4), (slice_split _ (503 + 4) 16) in Hc by lia.
  apply app_inj_1 in Hc as [H1 Hc]; [|apply Nat2Z.inj; fold (zlen (slice (im_data m) 503 4)); by rewrite zlen_slice by lia].
  apply app_inj_1 in Hc as [H2 H3]; [|apply Nat2Z.inj; fold (zlen (slice (im_data m) (503 + 4) 16)); by rewrite zlen_slice by lia].
  unfold pldm_response. change mctp_inst_ofs with 503. change pldm_hdr_ofs with 523. change mctp_ext_params_ofs with 507.
  rewrite !mem_read_Some by lia. cbn [mbind option_bind]. rewrite send_msg_by_pldm_spec by (unfold PLDM_MAX_DATA_SIZE; lia).
  cbn [mbind option_bind]. rewrite H1. change (503 + 4) with 507 in H2. change (503 + 4 + 16) with 523 in H3. rewrite H2, H3.
  rewrite ext_params_round_trip by done. rewrite <- (app_nil_r (le_bytes 4 inst)), rd32_le by done.
  do 3 f_equal. rewrite u16_id by lia. lia.
Qed.

(** ** Lemmas: what the service leaves of the context *)

(** A handler that writes its response in front of the context. *)
Definition keeps_context {St} (h : ipmi_msg -> St -> option (ipmi_msg * St)) : Prop :=
  forall m s m' s', msg_wf m -> h m s = Some (m', s') -> context m' = context m.

Class IpmiKeepsContext (St : Type) `{IpmiHandlers St} : Prop := {
  chassis_context : keeps_context IPMI_CHASSIS_handler;
  sensor_context : keeps_context IPMI_SENSOR_handler;
  app_context : keeps_context IPMI_APP_handler;
  storage_context : keeps_context IPMI_Storage_handler;
  oem_context : keeps_context IPMI_OEM_handler;
  oem_1s_context : keeps_context IPMI_OEM_1S_handler }.

Section served.
Context {St : Type} `{HH : IpmiHandlers St} {HC : IpmiKeepsContext St}.

Lemma msg_wf_cc c msg : msg_wf msg -> msg_wf (set_im_completion_code c msg).
Proof. done. Qed.

Lemma request_with_context d msg :
  msg_wf msg -> zlen d <= mctp_inst_ofs -> context (request_with d msg) = context msg.
Proof.
  intros (Hl & _) Hd. unfold context, request_with. cbn [im_data set_im_data set_im_data_len].
  change IPMI_MSG_MAX_LENGTH with 527 in Hl. change mctp_inst_ofs with 503 in *. apply slice_patch_other; lia.
Qed.


Lemma dispatch_context msg s m iana s' :
  msg_wf msg -> im_data_len msg <= mctp_inst_ofs ->
  pal_is_not_return_cmd (im_netfn msg) (im_cmd msg) = false ->
  ipmi_dispatch msg s = Some (m, iana, s') -> context m = context msg.
Proof using HC.
  intros Hw Hn Hp Hd. destruct (decide (im_netfn msg = NETFN_OEM_1S_REQ)) as [En|En].
  - pose proof (ipmi_dispatch_oem msg s Hw En Hp) as Ho. case_bool_decide.
    + rewrite Hd in Ho. set (req := request_with _ _) in Ho.
      destruct (IPMI_OEM_1S_handler req s) as [[m1 s1]|] eqn:Eh; [|done]. injection Ho as -> _ _.
      assert (Hr : msg_wf req /\ context req = context msg).
      { destruct Hw as (Hl & Hb & Hr). change mctp_inst_ofs with 503 in Hn. split.
        - apply request_with_wf; [done|by apply bytes_ok_slice, bytes_ok_slice|].
          unfold slice, zlen. rewrite length_take. change IPMI_DATA_MAX_LENGTH with 520. lia.
        - change (context msg) with (context (set_im_completion_code CC_INVALID_CMD msg)).
          apply request_with_context; [done|]. unfold slice, zlen. rewrite length_take.
          change mctp_inst_ofs with 503. lia. }
      destruct Hr as [Hr1 Hr2]. rewrite <- Hr2. by eapply oem_1s_context.
    + clear Ho. revert Hd. unfold ipmi_dispatch. cbn [im_netfn set_im_completion_code im_cmd im_data im_data_len].
      rewrite En in *. cbn [Z.eqb NETFN_OEM_1S_REQ NETFN_CHASSIS_REQ NETFN_BRIDGE_REQ NETFN_SENSOR_REQ NETFN_APP_REQ Pos.eqb
       NETFN_FIRMWARE_REQ NETFN_STORAGE_REQ NETFN_TRANSPORT_REQ NETFN_DCMI_REQ NETFN_NM_REQ NETFN_OEM_REQ orb].
      rewrite Hp. destruct Hw as (Hl & Hb & Hr). change IPMI_MSG_MAX_LENGTH with 527 in Hl.
      rewrite get_iana_prefix by (done || lia).
      destruct (Z.leb_spec 3 (im_data_len msg)); cbn [andb]; [|by intros [= <- _ _]].
      unfold payload in *. rewrite slice_slice in * by lia. rewrite bool_decide_eq_false_2 by done. by intros [= <- _ _].
  - pose proof (ipmi_dispatch_plain msg s En) as Ho. destruct (plain_handler (im_netfn msg)) as [h|] eqn:Eh.
    + rewrite Hd in Ho. destruct (h (set_im_completion_code CC_INVALID_CMD msg) s) as [[m1 s1]|] eqn:Er; [|done].
      injection Ho as -> _ _. change (context msg) with (context (set_im_completion_code CC_INVALID_CMD msg)).
      assert (Hk : keeps_context h) by (revert Eh; unfold plain_handler; intros; case_bools;
        auto using chassis_context, sensor_context, app_context, storage_context, oem_context).
      by eapply Hk.
    + revert Hd. clear Ho. revert Eh. unfold plain_handler, ipmi_dispatch. cbn [im_netfn set_im_completion_code].
      intros Eh. repeat match goal with |- context [im_netfn msg =? ?k] => destruct (Z.eqb_spec (im_netfn msg) k) as [E|]; rewrite ?E in * end;
        try done; cbn [orb]; by intros [= <- _ _].
Qed.

Lemma finish_context m iana m' :
  ipmi_finish m iana = Some m' -> 0 <= im_data_len m <= IPMI_DATA_MAX_LENGTH -> im_data_len m' <= mctp_inst_ofs ->
  zlen (im_data m) = IPMI_MSG_MAX_LENGTH -> context m' = context m.
Proof using.
  unfold ipmi_finish. change IPMI_MSG_MAX_LENGTH with 527. change IPMI_DATA_MAX_LENGTH with 520.
  change mctp_inst_ofs with 503. intros Hf Hn Hn' Hz.
  destruct (negb _); [by injection Hf as <-|]. destruct (_ =? _); [|by injection Hf as <-].
  rewrite mem_read_Some in Hf by lia. cbn [mbind option_bind] in Hf.
  assert (Hs : zlen (slice (im_data m) 0 (im_data_len m)) = im_data_len m) by (apply zlen_slice; lia).
  destruct (mem_write (im_data m) 3 _) as [d1|] eqn:E1; [|done]. cbn [mbind option_bind] in Hf.
  destruct (mem_write d1 0 _) as [d2|] eqn:E2; [|done]. injection Hf as <-.
  cbn [im_data_len set_im_data_len set_im_data] in Hn'. rewrite u16_id in Hn' by lia.
  unfold context. change mctp_inst_ofs with 503. cbn [im_data set_im_data set_im_data_len].
  rewrite (mem_write_other _ _ _ _ 503 24 E2) by (change (zlen [_; _; _]) with 3; lia).
  by rewrite (mem_write_other _ _ _ _ 503 24 E1) by lia.
Qed.
End served.

(** ** A bridged request and its way back *)

Definition bridge_data (b cmd : Z) (data : list Z) : list Z := iana_bytes ++ [b; cmd] ++ data.

Definition bridge_header (id : Z) : list Z := [1; 128 + id; PLDM_TYPE_OEM; PLDM_OEM_IPMI_BRIDGE].

(** The message in the queue of the service. *)
Definition bridged_msg (inst : Z) (ext : mctp_ext_params) (id b cmd : Z) (data : list Z) : ipmi_msg :=
  set_im_data (patch (patch (zeros IPMI_MSG_MAX_LENGTH) 0 data) mctp_inst_ofs
                 (context_bytes inst ext (bridge_header id)))
    (set_im_InF_source PLDM (set_im_pldm_inst_id id (set_im_data_len (zlen data)
      (set_im_cmd cmd (set_im_netfn (b .>> 2) zero_ipmi_msg))))).

(** [ipmi_cmd_handle] for a request of PLDM, with the response as it is given to
    [mctp_pldm_send_msg]. *)
Definition ipmi_handle_bridged {St} `{IpmiHandlers St} (msg : ipmi_msg) (s : St)
    : option (option (Z * pldm_msg) * St) :=
  '(msg, iana, s) ← ipmi_dispatch msg s;
  if pal_is_not_return_cmd (im_netfn msg) (im_cmd msg) then Some (None, s)
  else
    msg ← ipmi_finish msg iana;
    r ← pldm_response msg;
    Some (Some r, s).

Lemma bridge_response_header id :
  0 <= id < 32 -> pldm_hdr_bytes (set_ph_rq 0 (pldm_hdr_of (bridge_header id))) = [1; id; PLDM_TYPE_OEM; PLDM_OEM_IPMI_BRIDGE].
Proof.
  intros Hid. set (P id := bool_decide (pldm_hdr_bytes (set_ph_rq 0 (pldm_hdr_of (bridge_header id)))
    = [1; id; PLDM_TYPE_OEM; PLDM_OEM_IPMI_BRIDGE])).
  assert (HP : P id = true) by (apply (small_forall 32 P); [by vm_compute|done]).
  by apply bool_decide_eq_true in HP.
Qed.

Lemma zlen_bridge_data b cmd data : zlen (bridge_data b cmd data) = 5 + zlen data.
Proof. unfold bridge_data. rewrite !zlen_app. change (zlen iana_bytes) with 3. change (zlen [b; cmd]) with 2. lia. Qed.

Section bridged.
Context (inst id b cmd : Z) (ext : mctp_ext_params) (data : list Z).
Context (Hid : 0 <= id < 32) (Hd : bytes_ok data) (Hl : zlen data <= mctp_inst_ofs).

Lemma bridged_msg_wf :
  bytes_ok (context_bytes inst ext (bridge_header id)) ->
  msg_wf (bridged_msg inst ext id b cmd data) /\ payload (bridged_msg inst ext id b cmd data) = data /\
  context (bridged_msg inst ext id b cmd data) = context_bytes inst ext (bridge_header id).
Proof using Hd Hl.
  intros Hc. change mctp_inst_ofs with 503 in *. pose proof (zlen_nonneg data).
  pose proof (zlen_context_bytes inst ext (bridge_header id) eq_refl) as Hz.
  assert (H0 : zlen (zeros IPMI_MSG_MAX_LENGTH) = 527) by done.
  assert (H1 : zlen (patch (zeros IPMI_MSG_MAX_LENGTH) 0 data) = 527) by (rewrite zlen_patch; lia).
  unfold msg_wf, payload, context, bridged_msg. cbn [im_data im_data_len set_im_data set_im_InF_source set_im_pldm_inst_id set_im_data_len].
  change mctp_inst_ofs with 503. split_and!.
  - rewrite zlen_patch by lia. exact H1.
  - repeat apply bytes_ok_patch; try done. apply Forall_replicate. done.
  - done.
  - change IPMI_DATA_MAX_LENGTH with 520. lia.
  - rewrite slice_patch_other by lia. apply (slice_patch _ 0); lia.
  - rewrite <- Hz at 1. apply slice_patch; lia.
Qed.

Context {R : Type} `{rtc_driver R} (E : oem_env) (s : oem_state (R := R)) (behind : list Z).
Context (Hb : 0 <= b < 256) (Hcmd : 0 <= cmd < 256) (Hev : (b .>> 2) .& 0x01 = 0).

Lemma bridge_command :
  zlen (os_queue s) < IPMI_BUF_LEN ->
  ipmi_cmd E inst ext s (bridge_header id) (bridge_data b cmd data ++ behind) (zlen (bridge_data b cmd data)) id =
  Some (mk_oem (os_queue s ++ [bridged_msg inst ext id b cmd data]) (os_rtc s), (PLDM_LATER_RESP, [], 1)).
Proof using Hl Hev.
  intros Hq. pose proof (zlen_nonneg data). change mctp_inst_ofs with 503 in *.
  pose proof (zlen_bridge_data b cmd data) as Hz.
  pose proof (zlen_nonneg behind).
  assert (Hz0 : zlen (zeros IPMI_MSG_MAX_LENGTH) = 527) by done.
  unfold ipmi_cmd. rewrite Hz. destruct (Z.ltb_spec (5 + zlen data) (6 - 1)); [lia|].
  change IANA_LEN with 3. rewrite (mem_read_Some _ 0 3) by (rewrite ?zlen_app; lia). cbn [mbind option_bind].
  unfold bridge_data. rewrite <- app_assoc, slice_app_l by done.
  change (slice iana_bytes 0 3) with iana_bytes. change (check_iana iana_bytes =? PLDM_ERROR) with false. cbv iota.
  replace (5 + zlen data - 6 + 1) with (zlen data) by lia. rewrite u16_id by lia.
  replace (iana_bytes ++ ([b; cmd] ++ data) ++ behind) with ((iana_bytes ++ [b; cmd]) ++ data ++ behind)
    by (by rewrite <- !app_assoc).
  rewrite mem_read_Some by (rewrite ?zlen_app; change (zlen iana_bytes) with 3; change (zlen [_; _]) with 2; lia).
  rewrite slice_app_r by done. rewrite slice_app_l by lia. rewrite slice_all by lia. cbn [mbind option_bind].
  rewrite mem_write_patch by lia. cbn [mbind option_bind]. rewrite store_context_ok by (rewrite ?zlen_patch; done || lia).
  cbn [mbind option_bind]. change (rd ((iana_bytes ++ [b; cmd]) ++ data ++ behind) 3) with b.
  change (rd ((iana_bytes ++ [b; cmd]) ++ data ++ behind) 4) with cmd.
  fold (bridged_msg inst ext id b cmd data). unfold notify_ipmi_client.
  change (im_netfn (bridged_msg inst ext id b cmd data)) with (b .>> 2). rewrite Hev.
  change (0 =? 0) with true. destruct (Z.ltb_spec (zlen (os_queue s)) IPMI_BUF_LEN); [done|lia].
Qed.
End bridged.

(** What the dispatcher leaves is a message of the right size. *)
Lemma dispatched_wf {St} `{HOK : IpmiHandlersOk St} msg (s : St) m iana s' :
  msg_wf msg -> handlers_inv s -> pal_is_not_return_cmd (im_netfn msg) (im_cmd msg) = false ->
  ipmi_dispatch msg s = Some (m, iana, s') ->
  zlen (im_data m) = IPMI_MSG_MAX_LENGTH /\ 0 <= im_data_len m <= IPMI_DATA_MAX_LENGTH.
Proof.
  intros Hw Hs Hp Hd. assert (W : msg_wf m); [|by destruct W as (? & _ & ?)].
  destruct (decide (im_netfn msg = NETFN_OEM_1S_REQ)) as [En|En].
  - pose proof (ipmi_dispatch_oem msg s Hw En Hp) as Ho. case_bool_decide.
    + rewrite Hd in Ho. set (req := request_with _ _) in Ho.
      assert (Hr : msg_wf req).
      { destruct Hw as (Hl & Hb & Hr). apply request_with_wf; [done|by apply bytes_ok_slice, bytes_ok_slice|].
        unfold slice, zlen. rewrite length_take. change IPMI_DATA_MAX_LENGTH with 520 in *. lia. }
      destruct (oem_1s_ok req s Hr Hs) as (m1 & s1 & E & W & _). rewrite E in Ho. by injection Ho as -> _ _.
    + destruct Ho as (m1 & i1 & E & _ & _ & W). rewrite Hd in E. by injection E as -> _ _.
  - pose proof (ipmi_dispatch_plain msg s En) as Ho. destruct (plain_handler (im_netfn msg)) as [h|] eqn:Eh.
    + destruct (plain_handler_ok _ _ Eh (set_im_completion_code CC_INVALID_CMD msg) s) as (m1 & s1 & E & W & _); [done|done|].
      rewrite Hd, E in Ho. by injection Ho as -> _ _.
    + destruct Ho as (m1 & E & _ & _ & W). rewrite Hd in E. injection E as -> _ _. by apply W.
Qed.

(** C11: an IPMI request the BMC sends over PLDM gets through to the IPMI service and its response
    back to the BMC. The dispatcher sends nothing yet, the handler queues the request with its
    data, network function and command; when the service takes it, the one response goes to the
    MCTP instance and the endpoint the request came from, with its instance id, and carries the
    completion code and the data the service gives, after the manufacturer id and the network
    function of a response: for every request of up to 503 bytes, every response of up to that
    size and handlers that leave the end of the message, where the way back is kept, as it is. *)
Theorem ipmi_bridge_round_trip {R St} `{PldmConfig} `{rtc_driver R} `{IpmiHandlersOk St} `{!IpmiKeepsContext St}
    fru others lock_ok rc pst E (s : oem_state (R := R)) behind inst ext id b cmd data
    (sv sv' : St) cc rdata malloc now :
  let msg := bridged_msg inst ext id b cmd data in
  let req := bridge_header id ++ bridge_data b cmd data in
  0 <= id < 32 -> 0 <= b < 256 -> 0 <= cmd < 256 -> bytes_ok data -> zlen data <= mctp_inst_ofs ->
  0 <= inst < 4294967296 -> 0 <= ext_type ext < 4294967296 -> bytes_ok (ext_params_bytes ext) ->
  (b .>> 2) .& 0x01 = 0 -> pal_is_not_return_cmd (b .>> 2) cmd = false ->
  zlen (os_queue s) < IPMI_BUF_LEN -> handlers_inv sv ->
  ipmi_serve msg sv = Some (cc, rdata, sv') -> zlen rdata <= mctp_inst_ofs ->
  (** the dispatcher and the queue *)
  mctp_pldm_cmd_handler fru (system_queries fru (with_oem E inst ext s (bridge_header id) behind others))
    lock_ok rc pst inst req (zlen req) ext = Some (PLDM_SUCCESS, pst, []) /\
  oem_state_after E inst ext s (bridge_header id) behind PLDM_OEM_IPMI_BRIDGE (bridge_data b cmd data)
    (zlen (bridge_data b cmd data)) id = Some (mk_oem (os_queue s ++ [msg]) (os_rtc s)) /\
  payload msg = data /\
  (** the service and the way back *)
  exists m, ipmi_handle_bridged msg sv = Some (Some (inst, m), sv') /\ pm_ext_params m = ext /\
    mctp_pldm_send_begin malloc now pst inst m =
      Some (BeginSend ([1; id; PLDM_TYPE_OEM; PLDM_OEM_IPMI_BRIDGE] ++ [PLDM_SUCCESS] ++ iana_bytes
        ++ [u8 (((b .>> 2) .| 0x01) .<< 2); cmd; cc] ++ rdata) None, pst, m).
Proof.
  intros msg req Hid Hb Hcmd Hd Hl Hi Ht Hext Hev Hnr Hq Hs Hsv Hr.
  assert (Hh4 : zlen (bridge_header id) = 4) by done.
  assert (Hhok : bytes_ok (bridge_header id)) by (repeat constructor; unfold PLDM_TYPE_OEM, PLDM_OEM_IPMI_BRIDGE; lia).
  assert (Hcok : bytes_ok (context_bytes inst ext (bridge_header id))).
  { unfold context_bytes. rewrite !bytes_ok_app. split_and!; [apply bytes_ok_le_bytes|done|done]. }
  destruct (bridged_msg_wf inst id b cmd ext data Hd Hl Hcok) as (Hw & Hpl & Hcx). fold msg in Hw, Hpl, Hcx.
  pose proof (zlen_nonneg data). change mctp_inst_ofs with 503 in Hl, Hr.
  pose proof (bridge_command inst id b cmd ext data Hl E s behind Hev Hq) as Hcom.
  pose proof (zlen_bridge_data b cmd data) as Hz.
  assert (Hdok : bytes_ok (bridge_data b cmd data)).
  { unfold bridge_data. rewrite !bytes_ok_app. split_and!; [by repeat constructor| |done].
    constructor; [done|by apply Forall_singleton]. }
  split; [|split; [|split; [exact Hpl|]]].
  - subst req. assert (Hzr : zlen (bridge_header id ++ bridge_data b cmd data) = 4 + zlen (bridge_data b cmd data)) by by rewrite zlen_app.
    rewrite Hzr. unfold bridge_header.
    rewrite (type_dispatched fru _ lock_ok rc pst inst ext id PLDM_TYPE_OEM (bridge_data b cmd data) PLDM_OEM_IPMI_BRIDGE
      (oem_fn s (bridge_header id) behind (ipmi_cmd E inst ext)) [] 1 PLDM_LATER_RESP); try done; try lia.
    all: try (unfold oem_fn; by rewrite Hcom).
    destruct fru; [do 5 right; left|do 4 right; left].
  - unfold oem_state_after. change (find_oem_cmd _ PLDM_OEM_IPMI_BRIDGE) with (Some (ipmi_cmd (R := R) E inst ext)).
    cbv beta iota. by rewrite Hcom.
  - assert (Hnr' : pal_is_not_return_cmd (im_netfn msg) (im_cmd msg) = false) by exact Hnr.
    destruct (ipmi_processed msg sv Hw Hs Hnr') as (m & iana & m' & s1 & Ed & _ & Ef & Hsm & Hz' & Hn & Hsm0 & Esv).
    rewrite Hsv in Esv. injection Esv as -> -> ->.
    assert (Hp' : zlen (payload m') = im_data_len m') by (apply zlen_slice; lia).
    destruct (dispatched_wf msg sv m iana s1 Hw Hs Hnr' Ed) as (Hmz & Hmn).
    assert (Hctx : context m' = context_bytes inst ext (bridge_header id)).
    { rewrite <- Hcx. rewrite (finish_context m iana m' Ef Hmn) by (done || (change mctp_inst_ofs with 503; lia)).
      eapply dispatch_context; [exact Hw| |exact Hnr'|exact Ed].
      change (im_data_len msg) with (zlen data). change mctp_inst_ofs with 503. lia. }
    pose proof Hsm as (Enf & Ecmd & _).
    eexists. split; [|split].
    + unfold ipmi_handle_bridged. rewrite Ed. cbn [mbind option_bind]. destruct Hsm0 as (-> & -> & _).
      rewrite Hnr', Ef. cbn [mbind option_bind].
      rewrite (pldm_response_spec m' inst ext (bridge_header id)) by (done || (change (PLDM_MAX_DATA_SIZE - 7) with 505; lia)).
      done.
    + done.
    + unfold mctp_pldm_send_begin, pldm_send_prepare. cbv zeta. cbn [pm_hdr]. change (ph_rq (set_ph_rq 0 _)) with 0. change (negb (0 =? 0)) with false.
      cbv beta iota. cbn [pm_hdr pm_len pm_buf]. rewrite bridge_response_header by done.
      set (body := [PLDM_SUCCESS] ++ iana_bytes ++ _ ++ payload m').
      assert (Hzb : zlen body = 7 + im_data_len m') by (subst body; rewrite !zlen_app, Hp'; change (zlen [_]) with 1; change (zlen iana_bytes) with 3; change (zlen [_; _; _]) with 3; lia).
      rewrite u16_id by lia.
      set (h := [1; id; PLDM_TYPE_OEM; PLDM_OEM_IPMI_BRIDGE]). assert (Hh : zlen h = 4) by done.
      destruct (mem_write_two (zeros (4 + (7 + im_data_len m'))) h body) as (d1 & d2 & E1 & E2 & E3 & E4).
      { rewrite zlen_zeros; lia. }
      rewrite E1. cbn [mbind option_bind]. rewrite mem_read_Some, slice_all by lia. cbn [mbind option_bind].
      rewrite Hh in E2. rewrite E2. cbn [mbind option_bind]. rewrite slice_all in E4 by (rewrite E3, zlen_zeros; lia).
      rewrite E4. subst body. by rewrite Enf, Ecmd.
Qed.

(** ** Instances *)

(** A clock that holds its time. *)
#[local] Instance plain_rtc : rtc_driver rtc_time :=
  {| rtc_ready := fun _ => true; rtc_get_time := fun r => (0, r); rtc_set_time := fun t _ => (t, 0) |}.

#[local] Instance plain_rtc_laws : rtc_laws rtc_time.
Proof. split; [by intros t r r' [= <-]|done]. Qed.

(** Handlers that answer with the first three bytes of the request. *)
Definition three_bytes (msg : ipmi_msg) (s : Z) : option (ipmi_msg * Z) :=
  Some (set_im_data_len 3 (set_im_completion_code CC_SUCCESS msg), s + 1).

#[local] Instance three_handlers : IpmiHandlers Z :=
  {| IPMI_CHASSIS_handler := three_bytes; IPMI_SENSOR_handler := three_bytes;
     IPMI_APP_handler := three_bytes; IPMI_Storage_handler := three_bytes;
     IPMI_OEM_handler := three_bytes; IPMI_OEM_1S_handler := three_bytes |}.

Lemma three_ok : handler_ok (fun _ : Z => True) three_bytes.
Proof. intros m s (H1 & H2 & _) _. eexists _, _. split; [done|]. by repeat split. Qed.

#[local] Instance three_handlers_ok : IpmiHandlersOk Z :=
  {| handlers_inv := fun _ => True; chassis_ok := three_ok; sensor_ok := three_ok; app_ok := three_ok;
     storage_ok := three_ok; oem_ok := three_ok; oem_1s_ok := three_ok |}.

#[local] Instance three_keep_context : IpmiKeepsContext Z.
Proof. split; by intros m s m' s' _ [= <- _]. Qed.

Lemma ipmi_bridge_round_trip_witness :
  exists m, ipmi_handle_bridged (bridged_msg 2 (mk_ext 0 3 8 1 0x20) 5 0x18 1 [10; 20; 30; 40]) 7 = Some (Some (2, m), 8) /\
    pm_ext_params m = mk_ext 0 3 8 1 0x20 /\
    mctp_pldm_send_begin (Some 1) 0 pldm_init_state 2 m =
      Some (BeginSend ([1; 5; PLDM_TYPE_OEM; PLDM_OEM_IPMI_BRIDGE] ++ [PLDM_SUCCESS] ++ iana_bytes
        ++ [0x1C; 1; CC_SUCCESS] ++ [10; 20; 30]) None, pldm_init_state, m).
Proof.
  refine (proj2 (proj2 (proj2 (ipmi_bridge_round_trip (R := rtc_time) (St := Z) false (fun _ _ => (PLDM_ERROR, None)) true 0
    pldm_init_state (mk_oem_env (fun _ => true) None) (mk_oem [] (mk_rtc_time 0 0 0 1 0 120)) [] 2 (mk_ext 0 3 8 1 0x20) 5 0x18 1
    [10; 20; 30; 40] 7 8 CC_SUCCESS [10; 20; 30] (Some 1) 0 _ _ _ _ _ _ _ _ _ _ _ _ _ _)))).
  all: try done; try (by repeat constructor).
Defined.

(** What is set is what is read, for a clock that keeps its time. *)
Lemma rtc_round_trip {R} `{rtc_laws R} (s : oem_state (R := R)) hdr sec mi hr md mo y id lenq rtc :
  rtc_ready (os_rtc s) = true -> bytes_ok [sec; mi; hr; md; mo] -> 0 <= y < 65536 -> 1 <= mo ->
  rtc_set_time (mk_rtc_time sec mi hr md (mo - 1) (y - 1900)) (os_rtc s) = (rtc, 0) ->
  set_rtc s hdr (iana_bytes ++ [sec; mi; hr; md; mo] ++ le_bytes 2 y) 10 id =
    Some (mk_oem (os_queue s) rtc, (PLDM_SUCCESS, [PLDM_SUCCESS] ++ iana_bytes, 4)) /\
  get_rtc (mk_oem (os_queue s) rtc) hdr iana_bytes lenq id =
    Some (mk_oem (os_queue s) rtc, (PLDM_SUCCESS, [PLDM_SUCCESS] ++ iana_bytes ++ [7; sec; mi; hr; md; mo]
      ++ le_bytes 2 y, u16 (lenq + 7 + 2))).
Proof.
  intros Hr Hb Hy Hmo Hs.
  assert (Hrd : rd16 (iana_bytes ++ [sec; mi; hr; md; mo] ++ le_bytes 2 y) 8 = y).
  { change (rd16 (iana_bytes ++ [sec; mi; hr; md; mo] ++ le_bytes 2 y) 8) with (rd16 (le_bytes 2 y) 0).
    rewrite <- (app_nil_r (le_bytes 2 y)). by apply rd16_le. }
  split.
  - unfold set_rtc. rewrite Hr. change IANA_LEN with 3.
    rewrite (mem_read_Some _ 0 3), (mem_read_Some _ 0 10) by done. cbn [mbind option_bind negb].
    change (slice (iana_bytes ++ _) 0 3) with iana_bytes. change (check_iana iana_bytes =? PLDM_ERROR) with false. cbv iota.
    change (slice (iana_bytes ++ [sec; mi; hr; md; mo] ++ le_bytes 2 y) 0 10) with (iana_bytes ++ [sec; mi; hr; md; mo] ++ le_bytes 2 y).
    rewrite Hrd. change (rd (iana_bytes ++ _) 3) with sec. change (rd (iana_bytes ++ _) 4) with mi.
    change (rd (iana_bytes ++ _) 5) with hr. change (rd (iana_bytes ++ _) 6) with md. change (rd (iana_bytes ++ _) 7) with mo.
    rewrite Hs. done.
  - pose proof (rtc_set_ready (mk_rtc_time sec mi hr md (mo - 1) (y - 1900)) (os_rtc s)) as Hrr.
    rewrite Hs, Hr in Hrr. cbn [fst] in Hrr. unfold get_rtc. cbn [os_rtc]. rewrite Hrr, (rtc_set_get _ _ _ Hs).
    change (mem_read iana_bytes 0 IANA_LEN) with (Some iana_bytes). cbn [mbind option_bind negb tm_sec tm_min tm_hour tm_mday tm_mon tm_year].
    change (check_iana iana_bytes =? PLDM_ERROR) with false. change (0 <? 0) with false. cbv iota.
    repeat (apply Forall_cons in Hb as [? Hb]). rewrite !u8_id by lia.
    replace (mo - 1 + 1) with mo by lia. replace (y - 1900 + 1900) with y by lia. done.
Qed.

(** The echo counts neither the manufacturer id nor the header of its response: for a request of
    505 to 507 bytes it passes its own check, reads behind the request and writes behind the
    512 bytes of the response. *)
Lemma echo_beyond {R} `{rtc_driver R} (s : oem_state (R := R)) hdr data behind id :
  505 <= 3 + zlen data <= 507 -> zlen behind = 3 ->
  exists resp, cmd_echo s hdr ((iana_bytes ++ data) ++ behind) (3 + zlen data) id
      = Some (s, (PLDM_SUCCESS, resp, 4 + zlen data)) /\
    resp = [PLDM_SUCCESS] ++ iana_bytes ++ data ++ behind /\ 508 < zlen resp.
Proof.
  intros Hn Hb. eexists. split; [|split; [reflexivity|rewrite !zlen_app; change (zlen [_]) with 1; change (zlen iana_bytes) with 3; lia]].
  unfold cmd_echo. rewrite <- app_assoc. change IANA_LEN with 3. pose proof (zlen_nonneg (data ++ behind)).
  rewrite (mem_read_Some (iana_bytes ++ data ++ behind) 0 3) by (rewrite ?zlen_app; change (zlen iana_bytes) with 3; pose proof (zlen_nonneg data); lia).
  rewrite slice_app_l by done. cbn [mbind option_bind]. change (slice iana_bytes 0 3) with iana_bytes.
  change (check_iana iana_bytes =? PLDM_ERROR) with false. cbv iota. change PLDM_MAX_DATA_SIZE with 512.
  destruct (Z.ltb_spec 512 (4 + 1 + (3 + zlen data))); [lia|].
  rewrite mem_read_Some by (rewrite ?zlen_app; change (zlen iana_bytes) with 3; lia).
  change 3 with (zlen iana_bytes) at 1. rewrite slice_app_r by done.
  rewrite slice_all by (rewrite ?zlen_app; lia). cbn [mbind option_bind].
  change (zlen iana_bytes) with 3. rewrite u16_id by lia. do 3 f_equal. lia.
Qed.

