(* ===== verification/Kcs.v ===== *)
(** Component [common/service/host/kcs.c]: the KCS interface, the port the host sends its IPMI
    requests to. Some requests are for the BIC itself, some are answered at once; the log
    entries, crash dumps and the version of the BIOS go to the BMC over PLDM by a worker, all others
    are bridged to the BMC. The BIOS version is kept as a structure of SMBIOS, too. *)

From S2P Require Import Prelude Bytes MctpCore IpmbCodec IpmiMsg PldmCore PldmBase PldmSmbios PldmEvent IpmiCore PldmOem.

(** ** Definitions *)

Definition KCS_BUFF_SIZE : Z := 256.
Definition KCS_MAX_CHANNEL_NUM : Z := 0x0F.
Definition MAX_KCS_WORK_COUNT : Z := 5.
Definition ADD_SEL_EVENT_DATA_MAX_LEN : Z := 18.
Definition CMD_SYS_INFO_FW_VERSION : Z := 0x01.
Definition CMD_DIMM_LOCATION : Z := 0x01.
Definition LENGTH_INDEX : Z := 0x05.
Definition VERIONS_START_INDEX : Z := 0x06.
Definition KCS_CC_TIMEOUT : Z := 0xC3.
Definition KCS_CC_LENGTH_EXCEEDED : Z := 0xC8.
Definition KCS_CC_UNSPECIFIED_ERROR : Z := 0xFF.
Definition KCS_NETFN_OEM_Q_REQ : Z := 0x36.
Definition KCS_CMD_APP_SET_SYS_INFO_PARAMS : Z := 0x58.
Definition KCS_CMD_STORAGE_ADD_SEL : Z := 0x44.
Definition CMD_OEM_CRASH_DUMP : Z := 0x70.
Definition CMD_OEM_POST_START : Z := 0x73.
Definition CMD_OEM_POST_END : Z := 0x74.
Definition CMD_OEM_Q_SET_DIMM_INFO : Z := 0x12.
Definition KCS_BMC_IPMB : Z := 0x02.

(** ** The BIOS version as a structure *)

(** [realloc] to [n] bytes; [heap] is what the memory behind the old block holds. *)
Definition realloc_block (n : Z) (heap text : list Z) : list Z := take (Z.to_nat n) (text ++ heap).

(** The index of the string added, and the block. *)
Definition init_text_string_value (heap : Z -> option (list Z)) (new_text_string text : list Z)
    : option (Z * list Z) :=
  original_size ← pldm_smbios_get_text_strings_size (Some text);
  n ← strlen new_text_string 0;
  let new_text_string_len := u8 n in
  let start := if original_size =? 2 then 0 else u8 (original_size - 1) in
  let size := original_size + new_text_string_len + 1 in
  match heap size with
  | None => Some (0, text)
  | Some h =>
      str ← mem_read new_text_string 0 new_text_string_len;
      text ← mem_write (realloc_block size h text) start str;
      text ← mem_write text (start + new_text_string_len) [0];
      text ← mem_write text (start + new_text_string_len + 1) [0];
      count ← pldm_smbios_get_text_strings_count (Some text);
      Some (count, text)
  end.

Definition not_available : list Z := [78; 47; 65; 0].

(** [init_bios_information] of kcs.c, with the result code. [first_ok]: the first allocation;
    [heap i]: the i-th [realloc]. *)
Definition kcs_init_bios_information (first_ok : bool) (heap : Z -> Z -> option (list Z)) (bios_version : list Z)
    : option (smbios_bios_information * Z) :=
  if negb first_ok then Some (mk_bios_info SMBIOS_BIOS_INFORMATION 0 0 0 0 0 0 0 0 0 0 0 0 0 0 None, -1)
  else
    '(vendor, text) ← init_text_string_value (heap 0) not_available [0; 0];
    '(version, text) ← init_text_string_value (heap 1) bios_version text;
    '(date, text) ← init_text_string_value (heap 2) not_available text;
    Some (mk_bios_info SMBIOS_BIOS_INFORMATION 0x12 0x0000 vendor version 0 date 0 0 0 0 0 0 0 0 (Some text), 0).

(** The allocations of [update_bios_information]: the structure, the string, its first text
    block, the three [realloc]s, and the block of [pldm_smbios_set_bios_information]. *)
Record bios_heap := mk_bios_heap {
  bh_info : bool; bh_str : bool; bh_text : bool; bh_realloc : Z -> Z -> option (list Z); bh_set : bool }.

(** [mem] is the memory from the version on. Without the first two blocks the exit path reads
    [text_strings] of a structure that is not there or was not written. *)
Definition update_bios_information (H : bios_heap) (mem : list Z) (len : Z) (st : smbios_state)
    : option (smbios_state * Z) :=
  if negb (bh_info H && bh_str H) then None
  else
    version ← mem_read mem 0 len;
    '(info, rc) ← kcs_init_bios_information (bh_text H) (bh_realloc H) (version ++ [0]);
    if rc <? 0 then Some (st, rc) else pldm_smbios_set_bios_information (bh_set H) info st.

(** ** The state *)

(** The function of a work item. *)
Inductive kcs_handler :=
  | kcs_add_sel_handler | kcs_crash_dump_handler | kcs_oem_post_start_end_handler | kcs_bios_fw_version_handler.

(** [struct kcs_work_info]. *)
Record kcs_work := mk_kcs_work { kw_handler : kcs_handler; kw_ibuf : list Z; kw_data_length : Z }.

(** [obmf_ipmi_rsp_ctx]. *)
Record obmf_rsp := mk_obmf_rsp { or_netfn_lun : Z; or_cmd : Z; or_cc : Z; or_data : list Z; or_data_len : Z }.

(** The variables of the file, the messages of the thread that live on from one request to the
    next, and what it shares with others: the structures of SMBIOS and the queue of the IPMI
    service. [ks_work_q] is the work queue. *)
Record kcs_state := mk_kcs {
  ks_ok : bool; ks_work_count : Z; ks_work_q : list kcs_work;
  ks_obmf : obmf_rsp; ks_obmf_sem : Z;
  ks_current_msg : ipmi_msg; ks_bridge_msg : ipmi_msg;
  ks_smbios : smbios_state; ks_ipmi_queue : list ipmi_msg }.

Definition set_ks_ok (b : bool) (s : kcs_state) : kcs_state :=
  mk_kcs b (ks_work_count s) (ks_work_q s) (ks_obmf s) (ks_obmf_sem s) (ks_current_msg s) (ks_bridge_msg s) (ks_smbios s) (ks_ipmi_queue s).
Definition set_ks_work (n : Z) (q : list kcs_work) (s : kcs_state) : kcs_state :=
  mk_kcs (ks_ok s) n q (ks_obmf s) (ks_obmf_sem s) (ks_current_msg s) (ks_bridge_msg s) (ks_smbios s) (ks_ipmi_queue s).
Definition set_ks_obmf (r : obmf_rsp) (n : Z) (s : kcs_state) : kcs_state :=
  mk_kcs (ks_ok s) (ks_work_count s) (ks_work_q s) r n (ks_current_msg s) (ks_bridge_msg s) (ks_smbios s) (ks_ipmi_queue s).
Definition set_ks_current (m : ipmi_msg) (q : list ipmi_msg) (s : kcs_state) : kcs_state :=
  mk_kcs (ks_ok s) (ks_work_count s) (ks_work_q s) (ks_obmf s) (ks_obmf_sem s) m (ks_bridge_msg s) (ks_smbios s) q.
Definition set_ks_bridge (m : ipmi_msg) (s : kcs_state) : kcs_state :=
  mk_kcs (ks_ok s) (ks_work_count s) (ks_work_q s) (ks_obmf s) (ks_obmf_sem s) (ks_current_msg s) m (ks_smbios s) (ks_ipmi_queue s).
Definition set_ks_smbios (b : smbios_state) (s : kcs_state) : kcs_state :=
  mk_kcs (ks_ok s) (ks_work_count s) (ks_work_q s) (ks_obmf s) (ks_obmf_sem s) (ks_current_msg s) (ks_bridge_msg s) b (ks_ipmi_queue s).

Definition get_kcs_ok (s : kcs_state) : bool := ks_ok s.
Definition reset_kcs_ok : kcs_state -> kcs_state := set_ks_ok false.

(** How the file is compiled: over OBMF, with [ENABLE_PLDM] but not [ENABLE_OEM_PLDM], or neither.
    [MAX_IPMB_ID], which would compile in the way over IPMB, is defined nowhere. *)
Record kcs_config := mk_kcs_config { kc_obmf : bool; kc_pldm : bool }.

(** The functions of the platform. *)
Record kcs_platform := mk_kcs_platform {
  pal_request_msg_to_BIC_from_HOST : Z -> Z -> bool;
  pal_immediate_respond_from_HOST : Z -> Z -> bool;
  pal_record_bios_fw_version : list Z -> Z -> Z;
  pal_set_dimm_presence_status : list Z -> bool }.

(** What comes from outside while one request is served: the result of a write to the port, the
    allocations of the response buffer, of the work item (with what the memory held before) and of
    the response bridged back, whether the work is scheduled, the lock of the IPMI queue; the code
    of [obmf_ipmi_send], a response that comes in time; and the port of the BMC with the attempts
    of [mctp_pldm_read]. *)
Record kcs_env := mk_kcs_env {
  ke_write : list Z -> Z; ke_buf_ok : bool; ke_work_mem : option (list Z); ke_sched_ok : bool;
  ke_rsp_ok : bool; ke_lock : Z -> bool;
  ke_obmf_send : Z; ke_obmf_rsp : option (Z * Z * Z * option (list Z) * Z);
  ke_attempt : Z -> read_attempt; ke_medium : Z -> Z; ke_port : option mctp_port }.

Inductive kcs_out :=
  | KcsWrite (buf : list Z)
  | KcsObmfSend (netfn_lun cmd : Z) (data : list Z)
  | KcsBridge (msg : ipmi_msg). (** [pldm_send_ipmi_request] *)

(** The callback; [data] may be a null pointer. *)
Definition kcs_obmf_ipmi_rsp_cb (netfn_lun cmd cc : Z) (data : option (list Z)) (data_len : Z) (s : kcs_state)
    : option kcs_state :=
  let n := Z.min data_len KCS_BUFF_SIZE in
  d ← match data with
      | Some d => if 0 <? n then src ← mem_read d 0 n; mem_write (or_data (ks_obmf s)) 0 src
                  else Some (or_data (ks_obmf s))
      | None => Some (or_data (ks_obmf s))
      end;
  Some (set_ks_obmf (mk_obmf_rsp netfn_lun cmd cc d n) (Z.min 1 (ks_obmf_sem s + 1)) s).

Section request.
Context {PC : PldmConfig} (cfg : kcs_config) (P : kcs_platform) (E : kcs_env) (index : Z).

Definition kcs_write (buf : list Z) : Z := let rc := ke_write E buf in if rc <? 0 then rc else 0.

(** A part of the loop: the state, what was sent, and whether the loop goes on; [None] is
    undefined behaviour. *)
Definition kcs_stage : Type := kcs_state -> option (kcs_state * list kcs_out * bool).

Definition kcs_skip : kcs_stage := fun s => Some (s, [], true).
Definition kcs_emit (out : list kcs_out) (more : bool) : kcs_stage := fun s => Some (s, out, more).
Definition kcs_then (a b : kcs_stage) : kcs_stage := fun s =>
  '(s, out, more) ← a s;
  if (more : bool) then '(s, out', more) ← b s; Some (s, out ++ out', more) else Some (s, out, false).
Definition kcs_if (c : bool) (a : kcs_stage) : kcs_stage := if c then a else kcs_skip.

(** The response buffer starts with the header of the response; [cc] its completion code. *)
Definition kcs_header (netfn cmd : Z) : list Z := [u8 ((netfn .| 0x01) .<< 2); cmd].

(** The last guard before a POST event is scheduled: its answer is written here. *)
Definition is_post_event (ibuf : list Z) : bool :=
  (rd ibuf 0 =? NETFN_OEM_REQ .<< 2) && ((rd ibuf 1 =? CMD_OEM_POST_START) || (rd ibuf 1 =? CMD_OEM_POST_END)).

Definition schedule_kcs_work_handle (handler : kcs_handler) (hdr ibuf : list Z) (data_length : Z) : kcs_stage := fun s =>
  match ke_work_mem E with
  | None => Some (s, [], false)
  | Some heap =>
      src ← mem_read ibuf 0 data_length;
      mem ← mem_write heap 0 src;
      let refused := [KcsWrite (hdr ++ [KCS_CC_TIMEOUT])] in
      let answer := hdr ++ [CC_SUCCESS] in
      if MAX_KCS_WORK_COUNT <=? ks_work_count s then Some (s, refused, false)
      else
        let out := if is_post_event mem then [KcsWrite answer] else [] in
        if is_post_event mem && negb (kcs_write answer =? 0) then Some (s, out, false)
        else if negb (ke_sched_ok E) then Some (s, out ++ refused, false)
        else Some (set_ks_work (u8 (ks_work_count s + 1))
                     (ks_work_q s ++ [mk_kcs_work handler mem data_length]) s, out, true)
  end.

(** The requests for the BIC: [InF_source], the network function and so on of the message, whose
    other fields are those of the last one. *)
Definition kcs_to_bic (netfn cmd : Z) (ibuf : list Z) (rc : Z) (s : kcs_state) : option kcs_state :=
  let data_len := u16 (rc - 2) in
  data ← mem_read ibuf 2 data_len;
  d ← mem_write (im_data (ks_current_msg s)) 0 data;
  let msg := set_im_data d (set_im_data_len data_len (set_im_cmd cmd (set_im_netfn netfn
               (set_im_InF_source (u8 (HOST_KCS_1 + index)) (ks_current_msg s))))) in
  let '(q, _) := notify_ipmi_client (ke_lock E) msg (ks_ipmi_queue s) in
  Some (set_ks_current msg q s).

(** The requests answered at once. *)
Definition kcs_immediate (netfn cmd : Z) (ibuf : list Z) (rc : Z) : kcs_stage :=
  let hdr := kcs_header netfn cmd in
  kcs_if (pal_immediate_respond_from_HOST P netfn cmd)
    (if (netfn =? NETFN_STORAGE_REQ) && (cmd =? KCS_CMD_STORAGE_ADD_SEL) then
       if negb (rc =? ADD_SEL_EVENT_DATA_MAX_LEN) then kcs_emit [KcsWrite (hdr ++ [KCS_CC_LENGTH_EXCEEDED])] false
       else kcs_then (kcs_if (kc_pldm cfg) (schedule_kcs_work_handle kcs_add_sel_handler hdr ibuf rc))
              (kcs_emit [KcsWrite (hdr ++ [CC_SUCCESS; 0x00; 0x00])] true)
     else kcs_emit [KcsWrite (hdr ++ [CC_SUCCESS])] true).

Definition kcs_crash_dump (netfn cmd : Z) (ibuf : list Z) (rc : Z) : kcs_stage :=
  let hdr := kcs_header netfn cmd in
  kcs_if (kc_pldm cfg && (netfn =? NETFN_OEM_REQ) && (cmd =? CMD_OEM_CRASH_DUMP))
    (kcs_then (schedule_kcs_work_handle kcs_crash_dump_handler hdr ibuf rc)
       (kcs_emit [KcsWrite (hdr ++ [CC_SUCCESS]
          ++ if (rd ibuf 6 =? 0x80) && (rd ibuf 10 =? 0x01) then [0x02] else [])] true)).

Definition kcs_post (netfn cmd : Z) (ibuf : list Z) (rc : Z) : kcs_stage :=
  kcs_if (kc_pldm cfg && (netfn =? NETFN_OEM_REQ) && ((cmd =? CMD_OEM_POST_START) || (cmd =? CMD_OEM_POST_END)))
    (schedule_kcs_work_handle kcs_oem_post_start_end_handler (kcs_header netfn cmd) ibuf rc).

Definition kcs_bios_version (netfn cmd : Z) (ibuf : list Z) (rc : Z) : kcs_stage :=
  let hdr := kcs_header netfn cmd in
  kcs_if ((netfn =? NETFN_APP_REQ) && (cmd =? KCS_CMD_APP_SET_SYS_INFO_PARAMS) && (rd ibuf 2 =? CMD_SYS_INFO_FW_VERSION))
    (if pal_record_bios_fw_version P ibuf (u8 rc) =? -1
     then kcs_emit [KcsWrite (hdr ++ [KCS_CC_UNSPECIFIED_ERROR])] false
     else kcs_if (kc_pldm cfg)
            (kcs_then (schedule_kcs_work_handle kcs_bios_fw_version_handler hdr ibuf rc)
               (kcs_emit [KcsWrite (hdr ++ [CC_SUCCESS])] true))).

Definition kcs_dimm (netfn cmd : Z) (ibuf : list Z) : kcs_stage :=
  kcs_if ((netfn =? KCS_NETFN_OEM_Q_REQ) && (cmd =? CMD_OEM_Q_SET_DIMM_INFO) && (rd ibuf 6 =? CMD_DIMM_LOCATION))
    (if pal_set_dimm_presence_status P ibuf then kcs_skip
     else kcs_emit [KcsWrite (kcs_header netfn cmd ++ [KCS_CC_UNSPECIFIED_ERROR])] false).

(** The way to the BMC over OBMF: the request is sent, and the response is that of the callback
    before the semaphore was given. *)
Definition kcs_obmf_bridge (netfn cmd : Z) (ibuf : list Z) (rc : Z) (s : kcs_state)
    : option (kcs_state * list kcs_out) :=
  let netfn_lun := u8 (netfn .<< 2) in
  data ← mem_read ibuf 2 (if 2 <? rc then rc - 2 else 0);
  let sent := [KcsObmfSend netfn_lun cmd data] in
  if ke_obmf_send E <? 0 then Some (s, sent)
  else
    s ← (if ks_obmf_sem s =? 0 then
           match ke_obmf_rsp E with
           | Some (n, c, cc, d, l) => kcs_obmf_ipmi_rsp_cb n c cc d l s
           | None => Some s
           end
         else Some s);
    if ks_obmf_sem s =? 0 then Some (s, sent)
    else
      let r := ks_obmf s in
      let s := set_ks_obmf r (ks_obmf_sem s - 1) s in
      if negb (ke_rsp_ok E) then Some (s, sent)
      else
        d ← mem_read (or_data r) 0 (or_data_len r);
        Some (s, sent ++ if pal_immediate_respond_from_HOST P netfn cmd then []
                         else [KcsWrite ([u8 (((or_netfn_lun r .>> 2) .| 0x01) .<< 2); or_cmd r; or_cc r] ++ d)]).

(** The way over MCTP and PLDM. [None] in the result: the request never returns. *)
Definition kcs_bridge (netfn cmd : Z) (ibuf : list Z) (rc : Z) (s : kcs_state)
    : option (option (kcs_state * list kcs_out)) :=
  let data_len := u16 (rc - 2) in
  data ← mem_read ibuf 2 data_len;
  d ← mem_write (im_data (ks_bridge_msg s)) 0 data;
  let msg := set_im_data d (set_im_cmd cmd (set_im_netfn netfn (set_im_InF_target PLDM
               (set_im_InF_source (u8 (HOST_KCS_1 + index)) (set_im_seq_source 0xff
                 (set_im_data_len data_len (ks_bridge_msg s))))))) in
  res ← pldm_send_ipmi_request true true (ke_attempt E) (ke_medium E) (ke_port E) msg;
  match res with
  | None => Some None
  | Some (_, rsp) =>
      let s := set_ks_bridge rsp s in
      let sent := [KcsBridge msg] in
      if negb (ke_rsp_ok E) then Some (Some (s, sent))
      else if negb (im_netfn rsp =? (netfn .| 0x01)) || negb (im_cmd rsp =? cmd)
      then Some (Some (s, sent ++ [KcsWrite (kcs_header netfn cmd ++ [KCS_CC_UNSPECIFIED_ERROR])]))
      else
        d ← mem_read (im_data rsp) 0 (im_data_len rsp);
        Some (Some (s, sent ++ if pal_immediate_respond_from_HOST P netfn cmd then []
                               else [KcsWrite (kcs_header (im_netfn rsp) (im_cmd rsp) ++ [im_completion_code rsp] ++ d)]))
  end.

(** What every request the BIC does not keep goes through first. *)
Definition kcs_default (netfn cmd : Z) (ibuf : list Z) (rc : Z) : kcs_stage :=
  kcs_then (kcs_immediate netfn cmd ibuf rc)
    (kcs_then (kcs_crash_dump netfn cmd ibuf rc)
      (kcs_then (kcs_post netfn cmd ibuf rc)
        (kcs_then (kcs_bios_version netfn cmd ibuf rc) (kcs_dimm netfn cmd ibuf)))).

(** A request of [rc] bytes in [ibuf]. *)
Definition kcs_request (netfn cmd : Z) (ibuf : list Z) (rc : Z) (s : kcs_state)
    : option (option (kcs_state * list kcs_out)) :=
  if pal_request_msg_to_BIC_from_HOST P netfn cmd
  then s ← kcs_to_bic netfn cmd ibuf rc s; Some (Some (s, []))
  else if negb (ke_buf_ok E) then Some (Some (s, []))
  else
    '(s, out, more) ← kcs_default netfn cmd ibuf rc s;
    if negb more then Some (Some (s, out))
    else if kc_obmf cfg then '(s, out') ← kcs_obmf_bridge netfn cmd ibuf rc s; Some (Some (s, out ++ out'))
    else if kc_pldm cfg then Some (Some (s, out))
    else
      r ← kcs_bridge netfn cmd ibuf rc s;
      Some (match r with Some (s, out') => Some (s, out ++ out') | None => None end).

(** A turn of [kcs_read_task] in which the port gave [rc] bytes, or an error; what is behind them
    in [ibuf] is what the buffer held before. *)
Definition kcs_read_turn (ibuf : list Z) (rc : Z) (s : kcs_state) : option (option (kcs_state * list kcs_out)) :=
  if rc <? 0 then Some (Some (s, []))
  else kcs_request (rd ibuf 0 .>> 2) (rd ibuf 1) ibuf rc (set_ks_ok true s).
End request.

(** ** The worker *)

Section worker.
Context (read : Z -> pldm_msg -> list Z -> Z -> option read_result) (tid : Z) (B : bmc_route).

Definition send_bios_version_to_bmc (malloc_ok : bool) (stack : Z) (bios_version : list Z) :=
  write_file read B malloc_ok stack 1 2 BIOS_VERSION bios_version.
Definition send_crashdump_to_bmc (malloc_ok : bool) (stack : Z) (data : list Z) :=
  write_file read B malloc_ok stack 1 2 CRASH_DUMP data.

(** The work item [w] runs: the structures of SMBIOS after it, the messages sent, and whether it
    came to its end. [now], [stack], [malloc_ok] and [H] as in the functions called. *)
Definition kcs_work_run (now stack : Z) (malloc_ok : bool) (H : bios_heap) (w : kcs_work) (b : smbios_state)
    : option (smbios_state * list (Z * pldm_msg) * bool) :=
  let done_ b (r : list (Z * pldm_msg) * option Z) :=
    Some (b, fst r, match snd r with Some _ => true | None => false end) in
  match kw_handler w with
  | kcs_add_sel_handler =>
      r ← pldm_platform_event_message_req read tid now stack (bmc_inst B) (bmc_ext B) 0xFB
            (drop 4 (kw_ibuf w)) (u8 (kw_data_length w - 4));
      done_ b r
  | kcs_crash_dump_handler =>
      data ← mem_read (kw_ibuf w) 2 (u8 (kw_data_length w - 2));
      r ← send_crashdump_to_bmc malloc_ok stack data; done_ b r
  | kcs_oem_post_start_end_handler =>
      let event := if rd (kw_ibuf w) 1 =? CMD_OEM_POST_START then POST_STARTED else POST_ENDED in
      r ← send_event_log_to_bmc read B malloc_ok stack [event; EVENT_ASSERTED; 0; 0; 0]; done_ b r
  | kcs_bios_fw_version_handler =>
      let length := rd (kw_ibuf w) LENGTH_INDEX in
      '(b, _) ← update_bios_information H (drop (Z.to_nat VERIONS_START_INDEX) (kw_ibuf w)) length b;
      version ← mem_read (kw_ibuf w) VERIONS_START_INDEX length;
      r ← send_bios_version_to_bmc malloc_ok stack version; done_ b r
  end.

(** The thread of the queue takes the next item; one whose send never returns is not counted off. *)
Definition kcs_worker (now stack : Z) (malloc_ok : bool) (H : bios_heap) (s : kcs_state)
    : option (kcs_state * list (Z * pldm_msg) * bool) :=
  match ks_work_q s with
  | [] => Some (s, [], true)
  | w :: q =>
      '(b, out, ended) ← kcs_work_run now stack malloc_ok H w (ks_smbios s);
      Some (set_ks_smbios b (set_ks_work (if (ended : bool) then u8 (ks_work_count s - 1) else ks_work_count s) q s), out, ended)
  end.
End worker.

(** ** Start-up *)

(** The channels, each [Some] of its index when its device is found and its thread is started;
    [None]: no memory, or too many. *)
Definition kcs_device_init (malloc_ok : bool) (found : list bool) : option (list (option Z)) :=
  if negb malloc_ok then None
  else if KCS_MAX_CHANNEL_NUM <? u8 (zlen found) then None
  else Some (imap (fun i (f : bool) => if f then Some (Z.of_nat i) else None) found).

(** ** Lemmas: building the text strings *)

Definition heap_ok (heap : Z -> option (list Z)) : Prop := forall n, exists h, heap n = Some h /\ n <= zlen h.

Lemma append_writes mem a s : 0 <= a -> a + zlen s + 2 <= zlen mem ->
  (t ← mem_write mem a s; t ← mem_write t (a + zlen s) [0]; mem_write t (a + zlen s + 1) [0])
    = Some (patch mem a (s ++ [0; 0])).
Proof.
  intros Ha Hl. pose proof (zlen_nonneg s).
  rewrite mem_write_patch by lia. cbn [mbind option_bind].
  rewrite mem_write_patch by (rewrite ?zlen_patch; change (zlen [0]) with 1; lia). cbn [mbind option_bind].
  rewrite patch_patch by (change (zlen [0]) with 1; lia).
  assert (Hz : zlen (s ++ [0]) = zlen s + 1) by by rewrite zlen_app.
  rewrite <- Z.add_assoc, <- Hz. rewrite mem_write_patch by (rewrite ?zlen_patch, ?Hz by (change (zlen [0]) with 1; lia); change (zlen [0]) with 1; lia).
  rewrite patch_patch by (rewrite ?Hz; change (zlen [0]) with 1; lia). by rewrite <- app_assoc.
Qed.

Lemma string_block s : string_ok s -> zlen s < 256 ->
  strlen (s ++ [0]) 0 = Some (zlen s) /\ mem_read (s ++ [0]) 0 (zlen s) = Some s.
Proof.
  intros [_ Hs] Hl. pose proof (zlen_nonneg s). split.
  - exact (strlen_mid [] s [] Hs).
  - rewrite mem_read_Some by (rewrite ?zlen_app; change (zlen [0]) with 1; lia). rewrite slice_app_l by lia. by rewrite slice_all.
Qed.

(** The first string goes to the start of the block, which then has a byte too many. *)
Lemma init_text_first heap s :
  heap_ok heap -> string_ok s -> zlen s < 254 ->
  exists j, init_text_string_value heap (s ++ [0]) [0; 0] = Some (1, text_block [s] ++ [j]).
Proof.
  intros Hh Hs Hl. destruct (string_block s Hs) as [Hlen Hrd]; [lia|]. pose proof (zlen_nonneg s).
  unfold init_text_string_value. change (pldm_smbios_get_text_strings_size (Some [0; 0])) with (Some 2).
  rewrite Hlen. cbn [mbind option_bind]. rewrite u8_id by lia. change (2 =? 2) with true. cbv iota.
  destruct (Hh (2 + zlen s + 1)) as (h & Eh & Hhl). rewrite Eh, Hrd. cbn [mbind option_bind].
  set (mem := realloc_block (2 + zlen s + 1) h [0; 0]).
  assert (Hm : zlen mem = zlen s + 3).
  { subst mem. unfold realloc_block, zlen in *. rewrite length_take, length_app. cbn [length]. lia. }
  pose proof (append_writes mem 0 s) as Hw. cbn [mbind option_bind] in Hw. rewrite Z.add_0_l in Hw.
  destruct (mem_write mem 0 s) as [t1|]; [|exfalso; specialize (Hw ltac:(lia) ltac:(lia)); discriminate]. cbn [mbind option_bind] in *.
  destruct (mem_write t1 (0 + zlen s) [0]) as [t2|] eqn:E2; rewrite Z.add_0_l in E2; rewrite E2 in Hw;
    [|exfalso; specialize (Hw ltac:(lia) ltac:(lia)); discriminate].
  cbn [mbind option_bind] in *. rewrite Z.add_0_l, Hw by lia. cbn [mbind option_bind].
  assert (Hp : exists j, patch mem 0 (s ++ [0; 0]) = text_block [s] ++ [j]).
  { unfold patch. change (Z.to_nat 0) with 0%nat. rewrite take_0. cbn [app Nat.add].
    assert (Hd : length (drop (length (s ++ [0; 0])) mem) = 1%nat)
      by (rewrite length_drop, length_app; unfold zlen in *; cbn [length]; lia).
    destruct (drop _ mem) as [|j [|? ?]]; try done. exists j. cbn [text_block]. by rewrite <- !app_assoc. }
  destruct Hp as (j & ->). exists j.
  rewrite text_count_rest; [done|done|by repeat constructor; apply Hs|].
  rewrite zlen_text_block. change (zlen (text_block [])) with 1. lia.
Qed.

(** A further string goes behind the others, over the 0 that ended them. *)
Lemma init_text_next heap s ss rest :
  heap_ok heap -> string_ok s -> ss <> [] -> Forall string_ok ss -> zlen (text_block ss) + zlen s + 1 < 256 ->
  init_text_string_value heap (s ++ [0]) (text_block ss ++ rest) = Some (zlen ss + 1, text_block (ss ++ [s])).
Proof.
  intros Hh Hs Hne Hss Hl. pose proof (zlen_nonneg s). pose proof (text_block_pos ss). pose proof (text_block_count _ Hss).
  pose proof (zlen_nonneg ss). destruct (string_block s Hs) as [Hlen Hrd]; [lia|].
  assert (H3 : 3 <= zlen (text_block ss)).
  { destruct ss as [|t ss]; [done|]. rewrite zlen_cons in *. pose proof (zlen_nonneg ss). lia. }
  unfold init_text_string_value. rewrite text_size_rest by (done || lia).
  rewrite Hlen. cbn [mbind option_bind]. rewrite !u8_id by lia.
  destruct (Z.eqb_spec (zlen (text_block ss)) 2); [lia|].
  destruct (Hh (zlen (text_block ss) + zlen s + 1)) as (h & Eh & Hhl). rewrite Eh, Hrd. cbn [mbind option_bind].
  set (sz := zlen (text_block ss) + zlen s + 1). set (mem := realloc_block sz h (text_block ss ++ rest)).
  pose proof (zlen_nonneg rest).
  assert (Hm : zlen mem = sz).
  { subst mem sz. unfold realloc_block, zlen in *. rewrite length_take, !length_app. lia. }
  pose proof (append_writes mem (zlen (text_block ss) - 1) s ltac:(lia) ltac:(subst sz; lia)) as Hw.
  destruct (mem_write mem _ s) as [t1|]; [|discriminate]. cbn [mbind option_bind] in *.
  destruct (mem_write t1 _ [0]) as [t2|]; [|discriminate]. cbn [mbind option_bind] in *. rewrite Hw. cbn [mbind option_bind].
  assert (Hp : patch mem (zlen (text_block ss) - 1) (s ++ [0; 0]) = text_block (ss ++ [s]) ++ []).
  { rewrite app_nil_r, text_block_snoc. unfold patch.
    rewrite (drop_ge mem) by (rewrite length_app; unfold zlen in *; cbn [length]; lia). rewrite app_nil_r. f_equal.
    subst mem. unfold realloc_block. rewrite take_take, <- app_assoc, take_app_le by (unfold zlen in *; lia).
    f_equal. unfold zlen in *. lia. }
  rewrite Hp. rewrite text_count_rest; [cbn [mbind option_bind]|by destruct ss|by apply Forall_app; repeat constructor; try apply Hs|].
  - by rewrite app_nil_r, zlen_app.
  - rewrite text_block_snoc, !zlen_app. change (zlen [0; 0]) with 2. unfold zlen in *. rewrite length_take. lia.
Qed.

(** "N/A" *)
Definition na : list Z := [78; 47; 65].

Lemma na_ok : string_ok na.
Proof. split; [done|by repeat constructor]. Qed.

Definition bios_info_of (v : list Z) : smbios_bios_information :=
  mk_bios_info SMBIOS_BIOS_INFORMATION 0x12 0 1 2 0 3 0 0 0 0 0 0 0 0 (Some (text_block [na; v; na])).

Definition bios_heap_ok (H : bios_heap) : Prop :=
  bh_info H = true /\ bh_str H = true /\ bh_text H = true /\ bh_set H = true /\ forall i, heap_ok (bh_realloc H i).

Lemma zlen_bios_text v : zlen (text_block [na; v; na]) = zlen v + 10.
Proof. rewrite !zlen_text_block. change (zlen na) with 3. change (zlen (text_block [])) with 1. lia. Qed.

Lemma kcs_init_bios_information_ok heap v :
  (forall i, heap_ok (heap i)) -> string_ok v -> zlen v <= 245 ->
  kcs_init_bios_information true heap (v ++ [0]) = Some (bios_info_of v, 0).
Proof.
  intros Hh Hv Hl. pose proof na_ok as Hna. pose proof (zlen_nonneg v). unfold kcs_init_bios_information. change not_available with (na ++ [0]). cbn [negb].
  destruct (init_text_first (heap 0) na (Hh 0) Hna) as (j & E); [done|]. rewrite E. cbn [mbind option_bind].
  rewrite init_text_next; try done; [|by repeat constructor|rewrite zlen_text_block; change (zlen na) with 3; change (zlen (text_block [])) with 1; lia].
  cbn [mbind option_bind]. change ([na] ++ [v]) with [na; v]. rewrite <- (app_nil_r (text_block [na; v])).
  rewrite init_text_next; try done; [by repeat constructor; try apply Hv|].
  rewrite !zlen_text_block. change (zlen na) with 3. change (zlen (text_block [])) with 1. lia.
Qed.

Lemma update_bios_information_ok H v rest st :
  bios_heap_ok H -> string_ok v -> zlen v <= 245 ->
  update_bios_information H (v ++ rest) (zlen v) st = Some (mk_smbios (bios_info_of v) (sm_count st) (sm_allocated st), 0).
Proof.
  intros (H1 & H2 & H3 & H4 & H5) Hv Hl. unfold update_bios_information. rewrite H1, H2. cbn [andb negb].
  pose proof (zlen_nonneg v). pose proof (zlen_nonneg rest). rewrite mem_read_Some by (rewrite ?zlen_app; lia).
  rewrite slice_app_l, slice_all by lia. cbn [mbind option_bind]. rewrite H3, kcs_init_bios_information_ok by done.
  cbn [mbind option_bind]. change (0 <? 0) with false. cbv iota. rewrite H4.
  apply (set_bios_information_ok _ [na; v; na]); try done; [by repeat constructor; try apply na_ok; try apply Hv|].
  rewrite zlen_bios_text. lia.
Qed.

(** ** Lemmas: the work queue *)

(** Work that fits is queued, and what is written meanwhile is the answer to a POST event. *)
Lemma schedule_ok E h hdr ibuf rc heap s :
  ke_work_mem E = Some heap -> ke_sched_ok E = true -> zlen heap = KCS_BUFF_SIZE -> zlen ibuf = KCS_BUFF_SIZE ->
  0 <= rc <= KCS_BUFF_SIZE -> 0 <= ks_work_count s < MAX_KCS_WORK_COUNT -> is_post_event (patch heap 0 (slice ibuf 0 rc)) = false ->
  schedule_kcs_work_handle E h hdr ibuf rc s =
    Some (set_ks_work (ks_work_count s + 1) (ks_work_q s ++ [mk_kcs_work h (patch heap 0 (slice ibuf 0 rc)) rc]) s, [], true).
Proof.
  intros Hm Hs Hh Hi Hr Hc Hp. unfold KCS_BUFF_SIZE, MAX_KCS_WORK_COUNT in *. unfold schedule_kcs_work_handle. rewrite Hm.
  assert (Hz : zlen (slice ibuf 0 rc) = rc) by (apply zlen_slice; lia).
  rewrite mem_read_Some by lia. cbn [mbind option_bind]. rewrite mem_write_patch by lia. cbn [mbind option_bind].
  unfold MAX_KCS_WORK_COUNT. destruct (Z.leb_spec 5 (ks_work_count s)); [lia|]. rewrite Hp, Hs. cbn [andb negb].
  by rewrite u8_id by lia.
Qed.

(** When five items wait, the host is told to try again and nothing changes. *)
Lemma schedule_full E h hdr ibuf rc heap s :
  ke_work_mem E = Some heap -> zlen heap = KCS_BUFF_SIZE -> zlen ibuf = KCS_BUFF_SIZE -> 0 <= rc <= KCS_BUFF_SIZE ->
  MAX_KCS_WORK_COUNT <= ks_work_count s ->
  schedule_kcs_work_handle E h hdr ibuf rc s = Some (s, [KcsWrite (hdr ++ [KCS_CC_TIMEOUT])], false).
Proof.
  intros Hm Hh Hi Hr Hc. unfold KCS_BUFF_SIZE in *. unfold schedule_kcs_work_handle. rewrite Hm.
  assert (Hz : zlen (slice ibuf 0 rc) = rc) by (apply zlen_slice; lia).
  rewrite mem_read_Some by lia. cbn [mbind option_bind]. rewrite mem_write_patch by lia. cbn [mbind option_bind].
  by destruct (Z.leb_spec MAX_KCS_WORK_COUNT (ks_work_count s)); [|lia].
Qed.

Lemma patch_0_app (c d : list Z) : patch c 0 d = d ++ drop (length d) c.
Proof. unfold patch. change (Z.to_nat 0) with 0%nat. by rewrite take_0. Qed.

Lemma slice_app_front a b n : zlen a <= n -> slice (a ++ b) 0 n = a ++ slice b 0 (n - zlen a).
Proof.
  intros Hn. unfold slice. change (Z.to_nat 0) with 0%nat. rewrite !drop_0, take_app_ge by (unfold zlen in *; lia).
  do 2 f_equal. unfold zlen in *. lia.
Qed.

(** ** The BIOS version *)

(** The request of the host that tells it. *)
Definition bios_version_request (set_selector encoding : Z) (v : list Z) : list Z :=
  [NETFN_APP_REQ .<< 2; KCS_CMD_APP_SET_SYS_INFO_PARAMS; CMD_SYS_INFO_FW_VERSION; set_selector; encoding; zlen v] ++ v.

Lemma zlen_bios_version_request a b v : zlen (bios_version_request a b v) = 6 + zlen v.
Proof. unfold bios_version_request. by rewrite zlen_app. Qed.

(** The work item of that request: what the worker makes of it. *)
Lemma bios_version_work read tid B now stack malloc_ok H a b v rest rc st ret rbuf :
  bios_heap_ok H -> string_ok v -> zlen v <= 245 -> malloc_ok = true ->
  read (bmc_inst B) (write_file_msg B BIOS_VERSION v) [stack] 1 = Some (ReadReturn ret rbuf) ->
  kcs_work_run read tid B now stack malloc_ok H
    (mk_kcs_work kcs_bios_fw_version_handler (bios_version_request a b v ++ rest) rc) st =
  Some (mk_smbios (bios_info_of v) (sm_count st) (sm_allocated st), [(bmc_inst B, write_file_msg B BIOS_VERSION v)], true).
Proof.
  intros HH Hv Hl -> Hread. unfold kcs_work_run, bios_version_request. cbn [kw_handler kw_ibuf].
  rewrite <- app_assoc. set (hdr := [_; _; _; _; _; _]). pose proof (zlen_nonneg v). pose proof (zlen_nonneg rest).
  change (rd (hdr ++ v ++ rest) LENGTH_INDEX) with (zlen v).
  change (drop (Z.to_nat VERIONS_START_INDEX) (hdr ++ v ++ rest)) with (v ++ rest).
  rewrite update_bios_information_ok by done. cbn [mbind option_bind].
  rewrite mem_read_Some by (rewrite ?zlen_app; unfold VERIONS_START_INDEX; change (zlen hdr) with 6; lia).
  change VERIONS_START_INDEX with (zlen hdr). rewrite slice_app_r by done. rewrite slice_app_l, slice_all by lia.
  cbn [mbind option_bind]. unfold send_bios_version_to_bmc, write_file. cbn [negb]. rewrite Hread. done.
Qed.

Lemma bios_served v n a :
  string_ok v -> zlen v <= 245 -> n = 1 -> a = true -> smbios_served (mk_smbios (bios_info_of v) n a) [na; v; na].
Proof.
  intros Hv Hl -> ->. pose proof na_ok. constructor; try done; cbn [sm_info sm_count sm_allocated bi_handle bios_info_of].
  - repeat (apply Forall_cons; split; [done|]). by apply Forall_nil.
  - rewrite zlen_bios_text. lia.
Qed.

(** C26: the version of the BIOS the host tells over KCS is the one every user reads afterwards. The
    request is answered with success, once, and leaves a work item; when the worker has run, the
    version is what [pldm_smbios_get_bios_version] returns, the BMC was sent it in a message that
    writes a file, and asked for the BIOS structure of SMBIOS the dispatcher of PLDM returns the
    whole structure with the version as its second string: for every version of 1 to 245 bytes
    other than 0, whatever the heap holds. *)
Theorem bios_version_kept {PC : PldmConfig} cfg P E index a b v rest rc heap s read tid B now stack H ret rbuf :
  let ibuf := bios_version_request a b v ++ rest in
  string_ok v -> zlen v <= 245 -> zlen ibuf = KCS_BUFF_SIZE -> 6 + zlen v <= rc <= KCS_BUFF_SIZE ->
  (** the configuration and the platform *)
  kc_obmf cfg = false -> kc_pldm cfg = true ->
  pal_request_msg_to_BIC_from_HOST P NETFN_APP_REQ KCS_CMD_APP_SET_SYS_INFO_PARAMS = false ->
  pal_immediate_respond_from_HOST P NETFN_APP_REQ KCS_CMD_APP_SET_SYS_INFO_PARAMS = false ->
  pal_record_bios_fw_version P ibuf (u8 rc) <> -1 ->
  (** there is memory, and a place in the queue *)
  ke_buf_ok E = true -> ke_work_mem E = Some heap -> zlen heap = KCS_BUFF_SIZE -> ke_sched_ok E = true -> bios_heap_ok H ->
  ks_work_q s = [] -> 0 <= ks_work_count s < MAX_KCS_WORK_COUNT ->
  sm_count (ks_smbios s) = 1 -> sm_allocated (ks_smbios s) = true ->
  read (bmc_inst B) (write_file_msg B BIOS_VERSION v) [stack] 1 = Some (ReadReturn ret rbuf) ->
  exists s1 s2,
    kcs_read_turn cfg P E index ibuf rc s = Some (Some (s1, [KcsWrite [0x1C; 0x58; CC_SUCCESS]])) /\
    kcs_worker read tid B now stack true H s1 = Some (s2, [(bmc_inst B, write_file_msg B BIOS_VERSION v)], true) /\
    ks_work_q s2 = [] /\ ks_work_count s2 = ks_work_count s /\
    pldm_smbios_get_bios_version (ks_smbios s2) = Some (Some v) /\
    forall fru others lock_ok rc' pst inst ext id d, 0 <= id < 32 -> asks_for (bios_info_of v) d ->
      pldm_ask fru (system_queries fru (with_smbios true (fun _ => ReallocStays) (ks_smbios s2) others)) lock_ok rc' pst inst ext
        ([1; 128 + id; PLDM_TYPE_SMBIOS; PLDM_SMBIOS_CMD_CODE_GET_SMBIOS_STRUCTURE_BY_TYPE] ++ d) =
      Some ([1; id; PLDM_TYPE_SMBIOS; PLDM_SMBIOS_CMD_CODE_GET_SMBIOS_STRUCTURE_BY_TYPE] ++ [PLDM_SUCCESS] ++ le_bytes 4 0
        ++ [PLDM_SMBIOS_TRANSFER_FLAG_START_AND_END] ++ formatted_area (bios_info_of v) ++ text_block [na; v; na]).
Proof.
  intros ibuf Hv Hl Hi Hrc Ho Hp Hb Him Hrec Hbuf Hmem Hheap Hsch HH Hq Hc Hn Ha Hread.
  pose proof (zlen_nonneg v). pose proof (zlen_nonneg rest).
  assert (Hr : patch heap 0 (slice ibuf 0 rc) = bios_version_request a b v ++ slice rest 0 (rc - (6 + zlen v)) ++ drop (Z.to_nat rc) heap).
  { pose proof (zlen_bios_version_request a b v) as Hz. subst ibuf. rewrite zlen_app, Hz in Hi. unfold KCS_BUFF_SIZE in *.
    rewrite slice_app_front by lia. rewrite Hz, patch_0_app, <- app_assoc. do 2 f_equal. rewrite length_app. f_equal.
    assert (zlen (slice rest 0 (rc - (6 + zlen v))) = rc - (6 + zlen v)) by (apply zlen_slice; lia). unfold zlen in *. lia. }
  set (tail := slice rest 0 _ ++ _) in Hr.
  set (w := mk_kcs_work kcs_bios_fw_version_handler (bios_version_request a b v ++ tail) rc).
  set (s1 := set_ks_work (ks_work_count s + 1) [w] (set_ks_ok true s)).
  set (b2 := mk_smbios (bios_info_of v) (sm_count (ks_smbios s)) (sm_allocated (ks_smbios s))).
  exists s1, (set_ks_smbios b2 (set_ks_work (ks_work_count s) [] s1)).
  assert (Hserved : smbios_served b2 [na; v; na]) by by apply bios_served.
  split; [|split; [|split; [done|split; [done|split]]]].
  - assert (Hsc : schedule_kcs_work_handle E kcs_bios_fw_version_handler (kcs_header NETFN_APP_REQ KCS_CMD_APP_SET_SYS_INFO_PARAMS)
      ibuf rc (set_ks_ok true s) = Some (s1, [], true)).
    { rewrite (schedule_ok E _ _ _ _ heap) by (done || (unfold KCS_BUFF_SIZE in *; lia) || by rewrite Hr).
      change (ks_work_q (set_ks_ok true s)) with (ks_work_q s). by rewrite Hr, Hq. }
    unfold kcs_read_turn. destruct (Z.ltb_spec rc 0); [lia|].
    change (rd ibuf 0 .>> 2) with NETFN_APP_REQ. change (rd ibuf 1) with KCS_CMD_APP_SET_SYS_INFO_PARAMS.
    unfold kcs_request. rewrite Hb, Hbuf. cbn [negb].
    assert (Hd : kcs_default cfg P E NETFN_APP_REQ KCS_CMD_APP_SET_SYS_INFO_PARAMS ibuf rc (set_ks_ok true s)
      = Some (s1, [KcsWrite [0x1C; 0x58; CC_SUCCESS]], true)); [|by rewrite Hd; cbn [mbind option_bind negb]; rewrite Ho, Hp].
    unfold kcs_default, kcs_immediate, kcs_crash_dump, kcs_post, kcs_dimm, kcs_bios_version.
    change (rd ibuf 2 =? CMD_SYS_INFO_FW_VERSION) with true. rewrite Him, Hp. destruct (Z.eqb_spec (pal_record_bios_fw_version P ibuf (u8 rc)) (-1)); [done|].
    clearbody ibuf. unfold kcs_then. cbn -[schedule_kcs_work_handle]. change [28; 88] with (kcs_header NETFN_APP_REQ KCS_CMD_APP_SET_SYS_INFO_PARAMS).
    by rewrite Hsc.
  - unfold kcs_worker. change (ks_work_q s1) with [w]. cbv iota. unfold w.
    rewrite (bios_version_work _ _ _ _ _ _ _ _ _ _ _ _ _ ret rbuf) by done. cbn [mbind option_bind].
    change (ks_work_count s1) with (ks_work_count s + 1). rewrite Z.add_simpl_r. unfold MAX_KCS_WORK_COUNT in Hc. by rewrite u8_id by lia.
  - apply (bios_version_spec _ [na; v; na] 1); [apply Hserved|rewrite zlen_bios_text; lia|done..].
  - intros fru others lock_ok rc' pst inst ext id d Hid Hd. apply (smbios_asked fru others lock_ok rc' pst b2 [na; v; na]); done.
Qed.

(** ** Every sequence of requests *)

(** The worker's items are counted right, [stuck]: the worker waits for a response that never
    comes. *)
Record kcs_queue_ok (stuck : bool) (s : kcs_state) : Prop := {
  kq_count : ks_work_count s = zlen (ks_work_q s) + (if stuck then 1 else 0);
  kq_max : ks_work_count s <= MAX_KCS_WORK_COUNT;
  kq_size : Forall (fun w => zlen (kw_ibuf w) = KCS_BUFF_SIZE) (ks_work_q s) }.

(** What is written to the port answers the request. *)
Definition answers (netfn cmd : Z) (o : kcs_out) : Prop :=
  match o with KcsWrite buf => exists cc d, buf = kcs_header netfn cmd ++ cc :: d | _ => True end.

Definition stage_good (netfn cmd : Z) (a : kcs_stage) : Prop := forall stuck s s' out more,
  kcs_queue_ok stuck s -> a s = Some (s', out, more) -> kcs_queue_ok stuck s' /\ Forall (answers netfn cmd) out.

Definition kcs_env_ok (E : kcs_env) : Prop := forall h, ke_work_mem E = Some h -> zlen h = KCS_BUFF_SIZE.

Section stages.
Context (cfg : kcs_config) (P : kcs_platform) (E : kcs_env) (HE : kcs_env_ok E) (index netfn cmd : Z).

Lemma good_emit cc d more : stage_good netfn cmd (kcs_emit [KcsWrite (kcs_header netfn cmd ++ cc :: d)] more).
Proof using. intros stuck s s' out m Hs [= <- <- <-]. split; [done|]. apply Forall_singleton. by exists cc, d. Qed.

Lemma good_skip : stage_good netfn cmd kcs_skip.
Proof using. intros stuck s s' out m Hs [= <- <- <-]. by split. Qed.

Lemma good_then a b : stage_good netfn cmd a -> stage_good netfn cmd b -> stage_good netfn cmd (kcs_then a b).
Proof using.
  intros Ha Hb stuck s s' out m Hs. unfold kcs_then. destruct (a s) as [[[s1 o1] m1]|] eqn:E1; [|done].
  destruct (Ha _ _ _ _ _ Hs E1) as [H1 F1]. cbn [mbind option_bind]. destruct m1; [|by intros [= <- <- <-]].
  destruct (b s1) as [[[s2 o2] m2]|] eqn:E2; [|done]. cbn [mbind option_bind]. intros [= <- <- <-].
  destruct (Hb _ _ _ _ _ H1 E2) as [H2 F2]. split; [done|]. by apply Forall_app.
Qed.

Lemma good_if c a : stage_good netfn cmd a -> stage_good netfn cmd (kcs_if c a).
Proof using. intros Ha. destruct c; [exact Ha|apply good_skip]. Qed.

Lemma good_schedule h ibuf rc : stage_good netfn cmd (schedule_kcs_work_handle E h (kcs_header netfn cmd) ibuf rc).
Proof using HE.
  intros stuck s s' out m Hs. unfold schedule_kcs_work_handle. destruct (ke_work_mem E) as [heap|] eqn:Em; [|by intros [= <- <- <-]].
  pose proof (HE _ Em) as Hh. destruct (mem_read ibuf 0 rc) as [src|]; [|done]. cbn [mbind option_bind].
  destruct (mem_write heap 0 src) as [mem|] eqn:Ew; [|done]. cbn [mbind option_bind].
  assert (A : forall cc, Forall (answers netfn cmd) [KcsWrite (kcs_header netfn cmd ++ [cc])])
    by (intros cc; apply Forall_singleton; by exists cc, []).
  assert (Hn : kcs_queue_ok stuck s -> ks_work_count s < MAX_KCS_WORK_COUNT ->
    kcs_queue_ok stuck (set_ks_work (u8 (ks_work_count s + 1)) (ks_work_q s ++ [mk_kcs_work h mem rc]) s)).
  { intros [H1 H2 H3] Hlt. pose proof (zlen_nonneg (ks_work_q s)). unfold MAX_KCS_WORK_COUNT in *.
    constructor; cbn [ks_work_count ks_work_q set_ks_work].
    - rewrite u8_id by (destruct stuck; lia). rewrite zlen_app. change (zlen [_]) with 1. lia.
    - unfold MAX_KCS_WORK_COUNT. rewrite u8_id by (destruct stuck; lia). lia.
    - apply Forall_app. split; [done|]. apply Forall_singleton. cbn [kw_ibuf]. by rewrite (mem_write_length _ _ _ _ Ew). }
  destruct (Z.leb_spec MAX_KCS_WORK_COUNT (ks_work_count s)); [intros [= <- <- <-]; split; [done|apply A]|].
  set (pre := if is_post_event mem then _ else _). assert (Hpre : Forall (answers netfn cmd) pre) by (subst pre; destruct (is_post_event mem); [apply A|done]).
  destruct (_ && _); [intros [= <- <- <-]; by split|]. destruct (ke_sched_ok E); cbn [negb]; intros [= <- <- <-].
  - by split; [apply Hn|].
  - split; [done|]. apply Forall_app. split; [done|apply A].
Qed.

Lemma good_default ibuf rc : stage_good netfn cmd (kcs_default cfg P E netfn cmd ibuf rc).
Proof using HE.
  unfold kcs_default, kcs_immediate, kcs_crash_dump, kcs_post, kcs_bios_version, kcs_dimm.
  repeat first [apply good_then | apply good_if | apply good_schedule | apply good_emit | apply good_skip | case_match].
Qed.
End stages.

(** What changes neither the queue of the worker nor its count. *)
Lemma queue_ok_same stuck s s' :
  ks_work_count s' = ks_work_count s -> ks_work_q s' = ks_work_q s -> kcs_queue_ok stuck s -> kcs_queue_ok stuck s'.
Proof. intros H1 H2 [A B C]. constructor; by rewrite ?H1, ?H2. Qed.

Lemma obmf_cb_queue n c cc d l s s' : kcs_obmf_ipmi_rsp_cb n c cc d l s = Some s' ->
  ks_work_count s' = ks_work_count s /\ ks_work_q s' = ks_work_q s.
Proof. unfold kcs_obmf_ipmi_rsp_cb. destruct (match d with Some _ => _ | None => _ end); [|done]. by intros [= <-]. Qed.

Lemma obmf_bridge_queue P E netfn cmd ibuf rc s s' out : kcs_obmf_bridge P E netfn cmd ibuf rc s = Some (s', out) ->
  ks_work_count s' = ks_work_count s /\ ks_work_q s' = ks_work_q s.
Proof.
  unfold kcs_obmf_bridge. destruct (mem_read ibuf 2 _); [|done]. cbn [mbind option_bind].
  destruct (ke_obmf_send E <? 0); [by intros [= <- _]|].
  destruct (if ks_obmf_sem s =? 0 then _ else _) as [s1|] eqn:E1; [|done]. cbn [mbind option_bind].
  assert (H1 : ks_work_count s1 = ks_work_count s /\ ks_work_q s1 = ks_work_q s).
  { destruct (ks_obmf_sem s =? 0); [|by injection E1 as <-].
    destruct (ke_obmf_rsp E) as [[[[[n c] cc] d] l0]|]; [by apply obmf_cb_queue in E1|by injection E1 as <-]. }
  destruct (ks_obmf_sem s1 =? 0); [by intros [= <- _]|]. destruct (negb _); [by intros [= <- _]|].
  destruct (mem_read (or_data _) 0 _); [|done]. by intros [= <- _].
Qed.

Lemma bridge_good {PC : PldmConfig} P E index netfn cmd ibuf rc s s' out : kcs_bridge P E index netfn cmd ibuf rc s = Some (Some (s', out)) ->
  (ks_work_count s' = ks_work_count s /\ ks_work_q s' = ks_work_q s) /\ Forall (answers netfn cmd) out.
Proof.
  unfold kcs_bridge. destruct (mem_read ibuf 2 _); [|done]. cbn [mbind option_bind].
  destruct (mem_write (im_data _) 0 _); [|done]. cbn [mbind option_bind].
  destruct (pldm_send_ipmi_request _ _ _ _ _ _) as [[[r rsp]|]|]; [|done..]. cbn [mbind option_bind].
  destruct (negb (ke_rsp_ok E)); [intros [= <- <-]; by repeat constructor|].
  destruct (Z.eqb_spec (im_netfn rsp) (netfn .| 0x01)) as [->|]; cbn [negb orb].
  2: { intros [= <- <-]. repeat constructor. by exists KCS_CC_UNSPECIFIED_ERROR, []. }
  destruct (Z.eqb_spec (im_cmd rsp) cmd) as [->|]; cbn [negb orb].
  2: { intros [= <- <-]. repeat constructor. by exists KCS_CC_UNSPECIFIED_ERROR, []. }
  destruct (mem_read (im_data rsp) 0 _) as [d|]; [|done]. cbn [mbind option_bind].
  destruct (pal_immediate_respond_from_HOST P netfn cmd); intros [= <- <-]; repeat constructor.
  exists (im_completion_code rsp), d. unfold kcs_header. by rewrite <- Z.lor_assoc.
Qed.

(** A turn: the queue stays right, and outside OBMF every write answers the request of the turn. *)
Lemma turn_good {PC : PldmConfig} cfg P E index ibuf rc stuck s s' out :
  kcs_env_ok E -> kcs_queue_ok stuck s -> kcs_read_turn cfg P E index ibuf rc s = Some (Some (s', out)) ->
  kcs_queue_ok stuck s' /\ (kc_obmf cfg = false -> Forall (answers (rd ibuf 0 .>> 2) (rd ibuf 1)) out).
Proof.
  intros HE Hs. unfold kcs_read_turn. destruct (rc <? 0); [by intros [= <- <-]|].
  generalize (rd ibuf 0 .>> 2), (rd ibuf 1). intros netfn cmd. unfold kcs_request.
  assert (Hs0 : kcs_queue_ok stuck (set_ks_ok true s)) by by apply (queue_ok_same stuck s).
  destruct (pal_request_msg_to_BIC_from_HOST P netfn cmd).
  { destruct (kcs_to_bic _ _ _ _ _ _ _) as [s1|] eqn:E1; [|done]. intros [= <- <-]. split; [|done].
    unfold kcs_to_bic in E1. destruct (mem_read _ _ _); [|done]. cbn [mbind option_bind] in E1.
    destruct (mem_write _ _ _); [|done]. cbn [mbind option_bind] in E1. destruct (notify_ipmi_client _ _ _).
    injection E1 as <-. by apply (queue_ok_same stuck s). }
  destruct (negb (ke_buf_ok E)); [by intros [= <- <-]|].
  destruct (kcs_default _ _ _ _ _ _ _ _) as [[[s1 o1] more]|] eqn:E1; [|done]. cbn [mbind option_bind].
  destruct (good_default cfg P E HE netfn cmd ibuf rc _ _ _ _ _ Hs0 E1) as [H1 F1].
  destruct (negb more); [by intros [= <- <-]|]. destruct (kc_obmf cfg).
  { destruct (kcs_obmf_bridge _ _ _ _ _ _ _) as [[s2 o2]|] eqn:E2; [|done]. intros [= <- <-].
    split; [|done]. apply obmf_bridge_queue in E2 as [A B]. by apply (queue_ok_same stuck s1). }
  destruct (kc_pldm cfg); [by intros [= <- <-]|].
  destruct (kcs_bridge _ _ _ _ _ _ _ _) as [[[s2 o2]|]|] eqn:E2; cbn [mbind option_bind]; [|done..]. intros [= <- <-].
  apply bridge_good in E2 as [[A B] F2]. split; [by apply (queue_ok_same stuck s1)|]. intros _. by apply Forall_app.
Qed.

Lemma worker_good read tid B now stack malloc_ok H s s' out ended :
  kcs_queue_ok false s -> kcs_worker read tid B now stack malloc_ok H s = Some (s', out, ended) ->
  kcs_queue_ok (negb (ended : bool)) s'.
Proof.
  intros [H1 H2 H3]. unfold kcs_worker. destruct (ks_work_q s) as [|w q] eqn:Eq.
  { intros [= <- <- <-]. constructor; by rewrite ?Eq. }
  destruct (kcs_work_run _ _ _ _ _ _ _ _ _) as [[[b o] e]|]; [|done]. cbn [mbind option_bind]. intros [= <- <- <-].
  rewrite zlen_cons in H1. pose proof (zlen_nonneg q). unfold MAX_KCS_WORK_COUNT in *. apply Forall_cons in H3 as [_ H3].
  destruct e; constructor; cbn [ks_work_count ks_work_q set_ks_work set_ks_smbios negb]; try done;
    unfold MAX_KCS_WORK_COUNT; rewrite ?u8_id; lia.
Qed.

(** The threads interleave at these steps: a turn of the reading task, an item of the worker, the
    callback of OBMF, and the flag that is reset. A worker that is stuck takes no further item. *)
Inductive kcs_step {PC : PldmConfig} (cfg : kcs_config) (P : kcs_platform) (index : Z) : bool * kcs_state -> bool * kcs_state -> Prop :=
  | kcs_step_turn E ibuf rc stuck s s' out :
      kcs_env_ok E -> kcs_read_turn cfg P E index ibuf rc s = Some (Some (s', out)) ->
      kcs_step cfg P index (stuck, s) (stuck, s')
  | kcs_step_worker read tid B now stack malloc_ok H s s' out ended :
      kcs_worker read tid B now stack malloc_ok H s = Some (s', out, ended) ->
      kcs_step cfg P index (false, s) (negb ended, s')
  | kcs_step_obmf n c cc d l stuck s s' :
      kcs_obmf_ipmi_rsp_cb n c cc d l s = Some s' -> kcs_step cfg P index (stuck, s) (stuck, s')
  | kcs_step_reset stuck s : kcs_step cfg P index (stuck, s) (stuck, reset_kcs_ok s).

Lemma kcs_steps_good {PC : PldmConfig} cfg P index x y :
  rtc (kcs_step cfg P index) x y -> kcs_queue_ok (fst x) (snd x) -> kcs_queue_ok (fst y) (snd y).
Proof.
  induction 1 as [|x y z Hxy _ IH]; [done|]. intros Hx. apply IH. clear IH. destruct Hxy; cbn [fst snd] in *.
  - eapply turn_good; eauto.
  - by eapply worker_good.
  - destruct (obmf_cb_queue _ _ _ _ _ _ _ H). by apply (queue_ok_same stuck s).
  - by apply (queue_ok_same stuck s).
Qed.

Lemma schedule_outcome E h hdr ibuf n s s' out more :
  schedule_kcs_work_handle E h hdr ibuf n s = Some (s', out, more) ->
  if more then ks_work_count s < MAX_KCS_WORK_COUNT /\
    exists mem, ks_work_q s' = ks_work_q s ++ [mk_kcs_work h mem n] /\ slice mem 0 n = slice ibuf 0 n
  else s' = s /\ (ke_work_mem E = None \/ MAX_KCS_WORK_COUNT <= ks_work_count s \/ ke_sched_ok E = false \/
    kcs_write E (hdr ++ [CC_SUCCESS]) <> 0).
Proof.
  unfold schedule_kcs_work_handle. destruct (ke_work_mem E) as [heap|]; [|intros [= <- <- <-]; auto].
  destruct (mem_read ibuf 0 n) as [src|] eqn:Er; [|done]. cbn [mbind option_bind].
  destruct (mem_write heap 0 src) as [mem|] eqn:Ew; [|done]. cbn [mbind option_bind].
  destruct (Z.leb_spec MAX_KCS_WORK_COUNT (ks_work_count s)); [intros [= <- <- <-]; auto|].
  destruct (is_post_event mem); cbn [andb].
  2: { destruct (ke_sched_ok E); cbn [negb]; intros [= <- <- <-]; [|auto]. split; [done|]. exists mem. split; [done|].
       apply mem_write_prefix in Ew. unfold mem_read in Er. case_bools. rewrite zlen_slice in Ew by lia. exact Ew. }
  destruct (Z.eqb_spec (kcs_write E (hdr ++ [CC_SUCCESS])) 0); cbn [negb]; [|intros [= <- <- <-]; auto].
  destruct (ke_sched_ok E); cbn [negb]; intros [= <- <- <-]; [|auto]. split; [done|]. exists mem. split; [done|].
  apply mem_write_prefix in Ew. unfold mem_read in Er. case_bools. rewrite zlen_slice in Ew by lia. exact Ew.
Qed.

(** C28: whatever the host sends, and in whatever order its requests, the worker and the responses
    follow each other, the count of work items is the number of those that wait, with the one whose
    message to the BMC never returns, if there is one: it never exceeds five, so that it does not
    wrap in its 8 bits. A request that gives the worker something to do is queued at the end with
    its bytes, unless five items are under way, there is no memory, the work queue does not take
    it, or the answer to a POST event cannot be written; then nothing changes. On a platform that
    does not bridge over OBMF, every answer written while a request is served carries the network
    function and the command of that request. *)
Theorem kcs_work_bounded {PC : PldmConfig} cfg P index s0 stuck s :
  ks_work_count s0 = 0 -> ks_work_q s0 = [] -> rtc (kcs_step cfg P index) (false, s0) (stuck, s) ->
  ks_work_count s = zlen (ks_work_q s) + (if stuck then 1 else 0) /\ 0 <= ks_work_count s <= MAX_KCS_WORK_COUNT /\
  (forall E h hdr ibuf n s' out more, schedule_kcs_work_handle E h hdr ibuf n s = Some (s', out, more) ->
     if more then ks_work_count s < MAX_KCS_WORK_COUNT /\
       exists mem, ks_work_q s' = ks_work_q s ++ [mk_kcs_work h mem n] /\ slice mem 0 n = slice ibuf 0 n
     else s' = s /\ (ke_work_mem E = None \/ ks_work_count s = MAX_KCS_WORK_COUNT \/ ke_sched_ok E = false \/
       kcs_write E (hdr ++ [CC_SUCCESS]) <> 0)) /\
  forall E ibuf rc s' out, kcs_env_ok E -> kcs_read_turn cfg P E index ibuf rc s = Some (Some (s', out)) ->
    kc_obmf cfg = false ->
    forall buf, KcsWrite buf ∈ out -> exists cc d, buf = kcs_header (rd ibuf 0 .>> 2) (rd ibuf 1) ++ cc :: d.
Proof.
  intros H1 H2 Hs. apply kcs_steps_good in Hs; cbn [fst snd] in *.
  2: { constructor; rewrite ?H1, ?H2; done. }
  pose proof (zlen_nonneg (ks_work_q s)). destruct Hs as [A B C] eqn:Eq. split; [done|]. split; [destruct stuck; lia|]. split.
  - intros E h hdr ibuf n s' out more Hsc. apply schedule_outcome in Hsc. destruct more; [exact Hsc|].
    destruct Hsc as [-> [|[|[|]]]]; auto. split; [done|]. right. left. lia.
  - intros E ibuf rc s' out HE Ht Ho buf Hin. destruct (turn_good _ _ _ _ _ _ _ _ _ _ HE Hs Ht) as [_ F].
    specialize (F Ho). rewrite Forall_forall in F. by apply (F _ Hin).
Qed.

(** ** What goes wrong *)

(** A response over OBMF that comes after the 5 seconds answers the next request, whatever the
    response to that one is. *)
Lemma obmf_late_response P E1 E2 s netfn1 cmd1 netfn2 cmd2 ibuf n c cc d :
  zlen ibuf = KCS_BUFF_SIZE -> ks_obmf_sem s = 0 -> zlen (or_data (ks_obmf s)) = KCS_BUFF_SIZE -> 0 < zlen d <= KCS_BUFF_SIZE ->
  ke_obmf_send E1 = 0 -> ke_obmf_rsp E1 = None -> ke_obmf_send E2 = 0 -> ke_rsp_ok E2 = true ->
  pal_immediate_respond_from_HOST P netfn2 cmd2 = false ->
  kcs_obmf_bridge P E1 netfn1 cmd1 ibuf 2 s = Some (s, [KcsObmfSend (u8 (netfn1 .<< 2)) cmd1 []]) /\
  exists s2 s3, kcs_obmf_ipmi_rsp_cb n c cc (Some d) (zlen d) s = Some s2 /\
    kcs_obmf_bridge P E2 netfn2 cmd2 ibuf 2 s2 = Some (s3,
      [KcsObmfSend (u8 (netfn2 .<< 2)) cmd2 []; KcsWrite ([u8 (((n .>> 2) .| 0x01) .<< 2); c; cc] ++ d)]).
Proof.
  intros Hi Hs Hz Hd S1 R1 S2 K2 Hp. unfold KCS_BUFF_SIZE in *.
  assert (Hr : mem_read ibuf 2 0 = Some []) by (by rewrite mem_read_Some by lia).
  split.
  - unfold kcs_obmf_bridge. change (2 <? 2) with false. cbv iota. rewrite Hr. cbn [mbind option_bind]. rewrite S1, Hs.
    cbn [Z.ltb Z.compare Z.eqb]. rewrite R1. cbn [mbind option_bind]. by rewrite Hs.
  - set (dd := patch (or_data (ks_obmf s)) 0 d).
    assert (Hcb : kcs_obmf_ipmi_rsp_cb n c cc (Some d) (zlen d) s = Some (set_ks_obmf (mk_obmf_rsp n c cc dd (zlen d)) 1 s)).
    { unfold kcs_obmf_ipmi_rsp_cb, KCS_BUFF_SIZE. rewrite Z.min_l by lia. destruct (Z.ltb_spec 0 (zlen d)); [|lia].
      rewrite mem_read_Some, slice_all by lia. cbn [mbind option_bind]. rewrite mem_write_patch by lia. cbn [mbind option_bind]. by rewrite Hs. }
    eexists _, _. split; [exact Hcb|]. unfold kcs_obmf_bridge. change (2 <? 2) with false. cbv iota. rewrite Hr. cbn [mbind option_bind].
    rewrite S2. cbn [Z.ltb Z.compare ks_obmf_sem set_ks_obmf Z.eqb mbind option_bind ks_obmf or_data or_data_len or_cmd or_cc or_netfn_lun].
    rewrite K2. cbn [negb]. rewrite mem_read_Some by (subst dd; rewrite ?zlen_patch; lia).
    subst dd. rewrite slice_patch by lia. cbn [mbind option_bind]. by rewrite Hp.
Qed.

(** The heap of the examples: each [realloc] gives what it is asked for. *)
Definition zero_heap : bios_heap := mk_bios_heap true true true (fun _ n => Some (zeros n)) true.

(** An empty version adds no string: its index is that of the vendor, and it reads as "N/A". *)
Example empty_version :
  exists st rc, update_bios_information zero_heap [] 0 smbios_static = Some (st, rc) /\
    pldm_smbios_get_bios_version st = Some (Some na).
Proof. eexists _, _. by split; vm_compute. Qed.

(** Without memory for the structure or the string the exit path frees a pointer that was never
    written. *)
Lemma update_without_memory H mem len st : bh_info H && bh_str H = false -> update_bios_information H mem len st = None.
Proof. unfold update_bios_information. by intros ->. Qed.

(** A request of fewer than two bytes for the BIC copies 65534 or 65535 bytes. *)
Lemma short_request_overflow {PC : PldmConfig} cfg P E index ibuf rc s :
  zlen ibuf = KCS_BUFF_SIZE -> 0 <= rc < 2 -> pal_request_msg_to_BIC_from_HOST P (rd ibuf 0 .>> 2) (rd ibuf 1) = true ->
  kcs_read_turn cfg P E index ibuf rc s = None.
Proof.
  intros Hi Hr Hp. unfold kcs_read_turn, kcs_request, kcs_to_bic. destruct (Z.ltb_spec rc 0); [lia|]. rewrite Hp.
  unfold mem_read. assert (zlen ibuf < 2 + u16 (rc - 2)).
  { unfold KCS_BUFF_SIZE in *. unfold u16. rewrite <- (Z.mod_add _ 1) by lia. rewrite Z.mod_small; lia. }
  destruct (Z.leb_spec (2 + u16 (rc - 2)) (zlen ibuf)); [lia|]. by rewrite !andb_false_r.
Qed.

(** ** Instances *)

Definition demo_kcs_platform : kcs_platform :=
  mk_kcs_platform (fun netfn cmd => false) (fun netfn cmd => (netfn =? NETFN_STORAGE_REQ) && (cmd =? KCS_CMD_STORAGE_ADD_SEL))
    (fun _ _ => -2) (fun _ => true).
Definition demo_kcs_env : kcs_env :=
  mk_kcs_env (fun _ => 0) true (Some (replicate 256 0xA5)) true true (fun _ => true) 0 None (fun _ => AttTimeout) (fun _ => 1) None.
Definition demo_kcs_state : kcs_state :=
  mk_kcs false 0 [] (mk_obmf_rsp 0 0 0 (zeros 256) 0) 0 zero_ipmi_msg zero_ipmi_msg
    (pldm_smbios_init_structures true true smbios_static) [].
Definition demo_route : bmc_route := mk_bmc_route false (fun _ => 1) (fun _ => 0x20) 8.

(** An entry for the log of the BMC is answered at once and waits for the worker. *)
Example add_sel_answered :
  match kcs_read_turn (mk_kcs_config false true) demo_kcs_platform demo_kcs_env 0
    ([NETFN_STORAGE_REQ .<< 2; KCS_CMD_STORAGE_ADD_SEL] ++ zeros 254) 18 demo_kcs_state with
  | Some (Some (s, out)) => (zlen (ks_work_q s), out)
  | _ => (0, [])
  end = (1, [KcsWrite [0x2C; 0x44; 0; 0; 0]]).
Proof. by vm_compute. Qed.

(** A crash dump on a platform that answers it at once is answered twice. *)
Example crash_dump_twice :
  let P := mk_kcs_platform (fun _ _ => false) (fun netfn cmd => true) (fun _ _ => -2) (fun _ => true) in
  match kcs_read_turn (mk_kcs_config false true) P demo_kcs_env 0
    ([NETFN_OEM_REQ .<< 2; CMD_OEM_CRASH_DUMP] ++ zeros 254) 12 demo_kcs_state with
  | Some (Some (s, out)) => out
  | _ => []
  end = [KcsWrite [0xC4; 0x70; 0]; KcsWrite [0xC4; 0x70; 0]].
Proof. by vm_compute. Qed.

(** The start of POST told with another LUN than 0 is never answered. *)
Example post_start_lun :
  match kcs_read_turn (mk_kcs_config false true) demo_kcs_platform demo_kcs_env 0
    ([(NETFN_OEM_REQ .<< 2) .| 1; CMD_OEM_POST_START] ++ zeros 254) 2 demo_kcs_state with
  | Some (Some (s, out)) => (zlen (ks_work_q s), out)
  | _ => (0, [])
  end = (1, []).
Proof. by vm_compute. Qed.

Lemma demo_heap_ok : bios_heap_ok zero_heap.
Proof.
  split_and!; try done. intros i n. exists (zeros n). split; [done|]. pose proof (zlen_nonneg (zeros n)).
  destruct (Z.le_gt_cases 0 n); [rewrite zlen_zeros by done|]; lia.
Qed.

Lemma bios_version_kept_witness :
  exists s1 s2,
    kcs_read_turn (mk_kcs_config false true) demo_kcs_platform demo_kcs_env 0
      (bios_version_request 0 0 [86; 49; 46; 50] ++ zeros 246) 10 demo_kcs_state = Some (Some (s1, [KcsWrite [0x1C; 0x58; CC_SUCCESS]])) /\
    kcs_worker (fun _ _ rbuf _ => Some (ReadReturn 1 [0])) 1 demo_route 0 7 true zero_heap s1
      = Some (s2, [(1, write_file_msg demo_route BIOS_VERSION [86; 49; 46; 50])], true) /\
    pldm_smbios_get_bios_version (ks_smbios s2) = Some (Some [86; 49; 46; 50]).
Proof.
  destruct (bios_version_kept (mk_kcs_config false true) demo_kcs_platform demo_kcs_env 0 0 0 [86; 49; 46; 50] (zeros 246) 10
    (replicate 256 0xA5) demo_kcs_state (fun _ _ rbuf _ => Some (ReadReturn 1 [0])) 1 demo_route 0 7 zero_heap 1 [0])
    as (s1 & s2 & H1 & H2 & _ & _ & H3 & _); try done.
  - split; [done|by repeat constructor].
  - apply demo_heap_ok.
  - by exists s1, s2.
Defined.

Lemma kcs_work_bounded_witness :
  let cfg := mk_kcs_config false true in
  exists s1, kcs_read_turn cfg demo_kcs_platform demo_kcs_env 0 ([NETFN_STORAGE_REQ .<< 2; KCS_CMD_STORAGE_ADD_SEL] ++ zeros 254) 18 demo_kcs_state
      = Some (Some (s1, [KcsWrite [0x2C; 0x44; 0; 0; 0]])) /\
    ks_work_count s1 = zlen (ks_work_q s1) + 0 /\ 0 <= ks_work_count s1 <= MAX_KCS_WORK_COUNT.
Proof.
  eexists. split; [by vm_compute|].
  match goal with |- ks_work_count ?s = _ /\ _ =>
    destruct (kcs_work_bounded (mk_kcs_config false true) demo_kcs_platform 0 demo_kcs_state false s) as (H1 & H2 & _) end.
  - done.
  - done.
  - apply rtc_once. apply (kcs_step_turn _ _ _ demo_kcs_env ([NETFN_STORAGE_REQ .<< 2; KCS_CMD_STORAGE_ADD_SEL] ++ zeros 254) 18 false _ _
      [KcsWrite [0x2C; 0x44; 0; 0; 0]]); [by intros h [= <-]|by vm_compute].
  - by split.
Defined.
