(* ===== verification/Watchdog.v ===== *)
(** Component: the FRB2 watchdog of [common/service/ipmi/app_handler.c]: the variables of the
    Set, Reset and Get Watchdog Timer commands and the thread that counts down. *)

From S2P Require Import Prelude Bytes IpmiMsg IpmiCore.

Definition CC_INVALID_PARAM : Z := 0x80.
Definition CC_INVALID_LENGTH : Z := 0xC7.

(** The thread: not there or dead; created with its countdown but not yet run; asleep in the
    loop of [frb2_wdt_handler] with its copy of the timer use. *)
Inductive wdt_thread := WdtDead | WdtCreated (countdown : Z) | WdtAsleep (timer : Z).

(** The static variables; [expired] records the calls of [frb2_wdt_timer_action], the
    platform's hook: action and timer, latest first. *)
Record wdt := mk_wdt {
  timerUse : Z; timerAction : Z; preTimeoutInSec : Z;
  timerUseExpireFlagsClear : Z; timerUseExpireFlags : Z;
  initCountdownValueLsb : Z; initCountdownValueMsb : Z;
  presentCountdownValue : Z; setCountdownValue : Z; isWdtSet : bool;
  frb2_wdt_tid : wdt_thread; expired : list (Z * Z) }.

Definition wdt_init : wdt := mk_wdt 0 0 0 0 0 0 0 0 0 false WdtDead [].

Definition set_present (v : Z) (w : wdt) : wdt :=
  mk_wdt (timerUse w) (timerAction w) (preTimeoutInSec w) (timerUseExpireFlagsClear w)
    (timerUseExpireFlags w) (initCountdownValueLsb w) (initCountdownValueMsb w) v
    (setCountdownValue w) (isWdtSet w) (frb2_wdt_tid w) (expired w).
Definition set_setv (v : Z) (w : wdt) : wdt :=
  mk_wdt (timerUse w) (timerAction w) (preTimeoutInSec w) (timerUseExpireFlagsClear w)
    (timerUseExpireFlags w) (initCountdownValueLsb w) (initCountdownValueMsb w)
    (presentCountdownValue w) v (isWdtSet w) (frb2_wdt_tid w) (expired w).
Definition set_isset (b : bool) (w : wdt) : wdt :=
  mk_wdt (timerUse w) (timerAction w) (preTimeoutInSec w) (timerUseExpireFlagsClear w)
    (timerUseExpireFlags w) (initCountdownValueLsb w) (initCountdownValueMsb w)
    (presentCountdownValue w) (setCountdownValue w) b (frb2_wdt_tid w) (expired w).
Definition set_tid (t : wdt_thread) (w : wdt) : wdt :=
  mk_wdt (timerUse w) (timerAction w) (preTimeoutInSec w) (timerUseExpireFlagsClear w)
    (timerUseExpireFlags w) (initCountdownValueLsb w) (initCountdownValueMsb w)
    (presentCountdownValue w) (setCountdownValue w) (isWdtSet w) t (expired w).

Definition wdt_alive (w : wdt) : bool :=
  match frb2_wdt_tid w with WdtDead => false | _ => true end.

(** ** The thread *)

(** The end of [frb2_wdt_handler]. *)
Definition wdt_expire (timer : Z) (w : wdt) : wdt :=
  mk_wdt (timerUse w) (timerAction w) (preTimeoutInSec w) (timerUseExpireFlagsClear w)
    (timerUseExpireFlags w .| u8 (1 .<< (timerUse w .& 0x07)))
    (initCountdownValueLsb w) (initCountdownValueMsb w)
    (presentCountdownValue w) (setCountdownValue w) (isWdtSet w) WdtDead
    ((timerAction w, timer) :: expired w).

(** The thread up to its next sleep of ten seconds or its end: its first run, or its wake-up. *)
Definition frb2_wdt_handler (w : wdt) : wdt :=
  match frb2_wdt_tid w with
  | WdtDead => w
  | WdtCreated countdown =>
      let timer := timerUse w .& 0x07 in
      let w := set_present countdown w in
      if 0 <? presentCountdownValue w then set_tid (WdtAsleep timer) w else wdt_expire timer w
  | WdtAsleep timer =>
      if presentCountdownValue w <? 100 then wdt_expire timer (set_present 0 w)
      else
        let w := set_present (u16 (presentCountdownValue w - 100)) w in
        if 0 <? presentCountdownValue w then w else wdt_expire timer w
  end.

(** [u16]: the [int16_t] argument comes back as a [uint16_t] through the thread's pointer. *)
Definition init_frb2_wdt_thread (initCountdownValue : Z) (w : wdt) : wdt :=
  if wdt_alive w then set_present (setCountdownValue w) w
  else set_tid (WdtCreated (u16 initCountdownValue)) w.

Definition abort_frb2_wdt_thread (w : wdt) : wdt :=
  if wdt_alive w then set_isset false (set_present 0 (set_setv 0 (set_tid WdtDead w))) else w.

(** ** The commands *)

Definition APP_RESET_WATCHDOG_TIMER (msg : ipmi_msg) (w : wdt) : ipmi_msg * wdt :=
  if isWdtSet w then
    (set_im_completion_code CC_SUCCESS (set_im_data_len 0 msg),
     init_frb2_wdt_thread (setCountdownValue w) w)
  else (set_im_completion_code CC_INVALID_PARAM (set_im_data_len 0 msg), w).

Definition APP_SET_WATCHDOG_TIMER (msg : ipmi_msg) (w : wdt) : ipmi_msg * wdt :=
  let b i := rd (im_data msg) i in
  let w := mk_wdt (b 0) (b 1) (b 2) (b 3) (timerUseExpireFlags w .& u8 (Z.lnot (b 3))) (b 4) (b 5)
             (presentCountdownValue w) (u16 ((b 5 .<< 8) .| b 4)) (isWdtSet w) (frb2_wdt_tid w)
             (expired w) in
  let w := if wdt_alive w then set_isset false (abort_frb2_wdt_thread w)
           else set_isset true (set_present (setCountdownValue w) w) in
  (set_im_completion_code CC_SUCCESS (set_im_data_len 0 msg), w).

Definition APP_GET_WATCHDOG_TIMER (msg : ipmi_msg) (w : wdt) : ipmi_msg :=
  if negb (im_data_len msg =? 0) then set_im_completion_code CC_INVALID_LENGTH msg
  else
    let data := [if wdt_alive w then timerUse w .| BIT 6 else timerUse w; timerAction w;
                 preTimeoutInSec w; timerUseExpireFlags w; initCountdownValueLsb w;
                 initCountdownValueMsb w; presentCountdownValue w .& 0x00FF;
                 (presentCountdownValue w .& 0xFF00) .>> 8] in
    set_im_completion_code CC_SUCCESS
      (set_im_data_len 8 (set_im_data (patch (im_data msg) 0 data) msg)).

(** ** Interleavings *)

Inductive wdt_event := EvSet (msg : ipmi_msg) | EvReset (msg : ipmi_msg) | EvRun.

Definition wdt_step (w : wdt) (e : wdt_event) : wdt :=
  match e with
  | EvSet msg => snd (APP_SET_WATCHDOG_TIMER msg w)
  | EvReset msg => snd (APP_RESET_WATCHDOG_TIMER msg w)
  | EvRun => frb2_wdt_handler w
  end.

Definition wdt_run (w : wdt) (l : list wdt_event) : wdt := foldl wdt_step w l.

Definition is_byte (z : Z) : Prop := 0 <= z < 256.

(** The type and protocol invariant: a running thread belongs to a set watchdog, counts down
    from at most the value set and carries the timer use that was set. *)
Record wdt_inv (w : wdt) : Prop := {
  wi_use : is_byte (timerUse w);
  wi_action : is_byte (timerAction w);
  wi_pre : is_byte (preTimeoutInSec w);
  wi_flags : is_byte (timerUseExpireFlags w);
  wi_lsb : is_byte (initCountdownValueLsb w);
  wi_msb : is_byte (initCountdownValueMsb w);
  wi_set : 0 <= setCountdownValue w < 65536;
  wi_present : 0 <= presentCountdownValue w <= setCountdownValue w;
  wi_alive : wdt_alive w = true -> isWdtSet w = true;
  wi_created : forall c, frb2_wdt_tid w = WdtCreated c -> c = setCountdownValue w;
  wi_timer : forall t, frb2_wdt_tid w = WdtAsleep t -> t = timerUse w .& 0x07 }.

(** ** Invariant *)

Definition event_ok (e : wdt_event) : Prop :=
  match e with EvSet msg | EvReset msg => bytes_ok (im_data msg) | EvRun => True end.

Lemma wdt_inv_init : wdt_inv wdt_init.
Proof. by split. Qed.

Lemma land_ones_range z n : 0 <= n -> 0 <= z .& Z.ones n < 2 ^ n.
Proof. intros. rewrite Z.land_ones by lia. apply Z.mod_pos_bound. lia. Qed.

(** Bitwise operations on bytes. *)
Lemma byte_log2 c : 0 <= c -> is_byte c <-> Z.log2 c < 8.
Proof.
  intros Hc. unfold is_byte. destruct (Z.eq_dec c 0) as [->|]; [done|].
  change 256 with (2 ^ 8). rewrite <- Z.log2_lt_pow2 by lia. lia.
Qed.

Lemma byte_lor a b : is_byte a -> is_byte b -> is_byte (a .| b).
Proof.
  intros Ha Hb. assert (0 <= a /\ 0 <= b) as [Ha0 Hb0] by (unfold is_byte in *; lia).
  rewrite !byte_log2 in * by (try apply Z.lor_nonneg; done). rewrite Z.log2_lor by done. lia.
Qed.

Lemma byte_land a b : is_byte a -> is_byte b -> is_byte (a .& b).
Proof.
  intros Ha Hb. assert (0 <= a /\ 0 <= b) as [Ha0 Hb0] by (unfold is_byte in *; lia).
  rewrite !byte_log2 in * by (try (apply Z.land_nonneg; left); done).
  pose proof (Z.log2_land a b Ha0 Hb0). lia.
Qed.

Lemma expire_inv w t : wdt_inv w -> wdt_inv (wdt_expire t w).
Proof.
  intros []. split; cbn; try done. apply byte_lor; [done|apply u8_range].
Qed.

Lemma handler_inv w : wdt_inv w -> wdt_inv (frb2_wdt_handler w).
Proof.
  intros Hw. pose proof Hw as []. unfold frb2_wdt_handler.
  destruct (frb2_wdt_tid w) as [|c|t] eqn:Et; [done| |].
  - specialize (wi_created0 c eq_refl).
    assert (Hc : wdt_inv (set_present c w)).
    { split; cbn; try done; rewrite ?Et; try done; [lia|by intros c' [= <-]]. }
    cbn. destruct (0 <? c); [|by apply expire_inv].
    destruct Hc. split; cbn; try done; [|by intros t [= <-]].
    intros _. apply wi_alive1. unfold wdt_alive. cbn. by rewrite Et.
  - assert (Hp : forall v, 0 <= v <= presentCountdownValue w -> wdt_inv (set_present v w)).
    { intros v Hv. split; cbn; try done; [lia| |]; rewrite Et; done || by apply wi_timer0. }
    destruct (Z.ltb_spec (presentCountdownValue w) 100); [apply expire_inv, Hp; lia|].
    cbn. rewrite u16_id by lia. destruct (0 <? _); [|apply expire_inv]; apply Hp; lia.
Qed.

Lemma wdt_step_inv w e : event_ok e -> wdt_inv w -> wdt_inv (wdt_step w e).
Proof.
  intros He Hw. destruct e as [msg|msg|]; cbn [wdt_step]; [| |by apply handler_inv].
  - pose proof Hw as []. cbn in He. pose proof (fun i => rd_range _ i He) as Hr.
    assert (Hb : forall i, is_byte (rd (im_data msg) i)) by done.
    unfold APP_SET_WATCHDOG_TIMER. cbn.
    set (b := fun i => rd (im_data msg) i). change (wdt_alive _) with (wdt_alive w).
    pose proof (u16_range ((b 5 .<< 8) .| b 4)).
    destruct (wdt_alive w) eqn:Ea; unfold abort_frb2_wdt_thread.
    + unfold wdt_alive in Ea |- *. cbn. destruct (frb2_wdt_tid w); try done;
        split; cbn; try done; apply byte_land; [done|apply u8_range|done|apply u8_range].
    + assert (Et : frb2_wdt_tid w = WdtDead) by (unfold wdt_alive in Ea; by destruct (frb2_wdt_tid w)).
      split; cbn; rewrite ?Et; try done; try lia. apply byte_land; [done|apply u8_range].
  - pose proof Hw as []. unfold APP_RESET_WATCHDOG_TIMER.
    destruct (isWdtSet w) eqn:Es; cbn [snd]; [|done]. unfold init_frb2_wdt_thread.
    destruct (wdt_alive w) eqn:Ea.
    + split; cbn; try done. lia.
    + split; cbn; try done. intros c [= <-]. by apply u16_id.
Qed.

(** However the watchdog commands and the runs of the countdown thread interleave, a running
    thread belongs to a set watchdog, counts down from the value that was set, never shows more
    than that value and will report the timer use that was set; every variable keeps its width. *)
Theorem wdt_invariant l : Forall event_ok l -> wdt_inv (wdt_run wdt_init l).
Proof.
  intros Hl. unfold wdt_run. generalize wdt_inv_init. generalize wdt_init.
  induction Hl as [|e l He _ IH]; intros w Hw; [done|]. cbn. by apply IH, wdt_step_inv.
Qed.

Lemma wdt_invariant_witness : Forall event_ok [EvRun; EvSet zero_ipmi_msg; EvReset zero_ipmi_msg; EvRun] /\
  wdt_inv (wdt_run wdt_init [EvRun; EvSet zero_ipmi_msg; EvReset zero_ipmi_msg; EvRun]).
Proof.
  assert (H : Forall event_ok [EvRun; EvSet zero_ipmi_msg; EvReset zero_ipmi_msg; EvRun]).
  { assert (bytes_ok (im_data zero_ipmi_msg)) by (by apply Forall_replicate).
    by repeat (apply Forall_cons; split). }
  split; [exact H|]. exact (wdt_invariant _ H).
Defined.

(** ** Countdown *)

(** The sleeps of ten seconds until a countdown of [v] tenths runs out. *)
Definition wdt_sleeps (v : Z) : nat := Z.to_nat ((v + 99) / 100).

(** A watchdog that has slept [k] times since it started from [v]. *)
Record counting (v : Z) (k : nat) (w : wdt) : Prop := {
  cn_tid : frb2_wdt_tid w = WdtAsleep (timerUse w .& 0x07);
  cn_present : presentCountdownValue w = v - 100 * Z.of_nat k;
  cn_set : setCountdownValue w = v;
  cn_isset : isWdtSet w = true }.

Lemma wdt_sleeps_spec v k : 0 < v -> (k < wdt_sleeps v)%nat <-> 100 * Z.of_nat k < v.
Proof. intros. unfold wdt_sleeps. pose proof (Z.div_mod (v + 99) 100). pose proof (Z.mod_pos_bound (v + 99) 100). lia. Qed.

Lemma counting_run v k w :
  0 < v < 65536 -> counting v k w -> (S k < wdt_sleeps v)%nat ->
  counting v (S k) (frb2_wdt_handler w) /\ expired (frb2_wdt_handler w) = expired w.
Proof.
  intros Hv [Ht Hp Hs Hi] Hk. pose proof (proj1 (wdt_sleeps_spec v (S k) ltac:(lia)) Hk).
  unfold frb2_wdt_handler. rewrite Ht. destruct (Z.ltb_spec (presentCountdownValue w) 100); [lia|].
  cbn. rewrite u16_id by lia. destruct (Z.ltb_spec 0 (presentCountdownValue w - 100)); [|lia].
  split; [|done]. split; cbn; try done. lia.
Qed.

Lemma counting_last v k w :
  0 < v < 65536 -> counting v k w -> S k = wdt_sleeps v ->
  exists w0, presentCountdownValue w0 = 0 /\ timerUse w0 = timerUse w /\ timerAction w0 = timerAction w /\
    timerUseExpireFlags w0 = timerUseExpireFlags w /\ expired w0 = expired w /\
    frb2_wdt_handler w = wdt_expire (timerUse w .& 0x07) w0.
Proof.
  intros Hv [Ht Hp Hs Hi] Hk.
  pose proof (proj1 (wdt_sleeps_spec v k ltac:(lia)) ltac:(lia)).
  assert (v <= 100 * Z.of_nat (S k)).
  { destruct (Z.le_gt_cases v (100 * Z.of_nat (S k))) as [|Hg]; [done|].
    apply wdt_sleeps_spec in Hg; lia. }
  unfold frb2_wdt_handler. rewrite Ht.
  destruct (Z.ltb_spec (presentCountdownValue w) 100); [by exists (set_present 0 w)|].
  cbn. assert (presentCountdownValue w - 100 = 0) as -> by lia.
  exists (set_present (u16 0) w). by split_and!.
Qed.

Lemma counting_runs v k w j :
  0 < v < 65536 -> counting v k w -> (k + j < wdt_sleeps v)%nat ->
  counting v (k + j) (wdt_run w (replicate j EvRun)) /\
  expired (wdt_run w (replicate j EvRun)) = expired w /\
  timerUse (wdt_run w (replicate j EvRun)) = timerUse w /\
  timerAction (wdt_run w (replicate j EvRun)) = timerAction w.
Proof.
  intros Hv. revert k w. induction j as [|j IH]; intros k w Hc Hk; cbn.
  { rewrite Nat.add_0_r. done. }
  destruct (counting_run v k w Hv Hc ltac:(lia)) as [Hc1 He].
  destruct (IH (S k) _ Hc1 ltac:(lia)) as (Hc2 & He2 & Hu & Ha).
  replace (k + S j)%nat with (S k + j)%nat by lia.
  assert (timerUse (frb2_wdt_handler w) = timerUse w /\ timerAction (frb2_wdt_handler w) = timerAction w)
    as [Eu Ea].
  { unfold frb2_wdt_handler. destruct (frb2_wdt_tid w); cbn; case_bools; done. }
  unfold wdt_run in *. split_and!; [done|by rewrite He2|by rewrite Hu|by rewrite Ha].
Qed.

(** Set and Reset of a watchdog whose thread is not there, and the first run of the thread. *)
Definition count_of (msg : ipmi_msg) : Z := u16 ((rd (im_data msg) 5 .<< 8) .| rd (im_data msg) 4).

Definition started (w : wdt) (s r : ipmi_msg) : wdt := wdt_run w [EvSet s; EvReset r; EvRun].

Lemma started_counting w s r :
  wdt_alive w = false -> 0 < count_of s ->
  counting (count_of s) 0 (started w s r) /\ expired (started w s r) = expired w /\
  timerUse (started w s r) = rd (im_data s) 0 /\ timerAction (started w s r) = rd (im_data s) 1.
Proof.
  intros Ha Hc. unfold wdt_alive in Ha. destruct (frb2_wdt_tid w) eqn:Et; try done.
  unfold started, wdt_run. cbn [foldl wdt_step].
  unfold APP_SET_WATCHDOG_TIMER. cbn. unfold wdt_alive. cbn. rewrite Et.
  unfold APP_RESET_WATCHDOG_TIMER, init_frb2_wdt_thread, wdt_alive. cbn.
  unfold frb2_wdt_handler. cbn. fold (count_of s). rewrite u16_id by apply u16_range.
  destruct (Z.ltb_spec 0 (count_of s)); [|lia]. split; [|done]. split; cbn; done || lia.
Qed.

(** C20: after Set and Reset Watchdog Timer with a countdown of [v] tenths of a second, the
    thread sleeps [v / 100] times, rounded up, and then - not before - expires: it calls the
    platform's hook once with the action and the timer use that were set, flags the expiration
    and ends. *)
Theorem wdt_expires_exactly w s r k :
  wdt_alive w = false -> 0 < count_of s ->
  let w' := wdt_run (started w s r) (replicate k EvRun) in
  ((k < wdt_sleeps (count_of s))%nat ->
     wdt_alive w' = true /\ expired w' = expired w /\
     presentCountdownValue w' = count_of s - 100 * Z.of_nat k) /\
  (k = wdt_sleeps (count_of s) ->
     wdt_alive w' = false /\ presentCountdownValue w' = 0 /\
     expired w' = (rd (im_data s) 1, rd (im_data s) 0 .& 0x07) :: expired w /\
     Z.testbit (timerUseExpireFlags w') (rd (im_data s) 0 .& 0x07) = true).
Proof.
  intros Ha Hc w'. pose proof (u16_range ((rd (im_data s) 5 .<< 8) .| rd (im_data s) 4)) as Hv.
  fold (count_of s) in Hv. assert (Hv' : 0 < count_of s < 65536) by lia. destruct (started_counting w s r Ha Hc) as (Hs & He & Hu & Hact).
  split.
  - intros Hk. destruct (counting_runs _ 0 _ k Hv' Hs Hk) as (Hk' & He' & _).
    unfold w'. split_and!; [unfold wdt_alive; by rewrite (cn_tid _ _ _ Hk')|congruence|].
    apply (cn_present _ _ _ Hk').
  - intros ->. unfold w'. pose proof (proj2 (wdt_sleeps_spec (count_of s) 0 Hc) ltac:(lia)).
    destruct (wdt_sleeps (count_of s)) as [|j] eqn:Ej; [lia|].
    destruct (counting_runs _ 0 _ j Hv' Hs ltac:(lia)) as (Hj & He' & Hu' & Ha').
    rewrite replicate_S_end. unfold wdt_run in *. rewrite foldl_snoc. cbn [wdt_step].
    destruct (counting_last _ _ _ Hv' Hj ltac:(lia)) as (w0 & E0 & E1 & E2 & E3 & E4 & ->).
    set (wj := foldl _ _ _) in *. clearbody wj. rewrite Hu', Hu in *.
    cbn. rewrite E0, E1, E2, E4, He', Ha', He, Hact. split_and!; try done.
    pose proof (land_ones_range (rd (im_data s) 0) 3). change (Z.ones 3) with 7 in *.
    rewrite Z.lor_spec. apply orb_true_iff. right. fold (BIT (rd (im_data s) 0 .& 7)).
    assert (H7 : forall i, 0 <= i < 8 -> Z.testbit (u8 (BIT i)) i = true).
    { intros i Hi. apply (small_forall 8 (fun i => Z.testbit (u8 (BIT i)) i)); done. }
    apply H7. lia.
Qed.

(** The request of a watchdog of [v] tenths with timer use 1 and action 3. *)
Definition set_request (v : Z) : ipmi_msg :=
  set_im_data (patch (zeros IPMI_MSG_MAX_LENGTH) 0 [1; 3; 0; 0; v .& 0xFF; v .>> 8])
    (set_im_data_len 6 zero_ipmi_msg).

Lemma wdt_expires_exactly_witness :
  wdt_alive wdt_init = false /\ 0 < count_of (set_request 250) /\ 3%nat = wdt_sleeps 250 /\
  expired (wdt_run (started wdt_init (set_request 250) zero_ipmi_msg) (replicate 3 EvRun)) = [(3, 1)].
Proof.
  split; [reflexivity|]. split; [vm_compute; reflexivity|]. split; [reflexivity|].
  apply (wdt_expires_exactly wdt_init (set_request 250) zero_ipmi_msg 3);
    [reflexivity|vm_compute; reflexivity|reflexivity].
Defined.

(** A host that resets the watchdog before the countdown runs out keeps it from expiring:
    whatever number of periods, each a Reset and fewer sleeps than the countdown has. *)
Theorem wdt_kicked_never_expires w s r periods :
  wdt_alive w = false -> 0 < count_of s ->
  Forall (fun k => (k < wdt_sleeps (count_of s))%nat) periods ->
  let kick k := EvReset r :: replicate k EvRun in
  expired (wdt_run (started w s r) (periods ≫= kick)) = expired w /\
  wdt_alive (wdt_run (started w s r) (periods ≫= kick)) = true.
Proof.
  intros Ha Hc Hp. pose proof (u16_range ((rd (im_data s) 5 .<< 8) .| rd (im_data s) 4)) as Hv.
  fold (count_of s) in Hv. assert (Hv' : 0 < count_of s < 65536) by lia. destruct (started_counting w s r Ha Hc) as (Hs & He & _).
  rewrite <- He. clear He Ha. revert Hs. generalize (started w s r). generalize 0%nat at 1.
  induction Hp as [|k l Hk _ IH]; intros n w' Hs; cbn.
  - split; [done|]. unfold wdt_alive. by rewrite (cn_tid _ _ _ Hs).
  - unfold wdt_run in *. rewrite foldl_app. set (w1 := snd _).
    assert (H1 : counting (count_of s) 0 w1 /\ expired w1 = expired w').
    { destruct Hs as [Ht Hp' Hs' Hi]. unfold w1, APP_RESET_WATCHDOG_TIMER. rewrite Hi. cbn.
      unfold init_frb2_wdt_thread, wdt_alive. rewrite Ht. split; [|done]. split; cbn; try done. lia. }
    destruct H1 as [H1 E1]. destruct (counting_runs _ 0 w1 k Hv' H1 Hk) as (H2 & E2 & _).
    unfold wdt_run in *. destruct (IH _ _ H2) as [E3 H3]. split; [congruence|done].
Qed.

Lemma wdt_kicked_never_expires_witness :
  expired (wdt_run (started wdt_init (set_request 250) zero_ipmi_msg)
    ([2%nat; 1%nat; 2%nat] ≫= fun k => EvReset zero_ipmi_msg :: replicate k EvRun)) = [].
Proof.
  apply (wdt_kicked_never_expires wdt_init (set_request 250) zero_ipmi_msg [2; 1; 2]%nat);
    [reflexivity|vm_compute; reflexivity|].
  repeat (apply Forall_cons; split; [vm_compute; lia|]). apply Forall_nil; exact I.
Defined.

Lemma abort_dead w :
  wdt_alive w = true ->
  frb2_wdt_tid (abort_frb2_wdt_thread w) = WdtDead /\ setCountdownValue (abort_frb2_wdt_thread w) = 0.
Proof. intros Ha. unfold abort_frb2_wdt_thread. by rewrite Ha. Qed.

Lemma dead_runs w l :
  frb2_wdt_tid w = WdtDead -> Forall (fun e => e = EvRun) l -> wdt_run w l = w.
Proof.
  intros Hd Hl. unfold wdt_run. induction Hl as [|e l -> _ IH]; [done|]. cbn.
  unfold frb2_wdt_handler at 1. by rewrite Hd.
Qed.

(** A Set Watchdog Timer that reaches a running watchdog stops it and throws the new
    countdown away: the next Reset is refused and nothing counts, although the command was
    answered with success. *)
Theorem wdt_set_running_disarms w s r :
  wdt_alive w = true ->
  let '(reply, w1) := APP_SET_WATCHDOG_TIMER s w in
  let '(reply2, w2) := APP_RESET_WATCHDOG_TIMER r w1 in
  im_completion_code reply = CC_SUCCESS /\ im_completion_code reply2 = CC_INVALID_PARAM /\
  forall l, Forall (fun e => e = EvRun) l -> wdt_run w2 l = w1 /\ setCountdownValue w1 = 0.
Proof.
  intros Ha. unfold APP_SET_WATCHDOG_TIMER. cbn. change (wdt_alive _) with (wdt_alive w).
  rewrite Ha. unfold APP_RESET_WATCHDOG_TIMER. cbn. split_and!; [done|done|].
  intros l Hl. set (w0 := mk_wdt _ _ _ _ _ _ _ _ _ _ _ _).
  destruct (abort_dead w0 Ha) as [Hd Hs]. split; [|exact Hs]. by apply dead_runs.
Qed.

Lemma wdt_set_running_disarms_witness :
  let w := started wdt_init (set_request 250) zero_ipmi_msg in
  wdt_alive w = true /\
  let '(reply, w1) := APP_SET_WATCHDOG_TIMER (set_request 600) w in
  let '(reply2, w2) := APP_RESET_WATCHDOG_TIMER zero_ipmi_msg w1 in
  im_completion_code reply = CC_SUCCESS /\ im_completion_code reply2 = CC_INVALID_PARAM /\
  forall l, Forall (fun e => e = EvRun) l -> wdt_run w2 l = w1 /\ setCountdownValue w1 = 0.
Proof.
  split; [reflexivity|]. apply (wdt_set_running_disarms _ (set_request 600) zero_ipmi_msg). reflexivity.
Defined.
