(* ===== verification/IpmiCmds.v ===== *)
(** Component: the IPMI command handlers [storage_handler.c], [app_handler.c] and
    [chassis_handler.c] of [common/service/ipmi], over the services they call: FRU storage, the
    sensor data repository, the watchdog and the I2C buses. *)

From S2P Require Import Prelude Bytes HalI2c Eeprom Sdr IpmiMsg IpmbCodec PldmCore IpmiCore Watchdog.

(** ** Constants *)

Definition CC_INVALID_RESERVATION : Z := 0xC5.
Definition CC_LENGTH_EXCEEDED : Z := 0xC8.
Definition CC_PARAM_OUT_OF_RANGE : Z := 0xC9.
Definition CC_INVALID_DATA_FIELD : Z := 0xCC.
Definition CC_UNSPECIFIED_ERROR : Z := 0xFF.
Definition CC_FRU_DEV_BUSY : Z := 0x81.
Definition CC_I2C_BUS_ERROR : Z := 0x83.
Definition SLOT3_BIC : Z := 0x08.
Definition CMD_STORAGE_ADD_SEL : Z := 0x44.

(** What a platform defines: device id data, FRU table, buses, and overridden weak functions. *)
Record platform := mk_platform {
  DEVICE_ID : Z; DEVICE_REVISION : Z; FIRMWARE_REVISION_1 : Z; FIRMWARE_REVISION_2 : Z;
  IPMI_VERSION : Z; ADDITIONAL_DEVICE_SUPPORT : Z; PRODUCT_ID : Z; AUXILIARY_FW_REVISION : Z;
  BIC_FRU_DEV_ID : Z;
  plat_fru_config : list EEPROM_CFG;
  plat_MAX_FRU_ID : Z;
  plat_bound : list bool;
  plat_obmf : bool;
  plat_espi : bool;
  plat_add_sel_target : Z;
  plat_sel_over_ipmb : bool }.

(** The environment of one command: results of the I2C calls, of locks and allocations, the DC
    status, the status of the event record sent to the BMC, the system GUID and its status (a
    platform function, status codes as those of [fru.h]), and what an uninitialised entry holds. *)
Record cmd_env := mk_cmd_env {
  ce_i2c : Z -> i2c_env;
  ce_lock : bool;
  ce_malloc : bool;
  ce_dc_on : bool;
  ce_send_sel : ipmi_msg -> ipmb_error;
  ce_guid : FRU_status * list Z;
  ce_stack : list Z }.

Inductive reset_work := ColdReset | WarmReset.

(** The state behind the handlers; [bic_works]: submitted resets, latest first. *)
Record bic (D : Type) := mk_bic {
  bic_dev : D; bic_sdr : sdr_state; bic_wdt : wdt; bic_works : list reset_work;
  bic_env : cmd_env }.
Arguments mk_bic {D}.
Arguments bic_dev {D}.
Arguments bic_sdr {D}.
Arguments bic_wdt {D}.
Arguments bic_works {D}.
Arguments bic_env {D}.

Definition set_dev {D} (d : D) (s : bic D) : bic D :=
  mk_bic d (bic_sdr s) (bic_wdt s) (bic_works s) (bic_env s).
Definition set_sdr {D} (r : sdr_state) (s : bic D) : bic D :=
  mk_bic (bic_dev s) r (bic_wdt s) (bic_works s) (bic_env s).
Definition set_wdt {D} (w : wdt) (s : bic D) : bic D :=
  mk_bic (bic_dev s) (bic_sdr s) w (bic_works s) (bic_env s).
Definition submit_work {D} (w : reset_work) (s : bic D) : bic D :=
  mk_bic (bic_dev s) (bic_sdr s) (bic_wdt s) (w :: bic_works s) (bic_env s).

Abbreviation cc := set_im_completion_code.

(** The first bytes of [msg->data] are [d], and [data_len] is [n]. *)
Definition put_data (d : list Z) (n : Z) (msg : ipmi_msg) : ipmi_msg :=
  set_im_data (patch (im_data msg) 0 d) (set_im_data_len n msg).

Section handlers.
Context {D : Type} `{I2cDriver D} (P : platform).

(** ** [storage_handler.c] *)

Definition STORAGE_GET_FRUID_INFO (msg : ipmi_msg) (s : bic D) : option (ipmi_msg * bic D) :=
  if negb (im_data_len msg =? 1) then Some (cc CC_INVALID_LENGTH msg, s)
  else
    let fruid := rd (im_data msg) 0 in
    if plat_MAX_FRU_ID P <=? fruid then Some (cc CC_INVALID_DATA_FIELD msg, s)
    else
      let fru_size := find_FRU_size (plat_fru_config P) fruid in
      if fru_size =? 0xFFFF then Some (cc CC_UNSPECIFIED_ERROR msg, s)
      else Some (cc CC_SUCCESS (put_data [fru_size .& 0xFF; (fru_size .>> 8) .& 0xFF;
                                          get_FRU_access (plat_fru_config P) fruid] 3 msg), s).

(** The completion code of a FRU access; [ok] is the status of success of the access. *)
Definition fru_cc (ok st : FRU_status) : Z :=
  if bool_decide (st = ok) then CC_SUCCESS
  else match st with
       | FRU_INVALID_ID => CC_INVALID_PARAM
       | FRU_OUT_OF_RANGE => CC_PARAM_OUT_OF_RANGE
       | FRU_FAIL_TO_ACCESS => CC_FRU_DEV_BUSY
       | _ => CC_UNSPECIFIED_ERROR
       end.

Definition STORAGE_READ_FRUID_DATA (msg : ipmi_msg) (s : bic D) : option (ipmi_msg * bic D) :=
  if negb (im_data_len msg =? 4) then Some (cc CC_INVALID_LENGTH msg, s)
  else
    let b i := rd (im_data msg) i in
    let e := entry_for (b 0) ((b 2 .<< 8) .| b 1) (b 3) (ce_stack (bic_env s)) in
    if 32 <? ee_data_len e then Some (cc CC_LENGTH_EXCEEDED msg, s)
    else
      '(d, st, e) ← FRU_read (plat_bound P) (plat_obmf P) (ce_i2c (bic_env s)) (plat_fru_config P)
                      (plat_MAX_FRU_ID P) (ce_lock (bic_env s)) e (bic_dev s);
      data ← mem_read (ee_data e) 0 (ee_data_len e);
      Some (cc (fru_cc FRU_READ_SUCCESS st)
              (put_data (u8 (ee_data_len e) :: data) (u16 (ee_data_len e + 1)) msg), set_dev d s).

Definition STORAGE_WRITE_FRUID_DATA (msg : ipmi_msg) (s : bic D) : option (ipmi_msg * bic D) :=
  if im_data_len msg <? 4 then Some (cc CC_INVALID_LENGTH msg, s)
  else
    let b i := rd (im_data msg) i in
    let len := u16 (im_data_len msg - 3) in
    if 32 <? len then Some (cc CC_LENGTH_EXCEEDED msg, s)
    else
      data ← mem_read (im_data msg) 3 len;
      data ← mem_write (ce_stack (bic_env s)) 0 data;
      let e := entry_for (b 0) ((b 2 .<< 8) .| b 1) len data in
      '(d, st) ← FRU_write (plat_bound P) (plat_obmf P) (ce_i2c (bic_env s)) (plat_fru_config P)
                   (plat_MAX_FRU_ID P) (ce_lock (bic_env s)) e (bic_dev s);
      Some (cc (fru_cc FRU_WRITE_SUCCESS st) (put_data [u8 (im_data_len msg - 3)] 1 msg), set_dev d s).

Definition rsv_index (msg : ipmi_msg) : Z := if im_InF_source msg =? SLOT3_BIC then 1 else 0.

Definition STORAGE_RSV_SDR (msg : ipmi_msg) (s : bic D) : option (ipmi_msg * bic D) :=
  if negb (im_data_len msg =? 0) then Some (cc CC_INVALID_LENGTH msg, s)
  else
    let '(sdr, id) := SDR_get_RSV_ID (rsv_index msg) (bic_sdr s) in
    Some (cc CC_SUCCESS (put_data [id .& 0xFF; (id .>> 8) .& 0xFF] 2 msg), set_sdr sdr s).

(** The bytes from [table_ptr + offset]: the table is one array, so that a read past a record
    runs into the next. [pal_set_SDR] is the weak function, which does nothing. *)
Definition STORAGE_GET_SDR (msg : ipmi_msg) (s : bic D) : option (ipmi_msg * bic D) :=
  let b i := rd (im_data msg) i in
  let rsv_ID := u16 ((b 1 .<< 8) .| b 0) in
  let record_ID := u16 ((b 3 .<< 8) .| b 2) in
  let offset := b 4 in
  let req_len := b 5 in
  if negb (im_data_len msg =? 6) then Some (cc CC_INVALID_LENGTH msg, s)
  else if negb (SDR_RSV_ID_check (bic_sdr s) rsv_ID (rsv_index msg)) then
    Some (cc CC_INVALID_RESERVATION msg, s)
  else if negb (SDR_check_record_ID (bic_sdr s) record_ID) then Some (cc CC_INVALID_DATA_FIELD msg, s)
  else if IPMI_DATA_MAX_LENGTH <? req_len + 2 then Some (cc CC_LENGTH_EXCEEDED msg, s)
  else
    table ← full_sdr_table (bic_sdr s);
    r ← table !! Z.to_nat record_ID;
    if IPMI_SDR_HEADER_LEN + rd r f_record_len <? offset + req_len then
      Some (cc CC_PARAM_OUT_OF_RANGE msg, s)
    else
      let next := SDR_get_record_ID (bic_sdr s) record_ID in
      data ← mem_read (mjoin table) (record_ID * sizeof_SDR_Full_sensor + offset) req_len;
      Some (cc CC_SUCCESS (put_data ([next .& 0xFF; (next .>> 8) .& 0xFF] ++ data) (req_len + 2) msg), s).

(** [ce_send_sel]: the status of [ipmb_read] or [pldm_send_ipmi_request]. *)
Definition STORAGE_ADD_SEL (cfg_ipmb : bool) (msg : ipmi_msg) (s : bic D) : option (ipmi_msg * bic D) :=
  if negb cfg_ipmb then Some (cc CC_UNSPECIFIED_ERROR msg, s)
  else if negb (im_data_len msg =? 16) then Some (cc CC_INVALID_LENGTH msg, s)
  else if negb (ce_malloc (bic_env s)) then Some (cc CC_UNSPECIFIED_ERROR msg, s)
  else
    data ← mem_read (im_data msg) 0 (im_data_len msg);
    let sel := set_im_data (patch (zeros IPMI_MSG_MAX_LENGTH) 0 data)
      (set_im_data_len 16 (set_im_cmd CMD_STORAGE_ADD_SEL (set_im_netfn NETFN_STORAGE_REQ
        (set_im_InF_target (plat_add_sel_target P) (set_im_InF_source SELF zero_ipmi_msg))))) in
    let msg := set_im_data_len 0 msg in
    if plat_sel_over_ipmb P then
      match ce_send_sel (bic_env s) sel with
      | IPMB_ERROR_FAILURE | IPMB_ERROR_GET_MESSAGE_QUEUE => Some (cc CC_UNSPECIFIED_ERROR msg, s)
      | _ => Some (cc CC_SUCCESS msg, s)
      end
    else Some (cc CC_SUCCESS msg, s).

Definition Storage_handler (cfg_ipmb : bool) (msg : ipmi_msg) (s : bic D)
    : option (ipmi_msg * bic D) :=
  let cmd := im_cmd msg in
  if cmd =? 0x10 then STORAGE_GET_FRUID_INFO msg s
  else if cmd =? 0x11 then STORAGE_READ_FRUID_DATA msg s
  else if cmd =? 0x12 then STORAGE_WRITE_FRUID_DATA msg s
  else if cmd =? 0x22 then STORAGE_RSV_SDR msg s
  else if cmd =? 0x23 then STORAGE_GET_SDR msg s
  else if cmd =? CMD_STORAGE_ADD_SEL then STORAGE_ADD_SEL cfg_ipmb msg s
  else Some (cc CC_INVALID_CMD (set_im_data_len 0 msg), s).

(** ** [app_handler.c] *)

Definition APP_GET_DEVICE_ID (msg : ipmi_msg) (s : bic D) : option (ipmi_msg * bic D) :=
  if negb (im_data_len msg =? 0) then Some (cc CC_INVALID_LENGTH msg, s)
  else
    let rev := AUXILIARY_FW_REVISION P in
    let data := u8 <$> [DEVICE_ID P; DEVICE_REVISION P; FIRMWARE_REVISION_1 P; FIRMWARE_REVISION_2 P;
      IPMI_VERSION P; ADDITIONAL_DEVICE_SUPPORT P; IANA_ID .& 0xFF; (IANA_ID .>> 8) .& 0xFF;
      (IANA_ID .>> 16) .& 0xFF; PRODUCT_ID P .& 0xFF; (PRODUCT_ID P .>> 8) .& 0xFF;
      (rev .>> 24) .& 0xFF; (rev .>> 16) .& 0xFF; (rev .>> 8) .& 0xFF; rev .& 0xFF] in
    Some (cc CC_SUCCESS (put_data data 15 msg), s).

Definition APP_RESET (w : reset_work) (msg : ipmi_msg) (s : bic D) : option (ipmi_msg * bic D) :=
  if negb (im_data_len msg =? 0) then Some (cc CC_INVALID_LENGTH msg, s)
  else Some (cc CC_SUCCESS msg, submit_work w s).

Definition APP_COLD_RESET : ipmi_msg -> bic D -> option (ipmi_msg * bic D) := APP_RESET ColdReset.
Definition APP_WARM_RESET : ipmi_msg -> bic D -> option (ipmi_msg * bic D) := APP_RESET WarmReset.

(** The byte of [SELF_TEST_RESULT]: bit fields from the least significant bit. *)
Definition selftest_result (checksum : Z) (sdr_not_init : bool) : Z :=
  let b := Z.b2z sdr_not_init in
  let c := Z.b2z (negb (checksum =? 0)) in
  (b .<< 1) .| (c .<< 2) .| (b .<< 4) .| (c .<< 5).

Definition APP_GET_SELFTEST_RESULTS (msg : ipmi_msg) (s : bic D) : option (ipmi_msg * bic D) :=
  if negb (im_data_len msg =? 0) then Some (cc CC_INVALID_LENGTH msg, s)
  else
    let e := entry_for (BIC_FRU_DEV_ID P) 0 8 (ce_stack (bic_env s)) in
    '(d, _, e) ← FRU_read (plat_bound P) (plat_obmf P) (ce_i2c (bic_env s)) (plat_fru_config P)
                   (plat_MAX_FRU_ID P) (ce_lock (bic_env s)) e (bic_dev s);
    bytes ← mem_read (ee_data e) 0 (ee_data_len e);
    let checksum := foldl (fun a b => u8 (a + b)) 0 bytes in
    let r := selftest_result checksum (is_sdr_not_init (bic_sdr s)) in
    Some (cc CC_SUCCESS (put_data [if r =? 0 then 0x55 else 0x57; r] 2 msg), set_dev d s).

Definition APP_GET_SYSTEM_GUID (msg : ipmi_msg) (s : bic D) : option (ipmi_msg * bic D) :=
  if negb (im_data_len msg =? 0) then Some (cc CC_INVALID_LENGTH msg, s)
  else
    let '(st, guid) := ce_guid (bic_env s) in
    match st with
    | FRU_READ_SUCCESS => Some (cc CC_SUCCESS (put_data guid (zlen guid) msg), s)
    | FRU_INVALID_ID => Some (cc CC_INVALID_PARAM msg, s)
    | FRU_OUT_OF_RANGE => Some (cc CC_PARAM_OUT_OF_RANGE msg, s)
    | _ => Some (cc CC_UNSPECIFIED_ERROR msg, s)
    end.

Definition APP_MASTER_WRITE_READ (msg : ipmi_msg) (s : bic D) : option (ipmi_msg * bic D) :=
  if im_data_len msg <? 4 then Some (cc CC_INVALID_LENGTH msg, s)
  else
    let b i := rd (im_data msg) i in
    let bus_7bit := b 0 .>> 1 in
    if zlen (plat_bound P) <=? bus_7bit then Some (cc CC_PARAM_OUT_OF_RANGE msg, s)
    else
      let tx_len := u8 (im_data_len msg - 3) in
      let rx_len := b 2 in
      if tx_len =? 0 then Some (cc CC_INVALID_DATA_FIELD msg, s)
      else
        data ← mem_read (im_data msg) 3 tx_len;
        let i2c := mk_i2c bus_7bit (b 1 .>> 1) rx_len tx_len (patch (zeros I2C_BUFF_SIZE) 0 data) in
        let msg := set_im_data_len rx_len msg in
        let env := ce_i2c (bic_env s) 0 in
        if rx_len =? 0 then
          '(d, ret) ← i2c_master_write (plat_bound P) (plat_obmf P) env i2c 3 (bic_dev s);
          Some (cc (if ret =? 0 then CC_SUCCESS else CC_I2C_BUS_ERROR) msg, set_dev d s)
        else
          '(d, ret, i2c) ← i2c_master_read (plat_bound P) (plat_obmf P) env i2c 3 (bic_dev s);
          if ret =? 0 then
            rx ← mem_read (i2c_data i2c) 0 (i2c_rx_len i2c);
            Some (cc CC_SUCCESS (put_data rx rx_len msg), set_dev d s)
          else Some (cc CC_I2C_BUS_ERROR msg, set_dev d s).

(** The commands that are not supported: the weak functions [APP_GET_BMC_GLOBAL_ENABLES],
    [APP_SET_ACPI_POWER], [APP_CLEAR_MESSAGE_FLAGS], [APP_GET_CAHNNEL_INFO]. *)
Definition APP_not_supported (msg : ipmi_msg) (s : bic D) : option (ipmi_msg * bic D) :=
  Some (cc CC_INVALID_CMD (set_im_data_len 0 msg), s).

Definition APP_handler (msg : ipmi_msg) (s : bic D) : option (ipmi_msg * bic D) :=
  let cmd := im_cmd msg in
  if cmd =? 0x01 then APP_GET_DEVICE_ID msg s
  else if cmd =? 0x02 then APP_COLD_RESET msg s
  else if cmd =? 0x03 then APP_WARM_RESET msg s
  else if cmd =? 0x04 then APP_GET_SELFTEST_RESULTS msg s
  else if cmd =? 0x52 then APP_MASTER_WRITE_READ msg s
  else if cmd =? 0x37 then APP_GET_SYSTEM_GUID msg s
  else if (cmd =? 0x2f) || (cmd =? 0x06) || (cmd =? 0x30) || (cmd =? 0x42) then APP_not_supported msg s
  else if cmd =? 0x22 then
    let '(msg, w) := APP_RESET_WATCHDOG_TIMER msg (bic_wdt s) in Some (msg, set_wdt w s)
  else if cmd =? 0x24 then
    let '(msg, w) := APP_SET_WATCHDOG_TIMER msg (bic_wdt s) in Some (msg, set_wdt w s)
  else if cmd =? 0x25 then Some (APP_GET_WATCHDOG_TIMER msg (bic_wdt s), s)
  else Some (cc CC_INVALID_CMD (set_im_data_len 0 msg), s).

(** ** [chassis_handler.c] *)

(** [CHASSIS_STATUS]: power on, power fault and the restore policy "always on". *)
Definition CHASSIS_GET_CHASSIS_STATUS (msg : ipmi_msg) (s : bic D) : option (ipmi_msg * bic D) :=
  if negb (im_data_len msg =? 0) then Some (cc CC_INVALID_LENGTH msg, s)
  else
    let on := Z.b2z (ce_dc_on (bic_env s)) in
    Some (cc CC_SUCCESS (put_data [on .| (on .<< 3) .| (0x2 .<< 5); 0; 0; 0] 4 msg), s).

Definition CHASSIS_handler (msg : ipmi_msg) (s : bic D) : option (ipmi_msg * bic D) :=
  if plat_espi P && (im_cmd msg =? 0x01) then CHASSIS_GET_CHASSIS_STATUS msg s
  else Some (cc CC_INVALID_CMD (set_im_data_len 0 msg), s).
End handlers.

(** ** The handlers meet the dispatcher's interface *)

Record platform_ok (P : platform) : Prop := {
  po_fru : Forall (cfg_on_bus (plat_bound P)) (plat_fru_config P);
  po_access : Forall (fun c => is_byte (access c)) (plat_fru_config P) }.

Record env_ok (e : cmd_env) : Prop := {
  eo_stack : zlen (ce_stack e) = EEPROM_WRITE_SIZE /\ bytes_ok (ce_stack e);
  eo_guid : zlen (snd (ce_guid e)) <= IPMI_DATA_MAX_LENGTH /\ bytes_ok (snd (ce_guid e)) }.

(** The invariant of the services: a repository that can be served and a sound watchdog. *)
Record bic_ok {D} (s : bic D) : Prop := {
  bo_sdr : exists t, sdr_ok (bic_sdr s) t;
  bo_wdt : wdt_inv (bic_wdt s);
  bo_env : env_ok (bic_env s) }.

Lemma bic_ok_dev {D} d (s : bic D) : bic_ok s -> bic_ok (set_dev d s).
Proof. intros []. by split. Qed.

Lemma bic_ok_work {D} w (s : bic D) : bic_ok s -> bic_ok (submit_work w s).
Proof. intros []. by split. Qed.

Lemma cc_wf c m : msg_wf m -> msg_wf (cc c m).
Proof. done. Qed.

Lemma len0_wf m : msg_wf m -> msg_wf (set_im_data_len 0 m).
Proof. intros (? & ? & ?). split_and!; try done; cbn; msg_lia. Qed.

Lemma len_wf n m : msg_wf m -> 0 <= n <= IPMI_DATA_MAX_LENGTH -> msg_wf (set_im_data_len n m).
Proof. intros (? & ? & ?) ?. split_and!; try done; cbn; lia. Qed.

Lemma put_data_wf d n m :
  msg_wf m -> bytes_ok d -> zlen d <= IPMI_MSG_MAX_LENGTH -> 0 <= n <= IPMI_DATA_MAX_LENGTH ->
  msg_wf (put_data d n m).
Proof.
  intros (Hz & Hb & _) Hd Hl Hn. split_and!; cbn; try lia.
  - rewrite zlen_patch; lia.
  - by apply bytes_ok_patch.
Qed.
Create HintDb ipmi.
#[export] Hint Resolve cc_wf len0_wf len_wf put_data_wf bic_ok_dev bic_ok_work : ipmi.

(** The result of a handler: a response, in a good state. *)
Definition handled {D} (m : ipmi_msg) (r : option (ipmi_msg * bic D)) : Prop :=
  exists m' s', r = Some (m', s') /\ msg_wf m' /\ bic_ok s' /\ same_header m m'.

Lemma handled_intro {D} m m' (s' : bic D) :
  msg_wf m' -> bic_ok s' -> same_header m m' -> handled m (Some (m', s')).
Proof. intros. by exists m', s'. Qed.

Ltac handled := solve [apply handled_intro; [auto with ipmi|auto with ipmi|done]].

Lemma bytes_word z : bytes_ok [z .& 0xFF; (z .>> 8) .& 0xFF].
Proof.
  change 0xFF with (Z.ones 8). rewrite !Z.land_ones by lia.
  repeat constructor; apply Z.mod_pos_bound; lia.
Qed.

Section laws.
Context {D : Type} `{HD : I2cDriver D} {HB : I2cBytes D} (P : platform) (HP : platform_ok P).

Lemma msg_byte m i : msg_wf m -> is_byte (rd (im_data m) i).
Proof. intros (_ & Hb & _). by apply rd_range. Qed.

Lemma get_fruid_info_ok m (s : bic D) : msg_wf m -> bic_ok s -> handled m (STORAGE_GET_FRUID_INFO P m s).
Proof using HP.
  intros Hm Hs. unfold STORAGE_GET_FRUID_INFO. destruct (negb _); [handled|].
  destruct (_ <=? _); [handled|]. destruct (_ =? _) eqn:E; [handled|].
  apply handled_intro; [|done|done]. apply cc_wf, put_data_wf; [done| |done|done].
  change [?a; ?b; ?c] with ([a; b] ++ [c]). apply bytes_ok_app. split; [apply bytes_word|].
  apply Forall_singleton. unfold get_FRU_access. destruct (find_FRU_ID _ _) as [cfg|] eqn:Ef; [|done].
  apply find_FRU_ID_In in Ef. destruct HP as [_ Ha]. rewrite Forall_forall in Ha. by apply Ha.
Qed.

Lemma env_entry_fits (s : bic D) id off len :
  bic_ok s -> 0 <= len <= EEPROM_WRITE_SIZE -> entry_fits (entry_for id off len (ce_stack (bic_env s))).
Proof. intros [_ _ [[? ?] _]] Hl. split_and!; cbn; done || lia. Qed.

Lemma read_fruid_ok m (s : bic D) : msg_wf m -> bic_ok s -> handled m (STORAGE_READ_FRUID_DATA P m s).
Proof using HP HB.
  intros Hm Hs. unfold STORAGE_READ_FRUID_DATA. destruct (negb _); [handled|].
  pose proof (msg_byte m 3 Hm) as H3. unfold is_byte in H3. cbn [ee_data_len entry_for].
  destruct (Z.ltb_spec 32 (rd (im_data m) 3)); [handled|].
  set (e := entry_for _ _ _ _).
  assert (He : entry_fits e) by (apply env_entry_fits; [done|cbv [EEPROM_WRITE_SIZE]; lia]).
  edestruct (FRU_read_total (plat_bound P) (plat_obmf P) (ce_i2c (bic_env s)) (plat_fru_config P)
    (plat_MAX_FRU_ID P) (po_fru _ HP) (ce_lock (bic_env s)) e (bic_dev s)) as (d & st & e' & -> & (Hz & Hb & Hl) & _);
    [done|].
  cbn [mbind option_bind]. unfold EEPROM_WRITE_SIZE in *. rewrite mem_read_Some by lia.
  cbn [mbind option_bind]. apply handled_intro; [|by apply bic_ok_dev|done].
  apply cc_wf, put_data_wf; [done| | |rewrite u16_id by lia; msg_lia].
  - apply Forall_cons; split; [apply u8_range|by apply bytes_ok_slice].
  - rewrite zlen_cons, zlen_slice by lia. msg_lia.
Qed.

Lemma write_fruid_ok m (s : bic D) : msg_wf m -> bic_ok s -> handled m (STORAGE_WRITE_FRUID_DATA P m s).
Proof using HP.
  intros Hm Hs. unfold STORAGE_WRITE_FRUID_DATA. destruct (Z.ltb_spec (im_data_len m) 4); [handled|].
  pose proof Hm as (Hz & Hb & Hn). rewrite u16_id by msg_lia.
  destruct (Z.ltb_spec 32 (im_data_len m - 3)); [handled|].
  rewrite mem_read_Some by msg_lia. cbn [mbind option_bind].
  destruct (eo_stack _ (bo_env _ Hs)) as [Hsz Hsb]. unfold EEPROM_WRITE_SIZE in *.
  assert (Hzs : zlen (slice (im_data m) 3 (im_data_len m - 3)) = im_data_len m - 3)
    by (apply zlen_slice; msg_lia).
  rewrite mem_write_patch by lia. cbn [mbind option_bind].
  edestruct (FRU_write_total (plat_bound P) (plat_obmf P) (ce_i2c (bic_env s)) (plat_fru_config P)
    (plat_MAX_FRU_ID P) (po_fru _ HP) (ce_lock (bic_env s))) as (d & st & ->).
  { split_and!; cbn; [rewrite zlen_patch; cbv [EEPROM_WRITE_SIZE]; lia| |lia|cbv [EEPROM_WRITE_SIZE]; lia].
    apply bytes_ok_patch; [done|by apply bytes_ok_slice]. }
  cbn [mbind option_bind]. apply handled_intro; [|by apply bic_ok_dev|done].
  apply cc_wf, put_data_wf; [done| |done|msg_lia]. apply Forall_singleton. apply u8_range.
Qed.

Lemma rsv_index_01 m : rsv_index m = 0 \/ rsv_index m = 1.
Proof. unfold rsv_index. destruct (_ =? _); auto. Qed.

Lemma rsv_sdr_ok m (s : bic D) : msg_wf m -> bic_ok s -> handled m (STORAGE_RSV_SDR m s).
Proof.
  intros Hm Hs. unfold STORAGE_RSV_SDR. destruct (negb _); [handled|].
  destruct Hs as [[t Ht] Hw He]. pose proof (rsv_id_fresh _ _ _ Ht (rsv_index_01 m)) as Hr.
  destruct (SDR_get_RSV_ID _ _) as [sdr id]. destruct Hr as (Ht' & _).
  apply handled_intro; [|split; by eauto|done].
  apply cc_wf, put_data_wf; [done|apply bytes_word|done|done].
Qed.

(** The bytes of a record in the table's array. *)
Lemma mjoin_records (t : list (list Z)) i r :
  Forall record_wf t -> t !! i = Some r ->
  slice (mjoin t) (Z.of_nat i * sizeof_SDR_Full_sensor) sizeof_SDR_Full_sensor = r /\
  Z.of_nat i * sizeof_SDR_Full_sensor + sizeof_SDR_Full_sensor <= zlen (mjoin t).
Proof.
  unfold sizeof_SDR_Full_sensor. intros Ht. revert i.
  induction Ht as [|r0 t [Hz _] _ IH]; intros i Hi; [done|].
  change (mjoin (r0 :: t)) with (r0 ++ mjoin t). rewrite zlen_app. unfold sizeof_SDR_Full_sensor in Hz.
  destruct i as [|i]; cbn in Hi.
  - injection Hi as <-. pose proof (zlen_nonneg (mjoin t)). split; [|lia].
    change (Z.of_nat 0 * 80) with 0. rewrite slice_app_l by lia. by apply slice_all; lia.
  - destruct (IH i Hi) as [E Hl]. split; [|lia]. rewrite <- E.
    unfold slice. f_equal. rewrite drop_app_ge by (unfold zlen in Hz; lia). f_equal.
    unfold zlen in Hz. lia.
Qed.

Lemma record_read (t : list (list Z)) i r off n :
  Forall record_wf t -> t !! i = Some r -> 0 <= off -> 0 <= n -> off + n <= sizeof_SDR_Full_sensor ->
  mem_read (mjoin t) (Z.of_nat i * sizeof_SDR_Full_sensor + off) n = Some (slice r off n).
Proof.
  intros Ht Hi Ho Hn Hon. destruct (mjoin_records t i r Ht Hi) as [E Hl].
  unfold sizeof_SDR_Full_sensor in *. rewrite mem_read_Some by lia. f_equal. rewrite <- E.
  apply list_eq. intros j. rewrite !lookup_slice by lia. case_bool_decide; [|done].
  rewrite bool_decide_eq_true_2 by lia. f_equal. lia.
Qed.

(** The reply to Get SDR in a repository that can be served. *)
Lemma get_sdr_spec m (s : bic D) t :
  msg_wf m -> sdr_ok (bic_sdr s) t ->
  let b i := rd (im_data m) i in
  let id := u16 ((b 3 .<< 8) .| b 2) in
  STORAGE_GET_SDR m s =
    if negb (im_data_len m =? 6) then Some (cc CC_INVALID_LENGTH m, s)
    else if negb (rd (RSV_ID (bic_sdr s)) (rsv_index m) =? u16 ((b 1 .<< 8) .| b 0)) then
      Some (cc CC_INVALID_RESERVATION m, s)
    else match t !! Z.to_nat id with
    | Some r =>
        if last_ID (bic_sdr s) <? id then Some (cc CC_INVALID_DATA_FIELD m, s)
        else if IPMI_SDR_HEADER_LEN + rd r f_record_len <? b 4 + b 5 then
          Some (cc CC_PARAM_OUT_OF_RANGE m, s)
        else
          let next := SDR_get_record_ID (bic_sdr s) id in
          Some (cc CC_SUCCESS (put_data ([next .& 0xFF; (next .>> 8) .& 0xFF] ++ slice r (b 4) (b 5))
                                 (b 5 + 2) m), s)
    | None => Some (cc CC_INVALID_DATA_FIELD m, s)
    end.
Proof.
  intros Hm [Ht Hr Hl Hlen _] b id. unfold STORAGE_GET_SDR, SDR_RSV_ID_check, SDR_check_record_ID.
  change (u16 ((rd (im_data m) 3 .<< 8) .| rd (im_data m) 2)) with id.
  change (rd (im_data m) 4) with (b 4). change (rd (im_data m) 5) with (b 5).
  destruct (negb (im_data_len m =? 6)); [done|]. destruct (negb (_ =? _)); [done|].
  pose proof (u16_range ((b 3 .<< 8) .| b 2)) as Hid. fold id in Hid.
  pose proof (msg_byte m 4 Hm) as H4. pose proof (msg_byte m 5 Hm) as H5. unfold is_byte in H4, H5.
  fold (b 4) in H4. fold (b 5) in H5. rewrite negb_involutive.
  destruct (Z.ltb_spec (last_ID (bic_sdr s)) id) as [Hgt|Hle]; [by destruct (t !! _)|].
  destruct (Z.ltb_spec IPMI_DATA_MAX_LENGTH (b 5 + 2)); [msg_lia|].
  rewrite Ht. cbn [mbind option_bind].
  destruct (lookup_lt_is_Some_2 t (Z.to_nat id)) as [r Er]; [unfold zlen in *; lia|].
  rewrite Er. cbn [mbind option_bind]. destruct (Z.ltb_spec (IPMI_SDR_HEADER_LEN + rd r f_record_len) (b 4 + b 5)); [done|].
  pose proof (Hlen (Z.to_nat id) r ltac:(lia) Er).
  pose proof (record_read t (Z.to_nat id) r (b 4) (b 5) Hr Er) as E. rewrite Z2Nat.id in E by lia.
  rewrite E by lia. done.
Qed.

Lemma get_sdr_ok m (s : bic D) : msg_wf m -> bic_ok s -> handled m (STORAGE_GET_SDR m s).
Proof.
  intros Hm Hs. destruct (bo_sdr _ Hs) as [t Ht]. rewrite (get_sdr_spec m s t Hm Ht).
  destruct (negb _); [handled|]. destruct (negb _); [handled|].
  destruct (t !! _) as [r|] eqn:Er; [|handled]. destruct (_ <? _); [handled|].
  destruct (Z.ltb_spec (IPMI_SDR_HEADER_LEN + rd r f_record_len) (rd (im_data m) 4 + rd (im_data m) 5)); [handled|].
  pose proof (msg_byte m 5 Hm) as H5. unfold is_byte in H5.
  apply handled_intro; [|done|done]. apply cc_wf, put_data_wf; [done| | |msg_lia].
  - apply bytes_ok_app. split; [apply bytes_word|]. apply bytes_ok_slice.
    pose proof (so_records _ _ Ht) as Hr. rewrite Forall_forall in Hr.
    apply (Hr r). by eapply list_elem_of_lookup_2.
  - rewrite zlen_app. assert (zlen (slice r (rd (im_data m) 4) (rd (im_data m) 5)) <= 255).
    { unfold zlen, slice. rewrite length_take. lia. }
    change (zlen [_; _]) with 2. msg_lia.
Qed.

Lemma add_sel_ok b m (s : bic D) : msg_wf m -> bic_ok s -> handled m (STORAGE_ADD_SEL P b m s).
Proof.
  intros Hm Hs. unfold STORAGE_ADD_SEL. destruct (negb b); [handled|].
  destruct (Z.eqb_spec (im_data_len m) 16) as [E|E]; cbn [negb]; [|handled].
  destruct (negb _); [handled|]. destruct Hm as (Hz & Hb & Hn). rewrite mem_read_Some by msg_lia.
  assert (Hm : msg_wf m) by done. cbn [mbind option_bind].
  destruct (plat_sel_over_ipmb P); [destruct (ce_send_sel _ _)|]; handled.
Qed.

Lemma Storage_handler_ok b : handler_ok bic_ok (Storage_handler (D := D) P b).
Proof using HP HB.
  intros m s Hm Hs. unfold Storage_handler. change (handled m (Storage_handler P b m s)).
  unfold Storage_handler. repeat case_match;
    auto using get_fruid_info_ok, read_fruid_ok, write_fruid_ok, rsv_sdr_ok, get_sdr_ok, add_sel_ok.
  handled.
Qed.
End laws.

Lemma bytes_ok_u8 l : bytes_ok (u8 <$> l).
Proof. apply Forall_fmap, Forall_true. intros. apply u8_range. Qed.

Section app_laws.
Context {D : Type} `{HD : I2cDriver D} {HB : I2cBytes D} (P : platform) (HP : platform_ok P).

Lemma master_write_read_ok m (s : bic D) :
  msg_wf m -> bic_ok s -> handled m (APP_MASTER_WRITE_READ P m s).
Proof using HB.
  intros Hm Hs. unfold APP_MASTER_WRITE_READ. destruct (Z.ltb_spec (im_data_len m) 4); [handled|].
  destruct (Z.leb_spec (zlen (plat_bound P)) (rd (im_data m) 0 .>> 1)) as [|Hbus]; [handled|].
  pose proof (u8_range (im_data_len m - 3)) as Hu. set (tx := u8 (im_data_len m - 3)) in *.
  assert (Htx : tx <= im_data_len m - 3) by (apply Z.mod_le; lia).
  destruct (Z.eqb_spec tx 0); [handled|]. pose proof Hm as (Hz & Hb & Hn).
  rewrite mem_read_Some by msg_lia. cbn [mbind option_bind].
  pose proof (msg_byte m 2 Hm) as H2. unfold is_byte in H2.
  assert (Hd : zlen (patch (zeros I2C_BUFF_SIZE) 0 (slice (im_data m) 3 tx)) = 256).
  { rewrite zlen_patch, zlen_zeros; rewrite ?zlen_zeros, ?zlen_slice; unfold I2C_BUFF_SIZE; try msg_lia. }
  assert (Hdb : bytes_ok (patch (zeros I2C_BUFF_SIZE) 0 (slice (im_data m) 3 tx))).
  { apply bytes_ok_patch; [by apply Forall_replicate|by apply bytes_ok_slice]. }
  destruct (lookup_lt_is_Some_2 (plat_bound P) (Z.to_nat (rd (im_data m) 0 .>> 1))) as [b Eb].
  { pose proof (msg_byte m 0 Hm) as H0. unfold is_byte, zlen in *.
    pose proof (proj2 (Z.shiftr_nonneg (rd (im_data m) 0) 1)). lia. }
  set (msg' := mk_i2c _ _ _ _ _). destruct (Z.eqb_spec (rd (im_data m) 2) 0) as [E2|E2].
  - destruct (i2c_master_write_inv (plat_bound P) (plat_obmf P) (ce_i2c (bic_env s) 0) msg' 3
      (fun _ => True) (fun _ => True) (bic_dev s) b) as (d & ret & -> & _);
      [done|cbn; lia|by intros; destruct (_ =? _)|done|].
    cbn [mbind option_bind]. apply handled_intro; [|by apply bic_ok_dev|done].
    apply cc_wf, len_wf; [done|msg_lia].
  - destruct (i2c_master_read_total (plat_bound P) (plat_obmf P) (ce_i2c (bic_env s) 0) msg' 3 (bic_dev s) b)
      as (d & ret & m2 & -> & Hr & Hz2 & Hb2); [done|done|cbn; lia|cbn; lia|].
    cbn [mbind option_bind]. cbn in Hr, Hz2. destruct (ret =? 0).
    + rewrite Hr, mem_read_Some by lia. cbn [mbind option_bind].
      apply handled_intro; [|by apply bic_ok_dev|done].
      apply cc_wf, put_data_wf; [apply len_wf; [done|msg_lia]|by apply bytes_ok_slice| |msg_lia].
      rewrite zlen_slice by lia. msg_lia.
    + apply handled_intro; [|by apply bic_ok_dev|done]. apply cc_wf, len_wf; [done|msg_lia].
Qed.

Lemma selftest_ok m (s : bic D) : msg_wf m -> bic_ok s -> handled m (APP_GET_SELFTEST_RESULTS P m s).
Proof using HP HB.
  intros Hm Hs. unfold APP_GET_SELFTEST_RESULTS. destruct (negb _); [handled|].
  assert (He : entry_fits (entry_for (BIC_FRU_DEV_ID P) 0 8 (ce_stack (bic_env s))))
    by (apply env_entry_fits; [done|cbv [EEPROM_WRITE_SIZE]; lia]).
  edestruct (FRU_read_total (plat_bound P) (plat_obmf P) (ce_i2c (bic_env s)) (plat_fru_config P)
    (plat_MAX_FRU_ID P) (po_fru _ HP) (ce_lock (bic_env s)) _ (bic_dev s) He)
    as (d & st & e' & -> & (Hz & Hb & Hl) & _).
  cbn [mbind option_bind]. rewrite mem_read_Some by lia. cbn [mbind option_bind].
  apply handled_intro; [|by apply bic_ok_dev|done].
  apply cc_wf, put_data_wf; [done| |done|done]. unfold selftest_result.
  destruct (is_sdr_not_init _), (negb (_ =? 0)); by repeat constructor.
Qed.

Lemma wdt_handled m (s : bic D) r :
  msg_wf m -> bic_ok s -> msg_wf (fst r) -> same_header m (fst r) -> wdt_inv (snd r) ->
  handled m (let '(msg, w) := r in Some (msg, set_wdt w s)).
Proof.
  intros Hm [Hsdr _ He] Hr Hh Hw. destruct r as [m' w]. apply handled_intro; [done|by split|done].
Qed.

Lemma APP_handler_ok : handler_ok bic_ok (APP_handler (D := D) P).
Proof using HP HB.
  intros m s Hm Hs. change (handled m (APP_handler P m s)).
  assert (Hbm : bytes_ok (im_data m)) by apply Hm. pose proof (bo_wdt _ Hs) as Hw.
  unfold APP_handler, APP_COLD_RESET, APP_WARM_RESET, APP_RESET, APP_not_supported.
  repeat match goal with |- handled _ (if ?b then _ else _) => destruct b end;
    auto using selftest_ok, master_write_read_ok; try handled.
  - unfold APP_GET_DEVICE_ID. destruct (negb _); [handled|].
    apply handled_intro; [|done|done]. by apply cc_wf, put_data_wf; [|apply bytes_ok_u8| |].
  - unfold APP_GET_SYSTEM_GUID. destruct (negb _); [handled|].
    pose proof (eo_guid _ (bo_env _ Hs)) as [Hl Hb]. destruct (ce_guid (bic_env s)) as [[] g]; try handled.
    cbn in Hl, Hb. pose proof (zlen_nonneg g).
    apply handled_intro; [|done|done]. apply cc_wf, put_data_wf; [done|done|msg_lia|lia].
  - apply wdt_handled; try done; [| |by apply (wdt_step_inv _ (EvReset m))];
      unfold APP_RESET_WATCHDOG_TIMER; destruct (isWdtSet _); cbn; auto with ipmi; done.
  - apply wdt_handled; try done; [cbn; auto with ipmi|by apply (wdt_step_inv _ (EvSet m))].
  - unfold APP_GET_WATCHDOG_TIMER. destruct (negb _); [handled|].
    apply handled_intro; [|done|done]. apply cc_wf. apply (put_data_wf _ 8); try done.
    destruct Hw. unfold is_byte in *. change 0x00FF with (Z.ones 8).
    pose proof (land_ones_range (presentCountdownValue (bic_wdt s)) 8).
    repeat (apply Forall_cons; split); try done; try lia.
    + destruct (wdt_alive _); [by apply byte_lor|done].
    + rewrite Z.shiftr_land. apply (land_ones_range _ 8). lia.
Qed.

Lemma CHASSIS_handler_ok : handler_ok bic_ok (CHASSIS_handler (D := D) P).
Proof.
  intros m s Hm Hs. change (handled m (CHASSIS_handler P m s)). unfold CHASSIS_handler.
  destruct (_ && _); [|handled]. unfold CHASSIS_GET_CHASSIS_STATUS. destruct (negb _); [handled|].
  apply handled_intro; [|done|done]. apply cc_wf, put_data_wf; try done.
  destruct (ce_dc_on _); by repeat constructor.
Qed.
End app_laws.

(** ** The services of a BIC behind the dispatcher *)

Section bic_services.
Context {D : Type} `{HD : I2cDriver D} {HB : I2cBytes D} (P : platform) (HP : platform_ok P).
Context (cfg_ipmb : bool).
(** The handlers that are not modelled: sensor readings and the OEM commands. *)
Context (sensor_handler oem_handler oem_1s_handler : ipmi_msg -> bic D -> option (ipmi_msg * bic D)).

Definition bic_handlers : IpmiHandlers (bic D) :=
  {| IPMI_CHASSIS_handler := CHASSIS_handler P;
     IPMI_SENSOR_handler := sensor_handler;
     IPMI_APP_handler := APP_handler P;
     IPMI_Storage_handler := Storage_handler P cfg_ipmb;
     IPMI_OEM_handler := oem_handler;
     IPMI_OEM_1S_handler := oem_1s_handler |}.

Context (Hsensor : handler_ok bic_ok sensor_handler) (Hoem : handler_ok bic_ok oem_handler)
  (Hoem_1s : handler_ok bic_ok oem_1s_handler).

Definition bic_handlers_ok : IpmiHandlersOk (bic D) (H := bic_handlers) :=
  {| handlers_inv := bic_ok : bic D -> Prop;
     chassis_ok := CHASSIS_handler_ok P : handler_ok _ (@IPMI_CHASSIS_handler _ bic_handlers);
     sensor_ok := Hsensor : handler_ok _ (@IPMI_SENSOR_handler _ bic_handlers);
     app_ok := APP_handler_ok P HP : handler_ok _ (@IPMI_APP_handler _ bic_handlers);
     storage_ok := Storage_handler_ok P HP cfg_ipmb : handler_ok _ (@IPMI_Storage_handler _ bic_handlers);
     oem_ok := Hoem : handler_ok _ (@IPMI_OEM_handler _ bic_handlers);
     oem_1s_ok := Hoem_1s : handler_ok _ (@IPMI_OEM_1S_handler _ bic_handlers) |}.
End bic_services.
