(* ===== verification/IpmiClient.v ===== *)
(** Component: clients of the IPMI commands. The services of a BIC assembled behind the dispatcher
    of [ipmi.c], and what a client that writes and reads FRU data, or walks the sensor data
    repository, gets from them. *)

From S2P Require Import Prelude Bytes HalI2c Eeprom Sdr IpmiMsg IpmbCodec PldmCore IpmiCore Watchdog IpmiCmds.

(** ** Requests of a client and what they are answered *)

Definition storage_request (src cmd : Z) (d : list Z) : ipmi_msg :=
  request_with d (set_im_InF_source src (set_im_cmd cmd (set_im_netfn NETFN_STORAGE_REQ zero_ipmi_msg))).

Definition word_bytes (v : Z) : list Z := [v .& 0xFF; v .>> 8].

Definition write_fru_request (src id off : Z) (data : list Z) : ipmi_msg :=
  storage_request src 0x12 (id :: word_bytes off ++ data).
Definition read_fru_request (src id off len : Z) : ipmi_msg :=
  storage_request src 0x11 (id :: word_bytes off ++ [len]).
Definition rsv_sdr_request (src : Z) : ipmi_msg := storage_request src 0x22 [].
Definition get_sdr_request (src rsv id off len : Z) : ipmi_msg :=
  storage_request src 0x23 (word_bytes rsv ++ word_bytes id ++ [off; len]).

Definition set_env {D} (e : cmd_env) (s : bic D) : bic D :=
  mk_bic (bic_dev s) (bic_sdr s) (bic_wdt s) (bic_works s) e.

(** The services of one platform, with its other handlers. *)
Class BicServices (D : Type) `{I2cDriver D} := {
  bs_platform : platform;
  bs_ipmb : bool;
  bs_sensor : ipmi_msg -> bic D -> option (ipmi_msg * bic D);
  bs_oem : ipmi_msg -> bic D -> option (ipmi_msg * bic D);
  bs_oem_1s : ipmi_msg -> bic D -> option (ipmi_msg * bic D) }.

#[export] Instance bic_dispatch {D} `{BicServices D} : IpmiHandlers (bic D) :=
  bic_handlers bs_platform bs_ipmb bs_sensor bs_oem bs_oem_1s.

Lemma zlen_word_bytes v : zlen (word_bytes v) = 2.
Proof. done. Qed.

Lemma bytes_ok_word v : 0 <= v < 65536 -> bytes_ok (word_bytes v).
Proof.
  intros Hv. unfold word_bytes. change 0xFF with (Z.ones 8).
  rewrite Z.land_ones, Z.shiftr_div_pow2 by lia. repeat constructor; Z.div_mod_to_equations; lia.
Qed.

Lemma word_bytes_val v : 0 <= v < 65536 -> (v .>> 8 .<< 8) .| (v .& 0xFF) = v.
Proof.
  intros Hv. change 0xFF with (Z.ones 8). rewrite Z.land_ones, Z.shiftr_div_pow2 by lia.
  pose proof (Z.mod_pos_bound v (2 ^ 8)). rewrite lor_shl by lia.
  pose proof (Z.div_mod v (2 ^ 8)). lia.
Qed.

Lemma storage_request_wf src cmd d :
  bytes_ok d -> zlen d <= IPMI_DATA_MAX_LENGTH -> msg_wf (storage_request src cmd d).
Proof.
  intros Hd Hl. apply request_with_wf; try done. split_and!; try done. by apply Forall_replicate.
Qed.

(** The bytes a handler reads of a request, and the data of its response. *)
Lemma rd_request src cmd d i :
  0 <= i < zlen d -> zlen d <= IPMI_DATA_MAX_LENGTH ->
  rd (im_data (cc CC_INVALID_CMD (storage_request src cmd d))) i = rd d i.
Proof.
  intros Hi Hd. unfold rd. cbn. rewrite lookup_patch by (rewrite ?zlen_zeros; msg_lia).
  rewrite bool_decide_eq_true_2 by (unfold zlen in *; lia). by rewrite Nat.sub_0_r.
Qed.

Lemma request_size c src cmd d :
  zlen d <= IPMI_DATA_MAX_LENGTH -> zlen (im_data (cc c (storage_request src cmd d))) = IPMI_MSG_MAX_LENGTH.
Proof. intros. cbn. by rewrite zlen_patch, zlen_zeros by (rewrite ?zlen_zeros; msg_lia). Qed.

Lemma payload_put_data c d n m :
  zlen (im_data m) = IPMI_MSG_MAX_LENGTH -> n = zlen d -> n <= IPMI_MSG_MAX_LENGTH -> payload (cc c (put_data d n m)) = d.
Proof.
  intros Hz -> Hn. unfold payload. cbn. apply slice_patch; [done|lia].
Qed.

Section client.
Context {D : Type} `{HD : I2cDriver D} `{HS : !BicServices D}.

(** Storage requests reach the storage handler. *)
Inductive to_storage : ipmi_msg -> Prop :=
  | To_storage src cmd d : to_storage (storage_request src cmd d).

Ltac to_storage := unfold write_fru_request, read_fru_request, rsv_sdr_request, get_sdr_request; apply To_storage.

Lemma serve_storage r (s : bic D) m s' :
  to_storage r ->
  Storage_handler bs_platform bs_ipmb (cc CC_INVALID_CMD r) s = Some (m, s') ->
  ipmi_serve r s =
    Some (im_completion_code m, if im_completion_code m =? CC_SUCCESS then payload m else [], s').
Proof. intros [src cmd d] E. unfold ipmi_serve. cbn [plain_handler storage_request]. cbn. by rewrite E. Qed.

(** ** FRU data *)

Section fru_data.
Context (cfg : EEPROM_CFG) `{HC : !EepromChip D cfg}.
Context (Hbus : cfg_on_bus (plat_bound bs_platform) cfg).
Abbreviation P := bs_platform.
Abbreviation range := (fru_range (D := D) (plat_fru_config P) (plat_MAX_FRU_ID P) cfg).

(** The address of a FRU request. *)
Lemma fru_request_bytes src cmd id off rest :
  zlen rest <= 32 -> 0 <= off < 65536 ->
  let m := cc CC_INVALID_CMD (storage_request src cmd (id :: word_bytes off ++ rest)) in
  im_data_len m = 3 + zlen rest /\ rd (im_data m) 0 = id /\
  (rd (im_data m) 2 .<< 8) .| rd (im_data m) 1 = off /\ slice (im_data m) 3 (zlen rest) = rest.
Proof.
  intros Hl Ho m. pose proof (zlen_nonneg rest). set (d := id :: word_bytes off ++ rest).
  assert (Hd : zlen d = 3 + zlen rest) by (unfold d; rewrite zlen_cons, zlen_app, zlen_word_bytes; lia).
  assert (Hr : forall i, 0 <= i < zlen d -> rd (im_data m) i = rd d i)
    by (intros; apply rd_request; msg_lia).
  split_and!; [exact Hd|rewrite Hr by lia; done|rewrite !Hr by lia; by apply word_bytes_val|].
  unfold m. cbn. change (patch _ 0 _) with (patch (zeros IPMI_MSG_MAX_LENGTH) 0 d).
  replace (slice _ 3 (zlen rest)) with (slice (slice (patch (zeros IPMI_MSG_MAX_LENGTH) 0 d) 0 (zlen d)) 3 (zlen rest)).
  - rewrite slice_patch by (rewrite ?zlen_zeros; msg_lia). unfold d.
    change (id :: word_bytes off ++ rest) with ([id; off .& 0xFF; off .>> 8] ++ rest).
    rewrite slice_app_r by done. by apply slice_all.
  - replace (zlen rest) with (zlen d - 3) by lia. apply slice_payload_tail; lia.
Qed.

(** Nothing stands in the way of a transfer: the bus has its controller and is not held by
    another, there is memory, and the chip and its multiplexer acknowledge in the states [up]. *)
Definition bus_works (up : D -> Prop) (e : cmd_env) : Prop :=
  acknowledges cfg up /\ plat_bound P !! Z.to_nat (port cfg) = Some true /\ ce_lock e = true /\ forall k, ce_i2c e k = good_env.

Lemma write_fru_reply src id off data (s : bic D) :
  bic_ok s -> range id off (zlen data) -> 0 < zlen data <= 32 -> bytes_ok data ->
  0 <= off -> off + zlen data < FRU_START + FRU_SIZE ->
  exists st d' m, Storage_handler P bs_ipmb (cc CC_INVALID_CMD (write_fru_request src id off data)) s =
      Some (m, set_dev d' s) /\ im_completion_code m = fru_cc FRU_WRITE_SUCCESS st /\
    (st = FRU_WRITE_SUCCESS \/ st = FRU_FAIL_TO_ACCESS) /\
    (forall up, bus_works up (bic_env s) -> up (bic_dev s) -> st = FRU_WRITE_SUCCESS /\ up d') /\
    exists data', zlen data' = zlen data /\ (st = FRU_WRITE_SUCCESS -> data' = data) /\
      chip_mem d' = patch (chip_mem (bic_dev s)) (chip_offset cfg off) data'.
Proof using Hbus.
  intros Hs Hrange Hlen Hdata Hoff Hend. unfold FRU_START, FRU_SIZE in *.
  destruct (eo_stack _ (bo_env _ Hs)) as [Hsz Hsb]. unfold EEPROM_WRITE_SIZE in *.
  destruct (fru_request_bytes src 0x12 id off data) as (El & E0 & Eo & Ed); [lia|lia|].
  unfold write_fru_request. set (m := cc CC_INVALID_CMD _) in *.
  change (Storage_handler P bs_ipmb m s) with (STORAGE_WRITE_FRUID_DATA P m s).
  assert (Hz : zlen (im_data m) = IPMI_MSG_MAX_LENGTH).
  { apply request_size. rewrite !zlen_cons, zlen_app, zlen_word_bytes, ?zlen_cons, ?zlen_nil. msg_lia. }
  unfold STORAGE_WRITE_FRUID_DATA. rewrite El. destruct (Z.ltb_spec (3 + zlen data) 4); [lia|].
  replace (3 + zlen data - 3) with (zlen data) by lia. rewrite u16_id by lia.
  destruct (Z.ltb_spec 32 (zlen data)); [lia|]. rewrite mem_read_Some by msg_lia.
  cbn [mbind option_bind]. rewrite Ed, mem_write_patch by lia. cbn [mbind option_bind]. rewrite E0, Eo.
  set (e := entry_for _ _ _ _).
  assert (Hez : zlen (ee_data e) = EEPROM_WRITE_SIZE) by (cbn; rewrite zlen_patch; cbv [EEPROM_WRITE_SIZE]; lia).
  assert (Heb : bytes_ok (ee_data e)) by by apply bytes_ok_patch.
  destruct (FRU_write_spec (plat_bound P) (plat_obmf P) (ce_i2c (bic_env s)) (plat_fru_config P)
    (plat_MAX_FRU_ID P) cfg Hbus (ce_lock (bic_env s)) e (bic_dev s) Hrange Hez Heb) as (d' & st & Ew & Hk).
  assert (Hup : forall up, bus_works up (bic_env s) -> up (bic_dev s) -> st = FRU_WRITE_SUCCESS /\ up d').
  { intros up (Ha & Hb & Hl & Hen) Hd. rewrite Hl in Ew.
    destruct (FRU_write_up (plat_bound P) (plat_obmf P) (ce_i2c (bic_env s)) (plat_fru_config P) (plat_MAX_FRU_ID P) cfg up e
      (bic_dev s) Ha Hb Hen Hd Hrange Hez Heb) as (d1 & E1 & H1); [cbn; unfold FRU_START, FRU_SIZE; lia|].
    rewrite E1 in Ew. by injection Ew as <- <-. }
  rewrite Ew.
  cbn [mbind option_bind]. eexists st, d', _. split; [done|].
  destruct (Z.leb_spec (FRU_START + FRU_SIZE) (ee_offset e + ee_data_len e)) as [Hbad|_];
    [cbn in Hbad; unfold FRU_START, FRU_SIZE in Hbad; lia|].
  destruct Hk as (Hst & data' & Hl' & _ & Hm & Hd'). split; [done|]. split; [done|]. split; [exact Hup|].
  exists data'. split_and!; [done| |done]. intros Est. rewrite (Hd' Est). cbn. apply slice_patch; lia.
Qed.

Lemma read_fru_reply src id off len (s : bic D) :
  bic_ok s -> range id off len -> 0 < len <= 32 -> 0 <= off -> off + len < FRU_START + FRU_SIZE ->
  exists st m s', Storage_handler P bs_ipmb (cc CC_INVALID_CMD (read_fru_request src id off len)) s =
      Some (m, s') /\ im_completion_code m = fru_cc FRU_READ_SUCCESS st /\
    (st = FRU_READ_SUCCESS \/ st = FRU_FAIL_TO_ACCESS) /\
    (forall up, bus_works up (bic_env s) -> up (bic_dev s) -> st = FRU_READ_SUCCESS) /\
    (st = FRU_READ_SUCCESS ->
       payload m = len :: slice (chip_mem (bic_dev s)) (chip_offset cfg off) len).
Proof using Hbus.
  intros Hs Hrange Hlen Hoff Hend. unfold FRU_START, FRU_SIZE in *.
  destruct (eo_stack _ (bo_env _ Hs)) as [Hsz Hsb].
  destruct (fru_request_bytes src 0x11 id off [len]) as (El & E0 & Eo & Ed); [done|lia|].
  assert (E3 : rd (im_data (cc CC_INVALID_CMD (read_fru_request src id off len))) 3 = len)
    by (unfold read_fru_request; rewrite rd_request; done).
  unfold read_fru_request in *. set (m := cc CC_INVALID_CMD _) in *.
  change (Storage_handler P bs_ipmb m s) with (STORAGE_READ_FRUID_DATA P m s).
  assert (Hz : zlen (im_data m) = IPMI_MSG_MAX_LENGTH).
  { apply request_size. rewrite !zlen_cons, zlen_app, zlen_word_bytes, ?zlen_cons, ?zlen_nil. msg_lia. }
  unfold STORAGE_READ_FRUID_DATA. rewrite El. cbn [Z.eqb negb Z.add zlen]. rewrite E0, Eo, E3.
  change (negb (3 + zlen [len] =? 4)) with false. cbn [ee_data_len entry_for].
  destruct (Z.ltb_spec 32 len); [lia|]. set (e := entry_for _ _ _ _).
  destruct (FRU_read_spec (plat_bound P) (plat_obmf P) (ce_i2c (bic_env s)) (plat_fru_config P)
    (plat_MAX_FRU_ID P) cfg Hbus (ce_lock (bic_env s)) e (bic_dev s) Hrange Hsz Hsb)
    as (d' & st & e' & Er & Hm & Hl' & Hz' & Hb' & Hk).
  assert (Hup : forall up, bus_works up (bic_env s) -> up (bic_dev s) -> st = FRU_READ_SUCCESS).
  { intros up (Ha & Hb & Hl & Hen) Hd. rewrite Hl in Er.
    destruct (FRU_read_up (plat_bound P) (plat_obmf P) (ce_i2c (bic_env s)) (plat_fru_config P) (plat_MAX_FRU_ID P) cfg up e
      (bic_dev s) Ha Hb Hen Hd Hrange) as (d1 & e1 & E1 & _); try done; [cbn; lia|cbn; unfold FRU_START, FRU_SIZE; lia|].
    rewrite E1 in Er. by injection Er as _ <- _. }
  rewrite Er.
  cbn [mbind option_bind]. cbn in Hl'. unfold EEPROM_WRITE_SIZE in *. rewrite Hl'.
  rewrite mem_read_Some by lia. cbn [mbind option_bind]. eexists st, _, _. split; [done|].
  destruct (Z.ltb_spec (FRU_START + FRU_SIZE) (ee_offset e + ee_data_len e)) as [Hbad|_];
    [cbn in Hbad; unfold FRU_START, FRU_SIZE in Hbad; lia|].
  destruct Hk as [Hst Hd]. split; [done|]. split; [done|]. split; [exact Hup|]. intros Est.
  assert (Hzs : zlen (slice (ee_data e') 0 len) = len) by (apply zlen_slice; lia).
  rewrite u8_id, u16_id by lia. rewrite payload_put_data; [|done|rewrite zlen_cons; lia|msg_lia].
  f_equal. by apply Hd.
Qed.

(** C13: what Write FRU Data stored is what Read FRU Data returns. A write of up to 32 bytes
    within a page of the chip and below the end of the FRU area is answered with success or "device
    busy", and changes no byte outside its range; it is answered with success when the bus works
    ([bus_works]: the chip acknowledges and nothing is locked or out of memory). After a success, a
    read of the same range under any later conditions is answered with "device busy" or with the
    length and the very bytes that were written, and with these when the bus works. *)
Theorem fru_write_read_back src id off data (s : bic D) :
  bic_ok s -> is_byte id -> range id off (zlen data) -> 0 < zlen data <= 32 -> bytes_ok data ->
  0 <= off -> off + zlen data < FRU_START + FRU_SIZE ->
  exists c d s1, ipmi_serve (write_fru_request src id off data) s = Some (c, d, s1) /\ bic_ok s1 /\
    (c = CC_SUCCESS \/ c = CC_FRU_DEV_BUSY) /\
    (forall up, bus_works up (bic_env s) -> up (bic_dev s) -> c = CC_SUCCESS /\ up (bic_dev s1)) /\
    (exists data', zlen data' = zlen data /\
       chip_mem (bic_dev s1) = patch (chip_mem (bic_dev s)) (chip_offset cfg off) data') /\
    (c = CC_SUCCESS -> forall e, env_ok e ->
       exists c2 d2 s2, ipmi_serve (read_fru_request src id off (zlen data)) (set_env e s1) = Some (c2, d2, s2) /\
         (c2 = CC_FRU_DEV_BUSY \/ c2 = CC_SUCCESS /\ d2 = zlen data :: data) /\
         (forall up, bus_works up e -> up (bic_dev s1) -> c2 = CC_SUCCESS)).
Proof using Hbus.
  intros Hs Hid Hrange Hlen Hdata Hoff Hend.
  destruct (write_fru_reply src id off data s) as (st & d' & m & Ew & Ecc & Hst & Hup & data' & Hl' & Hd' & Hm);
    try done.
  apply serve_storage in Ew; [|to_storage]. exists (im_completion_code m). eexists _, _. split; [exact Ew|].
  split; [by apply bic_ok_dev|]. split; [rewrite Ecc; destruct Hst as [-> | ->]; auto|].
  split. { intros up Hw Hu. destruct (Hup up Hw Hu) as [-> Hu']. by rewrite Ecc. }
  split; [by exists data'|]. intros Esucc e He.
  assert (st = FRU_WRITE_SUCCESS) as Est by (destruct Hst as [? | ->]; [done|by rewrite Ecc in Esucc]).
  destruct (read_fru_reply src id off (zlen data) (set_env e (set_dev d' s)))
    as (st2 & m2 & s2 & Er & Ecc2 & Hst2 & Hup2 & Hd2); try done; [by destruct Hs|].
  apply serve_storage in Er; [|to_storage]. eexists _, _, _. split; [exact Er|]. rewrite Ecc2. split.
  - destruct Hst2 as [-> | ->]; [right|by left]. split; [done|]. cbn. rewrite Hd2 by done. f_equal.
    cbn. rewrite Hm, Hd' by done. destruct Hrange as (_ & _ & _ & Hr & _).
    apply slice_patch; [apply chip_offset_nonneg|by rewrite chip_mem_size].
  - intros up Hw Hu. by rewrite (Hup2 up Hw Hu).
Qed.
End fru_data.

(** ** The sensor data repository *)

(** A client reads the repository: for every record the header, which has its length, then the
    record, and goes on with the next id until the end marker. [n]: the most records it reads. *)
Section sdr_client.
Context (serve : ipmi_msg -> bic D -> option (Z * list Z * bic D)).

Fixpoint sdr_client (n : nat) (src rsv id : Z) (s : bic D) : option (list (list Z) * bic D) :=
  match n with
  | O => None
  | S n =>
      '(c, hdr, s) ← serve (get_sdr_request src rsv id 0 IPMI_SDR_HEADER_LEN) s;
      if negb (c =? CC_SUCCESS) then None
      else
        let len := IPMI_SDR_HEADER_LEN + rd hdr (2 + f_record_len) in
        '(c, d, s) ← serve (get_sdr_request src rsv id 0 len) s;
        if negb (c =? CC_SUCCESS) then None
        else
          let next := (rd d 1 .<< 8) .| rd d 0 in
          let record := drop 2 d in
          if next =? SDR_END_ID then Some ([record], s)
          else '(l, s) ← sdr_client n src rsv next s; Some (record :: l, s)
  end.

(** One round of the client. *)
Lemma sdr_client_step n src rsv id s1 s2 s3 hdr d :
  serve (get_sdr_request src rsv id 0 IPMI_SDR_HEADER_LEN) s1 = Some (CC_SUCCESS, hdr, s2) ->
  serve (get_sdr_request src rsv id 0 (IPMI_SDR_HEADER_LEN + rd hdr (2 + f_record_len))) s2 =
    Some (CC_SUCCESS, d, s3) ->
  sdr_client (S n) src rsv id s1 =
    if (rd d 1 .<< 8) .| rd d 0 =? SDR_END_ID then Some ([drop 2 d], s3)
    else '(l, s) ← sdr_client n src rsv ((rd d 1 .<< 8) .| rd d 0) s3; Some (drop 2 d :: l, s).
Proof. intros E1 E2. cbn [sdr_client]. rewrite E1. cbn. by rewrite E2. Qed.
End sdr_client.

Definition sdr_walk : nat -> Z -> Z -> Z -> bic D -> option (list (list Z) * bic D) :=
  sdr_client ipmi_serve.

(** The part of a record a client gets. *)
Definition served_record (r : list Z) : list Z := slice r 0 (IPMI_SDR_HEADER_LEN + rd r f_record_len).

Definition src_index (src : Z) : Z := if src =? SLOT3_BIC then 1 else 0.

Lemma get_sdr_reply src rsv id off len (s : bic D) t :
  sdr_ok (bic_sdr s) t -> 0 <= rsv < 65536 -> 0 <= id < 65536 -> is_byte off -> is_byte len ->
  ipmi_serve (get_sdr_request src rsv id off len) s =
    if negb (rd (RSV_ID (bic_sdr s)) (src_index src) =? rsv) then Some (CC_INVALID_RESERVATION, [], s)
    else match t !! Z.to_nat id with
    | Some r =>
        if last_ID (bic_sdr s) <? id then Some (CC_INVALID_DATA_FIELD, [], s)
        else if IPMI_SDR_HEADER_LEN + rd r f_record_len <? off + len then
          Some (CC_PARAM_OUT_OF_RANGE, [], s)
        else Some (CC_SUCCESS, (let next := SDR_get_record_ID (bic_sdr s) id in
                     [next .& 0xFF; (next .>> 8) .& 0xFF]) ++ slice r off len, s)
    | None => Some (CC_INVALID_DATA_FIELD, [], s)
    end.
Proof.
  intros Ht Hrsv Hid Hoff Hlen. unfold is_byte in *.
  set (d := word_bytes rsv ++ word_bytes id ++ [off; len]).
  assert (Hb : bytes_ok d).
  { unfold d. rewrite !bytes_ok_app. split_and!; [by apply bytes_ok_word..|].
    apply Forall_cons; split; [done|]. by apply Forall_singleton. }
  set (m := cc CC_INVALID_CMD (storage_request src 0x23 d)).
  assert (Hm : msg_wf m) by (apply cc_wf, storage_request_wf; done).
  assert (Hr : forall i, 0 <= i < 6 -> rd (im_data m) i = rd d i) by (intros; by apply rd_request).
  pose proof (get_sdr_spec m s t Hm Ht) as E. cbn zeta in E. rewrite !Hr in E by lia.
  change (rd d 0) with (rsv .& 0xFF) in E. change (rd d 1) with (rsv .>> 8) in E.
  change (rd d 2) with (id .& 0xFF) in E. change (rd d 3) with (id .>> 8) in E.
  change (rd d 4) with off in E. change (rd d 5) with len in E.
  rewrite !word_bytes_val, !u16_id in E by lia. change (rsv_index m) with (src_index src) in E.
  change (negb (im_data_len m =? 6)) with false in E. cbn match in E.
  assert (Hsv : forall m' s', STORAGE_GET_SDR m s = Some (m', s') ->
    ipmi_serve (get_sdr_request src rsv id off len) s =
      Some (im_completion_code m', if im_completion_code m' =? CC_SUCCESS then payload m' else [], s')).
  { intros m' s' Em. apply serve_storage; [to_storage|done]. }
  destruct (negb _); [by rewrite (Hsv _ _ E)|].
  destruct (t !! Z.to_nat id) as [r|] eqn:Er; [|by rewrite (Hsv _ _ E)].
  destruct (Z.ltb_spec (last_ID (bic_sdr s)) id); [by rewrite (Hsv _ _ E)|].
  destruct (Z.ltb_spec (IPMI_SDR_HEADER_LEN + rd r f_record_len) (off + len)); [by rewrite (Hsv _ _ E)|].
  rewrite (Hsv _ _ E). cbn [im_completion_code cc set_im_completion_code].
  pose proof (so_len _ _ Ht (Z.to_nat id) r ltac:(lia) Er) as Hl.
  pose proof (so_records _ _ Ht) as Hw. rewrite Forall_forall in Hw.
  destruct (Hw r) as [Hzr _]; [by eapply list_elem_of_lookup_2|]. unfold sizeof_SDR_Full_sensor in *.
  rewrite payload_put_data; [done|by apply Hm| |msg_lia].
  rewrite zlen_app, zlen_slice by lia. change (zlen [_; _]) with 2. lia.
Qed.

(** What a client takes from a reply: next id and data. *)
Lemma reply_next v l :
  0 <= v < 65536 ->
  (rd ([v .& 0xFF; (v .>> 8) .& 0xFF] ++ l) 1 .<< 8) .| rd ([v .& 0xFF; (v .>> 8) .& 0xFF] ++ l) 0 = v.
Proof.
  intros Hv. unfold rd. change (Z.to_nat 1) with 1%nat. change (Z.to_nat 0) with 0%nat.
  cbn [app lookup list_lookup default]. rewrite <- (word_bytes_val v) at 3 by done. f_equal. f_equal.
  change 0xFF with (Z.ones 8). rewrite Z.land_ones, Z.shiftr_div_pow2 by lia.
  apply Z.mod_small. change (2 ^ 8) with 256. Z.div_mod_to_equations. lia.
Qed.

Lemma reply_rd a b l i : 0 <= i -> rd ([a; b] ++ l) (2 + i) = rd l i.
Proof. intros. unfold rd. rewrite Z2Nat.inj_add by lia. done. Qed.

Lemma reply_drop (a b : Z) l : drop 2 ([a; b] ++ l) = l.
Proof. done. Qed.

Lemma sdr_walk_step t src rsv (s : bic D) n id r :
  sdr_ok (bic_sdr s) t -> 0 <= rsv < 65536 -> rd (RSV_ID (bic_sdr s)) (src_index src) = rsv ->
  0 <= id <= last_ID (bic_sdr s) -> t !! Z.to_nat id = Some r ->
  sdr_walk (S n) src rsv id s =
    if id =? last_ID (bic_sdr s) then Some ([served_record r], s)
    else '(l, s') ← sdr_walk n src rsv (id + 1) s; Some (served_record r :: l, s').
Proof.
  intros Ht Hrsv Hcur Hid Er. pose proof (so_last _ _ Ht) as [Hl _].
  pose proof (so_len _ _ Ht (Z.to_nat id) r ltac:(lia) Er) as Hlen.
  pose proof (so_records _ _ Ht) as Hw. rewrite Forall_forall in Hw.
  destruct (Hw r) as [Hzr Hbr]; [by eapply list_elem_of_lookup_2|].
  pose proof (rd_range r f_record_len Hbr) as Hrl.
  unfold sizeof_SDR_Full_sensor in *. set (nx := SDR_get_record_ID (bic_sdr s) id).
  assert (Hget : forall len, 0 <= len -> len <= IPMI_SDR_HEADER_LEN + rd r f_record_len ->
    ipmi_serve (get_sdr_request src rsv id 0 len) s =
      Some (CC_SUCCESS, [nx .& 0xFF; (nx .>> 8) .& 0xFF] ++ slice r 0 len, s)).
  { intros len H1 H2. rewrite (get_sdr_reply _ _ _ _ _ _ t) by (unfold is_byte; done || lia).
    rewrite Hcur, Z.eqb_refl, Er. cbn [negb].
    destruct (Z.ltb_spec (last_ID (bic_sdr s)) id); [lia|].
    destruct (Z.ltb_spec (IPMI_SDR_HEADER_LEN + rd r f_record_len) (0 + len)); [lia|done]. }
  assert (Eh : rd ([nx .& 0xFF; (nx .>> 8) .& 0xFF] ++ slice r 0 IPMI_SDR_HEADER_LEN) (2 + f_record_len)
               = rd r f_record_len).
  { rewrite reply_rd by done. unfold rd. by rewrite lookup_slice by lia. }
  assert (Hnx : nx = if id =? last_ID (bic_sdr s) then SDR_END_ID else id + 1) by by apply (sdr_next_id _ t).
  unfold sdr_walk. erewrite sdr_client_step;
    [|apply Hget; unfold IPMI_SDR_HEADER_LEN; lia|rewrite Eh; apply Hget; unfold IPMI_SDR_HEADER_LEN in *; lia].
  rewrite reply_next, reply_drop by (rewrite Hnx; destruct (_ =? _); cbv [SDR_END_ID]; lia).
  fold (served_record r). rewrite Hnx. destruct (id =? last_ID (bic_sdr s)); [done|].
  destruct (Z.eqb_spec (id + 1) SDR_END_ID) as [E|_]; [unfold SDR_END_ID in E; lia|done].
Qed.

Lemma sdr_walk_from t src rsv (s : bic D) n id :
  sdr_ok (bic_sdr s) t -> 0 <= rsv < 65536 -> rd (RSV_ID (bic_sdr s)) (src_index src) = rsv ->
  0 <= id <= last_ID (bic_sdr s) -> last_ID (bic_sdr s) < id + Z.of_nat n ->
  sdr_walk n src rsv id s =
    Some (served_record <$> drop (Z.to_nat id) (take (Z.to_nat (last_ID (bic_sdr s) + 1)) t), s).
Proof.
  intros Ht Hrsv Hcur. pose proof (so_last _ _ Ht) as [Hl Hlt]. revert id.
  induction n as [|n IH]; intros id Hid Hn; [lia|].
  destruct (lookup_lt_is_Some_2 t (Z.to_nat id)) as [r Er]; [unfold zlen in Hlt; lia|].
  rewrite (sdr_walk_step t _ _ _ _ _ r) by done.
  assert (Ed : drop (Z.to_nat id) (take (Z.to_nat (last_ID (bic_sdr s) + 1)) t) =
    r :: drop (Z.to_nat (id + 1)) (take (Z.to_nat (last_ID (bic_sdr s) + 1)) t)).
  { replace (Z.to_nat (id + 1)) with (S (Z.to_nat id)) by lia. apply drop_S.
    by rewrite lookup_take_lt by lia. }
  rewrite Ed. cbn [fmap list_fmap].
  destruct (Z.eqb_spec id (last_ID (bic_sdr s))) as [->|].
  - rewrite drop_ge; [done|]. rewrite length_take. lia.
  - rewrite IH by lia. done.
Qed.

(** A reservation is answered with its id. *)
Lemma rsv_reply src (s : bic D) sdr' id :
  SDR_get_RSV_ID (src_index src) (bic_sdr s) = (sdr', id) ->
  ipmi_serve (rsv_sdr_request src) s =
    Some (CC_SUCCESS, [id .& 0xFF; (id .>> 8) .& 0xFF], set_sdr sdr' s).
Proof.
  intros E. set (r := rsv_sdr_request src). set (m := cc CC_INVALID_CMD r).
  assert (Hz : zlen (im_data m) = IPMI_MSG_MAX_LENGTH) by (by (subst m r; unfold rsv_sdr_request; apply request_size)).
  erewrite (serve_storage r); [|subst r; to_storage|].
  2: { change (Storage_handler bs_platform bs_ipmb (cc CC_INVALID_CMD r) s) with (STORAGE_RSV_SDR m s).
       unfold STORAGE_RSV_SDR. change (rsv_index m) with (src_index src). rewrite E. reflexivity. }
  cbn [im_completion_code cc set_im_completion_code]. by rewrite payload_put_data.
Qed.

(** C14: a client that reserves the repository and then reads it record by record, header first
    and from id 0 to the end marker, gets every record of the repository once, in order, each
    with the number of bytes its header announces, and needs one round per record; serving it
    changes nothing but the reservation. *)
Theorem sdr_walk_complete t src (s : bic D) n :
  sdr_ok (bic_sdr s) t -> last_ID (bic_sdr s) < Z.of_nat n ->
  exists rsv sdr', ipmi_serve (rsv_sdr_request src) s =
      Some (CC_SUCCESS, [rsv .& 0xFF; (rsv .>> 8) .& 0xFF], set_sdr sdr' s) /\
    rsv <> rd (RSV_ID (bic_sdr s)) (src_index src) /\ full_sdr_table sdr' = Some t /\
    sdr_walk n src rsv 0 (set_sdr sdr' s) =
      Some (served_record <$> take (Z.to_nat (last_ID (bic_sdr s) + 1)) t, set_sdr sdr' s).
Proof.
  intros Ht Hn. assert (Hi : src_index src = 0 \/ src_index src = 1).
  { unfold src_index. destruct (src =? SLOT3_BIC); auto. }
  pose proof (rsv_id_fresh _ t _ Ht Hi) as Hf.
  destruct (SDR_get_RSV_ID (src_index src) (bic_sdr s)) as [sdr' rsv] eqn:E.
  destruct Hf as (Ht' & Hr & Hc & Hne & _ & Htab & Hlast). exists rsv, sdr'. split_and!.
  - by apply rsv_reply.
  - done.
  - by rewrite Htab, (so_table _ _ Ht).
  - pose proof (so_last _ _ Ht) as [Hl _].
    rewrite (sdr_walk_from t src rsv (set_sdr sdr' s) n 0); cbn; rewrite ?Hlast; try done; try lia.
    unfold SDR_RSV_ID_check in Hc. by apply Z.eqb_eq in Hc.
Qed.

(** A reservation cancels the earlier one of the same client group: every later Get SDR that
    carries the old reservation id is answered CC_INVALID_RESERVATION with no data, whatever it
    asks for. *)
Theorem sdr_reservation_cancelled t src src' (s : bic D) sdr' d c :
  sdr_ok (bic_sdr s) t -> src_index src = src_index src' ->
  ipmi_serve (rsv_sdr_request src) s = Some (c, d, set_sdr sdr' s) ->
  c = CC_SUCCESS ->
  forall id off len, 0 <= id < 65536 -> is_byte off -> is_byte len ->
    ipmi_serve (get_sdr_request src' (rd (RSV_ID (bic_sdr s)) (src_index src')) id off len) (set_sdr sdr' s) =
      Some (CC_INVALID_RESERVATION, [], set_sdr sdr' s).
Proof.
  intros Ht Ei Es Ec id off len Hid Hoff Hlen.
  assert (Hi : src_index src' = 0 \/ src_index src' = 1).
  { unfold src_index. destruct (src' =? SLOT3_BIC); auto. }
  pose proof (rsv_id_fresh _ t _ Ht Hi) as Hf.
  destruct (SDR_get_RSV_ID (src_index src') (bic_sdr s)) as [sdr1 rsv] eqn:E.
  destruct Hf as (Ht' & Hr & Hc & Hne & _ & Htab & Hlast).
  assert (Esd : sdr' = sdr1).
  { rewrite <- Ei in E. rewrite (rsv_reply _ _ _ _ E) in Es. by injection Es. }
  subst sdr1. rewrite (get_sdr_reply _ _ _ _ _ _ t); try done.
  - unfold SDR_RSV_ID_check in Hc. apply Z.eqb_eq in Hc. cbn. rewrite Hc.
    by destruct (Z.eqb_spec rsv (rd (RSV_ID (bic_sdr s)) (src_index src'))).
  - destruct (so_rsv _ _ Ht) as [_ Hv]. unfold rd.
    destruct (RSV_ID (bic_sdr s) !! _) eqn:El; cbn; [|lia]. by eapply (Forall_lookup_1 _ _ _ _ Hv).
Qed.
End client.

(** ** A BIC over the chip of [Eeprom], for the witnesses *)

Definition demo_platform : platform :=
  mk_platform 0x20 0x80 0 1 2 0xBF 0 0 0 [ram_cfg] 1 [true] false false SELF true.

Definition not_modelled_handler (m : ipmi_msg) (s : bic ram_chip) : option (ipmi_msg * bic ram_chip) :=
  Some (cc CC_INVALID_CMD m, s).

Definition demo_services : BicServices ram_chip :=
  {| bs_platform := demo_platform; bs_ipmb := true; bs_sensor := not_modelled_handler;
     bs_oem := not_modelled_handler; bs_oem_1s := not_modelled_handler |}.

Definition demo_env : cmd_env :=
  mk_cmd_env (fun _ => good_env) true true true (fun _ => IPMB_ERROR_SUCCESS)
    (FRU_READ_SUCCESS, zeros 16) (zeros 32).

Definition demo_sdr : sdr_state := mk_sdr (Some [one_record; one_record]) 2 2 0 1 0 [0; 7] false.

Definition demo_bic : bic ram_chip := mk_bic (fun _ => 0xFF) demo_sdr wdt_init [] demo_env.

Lemma demo_env_ok : env_ok demo_env.
Proof. by split; split; try apply Forall_replicate. Qed.

Lemma demo_sdr_ok : sdr_ok demo_sdr [one_record; one_record].
Proof.
  assert (Hr : record_wf one_record)
    by (repeat apply record_wf_set_field; split; [done|by apply Forall_replicate]).
  split; try done.
  - by repeat (apply Forall_cons; split).
  - intros [|[|i]] r Hi [= <-]; vm_compute; discriminate.
  - by split; repeat (apply Forall_cons; split).
Qed.

Lemma demo_bic_ok : bic_ok demo_bic.
Proof. split; [by exists [one_record; one_record]; apply demo_sdr_ok|apply wdt_inv_init|apply demo_env_ok]. Qed.

Lemma ram_acknowledges : acknowledges ram_cfg (fun _ : ram_chip => True).
Proof.
  split; [done| |].
  - intros d a data _. by eexists.
  - intros d a n _. by eexists _, _.
Qed.

Lemma fru_write_read_back_witness :
  let H := demo_services in let data := [1; 2; 3] in
  exists d s1, ipmi_serve (write_fru_request 0 0 16 data) demo_bic = Some (CC_SUCCESS, d, s1) /\
    exists d2 s2, ipmi_serve (read_fru_request 0 0 16 (zlen data)) (set_env demo_env s1) = Some (CC_SUCCESS, d2, s2) /\
      d2 = zlen data :: data.
Proof.
  intros H data.
  assert (W : bus_works (HS := H) ram_cfg (fun _ => True) demo_env) by (split; [apply ram_acknowledges|done]).
  destruct (fru_write_read_back (HS := H) ram_cfg (ex_intro _ true eq_refl) 0 0 16 data demo_bic) as (c & d & s1 & E & _ & _ & Hup & _ & Hr).
  - apply demo_bic_ok.
  - done.
  - split; [reflexivity|]. split; [reflexivity|]. split; [by vm_compute|]. split; [by vm_compute|].
    right. reflexivity.
  - done.
  - by repeat (apply Forall_cons; split).
  - done.
  - done.
  - destruct (Hup _ W I) as [-> _]. exists d, s1. split; [exact E|].
    destruct (Hr eq_refl demo_env demo_env_ok) as (c2 & d2 & s2 & E2 & H2 & Hup2).
    rewrite (Hup2 _ W I) in E2, H2. destruct H2 as [?|[_ ->]]; [done|]. by exists (zlen data :: data), s2.
Defined.

Lemma sdr_walk_complete_witness :
  let H := demo_services in
  exists rsv sdr', ipmi_serve (rsv_sdr_request 0) demo_bic =
      Some (CC_SUCCESS, [rsv .& 0xFF; (rsv .>> 8) .& 0xFF], set_sdr sdr' demo_bic) /\
    rsv <> 0 /\ full_sdr_table sdr' = Some [one_record; one_record] /\
    sdr_walk 2 0 rsv 0 (set_sdr sdr' demo_bic) =
      Some (served_record <$> [one_record; one_record], set_sdr sdr' demo_bic).
Proof. intros H. by apply (sdr_walk_complete [one_record; one_record] 0 demo_bic 2 demo_sdr_ok). Defined.

Lemma sdr_reservation_cancelled_witness :
  let H := demo_services in
  ipmi_serve (get_sdr_request 0 0 1 0 5) (set_sdr (fst (SDR_get_RSV_ID 0 demo_sdr)) demo_bic) =
    Some (CC_INVALID_RESERVATION, [], set_sdr (fst (SDR_get_RSV_ID 0 demo_sdr)) demo_bic).
Proof.
  intros H. apply (sdr_reservation_cancelled [one_record; one_record] 0 0 demo_bic _ [1; 0] CC_SUCCESS);
    try done. apply demo_sdr_ok.
Defined.
