(* ===== verification/Ssif.v ===== *)
(** Component [common/service/host/ssif.c]: the SMBus system interface, by which the host sends
    IPMI requests to the BIC over I2C and reads the responses. A request comes in one write or in
    several; a thread puts it together and hands it to the IPMI service or to the BMC, with the
    address of the BIC off the bus until the response is there; the host then reads the response
    in blocks, which the bus interrupt takes from the response buffer. *)

From S2P Require Import Prelude Bytes MctpSmbus IpmiMsg IpmiCore I2cTarget.

(** ** Definitions *)

Definition SSIF_MAX_IPMI_DATA_SIZE : Z := 32.
Definition SSIF_BUFF_SIZE : Z := 50.
Definition SSIF_MULTI_RD_KEY : Z := 0x0001.
Definition SSIF_ERR_RCD_SIZE : Z := 100.
Definition CMD_SYS_INFO_FW_VERSION : Z := 0x01.
Definition CMD_APP_SET_SYS_INFO_PARAMS : Z := 0x58.
Definition SSIF_CMD_STORAGE_ADD_SEL : Z := 0x44.
Definition CMD_OEM_POST_END : Z := 0x74.
Definition SSIF_BMC_IPMB : Z := 0x02.

Definition SSIF_WR_SINGLE : Z := 0x02.
Definition SSIF_WR_MULTI_START : Z := 0x06.
Definition SSIF_WR_MULTI_MIDDLE : Z := 0x07.
Definition SSIF_WR_MULTI_END : Z := 0x08.
Definition SSIF_RD_START : Z := 0x03.
Definition SSIF_RD_NEXT : Z := 0x09.
Definition SSIF_RD_RETRY : Z := 0x0A.

(** The macro a platform can define before [ssif.c] is compiled. *)
Class SsifConfig := mk_ssif_config { SSIF_TIMEOUT_MS : Z }.

Inductive ssif_status :=
  | SSIF_STATUS_WAIT_FOR_WR_START | SSIF_STATUS_WAIT_FOR_WR_NEXT
  | SSIF_STATUS_WAIT_FOR_RD_START | SSIF_STATUS_WAIT_FOR_RD_NEXT
  | SSIF_STATUS_WR_SINGLE_START | SSIF_STATUS_WR_MULTI_START
  | SSIF_STATUS_WR_MIDDLE | SSIF_STATUS_WR_END
  | SSIF_STATUS_RD_START | SSIF_STATUS_RD_MIDDLE | SSIF_STATUS_RD_RETRY | SSIF_STATUS_RD_END.

Inductive ssif_err_status :=
  | SSIF_STATUS_NO_ERR | SSIF_STATUS_INVALID_CMD | SSIF_STATUS_INVALID_CMD_IN_CUR_STATUS
  | SSIF_STATUS_INVALID_PEC | SSIF_STATUS_INVALID_LEN | SSIF_STATUS_ADDR_LCK_TIMEOUT
  | SSIF_STATUS_ADDR_LOCK_ERR | SSIF_STATUS_MUTEX_ERR | SSIF_STATUS_RSP_MSG_TIMEOUT
  | SSIF_STATUS_RSP_NOT_READY | SSIF_STATUS_TARGET_WR_RD_ERROR | SSIF_STATUS_UNKNOWN_ERR.

#[export] Instance ssif_status_eq_dec : EqDecision ssif_status.
Proof. solve_decision. Defined.
#[export] Instance ssif_err_status_eq_dec : EqDecision ssif_err_status.
Proof. solve_decision. Defined.

(** [ssif_dev]. The thread fields are left out; [sd_mutex] says whether the mutex of the response
    buffer was initialised, and the semaphore is its count and its limit (both 0 in memory that
    was only cleared). The last two fields are not of the structure: the 7-bit address the bus
    controller answers to, which [i2c_addr_set] writes, and the level of the alert pin of the
    platform (a read by the host drives it high before the channel is looked up). *)
Record ssif_dev := mk_ssif {
  sd_index : Z; sd_i2c_bus : Z; sd_addr : Z; sd_addr_lock : bool; sd_exp_to_ms : Z;
  sd_mutex : bool; sd_sem : Z; sd_sem_limit : Z;
  sd_rsp_buff : list Z; sd_rsp_buf_len : Z; sd_remain_data_len : Z;
  sd_msg : ipmi_msg; sd_cur_rd_blck : Z; sd_status : ssif_status;
  sd_err_lst : list ssif_err_status; sd_err_idx : Z; sd_err_status : ssif_err_status;
  sd_hw_addr : Z; sd_alert : Z }.

Implicit Types d : ssif_dev.

Definition set_sd_index (v : Z) d : ssif_dev :=
  mk_ssif v (sd_i2c_bus d) (sd_addr d) (sd_addr_lock d) (sd_exp_to_ms d) (sd_mutex d) (sd_sem d) (sd_sem_limit d) (sd_rsp_buff d) (sd_rsp_buf_len d) (sd_remain_data_len d) (sd_msg d) (sd_cur_rd_blck d) (sd_status d) (sd_err_lst d) (sd_err_idx d) (sd_err_status d) (sd_hw_addr d) (sd_alert d).
Definition set_sd_bus (b a : Z) d : ssif_dev :=
  mk_ssif (sd_index d) b a (sd_addr_lock d) (sd_exp_to_ms d) (sd_mutex d) (sd_sem d) (sd_sem_limit d) (sd_rsp_buff d) (sd_rsp_buf_len d) (sd_remain_data_len d) (sd_msg d) (sd_cur_rd_blck d) (sd_status d) (sd_err_lst d) (sd_err_idx d) (sd_err_status d) (sd_hw_addr d) (sd_alert d).
Definition set_sd_lock (v : bool) d : ssif_dev :=
  mk_ssif (sd_index d) (sd_i2c_bus d) (sd_addr d) v (sd_exp_to_ms d) (sd_mutex d) (sd_sem d) (sd_sem_limit d) (sd_rsp_buff d) (sd_rsp_buf_len d) (sd_remain_data_len d) (sd_msg d) (sd_cur_rd_blck d) (sd_status d) (sd_err_lst d) (sd_err_idx d) (sd_err_status d) (sd_hw_addr d) (sd_alert d).
Definition set_sd_exp (v : Z) d : ssif_dev :=
  mk_ssif (sd_index d) (sd_i2c_bus d) (sd_addr d) (sd_addr_lock d) v (sd_mutex d) (sd_sem d) (sd_sem_limit d) (sd_rsp_buff d) (sd_rsp_buf_len d) (sd_remain_data_len d) (sd_msg d) (sd_cur_rd_blck d) (sd_status d) (sd_err_lst d) (sd_err_idx d) (sd_err_status d) (sd_hw_addr d) (sd_alert d).
Definition set_sd_mutex (v : bool) d : ssif_dev :=
  mk_ssif (sd_index d) (sd_i2c_bus d) (sd_addr d) (sd_addr_lock d) (sd_exp_to_ms d) v (sd_sem d) (sd_sem_limit d) (sd_rsp_buff d) (sd_rsp_buf_len d) (sd_remain_data_len d) (sd_msg d) (sd_cur_rd_blck d) (sd_status d) (sd_err_lst d) (sd_err_idx d) (sd_err_status d) (sd_hw_addr d) (sd_alert d).
Definition set_sd_sem (v l : Z) d : ssif_dev :=
  mk_ssif (sd_index d) (sd_i2c_bus d) (sd_addr d) (sd_addr_lock d) (sd_exp_to_ms d) (sd_mutex d) v l (sd_rsp_buff d) (sd_rsp_buf_len d) (sd_remain_data_len d) (sd_msg d) (sd_cur_rd_blck d) (sd_status d) (sd_err_lst d) (sd_err_idx d) (sd_err_status d) (sd_hw_addr d) (sd_alert d).
Definition set_sd_rsp (b : list Z) (n : Z) d : ssif_dev :=
  mk_ssif (sd_index d) (sd_i2c_bus d) (sd_addr d) (sd_addr_lock d) (sd_exp_to_ms d) (sd_mutex d) (sd_sem d) (sd_sem_limit d) b n (sd_remain_data_len d) (sd_msg d) (sd_cur_rd_blck d) (sd_status d) (sd_err_lst d) (sd_err_idx d) (sd_err_status d) (sd_hw_addr d) (sd_alert d).
Definition set_sd_read (remain blck : Z) d : ssif_dev :=
  mk_ssif (sd_index d) (sd_i2c_bus d) (sd_addr d) (sd_addr_lock d) (sd_exp_to_ms d) (sd_mutex d) (sd_sem d) (sd_sem_limit d) (sd_rsp_buff d) (sd_rsp_buf_len d) remain (sd_msg d) blck (sd_status d) (sd_err_lst d) (sd_err_idx d) (sd_err_status d) (sd_hw_addr d) (sd_alert d).
Definition set_sd_msg (v : ipmi_msg) d : ssif_dev :=
  mk_ssif (sd_index d) (sd_i2c_bus d) (sd_addr d) (sd_addr_lock d) (sd_exp_to_ms d) (sd_mutex d) (sd_sem d) (sd_sem_limit d) (sd_rsp_buff d) (sd_rsp_buf_len d) (sd_remain_data_len d) v (sd_cur_rd_blck d) (sd_status d) (sd_err_lst d) (sd_err_idx d) (sd_err_status d) (sd_hw_addr d) (sd_alert d).
Definition ssif_state_machine (v : ssif_status) d : ssif_dev :=
  mk_ssif (sd_index d) (sd_i2c_bus d) (sd_addr d) (sd_addr_lock d) (sd_exp_to_ms d) (sd_mutex d) (sd_sem d) (sd_sem_limit d) (sd_rsp_buff d) (sd_rsp_buf_len d) (sd_remain_data_len d) (sd_msg d) (sd_cur_rd_blck d) v (sd_err_lst d) (sd_err_idx d) (sd_err_status d) (sd_hw_addr d) (sd_alert d).
Definition set_sd_err (l : list ssif_err_status) (i : Z) (e : ssif_err_status) d : ssif_dev :=
  mk_ssif (sd_index d) (sd_i2c_bus d) (sd_addr d) (sd_addr_lock d) (sd_exp_to_ms d) (sd_mutex d) (sd_sem d) (sd_sem_limit d) (sd_rsp_buff d) (sd_rsp_buf_len d) (sd_remain_data_len d) (sd_msg d) (sd_cur_rd_blck d) (sd_status d) l i e (sd_hw_addr d) (sd_alert d).
Definition set_sd_hw_addr (v : Z) d : ssif_dev :=
  mk_ssif (sd_index d) (sd_i2c_bus d) (sd_addr d) (sd_addr_lock d) (sd_exp_to_ms d) (sd_mutex d) (sd_sem d) (sd_sem_limit d) (sd_rsp_buff d) (sd_rsp_buf_len d) (sd_remain_data_len d) (sd_msg d) (sd_cur_rd_blck d) (sd_status d) (sd_err_lst d) (sd_err_idx d) (sd_err_status d) v (sd_alert d).
(** [pal_ssif_alert_trigger]. *)
Definition alert_trigger (v : Z) d : ssif_dev :=
  mk_ssif (sd_index d) (sd_i2c_bus d) (sd_addr d) (sd_addr_lock d) (sd_exp_to_ms d) (sd_mutex d) (sd_sem d) (sd_sem_limit d) (sd_rsp_buff d) (sd_rsp_buf_len d) (sd_remain_data_len d) (sd_msg d) (sd_cur_rd_blck d) (sd_status d) (sd_err_lst d) (sd_err_idx d) (sd_err_status d) (sd_hw_addr d) v.

(** The memory of [ssif_device_init], cleared. *)
Definition zero_ssif : ssif_dev :=
  mk_ssif 0 0 0 false 0 false 0 0 (zeros IPMI_MSG_MAX_LENGTH) 0 0 zero_ipmi_msg 0
    SSIF_STATUS_WAIT_FOR_WR_START (replicate 100 SSIF_STATUS_NO_ERR) 0 SSIF_STATUS_NO_ERR 0 1.

(** [k_sem_give] up to the limit. *)
Definition sem_give d : ssif_dev :=
  set_sd_sem (if sd_sem d =? sd_sem_limit d then sd_sem d else sd_sem d + 1) (sd_sem_limit d) d.

(** What the calls below SSIF answer: the uptime in ms, whether the bus of a controller is
    usable ([check_i2c_bus_valid]) and whether the mutex of the response buffer is got. *)
Record ssif_env := mk_ssif_env { se_now : Z; se_bus_ok : Z -> bool; se_lock : bool }.

(** ** Records of errors, the address, the state machine *)

(** [ssif_error_record] for a channel of the table, which is always the caller's own [index]. *)
Definition ssif_error_record (errcode : ssif_err_status) d : ssif_dev :=
  let idx := if sd_err_idx d =? SSIF_ERR_RCD_SIZE then 0 else sd_err_idx d in
  if decide (errcode = SSIF_STATUS_NO_ERR) then set_sd_err (sd_err_lst d) idx errcode d
  else set_sd_err (<[Z.to_nat idx := errcode]> (sd_err_lst d)) (u8 (idx + 1)) errcode d.

(** [i2c_addr_set] of [hal_i2c.c], as far as the address register. *)
Definition i2c_addr_set (E : ssif_env) (addr : Z) d : ssif_dev * Z :=
  if negb (se_bus_ok E (sd_i2c_bus d)) then (d, -1) else (set_sd_hw_addr (addr .>> 1) d, 0).

Section configured.
Context {SC : SsifConfig}.

Definition ssif_lock_ctl (E : ssif_env) (lck_flag : bool) d : ssif_dev * bool :=
  let d := if lck_flag then set_sd_exp (se_now E + SSIF_TIMEOUT_MS) (set_sd_lock true d)
           else set_sd_lock false d in
  let '(d, ret) := i2c_addr_set E (if lck_flag then 0 else u8 (sd_addr d .<< 1)) d in
  (d, ret =? 0).

Definition ssif_reset d : ssif_dev :=
  set_sd_msg zero_ipmi_msg (ssif_state_machine SSIF_STATUS_WAIT_FOR_WR_START d).

(** The state a command needs and the one it leads to. *)
Definition ssif_status_check (smb_cmd : Z) d : ssif_dev * bool :=
  let error := (ssif_error_record SSIF_STATUS_INVALID_CMD_IN_CUR_STATUS d, false) in
  let st := sd_status d in
  if (smb_cmd =? SSIF_WR_SINGLE) || (smb_cmd =? SSIF_WR_MULTI_START) then
    if bool_decide (st <> SSIF_STATUS_WAIT_FOR_WR_START) && bool_decide (st <> SSIF_STATUS_WAIT_FOR_RD_START)
    then error
    else if smb_cmd =? SSIF_WR_SINGLE then (ssif_state_machine SSIF_STATUS_WR_SINGLE_START d, true)
    else (ssif_state_machine SSIF_STATUS_WR_MULTI_START d, true)
  else if (smb_cmd =? SSIF_WR_MULTI_MIDDLE) || (smb_cmd =? SSIF_WR_MULTI_END) then
    if bool_decide (st <> SSIF_STATUS_WAIT_FOR_WR_NEXT) then error
    else if smb_cmd =? SSIF_WR_MULTI_MIDDLE then (ssif_state_machine SSIF_STATUS_WR_MIDDLE d, true)
    else (ssif_state_machine SSIF_STATUS_WR_END d, true)
  else if smb_cmd =? SSIF_RD_START then
    if bool_decide (st <> SSIF_STATUS_WAIT_FOR_RD_START) then error
    else (ssif_state_machine SSIF_STATUS_RD_START d, true)
  else if smb_cmd =? SSIF_RD_NEXT then
    if bool_decide (st <> SSIF_STATUS_WAIT_FOR_RD_NEXT) then error
    else (ssif_state_machine SSIF_STATUS_RD_MIDDLE d, true)
  else if smb_cmd =? SSIF_RD_RETRY then
    if bool_decide (st <> SSIF_STATUS_WAIT_FOR_RD_NEXT) then error
    else (ssif_state_machine SSIF_STATUS_RD_RETRY d, true)
  else (ssif_error_record SSIF_STATUS_INVALID_CMD d, false).

(** ** The response buffer *)

(** [ssif_set_data] on the channel's own structure; [None] is a copy that leaves an array. *)
Definition ssif_set_data_dev (lock_ok : bool) (msg : ipmi_msg) d : option (ssif_dev * bool) :=
  if negb (sd_mutex d) then Some (d, false)
  else if negb lock_ok then Some (ssif_error_record SSIF_STATUS_MUTEX_ERR d, false)
  else
    buf ← mem_write (sd_rsp_buff d) 0 [im_netfn msg; im_cmd msg; im_completion_code msg];
    let n := if im_data_len msg <=? IPMI_MSG_MAX_LENGTH - 3 then im_data_len msg
             else IPMI_MSG_MAX_LENGTH - 3 in
    src ← mem_read (im_data msg) 0 n;
    buf ← (if negb (im_data_len msg =? 0) then mem_write buf 3 src else Some buf);
    Some (sem_give (set_sd_rsp buf (u16 (im_data_len msg + 3)) d), true).

Definition ssif_set_data (lock_ok : bool) (devs : list ssif_dev) (channel : Z) (msg : ipmi_msg)
    : option (list ssif_dev * bool) :=
  match devs !! Z.to_nat channel with
  | None => Some (devs, false)
  | Some d => '(d, ret) ← ssif_set_data_dev lock_ok msg d; Some (<[Z.to_nat channel := d]> devs, ret)
  end.

(** The place of the channel of a bus. *)
Fixpoint ssif_inst_find (i : Z) (devs : list ssif_dev) (bus : Z) : option Z :=
  match devs with
  | [] => None
  | d :: devs => if sd_i2c_bus d =? bus then Some i else ssif_inst_find (i + 1) devs bus
  end.
Definition ssif_inst_get_by_bus (devs : list ssif_dev) (bus : Z) : option Z := ssif_inst_find 0 devs bus.

(** ** Requests *)

(** Zephyr's [crc8(l, length of l, 0x07, 0x00, false)]; is [ENABLE_SSIF_RSP_PEC] set. *)
Section ssif.
Context (crc8 : list Z -> Z) (rsp_pec : bool).

(** The first [len] bytes of [data] with or without a PEC after the bytes the length byte counts:
    the result and [is_pec_exist]. [None]: a read outside [data]. *)
Definition ssif_pec_check (addr : Z) (data : list Z) (len : Z) : option (bool * Z) :=
  if len <? 2 then Some (false, 0)
  else if len - rd data 1 - 2 =? 0 then Some (true, 0)
  else
    body ← mem_read data 0 (len - 1);
    Some (rd data (len - 1) =? crc8 (u8 (addr .<< 1) :: body), 1).

Definition ssif_pec_get (addr smb_cmd : Z) (data : list Z) : Z :=
  crc8 (u8 (addr .<< 1) :: smb_cmd :: u8 (u8 (addr .<< 1) + 1) :: data).

(** [construct_ipmi_message] of [lib/libutil.c]; the fields it leaves unset are 0 here. *)
Definition construct_ipmi_message (seq_source netFn command source_inft target_inft data_len : Z)
    (data : list Z) : option ipmi_msg :=
  let m := set_im_data_len data_len (set_im_InF_target target_inft (set_im_InF_source source_inft
             (set_im_cmd command (set_im_netfn netFn (set_im_seq_source seq_source zero_ipmi_msg))))) in
  if data_len =? 0 then Some m
  else src ← mem_read data 0 data_len; arr ← mem_write (im_data m) 0 src; Some (set_im_data arr m).

(** What the platform and the services around decide or do: which requests the BIC answers itself
    and which are answered at once before the BMC gets them; the SBMR commands, when compiled in;
    does the BMC answer over IPMB, and its answers over IPMB and PLDM ([None]: no answer). *)
Record ssif_platform := mk_ssif_platform {
  pal_request_msg_to_BIC_from_HOST : Z -> Z -> bool;
  pal_immediate_respond_from_HOST : Z -> Z -> bool;
  smbr_cmd_handler : option (ipmi_msg -> ipmi_msg * bool);
  bmc_use_ipmb : bool;
  bmc_ipmb_read : ipmi_msg -> option ipmi_msg;
  bmc_pldm_request : ipmi_msg -> option ipmi_msg }.

(** The calls out of the request path, in their order. [OutForward]: the job that forwards a
    request already answered. *)
Inductive ssif_out :=
  | OutAddSel (msg : ipmi_msg)
  | OutPostComplete
  | OutForward
  | OutBiosVersion (buf : list Z) (size : Z).

Context (P : ssif_platform).

(** The request as a message to the BMC, and its answer; [send_cmd_work_handler] is this for the
    request in the channel at the time the job runs. *)
Definition bmc_request (d : ssif_dev) : option (option ipmi_msg) :=
  msg ← construct_ipmi_message 0xFF (im_netfn (sd_msg d)) (im_cmd (sd_msg d)) SELF SSIF_BMC_IPMB
          (im_data_len (sd_msg d)) (im_data (sd_msg d));
  Some (if bmc_use_ipmb P then bmc_ipmb_read P msg else bmc_pldm_request P (set_im_InF_target PLDM msg)).

(** What the job sends to the BMC. *)
Definition send_cmd_work_handler (d : ssif_dev) : option ipmi_msg :=
  msg ← construct_ipmi_message 0xFF (im_netfn (sd_msg d)) (im_cmd (sd_msg d)) SELF SSIF_BMC_IPMB
          (im_data_len (sd_msg d)) (im_data (sd_msg d));
  Some (if bmc_use_ipmb P then msg else set_im_InF_target PLDM msg).

(** The loop that puts a request into the queue of the IPMI service: a full queue is emptied. *)
Definition put_ipmi_msgq (msg : ipmi_msg) (q : list ipmi_msg) : list ipmi_msg :=
  if zlen q <? IPMI_BUF_LEN then q ++ [msg] else [msg].

(** The response of a request that is answered at once. *)
Definition immediate_response (msg : ipmi_msg) : option (ipmi_msg * list ssif_out) :=
  let req := set_im_completion_code CC_SUCCESS (set_im_data_len 0 msg) in
  '(req, outs) ←
    (if (im_netfn msg =? NETFN_STORAGE_REQ) && (im_cmd msg =? SSIF_CMD_STORAGE_ADD_SEL) then
       data ← mem_write (im_data req) 0 [0; 0];
       Some (set_im_data data (set_im_data_len 2 req), [OutAddSel msg])
     else if (im_netfn msg =? NETFN_OEM_REQ) && (im_cmd msg =? CMD_OEM_POST_END) then
       Some (set_im_data_len 0 req, [OutPostComplete])
     else Some (req, []));
  Some (set_im_netfn (u8 ((im_netfn msg + 1) .<< 2)) req, outs).

(** The buffer given to [pal_record_bios_fw_version], if the request sets the version. *)
Definition bios_version_record (msg : ipmi_msg) : option (list ssif_out) :=
  if (im_netfn msg =? NETFN_APP_REQ) && (im_cmd msg =? CMD_APP_SET_SYS_INFO_PARAMS)
     && (rd (im_data msg) 0 =? CMD_SYS_INFO_FW_VERSION) then
    src ← mem_read (im_data msg) 0 (im_data_len msg);
    buf ← mem_write (zeros IPMI_MSG_MAX_LENGTH) 0 [im_netfn msg; im_cmd msg];
    buf ← mem_write buf 2 src;
    Some [OutBiosVersion buf (u8 (im_data_len msg + 2))]
  else Some [].

(** [ssif_data_handle] with [SSIF_SEND_IPMI], up to the wait for the response: the channel, the
    queue of the IPMI service and the calls made. *)
Definition ssif_send_request (lock_ok : bool) (d : ssif_dev) (q : list ipmi_msg)
    : option (ssif_dev * list ipmi_msg * list ssif_out) :=
  let msg := sd_msg d in
  if pal_request_msg_to_BIC_from_HOST P (im_netfn msg) (im_cmd msg) then
    match smbr_cmd_handler P with
    | Some sbmr =>
        if im_netfn msg =? NETFN_DCMI_REQ then
          let '(msg, ret) := sbmr msg in
          let d := set_sd_msg msg d in
          '(d, _) ← (if ret then ssif_set_data_dev lock_ok msg d else Some (d, false));
          Some (d, q, [])
        else Some (d, put_ipmi_msgq msg q, [])
    | None => Some (d, put_ipmi_msgq msg q, [])
    end
  else if pal_immediate_respond_from_HOST P (im_netfn msg) (im_cmd msg) then
    '(req, outs) ← immediate_response msg;
    '(d, _) ← ssif_set_data_dev lock_ok req d;
    Some (d, q, outs ++ [OutForward])
  else
    outs ← bios_version_record msg;
    rsp ← bmc_request d;
    '(d, _) ←
      match rsp with
      | Some rsp =>
          ssif_set_data_dev lock_ok (set_im_netfn (u8 ((im_netfn rsp .| BIT 0) .<< 2)) rsp) d
      | None => Some (d, false)
      end;
    Some (d, q, outs).

(** The rest of [ssif_data_handle] with [SSIF_SEND_IPMI]: without the semaphore within 1500 ms
    there is no response. *)
Definition ssif_wait_response (E : ssif_env) (d : ssif_dev) : ssif_dev * bool :=
  if sd_sem d =? 0 then (ssif_error_record SSIF_STATUS_RSP_MSG_TIMEOUT d, false)
  else
    let d := set_sd_sem (sd_sem d - 1) (sd_sem_limit d) d in
    let '(d, ret) := ssif_lock_ctl E false d in
    if negb ret then (ssif_error_record SSIF_STATUS_ADDR_LOCK_ERR d, false)
    else (alert_trigger 0 d, true).

(** [ssif_data_pre_handle]. *)
Definition ssif_data_pre_handle (smb_cmd : Z) (d : ssif_dev) : ssif_dev * bool :=
  if (smb_cmd =? SSIF_RD_START) || (smb_cmd =? SSIF_RD_NEXT) || (smb_cmd =? SSIF_RD_RETRY)
  then (ssif_error_record SSIF_STATUS_UNKNOWN_ERR d, false)
  else ssif_status_check smb_cmd d.

(** ** The thread of a channel *)

(** What follows a message: the next one, the request goes out, or the message was refused
    ([cold_reset]). *)
Inductive ssif_next := ReadNext | SendIpmi | ColdReset.

(** A message that starts a request; [rlen] counts the bytes of [rdata] received. *)
Definition ssif_write_start (smb_cmd is_pec_exist rlen : Z) (rdata : list Z) (d : ssif_dev)
    : option (ssif_dev * ssif_next) :=
  let invalid := Some (ssif_error_record SSIF_STATUS_INVALID_LEN d, ColdReset) in
  let len := rd rdata 1 in
  if 33 <? rlen - 1 - is_pec_exist then invalid
  else if negb (len =? rlen - 2 - is_pec_exist) then invalid
  else
    let data_len := u16 (len - 2) in
    let msg := set_im_data_len data_len (set_im_cmd (rd rdata 3) (set_im_netfn (rd rdata 2 .>> 2)
                 (set_im_InF_source (u8 (HOST_SSIF_1 + sd_index d)) (sd_msg d)))) in
    msg ← (if negb (data_len =? 0) then
             src ← mem_read rdata 4 data_len;
             arr ← mem_write (im_data msg) 0 src;
             Some (set_im_data arr msg)
           else Some msg);
    let d := set_sd_msg msg d in
    if smb_cmd =? SSIF_WR_MULTI_START
    then Some (ssif_state_machine SSIF_STATUS_WAIT_FOR_WR_NEXT (ssif_error_record SSIF_STATUS_NO_ERR d),
               ReadNext)
    else Some (d, SendIpmi).

(** A message that continues or ends one. *)
Definition ssif_write_more (smb_cmd is_pec_exist rlen : Z) (rdata : list Z) (d : ssif_dev)
    : option (ssif_dev * ssif_next) :=
  let invalid := Some (ssif_error_record SSIF_STATUS_INVALID_LEN d, ColdReset) in
  let len := rd rdata 1 in
  let msg := sd_msg d in
  if 33 <? rlen - 1 - is_pec_exist then invalid
  else if negb (len =? rlen - 2 - is_pec_exist) then invalid
  else if (smb_cmd =? SSIF_WR_MULTI_MIDDLE) && negb (len =? SSIF_MAX_IPMI_DATA_SIZE) then invalid
  else if im_data_len msg =? 0
  then Some (ssif_error_record SSIF_STATUS_INVALID_CMD_IN_CUR_STATUS d, ColdReset)
  else
    src ← mem_read rdata 2 len;
    arr ← mem_write (im_data msg) (im_data_len msg) src;
    let d := set_sd_msg (set_im_data arr (set_im_data_len (u16 (im_data_len msg + len)) msg)) d in
    if smb_cmd =? SSIF_WR_MULTI_MIDDLE
    then Some (ssif_state_machine SSIF_STATUS_WAIT_FOR_WR_NEXT (ssif_error_record SSIF_STATUS_NO_ERR d),
               ReadNext)
    else Some (d, SendIpmi).

(** One message: [rc] and the bytes of [i2c_target_read]. *)
Definition ssif_receive (rc : Z) (bytes : list Z) (d : ssif_dev) : option (ssif_dev * ssif_next) :=
  let rlen := zlen bytes in
  let rdata := bytes ++ zeros (SSIF_BUFF_SIZE - rlen) in
  if negb (rc =? 0) then Some (ssif_error_record SSIF_STATUS_TARGET_WR_RD_ERROR d, ColdReset)
  else if rlen =? 0 then Some (ssif_error_record SSIF_STATUS_INVALID_LEN d, ColdReset)
  else
    let cur_smb_cmd := rd rdata 0 in
    let '(d, ok) := ssif_data_pre_handle cur_smb_cmd d in
    if negb ok then Some (d, ColdReset)
    else
      '(ok, is_pec_exist) ← ssif_pec_check (sd_addr d) rdata rlen;
      if negb (ok : bool) then Some (ssif_error_record SSIF_STATUS_INVALID_PEC d, ColdReset)
      else if (cur_smb_cmd =? SSIF_WR_SINGLE) || (cur_smb_cmd =? SSIF_WR_MULTI_START)
      then ssif_write_start cur_smb_cmd is_pec_exist rlen rdata d
      else if (cur_smb_cmd =? SSIF_WR_MULTI_MIDDLE) || (cur_smb_cmd =? SSIF_WR_MULTI_END)
      then ssif_write_more cur_smb_cmd is_pec_exist rlen rdata d
      else Some (d, ColdReset).

(** The labels [cold_reset] and [warm_reset]. *)
Definition ssif_cold_reset (E : ssif_env) (d : ssif_dev) : ssif_dev :=
  let d := if sd_addr_lock d then
             let '(d, ok) := ssif_lock_ctl E false d in
             if ok then d else ssif_error_record SSIF_STATUS_ADDR_LOCK_ERR d
           else d in
  ssif_reset d.

(** A turn of [ssif_read_task] up to the request going out. *)
Definition ssif_read_turn (E : ssif_env) (rc : Z) (bytes : list Z) (d : ssif_dev)
    : option (ssif_dev * ssif_next) :=
  '(d, next) ← ssif_receive rc bytes d;
  Some (match next with ColdReset => ssif_cold_reset E d | _ => d end, next).

(** The end of the turn that sent a request. *)
Definition ssif_send_done (E : ssif_env) (d : ssif_dev) : ssif_dev :=
  let '(d, ok) := ssif_wait_response E d in
  if ok then ssif_state_machine SSIF_STATUS_WAIT_FOR_RD_START (ssif_error_record SSIF_STATUS_NO_ERR d)
  else ssif_reset d.

(** [ssif_timeout_monitor]: one look at a channel. *)
Definition ssif_timeout_check (E : ssif_env) (d : ssif_dev) : ssif_dev :=
  if negb (sd_addr_lock d) then d
  else if sd_exp_to_ms d <=? se_now E then
    let d := ssif_error_record SSIF_STATUS_ADDR_LCK_TIMEOUT d in
    let '(d, ok) := ssif_lock_ctl E false d in
    ssif_reset (if ok then d else ssif_error_record SSIF_STATUS_ADDR_LOCK_ERR d)
  else d.

Definition ssif_timeout_monitor (E : ssif_env) (devs : list ssif_dev) : list ssif_dev :=
  ssif_timeout_check E <$> devs.

(** ** Reads by the host, in the bus interrupt *)

Section target_side.
Context {Q : Type} `{target_msgq Q}.
Abbreviation targets := (list (i2c_target_device Q unit)).

(** The block for a read command, without its length byte in front: its bytes after the length,
    the next status, and the channel with what remains. The inner [None] is the default case. *)
Definition ssif_rd_block (smb_cmd : Z) (d : ssif_dev)
    : option (option (list Z * ssif_status * ssif_dev)) :=
  if smb_cmd =? SSIF_RD_START then
    let n := sd_rsp_buf_len d in
    if SSIF_MAX_IPMI_DATA_SIZE <? n then
      data ← mem_read (sd_rsp_buff d) 0 (SSIF_MAX_IPMI_DATA_SIZE - 2);
      Some (Some ([(SSIF_MULTI_RD_KEY .>> 8) .& 0xFF; SSIF_MULTI_RD_KEY .& 0xFF] ++ data,
        SSIF_STATUS_WAIT_FOR_RD_NEXT, set_sd_read (n - (SSIF_MAX_IPMI_DATA_SIZE - 2)) 0 d))
    else
      data ← mem_read (sd_rsp_buff d) 0 n;
      Some (Some (data, SSIF_STATUS_WAIT_FOR_WR_START, set_sd_read 0 0 d))
  else if smb_cmd =? SSIF_RD_NEXT then
    let remain := sd_remain_data_len d in
    let more := SSIF_MAX_IPMI_DATA_SIZE - 1 <? remain in
    let wdata_len := if more then SSIF_MAX_IPMI_DATA_SIZE else u16 (remain + 1) in
    let d := if more then d else ssif_state_machine SSIF_STATUS_RD_END d in
    data ← mem_read (sd_rsp_buff d) (sd_rsp_buf_len d - remain) (wdata_len - 1);
    Some (Some ((if more then u8 (sd_cur_rd_blck d) else 0xFF) :: data,
      if more then SSIF_STATUS_WAIT_FOR_RD_NEXT else SSIF_STATUS_WAIT_FOR_WR_START,
      set_sd_read (u16 (remain - (wdata_len - 1))) (u16 (sd_cur_rd_blck d + 1)) d))
  else Some None.

(** [ssif_data_handle] with [SSIF_COLLECT_DATA]; the block goes into the array [wdata] of
    [SSIF_BUFF_SIZE] bytes. *)
Definition ssif_collect (T : target_env) (smb_cmd : Z) (tgts : targets) (d : ssif_dev)
    : option (targets * ssif_dev * bool) :=
  if sd_rsp_buf_len d =? 0 then Some (tgts, ssif_error_record SSIF_STATUS_RSP_NOT_READY d, false)
  else
    block ← ssif_rd_block smb_cmd d;
    match block with
    | None => Some (tgts, ssif_error_record SSIF_STATUS_INVALID_CMD d, false)
    | Some (block, next_status, d) =>
        let out := u8 (zlen block) :: block in
        let out := if rsp_pec then out ++ [ssif_pec_get (sd_addr d) smb_cmd out] else out in
        wdata ← mem_write (zeros SSIF_BUFF_SIZE) 0 out;
        '(tgts, rc) ← i2c_target_write T tgts (sd_i2c_bus d) wdata (zlen out);
        if negb (rc =? 0) then Some (tgts, ssif_error_record SSIF_STATUS_TARGET_WR_RD_ERROR d, false)
        else Some (tgts, ssif_state_machine next_status d, true)
    end.

(** [ssif_collect_data] for the channel of the bus: false when the bytes written, the command,
    are not to be queued. *)
Definition ssif_collect_dev (T : target_env) (smb_cmd : Z) (tgts : targets) (d : ssif_dev)
    : option (targets * ssif_dev * bool) :=
  if smb_cmd =? SSIF_RD_RETRY then Some (tgts, ssif_reset d, false)
  else
    let '(d, ok) := ssif_status_check smb_cmd d in
    if negb ok then Some (tgts, ssif_reset d, false)
    else
      '(tgts, d, ok) ← ssif_collect T smb_cmd tgts d;
      if negb (ok : bool) then Some (tgts, ssif_reset d, false)
      else if decide (sd_status d = SSIF_STATUS_WAIT_FOR_RD_NEXT) then Some (tgts, d, false)
      else if decide (sd_status d = SSIF_STATUS_WAIT_FOR_WR_START)
      then Some (tgts, ssif_reset (ssif_error_record SSIF_STATUS_NO_ERR d), false)
      else Some (tgts, d, true).

Definition ssif_collect_data (T : target_env) (smb_cmd bus : Z) (tgts : targets) (devs : list ssif_dev)
    : option (targets * list ssif_dev * bool) :=
  if negb ((smb_cmd =? SSIF_RD_START) || (smb_cmd =? SSIF_RD_NEXT) || (smb_cmd =? SSIF_RD_RETRY))
  then Some (tgts, devs, true)
  else
    let devs := alert_trigger 1 <$> devs in
    match ssif_inst_get_by_bus devs bus with
    | None => Some (tgts, devs, false)
    | Some i =>
        d ← devs !! Z.to_nat i;
        '(tgts, d, ret) ← ssif_collect_dev T smb_cmd tgts d;
        Some (tgts, <[Z.to_nat i := d]> devs, ret)
    end.

(** The two functions SSIF installs at its target. *)
Definition ssif_write_data (T : target_env) (k : Z) (tgts : targets) (devs : list ssif_dev)
    : option (targets * list ssif_dev * bool) :=
  let t := data_at tgts k in
  if td_wr_idx t =? 1 then ssif_collect_data T (rd (msg_array (td_wr_msg t)) 0) (td_bus t) tgts devs
  else Some (tgts, devs, true).

Definition ssif_drop_dev (E : ssif_env) (d : ssif_dev) : ssif_dev :=
  let '(d, ok) := ssif_lock_ctl E true d in
  if ok then d else ssif_error_record SSIF_STATUS_ADDR_LOCK_ERR d.

Definition ssif_bus_drop (E : ssif_env) (k : Z) (tgts : targets) (devs : list ssif_dev) : list ssif_dev :=
  let t := data_at tgts k in
  let smb_cmd := rd (msg_array (td_wr_msg t)) 0 in
  if (td_wr_idx t =? 1) && ((smb_cmd =? SSIF_WR_SINGLE) || (smb_cmd =? SSIF_WR_MULTI_END)) then
    match ssif_inst_get_by_bus devs (td_bus t) with
    | None => devs
    | Some i => alter (ssif_drop_dev E) (Z.to_nat i) devs
    end
  else devs.

(** SSIF as the client of the I2C target. *)
Definition ssif_client (E : ssif_env) : target_client Q unit (list ssif_dev) := {|
  on_collect _ T k tgts devs := ssif_write_data T k tgts devs;
  on_post _ T k tgts devs := Some (tgts, ssif_bus_drop E k tgts devs) |}.

(** ** Initialisation *)

(** [struct ssif_init_cfg]; [addr] is the 8-bit address. *)
Record ssif_init_cfg := mk_ssif_cfg { ic_bus : Z; ic_addr : Z; ic_msgq_cnt : Z }.

(** [mutex_ok], [sem_ok]: the results of [k_mutex_init] and [k_sem_init], both on the first
    channel's structure. [bus_max]: [I2C_BUS_MAX_NUM]. Result: also whether the thread of the
    channel was created. *)
Definition ssif_init_one (T : target_env) (bus_max : Z) (mutex_ok sem_ok : bool) (i : Z)
    (cfg : ssif_init_cfg) (tgts : targets) (devs : list ssif_dev) : targets * list ssif_dev * bool :=
  if bus_max <=? ic_bus cfg then (tgts, devs, false)
  else
    let '(tgts, ret) := i2c_target_control T tgts (ic_bus cfg)
      (mk_target_config (ic_addr cfg) (ic_msgq_cnt cfg) (Some tt) (Some tt)) I2C_CONTROL_REGISTER in
    if negb (ret =? 0) then (tgts, devs, false)
    else if negb mutex_ok then (tgts, devs, false)
    else
      let devs := alter (set_sd_mutex true) 0%nat devs in
      if negb sem_ok then (tgts, devs, false)
      else
        let devs := alter (set_sd_sem 0 1) 0%nat devs in
        let hw := td_address (data_at tgts (ic_bus cfg)) in
        let init d := ssif_error_record SSIF_STATUS_NO_ERR (set_sd_hw_addr hw
          (set_sd_index i (ssif_state_machine SSIF_STATUS_WAIT_FOR_WR_START
             (set_sd_lock false (set_sd_bus (ic_bus cfg) (ic_addr cfg .>> 1) d))))) in
        (tgts, alter init (Z.to_nat i) devs, true).

Fixpoint ssif_init_loop (T : target_env) (bus_max : Z) (mutex_ok sem_ok : bool) (i : Z)
    (config : list ssif_init_cfg) (tgts : targets) (devs : list ssif_dev)
    : targets * list ssif_dev * list bool :=
  match config with
  | [] => (tgts, devs, [])
  | cfg :: config =>
      let '(tgts, devs, started) := ssif_init_one T bus_max mutex_ok sem_ok i cfg tgts devs in
      let '(tgts, devs, rest) := ssif_init_loop T bus_max mutex_ok sem_ok (i + 1) config tgts devs in
      (tgts, devs, started :: rest)
  end.

(** The table of channels afterwards; without memory there is none. *)
Definition ssif_device_init (malloc_ok : bool) (T : target_env) (bus_max : Z) (mutex_ok sem_ok : bool)
    (config : list ssif_init_cfg) (tgts : targets) : targets * list ssif_dev * list bool :=
  if negb malloc_ok then (tgts, [], [])
  else ssif_init_loop T bus_max mutex_ok sem_ok 0 config tgts (replicate (length config) zero_ssif).
End target_side.
End ssif.

(** ** Messages of the host *)

Section receive.
Context (crc8 : list Z -> Z).

(** A message: the command, the number of bytes, the bytes and, if it is used, the PEC. *)
Definition ssif_frame (addr : Z) (pec : bool) (cmd : Z) (bytes : list Z) : list Z :=
  let f := cmd :: zlen bytes :: bytes in
  if pec then f ++ [crc8 (u8 (addr .<< 1) :: f)] else f.

(** The messages of a request of more than one part, after the first. *)
Fixpoint ssif_rest_frames (fuel : nat) (addr : Z) (pec : bool) (bytes : list Z) : list (list Z) :=
  match fuel with
  | O => []
  | S fuel =>
      if zlen bytes <=? SSIF_MAX_IPMI_DATA_SIZE then [ssif_frame addr pec SSIF_WR_MULTI_END bytes]
      else ssif_frame addr pec SSIF_WR_MULTI_MIDDLE (take 32 bytes)
             :: ssif_rest_frames fuel addr pec (drop 32 bytes)
  end.

(** The host's side of a request: [b] holds the network function and the LUN. *)
Definition ssif_request_frames (addr : Z) (pec : bool) (b cmd : Z) (data : list Z) : list (list Z) :=
  let bytes := b :: cmd :: data in
  if zlen bytes <=? SSIF_MAX_IPMI_DATA_SIZE then [ssif_frame addr pec SSIF_WR_SINGLE bytes]
  else ssif_frame addr pec SSIF_WR_MULTI_START (take 32 bytes)
         :: ssif_rest_frames (length bytes) addr pec (drop 32 bytes).

(** The turns of the thread on messages that follow each other. *)
Fixpoint ssif_receive_all (E : ssif_env) (frames : list (list Z)) (d : ssif_dev)
    : option (ssif_dev * list ssif_next) :=
  match frames with
  | [] => Some (d, [])
  | f :: frames =>
      '(d, next) ← ssif_read_turn crc8 E 0 f d;
      '(d, nexts) ← ssif_receive_all E frames d;
      Some (d, next :: nexts)
  end.

(** The channel has the request of [b], [cmd] and the data. *)
Record holds_request (b cmd : Z) (data : list Z) (d : ssif_dev) : Prop := {
  hr_netfn : im_netfn (sd_msg d) = b .>> 2;
  hr_cmd : im_cmd (sd_msg d) = cmd;
  hr_source : im_InF_source (sd_msg d) = u8 (HOST_SSIF_1 + sd_index d);
  hr_len : im_data_len (sd_msg d) = zlen data;
  hr_data : slice (im_data (sd_msg d)) 0 (zlen data) = data;
  hr_size : zlen (im_data (sd_msg d)) = IPMI_MSG_MAX_LENGTH;
  hr_bytes : bytes_ok (im_data (sd_msg d)) }.

(** What receiving does not touch. *)
Definition chan_io (d : ssif_dev) :=
  (sd_index d, sd_i2c_bus d, sd_addr d, sd_addr_lock d, sd_exp_to_ms d, sd_mutex d, sd_sem d,
   sd_sem_limit d, sd_rsp_buff d, sd_rsp_buf_len d, sd_hw_addr d, sd_alert d).

Lemma error_record_io e d : chan_io (ssif_error_record e d) = chan_io d.
Proof. unfold ssif_error_record. by destruct (decide _). Qed.
Lemma error_record_msg e d : sd_msg (ssif_error_record e d) = sd_msg d.
Proof. unfold ssif_error_record. by destruct (decide _). Qed.
Lemma error_record_status e d : sd_status (ssif_error_record e d) = sd_status d.
Proof. unfold ssif_error_record. by destruct (decide _). Qed.

Lemma zlen_frame addr pec cmd bytes : zlen (ssif_frame addr pec cmd bytes) = 2 + zlen bytes + Z.b2z pec.
Proof. unfold ssif_frame. destruct pec; autorewrite with zlen; cbn [Z.b2z]; lia. Qed.

Lemma frame_head addr pec cmd bytes :
  ssif_frame addr pec cmd bytes = cmd :: zlen bytes :: (bytes ++ if pec then [crc8 (u8 (addr .<< 1) :: cmd :: zlen bytes :: bytes)] else []).
Proof. unfold ssif_frame. destruct pec; [done|by rewrite app_nil_r]. Qed.

Lemma frame_body addr pec cmd bytes tl :
  slice (ssif_frame addr pec cmd bytes ++ tl) 2 (zlen bytes) = bytes.
Proof.
  rewrite frame_head.
  change (?a :: ?b :: ?l) with ([a; b] ++ l). rewrite <- app_assoc.
  rewrite slice_app_r by done. rewrite <- app_assoc, slice_app_l by lia. by apply slice_all.
Qed.

Lemma pec_check_frame addr pec cmd bytes tl :
  ssif_pec_check crc8 addr (ssif_frame addr pec cmd bytes ++ tl) (zlen (ssif_frame addr pec cmd bytes))
    = Some (true, Z.b2z pec).
Proof.
  pose proof (zlen_nonneg bytes). pose proof (zlen_nonneg tl). unfold ssif_pec_check. rewrite zlen_frame.
  assert (rd (ssif_frame addr pec cmd bytes ++ tl) 1 = zlen bytes) as -> by (by rewrite frame_head).
  destruct (Z.ltb_spec (2 + zlen bytes + Z.b2z pec) 2); [destruct pec; cbn in *; lia|].
  destruct pec; cbn [Z.b2z].
  - destruct (Z.eqb_spec (2 + zlen bytes + 1 - zlen bytes - 2) 0); [lia|].
    set (f := cmd :: zlen bytes :: bytes). unfold ssif_frame. cbv zeta. fold f.
    assert (zlen f = 2 + zlen bytes) as Hf by (unfold f; autorewrite with zlen; lia).
    rewrite mem_read_Some by (autorewrite with zlen; lia). cbn [mbind option_bind].
    rewrite <- app_assoc. rewrite slice_app_l by lia. rewrite slice_all by lia.
    assert (rd (f ++ [crc8 (u8 (addr .<< 1) :: f)] ++ tl) (2 + zlen bytes + 1 - 1)
            = crc8 (u8 (addr .<< 1) :: f)) as ->.
    { unfold rd. rewrite lookup_app_r by (unfold zlen in *; lia).
      replace (Z.to_nat _ - length f)%nat with O by (unfold zlen in *; lia). done. }
    by rewrite Z.eqb_refl.
  - by destruct (Z.eqb_spec (2 + zlen bytes + 0 - zlen bytes - 2) 0); [|lia].
Qed.
End receive.

Section assemble.
Context (crc8 : list Z -> Z).
Abbreviation frame := (ssif_frame crc8).

Definition is_start (c : Z) : Prop := c = SSIF_WR_SINGLE \/ c = SSIF_WR_MULTI_START.
Definition is_more (c : Z) : Prop := c = SSIF_WR_MULTI_MIDDLE \/ c = SSIF_WR_MULTI_END.
Definition may_start (d : ssif_dev) : Prop :=
  sd_status d = SSIF_STATUS_WAIT_FOR_WR_START \/ sd_status d = SSIF_STATUS_WAIT_FOR_RD_START.

(** The status while a message of command [c] is handled. *)
Definition busy_status (c : Z) : ssif_status :=
  if c =? SSIF_WR_SINGLE then SSIF_STATUS_WR_SINGLE_START
  else if c =? SSIF_WR_MULTI_START then SSIF_STATUS_WR_MULTI_START
  else if c =? SSIF_WR_MULTI_MIDDLE then SSIF_STATUS_WR_MIDDLE else SSIF_STATUS_WR_END.

(** The bytes of [i2c_target_read] in the thread's array. *)
Definition in_rdata (f : list Z) : list Z := f ++ zeros (SSIF_BUFF_SIZE - zlen f).

Lemma receive_frame c pec bytes d :
  (is_start c /\ may_start d) \/ (is_more c /\ sd_status d = SSIF_STATUS_WAIT_FOR_WR_NEXT) ->
  ssif_receive crc8 0 (frame (sd_addr d) pec c bytes) d =
    let f := frame (sd_addr d) pec c bytes in
    let d := ssif_state_machine (busy_status c) d in
    if (c =? SSIF_WR_SINGLE) || (c =? SSIF_WR_MULTI_START)
    then ssif_write_start c (Z.b2z pec) (zlen f) (in_rdata f) d
    else ssif_write_more c (Z.b2z pec) (zlen f) (in_rdata f) d.
Proof.
  intros Hc. unfold ssif_receive. cbv zeta. fold (in_rdata (frame (sd_addr d) pec c bytes)).
  rewrite Z.eqb_refl. cbn [negb].
  destruct (Z.eqb_spec (zlen (frame (sd_addr d) pec c bytes)) 0) as [Hz|_].
  { rewrite zlen_frame in Hz. pose proof (zlen_nonneg bytes). destruct pec; cbn in Hz; lia. }
  assert (rd (in_rdata (frame (sd_addr d) pec c bytes)) 0 = c) as ->
    by (unfold in_rdata; rewrite frame_head; done).
  assert (ssif_data_pre_handle c d = (ssif_state_machine (busy_status c) d, true)) as ->.
  { unfold ssif_data_pre_handle, ssif_status_check, may_start in *.
    destruct Hc as [[[-> | ->] [-> | ->]]|[[-> | ->] ->]]; reflexivity. }
  cbn [negb]. unfold in_rdata. cbn [sd_addr ssif_state_machine].
  rewrite pec_check_frame. cbn [mbind option_bind negb].
  by destruct Hc as [[[-> | ->] _]|[[-> | ->] _]].
Qed.

Lemma in_rdata_len addr pec c bytes : rd (in_rdata (frame addr pec c bytes)) 1 = zlen bytes.
Proof. unfold in_rdata. by rewrite frame_head. Qed.

Lemma zlen_in_rdata addr pec c bytes :
  zlen bytes <= SSIF_MAX_IPMI_DATA_SIZE -> zlen (in_rdata (frame addr pec c bytes)) = SSIF_BUFF_SIZE.
Proof.
  intros Hb. unfold in_rdata. pose proof (zlen_frame crc8 addr pec c bytes).
  unfold SSIF_MAX_IPMI_DATA_SIZE, SSIF_BUFF_SIZE in *.
  rewrite zlen_app, zlen_zeros; [lia|]. destruct pec; cbn in *; lia.
Qed.

Lemma length_check pec (bytes : list Z) :
  0 <= zlen bytes <= SSIF_MAX_IPMI_DATA_SIZE ->
  (33 <? 2 + zlen bytes + Z.b2z pec - 1 - Z.b2z pec) = false /\
  (zlen bytes =? 2 + zlen bytes + Z.b2z pec - 2 - Z.b2z pec) = true.
Proof. unfold SSIF_MAX_IPMI_DATA_SIZE. intros. split; [apply Z.ltb_ge; lia|apply Z.eqb_eq; lia]. Qed.

(** The data of the first message goes to the start of the request's. *)
Lemma data_copied r (data : list Z) m :
  4 + zlen data <= zlen r -> slice r 4 (zlen data) = data -> zlen data <= IPMI_MSG_MAX_LENGTH ->
  zlen (im_data m) = IPMI_MSG_MAX_LENGTH -> bytes_ok data -> bytes_ok (im_data m) ->
  exists arr, (if negb (zlen data =? 0) then
      src ← mem_read r 4 (zlen data); arr ← mem_write (im_data m) 0 src; Some (set_im_data arr m)
    else Some m) = Some (set_im_data arr m) /\
    slice arr 0 (zlen data) = data /\ zlen arr = IPMI_MSG_MAX_LENGTH /\ bytes_ok arr.
Proof.
  intros Hr Rd Hd Hs Bd Bm. pose proof (zlen_nonneg data).
  destruct (Z.eqb_spec (zlen data) 0) as [E0|E0]; cbn [negb].
  - exists (im_data m). split; [by destruct m|]. split; [|done]. rewrite E0.
    destruct data; [done|]. rewrite zlen_cons in E0. pose proof (zlen_nonneg data). lia.
  - rewrite mem_read_Some by lia. rewrite Rd. cbn [mbind option_bind].
    destruct (mem_write_Some (im_data m) 0 data) as [arr Ea]; [lia|lia|]. rewrite Ea.
    exists arr. split; [done|]. split; [by apply mem_write_prefix in Ea|].
    split; [by rewrite (mem_write_length _ _ _ _ Ea)|by eapply bytes_ok_mem_write].
Qed.

Lemma in_rdata_data addr pec c b cmd data :
  zlen data <= 30 -> slice (in_rdata (frame addr pec c (b :: cmd :: data))) 4 (zlen data) = data.
Proof.
  intros Hd. pose proof (zlen_nonneg data). set (bytes := b :: cmd :: data).
  assert (zlen bytes = 2 + zlen data) as Hb by (unfold bytes; autorewrite with zlen; lia).
  pose proof (frame_body crc8 addr pec c bytes (zeros (SSIF_BUFF_SIZE - zlen (frame addr pec c bytes)))) as Hf.
  fold (in_rdata (frame addr pec c bytes)) in Hf.
  rewrite Hb, slice_split in Hf by lia. apply (app_inj_1 _ [b; cmd]) in Hf as [_ Hf]; [done|].
  apply Nat2Z.inj. apply (zlen_slice (in_rdata (frame addr pec c bytes)) 2 2); try lia.
  rewrite zlen_in_rdata; unfold SSIF_MAX_IPMI_DATA_SIZE, SSIF_BUFF_SIZE; lia.
Qed.

Lemma receive_start_ok c pec b cmd data d :
  is_start c -> may_start d -> zlen data <= 30 -> zlen (im_data (sd_msg d)) = IPMI_MSG_MAX_LENGTH ->
  bytes_ok data -> bytes_ok (im_data (sd_msg d)) ->
  exists d', ssif_receive crc8 0 (frame (sd_addr d) pec c (b :: cmd :: data)) d =
      Some (d', if c =? SSIF_WR_MULTI_START then ReadNext else SendIpmi) /\
    holds_request b cmd data d' /\ chan_io d' = chan_io d /\
    sd_status d' = if c =? SSIF_WR_MULTI_START then SSIF_STATUS_WAIT_FOR_WR_NEXT
                   else SSIF_STATUS_WR_SINGLE_START.
Proof.
  intros Hc Hm Hd Hs Bd Bm. pose proof (zlen_nonneg data) as Hn. rewrite receive_frame by auto. cbv zeta.
  assert ((c =? SSIF_WR_SINGLE) || (c =? SSIF_WR_MULTI_START) = true) as -> by (destruct Hc as [-> | ->]; done).
  assert (zlen (b :: cmd :: data) = 2 + zlen data) as Hb by (autorewrite with zlen; lia).
  assert (zlen (b :: cmd :: data) <= SSIF_MAX_IPMI_DATA_SIZE) as Hb32 by (unfold SSIF_MAX_IPMI_DATA_SIZE; lia).
  pose proof (in_rdata_data (sd_addr d) pec c b cmd data Hd) as Rd.
  pose proof (zlen_in_rdata (sd_addr d) pec c _ Hb32) as Rl.
  pose proof (in_rdata_len (sd_addr d) pec c (b :: cmd :: data)) as R1.
  unfold ssif_write_start. rewrite R1, zlen_frame.
  destruct (length_check pec (b :: cmd :: data)) as [-> ->]; [lia|]. cbn [negb].
  assert (forall i, 2 <= i < 4 -> rd (in_rdata (frame (sd_addr d) pec c (b :: cmd :: data))) i
            = if i =? 2 then b else cmd) as R2.
  { intros i Hi. unfold in_rdata. rewrite frame_head.
    assert (i = 2 \/ i = 3) as [-> | ->] by lia; done. }
  rewrite !R2, Hb by lia. replace (2 + zlen data - 2) with (zlen data) by lia. rewrite u16_id by lia.
  cbn [Z.eqb Pos.eqb sd_msg ssif_state_machine sd_index].
  match goal with |- context [set_im_data_len ?n ?m'] => set (m := set_im_data_len n m') end.
  destruct (data_copied (in_rdata (frame (sd_addr d) pec c (b :: cmd :: data))) data m) as (arr & -> & Ea & El & Eb);
    try done; [unfold SSIF_BUFF_SIZE in *; lia|unfold IPMI_MSG_MAX_LENGTH, IPMI_DATA_MAX_LENGTH, IPMB_RESP_HEADER_LENGTH; lia|].
  destruct Hc as [-> | ->]; cbn [mbind option_bind Z.eqb Pos.eqb SSIF_WR_SINGLE SSIF_WR_MULTI_START];
    eexists; (split; [done|]); (split; [by split|done]).
Qed.

(** A middle or an end adds its bytes to the request. *)
Lemma receive_more_ok c pec b cmd data bytes d :
  is_more c -> sd_status d = SSIF_STATUS_WAIT_FOR_WR_NEXT -> holds_request b cmd data d -> data <> [] ->
  zlen bytes <= SSIF_MAX_IPMI_DATA_SIZE -> (c = SSIF_WR_MULTI_MIDDLE -> zlen bytes = SSIF_MAX_IPMI_DATA_SIZE) ->
  zlen data + zlen bytes <= IPMI_MSG_MAX_LENGTH -> bytes_ok bytes ->
  exists d', ssif_receive crc8 0 (frame (sd_addr d) pec c bytes) d =
      Some (d', if c =? SSIF_WR_MULTI_MIDDLE then ReadNext else SendIpmi) /\
    holds_request b cmd (data ++ bytes) d' /\ chan_io d' = chan_io d /\
    sd_status d' = if c =? SSIF_WR_MULTI_MIDDLE then SSIF_STATUS_WAIT_FOR_WR_NEXT else SSIF_STATUS_WR_END.
Proof.
  intros Hc Hst [Hr1 Hr2 Hr3 Hr4 Hr5 Hr6 Hr7] Hne Hb Hmid Hmax Bb. pose proof (zlen_nonneg bytes) as Hn.
  rewrite receive_frame by auto. cbv zeta.
  assert ((c =? SSIF_WR_SINGLE) || (c =? SSIF_WR_MULTI_START) = false) as -> by (destruct Hc as [-> | ->]; done).
  pose proof (in_rdata_len (sd_addr d) pec c bytes) as R1.
  pose proof (frame_body crc8 (sd_addr d) pec c bytes (zeros (SSIF_BUFF_SIZE - zlen (frame (sd_addr d) pec c bytes)))) as Rd.
  fold (in_rdata (frame (sd_addr d) pec c bytes)) in Rd.
  pose proof (zlen_in_rdata (sd_addr d) pec c bytes Hb) as Rl.
  unfold ssif_write_more. rewrite R1, zlen_frame. destruct (length_check pec bytes) as [-> ->]; [lia|]. cbn [negb].
  assert ((c =? SSIF_WR_MULTI_MIDDLE) && negb (zlen bytes =? SSIF_MAX_IPMI_DATA_SIZE) = false) as ->.
  { destruct Hc as [-> | ->]; [|done]. by rewrite Hmid. }
  cbn [sd_msg ssif_state_machine]. rewrite Hr4.
  assert (0 < zlen data) as Hd by (destruct data; [done|rewrite zlen_cons; pose proof (zlen_nonneg data); lia]).
  destruct (Z.eqb_spec (zlen data) 0); [lia|].
  rewrite mem_read_Some by (unfold SSIF_BUFF_SIZE, SSIF_MAX_IPMI_DATA_SIZE in *; lia). rewrite Rd.
  cbn [mbind option_bind].
  destruct (mem_write_Some (im_data (sd_msg d)) (zlen data) bytes) as [arr Ea]; [lia|lia|]. rewrite Ea.
  cbn [mbind option_bind]. pose proof (mem_write_length _ _ _ _ Ea) as Hl.
  pose proof (bytes_ok_mem_write _ _ _ _ Ea Hr7 Bb) as Hb7. apply mem_write_prefix in Ea.
  rewrite Hr5 in Ea. unfold IPMI_MSG_MAX_LENGTH, IPMI_DATA_MAX_LENGTH, IPMB_RESP_HEADER_LENGTH in *.
  rewrite u16_id by lia.
  destruct Hc as [-> | ->]; cbn [Z.eqb Pos.eqb SSIF_WR_MULTI_MIDDLE SSIF_WR_MULTI_END];
    eexists; (split; [done|]); 
    (split; [split; [exact Hr1|exact Hr2|exact Hr3|symmetry; apply zlen_app|rewrite zlen_app; exact Ea|exact (eq_trans Hl Hr6)|exact Hb7]|done]).
Qed.
End assemble.

(** ** A whole request *)

Section request.
Context (crc8 : list Z -> Z) (E : ssif_env).

Lemma chan_io_addr d d' : chan_io d' = chan_io d -> sd_addr d' = sd_addr d /\ sd_index d' = sd_index d.
Proof. unfold chan_io. intros H. split; congruence. Qed.

Lemma read_turn_ok f d d' next :
  ssif_receive crc8 0 f d = Some (d', next) -> next <> ColdReset ->
  ssif_read_turn crc8 E 0 f d = Some (d', next).
Proof. intros Hr Hn. unfold ssif_read_turn. rewrite Hr. by destruct next. Qed.

Lemma receive_rest pec b cmd fuel data bytes d :
  (length bytes < fuel)%nat -> sd_status d = SSIF_STATUS_WAIT_FOR_WR_NEXT ->
  holds_request b cmd data d -> data <> [] -> zlen data + zlen bytes <= IPMI_MSG_MAX_LENGTH ->
  bytes_ok bytes ->
  exists d' n, ssif_receive_all crc8 E (ssif_rest_frames crc8 fuel (sd_addr d) pec bytes) d =
      Some (d', replicate n ReadNext ++ [SendIpmi]) /\
    holds_request b cmd (data ++ bytes) d' /\ chan_io d' = chan_io d.
Proof.
  revert data bytes d. induction fuel as [|fuel IH]; intros data bytes d Hf Hst Hr Hne Hmax Bb; [lia|].
  cbn [ssif_rest_frames]. destruct (Z.leb_spec (zlen bytes) SSIF_MAX_IPMI_DATA_SIZE) as [Hb|Hb].
  - destruct (receive_more_ok crc8 SSIF_WR_MULTI_END pec b cmd data bytes d) as (d' & Er & Hr' & Hio & _);
      try done; [by right|].
    exists d', 0%nat. cbn [ssif_receive_all]. rewrite (read_turn_ok _ _ _ _ Er) by done. done.
  - assert (zlen (take 32 bytes) = 32) as Ht
      by (unfold zlen, SSIF_MAX_IPMI_DATA_SIZE in *; rewrite length_take; lia).
    pose proof (zlen_nonneg (drop 32 bytes)).
    assert (zlen bytes = 32 + zlen (drop 32 bytes)) as Hs
      by (rewrite <- (take_drop 32 bytes) at 1; rewrite zlen_app; lia).
    destruct (receive_more_ok crc8 SSIF_WR_MULTI_MIDDLE pec b cmd data (take 32 bytes) d)
      as (d1 & Er & Hr1 & Hio1 & Hst1); try done; [by left|by rewrite Ht|lia|by apply Forall_take|].
    destruct (chan_io_addr _ _ Hio1) as [Ha _].
    destruct (IH (data ++ take 32 bytes) (drop 32 bytes) d1) as (d' & n & Ea & Hr' & Hio); try done.
    + rewrite length_drop. unfold zlen, SSIF_MAX_IPMI_DATA_SIZE in *. lia.
    + by destruct data.
    + rewrite zlen_app. lia.
    + by apply Forall_drop.
    + exists d', (S n). cbn [ssif_receive_all replicate app].
      rewrite (read_turn_ok _ _ _ _ Er) by done. cbn [mbind option_bind]. rewrite <- Ha, Ea.
      split; [done|]. split; [|congruence]. by rewrite <- app_assoc, take_drop in Hr'.
Qed.

(** Whatever its length, the request arrives as the host sent it, and goes out after its last
    message only. *)
Lemma request_assembled pec b cmd data d :
  may_start d -> zlen (im_data (sd_msg d)) = IPMI_MSG_MAX_LENGTH -> bytes_ok (im_data (sd_msg d)) ->
  zlen data <= IPMI_MSG_MAX_LENGTH -> bytes_ok data ->
  exists d' n, ssif_receive_all crc8 E (ssif_request_frames crc8 (sd_addr d) pec b cmd data) d =
      Some (d', replicate n ReadNext ++ [SendIpmi]) /\
    holds_request b cmd data d' /\ chan_io d' = chan_io d.
Proof.
  intros Hm Hs Bm Hmax Bd. unfold ssif_request_frames. cbv zeta.
  destruct (Z.leb_spec (zlen (b :: cmd :: data)) SSIF_MAX_IPMI_DATA_SIZE) as [Hb|Hb];
    autorewrite with zlen in Hb; unfold SSIF_MAX_IPMI_DATA_SIZE in Hb.
  - destruct (receive_start_ok crc8 SSIF_WR_SINGLE pec b cmd data d) as (d' & Er & Hr & Hio & _);
      try done; [by left|lia|].
    exists d', 0%nat. cbn [ssif_receive_all]. rewrite (read_turn_ok _ _ _ _ Er) by done. done.
  - assert (take 32 (b :: cmd :: data) = b :: cmd :: take 30 data) as -> by done.
    assert (zlen (take 30 data) = 30) as Ht by (unfold zlen in *; rewrite length_take; lia).
    destruct (receive_start_ok crc8 SSIF_WR_MULTI_START pec b cmd (take 30 data) d)
      as (d1 & Er & Hr1 & Hio1 & Hst1); try done; [by right|lia|by apply Forall_take|].
    destruct (chan_io_addr _ _ Hio1) as [Ha _].
    destruct (receive_rest pec b cmd (length (b :: cmd :: data)) (take 30 data) (drop 30 data) d1)
      as (d' & n & Ea & Hr' & Hio); try done.
    + cbn [length]. rewrite length_drop. lia.
    + intros E0. by rewrite E0 in Ht.
    + rewrite <- zlen_app, take_drop. done.
    + by apply Forall_drop.
    + exists d', (S n). cbn [ssif_receive_all replicate app].
      rewrite (read_turn_ok _ _ _ _ Er) by done. cbn [mbind option_bind].
      change (drop 32 (b :: cmd :: data)) with (drop 30 data).
      rewrite <- Ha, Ea. split; [done|]. split; [|congruence]. by rewrite take_drop in Hr'.
Qed.
End request.

(** ** The address while a request is served *)

Section lock.
Context (crc8 : list Z -> Z).

(** The channel with its address taken off the bus. *)
Definition dropped (l : bool) (e h : Z) (d : ssif_dev) : ssif_dev :=
  set_sd_hw_addr h (set_sd_exp e (set_sd_lock l d)).

Lemma error_record_dropped l e h err d :
  ssif_error_record err (dropped l e h d) = dropped l e h (ssif_error_record err d).
Proof. unfold ssif_error_record. by destruct (decide _). Qed.

Lemma status_check_dropped l e h c d :
  ssif_status_check c (dropped l e h d) = let '(d, ok) := ssif_status_check c d in (dropped l e h d, ok).
Proof.
  unfold ssif_status_check. rewrite !error_record_dropped. cbn [sd_status dropped set_sd_hw_addr set_sd_exp set_sd_lock].
  repeat match goal with |- context [if ?b then _ else _] => destruct b end; reflexivity.
Qed.

Lemma pre_handle_dropped l e h c d :
  ssif_data_pre_handle c (dropped l e h d) = let '(d, ok) := ssif_data_pre_handle c d in (dropped l e h d, ok).
Proof.
  unfold ssif_data_pre_handle. rewrite error_record_dropped, status_check_dropped. by destruct (_ || _).
Qed.

Lemma write_start_dropped l e h c pec n r d d' next :
  ssif_write_start c pec n r d = Some (d', next) ->
  ssif_write_start c pec n r (dropped l e h d) = Some (dropped l e h d', next).
Proof.
  unfold ssif_write_start. rewrite error_record_dropped. cbv zeta.
  cbn [sd_index sd_msg dropped set_sd_hw_addr set_sd_exp set_sd_lock].
  destruct (33 <? _); [by intros [= <- <-]|]. destruct (negb (rd r 1 =? _)); [by intros [= <- <-]|].
  destruct (if negb (u16 (rd r 1 - 2) =? 0) then _ else _) as [m|]; cbn [mbind option_bind]; [|done].
  destruct (c =? SSIF_WR_MULTI_START); by intros [= <- <-].
Qed.

Lemma write_more_dropped l e h c pec n r d d' next :
  ssif_write_more c pec n r d = Some (d', next) ->
  ssif_write_more c pec n r (dropped l e h d) = Some (dropped l e h d', next).
Proof.
  unfold ssif_write_more. rewrite !error_record_dropped. cbv zeta.
  cbn [sd_index sd_msg dropped set_sd_hw_addr set_sd_exp set_sd_lock].
  destruct (33 <? _); [by intros [= <- <-]|]. destruct (negb (rd r 1 =? _)); [by intros [= <- <-]|].
  destruct (_ && _); [by intros [= <- <-]|]. destruct (im_data_len (sd_msg d) =? 0); [by intros [= <- <-]|].
  destruct (mem_read _ _ _) as [src|]; cbn [mbind option_bind]; [|done].
  destruct (mem_write _ _ _) as [arr|]; cbn [mbind option_bind]; [|done].
  destruct (c =? SSIF_WR_MULTI_MIDDLE); by intros [= <- <-].
Qed.

Lemma write_start_io c pec n r d d' next :
  ssif_write_start c pec n r d = Some (d', next) -> chan_io d' = chan_io d.
Proof.
  unfold ssif_write_start. cbv zeta.
  destruct (33 <? _); [intros [= <- _]; apply error_record_io|].
  destruct (negb (rd r 1 =? _)); [intros [= <- _]; apply error_record_io|].
  destruct (if negb (u16 (rd r 1 - 2) =? 0) then _ else _) as [m|]; cbn [mbind option_bind]; [|done].
  destruct (c =? SSIF_WR_MULTI_START); by intros [= <- _].
Qed.

Lemma write_more_io c pec n r d d' next :
  ssif_write_more c pec n r d = Some (d', next) -> chan_io d' = chan_io d.
Proof.
  unfold ssif_write_more. cbv zeta.
  destruct (33 <? _); [intros [= <- _]; apply error_record_io|].
  destruct (negb (rd r 1 =? _)); [intros [= <- _]; apply error_record_io|].
  destruct (_ && _); [intros [= <- _]; apply error_record_io|].
  destruct (im_data_len (sd_msg d) =? 0); [intros [= <- _]; apply error_record_io|].
  destruct (mem_read _ _ _) as [src|]; cbn [mbind option_bind]; [|done].
  destruct (mem_write _ _ _) as [arr|]; cbn [mbind option_bind]; [|done].
  destruct (c =? SSIF_WR_MULTI_MIDDLE); by intros [= <- _].
Qed.

Lemma pre_handle_io c d : chan_io (fst (ssif_data_pre_handle c d)) = chan_io d.
Proof.
  unfold ssif_data_pre_handle, ssif_status_check.
  repeat match goal with |- context [if ?b then _ else _] => destruct b end;
    cbn [fst]; rewrite ?error_record_io; done.
Qed.

Lemma receive_io rc f d d' next : ssif_receive crc8 rc f d = Some (d', next) -> chan_io d' = chan_io d.
Proof.
  unfold ssif_receive. cbv zeta.
  destruct (negb (rc =? 0)); [intros [= <- _]; apply error_record_io|].
  destruct (zlen f =? 0); [intros [= <- _]; apply error_record_io|].
  pose proof (pre_handle_io (rd (f ++ zeros (SSIF_BUFF_SIZE - zlen f)) 0) d) as Hp.
  destruct (ssif_data_pre_handle _ d) as [d1 ok]. cbn [fst] in Hp.
  destruct (negb ok); [by intros [= <- _]|].
  destruct (ssif_pec_check _ _ _ _) as [[ok1 pec]|]; cbn [mbind option_bind]; [|done].
  destruct (negb ok1); [intros [= <- _]; by rewrite error_record_io|].
  destruct (_ || _); [intros Hw; by rewrite (write_start_io _ _ _ _ _ _ _ Hw)|].
  destruct (_ || _); [intros Hw; by rewrite (write_more_io _ _ _ _ _ _ _ Hw)|].
  by intros [= <- _].
Qed.

(** The thread does not look at the address. *)
Lemma receive_dropped l e h rc f d d' next :
  ssif_receive crc8 rc f d = Some (d', next) ->
  ssif_receive crc8 rc f (dropped l e h d) = Some (dropped l e h d', next).
Proof.
  unfold ssif_receive. rewrite !error_record_dropped, pre_handle_dropped. cbv zeta.
  destruct (negb (rc =? 0)); [by intros [= <- <-]|]. destruct (zlen f =? 0); [by intros [= <- <-]|].
  destruct (ssif_data_pre_handle _ d) as [d1 ok]. destruct (negb ok); [by intros [= <- <-]|].
  change (sd_addr (dropped l e h d1)) with (sd_addr d1).
  destruct (ssif_pec_check _ _ _ _) as [[ok1 pec]|]; cbn [mbind option_bind]; [|done].
  rewrite error_record_dropped. destruct (negb ok1); [by intros [= <- <-]|].
  destruct (_ || _); [by apply write_start_dropped|]. destruct (_ || _); [by apply write_more_dropped|].
  by intros [= <- <-].
Qed.
End lock.

(** ** A block read by the host *)

Section block.
Context (crc8 : list Z -> Z) (rsp_pec : bool) (E : ssif_env).
Context {Q : Type} `{HT : target_msgq Q} `{HL : !target_msgq_laws Q}.
Implicit Types tgts : list (i2c_target_device Q unit).

#[local] Instance ssif_at_target : target_client Q unit (list ssif_dev) := ssif_client crc8 rsp_pec E.

(** SSIF's function for written bytes changes its own state only. *)
#[export] Instance ssif_keeps_device : post_keeps_device (Q := Q) (F := unit) (C := list ssif_dev).
Proof. intros [] T k tgts c. by eexists. Qed.

(** The bytes on the bus for a block. *)
Definition block_bytes (d : ssif_dev) (smb_cmd : Z) (block : list Z) : list Z :=
  let out := zlen block :: block in
  if rsp_pec then out ++ [ssif_pec_get crc8 (sd_addr d) smb_cmd out] else out.

Lemma zlen_block_bytes d smb_cmd block : zlen (block_bytes d smb_cmd block) = 1 + zlen block + Z.b2z rsp_pec.
Proof. unfold block_bytes. destruct rsp_pec; autorewrite with zlen; cbn [Z.b2z]; lia. Qed.

Definition clocks : nat := 35.

Lemma collect_ok T k smb_cmd tgts d block next d1 :
  bus_ok T k -> 0 <= k < MAX_TARGET_NUM -> dev_is_init (dev_at tgts k) = true ->
  zlen (msg_array (td_rd_msg (data_at tgts k))) = MAX_I2C_TARGET_BUFF ->
  sd_rsp_buf_len d <> 0 -> ssif_rd_block smb_cmd d = Some (Some (block, next, d1)) ->
  sd_i2c_bus d1 = k -> zlen block <= SSIF_MAX_IPMI_DATA_SIZE ->
  exists arr, ssif_collect crc8 rsp_pec T smb_cmd tgts d =
      Some (upd_data k (set_rd_msg (mk_pkg (zlen (block_bytes d1 smb_cmd block)) arr)) tgts,
            ssif_state_machine next d1, true) /\
    zlen arr = MAX_I2C_TARGET_BUFF /\
    slice arr 0 (zlen (block_bytes d1 smb_cmd block)) = block_bytes d1 smb_cmd block.
Proof.
  intros B Hk Hi Hrd Hl Eb Hbus Hn. unfold ssif_collect. apply Z.eqb_neq in Hl as ->. rewrite Eb.
  cbn [mbind option_bind]. pose proof (zlen_nonneg block). unfold SSIF_MAX_IPMI_DATA_SIZE in Hn.
  rewrite u8_id by lia. cbv zeta. fold (block_bytes d1 smb_cmd block).
  pose proof (zlen_block_bytes d1 smb_cmd block) as Hz.
  assert (0 <= Z.b2z rsp_pec <= 1) as Hp by (destruct rsp_pec; cbn; lia).
  destruct (mem_write_Some (zeros SSIF_BUFF_SIZE) 0 (block_bytes d1 smb_cmd block)) as [wdata Ew];
    [lia|rewrite zlen_zeros; unfold SSIF_BUFF_SIZE; lia|].
  rewrite Ew. cbn [mbind option_bind]. rewrite Hbus.
  pose proof (mem_write_length _ _ _ _ Ew) as Hw. rewrite zlen_zeros in Hw by (unfold SSIF_BUFF_SIZE; lia).
  apply mem_write_prefix in Ew. cbn [app] in Ew.
  destruct (target_write_stores T k tgts wdata (zlen (block_bytes d1 smb_cmd block))) as (arr & Et & La & Sa);
    try done; [unfold SSIF_BUFF_SIZE in *; lia|unfold MAX_I2C_TARGET_BUFF; lia|].
  rewrite Et. cbn [mbind option_bind]. rewrite Z.eqb_refl. cbn [negb]. exists arr. split; [done|].
  split; [done|]. rewrite Sa. rewrite Z.add_0_l in Ew. exact Ew.
Qed.

(** Is the device on the bus, and what is in its queue. *)
Definition on_bus (k : Z) tgts : bool * Q := (dev_is_register (dev_at tgts k), td_msgq (data_at tgts k)).

Definition is_read (c : Z) : Prop := c = SSIF_RD_START \/ c = SSIF_RD_NEXT.

(** The bytes the host gets: the block, and nothing after it. *)
Definition host_gets (out : list Z) : list (option Z) :=
  take clocks ((Some <$> out) ++ replicate clocks None).

(** After the first byte: the master clocks the rest, and the command is not queued. *)
Lemma send_rest T k out arr tgts :
  0 <= k < zlen tgts -> td_wr_idx (data_at tgts k) <> 0 ->
  td_rd_msg (data_at tgts k) = mk_pkg (zlen out) arr ->
  0 < zlen out <= MAX_I2C_TARGET_BUFF -> zlen arr = MAX_I2C_TARGET_BUFF -> slice arr 0 (zlen out) = out ->
  (let '(tgts, rest) := target_send k (clocks - 1) (upd_data k (fun t => set_rd_idx 1 (set_skip true t)) tgts) in
   let '(tgts, _, _) := i2c_target_stop false T k tgts in (tgts, Some (rd arr 0) :: rest)) =
  (upd_data k (fun t => set_wr_idx 0 (set_rd_idx 0 (set_skip true t))) tgts, host_gets out).
Proof.
  intros Hk Hw Hm Ho Ha Hs.
  destruct (target_send_spec k (clocks - 1) (upd_data k (fun t => set_rd_idx 1 (set_skip true t)) tgts) 1)
    as [j ->]; at_dev; cbn [td_rd_idx set_rd_idx td_rd_msg set_skip]; rewrite ?Hm; cbn [msg_length msg_array];
    try done; try (autorewrite with zlen; done); try lia.
  unfold i2c_target_stop, target_queue_written. at_dev. cbn [td_wr_idx set_rd_idx set_skip td_skip].
  apply Z.eqb_neq in Hw as ->. at_dev. f_equal.
  unfold host_gets, pkg_bytes. cbn [msg_array msg_length]. rewrite Hs.
  destruct out as [|o out]; [exfalso; by destruct Ho|].
  assert (rd arr 0 = o) as ->.
  { unfold slice in Hs. change (Z.to_nat 0) with O in Hs. rewrite drop_0 in Hs. unfold rd.
    destruct arr as [|a arr]; [by rewrite take_nil in Hs|]. rewrite zlen_cons in Hs.
    pose proof (zlen_nonneg out). replace (Z.to_nat (1 + zlen out)) with (S (length out)) in Hs by (unfold zlen; lia).
    cbn [take] in Hs. by injection Hs as -> _. }
  change (Z.to_nat 1) with 1%nat. rewrite skipn_cons, drop_0. cbn [fmap list_fmap app]. unfold clocks.
  change (35 - 1)%nat with 34%nat. cbn [take]. f_equal. rewrite !take_app, !take_replicate. f_equal. f_equal.
  lia.
Qed.

(** The command of a read: nothing is locked, and SSIF gets it when the read starts. *)
Lemma command_written T k smb_cmd tgts d :
  0 <= k < zlen tgts -> td_post (data_at tgts k) = Some tt -> is_read smb_cmd ->
  target_receive T k [smb_cmd] (i2c_target_write_requested k tgts) [d]
    = Some (written k [smb_cmd] tgts, [d]).
Proof.
  intros Hk Hpost Hc. pose proof (data_written k [smb_cmd] tgts Hk) as Ed.
  cbn [target_receive]. rewrite write_received_eq. cbv zeta.
  assert (data_at (i2c_target_write_requested k tgts) k = set_skip false (set_wr_idx 0 (set_wr_msg zero_pkg
    (set_req_address (td_address (data_at tgts k) .& 0xFF) (data_at tgts k))))) as ->
    by (unfold i2c_target_write_requested; by at_dev).
  cbn [td_wr_idx set_skip set_wr_idx td_post set_wr_msg set_req_address]. rewrite Hpost.
  change (MAX_I2C_TARGET_BUFF <=? 0) with false. cbn [on_post ssif_at_target ssif_client].
  change (upd_data k (recv_byte smb_cmd) (i2c_target_write_requested k tgts)) with (written k [smb_cmd] tgts).
  unfold ssif_bus_drop. rewrite Ed. cbn [mbind option_bind].
  by destruct Hc as [-> | ->].
Qed.

Lemma command_collected T k smb_cmd tgts d tg d' :
  target_wf k tgts -> sd_i2c_bus d = k -> is_read smb_cmd ->
  ssif_collect_dev crc8 rsp_pec T smb_cmd (written k [smb_cmd] tgts) (alert_trigger 1 d)
    = Some (tg, d', false) ->
  on_collect tt T k (written k [smb_cmd] tgts) [d] = Some (tg, [d'], false).
Proof.
  intros W Hbus Hc Hcd. pose proof (data_written k [smb_cmd] tgts (tw_k _ _ W)) as Ed.
  cbn [on_collect ssif_at_target ssif_client]. unfold ssif_write_data, ssif_collect_data. rewrite Ed.
  assert (rd (msg_array (td_wr_msg (set_wr_idx (msg_length (written_pkg [smb_cmd]))
    (set_wr_msg (mk_pkg 0 (msg_array (written_pkg [smb_cmd]))) (set_skip false
      (set_req_address (td_address (data_at tgts k) .& 255) (data_at tgts k))))))) 0 = smb_cmd) as -> by done.
  change (td_wr_idx _ =? 1) with true.
  assert (negb ((smb_cmd =? SSIF_RD_START) || (smb_cmd =? SSIF_RD_NEXT) || (smb_cmd =? SSIF_RD_RETRY)) = false) as ->
    by (by destruct Hc as [-> | ->]).
  unfold ssif_inst_get_by_bus. cbn [ssif_inst_find fmap list_fmap td_bus set_wr_idx set_wr_msg set_skip set_req_address].
  rewrite (tw_bus _ _ W). cbn [sd_i2c_bus alert_trigger]. rewrite Hbus, Z.eqb_refl.
  change ([alert_trigger 1 d] !! Z.to_nat 0) with (Some (alert_trigger 1 d)).
  cbn [mbind option_bind]. by rewrite Hcd.
Qed.

(** A read command as a transfer, when [ssif_collect_dev] has a block for it. *)
Lemma read_transfer_ok T k smb_cmd tgts d out arr d' :
  bus_ok T k -> target_wf k tgts -> td_post (data_at tgts k) = Some tt ->
  td_collect (data_at tgts k) = Some tt -> sd_i2c_bus d = k -> is_read smb_cmd ->
  0 < zlen out <= MAX_I2C_TARGET_BUFF -> zlen arr = MAX_I2C_TARGET_BUFF -> slice arr 0 (zlen out) = out ->
  ssif_collect_dev crc8 rsp_pec T smb_cmd (written k [smb_cmd] tgts) (alert_trigger 1 d) =
    Some (upd_data k (set_rd_msg (mk_pkg (zlen out) arr)) (written k [smb_cmd] tgts), d', false) ->
  exists tgts', master_write_read T k [smb_cmd] clocks tgts [d] = Some (tgts', [d'], host_gets out) /\
    target_wf k tgts' /\ td_post (data_at tgts' k) = Some tt /\ td_collect (data_at tgts' k) = Some tt /\
    on_bus k tgts' = on_bus k tgts.
Proof.
  intros B W Hpost Hcoll Hbus Hc Ho Ha Hs Hcd. pose proof (tw_k _ _ W) as Hk.
  set (mid := written k [smb_cmd] tgts) in *.
  pose proof (data_written k [smb_cmd] tgts Hk) as Ed. fold mid in Ed.
  destruct (written_keeps k [smb_cmd] tgts Hk) as (Ki & Kr & Kl). fold mid in Ki, Kr, Kl.
  assert (0 <= k < zlen mid) as Hm by lia.
  pose proof (command_written T k smb_cmd tgts d Hk Hpost Hc) as Er. fold mid in Er.
  unfold master_write_read. rewrite Er. cbn [mbind option_bind].
  pose proof (command_collected T k smb_cmd tgts d _ d' W Hbus Hc Hcd) as Ec. fold mid in Ec.
  unfold i2c_target_read_requested. rewrite Ed. cbn [td_collect set_wr_idx set_wr_msg set_skip set_req_address].
  rewrite Hcoll, Ec. cbn [mbind option_bind].
  set (tg := upd_data k (set_rd_msg (mk_pkg (zlen out) arr)) mid).
  assert (0 <= k < zlen tg) as Hg by (unfold tg; autorewrite with zlen; lia).
  assert (data_at tg k = set_rd_msg (mk_pkg (zlen out) arr) (data_at mid k)) as Eg by (unfold tg; by at_dev).
  rewrite (data_at_upd k (set_skip true) tg Hg), Eg.
  cbn [td_rd_msg set_skip set_rd_msg msg_length msg_array]. destruct (Z.eqb_spec (zlen out) 0); [lia|].
  rewrite (upd_data_twice k (set_skip true) (set_rd_idx 1) tg Hg).
  pose proof (send_rest T k out arr tg Hg) as Hsr. rewrite Eg, Ed in Hsr.
  cbn [td_wr_idx set_rd_msg set_wr_idx msg_length written_pkg td_rd_msg] in Hsr.
  specialize (Hsr ltac:(done) eq_refl Ho Ha Hs). cbn [mbind option_bind].
  destruct (target_send k _ _) as [t1 r1], (i2c_target_stop false T k t1) as [[t2 ret] given]. injection Hsr as -> Hl.
  eexists. split; [rewrite <- Hl; reflexivity|]. unfold on_bus, tg. at_dev. rewrite Ed, Kr. cbn.
  split; [|done]. split; unfold tg; autorewrite with zlen; at_dev; rewrite ?Ed, ?Ki, ?Kr; try apply W; try done.
  destruct (tw_index _ _ W). split; [done|lia].
Qed.

(** The block a host takes from the bytes: a length and as many bytes. *)
Definition host_block (bs : list (option Z)) : option (list Z) :=
  match bs with
  | Some n :: rest => mapM (fun x => x) (take (Z.to_nat n) rest)
  | _ => None
  end.

Lemma host_block_gets d smb_cmd block :
  zlen block <= SSIF_MAX_IPMI_DATA_SIZE -> host_block (host_gets (block_bytes d smb_cmd block)) = Some block.
Proof.
  intros Hb. unfold SSIF_MAX_IPMI_DATA_SIZE, host_gets, block_bytes, clocks, zlen in *.
  assert (exists tl, (if rsp_pec then (zlen block :: block) ++ [ssif_pec_get crc8 (sd_addr d) smb_cmd (zlen block :: block)]
      else zlen block :: block) = zlen block :: block ++ tl) as [tl Et].
  { destruct rsp_pec; [by eexists|]. exists []. by rewrite app_nil_r. }
  unfold zlen in Et. rewrite Et. cbn [fmap list_fmap app]. change 35%nat with (S 34). cbn [take].
  unfold host_block. rewrite Nat2Z.id, take_take, Nat.min_l by lia.
  rewrite fmap_app, <- app_assoc, take_app_le by (rewrite length_fmap; lia).
  rewrite take_ge by (rewrite length_fmap; lia). clear. induction block as [|b l IH]; [done|].
  cbn [fmap list_fmap mapM mbind option_bind]. by rewrite IH.
Qed.

(** A channel and its target, between transfers. *)
Record ssif_ready (T : target_env) (k : Z) tgts (d : ssif_dev) : Prop := {
  sr_bus : bus_ok T k;
  sr_wf : target_wf k tgts;
  sr_post : td_post (data_at tgts k) = Some tt;
  sr_collect : td_collect (data_at tgts k) = Some tt;
  sr_index : sd_i2c_bus d = k }.

(** The channel after a block: a middle one, or the last. *)
Definition after_block (next : ssif_status) (d : ssif_dev) : ssif_dev :=
  if decide (next = SSIF_STATUS_WAIT_FOR_RD_NEXT) then ssif_state_machine next d
  else ssif_reset (ssif_error_record SSIF_STATUS_NO_ERR (ssif_state_machine next d)).

Lemma host_block_read T k smb_cmd tgts d d0 block next d1 :
  ssif_ready T k tgts d -> is_read smb_cmd ->
  ssif_status_check smb_cmd (alert_trigger 1 d) = (d0, true) ->
  ssif_rd_block smb_cmd d0 = Some (Some (block, next, d1)) -> sd_rsp_buf_len d0 <> 0 ->
  next = SSIF_STATUS_WAIT_FOR_RD_NEXT \/ next = SSIF_STATUS_WAIT_FOR_WR_START ->
  sd_i2c_bus d1 = k -> zlen block <= SSIF_MAX_IPMI_DATA_SIZE ->
  exists tgts' bs, master_write_read T k [smb_cmd] clocks tgts [d] = Some (tgts', [after_block next d1], bs) /\
    host_block bs = Some block /\ ssif_ready T k tgts' (after_block next d1) /\
    on_bus k tgts' = on_bus k tgts.
Proof.
  intros [B W P1 P2 Hbus] Hc Es Eb Hl Hn Hb1 Hz. pose proof (tw_k _ _ W) as Hk.
  destruct (written_keeps k [smb_cmd] tgts Hk) as (Ki & _ & _). destruct (tw_index _ _ W) as [Hk16 _].
  destruct (collect_ok T k smb_cmd (written k [smb_cmd] tgts) d0 block next d1) as (arr & Ec & La & Sa);
    try done; [by rewrite Ki, (tw_init _ _ W)|rewrite data_written by done; apply (tw_rd _ _ W)|].
  pose proof (zlen_block_bytes d1 smb_cmd block) as Hzo. pose proof (zlen_nonneg block).
  unfold SSIF_MAX_IPMI_DATA_SIZE in Hz.
  assert (0 <= Z.b2z rsp_pec <= 1) as Hp by (destruct rsp_pec; cbn; lia).
  destruct (read_transfer_ok T k smb_cmd tgts d (block_bytes d1 smb_cmd block) arr (after_block next d1))
    as (tgts' & Er & W' & P1' & P2' & R'); try done; [unfold MAX_I2C_TARGET_BUFF; lia| |].
  - unfold ssif_collect_dev. assert (smb_cmd =? SSIF_RD_RETRY = false) as -> by (by destruct Hc as [-> | ->]).
    rewrite Es. cbn [negb]. rewrite Ec. cbn [mbind option_bind negb sd_status ssif_state_machine].
    unfold after_block. by destruct Hn as [-> | ->].
  - exists tgts', (host_gets (block_bytes d1 smb_cmd block)). split; [done|].
    split; [by apply host_block_gets|]. split; [|done]. split; try done.
    unfold after_block. by destruct Hn as [-> | ->].
Qed.

(** The host's side of a response: the first block, and the numbered ones that follow the special
    bytes 00h 01h, up to the one numbered FFh. *)
Fixpoint host_read_rest (fuel : nat) (T : target_env) (k blck : Z) tgts (devs : list ssif_dev) (acc : list Z)
    : option (list (i2c_target_device Q unit) * list ssif_dev * list Z) :=
  match fuel with
  | O => None
  | S fuel =>
      '(tgts, devs, bs) ← master_write_read T k [SSIF_RD_NEXT] clocks tgts devs;
      block ← host_block bs;
      match block with
      | [] => None
      | n :: data =>
          if n =? 0xFF then Some (tgts, devs, acc ++ data)
          else if n =? blck then host_read_rest fuel T k (blck + 1) tgts devs (acc ++ data)
          else None
      end
  end.

Definition host_read (T : target_env) (k : Z) tgts (devs : list ssif_dev)
    : option (list (i2c_target_device Q unit) * list ssif_dev * list Z) :=
  '(tgts, devs, bs) ← master_write_read T k [SSIF_RD_START] clocks tgts devs;
  block ← host_block bs;
  if bool_decide (take 2 block = [0x00; 0x01]) then host_read_rest 17 T k 0 tgts devs (drop 2 block)
  else Some (tgts, devs, block).

(** What a read does not change. *)
Definition rsp_of (d : ssif_dev) := (sd_rsp_buff d, sd_rsp_buf_len d, sd_index d, sd_i2c_bus d, sd_addr d,
  sd_mutex d, sd_sem d, sd_sem_limit d, sd_addr_lock d, sd_hw_addr d).

Lemma slice_join l i n m : 0 <= i -> 0 <= n -> 0 <= m -> slice l i n ++ slice l (i + n) m = slice l i (n + m).
Proof. intros. symmetry. by apply slice_split. Qed.

Lemma host_rest_exact T k fuel blck tgts d r :
  ssif_ready T k tgts d -> sd_status d = SSIF_STATUS_WAIT_FOR_RD_NEXT ->
  zlen (sd_rsp_buff d) = IPMI_MSG_MAX_LENGTH -> 32 < sd_rsp_buf_len d <= IPMI_MSG_MAX_LENGTH ->
  sd_remain_data_len d = r -> 0 < r < sd_rsp_buf_len d -> r <= 31 * Z.of_nat fuel ->
  sd_cur_rd_blck d = blck -> 0 <= blck -> blck + Z.of_nat fuel <= 200 ->
  exists tgts' d', host_read_rest fuel T k blck tgts [d] (slice (sd_rsp_buff d) 0 (sd_rsp_buf_len d - r)) =
      Some (tgts', [d'], slice (sd_rsp_buff d) 0 (sd_rsp_buf_len d)) /\
    ssif_ready T k tgts' d' /\ rsp_of d' = rsp_of d /\ sd_status d' = SSIF_STATUS_WAIT_FOR_WR_START /\
    sd_msg d' = zero_ipmi_msg /\
    on_bus k tgts' = on_bus k tgts.
Proof.
  revert blck tgts d r. induction fuel as [|fuel IH];
    intros blck tgts d r Rd Hst Hz Hn Er Hr Hf Ebk Hbk Hbf; [lia|].
  unfold IPMI_MSG_MAX_LENGTH, IPMI_DATA_MAX_LENGTH, IPMB_RESP_HEADER_LENGTH in Hz, Hn.
  assert (ssif_status_check SSIF_RD_NEXT (alert_trigger 1 d)
    = (ssif_state_machine SSIF_STATUS_RD_MIDDLE (alert_trigger 1 d), true)) as Es
    by (unfold ssif_status_check; cbn [sd_status alert_trigger]; rewrite Hst; done).
  set (d0 := ssif_state_machine SSIF_STATUS_RD_MIDDLE (alert_trigger 1 d)) in *.
  assert (ssif_rd_block SSIF_RD_NEXT d0 = Some (Some
    ((if 31 <? r then blck else 0xFF) :: slice (sd_rsp_buff d) (sd_rsp_buf_len d - r) (Z.min r 31),
     if 31 <? r then SSIF_STATUS_WAIT_FOR_RD_NEXT else SSIF_STATUS_WAIT_FOR_WR_START,
     set_sd_read (r - Z.min r 31) (blck + 1) (if 31 <? r then d0 else ssif_state_machine SSIF_STATUS_RD_END d0)))) as Eb.
  { unfold ssif_rd_block. change (SSIF_RD_NEXT =? SSIF_RD_START) with false.
    rewrite Z.eqb_refl. cbv zeta. change (SSIF_MAX_IPMI_DATA_SIZE - 1) with 31.
    unfold d0. cbn [sd_remain_data_len ssif_state_machine alert_trigger]. rewrite Er.
    destruct (Z.ltb_spec 31 r) as [H31|H31].
    - change (SSIF_MAX_IPMI_DATA_SIZE - 1) with 31. cbn [sd_rsp_buff sd_rsp_buf_len sd_cur_rd_blck ssif_state_machine alert_trigger].
      rewrite mem_read_Some by lia. cbn [mbind option_bind]. rewrite Ebk, Z.min_r, u8_id, !u16_id by lia. done.
    - rewrite (u16_id (r + 1)) by lia. replace (r + 1 - 1) with r by lia.
      cbn [sd_rsp_buff sd_rsp_buf_len sd_cur_rd_blck ssif_state_machine alert_trigger].
      rewrite mem_read_Some by lia. cbn [mbind option_bind]. rewrite Ebk, Z.min_l, !u16_id by lia. done. }
  pose proof (zlen_slice (sd_rsp_buff d) (sd_rsp_buf_len d - r) (Z.min r 31)) as Hzs.
  destruct (host_block_read T k SSIF_RD_NEXT tgts d d0 _ _ _ Rd (or_intror eq_refl) Es Eb) as (t1 & bs & Em & Ehb & Rd1 & Rg).
  { unfold d0. cbn. lia. }
  { destruct (31 <? r); [by left|by right]. }
  { destruct (31 <? r); apply (sr_index _ _ _ _ Rd). }
  { rewrite zlen_cons, Hzs by lia. unfold SSIF_MAX_IPMI_DATA_SIZE. lia. }
  cbn [host_read_rest]. rewrite Em. cbn [mbind option_bind]. rewrite Ehb. cbn [mbind option_bind].
  rewrite slice_join by lia. destruct (Z.ltb_spec 31 r) as [H31|H31].
  - destruct (Z.eqb_spec blck 0xFF); [lia|]. rewrite Z.eqb_refl. rewrite Z.min_r in Rd1 |- * by lia.
    destruct (IH (blck + 1) t1 _ (r - 31) Rd1) as (t2 & d2 & E2 & R2 & Hio & Hs2 & Hm2 & Hg2); try done; try lia;
      try (change (0 < r - 31 < sd_rsp_buf_len d); lia).
    exists t2, d2. split; [|split; [done|split; [exact Hio|split; [done|split; [done|congruence]]]]].
    replace (sd_rsp_buf_len d - r + 31) with (sd_rsp_buf_len d - (r - 31)) by lia. exact E2.
  - rewrite Z.eqb_refl. rewrite Z.min_l in Rd1 |- * by lia. exists t1. eexists.
    replace (sd_rsp_buf_len d - r + r) with (sd_rsp_buf_len d) by lia. split; [reflexivity|].
    split; [exact Rd1|]. done.
Qed.

(** However long the response, the host reads it whole and once; then the channel waits for the
    next request. The first byte of a response is never 0, so that a single block is not taken
    for the first of several. *)
Lemma host_read_exact T k tgts d :
  ssif_ready T k tgts d -> sd_status d = SSIF_STATUS_WAIT_FOR_RD_START ->
  zlen (sd_rsp_buff d) = IPMI_MSG_MAX_LENGTH -> 0 < sd_rsp_buf_len d <= IPMI_MSG_MAX_LENGTH ->
  rd (sd_rsp_buff d) 0 <> 0 ->
  exists tgts' d', host_read T k tgts [d] =
      Some (tgts', [d'], slice (sd_rsp_buff d) 0 (sd_rsp_buf_len d)) /\
    ssif_ready T k tgts' d' /\ rsp_of d' = rsp_of d /\ sd_status d' = SSIF_STATUS_WAIT_FOR_WR_START /\
    sd_msg d' = zero_ipmi_msg /\
    on_bus k tgts' = on_bus k tgts.
Proof.
  intros Rd Hst Hz Hn Hne. unfold IPMI_MSG_MAX_LENGTH, IPMI_DATA_MAX_LENGTH, IPMB_RESP_HEADER_LENGTH in Hz, Hn.
  assert (ssif_status_check SSIF_RD_START (alert_trigger 1 d)
    = (ssif_state_machine SSIF_STATUS_RD_START (alert_trigger 1 d), true)) as Es
    by (unfold ssif_status_check; cbn [sd_status alert_trigger]; rewrite Hst; done).
  set (d0 := ssif_state_machine SSIF_STATUS_RD_START (alert_trigger 1 d)) in *.
  set (n := sd_rsp_buf_len d) in *. set (more := 32 <? n).
  assert (ssif_rd_block SSIF_RD_START d0 = Some (Some
    (if more then [0; 1] ++ slice (sd_rsp_buff d) 0 30 else slice (sd_rsp_buff d) 0 n,
     if more then SSIF_STATUS_WAIT_FOR_RD_NEXT else SSIF_STATUS_WAIT_FOR_WR_START,
     set_sd_read (if more then n - 30 else 0) 0 d0))) as Eb.
  { unfold ssif_rd_block. rewrite Z.eqb_refl. cbv zeta. change (SSIF_MAX_IPMI_DATA_SIZE - 2) with 30.
    unfold SSIF_MAX_IPMI_DATA_SIZE. unfold d0. cbn [sd_rsp_buf_len sd_rsp_buff ssif_state_machine alert_trigger].
    fold n. fold more. unfold more. destruct (Z.ltb_spec 32 n); rewrite mem_read_Some by lia; done. }
  destruct (host_block_read T k SSIF_RD_START tgts d d0 _ _ _ Rd (or_introl eq_refl) Es Eb)
    as (t1 & bs & Em & Ehb & Rd1 & Rg).
  { change (n <> 0). lia. }
  { destruct more; [by left|by right]. }
  { apply (sr_index _ _ _ _ Rd). }
  { unfold more, SSIF_MAX_IPMI_DATA_SIZE. destruct (Z.ltb_spec 32 n); autorewrite with zlen; lia. }
  unfold host_read. rewrite Em. cbn [mbind option_bind]. rewrite Ehb. cbn [mbind option_bind].
  unfold more in *. destruct (Z.ltb_spec 32 n) as [Hm|Hm].
  - cbn [app take drop]. rewrite bool_decide_eq_true_2 by done.
    destruct (host_rest_exact T k 17 0 t1 _ (n - 30) Rd1) as (t2 & d2 & E2 & R2 & Hio & Hs2 & Hm2 & Hg2);
      try done; try lia.
    { change (32 < n <= 527). lia. }
    { change (0 < n - 30 < n). lia. }
    exists t2, d2. split; [|split; [done|split; [exact Hio|split; [done|split; [done|congruence]]]]].
    assert (slice (sd_rsp_buff d) 0 30 = slice (sd_rsp_buff d) 0 (n - (n - 30))) as -> by (f_equal; lia).
    exact E2.
  - rewrite bool_decide_eq_false_2.
    + exists t1. eexists. split; [reflexivity|]. split; [exact Rd1|]. done.
    + intros Et. apply Hne. unfold slice in Et. change (Z.to_nat 0) with O in Et. rewrite drop_0 in Et.
      destruct (sd_rsp_buff d) as [|x l]; [done|].
      destruct (Z.to_nat n) as [|m] eqn:En; [lia|]. cbn [take] in Et. by injection Et as -> _.
Qed.

(** ** Messages written at the target *)

(** The messages of a host, the thread of the first channel running after each; a thread that
    already waits gets the same from a queue of two messages or more ([target_hand_over]). *)
Fixpoint ssif_host_writes (T : target_env) (k : Z) (frames : list (list Z)) tgts (devs : list ssif_dev)
    : option (list (i2c_target_device Q unit) * list ssif_dev * list ssif_next) :=
  match frames with
  | [] => Some (tgts, devs, [])
  | f :: frames =>
      '(tgts, devs, _) ← master_write T k f tgts devs;
      '(tgts, rc, bytes) ← i2c_target_read T tgts k SSIF_BUFF_SIZE;
      d ← devs !! 0%nat;
      '(d, next) ← ssif_read_turn crc8 E rc bytes d;
      '(tgts, devs, nexts) ← ssif_host_writes T k frames tgts (<[0%nat := d]> devs);
      Some (tgts, devs, next :: nexts)
  end.

(** Does a message end a request. *)
Definition is_last (f : list Z) : bool := (rd f 0 =? SSIF_WR_SINGLE) || (rd f 0 =? SSIF_WR_MULTI_END).

Definition drop_if (b : bool) (d : ssif_dev) : ssif_dev :=
  if b then dropped true (se_now E + SSIF_TIMEOUT_MS) 0 d else d.

Lemma drop_dev_ok d : se_bus_ok E (sd_i2c_bus d) = true -> ssif_drop_dev E d = drop_if true d.
Proof.
  intros Hb. unfold ssif_drop_dev, ssif_lock_ctl, i2c_addr_set.
  cbn [sd_i2c_bus set_sd_exp set_sd_lock]. by rewrite Hb.
Qed.

Lemma drop_if_twice a b d : drop_if a (drop_if b d) = drop_if (a || b) d.
Proof. by destruct a, b. Qed.

Lemma bus_drop_later k tgts devs : td_wr_idx (data_at tgts k) <> 1 -> ssif_bus_drop E k tgts devs = devs.
Proof. intros Hi. unfold ssif_bus_drop. by apply Z.eqb_neq in Hi as ->. Qed.

(** The bytes of a message in the interrupt: the first of a last message takes the address off
    the bus. *)
Lemma message_received T k b bs tgts d :
  0 <= k < zlen tgts -> td_post (data_at tgts k) = Some tt -> td_bus (data_at tgts k) = k ->
  sd_i2c_bus d = k -> se_bus_ok E k = true ->
  target_receive T k (b :: bs) (i2c_target_write_requested k tgts) [d]
    = Some (written k (b :: bs) tgts, [drop_if (is_last (b :: bs)) d]).
Proof.
  intros Hk Hpost Htb Hbus Hok. cbn [target_receive]. rewrite write_received_eq. cbv zeta.
  assert (data_at (i2c_target_write_requested k tgts) k = set_skip false (set_wr_idx 0 (set_wr_msg zero_pkg
    (set_req_address (td_address (data_at tgts k) .& 0xFF) (data_at tgts k))))) as ->
    by (unfold i2c_target_write_requested; by at_dev).
  cbn [td_wr_idx set_skip set_wr_idx td_post set_wr_msg set_req_address]. rewrite Hpost.
  change (MAX_I2C_TARGET_BUFF <=? 0) with false. cbn [on_post ssif_at_target ssif_client].
  change (upd_data k (recv_byte b) (i2c_target_write_requested k tgts)) with (written k [b] tgts).
  pose proof (data_written k [b] tgts Hk) as Ed. destruct (written_keeps k [b] tgts Hk) as (_ & _ & Kl).
  assert (ssif_bus_drop E k (written k [b] tgts) [d] = [drop_if (is_last (b :: bs)) d]) as ->.
  { unfold ssif_bus_drop. rewrite Ed. change (td_wr_idx _ =? 1) with true.
    cbn [td_wr_msg set_wr_idx set_wr_msg msg_array td_bus set_skip set_req_address]. rewrite Htb.
    change (rd (msg_array (written_pkg [b])) 0) with b. unfold is_last. change (rd (b :: bs) 0) with b.
    destruct ((b =? SSIF_WR_SINGLE) || (b =? SSIF_WR_MULTI_END)); [|done].
    unfold ssif_inst_get_by_bus. cbn [ssif_inst_find]. rewrite Hbus, Z.eqb_refl.
    change ([ssif_drop_dev E d] = [drop_if true d]). by rewrite drop_dev_ok by (by rewrite Hbus). }
  cbn [mbind option_bind]. rewrite target_receive_quiet.
  - f_equal. unfold written, i2c_target_write_requested. by at_dev.
  - lia.
  - by rewrite Ed.
  - rewrite Ed. intros [] tg c _ Hi. cbn [on_post ssif_at_target ssif_client].
    rewrite bus_drop_later; [done|]. assert (1 < td_wr_idx (data_at tg k)) by exact Hi. lia.
Qed.

(** The message is queued, and the thread's next read gives it whole. *)
Lemma message_delivered T k f tgts d :
  ssif_ready T k tgts d -> dev_is_register (dev_at tgts k) = true -> pending k tgts = [] ->
  0 < zlen f <= SSIF_BUFF_SIZE -> se_bus_ok E k = true ->
  exists tgts1 tgts2, master_write T k f tgts [d] = Some (tgts1, [drop_if (is_last f) d], 0) /\
    i2c_target_read T tgts1 k SSIF_BUFF_SIZE = Some (tgts2, 0, f) /\
    (forall d', sd_i2c_bus d' = k -> ssif_ready T k tgts2 d') /\
    dev_is_register (dev_at tgts2 k) = true /\ pending k tgts2 = [].
Proof.
  intros [B W P1 P2 Hbus] Hr Hp Hf Hok. pose proof (tw_k _ _ W) as Hk. unfold SSIF_BUFF_SIZE in Hf.
  destruct f as [|b bs]; [exfalso; by destruct Hf|].
  destruct (stop_queues T k (b :: bs) tgts B W Hr) as (t1 & Es & W1 & S1 & Q1); [done|].
  apply fmap_nil_inv in Hp. rewrite Hp in Q1. cbn [app] in Q1.
  destruct (target_read_takes T k SSIF_BUFF_SIZE t1 (written_pkg (b :: bs)) [] B W1 Q1)
    as (t2 & Et & W2 & S2 & R2 & Q2).
  exists t1, t2. split.
  { unfold master_write, master_write_to. rewrite message_received by (done || apply W). cbn [mbind option_bind].
    by rewrite Es. }
  assert (take (Z.to_nat MAX_I2C_TARGET_BUFF) (b :: bs) = b :: bs) as Ht.
  { apply take_ge. unfold MAX_I2C_TARGET_BUFF. unfold zlen in Hf. lia. }
  split.
  { rewrite Et. do 2 f_equal. unfold written_pkg. rewrite Ht. cbn [msg_array msg_length].
    rewrite Z.min_r by (unfold SSIF_BUFF_SIZE; lia). rewrite slice_app_l by lia. by rewrite slice_all by lia. }
  split; [|split; [done|by unfold pending; rewrite Q2]].
  intros d' Hd'. split; try done.
  - rewrite (ts_post _ _ _ S2), (ts_post _ _ _ S1). done.
  - rewrite (ts_collect _ _ _ S2), (ts_collect _ _ _ S1). done.
Qed.

(** The thread at the target does to the channel what it does with the messages alone, and the
    address is off the bus once the last one came. *)
Lemma host_writes_ok T k frames tgts b d d' nexts :
  ssif_ready T k tgts d -> dev_is_register (dev_at tgts k) = true -> pending k tgts = [] ->
  se_bus_ok E k = true -> Forall (fun f => 0 < zlen f <= SSIF_BUFF_SIZE) frames ->
  ssif_receive_all crc8 E frames d = Some (d', nexts) -> Forall (fun n => n <> ColdReset) nexts ->
  exists tgts', ssif_host_writes T k frames tgts [drop_if b d] =
      Some (tgts', [drop_if (b || existsb is_last frames) d'], nexts) /\
    ssif_ready T k tgts' d' /\ dev_is_register (dev_at tgts' k) = true /\ pending k tgts' = [].
Proof.
  revert tgts b d nexts. induction frames as [|f frames IH]; intros tgts b d nexts Rd Hr Hp Hok Hf Ha Hc.
  { cbn in Ha. injection Ha as <- <-. exists tgts. cbn. by rewrite orb_false_r. }
  apply Forall_cons in Hf as [Hf1 Hf]. cbn [ssif_receive_all] in Ha.
  unfold ssif_read_turn in Ha. destruct (ssif_receive crc8 0 f d) as [[d1 n1]|] eqn:Er; [|done].
  cbn [mbind option_bind] in Ha.
  destruct (ssif_receive_all crc8 E frames _) as [[d2 ns]|] eqn:Ea; [|done]. cbn [mbind option_bind] in Ha.
  injection Ha as <- <-. apply Forall_cons in Hc as [Hc1 Hc].
  assert (match n1 with ColdReset => ssif_cold_reset E d1 | _ => d1 end = d1) as Ed1 by (by destruct n1).
  rewrite Ed1 in Ea. pose proof (receive_io _ _ _ _ _ _ Er) as Hio.
  assert (sd_i2c_bus d1 = k) as Hb1 by (rewrite <- (sr_index _ _ _ _ Rd); unfold chan_io in Hio; congruence).
  destruct (message_delivered T k f tgts (drop_if b d)) as (t1 & t2 & Em & Et & R2 & Hr2 & Hp2); try done.
  { destruct Rd as [B W P1 P2 Hb]. split; try done. by destruct b. }
  cbn [ssif_host_writes]. rewrite Em. cbn [mbind option_bind]. rewrite Et, drop_if_twice.
  change ([drop_if (is_last f || b) d] !! 0%nat) with (Some (drop_if (is_last f || b) d)). cbn [mbind option_bind].
  assert (ssif_read_turn crc8 E 0 f (drop_if (is_last f || b) d) = Some (drop_if (is_last f || b) d1, n1)) as ->.
  { apply read_turn_ok; [|done]. unfold drop_if. destruct (is_last f || b); [|done]. by apply receive_dropped. }
  cbn [mbind option_bind].
  change (<[0%nat:=drop_if (is_last f || b) d1]> [drop_if (is_last f || b) d]) with [drop_if (is_last f || b) d1].
  destruct (IH t2 (is_last f || b) d1 ns (R2 d1 Hb1)) as (t3 & Eh & R3 & Hr3 & Hp3); try done.
  rewrite Eh. cbn [mbind option_bind]. exists t3. split; [|done]. cbn [existsb]. do 5 f_equal.
  destruct (is_last f), b; done.
Qed.

Lemma rest_frames_last addr pec fuel bytes :
  (length bytes < fuel)%nat -> existsb is_last (ssif_rest_frames crc8 fuel addr pec bytes) = true.
Proof.
  revert bytes. induction fuel as [|fuel IH]; intros bytes Hf; [lia|]. cbn [ssif_rest_frames].
  destruct (Z.leb_spec (zlen bytes) SSIF_MAX_IPMI_DATA_SIZE) as [Hb|Hb].
  - cbn [existsb]. rewrite frame_head. done.
  - cbn [existsb]. rewrite IH; [apply orb_true_r|].
    unfold zlen, SSIF_MAX_IPMI_DATA_SIZE in Hb. rewrite length_drop. lia.
Qed.

Lemma request_frames_last addr pec b cmd data :
  existsb is_last (ssif_request_frames crc8 addr pec b cmd data) = true.
Proof.
  unfold ssif_request_frames. cbv zeta. destruct (_ <=? _); cbn [existsb]; [by rewrite frame_head|].
  rewrite rest_frames_last; [apply orb_true_r|]. rewrite length_drop. cbn [length]. lia.
Qed.

Lemma frame_size addr pec c bytes :
  zlen bytes <= SSIF_MAX_IPMI_DATA_SIZE -> 0 < zlen (ssif_frame crc8 addr pec c bytes) <= SSIF_BUFF_SIZE.
Proof.
  intros Hb. pose proof (zlen_nonneg bytes). rewrite zlen_frame.
  unfold SSIF_MAX_IPMI_DATA_SIZE, SSIF_BUFF_SIZE in *. destruct pec; cbn [Z.b2z]; lia.
Qed.

Lemma zlen_take32 (bytes : list Z) : zlen (take 32 bytes) <= SSIF_MAX_IPMI_DATA_SIZE.
Proof. unfold zlen, SSIF_MAX_IPMI_DATA_SIZE. rewrite length_take. lia. Qed.

Lemma rest_frames_size addr pec fuel bytes :
  Forall (fun f => 0 < zlen f <= SSIF_BUFF_SIZE) (ssif_rest_frames crc8 fuel addr pec bytes).
Proof.
  revert bytes. induction fuel as [|fuel IH]; intros bytes; [done|]. cbn [ssif_rest_frames].
  destruct (Z.leb_spec (zlen bytes) SSIF_MAX_IPMI_DATA_SIZE).
  - constructor; [by apply frame_size|done].
  - constructor; [apply frame_size, zlen_take32|apply IH].
Qed.

Lemma request_frames_size addr pec b cmd data :
  Forall (fun f => 0 < zlen f <= SSIF_BUFF_SIZE) (ssif_request_frames crc8 addr pec b cmd data).
Proof.
  unfold ssif_request_frames. cbv zeta.
  destruct (Z.leb_spec (zlen (b :: cmd :: data)) SSIF_MAX_IPMI_DATA_SIZE).
  - constructor; [by apply frame_size|done].
  - constructor; [apply frame_size, zlen_take32|apply rest_frames_size].
Qed.

(** ** A request and its response *)

Section exchange.
Context {St : Type} `{HH : IpmiHandlers St} `{HOK : !IpmiHandlersOk St}.
Context (P : ssif_platform) (cfg : ipmi_config).

(** The host sends a request, the IPMI service handles it when its turn comes (in state [s]) and
    hands over the response, and the host reads it. The two guards: the host finds the BIC at its
    address when it starts to write and when it starts to read. *)
Definition ssif_exchange (T : target_env) (k : Z) (frames : list (list Z)) tgts (d : ssif_dev)
    (q : list ipmi_msg) (s : St)
    : option (list (i2c_target_device Q unit) * list ssif_dev * list Z * St) :=
  if negb (sd_hw_addr d =? sd_addr d) then None
  else
    '(tgts, devs, _) ← ssif_host_writes T k frames tgts [d];
    d ← devs !! 0%nat;
    '(d, q, _) ← ssif_send_request P true d q;
    msg ← last q;
    '(out, s) ← ipmi_cmd_handle cfg true msg s;
    match out with
    | OutSsif channel rsp =>
        '(devs, _) ← ssif_set_data true [d] channel rsp;
        d ← devs !! 0%nat;
        let d := ssif_send_done E d in
        if negb (sd_hw_addr d =? sd_addr d) then None
        else
          '(tgts, devs, bytes) ← host_read T k tgts [d];
          Some (tgts, devs, bytes, s)
    | _ => None
    end.

(** A channel between two requests. *)
Record ssif_idle (T : target_env) (k : Z) tgts (d : ssif_dev) : Prop := {
  si_ready : ssif_ready T k tgts d;
  si_registered : dev_is_register (dev_at tgts k) = true;
  si_pending : pending k tgts = [];
  si_start : may_start d;
  si_hw : sd_hw_addr d = sd_addr d;
  si_addr : 0 <= sd_addr d < 128;
  si_msg : zlen (im_data (sd_msg d)) = IPMI_MSG_MAX_LENGTH;
  si_bytes : bytes_ok (im_data (sd_msg d));
  si_rsp : zlen (sd_rsp_buff d) = IPMI_MSG_MAX_LENGTH;
  si_mutex : sd_mutex d = true;
  si_sem : sd_sem d = 0 /\ sd_sem_limit d = 1;
  si_index : sd_index d = 0 }.

Lemma ipmi_over_ssif msg s :
  cfg_ssif cfg = true -> im_InF_source msg = HOST_SSIF_1 -> msg_wf msg -> handlers_inv s ->
  pal_is_not_return_cmd (im_netfn msg) (im_cmd msg) = false ->
  exists rsp s', ipmi_cmd_handle cfg true msg s = Some (OutSsif 0 rsp, s') /\ handlers_inv s' /\
    ipmi_serve msg s = Some (im_completion_code rsp, payload rsp, s') /\
    im_netfn rsp = u8 ((im_netfn msg + 1) .<< 2) /\ im_cmd rsp = im_cmd msg /\
    zlen (im_data rsp) = IPMI_MSG_MAX_LENGTH /\ 0 <= im_data_len rsp <= IPMI_MSG_MAX_LENGTH.
Proof using HOK.
  intros Hcfg Hsrc Hw Hs Hp.
  destruct (ipmi_processed msg s Hw Hs Hp) as (m & iana & m' & s' & Ed & Hi & Ef & Hsm & Hz & Hn & Hsm0 & Ev).
  exists (set_im_netfn (u8 ((im_netfn m' + 1) .<< 2)) m'), s'.
  destruct Hsm as (En & Ec & Es & _). split.
  - unfold ipmi_cmd_handle. rewrite Ed. cbn [mbind option_bind]. destruct Hsm0 as (-> & -> & _).
    rewrite Hp, Ef. cbn [mbind option_bind]. unfold ipmi_respond. rewrite Es, Hsrc, Hcfg.
    change (HOST_SSIF_1 =? BMC_USB) with false. rewrite andb_false_r.
    change (HOST_SSIF_1 <=? HOST_KCS_4) with false. rewrite andb_false_r. done.
  - split; [done|]. split; [exact Ev|]. split; [cbn; by rewrite En|]. split; [exact Ec|]. done.
Qed.

(** The response in the buffer: three header bytes and the data. *)
Lemma set_data_ok rsp d :
  sd_mutex d = true -> zlen (sd_rsp_buff d) = IPMI_MSG_MAX_LENGTH ->
  zlen (im_data rsp) = IPMI_MSG_MAX_LENGTH -> 0 <= im_data_len rsp <= IPMI_MSG_MAX_LENGTH - 3 ->
  exists buf, ssif_set_data_dev true rsp d = Some (sem_give (set_sd_rsp buf (im_data_len rsp + 3) d), true) /\
    zlen buf = IPMI_MSG_MAX_LENGTH /\
    slice buf 0 (im_data_len rsp + 3) = [im_netfn rsp; im_cmd rsp; im_completion_code rsp] ++ payload rsp.
Proof.
  unfold IPMI_MSG_MAX_LENGTH, IPMI_DATA_MAX_LENGTH, IPMB_RESP_HEADER_LENGTH. intros Hm Hb Hd Hn.
  set (hdr := [im_netfn rsp; im_cmd rsp; im_completion_code rsp]).
  assert (zlen (payload rsp) = im_data_len rsp) as Hp by (apply zlen_slice; lia).
  destruct (mem_write_two (sd_rsp_buff d) hdr (payload rsp)) as (b1 & b2 & E1 & E2 & L2 & S2).
  { change (zlen hdr) with 3. lia. }
  change (zlen hdr) with 3 in E2, S2. rewrite Hp in S2.
  unfold ssif_set_data_dev. rewrite Hm. cbn [negb]. fold hdr. rewrite E1. cbn [mbind option_bind].
  unfold IPMI_MSG_MAX_LENGTH, IPMI_DATA_MAX_LENGTH, IPMB_RESP_HEADER_LENGTH.
  destruct (Z.leb_spec (im_data_len rsp) (520 + 7 - 3)); [|lia].
  rewrite mem_read_Some by lia. cbn [mbind option_bind]. fold (payload rsp). rewrite u16_id by lia.
  exists b2. replace (im_data_len rsp + 3) with (3 + im_data_len rsp) by lia.
  split; [|split; [lia|exact S2]].
  destruct (Z.eqb_spec (im_data_len rsp) 0) as [E0|E0]; cbn [negb]; [|rewrite E2; done].
  assert (b2 = b1) as ->; [|done].
  assert (payload rsp = []) as Ep by (destruct (payload rsp); [done|rewrite zlen_cons in Hp; pose proof (zlen_nonneg l); lia]).
  revert E2. rewrite Ep. unfold mem_write. destruct (_ && _); [|done]. intros [= <-].
  apply (take_drop 3).
Qed.

Lemma addr_bits a : 0 <= a < 128 -> u8 (a .<< 1) .>> 1 = a.
Proof.
  intros Ha. rewrite Z.shiftl_mul_pow2, Z.shiftr_div_pow2 by lia. change (2 ^ 1) with 2.
  rewrite u8_id by lia. by rewrite Z.div_mul.
Qed.

(** The turn of the thread when the response has come: the BIC is back at its address, and the
    host is told so. *)
Lemma send_done_ok d :
  sd_sem d = 1 -> se_bus_ok E (sd_i2c_bus d) = true -> 0 <= sd_addr d < 128 ->
  ssif_send_done E d = ssif_state_machine SSIF_STATUS_WAIT_FOR_RD_START
    (ssif_error_record SSIF_STATUS_NO_ERR (alert_trigger 0
      (set_sd_hw_addr (sd_addr d) (set_sd_lock false (set_sd_sem 0 (sd_sem_limit d) d))))).
Proof.
  intros Hs Hb Ha. unfold ssif_send_done, ssif_wait_response. rewrite Hs. cbn [Z.eqb].
  unfold ssif_lock_ctl, i2c_addr_set. cbn [sd_i2c_bus set_sd_lock set_sd_sem sd_addr].
  rewrite Hb. cbn [negb]. rewrite addr_bits by done. done.
Qed.

Lemma last_put_ipmi_msgq msg q : last (put_ipmi_msgq msg q) = Some msg.
Proof. unfold put_ipmi_msgq. destruct (_ <? _); [apply last_snoc|done]. Qed.

Lemma response_netfn_byte n : 0 <= n < 63 -> u8 ((n + 1) .<< 2) <> 0.
Proof. intros Hn. rewrite Z.shiftl_mul_pow2 by lia. change (2 ^ 2) with 4. rewrite u8_id by lia. lia. Qed.

Definition to_bic (netfn cmd : Z) : Prop :=
  pal_request_msg_to_BIC_from_HOST P netfn cmd = true /\
  (smbr_cmd_handler P = None \/ netfn <> NETFN_DCMI_REQ) /\ pal_is_not_return_cmd netfn cmd = false.

Lemma send_request_bic d q :
  to_bic (im_netfn (sd_msg d)) (im_cmd (sd_msg d)) ->
  ssif_send_request P true d q = Some (d, put_ipmi_msgq (sd_msg d) q, []).
Proof.
  intros (Hb & Hs & _). unfold ssif_send_request. rewrite Hb.
  destruct Hs as [-> | Hs]; [done|]. destruct (smbr_cmd_handler P); [|done].
  by apply Z.eqb_neq in Hs as ->.
Qed.

(** The request as the thread has it: a message the IPMI service takes. *)
Lemma request_message T k pec b cmd data tgts d :
  ssif_idle T k tgts d -> se_bus_ok E k = true -> zlen data <= IPMI_DATA_MAX_LENGTH -> bytes_ok data ->
  exists tgts1 d1 nexts,
    ssif_host_writes T k (ssif_request_frames crc8 (sd_addr d) pec b cmd data) tgts [d]
      = Some (tgts1, [drop_if true d1], nexts) /\
    ssif_ready T k tgts1 d1 /\ dev_is_register (dev_at tgts1 k) = true /\ pending k tgts1 = [] /\
    chan_io d1 = chan_io d /\ im_netfn (sd_msg d1) = b .>> 2 /\ im_cmd (sd_msg d1) = cmd /\
    payload (sd_msg d1) = data /\ im_InF_source (sd_msg d1) = HOST_SSIF_1 /\ msg_wf (sd_msg d1).
Proof.
  intros I Hok Hd Bd. assert (zlen data <= IPMI_MSG_MAX_LENGTH) as Hd'
    by (unfold IPMI_MSG_MAX_LENGTH, IPMI_DATA_MAX_LENGTH, IPMB_RESP_HEADER_LENGTH in *; lia).
  destruct (request_assembled crc8 E pec b cmd data d) as (d1 & n & Ea & Hr & Hio); try done; try apply I.
  destruct (host_writes_ok T k _ tgts false d d1 _ (si_ready _ _ _ _ I) (si_registered _ _ _ _ I)
    (si_pending _ _ _ _ I) Hok (request_frames_size (sd_addr d) pec b cmd data) Ea)
    as (tgts1 & Ew & R1 & Hr1 & Hp1).
  { apply Forall_app. split; [by apply Forall_replicate|by repeat constructor]. }
  rewrite request_frames_last, orb_true_r in Ew.
  exists tgts1, d1, (replicate n ReadNext ++ [SendIpmi]). destruct Hr as [H1' H2' H3' H4' H5' H6' H7'].
  assert (sd_index d1 = 0) as Hi by (rewrite <- (si_index _ _ _ _ I); unfold chan_io in Hio; congruence).
  split_and!; try done.
  - unfold payload. by rewrite H4'.
  - by rewrite H3', Hi.
  - unfold msg_wf. rewrite H4'. split; [done|]. split; [done|]. split; [apply zlen_nonneg|done].
Qed.

(** A channel with a response is ready again once the host has read it. *)
Lemma exchange_end T k tgts tgts1 d d1 buf n :
  ssif_idle T k tgts d -> se_bus_ok E k = true -> ssif_ready T k tgts1 d1 ->
  dev_is_register (dev_at tgts1 k) = true -> pending k tgts1 = [] -> chan_io d1 = chan_io d ->
  zlen buf = IPMI_MSG_MAX_LENGTH -> 0 < n <= IPMI_MSG_MAX_LENGTH -> rd buf 0 <> 0 ->
  let d3 := ssif_send_done E (sem_give (set_sd_rsp buf n (drop_if true d1))) in
  sd_hw_addr d3 = sd_addr d3 /\
  exists tgts2 d4, host_read T k tgts1 [d3] = Some (tgts2, [d4], slice buf 0 n) /\ ssif_idle T k tgts2 d4.
Proof.
  intros I Hok R1 Hr1 Hp1 Hio Hz Hn Hb. set (d2 := sem_give _).
  assert (sd_sem d2 = 1 /\ sd_sem_limit d2 = 1) as [Hs2 Hl2].
  { destruct (si_sem _ _ _ _ I) as [Hs Hl]. unfold chan_io in Hio. injection Hio as ? ? ? ? ? ? E7 E8 ? ? ? ?.
    unfold d2, sem_give. cbn [sd_sem sd_sem_limit set_sd_sem set_sd_rsp drop_if dropped set_sd_hw_addr set_sd_exp set_sd_lock].
    rewrite E7, E8, Hs, Hl. done. }
  assert (sd_addr d2 = sd_addr d /\ sd_index d2 = 0 /\ sd_mutex d2 = true /\ sd_i2c_bus d2 = k) as (Ha2 & Hi2 & Hm2 & Hb2).
  { unfold chan_io in Hio. injection Hio as E1 E2 E3 ? ? E6 ? ? ? ? ? ?.
    unfold d2, sem_give. cbn [sd_addr sd_index sd_mutex sd_i2c_bus set_sd_sem set_sd_rsp drop_if dropped set_sd_hw_addr set_sd_exp set_sd_lock].
    rewrite E1, E2, E3, E6. split; [done|]. split; [apply I|]. split; [apply I|]. apply (sr_index _ _ _ _ (si_ready _ _ _ _ I)). }
  rewrite send_done_ok by (done || (rewrite ?Hb2, ?Ha2; (done || apply I))). cbv zeta. split; [done|].
  set (d3 := ssif_state_machine _ _).
  assert (ssif_ready T k tgts1 d3) as R3 by (destruct R1; by split).
  destruct (host_read_exact T k tgts1 d3 R3) as (tgts2 & d4 & Eh & R4 & Hrsp & Hst & Hmsg & Hbus);
    try done.
  exists tgts2, d4. split; [exact Eh|]. unfold rsp_of in Hrsp.
  injection Hrsp as F1 F2 F3 F4 F5 F6 F7 F8 F9 F10. unfold on_bus in Hbus. injection Hbus as G1 G2.
  split; try done.
  - by rewrite G1.
  - unfold pending. rewrite G2. exact Hp1.
  - by left.
  - by rewrite F10, F5.
  - rewrite F5. change (0 <= sd_addr d2 < 128). rewrite Ha2. apply I.
  - by rewrite Hmsg.
  - rewrite Hmsg. by apply Forall_replicate.
  - by rewrite F1.
  - by rewrite F6.
  - rewrite F7, F8. split; [done|exact Hl2].
  - by rewrite F3.
Qed.

(** C10: on the first channel, a request for the BIC itself over SSIF, of up to 520 bytes of data and
    with or without PECs, reaches the IPMI service with exactly the host's network function, command
    and data; if the service's response has at most 524 bytes of data, the host, which finds the BIC
    at its address again only when the response is there, reads exactly the completion code and the
    data the service produced, however many blocks that takes; and the channel is then as before, so
    that the next request is served the same way. *)
Theorem ssif_request_served T k pec b cmd data tgts d q s :
  ssif_idle T k tgts d -> se_bus_ok E k = true -> cfg_ssif cfg = true ->
  0 <= b < 252 -> bytes_ok data -> zlen data <= IPMI_DATA_MAX_LENGTH ->
  to_bic (b .>> 2) cmd -> handlers_inv s ->
  (forall m cc r s', im_netfn m = b .>> 2 -> im_cmd m = cmd -> payload m = data ->
     ipmi_serve m s = Some (cc, r, s') -> zlen r <= IPMI_MSG_MAX_LENGTH - 3) ->
  exists msg cc r tgts' d' s', im_netfn msg = b .>> 2 /\ im_cmd msg = cmd /\ payload msg = data /\
    ipmi_serve msg s = Some (cc, r, s') /\
    ssif_exchange T k (ssif_request_frames crc8 (sd_addr d) pec b cmd data) tgts d q s =
      Some (tgts', [d'], [u8 ((b .>> 2 + 1) .<< 2); cmd; cc] ++ r, s') /\
    ssif_idle T k tgts' d' /\ handlers_inv s'.
Proof using HOK HL.
  intros I Hok Hcfg Hb Bd Hd Hto Hs Hroom.
  destruct (request_message T k pec b cmd data tgts d I Hok Hd Bd)
    as (tgts1 & d1 & nexts & Ew & R1 & Hr1 & Hp1 & Hio & En & Ec & Ep & Esrc & Hw).
  destruct (ipmi_over_ssif (sd_msg d1) s) as (rsp & s' & Eh & Hs' & Ev & Enr & Ecr & Hz & Hn);
    [done|done|done|done|rewrite En, Ec; apply Hto|].
  pose proof (Hroom _ _ _ _ En Ec Ep Ev) as Hl.
  assert (zlen (payload rsp) = im_data_len rsp) as Hpl
    by (apply zlen_slice; unfold IPMI_MSG_MAX_LENGTH, IPMI_DATA_MAX_LENGTH, IPMB_RESP_HEADER_LENGTH in *; lia).
  rewrite Hpl in Hl. set (d2 := drop_if true d1) in *.
  assert (sd_mutex d2 = true /\ zlen (sd_rsp_buff d2) = IPMI_MSG_MAX_LENGTH) as [Hm2 Hb2].
  { unfold chan_io in Hio. injection Hio as ? ? ? ? ? E6 ? ? E9 ? ? ?. unfold d2.
    change (sd_mutex d1 = true /\ zlen (sd_rsp_buff d1) = IPMI_MSG_MAX_LENGTH). rewrite E6, E9. split; apply I. }
  destruct (set_data_ok rsp d2 Hm2 Hb2 Hz) as (buf & Es & Hzb & Hsl); [lia|].
  assert (rd buf 0 <> 0) as Hrd.
  { assert (rd buf 0 = im_netfn rsp) as ->; [|rewrite Enr, En; apply response_netfn_byte].
    - unfold slice in Hsl. change (Z.to_nat 0) with O in Hsl. rewrite drop_0 in Hsl. unfold rd.
      replace (Z.to_nat (im_data_len rsp + 3)) with (S (Z.to_nat (im_data_len rsp + 2))) in Hsl by lia.
      destruct buf as [|x buf]; [done|]. cbn [take app] in Hsl. by injection Hsl as -> _.
    - rewrite Z.shiftr_div_pow2 by lia. change (2 ^ 2) with 4. Z.div_mod_to_equations. lia. }
  destruct (exchange_end T k tgts tgts1 d d1 buf (im_data_len rsp + 3)) as (Hhw & tgts2 & d4 & Er & I4);
    try done; [lia|].
  exists (sd_msg d1), (im_completion_code rsp), (payload rsp), tgts2, d4, s'. split_and!; try done.
  unfold ssif_exchange. rewrite (si_hw _ _ _ _ I), Z.eqb_refl. cbn [negb]. rewrite Ew. cbn [mbind option_bind].
  change ([d2] !! 0%nat) with (Some d2). cbn [mbind option_bind].
  rewrite send_request_bic by (change (sd_msg d2) with (sd_msg d1); by rewrite En, Ec).
  cbn [mbind option_bind]. rewrite last_put_ipmi_msgq. cbn [mbind option_bind].
  change (sd_msg d2) with (sd_msg d1). rewrite Eh. cbn [mbind option_bind].
  change (ssif_set_data true [d2] 0 rsp) with ('(d, ret) ← ssif_set_data_dev true rsp d2; Some ([d], ret)).
  rewrite Es. cbn [mbind option_bind lookup list_lookup]. fold d2 in Hhw, Er.
  rewrite Hhw, Z.eqb_refl. cbn [negb]. rewrite Er. cbn [mbind option_bind].
  rewrite Hsl, Enr, En, Ecr, Ec. done.
Qed.
End exchange.
End block.

(** ** Messages that leave the buffers *)

Section bounds.
Context (crc8 : list Z -> Z) (E : ssif_env) (P : ssif_platform).

(** The messages whose bytes do not fit: a first one that counts less than its network function
    and command (the length of its data wraps around), and one more than the request holds. *)
Definition overruns (f : list Z) (d : ssif_dev) : Prop :=
  exists pec c bytes, f = ssif_frame crc8 (sd_addr d) pec c bytes /\ zlen bytes <= SSIF_MAX_IPMI_DATA_SIZE /\
    ((is_start c /\ may_start d /\ zlen bytes < 2) \/
     (is_more c /\ sd_status d = SSIF_STATUS_WAIT_FOR_WR_NEXT /\
      (c = SSIF_WR_MULTI_MIDDLE -> zlen bytes = SSIF_MAX_IPMI_DATA_SIZE) /\
      im_data_len (sd_msg d) <> 0 /\ IPMI_MSG_MAX_LENGTH < im_data_len (sd_msg d) + zlen bytes)).

Record request_room (d : ssif_dev) : Prop := {
  rr_size : zlen (im_data (sd_msg d)) = IPMI_MSG_MAX_LENGTH;
  rr_len : 0 <= im_data_len (sd_msg d) <= IPMI_MSG_MAX_LENGTH }.

(** A message that passes the two length checks and the PEC is one a host composes. *)
Lemma checked_frame f addr pec :
  zlen f <= SSIF_BUFF_SIZE -> 0 < zlen f -> bytes_ok f ->
  ssif_pec_check crc8 addr (in_rdata f) (zlen f) = Some (true, pec) ->
  rd (in_rdata f) 1 = zlen f - 2 - pec ->
  exists b bytes, f = ssif_frame crc8 addr b (rd (in_rdata f) 0) bytes /\ pec = Z.b2z b /\
    zlen bytes = rd (in_rdata f) 1.
Proof.
  intros Hz Hz0 Hbf Hp Hl. unfold ssif_pec_check in Hp.
  destruct (Z.ltb_spec (zlen f) 2) as [|H2]; [done|].
  destruct f as [|c [|n l]]; [done|exfalso; by apply H2|].
  change (rd (in_rdata (c :: n :: l)) 0) with c. change (rd (in_rdata (c :: n :: l)) 1) with n in *.
  autorewrite with zlen in *.
  destruct (Z.eqb_spec (1 + (1 + zlen l) - n - 2) 0) as [E0|E0].
  - injection Hp as <-. exists false, l. unfold ssif_frame. cbv zeta. replace (zlen l) with n by lia. done.
  - destruct (mem_read _ 0 _) as [body|] eqn:Em; [|done]. cbn [mbind option_bind] in Hp. injection Hp as Hc <-.
    apply Forall_cons in Hbf as [_ Hbf]. apply Forall_cons in Hbf as [Hn _].
    assert (l <> []) as Hne by (intros ->; rewrite zlen_nil in *; lia).
    destruct (exists_last Hne) as (bytes & x & ->). rewrite zlen_app in *. change (zlen [x]) with 1 in *.
    exists true, bytes. split; [|split; [done|lia]].
    unfold ssif_frame. cbv zeta. replace (zlen bytes) with n by lia. cbn [app]. do 3 f_equal.
    unfold mem_read in Em. destruct (_ && _); [|done]. injection Em as <-.
    apply Z.eqb_eq in Hc. revert Hc. unfold in_rdata.
    change (c :: n :: bytes ++ [x]) with ((c :: n :: bytes) ++ [x]). rewrite <- app_assoc.
    rewrite slice_app_l, slice_all by (autorewrite with zlen; lia).
    unfold rd. rewrite lookup_app_r by (cbn [length]; unfold zlen in *; lia).
    replace (Z.to_nat _ - _)%nat with O by (cbn [length]; unfold zlen in *; lia). intros Hc. cbn in Hc. by rewrite <- Hc.
Qed.

Lemma in_rdata_body addr b c bytes : slice (in_rdata (ssif_frame crc8 addr b c bytes)) 2 (zlen bytes) = bytes.
Proof. apply frame_body. Qed.

(** Without an overrun every message is handled inside the arrays. *)
Lemma write_start_total c b bytes d :
  is_start c -> 2 <= zlen bytes <= SSIF_MAX_IPMI_DATA_SIZE ->
  zlen (im_data (sd_msg d)) = IPMI_MSG_MAX_LENGTH ->
  is_Some (ssif_write_start c (Z.b2z b) (zlen (ssif_frame crc8 (sd_addr d) b c bytes))
             (in_rdata (ssif_frame crc8 (sd_addr d) b c bytes)) d).
Proof.
  intros Hc Hb Hs. unfold ssif_write_start. rewrite in_rdata_len, zlen_frame. cbv zeta.
  destruct (length_check b bytes) as [-> ->]; [lia|]. cbn [negb].
  rewrite u16_id by (unfold SSIF_MAX_IPMI_DATA_SIZE in Hb; lia).
  destruct (Z.eqb_spec (zlen bytes - 2) 0); cbn [negb mbind option_bind]; [by destruct (_ =? _)|].
  rewrite mem_read_Some by (try rewrite zlen_in_rdata; unfold SSIF_MAX_IPMI_DATA_SIZE, SSIF_BUFF_SIZE in *; lia).
  cbn [mbind option_bind].
  match goal with |- context [mem_write ?a 0 ?s] => destruct (mem_write_Some a 0 s) as [arr ->] end; [lia| |].
  - rewrite zlen_slice; [|lia|lia|].
    + cbn [im_data set_im_data_len set_im_cmd set_im_netfn set_im_InF_source]. rewrite Hs.
      unfold SSIF_MAX_IPMI_DATA_SIZE, IPMI_MSG_MAX_LENGTH, IPMI_DATA_MAX_LENGTH, IPMB_RESP_HEADER_LENGTH in *. lia.
    + rewrite zlen_in_rdata; unfold SSIF_MAX_IPMI_DATA_SIZE, SSIF_BUFF_SIZE in *; lia.
  - cbn [mbind option_bind]. by destruct (_ =? _).
Qed.

Lemma write_more_total c b bytes d :
  is_more c -> zlen bytes <= SSIF_MAX_IPMI_DATA_SIZE -> request_room d ->
  im_data_len (sd_msg d) + zlen bytes <= IPMI_MSG_MAX_LENGTH ->
  is_Some (ssif_write_more c (Z.b2z b) (zlen (ssif_frame crc8 (sd_addr d) b c bytes))
             (in_rdata (ssif_frame crc8 (sd_addr d) b c bytes)) d).
Proof.
  intros Hc Hb [Hs Hl] Hm. pose proof (zlen_nonneg bytes).
  unfold ssif_write_more. rewrite in_rdata_len, zlen_frame. cbv zeta.
  destruct (length_check b bytes) as [-> ->]; [lia|]. cbn [negb].
  destruct (_ && _); [done|]. destruct (_ =? 0); [done|].
  rewrite mem_read_Some by (try rewrite zlen_in_rdata; unfold SSIF_MAX_IPMI_DATA_SIZE, SSIF_BUFF_SIZE in *; lia).
  cbn [mbind option_bind].
  destruct (mem_write_Some (im_data (sd_msg d)) (im_data_len (sd_msg d))
    (slice (in_rdata (ssif_frame crc8 (sd_addr d) b c bytes)) 2 (zlen bytes))) as [arr ->]; [lia| |].
  - rewrite in_rdata_body. lia.
  - cbn [mbind option_bind]. by destruct (_ =? _).
Qed.

Lemma write_more_undefined c b bytes d :
  is_more c -> zlen bytes <= SSIF_MAX_IPMI_DATA_SIZE -> request_room d ->
  ssif_write_more c (Z.b2z b) (zlen (ssif_frame crc8 (sd_addr d) b c bytes))
    (in_rdata (ssif_frame crc8 (sd_addr d) b c bytes)) d = None ->
  (c = SSIF_WR_MULTI_MIDDLE -> zlen bytes = SSIF_MAX_IPMI_DATA_SIZE) /\
  im_data_len (sd_msg d) <> 0 /\ IPMI_MSG_MAX_LENGTH < im_data_len (sd_msg d) + zlen bytes.
Proof.
  intros Hc Hb Hr En.
  destruct (Z.le_gt_cases (im_data_len (sd_msg d) + zlen bytes) IPMI_MSG_MAX_LENGTH) as [Hle|Hgt].
  { destruct (write_more_total c b bytes d Hc Hb Hr Hle). congruence. }
  revert En. unfold ssif_write_more. rewrite in_rdata_len, zlen_frame. cbv zeta. pose proof (zlen_nonneg bytes).
  destruct (length_check b bytes) as [-> ->]; [lia|]. cbn [negb].
  destruct ((c =? SSIF_WR_MULTI_MIDDLE) && negb (zlen bytes =? SSIF_MAX_IPMI_DATA_SIZE)) eqn:Em; [done|].
  destruct (Z.eqb_spec (im_data_len (sd_msg d)) 0); [done|]. intros _. split; [|by split].
  intros ->. change (SSIF_WR_MULTI_MIDDLE =? SSIF_WR_MULTI_MIDDLE) with true in Em. cbn [andb] in Em.
  apply negb_false_iff, Z.eqb_eq in Em. done.
Qed.

Lemma overrun_undefined f d :
  request_room d -> overruns f d -> ssif_receive crc8 0 f d = None.
Proof.
  intros [Hs Hl] (pec & c & bytes & -> & Hb & [(Hc & Hm & Hz)|(Hc & Hst & Hmid & Hne & Hz)]);
    rewrite receive_frame by auto; cbv zeta.
  - assert ((c =? SSIF_WR_SINGLE) || (c =? SSIF_WR_MULTI_START) = true) as -> by (destruct Hc as [-> | ->]; done).
    unfold ssif_write_start. rewrite in_rdata_len, zlen_frame. pose proof (zlen_nonneg bytes).
    destruct (length_check pec bytes) as [-> ->]; [lia|]. cbn [negb].
    assert (u16 (zlen bytes - 2) = zlen bytes + 65534) as Hu.
    { unfold u16. assert (zlen bytes = 0 \/ zlen bytes = 1) as [-> | ->] by lia; done. }
    rewrite Hu. destruct (Z.eqb_spec (zlen bytes + 65534) 0); [lia|]. cbn [negb].
    unfold mem_read. rewrite zlen_in_rdata by done.
    destruct (Z.leb_spec (4 + (zlen bytes + 65534)) SSIF_BUFF_SIZE) as [Hx|]; [unfold SSIF_BUFF_SIZE in Hx; lia|].
    by rewrite andb_false_r.
  - assert ((c =? SSIF_WR_SINGLE) || (c =? SSIF_WR_MULTI_START) = false) as -> by (destruct Hc as [-> | ->]; done).
    unfold ssif_write_more. rewrite in_rdata_len, zlen_frame. pose proof (zlen_nonneg bytes).
    destruct (length_check pec bytes) as [-> ->]; [lia|]. cbn [negb].
    assert ((c =? SSIF_WR_MULTI_MIDDLE) && negb (zlen bytes =? SSIF_MAX_IPMI_DATA_SIZE) = false) as ->.
    { destruct Hc as [-> | ->]; [|done]. by rewrite Hmid. }
    cbn [sd_msg ssif_state_machine]. apply Z.eqb_neq in Hne as ->.
    rewrite mem_read_Some by (try rewrite zlen_in_rdata; unfold SSIF_MAX_IPMI_DATA_SIZE, SSIF_BUFF_SIZE in *; lia).
    cbn [mbind option_bind]. unfold mem_write. rewrite in_rdata_body, Hs.
    destruct (Z.leb_spec (im_data_len (sd_msg d) + zlen bytes) IPMI_MSG_MAX_LENGTH); [lia|].
    by rewrite andb_false_r.
Qed.

Lemma pre_handle_write c d d1 :
  ssif_data_pre_handle c d = (d1, true) ->
  d1 = ssif_state_machine (busy_status c) d /\
  ((is_start c /\ may_start d) \/ (is_more c /\ sd_status d = SSIF_STATUS_WAIT_FOR_WR_NEXT)).
Proof.
  unfold ssif_data_pre_handle, ssif_status_check, is_start, is_more, may_start, busy_status.
  destruct (Z.eqb_spec c SSIF_RD_START) as [->|N1]; [done|].
  destruct (Z.eqb_spec c SSIF_RD_NEXT) as [->|N2]; [done|].
  destruct (Z.eqb_spec c SSIF_RD_RETRY) as [->|N3]; [done|]. cbn [orb].
  destruct (Z.eqb_spec c SSIF_WR_SINGLE) as [->|M1].
  { cbn [orb]. destruct (sd_status d); cbn; intros [= <-]; auto. }
  destruct (Z.eqb_spec c SSIF_WR_MULTI_START) as [->|M2].
  { cbn [orb]. destruct (sd_status d); cbn; intros [= <-]; auto. }
  destruct (Z.eqb_spec c SSIF_WR_MULTI_MIDDLE) as [->|M3].
  { cbn [orb]. destruct (sd_status d); cbn; intros [= <-]; auto. }
  destruct (Z.eqb_spec c SSIF_WR_MULTI_END) as [->|M4].
  { cbn [orb]. destruct (sd_status d); cbn; intros [= <-]; auto. }
  done.
Qed.

Lemma pec_check_defined addr f : zlen f <= SSIF_BUFF_SIZE -> ssif_pec_check crc8 addr (in_rdata f) (zlen f) <> None.
Proof.
  intros Hz. unfold ssif_pec_check. pose proof (zlen_nonneg f). destruct (Z.ltb_spec (zlen f) 2); [done|].
  destruct (_ =? 0); [done|]. rewrite mem_read_Some; [done|lia|lia|].
  unfold in_rdata. rewrite zlen_app, zlen_zeros; lia.
Qed.

Lemma receive_bounds f d :
  request_room d -> bytes_ok f -> zlen f <= SSIF_BUFF_SIZE ->
  (ssif_read_turn crc8 E 0 f d = None <-> overruns f d).
Proof.
  intros Hr Bf Hz. unfold ssif_read_turn. split.
  2: { intros Ho. by rewrite overrun_undefined. }
  destruct (ssif_receive crc8 0 f d) as [[d' next]|] eqn:Er; [done|]. intros _. revert Er.
  unfold ssif_receive. cbv zeta. fold (in_rdata f). rewrite Z.eqb_refl. cbn [negb].
  destruct (Z.eqb_spec (zlen f) 0) as [|Hz0]; [done|]. pose proof (zlen_nonneg f).
  destruct (ssif_data_pre_handle (rd (in_rdata f) 0) d) as [d1 ok] eqn:Ep.
  destruct ok; cbn [negb]; [|done]. destruct (pre_handle_write _ _ _ Ep) as [-> Hst].
  change (sd_addr (ssif_state_machine (busy_status (rd (in_rdata f) 0)) d)) with (sd_addr d).
  destruct (ssif_pec_check crc8 (sd_addr d) (in_rdata f) (zlen f)) as [[ok pec]|] eqn:Ec; cbn [mbind option_bind].
  2: { by apply pec_check_defined in Ec. }
  destruct ok; cbn [negb]; [|done].
  destruct (Z.eq_dec (rd (in_rdata f) 1) (zlen f - 2 - pec)) as [El|El].
  2: { apply Z.eqb_neq in El. unfold ssif_write_start, ssif_write_more. cbv zeta. rewrite El. cbn [negb].
       destruct (33 <? _); by repeat destruct (_ || _). }
  destruct (Z.ltb_spec 33 (zlen f - 1 - pec)) as [H33|H33].
  { unfold ssif_write_start, ssif_write_more. cbv zeta. destruct (Z.ltb_spec 33 (zlen f - 1 - pec)); [|lia].
    by repeat destruct (_ || _). }
  destruct (checked_frame f (sd_addr d) pec Hz) as (b & bytes & Ef & -> & Hn); [lia|done|done|done|].
  set (c := rd (in_rdata f) 0) in *.
  assert (zlen bytes <= SSIF_MAX_IPMI_DATA_SIZE) as Hb.
  { unfold SSIF_MAX_IPMI_DATA_SIZE. lia. }
  destruct Hst as [[Hc Hm]|[Hc Hm]].
  - assert ((c =? SSIF_WR_SINGLE) || (c =? SSIF_WR_MULTI_START) = true) as -> by (destruct Hc as [-> | ->]; done).
    intros Ew. exists b, c, bytes. split; [done|]. split; [done|]. left. split; [done|]. split; [done|].
    destruct (Z.lt_ge_cases (zlen bytes) 2); [done|]. exfalso.
    destruct (write_start_total c b bytes (ssif_state_machine (busy_status c) d) Hc) as [? Es];
      [lia|apply Hr|]. cbn [sd_addr ssif_state_machine] in Es. rewrite <- Ef in Es. congruence.
  - assert ((c =? SSIF_WR_SINGLE) || (c =? SSIF_WR_MULTI_START) = false) as -> by (destruct Hc as [-> | ->]; done).
    assert ((c =? SSIF_WR_MULTI_MIDDLE) || (c =? SSIF_WR_MULTI_END) = true) as -> by (destruct Hc as [-> | ->]; done).
    intros Ew. exists b, c, bytes. split; [done|]. split; [done|]. right. split; [done|]. split; [done|].
    rewrite Ef in Ew. exact (write_more_undefined c b bytes (ssif_state_machine (busy_status c) d) Hc Hb
      (Build_request_room (ssif_state_machine (busy_status c) d) (rr_size _ Hr) (rr_len _ Hr)) Ew).
Qed.

(** The thread's turn with what [ssif_data_handle] does with a complete request. *)
Definition ssif_turn (lock_ok : bool) (f : list Z) (d : ssif_dev) (q : list ipmi_msg)
    : option (ssif_dev * list ipmi_msg * list ssif_out) :=
  '(d, next) ← ssif_read_turn crc8 E 0 f d;
  match next with
  | SendIpmi => ssif_send_request P lock_ok d q
  | _ => Some (d, q, [])
  end.

(** A request to set the BIOS version that leaves no room for its network function and command
    in a buffer as large as its own array. *)
Definition version_overruns (d : ssif_dev) : Prop :=
  let msg := sd_msg d in
  pal_request_msg_to_BIC_from_HOST P (im_netfn msg) (im_cmd msg) = false /\
  pal_immediate_respond_from_HOST P (im_netfn msg) (im_cmd msg) = false /\
  im_netfn msg = NETFN_APP_REQ /\ im_cmd msg = CMD_APP_SET_SYS_INFO_PARAMS /\
  rd (im_data msg) 0 = CMD_SYS_INFO_FW_VERSION /\ IPMI_MSG_MAX_LENGTH - 2 < im_data_len msg.

(** The messages of the platform and the BMC are messages: an array of the size of the structure
    and an unsigned length. *)
Definition message (m : ipmi_msg) : Prop := zlen (im_data m) = IPMI_MSG_MAX_LENGTH /\ 0 <= im_data_len m.
Record platform_messages : Prop := {
  pm_sbmr : forall h m, smbr_cmd_handler P = Some h -> message m -> message (fst (h m));
  pm_ipmb : forall m r, bmc_ipmb_read P m = Some r -> message r;
  pm_pldm : forall m r, bmc_pldm_request P m = Some r -> message r }.

Lemma set_data_total lock_ok m d :
  message m -> zlen (sd_rsp_buff d) = IPMI_MSG_MAX_LENGTH -> is_Some (ssif_set_data_dev lock_ok m d).
Proof.
  intros [Hz Hn] Hb. change IPMI_MSG_MAX_LENGTH with 527 in *. unfold ssif_set_data_dev. destruct (negb (sd_mutex d)); [done|]. destruct (negb lock_ok); [done|].
  set (hdr := [im_netfn m; im_cmd m; im_completion_code m]). change IPMI_MSG_MAX_LENGTH with 527.
  destruct (mem_write_Some (sd_rsp_buff d) 0 hdr) as [b1 E1]; [lia|change (zlen hdr) with 3; lia|].
  rewrite E1. cbn [mbind option_bind]. apply mem_write_length in E1.
  set (n := if im_data_len m <=? 527 - 3 then im_data_len m else 527 - 3).
  assert (0 <= n <= 524) by (subst n; destruct (Z.leb_spec (im_data_len m) (527 - 3)); lia).
  rewrite mem_read_Some by lia. cbn [mbind option_bind]. destruct (negb _); [|done].
  destruct (mem_write_Some b1 3 (slice (im_data m) 0 n)) as [b2 ->]; [lia|rewrite zlen_slice by lia; lia|]. done.
Qed.

Lemma send_request_bounds lock_ok d q :
  platform_messages -> request_room d -> zlen (sd_rsp_buff d) = IPMI_MSG_MAX_LENGTH ->
  (ssif_send_request P lock_ok d q = None <-> version_overruns d).
Proof.
  intros HP [Hz Hn] Hb. unfold ssif_send_request, version_overruns. cbv zeta. set (m := sd_msg d) in *.
  change IPMI_MSG_MAX_LENGTH with 527 in *.
  destruct (pal_request_msg_to_BIC_from_HOST P _ _).
  { split; [|by intros [? _]]. destruct (smbr_cmd_handler P) as [h|] eqn:Eh; [|done]. destruct (_ =? _); [|done].
    destruct (h m) as [m' ret] eqn:Em. destruct ret; [|done].
    assert (Hm : message m') by (change m' with (fst (m', true)); rewrite <- Em; apply (pm_sbmr HP h m Eh); split; [done|lia]).
    destruct (set_data_total lock_ok m' (set_sd_msg m' d) Hm Hb) as [[d2 r2] ->]. done. }
  destruct (pal_immediate_respond_from_HOST P _ _).
  { split; [|by intros (_ & ? & _)].
    assert (Hi : exists req outs, immediate_response m = Some (req, outs) /\ message req).
    { unfold immediate_response. assert (Hz' : zlen (im_data (set_im_completion_code CC_SUCCESS (set_im_data_len 0 m))) = 527) by exact Hz.
      destruct (_ && _).
      - destruct (mem_write_Some (im_data (set_im_completion_code CC_SUCCESS (set_im_data_len 0 m))) 0 [0; 0]) as [b Eb];
          [lia|change (zlen [0; 0]) with 2; lia|].
        rewrite Eb. cbn [mbind option_bind]. eexists _, _. split; [done|]. split; [|done].
        apply mem_write_length in Eb. change (zlen b = 527). rewrite Eb. exact Hz.
      - destruct (_ && _); cbn [mbind option_bind]; eexists _, _; (split; [done|]; by split). }
    destruct Hi as (req & outs & -> & Hm). cbn [mbind option_bind].
    destruct (set_data_total lock_ok req d Hm Hb) as [[d2 r2] ->]. done. }
  assert (Hreq : exists r, bmc_request P d = Some r /\ match r with Some r => message r | None => True end).
  { unfold bmc_request. assert (Hc : exists c, construct_ipmi_message 0xFF (im_netfn (sd_msg d)) (im_cmd (sd_msg d)) SELF SSIF_BMC_IPMB
      (im_data_len (sd_msg d)) (im_data (sd_msg d)) = Some c).
    { unfold construct_ipmi_message. fold m. destruct (_ =? 0); [by eexists|]. rewrite mem_read_Some by lia. cbn [mbind option_bind].
      match goal with |- context [mem_write ?a 0 ?x] => destruct (mem_write_Some a 0 x) as [b ->] end; [lia| |by eexists].
      rewrite zlen_slice by lia. change (im_data_len m <= 527). lia. }
    destruct Hc as [c ->]. cbn [mbind option_bind]. eexists. split; [done|]. destruct (bmc_use_ipmb P).
    - destruct (bmc_ipmb_read P c) eqn:Ei; [by eapply pm_ipmb|done].
    - destruct (bmc_pldm_request P _) eqn:Ei; [by eapply pm_pldm|done]. }
  assert (Hset : forall outs, is_Some (rsp ← bmc_request P d;
    '(d, _) ← match rsp with
      | Some rsp => ssif_set_data_dev lock_ok (set_im_netfn (u8 ((im_netfn rsp .| BIT 0) .<< 2)) rsp) d
      | None => Some (d, false) end;
    Some (d, q, outs : list ssif_out))).
  { intros outs. destruct Hreq as (r & -> & Hr). cbn [mbind option_bind]. destruct r as [r|]; [|done].
    destruct (set_data_total lock_ok (set_im_netfn (u8 ((im_netfn r .| BIT 0) .<< 2)) r) d) as [[d2 r2] ->]; done. }
  unfold bios_version_record.
  destruct (Z.eqb_spec (im_netfn m) NETFN_APP_REQ) as [E1|E1]; cbn [andb mbind option_bind].
  2: { destruct (Hset []) as [x ->]. split; [done|]. by intros (_ & _ & ? & _). }
  destruct (Z.eqb_spec (im_cmd m) CMD_APP_SET_SYS_INFO_PARAMS) as [E2|E2]; cbn [andb mbind option_bind].
  2: { destruct (Hset []) as [x ->]. split; [done|]. by intros (_ & _ & _ & ? & _). }
  destruct (Z.eqb_spec (rd (im_data m) 0) CMD_SYS_INFO_FW_VERSION) as [E3|E3]; cbn [mbind option_bind].
  2: { destruct (Hset []) as [x ->]. split; [done|]. by intros (_ & _ & _ & _ & ? & _). }
  rewrite mem_read_Some by lia. cbn [mbind option_bind].
  destruct (mem_write_Some (zeros IPMI_MSG_MAX_LENGTH) 0 [im_netfn m; im_cmd m]) as [b1 Eb]; [lia|done|].
  rewrite Eb. cbn [mbind option_bind]. apply mem_write_length in Eb. change (zlen (zeros IPMI_MSG_MAX_LENGTH)) with 527 in Eb.
  destruct (Z.le_gt_cases (im_data_len m) 525) as [Hle|Hgt].
  - destruct (mem_write_Some b1 2 (slice (im_data m) 0 (im_data_len m))) as [b2 ->]; [lia|rewrite zlen_slice by lia; lia|].
    cbn [mbind option_bind]. match goal with |- context [Some (_, _, ?o)] => destruct (Hset o) as [x ->] end. split; [done|].
    intros (_ & _ & _ & _ & _ & ?). lia.
  - assert (mem_write b1 2 (slice (im_data m) 0 (im_data_len m)) = None) as ->.
    { unfold mem_write. rewrite zlen_slice by lia. destruct (Z.leb_spec (2 + im_data_len m) (zlen b1)); [lia|]. by rewrite andb_false_r. }
    cbn [mbind option_bind]. split; [|done]. intros _. by split_and!.
Qed.

(** A complete request still fits the arrays of the channel. *)
Lemma sent_room f d d' :
  request_room d -> ssif_read_turn crc8 E 0 f d = Some (d', SendIpmi) -> request_room d' /\ sd_rsp_buff d' = sd_rsp_buff d.
Proof.
  intros Hr E1. unfold ssif_read_turn in E1. destruct (ssif_receive crc8 0 f d) as [[d1 n1]|] eqn:Er; [|done].
  cbn [mbind option_bind] in E1. injection E1 as <- ->. pose proof (receive_io _ _ _ _ _ _ Er) as Hio. split; [|unfold chan_io in Hio; congruence].
  clear Hio. unfold ssif_receive in Er. cbv zeta in Er. destruct (negb (0 =? 0)); [done|]. destruct (zlen f =? 0); [done|].
  destruct (ssif_data_pre_handle _ d) as [d2 ok] eqn:Ep. destruct ok; [|done]. cbn [negb] in Er.
  apply pre_handle_write in Ep as [-> _].
  destruct (ssif_pec_check _ _ _ _) as [[ok pec]|]; [|done]. cbn [mbind option_bind] in Er. destruct ok; [|done]. cbn [negb] in Er.
  set (d2 := ssif_state_machine _ d) in Er. assert (Hr2 : request_room d2) by (destruct Hr; by split). clearbody d2. destruct Hr2 as [Hz Hn].
  destruct (_ || _).
  - unfold ssif_write_start in Er. cbv zeta in Er. destruct (33 <? _); [done|]. destruct (negb _); [done|].
    set (n := u16 _) in Er. assert (0 <= n) by apply u16_range.
    destruct (Z.eqb_spec n 0); cbn [negb mbind option_bind] in Er.
    + destruct (_ =? _); [done|]. injection Er as <-. split; [exact Hz|]. cbn [sd_msg set_sd_msg im_data_len set_im_data_len set_im_cmd set_im_netfn]. 
      change IPMI_MSG_MAX_LENGTH with 527. change (0 <= n <= 527). lia.
    + destruct (mem_read _ 4 n) as [src|] eqn:E2; [|done]. cbn [mbind option_bind] in Er.
      destruct (mem_write _ 0 src) as [arr|] eqn:E3; [|done]. cbn [mbind option_bind] in Er.
      destruct (_ =? _); [done|]. injection Er as <-. pose proof (mem_write_length _ _ _ _ E3) as L3. change (zlen arr = zlen (im_data (sd_msg d2))) in L3.
      assert (zlen src = n) by (unfold mem_read in E2; case_bools; apply zlen_slice; lia).
      split; [change (zlen arr = IPMI_MSG_MAX_LENGTH); congruence|]. change (0 <= n <= IPMI_MSG_MAX_LENGTH). unfold mem_write in E3.
      destruct (Z.leb_spec (0 + zlen src) (zlen (im_data (sd_msg d2)))) as [Hle|Hle]; [lia|].
      change (im_data (set_im_data_len _ _)) with (im_data (sd_msg d2)) in E3. apply Z.leb_gt in Hle. rewrite Hle, andb_false_r in E3. done.
  - destruct (_ || _); [|done]. unfold ssif_write_more in Er. cbv zeta in Er. destruct (33 <? _); [done|]. destruct (negb _); [done|].
    destruct (_ && _); [done|]. destruct (_ =? 0); [done|].
    set (n := rd _ 1) in Er. destruct (mem_read _ 2 n) as [src|] eqn:E2; [|done]. cbn [mbind option_bind] in Er.
    destruct (mem_write _ _ src) as [arr|] eqn:E3; [|done]. cbn [mbind option_bind] in Er.
    destruct (_ =? _); [done|]. injection Er as <-. pose proof (mem_write_length _ _ _ _ E3) as L3.
    assert (zlen src = n /\ 0 <= n) as [Hs Hn0] by (unfold mem_read in E2; case_bools; split; [apply zlen_slice|]; lia).
    split; [change (zlen arr = IPMI_MSG_MAX_LENGTH); congruence|].
    change (0 <= u16 (im_data_len (sd_msg d2) + n) <= IPMI_MSG_MAX_LENGTH). unfold mem_write in E3.
    destruct (Z.leb_spec (im_data_len (sd_msg d2) + zlen src) (zlen (im_data (sd_msg d2)))) as [Hle|Hle].
    + rewrite u16_id; rewrite Hz, Hs in Hle; change IPMI_MSG_MAX_LENGTH with 527 in *; lia.
    + by rewrite andb_false_r in E3.
Qed.

End bounds.

(** ** The address comes back *)

(** The looks of the monitor at a channel, at the times [nows]. *)
Definition ssif_looks (bus_ok : Z -> bool) (nows : list Z) (d : ssif_dev) : ssif_dev :=
  fold_left (fun d now => ssif_timeout_check (mk_ssif_env now bus_ok true) d) nows d.

(** What the monitor does to a channel whose time has come. *)
Definition ssif_released (d : ssif_dev) : ssif_dev :=
  ssif_reset (set_sd_hw_addr (sd_addr d) (set_sd_lock false (ssif_error_record SSIF_STATUS_ADDR_LCK_TIMEOUT d))).

Lemma timeout_check_exact bus_ok now d :
  bus_ok (sd_i2c_bus d) = true -> 0 <= sd_addr d < 128 ->
  ssif_timeout_check (mk_ssif_env now bus_ok true) d =
    if sd_addr_lock d && (sd_exp_to_ms d <=? now) then ssif_released d else d.
Proof.
  intros Hb Ha. unfold ssif_timeout_check. destruct (sd_addr_lock d); [|done]. cbn [negb andb se_now].
  destruct (sd_exp_to_ms d <=? now); [|done]. unfold ssif_released, ssif_lock_ctl, i2c_addr_set.
  assert (sd_i2c_bus (ssif_error_record SSIF_STATUS_ADDR_LCK_TIMEOUT d) = sd_i2c_bus d /\
    sd_addr (ssif_error_record SSIF_STATUS_ADDR_LCK_TIMEOUT d) = sd_addr d) as [E1 E2] by done.
  cbn [sd_i2c_bus set_sd_lock se_bus_ok sd_addr]. rewrite E1, E2, Hb. cbn [negb]. by rewrite addr_bits.
Qed.

(** C34: a request that is never answered keeps the BIC off the bus for a bounded time: from the moment
    a last message takes the address away, every look of the monitor before [SSIF_TIMEOUT_MS] (5000
    unless the platform says otherwise) are over
    leaves the channel as it is, and the first look after them puts the address back and lets
    the channel wait for a new request; later looks change nothing. *)
Theorem ssif_lock_released E nows d :
  se_bus_ok E (sd_i2c_bus d) = true -> 0 <= sd_addr d < 128 ->
  let locked := ssif_drop_dev E d in
  let late := existsb (fun now => se_now E + SSIF_TIMEOUT_MS <=? now) nows in
  sd_hw_addr locked = 0 /\
  ssif_looks (se_bus_ok E) nows locked = (if late then ssif_released locked else locked) /\
  sd_hw_addr (ssif_released locked) = sd_addr d /\
  sd_status (ssif_released locked) = SSIF_STATUS_WAIT_FOR_WR_START.
Proof.
  intros Hb Ha. cbv zeta. rewrite (drop_dev_ok E d Hb). set (l := drop_if E true d).
  split; [done|]. split; [|done].
  assert (forall nows d', sd_addr_lock d' = false -> sd_i2c_bus d' = sd_i2c_bus d -> sd_addr d' = sd_addr d ->
    ssif_looks (se_bus_ok E) nows d' = d') as Hdone.
  { clear nows. induction nows as [|now nows IH]; intros d' H1 H2 H3; [done|]. cbn [ssif_looks fold_left].
    rewrite timeout_check_exact by (rewrite ?H2, ?H3; done). rewrite H1. by apply IH. }
  induction nows as [|now nows IH]; [done|]. cbn [ssif_looks fold_left existsb].
  rewrite timeout_check_exact by done.
  change (sd_addr_lock l) with true. change (sd_exp_to_ms l) with (se_now E + SSIF_TIMEOUT_MS). cbn [andb].
  destruct (se_now E + SSIF_TIMEOUT_MS <=? now); cbn [orb]; [by apply Hdone|exact IH].
Qed.

(** ** A response that comes too late *)

(** C39: a response that arrives after the 1500 ms stays with its semaphore: the next request is
    answered at once with the response to the one before, while its own response is still to
    come, and the channel stays one response behind. *)
Theorem ssif_late_response E P d q rsp1 rsp2 :
  sd_mutex d = true -> sd_sem d = 0 -> sd_sem_limit d = 1 -> zlen (sd_rsp_buff d) = IPMI_MSG_MAX_LENGTH ->
  se_bus_ok E (sd_i2c_bus d) = true -> 0 <= sd_addr d < 128 ->
  zlen (im_data rsp1) = IPMI_MSG_MAX_LENGTH -> 0 <= im_data_len rsp1 <= IPMI_MSG_MAX_LENGTH - 3 ->
  zlen (im_data rsp2) = IPMI_MSG_MAX_LENGTH -> 0 <= im_data_len rsp2 <= IPMI_MSG_MAX_LENGTH - 3 ->
  let d1 := ssif_send_done E d in
  sd_status d1 = SSIF_STATUS_WAIT_FOR_WR_START /\
  exists d2, ssif_set_data_dev true rsp1 d1 = Some (d2, true) /\
    forall msg, to_bic P (im_netfn msg) (im_cmd msg) ->
      let d3 := set_sd_msg msg d2 in
      ssif_send_request P true d3 q = Some (d3, put_ipmi_msgq msg q, []) /\
      let d4 := ssif_send_done E d3 in
      sd_status d4 = SSIF_STATUS_WAIT_FOR_RD_START /\
      slice (sd_rsp_buff d4) 0 (sd_rsp_buf_len d4)
        = [im_netfn rsp1; im_cmd rsp1; im_completion_code rsp1] ++ payload rsp1 /\
      exists d5, ssif_set_data_dev true rsp2 d4 = Some (d5, true) /\ sd_sem d5 = 1.
Proof.
  intros Hm Hs Hl Hb Hok Ha Z1 N1 Z2 N2.
  assert (ssif_send_done E d = ssif_reset (ssif_error_record SSIF_STATUS_RSP_MSG_TIMEOUT d)) as ->
    by (unfold ssif_send_done, ssif_wait_response; by rewrite Hs).
  cbv zeta. split; [done|]. set (d1 := ssif_reset _).
  destruct (set_data_ok rsp1 d1) as (buf & -> & Lb & Sb); try done.
  eexists. split; [done|]. intros msg Hto.
  assert (sem_give (set_sd_rsp buf (im_data_len rsp1 + 3) d1)
    = set_sd_sem 1 1 (set_sd_rsp buf (im_data_len rsp1 + 3) d1)) as ->.
  { unfold sem_give. cbn [sd_sem sd_sem_limit set_sd_rsp].
    change (sd_sem d1) with (sd_sem d). change (sd_sem_limit d1) with (sd_sem_limit d). by rewrite Hs, Hl. }
  split; [by apply send_request_bic|]. rewrite send_done_ok by done.
  split; [done|]. split; [exact Sb|].
  match goal with |- context [ssif_set_data_dev true rsp2 ?x] =>
    destruct (set_data_ok rsp2 x) as (buf2 & -> & _ & _) end; try done.
  eexists. by split.
Qed.

(** ** Initialisation *)

Section init.
Context {Q : Type} `{HT : target_msgq Q} `{HL : !target_msgq_laws Q}.
Implicit Types tgts : list (i2c_target_device Q unit).

Lemma shiftr1_range a : 0 <= a < 256 -> 0 <= a .>> 1 < 128.
Proof. intros Ha. rewrite Z.shiftr_div_pow2 by lia. change (2 ^ 1) with 2. Z.div_mod_to_equations. lia. Qed.

(** A platform with one channel: its initialisation puts the channel in the state in which
    requests are served. *)
Lemma ssif_init_idle T bus_max cfg tgts :
  cfg_env_ok T (ic_bus cfg) -> target_shape (ic_bus cfg) tgts -> ic_bus cfg < bus_max ->
  0 <= ic_addr cfg < 256 -> u16 (ic_msgq_cnt cfg) <> 0 ->
  exists tgts' d, ssif_device_init true T bus_max true true [cfg] tgts = (tgts', [d], [true]) /\
    ssif_idle T (ic_bus cfg) tgts' d /\ sd_addr d = ic_addr cfg .>> 1.
Proof.
  intros HE S Hb Ha Hc.
  destruct (target_control_serves T (ic_bus cfg)
    (mk_target_config (ic_addr cfg) (ic_msgq_cnt cfg) (Some tt) (Some tt)) tgts HE S) as (tgts' & Et & R).
  cbn [tc_msg_count tc_address tc_post tc_collect] in Et, R.
  destruct (R Hc) as (W & Hr & Hp & _ & Hadr & Hpo & Hco).
  apply Z.eqb_neq in Hc. rewrite Hc in Et.
  unfold ssif_device_init. cbn [negb ssif_init_loop length replicate]. unfold ssif_init_one.
  destruct (Z.leb_spec bus_max (ic_bus cfg)); [lia|]. rewrite Et. cbn [negb Z.eqb].
  change (I2C_TARGET_API_NO_ERR =? 0) with true. cbn [negb].
  eexists tgts', _. split; [reflexivity|]. split; [|done].
  split; try done.
  - split; try done. apply HE.
  - by left.
  - by apply shiftr1_range.
  - by apply Forall_replicate.
Qed.

(** No initialisation reaches the mutex of a further channel: the calls name the first one. *)
Lemma init_one_mutex T bus_max m s i cfg tgts devs j :
  (1 <= j)%nat -> (forall d, devs !! j = Some d -> sd_mutex d = false) ->
  forall d, (let '(_, devs, _) := ssif_init_one T bus_max m s i cfg tgts devs in devs) !! j = Some d ->
    sd_mutex d = false.
Proof.
  intros Hj Hd d. unfold ssif_init_one. destruct (bus_max <=? ic_bus cfg); [apply Hd|].
  destruct (i2c_target_control _ _ _ _ _) as [t ret]. destruct (negb (ret =? 0)); [apply Hd|].
  destruct (negb m); [apply Hd|].
  destruct (negb s); [rewrite list_lookup_alter_ne by lia; apply Hd|].
  rewrite list_lookup_alter. destruct (decide (Z.to_nat i = j)) as [Ej|Ej].
  - rewrite Ej, !list_lookup_alter_ne by lia. destruct (devs !! j) as [d0|] eqn:E0; [|done].
    cbn. intros [= <-]. exact (Hd d0 eq_refl).
  - rewrite !list_lookup_alter_ne by lia. apply Hd.
Qed.

Lemma init_loop_mutex T bus_max m s config i tgts devs j :
  (1 <= j)%nat -> (forall d, devs !! j = Some d -> sd_mutex d = false) ->
  forall d, (let '(_, devs, _) := ssif_init_loop T bus_max m s i config tgts devs in devs) !! j = Some d ->
    sd_mutex d = false.
Proof.
  intros Hj. revert i tgts devs. induction config as [|cfg config IH]; intros i tgts devs Hd d; [apply Hd|].
  cbn [ssif_init_loop]. pose proof (init_one_mutex T bus_max m s i cfg tgts devs j Hj Hd) as H1.
  destruct (ssif_init_one _ _ _ _ _ _ _ _) as [[t1 d1] b1]. pose proof (IH (i + 1) t1 d1 H1) as H2.
  destruct (ssif_init_loop _ _ _ _ _ _ _ _) as [[t2 d2] b2]. apply H2.
Qed.

(** So a second channel never gets a response: [ssif_set_data] refuses each one. *)
Lemma ssif_second_channel_mute mo T bus_max m s config tgts lock_ok channel msg :
  1 <= channel ->
  let '(_, devs, _) := ssif_device_init mo T bus_max m s config tgts in
  ssif_set_data lock_ok devs channel msg = Some (devs, false).
Proof.
  intros Hc. unfold ssif_device_init. destruct mo; cbn [negb].
  - pose proof (init_loop_mutex T bus_max m s config 0 tgts (replicate (length config) zero_ssif)
      (Z.to_nat channel)) as Hm.
    destruct (ssif_init_loop _ _ _ _ _ _ _ _) as [[t d] b]. unfold ssif_set_data.
    destruct (d !! Z.to_nat channel) as [c|] eqn:Ec; [|done].
    unfold ssif_set_data_dev. rewrite (Hm ltac:(lia)) with (d := c); [|by intros ? [-> _]%lookup_replicate|done].
    cbn [negb mbind option_bind]. by rewrite list_insert_id.
  - unfold ssif_set_data. by rewrite lookup_nil.
Qed.
End init.

End configured.

(** Where the platform defines nothing. *)
#[export] Instance ssif_defaults : SsifConfig := mk_ssif_config 5000.

(** ** Instances *)

(** A service that answers every request with 40 bytes and counts them. *)
Definition forty_bytes (msg : ipmi_msg) (s : Z) : option (ipmi_msg * Z) :=
  Some (set_im_data_len 40 (set_im_completion_code CC_SUCCESS msg), s + 1).

#[local] Instance forty_handlers : IpmiHandlers Z :=
  {| IPMI_CHASSIS_handler := forty_bytes; IPMI_SENSOR_handler := forty_bytes;
     IPMI_APP_handler := forty_bytes; IPMI_Storage_handler := forty_bytes;
     IPMI_OEM_handler := forty_bytes; IPMI_OEM_1S_handler := forty_bytes |}.

Lemma forty_ok : handler_ok (fun _ : Z => True) forty_bytes.
Proof. intros m s (H1 & H2 & _) _. eexists _, _. split; [done|]. by repeat split. Qed.

#[local] Instance forty_handlers_ok : IpmiHandlersOk Z :=
  {| handlers_inv := fun _ => True; chassis_ok := forty_ok; sensor_ok := forty_ok; app_ok := forty_ok;
     storage_ok := forty_ok; oem_ok := forty_ok; oem_1s_ok := forty_ok |}.

Definition demo_platform_ssif : ssif_platform :=
  mk_ssif_platform (fun netfn cmd => (netfn =? NETFN_APP_REQ) && (cmd =? 0x37)) (fun _ _ => false)
    None false (fun _ => None) (fun _ => None).
Definition demo_ssif_env : ssif_env := mk_ssif_env 1000 (fun _ => true) true.
Definition demo_ssif_cfg : ssif_init_cfg := mk_ssif_cfg 6 0x20 10.

Lemma ssif_request_served_witness :
  exists tgts d, ssif_device_init true demo_target_env 14 true true [demo_ssif_cfg] (replicate 16 zero_target)
      = (tgts, [d], [true]) /\
    exists msg cc r tgts' d' s', im_netfn msg = 0x18 .>> 2 /\ im_cmd msg = 0x37 /\ payload msg = zeros 60 /\
      ipmi_serve msg 7 = Some (cc, r, s') /\
      ssif_exchange (Q := list_msgq) crc8_smbus true demo_ssif_env demo_platform_ssif
        (mk_ipmi_config false false true false) demo_target_env 6
        (ssif_request_frames crc8_smbus (sd_addr d) true 0x18 0x37 (zeros 60)) tgts d [] 7 =
        Some (tgts', [d'], [u8 ((0x18 .>> 2 + 1) .<< 2); 0x37; cc] ++ r, s') /\
      ssif_idle demo_target_env 6 tgts' d' /\ handlers_inv s'.
Proof.
  destruct (ssif_init_idle (Q := list_msgq) demo_target_env 14 demo_ssif_cfg (replicate 16 zero_target))
    as (tgts & d & E & I & _);
    [by repeat split|by apply power_on_shape|done|done|done|].
  exists tgts, d. split; [exact E|].
  apply (ssif_request_served crc8_smbus true demo_ssif_env demo_platform_ssif
    (mk_ipmi_config false false true false) demo_target_env 6 true 0x18 0x37 (zeros 60) tgts d [] 7 I);
    try done.
  - by apply Forall_replicate.
  - split; [done|]. split; [by left|done].
  - intros m cc r s' En Ec _ Ev. unfold ipmi_serve in Ev. rewrite En in Ev.
    change (plain_handler (24 .>> 2)) with (Some IPMI_APP_handler) in Ev.
    cbn [IPMI_APP_handler forty_handlers forty_bytes mbind option_bind] in Ev.
    injection Ev as <- <- <-. transitivity 40; [|done].
    unfold payload, slice, zlen. cbn. rewrite length_take. lia.
Defined.

Definition version_channel : ssif_dev :=
  ssif_state_machine SSIF_STATUS_WAIT_FOR_WR_NEXT (set_sd_msg (set_im_data (1 :: zeros 526) (set_im_data_len 494
    (set_im_cmd CMD_APP_SET_SYS_INFO_PARAMS (set_im_netfn NETFN_APP_REQ zero_ipmi_msg)))) zero_ssif).


Lemma ssif_lock_released_witness :
  ssif_looks (fun _ => true) [1100; 6000; 6100] (ssif_drop_dev demo_ssif_env zero_ssif)
    = ssif_released (ssif_drop_dev demo_ssif_env zero_ssif).
Proof.
  destruct (ssif_lock_released demo_ssif_env [1100; 6000; 6100] zero_ssif) as (_ & H & _); [done..|]. exact H.
Defined.

Definition demo_channel : ssif_dev := set_sd_mutex true (set_sd_sem 0 1 zero_ssif).

Lemma ssif_late_response_witness :
  sd_status (ssif_send_done demo_ssif_env demo_channel) = SSIF_STATUS_WAIT_FOR_WR_START /\
  exists d2, ssif_set_data_dev true (set_im_cmd 1 zero_ipmi_msg) (ssif_send_done demo_ssif_env demo_channel)
      = Some (d2, true) /\
    let d3 := set_sd_msg (set_im_cmd 0x37 (set_im_netfn NETFN_APP_REQ zero_ipmi_msg)) d2 in
    let d4 := ssif_send_done demo_ssif_env d3 in
    slice (sd_rsp_buff d4) 0 (sd_rsp_buf_len d4) = [0; 1; 0].
Proof.
  destruct (ssif_late_response demo_ssif_env demo_platform_ssif demo_channel []
    (set_im_cmd 1 zero_ipmi_msg) zero_ipmi_msg) as (H1 & d2 & H2 & H3); try done.
  split; [exact H1|]. exists d2. split; [exact H2|].
  destruct (H3 (set_im_cmd 0x37 (set_im_netfn NETFN_APP_REQ zero_ipmi_msg))) as (_ & _ & H4 & _); [|exact H4].
  split; [done|]. split; [by left|done].
Defined.
