(* ===== verification/PldmFwState.v ===== *)
(** Component [common/service/pldm/pldm_firmware_update.c], the state of an update and
    the commands of the update agent: the firmware device's state machine of
    PLDM type 5 as the request handlers move it. The thread that fetches the image is
    in [PldmFwTransfer.v]. *)

From Stdlib Require Import String Ascii.
From S2P Require Import Prelude Bytes PldmCore PldmBase.

(** ** Constants *)

(** [pldm_firmware_update_state] *)
Definition STATE_IDLE : Z := 0.
Definition STATE_LEARN_COMP : Z := 1.
Definition STATE_RDY_XFER : Z := 2.
Definition STATE_DOWNLOAD : Z := 3.
Definition STATE_VERIFY : Z := 4.
Definition STATE_APPLY : Z := 5.
Definition STATE_ACTIVATE : Z := 6.

(** [pldm_firmware_update_aux_state] *)
Definition STATE_AUX_INPROGRESS : Z := 0.
Definition STATE_AUX_SUCCESS : Z := 1.
Definition STATE_AUX_FAILED : Z := 2.
Definition STATE_AUX_NOT_IN_UPDATE : Z := 3.

(** [pldm_firmware_update_completion_codes] the handlers answer *)
Definition PLDM_FW_UPDATE_CC_NOT_IN_UPDATE_MODE : Z := 0x80.
Definition PLDM_FW_UPDATE_CC_ALREADY_IN_UPDATE_MODE : Z := 0x81.
Definition PLDM_FW_UPDATE_CC_INVALID_STATE_FOR_COMMAND : Z := 0x84.
Definition PLDM_FW_UPDATE_CC_SELF_CONTAINED_ACTIVATION_NOT_PERMITTED : Z := 0x8C.

Definition COMP_RSP_CAN_UPDATE : Z := 0x00.
Definition COMP_RSP_FD_NOT_SUPPORT : Z := 0x06.
Definition COMP_RSP_UNKNOWN_ERR : Z := 0xD0.

Definition COMP_ACT_SELF : Z := 0x0002.
Definition COMP_ACT_DC_PWR_CYCLE : Z := 0x0010.
Definition COMP_ACT_AC_PWR_CYCLE : Z := 0x0020.

Definition PLDM_COMP_DOWNSTREAM_DEVICE : Z := 0xFFFF.
Definition PLDM_NOT_ACTIVATE_SELF_CONTAINED_COMPONENTS : Z := 0.
Definition PLDM_NO_SUPPORT_PROGRESS_PERCENT : Z := 0x65.
Definition MAX_FWUPDATE_RSP_BUF_SIZE : Z := 256.
Definition MIN_FW_UPDATE_BASELINE_TRANS_SIZE : Z := 32.
Definition UPDATE_THREAD_DELAY_SECOND : Z := 1.

(** Sizes of the packed request structs. *)
Definition sizeof_request_update_req : Z := 11.
Definition sizeof_pass_component_table_req : Z := 12.
Definition sizeof_update_component_req : Z := 19.

(** ** Data *)

(** A row of the platform's component table. A function pointer is the number of the
    function, [None] for [NULL]; strings have no NUL. *)
Record pldm_fw_update_info := mk_fw_info {
  fi_enable : bool;
  fi_comp_classification : Z;
  fi_comp_identifier : Z;
  fi_comp_classification_index : Z;
  fi_pre_update_func : option Z;
  fi_update_func : option Z;
  fi_pos_update_func : option Z;
  fi_inf : Z;
  fi_activate_method : Z;
  fi_self_apply_work_func : option Z;
  fi_self_act_func : option Z;
  fi_pending_version : option (list Z);
  fi_comp_version_str : option (list Z) }.

Definition set_fi_pending_version (v : option (list Z)) (i : pldm_fw_update_info)
    : pldm_fw_update_info :=
  mk_fw_info (fi_enable i) (fi_comp_classification i) (fi_comp_identifier i)
    (fi_comp_classification_index i) (fi_pre_update_func i) (fi_update_func i)
    (fi_pos_update_func i) (fi_inf i) (fi_activate_method i) (fi_self_apply_work_func i)
    (fi_self_act_func i) v (fi_comp_version_str i).

(** The static variables of the file: [update_mode_timer] and [fw_update_tid] tell
    whether the timer runs and whether the handle is set. *)
Record fw_state := mk_fw_state {
  cur_aux_state : Z;
  current_state : Z;
  previous_state : Z;
  cur_update_comp_cnt : Z;
  rcv_comp_cnt : Z;
  cur_update_comp_id : Z;
  cur_update_comp_str : list Z;
  keep_update_flag : bool;
  image_size : Z;
  max_buff_size : Z;
  update_mode_timer : bool;
  fw_update_tid : bool;
  comp_config : list pldm_fw_update_info }.

Definition set_cur_aux_state (v : Z) (st : fw_state) : fw_state :=
  mk_fw_state v (current_state st) (previous_state st) (cur_update_comp_cnt st) (rcv_comp_cnt st) (cur_update_comp_id st) (cur_update_comp_str st) (keep_update_flag st) (image_size st) (max_buff_size st) (update_mode_timer st) (fw_update_tid st) (comp_config st).
Definition set_current_state (v : Z) (st : fw_state) : fw_state :=
  mk_fw_state (cur_aux_state st) v (previous_state st) (cur_update_comp_cnt st) (rcv_comp_cnt st) (cur_update_comp_id st) (cur_update_comp_str st) (keep_update_flag st) (image_size st) (max_buff_size st) (update_mode_timer st) (fw_update_tid st) (comp_config st).
Definition set_previous_state (v : Z) (st : fw_state) : fw_state :=
  mk_fw_state (cur_aux_state st) (current_state st) v (cur_update_comp_cnt st) (rcv_comp_cnt st) (cur_update_comp_id st) (cur_update_comp_str st) (keep_update_flag st) (image_size st) (max_buff_size st) (update_mode_timer st) (fw_update_tid st) (comp_config st).
Definition set_cur_update_comp_cnt (v : Z) (st : fw_state) : fw_state :=
  mk_fw_state (cur_aux_state st) (current_state st) (previous_state st) v (rcv_comp_cnt st) (cur_update_comp_id st) (cur_update_comp_str st) (keep_update_flag st) (image_size st) (max_buff_size st) (update_mode_timer st) (fw_update_tid st) (comp_config st).
Definition set_rcv_comp_cnt (v : Z) (st : fw_state) : fw_state :=
  mk_fw_state (cur_aux_state st) (current_state st) (previous_state st) (cur_update_comp_cnt st) v (cur_update_comp_id st) (cur_update_comp_str st) (keep_update_flag st) (image_size st) (max_buff_size st) (update_mode_timer st) (fw_update_tid st) (comp_config st).
Definition set_cur_update_comp_id (v : Z) (st : fw_state) : fw_state :=
  mk_fw_state (cur_aux_state st) (current_state st) (previous_state st) (cur_update_comp_cnt st) (rcv_comp_cnt st) v (cur_update_comp_str st) (keep_update_flag st) (image_size st) (max_buff_size st) (update_mode_timer st) (fw_update_tid st) (comp_config st).
Definition set_cur_update_comp_str (v : list Z) (st : fw_state) : fw_state :=
  mk_fw_state (cur_aux_state st) (current_state st) (previous_state st) (cur_update_comp_cnt st) (rcv_comp_cnt st) (cur_update_comp_id st) v (keep_update_flag st) (image_size st) (max_buff_size st) (update_mode_timer st) (fw_update_tid st) (comp_config st).
Definition set_keep_update_flag (v : bool) (st : fw_state) : fw_state :=
  mk_fw_state (cur_aux_state st) (current_state st) (previous_state st) (cur_update_comp_cnt st) (rcv_comp_cnt st) (cur_update_comp_id st) (cur_update_comp_str st) v (image_size st) (max_buff_size st) (update_mode_timer st) (fw_update_tid st) (comp_config st).
Definition set_image_size (v : Z) (st : fw_state) : fw_state :=
  mk_fw_state (cur_aux_state st) (current_state st) (previous_state st) (cur_update_comp_cnt st) (rcv_comp_cnt st) (cur_update_comp_id st) (cur_update_comp_str st) (keep_update_flag st) v (max_buff_size st) (update_mode_timer st) (fw_update_tid st) (comp_config st).
Definition set_max_buff_size (v : Z) (st : fw_state) : fw_state :=
  mk_fw_state (cur_aux_state st) (current_state st) (previous_state st) (cur_update_comp_cnt st) (rcv_comp_cnt st) (cur_update_comp_id st) (cur_update_comp_str st) (keep_update_flag st) (image_size st) v (update_mode_timer st) (fw_update_tid st) (comp_config st).
Definition set_update_mode_timer (v : bool) (st : fw_state) : fw_state :=
  mk_fw_state (cur_aux_state st) (current_state st) (previous_state st) (cur_update_comp_cnt st) (rcv_comp_cnt st) (cur_update_comp_id st) (cur_update_comp_str st) (keep_update_flag st) (image_size st) (max_buff_size st) v (fw_update_tid st) (comp_config st).
Definition set_fw_update_tid (v : bool) (st : fw_state) : fw_state :=
  mk_fw_state (cur_aux_state st) (current_state st) (previous_state st) (cur_update_comp_cnt st) (rcv_comp_cnt st) (cur_update_comp_id st) (cur_update_comp_str st) (keep_update_flag st) (image_size st) (max_buff_size st) (update_mode_timer st) v (comp_config st).
Definition set_comp_config (v : list pldm_fw_update_info) (st : fw_state) : fw_state :=
  mk_fw_state (cur_aux_state st) (current_state st) (previous_state st) (cur_update_comp_cnt st) (rcv_comp_cnt st) (cur_update_comp_id st) (cur_update_comp_str st) (keep_update_flag st) (image_size st) (max_buff_size st) (update_mode_timer st) (fw_update_tid st) v.

(** The NUL-terminated string at the start of an array. *)
Fixpoint cstr (l : list Z) : list Z :=
  match l with
  | [] => []
  | c :: l => if c =? 0 then [] else c :: cstr l
  end.

(** The characters of a string literal, without its NUL. *)
Definition str (s : string) : list Z := (fun c => Z.of_N (N_of_ascii c)) <$> list_ascii_of_string s.

(** "unknown" with its NUL, and the initial value of the 100-byte array. *)
Definition unknown_str : list Z := str "unknown" ++ [0].
Definition initial_comp_str : list Z := unknown_str ++ zeros 92.

Definition fw_init (config : list pldm_fw_update_info) : fw_state :=
  mk_fw_state STATE_AUX_NOT_IN_UPDATE STATE_IDLE STATE_IDLE 0 0 0xFFFF initial_comp_str false
    0 MIN_FW_UPDATE_BASELINE_TRANS_SIZE false false config.

Inductive fw_event :=
  | EvCreateUpdateThread (** [k_thread_create] with [req_fw_update_handler] *)
  | EvSelfActivate (fn : Z) (** a call of a [self_act_func] *).

(** The hooks of the platform; [plat_find_update_info_work] is the identity where a
    platform does not define it, the check is [None] where it is not built in. *)
Record fw_platform := mk_fw_platform {
  plat_find_update_info_work : Z -> Z;
  plat_pldm_pass_component_table_check : option (Z -> list Z -> Z -> Z);
  self_act_result : Z -> Z }.

(** ** The state machine *)

Definition state_update (state : Z) (st : fw_state) : fw_state :=
  if state =? 0xff then st
  else
    let st := set_previous_state (current_state st) st in
    let st := set_current_state state st in
    set_update_mode_timer (negb (state =? STATE_IDLE)) st.

Definition pldm_status_reset (st : fw_state) : option fw_state :=
  let st := state_update STATE_IDLE st in
  let st := set_cur_aux_state STATE_AUX_NOT_IN_UPDATE st in
  let st := set_cur_update_comp_id 0xFFFF st in
  let st := set_cur_update_comp_cnt 0 st in
  let st := set_rcv_comp_cnt 0 st in
  dst ← mem_write (cur_update_comp_str st) 0 unknown_str;
  Some (set_keep_update_flag false (set_cur_update_comp_str dst st)).

(** The timer's expiry function. *)
Definition exit_update_mode (st : fw_state) : option fw_state := pldm_status_reset st.

Definition verify_comp (pf : fw_platform) (st : fw_state) (comp_class comp_id comp_class_idx : Z) : Z :=
  if zlen (comp_config st) =? 0 then COMP_RSP_UNKNOWN_ERR
  else
    let component_id := plat_find_update_info_work pf comp_id in
    if existsb (fun info => fi_enable info
        && (comp_class =? fi_comp_classification info)
        && (component_id =? fi_comp_identifier info)
        && (comp_class_idx =? fi_comp_classification_index info)) (comp_config st)
    then COMP_RSP_CAN_UPDATE else COMP_RSP_FD_NOT_SUPPORT.

(** The loop over the table; [ver_str] is the string in [cur_update_comp_str]. *)
Fixpoint self_activate_loop (pf : fw_platform) (malloc_ok : nat -> bool) (comp_id : Z)
    (ver_str : list Z) (idx : nat) (config : list pldm_fw_update_info)
    : Z * list pldm_fw_update_info * list fw_event :=
  match config with
  | [] => (0, [], [])
  | info :: config =>
      let continue info :=
        let '(ret, config, evs) := self_activate_loop pf malloc_ok comp_id ver_str (S idx) config in
        (ret, info :: config, evs) in
      if negb (fi_comp_identifier info =? comp_id) then continue info
      else
        match (if fi_activate_method info =? COMP_ACT_SELF then fi_self_act_func info else None) with
        | Some fn =>
            (if negb (self_act_result pf fn =? 0) then 1 else 0, info :: config, [EvSelfActivate fn])
        | None =>
            if (fi_activate_method info =? COMP_ACT_AC_PWR_CYCLE)
               || (fi_activate_method info =? COMP_ACT_DC_PWR_CYCLE)
            then
              if malloc_ok idx
              then continue (set_fi_pending_version (Some (slice ver_str 0 (u8 (zlen ver_str)))) info)
              else continue (set_fi_pending_version None info)
            else continue info
        end
  end.

Definition do_self_activate (pf : fw_platform) (malloc_ok : nat -> bool) (comp_id : Z)
    (st : fw_state) : Z * fw_state * list fw_event :=
  let '(ret, config, evs) :=
    self_activate_loop pf malloc_ok comp_id (cstr (cur_update_comp_str st)) 0 (comp_config st) in
  (ret, set_comp_config config st, evs).

(** [strncmp(p, s, strlen(p)) == 0] *)
Definition starts_with (p s : list Z) : bool := bool_decide (take (length p) (cstr s) = p).

Definition find_update_info (pf : fw_platform) (st : fw_state) (comp_id : Z)
    : option pldm_fw_update_info :=
  let component_id := plat_find_update_info_work pf comp_id in
  List.find (fun info => (fi_comp_identifier info =? component_id)
      && match fi_comp_version_str info with
         | None => true
         | Some s => starts_with s (cur_update_comp_str st)
         end) (comp_config st).

(** ** The commands: the new state, the response and what they start. Every handler
    returns [PLDM_SUCCESS]; [resp_len] is the length of the response. [buf] may be
    longer than [len]. [None] is an access outside an object. *)

Abbreviation fw_result := (option (fw_state * list Z * list fw_event)).

(** [resp_len] 1, only the completion code. *)
Definition fail (st : fw_state) (completion_code : Z) : fw_result := Some (st, [completion_code], []).

Definition request_update (buf : list Z) (len : Z) (st : fw_state) : fw_result :=
  let max_transfer_size := rd32 buf 0 in
  let num_of_comp := rd16 buf 4 in
  let pkg_data_len := rd16 buf 7 in
  let comp_image_set_ver_str_len := rd buf 10 in
  if negb (len =? sizeof_request_update_req + comp_image_set_ver_str_len)
  then fail st PLDM_ERROR_INVALID_LENGTH
  else if negb (current_state st =? STATE_IDLE)
  then fail st PLDM_FW_UPDATE_CC_ALREADY_IN_UPDATE_MODE
  else
    let st := set_max_buff_size (u16 max_transfer_size) st in
    let st := if MAX_FWUPDATE_RSP_BUF_SIZE <? max_buff_size st
              then set_max_buff_size MAX_FWUPDATE_RSP_BUF_SIZE st else st in
    let fd_will_send_pkg_data := if negb (pkg_data_len =? 0) then 0x01 else 0x00 in
    let st := set_cur_update_comp_cnt num_of_comp st in
    let st := state_update STATE_LEARN_COMP st in
    let st := set_keep_update_flag true st in
    Some (st, [PLDM_SUCCESS] ++ le_bytes 2 0 ++ [fd_will_send_pkg_data], []).

(** The checks on classification, identifier and index that two handlers share. *)
Definition downstream_ok (comp_classification comp_identifier comp_classification_index : Z) : bool :=
  (comp_classification =? PLDM_COMP_DOWNSTREAM_DEVICE)
  && negb (0x0FFF <? comp_identifier) && (comp_classification_index =? 0).

Definition pass_component_table (pf : fw_platform) (buf : list Z) (len : Z) (st : fw_state)
    : fw_result :=
  let transfer_flag := rd buf 0 in
  let comp_classification := rd16 buf 1 in
  let comp_identifier := rd16 buf 3 in
  let comp_classification_index := rd buf 5 in
  let comp_ver_str_len := rd buf 11 in
  if negb (len =? sizeof_pass_component_table_req + comp_ver_str_len)
  then fail st PLDM_ERROR_INVALID_LENGTH
  else
    let check_result :=
      match plat_pldm_pass_component_table_check pf with
      | Some check => check comp_identifier
          (drop (Z.to_nat sizeof_pass_component_table_req) buf) comp_ver_str_len
      | None => PLDM_SUCCESS
      end in
    if negb (check_result =? PLDM_SUCCESS) then fail st check_result
    else if negb (current_state st =? STATE_LEARN_COMP)
    then fail st PLDM_FW_UPDATE_CC_INVALID_STATE_FOR_COMMAND
    else if negb (transfer_flag =? PLDM_START_AND_END) then fail st PLDM_ERROR_INVALID_DATA
    else if negb (downstream_ok comp_classification comp_identifier comp_classification_index)
    then fail st PLDM_ERROR_INVALID_DATA
    else
      let comp_resp_code :=
        verify_comp pf st comp_classification comp_identifier comp_classification_index in
      let comp_resp := if negb (comp_resp_code =? 0) then 0x01 else 0x00 in
      let st := set_rcv_comp_cnt (u16 (rcv_comp_cnt st + 1)) st in
      let st := if rcv_comp_cnt st =? cur_update_comp_cnt st
                then set_rcv_comp_cnt 0 (state_update STATE_RDY_XFER st) else st in
      Some (st, [PLDM_SUCCESS; comp_resp; comp_resp_code], []).

Definition update_component (pf : fw_platform) (malloc_ok : bool) (buf : list Z) (len : Z)
    (st : fw_state) : fw_result :=
  let comp_classification := rd16 buf 0 in
  let comp_identifier := rd16 buf 2 in
  let comp_classification_index := rd buf 4 in
  let comp_image_size := rd32 buf 9 in
  let update_option_flags := rd32 buf 13 in
  let comp_ver_str_len := rd buf 18 in
  if negb (len =? sizeof_update_component_req + comp_ver_str_len)
  then fail st PLDM_ERROR_INVALID_LENGTH
  else if negb (current_state st =? STATE_RDY_XFER)
  then fail st PLDM_FW_UPDATE_CC_NOT_IN_UPDATE_MODE
  else if negb (downstream_ok comp_classification comp_identifier comp_classification_index)
  then fail st PLDM_ERROR_INVALID_DATA
  else
    let resp_code :=
      verify_comp pf st comp_classification comp_identifier comp_classification_index in
    let compatability_resp := if negb (resp_code =? 0) then 0x01 else 0x00 in
    let st := set_image_size comp_image_size st in
    let resp completion_code :=
      [completion_code; compatability_resp; resp_code]
      ++ le_bytes 4 update_option_flags ++ le_bytes 2 UPDATE_THREAD_DELAY_SECOND in
    if negb (compatability_resp =? 0) then Some (st, resp PLDM_SUCCESS, [])
    else
      let st := set_cur_update_comp_id comp_identifier st in
      ver_str ← mem_read buf sizeof_update_component_req comp_ver_str_len;
      dst ← mem_write (cur_update_comp_str st) 0 ver_str;
      dst ← mem_write dst comp_ver_str_len [0];
      let st := set_cur_update_comp_str dst st in
      if negb malloc_ok then Some (st, resp PLDM_ERROR, [])
      else
        let st := set_fw_update_tid true st in
        Some (state_update STATE_DOWNLOAD st, resp PLDM_SUCCESS, [EvCreateUpdateThread]).

Definition activate_firmware (pf : fw_platform) (malloc_ok : nat -> bool) (buf : list Z) (len : Z)
    (st : fw_state) : fw_result :=
  let selfContainedActivationRequest := rd buf 0 in
  if negb (len =? 1) then fail st PLDM_ERROR_INVALID_LENGTH
  else if negb (current_state st =? STATE_RDY_XFER)
  then fail st PLDM_FW_UPDATE_CC_INVALID_STATE_FOR_COMMAND
  else if negb (selfContainedActivationRequest =? PLDM_NOT_ACTIVATE_SELF_CONTAINED_COMPONENTS)
  then fail st PLDM_ERROR_INVALID_DATA
  else
    let st := state_update STATE_ACTIVATE st in
    let '(ret, st, evs) := do_self_activate pf malloc_ok (cur_update_comp_id st) st in
    if negb (ret =? 0) then
      Some (set_cur_aux_state STATE_AUX_FAILED st,
            [PLDM_FW_UPDATE_CC_SELF_CONTAINED_ACTIVATION_NOT_PERMITTED], evs)
    else
      st ← pldm_status_reset (set_cur_aux_state STATE_AUX_SUCCESS st);
      Some (st, [PLDM_SUCCESS] ++ le_bytes 2 0, evs).

Definition get_status (buf : list Z) (len : Z) (st : fw_state) : fw_result :=
  if negb (len =? 0) then fail st PLDM_ERROR_INVALID_LENGTH
  else
    let aux_state_status := if cur_aux_state st =? STATE_AUX_FAILED then 0x0A else 0 in
    Some (st, [PLDM_SUCCESS; current_state st; previous_state st; cur_aux_state st;
               aux_state_status; PLDM_NO_SUPPORT_PROGRESS_PERCENT; 0] ++ le_bytes 4 0, []).

Definition cancel_update (buf : list Z) (len : Z) (st : fw_state) : fw_result :=
  if negb (len =? 0) then fail st PLDM_ERROR_INVALID_LENGTH
  else if current_state st =? STATE_IDLE then fail st PLDM_FW_UPDATE_CC_NOT_IN_UPDATE_MODE
  else
    st ← pldm_status_reset st;
    Some (st, [PLDM_SUCCESS; 0] ++ le_bytes 8 0, []).

Definition is_update_state_download_phase (st : fw_state) : bool := current_state st =? STATE_DOWNLOAD.
Definition is_update_state_idle (st : fw_state) : bool := current_state st =? STATE_IDLE.
Definition is_update_state_idle_or_learn_comp (st : fw_state) : bool :=
  (current_state st =? STATE_IDLE) || (current_state st =? STATE_LEARN_COMP).

(** The rows of [pldm_fw_update_cmd_tbl] that belong to an update. *)
Definition pldm_fw_update_cmd_tbl (pf : fw_platform) (thread_malloc : bool) (act_malloc : nat -> bool)
    : list (Z * (list Z -> Z -> fw_state -> fw_result)) :=
  [(0x10, request_update);
   (0x13, pass_component_table pf);
   (0x14, update_component pf thread_malloc);
   (0x1A, activate_firmware pf act_malloc);
   (0x1B, get_status);
   (0x1D, cancel_update)].

(** [pldm_fw_update_handler_query] on those rows. *)
Fixpoint fw_find_cmd (tbl : list (Z * (list Z -> Z -> fw_state -> fw_result))) (code : Z)
    : option (list Z -> Z -> fw_state -> fw_result) :=
  match tbl with
  | [] => None
  | (cmd_code, fn) :: tbl => if cmd_code =? code then Some fn else fw_find_cmd tbl code
  end.

(** The dispatch of one request to its handler. *)
Definition fw_command (pf : fw_platform) (thread_malloc : bool) (act_malloc : nat -> bool)
    (code : Z) (buf : list Z) (len : Z) (st : fw_state) : fw_result :=
  match fw_find_cmd (pldm_fw_update_cmd_tbl pf thread_malloc act_malloc) code with
  | Some fn => fn buf len st
  | None => None
  end.

(** ** Lemmas *)

(** What every handler and the thread keep: a known state, the update timer running
    whenever the device is in update mode, the component string in its array with its
    NUL, a transfer size the answers fit. *)
Record fw_wf (st : fw_state) : Prop := {
  wf_state : STATE_IDLE <= current_state st <= STATE_ACTIVATE;
  wf_timer : current_state st <> STATE_IDLE -> update_mode_timer st = true;
  wf_str_len : zlen (cur_update_comp_str st) = 100;
  wf_str_nul : 0 ∈ cur_update_comp_str st;
  wf_buff : 0 <= max_buff_size st <= MAX_FWUPDATE_RSP_BUF_SIZE;
  wf_keep : keep_update_flag st = true -> current_state st <> STATE_IDLE }.

Lemma mem_write_elem dst off src dst' x :
  mem_write dst off src = Some dst' -> x ∈ src -> x ∈ dst'.
Proof.
  unfold mem_write. intros H Hx. case_bools.
  apply elem_of_app. right. apply elem_of_app. by left.
Qed.

(** [pldm_status_reset] brings any well-formed state back to idle. *)
Lemma status_reset_spec st :
  zlen (cur_update_comp_str st) = 100 -> 0 <= max_buff_size st <= MAX_FWUPDATE_RSP_BUF_SIZE ->
  exists st', pldm_status_reset st = Some st' /\ fw_wf st' /\
    current_state st' = STATE_IDLE /\ cur_aux_state st' = STATE_AUX_NOT_IN_UPDATE /\
    keep_update_flag st' = false /\ rcv_comp_cnt st' = 0 /\ image_size st' = image_size st.
Proof.
  intros Hl Hb. unfold pldm_status_reset.
  destruct (mem_write_Some (cur_update_comp_str st) 0 unknown_str) as [dst E]; [lia|rewrite Hl; vm_compute; congruence|].
  destruct st. cbn [cur_update_comp_str max_buff_size] in *. unfold state_update.
  change (STATE_IDLE =? 255) with false.
  cbn [set_previous_state set_current_state set_update_mode_timer set_cur_aux_state
    set_cur_update_comp_id set_cur_update_comp_cnt set_rcv_comp_cnt cur_update_comp_str].
  rewrite E. cbn [mbind option_bind]. eexists. split; [done|]. split; [|done].
  pose proof (mem_write_length _ _ _ _ E) as L.
  split; cbn [current_state set_keep_update_flag set_cur_update_comp_str cur_update_comp_str
    keep_update_flag max_buff_size]; try done; try lia.
  by eapply mem_write_elem; [exact E|]; vm_compute; apply list_elem_of_In; simpl; auto 12.
Qed.

Lemma fw_wf_init config : fw_wf (fw_init config).
Proof.
  split; try done. by vm_compute; apply list_elem_of_In; simpl; auto 120.
Qed.

Lemma state_update_wf state st :
  STATE_IDLE < state <= STATE_ACTIVATE -> fw_wf st -> fw_wf (state_update state st).
Proof.
  unfold STATE_IDLE, STATE_ACTIVATE. intros Hs [H1 H2 H3 H4 H5 H6]. unfold state_update.
  destruct (Z.eqb_spec state 255); [lia|]. unfold STATE_IDLE.
  split; cbn; try done; unfold STATE_IDLE, STATE_ACTIVATE; try lia.
Qed.

Lemma fw_find_cmd_cases pf tm am code fn :
  fw_find_cmd (pldm_fw_update_cmd_tbl pf tm am) code = Some fn ->
  (code = 0x10 /\ fn = request_update) \/ (code = 0x13 /\ fn = pass_component_table pf) \/
  (code = 0x14 /\ fn = update_component pf tm) \/ (code = 0x1A /\ fn = activate_firmware pf am) \/
  (code = 0x1B /\ fn = get_status) \/ (code = 0x1D /\ fn = cancel_update).
Proof.
  unfold pldm_fw_update_cmd_tbl. cbn [fw_find_cmd].
  repeat match goal with
    | |- context [?c =? code] => destruct (Z.eqb_spec c code) as [<-|_]; [intros [= <-]; tauto|]
    end. done.
Qed.

(** Activation changes pending versions only. *)
Lemma do_self_activate_state pf am id st ret st' evs :
  do_self_activate pf am id st = (ret, st', evs) ->
  exists config, st' = set_comp_config config st /\
    Forall (fun e => e <> EvCreateUpdateThread) evs.
Proof.
  unfold do_self_activate.
  destruct (self_activate_loop _ _ _ _ _ _) as [[r config] es] eqn:E. intros [= <- <- <-].
  exists config. split; [done|]. revert E. generalize (comp_config st). intros l.
  generalize 0%nat. generalize (cstr (cur_update_comp_str st)). intros s n. revert n r config es.
  induction l as [|info l IH]; intros n r config es; cbn [self_activate_loop].
  { intros [= <- <- <-]. constructor. }
  destruct (self_activate_loop pf am id s (S n) l) as [[r1 c1] e1] eqn:E1.
  destruct (negb _); [intros [= <- <- <-]; by eapply IH|].
  destruct (if fi_activate_method info =? COMP_ACT_SELF then fi_self_act_func info else None);
    [intros [= <- <- <-]; by repeat constructor|].
  destruct (_ || _); [destruct (am n)|]; intros [= <- <- <-]; by eapply IH.
Qed.

(** The effect of an accepted or refused command, per handler: the facts the properties use. *)
Definition legal_move (code s s' : Z) : bool :=
  (s =? s')
  || ((code =? 0x10) && (s =? STATE_IDLE) && (s' =? STATE_LEARN_COMP))
  || ((code =? 0x13) && (s =? STATE_LEARN_COMP) && (s' =? STATE_RDY_XFER))
  || ((code =? 0x14) && (s =? STATE_RDY_XFER) && (s' =? STATE_DOWNLOAD))
  || ((code =? 0x1A) && (s =? STATE_RDY_XFER) && ((s' =? STATE_IDLE) || (s' =? STATE_ACTIVATE)))
  || ((code =? 0x1D) && (s' =? STATE_IDLE)).

(** The states in which a command can be accepted. *)
Definition allowed_state (code s : Z) : bool :=
  if code =? 0x10 then s =? STATE_IDLE
  else if code =? 0x13 then s =? STATE_LEARN_COMP
  else if (code =? 0x14) || (code =? 0x1A) then s =? STATE_RDY_XFER
  else if code =? 0x1D then negb (s =? STATE_IDLE)
  else true.

Record command_effect (tm : bool) (code : Z) (st st' : fw_state) (resp : list Z)
    (evs : list fw_event) : Prop := {
  ce_resp : resp <> [];
  ce_move : legal_move code (current_state st) (current_state st') = true;
  ce_refused : rd resp 0 <> PLDM_SUCCESS ->
    st' = st \/
    (code = 0x14 /\ tm = false /\ current_state st = STATE_RDY_XFER /\
      current_state st' = STATE_RDY_XFER) \/
    (code = 0x1A /\ current_state st = STATE_RDY_XFER /\ current_state st' = STATE_ACTIVATE /\ cur_aux_state st' = STATE_AUX_FAILED);
  ce_allowed : rd resp 0 = PLDM_SUCCESS -> allowed_state code (current_state st) = true;
  ce_image : code <> 0x14 -> image_size st' = image_size st;
  ce_thread : EvCreateUpdateThread ∈ evs <->
    current_state st = STATE_RDY_XFER /\ current_state st' = STATE_DOWNLOAD }.

Lemma effect_fail tm code st cc :
  cc <> PLDM_SUCCESS -> command_effect tm code st st [cc] [].
Proof.
  intros H. split.
  - done.
  - unfold legal_move. by rewrite Z.eqb_refl.
  - by left.
  - by intros ?.
  - done.
  - split; [by intros ?%not_elem_of_nil|intros [-> [=]]].
Qed.

Ltac fail_case := intros [= <- <- <-]; split; [by apply effect_fail|by intros].

Lemma request_update_effect tm buf len st st' resp evs :
  request_update buf len st = Some (st', resp, evs) ->
  command_effect tm 0x10 st st' resp evs /\ (bytes_ok buf -> fw_wf st -> fw_wf st').
Proof.
  unfold request_update. destruct (negb _); [fail_case|].
  destruct (Z.eqb_spec (current_state st) STATE_IDLE) as [Hi|]; cbn [negb]; [|fail_case].
  intros [= <- <- <-]. set (st1 := if _ <? _ then _ else _).
  assert (E : current_state st1 = STATE_IDLE /\ cur_update_comp_str st1 = cur_update_comp_str st
    /\ 0 <= max_buff_size st1 <= MAX_FWUPDATE_RSP_BUF_SIZE /\ image_size st1 = image_size st).
  { unfold st1. clear st1. pose proof (u16_range (rd32 buf 0)) as Hu.
    cbn [set_max_buff_size max_buff_size]. unfold MAX_FWUPDATE_RSP_BUF_SIZE.
    destruct (Z.ltb_spec 256 (u16 (rd32 buf 0)));
      cbn [set_max_buff_size max_buff_size current_state cur_update_comp_str image_size];
      split_and!; done || lia. }
  destruct E as (E1 & E2 & E3 & E4). clearbody st1. split.
  - split; cbn; rewrite ?Hi, ?E1; try done.
    split; [by intros ?%not_elem_of_nil|intros [[=] _]].
  - intros Hb [H1 H2 H3 H4 H5 H6]. split; cbn; rewrite ?E2; try done.
Qed.

Lemma pass_component_table_effect tm pf buf len st st' resp evs :
  pass_component_table pf buf len st = Some (st', resp, evs) ->
  command_effect tm 0x13 st st' resp evs /\ (fw_wf st -> fw_wf st').
Proof.
  unfold pass_component_table. destruct (negb _); [fail_case|].
  match goal with |- context [if negb (?c =? _) then _ else _] => generalize c; intros cc end.
  destruct (Z.eqb_spec cc PLDM_SUCCESS); cbn [negb]; [|fail_case].
  destruct (Z.eqb_spec (current_state st) STATE_LEARN_COMP) as [Hi|]; cbn [negb]; [|fail_case].
  destruct (negb (rd buf 0 =? _)); [fail_case|]. destruct (negb (downstream_ok _ _ _)); [fail_case|].
  generalize (verify_comp pf st (rd16 buf 1) (rd16 buf 3) (rd buf 5)); intros code.
  set (st1 := set_rcv_comp_cnt _ st). destruct (rcv_comp_cnt st1 =? _); intros [= <- <- <-].
  - split; [|intros [H1 H2 H3 H4 H5 H6]; by split].
    split; cbn; rewrite ?Hi; try done. split; [by intros ?%not_elem_of_nil|intros [[=] _]].
  - split; [|intros [H1 H2 H3 H4 H5 H6]; by split].
    split; cbn; rewrite ?Hi; try done. split; [by intros ?%not_elem_of_nil|intros [[=] _]].
Qed.

(** The requests that [update_component] accepts and whose version string does not fit the
    array of 100 bytes with its NUL. *)
Definition overlong_version (pf : fw_platform) (code : Z) (buf : list Z) (len : Z) (st : fw_state) : bool :=
  (code =? 0x14) && (len =? sizeof_update_component_req + rd buf 18) && (100 <=? rd buf 18)
  && (current_state st =? STATE_RDY_XFER) && downstream_ok (rd16 buf 0) (rd16 buf 2) (rd buf 4)
  && (verify_comp pf st (rd16 buf 0) (rd16 buf 2) (rd buf 4) =? COMP_RSP_CAN_UPDATE).

Lemma update_component_overflow pf tm buf len st :
  overlong_version pf 0x14 buf len st = true -> len <= zlen buf -> zlen (cur_update_comp_str st) = 100 ->
  update_component pf tm buf len st = None.
Proof.
  intros Ho Hl Hc. unfold overlong_version in Ho. reflect_bools.
  unfold update_component. subst len. rewrite Z.eqb_refl.
  repeat match goal with H : _ = _ |- _ => rewrite H; clear H end. cbn [negb Z.eqb COMP_RSP_CAN_UPDATE STATE_RDY_XFER Pos.eqb].
  unfold sizeof_update_component_req in *. rewrite mem_read_Some by lia. cbn [mbind option_bind].
  destruct (mem_write (cur_update_comp_str _) 0 _) as [d|] eqn:E; [|done]. cbn [mbind option_bind].
  apply mem_write_length in E. cbn [set_image_size set_cur_update_comp_id cur_update_comp_str] in E.
  unfold mem_write. destruct (Z.leb_spec (rd buf 18 + zlen [0]) (zlen d)) as [Hle|_];
    [change (zlen [0]) with 1 in Hle; lia|]. by rewrite andb_false_r.
Qed.

Lemma update_component_spec tm pf buf len st :
  bytes_ok buf -> len <= zlen buf -> overlong_version pf 0x14 buf len st = false -> fw_wf st ->
  exists st' resp evs, update_component pf tm buf len st = Some (st', resp, evs) /\
    command_effect tm 0x14 st st' resp evs /\ fw_wf st' /\
    (EvCreateUpdateThread ∈ evs -> image_size st' = rd32 buf 9).
Proof.
  intros Hb Hlen Hs Hwf. unfold update_component. unfold overlong_version in Hs.
  assert (Hfail : forall cc, cc <> PLDM_SUCCESS -> exists st' resp evs,
    fail st cc = Some (st', resp, evs) /\ command_effect tm 0x14 st st' resp evs /\ fw_wf st' /\
    (EvCreateUpdateThread ∈ evs -> image_size st' = rd32 buf 9)).
  { intros cc Hc. exists st, [cc], []. split_and!; try done; [by apply effect_fail|].
    by intros ?%not_elem_of_nil. }
  destruct (Z.eqb_spec len (sizeof_update_component_req + rd buf 18)) as [El|]; cbn [negb];
    [|by apply Hfail].
  destruct (Z.eqb_spec (current_state st) STATE_RDY_XFER) as [Hi|]; cbn [negb]; [|by apply Hfail].
  destruct (downstream_ok (rd16 buf 0) _ _) eqn:Ed; cbn [negb]; [|by apply Hfail].
  revert Hs.
  generalize (verify_comp pf st (rd16 buf 0) (rd16 buf 2) (rd buf 4)); intros code Hs.
  destruct Hwf as [H1 H2 H3 H4 H5 H6].
  destruct (Z.eqb_spec code 0) as [->|Hcode]; cbn [Z.eqb negb].
  2:  { eexists _, _, _. split; [done|]. split; [|split; [by split|by intros ?%not_elem_of_nil]].
    split; cbn; rewrite ?Hi; try done. split; [by intros ?%not_elem_of_nil|intros [_ [=]]]. }
  assert (Hr99 : rd buf 18 <= 99) by (destruct (Z.leb_spec 100 (rd buf 18)); [done|lia]). clear Hs.
  pose proof (rd_range buf 18 Hb) as Hr. unfold sizeof_update_component_req in *.
  rewrite mem_read_Some by lia. cbn [mbind option_bind].
  assert (Ez : zlen (slice buf 19 (rd buf 18)) = rd buf 18) by (apply zlen_slice; lia).
  cbn [set_image_size set_cur_update_comp_id cur_update_comp_str].
  destruct (mem_write_Some (cur_update_comp_str st) 0 (slice buf 19 (rd buf 18))) as [d1 E1];
    [lia|lia|].
  pose proof (mem_write_length _ _ _ _ E1) as L1.
  destruct (mem_write_Some d1 (rd buf 18) [0]) as [d2 E2];
    [lia|change (zlen [0]) with 1; lia|].
  pose proof (mem_write_length _ _ _ _ E2) as L2.
  rewrite E1. cbn [mbind option_bind]. rewrite E2. cbn [mbind option_bind].
  assert (Hn : 0 ∈ d2) by (eapply mem_write_elem; [exact E2|by left]).
  destruct tm; cbn [negb]; eexists _, _, _; (split; [done|]).
  - split; [|split; [|by intros _]].
    + split; cbn; rewrite ?Hi; try done. split; [done|by left].
    + apply state_update_wf; [done|]. split; cbn; try done; lia.
  - split; [|split; [split; cbn; try done; lia|by intros ?%not_elem_of_nil]].
    split; cbn; rewrite ?Hi; try done; [by right; left|].
    split; [by intros ?%not_elem_of_nil|intros [_ [=]]].
Qed.

Lemma activate_firmware_spec tm pf am buf len st :
  fw_wf st ->
  exists st' resp evs, activate_firmware pf am buf len st = Some (st', resp, evs) /\
    command_effect tm 0x1A st st' resp evs /\ fw_wf st'.
Proof.
  intros Hwf. unfold activate_firmware.
  assert (Hfail : forall cc, cc <> PLDM_SUCCESS -> exists st' resp evs,
    fail st cc = Some (st', resp, evs) /\ command_effect tm 0x1A st st' resp evs /\ fw_wf st').
  { intros cc Hc. exists st, [cc], []. split_and!; try done. by apply effect_fail. }
  destruct (negb (len =? 1)); [by apply Hfail|].
  destruct (Z.eqb_spec (current_state st) STATE_RDY_XFER) as [Hi|]; cbn [negb]; [|by apply Hfail].
  destruct (negb _); [by apply Hfail|].
  assert (Hw1 : fw_wf (state_update STATE_ACTIVATE st)) by by apply state_update_wf.
  destruct (do_self_activate pf am _ _) as [[ret st1] evs] eqn:E.
  destruct (do_self_activate_state _ _ _ _ _ _ _ E) as (config & -> & Hev).
  assert (Hn : EvCreateUpdateThread ∉ evs).
  { intros Hin. rewrite Forall_forall in Hev. by apply (Hev _ Hin). }
  destruct Hw1 as [H1 H2 H3 H4 H5 H6].
  destruct (negb (ret =? 0)).
  - eexists _, _, _. split; [done|]. split; [|by split].
    split; cbn; rewrite ?Hi; try done; [by right; right|].
    split; [by intros ?|intros [_ [=]]].
  - destruct (status_reset_spec (set_cur_aux_state STATE_AUX_SUCCESS
      (set_comp_config config (state_update STATE_ACTIVATE st)))) as (st2 & E2 & Hw2 & Hs2 & _ & _ & _ & Him);
      [done|done|].
    rewrite E2. cbn [mbind option_bind]. eexists _, _, _. split; [done|]. split; [|done].
    split; rewrite ?Hs2, ?Hi; try done.
    split; [by intros ?|intros [_ [=]]].
Qed.

Lemma get_status_spec tm buf len st :
  exists resp, get_status buf len st = Some (st, resp, []) /\
    command_effect tm 0x1B st st resp [].
Proof.
  unfold get_status. destruct (negb _); [eexists; split; [done|by apply effect_fail]|].
  eexists. split; [done|]. split; cbn; try done; [unfold legal_move; by rewrite Z.eqb_refl|].
  split; [by intros ?%not_elem_of_nil|intros [-> [=]]].
Qed.

Lemma cancel_update_spec tm buf len st :
  fw_wf st ->
  exists st' resp, cancel_update buf len st = Some (st', resp, []) /\
    command_effect tm 0x1D st st' resp [] /\ fw_wf st' /\
    (rd resp 0 = PLDM_SUCCESS -> current_state st' = STATE_IDLE /\ keep_update_flag st' = false).
Proof.
  intros Hwf. unfold cancel_update.
  assert (Hfail : forall cc, cc <> PLDM_SUCCESS -> exists st' resp, fail st cc = Some (st', resp, [])
    /\ command_effect tm 0x1D st st' resp [] /\ fw_wf st' /\
    (rd resp 0 = PLDM_SUCCESS -> current_state st' = STATE_IDLE /\ keep_update_flag st' = false)).
  { intros cc Hc. exists st, [cc]. split_and!; try done. by apply effect_fail. }
  destruct (negb (len =? 0)); [by apply Hfail|].
  destruct (Z.eqb_spec (current_state st) STATE_IDLE) as [Hi|Hi]; [by apply Hfail|].
  destruct (status_reset_spec st (wf_str_len _ Hwf) (wf_buff _ Hwf))
    as (st2 & E2 & Hw2 & Hs2 & _ & Hk & _ & Him).
  rewrite E2. cbn [mbind option_bind]. eexists _, _. split; [done|]. split; [|done].
  split; rewrite ?Hs2; try done; [|by intros _; apply negb_true_iff, Z.eqb_neq|].
  - unfold legal_move. cbn. by rewrite orb_true_r.
  - split; [by intros ?%not_elem_of_nil|intros [_ [=]]].
Qed.

(** One request of the table, whichever it is. *)
Lemma fw_command_spec pf tm am code buf len st :
  fw_wf st -> bytes_ok buf -> len <= zlen buf -> overlong_version pf code buf len st = false ->
  code ∈ [0x10; 0x13; 0x14; 0x1A; 0x1B; 0x1D] ->
  exists st' resp evs, fw_command pf tm am code buf len st = Some (st', resp, evs) /\
    command_effect tm code st st' resp evs /\ fw_wf st' /\
    (EvCreateUpdateThread ∈ evs -> code = 0x14 /\ image_size st' = rd32 buf 9).
Proof.
  intros Hwf Hb Hl Hs Hc. unfold fw_command, pldm_fw_update_cmd_tbl. cbn [fw_find_cmd].
  repeat (apply elem_of_cons in Hc as [->|Hc]; [cbn [Z.eqb Pos.eqb]|]).
  - destruct (request_update buf len st) as [[[st' resp] evs]|] eqn:E.
    + destruct (request_update_effect tm _ _ _ _ _ _ E) as [H1 H2].
      exists st', resp, evs. split_and!; try done; [by apply H2|].
      intros Hin. destruct (proj1 (ce_thread _ _ _ _ _ _ H1) Hin) as [G1 G2].
      pose proof (ce_move _ _ _ _ _ _ H1) as Hm. by rewrite G1, G2 in Hm.
    + unfold request_update, fail in E. by repeat case_match.
  - destruct (pass_component_table pf buf len st) as [[[st' resp] evs]|] eqn:E.
    + destruct (pass_component_table_effect tm _ _ _ _ _ _ _ E) as [H1 H2].
      exists st', resp, evs. split_and!; try done; [by apply H2|].
      intros Hin. destruct (proj1 (ce_thread _ _ _ _ _ _ H1) Hin) as [G1 G2].
      pose proof (ce_move _ _ _ _ _ _ H1) as Hm. by rewrite G1, G2 in Hm.
    + unfold pass_component_table, fail in E. cbv zeta in E. by repeat (case_match; try done).
  - destruct (update_component_spec tm pf buf len st) as (st' & resp & evs & E & H1 & H2 & H3);
      [done..|]. exists st', resp, evs. split_and!; try done. by intros ?%H3.
  - destruct (activate_firmware_spec tm pf am buf len st) as (st' & resp & evs & E & H1 & H2);
      [done|]. exists st', resp, evs. split_and!; try done.
    intros Hin. destruct (proj1 (ce_thread _ _ _ _ _ _ H1) Hin) as [G1 G2].
    pose proof (ce_move _ _ _ _ _ _ H1) as Hm. by rewrite G1, G2 in Hm.
  - destruct (get_status_spec tm buf len st) as (resp & E & H1).
    exists st, resp, []. split_and!; try done. by intros ?%not_elem_of_nil.
  - destruct (cancel_update_spec tm buf len st) as (st' & resp & E & H1 & H2 & _); [done|].
    exists st', resp, []. split_and!; try done. by intros ?%not_elem_of_nil.
  - by apply not_elem_of_nil in Hc.
Qed.

Lemma fw_command_overlong pf tm am code buf len st :
  fw_wf st -> len <= zlen buf -> overlong_version pf code buf len st = true ->
  fw_command pf tm am code buf len st = None.
Proof.
  intros Hwf Hl Ho. assert (code = 0x14) as -> by (unfold overlong_version in Ho; by reflect_bools).
  unfold fw_command, pldm_fw_update_cmd_tbl. cbn [fw_find_cmd Z.eqb Pos.eqb].
  apply update_component_overflow; [done..|apply Hwf].
Qed.

(** ** Properties *)

(** C15: every command of the update agent is answered, moves the device only along the arrows
    of the firmware update protocol, and is accepted only in a state that allows it; a
    refused command changes nothing, but for an update that could not get its memory (the
    device stays ready) and an activation the component refused (the device stays in the
    activate state, marked failed). The update thread is started exactly by the move from
    ready to download. There is one exception, and it is exact: an UpdateComponent that would be
    accepted and whose version string has 100 bytes or more is copied over the end of its array. *)
Theorem fw_command_legal pf tm am code buf len st :
  fw_wf st -> bytes_ok buf -> len <= zlen buf ->
  code ∈ [0x10; 0x13; 0x14; 0x1A; 0x1B; 0x1D] ->
  if overlong_version pf code buf len st then fw_command pf tm am code buf len st = None
  else exists st' cc rest evs, fw_command pf tm am code buf len st = Some (st', cc :: rest, evs) /\
    fw_wf st' /\ legal_move code (current_state st) (current_state st') = true /\
    (allowed_state code (current_state st) = false -> cc <> PLDM_SUCCESS) /\
    (allowed_state code (current_state st) = false -> st' = st) /\
    (cc <> PLDM_SUCCESS ->
      st' = st \/
      (code = 0x14 /\ tm = false /\ current_state st = STATE_RDY_XFER /\
        current_state st' = STATE_RDY_XFER) \/
      (code = 0x1A /\ current_state st = STATE_RDY_XFER /\ current_state st' = STATE_ACTIVATE /\ cur_aux_state st' = STATE_AUX_FAILED)) /\
    (EvCreateUpdateThread ∈ evs <->
      current_state st = STATE_RDY_XFER /\ current_state st' = STATE_DOWNLOAD).
Proof.
  intros Hwf Hb Hl Hc. destruct (overlong_version pf code buf len st) eqn:Hs; [by apply fw_command_overlong|].
  destruct (fw_command_spec pf tm am code buf len st Hwf Hb Hl Hs Hc)
    as (st' & resp & evs & E & [G0 G1 G2 G3 _ G4] & H2 & _).
  destruct resp as [|cc rest]; [done|].
  exists st', cc, rest, evs. split_and!; try done.
  - intros Ha Hcc. by rewrite (G3 Hcc) in Ha.
  - intros Ha. destruct (G2 ltac:(intros Hcc; by rewrite (G3 Hcc) in Ha)) as [|[(-> & _ & E' & _)|(-> & E' & _)]];
      [done|..]; by rewrite E' in Ha.
Qed.
Lemma fw_command_legal_witness :
  exists st' cc rest evs, fw_command (mk_fw_platform id None id) true (fun _ => true) 0x10
      ([0; 1; 0; 0; 1; 0; 1; 0; 0; 1; 0]) 11 (fw_init []) = Some (st', cc :: rest, evs) /\
    legal_move 0x10 (current_state (fw_init [])) (current_state st') = true.
Proof.
  destruct (fw_command_legal (mk_fw_platform id None id) true (fun _ => true) 0x10
    ([0; 1; 0; 0; 1; 0; 1; 0; 0; 1; 0]) 11 (fw_init [])) as (st' & cc & rest & evs & H1 & _ & H2 & _).
  - exact (fw_wf_init []).
  - repeat constructor; lia.
  - by vm_compute.
  - by left.
  - by exists st', cc, rest, evs.
Defined.
