(* ===== verification/PldmFwTransfer.v ===== *)
(** Component [common/service/pldm/pldm_firmware_update.c], the transfer of an image: the
    update functions of the component table and the thread [req_fw_update_handler], which
    asks the update agent for the image piece by piece and reports the three completions.

    The thread blocks only while it waits for the answer to a request of its own, so it
    is cut there: [fw_thread] says where it waits and with which local variables, and a
    step takes the answer (empty when none came) to the next wait. The commands of
    [PldmFwState.v] and the timer act between two steps. *)

From Stdlib Require Import String.
From S2P Require Import Prelude Bytes PldmCore PldmBase PldmFwState.

(** ** Constants *)

Definition PLDM_FW_UPDATE_CMD_CODE_REQUEST_FIRMWARE_DATA : Z := 0x15.
Definition PLDM_FW_UPDATE_CMD_CODE_TRANSFER_COMPLETE : Z := 0x16.
Definition PLDM_FW_UPDATE_CMD_CODE_VERIFY_COMPLETE : Z := 0x17.
Definition PLDM_FW_UPDATE_CMD_CODE_APPLY_COMPLETE : Z := 0x18.
Definition PLDM_FW_UPDATE_CC_DATA_OUT_OF_RANGE : Z := 0x82.
Definition PLDM_FW_UPDATE_GENERIC_ERROR : Z := 0x0A.
Definition PLDM_FW_UPDATE_TRANSFER_SUCCESS : Z := 0x00.
Definition PLDM_FW_UPDATE_VERIFY_SUCCESS : Z := 0x00.
Definition PLDM_FW_UPDATE_APPLY_SUCCESS : Z := 0x00.
Definition UPDATE_REQUEST_DATA_MAX_RETRY_COUNT : Z := 3.
Definition SECTOR_SZ_64K : Z := 0x10000.
Definition SECTOR_SZ_256 : Z := 0x100.
Definition SECTOR_END_FLAG : Z := BIT 7.
Definition NO_RESET_FLAG : Z := BIT 0.
Definition DEVSPI_FMC_CS0 : Z := 0.
Definition RETIMER_IMAGE_PACKAGE_SIZE : Z := 64.
Definition FWUPDATE_UPDATE_FAIL : Z := 4.
Definition FWUPDATE_OVER_LENGTH : Z := 2.

(** ** Data *)

(** [pldm_fw_update_param_t]; [comp_version_str] is the array it points to. *)
Record fw_update_param := mk_fw_param {
  p_comp_id : Z;
  p_comp_version_str : list Z;
  p_data : list Z;
  p_data_ofs : Z;
  p_data_len : Z;
  p_next_ofs : Z;
  p_next_len : Z;
  p_inf : Z;
  p_bus : Z;
  p_addr : Z }.

Definition set_p_comp_version_str (v : list Z) (p : fw_update_param) : fw_update_param :=
  mk_fw_param (p_comp_id p) v (p_data p) (p_data_ofs p) (p_data_len p) (p_next_ofs p)
    (p_next_len p) (p_inf p) (p_bus p) (p_addr p).
Definition set_p_data (v : list Z) (p : fw_update_param) : fw_update_param :=
  mk_fw_param (p_comp_id p) (p_comp_version_str p) v (p_data_ofs p) (p_data_len p)
    (p_next_ofs p) (p_next_len p) (p_inf p) (p_bus p) (p_addr p).
Definition set_p_data_ofs (v : Z) (p : fw_update_param) : fw_update_param :=
  mk_fw_param (p_comp_id p) (p_comp_version_str p) (p_data p) v (p_data_len p) (p_next_ofs p)
    (p_next_len p) (p_inf p) (p_bus p) (p_addr p).
Definition set_p_data_len (v : Z) (p : fw_update_param) : fw_update_param :=
  mk_fw_param (p_comp_id p) (p_comp_version_str p) (p_data p) (p_data_ofs p) v (p_next_ofs p)
    (p_next_len p) (p_inf p) (p_bus p) (p_addr p).
Definition set_p_next_ofs (v : Z) (p : fw_update_param) : fw_update_param :=
  mk_fw_param (p_comp_id p) (p_comp_version_str p) (p_data p) (p_data_ofs p) (p_data_len p) v
    (p_next_len p) (p_inf p) (p_bus p) (p_addr p).
Definition set_p_next_len (v : Z) (p : fw_update_param) : fw_update_param :=
  mk_fw_param (p_comp_id p) (p_comp_version_str p) (p_data p) (p_data_ofs p) (p_data_len p)
    (p_next_ofs p) v (p_inf p) (p_bus p) (p_addr p).

(** The local variables of the thread: the row of the component table, the parameter of the
    update function, the request being made and the retry bookkeeping. *)
Record fw_locals := mk_fw_locals {
  l_info : pldm_fw_update_info;
  l_param : fw_update_param;
  l_offset : Z;
  l_length : Z;
  l_expect_len : Z;
  l_last_offset : Z;
  l_retry_count : Z }.

Definition set_l_param (v : fw_update_param) (l : fw_locals) : fw_locals :=
  mk_fw_locals (l_info l) v (l_offset l) (l_length l) (l_expect_len l) (l_last_offset l)
    (l_retry_count l).
Definition set_l_offset (v : Z) (l : fw_locals) : fw_locals :=
  mk_fw_locals (l_info l) (l_param l) v (l_length l) (l_expect_len l) (l_last_offset l)
    (l_retry_count l).
Definition set_l_length (v : Z) (l : fw_locals) : fw_locals :=
  mk_fw_locals (l_info l) (l_param l) (l_offset l) v (l_expect_len l) (l_last_offset l)
    (l_retry_count l).
Definition set_l_expect_len (v : Z) (l : fw_locals) : fw_locals :=
  mk_fw_locals (l_info l) (l_param l) (l_offset l) (l_length l) v (l_last_offset l)
    (l_retry_count l).
Definition set_l_last_offset (v : Z) (l : fw_locals) : fw_locals :=
  mk_fw_locals (l_info l) (l_param l) (l_offset l) (l_length l) (l_expect_len l) v
    (l_retry_count l).
Definition set_l_retry_count (v : Z) (l : fw_locals) : fw_locals :=
  mk_fw_locals (l_info l) (l_param l) (l_offset l) (l_length l) (l_expect_len l)
    (l_last_offset l) v.

(** [update_param = { 0 }] with the three fields set at the start. *)
Definition init_param (comp_id inf : Z) (ver_str : list Z) : fw_update_param :=
  mk_fw_param comp_id ver_str [] 0 0 0 0 inf 0 0.

(** ** The update functions *)

(** The next offset and length an update function asks for after [p]: at most the maximum
    transfer size, within the image and within the sector of [sector_sz] bytes (no sector
    bound: 0); length 0 and [true] after the last byte. *)
Definition next_request (sector_sz : Z) (st : fw_state) (p : fw_update_param)
    : fw_update_param * bool :=
  let p := set_p_next_ofs (u32 (p_data_ofs p + p_data_len p)) p in
  let p := set_p_next_len (max_buff_size st) p in
  if p_next_ofs p <? image_size st then
    let p := if image_size st <? u32 (p_next_ofs p + p_next_len p)
             then set_p_next_len (u32 (image_size st - p_next_ofs p)) p else p in
    let p := if negb (sector_sz =? 0)
                && (sector_sz <? u32 (p_next_ofs p mod sector_sz + p_next_len p))
             then set_p_next_len (sector_sz - p_next_ofs p mod sector_sz) p else p in
    (p, false)
  else (set_p_next_len 0 p, true).

Section spi_update.
(** [util_spi.c]: a device state, [set_default_retry_count] and [fw_update]. *)
Context {D : Type} (set_default_retry_count : Z -> D -> D)
  (fw_update : D -> Z -> Z -> list Z -> Z -> Z -> D * Z).

Definition pldm_fw_update (flash_position : Z) (st : fw_state) (d : D) (p : fw_update_param)
    : option (D * fw_update_param * Z) :=
  let d := if p_data_ofs p =? 0 then set_default_retry_count 0 d else d in
  let '(p, last) := next_request SECTOR_SZ_64K st p in
  let update_flag := if last then SECTOR_END_FLAG .| NO_RESET_FLAG else 0 in
  let '(d, ret) :=
    fw_update d (p_data_ofs p) (u16 (p_data_len p)) (p_data p) update_flag flash_position in
  Some (d, p, if negb (ret =? 0) then 1 else 0).

Definition pldm_bic_update := pldm_fw_update DEVSPI_FMC_CS0.

(** [pos]: what [pal_get_bios_flash_position] answers. *)
Definition pldm_bios_update (pos : Z) (st : fw_state) (d : D) (p : fw_update_param)
    : option (D * fw_update_param * Z) :=
  if pos =? -1 then Some (d, p, 1) else pldm_fw_update pos st d p.

(** [pos]: what [pal_get_pcie_switch_flash_position] answers. *)
Definition pldm_pcie_switch_update (pos : Z) (st : fw_state) (d : D) (p : fw_update_param)
    : option (D * fw_update_param * Z) :=
  if pos =? -1 then Some (d, p, 1) else pldm_fw_update pos st d p.
End spi_update.

(** The regulators [pldm_vr_update] knows, in the order it compares. *)
Inductive vr_driver :=
  | VR_ISL69259 | VR_XDPE12284C | VR_MP2971 | VR_XDPE15284 | VR_MP2985 | VR_RAA229621
  | VR_RAA229140A | VR_MPQ8746 | VR_MP289X | VR_TPS536XX | VR_TDA38741 | VR_MP2988
  | VR_MP29816A | VR_RAA228249.

(** The chain of comparisons; [enabled] says which optional drivers are built in. *)
Definition vr_keywords : list (list Z * vr_driver) :=
  [(str "isl69259", VR_ISL69259);
   (str "xdpe12284c", VR_XDPE12284C);
   (str "mp2971", VR_MP2971);
   (str "mp2856", VR_MP2971);
   (str "mp2857", VR_MP2971);
   (str "xdpe15284", VR_XDPE15284);
   (str "mp2985", VR_MP2985);
   (str "raa229620", VR_RAA229621);
   (str "raa229621", VR_RAA229621);
   (str "isl69260", VR_RAA229621);
   (str "raa229140a", VR_RAA229140A);
   (str "mpq8746", VR_MPQ8746);
   (str "mp2898", VR_MP289X);
   (str "mp2894", VR_MP289X);
   (str "tps53685", VR_TPS536XX);
   (str "tps536c5", VR_TPS536XX);
   (str "tda38741", VR_TDA38741);
   (str "mp2988", VR_MP2988);
   (str "mp29816a", VR_MP29816A);
   (str "raa228249", VR_RAA228249)].

Definition find_vr (enabled : vr_driver -> bool) (comp_version_str : list Z) : option vr_driver :=
  snd <$> List.find (fun '(keyword, vr) => enabled vr && starts_with keyword comp_version_str) vr_keywords.

(** [pldm_vr_update]. The static [hex_buff] is the state; [vr_fwupdate] the drivers. *)
Definition pldm_vr_update (enabled : vr_driver -> bool)
    (streaming : option (fw_update_param -> fw_update_param * Z))
    (vr_fwupdate : vr_driver -> Z -> Z -> list Z -> Z -> bool) (malloc_ok : bool)
    (st : fw_state) (hex_buff : option (list Z)) (p : fw_update_param)
    : option (option (list Z) * fw_update_param * Z) :=
  match (if starts_with (str "mp29526") (p_comp_version_str p) then streaming else None) with
  | Some update => let '(p, ret) := update p in Some (hex_buff, p, ret)
  | None =>
      if (p_data_ofs p =? 0) && bool_decide (is_Some hex_buff) then Some (None, p, 1)
      else if (p_data_ofs p =? 0) && negb malloc_ok then Some (None, p, 1)
      else
        let hex_buff :=
          if p_data_ofs p =? 0 then Some (zeros (image_size st)) else hex_buff in
        match hex_buff with
        | None => Some (None, p, 1)
        | Some buff =>
            data ← mem_read (p_data p) 0 (p_data_len p);
            buff ← mem_write buff (p_data_ofs p) data;
            let '(p, last) := next_request 0 st p in
            if negb last then Some (Some buff, p, 0)
            else
              match find_vr enabled (p_comp_version_str p) with
              | None => Some (None, p, 1)
              | Some vr =>
                  Some (None, p,
                    if vr_fwupdate vr (p_bus p) (p_addr p) buff (image_size st) then 0 else 1)
              end
        end
  end.

(** [pldm_cpld_update]: [lattice_fwupdate] answers success and the next offset and length. *)
Definition pldm_cpld_update (keyword : list Z)
    (lattice_fwupdate : fw_update_param -> bool * Z * Z) (p : fw_update_param)
    : fw_update_param * Z :=
  if starts_with keyword (p_comp_version_str p) then
    let '(ok, next_ofs, next_len) := lattice_fwupdate p in
    if negb ok then (p, 1) else (set_p_next_ofs next_ofs (set_p_next_len next_len p), 0)
  else (p, 1).

Definition is_pt_retimer (comp_version_str : list Z) : bool :=
  starts_with (str "pt5161l") comp_version_str || starts_with (str "pt4080l") comp_version_str.

Section retimer_update.
(** The retimer drivers over a device state; the second one may move the next request and is
    [None] where it is not built in. *)
Context {D : Type} (pcie_retimer_fw_update : D -> Z -> Z -> list Z -> Z -> D * Z)
  (ds160pt801_fw_update : option (D -> Z -> Z -> list Z -> Z -> D * Z * Z * Z)).

Definition pldm_retimer_update (st : fw_state) (d : D) (p : fw_update_param)
    : option (D * fw_update_param * Z) :=
  let '(p, last) := next_request SECTOR_SZ_256 st p in
  let update_flag := if last then SECTOR_END_FLAG else 0 in
  if is_pt_retimer (p_comp_version_str p) then
    let '(d, ret) := pcie_retimer_fw_update d (p_data_ofs p) (p_data_len p) (p_data p) update_flag in
    Some (d, p, if negb (ret =? 0) then 1 else 0)
  else if starts_with (str "ds160pt801") (p_comp_version_str p) then
    match ds160pt801_fw_update with
    | None => Some (d, p, 1)
    | Some update =>
        let '(d, ofs, len, ret) := update d (p_data_ofs p) (p_data_len p) (p_data p) update_flag in
        let p := set_p_data_ofs ofs (set_p_data_len len p) in
        let p := set_p_next_ofs (p_data_ofs p) (set_p_next_len (p_data_len p) p) in
        Some (d, p, if negb (ret =? 0) then 1 else 0)
    end
  else Some (d, p, 1).
End retimer_update.

(** The loop of [fw_recovery_eeprom]: the I2C writes it makes, as target address, 16-bit
    address in the EEPROM and data, and its code. [i2c_ok]: the result of a write. *)
Fixpoint eeprom_loop (fuel : nat) (i2c_ok : bool) (addr offset per_len msg_len : Z)
    (msg_buf : list Z) (buffer_offset : Z) : option (list (Z * Z * list Z) * Z) :=
  if negb (0 <? msg_len) then Some ([], 0)
  else
    match fuel with
    | O => None
    | S fuel =>
        let per_len := if per_len <=? msg_len then per_len else u8 msg_len in
        let msg_len := u16 (msg_len - per_len) in
        let write := (addr, offset .& 0xFFFF, slice msg_buf buffer_offset per_len) in
        if negb i2c_ok then Some ([write], FWUPDATE_UPDATE_FAIL)
        else
          '(writes, ret) ← eeprom_loop fuel i2c_ok addr (u32 (offset + per_len)) per_len msg_len
            msg_buf (u8 (buffer_offset + per_len));
          Some (write :: writes, ret)
    end.

Definition fw_recovery_eeprom (i2c_ok : bool) (target_addr offset msg_len : Z) (msg_buf : list Z)
    (flag : Z) : option (list (Z * Z * list Z) * Z) :=
  let addr := u8 (target_addr + ((offset .>> 16) .& 0xF)) in
  let offset := offset .& 0xFFFF in
  if RETIMER_IMAGE_PACKAGE_SIZE <? msg_len then Some ([], FWUPDATE_OVER_LENGTH)
  else if (msg_len =? RETIMER_IMAGE_PACKAGE_SIZE) || negb (flag .& SECTOR_END_FLAG =? 0)
  then eeprom_loop (Z.to_nat msg_len) i2c_ok addr offset RETIMER_IMAGE_PACKAGE_SIZE msg_len msg_buf 0
  else Some ([], 0).

(** The length of the chunk [pldm_retimer_recovery] cuts at an offset. *)
Definition recovery_chunk (current_offset remaining_len : Z) : Z :=
  let next_boundary := u32 ((current_offset .& Z.lnot 0xFFFF) + 0x10000) in
  let max_chunk_len := u32 (next_boundary - current_offset) in
  let allowed_len := 256 - current_offset mod 256 in
  let chunk_len := if RETIMER_IMAGE_PACKAGE_SIZE <? remaining_len
                   then RETIMER_IMAGE_PACKAGE_SIZE else u8 remaining_len in
  let chunk_len := if max_chunk_len <? chunk_len then u8 max_chunk_len else chunk_len in
  if allowed_len <? chunk_len then u8 allowed_len else chunk_len.

(** Its loop, from the result of the bus for each write. *)
Fixpoint recovery_loop (fuel : nat) (i2c_ok : nat -> bool) (k : nat) (addr current_offset : Z)
    (current_data : list Z) (remaining_len update_flag : Z) : option (list (Z * Z * list Z) * Z) :=
  if negb (0 <? remaining_len) then Some ([], 0)
  else
    match fuel with
    | O => None
    | S fuel =>
        let chunk_len := recovery_chunk current_offset remaining_len in
        let update_flag :=
          if negb (chunk_len =? RETIMER_IMAGE_PACKAGE_SIZE) then SECTOR_END_FLAG else update_flag in
        '(writes, ret) ←
          fw_recovery_eeprom (i2c_ok k) addr current_offset chunk_len current_data update_flag;
        if negb (ret =? 0) then Some (writes, 1)
        else
          '(rest, ret) ← recovery_loop fuel i2c_ok (S k) addr (u32 (current_offset + chunk_len))
            (drop (Z.to_nat chunk_len) current_data) (u32 (remaining_len - chunk_len)) update_flag;
          Some (writes ++ rest, ret)
    end.

Definition pldm_retimer_recovery (i2c_ok : nat -> bool) (st : fw_state) (p : fw_update_param)
    : option (list (Z * Z * list Z) * fw_update_param * Z) :=
  let '(p, last) := next_request 0 st p in
  let update_flag := if last then SECTOR_END_FLAG else 0 in
  if is_pt_retimer (p_comp_version_str p) then
    '(writes, ret) ← recovery_loop (Z.to_nat (p_data_len p)) i2c_ok 0 (p_addr p) (p_data_ofs p)
      (p_data p) (p_data_len p) update_flag;
    Some (writes, p, ret)
  else Some ([], p, 1).

(** ** The thread [req_fw_update_handler] *)

Inductive report_stage := Transfer | Verify | Apply.

(** Where the thread waits; [ThAbort]: for the answer to the report of a failure. *)
Inductive fw_thread :=
  | ThNone
  | ThCreated
  | ThData (l : fw_locals)
  | ThReport (stage : report_stage) (l : fw_locals)
  | ThAbort (l : fw_locals).

(** A [pldm_fw_update_read]: command, request data, size of the response buffer. *)
Record fw_read := mk_fw_read { r_cmd : Z; r_req : list Z; r_rbuf_len : Z }.

(** [report_tranfer], the request it makes: none in the other states, where it succeeds. *)
Definition report_tranfer (st : fw_state) (result_code : Z) : option fw_read :=
  if current_state st =? STATE_DOWNLOAD then
    Some (mk_fw_read PLDM_FW_UPDATE_CMD_CODE_TRANSFER_COMPLETE [result_code] 10)
  else if current_state st =? STATE_VERIFY then
    Some (mk_fw_read PLDM_FW_UPDATE_CMD_CODE_VERIFY_COMPLETE [result_code] 10)
  else if current_state st =? STATE_APPLY then
    Some (mk_fw_read PLDM_FW_UPDATE_CMD_CODE_APPLY_COMPLETE (result_code :: le_bytes 2 0) 10)
  else None.

(** Its test of the answer. *)
Definition report_ok (resp : list Z) : bool := (zlen resp =? 1) && (rd resp 0 =? PLDM_SUCCESS).

(** The functions of the component table over a device state: the update functions, the
    [self_apply_work_func]s; [post_before_apply] is the build option
    PLDM_UPDATE_POST_UPDATE_BEFORE_APPLY_COMPLETE. *)
Record fw_functions (D : Type) := mk_fw_functions {
  call : Z -> fw_state -> D -> fw_update_param -> option (D * fw_update_param * Z);
  apply_work : Z -> D -> D * Z;
  post_before_apply : bool }.
Arguments call {D}.
Arguments apply_work {D}.
Arguments post_before_apply {D}.

Abbreviation thread_result D := (option (fw_state * D * fw_thread * list fw_read)).

Section thread.
Context {D : Type} (pf : fw_platform) (fns : fw_functions D).

(** A call of a function of the table: its parameter points to [cur_update_comp_str]. *)
Definition call_func (fn : Z) (st : fw_state) (d : D) (l : fw_locals) : option (D * fw_locals * Z) :=
  '(d, p, ret) ← call fns fn st d (set_p_comp_version_str (cur_update_comp_str st) (l_param l));
  Some (d, set_l_param p l, ret).

Definition call_pos_update (st : fw_state) (d : D) (l : fw_locals) : option (D * fw_locals * Z) :=
  match fi_pos_update_func (l_info l) with
  | Some fn => call_func fn st d l
  | None => Some (d, l, 0)
  end.

(** The label [exit]. *)
Definition handler_exit (st : fw_state) (d : D) (l : fw_locals) : thread_result D :=
  '(d, l, _) ← (if post_before_apply fns then Some (d, l, 0) else call_pos_update st d l);
  Some (set_fw_update_tid false (set_image_size 0 st), d, ThNone, []).

(** Report, and go on at once where nothing is asked. *)
Definition report_then (st : fw_state) (d : D) (result_code : Z) (wait : fw_thread)
    (go_on : thread_result D) : thread_result D :=
  match report_tranfer st result_code with
  | Some r => Some (st, d, wait, [r])
  | None => go_on
  end.

Definition handler_fail (st : fw_state) (d : D) (l : fw_locals) : thread_result D :=
  handler_exit (set_cur_aux_state STATE_AUX_FAILED st) d l.

(** [report_tranfer(GENERIC_ERROR)] and the exit. *)
Definition handler_abort (st : fw_state) (d : D) (l : fw_locals) : thread_result D :=
  report_then st d PLDM_FW_UPDATE_GENERIC_ERROR (ThAbort l) (handler_fail st d l).

(** The top of the loop: the request for the next piece. *)
Definition request_data (st : fw_state) (d : D) (l : fw_locals) : thread_result D :=
  if negb (keep_update_flag st) then handler_fail st d l
  else
    let expect_len := l_length l in
    let '(length, expect_len) :=
      if u32 (image_size st + MIN_FW_UPDATE_BASELINE_TRANS_SIZE) <? u32 (l_offset l + l_length l)
      then (u32 (image_size st - l_offset l), u32 (image_size st - l_offset l))
      else (l_length l, expect_len) in
    let '(length, expect_len) :=
      if length <=? MIN_FW_UPDATE_BASELINE_TRANS_SIZE
      then (MIN_FW_UPDATE_BASELINE_TRANS_SIZE, expect_len)
      else if max_buff_size st <? length then (max_buff_size st, max_buff_size st)
      else (length, length) in
    Some (st, d, ThData (set_l_expect_len expect_len (set_l_length length l)),
          [mk_fw_read PLDM_FW_UPDATE_CMD_CODE_REQUEST_FIRMWARE_DATA
             (le_bytes 4 (l_offset l) ++ le_bytes 4 length) (length + 1)]).

Definition handler_begin (st : fw_state) (d : D) : thread_result D :=
  match find_update_info pf st (cur_update_comp_id st) with
  | None => st ← pldm_status_reset st; Some (st, d, ThNone, [])
  | Some info =>
      match fi_update_func info with
      | None => st ← pldm_status_reset st; Some (st, d, ThNone, [])
      | Some _ =>
          let l := mk_fw_locals info
                     (init_param (cur_update_comp_id st) (fi_inf info) (cur_update_comp_str st))
                     0 (max_buff_size st) 0 0xFFFFFFFF 0 in
          '(d, l, ret) ← match fi_pre_update_func info with
                         | Some fn => call_func fn st d l
                         | None => Some (d, l, 0)
                         end;
          if negb (ret =? 0) then handler_exit st d l
          else request_data (set_cur_aux_state STATE_AUX_INPROGRESS st) d l
      end
  end.

(** The success path after each report. *)
Definition handler_done (st : fw_state) (d : D) (l : fw_locals) : thread_result D :=
  handler_exit (set_cur_aux_state STATE_AUX_SUCCESS (state_update STATE_RDY_XFER st)) d l.

Definition apply_phase (st : fw_state) (d : D) (l : fw_locals) : thread_result D :=
  let st := state_update STATE_APPLY st in
  let '(d, apply_result) :=
    match fi_self_apply_work_func (l_info l) with
    | Some fn => apply_work fns fn d
    | None => (d, PLDM_FW_UPDATE_APPLY_SUCCESS)
    end in
  '(d, l, apply_result) ←
    (if post_before_apply fns then
       '(d, l, ret) ← call_pos_update st d l;
       Some (d, l, if negb (ret =? 0) then PLDM_FW_UPDATE_GENERIC_ERROR else apply_result)
     else Some (d, l, apply_result));
  report_then st d apply_result (ThReport Apply l) (handler_done st d l).

Definition verify_phase (st : fw_state) (d : D) (l : fw_locals) : thread_result D :=
  let st := state_update STATE_VERIFY st in
  report_then st d PLDM_FW_UPDATE_VERIFY_SUCCESS (ThReport Verify l) (apply_phase st d l).

Definition transfer_phase (st : fw_state) (d : D) (l : fw_locals) : thread_result D :=
  let st := set_cur_aux_state STATE_AUX_SUCCESS st in
  report_then st d PLDM_FW_UPDATE_TRANSFER_SUCCESS (ThReport Transfer l) (verify_phase st d l).

(** The rest of a turn of the loop, from the answer to the request; the progress
    percentage divides by the image size. *)
Definition data_received (st : fw_state) (d : D) (l : fw_locals) (resp : list Z) : thread_result D :=
  let resp := slice resp 0 (l_length l + 1) in
  let read_len := zlen resp in
  if read_len =? 0 then handler_fail st d l
  else
    let l := if negb (l_last_offset l =? l_offset l) then set_l_retry_count 0 l else l in
    let l := set_l_last_offset (l_offset l) l in
    if negb (read_len =? l_length l + 1) then
      let l := set_l_retry_count (u8 (l_retry_count l + 1)) l in
      if UPDATE_REQUEST_DATA_MAX_RETRY_COUNT <? l_retry_count l then handler_fail st d l
      else request_data st d l
    else if negb (rd resp 0 =? PLDM_SUCCESS)
            && negb (rd resp 0 =? PLDM_FW_UPDATE_CC_DATA_OUT_OF_RANGE)
    then handler_fail st d l
    else
      let p := set_p_data (drop 1 resp) (l_param l) in
      let p := set_p_data_ofs (l_offset l) (set_p_data_len (l_expect_len l) p) in
      if image_size st =? 0 then None
      else
        match fi_update_func (l_info l) with
        | None => None
        | Some fn =>
            '(d, l, ret) ← call_func fn st d (set_l_param p l);
            if negb (ret =? 0) then handler_abort st d l
            else if p_next_len (l_param l) =? 0 then transfer_phase st d l
            else
              request_data (set_update_mode_timer true st) d
                (set_l_offset (p_next_ofs (l_param l)) (set_l_length (p_next_len (l_param l)) l))
        end.

Definition report_answered (st : fw_state) (d : D) (stage : report_stage) (l : fw_locals)
    (resp : list Z) : thread_result D :=
  if negb (report_ok (slice resp 0 10)) then handler_abort st d l
  else
    match stage with
    | Transfer => verify_phase st d l
    | Verify => apply_phase st d l
    | Apply => handler_done st d l
    end.

(** One step: [resp] is the answer the thread was waiting for. *)
Definition req_fw_update_handler (th : fw_thread) (resp : list Z) (st : fw_state) (d : D)
    : thread_result D :=
  match th with
  | ThNone => None
  | ThCreated => handler_begin st d
  | ThData l => data_received st d l resp
  | ThReport stage l => report_answered st d stage l resp
  | ThAbort l => handler_fail st d l
  end.

(** ** The system: commands, timer and thread *)

Record fw_sys := mk_fw_sys { s_state : fw_state; s_dev : D; s_thread : fw_thread }.

Inductive fw_input :=
  | InCommand (code : Z) (buf : list Z) (len : Z) (thread_malloc : bool) (act_malloc : nat -> bool)
  | InTimer
  | InAnswer (resp : list Z).

(** The thread after a command: [k_thread_create] on a thread that has not ended is
    undefined. *)
Definition started (th : fw_thread) (evs : list fw_event) : option fw_thread :=
  if existsb (fun e => match e with EvCreateUpdateThread => true | _ => false end) evs
  then match th with ThNone => Some ThCreated | _ => None end
  else Some th.

(** What an input makes of the system and what is sent for it (response or request);
    [None]: not possible in this state, or undefined behaviour. *)
Definition fw_output : Type := sum (list Z) fw_read.

Definition sys_command (sys : fw_sys) (code : Z) (buf : list Z) (len : Z) (thread_malloc : bool)
    (act_malloc : nat -> bool) : option (fw_sys * list fw_output) :=
  '(st, resp, evs) ← fw_command pf thread_malloc act_malloc code buf len (s_state sys);
  th ← started (s_thread sys) evs;
  Some (mk_fw_sys st (s_dev sys) th, [inl resp : fw_output]).

Definition sys_timer (sys : fw_sys) : option (fw_sys * list fw_output) :=
  if update_mode_timer (s_state sys)
  then st ← exit_update_mode (set_update_mode_timer false (s_state sys));
       Some (mk_fw_sys st (s_dev sys) (s_thread sys), [])
  else None.

Definition sys_answer (sys : fw_sys) (resp : list Z) : option (fw_sys * list fw_output) :=
  '(st, d, th, reads) ← req_fw_update_handler (s_thread sys) resp (s_state sys) (s_dev sys);
  Some (mk_fw_sys st d th, List.map (inr : fw_read -> fw_output) reads).

Definition fw_sys_step (sys : fw_sys) (i : fw_input) : option (fw_sys * list fw_output) :=
  match i with
  | InCommand code buf len thread_malloc act_malloc =>
      sys_command sys code buf len thread_malloc act_malloc
  | InTimer => sys_timer sys
  | InAnswer resp => sys_answer sys resp
  end.

Fixpoint fw_sys_run (sys : fw_sys) (ins : list fw_input) : option (fw_sys * list fw_output) :=
  match ins with
  | [] => Some (sys, [])
  | i :: ins =>
      '(sys, out) ← fw_sys_step sys i;
      '(sys, outs) ← fw_sys_run sys ins;
      Some (sys, out ++ outs)
  end.
End thread.
Arguments fw_sys : clear implicits.
Arguments mk_fw_sys {D}.
Arguments s_state {D}.
Arguments s_dev {D}.
Arguments s_thread {D}.

(** ** Lemmas: the thread keeps the invariant and does not get stuck *)

(** What the waiting thread relies on. *)
Definition thread_ok (st : fw_state) (th : fw_thread) : Prop :=
  match th with
  | ThData l => is_Some (fi_update_func (l_info l))
  | _ => True
  end.

Section thread_safe.
Context {D : Type} (pf : fw_platform) (fns : fw_functions D).
Context (Hcall : forall fn st d p, is_Some (call fns fn st d p)).

Definition good (r : thread_result D) : Prop :=
  exists st d th reads, r = Some (st, d, th, reads) /\ fw_wf st /\ thread_ok st th.

Lemma call_func_total fn st d l :
  exists d' l' ret, call_func fns fn st d l = Some (d', l', ret) /\ l_info l' = l_info l.
Proof using Hcall.
  unfold call_func. destruct (Hcall fn st d (set_p_comp_version_str (cur_update_comp_str st) (l_param l)))
    as [[[d' p] ret] ->]. cbn [mbind option_bind]. eauto.
Qed.

Lemma call_pos_total st d l :
  exists d' l' ret, call_pos_update fns st d l = Some (d', l', ret) /\ l_info l' = l_info l.
Proof using Hcall.
  unfold call_pos_update. destruct (fi_pos_update_func _); [apply call_func_total|]. eauto.
Qed.

Lemma good_exit st d l : fw_wf st -> good (handler_exit fns st d l).
Proof using Hcall.
  intros [H1 H2 H3 H4 H5 H6]. unfold handler_exit.
  destruct (call_pos_total st d l) as (d1 & l1 & r1 & E & _).
  destruct (post_before_apply fns); rewrite ?E; cbn [mbind option_bind];
    (eexists _, _, _, _; split; [done|]; split; [by split|done]).
Qed.

Lemma fw_wf_aux v st : fw_wf st -> fw_wf (set_cur_aux_state v st).
Proof. intros [H1 H2 H3 H4 H5 H6]. by split. Qed.

Lemma good_fail st d l : fw_wf st -> good (handler_fail fns st d l).
Proof using Hcall. intros. by apply good_exit, fw_wf_aux. Qed.

Lemma good_report st d code wait r :
  fw_wf st -> thread_ok st wait -> good r -> good (report_then st d code wait r).
Proof using Type.
  intros. unfold report_then. destruct (report_tranfer st code); [|done].
  by eexists _, _, _, _.
Qed.

Lemma good_abort st d l : fw_wf st -> good (handler_abort fns st d l).
Proof using Hcall. intros. apply good_report; [done|done|by apply good_fail]. Qed.

Lemma good_request st d l :
  fw_wf st -> is_Some (fi_update_func (l_info l)) ->
  good (request_data fns st d l).
Proof using Hcall.
  intros Hwf Hu. unfold request_data. destruct (negb _); [by apply good_fail|].
  destruct (if u32 _ <? _ then _ else _) as [len ex].
  destruct (if len <=? _ then _ else _) as [len' ex'].
  by eexists _, _, _, _.
Qed.

Lemma good_done st d l : fw_wf st -> good (handler_done fns st d l).
Proof using Hcall. intros. apply good_exit, fw_wf_aux, state_update_wf; done. Qed.

Lemma good_apply st d l : fw_wf st -> good (apply_phase fns st d l).
Proof using Hcall.
  intros Hwf. unfold apply_phase.
  assert (Hw : fw_wf (state_update STATE_APPLY st)) by by apply state_update_wf.
  destruct (match fi_self_apply_work_func _ with Some _ => _ | None => _ end) as [d1 res].
  destruct (call_pos_total (state_update STATE_APPLY st) d1 l) as (d2 & l2 & r2 & E & _).
  destruct (post_before_apply fns); rewrite ?E; cbn [mbind option_bind];
    (apply good_report; [done|done|by apply good_done]).
Qed.

Lemma good_verify st d l : fw_wf st -> good (verify_phase fns st d l).
Proof using Hcall.
  intros. apply good_report; [by apply state_update_wf|done|].
  by apply good_apply, state_update_wf.
Qed.

Lemma good_transfer st d l : fw_wf st -> good (transfer_phase fns st d l).
Proof using Hcall.
  intros. apply good_report; [by apply fw_wf_aux|done|]. by apply good_verify, fw_wf_aux.
Qed.

(** An answer with data while the image size is 0: the progress is divided by it. *)
Definition divides_by_zero (st : fw_state) (th : fw_thread) (resp : list Z) : bool :=
  match th with
  | ThData l =>
      let r := slice resp 0 (l_length l + 1) in
      (image_size st =? 0) && negb (zlen r =? 0) && (zlen r =? l_length l + 1)
      && ((rd r 0 =? PLDM_SUCCESS) || (rd r 0 =? PLDM_FW_UPDATE_CC_DATA_OUT_OF_RANGE))
  | _ => false
  end.

Lemma data_divides st d l resp : divides_by_zero st (ThData l) resp = true -> data_received fns st d l resp = None.
Proof using Type.
  unfold divides_by_zero, data_received. cbv zeta. set (r := slice resp 0 _).
  destruct (image_size st =? 0) eqn:Ei; [|done]. destruct (zlen r =? 0); [done|].
  set (l1 := if negb (l_last_offset l =? l_offset l) then _ else _). cbn [negb andb].
  assert (El : l_length (set_l_last_offset (l_offset l1) l1) = l_length l) by (unfold l1; destruct (negb (l_last_offset l =? l_offset l)); reflexivity).
  rewrite El. destruct (zlen r =? l_length l + 1); [|done]. cbn [negb andb].
  intros Hc. rewrite <- negb_orb, Hc. done.
Qed.

Lemma good_data st d l resp :
  fw_wf st -> thread_ok st (ThData l) -> divides_by_zero st (ThData l) resp = false ->
  good (data_received fns st d l resp).
Proof using Hcall.
  intros Hwf Hu Hz. unfold data_received. unfold divides_by_zero in Hz. cbv zeta in Hz. set (r := slice resp 0 _) in *.
  assert (Hlen : forall v, l_length (set_l_last_offset v (if negb (l_last_offset l =? l_offset l) then set_l_retry_count 0 l else l)) = l_length l)
    by (intros v; destruct (negb (l_last_offset l =? l_offset l)); reflexivity).
  destruct (zlen r =? 0); [by apply good_fail|].
  set (l1 := if negb _ then _ else l) in *.
  assert (E1 : l_info l1 = l_info l) by (unfold l1; destruct (negb (l_last_offset l =? l_offset l)); reflexivity). specialize (Hlen (l_offset l1)). clearbody l1.
  set (l2 := set_l_last_offset _ _) in *. assert (E2 : l_info l2 = l_info l) by done. clearbody l2.
  rewrite Hlen. destruct (zlen r =? l_length l + 1); cbn [negb].
  - destruct (negb (rd r 0 =? PLDM_SUCCESS) && _) eqn:Ec; [by apply good_fail|].
    rewrite <- negb_orb in Ec. apply negb_false_iff in Ec. rewrite Ec in Hz.
    destruct (image_size st =? 0); [done|].
    destruct Hu as [fn Hfn]. rewrite E2, Hfn. set (l3 := set_l_param _ l2).
    destruct (call_func_total fn st d l3) as (d' & l' & ret & Eq & Ei).
    rewrite Eq. cbn [mbind option_bind]. clear Hz. destruct (negb _); [by apply good_abort|].
    destruct (_ =? 0); [by apply good_transfer|].
    apply good_request; [by destruct Hwf; split|].
    cbn [l_info set_l_offset set_l_length]. rewrite Ei. cbn [l3 set_l_param l_info].
    rewrite E2. by exists fn.
  - destruct (_ <? _); [by apply good_fail|]. apply good_request; [done|].
    cbn [l_info set_l_retry_count]. by rewrite E2.
Qed.

Lemma good_begin st d : fw_wf st -> good (handler_begin pf fns st d).
Proof using Hcall.
  intros Hwf. unfold handler_begin.
  destruct (status_reset_spec st (wf_str_len _ Hwf) (wf_buff _ Hwf)) as (st' & Er & Hw & _).
  destruct (find_update_info pf st _) as [info|]; [|rewrite Er; by eexists _, _, _, _].
  destruct (fi_update_func info) eqn:Ef; [|rewrite Er; by eexists _, _, _, _].
  set (l := mk_fw_locals info _ _ _ _ _ _).
  assert (Hpre : exists d' l' ret, match fi_pre_update_func info with
      | Some fn => call_func fns fn st d l | None => Some (d, l, 0) end = Some (d', l', ret)
      /\ l_info l' = info).
  { destruct (fi_pre_update_func info) as [fn|].
    - destruct (call_func_total fn st d l) as (d' & l' & ret & E & Ei). by exists d', l', ret.
    - by exists d, l, 0. }
  destruct Hpre as (d' & l' & ret & -> & Ei). cbn [mbind option_bind].
  destruct (negb _); [by apply good_exit|].
  apply good_request; [by apply fw_wf_aux|]. rewrite Ei, Ef. by eexists.
Qed.

Lemma good_handler th resp st d :
  fw_wf st -> thread_ok st th -> th <> ThNone -> divides_by_zero st th resp = false ->
  good (req_fw_update_handler pf fns th resp st d).
Proof using Hcall.
  intros Hwf Ht Hn Hz. destruct th as [| |l|stage l|l]; cbn [req_fw_update_handler].
  - done.
  - by apply good_begin.
  - by apply good_data.
  - unfold report_answered. destruct (negb _); [by apply good_abort|].
    destruct stage; [by apply good_verify|by apply good_apply|by apply good_done].
  - by apply good_fail.
Qed.

(** The inputs the environment can give: the commands of an update in a buffer of bytes, the timer
    where it runs, an answer to a waiting thread. *)
Definition possible (sys : fw_sys D) (i : fw_input) : Prop :=
  match i with
  | InCommand code buf len _ _ => code ∈ [0x10; 0x13; 0x14; 0x1A; 0x1B; 0x1D] /\ bytes_ok buf /\ len <= zlen buf
  | InTimer => update_mode_timer (s_state sys) = true
  | InAnswer _ => s_thread sys <> ThNone
  end.

Definition starts_thread (tm : bool) (am : nat -> bool) (code : Z) (buf : list Z) (len : Z) (st : fw_state) : bool :=
  match fw_command pf tm am code buf len st with
  | Some (_, _, evs) => existsb (fun e => match e with EvCreateUpdateThread => true | _ => false end) evs
  | None => false
  end.

(** The inputs the code does not survive: a version string that does not fit, an update accepted
    while the thread of the one before still lives, data for an image of size 0. *)
Definition fatal (sys : fw_sys D) (i : fw_input) : bool :=
  match i with
  | InCommand code buf len tm am =>
      overlong_version pf code buf len (s_state sys)
      || (match s_thread sys with ThNone => false | _ => true end && starts_thread tm am code buf len (s_state sys))
  | InTimer => false
  | InAnswer resp => divides_by_zero (s_state sys) (s_thread sys) resp
  end.

Definition sys_ok (sys : fw_sys D) : Prop := fw_wf (s_state sys) /\ thread_ok (s_state sys) (s_thread sys).
End thread_safe.

(** ** A whole transfer *)

(** The thread driven to its end by an agent that answers every request. *)
Section drive.
Context {D : Type} (pf : fw_platform) (fns : fw_functions D) (agent : fw_read -> list Z).

Definition fw_continue (drive : fw_state -> D -> fw_thread -> list Z -> option (fw_state * D * list fw_read))
    (r : thread_result D) : option (fw_state * D * list fw_read) :=
  match r with
  | None => None
  | Some (st, d, th, reads) =>
      '(st, d, log) ← drive st d th (match last reads with Some r => agent r | None => [] end);
      Some (st, d, reads ++ log)
  end.

Fixpoint fw_drive (fuel : nat) (st : fw_state) (d : D) (th : fw_thread) (resp : list Z)
    : option (fw_state * D * list fw_read) :=
  match th with
  | ThNone => Some (st, d, [])
  | _ =>
      match fuel with
      | O => None
      | S fuel => fw_continue (fw_drive fuel) (req_fw_update_handler pf fns th resp st d)
      end
  end.
End drive.

(** What an update function needs of the flash code: a device that takes an image of at
    most [sink_size] bytes from offset 0 on in pieces that follow each other and stay in
    their 64 KiB sector, the last one flagged. [sink_ready l]: the bytes [l] were taken and
    more can follow; [sink_done l]: the image [l] is stored. *)
Class ImageSink {D : Type} (set_default_retry_count : Z -> D -> D)
    (fw_update : D -> Z -> Z -> list Z -> Z -> Z -> D * Z) (flash_position : Z) := {
  sink_size : Z;
  sink_ready : list Z -> D -> Prop;
  sink_done : list Z -> D -> Prop;
  sink_write : forall d taken len buf last,
    sink_ready taken d -> 0 < len <= 256 -> len <= zlen buf -> zlen taken + len <= sink_size ->
    zlen taken mod SECTOR_SZ_64K + len <= SECTOR_SZ_64K ->
    let flag := if last : bool then SECTOR_END_FLAG .| NO_RESET_FLAG else 0 in
    exists d', fw_update d (zlen taken) len buf flag flash_position = (d', 0) /\
      (if last then sink_done else sink_ready) (taken ++ slice buf 0 len) d' }.

(** One call of [fw_update]: offset, length, buffer and whether it is the last. *)
Record fw_write := mk_fw_write { w_ofs : Z; w_len : Z; w_buf : list Z; w_last : bool }.
Definition w_data (w : fw_write) : list Z := slice (w_buf w) 0 (w_len w).

(** The writes cover the image from [ofs] on without gap or overlap, none crosses a sector
    or is longer than the maximum transfer size or its buffer, and exactly the last is flagged. *)
Fixpoint tiles (max_len ofs : Z) (ws : list fw_write) : Prop :=
  match ws with
  | [] => False
  | w :: ws =>
      w_ofs w = ofs /\ 0 < w_len w <= Z.min max_len (zlen (w_buf w)) /\
      ofs mod SECTOR_SZ_64K + w_len w <= SECTOR_SZ_64K /\
      match ws with
      | [] => w_last w = true
      | _ => w_last w = false /\ tiles max_len (ofs + w_len w) ws
      end
  end.

(** An agent that follows the protocol: the requested bytes of the image, zeros past its
    end, and a success for every report. *)
Definition image_agent (image : list Z) (r : fw_read) : list Z :=
  if r_cmd r =? PLDM_FW_UPDATE_CMD_CODE_REQUEST_FIRMWARE_DATA then
    PLDM_SUCCESS :: slice (image ++ zeros 32) (le_val (take 4 (r_req r))) (le_val (drop 4 (r_req r)))
  else [PLDM_SUCCESS].

(** A request for data within the limits of the protocol. *)
Definition request_ok (n max_len : Z) (r : fw_read) : Prop :=
  r_cmd r = PLDM_FW_UPDATE_CMD_CODE_REQUEST_FIRMWARE_DATA ->
  let ofs := le_val (take 4 (r_req r)) in
  let len := le_val (drop 4 (r_req r)) in
  MIN_FW_UPDATE_BASELINE_TRANS_SIZE <= len <= Z.max MIN_FW_UPDATE_BASELINE_TRANS_SIZE max_len /\
  ofs + len <= n + MIN_FW_UPDATE_BASELINE_TRANS_SIZE.

(** The piece an update function asks for next at offset [ofs]. *)
Definition piece (n max_len ofs : Z) : Z :=
  Z.min (Z.min max_len (n - ofs)) (SECTOR_SZ_64K - ofs mod SECTOR_SZ_64K).

Lemma next_request_spec st p :
  0 < max_buff_size st <= 256 -> 0 < image_size st < 0xFFFFF000 ->
  0 <= p_data_ofs p -> 0 < p_data_len p <= 256 -> p_data_ofs p < image_size st ->
  let ofs := p_data_ofs p + p_data_len p in
  next_request SECTOR_SZ_64K st p =
    if ofs <? image_size st
    then (set_p_next_len (piece (image_size st) (max_buff_size st) ofs) (set_p_next_ofs ofs p), false)
    else (set_p_next_len 0 (set_p_next_ofs ofs p), true).
Proof.
  intros Hm Hn Ho Hl Hlt ofs. unfold next_request. cbn [p_data_ofs p_data_len set_p_next_ofs].
  fold ofs. rewrite (u32_id ofs) by (unfold ofs; lia).
  cbn [p_next_ofs set_p_next_len set_p_next_ofs p_next_len].
  destruct (Z.ltb_spec ofs (image_size st)); [|by destruct p].
  pose proof (Z.mod_pos_bound ofs SECTOR_SZ_64K ltac:(done)) as Hmod.
  unfold SECTOR_SZ_64K in *. unfold piece, SECTOR_SZ_64K.
  rewrite (u32_id (ofs + max_buff_size st)) by lia. rewrite (u32_id (image_size st - ofs)) by lia.
  change (65536 =? 0) with false. cbn [negb andb].
  destruct (Z.ltb_spec (image_size st) (ofs + max_buff_size st)).
  - cbn [set_p_next_len set_p_next_ofs p_next_ofs p_next_len].
    destruct (Z.ltb_spec 65536 (u32 (ofs mod 65536 + (image_size st - ofs)))) as [Hs|Hs];
      rewrite u32_id in Hs by lia;
      apply (f_equal (fun v => (set_p_next_len v (set_p_next_ofs ofs p), false))); lia.
  - cbn [set_p_next_len set_p_next_ofs p_next_ofs p_next_len].
    destruct (Z.ltb_spec 65536 (u32 (ofs mod 65536 + max_buff_size st))) as [Hs|Hs];
      rewrite u32_id in Hs by lia;
      apply (f_equal (fun v => (set_p_next_len v (set_p_next_ofs ofs p), false))); lia.
Qed.

Lemma piece_bounds n max_len ofs :
  0 < max_len <= 256 -> 0 <= ofs < n ->
  0 < piece n max_len ofs <= max_len /\ ofs + piece n max_len ofs <= n /\
  ofs mod SECTOR_SZ_64K + piece n max_len ofs <= SECTOR_SZ_64K.
Proof.
  intros Hm Ho. unfold piece. pose proof (Z.mod_pos_bound ofs SECTOR_SZ_64K ltac:(done)).
  unfold SECTOR_SZ_64K in *. lia.
Qed.

Lemma image_agent_data image ofs len b :
  0 <= ofs < 2 ^ 32 -> 0 <= len < 2 ^ 32 ->
  image_agent image (mk_fw_read 0x15 (le_bytes 4 ofs ++ le_bytes 4 len) b)
    = PLDM_SUCCESS :: slice (image ++ zeros 32) ofs len.
Proof.
  intros Ho Hl. unfold image_agent. cbn [r_cmd r_req].
  change (0x15 =? PLDM_FW_UPDATE_CMD_CODE_REQUEST_FIRMWARE_DATA) with true. cbv iota.
  rewrite take_app_length' by (by rewrite length_le_bytes).
  rewrite drop_app_length' by (by rewrite length_le_bytes).
  rewrite !le_val_le_bytes. change (256 ^ Z.of_nat 4) with (2 ^ 32).
  by rewrite !Z.mod_small by lia.
Qed.

(** The part of a turn that follows a full answer: the call of the update function. *)
Definition update_call {D} (fns : fw_functions D) (fn : Z) (st : fw_state) (d : D) (l : fw_locals)
    (data : list Z) : thread_result D :=
  '(d, l, ret) ← call_func fns fn st d
    (set_l_param (set_p_data_ofs (l_offset l) (set_p_data_len (l_expect_len l)
       (set_p_data data (l_param l)))) l);
  if negb (ret =? 0) then handler_abort fns st d l
  else if p_next_len (l_param l) =? 0 then transfer_phase fns st d l
  else
    request_data fns (set_update_mode_timer true st) d
      (set_l_offset (p_next_ofs (l_param l)) (set_l_length (p_next_len (l_param l)) l)).

(** Locals that differ in the retry bookkeeping only. *)
Definition same_request (l l' : fw_locals) : Prop :=
  l_info l' = l_info l /\ l_param l' = l_param l /\ l_offset l' = l_offset l /\
  l_length l' = l_length l /\ l_expect_len l' = l_expect_len l.

Lemma data_received_full {D} (fns : fw_functions D) fn st (d : D) l data :
  zlen data = l_length l -> image_size st <> 0 -> fi_update_func (l_info l) = Some fn ->
  exists l', same_request l l' /\
    data_received fns st d l (PLDM_SUCCESS :: data) = update_call fns fn st d l' data.
Proof.
  intros Hz Hi Hu. unfold data_received. rewrite slice_all by (rewrite zlen_cons; lia).
  rewrite zlen_cons, Hz. pose proof (zlen_nonneg data). destruct (Z.eqb_spec (1 + l_length l) 0); [lia|].
  set (l1 := if negb _ then _ else l). set (l2 := set_l_last_offset _ l1).
  assert (E : same_request l l2).
  { unfold l2, l1. by destruct (negb (l_last_offset l =? l_offset l)). }
  exists l2. split; [exact E|]. destruct E as (Ei & Ep & Eo & El & Ee). clearbody l2.
  rewrite El. destruct (Z.eqb_spec (1 + l_length l) (l_length l + 1)); [|lia].
  change (rd (PLDM_SUCCESS :: data) 0 =? PLDM_SUCCESS) with true. cbn [negb andb].
  destruct (Z.eqb_spec (image_size st) 0); [done|]. rewrite Ei, Hu. done.
Qed.

(** The call where the function is [pldm_fw_update], from the write it makes. *)
Lemma update_call_spi {D} (set_retry : Z -> D -> D) fw_update pos (fns : fw_functions D) fn st d l
    data p last d' :
  call fns fn = pldm_fw_update set_retry fw_update pos ->
  next_request SECTOR_SZ_64K st
    (set_p_comp_version_str (cur_update_comp_str st) (set_p_data_ofs (l_offset l)
       (set_p_data_len (l_expect_len l) (set_p_data data (l_param l))))) = (p, last) ->
  p_data_ofs p = l_offset l -> p_data_len p = l_expect_len l -> p_data p = data ->
  fw_update (if l_offset l =? 0 then set_retry 0 d else d) (l_offset l) (u16 (l_expect_len l)) data
    (if last then SECTOR_END_FLAG .| NO_RESET_FLAG else 0) pos = (d', 0) ->
  exists l', l_info l' = l_info l /\
    update_call fns fn st d l data =
      (if p_next_len p =? 0 then transfer_phase fns st d' l'
       else request_data fns (set_update_mode_timer true st) d'
              (set_l_offset (p_next_ofs p) (set_l_length (p_next_len p) l'))).
Proof.
  intros Hfn Hnext H1 H2 H3 Hw. unfold update_call, call_func. rewrite Hfn. unfold pldm_fw_update.
  cbn [set_l_param l_param]. rewrite Hnext, H1, H2, H3.
  change (p_data_ofs (set_p_comp_version_str _ _)) with (l_offset l). rewrite Hw.
  cbn [mbind option_bind Z.eqb negb set_l_param l_param].
  by eexists (set_l_param p (set_l_param _ l)).
Qed.

Section download.
Context {D : Type} (set_default_retry_count : Z -> D -> D)
  (fw_update : D -> Z -> Z -> list Z -> Z -> Z -> D * Z) (pos : Z)
  `{Hsink : !ImageSink set_default_retry_count fw_update pos}.
Context (pf : fw_platform) (fns : fw_functions D) (fn : Z) (info : pldm_fw_update_info)
  (image : list Z) (m : Z).
Context (Hfn : call fns fn = pldm_fw_update set_default_retry_count fw_update pos)
  (Hinfo : fi_update_func info = Some fn /\ fi_pre_update_func info = None /\
     fi_pos_update_func info = None /\ fi_self_apply_work_func info = None)
  (Hn : 0 < zlen image < 0xFFFFF000) (Hm : 0 < m <= 256) (Hsize : zlen image + 32 <= sink_size).

Definition write_flag (last : bool) : Z := if last then SECTOR_END_FLAG .| NO_RESET_FLAG else 0.
Definition do_write (d : D) (w : fw_write) : D :=
  fst (fw_update d (w_ofs w) (w_len w) (w_buf w) (write_flag (w_last w)) pos).

(** Ready at an offset: what came before was taken; the retry limit is set at the start. *)
Definition ready_at (ofs : Z) (d : D) : Prop :=
  exists taken, zlen taken = ofs /\
    sink_ready taken (if ofs =? 0 then set_default_retry_count 0 d else d).

Definition downloading (st : fw_state) : Prop :=
  keep_update_flag st = true /\ image_size st = zlen image /\ max_buff_size st = m /\
  current_state st = STATE_DOWNLOAD.

(** The bytes the agent gives at an offset. *)
Definition padded (ofs len : Z) : list Z := slice (image ++ zeros 32) ofs len.

Lemma zlen_padded ofs len :
  0 <= ofs -> 0 <= len -> ofs + len <= zlen image + 32 -> zlen (padded ofs len) = len.
Proof using Type. intros. apply zlen_slice; [done|done|]. rewrite zlen_app. by rewrite zlen_zeros. Qed.

(** One turn of the loop, from the agent's answer. *)
Lemma download_turn st d l ofs L e :
  downloading st -> l_info l = info -> l_offset l = ofs -> l_length l = L -> l_expect_len l = e ->
  0 < e <= L -> e <= m -> L <= 256 -> 0 <= ofs < zlen image -> ofs + L <= zlen image + 32 ->
  ofs mod SECTOR_SZ_64K + e <= SECTOR_SZ_64K -> ready_at ofs d ->
  let d1 := if ofs =? 0 then set_default_retry_count 0 d else d in
  let w := mk_fw_write ofs e (padded ofs L) (negb (ofs + e <? zlen image)) in
  exists l', l_info l' = info /\
    data_received fns st d l (PLDM_SUCCESS :: padded ofs L) =
      (if ofs + e <? zlen image
       then request_data fns (set_update_mode_timer true st) (do_write d1 w)
              (set_l_offset (ofs + e) (set_l_length (piece (zlen image) m (ofs + e)) l'))
       else transfer_phase fns st (do_write d1 w) l') /\
    (ofs + e < zlen image -> ready_at (ofs + e) (do_write d1 w)).
Proof using All.
  intros (Hk & Hi & Hb & Hs) Hli Hlo HL He H1 H2 H3 H4 H5 H6 Hr d1 w.
  destruct Hinfo as (Hu & _ & _ & _).
  destruct (data_received_full fns fn st d l (padded ofs L)) as (l1 & (Ei & Ep & Eo & El & Ee) & ->);
    [rewrite HL; apply zlen_padded; lia|lia|congruence|]. rewrite Hlo in Eo. rewrite He in Ee.
  set (p := set_p_comp_version_str (cur_update_comp_str st) (set_p_data_ofs (l_offset l1)
       (set_p_data_len (l_expect_len l1) (set_p_data (padded ofs L) (l_param l1))))).
  assert (Ep1 : p_data_ofs p = ofs /\ p_data_len p = e /\ p_data p = padded ofs L) by done.
  destruct Ep1 as (Ep1 & Ep2 & Ep3).
  destruct Hr as (taken & Htk & Hrd). fold d1 in Hrd.
  destruct (sink_write d1 taken e (padded ofs L) (negb (ofs + e <? zlen image)) Hrd)
    as (d' & Ew & Hr'); rewrite ?Htk; [lia|rewrite zlen_padded by lia; lia|lia|lia|].
  rewrite Htk in Ew.
  assert (Ed : do_write d1 w = d') by (unfold do_write, w, write_flag; cbn; by rewrite Ew).
  rewrite Ed. unfold d1 in Ew. clear Ed.
  assert (Hnext := next_request_spec st p ltac:(lia) ltac:(lia) ltac:(lia) ltac:(lia) ltac:(lia)).
  cbv zeta in Hnext. rewrite Ep1, Ep2, Hi, Hb in Hnext.
  destruct (Z.ltb_spec (ofs + e) (zlen image)) as [Hlt|Hge]; cbn [negb] in Ew, Hr';
    (edestruct (update_call_spi set_default_retry_count fw_update pos fns fn st d l1 (padded ofs L))
      as (l2 & Ei2 & ->); [exact Hfn|exact Hnext|rewrite Eo; exact Ep1|rewrite Ee; exact Ep2|exact Ep3
      |rewrite Eo, Ee, (u16_id e) by lia; exact Ew|]);
    exists l2; (split; [congruence|]);
    cbn [set_p_next_len set_p_next_ofs p_next_len p_next_ofs].
  - pose proof (piece_bounds (zlen image) m (ofs + e) ltac:(lia) ltac:(lia)) as (Hpc & _).
    destruct (Z.eqb_spec (piece (zlen image) m (ofs + e)) 0); [lia|]. split; [done|].
    intros _. exists (taken ++ slice (padded ofs L) 0 e).
    rewrite zlen_app, zlen_slice by (rewrite ?zlen_padded by lia; lia).
    destruct (Z.eqb_spec (ofs + e) 0); [lia|]. split; [lia|done].
  - split; [done|lia].
Qed.

Definition finished (st : fw_state) : Prop :=
  current_state st = STATE_RDY_XFER /\ cur_aux_state st = STATE_AUX_SUCCESS /\
  image_size st = 0 /\ fw_update_tid st = false.

Lemma call_pos_none st d l : l_info l = info -> call_pos_update fns st d l = Some (d, l, 0).
Proof using Hinfo.
  intros E. unfold call_pos_update. rewrite E. by destruct Hinfo as (_ & _ & -> & _).
Qed.

Lemma exit_none st d l :
  l_info l = info ->
  handler_exit fns st d l = Some (set_fw_update_tid false (set_image_size 0 st), d, ThNone, []).
Proof using Hinfo.
  intros E. unfold handler_exit. rewrite call_pos_none by done. by destruct (post_before_apply fns).
Qed.

(** A report of the success path, answered. *)
Lemma report_step st d wait code r go_on k stage l :
  report_tranfer st code = Some r -> r_cmd r <> 0x15 -> wait = ThReport stage l ->
  fw_continue (image_agent image) (fw_drive pf fns (image_agent image) (S k))
      (report_then st d code wait go_on) =
    ('(st', d', log) ← fw_continue (image_agent image) (fw_drive pf fns (image_agent image) k)
       (report_answered fns st d stage l [PLDM_SUCCESS]); Some (st', d', r :: log)).
Proof using Type.
  intros Hr Hc ->. unfold report_then. rewrite Hr. cbn [fw_continue last fw_drive].
  assert (Ea : image_agent image r = [PLDM_SUCCESS]).
  { unfold image_agent. destruct (Z.eqb_spec (r_cmd r) PLDM_FW_UPDATE_CMD_CODE_REQUEST_FIRMWARE_DATA);
      [done|done]. }
  rewrite Ea. cbn [req_fw_update_handler].
  by destruct (fw_continue _ _ _) as [[[st' d'] log]|].
Qed.

Lemma transfer_end st d l k :
  downloading st -> l_info l = info -> (3 <= k)%nat ->
  exists st' log, fw_continue (image_agent image) (fw_drive pf fns (image_agent image) k)
      (transfer_phase fns st d l) = Some (st', d, log) /\ finished st' /\
    Forall (request_ok (zlen image) m) log.
Proof using Hinfo.
  intros (Hk & Hi & Hb & Hs) Hl H3. destruct k as [|[|[|k]]]; [lia..|]. clear H3.
  destruct Hinfo as (_ & _ & _ & Ha).
  unfold transfer_phase. erewrite report_step; [|unfold report_tranfer; cbn [current_state set_cur_aux_state]; rewrite Hs; reflexivity|done|done].
  unfold report_answered at 1. change (negb (report_ok (slice [PLDM_SUCCESS] 0 10))) with false.
  cbv iota. unfold verify_phase. erewrite report_step; [|reflexivity|done|done].
  unfold report_answered at 1. change (negb (report_ok (slice [PLDM_SUCCESS] 0 10))) with false.
  cbv iota. unfold apply_phase. rewrite Hl, Ha, call_pos_none by done.
  match goal with |- context [if post_before_apply fns then ?a else ?b] =>
    assert (Ep : (if post_before_apply fns then a else b) = Some (d, l, PLDM_FW_UPDATE_APPLY_SUCCESS))
      by (by destruct (post_before_apply fns)) end.
  rewrite Ep. cbn [mbind option_bind]. erewrite report_step; [|reflexivity|done|done].
  unfold report_answered. change (negb (report_ok (slice [PLDM_SUCCESS] 0 10))) with false.
  cbv iota. unfold handler_done. rewrite exit_none by done. cbn [fw_continue last fw_drive].
  destruct k; cbn [fw_drive mbind option_bind app]; (eexists _, _; split; [done|]; split; [done|]);
    (repeat constructor; by intros ?).
Qed.
#[local] Abbreviation continue k r :=
  (fw_continue (image_agent image) (fw_drive pf fns (image_agent image) k) r).

(** A request for data: the length [L] asked for, the length [e] used of it. *)
Definition data_read (ofs L : Z) : fw_read :=
  mk_fw_read 0x15 (le_bytes 4 ofs ++ le_bytes 4 L) (L + 1).

Lemma request_step st d l k L e :
  keep_update_flag st = true ->
  (exists l', request_data fns st d l = Some (st, d, ThData l', [data_read (l_offset l) L]) /\
     l_info l' = l_info l /\ l_offset l' = l_offset l /\ l_length l' = L /\ l_expect_len l' = e) ->
  0 <= l_offset l < 2 ^ 32 -> 0 <= L < 2 ^ 32 ->
  exists l', l_info l' = l_info l /\ l_offset l' = l_offset l /\ l_length l' = L /\ l_expect_len l' = e /\
    continue (S k) (request_data fns st d l) =
      ('(st', d', log) ← continue k (data_received fns st d l' (PLDM_SUCCESS :: padded (l_offset l) L));
       Some (st', d', data_read (l_offset l) L :: log)).
Proof using Type.
  intros Hk (l' & E & H1 & H2 & H3 & H4) Ho HL. exists l'. split_and!; try done.
  rewrite E. cbn [fw_continue last fw_drive]. unfold data_read.
  rewrite image_agent_data by done. cbn [req_fw_update_handler]. unfold padded.
  by destruct (fw_continue _ _ _) as [[[st' d'] log]|].
Qed.

(** What the top of the loop asks for: inside the image, the piece itself, raised to the
    baseline; at the start, the maximum unless the image is shorter by more than the padding. *)
Lemma request_piece st d l :
  downloading st -> 0 <= l_offset l -> 0 < l_length l <= m ->
  l_offset l + l_length l <= zlen image + 32 ->
  exists l', request_data fns st d l
      = Some (st, d, ThData l', [data_read (l_offset l) (Z.max 32 (l_length l))]) /\
    l_info l' = l_info l /\ l_offset l' = l_offset l /\ l_length l' = Z.max 32 (l_length l) /\
    l_expect_len l' = l_length l.
Proof using Hn Hm.
  intros (Hk & Hi & Hb & Hs) Ho Hl Hle. unfold request_data. rewrite Hk. cbn [negb].
  unfold MIN_FW_UPDATE_BASELINE_TRANS_SIZE.
  rewrite Hi, !u32_id by lia. destruct (Z.ltb_spec (zlen image + 32) (l_offset l + l_length l)); [lia|].
  destruct (Z.leb_spec (l_length l) 32).
  - rewrite Z.max_l by lia. by eexists.
  - rewrite Z.max_r by lia. rewrite Hb. destruct (Z.ltb_spec m (l_length l)); [lia|]. by eexists.
Qed.

Lemma request_piece_short st d l :
  downloading st -> l_offset l = 0 -> l_length l = m -> zlen image + 32 < m ->
  exists l', request_data fns st d l
      = Some (st, d, ThData l', [data_read 0 (Z.max 32 (zlen image))]) /\
    l_info l' = l_info l /\ l_offset l' = l_offset l /\ l_length l' = Z.max 32 (zlen image) /\
    l_expect_len l' = zlen image.
Proof using Hn Hm.
  intros (Hk & Hi & Hb & Hs) Ho Hl Hlt. unfold request_data. rewrite Hk. cbn [negb].
  unfold MIN_FW_UPDATE_BASELINE_TRANS_SIZE.
  rewrite Hi, Ho, Hl, !u32_id by lia. destruct (Z.ltb_spec (zlen image + 32) (0 + m)); [|lia].
  rewrite Z.sub_0_r. destruct (Z.leb_spec (zlen image) 32).
  - rewrite Z.max_l by lia. by eexists.
  - rewrite Z.max_r by lia. rewrite Hb. destruct (Z.ltb_spec m (zlen image)); [lia|]. by eexists.
Qed.

Lemma request_ok_piece ofs len :
  0 <= ofs -> 0 < len -> Z.max 32 len <= Z.max 32 m -> ofs + len <= zlen image + 32 ->
  ofs <= zlen image -> request_ok (zlen image) m (data_read ofs (Z.max 32 len)).
Proof using Hn Hm.
  intros Ho Hl Hmx Hle Hlt _. unfold data_read. cbn [r_req].
  rewrite take_app_length' by (by rewrite length_le_bytes).
  rewrite drop_app_length' by (by rewrite length_le_bytes).
  rewrite !le_val_le_bytes. change (256 ^ Z.of_nat 4) with 4294967296.
  unfold MIN_FW_UPDATE_BASELINE_TRANS_SIZE.
  rewrite !Z.mod_small by lia. lia.
Qed.

(** The loop from a request inside the image on. *)
Lemma download_loop k st d l ofs :
  downloading st -> l_info l = info -> l_offset l = ofs ->
  0 <= ofs < zlen image -> l_length l = piece (zlen image) m ofs ->
  ready_at ofs d -> zlen image - ofs <= Z.of_nat k ->
  exists ws st' log,
    continue (k + 3)%nat (request_data fns st d l) =
      Some (st', fold_left do_write ws (if ofs =? 0 then set_default_retry_count 0 d else d), log) /\
    tiles m ofs ws /\ concat (w_data <$> ws) = slice image ofs (zlen image - ofs) /\
    finished st' /\ Forall (request_ok (zlen image) m) log.
Proof using All.
  revert st d l ofs. induction k as [|k IH]; intros st d l ofs Hst Hi Ho Hr Hl Hrd Hk; [lia|].
  pose proof (piece_bounds (zlen image) m ofs Hm Hr) as (Hp1 & Hp2 & Hp3).
  set (e := piece (zlen image) m ofs) in *.
  destruct (request_step st d l (k + 3) (Z.max 32 e) e) as (l1 & E1 & E2 & E3 & E4 & Ec).
  { apply Hst. }
  { rewrite <- Hl. apply request_piece; try done; lia. }
  { lia. }
  { lia. }
  change (S k + 3)%nat with (S (k + 3)). rewrite Ec. rewrite Ho in *. clear Ec.
  destruct (download_turn st d l1 ofs (Z.max 32 e) e) as (l2 & Ei & Et & Hr2); try done; try lia.
  { congruence. }
  rewrite Et. clear Et. set (w := mk_fw_write _ _ _ _) in *.
  set (d1 := if ofs =? 0 then _ else d) in *.
  assert (Hwb : 0 < w_len w <= Z.min m (zlen (w_buf w))).
  { cbn [w w_len w_buf]. rewrite zlen_padded by lia. lia. }
  assert (Hwd : w_data w = slice image ofs e).
  { unfold w_data, w. cbn [w_buf w_len]. unfold padded. unfold slice at 1 2. cbn [Z.to_nat].
    change (Z.to_nat 0) with 0%nat. rewrite drop_0, take_take, Nat.min_l by lia.
    unfold slice. rewrite drop_app_le by (unfold zlen in *; lia).
    apply take_app_le. rewrite length_drop. unfold zlen in *. lia. }
  destruct (Z.ltb_spec (ofs + e) (zlen image)) as [Hlt|Hge].
  - destruct (IH (set_update_mode_timer true st) (do_write d1 w)
      (set_l_offset (ofs + e) (set_l_length (piece (zlen image) m (ofs + e)) l2)) (ofs + e))
      as (ws & st' & log & E & Ht & Hc & Hf & Hlog); try done; try lia; [by apply Hr2|].
    rewrite E. cbn [mbind option_bind]. exists (w :: ws), st', (data_read ofs (Z.max 32 e) :: log).
    split; [|split_and!].
    + destruct (Z.eqb_spec (ofs + e) 0); [lia|]. done.
    + cbn [tiles]. split_and!; try done; try lia. destruct ws; [done|].
      split; [|done]. by destruct (Z.ltb_spec (ofs + e) (zlen image)); [|lia].
    + rewrite fmap_cons. cbn [concat]. rewrite Hwd, Hc.
      replace (zlen image - ofs) with (e + (zlen image - (ofs + e))) by lia.
      rewrite slice_split by lia. done.
    + done.
    + constructor; [|done]. apply request_ok_piece; lia.
  - destruct (transfer_end st (do_write d1 w) l2 (k + 3)) as (st' & log & E & Hf & Hlog);
      [done|done|lia|].
    rewrite E. cbn [mbind option_bind].
    exists [w], st', (data_read ofs (Z.max 32 e) :: log).
    split; [done|split; [|split; [|split; [done|]]]].
    + split; [done|split; [exact Hwb|split; [exact Hp3|done]]].
    + cbn [fmap list_fmap concat]. rewrite app_nil_r, Hwd. f_equal. lia.
    + constructor; [|done]. apply request_ok_piece; lia.
Qed.
(** A first request that already covers the image: one piece, [pad] bytes of padding. *)
Lemma download_single st d l k e pad :
  downloading st -> ready_at 0 d -> l_info l = info -> l_offset l = 0 -> e = zlen image + pad -> 0 <= pad <= 32 ->
  e <= m ->
  (exists l', request_data fns st d l = Some (st, d, ThData l', [data_read (l_offset l) (Z.max 32 e)]) /\
     l_info l' = l_info l /\ l_offset l' = l_offset l /\ l_length l' = Z.max 32 e /\ l_expect_len l' = e) ->
  exists ws st' log,
    continue (k + 4)%nat (request_data fns st d l) =
      Some (st', fold_left do_write ws (set_default_retry_count 0 d), log) /\
    tiles m 0 ws /\ concat (w_data <$> ws) = image ++ zeros pad /\
    finished st' /\ Forall (request_ok (zlen image) m) log.
Proof using All.
  intros Hst Hrd Hi Ho He Hpad Hem Hreq.
  destruct (request_step st d l (k + 3) (Z.max 32 e) e) as (l1 & E1 & E2 & E3 & E4 & Ec);
    [apply Hst|done|lia|lia|].
  replace (k + 4)%nat with (S (k + 3)) by lia. rewrite Ec, Ho in *. clear Ec Hreq.
  destruct (download_turn st d l1 0 (Z.max 32 e) e) as (l2 & Ei & Et & _); try done; try lia.
  { congruence. }
  { rewrite Z.mod_0_l by done. unfold SECTOR_SZ_64K. lia. }
  rewrite Et. clear Et. destruct (Z.ltb_spec (0 + e) (zlen image)); [lia|].
  set (w := mk_fw_write _ _ _ _). change (0 =? 0) with true. cbv iota.
  destruct (transfer_end st (do_write (set_default_retry_count 0 d) w) l2 (k + 3))
    as (st' & log & E & Hf & Hlog); [done|done|lia|].
  rewrite E. cbn [mbind option_bind].
  exists [w], st', (data_read 0 (Z.max 32 e) :: log).
  split; [done|split; [|split; [|split; [done|]]]].
  - cbn [tiles w w_ofs w_len w_buf w_last]. unfold SECTOR_SZ_64K. rewrite Z.mod_0_l by done.
    rewrite zlen_padded by lia. split; [done|split; [lia|split; [lia|done]]].
  - cbn [fmap list_fmap concat]. rewrite app_nil_r. unfold w_data, w, padded. cbn [w_buf w_len].
    rewrite slice_slice by lia. unfold slice. rewrite He. cbn [Z.to_nat].
    change (Z.to_nat 0) with 0%nat. rewrite drop_0, take_app_ge by (unfold zlen; lia).
    f_equal. unfold zeros. rewrite take_replicate. f_equal. unfold zlen in *. lia.
  - constructor; [|done]. apply request_ok_piece; lia.
Qed.

Lemma download_whole st d :
  downloading st -> ready_at 0 d -> find_update_info pf st (cur_update_comp_id st) = Some info ->
  exists ws st' log pad,
    fw_drive pf fns (image_agent image) (Z.to_nat (zlen image) + 5) st d ThCreated [] =
      Some (st', fold_left do_write ws (set_default_retry_count 0 d), log) /\
    tiles m 0 ws /\ concat (w_data <$> ws) = image ++ zeros pad /\
    0 <= pad <= 32 /\ (m <= zlen image -> pad = 0) /\
    finished st' /\ Forall (request_ok (zlen image) m) log.
Proof using All.
  intros Hst Hrd Hfind. pose proof Hinfo as (Hu & Hpre & _ & _).
  replace (Z.to_nat (zlen image) + 5)%nat with (S (Z.to_nat (zlen image) + 4)) by lia.
  cbn [fw_drive req_fw_update_handler]. unfold handler_begin. rewrite Hfind, Hu, Hpre.
  cbn [mbind option_bind Z.eqb negb].
  set (l := mk_fw_locals info _ _ _ _ _ _). set (st0 := set_cur_aux_state _ st).
  assert (Hst0 : downloading st0) by exact Hst.
  assert (Hl : l_length l = m) by apply Hst.
  destruct (Z.le_gt_cases m (zlen image)) as [Hle|Hgt].
  - destruct (download_loop (S (Z.to_nat (zlen image))) st0 d l 0) as (ws & st' & log & E & Ht & Hc & Hf & Hlog);
      try done; try lia.
    { rewrite Hl. unfold piece, SECTOR_SZ_64K. rewrite Z.mod_0_l by done. lia. }
    exists ws, st', log, 0.
    replace (Z.to_nat (zlen image) + 4)%nat with (S (Z.to_nat (zlen image)) + 3)%nat by lia.
    split; [exact E|]. split; [done|]. rewrite Hc. change (zeros 0) with (@nil Z).
    rewrite app_nil_r, Z.sub_0_r, slice_all by lia. split_and!; done || lia.
  - destruct (Z.le_gt_cases m (zlen image + 32)) as [Hp|Hp].
    + destruct (download_single st0 d l (Z.to_nat (zlen image)) m (m - zlen image))
        as (ws & st' & log & E & Ht & Hc & Hf & Hlog); try done; try lia.
      { rewrite <- Hl. apply request_piece; try done; rewrite Hl; cbn [l l_offset]; lia. }
      exists ws, st', log, (m - zlen image). split; [exact E|]. split_and!; done || lia.
    + destruct (download_single st0 d l (Z.to_nat (zlen image)) (zlen image) 0)
        as (ws & st' & log & E & Ht & Hc & Hf & Hlog); try done; try lia.
      { by apply request_piece_short. }
      exists ws, st', log, 0. split; [exact E|]. split_and!; done || lia.
Qed.

(** A ready device holds the image after writes that tile it. *)
Lemma tiles_sink mx ws : mx <= 256 -> forall taken d,
  tiles mx (zlen taken) ws -> zlen taken + zlen (concat (w_data <$> ws)) <= sink_size ->
  sink_ready taken d -> sink_done (taken ++ concat (w_data <$> ws)) (fold_left do_write ws d).
Proof using Type.
  intros Hmx. induction ws as [|w ws IH]; intros taken d Ht Hsz Hr; [done|].
  destruct Ht as (Ho & Hl & Hs & Ht). rewrite fmap_cons in Hsz |- *. cbn [concat fold_left] in Hsz |- *.
  assert (Hz : zlen (w_data w) = w_len w) by (apply zlen_slice; lia).
  rewrite zlen_app, Hz in Hsz. pose proof (zlen_nonneg (concat (w_data <$> ws))).
  destruct (sink_write d taken (w_len w) (w_buf w) (w_last w) Hr) as (d' & E & Hr'); try lia.
  assert (Ed : do_write d w = d') by (unfold do_write, write_flag; by rewrite Ho, E).
  fold (w_data w) in Hr'. rewrite Ed, app_assoc. destruct ws as [|w' ws].
  - rewrite Ht in Hr'. cbn [fmap list_fmap concat fold_left]. by rewrite app_nil_r.
  - destruct Ht as [El Ht]. rewrite El in Hr'. apply IH; [|rewrite zlen_app, Hz; lia|done].
    by rewrite zlen_app, Hz.
Qed.
End download.

Section system_safe.
Context {D : Type} (pf : fw_platform) (fns : fw_functions D).
Context (Hcall : forall fn st d p, is_Some (call fns fn st d p)).

Lemma command_step_ok sys code buf len tm am :
  sys_ok sys -> possible sys (InCommand code buf len tm am) -> fatal pf sys (InCommand code buf len tm am) = false ->
  exists sys' out, fw_sys_step pf fns sys (InCommand code buf len tm am) = Some (sys', out) /\ sys_ok sys'.
Proof using Type.
  intros [Hwf Ht] (Hc & Hb & Hl) Hf. cbn [fatal] in Hf. apply orb_false_iff in Hf as [Ho Hf].
  cbn [fw_sys_step]. unfold sys_command. unfold starts_thread in Hf.
  destruct (fw_command_spec pf tm am code buf len (s_state sys)) as (st' & resp & evs & E & _ & Hw & _); [done..|].
  rewrite E in Hf |- *. cbn [mbind option_bind]. unfold started. destruct (existsb _ evs).
  - rewrite andb_true_r in Hf. destruct (s_thread sys); try done. cbn [mbind option_bind].
    eexists _, _. split; [done|]. by split.
  - cbn [mbind option_bind]. eexists _, _. split; [done|]. by split.
Qed.

Lemma sys_step_ok sys i :
  sys_ok sys -> possible sys i -> fatal pf sys i = false ->
  exists sys' out, fw_sys_step pf fns sys i = Some (sys', out) /\ sys_ok sys'.
Proof using Hcall.
  intros Hok Hi Hf. destruct i as [code buf len tm am| |resp].
  - by apply command_step_ok.
  - destruct Hok as [Hwf Ht]. cbn [fw_sys_step]. unfold sys_timer. cbn [possible] in Hi. rewrite Hi.
    destruct (status_reset_spec (set_update_mode_timer false (s_state sys)))
      as (st' & E & Hw & _); [apply Hwf|apply Hwf|].
    unfold exit_update_mode. rewrite E. cbn [mbind option_bind].
    eexists _, _. split; [done|]. by split.
  - destruct Hok as [Hwf Ht]. cbn [fw_sys_step]. unfold sys_answer.
    destruct (good_handler pf fns Hcall (s_thread sys) resp (s_state sys) (s_dev sys) Hwf Ht Hi Hf)
      as (st' & d' & th' & reads & -> & Hw & Ht').
    cbn [mbind option_bind]. eexists _, _. split; [done|]. by split.
Qed.

Lemma fatal_step sys i : sys_ok sys -> possible sys i -> fatal pf sys i = true -> fw_sys_step pf fns sys i = None.
Proof using Type.
  intros [Hwf Ht] Hi Hf. destruct i as [code buf len tm am| |resp]; cbn [fatal fw_sys_step] in *.
  - destruct Hi as (Hc & Hb & Hl). unfold sys_command. apply orb_true_iff in Hf as [Ho|Hf].
    + by rewrite fw_command_overlong.
    + apply andb_true_iff in Hf as [Hn Hs]. unfold starts_thread in Hs.
      destruct (fw_command _ _ _ _ _ _ _) as [[[st' resp] evs]|]; [|done]. cbn [mbind option_bind]. unfold started.
      rewrite Hs. by destruct (s_thread sys).
  - done.
  - unfold sys_answer. destruct (s_thread sys) as [| |l| |]; try done. cbn [req_fw_update_handler].
    by rewrite data_divides.
Qed.

(** The runs: each input is possible where it happens. *)
Inductive fw_reachable (config : list pldm_fw_update_info) (d0 : D) : fw_sys D -> Prop :=
  | reach_init : fw_reachable config d0 (mk_fw_sys (fw_init config) d0 ThNone)
  | reach_step sys i sys' out : fw_reachable config d0 sys -> possible sys i ->
      fw_sys_step pf fns sys i = Some (sys', out) -> fw_reachable config d0 sys'.

Lemma fw_reachable_ok config d0 sys : fw_reachable config d0 sys -> sys_ok sys.
Proof using Hcall.
  induction 1 as [|sys i sys' out Hr IH Hi E].
  - split; [apply fw_wf_init|done].
  - destruct (fatal pf sys i) eqn:Hf; [by rewrite (fatal_step sys i IH Hi Hf) in E|].
    destruct (sys_step_ok sys i IH Hi Hf) as (s & o & E' & Hs). congruence.
Qed.
End system_safe.

(** ** Properties *)

(** C4: an accepted update runs to its end: against an agent that answers as the protocol
    says, the thread asks only for data within the protocol's limits, hands the image to
    the flash code exactly once and in order (pieces that follow each other, stay in their
    sector and within the negotiated size, the last one flagged; at most 32 bytes of
    padding, and only if the image is shorter than the negotiated size) so that the flash
    code ends up holding it, makes the three reports and leaves the device ready. *)
Theorem fw_download_exact {D} (set_default_retry_count : Z -> D -> D)
    (fw_update : D -> Z -> Z -> list Z -> Z -> Z -> D * Z) pos
    (sink : ImageSink set_default_retry_count fw_update pos) pf (fns : fw_functions D) fn info
    image m st d :
  call fns fn = pldm_fw_update set_default_retry_count fw_update pos ->
  fi_update_func info = Some fn -> fi_pre_update_func info = None ->
  fi_pos_update_func info = None -> fi_self_apply_work_func info = None ->
  0 < zlen image < 0xFFFFF000 -> 0 < m <= 256 -> zlen image + 32 <= sink_size ->
  keep_update_flag st = true -> image_size st = zlen image -> max_buff_size st = m ->
  current_state st = STATE_DOWNLOAD ->
  find_update_info pf st (cur_update_comp_id st) = Some info ->
  sink_ready [] (set_default_retry_count 0 d) ->
  exists ws st' d' log pad,
    fw_drive pf fns (image_agent image) (Z.to_nat (zlen image) + 5) st d ThCreated [] =
      Some (st', d', log) /\
    d' = fold_left (do_write fw_update pos) ws (set_default_retry_count 0 d) /\
    tiles m 0 ws /\ concat (w_data <$> ws) = image ++ zeros pad /\
    sink_done (image ++ zeros pad) d' /\ 0 <= pad <= 32 /\ (m <= zlen image -> pad = 0) /\
    current_state st' = STATE_RDY_XFER /\ cur_aux_state st' = STATE_AUX_SUCCESS /\
    Forall (request_ok (zlen image) m) log.
Proof.
  intros Hfn Hu Hpre Hpos Happ Hn Hm Hsz Hk Hi Hb Hs Hfind Hrd.
  destruct (download_whole set_default_retry_count fw_update pos pf fns fn info image m Hfn
    ltac:(by split_and!) Hn Hm Hsz st d ltac:(by split_and!) (ex_intro _ [] (conj eq_refl Hrd)) Hfind)
    as (ws & st' & log & pad & E & H1 & H2 & H3 & H4 & (H5 & H6 & _) & H7).
  eexists ws, st', _, log, pad. split; [exact E|]. split; [done|]. split; [done|]. split; [done|].
  split; [rewrite <- H2; apply (tiles_sink _ _ _ m ws ltac:(lia) []); try done|split_and!; try done; lia].
  rewrite H2, zlen_app, zlen_zeros, zlen_nil by lia. lia.
Qed.

(** A flash that takes every piece it is given next; the pieces as they come. *)
Definition log_flash : Type := list (Z * list Z * Z).
Definition log_fw_update (d : log_flash) (ofs len : Z) (buf : list Z) (flag pos : Z)
    : log_flash * Z := (d ++ [(ofs, slice buf 0 len, flag)], 0).
#[export] Instance log_sink pos : ImageSink (fun _ d => d) log_fw_update pos.
Proof.
  refine {| sink_size := 2 ^ 32;
    sink_ready l d := concat ((fun x => x.1.2) <$> d) = l;
    sink_done l d := concat ((fun x => x.1.2) <$> d) = l |}.
  intros d taken len buf final Hr _ _ _ _. cbn. eexists. split; [done|].
  assert (E : concat ((fun x => x.1.2) <$> d ++ [(zlen taken, slice buf 0 len,
    if final then SECTOR_END_FLAG .| NO_RESET_FLAG else 0)]) = taken ++ slice buf 0 len).
  { rewrite fmap_app, concat_app, Hr. cbn. by rewrite app_nil_r. }
  by destruct final.
Defined.

Definition demo_info : pldm_fw_update_info :=
  mk_fw_info true 0xFFFF 7 0 None (Some 0) None 0 0 None None None None.
Definition demo_platform : fw_platform := mk_fw_platform id None id.
Definition demo_functions : fw_functions log_flash :=
  mk_fw_functions _ (fun _ => pldm_fw_update (fun _ d => d) log_fw_update 0) (fun _ d => (d, 0)) false.
Definition demo_state (n m : Z) : fw_state :=
  mk_fw_state 3 STATE_DOWNLOAD STATE_RDY_XFER 1 0 7 initial_comp_str true n m true true [demo_info].

Lemma fw_download_exact_witness :
  exists ws st' log,
    fw_drive demo_platform demo_functions (image_agent (replicate 100 0xAB)) 105
      (demo_state 100 64) [] ThCreated [] = Some (st', fold_left (do_write log_fw_update 0) ws [], log) /\
    tiles 64 0 ws /\ current_state st' = STATE_RDY_XFER.
Proof.
  destruct (fw_download_exact (fun _ d => d) log_fw_update 0 (log_sink 0) demo_platform
    demo_functions 0 demo_info (replicate 100 0xAB) 64 (demo_state 100 64) [])
    as (ws & st' & d' & log & pad & E & -> & H1 & _ & _ & _ & _ & H2 & _); try reflexivity.
  - split; reflexivity.
  - split; [reflexivity|by vm_compute].
  - by vm_compute.
  - exists ws, st', log. split; [exact E|]. by split.
Defined.

(** C7: whatever the interleaving of the agent's commands, the timer and the answers to the update
    thread, and if the functions of the components return, the firmware device stays in a known
    state and within its buffers, and never stays in update mode: in any state but idle the update
    timer runs, and its expiry resets the device to idle. Every input that can occur is taken without
    undefined behaviour but for three, on each of which the code does fail: a version string
    that does not fit its array, an update accepted while the thread of the update before still
    lives, and data that arrives while the size of the image is 0. *)
Theorem fw_update_safe {D} pf (fns : fw_functions D) config d0 sys :
  (forall fn st d p, is_Some (call fns fn st d p)) ->
  fw_reachable pf fns config d0 sys ->
  STATE_IDLE <= current_state (s_state sys) <= STATE_ACTIVATE /\
  0 <= max_buff_size (s_state sys) <= MAX_FWUPDATE_RSP_BUF_SIZE /\
  (forall i, possible sys i -> (is_Some (fw_sys_step pf fns sys i) <-> fatal pf sys i = false)) /\
  (current_state (s_state sys) <> STATE_IDLE ->
    exists sys', fw_sys_step pf fns sys InTimer = Some (sys', []) /\
      current_state (s_state sys') = STATE_IDLE /\ keep_update_flag (s_state sys') = false).
Proof.
  intros Hcall Hr. pose proof (fw_reachable_ok pf fns Hcall config d0 sys Hr) as Hok.
  pose proof Hok as [Hwf Ht]. split_and!; try apply Hwf.
  - intros i Hi. destruct (fatal pf sys i) eqn:Hf.
    + rewrite (fatal_step pf fns sys i Hok Hi Hf). split; [by intros [? ?]|done].
    + destruct (sys_step_ok pf fns Hcall sys i Hok Hi Hf) as (s & o & E & _). rewrite E. by split.
  - intros Hne. cbn [fw_sys_step]. unfold sys_timer. rewrite (wf_timer _ Hwf Hne).
    destruct (status_reset_spec (set_update_mode_timer false (s_state sys)))
      as (st' & E & _ & Hs & _ & Hk & _); [apply Hwf|apply Hwf|].
    unfold exit_update_mode. rewrite E. cbn [mbind option_bind]. eexists. split; [done|]. done.
Qed.
Lemma fw_update_safe_witness :
  is_Some (fw_sys_step demo_platform demo_functions
    (mk_fw_sys (fw_init [demo_info]) [] ThNone) (InCommand 0x1D [] 0 true (fun _ => true))).
Proof.
  destruct (fw_update_safe demo_platform demo_functions [demo_info] []
    (mk_fw_sys (fw_init [demo_info]) [] ThNone)) as (_ & _ & H & _).
  - intros fn st d p. unfold demo_functions. cbn [call]. unfold pldm_fw_update.
    destruct (next_request _ _ _) as [p' last]. eexists. reflexivity.
  - apply reach_init.
  - apply H; [|reflexivity]. split; [by do 5 right; left|]. by split; [constructor|].
Defined.

(** C40: a cancelled update can come back: the thread looks at the cancel flag only before it
    asks for data. If the cancel arrives while the last piece is on its way, the device
    answers success and goes to idle; the piece then arrives, is written, and the thread
    moves the idle device on to the verify state, without an update having been requested:
    it reports the verification, and the agent's next RequestUpdate is refused. *)
Theorem fw_cancel_resurrects {D} (set_default_retry_count : Z -> D -> D)
    (fw_update : D -> Z -> Z -> list Z -> Z -> Z -> D * Z) pos pf (fns : fw_functions D) fn
    (sys : fw_sys D) l data d' :
  call fns fn = pldm_fw_update set_default_retry_count fw_update pos ->
  fw_wf (s_state sys) -> current_state (s_state sys) = STATE_DOWNLOAD ->
  s_thread sys = ThData l -> fi_update_func (l_info l) = Some fn ->
  0 < image_size (s_state sys) <= l_offset l + l_expect_len l ->
  l_offset l + l_expect_len l < 2 ^ 32 ->
  0 <= l_offset l -> 0 <= l_expect_len l -> zlen data = l_length l ->
  fw_update (if l_offset l =? 0 then set_default_retry_count 0 (s_dev sys) else s_dev sys)
    (l_offset l) (u16 (l_expect_len l)) data (SECTOR_END_FLAG .| NO_RESET_FLAG) pos = (d', 0) ->
  exists sys1 sys2 r,
    fw_sys_step pf fns sys (InCommand 0x1D [] 0 true (fun _ => true))
      = Some (sys1, [inl ([PLDM_SUCCESS; 0] ++ le_bytes 8 0)]) /\
    current_state (s_state sys1) = STATE_IDLE /\ keep_update_flag (s_state sys1) = false /\
    fw_sys_step pf fns sys1 (InAnswer (PLDM_SUCCESS :: data)) = Some (sys2, [inr r]) /\
    r_cmd r = PLDM_FW_UPDATE_CMD_CODE_VERIFY_COMPLETE /\
    current_state (s_state sys2) = STATE_VERIFY /\
    forall buf, zlen buf = 11 + rd buf 10 ->
      request_update buf (zlen buf) (s_state sys2)
        = Some (s_state sys2, [PLDM_FW_UPDATE_CC_ALREADY_IN_UPDATE_MODE], []).
Proof.
  intros Hfn Hwf Hs Ht Hu Hn Hmax Ho He Hlen Hw.
  destruct (status_reset_spec (s_state sys) (wf_str_len _ Hwf) (wf_buff _ Hwf))
    as (st1 & E1 & _ & Hs1 & _ & Hk1 & _ & Hi1).
  assert (Hcancel : fw_sys_step pf fns sys (InCommand 0x1D [] 0 true (fun _ => true))
      = Some (mk_fw_sys st1 (s_dev sys) (ThData l), [inl ([PLDM_SUCCESS; 0] ++ le_bytes 8 0)])).
  { cbn [fw_sys_step]. unfold sys_command, fw_command, pldm_fw_update_cmd_tbl.
    cbn [fw_find_cmd Z.eqb Pos.eqb]. unfold cancel_update. rewrite Hs, E1, Ht. done. }
  assert (Hans : exists l', data_received fns st1 (s_dev sys) l (PLDM_SUCCESS :: data)
      = transfer_phase fns st1 d' l').
  { destruct (data_received_full fns fn st1 (s_dev sys) l data) as (l1 & (_ & _ & Eo & _ & Ee) & ->);
      [done|lia|done|].
    assert (Hnext : forall p, p_data_ofs p = l_offset l -> p_data_len p = l_expect_len l ->
      exists p', next_request SECTOR_SZ_64K st1 p = (p', true) /\ p_data_ofs p' = l_offset l /\
        p_data_len p' = l_expect_len l /\ p_data p' = p_data p /\ p_next_len p' = 0).
    { intros p E2 E3. unfold next_request. cbn [set_p_next_ofs set_p_next_len p_next_ofs].
      rewrite E2, E3, u32_id by (change (2 ^ 32) with 4294967296 in *; lia).
      destruct (Z.ltb_spec (l_offset l + l_expect_len l) (image_size st1)); [lia|]. by eexists. }
    set (p := set_p_comp_version_str (cur_update_comp_str st1) (set_p_data_ofs (l_offset l1)
       (set_p_data_len (l_expect_len l1) (set_p_data data (l_param l1))))).
    destruct (Hnext p Eo Ee) as (p' & Hn' & G1 & G2 & G3 & G4).
    edestruct (update_call_spi set_default_retry_count fw_update pos fns fn st1 (s_dev sys) l1 data)
      as (l2 & _ & ->); [exact Hfn|exact Hn'|congruence|congruence|by rewrite G3
      |rewrite Eo, Ee; exact Hw|].
    rewrite G4. by eexists. }
  destruct Hans as (l' & Hans).
  eexists _, _, _. split; [exact Hcancel|]. split; [exact Hs1|]. split; [exact Hk1|]. split.
  { cbn [fw_sys_step]. unfold sys_answer. cbn [s_thread s_state s_dev req_fw_update_handler].
    rewrite Hans. unfold transfer_phase, report_then at 1, report_tranfer.
    cbn [current_state set_cur_aux_state]. rewrite Hs1. cbn [Z.eqb STATE_IDLE STATE_DOWNLOAD].
    reflexivity. }
  cbn [s_state]. split; [done|]. split; [done|].
  intros buf Hb. unfold request_update, sizeof_request_update_req. by rewrite Hb, Z.eqb_refl.
Qed.

(** The next request after an empty piece with no transfer size: again nothing. *)
Lemma next_request_empty st p :
  p_data_ofs p = 0 -> p_data_len p = 0 -> 0 < image_size st -> max_buff_size st = 0 ->
  exists p', next_request SECTOR_SZ_64K st p = (p', false) /\ p_data_ofs p' = 0 /\
    p_data_len p' = 0 /\ p_data p' = p_data p /\ p_next_len p' = 0.
Proof.
  intros E1 E2 Hi Hb. unfold next_request. cbn [set_p_next_ofs set_p_next_len p_next_ofs].
  rewrite E1, E2, Hb. change (u32 (0 + 0)) with 0. destruct (Z.ltb_spec 0 (image_size st)); [|lia].
  cbn [set_p_next_ofs set_p_next_len p_next_ofs p_next_len]. change (u32 (0 + 0)) with 0.
  destruct (Z.ltb_spec (image_size st) 0); [lia|].
  cbn [set_p_next_ofs set_p_next_len p_next_ofs p_next_len].
  change (negb (SECTOR_SZ_64K =? 0) && (SECTOR_SZ_64K <? u32 (0 mod SECTOR_SZ_64K + 0))) with false.
  eexists. split; [done|]. split; [exact E1|]. split; [exact E2|]. done.
Qed.

(** A maximum transfer size that is a multiple of 65536 is cut to 0 and accepted. The
    update that follows writes one piece of no bytes, and the device reports a complete
    transfer and a successful verification of an image it never received. *)
Theorem fw_zero_transfer_size {D} (set_default_retry_count : Z -> D -> D)
    (fw_update : D -> Z -> Z -> list Z -> Z -> Z -> D * Z) pos pf (fns : fw_functions D) fn info
    image st d d' :
  (forall buf st, zlen buf = 11 + rd buf 10 -> rd32 buf 0 mod 65536 = 0 ->
    current_state st = STATE_IDLE ->
    exists st' resp, request_update buf (zlen buf) st = Some (st', resp, []) /\
      rd resp 0 = PLDM_SUCCESS /\ max_buff_size st' = 0) /\
  (call fns fn = pldm_fw_update set_default_retry_count fw_update pos ->
   fi_update_func info = Some fn -> fi_pre_update_func info = None ->
   fi_pos_update_func info = None -> fi_self_apply_work_func info = None ->
   0 < zlen image < 0xFFFFF000 ->
   keep_update_flag st = true -> image_size st = zlen image -> max_buff_size st = 0 ->
   current_state st = STATE_DOWNLOAD ->
   find_update_info pf st (cur_update_comp_id st) = Some info ->
   fw_update (set_default_retry_count 0 d) 0 0 (slice (image ++ zeros 32) 0 32) 0 pos = (d', 0) ->
   exists st' log,
     fw_drive pf fns (image_agent image) 5 st d ThCreated [] = Some (st', d', log) /\
     current_state st' = STATE_RDY_XFER /\ cur_aux_state st' = STATE_AUX_SUCCESS).
Proof.
  split.
  - intros buf st0 Hb Hz Hs. unfold request_update, sizeof_request_update_req.
    rewrite Hb, Z.eqb_refl, Hs. cbn [negb Z.eqb STATE_IDLE]. unfold u16. rewrite Hz.
    by eexists _, _.
  - intros Hfn Hu Hpre Hpos Happ Hn Hk Hi Hb Hs Hfind Hw.
    change (fw_drive pf fns (image_agent image) 5 st d ThCreated []) with
      (fw_continue (image_agent image) (fw_drive pf fns (image_agent image) 4) (handler_begin pf fns st d)).
    unfold handler_begin. rewrite Hfind, Hu, Hpre.
    cbn [mbind option_bind Z.eqb negb]. set (l := mk_fw_locals info _ _ _ _ _ _).
    set (st0 := set_cur_aux_state _ st).
    destruct (request_step pf fns image st0 d l 3 32 0) as (l1 & E1 & E2 & E3 & E4 & Ec);
      [done| |done|done|].
    { unfold request_data. change (keep_update_flag st0) with (keep_update_flag st).
      rewrite Hk. cbn [negb l_offset l_length l]. change (image_size st0) with (image_size st).
      rewrite Hi, Hb. unfold MIN_FW_UPDATE_BASELINE_TRANS_SIZE. rewrite (u32_id (zlen image + 32)) by lia.
      change (u32 (0 + 0)) with 0. destruct (Z.ltb_spec (zlen image + 32) 0); [lia|].
      by eexists. }
    rewrite Ec. clear Ec. change (l_offset l) with 0 in *.
    assert (Hd : exists l', l_info l' = info /\
      data_received fns st0 d l1 (PLDM_SUCCESS :: padded image 0 32) = transfer_phase fns st0 d' l').
    { destruct (data_received_full fns fn st0 d l1 (padded image 0 32))
        as (l2 & (Ei & _ & Eo & _ & Ee) & ->);
        [rewrite E3; by apply zlen_padded; lia|change (image_size st0) with (image_size st); lia
        |by rewrite E1|]. rewrite E2 in Eo. rewrite E4 in Ee.
      destruct (next_request_empty st0 (set_p_comp_version_str (cur_update_comp_str st0)
        (set_p_data_ofs (l_offset l2) (set_p_data_len (l_expect_len l2)
           (set_p_data (padded image 0 32) (l_param l2)))))) as (p' & Hn' & G1 & G2 & G3 & G4);
        [exact Eo|exact Ee|change (image_size st0) with (image_size st); lia|done|].
      edestruct (update_call_spi set_default_retry_count fw_update pos fns fn st0 d l2 (padded image 0 32))
        as (l3 & Ei3 & ->); [exact Hfn|exact Hn'|congruence|congruence|by rewrite G3
        |rewrite Eo, Ee; exact Hw|].
      rewrite G4. exists l3. split; [by rewrite Ei3, Ei, E1|done]. }
    destruct Hd as (l' & Hil & ->).
    destruct (transfer_end pf fns fn info image 0 ltac:(by split_and!) st0 d' l' 3)
      as (st' & log & E & (F1 & F2 & _) & _); [by split_and!|done|lia|].
    rewrite E. cbn [mbind option_bind]. by eexists _, _.
Qed.

Lemma fw_cancel_resurrects_witness :
  let l := mk_fw_locals demo_info (init_param 7 0 initial_comp_str) 64 36 36 0 0 in
  exists sys1 sys2 r,
    fw_sys_step demo_platform demo_functions (mk_fw_sys (demo_state 100 64) [] (ThData l))
      (InCommand 0x1D [] 0 true (fun _ => true)) = Some (sys1, [inl ([PLDM_SUCCESS; 0] ++ le_bytes 8 0)]) /\
    current_state (s_state sys1) = STATE_IDLE /\
    fw_sys_step demo_platform demo_functions sys1 (InAnswer (PLDM_SUCCESS :: replicate 36 0xAB))
      = Some (sys2, [inr r]) /\
    current_state (s_state sys2) = STATE_VERIFY.
Proof.
  destruct (fw_cancel_resurrects (fun _ d => d) log_fw_update 0 demo_platform demo_functions 0
    (mk_fw_sys (demo_state 100 64) []
      (ThData (mk_fw_locals demo_info (init_param 7 0 initial_comp_str) 64 36 36 0 0)))
    (mk_fw_locals demo_info (init_param 7 0 initial_comp_str) 64 36 36 0 0)
    (replicate 36 0xAB) [(64, replicate 36 0xAB, 129)])
    as (sys1 & sys2 & r & H1 & H2 & _ & H3 & _ & H4 & _); try reflexivity.
  - split; try done. vm_compute. by apply list_elem_of_In; simpl; auto 120.
  - by split.
  - done.
  - done.
  - by exists sys1, sys2, r.
Defined.

Lemma fw_zero_transfer_size_witness :
  exists st' log,
    fw_drive demo_platform demo_functions (image_agent (replicate 100 0xAB)) 5 (demo_state 100 0) []
      ThCreated [] = Some (st', [(0, [], 0)], log) /\ current_state st' = STATE_RDY_XFER.
Proof.
  destruct (fw_zero_transfer_size (fun _ d => d) log_fw_update 0 demo_platform demo_functions 0
    demo_info (replicate 100 0xAB) (demo_state 100 0) [] [(0, [], 0)]) as [_ H].
  destruct H as (st' & log & E & Hs & _); try reflexivity; [split; reflexivity|].
  by exists st', log.
Defined.
