(* ===== verification/PldmFwVr.v ===== *)
(** Component [common/service/pldm/pldm_firmware_update.c], the update function of the voltage
    regulators: it collects the whole image in a buffer of the image's size before it
    programs the device. What the buffer ends up with, and how it can be overrun. *)

From Stdlib Require Import String.
From S2P Require Import Prelude Bytes PldmCore PldmBase PldmFwState PldmFwTransfer.

(** ** The calls of one transfer *)

Section vr.
Context (enabled : vr_driver -> bool) (streaming : option (fw_update_param -> fw_update_param * Z))
  (vr_fwupdate : vr_driver -> Z -> Z -> list Z -> Z -> bool).

Definition vr_update := pldm_vr_update enabled streaming vr_fwupdate true.

(** The parameter of the call for a piece. *)
Definition vr_param (p : fw_update_param) (ofs : Z) (data : list Z) : fw_update_param :=
  set_p_data_ofs ofs (set_p_data_len (zlen data) (set_p_data data p)).

(** One call per piece, in order, until one fails; the buffer and the last code. *)
Fixpoint vr_feed (st : fw_state) (hex_buff : option (list Z)) (p : fw_update_param) (ofs : Z)
    (pieces : list (list Z)) : option (option (list Z) * Z) :=
  match pieces with
  | [] => Some (hex_buff, 0)
  | data :: pieces =>
      '(hex_buff, p, ret) ← vr_update st hex_buff (vr_param p ofs data);
      if negb (ret =? 0) then Some (hex_buff, ret)
      else vr_feed st hex_buff p (ofs + zlen data) pieces
  end.

(** ** Lemmas *)

Context (st : fw_state) (image : list Z) (version : list Z) (vr : vr_driver).
Context (Hst : image_size st = zlen image) (Himg : 0 < zlen image < 2 ^ 31)
  (Hbuff : 0 <= max_buff_size st <= 256)
  (Hstream : streaming = None \/ starts_with (str "mp29526") version = false)
  (Hvr : find_vr enabled version = Some vr).

Lemma not_streamed : (if starts_with (str "mp29526") version then streaming else None) = None.
Proof using Hstream. destruct Hstream as [-> | ->]; [by destruct (starts_with _ _)|done]. Qed.

(** A call that finds (or makes) the buffer filled up to its offset. *)
Lemma vr_update_piece hex p pre data :
  p_comp_version_str p = version -> 0 < zlen data -> zlen pre + zlen data <= zlen image ->
  hex = (if zlen pre =? 0 then None else Some (pre ++ zeros (zlen image - zlen pre))) ->
  exists p', p_comp_version_str p' = version /\ p_bus p' = p_bus p /\ p_addr p' = p_addr p /\
  vr_update st hex (vr_param p (zlen pre) data) =
    if zlen pre + zlen data <? zlen image
    then Some (Some ((pre ++ data) ++ zeros (zlen image - zlen (pre ++ data))), p', 0)
    else Some (None, p', if vr_fwupdate vr (p_bus p) (p_addr p) (pre ++ data) (zlen image)
                         then 0 else 1).
Proof using All.
  intros Hv Hd Hle Hhex. unfold vr_update, pldm_vr_update.
  change (p_comp_version_str (vr_param p (zlen pre) data)) with (p_comp_version_str p).
  change (p_data_ofs (vr_param p (zlen pre) data)) with (zlen pre).
  change (p_data_len (vr_param p (zlen pre) data)) with (zlen data).
  change (p_data (vr_param p (zlen pre) data)) with data.
  pose proof (zlen_nonneg pre) as Hpre. change (2 ^ 31) with 2147483648 in Himg.
  assert (Hread : mem_read data 0 (zlen data) = Some data).
  { rewrite mem_read_Some by lia. by rewrite slice_all by lia. }
  assert (Hwrite : mem_write (pre ++ zeros (zlen image - zlen pre)) (zlen pre) data
    = Some ((pre ++ data) ++ zeros (zlen image - zlen (pre ++ data)))).
  { rewrite zlen_app. replace (zeros (zlen image - zlen pre)) with
      (zeros (zlen data) ++ zeros (zlen image - (zlen pre + zlen data)))
      by (unfold zeros; rewrite <- replicate_add; f_equal; lia).
    rewrite mem_write_app by (rewrite zlen_zeros by lia; done). by rewrite app_assoc. }
  assert (Hbody : forall buff p0, buff = pre ++ zeros (zlen image - zlen pre) ->
    p0 = vr_param p (zlen pre) data -> exists p', p_comp_version_str p' = version /\
      p_bus p' = p_bus p /\ p_addr p' = p_addr p /\
      (data ← mem_read data 0 (zlen data); buff ← mem_write buff (zlen pre) data;
       let '(p, last) := next_request 0 st p0 in
       if negb last then Some (Some buff, p, 0)
       else match find_vr enabled (p_comp_version_str p) with
            | None => Some (None, p, 1)
            | Some vr => Some (None, p,
                if vr_fwupdate vr (p_bus p) (p_addr p) buff (zlen image) then 0 else 1)
            end) =
      if zlen pre + zlen data <? zlen image
      then Some (Some ((pre ++ data) ++ zeros (zlen image - zlen (pre ++ data))), p', 0)
      else Some (None, p', if vr_fwupdate vr (p_bus p) (p_addr p) (pre ++ data) (zlen image)
                           then 0 else 1)).
  { intros buff p0 -> ->. rewrite Hread. cbn [mbind option_bind]. rewrite Hwrite.
    cbn [mbind option_bind]. unfold next_request, vr_param.
    cbn [set_p_next_ofs set_p_next_len set_p_data_ofs set_p_data_len set_p_data p_next_ofs
      p_data_ofs p_data_len]. rewrite u32_id, Hst by lia.
    destruct (Z.ltb_spec (zlen pre + zlen data) (zlen image)) as [Hlt|Hge].
    - change (negb (0 =? 0)) with false. cbn [andb negb].
      destruct (_ <? _); (eexists; split; [|split; [|split; [|reflexivity]]]; done).
    - cbn [negb]. match goal with |- context [find_vr enabled ?v] =>
        change v with (p_comp_version_str p) end. rewrite Hv, Hvr.
      assert (Hz : zlen image - zlen (pre ++ data) = 0) by (rewrite zlen_app; lia).
      rewrite Hz. change (zeros 0) with (@nil Z). rewrite app_nil_r.
      eexists. split; [|split; [|split; [|reflexivity]]]; done. }
  rewrite Hv, not_streamed, Hst. subst hex. destruct (Z.eqb_spec (zlen pre) 0) as [E|E].
  - destruct pre; [|rewrite zlen_cons in E; pose proof (zlen_nonneg pre); lia].
    change (bool_decide (is_Some (@None (list Z)))) with false. cbn [andb negb].
    apply Hbody; [|done]. change (zlen []) with 0. by rewrite Z.sub_0_r.
  - cbn [andb]. by apply Hbody.
Qed.

Lemma vr_feed_from pieces : forall hex p pre,
  p_comp_version_str p = version -> Forall (fun d => 0 < zlen d) pieces ->
  pre ++ concat pieces = image -> pieces <> [] ->
  hex = (if zlen pre =? 0 then None else Some (pre ++ zeros (zlen image - zlen pre))) ->
  vr_feed st hex p (zlen pre) pieces =
    Some (None, if vr_fwupdate vr (p_bus p) (p_addr p) image (zlen image) then 0 else 1).
Proof using All.
  induction pieces as [|data pieces IH]; intros hex p pre Hv Hall Hcat Hne Hhex; [done|].
  apply Forall_cons in Hall as [Hd Hall]. cbn [concat] in Hcat.
  assert (Hlen : zlen pre + zlen data + zlen (concat pieces) = zlen image).
  { rewrite <- Hcat, !zlen_app. lia. }
  pose proof (zlen_nonneg (concat pieces)).
  destruct (vr_update_piece hex p pre data Hv Hd ltac:(lia) Hhex) as (p' & Hv' & Hb & Ha & E).
  cbn [vr_feed]. rewrite E. destruct pieces as [|d2 pieces].
  - change (zlen (concat [])) with 0 in *. destruct (Z.ltb_spec (zlen pre + zlen data) (zlen image)); [lia|].
    cbn [concat] in Hcat. rewrite app_nil_r in Hcat. rewrite Hcat.
    cbn [mbind option_bind vr_feed].
    by destruct (vr_fwupdate vr (p_bus p) (p_addr p) image (zlen image)).
  - assert (0 < zlen (concat (d2 :: pieces))).
    { cbn [concat]. rewrite zlen_app. apply Forall_cons in Hall as [? _].
      pose proof (zlen_nonneg (concat pieces)). lia. }
    destruct (Z.ltb_spec (zlen pre + zlen data) (zlen image)); [|lia].
    cbn [mbind option_bind Z.eqb negb]. rewrite <- zlen_app, <- Hb, <- Ha. apply IH; try done.
    + by rewrite <- app_assoc.
    + destruct (Z.eqb_spec (zlen (pre ++ data)) 0) as [E0|]; [|done].
      rewrite zlen_app in E0. pose proof (zlen_nonneg pre). lia.
Qed.
End vr.

(** ** Properties *)

(** The regulator update hands the driver exactly the image: pieces that follow each
    other are collected in one buffer, the driver chosen by the version string is called
    once, with the last piece, on the whole image and its size, its result is the result of
    the update, and the buffer is released. *)
Theorem vr_update_collects enabled streaming vr_fwupdate st p pieces vr :
  let image := concat pieces in
  image_size st = zlen image -> 0 < zlen image < 2 ^ 31 -> 0 <= max_buff_size st <= 256 ->
  streaming = None \/ starts_with (str "mp29526") (p_comp_version_str p) = false ->
  find_vr enabled (p_comp_version_str p) = Some vr ->
  Forall (fun d => 0 < zlen d) pieces ->
  vr_feed enabled streaming vr_fwupdate st None p 0 pieces =
    Some (None, if vr_fwupdate vr (p_bus p) (p_addr p) image (zlen image) then 0 else 1).
Proof.
  intros image Hst Himg Hbuff Hstream Hvr Hall.
  apply (vr_feed_from enabled streaming vr_fwupdate st image (p_comp_version_str p) vr Hst Himg Hbuff
    Hstream Hvr pieces None p []); try done.
  intros ->. by destruct Himg.
Qed.
Lemma vr_update_collects_witness :
  vr_feed (fun _ => true) None (fun _ _ _ buff n => (rd buff 2 =? 3) && (n =? 3))
    (demo_state 3 64) None (init_param 1 0 (str "mp2971-x" ++ [0])) 0 [[1; 2]; [3]] = Some (None, 0).
Proof.
  apply (vr_update_collects (fun _ => true) None (fun _ _ _ buff n => (rd buff 2 =? 3) && (n =? 3))
    (demo_state 3 64) (init_param 1 0 (str "mp2971-x" ++ [0])) [[1; 2]; [3]] VR_MP2971).
  - done.
  - done.
  - done.
  - by left.
  - by vm_compute.
  - by repeat constructor.
Defined.

(** A piece that does not fit the buffer of the image's size. *)
Lemma vr_update_overflow enabled vr_fwupdate st p :
  p_data_ofs p = 0 -> 0 <= image_size st < p_data_len p -> p_data_len p <= zlen (p_data p) ->
  vr_update enabled None vr_fwupdate st None p = None.
Proof.
  intros Ho Hl Hd. unfold vr_update, pldm_vr_update. rewrite Ho.
  replace (if starts_with (str "mp29526") (p_comp_version_str p) then _ else _)
    with (@None (fw_update_param -> fw_update_param * Z)) by (by destruct (starts_with _ _)).
  change (bool_decide (is_Some (@None (list Z)))) with false. cbn [Z.eqb andb negb].
  rewrite mem_read_Some by lia. cbn [mbind option_bind].
  unfold mem_write. rewrite zlen_slice by lia. rewrite zlen_zeros by lia.
  destruct (Z.leb_spec (0 + p_data_len p) (image_size st)); [lia|]. by rewrite andb_false_r.
Qed.

(** A regulator image shorter than the negotiated transfer size by at most 32 bytes
    overruns its buffer: the first request is for the whole transfer size, an agent that
    follows the protocol pads the image, and the update function copies the padded piece
    into a buffer of the image's size. *)
Theorem vr_small_image_overflows enabled vr_fwupdate pf (fns : fw_functions (option (list Z))) fn
    info image m st :
  call fns fn = vr_update enabled None vr_fwupdate ->
  fi_update_func info = Some fn -> fi_pre_update_func info = None ->
  0 < zlen image < m -> m <= zlen image + 32 -> m <= 256 ->
  keep_update_flag st = true -> image_size st = zlen image -> max_buff_size st = m ->
  current_state st = STATE_DOWNLOAD ->
  find_update_info pf st (cur_update_comp_id st) = Some info ->
  exists st1 l r,
    req_fw_update_handler pf fns ThCreated [] st None = Some (st1, None, ThData l, [r]) /\
    zlen image < l_expect_len l /\
    req_fw_update_handler pf fns (ThData l) (image_agent image r) st1 None = None.
Proof.
  intros Hfn Hu Hpre Hm Hp H256 Hk Hi Hb Hs Hfind. cbn [req_fw_update_handler]. unfold handler_begin.
  rewrite Hfind, Hu, Hpre. cbn [mbind option_bind Z.eqb negb].
  set (l := mk_fw_locals info _ _ _ _ _ _). set (st0 := set_cur_aux_state _ st).
  assert (Hl : l_length l = m) by exact Hb.
  destruct (request_piece fns image m ltac:(lia) ltac:(lia) st0 None l) as (l1 & E & E1 & E2 & E3 & E4);
    [by split_and!|done|rewrite Hl; lia|rewrite Hl; cbn [l l_offset]; lia|].
  exists st0, l1, (data_read (l_offset l) (Z.max 32 (l_length l))). rewrite Hl in *.
  split; [exact E|]. split; [lia|]. change (l_offset l) with 0 in *.
  unfold data_read. rewrite image_agent_data by lia.
  destruct (data_received_full fns fn st0 None l1 (slice (image ++ zeros 32) 0 (Z.max 32 m)))
    as (l2 & (_ & _ & Eo & _ & Ee) & ->).
  - rewrite E3. apply zlen_slice; [done|lia|]. rewrite zlen_app, zlen_zeros by done. lia.
  - change (image_size st0) with (image_size st). lia.
  - by rewrite E1.
  - unfold update_call, call_func. rewrite Hfn.
    rewrite vr_update_overflow; [done|exact (eq_trans Eo E2)| |].
    + change (image_size st0) with (image_size st). cbn. rewrite Ee, E4. lia.
    + change (l_expect_len l2 <= zlen (slice (image ++ zeros 32) 0 (Z.max 32 m))).
      rewrite Ee, E4, zlen_slice; [lia|done|lia|]. rewrite zlen_app, zlen_zeros by done. lia.
Qed.
Lemma vr_small_image_overflows_witness :
  exists st1 l r,
    req_fw_update_handler demo_platform
      (mk_fw_functions _ (fun _ => vr_update (fun _ => true) None (fun _ _ _ _ _ => true))
        (fun _ d => (d, 0)) false) ThCreated [] (demo_state 50 64) None
      = Some (st1, None, ThData l, [r]) /\ zlen (replicate 50 0xAB) < l_expect_len l.
Proof.
  destruct (vr_small_image_overflows (fun _ => true) (fun _ _ _ _ _ => true) demo_platform
    (mk_fw_functions _ (fun _ => vr_update (fun _ => true) None (fun _ _ _ _ _ => true))
        (fun _ d => (d, 0)) false) 0 demo_info (replicate 50 0xAB) 64 (demo_state 50 64))
    as (st1 & l & r & H1 & H2 & _); try reflexivity.
  - by split.
  - by vm_compute.
  - by vm_compute.
  - by exists st1, l, r.
Defined.
