(* ===== verification/PldmFwRetimer.v ===== *)
(** Component [common/service/pldm/pldm_firmware_update.c], the recovery of a retimer: a piece
    of the image is cut into EEPROM writes that fit a package and stay in a page. *)

From Stdlib Require Import String.
From S2P Require Import Prelude Bytes PldmCore PldmBase PldmFwState PldmFwTransfer.

(** ** What the writes must be *)

(** Writes that cover [data] from EEPROM address [ofs] on: bits 16 to 19 of the address are
    added to the target address, the rest is sent; none is longer than a package or crosses
    a 256-byte page. *)
Fixpoint eeprom_tiles (addr ofs : Z) (data : list Z) (ws : list (Z * Z * list Z)) : Prop :=
  match ws with
  | [] => data = []
  | (a, o, bytes) :: ws =>
      a = u8 (addr + (ofs / 65536) mod 16) /\ o = ofs mod 65536 /\
      0 < zlen bytes <= RETIMER_IMAGE_PACKAGE_SIZE /\ ofs mod 256 + zlen bytes <= 256 /\
      exists rest, data = bytes ++ rest /\ eeprom_tiles addr (ofs + zlen bytes) rest ws
  end.

(** ** Lemmas *)

Lemma land_lnot_ffff z : z .& Z.lnot 0xFFFF = z - z mod 65536.
Proof.
  change (Z.land z (Z.lnot 0xFFFF)) with (Z.land z (Z.lnot (Z.ones 16))).
  rewrite <- Z.ldiff_land, Z.ldiff_ones_r, Z.shiftl_mul_pow2, Z.shiftr_div_pow2 by lia.
  change (2 ^ 16) with 65536. pose proof (Z.div_mod z 65536 ltac:(lia)). lia.
Qed.

Lemma recovery_chunk_spec ofs rem :
  0 <= ofs < 0xFFFF0000 -> 0 < rem ->
  recovery_chunk ofs rem = Z.min (Z.min 64 rem) (256 - ofs mod 256).
Proof.
  intros Ho Hr. unfold recovery_chunk, RETIMER_IMAGE_PACKAGE_SIZE. rewrite land_lnot_ffff.
  pose proof (Z.mod_pos_bound ofs 65536 ltac:(lia)). pose proof (Z.mod_pos_bound ofs 256 ltac:(lia)).
  rewrite (u32_id (ofs - ofs mod 65536 + 65536)) by lia.
  replace (ofs - ofs mod 65536 + 65536 - ofs) with (65536 - ofs mod 65536) by lia.
  rewrite u32_id by lia.
  assert (Hpage : 256 - ofs mod 256 <= 65536 - ofs mod 65536).
  { change 65536 with (256 * 256). rewrite Z.rem_mul_r by lia.
    pose proof (Z.mod_pos_bound (ofs / 256) 256 ltac:(lia)). lia. }
  set (c := if 64 <? rem then 64 else u8 rem).
  assert (Hc : c = Z.min 64 rem).
  { unfold c. destruct (Z.ltb_spec 64 rem); [lia|]. rewrite u8_id by lia. lia. }
  rewrite Hc. clear Hc c.
  destruct (Z.ltb_spec (65536 - ofs mod 65536) (Z.min 64 rem)).
  - rewrite (u8_id (65536 - ofs mod 65536)) by lia.
    destruct (Z.ltb_spec (256 - ofs mod 256) (65536 - ofs mod 65536)); [rewrite u8_id by lia|]; lia.
  - destruct (Z.ltb_spec (256 - ofs mod 256) (Z.min 64 rem)); [rewrite u8_id by lia|]; lia.
Qed.

(** The write of one chunk: the flag never keeps it back. *)
Lemma eeprom_write ok addr ofs rem data flag :
  0 <= ofs < 0xFFFF0000 -> 0 < rem ->
  let n := recovery_chunk ofs rem in
  fw_recovery_eeprom ok addr ofs n data
      (if negb (n =? RETIMER_IMAGE_PACKAGE_SIZE) then SECTOR_END_FLAG else flag) =
    Some ([(u8 (addr + (ofs / 65536) mod 16), ofs mod 65536, slice data 0 n)],
          if ok then 0 else FWUPDATE_UPDATE_FAIL).
Proof.
  intros Ho Hr n. pose proof (recovery_chunk_spec ofs rem Ho Hr) as Hn. fold n in Hn.
  pose proof (Z.mod_pos_bound ofs 256 ltac:(lia)).
  unfold fw_recovery_eeprom, RETIMER_IMAGE_PACKAGE_SIZE in *.
  destruct (Z.ltb_spec 64 n); [lia|].
  replace ((n =? 64) || negb ((if negb (n =? 64) then SECTOR_END_FLAG else flag) .& SECTOR_END_FLAG =? 0))
    with true by (by destruct (n =? 64)).
  destruct (Z.to_nat n) as [|k] eqn:En; [lia|]. cbn [eeprom_loop].
  destruct (Z.ltb_spec 0 n); [|lia]. cbn [negb].
  assert (Ep : (if 64 <=? n then 64 else u8 n) = n).
  { destruct (Z.leb_spec 64 n); [lia|]. by rewrite u8_id by lia. }
  rewrite Ep, Z.sub_diag. change (u16 0) with 0. change 0xF with (Z.ones 4).
  change 0xFFFF with (Z.ones 16). rewrite !Z.land_ones by lia.
  change (2 ^ 16) with 65536. rewrite Z.mod_mod by lia. rewrite Z.shiftr_div_pow2 by lia.
  destruct ok; [|done]. cbn [negb]. by destruct k.
Qed.

Lemma recovery_loop_ok fuel : forall k addr ofs data rem flag,
  0 <= ofs -> 0 <= rem -> ofs + rem < 0xFFFF0000 -> rem <= Z.of_nat fuel -> rem <= zlen data ->
  exists ws, recovery_loop fuel (fun _ => true) k addr ofs data rem flag = Some (ws, 0) /\
    eeprom_tiles addr ofs (slice data 0 rem) ws.
Proof.
  induction fuel as [|fuel IH]; intros k addr ofs data rem flag Ho Hr Hmax Hf Hd; cbn [recovery_loop].
  { destruct (Z.ltb_spec 0 rem); [lia|]. assert (rem = 0) as -> by lia. by exists []. }
  destruct (Z.ltb_spec 0 rem) as [Hpos|]; cbn [negb]; [|assert (rem = 0) as -> by lia; by exists []].
  rewrite eeprom_write by lia.
  pose proof (recovery_chunk_spec ofs rem ltac:(lia) Hpos) as Hn.
  pose proof (Z.mod_pos_bound ofs 256 ltac:(lia)).
  set (n := recovery_chunk ofs rem) in *. cbn [mbind option_bind Z.eqb negb].
  rewrite (u32_id (ofs + n)), (u32_id (rem - n)) by lia.
  assert (Hzd : zlen (drop (Z.to_nat n) data) = zlen data - n)
    by (unfold zlen in *; rewrite length_drop; lia).
  destruct (IH (S k) addr (ofs + n) (drop (Z.to_nat n) data) (rem - n)
    (if negb (n =? RETIMER_IMAGE_PACKAGE_SIZE) then SECTOR_END_FLAG else flag))
    as (ws & E & Ht); [lia..|].
  rewrite E. cbn [mbind option_bind app]. eexists. split; [done|].
  cbn [eeprom_tiles]. rewrite zlen_slice by lia. unfold RETIMER_IMAGE_PACKAGE_SIZE.
  split; [done|split; [done|split; [lia|split; [lia|]]]].
  exists (slice (drop (Z.to_nat n) data) 0 (rem - n)). split; [|done].
  replace rem with (n + (rem - n)) at 1 by lia. by rewrite slice_split by lia.
Qed.

Lemma recovery_loop_total fuel : forall ok k addr ofs data rem flag,
  0 <= ofs -> 0 <= rem -> ofs + rem < 0xFFFF0000 -> rem <= Z.of_nat fuel -> rem <= zlen data ->
  exists ws ret, recovery_loop fuel ok k addr ofs data rem flag = Some (ws, ret) /\ (ret = 0 \/ ret = 1).
Proof.
  induction fuel as [|fuel IH]; intros ok k addr ofs data rem flag Ho Hr Hmax Hf Hd; cbn [recovery_loop].
  { destruct (Z.ltb_spec 0 rem); [lia|]. cbn [negb]. eauto. }
  destruct (Z.ltb_spec 0 rem) as [Hpos|]; cbn [negb]; [|eauto].
  rewrite eeprom_write by lia.
  pose proof (recovery_chunk_spec ofs rem ltac:(lia) Hpos) as Hn.
  pose proof (Z.mod_pos_bound ofs 256 ltac:(lia)).
  set (n := recovery_chunk ofs rem) in *.
  destruct (ok k); cbn [mbind option_bind Z.eqb negb FWUPDATE_UPDATE_FAIL]; [|eauto].
  rewrite (u32_id (ofs + n)), (u32_id (rem - n)) by lia.
  destruct (IH ok (S k) addr (ofs + n) (drop (Z.to_nat n) data) (rem - n)
    (if negb (n =? RETIMER_IMAGE_PACKAGE_SIZE) then SECTOR_END_FLAG else flag))
    as (ws & ret & -> & Hret); [lia|lia|lia|lia|unfold zlen in *; rewrite length_drop; lia|].
  cbn [mbind option_bind]. eauto.
Qed.

(** ** Properties *)

(** The recovery of a retimer always returns; on a bus that works it writes the piece of
    the image exactly, in order, from its offset on, every write within a package and within
    one EEPROM page, with the upper address bits in the target address; and it asks for the
    piece that follows. *)
Theorem retimer_recovery_writes ok st p :
  is_pt_retimer (p_comp_version_str p) = true ->
  0 <= p_data_ofs p -> 0 <= p_data_len p <= zlen (p_data p) ->
  p_data_ofs p + p_data_len p < 0xFFFF0000 ->
  (exists ws p' ret, pldm_retimer_recovery ok st p = Some (ws, p', ret) /\ (ret = 0 \/ ret = 1)) /\
  exists ws p', pldm_retimer_recovery (fun _ => true) st p = Some (ws, p', 0) /\
    eeprom_tiles (p_addr p) (p_data_ofs p) (slice (p_data p) 0 (p_data_len p)) ws /\
    p_next_ofs p' = p_data_ofs p + p_data_len p.
Proof.
  intros Hv Ho Hl Hmax.
  assert (Hnext : exists p' last, next_request 0 st p = (p', last) /\ p_data p' = p_data p /\
    p_data_ofs p' = p_data_ofs p /\ p_data_len p' = p_data_len p /\ p_addr p' = p_addr p /\
    p_comp_version_str p' = p_comp_version_str p /\ p_next_ofs p' = p_data_ofs p + p_data_len p).
  { unfold next_request. cbn [set_p_next_ofs set_p_next_len p_next_ofs].
    rewrite u32_id by lia. change (negb (0 =? 0)) with false. cbn [andb].
    destruct (_ <? image_size st); [destruct (_ <? _)|];
      (eexists _, _; split; [reflexivity|]; by split_and!). }
  destruct Hnext as (p' & last & E & E1 & E2 & E3 & E4 & E5 & E6).
  unfold pldm_retimer_recovery. rewrite E, E5, Hv, E1, E2, E3, E4.
  destruct (recovery_loop_total (Z.to_nat (p_data_len p)) ok 0 (p_addr p) (p_data_ofs p) (p_data p)
    (p_data_len p) (if last then SECTOR_END_FLAG else 0)) as (ws & ret & -> & Hret); [lia..|].
  destruct (recovery_loop_ok (Z.to_nat (p_data_len p)) 0 (p_addr p) (p_data_ofs p) (p_data p)
    (p_data_len p) (if last then SECTOR_END_FLAG else 0)) as (ws' & -> & Ht); [lia..|].
  cbn [mbind option_bind]. split; [by exists ws, p', ret|]. by exists ws', p'.
Qed.
Lemma retimer_recovery_writes_witness :
  exists ws p', pldm_retimer_recovery (fun _ => true) (demo_state 300 100)
      (mk_fw_param 1 (PldmFwState.str "pt5161l" ++ [0]) (replicate 100 7) 200 100 0 0 1 3 0x50)
    = Some (ws, p', 0) /\ p_next_ofs p' = 300.
Proof.
  destruct (retimer_recovery_writes (fun _ => true) (demo_state 300 100)
      (mk_fw_param 1 (PldmFwState.str "pt5161l" ++ [0]) (replicate 100 7) 200 100 0 0 1 3 0x50))
    as (_ & ws & p' & H1 & _ & H2).
  - by vm_compute.
  - done.
  - by split.
  - done.
  - by exists ws, p'.
Defined.
