(* ===== verification/UtilSpi.v ===== *)
(** Component [common/lib/util_spi.c]: firmware pieces collected in 64 KiB sectors and written
    to a flash device sector by sector, each sector verified. The flash driver is outside the
    repository: class [Flash] has its operations, class [FlashWorks] what its documentation
    promises of a working device. *)

From S2P Require Import Prelude Bytes PldmFwState PldmFwTransfer.

(** ** The driver *)

(** Zephyr's flash API on a device state: results are negative error numbers or 0. *)
Class Flash (F : Type) := {
  flash_erase : F -> Z -> Z -> F * Z;
  flash_write : F -> Z -> list Z -> F * Z;
  flash_read : F -> Z -> Z -> list Z * Z;
  flash_get_flash_size : F -> Z;
  flash_get_write_block_size : F -> Z;
  flash_read_jedec_id : F -> Z;
  spi_nor_config_4byte_mode : F -> F;
  spi_nor_re_init : F -> F * Z }.

Definition EINVAL : Z := 22.
Definition EIO : Z := 5.
Definition ENODEV : Z := 19.
Definition IS25WP256D_ID : Z := 0x9D7019.
Definition FORCE_INIT_FLAG : Z := BIT 1.
Definition CC_UNSPECIFIED_ERROR : Z := 0xFF.
Definition FWUPDATE_SUCCESS : Z := 0.
Definition FWUPDATE_OUT_OF_HEAP : Z := 1.
Definition FWUPDATE_REPEATED_UPDATED : Z := 3.

Section driver.
Context {F : Type} `{Flash F}.

(** ** Writing a range of the flash *)

(** [write_buf] is the sector to write, [erase_sz] its size. *)
Definition do_erase_write_verify (f : F) (op_addr : Z) (write_buf : list Z) (erase_sz : Z) : F * Z :=
  let '(f, ret) := flash_erase f op_addr erase_sz in
  if negb (ret =? 0) then (f, ret)
  else
    let '(f, ret) := flash_write f op_addr write_buf in
    if negb (ret =? 0) then (f, ret)
    else
      let '(read_back_buf, ret) := flash_read f op_addr erase_sz in
      if negb (ret =? 0) then (f, ret)
      else if negb (bool_decide (write_buf = read_back_buf)) then (f, - EINVAL)
      else (f, 0).

(** The loop over the whole sectors: sectors are skipped until the first that differs.
    Result: device, code, [op_addr] and the index [update_ptr] points to. *)
Fixpoint update_body (fuel : nat) (f : F) (buf : list Z) (sector_sz end_sector_addr : Z)
    (op_addr update_ptr : Z) (update_it : bool) : option (F * Z * Z * Z) :=
  if negb (op_addr <? end_sector_addr) then Some (f, 0, op_addr, update_ptr)
  else
    match fuel with
    | O => None
    | S fuel =>
        let '(op_buf, ret) := flash_read f op_addr sector_sz in
        if negb (ret =? 0) then Some (f, ret, op_addr, update_ptr)
        else
          data ← mem_read buf update_ptr sector_sz;
          let update_it := if negb (bool_decide (op_buf = data)) then true else update_it in
          let '(f, ret) :=
            if update_it then do_erase_write_verify f op_addr data sector_sz else (f, 0) in
          if negb (ret =? 0) then Some (f, ret, op_addr, update_ptr)
          else update_body fuel f buf sector_sz end_sector_addr (u32 (op_addr + sector_sz))
                 (update_ptr + sector_sz) update_it
    end.

(** The part before the first sector boundary. *)
Definition update_start (f : F) (flash_offset : Z) (buf : list Z) (len sector_sz : Z)
    : option (F * Z * Z * Z) :=
  let op_addr := flash_offset / sector_sz * sector_sz in
  if negb (flash_offset mod sector_sz =? 0) then
    let '(op_buf, ret) := flash_read f op_addr sector_sz in
    if negb (ret =? 0) then Some (f, ret, op_addr, 0)
    else
      let remain := Z.min (sector_sz - flash_offset mod sector_sz) len in
      data ← mem_read buf 0 remain;
      op_buf ← mem_write op_buf (flash_offset mod sector_sz) data;
      let '(f, ret) := do_erase_write_verify f op_addr op_buf sector_sz in
      Some (f, ret, u32 (op_addr + sector_sz), remain)
  else Some (f, 0, op_addr, 0).

(** The part after the last sector boundary. *)
Definition update_end (f : F) (flash_offset : Z) (buf : list Z) (len sector_sz end_sector_addr : Z)
    (op_addr update_ptr : Z) : option (F * Z) :=
  if end_sector_addr <? u32 (flash_offset + len) then
    let '(op_buf, ret) := flash_read f op_addr sector_sz in
    if negb (ret =? 0) then Some (f, ret)
    else
      let remain := u32 (flash_offset + len - end_sector_addr) in
      data ← mem_read buf update_ptr remain;
      op_buf ← mem_write op_buf 0 data;
      Some (do_erase_write_verify f op_addr op_buf sector_sz)
  else Some (f, 0).

(** [malloc_ok]: both buffers are allocated. [None]: an access outside [buf] or a sector
    buffer, or a division by a zero sector size. *)
Definition do_update (malloc_ok : bool) (f : F) (offset : Z) (buf : list Z) (len : Z)
    : option (F * Z) :=
  let flash_sz := flash_get_flash_size f in
  let sector_sz := flash_get_write_block_size f in
  let flash_offset := u32 offset in
  if flash_sz <? u32 (flash_offset + len) then Some (f, - EINVAL)
  else if negb malloc_ok then Some (f, - EINVAL)
  else if sector_sz =? 0 then None
  else
    '(f, ret, op_addr, update_ptr) ← update_start f flash_offset buf len sector_sz;
    if negb (ret =? 0) then Some (f, ret)
    else
      let end_sector_addr := u32 (flash_offset + len) / sector_sz * sector_sz in
      '(f, ret, op_addr, update_ptr) ←
        update_body (Z.to_nat (end_sector_addr / sector_sz)) f buf sector_sz end_sector_addr
          op_addr update_ptr false;
      if negb (ret =? 0) then Some (f, ret)
      else update_end f flash_offset buf len sector_sz end_sector_addr op_addr update_ptr.

(** ** Collecting pieces *)

(** The static variables of [fw_update] and of the file, with the device of each position
    that is bound and the positions initialised ([flash_device_list]). *)
Record spi_state := mk_spi_state {
  is_init : bool;
  txbuf : option (list Z);
  start_offset : Z;
  buf_offset : Z;
  fw_update_retry : Z;
  default_retry_count : Z;
  flash_devs : gmap Z F;
  dev_isinit : Z -> bool;
  warm_reset : bool (* [submit_bic_warm_reset] was called *) }.

Definition set_is_init (v : bool) (s : spi_state) : spi_state :=
  mk_spi_state v (txbuf s) (start_offset s) (buf_offset s) (fw_update_retry s)
    (default_retry_count s) (flash_devs s) (dev_isinit s) (warm_reset s).
Definition set_txbuf (v : option (list Z)) (s : spi_state) : spi_state :=
  mk_spi_state (is_init s) v (start_offset s) (buf_offset s) (fw_update_retry s)
    (default_retry_count s) (flash_devs s) (dev_isinit s) (warm_reset s).
Definition set_start_offset (v : Z) (s : spi_state) : spi_state :=
  mk_spi_state (is_init s) (txbuf s) v (buf_offset s) (fw_update_retry s)
    (default_retry_count s) (flash_devs s) (dev_isinit s) (warm_reset s).
Definition set_buf_offset (v : Z) (s : spi_state) : spi_state :=
  mk_spi_state (is_init s) (txbuf s) (start_offset s) v (fw_update_retry s)
    (default_retry_count s) (flash_devs s) (dev_isinit s) (warm_reset s).
Definition set_fw_update_retry (v : Z) (s : spi_state) : spi_state :=
  mk_spi_state (is_init s) (txbuf s) (start_offset s) (buf_offset s) v
    (default_retry_count s) (flash_devs s) (dev_isinit s) (warm_reset s).
Definition set_flash_devs (v : gmap Z F) (s : spi_state) : spi_state :=
  mk_spi_state (is_init s) (txbuf s) (start_offset s) (buf_offset s) (fw_update_retry s)
    (default_retry_count s) v (dev_isinit s) (warm_reset s).
Definition set_dev_isinit (v : Z -> bool) (s : spi_state) : spi_state :=
  mk_spi_state (is_init s) (txbuf s) (start_offset s) (buf_offset s) (fw_update_retry s)
    (default_retry_count s) (flash_devs s) v (warm_reset s).
Definition set_warm_reset (v : bool) (s : spi_state) : spi_state :=
  mk_spi_state (is_init s) (txbuf s) (start_offset s) (buf_offset s) (fw_update_retry s)
    (default_retry_count s) (flash_devs s) (dev_isinit s) v.

Definition set_default_retry_count (count : Z) (s : spi_state) : spi_state :=
  mk_spi_state (is_init s) (txbuf s) (start_offset s) (buf_offset s) (fw_update_retry s)
    count (flash_devs s) (dev_isinit s) (warm_reset s).

(** [free(txbuf)] with the static flag cleared. *)
Definition release (s : spi_state) : spi_state := set_is_init false (set_txbuf None s).

Definition ckeck_flash_device_isinit (s : spi_state) (f : F) (flash_position : Z)
    : spi_state * F * Z :=
  if negb (dev_isinit s flash_position) then
    let '(f, rc) := spi_nor_re_init f in
    if rc =? 0
    then (set_dev_isinit (fun p => (p =? flash_position) || dev_isinit s p) s, f, 0)
    else (s, f, rc)
  else (s, f, 0).

(** The sector is complete or the image ends: write what was collected. *)
Definition flush (malloc_ok : bool) (flag flash_position : Z) (buf : list Z) (s : spi_state)
    : option (spi_state * Z) :=
  match flash_devs s !! flash_position with
  | None => Some (s, CC_UNSPECIFIED_ERROR)
  | Some f =>
      let '(s, f, ret) := ckeck_flash_device_isinit s f flash_position in
      if negb (ret =? 0) then
        Some (release (set_flash_devs (<[flash_position := f]> (flash_devs s)) s), u8 ret)
      else
        let f := if (start_offset s =? 0) && (flash_read_jedec_id f =? IS25WP256D_ID)
                 then spi_nor_config_4byte_mode f else f in
        '(f, ret) ← do_update malloc_ok f (start_offset s) buf (buf_offset s);
        let s := release (set_flash_devs (<[flash_position := f]> (flash_devs s)) s) in
        let s := if negb (flag .& SECTOR_END_FLAG =? 0) && (flash_position =? DEVSPI_FMC_CS0)
                    && (flag .& NO_RESET_FLAG =? 0)
                 then set_warm_reset true s else s in
        Some (s, u8 ret)
  end.

(** The piece goes behind what [txbuf] (here [buf]) holds. *)
Definition fw_collect (malloc_ok : bool) (s : spi_state) (buf : list Z) (msg_len : Z)
    (msg_buf : list Z) (flag flash_position : Z) : option (spi_state * Z) :=
  if SECTOR_SZ_64K <? u32 (buf_offset s + msg_len) then Some (release s, FWUPDATE_OVER_LENGTH)
  else
    data ← mem_read msg_buf 0 msg_len;
    buf ← mem_write buf (buf_offset s) data;
    let s := set_buf_offset (u32 (buf_offset s + msg_len)) (set_txbuf (Some buf) s) in
    if (buf_offset s =? SECTOR_SZ_64K) || negb (flag .& SECTOR_END_FLAG =? 0)
    then flush malloc_ok flag flash_position buf s
    else Some (s, FWUPDATE_SUCCESS).

(** The offset is compared with the one expected next; [buf] is [txbuf]. *)
Definition fw_resync (malloc_ok : bool) (s : spi_state) (buf : list Z) (offset msg_len : Z)
    (msg_buf : list Z) (flag flash_position : Z) : option (spi_state * Z) :=
  let mismatch := negb (offset =? u32 (start_offset s + buf_offset s)) in
  let s := if mismatch then set_fw_update_retry (fw_update_retry s - 1) s
           else set_fw_update_retry (default_retry_count s) s in
  if mismatch && (fw_update_retry s <? 0) then Some (release s, FWUPDATE_REPEATED_UPDATED)
  else
    let s := if negb mismatch then s
             else if offset <? start_offset s
             then set_buf_offset 0 (set_start_offset offset s)
             else set_buf_offset (u32 (offset - start_offset s)) s in
    fw_collect malloc_ok s buf msg_len msg_buf flag flash_position.

(** [malloc]: the block the allocation of [txbuf] gives. *)
Definition fw_update (malloc : option (list Z)) (malloc_ok : bool) (s : spi_state)
    (offset msg_len : Z) (msg_buf : list Z) (flag flash_position : Z) : option (spi_state * Z) :=
  let s := if (offset =? 0) || negb (flag .& FORCE_INIT_FLAG =? 0)
           then set_is_init false (set_fw_update_retry (default_retry_count s) s) else s in
  if negb (is_init s) then
    match malloc with
    | None => Some (set_txbuf None s, FWUPDATE_OUT_OF_HEAP)
    | Some buf =>
        fw_resync malloc_ok
          (set_buf_offset 0 (set_start_offset offset (set_is_init true (set_txbuf malloc s))))
          buf offset msg_len msg_buf flag flash_position
    end
  else
    buf ← txbuf s;
    fw_resync malloc_ok s buf offset msg_len msg_buf flag flash_position.

(** [erase_entire_flash]: the block writes, then the progress in percent it leaves. *)
Definition BIOS_MAX_SIZE_BYTES : Z := 64 * 1024 * 1024.

(** A zero block size would loop for ever: [None], as when [fuel] ends. [off] wraps. *)
Fixpoint erase_loop (fuel : nat) (f : F) (blk_sz flash_sz off progress : Z)
    : option (F * Z * Z) :=
  if negb (off <? flash_sz) then Some (f, 100, 0)
  else
    match fuel with
    | O => None
    | S fuel =>
        let '(f, rc) := flash_erase f off blk_sz in
        if negb (rc =? 0) then Some (f, progress, rc)
        else
          let progress := if off mod (1024 * 1024) =? 0 then u8 (off * 100 / flash_sz) else progress in
          erase_loop fuel f blk_sz flash_sz (u32 (off + blk_sz)) progress
    end.

(** Result: device, [bios_erase_progress] and code. *)
Definition erase_entire_flash (f : F) (progress : Z) : option (F * Z * Z) :=
  let blk_sz := flash_get_write_block_size f in
  let flash_sz := flash_get_flash_size f in
  if (flash_sz =? 0) || (BIOS_MAX_SIZE_BYTES <? flash_sz) then Some (f, progress, - EINVAL)
  else erase_loop (Z.to_nat flash_sz) f blk_sz flash_sz 0 0.

(** [pos]: [pal_get_bios_flash_position]; [mux_ok]: the multiplexer switches to the BIC. The
    last result is the sequence of [pal_switch_bios_spi_mux] calls. *)
Definition cmd_erase_bios (pos : Z) (mux_ok : bool) (s : spi_state) (progress : Z)
    : option (spi_state * Z * Z * list Z) :=
  if pos <? 0 then Some (s, progress, - EINVAL, [])
  else if negb mux_ok then Some (s, progress, - EIO, [1])
  else
    match flash_devs s !! pos with
    | None => Some (s, progress, - ENODEV, [1; 0])
    | Some f =>
        let '(s, f, rc) := ckeck_flash_device_isinit s f pos in
        '(f, progress, rc) ←
          (if rc =? 0 then erase_entire_flash (spi_nor_config_4byte_mode f) progress
           else Some (f, progress, rc));
        Some (set_flash_devs (<[pos := f]> (flash_devs s)) s, progress, rc, [1; 0])
    end.
End driver.
Arguments spi_state : clear implicits.

(** ** A working device *)

Definition same_geometry {F} `{Flash F} (f f' : F) : Prop :=
  flash_get_flash_size f' = flash_get_flash_size f /\
  flash_get_write_block_size f' = flash_get_write_block_size f.

(** The documented behaviour: an erased block reads as ones, erased bytes can be written,
    reads give the content, and the geometry does not change. *)
Class FlashWorks (F : Type) `{Flash F} := {
  content : F -> list Z;
  flash_geometry : forall f, zlen (content f) = flash_get_flash_size f /\
    0 < flash_get_write_block_size f /\ flash_get_flash_size f < 2 ^ 32 /\
    flash_get_flash_size f mod flash_get_write_block_size f = 0;
  flash_erase_ok : forall f a, let blk := flash_get_write_block_size f in
    0 <= a -> a mod blk = 0 -> a + blk <= flash_get_flash_size f ->
    exists f', flash_erase f a blk = (f', 0) /\ same_geometry f f' /\
      content f' = patch (content f) a (replicate (Z.to_nat blk) 0xFF);
  flash_write_ok : forall f a d,
    0 <= a -> a + zlen d <= flash_get_flash_size f ->
    slice (content f) a (zlen d) = replicate (length d) 0xFF ->
    exists f', flash_write f a d = (f', 0) /\ same_geometry f f' /\ content f' = patch (content f) a d;
  flash_read_ok : forall f a n, 0 <= a -> 0 <= n -> a + n <= flash_get_flash_size f ->
    flash_read f a n = (slice (content f) a n, 0);
  flash_4byte_ok : forall f, same_geometry f (spi_nor_config_4byte_mode f) /\
    content (spi_nor_config_4byte_mode f) = content f;
  flash_init_ok : forall f, exists f', spi_nor_re_init f = (f', 0) /\ same_geometry f f' /\
    content f' = content f }.

Section works.
Context {F : Type} `{FlashWorks F}.

Lemma same_geometry_trans (f g h : F) : same_geometry f g -> same_geometry g h -> same_geometry f h.
Proof using Type. unfold same_geometry. intros [-> ->] [-> ->]. done. Qed.

Lemma erase_write_verify_ok (f : F) a d :
  0 <= a -> a mod flash_get_write_block_size f = 0 -> zlen d = flash_get_write_block_size f ->
  a + flash_get_write_block_size f <= flash_get_flash_size f ->
  exists f', do_erase_write_verify f a d (flash_get_write_block_size f) = (f', 0) /\
    same_geometry f f' /\ content f' = patch (content f) a d.
Proof using Type.
  intros Ha Hmod Hd Hl. pose proof (flash_geometry f) as (Hs & Hb & _ & _).
  unfold do_erase_write_verify.
  destruct (flash_erase_ok f a Ha Hmod Hl) as (f1 & E1 & [G1 G1'] & C1). rewrite E1. cbn [Z.eqb negb].
  assert (Hr : zlen (replicate (Z.to_nat (flash_get_write_block_size f)) 0xFF) = zlen d)
    by (unfold zlen in *; rewrite length_replicate; lia).
  destruct (flash_write_ok f1 a d Ha) as (f2 & E2 & [G2 G2'] & C2).
  { rewrite G1. lia. }
  { rewrite C1, <- Hr, slice_patch by (rewrite ?Hr; lia). f_equal. unfold zlen in *. lia. }
  rewrite E2. cbn [Z.eqb negb].
  rewrite flash_read_ok by (rewrite ?G2, ?G1; lia). cbn [Z.eqb negb].
  rewrite C1, patch_over in C2 by (rewrite ?Hr; lia). rewrite C2. rewrite <- Hd, slice_patch by lia.
  rewrite bool_decide_eq_true_2 by done. cbn [negb].
  exists f2. split; [done|]. split; [|done]. split; congruence.
Qed.

(** The state between the parts: the first [ptr] bytes are written. *)
Definition written (f0 : F) (off : Z) (buf : list Z) (ptr : Z) (f : F) : Prop :=
  same_geometry f0 f /\ content f = patch (content f0) off (slice buf 0 ptr).

Lemma write_more f0 off buf ptr n f f' :
  0 <= off -> 0 <= ptr -> 0 <= n -> ptr + n <= zlen buf -> off + ptr + n <= zlen (content f0) ->
  written f0 off buf ptr f -> same_geometry f f' ->
  content f' = patch (content f) (off + ptr) (slice buf ptr n) ->
  written f0 off buf (ptr + n) f'.
Proof using Type.
  intros Ho Hp Hn Hb Hl [G C] G' C'. split; [by eapply same_geometry_trans|].
  rewrite C', C. assert (E : zlen (slice buf 0 ptr) = ptr) by (apply zlen_slice; lia).
  pose proof (patch_patch (content f0) off (slice buf 0 ptr) (slice buf ptr n)) as Hpp.
  rewrite E, zlen_slice in Hpp by lia. rewrite Hpp by lia.
  by rewrite (slice_split buf 0 ptr n) by lia.
Qed.

Lemma update_body_ok f0 off buf blk end_ fuel : forall ptr f update_it,
  blk = flash_get_write_block_size f0 -> 0 <= off -> 0 <= ptr -> off + ptr <= end_ ->
  end_ <= off + zlen buf -> end_ <= flash_get_flash_size f0 ->
  (off + ptr) mod blk = 0 -> end_ mod blk = 0 -> written f0 off buf ptr f ->
  end_ - (off + ptr) <= blk * Z.of_nat fuel ->
  exists f', update_body fuel f buf blk end_ (off + ptr) ptr update_it
    = Some (f', 0, end_, end_ - off) /\ written f0 off buf (end_ - off) f'.
Proof using Type.
  pose proof (flash_geometry f0) as (Hs & Hb & Hm & _). change (2 ^ 32) with 4294967296 in Hm.
  induction fuel as [|fuel IH]; intros ptr f upd Eb Ho Hp Hle Hbuf Hend Hmod Hemod Hw Hfuel.
  { assert (off + ptr = end_) as <- by lia. cbn [update_body]. rewrite Z.ltb_irrefl. cbn [negb].
    exists f. replace (off + ptr - off) with ptr by lia. done. }
  cbn [update_body]. destruct (Z.ltb_spec (off + ptr) end_) as [Hlt|]; cbn [negb].
  2:{ assert (off + ptr = end_) as <- by lia. exists f. by replace (off + ptr - off) with ptr by lia. }
  assert (Hstep : off + ptr + blk <= end_).
  { apply Z.mod_divide in Hmod as [x Ex]; [|lia]. apply Z.mod_divide in Hemod as [y Ey]; [|lia].
    assert (Hxy : x < y) by (apply (Z.mul_lt_mono_pos_r blk); lia).
    assert (x * blk + blk <= y * blk) by (replace (x * blk + blk) with ((x + 1) * blk) by ring;
      apply Z.mul_le_mono_nonneg_r; lia). lia. }
  destruct Hw as [G C]. pose proof G as [G1 G2].
  rewrite flash_read_ok by (rewrite ?G1; lia). cbn [Z.eqb negb].
  rewrite mem_read_Some by lia. cbn [mbind option_bind].
  set (data := slice buf ptr blk). assert (Hd : zlen data = blk) by (apply zlen_slice; lia).
  set (upd' := if negb _ then true else upd).
  assert (Hstepped : exists f', (if upd' then do_erase_write_verify f (off + ptr) data blk else (f, 0))
    = (f', 0) /\ written f0 off buf (ptr + blk) f').
  { destruct upd' eqn:Eu.
    - destruct (erase_write_verify_ok f (off + ptr) data) as (f' & E & G' & C');
        [lia|rewrite G2; congruence|congruence|rewrite G1, G2; lia|].
      rewrite G2, <- Eb in E. rewrite E. exists f'. split; [done|].
      apply (write_more f0 off buf ptr blk f f'); try done; lia.
    - exists f. split; [done|]. apply (write_more f0 off buf ptr blk f f); try done; try lia.
      assert (Heq : slice (content f) (off + ptr) blk = data).
      { unfold upd' in Eu. by case_bool_decide. }
      fold data. rewrite <- Heq. rewrite patch_same; [done|lia|lia|].
      pose proof (flash_geometry f) as (Hsf & _). lia. }
  destruct Hstepped as (f' & -> & Hw'). cbn [Z.eqb negb].
  rewrite u32_id by lia. replace (off + ptr + blk) with (off + (ptr + blk)) by lia.
  apply IH; try done; try lia.
  replace (off + (ptr + blk)) with (off + ptr + 1 * blk) by lia. by rewrite Z.mod_add by lia.
Qed.

(** ** The parts of [do_update] on a working device *)

Lemma update_start_aligned (f : F) off buf len :
  off mod flash_get_write_block_size f = 0 ->
  update_start f off buf len (flash_get_write_block_size f) = Some (f, 0, off, 0).
Proof using All.
  intros Hm. unfold update_start. rewrite Hm. cbn [Z.eqb negb].
  pose proof (flash_geometry f) as (_ & Hb & _ & _).
  rewrite Z.mul_comm. rewrite <- Z_div_exact_full_2 by lia. done.
Qed.

Lemma update_start_ok (f : F) off buf len :
  let blk := flash_get_write_block_size f in
  let s := off / blk * blk in
  let n := Z.min (s + blk - off) len in
  0 <= off -> 0 <= len <= zlen buf -> off mod blk <> 0 -> s + blk <= flash_get_flash_size f ->
  exists f', update_start f off buf len blk = Some (f', 0, s + blk, n) /\
    same_geometry f f' /\ content f' = patch (content f) off (slice buf 0 n).
Proof using All.
  intros blk s n Ho Hl Hm Hend. pose proof (flash_geometry f) as (Hsz & Hb & Hlt & _).
  change (2 ^ 32) with 4294967296 in Hlt. fold blk in Hb.
  assert (Es : off = s + off mod blk) by (unfold s; pose proof (Z.div_mod off blk); lia).
  assert (Hmr : 0 <= off mod blk < blk) by (apply Z.mod_pos_bound; lia).
  assert (Hs0 : 0 <= s) by (unfold s; apply Z.mul_nonneg_nonneg; [apply Z.div_pos; lia|lia]).
  assert (Hn : 0 <= n <= len /\ off mod blk + n <= blk) by (unfold n; lia).
  unfold update_start. fold blk s. rewrite (proj2 (Z.eqb_neq _ _) Hm). cbn [negb].
  rewrite flash_read_ok by lia. cbn [Z.eqb negb].
  replace (Z.min (blk - off mod blk) len) with n by (unfold n; lia).
  rewrite mem_read_Some by lia. cbn [mbind option_bind].
  assert (Hd : zlen (slice buf 0 n) = n) by (apply zlen_slice; lia).
  assert (Hsl : zlen (slice (content f) s blk) = blk) by (apply zlen_slice; lia).
  rewrite mem_write_patch by lia. cbn [mbind option_bind].
  destruct (erase_write_verify_ok f s (patch (slice (content f) s blk) (off mod blk) (slice buf 0 n)))
    as (f' & E & G & C); fold blk; try lia.
  { unfold s. by rewrite Z.mod_mul by lia. }
  { rewrite zlen_patch; lia. }
  fold blk in E. rewrite E. rewrite u32_id by lia. exists f'. split; [done|]. split; [done|].
  rewrite C, patch_sector by lia. by rewrite <- Es.
Qed.

Lemma update_end_ok f0 f off buf len :
  let blk := flash_get_write_block_size f0 in
  let e := (off + len) / blk * blk in
  0 <= off <= e -> 0 <= len <= zlen buf -> off + len <= flash_get_flash_size f0 ->
  written f0 off buf (e - off) f ->
  exists f', update_end f off buf len blk e e (e - off) = Some (f', 0) /\
    written f0 off buf len f'.
Proof using All.
  intros blk e Ho Hl Hsz Hw. pose proof (flash_geometry f0) as (Hs & Hb & Hlt & Hdiv).
  change (2 ^ 32) with 4294967296 in Hlt. fold blk in Hb, Hdiv.
  assert (Ee : off + len = e + (off + len) mod blk) by (unfold e; pose proof (Z.div_mod (off + len) blk); lia).
  assert (Hmr : 0 <= (off + len) mod blk < blk) by (apply Z.mod_pos_bound; lia).
  unfold update_end. rewrite u32_id by lia.
  destruct (Z.ltb_spec e (off + len)) as [Hlt'|].
  2:{ exists f. split; [done|]. by replace len with (e - off) by lia. }
  assert (Hroom : e + blk <= flash_get_flash_size f0).
  { apply Z.mod_divide in Hdiv as [y Ey]; [|lia]. unfold e in *.
    assert ((off + len) / blk < y) by (apply (Z.mul_lt_mono_pos_r blk); lia).
    replace ((off + len) / blk * blk + blk) with (((off + len) / blk + 1) * blk) by ring.
    rewrite Ey. apply Z.mul_le_mono_nonneg_r; lia. }
  pose proof Hw as [[G1 G2] C].
  pose proof (flash_geometry f) as (Hsf & _). fold blk in G2.
  rewrite flash_read_ok by (rewrite ?G1; lia). cbn [Z.eqb negb].
  rewrite u32_id by lia. rewrite mem_read_Some by lia. cbn [mbind option_bind].
  set (r := off + len - e). assert (Hr : zlen (slice buf (e - off) r) = r) by (apply zlen_slice; lia).
  assert (Hsl : zlen (slice (content f) e blk) = blk) by (apply zlen_slice; lia).
  rewrite mem_write_patch by lia. cbn [mbind option_bind].
  destruct (erase_write_verify_ok f e (patch (slice (content f) e blk) 0 (slice buf (e - off) r)))
    as (f' & E & G & C'); rewrite ?G2, ?G1; try lia.
  { unfold e. by rewrite Z.mod_mul by lia. }
  { rewrite zlen_patch; lia. }
  rewrite G2 in E. rewrite E. exists f'. split; [done|].
  replace len with (e - off + r) by lia. apply (write_more f0 off buf (e - off) r f f'); try done; try lia.
  rewrite C', patch_sector by lia. by replace (e + 0) with (off + (e - off)) by lia.
Qed.

(** ** [do_update] *)

(** From the first whole sector on. *)
Lemma update_rest_ok f0 f1 offset buf len ptr :
  let blk := flash_get_write_block_size f0 in
  let e := (offset + len) / blk * blk in
  0 <= offset -> 0 <= ptr -> offset + ptr <= e -> (offset + ptr) mod blk = 0 -> 0 <= len <= zlen buf ->
  offset + len <= flash_get_flash_size f0 -> written f0 offset buf ptr f1 ->
  exists f', ('(f, ret, op_addr, update_ptr) ←
        update_body (Z.to_nat (e / blk)) f1 buf blk e (offset + ptr) ptr false;
      if negb (ret =? 0) then Some (f, ret)
      else update_end f offset buf len blk e op_addr update_ptr) = Some (f', 0) /\
    written f0 offset buf len f'.
Proof using All.
  intros blk e Ho Hp Hle Hm Hl Hsz Hw. pose proof (flash_geometry f0) as (Hs & Hb & _ & _).
  fold blk in Hb.
  assert (He : e <= offset + len).
  { unfold e. pose proof (Z.div_mod (offset + len) blk). pose proof (Z.mod_pos_bound (offset + len) blk). lia. }
  assert (Eb : e / blk * blk = e) by (unfold e; by rewrite Z.div_mul by lia).
  assert (0 <= e / blk) by (apply Z.div_pos; lia).
  destruct (update_body_ok f0 offset buf blk e (Z.to_nat (e / blk)) ptr f1 false)
    as (f2 & E2 & Hw2); try done; try lia.
  { unfold e. by rewrite Z.mod_mul by lia. }
  rewrite E2. cbn [mbind option_bind Z.eqb negb].
  apply update_end_ok; fold blk; fold e; try done; lia.
Qed.

Lemma do_update_eq (f : F) offset buf len :
  let blk := flash_get_write_block_size f in
  let e := (offset + len) / blk * blk in
  0 <= offset -> 0 <= len -> offset + len <= flash_get_flash_size f ->
  do_update true f offset buf len =
    '(f, ret, op_addr, update_ptr) ← update_start f offset buf len blk;
    if negb (ret =? 0) then Some (f, ret)
    else
      '(f, ret, op_addr, update_ptr) ←
        update_body (Z.to_nat (e / blk)) f buf blk e op_addr update_ptr false;
      if negb (ret =? 0) then Some (f, ret)
      else update_end f offset buf len blk e op_addr update_ptr.
Proof using All.
  intros blk e Ho Hl Hsz. pose proof (flash_geometry f) as (Hs & Hb & Hlt & _).
  change (2 ^ 32) with 4294967296 in Hlt. unfold do_update. rewrite !(u32_id offset) by lia.
  rewrite !(u32_id (offset + len)) by lia. fold blk in Hb |- *. fold e.
  destruct (Z.ltb_spec (flash_get_flash_size f) (offset + len)); [lia|].
  destruct (Z.eqb_spec blk 0); [lia|]. done.
Qed.

(** C22: on a working flash device [do_update] of [len] bytes at [offset] inside the device,
    where the range starts at a sector boundary or reaches the end of the sector it starts in,
    succeeds and leaves exactly those bytes replaced: every other byte of the device keeps its
    value although whole sectors were erased. *)
Theorem do_update_exact (f : F) offset buf len :
  let blk := flash_get_write_block_size f in
  0 <= offset -> 0 <= len <= zlen buf -> offset + len <= flash_get_flash_size f ->
  offset mod blk = 0 \/ offset / blk * blk + blk <= offset + len ->
  exists f', do_update true f offset buf len = Some (f', 0) /\ same_geometry f f' /\
    content f' = patch (content f) offset (slice buf 0 len).
Proof using All.
  intros blk Ho Hl Hsz Hc. pose proof (flash_geometry f) as (Hs & Hb & _ & _). fold blk in Hb.
  rewrite do_update_eq by lia. fold blk.
  destruct (decide (offset mod blk = 0)) as [Hm|Hm].
  - unfold blk. rewrite (update_start_aligned f offset buf len Hm). cbn [mbind option_bind Z.eqb negb].
    pose proof (update_rest_ok f f offset buf len 0) as Hrest. rewrite Z.add_0_r in Hrest.
    apply Hrest; try done; try lia; fold blk.
    + apply Z.mod_divide in Hm as [x ->]; [|lia].
      apply Z.mul_le_mono_nonneg_r; [lia|]. apply Z.div_le_lower_bound; lia.
    + split; [done|]. by rewrite patch_nil.
  - destruct Hc as [|Hc]; [done|].
    assert (Hmod := Z.div_mod offset blk). assert (Hr := Z.mod_pos_bound offset blk).
    set (n := Z.min (offset / blk * blk + blk - offset) len) in *.
    destruct (update_start_ok f offset buf len) as (f1 & E1 & G1 & C1); fold blk; try done; try lia.
    fold blk n in E1, C1. unfold blk in E1 |- *. rewrite E1. cbn [mbind option_bind Z.eqb negb]. fold blk.
    assert (En : offset + n = offset / blk * blk + blk) by (unfold n; lia). rewrite <- En.
    apply update_rest_ok; try done; try lia; fold blk.
    + rewrite En. replace (offset / blk * blk + blk) with ((offset / blk + 1) * blk) by ring.
      apply Z.mul_le_mono_nonneg_r; [lia|]. apply Z.div_le_lower_bound; lia.
    + rewrite En. replace (offset / blk * blk + blk) with ((offset / blk + 1) * blk) by ring.
      apply Z.mod_mul. lia.
Qed.

(** ** A streamed image *)

Section sink.
Context (f0 : F) (pos : Z) (tx : list Z) (Htx : zlen tx = SECTOR_SZ_64K)
  (Hblk : (flash_get_write_block_size f0 | SECTOR_SZ_64K)).

(** The device at the position, holding the bytes [l] from its first byte on. *)
Definition holds (l : list Z) (s : spi_state F) : Prop :=
  exists f, flash_devs s !! pos = Some f /\ same_geometry f0 f /\
    content f = patch (content f0) 0 l.

(** Bytes up to the last sector boundary. *)
Definition whole_sectors (n : Z) : Z := n / SECTOR_SZ_64K * SECTOR_SZ_64K.

(** The variables of [fw_update] between two pieces: nothing collected at a boundary of a
    sector, else the bytes since it. *)
Definition collected (taken : list Z) (s : spi_state F) : Prop :=
  let so := whole_sectors (zlen taken) in
  let bo := zlen taken mod SECTOR_SZ_64K in
  holds (slice taken 0 so) s /\
  (zlen taken = 0 \/ bo = 0 /\ is_init s = false \/
   0 < bo /\ is_init s = true /\ start_offset s = so /\ buf_offset s = bo /\
   exists b, txbuf s = Some b /\ zlen b = SECTOR_SZ_64K /\ slice b 0 bo = slice taken so bo).

Lemma whole_sectors_mod n : 0 <= n ->
  n = whole_sectors n + n mod SECTOR_SZ_64K /\ 0 <= n mod SECTOR_SZ_64K < SECTOR_SZ_64K /\
  0 <= whole_sectors n.
Proof using Type.
  intros Hn. unfold whole_sectors. pose proof (Z.div_mod n SECTOR_SZ_64K ltac:(done)).
  pose proof (Z.mod_pos_bound n SECTOR_SZ_64K ltac:(done)).
  pose proof (Z.div_pos n SECTOR_SZ_64K Hn ltac:(done)). unfold SECTOR_SZ_64K in *. lia.
Qed.

(** The beginning of a call that continues the stream. *)
Lemma fw_update_open s taken len buf flag :
  collected taken s -> flag .& FORCE_INIT_FLAG = 0 -> zlen taken < 2 ^ 32 ->
  exists s1 b, let so := whole_sectors (zlen taken) in let bo := zlen taken mod SECTOR_SZ_64K in
    fw_update (Some tx) true s (zlen taken) len buf flag pos = fw_collect true s1 b len buf flag pos /\
    zlen b = SECTOR_SZ_64K /\ slice b 0 bo = slice taken so bo /\ is_init s1 = true /\
    start_offset s1 = so /\ buf_offset s1 = bo /\ holds (slice taken 0 so) s1.
Proof using Htx.
  intros [Hh Hc] Hf Hlt. pose proof (zlen_nonneg taken) as Hn.
  pose proof (whole_sectors_mod (zlen taken) Hn) as (E & Hbo & Hso).
  set (so := whole_sectors (zlen taken)) in *. set (bo := zlen taken mod SECTOR_SZ_64K) in *.
  change (2 ^ 32) with 4294967296 in Hlt. unfold fw_update. rewrite Hf.
  change (negb (0 =? 0)) with false. rewrite orb_false_r.
  assert (Hnew : bo = 0 -> forall s', is_init s' = false -> holds (slice taken 0 so) s' ->
    exists s1 b,
      fw_resync true (set_buf_offset 0 (set_start_offset (zlen taken)
        (set_is_init true (set_txbuf (Some tx) s')))) tx (zlen taken) len buf flag pos
        = fw_collect true s1 b len buf flag pos /\
      zlen b = SECTOR_SZ_64K /\ slice b 0 bo = slice taken so bo /\ is_init s1 = true /\
      start_offset s1 = so /\ buf_offset s1 = bo /\ holds (slice taken 0 so) s1).
  { intros Eb s' Hi Hh'. unfold fw_resync. cbn [start_offset buf_offset set_buf_offset set_start_offset].
    rewrite Z.add_0_r, u32_id by lia. rewrite Z.eqb_refl. cbn [negb andb].
    eexists _, tx. split; [reflexivity|]. rewrite Eb. split; [done|]. split; [done|]. split; [done|].
    split; [cbn; lia|]. by split. }
  destruct Hc as [E0|[[Eb Hi]|(Hb & Hi & Hs & Hbf & b & Ht & Hz & Hsl)]].
  - assert (Eb : bo = 0) by lia. destruct (Z.eqb_spec (zlen taken) 0) as [_|]; [|lia].
    apply (Hnew Eb); [done|exact Hh].
  - destruct (zlen taken =? 0); cbn [is_init set_is_init]; rewrite ?Hi; by apply (Hnew Eb).
  - destruct (Z.eqb_spec (zlen taken) 0) as [|_]; [lia|]. rewrite Hi, Ht. cbn [negb mbind option_bind].
    unfold fw_resync. rewrite Hs, Hbf, <- E, u32_id by lia. rewrite Z.eqb_refl. cbn [negb andb].
    eexists _, b. split; [reflexivity|]. split; [done|]. split; [done|]. split; [done|].
    split; [done|]. by split.
Qed.

Lemma whole_sectors_aligned n : whole_sectors n mod flash_get_write_block_size f0 = 0.
Proof using Hblk.
  destruct Hblk as [k Hk]. unfold whole_sectors. rewrite Hk, Z.mul_assoc. apply Z.mod_mul.
  intros E. rewrite E in Hk. unfold SECTOR_SZ_64K in Hk. lia.
Qed.

Lemma isinit_ok (s : spi_state F) (f : F) : exists s' f', ckeck_flash_device_isinit s f pos = (s', f', 0) /\
  same_geometry f f' /\ content f' = content f /\ flash_devs s' = flash_devs s /\
  start_offset s' = start_offset s /\ buf_offset s' = buf_offset s.
Proof using H0.
  unfold ckeck_flash_device_isinit. destruct (dev_isinit s pos); cbn [negb].
  - by exists s, f.
  - destruct (flash_init_ok f) as (f' & -> & G & C). cbn [Z.eqb]. by eexists _, f'.
Qed.

Lemma flush_ok (s : spi_state F) b old n flag :
  holds old s -> zlen old = start_offset s -> buf_offset s = n -> zlen old mod SECTOR_SZ_64K = 0 ->
  0 <= n <= zlen b -> zlen old + n <= flash_get_flash_size f0 ->
  exists s', flush true flag pos b s = Some (s', 0) /\ is_init s' = false /\
    holds (old ++ slice b 0 n) s'.
Proof using All.
  intros (f & Hf & G & C) Hs Hb Hm Hn Hsz. unfold flush. rewrite Hf.
  destruct (isinit_ok s f) as (s1 & f1 & -> & G1 & C1 & Ed & Es & Eb). cbn [Z.eqb negb].
  set (f2 := if _ : bool then spi_nor_config_4byte_mode f1 else f1).
  assert (H2 : same_geometry f1 f2 /\ content f2 = content f1).
  { unfold f2. destruct (_ && _); [apply flash_4byte_ok|done]. }
  clearbody f2. destruct H2 as [G2 C2].
  assert (Hg : same_geometry f0 f2) by (eauto using same_geometry_trans).
  pose proof (flash_geometry f0) as (Hs0 & Hb0 & _ & _). pose proof (zlen_nonneg old).
  destruct (do_update_exact f2 (start_offset s1) b (buf_offset s1)) as (f3 & E3 & G3 & C3);
    rewrite ?Es, ?Eb, ?Hb, <- ?Hs; try lia.
  { rewrite (proj1 Hg). lia. }
  { left. rewrite (proj2 Hg). pose proof (whole_sectors_aligned (zlen old)) as Hal.
    unfold whole_sectors in Hal. rewrite Z.mul_comm, <- Z_div_exact_full_2 in Hal; done. }
  rewrite Es, Eb, Hb, <- Hs in E3, C3. rewrite E3.
  cbn [mbind option_bind]. set (s2 := release _). change (u8 0) with 0.
  assert (Hh : forall w, holds (old ++ slice b 0 n) (if w : bool then set_warm_reset true s2 else s2)).
  { intros w. exists f3. split; [|split].
    - destruct w; cbn; apply lookup_insert_eq.
    - by eapply same_geometry_trans.
    - rewrite C3, C2, C1, C. rewrite <- (Z.add_0_l (zlen old)). apply patch_patch; [done|].
      rewrite zlen_slice by lia. lia. }
  eexists. split; [reflexivity|]. split; [|apply Hh]. by destruct (_ && _).
Qed.

Lemma whole_sectors_add k n : 0 <= n < SECTOR_SZ_64K ->
  whole_sectors (whole_sectors k + n) = whole_sectors k /\
  (whole_sectors k + n) mod SECTOR_SZ_64K = n.
Proof using Type.
  intros Hn. unfold whole_sectors. rewrite Z.add_comm, Z.div_add, Z.mod_add by done.
  by rewrite Z.div_small, Z.mod_small.
Qed.

(** What [txbuf] holds of [taken] after the piece [d] is put behind it. *)
Lemma txbuf_piece b taken d :
  let so := whole_sectors (zlen taken) in let bo := zlen taken mod SECTOR_SZ_64K in
  zlen b = SECTOR_SZ_64K -> slice b 0 bo = slice taken so bo -> bo + zlen d <= SECTOR_SZ_64K ->
  slice (patch b bo d) 0 (bo + zlen d) = slice (taken ++ d) so (bo + zlen d) /\
  slice (taken ++ d) 0 so = slice taken 0 so /\
  slice taken 0 so ++ slice (taken ++ d) so (bo + zlen d) = taken ++ d.
Proof using All.
  intros so bo Hz Hs Hd. pose proof (whole_sectors_mod (zlen taken) (zlen_nonneg _)) as (E & Hbo & Hso).
  fold so bo in E, Hbo, Hso. pose proof (zlen_nonneg d).
  assert (E0 : slice (taken ++ d) 0 so = slice taken 0 so) by (apply slice_app_l; lia).
  assert (Ht : taken = slice taken 0 so ++ slice taken so bo).
  { rewrite <- slice_split by lia. symmetry. apply slice_all. lia. }
  assert (E1 : slice (taken ++ d) so (bo + zlen d) = slice taken so bo ++ d).
  { rewrite Ht at 1. rewrite <- app_assoc, slice_app_r by (rewrite zlen_slice; lia).
    apply slice_all. rewrite zlen_app, zlen_slice; lia. }
  split; [|split; [done|]].
  - rewrite slice_split by lia. rewrite E1. f_equal; [|apply slice_patch; lia].
    rewrite <- Hs. unfold slice, patch. change (Z.to_nat 0) with 0%nat. rewrite !drop_0.
    rewrite take_app_le by (rewrite length_take; unfold zlen in *; lia). by rewrite take_take, Nat.min_id.
  - rewrite E1, app_assoc. by rewrite <- Ht.
Qed.

(** One piece: taken, or, at the end of a sector or of the image, written. *)
Lemma fw_update_piece (s : spi_state F) taken len buf (final : bool) :
  let flag := if final then SECTOR_END_FLAG .| NO_RESET_FLAG else 0 in
  collected taken s -> 0 < len -> len <= zlen buf -> zlen taken + len <= flash_get_flash_size f0 ->
  zlen taken mod SECTOR_SZ_64K + len <= SECTOR_SZ_64K ->
  exists s', fw_update (Some tx) true s (zlen taken) len buf flag pos = Some (s', 0) /\
    (if final then holds (taken ++ slice buf 0 len) s' else collected (taken ++ slice buf 0 len) s').
Proof using All.
  intros flag Hc Hl Hlb Hsz Hsec. pose proof (flash_geometry f0) as (_ & _ & Hlt & _).
  change (2 ^ 32) with 4294967296 in Hlt. pose proof (whole_sectors_mod (zlen taken) (zlen_nonneg _)) as (E & Hbo & Hso).
  destruct (fw_update_open s taken len buf flag Hc) as (s1 & b & -> & Hz & Hs & Hi & Es & Eb & Hh);
    [by destruct final|change (2 ^ 32) with 4294967296; lia|].
  set (so := whole_sectors (zlen taken)) in *. set (bo := zlen taken mod SECTOR_SZ_64K) in *.
  assert (Hd : zlen (slice buf 0 len) = len) by (apply zlen_slice; lia).
  set (d := slice buf 0 len) in *.
  unfold fw_collect. rewrite Eb. unfold SECTOR_SZ_64K in Hbo, Hsec, Hz. rewrite u32_id by lia.
  destruct (Z.ltb_spec SECTOR_SZ_64K (bo + len)); [unfold SECTOR_SZ_64K in *; lia|].
  rewrite mem_read_Some by lia. cbn [mbind option_bind]. fold d.
  rewrite mem_write_patch by lia. cbn [mbind option_bind buf_offset set_buf_offset].
  destruct (txbuf_piece b taken d) as (T1 & T2 & T3); fold so bo; rewrite ?Hd; try done.
  fold so bo in T1, T2, T3. rewrite Hd in T1, T3.
  assert (Hzs : zlen (slice taken 0 so) = so) by (apply zlen_slice; lia).
  destruct ((bo + len =? SECTOR_SZ_64K) || negb (flag .& SECTOR_END_FLAG =? 0)) eqn:Efl.
  - set (s2 := set_buf_offset _ _).
    destruct (flush_ok s2 (patch b bo d) (slice taken 0 so) (bo + len) flag) as (s' & -> & Hi' & Hh');
      rewrite ?Hzs; try done; try lia.
    { unfold so, whole_sectors. by rewrite Z.mod_mul. }
    { rewrite zlen_patch; lia. }
    exists s'. split; [done|]. rewrite T1, T3 in Hh'. destruct final; [done|].
    change (flag .& SECTOR_END_FLAG) with 0 in Efl. rewrite orb_false_r in Efl. apply Z.eqb_eq in Efl.
    assert (Hn : zlen (taken ++ d) = (zlen taken / SECTOR_SZ_64K + 1) * SECTOR_SZ_64K).
    { rewrite zlen_app, Hd. unfold so, whole_sectors in E. lia. }
    unfold collected. rewrite Hn. unfold whole_sectors. rewrite Z.div_mul, Z.mod_mul by done.
    rewrite <- Hn, slice_all by lia. split; [done|]. by auto.
  - apply orb_false_iff in Efl as [Hne Efl]. apply Z.eqb_neq in Hne.
    destruct final; [done|]. eexists. split; [reflexivity|].
    destruct (whole_sectors_add (zlen taken) (bo + len)) as [W1 W2]; [unfold SECTOR_SZ_64K in *; lia|].
    fold so in W1, W2. unfold collected. rewrite zlen_app, Hd.
    replace (zlen taken + len) with (so + (bo + len)) by lia. rewrite W1, W2, T2.
    split; [exact Hh|]. right; right. split; [lia|]. split; [done|]. split; [exact Es|]. split; [done|].
    exists (patch b bo d). split; [done|]. split; [rewrite zlen_patch by lia; exact Hz|]. exact T1.
Qed.

(** [fw_update] as the flash code of the update thread: undefined behaviour loses the state. *)
Definition spi_set_retry (count : Z) : option (spi_state F) -> option (spi_state F) :=
  option_map (set_default_retry_count count).
Definition spi_fw_update (d : option (spi_state F)) (offset len : Z) (buf : list Z) (flag p : Z)
    : option (spi_state F) * Z :=
  match d ≫= (fun s => fw_update (Some tx) true s offset len buf flag p) with
  | Some (s, ret) => (Some s, ret)
  | None => (None, CC_UNSPECIFIED_ERROR)
  end.

#[export] Instance spi_sink : ImageSink spi_set_retry spi_fw_update pos.
Proof using All.
  refine {| sink_size := flash_get_flash_size f0;
    sink_ready l d := exists s, d = Some s /\ collected l s;
    sink_done l d := exists s, d = Some s /\ holds l s |}.
  intros d taken len buf final (s & -> & Hc) Hl Hlb Hsz Hsec.
  destruct (fw_update_piece s taken len buf final Hc) as (s' & E & Hs'); try done; try lia.
  exists (Some s'). split; [unfold spi_fw_update; cbn [mbind option_bind]; by rewrite E|].
  destruct final; by exists s'.
Defined.
End sink.
End works.
Arguments holds {F _ _} f0 pos l s.

(** ** A flash device in memory *)

(** [n] blocks of [k] bytes; the content is [ram_bytes] cut or filled up to that size. *)
Record ram (n k : positive) := mk_ram { ram_bytes : list Z }.
Arguments mk_ram {n k} _.
Arguments ram_bytes {n k} _.

Section ram.
Context {n k : positive}.
Let size := Zpos n * Zpos k.

Definition ram_content (r : ram n k) : list Z := take (Z.to_nat size) (ram_bytes r ++ zeros size).
Definition ram_put (r : ram n k) (a : Z) (d : list Z) : ram n k * Z :=
  if (0 <=? a) && (a + zlen d <=? size) then (mk_ram (patch (ram_content r) a d), 0) else (r, - EINVAL).

#[export] Instance ram_flash : Flash (ram n k) := {|
  flash_erase r a sz := if a mod Zpos k =? 0 then ram_put r a (replicate (Z.to_nat sz) 0xFF) else (r, - EINVAL);
  flash_write := ram_put;
  flash_read r a len :=
    if (0 <=? a) && (0 <=? len) && (a + len <=? size) then (slice (ram_content r) a len, 0) else ([], - EINVAL);
  flash_get_flash_size _ := size;
  flash_get_write_block_size _ := Zpos k;
  flash_read_jedec_id _ := IS25WP256D_ID;
  spi_nor_config_4byte_mode r := r;
  spi_nor_re_init r := (r, 0) |}.

Lemma zlen_ram r : zlen (ram_content r) = size.
Proof using Type.
  unfold ram_content, zlen. rewrite length_take, length_app.
  assert (0 <= size) by (unfold size; lia).
  unfold zeros. rewrite length_replicate. lia.
Qed.

Lemma ram_put_ok r a d : 0 <= a -> a + zlen d <= size ->
  exists r', ram_put r a d = (r', 0) /\ ram_content r' = patch (ram_content r) a d.
Proof using Type.
  intros Ha Hl. unfold ram_put. destruct (Z.leb_spec 0 a); [|lia].
  destruct (Z.leb_spec (a + zlen d) size); [|lia]. cbn [andb]. eexists. split; [done|].
  assert (Hz : zlen (patch (ram_content r) a d) = size) by (rewrite zlen_patch by (rewrite ?zlen_ram; done); apply zlen_ram).
  unfold ram_content at 1. cbn [ram_bytes]. apply take_app_length'. unfold zlen in Hz. lia.
Qed.

Definition ram_works : size < 2 ^ 32 -> FlashWorks (ram n k).
Proof using Type.
  intros Hlt. refine {| content := ram_content |}; cbn.
  - intros f. rewrite zlen_ram. split; [done|]. split; [lia|]. split; [done|].
    unfold size. apply Z.mod_mul. lia.
  - intros f a Ha Hm Hl. rewrite Hm. cbn [Z.eqb].
    destruct (ram_put_ok f a (replicate (Pos.to_nat k) 0xFF)) as (f' & E & C); [done| |by exists f'].
    unfold zlen. rewrite length_replicate. lia.
  - intros f a d Ha Hl _. destruct (ram_put_ok f a d Ha Hl) as (f' & E & C). by exists f'.
  - intros f a len Ha Hn Hl. destruct (Z.leb_spec 0 a); [|lia]. destruct (Z.leb_spec 0 len); [|lia].
    by destruct (Z.leb_spec (a + len) size); [|lia].
  - done.
  - intros f. by exists f.
Defined.
End ram.

Section properties.
Context {F : Type} `{FlashWorks F}.

(** C5: a firmware update of a working flash device through [pldm_fw_update] and [fw_update]
    against an agent that follows the protocol stores the image: the device content
    afterwards is the old content with the image at its beginning (and at most 32 zero bytes
    behind it, only if the image is shorter than the negotiated size); the thread ends with
    success and the device ready to activate. *)
Theorem fw_update_stores_image (f0 : F) pos tx pf (fns : fw_functions (option (spi_state F))) fn info
    image m st s :
  call fns fn = pldm_fw_update spi_set_retry (spi_fw_update tx) pos ->
  fi_update_func info = Some fn -> fi_pre_update_func info = None ->
  fi_pos_update_func info = None -> fi_self_apply_work_func info = None ->
  0 < zlen image < 0xFFFFF000 -> 0 < m <= 256 -> zlen image + 32 <= flash_get_flash_size f0 ->
  keep_update_flag st = true -> image_size st = zlen image -> max_buff_size st = m ->
  current_state st = STATE_DOWNLOAD ->
  find_update_info pf st (cur_update_comp_id st) = Some info ->
  flash_devs s !! pos = Some f0 -> zlen tx = SECTOR_SZ_64K ->
  (flash_get_write_block_size f0 | SECTOR_SZ_64K) ->
  exists st' s' f' log pad,
    fw_drive pf fns (image_agent image) (Z.to_nat (zlen image) + 5) st (Some s) ThCreated [] =
      Some (st', Some s', log) /\
    flash_devs s' !! pos = Some f' /\ content f' = patch (content f0) 0 (image ++ zeros pad) /\
    0 <= pad <= 32 /\ (m <= zlen image -> pad = 0) /\
    current_state st' = STATE_RDY_XFER /\ cur_aux_state st' = STATE_AUX_SUCCESS.
Proof using All.
  intros Hfn Hu Hpre Hpos Happ Hn Hm Hsz Hk Hi Hb Hs Hfind Hdev Htx Hblk.
  set (sink := spi_sink f0 pos tx Htx Hblk).
  assert (Hrd : sink_ready [] (spi_set_retry 0 (Some s))).
  { eexists. split; [done|]. split; [|by left]. exists f0. split; [exact Hdev|]. split; [done|].
    symmetry. by apply patch_nil. }
  destruct (download_whole (Hsink := sink) spi_set_retry (spi_fw_update tx) pos pf fns fn info image m Hfn
    ltac:(by split_and!) Hn Hm Hsz st (Some s) ltac:(by split_and!) (ex_intro _ [] (conj eq_refl Hrd)) Hfind)
    as (ws & st' & log & pad & E & H1 & H2 & H3 & H4 & (H5 & H6 & _) & _).
  destruct (tiles_sink spi_set_retry (spi_fw_update tx) pos m ws ltac:(lia) [] (spi_set_retry 0 (Some s)) H1)
    as (s' & Es & f' & Ef & _ & Ec); [|done|].
  { rewrite H2, zlen_app, zlen_zeros, zlen_nil by lia. cbn [sink_size sink spi_sink]. lia. }
  rewrite Es in E. exists st', s', f', log, pad. cbn [app] in Ec. rewrite H2 in Ec.
  split; [exact E|]. split_and!; done || lia.
Qed.

(** [do_update] of a range strictly inside one sector (it neither starts nor ends at a
    boundary) also rewrites the beginning of the next sector, with the bytes of the caller's
    buffer behind the [len] bytes it was given: the part after the last boundary runs with
    the address already moved past it. *)
Theorem do_update_overruns (f : F) offset buf len :
  let blk := flash_get_write_block_size f in
  let s := offset / blk * blk in
  0 <= offset -> 0 <= len -> offset mod blk <> 0 -> offset + len < s + blk ->
  s + 2 * blk <= flash_get_flash_size f -> len + (offset + len - s) <= zlen buf ->
  exists f', do_update true f offset buf len = Some (f', 0) /\
    content f' = patch (patch (content f) offset (slice buf 0 len)) (s + blk)
                   (slice buf len (offset + len - s)).
Proof using All.
  intros blk s Ho Hl Hm Hin Hsz Hb. pose proof (flash_geometry f) as (Hs & Hb0 & Hlt & _).
  change (2 ^ 32) with 4294967296 in Hlt. fold blk in Hb0.
  assert (Eo := Z.div_mod offset blk). assert (Hr := Z.mod_pos_bound offset blk).
  assert (Hs0 : 0 <= s) by (apply Z.mul_nonneg_nonneg; [apply Z.div_pos|]; lia).
  rewrite do_update_eq by lia. fold blk.
  assert (Ee : (offset + len) / blk * blk = s).
  { unfold s. f_equal. symmetry. apply (Z.div_unique _ _ _ (offset mod blk + len)); lia. }
  rewrite Ee. destruct (update_start_ok f offset buf len) as (f1 & E1 & G1 & C1); fold blk s; try lia.
  fold blk s in E1, C1. rewrite Z.min_r in E1, C1 by lia.
  unfold blk in E1 |- *. rewrite E1. fold blk. cbn [mbind option_bind Z.eqb negb].
  replace (update_body _ f1 buf blk s (s + blk) len false) with (Some (f1, 0, s + blk, len)).
  2:{ assert (Hge : (s + blk <? s) = false) by (apply Z.ltb_ge; lia).
      destruct (Z.to_nat (s / blk)); cbn [update_body]; by rewrite Hge. }
  cbn [mbind option_bind Z.eqb negb]. unfold update_end. rewrite !u32_id by lia.
  destruct (Z.ltb_spec s (offset + len)) as [_|]; [|lia].
  rewrite flash_read_ok by (rewrite ?(proj1 G1); lia). cbn [Z.eqb negb].
  rewrite mem_read_Some by lia. cbn [mbind option_bind].
  set (d := slice buf len (offset + len - s)).
  assert (Hd : zlen d = offset + len - s) by (apply zlen_slice; lia).
  pose proof (flash_geometry f1) as (Hs1 & _). destruct G1 as [G1 G1'].
  rewrite mem_write_patch by (rewrite ?zlen_slice by lia; lia). cbn [mbind option_bind].
  destruct (erase_write_verify_ok f1 (s + blk) (patch (slice (content f1) (s + blk) blk) 0 d))
    as (f2 & E2 & G2 & C2); rewrite ?G1, ?G1'; fold blk; try lia.
  { replace (s + blk) with ((offset / blk + 1) * blk) by (unfold s; ring). apply Z.mod_mul. lia. }
  { rewrite zlen_patch by (rewrite ?zlen_slice by lia; lia). apply zlen_slice; lia. }
  rewrite G1' in E2. fold blk in E2. rewrite E2. exists f2. split; [done|].
  rewrite C2, patch_sector by lia. by rewrite Z.add_0_r, C1.
Qed.

Lemma erase_loop_ok f0 fuel : forall f off progress,
  let blk := flash_get_write_block_size f0 in let size := flash_get_flash_size f0 in
  same_geometry f0 f -> 0 <= off <= size -> off mod blk = 0 -> size + blk < 2 ^ 32 ->
  slice (content f) 0 off = replicate (Z.to_nat off) 0xFF -> size - off <= Z.of_nat fuel ->
  exists f', erase_loop fuel f blk size off progress = Some (f', 100, 0) /\
    content f' = replicate (Z.to_nat size) 0xFF.
Proof using All.
  induction fuel as [|fuel IH]; intros f off progress blk size G Ho Hm Hw Hs Hf;
    pose proof (flash_geometry f0) as (_ & Hb & _ & Hdiv); fold blk size in Hb, Hdiv;
    pose proof (flash_geometry f) as (Hz & _); rewrite (proj1 G) in Hz; fold size in Hz;
    cbn [erase_loop]; destruct (Z.ltb_spec off size) as [Hlt|]; cbn [negb]; try lia;
    try (assert (off = size) as -> by lia; exists f; split; [done|]; by rewrite <- Hs, slice_all by lia).
  assert (Hroom : off + blk <= size).
  { apply Z.mod_divide in Hm as [x Ex]; [|lia]. apply Z.mod_divide in Hdiv as [y Ey]; [|lia].
    assert (x < y) by (apply (Z.mul_lt_mono_pos_r blk); lia).
    replace (off + blk) with ((x + 1) * blk) by lia. rewrite Ey. apply Z.mul_le_mono_nonneg_r; lia. }
  destruct (flash_erase_ok f off) as (f' & E & G' & C); rewrite ?(proj1 G), ?(proj2 G); fold blk size; try lia.
  rewrite (proj2 G) in E, C. fold blk in E, C. rewrite E. cbn [Z.eqb negb]. rewrite u32_id by lia.
  apply IH; fold blk size; try lia.
  - by eapply same_geometry_trans.
  - replace (off + blk) with (off + 1 * blk) by lia. by rewrite Z.mod_add by lia.
  - assert (Hr : zlen (replicate (Z.to_nat blk) 0xFF) = blk) by (unfold zlen; rewrite length_replicate; lia).
    pose proof (slice_patch (content f) off (replicate (Z.to_nat blk) 0xFF)) as Hp.
    rewrite Hr in Hp. rewrite C, slice_split, Z.add_0_l, Hp by lia.
    rewrite Z2Nat.inj_add, replicate_add by lia. f_equal. rewrite <- Hs.
    unfold slice, patch. change (Z.to_nat 0) with 0%nat. rewrite !drop_0.
    rewrite take_app_le by (rewrite length_take; unfold zlen in *; lia). by rewrite take_take, Nat.min_id.
Qed.

(** [cmd_erase_bios] on a bound, working BIOS flash of at most 64 MiB leaves every byte
    erased, reports 100 percent, and gives the flash multiplexer back to the host; the loop
    over the blocks ends after at most one turn per byte of the device. *)
Theorem erase_bios_erases (pos : Z) (s : spi_state F) progress f :
  0 <= pos -> flash_devs s !! pos = Some f -> 0 < flash_get_flash_size f <= BIOS_MAX_SIZE_BYTES ->
  exists s' f', cmd_erase_bios pos true s progress = Some (s', 100, 0, [1; 0]) /\
    flash_devs s' !! pos = Some f' /\ content f' = replicate (Z.to_nat (flash_get_flash_size f)) 0xFF.
Proof using All.
  intros Hp Hd Hsz. unfold cmd_erase_bios. destruct (Z.ltb_spec pos 0); [lia|]. rewrite Hd. cbn [negb].
  destruct (isinit_ok pos s f) as (s1 & f1 & -> & G1 & _ & Ed & _). cbn [Z.eqb].
  destruct (flash_4byte_ok f1) as [G2 _]. set (f2 := spi_nor_config_4byte_mode f1) in *.
  pose proof (same_geometry_trans _ _ _ G1 G2) as G. unfold erase_entire_flash.
  pose proof (flash_geometry f) as (_ & Hb & _ & Hdiv).
  assert (Hble : flash_get_write_block_size f <= flash_get_flash_size f).
  { apply Z.divide_pos_le; [lia|]. apply Z.mod_divide; lia. }
  rewrite (proj1 G), (proj2 G). destruct (Z.eqb_spec (flash_get_flash_size f) 0); [lia|].
  destruct (Z.ltb_spec BIOS_MAX_SIZE_BYTES (flash_get_flash_size f)); [lia|]. cbn [orb].
  unfold BIOS_MAX_SIZE_BYTES in Hsz.
  destruct (erase_loop_ok f (Z.to_nat (flash_get_flash_size f)) f2 0 0) as (f3 & -> & C3); try lia; try done.
  cbn [mbind option_bind]. eexists _, f3. split; [reflexivity|]. split; [|done]. apply lookup_insert_eq.
Qed.

(** After a retransmission far ahead the position in the buffer can wrap: the length check
    passes and the piece is copied outside [txbuf]. *)
Lemma fw_update_wraps (s : spi_state F) buf pos b :
  is_init s = true -> txbuf s = Some b -> start_offset s = 0 -> buf_offset s = 0 ->
  1 <= fw_update_retry s -> zlen b = SECTOR_SZ_64K -> 1 <= zlen buf ->
  fw_update None true s 0xFFFFFFFF 1 buf 0 pos = None.
Proof using Type.
  intros Hi Ht Hs Hb Hr Hz Hl. unfold fw_update.
  change ((0xFFFFFFFF =? 0) || negb (0 .& FORCE_INIT_FLAG =? 0)) with false. cbv iota.
  rewrite Hi, Ht. cbn [negb mbind option_bind]. unfold fw_resync. rewrite Hs, Hb.
  change (negb (0xFFFFFFFF =? u32 (0 + 0))) with true. cbn [andb negb fw_update_retry set_fw_update_retry].
  destruct (Z.ltb_spec (fw_update_retry s - 1) 0); [lia|]. cbn [start_offset set_fw_update_retry]. rewrite Hs.
  change (0xFFFFFFFF <? 0) with false. cbv iota. unfold fw_collect. cbn [buf_offset set_buf_offset].
  change (u32 (u32 (0xFFFFFFFF - 0) + 1)) with 0. change (SECTOR_SZ_64K <? 0) with false. cbv iota.
  rewrite mem_read_Some by lia. cbn [mbind option_bind]. unfold mem_write.
  change (u32 (0xFFFFFFFF - 0)) with 0xFFFFFFFF. rewrite zlen_slice, Hz by lia. done.
Qed.
End properties.

(** ** Witnesses *)

Definition small_ram : FlashWorks (ram 4 4) := ram_works (n := 4) (k := 4) eq_refl.
Definition large_ram : FlashWorks (ram 32 4096) := ram_works (n := 32) (k := 4096) eq_refl.

Lemma do_update_exact_witness :
  exists f' : ram 4 4, do_update true (mk_ram (zeros 16)) 6 [1; 2; 3; 4; 5; 6; 7] 7 = Some (f', 0) /\
    ram_content f' = [0; 0; 0; 0; 0; 0; 1; 2; 3; 4; 5; 6; 7; 0; 0; 0].
Proof.
  destruct (@do_update_exact (ram 4 4) ram_flash small_ram (mk_ram (zeros 16)) 6
    [1; 2; 3; 4; 5; 6; 7] 7) as (f' & E & _ & C); try (by vm_compute).
  - by right; vm_compute.
  - exists f'. split; [exact E|]. etransitivity; [exact C|by vm_compute].
Defined.

Lemma do_update_overruns_witness :
  exists f' : ram 4 4, do_update true (mk_ram (zeros 16)) 5 [1; 2; 3; 4; 5; 6] 2 = Some (f', 0) /\
    ram_content f' = [0; 0; 0; 0; 0; 1; 2; 0; 3; 4; 5; 0; 0; 0; 0; 0].
Proof.
  destruct (@do_update_overruns (ram 4 4) ram_flash small_ram (mk_ram (zeros 16)) 5
    [1; 2; 3; 4; 5; 6] 2) as (f' & E & C); try (by vm_compute).
  exists f'. split; [exact E|]. etransitivity; [exact C|by vm_compute].
Defined.

Definition demo_spi (f : ram 32 4096) : spi_state (ram 32 4096) :=
  mk_spi_state false None 0 0 0 0 {[0 := f]} (fun _ => true) false.
Definition demo_spi_functions (tx : list Z) : fw_functions (option (spi_state (ram 32 4096))) :=
  mk_fw_functions _ (fun _ => pldm_fw_update spi_set_retry (spi_fw_update tx) 0) (fun _ d => (d, 0)) false.

Lemma fw_update_stores_image_witness :
  exists st' s' f' log pad,
    fw_drive demo_platform (demo_spi_functions (zeros SECTOR_SZ_64K)) (image_agent (replicate 100 0xAB)) 105
      (demo_state 100 64) (Some (demo_spi (mk_ram []))) ThCreated [] = Some (st', Some s', log) /\
    flash_devs s' !! 0 = Some f' /\
    ram_content f' = patch (ram_content (@mk_ram 32 4096 [])) 0 (replicate 100 0xAB ++ zeros pad) /\ pad = 0 /\
    current_state st' = STATE_RDY_XFER.
Proof.
  destruct (@fw_update_stores_image (ram 32 4096) ram_flash large_ram (mk_ram []) 0
    (zeros SECTOR_SZ_64K) demo_platform (demo_spi_functions (zeros SECTOR_SZ_64K)) 0 demo_info
    (replicate 100 0xAB) 64 (demo_state 100 64) (demo_spi (mk_ram [])))
    as (st' & s' & f' & log & pad & E & H1 & H2 & _ & H3 & H4 & _); try reflexivity.
  - by split.
  - by split; [|vm_compute].
  - by vm_compute.
  - by exists 16.
  - assert (Hc : forall r, @content _ _ large_ram r = ram_content r) by reflexivity.
    rewrite !Hc in H2. exists st', s', f', log, pad. split; [exact E|]. split; [exact H1|]. split; [exact H2|].
    split; [|exact H4]. apply H3. by vm_compute.
Defined.

Lemma erase_bios_erases_witness :
  exists s' f', cmd_erase_bios 0 true (mk_spi_state false None 0 0 0 0 {[0 := mk_ram (n := 4) (k := 4) [1; 2]]}
      (fun _ => false) false) 7 = Some (s', 100, 0, [1; 0]) /\
    flash_devs s' !! 0 = Some f' /\ ram_content f' = replicate 16 0xFF.
Proof.
  destruct (@erase_bios_erases (ram 4 4) ram_flash small_ram 0
    (mk_spi_state false None 0 0 0 0 {[0 := mk_ram (n := 4) (k := 4) [1; 2]]} (fun _ => false) false) 7
    (mk_ram [1; 2])) as (s' & f' & E & H1 & H2); try reflexivity.
  - by split; vm_compute.
  - exists s', f'. split; [exact E|]. split; [exact H1|exact H2].
Defined.
