(* ===== verification/UtilWorker.v ===== *)
(** Component [common/lib/util_worker.c]: the worker, a queue of the operating system with a count
    of the works in it. Locks, allocations and the result of the queue are arguments. *)

From S2P Require Import Prelude.

(** ** Definitions *)

Definition MAX_WORK_COUNT : Z := 32.

(** [worker_job] without its name; [wj_fn]: a function by its number, [None] for NULL. *)
Record worker_job := mk_job { wj_fn : option Z; wj_ptr_arg : Z; wj_ui32_arg : Z; wj_delay_ms : Z }.

(** [work_count] and the works given to [worker_work_q] that did not run yet. *)
Record worker := mk_worker { work_count : Z; wk_works : list worker_job }.

Definition get_work_count (w : worker) : Z := work_count w.

(** After the check of the count: the result and the worker. [queued]: what the queue returns for
    the work, 1 if it took it. *)
Definition add_checked (malloc_ok lock_ok : bool) (queued : Z) (job : worker_job) (w : worker) : Z * worker :=
  if negb malloc_ok then (-2, w)
  else if negb lock_ok then (-3, w)
  else if negb (queued =? 1) then (queued, w)
  else (queued, mk_worker (u8 (work_count w + 1)) (wk_works w ++ [job])).

Definition add_work (malloc_ok lock_ok : bool) (queued : Z) (job : worker_job) (w : worker) : Z * worker :=
  if MAX_WORK_COUNT <=? work_count w then (-1, w) else add_checked malloc_ok lock_ok queued job w.

(** The work at place [i] of the list runs: its call, if it has a function, and the worker. *)
Definition work_handler (lock_ok : bool) (i : nat) (w : worker) : option (option (Z * Z * Z) * worker) :=
  job ← wk_works w !! i;
  Some ((fun fn => (fn, wj_ptr_arg job, wj_ui32_arg job)) <$> wj_fn job,
        mk_worker (if lock_ok then u8 (work_count w - 1) else work_count w) (delete i (wk_works w))).

Definition init_worker : worker := mk_worker 0 [].

(** ** Threads: the check of the count and the rest of [add_work] are two steps *)

(** The worker, and the works of threads between the two steps. *)
Definition worker_system : Type := worker * list worker_job.

Inductive worker_step : worker_system -> list (Z * Z * Z) -> worker_system -> Prop :=
  | Step_check job w ts : work_count w < MAX_WORK_COUNT -> worker_step (w, ts) [] (w, job :: ts)
  | Step_add i job malloc_ok lock_ok queued w ts : ts !! i = Some job ->
      worker_step (w, ts) [] (snd (add_checked malloc_ok lock_ok queued job w), delete i ts)
  | Step_run i w ts call w' : work_handler true i w = Some (call, w') ->
      worker_step (w, ts) (match call with Some c => [c] | None => [] end) (w', ts).

(** With at most [n] threads at a time in [add_work]. *)
Inductive worker_run (n : Z) : worker_system -> Prop :=
  | Run_init : worker_run n (init_worker, [])
  | Run_step s c s' : worker_run n s -> worker_step s c s' -> zlen (snd s') <= n -> worker_run n s'.

(** ** Lemmas *)

Lemma zlen_delete {A} (l : list A) i x : l !! i = Some x -> zlen (delete i l) = zlen l - 1.
Proof. intros Hi. unfold zlen. rewrite length_delete by (by eexists). apply lookup_lt_Some in Hi. lia. Qed.

(** As long as the lock of the worker is got, the count is the number of works in the queue; it
    passes its maximum by less than the number of threads that add works at the same time. *)
Lemma worker_count_exact n s : 1 <= n <= 200 -> worker_run n s ->
  work_count (fst s) = zlen (wk_works (fst s)) /\ work_count (fst s) + zlen (snd s) <= MAX_WORK_COUNT - 1 + n.
Proof.
  intros Hn Hr. unfold MAX_WORK_COUNT. induction Hr as [|s c s' Hr [IH1 IH2] Hs Hl]; [split; [done|unfold zlen; cbn; lia]|].
  destruct Hs as [job w ts Hc|i job ok lock q w ts Hi|i w ts call w' Hh]; cbn [fst snd] in *.
  - unfold MAX_WORK_COUNT in Hc. split; [done|]. lia.
  - rewrite (zlen_delete _ _ _ Hi) in *. pose proof (lookup_lt_Some _ _ _ Hi). pose proof (zlen_nonneg (wk_works w)).
    assert (1 <= zlen ts) by (unfold zlen; lia).
    unfold add_checked. destruct (negb ok), (negb lock), (negb (q =? 1)); cbn [snd]; try (split; [done|lia]).
    cbn [work_count wk_works]. rewrite u8_id by lia. rewrite zlen_app. change (zlen [job]) with 1. split; lia.
  - unfold work_handler in Hh. destruct (wk_works w !! i) as [job|] eqn:Hi; [|done]. cbn [mbind option_bind] in Hh.
    injection Hh as _ <-. cbn [work_count wk_works]. rewrite (zlen_delete _ _ _ Hi).
    pose proof (lookup_lt_Some _ _ _ Hi). pose proof (zlen_nonneg ts).
    assert (1 <= zlen (wk_works w)) by (unfold zlen; lia). rewrite u8_id by lia. split; lia.
Qed.

(** A work whose lock fails is never counted off: after 32 of them no work is taken. *)
Fixpoint lost_locks (n : nat) (job : worker_job) (w : worker) : option worker :=
  match n with
  | O => Some w
  | S n => '(_, w) ← work_handler false 0 (snd (add_work true true 1 job w)); lost_locks n job w
  end.
Example worker_stuck job : (w ← lost_locks 32 job init_worker; Some (wk_works w, fst (add_work true true 1 job w))) = Some ([], -1).
Proof. reflexivity. Qed.

(** Two threads that both see one free place. *)
Example worker_overfull job : let w := mk_worker 31 (replicate 31 job) in
  work_count (snd (add_checked true true 1 job (snd (add_checked true true 1 job w)))) = 33.
Proof. reflexivity. Qed.
