(* ===== verification/Sensor.v ===== *)
(** Component [common/service/sensor/sensor.c]: the sensors of the board. A thread polls every
    sensor of the monitored tables through its driver and keeps the reading and its status, which
    all the protocols above read. Access checks, hooks and drivers are the platform's. *)

From S2P Require Import Prelude Bytes Sdr.

(** ** Definitions *)

Definition GET_FROM_CACHE : Z := 0x00.
Definition GET_FROM_SENSOR : Z := 0x01.
Definition SENSOR_NULL : Z := 0xFF.
Definition SENSOR_FAIL : Z := 0xFF.
Definition SENSOR_NOT_SUPPORT : Z := 0xFF.
Definition POLL_TIME_DEFAULT : Z := 1.
Definition SENSOR_READ_RETRY_MAX : Z := 3.
Definition SENSOR_READ_SUCCESS : Z := 0.
Definition SENSOR_READ_ACUR_SUCCESS : Z := 1.
Definition SENSOR_NOT_FOUND : Z := 2.
Definition SENSOR_NOT_ACCESSIBLE : Z := 3.
Definition SENSOR_FAIL_TO_ACCESS : Z := 4.
Definition SENSOR_INIT_STATUS : Z := 5.
Definition SENSOR_UNSPECIFIED_ERROR : Z := 6.
Definition SENSOR_POLLING_DISABLE : Z := 7.
Definition SENSOR_PRE_READ_ERROR : Z := 8.
Definition SENSOR_POST_READ_ERROR : Z := 9.
Definition SENSOR_READ_4BYTE_ACUR_SUCCESS : Z := 11.
Definition SENSOR_NOT_PRESENT : Z := 12.
Definition SENSOR_UNAVAILABLE : Z := 15.
Definition SENSOR_INIT_SUCCESS : Z := 0.
Definition SENSOR_POLL_ALL_SENSORS : Z := 0xFF.
Definition SENSOR_POLL_GLOBAL_FLAG : Z := 0xFE.

(** [sensor_cfg]. A function pointer is a number, [None] when it is NULL; [sc_params] stands for
    the fields only drivers and hooks look at. *)
Record sensor_cfg := mk_sensor_cfg {
  sc_num : Z; sc_type : Z; sc_params : Z; sc_access_checker : option Z; sc_poll_time : Z;
  sc_is_enable_polling : bool; sc_cache : Z; sc_cache_status : Z;
  sc_pre_sensor_read_hook : option Z; sc_post_sensor_read_hook : option Z;
  sc_retry : Z; sc_read : option Z; sc_is_initialized : bool; sc_last_is_enable_polling : bool }.

Definition set_sc_cache (v st : Z) (c : sensor_cfg) : sensor_cfg :=
  mk_sensor_cfg (sc_num c) (sc_type c) (sc_params c) (sc_access_checker c) (sc_poll_time c) (sc_is_enable_polling c) v st
    (sc_pre_sensor_read_hook c) (sc_post_sensor_read_hook c) (sc_retry c) (sc_read c) (sc_is_initialized c) (sc_last_is_enable_polling c).
Definition set_sc_status (st : Z) (c : sensor_cfg) : sensor_cfg := set_sc_cache (sc_cache c) st c.
Definition set_sc_retry (n : Z) (c : sensor_cfg) : sensor_cfg :=
  mk_sensor_cfg (sc_num c) (sc_type c) (sc_params c) (sc_access_checker c) (sc_poll_time c) (sc_is_enable_polling c) (sc_cache c) (sc_cache_status c)
    (sc_pre_sensor_read_hook c) (sc_post_sensor_read_hook c) n (sc_read c) (sc_is_initialized c) (sc_last_is_enable_polling c).
Definition set_sc_read (f : option Z) (c : sensor_cfg) : sensor_cfg :=
  mk_sensor_cfg (sc_num c) (sc_type c) (sc_params c) (sc_access_checker c) (sc_poll_time c) (sc_is_enable_polling c) (sc_cache c) (sc_cache_status c)
    (sc_pre_sensor_read_hook c) (sc_post_sensor_read_hook c) (sc_retry c) f (sc_is_initialized c) (sc_last_is_enable_polling c).
Definition set_sc_initialized (b : bool) (c : sensor_cfg) : sensor_cfg :=
  mk_sensor_cfg (sc_num c) (sc_type c) (sc_params c) (sc_access_checker c) (sc_poll_time c) (sc_is_enable_polling c) (sc_cache c) (sc_cache_status c)
    (sc_pre_sensor_read_hook c) (sc_post_sensor_read_hook c) (sc_retry c) (sc_read c) b (sc_last_is_enable_polling c).
Definition set_sc_polling (b : bool) (c : sensor_cfg) : sensor_cfg :=
  mk_sensor_cfg (sc_num c) (sc_type c) (sc_params c) (sc_access_checker c) (sc_poll_time c) b (sc_cache c) (sc_cache_status c)
    (sc_pre_sensor_read_hook c) (sc_post_sensor_read_hook c) (sc_retry c) (sc_read c) (sc_is_initialized c) (sc_last_is_enable_polling c).
Definition set_sc_last_polling (b : bool) (c : sensor_cfg) : sensor_cfg :=
  mk_sensor_cfg (sc_num c) (sc_type c) (sc_params c) (sc_access_checker c) (sc_poll_time c) (sc_is_enable_polling c) (sc_cache c) (sc_cache_status c)
    (sc_pre_sensor_read_hook c) (sc_post_sensor_read_hook c) (sc_retry c) (sc_read c) (sc_is_initialized c) b.

(** What the functions of the platform and the drivers do in a world [W]: each is run by its
    number, and those given the configuration may change it. A read gives a status and what it
    left in [reading], which was 0; a hook after a read is given the reading, or NULL, and may
    change it; a table has its own checks. *)
Class sensor_hw (W : Type) := {
  hw_access : Z -> Z -> W -> bool;
  hw_pre : Z -> sensor_cfg -> W -> W * sensor_cfg * bool;
  hw_read : Z -> sensor_cfg -> W -> W * sensor_cfg * Z * Z;
  hw_post : Z -> sensor_cfg -> option Z -> W -> W * sensor_cfg * option Z * bool;
  hw_init : Z -> sensor_cfg -> W -> W * sensor_cfg * Z;
  hw_table_access : Z -> W -> bool;
  hw_monitor : Z -> Z -> W -> W * bool;
  hw_time_to_poll : Z -> Z -> W -> bool }.

(** The place of the first sensor of that number. *)
Fixpoint find_sensor_cfg_via_sensor_num (l : list sensor_cfg) (sensor_num : Z) : option nat :=
  match l with
  | [] => None
  | c :: l => if sc_num c =? sensor_num then Some O else S <$> find_sensor_cfg_via_sensor_num l sensor_num
  end.

Definition clear_unaccessible_sensor_cache (c : sensor_cfg) : sensor_cfg :=
  if negb (sc_cache_status c =? SENSOR_INIT_STATUS) then set_sc_cache SENSOR_FAIL SENSOR_INIT_STATUS c else c.

Definition not_accessible (c : sensor_cfg) : sensor_cfg :=
  set_sc_status SENSOR_NOT_ACCESSIBLE (clear_unaccessible_sensor_cache c).

Section hw.
Context {W : Type} `{sensor_hw W}.

(** A call of the access checker; [None]: it is NULL. *)
Definition access (c : sensor_cfg) (w : W) : option bool :=
  f ← sc_access_checker c; Some (hw_access f (sc_num c) w).

(** *** Reading a sensor

    Every case returns [cfg->cache_status], so that the results here are the configuration, the
    world and the reading. *)

(** The hook before the read, and whether the read follows. *)
Definition pre_read (c : sensor_cfg) (w : W) : sensor_cfg * W * bool :=
  match sc_pre_sensor_read_hook c with
  | None => (c, w, true)
  | Some f =>
      let '(w, c, ok) := hw_pre f c w in
      if negb ok then (set_sc_status SENSOR_PRE_READ_ERROR c, w, false)
      else (c, w, negb ((sc_cache_status c =? SENSOR_NOT_PRESENT) || (sc_cache_status c =? SENSOR_POLLING_DISABLE)))
  end.

Definition read_success (c : sensor_cfg) (w : W) (reading : Z) : option (sensor_cfg * W * Z) :=
  let c := set_sc_retry 0 c in
  let '(w, c, reading, post_ret) :=
    match sc_post_sensor_read_hook c with
    | Some f => let '(w, c, r, ok) := hw_post f c (Some reading) w in (w, c, match r with Some r => r | None => reading end, ok)
    | None => (w, c, reading, false)
    end in
  acc ← access c w;
  Some (if negb acc then not_accessible c
        else if bool_decide (sc_post_sensor_read_hook c <> None) && negb post_ret
        then set_sc_status SENSOR_POST_READ_ERROR c
        else set_sc_cache reading SENSOR_READ_4BYTE_ACUR_SUCCESS c, w, reading).

Definition read_failure (c : sensor_cfg) (w : W) (status reading : Z) : sensor_cfg * W * Z :=
  let c := if SENSOR_READ_RETRY_MAX <=? sc_retry c then set_sc_status status c
           else set_sc_retry (u8 (sc_retry c + 1)) c in
  match sc_post_sensor_read_hook c with
  | Some f => let '(w, c, _, _) := hw_post f c None w in (c, w, reading)
  | None => (c, w, reading)
  end.

Definition read_from_sensor (c : sensor_cfg) (w : W) : option (sensor_cfg * W * Z) :=
  let '(c, w, go) := pre_read c w in
  if negb go then Some (c, w, 0)
  else
    let '(w, c, status, reading) :=
      match sc_read c with Some f => hw_read f c w | None => (w, c, SENSOR_UNSPECIFIED_ERROR, 0) end in
    if (status =? SENSOR_READ_SUCCESS) || (status =? SENSOR_READ_ACUR_SUCCESS)
    then read_success c w reading
    else Some (read_failure c w status reading).

Definition read_from_cache (c : sensor_cfg) (w : W) : option (sensor_cfg * W * Z) :=
  let st := sc_cache_status c in
  if (st =? SENSOR_READ_SUCCESS) || (st =? SENSOR_READ_ACUR_SUCCESS) || (st =? SENSOR_READ_4BYTE_ACUR_SUCCESS) then
    acc ← access c w;
    Some (if negb acc then set_sc_status SENSOR_NOT_ACCESSIBLE c else c, w, sc_cache c)
  else if st =? SENSOR_UNAVAILABLE then Some (c, w, 0)
  else Some (set_sc_cache SENSOR_FAIL st c, w, 0).

Definition read_cfg (mode : Z) (c : sensor_cfg) (w : W) : option (sensor_cfg * W * Z) :=
  if sc_cache_status c =? SENSOR_NOT_PRESENT then Some (c, w, 0)
  else
    acc ← access c w;
    if negb acc then Some (not_accessible c, w, 0)
    else if mode =? GET_FROM_SENSOR then read_from_sensor c w
    else if mode =? GET_FROM_CACHE then read_from_cache c w
    else Some (set_sc_status SENSOR_UNSPECIFIED_ERROR c, w, 0).

(** The table after it, the world, the status returned and the reading, which is left alone when
    the sensor is not found; [None] as the table: it is NULL. *)
Definition get_sensor_reading (cfg_table : option (list sensor_cfg)) (sensor_num reading mode : Z) (w : W)
    : option (list sensor_cfg * W * Z * Z) :=
  match cfg_table with
  | None => Some ([], w, SENSOR_UNSPECIFIED_ERROR, reading)
  | Some l =>
  match find_sensor_cfg_via_sensor_num l sensor_num with
  | None => Some (l, w, SENSOR_NOT_FOUND, reading)
  | Some i =>
      c ← l !! i;
      '(c, w, reading) ← read_cfg mode c w;
      Some (<[i := c]> l, w, sc_cache_status c, reading)
  end
  end.

(** *** Drivers *)

(** [sensor_drive_tbl]: the type of each driver and, when it is compiled in, its [init]. *)
Definition sensor_drive_api : Type := Z * option Z.

(** The configuration, the world and the result; [None]: a driver that is not compiled in is
    called through a null pointer. *)
Definition init_drive_type (drive : sensor_drive_api) (c : sensor_cfg) (w : W) : option (sensor_cfg * W * bool) :=
  if negb (sc_type c =? fst drive) then Some (c, w, false)
  else
    let c := set_sc_initialized false c in
    if match sc_access_checker c with Some f => negb (hw_access f (sc_num c) w) | None => false end
    then Some (c, w, false)
    else
      let '(w, c, ok) := match sc_pre_sensor_read_hook c with Some f => hw_pre f c w | None => (w, c, true) end in
      if negb ok then Some (c, w, false)
      else
        init ← snd drive;
        let '(w, c, ret) := hw_init init c w in
        let '(w, c) := match sc_post_sensor_read_hook c with
                       | Some f => let '(w, c, _, _) := hw_post f c None w in (w, c)
                       | None => (w, c)
                       end in
        Some (if ret =? SENSOR_INIT_SUCCESS then set_sc_initialized true c else c, w, true).

(** The first driver of the sensor's type. *)
Fixpoint find_drive (tbl : list sensor_drive_api) (type : Z) : option sensor_drive_api :=
  match tbl with
  | [] => None
  | d :: tbl => if type =? fst d then Some d else find_drive tbl type
  end.

Definition init_drive_type_delayed (tbl : list sensor_drive_api) (c : sensor_cfg) (w : W)
    : option (sensor_cfg * W * bool) :=
  let c := set_sc_initialized false c in
  match find_drive tbl (sc_type c) with
  | None => Some (c, w, false)
  | Some d =>
      init ← snd d;
      let '(w, c, ret) := hw_init init c w in
      Some (if ret =? SENSOR_INIT_SUCCESS then (set_sc_initialized true c, w, true) else (c, w, false))
  end.
End hw.

(** ** The state of the service *)

(** Where the sensors of a table are: in [sensor_config], in a table of their own, or nowhere. *)
Inductive cfg_ref := CfgCommon | CfgOwn (l : list sensor_cfg) | CfgNull.

(** [sensor_monitor_table_info]. *)
Record monitor_table := mk_monitor_table {
  mt_cfg : cfg_ref; mt_cfg_count : Z; mt_access_checker : option Z; mt_pre_monitor : option Z; mt_post_monitor : option Z }.

(** The variables of the file. [ss_config] is [sensor_config], which has room for [sdr_count]
    entries, up to [sensor_config_count], when [ss_alloc] tells that it is not NULL; [ss_tables] is [None] without memory. *)
Record sensor_state := mk_sensor_state {
  ss_config : list sensor_cfg; ss_tables : option (list monitor_table);
  ss_index_map : list Z; ss_sdr_index_map : list Z;
  ss_poll_thread : bool; ss_poll_flag : bool; ss_init_done : bool; ss_ready : bool; ss_config_size : Z; ss_alloc : bool }.

Definition set_ss_config (l : list sensor_cfg) (s : sensor_state) : sensor_state :=
  mk_sensor_state l (ss_tables s) (ss_index_map s) (ss_sdr_index_map s) (ss_poll_thread s) (ss_poll_flag s) (ss_init_done s) (ss_ready s) (ss_config_size s) (ss_alloc s).
Definition set_ss_tables (l : option (list monitor_table)) (s : sensor_state) : sensor_state :=
  mk_sensor_state (ss_config s) l (ss_index_map s) (ss_sdr_index_map s) (ss_poll_thread s) (ss_poll_flag s) (ss_init_done s) (ss_ready s) (ss_config_size s) (ss_alloc s).
Definition set_ss_maps (sdr cfg : list Z) (s : sensor_state) : sensor_state :=
  mk_sensor_state (ss_config s) (ss_tables s) cfg sdr (ss_poll_thread s) (ss_poll_flag s) (ss_init_done s) (ss_ready s) (ss_config_size s) (ss_alloc s).
Definition set_ss_poll_thread (b : bool) (s : sensor_state) : sensor_state :=
  mk_sensor_state (ss_config s) (ss_tables s) (ss_index_map s) (ss_sdr_index_map s) b (ss_poll_flag s) (ss_init_done s) (ss_ready s) (ss_config_size s) (ss_alloc s).
Definition set_ss_poll_flag (b : bool) (s : sensor_state) : sensor_state :=
  mk_sensor_state (ss_config s) (ss_tables s) (ss_index_map s) (ss_sdr_index_map s) (ss_poll_thread s) b (ss_init_done s) (ss_ready s) (ss_config_size s) (ss_alloc s).
Definition set_ss_init_done (b : bool) (s : sensor_state) : sensor_state :=
  mk_sensor_state (ss_config s) (ss_tables s) (ss_index_map s) (ss_sdr_index_map s) (ss_poll_thread s) (ss_poll_flag s) b (ss_ready s) (ss_config_size s) (ss_alloc s).
Definition set_ss_ready (b : bool) (s : sensor_state) : sensor_state :=
  mk_sensor_state (ss_config s) (ss_tables s) (ss_index_map s) (ss_sdr_index_map s) (ss_poll_thread s) (ss_poll_flag s) (ss_init_done s) b (ss_config_size s) (ss_alloc s).
Definition set_ss_config_size (n : Z) (s : sensor_state) : sensor_state :=
  mk_sensor_state (ss_config s) (ss_tables s) (ss_index_map s) (ss_sdr_index_map s) (ss_poll_thread s) (ss_poll_flag s) (ss_init_done s) (ss_ready s) n (ss_alloc s).

Definition set_ss_alloc (b : bool) (s : sensor_state) : sensor_state :=
  mk_sensor_state (ss_config s) (ss_tables s) (ss_index_map s) (ss_sdr_index_map s) (ss_poll_thread s) (ss_poll_flag s) (ss_init_done s) (ss_ready s) (ss_config_size s) b.

Definition sensor_static : sensor_state := mk_sensor_state [] None (zeros 255) (zeros 255) true true false false 0 false.

Definition disable_sensor_poll : sensor_state -> sensor_state := set_ss_poll_flag false.
Definition enable_sensor_poll : sensor_state -> sensor_state := set_ss_poll_flag true.
Definition get_sensor_poll_enable_flag (s : sensor_state) : bool := ss_poll_flag s.
Definition check_is_sensor_ready (s : sensor_state) : bool := ss_ready s.
Definition get_sensor_init_done_flag (s : sensor_state) : bool := ss_init_done s.
Definition check_reading_pointer_null_is_allowed (c : sensor_cfg) (s : sensor_state) : bool :=
  negb (ss_init_done s && sc_is_initialized c && (sc_retry c =? 0)).

(** The sensors of a table as a thread sees them, and writing one back. *)
Definition table_cfgs (s : sensor_state) (t : monitor_table) : option (list sensor_cfg) :=
  match mt_cfg t with CfgCommon => Some (ss_config s) | CfgOwn l => Some l | CfgNull => None end.
Definition table_at (s : sensor_state) (k : nat) : option monitor_table := ts ← ss_tables s; ts !! k.
Definition set_table_cfgs (k : nat) (l : list sensor_cfg) (s : sensor_state) : sensor_state :=
  match table_at s k with
  | Some (mk_monitor_table CfgCommon n a p q) => set_ss_config l s
  | Some (mk_monitor_table (CfgOwn _) n a p q) =>
      set_ss_tables ((fun ts => <[k := mk_monitor_table (CfgOwn l) n a p q]> ts) <$> ss_tables s) s
  | _ => s
  end.

(** ** Configuration *)

Definition get_sensor_config_index (sensor_num : Z) (s : sensor_state) : Z :=
  match find_sensor_cfg_via_sensor_num (ss_config s) sensor_num with Some i => Z.of_nat i | None => SENSOR_NUM_MAX end.

(** The count has 8 bits; the array has room for [sdr_count] sensors. *)
Definition add_sensor_config (sdr_count : Z) (c : sensor_cfg) (s : sensor_state) : sensor_state :=
  let index := get_sensor_config_index (sc_num c) s in
  if negb (index =? SENSOR_NUM_MAX) then set_ss_config (<[Z.to_nat index := c]> (ss_config s)) s
  else if zlen (ss_config s) + 1 <=? sdr_count then set_ss_config (ss_config s ++ [c]) s
  else s.

Definition init_sensor_num (s : sensor_state) : sensor_state := set_ss_maps (replicate 255 0xFF) (replicate 255 0xFF) s.

(** One of the two inner loops of [map_sensor_num_to_sdr_cfg]: the entry for number [i], from what
    it was; [nums]: the sensor numbers of the table, [None] where it was not written. *)
Fixpoint map_entry (i sdr_count j : Z) (nums : list (option Z)) (old : Z) : option Z :=
  match nums with
  | [] => Some old
  | num :: nums =>
      num ← num;
      if i =? num then Some j
      else map_entry i sdr_count (j + 1) nums (if i =? sdr_count then SENSOR_NULL else old)
  end.

Definition map_sensor_num_to_sdr_cfg (sdr_nums : list Z) (s : sensor_state) : option sensor_state :=
  let n := zlen sdr_nums in
  let cfg_nums := take (length sdr_nums) ((fun c => Some (sc_num c)) <$> ss_config s)
                  ++ replicate (length sdr_nums - length (ss_config s)) None in
  sdr ← mapM (fun '(i, old) => map_entry i n 0 (Some <$> sdr_nums) old) (zip (seqZ 0 255) (ss_sdr_index_map s));
  cfg ← mapM (fun '(i, old) => map_entry i n 0 cfg_nums old) (zip (seqZ 0 255) (ss_index_map s));
  Some (set_ss_maps sdr cfg s).

(** The four sizes of the platform are added in 8 bits. *)
Definition check_init_sensor_size (sdr cfg ext_sdr ext_cfg : Z) (s : sensor_state) : sensor_state :=
  if negb (u8 (sdr + ext_sdr) =? u8 (cfg + ext_cfg)) then set_ss_poll_thread false s
  else set_ss_config_size (u8 (sdr + ext_sdr)) s.

(** The index map has 255 entries. *)
Definition access_check {W} `{sensor_hw W} (sensor_num : Z) (s : sensor_state) (w : W) : option bool :=
  i ← ss_index_map s !! Z.to_nat sensor_num;
  c ← ss_config s !! Z.to_nat i;
  access c w.

Definition control_sensor_polling (sensor_num : Z) (optional cache_status : Z) (s : sensor_state) : option sensor_state :=
  if sensor_num =? SENSOR_NOT_SUPPORT then Some s
  else
    i ← ss_index_map s !! Z.to_nat sensor_num;
    if i =? SENSOR_FAIL then Some s
    else if negb ((optional =? 0) || (optional =? 1)) then Some s
    else
      c ← ss_config s !! Z.to_nat i;
      Some (set_ss_config (<[Z.to_nat i := set_sc_status cache_status (set_sc_polling (optional =? 1) c)]> (ss_config s)) s).

(** The common table is the first; the platform fills the [extra] ones behind it. *)
Definition init_sensor_monitor_table (malloc_ok : bool) (extra : list monitor_table) (s : sensor_state) : sensor_state :=
  if negb malloc_ok then set_ss_tables None s
  else set_ss_tables (Some (mk_monitor_table CfgCommon (zlen (ss_config s)) None None None :: extra)) s.

Definition get_common_sensor_cfg_info (sensor_num : Z) (s : sensor_state) : option nat :=
  t ← table_at s 0;
  l ← table_cfgs s t;
  find_sensor_cfg_via_sensor_num (take (Z.to_nat (mt_cfg_count t)) l) sensor_num.

(** ** Polling *)

Section poll.
Context {W : Type} `{sensor_hw W} (tbl : list sensor_drive_api).

(** The sensor of that number in the first table. *)
Definition common_tbl_sen_reinit (sen_num : Z) (s : sensor_state) (w : W) : option (sensor_state * W * Z) :=
  match get_common_sensor_cfg_info sen_num s with
  | None => Some (s, w, SENSOR_NOT_FOUND)
  | Some i =>
      t ← table_at s 0;
      l ← table_cfgs s t;
      c ← l !! i;
      match find_drive tbl (sc_type c) with
      | None => Some (s, w, 0)
      | Some d =>
          '(c, w, ok) ← init_drive_type d c w;
          Some (set_table_cfgs 0 (<[i := c]> l) s, w, if (ok : bool) then 0 else SENSOR_NOT_FOUND)
      end
  end.

(** A sensor whose turn it is, in the table [k] at [i]: the state and the world. *)
Definition poll_sensor (k i : nat) (s : sensor_state) (w : W) : option (sensor_state * W) :=
  t ← table_at s k;
  l ← table_cfgs s t;
  c ← l !! i;
  if sc_cache_status c =? SENSOR_NOT_PRESENT then Some (s, w)
  else if negb (sc_is_enable_polling c)
  then Some (set_table_cfgs k (<[i := set_sc_cache SENSOR_FAIL SENSOR_POLLING_DISABLE c]> l) s, w)
  else if negb (sc_poll_time c =? POLL_TIME_DEFAULT) && negb (hw_time_to_poll (sc_num c) (sc_poll_time c) w)
  then Some (s, w)
  else
    let '(w, ok) := match mt_pre_monitor t with Some f => hw_monitor f (sc_num c) w | None => (w, true) end in
    if negb ok then Some (s, w)
    else
      '(s, w) ← (if sc_is_initialized c then Some (s, w)
                 else
                   acc ← access c w;
                   if (acc : bool) then '(s, w, _) ← common_tbl_sen_reinit (sc_num c) s w; Some (s, w)
                   else Some (s, w));
      t ← table_at s k;
      l ← table_cfgs s t;
      let n := Z.to_nat (mt_cfg_count t) in
      '(l', w, _, _) ← get_sensor_reading (Some (take n l)) (sc_num c) 0 GET_FROM_SENSOR w;
      let s := set_table_cfgs k (l' ++ drop n l) s in
      let '(w, _) := match mt_post_monitor t with Some f => hw_monitor f (sc_num c) w | None => (w, true) end in
      Some (s, w).

(** The sensors of a table from [i] on, as long as polling is enabled. *)
Fixpoint poll_sensors (n k i : nat) (s : sensor_state) (w : W) : option (sensor_state * W) :=
  match n with
  | O => Some (s, w)
  | S n => if negb (ss_poll_flag s) then Some (s, w)
           else '(s, w) ← poll_sensor k i s w; poll_sensors n k (S i) s w
  end.

Definition poll_table (k : nat) (s : sensor_state) (w : W) : option (sensor_state * W) :=
  t ← table_at s k;
  if match mt_access_checker t with Some f => negb (hw_table_access f w) | None => false end then Some (s, w)
  else
    match table_cfgs s t with
    | None => Some (s, w)
    | Some _ => poll_sensors (Z.to_nat (mt_cfg_count t)) k 0 s w
    end.

Fixpoint poll_tables (n k : nat) (s : sensor_state) (w : W) : option (sensor_state * W) :=
  match n with
  | O => Some (s, w)
  | S n => '(s, w) ← poll_table k s w; poll_tables n (S k) s w
  end.

(** A round of [sensor_poll_handler] over the [sensor_monitor_count] tables. *)
Definition sensor_poll_round (sensor_monitor_count : Z) (s : sensor_state) (w : W) : option (sensor_state * W) :=
  '(s, w) ← poll_tables (Z.to_nat sensor_monitor_count) 0 s w;
  Some (set_ss_ready true s, w).

(** ** Start-up of the drivers *)

(** [drive_init] for one sensor: the configuration and the world. A sensor no driver knows loses
    its [read]. *)
Definition drive_init_sensor (t : monitor_table) (c : sensor_cfg) (w : W) : option (sensor_cfg * W) :=
  match find_drive tbl (sc_type c) with
  | None => Some (set_sc_read None c, w)
  | Some d =>
      let '(w, ok) := match mt_pre_monitor t with Some f => hw_monitor f (sc_num c) w | None => (w, true) end in
      if negb ok then Some (c, w)
      else
        acc ← access c w;
        '(c, w) ← (if (acc : bool) then '(c, w, _) ← init_drive_type d c w; Some (c, w) else Some (c, w));
        let '(w, _) := match mt_post_monitor t with Some f => hw_monitor f (sc_num c) w | None => (w, true) end in
        Some (c, w)
  end.

Fixpoint drive_init_sensors (n k i : nat) (t : monitor_table) (s : sensor_state) (w : W) : option (sensor_state * W) :=
  match n with
  | O => Some (s, w)
  | S n =>
      t' ← table_at s k;
      l ← table_cfgs s t';
      c ← l !! i;
      '(c, w) ← drive_init_sensor t c w;
      drive_init_sensors n k (S i) t (set_table_cfgs k (<[i := c]> l) s) w
  end.

Fixpoint drive_init_tables (n k : nat) (s : sensor_state) (w : W) : option (sensor_state * W) :=
  match n with
  | O => Some (s, w)
  | S n =>
      t ← table_at s k;
      '(s, w) ← (if match mt_access_checker t with Some f => negb (hw_table_access f w) | None => false end then Some (s, w)
                 else match table_cfgs s t with
                      | None => Some (s, w)
                      | Some _ => drive_init_sensors (Z.to_nat (mt_cfg_count t)) k 0 t s w
                      end);
      drive_init_tables n (S k) s w
  end.

Definition drive_init (sensor_monitor_count : Z) (s : sensor_state) (w : W) : option (sensor_state * W) :=
  drive_init_tables (Z.to_nat sensor_monitor_count) 0 s w.

(** [sensor_init] with the four sizes of the platform, the numbers of its sensor data records as
    [sdr_init] leaves them, its sensors, and its further tables; whether the allocations succeed.
    [plat]: [plat_sensor_config], copied whole into an array for [sdr_count] sensors. *)
Definition sensor_init (sizes : Z * Z * Z * Z) (sdr_ok cfg_ok tables_ok : bool) (sdr_nums : list Z)
    (plat ext : list sensor_cfg) (extra : list monitor_table) (s : sensor_state) (w : W) : option (sensor_state * W * bool) :=
  let '(a, b, c, d) := sizes in
  let s := check_init_sensor_size a b c d (init_sensor_num s) in
  if ss_config_size s =? 0 then Some (s, w, false)
  else if negb sdr_ok then Some (s, w, false)
  else if zlen sdr_nums =? 0 then Some (s, w, false)
  else if negb cfg_ok then Some (s, w, false)
  else if zlen sdr_nums <? zlen plat then None
  else
    let s := fold_left (fun s c => add_sensor_config (zlen sdr_nums) c s) ext (set_ss_alloc true (set_ss_config plat s)) in
    s ← map_sensor_num_to_sdr_cfg sdr_nums s;
    let s := init_sensor_monitor_table tables_ok extra s in
    '(s, w) ← drive_init (1 + zlen extra) s w;
    Some (set_ss_init_done true s, w, true).
End poll.

(** ** Changes of the polling state *)

(** [check_sensor_poll_state_change]: [last] is the flag recorded, [None] before the first call;
    the calls of [plat_sensor_poll_state_changed] are listed. *)
Definition check_sensor_poll_state_change (last : option bool) (s : sensor_state)
    : option bool * sensor_state * list (Z * bool) :=
  match ss_config s with
  | [] => (last, s, [])
  | l =>
      let recorded := set_ss_config ((fun c => set_sc_last_polling (sc_is_enable_polling c) c) <$> l) s in
      match last with
      | None => (Some (ss_poll_flag s), recorded, [])
      | Some b =>
          let global := if eqb (ss_poll_flag s) b then [] else [(SENSOR_POLL_GLOBAL_FLAG, ss_poll_flag s)] in
          let changed := (fun c => (sc_num c, sc_is_enable_polling c)) <$>
                           filter (fun c => sc_is_enable_polling c <> sc_last_is_enable_polling c) l in
          let enabled := filter (fun p => snd p = true) changed in
          let all := (zlen changed =? zlen l) && ((zlen enabled =? 0) || (zlen enabled =? zlen l)) in
          (Some (ss_poll_flag s), recorded,
           global ++ if all then [(SENSOR_POLL_ALL_SENSORS, zlen enabled =? zlen l)] else changed)
      end
  end.

(** ** Lemmas: sensors that are only read *)

(** Drivers whose read changes nothing: it takes a sample, a status with a value. *)
Class sensor_samples (W : Type) `{sensor_hw W} := {
  sample : Z -> Z -> W -> Z * Z;
  hw_read_sample : forall f c w,
    hw_read f c w = (w, c, fst (sample f (sc_params c) w), snd (sample f (sc_params c) w)) }.

Definition sample_ok (st : Z) : bool := (st =? SENSOR_READ_SUCCESS) || (st =? SENSOR_READ_ACUR_SUCCESS).

(** A sensor without hooks, whose driver is initialised, polled in every round. *)
Record plain_sensor (c : sensor_cfg) (a f : Z) : Prop := {
  pl_access : sc_access_checker c = Some a;
  pl_read : sc_read c = Some f;
  pl_pre : sc_pre_sensor_read_hook c = None;
  pl_post : sc_post_sensor_read_hook c = None;
  pl_polled : sc_is_enable_polling c = true;
  pl_time : sc_poll_time c = POLL_TIME_DEFAULT;
  pl_init : sc_is_initialized c = true }.

Definition plain (c : sensor_cfg) : Prop := exists a f, plain_sensor c a f.

Section samples.
Context {W : Type} `{HS : sensor_samples W} (tbl : list sensor_drive_api).

Definition accessible (c : sensor_cfg) (w : W) : bool := default false (access c w).
Definition sample_of (c : sensor_cfg) (w : W) : Z * Z :=
  match sc_read c with Some f => sample f (sc_params c) w | None => (SENSOR_UNSPECIFIED_ERROR, 0) end.

(** What a round makes of a plain sensor. *)
Definition polled (w : W) (c : sensor_cfg) : sensor_cfg :=
  if sc_cache_status c =? SENSOR_NOT_PRESENT then c
  else if negb (accessible c w) then not_accessible c
  else
    let '(st, v) := sample_of c w in
    if sample_ok st then set_sc_cache v SENSOR_READ_4BYTE_ACUR_SUCCESS (set_sc_retry 0 c)
    else if SENSOR_READ_RETRY_MAX <=? sc_retry c then set_sc_status st c else set_sc_retry (u8 (sc_retry c + 1)) c.

Lemma not_accessible_fields c : sc_num (not_accessible c) = sc_num c /\
  sc_params (not_accessible c) = sc_params c /\ (forall a f, plain_sensor c a f -> plain_sensor (not_accessible c) a f).
Proof using.
  unfold not_accessible, clear_unaccessible_sensor_cache. destruct (negb _); (split; [done|split; [done|]]);
    intros a f [? ? ? ? ? ? ?]; by constructor.
Qed.

Lemma polled_fields w c : sc_num (polled w c) = sc_num c /\ sc_params (polled w c) = sc_params c /\
  (forall a f, plain_sensor c a f -> plain_sensor (polled w c) a f).
Proof using.
  unfold polled. destruct (_ =? SENSOR_NOT_PRESENT); [done|].
  destruct (negb _); [apply not_accessible_fields|]. destruct (sample_of c w) as [st v].
  destruct (sample_ok st); [|destruct (_ <=? _)]; (split; [done|split; [done|]]); intros a f [? ? ? ? ? ? ?]; by constructor.
Qed.

Lemma plain_access c a f w : plain_sensor c a f -> access c w = Some (hw_access a (sc_num c) w) /\ accessible c w = hw_access a (sc_num c) w.
Proof using. intros Hp. unfold accessible, access. by rewrite (pl_access _ _ _ Hp). Qed.

Lemma read_cfg_polled c w : plain c -> exists v, read_cfg GET_FROM_SENSOR c w = Some (polled w c, w, v).
Proof using HS.
  intros (a & f & Hp). destruct (plain_access c a f w Hp) as [E1 E2]. unfold read_cfg, polled. rewrite E1, E2.
  destruct (_ =? SENSOR_NOT_PRESENT); [by eexists|]. cbn [mbind option_bind].
  destruct (hw_access a (sc_num c) w) eqn:Ea; cbn [negb]; [|by eexists].
  change (GET_FROM_SENSOR =? GET_FROM_SENSOR) with true. cbv iota.
  unfold read_from_sensor, pre_read, sample_of. rewrite (pl_pre _ _ _ Hp). cbn [negb]. rewrite (pl_read _ _ _ Hp), hw_read_sample.
  destruct (sample f (sc_params c) w) as [st v]. cbn [fst snd]. unfold sample_ok.
  destruct (_ || _).
  - unfold read_success. cbn [sc_post_sensor_read_hook set_sc_retry]. rewrite (pl_post _ _ _ Hp).
    change (access (set_sc_retry 0 c) w) with (access c w). rewrite E1. cbn [mbind option_bind negb].
    rewrite bool_decide_eq_false_2; [by eexists|]. cbn [sc_post_sensor_read_hook set_sc_retry]. by rewrite (pl_post _ _ _ Hp); intros [].
  - unfold read_failure. destruct (_ <=? _); cbn [sc_post_sensor_read_hook set_sc_status set_sc_cache set_sc_retry];
      rewrite (pl_post _ _ _ Hp); by eexists.
Qed.

Lemma find_by_num l i c : NoDup (sc_num <$> l) -> l !! i = Some c -> find_sensor_cfg_via_sensor_num l (sc_num c) = Some i.
Proof using.
  revert i. induction l as [|x l IH]; intros [|i] Hn Hi; try done; cbn [find_sensor_cfg_via_sensor_num].
  - injection Hi as ->. by rewrite Z.eqb_refl.
  - rewrite fmap_cons in Hn. apply NoDup_cons in Hn as [Hx Hn]. cbn in Hi.
    destruct (Z.eqb_spec (sc_num x) (sc_num c)) as [E|E].
    + exfalso. apply Hx. rewrite E. apply list_elem_of_fmap. exists c. split; [done|]. by apply list_elem_of_lookup_2 with i.
    + by rewrite (IH i).
Qed.

(** A state whose first table is the common one, without checks of its own. *)
Record common_state (s : sensor_state) (extra : list monitor_table) : Prop := {
  cs_tables : ss_tables s = Some (mk_monitor_table CfgCommon (zlen (ss_config s)) None None None :: extra);
  cs_nums : NoDup (sc_num <$> ss_config s);
  cs_plain : Forall plain (ss_config s);
  cs_flag : ss_poll_flag s = true }.

Lemma common_table s extra : common_state s extra ->
  table_at s 0 = Some (mk_monitor_table CfgCommon (zlen (ss_config s)) None None None) /\
  table_cfgs s (mk_monitor_table CfgCommon (zlen (ss_config s)) None None None) = Some (ss_config s) /\
  forall l, set_table_cfgs 0 l s = set_ss_config l s.
Proof using.
  intros Hc. unfold set_table_cfgs, table_at. rewrite (cs_tables _ _ Hc). split; [done|]. split; [done|]. done.
Qed.

Lemma common_same s extra l : common_state s extra -> sc_num <$> l = sc_num <$> ss_config s -> Forall plain l ->
  common_state (set_ss_config l s) extra.
Proof using.
  intros Hc Hn Hp. assert (Hl : length l = length (ss_config s)) by (by rewrite <- (length_fmap sc_num l), Hn, length_fmap).
  constructor; cbn [ss_tables ss_config set_ss_config ss_poll_flag]; [|by rewrite Hn; apply Hc|done|apply Hc].
  rewrite (cs_tables _ _ Hc). unfold zlen. by rewrite Hl.
Qed.

Lemma poll_sensor_polled s extra i c w : common_state s extra -> ss_config s !! i = Some c ->
  poll_sensor tbl 0 i s w = Some (set_ss_config (<[i := polled w c]> (ss_config s)) s, w).
Proof using HS.
  intros Hc Hi. destruct (common_table _ _ Hc) as (T1 & T2 & T3). unfold poll_sensor. rewrite T1. cbn [mbind option_bind].
  rewrite T2. cbn [mbind option_bind]. rewrite Hi. cbn [mbind option_bind].
  assert (Hp : plain c) by (by eapply Forall_lookup_1; [apply Hc|]). pose proof Hp as (a & f & Hpl).
  destruct (Z.eqb_spec (sc_cache_status c) SENSOR_NOT_PRESENT) as [En|En].
  { unfold polled. rewrite En, Z.eqb_refl. rewrite list_insert_id by done. by destruct s. }
  rewrite (pl_polled _ _ _ Hpl), (pl_time _ _ _ Hpl), (pl_init _ _ _ Hpl). cbn [negb andb Z.eqb mt_pre_monitor mbind option_bind mt_cfg_count].
  change (POLL_TIME_DEFAULT =? POLL_TIME_DEFAULT) with true. cbn [negb andb]. rewrite T1. cbn [mbind option_bind]. rewrite T2. cbn [mbind option_bind mt_cfg_count].
  unfold zlen. rewrite Nat2Z.id, take_ge, drop_ge by lia. unfold get_sensor_reading.
  rewrite (find_by_num _ _ _ (cs_nums _ _ Hc) Hi), Hi. cbn [mbind option_bind].
  destruct (read_cfg_polled c w Hp) as (v & Ev). rewrite Ev. cbn [mbind option_bind mt_post_monitor]. rewrite app_nil_r. by rewrite T3.
Qed.

Lemma poll_sensors_polled n : forall i s extra w, common_state s extra -> (i + n = length (ss_config s))%nat ->
  poll_sensors tbl n 0 i s w = Some (set_ss_config (take i (ss_config s) ++ (polled w <$> drop i (ss_config s))) s, w).
Proof using HS.
  induction n as [|n IH]; intros i s extra w Hc Hn; cbn [poll_sensors].
  - rewrite drop_ge, take_ge by lia. rewrite app_nil_r. by destruct s.
  - rewrite (cs_flag _ _ Hc). cbn [negb]. destruct (lookup_lt_is_Some_2 (ss_config s) i) as [c Hi]; [lia|].
    rewrite (poll_sensor_polled _ _ _ _ _ Hc Hi). cbn [mbind option_bind].
    assert (Hc' : common_state (set_ss_config (<[i:=polled w c]> (ss_config s)) s) extra).
    { apply common_same; [done| |].
      - rewrite list_fmap_insert. destruct (polled_fields w c) as (-> & _). apply list_insert_id. by rewrite list_lookup_fmap, Hi.
      - apply Forall_insert; [apply Hc|]. destruct (Forall_lookup_1 _ _ _ _ (cs_plain _ _ Hc) Hi) as (a & f & Hp).
        exists a, f. by apply polled_fields. }
    rewrite (IH (S i) _ _ w Hc') by (cbn [ss_config set_ss_config]; rewrite length_insert; lia).
    cbn [ss_config set_ss_config]. do 2 f_equal. rewrite drop_insert_lt by lia.
    rewrite (take_S_r _ _ (polled w c)) by (apply list_lookup_insert_eq; apply lookup_lt_is_Some_1; by eexists).
    rewrite take_insert_ge by lia. rewrite (drop_S _ _ _ Hi), fmap_cons, <- app_assoc. done.
Qed.

(** A round polls every sensor of the common table. *)
Lemma sensor_poll_round_polled s w : common_state s [] ->
  sensor_poll_round tbl 1 s w = Some (set_ss_ready true (set_ss_config (polled w <$> ss_config s) s), w).
Proof using HS.
  intros Hc. destruct (common_table _ _ Hc) as (T1 & T2 & _). unfold sensor_poll_round. change (Z.to_nat 1) with 1%nat.
  cbn [poll_tables]. unfold poll_table. rewrite T1. cbn [mbind option_bind mt_access_checker]. rewrite T2.
  cbn [mt_cfg_count]. unfold zlen. rewrite Nat2Z.id. by rewrite (poll_sensors_polled _ 0 s []) by done.
Qed.

(** Rounds in the worlds [ws]. *)
Fixpoint sensor_poll_rounds (ws : list W) (s : sensor_state) : option sensor_state :=
  match ws with
  | [] => Some s
  | w :: ws => '(s, _) ← sensor_poll_round tbl 1 s w; sensor_poll_rounds ws s
  end.

Definition after_rounds (ws : list W) (c : sensor_cfg) : sensor_cfg := fold_left (fun c w => polled w c) ws c.

Lemma rounds_polled ws : forall s, common_state s [] ->
  exists s', sensor_poll_rounds ws s = Some s' /\ common_state s' [] /\ ss_config s' = after_rounds ws <$> ss_config s /\
    ss_poll_thread s' = ss_poll_thread s /\ ss_alloc s' = ss_alloc s.
Proof using HS.
  induction ws as [|w ws IH]; intros s Hc; cbn [sensor_poll_rounds].
  - exists s. split; [done|]. split; [done|]. split; [|done]. symmetry. apply list_fmap_id.
  - rewrite sensor_poll_round_polled by done. cbn [mbind option_bind].
    destruct (IH (set_ss_ready true (set_ss_config (polled w <$> ss_config s) s))) as (s' & E & Hc' & El & Et).
    { assert (H1 : common_state (set_ss_config (polled w <$> ss_config s) s) []).
      { apply common_same; [done| |].
        - rewrite <- list_fmap_compose. apply list_fmap_ext. intros ? c _. by apply polled_fields.
        - apply Forall_fmap. eapply Forall_impl; [apply Hc|]. intros c (a & f & Hp). exists a, f. by apply polled_fields. }
      destruct H1. by constructor. }
    exists s'. split; [done|]. split; [done|]. split; [|done]. rewrite El. cbn [ss_config set_ss_ready set_ss_config].
    by rewrite <- list_fmap_compose.
Qed.

(** ** What is served after a value was read *)

Lemma after_rounds_fields ws c : sc_num (after_rounds ws c) = sc_num c /\ sc_params (after_rounds ws c) = sc_params c /\
  (forall a f, plain_sensor c a f -> plain_sensor (after_rounds ws c) a f).
Proof using.
  revert c. induction ws as [|w ws IH]; intros c; [done|]. change (after_rounds (w :: ws) c) with (after_rounds ws (polled w c)). destruct (IH (polled w c)) as (-> & -> & H2).
  destruct (polled_fields w c) as (-> & -> & H3). split; [done|]. split; [done|]. auto.
Qed.

Lemma same_sample c c' a f w : plain_sensor c a f -> plain_sensor c' a f -> sc_num c' = sc_num c -> sc_params c' = sc_params c ->
  sample_of c' w = sample_of c w /\ accessible c' w = accessible c w.
Proof using.
  intros H1 H2 En Ep. unfold sample_of. rewrite (pl_read _ _ _ H1), (pl_read _ _ _ H2), Ep. split; [done|].
  destruct (plain_access c a f w H1) as [_ ->]. destruct (plain_access c' a f w H2) as [_ ->]. by rewrite En.
Qed.

(** Failed rounds after a value was read: the value is kept for three, then the error is told. *)
Definition fails_in (c : sensor_cfg) (w : W) : Prop :=
  accessible c w = true /\ sample_ok (fst (sample_of c w)) = false /\ fst (sample_of c w) <> SENSOR_NOT_PRESENT.

Lemma failed_rounds ws : forall c v k a f, plain_sensor c a f -> 0 <= k ->
  sc_retry c = Z.min k 3 -> sc_cache c = v -> (k <= 3 -> sc_cache_status c = SENSOR_READ_4BYTE_ACUR_SUCCESS) ->
  sc_cache_status c <> SENSOR_NOT_PRESENT -> Forall (fails_in c) ws ->
  sc_cache (after_rounds ws c) = v /\ sc_cache_status (after_rounds ws c) =
    if k + zlen ws <=? 3 then SENSOR_READ_4BYTE_ACUR_SUCCESS
    else match last ws with Some w => fst (sample_of c w) | None => sc_cache_status c end.
Proof using.
  induction ws as [|w ws IH]; intros c v k a f Hp Hk Hr Hv Hs Hn Hf.
  { split; [done|]. change (zlen (@nil W)) with 0. rewrite Z.add_0_r. destruct (Z.leb_spec k 3); [by apply Hs|done]. }
  apply Forall_cons in Hf as [(Ha & Hs1 & Hs2) Hf]. change (after_rounds (w :: ws) c) with (after_rounds ws (polled w c)).
  assert (E : polled w c = if 3 <=? sc_retry c then set_sc_status (fst (sample_of c w)) c else set_sc_retry (u8 (sc_retry c + 1)) c).
  { unfold polled. destruct (Z.eqb_spec (sc_cache_status c) SENSOR_NOT_PRESENT); [done|]. rewrite Ha. cbn [negb].
    destruct (sample_of c w) as [st x]. cbn [fst] in *. by rewrite Hs1. }
  destruct (polled_fields w c) as (En & Ep & Hpp). specialize (Hpp _ _ Hp).
  destruct (IH (polled w c) v (k + 1) a f) as [I1 I2]; try done; try lia.
  - rewrite E. destruct (Z.leb_spec 3 (sc_retry c)); cbn [sc_retry set_sc_status set_sc_cache set_sc_retry]; [lia|]. rewrite u8_id by lia. lia.
  - rewrite E. by destruct (_ <=? _).
  - intros Hk3. rewrite E. destruct (Z.leb_spec 3 (sc_retry c)); [lia|]. apply Hs. lia.
  - rewrite E. by destruct (_ <=? _).
  - eapply Forall_impl; [exact Hf|]. intros w' (B1 & B2 & B3). destruct (same_sample c _ a f w' Hp Hpp En Ep) as [E1 E2].
    unfold fails_in. by rewrite E1, E2.
  - split; [exact I1|]. rewrite I2, zlen_cons.
    replace (k + 1 + zlen ws) with (k + (zlen ws + 1)) by lia. replace (zlen ws + 1) with (1 + zlen ws) by lia.
    destruct (Z.leb_spec (k + (1 + zlen ws)) 3); [done|].
    destruct ws as [|w' ws]; cbn [last].
    + rewrite E. destruct (Z.leb_spec 3 (sc_retry c)); [done|]. change (zlen (@nil W)) with 0 in *. lia.
    + destruct (last (w' :: ws)) as [w''|] eqn:El; [|by apply last_None in El].
      by destruct (same_sample c _ a f w'' Hp Hpp En Ep) as [-> _].
Qed.

(** No round finds the sensor missing for good. *)
Definition never_missing (c : sensor_cfg) (ws : list W) : Prop :=
  sc_cache_status c <> SENSOR_NOT_PRESENT /\ Forall (fun w => fst (sample_of c w) <> SENSOR_NOT_PRESENT) ws.

Lemma status_never_missing ws : forall c a f, plain_sensor c a f -> never_missing c ws -> sc_cache_status (after_rounds ws c) <> SENSOR_NOT_PRESENT.
Proof using.
  induction ws as [|w ws IH]; intros c a f Hp [H1 H2]; [done|]. apply Forall_cons in H2 as [H2 H3]. change (after_rounds (w :: ws) c) with (after_rounds ws (polled w c)).
  destruct (polled_fields w c) as (En & Ep & Hpp). specialize (Hpp _ _ Hp).
  apply (IH _ a f Hpp). split.
  - unfold polled. destruct (_ =? SENSOR_NOT_PRESENT); [done|]. destruct (negb _).
    { unfold not_accessible, clear_unaccessible_sensor_cache. by destruct (negb _). }
    destruct (sample_of c w) as [st v]. destruct (sample_ok st); [done|]. by destruct (_ <=? _).
  - eapply Forall_impl; [exact H3|]. intros w' Hw'. by destruct (same_sample c _ a f w' Hp Hpp En Ep) as [-> _].
Qed.

(** The cache of a sensor that was read with success in [w0] and failed in the rounds since. *)
Lemma cache_after_success ws1 w0 ws2 c a f st v : plain_sensor c a f -> never_missing c ws1 ->
  accessible c w0 = true -> sample_of c w0 = (st, v) -> sample_ok st = true -> Forall (fails_in c) ws2 ->
  sc_cache (after_rounds (ws1 ++ w0 :: ws2) c) = v /\
  sc_cache_status (after_rounds (ws1 ++ w0 :: ws2) c) =
    if zlen ws2 <=? 3 then SENSOR_READ_4BYTE_ACUR_SUCCESS
    else match last ws2 with Some w => fst (sample_of c w) | None => 0 end.
Proof using.
  intros Hp Hm Ha Hsa Hok Hf. unfold after_rounds. rewrite fold_left_app. cbn [fold_left].
  change (fold_left (fun c w => polled w c) ws1 c) with (after_rounds ws1 c).
  destruct (after_rounds_fields ws1 c) as (En & Ep & Hp1). specialize (Hp1 _ _ Hp).
  pose proof (status_never_missing _ _ _ _ Hp Hm) as Hst. set (c1 := after_rounds ws1 c) in *.
  destruct (same_sample c c1 a f w0 Hp Hp1 En Ep) as [Es Ea]. rewrite Ha in Ea. rewrite Hsa in Es.
  set (c2 := polled w0 c1). assert (E2 : c2 = set_sc_cache v SENSOR_READ_4BYTE_ACUR_SUCCESS (set_sc_retry 0 c1)).
  { subst c2. unfold polled. destruct (Z.eqb_spec (sc_cache_status c1) SENSOR_NOT_PRESENT); [done|]. by rewrite Ea, Es, Hok. }
  destruct (polled_fields w0 c1) as (En2 & Ep2 & Hp2). specialize (Hp2 _ _ Hp1). fold c2 in En2, Ep2, Hp2.
  destruct (failed_rounds ws2 c2 v 0 a f) as [F1 F2]; try done; try (by rewrite E2).
  - eapply Forall_impl; [exact Hf|]. intros w (B1 & B2 & B3). destruct (same_sample c c2 a f w Hp Hp2) as [X Y]; [congruence..|].
    unfold fails_in. by rewrite X, Y.
  - change (fold_left (fun c w => polled w c) ws2 c2) with (after_rounds ws2 c2). split; [exact F1|]. rewrite F2, Z.add_0_l.
    destruct (Z.leb_spec (zlen ws2) 3); [done|]. destruct (last ws2) as [w|] eqn:El.
    + by destruct (same_sample c c2 a f w Hp Hp2) as [-> _]; [congruence..|].
    + apply last_None in El. subst ws2. change (zlen (@nil W)) with 0 in *. lia.
Qed.
End samples.

(** A board with one sensor: the world is what its driver returns. *)
#[local] Instance one_sensor : sensor_hw (Z * Z) := {
  hw_access _ _ _ := true;
  hw_pre _ c w := (w, c, true);
  hw_read _ c w := (w, c, fst w, snd w);
  hw_post _ c r w := (w, c, r, true);
  hw_init _ c w := (w, c, 0);
  hw_table_access _ _ := true;
  hw_monitor _ _ w := (w, true);
  hw_time_to_poll _ _ _ := true }.
#[local] Instance one_sensor_samples : sensor_samples (Z * Z) := { sample _ _ w := w; hw_read_sample _ _ _ := eq_refl }.

Definition demo_sensor : sensor_cfg :=
  mk_sensor_cfg 7 0 0 (Some 1) POLL_TIME_DEFAULT true 0 SENSOR_INIT_STATUS None None 0 (Some 2) true true.
Definition demo_sensors : sensor_state :=
  init_sensor_monitor_table true [] (set_ss_alloc true (set_ss_config [demo_sensor] sensor_static)).

(** A second sensor record without a configuration: the map reads what was not written. *)
Example map_reads_behind : map_sensor_num_to_sdr_cfg [7; 8] demo_sensors = None /\
  (ss_index_map <$> map_sensor_num_to_sdr_cfg [7] demo_sensors) ≫= lookup 7%nat = Some 0.
Proof. split; reflexivity. Qed.

(** The sizes are compared modulo 256. *)
Example sizes_wrap : ss_config_size (check_init_sensor_size 255 100 2 157 sensor_static) = 1.
Proof. reflexivity. Qed.

(** A sensor of a further table that is not initialised is looked up in the first one. *)
Definition second_table : sensor_state :=
  set_ss_tables (Some [mk_monitor_table CfgCommon 1 None None None;
                       mk_monitor_table (CfgOwn [set_sc_initialized false (mk_sensor_cfg 8 5 0 (Some 1) 1 true 0 SENSOR_INIT_STATUS None None 0 (Some 2) false true)]) 1 None None None])
    demo_sensors.
Example second_table_not_reinitialised :
  (t ← ('(s, _) ← sensor_poll_round [(5, Some 1)] 2 second_table (0, 25); table_at s 1);
   match mt_cfg t with CfgOwn l => Some (sc_is_initialized <$> l) | _ => None end) = Some [false] /\
  snd <$> common_tbl_sen_reinit [(5, Some 1)] 8 second_table (0, 25) = Some SENSOR_NOT_FOUND.
Proof. split; reflexivity. Qed.

(** A driver that is not compiled in. *)
Example driver_missing : init_drive_type (0, None) demo_sensor (0, 25) = None.
Proof. reflexivity. Qed.

(** A driver that once reports its sensor as not present is never asked again. *)
Example not_present_for_good : fold_left (fun c w => polled w c) [(12, 0); (12, 0); (12, 0); (12, 0); (0, 25); (0, 25)] demo_sensor =
  set_sc_retry 3 (set_sc_status SENSOR_NOT_PRESENT demo_sensor).
Proof. reflexivity. Qed.
