(* ===== verification/SensorCmds.v ===== *)
(** Component: the IPMI commands that serve sensor readings, [ipmi/sensor_handler.c] and the
    accurate readings of [ipmi/oem_1s_handler.c], over the sensor service and the sensor data
    records. *)

From S2P Require Import Prelude Bytes Sdr IpmiMsg Watchdog IpmbTask IpmiCore IpmiCmds Sensor.

(** ** Definitions *)

Definition CMD_SENSOR_GET_SENSOR_READING : Z := 0x2D.
Definition CC_SENSOR_NOT_PRESENT : Z := 0xCB.
Definition SENSOR_EVENT_MESSAGES_ENABLE : Z := 0x80.
Definition SENSOR_SCANNING_ENABLE : Z := 0x40.
Definition SENSOR_READING_STATE_UNAVAILABLE : Z := 0x20.
Definition SENSOR_THRESHOLD_STATUS : Z := 0xC0.
Definition MAX_MULTI_ACCURACY_SENSOR_READING_QUERY_NUM : Z := 32.
Definition ACCURACY_RES_LEN_4BYTE : Z := 5.

(** *** Conversion with the factors of a record *)

Definition negative_ten_power : list Z :=
  [1; 1; 1; 1; 1; 1; 1; 1000000000; 100000000; 10000000; 1000000; 100000; 10000; 1000; 100; 10].

(** A result of [int] arithmetic; [None]: it overflows. *)
Definition c_int (v : Z) : option Z :=
  if (-2147483648 <=? v) && (v <? 2147483648) then Some v else None.

(** An [int16_t] from the low 16 bits of a number. *)
Definition s16 (v : Z) : Z := let v := u16 v in if v <? 32768 then v else v - 65536.

Definition SDR_R_of (r : list Z) : Z := (rd r f_RexpBexp .>> 4) .& 0x0F.
Definition SDR_Rexp_of (r : list Z) : Z := rd negative_ten_power (SDR_R_of r).

Definition round_add (r : list Z) (val : Z) : option Z :=
  if 0 <? SDR_R_of r then
    p ← c_int (rd negative_ten_power ((SDR_R_of r + 1) .& 0xF) * val);
    Some (if 5 <? Z.rem p 10 then 1 else 0)
  else Some 0.

Definition calculate_MBR (r : list Z) (val : Z) : option Z :=
  p ← c_int (val * SDR_Rexp_of r);
  add ← round_add r val;
  c_int ((if SDR_M_of r =? 0 then p else Z.quot p (SDR_M_of r)) + add).

(** *** Commands *)

(** What the commands work on: the sensor service, the records and the world of the drivers. *)
Record sensor_ctx (W : Type) := mk_sensor_ctx { sx_sensors : sensor_state; sx_sdr : sdr_state; sx_world : W }.
Arguments mk_sensor_ctx {W}.
Arguments sx_sensors {W}.
Arguments sx_sdr {W}.
Arguments sx_world {W}.

Section commands.
Context {W : Type} `{sensor_hw W}.

(** The record of a sensor number; the index map has 255 entries. *)
Definition sdr_of_sensor (sensor_num : Z) (x : sensor_ctx W) : option (list Z) :=
  i ← ss_sdr_index_map (sx_sensors x) !! Z.to_nat sensor_num;
  t ← full_sdr_table (sx_sdr x);
  t !! Z.to_nat i.

(** [get_sensor_reading] on [sensor_config]: the status and the reading. *)
Definition reading_of (sensor_num reading mode : Z) (x : sensor_ctx W) : option (Z * Z * sensor_ctx W) :=
  let s := sx_sensors x in
  '(l, w, status, reading) ← get_sensor_reading (if ss_alloc s then Some (ss_config s) else None) sensor_num reading mode (sx_world x);
  Some (status, reading, mk_sensor_ctx (set_ss_config l s) (sx_sdr x) w).

Definition sensor_error_cc (status : Z) : Z :=
  if status =? SENSOR_POLLING_DISABLE then CC_SENSOR_NOT_PRESENT
  else if status =? SENSOR_FAIL_TO_ACCESS then CC_NODE_BUSY
  else if status =? SENSOR_NOT_FOUND then CC_INVALID_DATA_FIELD
  else CC_UNSPECIFIED_ERROR.

Definition SENSOR_GET_SENSOR_READING (msg : ipmi_msg) (x : sensor_ctx W) : option (ipmi_msg * sensor_ctx W) :=
  if negb (im_data_len msg =? 1) then Some (cc CC_INVALID_LENGTH msg, x)
  else
    let num := rd (im_data msg) 0 in
    let polls := ss_poll_thread (sx_sensors x) in
    let report := if polls then SENSOR_EVENT_MESSAGES_ENABLE .| SENSOR_SCANNING_ENABLE else SENSOR_EVENT_MESSAGES_ENABLE in
    '(status, reading, x) ← (if polls then reading_of num 0 GET_FROM_CACHE x else Some (SENSOR_POLLING_DISABLE, 0, x));
    if (status =? SENSOR_READ_SUCCESS) || (status =? SENSOR_READ_ACUR_SUCCESS) || (status =? SENSOR_READ_4BYTE_ACUR_SUCCESS) then
      r ← sdr_of_sensor num x;
      mbr ← calculate_MBR r (s16 reading * 1000 + s16 (reading .>> 16));
      Some (cc CC_SUCCESS (put_data [u8 (Z.quot mbr 1000); report; SENSOR_THRESHOLD_STATUS] 3 msg), x)
    else if (status =? SENSOR_NOT_ACCESSIBLE) || (status =? SENSOR_INIT_STATUS) then
      Some (cc CC_SUCCESS (put_data [0; report .| SENSOR_READING_STATE_UNAVAILABLE; SENSOR_THRESHOLD_STATUS] 3 msg), x)
    else Some (cc (sensor_error_cc status) msg, x).

Definition SENSOR_handler (msg : ipmi_msg) (x : sensor_ctx W) : option (ipmi_msg * sensor_ctx W) :=
  if im_cmd msg =? CMD_SENSOR_GET_SENSOR_READING then SENSOR_GET_SENSOR_READING msg x
  else Some (cc CC_INVALID_CMD (set_im_data_len 0 msg), x).

(** The case of 2 bytes, [None] where the conversion of a number out of range is undefined: the
    fraction is that of an [int], 0, and the status is put over its high byte. *)
Definition put_2byte_reading (reading report : Z) (msg : ipmi_msg) : option ipmi_msg :=
  if (0 <=? reading) && (reading <? 65536)
  then Some (put_data (le_bytes 2 reading ++ [0; report]) 4 msg) else None.

(** [reading] starts with what was on the stack. *)
Definition OEM_1S_ACCURACY_SENSOR_READING (stack : Z) (msg : ipmi_msg) (x : sensor_ctx W) : option (ipmi_msg * sensor_ctx W) :=
  if negb (im_data_len msg =? 2) then Some (cc CC_INVALID_LENGTH msg, x)
  else
    let num := rd (im_data msg) 0 in
    let mode := rd (im_data msg) 1 in
    let polls := ss_poll_thread (sx_sensors x) in
    let report := if polls then SENSOR_EVENT_MESSAGES_ENABLE .| SENSOR_SCANNING_ENABLE else SENSOR_EVENT_MESSAGES_ENABLE in
    '(status, reading, x) ←
      (if mode =? GET_FROM_CACHE then
         if polls then reading_of num stack GET_FROM_CACHE x else Some (SENSOR_POLLING_DISABLE, stack, x)
       else if mode =? GET_FROM_SENSOR then reading_of num stack GET_FROM_SENSOR x
       else Some (SENSOR_UNSPECIFIED_ERROR, stack, x));
    if (status =? SENSOR_READ_SUCCESS) || (status =? SENSOR_READ_ACUR_SUCCESS) then
      msg ← put_2byte_reading reading report msg;
      Some (cc CC_SUCCESS msg, x)
    else if status =? SENSOR_READ_4BYTE_ACUR_SUCCESS then
      Some (cc CC_SUCCESS (put_data (le_bytes 4 reading ++ [report]) 5 msg), x)
    else if (status =? SENSOR_NOT_ACCESSIBLE) || (status =? SENSOR_INIT_STATUS) || (status =? SENSOR_NOT_PRESENT) then
      Some (cc CC_SUCCESS (put_data [0; 0; 0; 0; report .| SENSOR_READING_STATE_UNAVAILABLE] 5 msg), x)
    else Some (cc (sensor_error_cc status) msg, x).

(** The query for one sensor, and the 5 bytes of its answer. *)
Definition temp_query (sensor_num : Z) : ipmi_msg :=
  set_im_data_len 2 (set_im_data (patch (im_data zero_ipmi_msg) 0 [sensor_num; GET_FROM_CACHE]) zero_ipmi_msg).
Definition query_answer (m : ipmi_msg) : list Z :=
  if (im_completion_code m =? CC_SUCCESS) && (im_data_len m =? ACCURACY_RES_LEN_4BYTE)
  then slice (im_data m) 0 (im_data_len m) else replicate 5 0xFF.

Fixpoint query_sensors (stack : Z) (nums : list Z) (ofs : Z) (data : list Z) (x : sensor_ctx W) : option (list Z * Z * sensor_ctx W) :=
  match nums with
  | [] => Some (data, ofs, x)
  | num :: nums =>
      '(m, x) ← OEM_1S_ACCURACY_SENSOR_READING stack (temp_query num) x;
      data ← mem_write data ofs (num :: query_answer m);
      query_sensors stack nums (u16 (ofs + 1 + ACCURACY_RES_LEN_4BYTE)) data x
  end.

(** The number of sensors is a byte; for 0 of them the array on the stack is one without elements, as
    GCC has them. *)
Definition OEM_1S_MULTI_ACCURACY_SENSOR_READING (stack : Z) (msg : ipmi_msg) (x : sensor_ctx W) : option (ipmi_msg * sensor_ctx W) :=
  if im_data_len msg =? 0 then Some (cc CC_INVALID_LENGTH msg, x)
  else
    let n := u8 (im_data_len msg) in
    if MAX_MULTI_ACCURACY_SENSOR_READING_QUERY_NUM <? n then Some (cc CC_PARAM_OUT_OF_RANGE msg, x)
    else
      nums ← mem_read (im_data msg) 0 n;
      '(data, ofs, x) ← query_sensors stack nums 0 (im_data msg) x;
      Some (cc CC_SUCCESS (set_im_data_len ofs (set_im_data data msg)), x).
End commands.

(** ** Lemmas *)

(** The errors drivers report. *)
Definition driver_error (st : Z) : Prop := st = SENSOR_FAIL_TO_ACCESS \/ st = SENSOR_UNSPECIFIED_ERROR.

(** A request for the cached reading of a sensor. *)
Definition reading_request (num : Z) (m : ipmi_msg) : Prop :=
  zlen (im_data m) = IPMI_MSG_MAX_LENGTH /\ im_data_len m = 2 /\ rd (im_data m) 0 = num /\ rd (im_data m) 1 = GET_FROM_CACHE.

Lemma payload_put d n c m : zlen (im_data m) = IPMI_MSG_MAX_LENGTH -> n = zlen d -> n <= IPMI_MSG_MAX_LENGTH ->
  payload (cc c (put_data d n m)) = d.
Proof. intros Hz -> Hn. unfold payload. cbn. apply slice_patch; [done|lia]. Qed.

Lemma temp_query_request num : reading_request num (temp_query num).
Proof. repeat split. Qed.

Section served.
Context {W : Type} `{HS : sensor_samples W} (tbl : list sensor_drive_api).

(** Reading the cache of a sensor that is accessible. *)
Lemma reading_of_cache (s : sensor_state) sdr (w : W) i c a f old : ss_alloc s = true -> NoDup (sc_num <$> ss_config s) ->
  ss_config s !! i = Some c -> plain_sensor c a f -> accessible c w = true -> sc_cache_status c <> SENSOR_NOT_PRESENT ->
  exists c' s', ss_config s' = <[i := c']> (ss_config s) /\ ss_poll_thread s' = ss_poll_thread s /\
    reading_of (sc_num c) old GET_FROM_CACHE (mk_sensor_ctx s sdr w) =
      Some (sc_cache_status c, if (sc_cache_status c =? SENSOR_READ_4BYTE_ACUR_SUCCESS) || sample_ok (sc_cache_status c) then sc_cache c else 0,
            mk_sensor_ctx s' sdr w).
Proof using.
  intros Hal Hnd Hi Hp Ha Hn. destruct (plain_access c a f w Hp) as [E1 E2]. rewrite E2 in Ha.
  unfold reading_of. cbn [sx_sensors sx_world sx_sdr]. rewrite Hal. unfold get_sensor_reading. rewrite (find_by_num _ _ _ Hnd Hi), Hi.
  cbn [mbind option_bind]. unfold read_cfg. rewrite E1, Ha. cbn [mbind option_bind negb].
  destruct (Z.eqb_spec (sc_cache_status c) SENSOR_NOT_PRESENT); [done|].
  change (GET_FROM_CACHE =? GET_FROM_SENSOR) with false. change (GET_FROM_CACHE =? GET_FROM_CACHE) with true. cbv iota.
  unfold read_from_cache, sample_ok. rewrite (orb_comm (_ =? SENSOR_READ_4BYTE_ACUR_SUCCESS)).
  destruct (_ || _) eqn:Eo; cbv zeta.
  - rewrite E1, Ha. cbn [mbind option_bind negb]. eexists c, _. cbn. split; [|split; [|done]]; done.
  - destruct (_ =? SENSOR_UNAVAILABLE); eexists _, _; (split; [|split; [|done]]); done.
Qed.

(** What the client is told of a sensor whose cache has a value, or an error of its driver. *)
Definition told (status v : Z) : Z * list Z :=
  if status =? SENSOR_READ_4BYTE_ACUR_SUCCESS then (CC_SUCCESS, le_bytes 4 v ++ [0xC0])
  else (if status =? SENSOR_FAIL_TO_ACCESS then CC_NODE_BUSY else CC_UNSPECIFIED_ERROR, []).

Definition answer_of (m : ipmi_msg) : Z * list Z :=
  (im_completion_code m, if im_completion_code m =? CC_SUCCESS then payload m else []).

Lemma accuracy_of_cache stack (s : sensor_state) sdr (w : W) i c a f m : ss_alloc s = true -> ss_poll_thread s = true ->
  NoDup (sc_num <$> ss_config s) -> ss_config s !! i = Some c -> plain_sensor c a f -> accessible c w = true ->
  sc_cache_status c = SENSOR_READ_4BYTE_ACUR_SUCCESS \/ driver_error (sc_cache_status c) -> reading_request (sc_num c) m ->
  exists m' x', OEM_1S_ACCURACY_SENSOR_READING stack m (mk_sensor_ctx s sdr w) = Some (m', x') /\
    answer_of m' = told (sc_cache_status c) (sc_cache c).
Proof using.
  intros Hal Ht Hnd Hi Hp Ha Hst (Hz & Hl & Hn & Hm).
  destruct (reading_of_cache s sdr w i c a f stack Hal Hnd Hi Hp Ha) as (c' & s' & _ & _ & E).
  { intros En. rewrite En in Hst. by destruct Hst as [|[|]]. }
  unfold OEM_1S_ACCURACY_SENSOR_READING. rewrite Hl, Hn, Hm. cbn [sx_sensors]. rewrite Ht.
  change (GET_FROM_CACHE =? GET_FROM_CACHE) with true. change (negb (2 =? 2)) with false. cbv iota zeta. rewrite E. clear E.
  destruct Hst as [->|[-> | ->]]; (eexists _, _; split; [reflexivity|]); [|done|done].
  unfold answer_of. cbn [im_completion_code cc Z.eqb CC_SUCCESS]. by rewrite payload_put.
Qed.

(** C17: A sensor without hooks is read with success in one polling round and its driver fails with
    an error in all the later rounds. As long as there were at most three of those, the accurate
    reading over IPMI answers with the value of the last success; after that, with the completion
    code of the last error, and never with another value, whatever the rounds before were and
    whatever the other sensors did. *)
Theorem sensor_value_served stack s sdr c i a f ws1 w0 ws2 (w : W) st v m :
  common_state s [] -> ss_alloc s = true -> ss_poll_thread s = true ->
  ss_config s !! i = Some c -> plain_sensor c a f -> never_missing c ws1 ->
  accessible c w0 = true -> sample_of c w0 = (st, v) -> sample_ok st = true ->
  Forall (fun w => accessible c w = true /\ driver_error (fst (sample_of c w))) ws2 ->
  accessible c w = true -> reading_request (sc_num c) m ->
  exists s' m' x', sensor_poll_rounds tbl (ws1 ++ w0 :: ws2) s = Some s' /\
    OEM_1S_ACCURACY_SENSOR_READING stack m (mk_sensor_ctx s' sdr w) = Some (m', x') /\
    answer_of m' =
      if zlen ws2 <=? 3 then (CC_SUCCESS, le_bytes 4 v ++ [0xC0])
      else (match last ws2 with
            | Some w => if fst (sample_of c w) =? SENSOR_FAIL_TO_ACCESS then CC_NODE_BUSY else CC_UNSPECIFIED_ERROR
            | None => CC_SUCCESS
            end, []).
Proof using HS.
  intros Hc Hal Ht Hi Hp Hm Ha0 Hs0 Hok Hf Ha Hr.
  destruct (rounds_polled tbl (ws1 ++ w0 :: ws2) s Hc) as (s' & E & Hc' & El & Et & Eal).
  destruct (cache_after_success ws1 w0 ws2 c a f st v Hp Hm Ha0 Hs0 Hok) as [C1 C2].
  { eapply Forall_impl; [exact Hf|]. intros w' [H1 H2]. split; [done|]. by destruct H2 as [-> | ->]. }
  destruct (after_rounds_fields (ws1 ++ w0 :: ws2) c) as (En & Ep & Hp'). specialize (Hp' _ _ Hp).
  set (c' := after_rounds (ws1 ++ w0 :: ws2) c) in *.
  assert (Hlast : forall w', last ws2 = Some w' -> driver_error (fst (sample_of c w'))).
  { intros w' Hw. apply last_Some_elem_of in Hw. by destruct (proj1 (Forall_forall _ _) Hf w' Hw). }
  assert (Hst : sc_cache_status c' = SENSOR_READ_4BYTE_ACUR_SUCCESS \/ driver_error (sc_cache_status c')).
  { rewrite C2. destruct (Z.leb_spec (zlen ws2) 3) as [|Hz]; [by left|]. right. destruct (last ws2) eqn:L; [by apply Hlast|].
    apply last_None in L. subst ws2. change (zlen (@nil W)) with 0 in Hz. lia. }
  destruct (accuracy_of_cache stack s' sdr w i c' a f m) as (m' & x' & Em & Eo); try done; try congruence; try apply Hc'.
  - rewrite El, list_lookup_fmap, Hi. done.
  - by destruct (same_sample c c' a f w Hp Hp' En Ep) as [_ ->].
  - exists s', m', x'. split; [exact E|]. split; [exact Em|]. rewrite Eo. unfold told. rewrite C1, C2.
    destruct (zlen ws2 <=? 3) eqn:Hz; [done|]. destruct (last ws2) as [w'|] eqn:L.
    + by destruct (Hlast w' eq_refl) as [-> | ->].
    + apply last_None in L. subst ws2. done.
Qed.

End served.

#[local] Existing Instances one_sensor one_sensor_samples.

Definition demo_sdr : sdr_state := mk_sdr None 0 0 0 0 0 [] true.

Lemma sensor_value_served_witness : exists s' m' x',
  sensor_poll_rounds [] ([(6, 0); (0, 1)] ++ (0, 25) :: [(4, 0); (4, 0); (6, 0); (4, 0)]) demo_sensors = Some s' /\
  OEM_1S_ACCURACY_SENSOR_READING 99 (temp_query 7) (mk_sensor_ctx s' demo_sdr (0, 0)) = Some (m', x') /\
  answer_of m' = (CC_NODE_BUSY, []).
Proof.
  destruct (sensor_value_served [] 99 demo_sensors demo_sdr demo_sensor 0 1 2 [(6, 0); (0, 1)] (0, 25) [(4, 0); (4, 0); (6, 0); (4, 0)]
           (0, 0) 0 25 (temp_query 7)) as (s' & m' & x' & E1 & E2 & E3); try reflexivity.
  - constructor; [reflexivity| | |reflexivity].
    + apply NoDup_singleton.
    + apply Forall_singleton. exists 1, 2. constructor; reflexivity.
  - constructor; reflexivity.
  - split; [discriminate|]. repeat constructor; discriminate.
  - unfold driver_error. repeat (apply Forall_cons; split; [split; [reflexivity|cbn; auto]|]). by apply Forall_nil.
  - apply temp_query_request.
  - exists s', m', x'. split; [exact E1|]. split; [exact E2|]. exact E3.
Defined.

(** ** Many sensors at once *)

Section multi.
Context {W : Type} `{sensor_hw W}.

(** The readings of the sensors one after the other. *)
Fixpoint single_readings (stack : Z) (nums : list Z) (x : sensor_ctx W) : option (list Z * sensor_ctx W) :=
  match nums with
  | [] => Some ([], x)
  | num :: nums =>
      '(m, x) ← OEM_1S_ACCURACY_SENSOR_READING stack (temp_query num) x;
      '(d, x) ← single_readings stack nums x;
      Some (num :: query_answer m ++ d, x)
  end.

Lemma zlen_put d n m : zlen d <= zlen (im_data m) -> zlen (im_data (put_data d n m)) = zlen (im_data m).
Proof using. intros. unfold put_data. cbn. apply zlen_patch; lia. Qed.

Lemma accuracy_keeps_size stack m x m' x' : 5 <= zlen (im_data m) ->
  OEM_1S_ACCURACY_SENSOR_READING stack m x = Some (m', x') -> zlen (im_data m') = zlen (im_data m).
Proof using.
  intros Hz. unfold OEM_1S_ACCURACY_SENSOR_READING. destruct (negb _); [by intros [= <- _]|].
  match goal with |- (?o ≫= _) = _ -> _ => destruct o as [[[st r] y]|]; [|done] end. cbn [mbind option_bind].
  destruct ((st =? SENSOR_READ_SUCCESS) || _).
  - unfold put_2byte_reading. destruct (_ && _); [|done]. cbn [mbind option_bind]. intros [= <- _]. apply zlen_put; unfold zlen in *; cbn; lia.
  - destruct (st =? _); [intros [= <- _]; apply zlen_put; unfold zlen in *; cbn; lia|].
    destruct (_ || _); [intros [= <- _]; apply zlen_put; unfold zlen in *; cbn; lia|]. by intros [= <- _].
Qed.

Lemma zlen_query_answer stack num x m x' :
  OEM_1S_ACCURACY_SENSOR_READING stack (temp_query num) x = Some (m, x') -> zlen (query_answer m) = 5.
Proof using.
  intros E. apply accuracy_keeps_size in E; [|done]. change (zlen (im_data (temp_query num))) with 527 in E.
  unfold query_answer. destruct (_ && _) eqn:Eb; [|done]. apply andb_true_iff in Eb as [_ Eb]. apply Z.eqb_eq in Eb.
  rewrite Eb. unfold ACCURACY_RES_LEN_4BYTE. rewrite zlen_slice; lia.
Qed.

Lemma query_sensors_single stack nums : forall pre data x, zlen pre + 6 * zlen nums <= zlen data -> zlen data < 65536 ->
  query_sensors stack nums (zlen pre) (patch data 0 pre) x =
    '(d, x) ← single_readings stack nums x; Some (patch data 0 (pre ++ d), zlen pre + 6 * zlen nums, x).
Proof using.
  induction nums as [|num nums IH]; intros pre data x Hz Hd; cbn [query_sensors single_readings].
  - cbn [mbind option_bind]. by rewrite app_nil_r, Z.add_0_r.
  - destruct (OEM_1S_ACCURACY_SENSOR_READING stack (temp_query num) x) as [[m y]|] eqn:E; [|done]. cbn [mbind option_bind].
    pose proof (zlen_query_answer _ _ _ _ _ E) as Hq. set (b := num :: query_answer m).
    assert (Hb : zlen b = 6) by (unfold b; rewrite zlen_cons; lia). rewrite zlen_cons in *.
    pose proof (zlen_nonneg pre). pose proof (zlen_nonneg nums).
    rewrite mem_write_patch by (rewrite ?zlen_patch; lia). cbn [mbind option_bind].
    rewrite <- (Z.add_0_l (zlen pre)) at 1. rewrite patch_patch, Z.add_0_l by lia.
    replace (u16 (zlen pre + 1 + ACCURACY_RES_LEN_4BYTE)) with (zlen (pre ++ b))
      by (rewrite zlen_app, Hb; unfold ACCURACY_RES_LEN_4BYTE; rewrite u16_id; lia).
    rewrite IH by (rewrite ?zlen_app; lia). destruct (single_readings stack nums y) as [[d z]|]; [|done]. cbn [mbind option_bind].
    rewrite zlen_app, Hb, <- app_assoc. unfold b. cbn [app]. do 3 f_equal. lia.
Qed.

(** C38: The accurate readings of the sensors a command names are the readings of the sensors one by
    one, each behind its sensor number, and the response never leaves the message; a command
    without a sensor, or with more than 32 of them, is refused without reading any. The number of
    sensors is the length of the data cut to a byte: of 256 + n bytes only the first n are read
    (for n = 0 the response is empty), and they are answered as if they were the command. *)
Theorem multi_reading_single stack m x : zlen (im_data m) = IPMI_MSG_MAX_LENGTH ->
  let n := u8 (im_data_len m) in
  OEM_1S_MULTI_ACCURACY_SENSOR_READING stack m x =
    if im_data_len m =? 0 then Some (cc CC_INVALID_LENGTH m, x)
    else if 32 <? n then Some (cc CC_PARAM_OUT_OF_RANGE m, x)
    else '(d, x) ← single_readings stack (slice (im_data m) 0 n) x; Some (cc CC_SUCCESS (put_data d (6 * n) m), x).
Proof using.
  intros Hz n. unfold OEM_1S_MULTI_ACCURACY_SENSOR_READING. destruct (Z.eqb_spec (im_data_len m) 0); [done|].
  fold n. pose proof (u8_range (im_data_len m)) as Hn. fold n in Hn.
  unfold MAX_MULTI_ACCURACY_SENSOR_READING_QUERY_NUM. destruct (Z.ltb_spec 32 n); [done|].
  unfold IPMI_MSG_MAX_LENGTH, IPMI_DATA_MAX_LENGTH, IPMB_RESP_HEADER_LENGTH in Hz.
  rewrite mem_read_Some by lia. cbn [mbind option_bind]. set (nums := slice (im_data m) 0 n).
  assert (Hp : zlen nums = n) by (unfold nums; rewrite zlen_slice; lia).
  rewrite <- (patch_nil (im_data m) 0) at 1 by lia. pose proof (query_sensors_single stack nums [] (im_data m) x) as Eq.
  change (zlen (@nil Z)) with 0 in Eq. rewrite Eq by lia.
  destruct (single_readings stack nums x) as [[d y]|]; [|done]. cbn [mbind option_bind app]. by rewrite Hp.
Qed.
End multi.

Definition demo_queries : ipmi_msg := set_im_data_len 3 (set_im_data (patch (im_data zero_ipmi_msg) 0 [7; 9; 7]) zero_ipmi_msg).

Lemma multi_reading_single_witness :
  OEM_1S_MULTI_ACCURACY_SENSOR_READING 0 demo_queries (mk_sensor_ctx demo_sensors demo_sdr (0, 25)) =
    '(d, x) ← single_readings 0 [7; 9; 7] (mk_sensor_ctx demo_sensors demo_sdr (0, 25));
    Some (cc CC_SUCCESS (put_data d 18 demo_queries), x).
Proof.
  rewrite (multi_reading_single 0 demo_queries (mk_sensor_ctx demo_sensors demo_sdr (0, 25))); [reflexivity|reflexivity].
Defined.

(** A polled sensor, one that is not known, and the first again. *)
Example three_readings :
  ('(s, w) ← sensor_poll_round [] 1 demo_sensors (0, 25);
   '(m, _) ← OEM_1S_MULTI_ACCURACY_SENSOR_READING 0 demo_queries (mk_sensor_ctx s demo_sdr w); Some (payload m)) =
    Some ([7; 25; 0; 0; 0; 0xC0] ++ [9; 255; 255; 255; 255; 255] ++ [7; 25; 0; 0; 0; 0xC0]).
Proof. reflexivity. Qed.

(** A record with the factor M = 1 and the exponent R. *)
Definition record_with (r : Z) : list Z := set_field f_RexpBexp (r .<< 4) (set_field f_M 1 (zeros 80)).

(** With the exponent -4 a reading of 215 overflows in the conversion; 214 does not. *)
Example mbr_overflow : calculate_MBR (record_with 12) 214000 = Some 2140000000 /\ calculate_MBR (record_with 12) 215000 = None.
Proof. split; reflexivity. Qed.
